(* ===== verification/_CoqProject ===== *)
-Q . S2P
Prelude.v
Float32.v
NumberParse.v
VehicleTypes.v
VehicleProperty.v
VehicleUtils.v
DumpOptions.v
VehicleObjectPool.v
VehiclePropertyStore.v
PendingRequestPool.v
RecurrentTimer.v
ConcurrentQueue.v
VehicleHardware.v
SubscriptionManager.v
ConnectedClient.v
DefaultVehicleHal.v
HalDump.v
FairSchedule.v
HalShutdown.v
UserHalHelper.v
FakeUserHal.v
Obd2SensorStore.v
FakeObd2Frame.v
FakeSubscriptions.v
FakeHardwareValues.v
FakeHardwareLaws.v
FakeRequests.v
PropertyTables.v
PropertyAnnotations.v
JsonValue.v
JsonConfigLoader.v
JsonConfigLaws.v
FakeInit.v
ProtoMessageConverter.v
GRPCVehicleProxyServer.v
GRPCVehicleHardware.v
RemoteHardware.v
RemoteShutdown.v
ValueGenerators.v
GeneratorHub.v
FakeDump.v
VehicleService.v
VhalBridge.v
GatewayConfig.v
NodeForwarder.v
VhalGateway.v
