(* ===== verification/Prelude.v ===== *)
(** * vhal-core: a verification library for the Vehicle HAL core

    vhal-core is a port of the Android Vehicle HAL in which gRPC replaces
    binder.  This library translates its C++ code into executable definitions
    and proves what each part promises to the parts that use it.

    ** The program and its parts

    A server process holds the vehicle's properties ([FakeVehicleHardware]: a
    property store filled from JSON files, special rules for some properties,
    two request workers, continuous refresh) and serves them over gRPC
    ([GrpcVehicleProxyServer]).  A process on the other side sees the same
    hardware through [GRPCVehicleHardware]; on Android [DefaultVehicleHal] sits
    on top of it and answers the binder clients (requests with timeouts,
    subscriptions, events).  [VhalGateway] polls one server and forwards the
    changes to the servers of other nodes.  Each part talks to the next
    through an interface, which is a type class here:

    - [VehicleHardware.Hardware], [VehicleHardware.ValueHardware],
      [GRPCVehicleProxyServer.DumpHardware]: [IVehicleHardware.h].
      SubscriptionManager, DefaultVehicleHal and the proxy server are written
      against it; FakeSubscriptions proves its contract for the fake hardware.
      VehicleService gives the instance of the server's hardware,
      RemoteHardware that of [GRPCVehicleHardware], with its contract from
      that of the server behind it ([RemoteHardware.ServerLaws]).
    - [GRPCVehicleProxyServer.VehicleServer]: the service of
      [VehicleServer.proto].  The proxy server implements it over any
      hardware, VehicleService over the fake one; GRPCVehicleHardware,
      NodeForwarder and VhalGateway are clients.
    - [ProtoMessageConverter.ProtoConverter] with [ConverterLaws]: one overload
      pair of [aidlToProto]/[protoToAidl] per instance, with its round trip.
    - [ConnectedClient.ResultType]: the two instances of the client template.
    - [JsonValue.JsonValue] with [JsonLaws]: the JSON library.
    - [ValueGenerators.FakeValueGenerator] with [SteadyGenerator]: what
      GeneratorHub schedules.

    ** Files

    Paths are below [src/packages]; [types] is [vhal-types/aidl/impl/4/utils/common],
    [server] is [vhal-server/aidl/impl/4], [grpc] is [vhal-ipc-grpc/aidl/impl/4/grpc].

    Shared:
    - Prelude: results, the state and error monad, machine widths, lists.
    - Float32: [float], as IEEE binary32 with rounding to nearest even.
    - NumberParse: numbers in text ([strtoll], [strtod], [vhal-types/stubs/android-base]).
    - VehicleTypes: the records and enumerations of the AIDL types.
    - VehicleProperty: the property identifiers.
    - PropertyTables: the generated tables of access, change mode and version.
    - PropertyAnnotations: the generated tables of annotations and enumerations.
    - VehicleUtils: [types/VehicleUtils.h], [VehicleUtils.cpp].
    - VehicleHardware: [vhal-types/aidl/impl/4/hardware/include/IVehicleHardware.h].
    - FairSchedule: processes that end under every fair schedule.

    Utilities:
    - VehicleObjectPool: [types], recycled value objects.
    - VehiclePropertyStore: [types], the values of all properties.
    - PendingRequestPool: [types], requests awaiting an answer, with timeouts.
    - RecurrentTimer: [types] with [stubs/utils/Looper.h]; the looper thread
      takes a message and handles it in separate steps.
    - ConcurrentQueue: [types], the queue and [BatchingConsumer].

    HAL ([server/vhal]):
    - SubscriptionManager, ConnectedClient, DefaultVehicleHal.
    - HalDump: the dump command of the service.
    - HalShutdown: its destructor, next to the threads it ends.

    Fake hardware ([server/fake_impl], [server/default_config]):
    - UserHalHelper, FakeUserHal: user management messages.
    - Obd2SensorStore, FakeObd2Frame: OBD2 frames.
    - JsonValue, JsonConfigLoader, JsonConfigLaws: the configuration files.
    - FakeHardwareValues, FakeHardwareLaws: [getValue], [setValue] and every
      special property of [FakeVehicleHardware.cpp].
    - FakeSubscriptions: [subscribe], [unsubscribe], the refresh timer.
    - FakeRequests: the request workers.
    - FakeInit: [init], from declarations to the store, with the OBD2 frames, and
      supported values.
    - DumpOptions, FakeDump: the dump commands, their arguments and effects.
    - ValueGenerators, GeneratorHub: generated events and their scheduler.

    Transport ([grpc]):
    - ProtoMessageConverter, GRPCVehicleProxyServer, GRPCVehicleHardware.
    - RemoteHardware: the client as an [IVehicleHardware].
    - RemoteShutdown: the polling threads of the client and its destructor.

    Processes:
    - VehicleService: [server/vhal/src/VehicleService.cpp], the fake hardware
      behind the proxy server, its start and shutdown.
    - VhalBridge: [vhal-bridge/main.cpp], [DefaultVehicleHal] over the client of
      that server.

    Gateway ([vhal-gateway/src]):
    - GatewayConfig, NodeForwarder, VhalGateway.

    ** How code becomes definitions

    An object is a record of its fields, a member function a function of the
    object that returns the new one with what it returns and the calls it makes
    on callbacks.  A function that holds the object's mutex for its whole body
    is one step; code that releases it (threads, condition variables, callbacks)
    is a step relation or a step function, run under every interleaving with
    the other threads ([server_step], [hub_step], [fr_step], [gateway_step] and
    so on).  The clock is a monotone sequence of readings ([tick]) or the time
    that labels a step.  A result is [Ok]/[Err] or an option; where the code
    has undefined behaviour (an unchecked index, a null pointer, a signed
    overflow, a float outside an integer type) the definition says so with a
    value of its own, and the theorems say when it can occur.  A hash map or set
    is a [gmap] or [gset], and its iteration order an argument where it shows.
    Integers are [Z] with their wrap-around written out.  Log messages and the
    text of errors that only logs read are left out.

    ** What the theorems show

    - VehiclePropertyStore: when a write is accepted and what it does; that
      stored timestamps never go back; that reading returns the last write.
    - PendingRequestPool, ConnectedClient, DefaultVehicleHal: every accepted
      request is answered exactly once, by its result or by a timeout, and
      requests the hardware refuses are answered; what the HAL accepts as a
      subscription is valid, but for a rate that is not a number.
    - SubscriptionManager: in every history, what the maps keep of each client;
      in the orderly ones (no on-change value distributed to a client that then
      unsubscribes, no hardware refusing to unsubscribe a client that leaves, no
      rate that is not a number: the code goes wrong on each, which theorems of
      their own show) the hardware is subscribed exactly to what the clients
      asked, at the fastest rate asked, and each client gets its values at its
      resolution.
    - RecurrentTimer, ConcurrentQueue, FakeRequests, GRPCVehicleProxyServer,
      NodeForwarder, GeneratorHub: under every interleaving nothing is lost,
      duplicated or reordered, and workers come to rest or keep going as they
      should.  A timer callback has one message, and a second one while the
      callback is registered again as the looper handles its message.
    - FakeSubscriptions: over a looper that queues messages and the looper thread,
      the refresh timer has the interval of every subscription, and no
      subscription waits for its refresh for ever.
    - HalShutdown, RemoteShutdown: the destructors end under every fair schedule
      ([fair_schedule_ends]), but for a stream opened too late
      ([late_stream_hangs]); what threads can use after its release.
    - FakeHardwareValues with FakeHardwareLaws: plain properties read back what
      was set; the power, HVAC, ADAS and user rules have exactly their effect;
      when a request can crash.
    - DumpOptions, FakeDump, HalDump: the command line: arguments are read back
      as printed and never past their end; [--set] and [--getWithArg] are the
      requests they spell when no other write comes between their two parts
      (reading the clock, writing), and may be refused as outdated otherwise;
      what is saved is restored, but for its status; bounds set are reported;
      a refresh of the configurations adds and replaces but never removes.
    - JsonConfigLaws, FakeInit, GatewayConfig: files load all or nothing to what
      they describe, and the store after start is what the files declare, with
      the default OBD2 frames.
    - Obd2SensorStore, UserHalHelper: frames and messages have the layout the code
      gives them, byte by byte; where it is not the documented one, the
      comment of the theorem says so.
    - ProtoMessageConverter, GRPCVehicleHardware: messages survive the wire, and
      the remote hardware behaves as the local one.
    - RemoteHardware, VehicleService, VhalBridge: the parts put together.  The
      manager's subscriptions are those of the hardware in the other process
      after any orderly history, whichever calls the channel loses; those of
      supported values never get there; a
      value a binder client sets goes through the HAL, the wire, the request
      worker and the store, is read back by every client and reaches every
      subscriber whose subscription the hardware has and does not filter; a dead server makes a call fail at once and leaves nothing
      pending; shutting the server down writes the events still queued.
    - VhalGateway: what a node is sent is the changes of its properties, split
      into its groups, ending with the value last read.

    ** Parameters, bounds and fuel

    - [vec_max_size] and the wrapped [size_t] additions of UserHalHelper are
      those of a 64-bit platform; [unsigned long] has 64 bits.
    - [RecurrentTimer.stub_send] takes fuel for a looper that calls back at once;
      one level is enough to see that the code locks itself out
      ([register_on_stub_deadlocks]).
    - [GRPCVehicleHardware.getValuesWithRetry] takes fuel for a recursion the
      code means to bound by [MAX_RETRY_COUNT]; [retry_limit_never_reached]
      shows that it does not, [remote_get_values] that one round is enough when
      no value is outdated.
    - VhalBridge follows a get for [rounds] rounds of that recursion; its
      theorems hold for any number but 0, since one round suffices for them.
    - The batches ([cut]) in which the request worker finds the requests of a
      call are any that keep every request, in order, none empty; the results do not
      depend on them.  A call of the service is one step of its process: the
      theorems about processes follow the call of one client at a time, those
      of the parts the interleavings.
    - [DumpOptions.optionLoop] takes as many rounds as there are arguments; more
      change nothing ([optionLoop_enough]).
    - The other loops are structural, or come with a theorem that they end
      ([hardware_workers_terminate], [event_writer_terminates],
      [forwarder_shutdown_terminates], [purge_total]).
    - The callbacks that arrive while the proxy server waits, the writes a stream
      accepts, the answers of the external power controller, the files' contents,
      the hash of a string, the names and enumerators that AIDL generates, whether
      the C library reports an underflow, and the order in which hash tables
      iterate are parameters, as is the text of a dump's reply ([wording]).

    ** Not modelled

    The gRPC runtime (delivery is reliable and in order, calls may fail), binder
    and death notification delivery, the JSON and protobuf libraries beyond the
    operations used, file access, the registration with the service manager (a
    parameter of [VhalBridge.main]), the platform stubs other than the looper
    and the parsing of numbers, the hooks that replace parts of
    [DefaultVehicleHal] in its tests, Python tools and tests.  Of the dump
    commands the wording of replies and help texts is left out. *)

From stdpp Require Import base gmap list strings.
From Stdlib Require Import ZArith Lia.

Local Open Scope Z_scope.

(** ** Results: [android::base::Result] and [VhalResult]

    [Err e] is a [StatusError]/[Error] return; the error carries the data the
    callers branch on (the message text of an error is not modelled unless a
    caller reads it). *)

Inductive result (E A : Type) : Type :=
| Ok (a : A)
| Err (e : E).
Arguments Ok {E A} a.
Arguments Err {E A} e.

#[export] Instance result_eq_dec {E A} `{EqDecision E} `{EqDecision A} :
  EqDecision (result E A).
Proof. solve_decision. Defined.

Definition is_ok {E A} (r : result E A) : bool :=
  match r with Ok _ => true | Err _ => false end.

Declare Scope vhal_scope.
Delimit Scope vhal_scope with vhal.

(** Sequencing of results. *)
Definition rbind {E A B} (r : result E A) (k : A → result E B) : result E B :=
  match r with Ok a => k a | Err e => Err e end.
Notation "'try!' x := r 'in' k" := (rbind r (λ x, k))
  (at level 10, x name, r at level 100, k at level 200) : vhal_scope.

Lemma rbind_ok {E A B} (r : result E A) (k : A → result E B) b :
  rbind r k = Ok b ↔ ∃ a, r = Ok a ∧ k a = Ok b.
Proof. destruct r; cbn; naive_solver. Qed.

(** ** A state and error monad

    [M S E A] is a computation over the mutable state [S] that either returns
    normally or returns early with an error; the state reached at the early
    return is kept, as the side effects of a C++ member function are. *)

Definition M (S E A : Type) : Type := S → S * result E A.

Definition mreturn {S E A} (a : A) : M S E A := λ s, (s, Ok a).
Definition mfail {S E A} (e : E) : M S E A := λ s, (s, Err e).
Definition mget {S E} : M S E S := λ s, (s, Ok s).
Definition mput {S E} (s' : S) : M S E unit := λ _, (s', Ok tt).
Definition mmodify {S E} (f : S → S) : M S E unit := λ s, (f s, Ok tt).
Definition mbind' {S E A B} (m : M S E A) (k : A → M S E B) : M S E B :=
  λ s, match m s with
       | (s', Ok a) => k a s'
       | (s', Err e) => (s', Err e)
       end.

Notation "'let!' x := m 'in' k" := (mbind' m (λ x, k))
  (at level 10, x name, m at level 100, k at level 200) : vhal_scope.
Notation "m ;;; k" := (mbind' m (λ _, k))
  (at level 100, k at level 200, right associativity) : vhal_scope.

Lemma mbind_mget {S E B} (k : S → M S E B) s : mbind' mget k s = k s s.
Proof. done. Qed.

Lemma mbind_unfold {S E A B} (m : M S E A) (k : A → M S E B) s :
  mbind' m k s = match m s with (s', Ok a) => k a s' | (s', Err e) => (s', Err e) end.
Proof. done. Qed.

Lemma mbind_mmodify {S E B} (f : S → S) (k : unit → M S E B) s :
  mbind' (mmodify f) k s = k tt (f s).
Proof. done. Qed.

(** A [for] loop whose body may return from the function. *)
Fixpoint for_each {S E A} (l : list A) (body : A → M S E unit) : M S E unit :=
  match l with
  | [] => mreturn tt
  | x :: l' => mbind' (body x) (λ _, for_each l' body)
  end.

(** Whatever it returns, the operation relates the state before to the state
    after by [R]. *)
Definition keeps {S E A} (R : S → S → Prop) (m : M S E A) : Prop := ∀ s, R s (fst (m s)).

Section keeps.
  Context {S E : Type} (R : S → S → Prop) `{!PreOrder R}.

Lemma keeps_bind {A B} (m : M S E A) (k : A → M S E B) :
    keeps R m → (∀ a, keeps R (k a)) → keeps R (mbind' m k).
Proof.
    intros Hm Hk s. rewrite mbind_unfold. specialize (Hm s).
    destruct (m s) as [s1 [a|e]]; cbn in *; [|done]. etrans; [exact Hm|apply Hk].
Qed.
Lemma keeps_return {A} (a : A) : keeps R (mreturn a : M S E A).
Proof. intros s. cbn. reflexivity. Qed.
Lemma keeps_fail {A} (e : E) : keeps R (mfail e : M S E A).
Proof. intros s. cbn. reflexivity. Qed.
Lemma keeps_get : keeps R (mget : M S E S).
Proof. intros s. cbn. reflexivity. Qed.
Lemma keeps_modify f : (∀ s, R s (f s)) → keeps R (mmodify f : M S E unit).
Proof. intros Hf s. apply Hf. Qed.
Lemma keeps_for_each {A} (l : list A) (body : A → M S E unit) :
    (∀ x, keeps R (body x)) → keeps R (for_each l body).
Proof.
    intros Hb. induction l as [|x l IH]; [apply keeps_return|]. by apply keeps_bind.
Qed.
End keeps.

(** One step of a proof of [keeps] for each construct of the monad. *)
Ltac keep_step :=
  lazymatch goal with
  | |- keeps _ (mbind' _ _) => apply keeps_bind; [try apply _|..|intros]
  | |- keeps _ (mreturn _) => apply keeps_return; try apply _
  | |- keeps _ (mfail _) => apply keeps_fail; try apply _
  | |- keeps _ mget => apply keeps_get; try apply _
  | |- keeps _ (mmodify _) => apply keeps_modify; intros
  | |- keeps _ (for_each _ _) => apply keeps_for_each; [try apply _|intros]
  | |- keeps _ (match ?x with _ => _ end) => destruct x
  end.

Section for_each_lemmas.
  Context {S E A : Type}.
  Implicit Types (body : A → M S E unit) (l : list A) (s : S).

  (** An invariant each iteration preserves, error or not, holds at the end. *)
Lemma for_each_inv (I : S → Prop) body l :
    (∀ x s, x ∈ l → I s → I (fst (body x s))) →
    ∀ s, I s → I (fst (for_each l body s)).
Proof.
    induction l as [|x l IH]; intros Hb s Hs; [done|].
    cbn [for_each]. unfold mbind'.
    pose proof (Hb x s ltac:(left) Hs) as Hx.
    destruct (body x s) as [s' [[]|e]]; cbn in *; [|done].
    apply IH; [|done]. intros y t Hy. apply Hb. by right.
Qed.

  (** A loop whose iterations all succeed succeeds. *)
Lemma for_each_ok (I : S → Prop) body l :
    (∀ x s, x ∈ l → I s → ∃ s', body x s = (s', Ok tt) ∧ I s') →
    ∀ s, I s → ∃ s', for_each l body s = (s', Ok tt) ∧ I s'.
Proof.
    induction l as [|x l IH]; intros Hb s Hs; [by exists s|].
    cbn [for_each]. unfold mbind'.
    destruct (Hb x s ltac:(left) Hs) as (s1 & -> & H1).
    apply IH; [|done]. intros y t Hy. apply Hb. by right.
Qed.

Lemma for_each_app body l1 l2 s :
    for_each (l1 ++ l2) body s = mbind' (for_each l1 body) (λ _, for_each l2 body) s.
Proof.
    revert s. induction l1 as [|x l1 IH]; intros s; [done|].
    cbn [for_each app]. unfold mbind' at 1 2 3.
    destruct (body x s) as [s' [[]|e]]; [|done]. rewrite IH. done.
Qed.
End for_each_lemmas.

(** Two nested loops are one loop over the pairs. *)
Definition pairs {A B} (g : A → list B) (l : list A) : list (A * B) :=
  concat ((λ x, (λ y, (x, y)) <$> g x) <$> l).

Lemma for_each_nested {S E A B} (g : A → list B) (f : A → B → M S E unit) l s :
  for_each l (λ x, for_each (g x) (f x)) s = for_each (pairs g l) (λ xy, f xy.1 xy.2) s.
Proof.
  assert (Hin : ∀ x l' t, for_each ((λ y, (x, y)) <$> l') (λ xy, f xy.1 xy.2) t = for_each l' (f x) t).
  { intros x l'. induction l' as [|y l' IH']; intros t; [done|]. cbn. unfold mbind'.
    destruct (f x y t) as [t' [[]|e]]; [apply IH'|done]. }
  revert s. induction l as [|x l IH]; intros s; [done|].
  unfold pairs in *. cbn [fmap list_fmap concat for_each]. rewrite for_each_app. unfold mbind'.
  rewrite Hin. destruct (for_each (g x) (f x) s) as [s' [[]|e]]; [|done]. apply IH.
Qed.

Lemma elem_of_pairs {A B} (g : A → list B) l x y : (x, y) ∈ pairs g l ↔ x ∈ l ∧ y ∈ g x.
Proof.
  unfold pairs. rewrite list_elem_of_In, in_concat. split.
  - intros (l' & Hl' & Hin). apply list_elem_of_In, list_elem_of_fmap in Hl' as (z & -> & Hz).
    apply list_elem_of_In, list_elem_of_fmap in Hin as (w & [= -> ->] & Hw). done.
  - intros [Hx Hy]. exists ((λ y, (x, y)) <$> g x). split; apply list_elem_of_In, list_elem_of_fmap; eauto.
Qed.

(** ** Machine integers

    A w-bit integer is a [Z]; conversions wrap as the target ABI does
    (two's complement). *)

Definition two31 : Z := 2147483648.
Definition two32 : Z := 4294967296.
Definition two63 : Z := 9223372036854775808.
Definition two64 : Z := 18446744073709551616.

Definition in_i32 (z : Z) : Prop := - two31 ≤ z < two31.
Definition in_i64 (z : Z) : Prop := - two63 ≤ z < two63.
Definition to_i32 (z : Z) : Z := (z + two31) mod two32 - two31.
Definition to_i64 (z : Z) : Z := (z + two63) mod two64 - two63.
Definition to_u64 (z : Z) : Z := z mod two64.

Ltac unfold_widths :=
  unfold in_i32, in_i64, to_i32, to_i64, to_u64, two31, two32, two63, two64 in *.

Lemma to_i32_id z : in_i32 z → to_i32 z = z.
Proof. unfold_widths. intros H. rewrite Z.mod_small; lia. Qed.
Lemma to_i64_id z : in_i64 z → to_i64 z = z.
Proof. unfold_widths. intros H. rewrite Z.mod_small; lia. Qed.
Lemma to_u64_id z : 0 ≤ z < two64 → to_u64 z = z.
Proof. unfold_widths. intros H. rewrite Z.mod_small; lia. Qed.
Lemma to_i64_range z : in_i64 (to_i64 z).
Proof. unfold_widths. pose proof (Z.mod_pos_bound (z + 9223372036854775808) 18446744073709551616). lia. Qed.
Lemma to_u64_range z : 0 ≤ to_u64 z < two64.
Proof. unfold_widths. apply Z.mod_pos_bound. lia. Qed.

Create HintDb vhal.
#[export] Hint Resolve to_i32_id to_i64_id to_u64_id to_i64_range to_u64_range : vhal.

(** ** Generic list lemmas *)

Section lists.
  Context {A : Type}.

  (** The sum of a measure over a list ([count +=] loops). *)
Fixpoint sum_with (f : A → nat) (l : list A) : nat :=
    match l with [] => 0%nat | x :: l' => (f x + sum_with f l')%nat end.

Lemma sum_with_app f l1 l2 : sum_with f (l1 ++ l2) = (sum_with f l1 + sum_with f l2)%nat.
Proof. induction l1 as [|x l IH]; cbn; [done|]. rewrite IH. lia. Qed.

Lemma sum_with_Permutation f l1 l2 : l1 ≡ₚ l2 → sum_with f l1 = sum_with f l2.
Proof. induction 1; cbn; lia. Qed.

Lemma forallb_Forall (p : A → bool) l : forallb p l = true ↔ Forall (λ x, p x = true) l.
Proof. rewrite forallb_forall, Forall_forall. by setoid_rewrite list_elem_of_In. Qed.
End lists.

Lemma filter_ext_in {A} (P Q : A → Prop) `{∀ x, Decision (P x), ∀ x, Decision (Q x)} (l : list A) :
  (∀ x, x ∈ l → P x ↔ Q x) → filter P l = filter Q l.
Proof.
  induction l as [|x l IH]; intros He; [done|]. rewrite !filter_cons.
  rewrite IH by (intros; apply He; by right).
  destruct (decide (P x)), (decide (Q x)); try done; exfalso; pose proof (He x ltac:(left)); tauto.
Qed.

(** C++ [vector::resize]: truncate, or pad with value-initialised elements. *)
Definition vec_resize {A} (d : A) (n : nat) (l : list A) : list A :=
  take n l ++ replicate (n - length l) d.

Lemma length_vec_resize {A} (d : A) n l : length (vec_resize d n l) = n.
Proof. unfold vec_resize. rewrite length_app, length_take, length_replicate. lia. Qed.

(** List equality under an element comparison ([operator==] of [std::vector]). *)
Fixpoint list_eqb {A} (eqb : A → A → bool) (l1 l2 : list A) : bool :=
  match l1, l2 with
  | [], [] => true
  | x :: l1', y :: l2' => eqb x y && list_eqb eqb l1' l2'
  | _, _ => false
  end.

Lemma list_eqb_eq {A} (eqb : A → A → bool) :
  (∀ x y, eqb x y = true ↔ x = y) → ∀ l1 l2, list_eqb eqb l1 l2 = true ↔ l1 = l2.
Proof.
  intros He. induction l1 as [|x l1 IH]; intros [|y l2]; cbn; try done.
  rewrite andb_true_iff, He, IH. naive_solver.
Qed.

Lemma list_eqb_refl {A} (eqb : A → A → bool) l :
  Forall (λ x, eqb x x = true) l → list_eqb eqb l l = true.
Proof. induction 1 as [|x l Hx _ IH]; cbn; [done|]. by rewrite Hx, IH. Qed.

(** A loop that returns the first error its test reports. *)
Fixpoint check_each {E A} (test : A → option E) (l : list A) : result E unit :=
  match l with
  | [] => Ok tt
  | x :: l' => match test x with Some e => Err e | None => check_each test l' end
  end.

Lemma check_each_ok {E A} (test : A → option E) l :
  check_each test l = Ok tt ↔ Forall (λ x, test x = None) l.
Proof.
  induction l as [|x l IH]; cbn; [by split|].
  rewrite Forall_cons. destruct (test x); [naive_solver|]. rewrite IH. naive_solver.
Qed.

Lemma check_each_err {E A} (test : A → option E) l e :
  check_each test l = Err e →
  ∃ l1 x l2, l = l1 ++ x :: l2 ∧ test x = Some e ∧ Forall (λ y, test y = None) l1.
Proof.
  induction l as [|x l IH]; cbn; [done|].
  destruct (test x) eqn:Hx; intros H.
  - simplify_eq. by exists [], x, l.
  - destruct (IH H) as (l1 & y & l2 & -> & Hy & Hl1). exists (x :: l1), y, l2. auto.
Qed.

(** Splits every boolean test on integers of the goal. *)
Ltac zcases :=
  repeat match goal with
  | |- context [Z.eqb ?a ?b] => destruct (Z.eqb_spec a b)
  | |- context [Z.ltb ?a ?b] => destruct (Z.ltb_spec a b)
  | |- context [Z.leb ?a ?b] => destruct (Z.leb_spec a b)
  end.
