(* ===== verification/Float32.v ===== *)
(** * Binary32 floating point

    The [float] of the C++ sources, as the executable IEEE-754 specification of
    the Standard Library ([SpecFloat]) instantiated at 24 bits of mantissa and
    a maximal exponent of 128.  Rounding is to nearest, ties to even, as on
    every target the code is built for.  [std::round] and the conversions from
    and to integers are written out on the representation. *)

From stdpp Require Import base list.
From Stdlib Require Import ZArith Lia.
From Stdlib Require Export SpecFloat.
From S2P Require Import Prelude.

Local Open Scope Z_scope.

Abbreviation f32 := spec_float.

Definition f32_prec : Z := 24.
Definition f32_emax : Z := 128.

#[export] Instance f32_eq_dec : EqDecision f32.
Proof. solve_decision. Defined.

(** ** Operations *)

Definition f32_zero : f32 := S754_zero false.
(** [std::numeric_limits<float>::max()] *)
Definition f32_max : f32 := S754_finite false 16777215 104.

Definition f32_of_Z (z : Z) : f32 := binary_normalize f32_prec f32_emax z 0 false.
Definition f32_div (x y : f32) : f32 := SFdiv f32_prec f32_emax x y.
Definition f32_mul (x y : f32) : f32 := SFmul f32_prec f32_emax x y.
Definition f32_sub (x y : f32) : f32 := SFsub f32_prec f32_emax x y.
Definition f32_add (x y : f32) : f32 := SFadd f32_prec f32_emax x y.
Definition f32_abs (x : f32) : f32 := SFabs x.

(** A [double] literal [n/d], rounded to binary64, and its conversion to
    [float], rounded again. *)
Definition f64_lit (n d : Z) : spec_float :=
  SFdiv 53 1024 (binary_normalize 53 1024 n 0 false) (binary_normalize 53 1024 d 0 false).
Definition f32_of_f64 (x : spec_float) : f32 :=
  match x with
  | S754_finite s m e => binary_normalize f32_prec f32_emax (cond_Zopp s (Z.pos m)) e s
  | _ => x
  end.

(** C++ comparison operators: every comparison with a NaN is false, except
    [!=]. *)
Definition f32_eqb (x y : f32) : bool := SFeqb x y.
Definition f32_ltb (x y : f32) : bool := SFltb x y.
Definition f32_leb (x y : f32) : bool := SFleb x y.
Definition f32_neqb (x y : f32) : bool := negb (SFeqb x y).

Definition f32_is_nan (x : f32) : bool :=
  match x with S754_nan => true | _ => false end.

(** [std::round]: to the nearest integer, halfway cases away from zero; the
    sign of the argument is kept. *)
Definition f32_round (x : f32) : f32 :=
  match x with
  | S754_finite s m e =>
      if Z.leb 0 e then x
      else let d := Z.shiftl 1 (- e) in
           binary_normalize f32_prec f32_emax
             (cond_Zopp s ((2 * Z.pos m + d) / (2 * d))) 0 s
  | _ => x
  end.

(** The value of a finite float, truncated toward zero. *)
Definition f32_trunc (x : f32) : option Z :=
  match x with
  | S754_zero _ => Some 0
  | S754_finite s m e =>
      Some (cond_Zopp s (if Z.leb 0 e then Z.shiftl (Z.pos m) e
                         else Z.pos m / Z.shiftl 1 (- e)))
  | _ => None
  end.

(** [static_cast<int64_t>]/[static_cast<int32_t>] of a float.  The conversion
    is undefined when the truncated value does not fit: [None]. *)
Definition f32_to_i64 (x : f32) : option Z :=
  match f32_trunc x with
  | Some z => if Z.leb (- two63) z && Z.ltb z two63 then Some z else None
  | None => None
  end.
Definition f32_to_i32 (x : f32) : option Z :=
  match f32_trunc x with
  | Some z => if Z.leb (- two31) z && Z.ltb z two31 then Some z else None
  | None => None
  end.

(** ** The order of the non-NaN values

    Comparison is the lexicographic order of a key, which makes the order
    lemmas linear arithmetic. *)

Definition f32_key (x : f32) : Z * Z * Z :=
  match x with
  | S754_infinity true => (-2, 0, 0)
  | S754_finite true m e => (-1, - e, - Z.pos m)
  | S754_zero _ => (0, 0, 0)
  | S754_finite false m e => (1, e, Z.pos m)
  | S754_infinity false => (2, 0, 0)
  | S754_nan => (3, 0, 0)
  end.

Definition key_lt (a b : Z * Z * Z) : Prop :=
  let '(a1, a2, a3) := a in let '(b1, b2, b3) := b in
  a1 < b1 ∨ (a1 = b1 ∧ (a2 < b2 ∨ (a2 = b2 ∧ a3 < b3))).

Lemma f32_compare_key x y :
  f32_is_nan x = false → f32_is_nan y = false →
  match SFcompare x y with
  | Some Lt => key_lt (f32_key x) (f32_key y)
  | Some Gt => key_lt (f32_key y) (f32_key x)
  | Some Eq => f32_key x = f32_key y
  | None => False
  end.
Proof.
  intros Hx Hy.
  destruct x as [[]|[]| |[] m1 e1], y as [[]|[]| |[] m2 e2]; cbn in *; try done; try lia.
  all: destruct (Z.compare_spec e1 e2) as [->| |]; cbn; try lia.
  all: change (Pos.compare_cont Eq m1 m2) with (Pos.compare m1 m2).
  all: destruct (Pos.compare_spec m1 m2) as [->| |]; cbn; try reflexivity; lia.
Qed.

Section order.
  Implicit Types x y z : f32.

Lemma f32_ltb_key x y :
    f32_is_nan x = false → f32_is_nan y = false →
    f32_ltb x y = true ↔ key_lt (f32_key x) (f32_key y).
Proof.
    intros Hx Hy. pose proof (f32_compare_key x y Hx Hy) as H.
    unfold f32_ltb, SFltb. destruct (f32_key x) as [[? ?] ?], (f32_key y) as [[? ?] ?].
    destruct (SFcompare x y) as [[]|]; cbn in *; simplify_eq; split; intros; done || lia.
Qed.

Lemma f32_ltb_nan x y : f32_ltb x y = true → f32_is_nan x = false ∧ f32_is_nan y = false.
Proof. unfold f32_ltb, SFltb. destruct x as [[]|[]| |[] ? ?], y as [[]|[]| |[] ? ?]; done. Qed.

Lemma f32_eqb_key x y :
    f32_is_nan x = false → f32_is_nan y = false →
    f32_eqb x y = true ↔ f32_key x = f32_key y.
Proof.
    intros Hx Hy. pose proof (f32_compare_key x y Hx Hy) as H.
    unfold f32_eqb, SFeqb. destruct (SFcompare x y) as [[]|]; [done| | |done].
    all: split; [done|]; intros E; rewrite E in H; destruct (f32_key y) as [[? ?] ?]; cbn in H; lia.
Qed.

Lemma f32_ltb_irrefl x : f32_ltb x x = false.
Proof.
    destruct (f32_ltb x x) eqn:E; [|done].
    destruct (f32_ltb_nan _ _ E) as [Hx _].
    apply f32_ltb_key in E; [|done..]. destruct (f32_key x) as [[? ?] ?]. cbn in E. lia.
Qed.

Lemma f32_ltb_trans x y z : f32_ltb x y = true → f32_ltb y z = true → f32_ltb x z = true.
Proof.
    intros H1 H2. destruct (f32_ltb_nan _ _ H1), (f32_ltb_nan _ _ H2).
    rewrite f32_ltb_key in * by done.
    destruct (f32_key x) as [[? ?] ?], (f32_key y) as [[? ?] ?], (f32_key z) as [[? ?] ?].
    cbn in *. lia.
Qed.

  (** Transitivity through a failed comparison (neither side a NaN). *)
Lemma f32_nltb_ltb_trans x y z :
    f32_is_nan x = false → f32_is_nan y = false →
    f32_ltb y x = false → f32_ltb y z = true → f32_ltb x z = true.
Proof.
    intros Hx Hy H1 H2. destruct (f32_ltb_nan _ _ H2) as [_ Hz].
    destruct (f32_ltb x z) eqn:E; [done|].
    apply not_true_iff_false in H1, E. rewrite f32_ltb_key in * by done.
    destruct (f32_key x) as [[? ?] ?], (f32_key y) as [[? ?] ?], (f32_key z) as [[? ?] ?].
    cbn in *. lia.
Qed.

Lemma f32_nltb_trans x y z :
    f32_is_nan x = false → f32_is_nan y = false → f32_is_nan z = false →
    f32_ltb y x = false → f32_ltb z y = false → f32_ltb z x = false.
Proof.
    intros Hx Hy Hz H1 H2.
    apply not_true_iff_false in H1, H2. apply not_true_iff_false. rewrite f32_ltb_key in * by done.
    destruct (f32_key x) as [[? ?] ?], (f32_key y) as [[? ?] ?], (f32_key z) as [[? ?] ?].
    cbn in *. lia.
Qed.

Lemma f32_eqb_refl x : f32_is_nan x = false → f32_eqb x x = true.
Proof. intros H. by apply f32_eqb_key. Qed.
End order.

#[export] Hint Resolve f32_ltb_irrefl f32_eqb_refl : vhal.

(** Sanity of the representation: values and roundings used by the sources. *)
Example f32_of_Z_billion : f32_of_Z 1000000000 = S754_finite false 15625000 6.
Proof. reflexivity. Qed.
Example f32_round_half : f32_round (f32_div (f32_of_Z 5) (f32_of_Z 2)) = f32_of_Z 3.
Proof. reflexivity. Qed.
Example f32_round_neg_half : f32_round (f32_div (f32_of_Z (-5)) (f32_of_Z 2)) = f32_of_Z (-3).
Proof. reflexivity. Qed.
Example f32_to_i64_div : f32_to_i64 (f32_div (f32_of_Z 10) (f32_of_Z 4)) = Some 2.
Proof. reflexivity. Qed.
