(* ===== verification/NumberParse.v ===== *)
(** * NumberParse: numbers in text

    The conversions of the C library the code uses ([strtoll], [strtod],
    [std::stoul] in part), the functions [vhal-types/stubs/android-base] builds
    on them ([ParseInt], [ParseFloat], [EqualsIgnoreCase], [StartsWith]), and
    what they read back of printed numbers.  The locale is "C". *)

From stdpp Require Import base list strings pretty.
From Stdlib Require Import ZArith Lia Ascii.
From S2P Require Import Prelude Float32.

Local Open Scope Z_scope.

(** ** Characters and digits *)

Definition is_space (c : ascii) : bool :=
  let n := N_of_ascii c in ((9 <=? n) && (n <=? 13))%N || (n =? 32)%N.

(** The value of a digit of any base up to 36. *)
Definition digit_value (c : ascii) : option Z :=
  let n := Z.of_N (N_of_ascii c) in
  if (48 <=? n) && (n <=? 57) then Some (n - 48)
  else if (97 <=? n) && (n <=? 122) then Some (n - 87)
  else if (65 <=? n) && (n <=? 90) then Some (n - 55)
  else None.

Definition digit_in (base : Z) (c : ascii) : option Z :=
  match digit_value c with Some d => if d <? base then Some d else None | None => None end.

Fixpoint skip_spaces (s : string) : string :=
  match s with
  | String c s' => if is_space c then skip_spaces s' else s
  | EmptyString => s
  end.

Fixpoint accumulate (base : Z) (s : string) (n : Z) : Z :=
  match s with
  | String c s' => match digit_in base c with Some d => accumulate base s' (n * base + d) | None => n end
  | EmptyString => n
  end.

(** The digits in front of [s]; [None] when there is none. *)
Definition digits (base : Z) (s : string) : option Z :=
  match s with
  | String c s' => match digit_in base c with Some d => Some (accumulate base s' d) | None => None end
  | EmptyString => None
  end.

(** What is behind the digits. *)
Fixpoint after_digits (base : Z) (s : string) : string :=
  match s with
  | String c s' => match digit_in base c with Some _ => after_digits base s' | None => s end
  | EmptyString => s
  end.

Definition split_sign (s : string) : bool * string :=
  match s with
  | String "-" s' => (true, s')
  | String "+" s' => (false, s')
  | _ => (false, s)
  end.

(** [s.c_str()], as a function that reads up to the first null sees it. *)
Fixpoint c_str (s : string) : string :=
  match s with
  | String c s' => if Ascii.eqb c zero then EmptyString else String c (c_str s')
  | EmptyString => EmptyString
  end.

Definition tolower (c : ascii) : ascii :=
  let n := N_of_ascii c in
  if ((65 <=? n) && (n <=? 90))%N then ascii_of_N (n + 32) else c.

Fixpoint map_string (f : ascii → ascii) (s : string) : string :=
  match s with String c s' => String (f c) (map_string f s') | EmptyString => EmptyString end.

(** The loop over the two strings, which have one size. *)
Fixpoint EqualsIgnoreCase (a b : string) : bool :=
  match a, b with
  | String x a', String y b' => Ascii.eqb (tolower x) (tolower y) && EqualsIgnoreCase a' b'
  | EmptyString, EmptyString => true
  | _, _ => false
  end.

Definition StartsWith (s prefix : string) : bool := String.prefix prefix s.

(** ** Integers *)

(** [strtoll(s, &end, 10)]: the value before it is clamped to the type, and
    the rest at [end]; [None] when there is no digit, where [end] is [s]. *)
Definition strtoll (s : string) : option (Z * string) :=
  let '(negative, d) := split_sign (skip_spaces s) in
  match digits 10 d with
  | Some n => Some (if negative : bool then - n else n, after_digits 10 d)
  | None => None
  end.

(** [errno] is set when the value is outside [long long]. *)
Definition ParseInt (min max : Z) (s : string) : option Z :=
  match strtoll (c_str s) with
  | Some (val, EmptyString) =>
      if (- two63 <=? val) && (val <? two63) && (min <=? val) && (val <=? max) then Some val else None
  | _ => None
  end.

Definition ParseInt32 : string → option Z := ParseInt (- two31) (two31 - 1).
Definition ParseInt64 : string → option Z := ParseInt (- two63) (two63 - 1).

(** ** Floating point *)

(** The digits with at most one point: the integer they spell, how many are
    behind the point, and the rest; [None] when there is no digit. *)
Definition mantissa (base : Z) (s : string) : option (Z * nat * string) :=
  let r := after_digits base s in
  let n := accumulate base s 0 in
  match r with
  | String "." f =>
      let r' := after_digits base f in
      let k := (String.length f - String.length r')%nat in
      if (String.length r =? String.length s)%nat && (k =? 0)%nat then None
      else Some (accumulate base f n, k, r')
  | _ => if (String.length r =? String.length s)%nat then None else Some (n, O, r)
  end.

(** The exponent that is all of the rest: [None] when the rest is none. *)
Definition exponent (mark : ascii) (s : string) : option Z :=
  match s with
  | EmptyString => Some 0
  | String c s' =>
      if Ascii.eqb (tolower c) mark then
        let '(negative, d) := split_sign s' in
        match digits 10 d, after_digits 10 d with
        | Some n, EmptyString => Some (if negative : bool then - n else n)
        | _, _ => None
        end
      else None
  end.

(** [m * 10^k] and [m * 2^k] rounded to the nearest [double]. *)
Definition f64_of_decimal (m k : Z) : spec_float :=
  match m with
  | Z.pos p =>
      if k <? 0 then SFdiv 53 1024 (S754_finite false p 0) (S754_finite false (Z.to_pos (10 ^ (- k))) 0)
      else binary_normalize 53 1024 (m * 10 ^ k) 0 false
  | _ => S754_zero false
  end.
Definition f64_of_binary (m k : Z) : spec_float := binary_normalize 53 1024 m k false.

(** Whether the exact value is below the normal numbers. *)
Definition below_normal (m : Z) (base k : Z) : bool :=
  (0 <? m) && (if k <? 0 then m * 2 ^ 1022 <? base ^ (- k) else false).

Fixpoint nan_chars (s : string) : bool :=
  match s with
  | String ")" EmptyString => true
  | String c s' => (bool_decide (is_Some (digit_value c)) || Ascii.eqb c "_") && nan_chars s'
  | EmptyString => false
  end.

Definition is_nan_text (s : string) : bool :=
  match s with
  | String a (String b (String c rest)) =>
      EqualsIgnoreCase (String a (String b (String c EmptyString))) "nan" &&
      match rest with EmptyString => true | String "(" r => nan_chars r | _ => false end
  | _ => false
  end.

Section strtod.
(** Whether [errno] is set when a result is below the normal numbers is left to
    the library by the C standard. *)
  Context (underflow_errno : string → bool).

(** A finite value, unless it sets [errno]. *)
Definition in_range_or_errno (s : string) (tiny : bool) (x : spec_float) : option spec_float :=
  match x with
  | S754_infinity _ => None
  | _ => if tiny && underflow_errno s then None else Some x
  end.

Definition unsigned_f64 (s : string) : option spec_float :=
  if EqualsIgnoreCase s "inf" || EqualsIgnoreCase s "infinity" then Some (S754_infinity false)
  else if is_nan_text s then Some S754_nan
  else
    let hexadecimal := match s with
                       | String "0" (String x s') =>
                           if Ascii.eqb (tolower x) "x" then mantissa 16 s' else None
                       | _ => None
                       end in
    match hexadecimal with
    | Some (m, frac, rest) =>
        match exponent "p" rest with
        | Some e => let k := e - 4 * Z.of_nat frac in
                    in_range_or_errno s (below_normal m 2 k) (f64_of_binary m k)
        | None => None
        end
    | None =>
        match mantissa 10 s with
        | Some (m, frac, rest) =>
            match exponent "e" rest with
            | Some e => let k := e - Z.of_nat frac in
                        in_range_or_errno s (below_normal m 10 k) (f64_of_decimal m k)
            | None => None
            end
        | None => None
        end
    end.

(** [strtod(s, &end)] when it converts all of [s] without setting [errno]. *)
Definition strtod_all (s : string) : option spec_float :=
  let '(negative, d) := split_sign (skip_spaces s) in
  match unsigned_f64 d with
  | Some x => Some (if negative : bool then SFopp x else x)
  | None => None
  end.

(** [static_cast<double>(std::numeric_limits<float>::max())]. *)
Definition f64_float_max : spec_float := S754_finite false (16777215 * 2 ^ 29) 75.

Definition ParseDouble (s : string) (min max : spec_float) : option spec_float :=
  match strtod_all (c_str s) with
  | Some val => if SFltb val min || SFltb max val then None else Some val
  | None => None
  end.

Definition ParseFloat (s : string) : option f32 :=
  option_map f32_of_f64 (ParseDouble s (SFopp f64_float_max) f64_float_max).

End strtod.

(** ** Printing *)

Definition hex_digit (d : Z) : ascii := ascii_of_N (Z.to_N (if d <? 10 then d + 48 else d + 87)).

Fixpoint hex (w : nat) (n : Z) : string :=
  match w with
  | O => EmptyString
  | S w' => String (hex_digit (n / 16 ^ Z.of_nat w' mod 16)) (hex w' n)
  end.

(** ** Reading back what is printed *)

Lemma hex_digit_in d : 0 ≤ d < 16 → digit_in 16 (hex_digit d) = Some d.
Proof.
  intros Hd. assert (d = 0 ∨ d = 1 ∨ d = 2 ∨ d = 3 ∨ d = 4 ∨ d = 5 ∨ d = 6 ∨ d = 7 ∨ d = 8 ∨ d = 9 ∨ d = 10
    ∨ d = 11 ∨ d = 12 ∨ d = 13 ∨ d = 14 ∨ d = 15) as H by lia. by repeat destruct H as [->|H]; [..|subst].
Qed.

Lemma hex_step n w : 0 ≤ n → n mod 16 ^ Z.of_nat (S w) = n / 16 ^ Z.of_nat w mod 16 * 16 ^ Z.of_nat w + n mod 16 ^ Z.of_nat w.
Proof.
  intros Hn. rewrite Nat2Z.inj_succ, Z.pow_succ_r, (Z.mul_comm 16) by lia.
  rewrite Z.rem_mul_r by lia. lia.
Qed.

Lemma accumulate_hex w n : 0 ≤ n → ∀ acc, accumulate 16 (hex w n) acc = acc * 16 ^ Z.of_nat w + n mod 16 ^ Z.of_nat w.
Proof.
  intros Hn. induction w as [|w IH]; intros acc; [cbn; rewrite Z.mod_1_r; lia|]. cbn [hex accumulate].
  rewrite hex_digit_in by (apply Z.mod_pos_bound; lia). rewrite IH, (hex_step n w Hn), Nat2Z.inj_succ, Z.pow_succ_r by lia. lia.
Qed.

Lemma digits_hex w n : 0 ≤ n → digits 16 (hex (S w) n) = Some (n mod 16 ^ Z.of_nat (S w)).
Proof.
  intros Hn. cbn [hex digits]. rewrite hex_digit_in by (apply Z.mod_pos_bound; lia).
  by rewrite (accumulate_hex w n Hn), (hex_step n w Hn).
Qed.

(** The digits [pretty] puts in front of a string. *)
Lemma pretty_N_char_digit d : (d < 10)%N → digit_in 10 (pretty_N_char d) = Some (Z.of_N d).
Proof.
  intros Hd. assert (d = 0 ∨ d = 1 ∨ d = 2 ∨ d = 3 ∨ d = 4 ∨ d = 5 ∨ d = 6 ∨ d = 7 ∨ d = 8 ∨ d = 9)%N as H by lia.
  by repeat destruct H as [->|H]; [..|subst].
Qed.

Lemma pretty_N_go_ind (Q : string → Prop) :
  (∀ d s, (d < 10)%N → Q s → Q (String (pretty_N_char d) s)) → ∀ x s, Q s → Q (pretty_N_go x s).
Proof.
  intros Hstep x. induction (N.lt_wf_0 x) as [x _ IH]. intros s Hs.
  destruct (decide (0 < x)%N) as [Hx|Hx]; [|by replace x with 0%N by lia].
  rewrite pretty_N_go_step by done. apply IH; [by apply N.div_lt|]. apply Hstep; [by apply N.mod_lt|done].
Qed.

Lemma accumulate_pretty x : (0 < x)%N → ∀ s, accumulate 10 (pretty_N_go x s) 0 = accumulate 10 s (Z.of_N x).
Proof.
  induction (N.lt_wf_0 x) as [x _ IH]. intros Hx s. rewrite pretty_N_go_step by done.
  assert (E : accumulate 10 (String (pretty_N_char (x `mod` 10)) s) (Z.of_N (x `div` 10)) = accumulate 10 s (Z.of_N x)).
  { cbn [accumulate]. rewrite pretty_N_char_digit by by apply N.mod_lt.
    pose proof (N.div_mod' x 10) as E. f_equal. rewrite E at 3. lia. }
  destruct (decide (0 < x `div` 10)%N) as [Hq|Hq].
  - rewrite IH; [done|by apply N.div_lt|done].
  - apply N.nlt_ge, N.le_0_r in Hq. rewrite Hq in E |- *. done.
Qed.

(** A printed number: all digits, none of them a null, with its value. *)
Record numeral (n : Z) (s : string) : Prop := mkNumeral {
  numeral_digits : digits 10 s = Some n;
  numeral_end : after_digits 10 s = EmptyString;
  numeral_c_str : c_str s = s;
}.

Definition digit_string (s : string) : Prop := after_digits 10 s = EmptyString ∧ c_str s = s.

Lemma digit_string_cons d s : (d < 10)%N → digit_string s → digit_string (String (pretty_N_char d) s).
Proof.
  intros Hd [H1 H2]. split; cbn.
  - by rewrite pretty_N_char_digit.
  - rewrite H2. assert (Ascii.eqb (pretty_N_char d) zero = false) as ->; [|done].
    pose proof (pretty_N_char_digit d Hd) as E. destruct (Ascii.eqb_spec (pretty_N_char d) zero) as [Ez|]; [by rewrite Ez in E|done].
Qed.

Lemma digits_accumulate s : after_digits 10 s = EmptyString → s ≠ EmptyString → digits 10 s = Some (accumulate 10 s 0).
Proof. destruct s as [|c s]; [done|]. cbn. by destruct (digit_in 10 c). Qed.

Lemma numeral_pretty x : numeral (Z.of_N x) (pretty x).
Proof.
  unfold pretty, pretty_N. case_decide as Hx; [by subst|].
  assert (Hd : digit_string (pretty_N_go x "")) by (apply pretty_N_go_ind; [apply digit_string_cons|by split]).
  destruct Hd as [H1 H2]. split; [|done|done]. rewrite digits_accumulate; [|done|].
  - rewrite accumulate_pretty by lia. done.
  - assert (Hne : ∀ y s, s ≠ EmptyString → pretty_N_go y s ≠ EmptyString) by (intros y; by apply (pretty_N_go_ind (λ s, s ≠ EmptyString))).
    rewrite pretty_N_go_step by lia. by apply Hne.
Qed.

(** A number is not taken for blanks or a sign. *)
Lemma numeral_unsigned n s : numeral n s → split_sign (skip_spaces s) = (false, s).
Proof.
  intros [H _ _]. destruct s as [|c s]; [done|]. cbn in H |- *. destruct (digit_in 10 c) as [d|] eqn:E; [|done]. clear H.
  destruct c as [[] [] [] [] [] [] [] []]; try done; by vm_compute in E.
Qed.

Lemma strtoll_pretty z : strtoll (c_str (pretty z)) = Some (z, EmptyString).
Proof.
  unfold strtoll, pretty, pretty_Z. destruct z as [|p|p]; [done| |].
  - pose proof (numeral_pretty (N.pos p)) as Hn. change (pretty p) with (pretty (N.pos p)).
    rewrite (numeral_c_str _ _ Hn), (numeral_unsigned _ _ Hn), (numeral_digits _ _ Hn), (numeral_end _ _ Hn). done.
  - pose proof (numeral_pretty (N.pos p)) as Hn. change (pretty p) with (pretty (N.pos p)).
    change (c_str ("-" +:+ pretty (N.pos p))) with (String "-" (c_str (pretty (N.pos p)))).
    rewrite (numeral_c_str _ _ Hn). change (split_sign (skip_spaces (String "-" ?s))) with (true, s). cbv beta iota.
    by rewrite (numeral_digits _ _ Hn), (numeral_end _ _ Hn).
Qed.

Lemma ParseInt32_pretty z : in_i32 z → ParseInt32 (pretty z) = Some z.
Proof.
  intros Hz. unfold ParseInt32, ParseInt. rewrite strtoll_pretty. unfold in_i32, two31, two63 in *.
  by rewrite !(proj2 (Z.leb_le _ _)), (proj2 (Z.ltb_lt _ _)) by lia.
Qed.

Lemma ParseInt64_pretty z : in_i64 z → ParseInt64 (pretty z) = Some z.
Proof.
  intros Hz. unfold ParseInt64, ParseInt. rewrite strtoll_pretty. unfold in_i64, two63 in *.
  by rewrite !(proj2 (Z.leb_le _ _)), (proj2 (Z.ltb_lt _ _)) by lia.
Qed.

(** What the conversions accept. *)
Example ParseInt_reads : ParseInt32 "-12" = Some (-12) ∧ ParseInt32 " +7" = Some 7 ∧ ParseInt32 "0x10" = None
  ∧ ParseInt32 "" = None ∧ ParseInt32 "7 " = None ∧ ParseInt32 "2147483648" = None
  ∧ ParseInt64 "2147483648" = Some 2147483648 ∧ ParseInt64 "9223372036854775808" = None.
Proof. by vm_compute. Qed.

Example ParseFloat_reads : let parse := ParseFloat (λ _, true) in
  parse "0.5" = Some (f32_div (f32_of_Z 1) (f32_of_Z 2)) ∧ parse "-17" = Some (f32_of_Z (-17))
  ∧ parse "1e2" = Some (f32_of_Z 100) ∧ parse "0x1.8p1" = Some (f32_of_Z 3) ∧ parse "nan" = Some S754_nan
  ∧ parse "inf" = None ∧ parse "1e39" = None ∧ parse "1e" = None ∧ parse "." = None ∧ parse "0x" = None
  ∧ parse "0.1" = Some (S754_finite false 13421773 (-27)).
Proof. by vm_compute. Qed.
