(* ===== verification/VehicleTypes.v ===== *)
(** * The AIDL data types

    The parcelables and enums of [packages/vhal-types/aidl] and
    [packages/vhal-types/aidl_property] that the modelled code exchanges.
    Enum types whose values the C++ code obtains by [static_cast] from
    arbitrary integers ([VehiclePropertyType], [VehiclePropertyGroup],
    [VehicleArea], [VehiclePropertyStatus]) are integers with named constants;
    [StatusCode] is one of its enumerators, or the code a vendor casts to it. *)

From stdpp Require Import base gmap list strings.
From Stdlib Require Import ZArith Lia.
From S2P Require Import Prelude Float32.

Local Open Scope Z_scope.

(** ** Enums *)

Inductive StatusCode : Type :=
| OK | TRY_AGAIN | INVALID_ARG | NOT_AVAILABLE | ACCESS_DENIED | INTERNAL_ERROR
| NOT_AVAILABLE_DISABLED | NOT_AVAILABLE_SPEED_LOW | NOT_AVAILABLE_SPEED_HIGH
| NOT_AVAILABLE_POOR_VISIBILITY | NOT_AVAILABLE_SAFETY
| NOT_AVAILABLE_SUBSYSTEM_NOT_CONNECTED
| VendorStatus (code : Z).

#[export] Instance StatusCode_eq_dec : EqDecision StatusCode.
Proof. solve_decision. Defined.

Definition StatusCode_toInt (c : StatusCode) : Z :=
  match c with
  | OK => 0 | TRY_AGAIN => 1 | INVALID_ARG => 2 | NOT_AVAILABLE => 3
  | ACCESS_DENIED => 4 | INTERNAL_ERROR => 5 | NOT_AVAILABLE_DISABLED => 6
  | NOT_AVAILABLE_SPEED_LOW => 7 | NOT_AVAILABLE_SPEED_HIGH => 8
  | NOT_AVAILABLE_POOR_VISIBILITY => 9 | NOT_AVAILABLE_SAFETY => 10
  | NOT_AVAILABLE_SUBSYSTEM_NOT_CONNECTED => 11
  | VendorStatus code => code
  end.

Module VehiclePropertyType.
Definition STRING : Z := 0x00100000.
Definition BOOLEAN : Z := 0x00200000.
Definition INT32 : Z := 0x00400000.
Definition INT32_VEC : Z := 0x00410000.
Definition INT64 : Z := 0x00500000.
Definition INT64_VEC : Z := 0x00510000.
Definition FLOAT : Z := 0x00600000.
Definition FLOAT_VEC : Z := 0x00610000.
Definition BYTES : Z := 0x00700000.
Definition MIXED : Z := 0x00e00000.
Definition MASK : Z := 0x00ff0000.
End VehiclePropertyType.

Module VehiclePropertyGroup.
Definition SYSTEM : Z := 0x10000000.
Definition VENDOR : Z := 0x20000000.
Definition BACKPORTED : Z := 0x30000000.
  (** [0xf0000000] as a 32-bit signed integer. *)
Definition MASK : Z := -268435456.
End VehiclePropertyGroup.

Module VehicleArea.
Definition GLOBAL : Z := 0x01000000.
Definition WINDOW : Z := 0x03000000.
Definition MIRROR : Z := 0x04000000.
Definition SEAT : Z := 0x05000000.
Definition DOOR : Z := 0x06000000.
Definition WHEEL : Z := 0x07000000.
Definition VENDOR : Z := 0x08000000.
Definition MASK : Z := 0x0f000000.
End VehicleArea.

Module VehiclePropertyStatus.
Definition AVAILABLE : Z := 0x00.
Definition UNAVAILABLE : Z := 0x01.
Definition ERROR : Z := 0x02.
End VehiclePropertyStatus.

Module VehiclePropertyAccess.
Definition NONE : Z := 0x00.
Definition READ : Z := 0x01.
Definition WRITE : Z := 0x02.
Definition READ_WRITE : Z := 0x03.
End VehiclePropertyAccess.

Module VehiclePropertyChangeMode.
Definition STATIC : Z := 0x00.
Definition ON_CHANGE : Z := 0x01.
Definition CONTINUOUS : Z := 0x02.
End VehiclePropertyChangeMode.

(** ** Parcelables *)

Record RawPropValues : Type := mkRaw {
  int32Values : list Z;
  floatValues : list f32;
  int64Values : list Z;
  byteValues : list Z;
  stringValue : string;
}.

Definition emptyRaw : RawPropValues := mkRaw [] [] [] [] "".

Record VehiclePropValue : Type := mkPropValue {
  timestamp : Z;
  areaId : Z;
  prop : Z;
  status : Z;
  value : RawPropValues;
}.

(** A value-initialised [VehiclePropValue]. *)
Definition emptyPropValue : VehiclePropValue :=
  mkPropValue 0 0 0 VehiclePropertyStatus.AVAILABLE emptyRaw.

Record HasSupportedValueInfo : Type := mkHasSupportedValueInfo {
  hasMinSupportedValue : bool;
  hasMaxSupportedValue : bool;
  hasSupportedValuesList : bool;
}.

Record VehicleAreaConfig : Type := mkAreaConfig {
  ac_areaId : Z;
  minInt32Value : Z;
  maxInt32Value : Z;
  minInt64Value : Z;
  maxInt64Value : Z;
  minFloatValue : f32;
  maxFloatValue : f32;
  supportedEnumValues : option (list Z);
  ac_access : Z;
  supportVariableUpdateRate : bool;
  hasSupportedValueInfo : option HasSupportedValueInfo;
}.

(** A value-initialised area configuration for an area. *)
Definition areaConfigFor (a : Z) : VehicleAreaConfig :=
  mkAreaConfig a 0 0 0 0 f32_zero f32_zero None VehiclePropertyAccess.NONE false None.

Record VehiclePropConfig : Type := mkPropConfig {
  pc_prop : Z;
  pc_access : Z;
  changeMode : Z;
  areaConfigs : list VehicleAreaConfig;
  configArray : list Z;
  configString : string;
  minSampleRate : f32;
  maxSampleRate : f32;
}.

Record SubscribeOptions : Type := mkSubscribeOptions {
  so_propId : Z;
  so_areaIds : list Z;
  sampleRate : f32;
  resolution : f32;
  enableVariableUpdateRate : bool;
}.

Record PropIdAreaId : Type := mkPropIdAreaId { pa_propId : Z; pa_areaId : Z }.

(** ** Requests and results *)

Record GetValueResult := mkGetValueResult {
  gr_requestId : Z;
  gr_status : StatusCode;
  gr_prop : option VehiclePropValue
}.

Record SetValueResult := mkSetValueResult {
  sr_requestId : Z;
  sr_status : StatusCode
}.

Record VehiclePropError := mkPropError {
  pe_propId : Z;
  pe_areaId : Z;
  pe_errorCode : StatusCode
}.

Record GetValueRequest := mkGetValueRequest {
  gq_requestId : Z;
  gq_prop : VehiclePropValue
}.

Record SetValueRequest := mkSetValueRequest {
  sq_requestId : Z;
  sq_value : VehiclePropValue
}.

Record SupportedValuesListResult := mkSupportedValuesListResult {
  sl_status : StatusCode;
  supportedValuesList : option (list (option RawPropValues))
}.

Record MinMaxSupportedValueResult := mkMinMaxSupportedValueResult {
  mm_status : StatusCode;
  minSupportedValue : option RawPropValues;
  maxSupportedValue : option RawPropValues
}.

#[export] Instance RawPropValues_eq_dec : EqDecision RawPropValues.
Proof. solve_decision. Defined.
#[export] Instance VehiclePropValue_eq_dec : EqDecision VehiclePropValue.
Proof. solve_decision. Defined.
#[export] Instance PropIdAreaId_eq_dec : EqDecision PropIdAreaId.
Proof. solve_decision. Defined.
#[export] Instance PropIdAreaId_countable : Countable PropIdAreaId.
Proof.
  refine (inj_countable' (λ p, (pa_propId p, pa_areaId p)) (λ q, mkPropIdAreaId q.1 q.2) _).
  by intros [].
Defined.

(** ** Field updates *)

Definition set_timestamp (t : Z) (v : VehiclePropValue) : VehiclePropValue :=
  mkPropValue t (areaId v) (prop v) (status v) (value v).
Definition set_status (s : Z) (v : VehiclePropValue) : VehiclePropValue :=
  mkPropValue (timestamp v) (areaId v) (prop v) s (value v).
Definition set_value (r : RawPropValues) (v : VehiclePropValue) : VehiclePropValue :=
  mkPropValue (timestamp v) (areaId v) (prop v) (status v) r.

(** ** Comparison

    The generated [operator==] compares the fields in order; floats compare
    with [==] (a NaN differs from itself, [-0] equals [0]). *)

Definition RawPropValues_eqb (a b : RawPropValues) : bool :=
  list_eqb Z.eqb (int32Values a) (int32Values b) &&
  list_eqb f32_eqb (floatValues a) (floatValues b) &&
  list_eqb Z.eqb (int64Values a) (int64Values b) &&
  list_eqb Z.eqb (byteValues a) (byteValues b) &&
  String.eqb (stringValue a) (stringValue b).

Definition no_nan (r : RawPropValues) : Prop :=
  Forall (λ f, f32_is_nan f = false) (floatValues r).

Lemma RawPropValues_eqb_refl r : no_nan r → RawPropValues_eqb r r = true.
Proof.
  intros Hn. unfold RawPropValues_eqb.
  assert (∀ l : list Z, list_eqb Z.eqb l l = true) as Hz.
  { intros l. apply list_eqb_eq; [apply Z.eqb_eq|done]. }
  rewrite !Hz, String.eqb_refl, list_eqb_refl; [done|].
  eapply Forall_impl; [exact Hn|]. intros f. apply f32_eqb_refl.
Qed.

#[export] Hint Resolve RawPropValues_eqb_refl : vhal.

(** Well-formedness: every integer field holds a value of its C++ width. *)
Definition raw_wf (r : RawPropValues) : Prop :=
  Forall in_i32 (int32Values r) ∧ Forall in_i64 (int64Values r) ∧
  Forall (λ b, 0 ≤ b < 256) (byteValues r).
Definition value_wf (v : VehiclePropValue) : Prop :=
  in_i64 (timestamp v) ∧ in_i32 (areaId v) ∧ in_i32 (prop v) ∧ in_i32 (status v) ∧
  raw_wf (value v).
