(* ===== verification/VehicleProperty.v ===== *)
(** * The property identifiers

    The enumerators of [VehicleProperty.aidl] and, in their order, the range
    the generated header iterates ([ndk::enum_range<VehicleProperty>]). *)

From stdpp Require Import base list.
From Stdlib Require Import ZArith.

Local Open Scope Z_scope.

Module VehicleProperty.
Definition INVALID : Z := 0x00000000.
Definition INFO_VIN : Z := 0x11100100.
Definition INFO_MAKE : Z := 0x11100101.
Definition INFO_MODEL : Z := 0x11100102.
Definition INFO_MODEL_YEAR : Z := 0x11400103.
Definition INFO_FUEL_CAPACITY : Z := 0x11600104.
Definition INFO_FUEL_TYPE : Z := 0x11410105.
Definition INFO_EV_BATTERY_CAPACITY : Z := 0x11600106.
Definition INFO_EV_CONNECTOR_TYPE : Z := 0x11410107.
Definition INFO_FUEL_DOOR_LOCATION : Z := 0x11400108.
Definition INFO_EV_PORT_LOCATION : Z := 0x11400109.
Definition INFO_DRIVER_SEAT : Z := 0x1540010a.
Definition INFO_EXTERIOR_DIMENSIONS : Z := 0x1141010b.
Definition INFO_MULTI_EV_PORT_LOCATIONS : Z := 0x1141010c.
Definition INFO_MODEL_TRIM : Z := 0x1110010d.
Definition INFO_VEHICLE_SIZE_CLASS : Z := 0x1141010e.
Definition PERF_ODOMETER : Z := 0x11600204.
Definition PERF_VEHICLE_SPEED : Z := 0x11600207.
Definition PERF_VEHICLE_SPEED_DISPLAY : Z := 0x11600208.
Definition PERF_STEERING_ANGLE : Z := 0x11600209.
Definition PERF_REAR_STEERING_ANGLE : Z := 0x11600210.
Definition INSTANTANEOUS_FUEL_ECONOMY : Z := 0x11600211.
Definition INSTANTANEOUS_EV_EFFICIENCY : Z := 0x11600212.
Definition ENGINE_COOLANT_TEMP : Z := 0x11600301.
Definition ENGINE_OIL_LEVEL : Z := 0x11400303.
Definition ENGINE_OIL_TEMP : Z := 0x11600304.
Definition ENGINE_RPM : Z := 0x11600305.
Definition WHEEL_TICK : Z := 0x11510306.
Definition FUEL_LEVEL : Z := 0x11600307.
Definition FUEL_DOOR_OPEN : Z := 0x11200308.
Definition EV_BATTERY_LEVEL : Z := 0x11600309.
Definition EV_CURRENT_BATTERY_CAPACITY : Z := 0x1160030d.
Definition EV_CHARGE_PORT_OPEN : Z := 0x1120030a.
Definition EV_CHARGE_PORT_CONNECTED : Z := 0x1120030b.
Definition EV_BATTERY_INSTANTANEOUS_CHARGE_RATE : Z := 0x1160030c.
Definition RANGE_REMAINING : Z := 0x11600308.
Definition EV_BATTERY_AVERAGE_TEMPERATURE : Z := 0x1160030e.
Definition TIRE_PRESSURE : Z := 0x17600309.
Definition CRITICALLY_LOW_TIRE_PRESSURE : Z := 0x1760030a.
Definition ACCELERATOR_PEDAL_COMPRESSION_PERCENTAGE : Z := 0x1160030f.
Definition BRAKE_PEDAL_COMPRESSION_PERCENTAGE : Z := 0x11600310.
Definition BRAKE_PAD_WEAR_PERCENTAGE : Z := 0x17600311.
Definition BRAKE_FLUID_LEVEL_LOW : Z := 0x11200312.
Definition VEHICLE_PASSIVE_SUSPENSION_HEIGHT : Z := 0x17400313.
Definition ENGINE_IDLE_AUTO_STOP_ENABLED : Z := 0x11200320.
Definition IMPACT_DETECTED : Z := 0x11400330.
Definition VEHICLE_HORN_ENGAGED : Z := 0x11200340.
Definition GEAR_SELECTION : Z := 0x11400400.
Definition CURRENT_GEAR : Z := 0x11400401.
Definition PARKING_BRAKE_ON : Z := 0x11200402.
Definition PARKING_BRAKE_AUTO_APPLY : Z := 0x11200403.
Definition EV_BRAKE_REGENERATION_LEVEL : Z := 0x1140040c.
Definition FUEL_LEVEL_LOW : Z := 0x11200405.
Definition NIGHT_MODE : Z := 0x11200407.
Definition TURN_SIGNAL_STATE : Z := 0x11400408.
Definition IGNITION_STATE : Z := 0x11400409.
Definition ABS_ACTIVE : Z := 0x1120040a.
Definition TRACTION_CONTROL_ACTIVE : Z := 0x1120040b.
Definition EV_STOPPING_MODE : Z := 0x1140040d.
Definition ELECTRONIC_STABILITY_CONTROL_ENABLED : Z := 0x1120040e.
Definition ELECTRONIC_STABILITY_CONTROL_STATE : Z := 0x1140040f.
Definition TURN_SIGNAL_LIGHT_STATE : Z := 0x11400410.
Definition TURN_SIGNAL_SWITCH : Z := 0x11400411.
Definition HVAC_FAN_SPEED : Z := 0x15400500.
Definition HVAC_FAN_DIRECTION : Z := 0x15400501.
Definition HVAC_TEMPERATURE_CURRENT : Z := 0x15600502.
Definition HVAC_TEMPERATURE_SET : Z := 0x15600503.
Definition HVAC_DEFROSTER : Z := 0x13200504.
Definition HVAC_AC_ON : Z := 0x15200505.
Definition HVAC_MAX_AC_ON : Z := 0x15200506.
Definition HVAC_MAX_DEFROST_ON : Z := 0x15200507.
Definition HVAC_RECIRC_ON : Z := 0x15200508.
Definition HVAC_DUAL_ON : Z := 0x15200509.
Definition HVAC_AUTO_ON : Z := 0x1520050a.
Definition HVAC_SEAT_TEMPERATURE : Z := 0x1540050b.
Definition HVAC_SIDE_MIRROR_HEAT : Z := 0x1440050c.
Definition HVAC_STEERING_WHEEL_HEAT : Z := 0x1140050d.
Definition HVAC_TEMPERATURE_DISPLAY_UNITS : Z := 0x1140050e.
Definition HVAC_ACTUAL_FAN_SPEED_RPM : Z := 0x1540050f.
Definition HVAC_POWER_ON : Z := 0x15200510.
Definition HVAC_FAN_DIRECTION_AVAILABLE : Z := 0x15410511.
Definition HVAC_AUTO_RECIRC_ON : Z := 0x15200512.
Definition HVAC_SEAT_VENTILATION : Z := 0x15400513.
Definition HVAC_ELECTRIC_DEFROSTER_ON : Z := 0x13200514.
Definition HVAC_TEMPERATURE_VALUE_SUGGESTION : Z := 0x11610515.
Definition DISTANCE_DISPLAY_UNITS : Z := 0x11400600.
Definition FUEL_VOLUME_DISPLAY_UNITS : Z := 0x11400601.
Definition TIRE_PRESSURE_DISPLAY_UNITS : Z := 0x11400602.
Definition EV_BATTERY_DISPLAY_UNITS : Z := 0x11400603.
Definition FUEL_CONSUMPTION_UNITS_DISTANCE_OVER_VOLUME : Z := 0x11200604.
Definition VEHICLE_SPEED_DISPLAY_UNITS : Z := 0x11400605.
Definition EXTERNAL_CAR_TIME : Z := 0x11500608.
Definition ANDROID_EPOCH_TIME : Z := 0x11500606.
Definition STORAGE_ENCRYPTION_BINDING_SEED : Z := 0x11700607.
Definition ENV_OUTSIDE_TEMPERATURE : Z := 0x11600703.
Definition AP_POWER_STATE_REQ : Z := 0x11410a00.
Definition AP_POWER_STATE_REPORT : Z := 0x11410a01.
Definition AP_POWER_BOOTUP_REASON : Z := 0x11400a02.
Definition DISPLAY_BRIGHTNESS : Z := 0x11400a03.
Definition PER_DISPLAY_BRIGHTNESS : Z := 0x11410a04.
Definition VALET_MODE_ENABLED : Z := 0x11200a05.
Definition HEAD_UP_DISPLAY_ENABLED : Z := 0x15200a06.
Definition HW_KEY_INPUT : Z := 0x11410a10.
Definition HW_KEY_INPUT_V2 : Z := 0x15e00a11.
Definition HW_MOTION_INPUT : Z := 0x15e00a12.
Definition HW_ROTARY_INPUT : Z := 0x11410a20.
Definition HW_CUSTOM_INPUT : Z := 0x11410a30.
Definition DOOR_POS : Z := 0x16400b00.
Definition DOOR_MOVE : Z := 0x16400b01.
Definition DOOR_LOCK : Z := 0x16200b02.
Definition DOOR_CHILD_LOCK_ENABLED : Z := 0x16200b03.
Definition MIRROR_Z_POS : Z := 0x14400b40.
Definition MIRROR_Z_MOVE : Z := 0x14400b41.
Definition MIRROR_Y_POS : Z := 0x14400b42.
Definition MIRROR_Y_MOVE : Z := 0x14400b43.
Definition MIRROR_LOCK : Z := 0x11200b44.
Definition MIRROR_FOLD : Z := 0x11200b45.
Definition MIRROR_AUTO_FOLD_ENABLED : Z := 0x14200b46.
Definition MIRROR_AUTO_TILT_ENABLED : Z := 0x14200b47.
Definition SEAT_MEMORY_SELECT : Z := 0x15400b80.
Definition SEAT_MEMORY_SET : Z := 0x15400b81.
Definition SEAT_BELT_BUCKLED : Z := 0x15200b82.
Definition SEAT_BELT_HEIGHT_POS : Z := 0x15400b83.
Definition SEAT_BELT_HEIGHT_MOVE : Z := 0x15400b84.
Definition SEAT_FORE_AFT_POS : Z := 0x15400b85.
Definition SEAT_FORE_AFT_MOVE : Z := 0x15400b86.
Definition SEAT_BACKREST_ANGLE_1_POS : Z := 0x15400b87.
Definition SEAT_BACKREST_ANGLE_1_MOVE : Z := 0x15400b88.
Definition SEAT_BACKREST_ANGLE_2_POS : Z := 0x15400b89.
Definition SEAT_BACKREST_ANGLE_2_MOVE : Z := 0x15400b8a.
Definition SEAT_HEIGHT_POS : Z := 0x15400b8b.
Definition SEAT_HEIGHT_MOVE : Z := 0x15400b8c.
Definition SEAT_DEPTH_POS : Z := 0x15400b8d.
Definition SEAT_DEPTH_MOVE : Z := 0x15400b8e.
Definition SEAT_TILT_POS : Z := 0x15400b8f.
Definition SEAT_TILT_MOVE : Z := 0x15400b90.
Definition SEAT_LUMBAR_FORE_AFT_POS : Z := 0x15400b91.
Definition SEAT_LUMBAR_FORE_AFT_MOVE : Z := 0x15400b92.
Definition SEAT_LUMBAR_SIDE_SUPPORT_POS : Z := 0x15400b93.
Definition SEAT_LUMBAR_SIDE_SUPPORT_MOVE : Z := 0x15400b94.
Definition SEAT_HEADREST_HEIGHT_POS : Z := 0x11400b95.
Definition SEAT_HEADREST_HEIGHT_POS_V2 : Z := 0x15400ba4.
Definition SEAT_HEADREST_HEIGHT_MOVE : Z := 0x15400b96.
Definition SEAT_HEADREST_ANGLE_POS : Z := 0x15400b97.
Definition SEAT_HEADREST_ANGLE_MOVE : Z := 0x15400b98.
Definition SEAT_HEADREST_FORE_AFT_POS : Z := 0x15400b99.
Definition SEAT_HEADREST_FORE_AFT_MOVE : Z := 0x15400b9a.
Definition SEAT_FOOTWELL_LIGHTS_STATE : Z := 0x15400b9b.
Definition SEAT_FOOTWELL_LIGHTS_SWITCH : Z := 0x15400b9c.
Definition SEAT_EASY_ACCESS_ENABLED : Z := 0x15200b9d.
Definition SEAT_AIRBAG_ENABLED : Z := 0x15200b9e.
Definition SEAT_AIRBAGS_DEPLOYED : Z := 0x15400ba5.
Definition SEAT_CUSHION_SIDE_SUPPORT_POS : Z := 0x15400b9f.
Definition SEAT_CUSHION_SIDE_SUPPORT_MOVE : Z := 0x15400ba0.
Definition SEAT_LUMBAR_VERTICAL_POS : Z := 0x15400ba1.
Definition SEAT_LUMBAR_VERTICAL_MOVE : Z := 0x15400ba2.
Definition SEAT_WALK_IN_POS : Z := 0x15400ba3.
Definition SEAT_BELT_PRETENSIONER_DEPLOYED : Z := 0x15200ba6.
Definition SEAT_OCCUPANCY : Z := 0x15400bb0.
Definition WINDOW_POS : Z := 0x13400bc0.
Definition WINDOW_MOVE : Z := 0x13400bc1.
Definition WINDOW_LOCK : Z := 0x13200bc4.
Definition WINDSHIELD_WIPERS_PERIOD : Z := 0x13400bc5.
Definition WINDSHIELD_WIPERS_STATE : Z := 0x13400bc6.
Definition WINDSHIELD_WIPERS_SWITCH : Z := 0x13400bc7.
Definition STEERING_WHEEL_DEPTH_POS : Z := 0x11400be0.
Definition STEERING_WHEEL_DEPTH_MOVE : Z := 0x11400be1.
Definition STEERING_WHEEL_HEIGHT_POS : Z := 0x11400be2.
Definition STEERING_WHEEL_HEIGHT_MOVE : Z := 0x11400be3.
Definition STEERING_WHEEL_THEFT_LOCK_ENABLED : Z := 0x11200be4.
Definition STEERING_WHEEL_LOCKED : Z := 0x11200be5.
Definition STEERING_WHEEL_EASY_ACCESS_ENABLED : Z := 0x11200be6.
Definition GLOVE_BOX_DOOR_POS : Z := 0x15400bf0.
Definition GLOVE_BOX_LOCKED : Z := 0x15200bf1.
Definition VEHICLE_MAP_SERVICE : Z := 0x11e00c00.
Definition LOCATION_CHARACTERIZATION : Z := 0x11400c10.
Definition ULTRASONICS_SENSOR_POSITION : Z := 0x18410c20.
Definition ULTRASONICS_SENSOR_ORIENTATION : Z := 0x18610c21.
Definition ULTRASONICS_SENSOR_FIELD_OF_VIEW : Z := 0x18410c22.
Definition ULTRASONICS_SENSOR_DETECTION_RANGE : Z := 0x18410c23.
Definition ULTRASONICS_SENSOR_SUPPORTED_RANGES : Z := 0x18410c24.
Definition ULTRASONICS_SENSOR_MEASURED_DISTANCE : Z := 0x18410c25.
Definition OBD2_LIVE_FRAME : Z := 0x11e00d00.
Definition OBD2_FREEZE_FRAME : Z := 0x11e00d01.
Definition OBD2_FREEZE_FRAME_INFO : Z := 0x11e00d02.
Definition OBD2_FREEZE_FRAME_CLEAR : Z := 0x11e00d03.
Definition HEADLIGHTS_STATE : Z := 0x11400e00.
Definition HIGH_BEAM_LIGHTS_STATE : Z := 0x11400e01.
Definition FOG_LIGHTS_STATE : Z := 0x11400e02.
Definition HAZARD_LIGHTS_STATE : Z := 0x11400e03.
Definition HEADLIGHTS_SWITCH : Z := 0x11400e10.
Definition HIGH_BEAM_LIGHTS_SWITCH : Z := 0x11400e11.
Definition FOG_LIGHTS_SWITCH : Z := 0x11400e12.
Definition HAZARD_LIGHTS_SWITCH : Z := 0x11400e13.
Definition CABIN_LIGHTS_STATE : Z := 0x11400f01.
Definition CABIN_LIGHTS_SWITCH : Z := 0x11400f02.
Definition READING_LIGHTS_STATE : Z := 0x15400f03.
Definition READING_LIGHTS_SWITCH : Z := 0x15400f04.
Definition STEERING_WHEEL_LIGHTS_STATE : Z := 0x11400f0c.
Definition STEERING_WHEEL_LIGHTS_SWITCH : Z := 0x11400f0d.
Definition SUPPORT_CUSTOMIZE_VENDOR_PERMISSION : Z := 0x11200f05.
Definition DISABLED_OPTIONAL_FEATURES : Z := 0x11100f06.
Definition INITIAL_USER_INFO : Z := 0x11e00f07.
Definition SWITCH_USER : Z := 0x11e00f08.
Definition CREATE_USER : Z := 0x11e00f09.
Definition REMOVE_USER : Z := 0x11e00f0a.
Definition USER_IDENTIFICATION_ASSOCIATION : Z := 0x11e00f0b.
Definition EVS_SERVICE_REQUEST : Z := 0x11410f10.
Definition POWER_POLICY_REQ : Z := 0x11100f21.
Definition POWER_POLICY_GROUP_REQ : Z := 0x11100f22.
Definition CURRENT_POWER_POLICY : Z := 0x11100f23.
Definition WATCHDOG_ALIVE : Z := 0x11500f31.
Definition WATCHDOG_TERMINATED_PROCESS : Z := 0x11e00f32.
Definition VHAL_HEARTBEAT : Z := 0x11500f33.
Definition CLUSTER_SWITCH_UI : Z := 0x11400f34.
Definition CLUSTER_DISPLAY_STATE : Z := 0x11410f35.
Definition CLUSTER_REPORT_STATE : Z := 0x11e00f36.
Definition CLUSTER_REQUEST_DISPLAY : Z := 0x11400f37.
Definition CLUSTER_NAVIGATION_STATE : Z := 0x11700f38.
Definition ELECTRONIC_TOLL_COLLECTION_CARD_TYPE : Z := 0x11400f39.
Definition ELECTRONIC_TOLL_COLLECTION_CARD_STATUS : Z := 0x11400f3a.
Definition FRONT_FOG_LIGHTS_STATE : Z := 0x11400f3b.
Definition FRONT_FOG_LIGHTS_SWITCH : Z := 0x11400f3c.
Definition REAR_FOG_LIGHTS_STATE : Z := 0x11400f3d.
Definition REAR_FOG_LIGHTS_SWITCH : Z := 0x11400f3e.
Definition EV_CHARGE_CURRENT_DRAW_LIMIT : Z := 0x11600f3f.
Definition EV_CHARGE_PERCENT_LIMIT : Z := 0x11600f40.
Definition EV_CHARGE_STATE : Z := 0x11400f41.
Definition EV_CHARGE_SWITCH : Z := 0x11200f42.
Definition EV_CHARGE_TIME_REMAINING : Z := 0x11400f43.
Definition EV_REGENERATIVE_BRAKING_STATE : Z := 0x11400f44.
Definition TRAILER_PRESENT : Z := 0x11400f45.
Definition VEHICLE_CURB_WEIGHT : Z := 0x11400f46.
Definition GENERAL_SAFETY_REGULATION_COMPLIANCE_REQUIREMENT : Z := 0x11400f47.
Definition SUPPORTED_PROPERTY_IDS : Z := 0x11410f48.
Definition SHUTDOWN_REQUEST : Z := 0x11400f49.
Definition VEHICLE_IN_USE : Z := 0x11200f4a.
Definition CLUSTER_HEARTBEAT : Z := 0x11e00f4b.
Definition VEHICLE_DRIVING_AUTOMATION_CURRENT_LEVEL : Z := 0x11400f4c.
Definition VEHICLE_DRIVING_AUTOMATION_TARGET_LEVEL : Z := 0x11400f4f.
Definition CAMERA_SERVICE_CURRENT_STATE : Z := 0x11410f4d.
Definition PER_DISPLAY_MAX_BRIGHTNESS : Z := 0x11410f4e.
Definition AUTOMATIC_EMERGENCY_BRAKING_ENABLED : Z := 0x11201000.
Definition AUTOMATIC_EMERGENCY_BRAKING_STATE : Z := 0x11401001.
Definition FORWARD_COLLISION_WARNING_ENABLED : Z := 0x11201002.
Definition FORWARD_COLLISION_WARNING_STATE : Z := 0x11401003.
Definition BLIND_SPOT_WARNING_ENABLED : Z := 0x11201004.
Definition BLIND_SPOT_WARNING_STATE : Z := 0x14401005.
Definition LANE_DEPARTURE_WARNING_ENABLED : Z := 0x11201006.
Definition LANE_DEPARTURE_WARNING_STATE : Z := 0x11401007.
Definition LANE_KEEP_ASSIST_ENABLED : Z := 0x11201008.
Definition LANE_KEEP_ASSIST_STATE : Z := 0x11401009.
Definition LANE_CENTERING_ASSIST_ENABLED : Z := 0x1120100a.
Definition LANE_CENTERING_ASSIST_COMMAND : Z := 0x1140100b.
Definition LANE_CENTERING_ASSIST_STATE : Z := 0x1140100c.
Definition EMERGENCY_LANE_KEEP_ASSIST_ENABLED : Z := 0x1120100d.
Definition EMERGENCY_LANE_KEEP_ASSIST_STATE : Z := 0x1140100e.
Definition CRUISE_CONTROL_ENABLED : Z := 0x1120100f.
Definition CRUISE_CONTROL_TYPE : Z := 0x11401010.
Definition CRUISE_CONTROL_STATE : Z := 0x11401011.
Definition CRUISE_CONTROL_COMMAND : Z := 0x11401012.
Definition CRUISE_CONTROL_TARGET_SPEED : Z := 0x11601013.
Definition ADAPTIVE_CRUISE_CONTROL_TARGET_TIME_GAP : Z := 0x11401014.
Definition ADAPTIVE_CRUISE_CONTROL_LEAD_VEHICLE_MEASURED_DISTANCE : Z := 0x11401015.
Definition HANDS_ON_DETECTION_ENABLED : Z := 0x11201016.
Definition HANDS_ON_DETECTION_DRIVER_STATE : Z := 0x11401017.
Definition HANDS_ON_DETECTION_WARNING : Z := 0x11401018.
Definition DRIVER_DROWSINESS_ATTENTION_SYSTEM_ENABLED : Z := 0x11201019.
Definition DRIVER_DROWSINESS_ATTENTION_STATE : Z := 0x1140101a.
Definition DRIVER_DROWSINESS_ATTENTION_WARNING_ENABLED : Z := 0x1120101b.
Definition DRIVER_DROWSINESS_ATTENTION_WARNING : Z := 0x1140101c.
Definition DRIVER_DISTRACTION_SYSTEM_ENABLED : Z := 0x1120101d.
Definition DRIVER_DISTRACTION_STATE : Z := 0x1140101e.
Definition DRIVER_DISTRACTION_WARNING_ENABLED : Z := 0x1120101f.
Definition DRIVER_DISTRACTION_WARNING : Z := 0x11401020.
Definition LOW_SPEED_COLLISION_WARNING_ENABLED : Z := 0x11201021.
Definition LOW_SPEED_COLLISION_WARNING_STATE : Z := 0x11401022.
Definition CROSS_TRAFFIC_MONITORING_ENABLED : Z := 0x11201023.
Definition CROSS_TRAFFIC_MONITORING_WARNING_STATE : Z := 0x11401024.
Definition LOW_SPEED_AUTOMATIC_EMERGENCY_BRAKING_ENABLED : Z := 0x11201025.
Definition LOW_SPEED_AUTOMATIC_EMERGENCY_BRAKING_STATE : Z := 0x11401026.

Definition enum_range : list Z :=
  [INVALID; INFO_VIN; INFO_MAKE; INFO_MODEL; INFO_MODEL_YEAR; INFO_FUEL_CAPACITY;
   INFO_FUEL_TYPE; INFO_EV_BATTERY_CAPACITY; INFO_EV_CONNECTOR_TYPE;
   INFO_FUEL_DOOR_LOCATION; INFO_EV_PORT_LOCATION; INFO_DRIVER_SEAT;
   INFO_EXTERIOR_DIMENSIONS; INFO_MULTI_EV_PORT_LOCATIONS; INFO_MODEL_TRIM;
   INFO_VEHICLE_SIZE_CLASS; PERF_ODOMETER; PERF_VEHICLE_SPEED; PERF_VEHICLE_SPEED_DISPLAY;
   PERF_STEERING_ANGLE; PERF_REAR_STEERING_ANGLE; INSTANTANEOUS_FUEL_ECONOMY;
   INSTANTANEOUS_EV_EFFICIENCY; ENGINE_COOLANT_TEMP; ENGINE_OIL_LEVEL; ENGINE_OIL_TEMP;
   ENGINE_RPM; WHEEL_TICK; FUEL_LEVEL; FUEL_DOOR_OPEN; EV_BATTERY_LEVEL;
   EV_CURRENT_BATTERY_CAPACITY; EV_CHARGE_PORT_OPEN; EV_CHARGE_PORT_CONNECTED;
   EV_BATTERY_INSTANTANEOUS_CHARGE_RATE; RANGE_REMAINING; EV_BATTERY_AVERAGE_TEMPERATURE;
   TIRE_PRESSURE; CRITICALLY_LOW_TIRE_PRESSURE; ACCELERATOR_PEDAL_COMPRESSION_PERCENTAGE;
   BRAKE_PEDAL_COMPRESSION_PERCENTAGE; BRAKE_PAD_WEAR_PERCENTAGE; BRAKE_FLUID_LEVEL_LOW;
   VEHICLE_PASSIVE_SUSPENSION_HEIGHT; ENGINE_IDLE_AUTO_STOP_ENABLED; IMPACT_DETECTED;
   VEHICLE_HORN_ENGAGED; GEAR_SELECTION; CURRENT_GEAR; PARKING_BRAKE_ON;
   PARKING_BRAKE_AUTO_APPLY; EV_BRAKE_REGENERATION_LEVEL; FUEL_LEVEL_LOW; NIGHT_MODE;
   TURN_SIGNAL_STATE; IGNITION_STATE; ABS_ACTIVE; TRACTION_CONTROL_ACTIVE;
   EV_STOPPING_MODE; ELECTRONIC_STABILITY_CONTROL_ENABLED;
   ELECTRONIC_STABILITY_CONTROL_STATE; TURN_SIGNAL_LIGHT_STATE; TURN_SIGNAL_SWITCH;
   HVAC_FAN_SPEED; HVAC_FAN_DIRECTION; HVAC_TEMPERATURE_CURRENT; HVAC_TEMPERATURE_SET;
   HVAC_DEFROSTER; HVAC_AC_ON; HVAC_MAX_AC_ON; HVAC_MAX_DEFROST_ON; HVAC_RECIRC_ON;
   HVAC_DUAL_ON; HVAC_AUTO_ON; HVAC_SEAT_TEMPERATURE; HVAC_SIDE_MIRROR_HEAT;
   HVAC_STEERING_WHEEL_HEAT; HVAC_TEMPERATURE_DISPLAY_UNITS; HVAC_ACTUAL_FAN_SPEED_RPM;
   HVAC_POWER_ON; HVAC_FAN_DIRECTION_AVAILABLE; HVAC_AUTO_RECIRC_ON; HVAC_SEAT_VENTILATION;
   HVAC_ELECTRIC_DEFROSTER_ON; HVAC_TEMPERATURE_VALUE_SUGGESTION; DISTANCE_DISPLAY_UNITS;
   FUEL_VOLUME_DISPLAY_UNITS; TIRE_PRESSURE_DISPLAY_UNITS; EV_BATTERY_DISPLAY_UNITS;
   FUEL_CONSUMPTION_UNITS_DISTANCE_OVER_VOLUME; VEHICLE_SPEED_DISPLAY_UNITS;
   EXTERNAL_CAR_TIME; ANDROID_EPOCH_TIME; STORAGE_ENCRYPTION_BINDING_SEED;
   ENV_OUTSIDE_TEMPERATURE; AP_POWER_STATE_REQ; AP_POWER_STATE_REPORT;
   AP_POWER_BOOTUP_REASON; DISPLAY_BRIGHTNESS; PER_DISPLAY_BRIGHTNESS; VALET_MODE_ENABLED;
   HEAD_UP_DISPLAY_ENABLED; HW_KEY_INPUT; HW_KEY_INPUT_V2; HW_MOTION_INPUT;
   HW_ROTARY_INPUT; HW_CUSTOM_INPUT; DOOR_POS; DOOR_MOVE; DOOR_LOCK;
   DOOR_CHILD_LOCK_ENABLED; MIRROR_Z_POS; MIRROR_Z_MOVE; MIRROR_Y_POS; MIRROR_Y_MOVE;
   MIRROR_LOCK; MIRROR_FOLD; MIRROR_AUTO_FOLD_ENABLED; MIRROR_AUTO_TILT_ENABLED;
   SEAT_MEMORY_SELECT; SEAT_MEMORY_SET; SEAT_BELT_BUCKLED; SEAT_BELT_HEIGHT_POS;
   SEAT_BELT_HEIGHT_MOVE; SEAT_FORE_AFT_POS; SEAT_FORE_AFT_MOVE; SEAT_BACKREST_ANGLE_1_POS;
   SEAT_BACKREST_ANGLE_1_MOVE; SEAT_BACKREST_ANGLE_2_POS; SEAT_BACKREST_ANGLE_2_MOVE;
   SEAT_HEIGHT_POS; SEAT_HEIGHT_MOVE; SEAT_DEPTH_POS; SEAT_DEPTH_MOVE; SEAT_TILT_POS;
   SEAT_TILT_MOVE; SEAT_LUMBAR_FORE_AFT_POS; SEAT_LUMBAR_FORE_AFT_MOVE;
   SEAT_LUMBAR_SIDE_SUPPORT_POS; SEAT_LUMBAR_SIDE_SUPPORT_MOVE; SEAT_HEADREST_HEIGHT_POS;
   SEAT_HEADREST_HEIGHT_POS_V2; SEAT_HEADREST_HEIGHT_MOVE; SEAT_HEADREST_ANGLE_POS;
   SEAT_HEADREST_ANGLE_MOVE; SEAT_HEADREST_FORE_AFT_POS; SEAT_HEADREST_FORE_AFT_MOVE;
   SEAT_FOOTWELL_LIGHTS_STATE; SEAT_FOOTWELL_LIGHTS_SWITCH; SEAT_EASY_ACCESS_ENABLED;
   SEAT_AIRBAG_ENABLED; SEAT_AIRBAGS_DEPLOYED; SEAT_CUSHION_SIDE_SUPPORT_POS;
   SEAT_CUSHION_SIDE_SUPPORT_MOVE; SEAT_LUMBAR_VERTICAL_POS; SEAT_LUMBAR_VERTICAL_MOVE;
   SEAT_WALK_IN_POS; SEAT_BELT_PRETENSIONER_DEPLOYED; SEAT_OCCUPANCY; WINDOW_POS;
   WINDOW_MOVE; WINDOW_LOCK; WINDSHIELD_WIPERS_PERIOD; WINDSHIELD_WIPERS_STATE;
   WINDSHIELD_WIPERS_SWITCH; STEERING_WHEEL_DEPTH_POS; STEERING_WHEEL_DEPTH_MOVE;
   STEERING_WHEEL_HEIGHT_POS; STEERING_WHEEL_HEIGHT_MOVE;
   STEERING_WHEEL_THEFT_LOCK_ENABLED; STEERING_WHEEL_LOCKED;
   STEERING_WHEEL_EASY_ACCESS_ENABLED; GLOVE_BOX_DOOR_POS; GLOVE_BOX_LOCKED;
   VEHICLE_MAP_SERVICE; LOCATION_CHARACTERIZATION; ULTRASONICS_SENSOR_POSITION;
   ULTRASONICS_SENSOR_ORIENTATION; ULTRASONICS_SENSOR_FIELD_OF_VIEW;
   ULTRASONICS_SENSOR_DETECTION_RANGE; ULTRASONICS_SENSOR_SUPPORTED_RANGES;
   ULTRASONICS_SENSOR_MEASURED_DISTANCE; OBD2_LIVE_FRAME; OBD2_FREEZE_FRAME;
   OBD2_FREEZE_FRAME_INFO; OBD2_FREEZE_FRAME_CLEAR; HEADLIGHTS_STATE;
   HIGH_BEAM_LIGHTS_STATE; FOG_LIGHTS_STATE; HAZARD_LIGHTS_STATE; HEADLIGHTS_SWITCH;
   HIGH_BEAM_LIGHTS_SWITCH; FOG_LIGHTS_SWITCH; HAZARD_LIGHTS_SWITCH; CABIN_LIGHTS_STATE;
   CABIN_LIGHTS_SWITCH; READING_LIGHTS_STATE; READING_LIGHTS_SWITCH;
   STEERING_WHEEL_LIGHTS_STATE; STEERING_WHEEL_LIGHTS_SWITCH;
   SUPPORT_CUSTOMIZE_VENDOR_PERMISSION; DISABLED_OPTIONAL_FEATURES; INITIAL_USER_INFO;
   SWITCH_USER; CREATE_USER; REMOVE_USER; USER_IDENTIFICATION_ASSOCIATION;
   EVS_SERVICE_REQUEST; POWER_POLICY_REQ; POWER_POLICY_GROUP_REQ; CURRENT_POWER_POLICY;
   WATCHDOG_ALIVE; WATCHDOG_TERMINATED_PROCESS; VHAL_HEARTBEAT; CLUSTER_SWITCH_UI;
   CLUSTER_DISPLAY_STATE; CLUSTER_REPORT_STATE; CLUSTER_REQUEST_DISPLAY;
   CLUSTER_NAVIGATION_STATE; ELECTRONIC_TOLL_COLLECTION_CARD_TYPE;
   ELECTRONIC_TOLL_COLLECTION_CARD_STATUS; FRONT_FOG_LIGHTS_STATE; FRONT_FOG_LIGHTS_SWITCH;
   REAR_FOG_LIGHTS_STATE; REAR_FOG_LIGHTS_SWITCH; EV_CHARGE_CURRENT_DRAW_LIMIT;
   EV_CHARGE_PERCENT_LIMIT; EV_CHARGE_STATE; EV_CHARGE_SWITCH; EV_CHARGE_TIME_REMAINING;
   EV_REGENERATIVE_BRAKING_STATE; TRAILER_PRESENT; VEHICLE_CURB_WEIGHT;
   GENERAL_SAFETY_REGULATION_COMPLIANCE_REQUIREMENT; SUPPORTED_PROPERTY_IDS;
   SHUTDOWN_REQUEST; VEHICLE_IN_USE; CLUSTER_HEARTBEAT;
   VEHICLE_DRIVING_AUTOMATION_CURRENT_LEVEL; VEHICLE_DRIVING_AUTOMATION_TARGET_LEVEL;
   CAMERA_SERVICE_CURRENT_STATE; PER_DISPLAY_MAX_BRIGHTNESS;
   AUTOMATIC_EMERGENCY_BRAKING_ENABLED; AUTOMATIC_EMERGENCY_BRAKING_STATE;
   FORWARD_COLLISION_WARNING_ENABLED; FORWARD_COLLISION_WARNING_STATE;
   BLIND_SPOT_WARNING_ENABLED; BLIND_SPOT_WARNING_STATE; LANE_DEPARTURE_WARNING_ENABLED;
   LANE_DEPARTURE_WARNING_STATE; LANE_KEEP_ASSIST_ENABLED; LANE_KEEP_ASSIST_STATE;
   LANE_CENTERING_ASSIST_ENABLED; LANE_CENTERING_ASSIST_COMMAND;
   LANE_CENTERING_ASSIST_STATE; EMERGENCY_LANE_KEEP_ASSIST_ENABLED;
   EMERGENCY_LANE_KEEP_ASSIST_STATE; CRUISE_CONTROL_ENABLED; CRUISE_CONTROL_TYPE;
   CRUISE_CONTROL_STATE; CRUISE_CONTROL_COMMAND; CRUISE_CONTROL_TARGET_SPEED;
   ADAPTIVE_CRUISE_CONTROL_TARGET_TIME_GAP;
   ADAPTIVE_CRUISE_CONTROL_LEAD_VEHICLE_MEASURED_DISTANCE; HANDS_ON_DETECTION_ENABLED;
   HANDS_ON_DETECTION_DRIVER_STATE; HANDS_ON_DETECTION_WARNING;
   DRIVER_DROWSINESS_ATTENTION_SYSTEM_ENABLED; DRIVER_DROWSINESS_ATTENTION_STATE;
   DRIVER_DROWSINESS_ATTENTION_WARNING_ENABLED; DRIVER_DROWSINESS_ATTENTION_WARNING;
   DRIVER_DISTRACTION_SYSTEM_ENABLED; DRIVER_DISTRACTION_STATE;
   DRIVER_DISTRACTION_WARNING_ENABLED; DRIVER_DISTRACTION_WARNING;
   LOW_SPEED_COLLISION_WARNING_ENABLED; LOW_SPEED_COLLISION_WARNING_STATE;
   CROSS_TRAFFIC_MONITORING_ENABLED; CROSS_TRAFFIC_MONITORING_WARNING_STATE;
   LOW_SPEED_AUTOMATIC_EMERGENCY_BRAKING_ENABLED;
   LOW_SPEED_AUTOMATIC_EMERGENCY_BRAKING_STATE].
End VehicleProperty.
