(* ===== verification/VehicleUtils.v ===== *)
(** * VehicleUtils

    Property-id decoding, area configuration lookup, value construction and
    the request validity checks of
    [packages/vhal-types/aidl/impl/4/utils/common] ([VehicleUtils.h],
    [VehicleUtils.cpp]).  A read through a null pointer or past the end of a
    vector is an explicit [None] outcome. *)

From stdpp Require Import base gmap list strings.
From Stdlib Require Import ZArith Lia.
From S2P Require Import Prelude Float32 VehicleTypes.

Local Open Scope Z_scope.

(** ** Decoding a property id *)

Definition getPropType (p : Z) : Z := Z.land p VehiclePropertyType.MASK.
Definition getPropGroup (p : Z) : Z := Z.land p VehiclePropertyGroup.MASK.
Definition getPropArea (p : Z) : Z := Z.land p VehicleArea.MASK.
Definition isGlobalProp (p : Z) : bool := getPropArea p =? VehicleArea.GLOBAL.
Definition isSystemProp (p : Z) : bool := VehiclePropertyGroup.SYSTEM =? getPropGroup p.

(** The area configuration a request for [propId, areaId] uses. *)
Definition getAreaConfig (propId a : Z) (config : VehiclePropConfig) : option VehicleAreaConfig :=
  match areaConfigs config with
  | [] => None
  | c0 :: _ =>
      if isGlobalProp propId then Some c0
      else List.find (λ c, ac_areaId c =? a) (areaConfigs config)
  end.

Definition getAreaConfigOf (v : VehiclePropValue) (config : VehiclePropConfig) :
    option VehicleAreaConfig :=
  getAreaConfig (prop v) (areaId v) config.

(** ** Constructing and measuring values *)

Definition createVehiclePropValueVec (type : Z) (vecSize : nat) : VehiclePropValue :=
  let vec_i32 n := set_value (mkRaw (vec_resize 0 n []) [] [] [] "") emptyPropValue in
  let vec_f n := set_value (mkRaw [] (vec_resize f32_zero n []) [] [] "") emptyPropValue in
  let vec_i64 n := set_value (mkRaw [] [] (vec_resize 0 n []) [] "") emptyPropValue in
  if (type =? VehiclePropertyType.INT32) || (type =? VehiclePropertyType.BOOLEAN) then vec_i32 1%nat
  else if type =? VehiclePropertyType.INT32_VEC then vec_i32 vecSize
  else if type =? VehiclePropertyType.FLOAT then vec_f 1%nat
  else if type =? VehiclePropertyType.FLOAT_VEC then vec_f vecSize
  else if type =? VehiclePropertyType.INT64 then vec_i64 1%nat
  else if type =? VehiclePropertyType.INT64_VEC then vec_i64 vecSize
  else if type =? VehiclePropertyType.BYTES then
    set_value (mkRaw [] [] [] (vec_resize 0 vecSize []) "") emptyPropValue
  else emptyPropValue.

Definition createVehiclePropValue (type : Z) : VehiclePropValue :=
  createVehiclePropValueVec type 1.

Definition getVehicleRawValueVectorSize (v : RawPropValues) (type : Z) : nat :=
  if (type =? VehiclePropertyType.INT32) || (type =? VehiclePropertyType.BOOLEAN)
  then Nat.min (length (int32Values v)) 1
  else if type =? VehiclePropertyType.FLOAT then Nat.min (length (floatValues v)) 1
  else if type =? VehiclePropertyType.INT64 then Nat.min (length (int64Values v)) 1
  else if type =? VehiclePropertyType.INT32_VEC then length (int32Values v)
  else if type =? VehiclePropertyType.FLOAT_VEC then length (floatValues v)
  else if type =? VehiclePropertyType.INT64_VEC then length (int64Values v)
  else if type =? VehiclePropertyType.BYTES then length (byteValues v)
  else 0%nat.

(** The destination is overwritten field by field. *)
Definition copyVehicleRawValue (dest src : RawPropValues) : RawPropValues :=
  mkRaw (int32Values src) (floatValues src) (int64Values src) (byteValues src) (stringValue src).

(** The sizes of [timestamp], [areaId], [prop], [status] and of the elements. *)
Definition getVehiclePropValueSize (p : VehiclePropValue) : Z :=
  8 + 4 + 4 + 4
  + Z.of_nat (length (int32Values (value p))) * 4
  + Z.of_nat (length (int64Values (value p))) * 8
  + Z.of_nat (length (floatValues (value p))) * 4
  + Z.of_nat (length (byteValues (value p))) * 1
  + Z.of_nat (String.length (stringValue (value p))).

(** ** Validity of a value against its configuration *)

(** The error returns, with the data their messages interpolate. *)
Inductive CheckError : Type :=
| ExpectOneInt32 | ExpectInt32Vec | ExpectOneInt64 | ExpectInt64Vec
| ExpectOneFloat | ExpectFloatVec
| UnknownPropertyType (type : Z)
| MixedInt32 (got expect : Z) | MixedInt64 (got expect : Z)
| MixedFloat (got expect : Z) | MixedByte (got expect : Z)
| Int32OutOfRange (v : Z) | Int64OutOfRange (v : Z) | FloatOutOfRange (v : f32).

(** [std::vector::size] as a [size_t]. *)
Definition vsize {A} (l : list A) : Z := Z.of_nat (length l).

(** [count = 0; if (flag == 1) count++; count += (size_t) n], in [size_t]. *)
Definition count_flag (c f : Z) : Z := if f =? 1 then to_u64 (c + 1) else c.
Definition count_add (c n : Z) : Z := to_u64 (c + to_u64 n).

(** [None]: a null configuration or a [configArray] shorter than nine entries
    is read out of bounds. *)
Definition checkVendorMixedPropValue (v : VehiclePropValue) (config : option VehiclePropConfig) :
    option (result CheckError unit) :=
  match config with
  | None => None
  | Some cfg =>
    match configArray cfg with
    | _ :: c1 :: c2 :: c3 :: c4 :: c5 :: c6 :: c7 :: c8 :: _ =>
      let int32Count := count_add (count_flag (count_flag 0 c1) c2) c3 in
      let int32Size := vsize (int32Values (value v)) in
      if negb (int32Size =? int32Count) then Some (Err (MixedInt32 int32Size int32Count)) else
      let int64Count := count_add (count_flag 0 c4) c5 in
      let int64Size := vsize (int64Values (value v)) in
      if negb (int64Size =? int64Count) then Some (Err (MixedInt64 int64Size int64Count)) else
      let floatCount := count_add (count_flag 0 c6) c7 in
      let floatSize := vsize (floatValues (value v)) in
      if negb (floatSize =? floatCount) then Some (Err (MixedFloat floatSize floatCount)) else
      let byteSize := vsize (byteValues (value v)) in
      let byteCount := to_u64 c8 in
      if negb (byteCount =? 0) && negb (byteSize =? byteCount)
      then Some (Err (MixedByte byteSize byteCount)) else
      Some (Ok tt)
    | _ => None
    end
  end.

Definition checkPropValue (v : VehiclePropValue) (config : option VehiclePropConfig) :
    option (result CheckError unit) :=
  let property := prop v in
  let type := getPropType property in
  let r := value v in
  if (type =? VehiclePropertyType.BOOLEAN) || (type =? VehiclePropertyType.INT32) then
    Some (if negb (vsize (int32Values r) =? 1) then Err ExpectOneInt32 else Ok tt)
  else if type =? VehiclePropertyType.INT32_VEC then
    Some (if vsize (int32Values r) <? 1 then Err ExpectInt32Vec else Ok tt)
  else if type =? VehiclePropertyType.INT64 then
    Some (if negb (vsize (int64Values r) =? 1) then Err ExpectOneInt64 else Ok tt)
  else if type =? VehiclePropertyType.INT64_VEC then
    Some (if vsize (int64Values r) <? 1 then Err ExpectInt64Vec else Ok tt)
  else if type =? VehiclePropertyType.FLOAT then
    Some (if negb (vsize (floatValues r) =? 1) then Err ExpectOneFloat else Ok tt)
  else if type =? VehiclePropertyType.FLOAT_VEC then
    Some (if vsize (floatValues r) <? 1 then Err ExpectFloatVec else Ok tt)
  else if type =? VehiclePropertyType.BYTES then Some (Ok tt)
  else if type =? VehiclePropertyType.STRING then Some (Ok tt)
  else if type =? VehiclePropertyType.MIXED then
    if getPropGroup property =? VehiclePropertyGroup.VENDOR
    then checkVendorMixedPropValue v config
    else Some (Ok tt)
  else Some (Err (UnknownPropertyType type)).

Definition checkValueRange (v : VehiclePropValue) (areaConfig : option VehicleAreaConfig) :
    result CheckError unit :=
  match areaConfig with
  | None => Ok tt
  | Some ac =>
    let type := getPropType (prop v) in
    if (type =? VehiclePropertyType.INT32) || (type =? VehiclePropertyType.INT32_VEC) then
      if (minInt32Value ac =? 0) && (maxInt32Value ac =? 0) then Ok tt
      else check_each (λ i, if (i <? minInt32Value ac) || (maxInt32Value ac <? i)
                            then Some (Int32OutOfRange i) else None) (int32Values (value v))
    else if (type =? VehiclePropertyType.INT64) || (type =? VehiclePropertyType.INT64_VEC) then
      if (minInt64Value ac =? 0) && (maxInt64Value ac =? 0) then Ok tt
      else check_each (λ i, if (i <? minInt64Value ac) || (maxInt64Value ac <? i)
                            then Some (Int64OutOfRange i) else None) (int64Values (value v))
    else if (type =? VehiclePropertyType.FLOAT) || (type =? VehiclePropertyType.FLOAT_VEC) then
      if f32_eqb (minFloatValue ac) f32_zero && f32_eqb (maxFloatValue ac) f32_zero then Ok tt
      else check_each (λ f, if f32_ltb f (minFloatValue ac) || f32_ltb (maxFloatValue ac) f
                            then Some (FloatOutOfRange f) else None) (floatValues (value v))
    else Ok tt
  end.

(** ** Rounding a value to the resolution a subscriber asked for

    The conversion of an out-of-range float to an integer is undefined in C++;
    [ub_cast] stands for whatever the platform produces there. *)

Section sanitize.
  Context (ub_cast : f32 → Z).

Definition cast_i32 (x : f32) : Z := default (ub_cast x) (f32_to_i32 x).
Definition cast_i64 (x : f32) : Z := default (ub_cast x) (f32_to_i64 x).

Definition roundToNearestResolution {T} (to_float : T → f32) (cast : f32 → T)
    (arrayToSanitize : list T) (res : f32) : list T :=
  if f32_eqb res f32_zero then arrayToSanitize
  else map (λ x, cast (f32_mul (f32_round (f32_div (to_float x) res)) res)) arrayToSanitize.

Definition sanitizeByResolution (r : RawPropValues) (res : f32) : RawPropValues :=
  mkRaw (roundToNearestResolution f32_of_Z cast_i32 (int32Values r) res)
        (roundToNearestResolution id id (floatValues r) res)
        (roundToNearestResolution f32_of_Z cast_i64 (int64Values r) res)
        (byteValues r) (stringValue r).

End sanitize.

(** ** Lemmas *)

Ltac unfold_types :=
  unfold VehiclePropertyType.STRING, VehiclePropertyType.BOOLEAN, VehiclePropertyType.INT32,
    VehiclePropertyType.INT32_VEC, VehiclePropertyType.INT64, VehiclePropertyType.INT64_VEC,
    VehiclePropertyType.FLOAT, VehiclePropertyType.FLOAT_VEC, VehiclePropertyType.BYTES,
    VehiclePropertyType.MIXED in *.

(** Case analysis on a property type: one goal per enumerator, and one where
    every comparison with an enumerator has become [false]. *)
Ltac type_split ty :=
  unfold_types;
  destruct (Z.eq_dec ty 0x00100000) as [->|?]; [cbn|
  destruct (Z.eq_dec ty 0x00200000) as [->|?]; [cbn|
  destruct (Z.eq_dec ty 0x00400000) as [->|?]; [cbn|
  destruct (Z.eq_dec ty 0x00410000) as [->|?]; [cbn|
  destruct (Z.eq_dec ty 0x00500000) as [->|?]; [cbn|
  destruct (Z.eq_dec ty 0x00510000) as [->|?]; [cbn|
  destruct (Z.eq_dec ty 0x00600000) as [->|?]; [cbn|
  destruct (Z.eq_dec ty 0x00610000) as [->|?]; [cbn|
  destruct (Z.eq_dec ty 0x00700000) as [->|?]; [cbn|
  destruct (Z.eq_dec ty 0x00e00000) as [->|?]; [cbn|
  repeat match goal with
  | |- context [Z.eqb ty ?c] => replace (Z.eqb ty c) with false by (symmetry; apply Z.eqb_neq; lia)
  | |- context [Z.eqb ?c ty] => replace (Z.eqb c ty) with false by (symmetry; apply Z.eqb_neq; lia)
  end; cbn]]]]]]]]]].

Lemma getAreaConfig_global propId a cfg :
  isGlobalProp propId = true → getAreaConfig propId a cfg = head (areaConfigs cfg).
Proof. intros H. unfold getAreaConfig. rewrite H. by destruct (areaConfigs cfg). Qed.

Lemma getAreaConfig_area propId a cfg :
  isGlobalProp propId = false →
  getAreaConfig propId a cfg = List.find (λ c, ac_areaId c =? a) (areaConfigs cfg).
Proof. intros H. unfold getAreaConfig. rewrite H. by destruct (areaConfigs cfg). Qed.

(** A found configuration is one of the property's, for that area unless the
    property is global. *)
Lemma getAreaConfig_Some propId a cfg ac :
  getAreaConfig propId a cfg = Some ac →
  ac ∈ areaConfigs cfg ∧ (isGlobalProp propId = true ∨ ac_areaId ac = a).
Proof.
  destruct (isGlobalProp propId) eqn:Hg.
  - rewrite getAreaConfig_global by done. destruct (areaConfigs cfg); cbn; [done|].
    intros [= ->]. split; [left|by left].
  - rewrite getAreaConfig_area by done. intros [Hin Heq]%List.find_some.
    split; [by apply list_elem_of_In|right; lia].
Qed.

Lemma getAreaConfig_None propId a cfg :
  getAreaConfig propId a cfg = None ↔
  if isGlobalProp propId then areaConfigs cfg = []
  else Forall (λ c, ac_areaId c ≠ a) (areaConfigs cfg).
Proof.
  destruct (isGlobalProp propId) eqn:Hg.
  - rewrite getAreaConfig_global by done. by destruct (areaConfigs cfg).
  - rewrite getAreaConfig_area by done. split.
    + intros Hf. apply Forall_forall. intros c Hc%list_elem_of_In.
      pose proof (List.find_none _ _ Hf c Hc) as H. cbn in H. lia.
    + intros Hf. destruct (List.find _ _) eqn:Hfi; [|done].
      apply List.find_some in Hfi as [Hin%list_elem_of_In Heq].
      rewrite Forall_forall in Hf. exfalso. apply (Hf _ Hin). lia.
Qed.

(** *** What a valid value looks like *)

(** The shape the interface documents for each property type, as a predicate
    over the value alone (plus the configuration array of a vendor mixed
    property). *)
Definition flag01 (f : Z) : Z := if f =? 1 then 1 else 0.

Definition mixed_shape (r : RawPropValues) (ca : list Z) : Prop :=
  ∃ c0 c1 c2 c3 c4 c5 c6 c7 c8 rest,
    ca = c0 :: c1 :: c2 :: c3 :: c4 :: c5 :: c6 :: c7 :: c8 :: rest ∧
    vsize (int32Values r) = to_u64 (flag01 c1 + flag01 c2 + c3) ∧
    vsize (int64Values r) = to_u64 (flag01 c4 + c5) ∧
    vsize (floatValues r) = to_u64 (flag01 c6 + c7) ∧
    (to_u64 c8 = 0 ∨ vsize (byteValues r) = to_u64 c8).

Definition value_shape (type : Z) (r : RawPropValues) (vendor : bool)
    (config : option VehiclePropConfig) : Prop :=
  ((type = VehiclePropertyType.BOOLEAN ∨ type = VehiclePropertyType.INT32) ∧
   length (int32Values r) = 1%nat) ∨
  (type = VehiclePropertyType.INT32_VEC ∧ (1 ≤ length (int32Values r))%nat) ∨
  (type = VehiclePropertyType.INT64 ∧ length (int64Values r) = 1%nat) ∨
  (type = VehiclePropertyType.INT64_VEC ∧ (1 ≤ length (int64Values r))%nat) ∨
  (type = VehiclePropertyType.FLOAT ∧ length (floatValues r) = 1%nat) ∨
  (type = VehiclePropertyType.FLOAT_VEC ∧ (1 ≤ length (floatValues r))%nat) ∨
  type = VehiclePropertyType.BYTES ∨ type = VehiclePropertyType.STRING ∨
  (type = VehiclePropertyType.MIXED ∧
   (vendor = true → ∃ cfg, config = Some cfg ∧ mixed_shape r (configArray cfg))).

Lemma count_flag_spec c f : 0 ≤ c < 10 → count_flag c f = c + flag01 f.
Proof.
  intros H. unfold count_flag, flag01. destruct (f =? 1); [|lia].
  rewrite to_u64_id; [done|]. unfold_widths. lia.
Qed.

Lemma count_add_spec c n : 0 ≤ c < 10 → count_add c n = to_u64 (c + n).
Proof. intros H. unfold count_add, to_u64. by rewrite Zplus_mod_idemp_r. Qed.

Lemma flag01_range f : 0 ≤ flag01 f ≤ 1.
Proof. unfold flag01. destruct (f =? 1); lia. Qed.

Lemma checkVendorMixedPropValue_ok v cfg :
  checkVendorMixedPropValue v (Some cfg) = Some (Ok tt) ↔
  mixed_shape (value v) (configArray cfg).
Proof.
  unfold checkVendorMixedPropValue, mixed_shape.
  destruct (configArray cfg) as [|c0 [|c1 [|c2 [|c3 [|c4 [|c5 [|c6 [|c7 [|c8 rest]]]]]]]]];
    [split; [done|by intros (?&?&?&?&?&?&?&?&?&?&?&_)]..|].
  pose proof (flag01_range c1). pose proof (flag01_range c2).
  pose proof (flag01_range c4). pose proof (flag01_range c6).
  rewrite !count_flag_spec, !count_add_spec by (rewrite ?count_flag_spec; lia).
  rewrite !Z.add_0_l. split.
  - intros Hc. exists c0, c1, c2, c3, c4, c5, c6, c7, c8, rest. revert Hc. zcases; naive_solver.
  - intros (?&?&?&?&?&?&?&?&?&?&[= <- <- <- <- <- <- <- <- <- <-] & Ha & Hb & Hc & Hd).
    rewrite Ha, Hb, Hc, !Z.eqb_refl. cbn -[Z.eqb]. zcases; naive_solver.
Qed.

Lemma checkVendorMixedPropValue_defined v config :
  is_Some (checkVendorMixedPropValue v config) ↔
  ∃ cfg, config = Some cfg ∧ (9 ≤ length (configArray cfg))%nat.
Proof.
  unfold checkVendorMixedPropValue. destruct config as [cfg|].
  - destruct (configArray cfg) as [|c0 [|c1 [|c2 [|c3 [|c4 [|c5 [|c6 [|c7 [|c8 rest]]]]]]]]] eqn:E.
    all: try (split; [by intros [? ?]|intros (? & [= <-] & H); rewrite E in H; cbn in H; lia]).
    split; [|intros _; repeat case_match; eauto].
    intros _. exists cfg. rewrite E. cbn. split; [done|lia].
  - split; [by intros [? ?]|by intros (? & ? & _)].
Qed.

(** ** Theorems *)

Lemma checkPropValue_shape v config :
  checkPropValue v config = Some (Ok tt) ↔
  value_shape (getPropType (prop v)) (value v)
    (getPropGroup (prop v) =? VehiclePropertyGroup.VENDOR) config.
Proof.
  set (Q := ∃ cfg, config = Some cfg ∧ mixed_shape (value v) (configArray cfg)).
  assert (checkVendorMixedPropValue v config = Some (Ok tt) ↔ Q) as HQ.
  { unfold Q. setoid_rewrite <- checkVendorMixedPropValue_ok. destruct config; naive_solver. }
  unfold checkPropValue, value_shape, vsize. fold Q. clearbody Q.
  generalize (getPropType (prop v)) (getPropGroup (prop v) =? VehiclePropertyGroup.VENDOR).
  intros ty vendor. unfold_types.
  destruct vendor; zcases; cbn [orb negb]; try rewrite HQ; split; intros Hc;
    try discriminate Hc; try reflexivity; intuition lia.
Qed.

(** [checkPropValue] accepts exactly the values whose shape the property
    type (and, for vendor mixed properties, the configuration array)
    prescribes. *)
Theorem checkPropValue_ok_iff v config :
  checkPropValue v config = Some (Ok tt) ↔
  value_shape (getPropType (prop v)) (value v)
    (getPropGroup (prop v) =? VehiclePropertyGroup.VENDOR) config.
Proof. exact (checkPropValue_shape v config). Qed.

(** A request with the shape of [value_shape], for the witness. *)
Definition example_vendor_mixed : Z := 0x21e00001.
Definition example_mixed_config : VehiclePropConfig :=
  mkPropConfig example_vendor_mixed 3 1 [] [0; 1; 0; 2; 0; 1; 0; 0; 0] "" f32_zero f32_zero.

Example checkPropValue_mixed_accepts :
  checkPropValue
    (mkPropValue 0 0 example_vendor_mixed 0 (mkRaw [1; 2; 3] [] [7] [9; 9] ""))
    (Some example_mixed_config) = Some (Ok tt).
Proof. reflexivity. Qed.

(** [checkPropValue] dereferences the configuration unchecked: it reads a
    null configuration, or past the end of [configArray], exactly for vendor
    mixed properties whose configuration is absent or has fewer than nine
    [configArray] entries; every other call returns. *)
Theorem checkPropValue_undefined_iff v config :
  checkPropValue v config = None ↔
  getPropType (prop v) = VehiclePropertyType.MIXED ∧
  getPropGroup (prop v) = VehiclePropertyGroup.VENDOR ∧
  (∀ cfg, config = Some cfg → (length (configArray cfg) < 9)%nat).
Proof.
  pose proof (checkVendorMixedPropValue_defined v config) as Hd.
  rewrite <- not_eq_None_Some in Hd.
  assert (checkVendorMixedPropValue v config = None ↔
    ∀ cfg, config = Some cfg → (length (configArray cfg) < 9)%nat) as Hn.
  { split.
    - intros Hnone cfg ->. destruct (decide (length (configArray cfg) < 9)%nat); [done|].
      exfalso. apply Hd; [|done]. exists cfg. split; [done|lia].
    - intros Hlt. destruct (decide (checkVendorMixedPropValue v config = None)) as [|Hs]; [done|].
      apply Hd in Hs as (cfg & -> & Hl). specialize (Hlt _ eq_refl). lia. }
  rewrite <- Hn. unfold checkPropValue.
  generalize (getPropType (prop v)) (getPropGroup (prop v)). intros ty grp. unfold_types.
  zcases; subst; cbn [orb negb]; split; intros Hc; try discriminate Hc; intuition (discriminate || lia).
Qed.

(** The range a value must keep to: each element lies between the area's
    bounds, unless both bounds are zero. *)
Definition value_in_range (v : VehiclePropValue) (ac : VehicleAreaConfig) : Prop :=
  (getPropType (prop v) = VehiclePropertyType.INT32 ∨
   getPropType (prop v) = VehiclePropertyType.INT32_VEC →
   (minInt32Value ac = 0 ∧ maxInt32Value ac = 0) ∨
   Forall (λ i, minInt32Value ac ≤ i ≤ maxInt32Value ac) (int32Values (value v))) ∧
  (getPropType (prop v) = VehiclePropertyType.INT64 ∨
   getPropType (prop v) = VehiclePropertyType.INT64_VEC →
   (minInt64Value ac = 0 ∧ maxInt64Value ac = 0) ∨
   Forall (λ i, minInt64Value ac ≤ i ≤ maxInt64Value ac) (int64Values (value v))) ∧
  (getPropType (prop v) = VehiclePropertyType.FLOAT ∨
   getPropType (prop v) = VehiclePropertyType.FLOAT_VEC →
   (f32_eqb (minFloatValue ac) f32_zero = true ∧ f32_eqb (maxFloatValue ac) f32_zero = true) ∨
   Forall (λ f, f32_ltb f (minFloatValue ac) = false ∧ f32_ltb (maxFloatValue ac) f = false)
     (floatValues (value v))).

Lemma int_range_test (lo hi : Z) (err : Z → CheckError) l :
  check_each (λ i, if (i <? lo) || (hi <? i) then Some (err i) else None) l = Ok tt ↔
  Forall (λ i, lo ≤ i ≤ hi) l.
Proof.
  rewrite check_each_ok. split; intros H; (eapply Forall_impl; [exact H|]); intros i; cbn; zcases;
    cbn; try done; lia.
Qed.

Lemma float_range_test lo hi l :
  check_each (λ f, if f32_ltb f lo || f32_ltb hi f then Some (FloatOutOfRange f) else None) l = Ok tt ↔
  Forall (λ f, f32_ltb f lo = false ∧ f32_ltb hi f = false) l.
Proof.
  rewrite check_each_ok. split; intros H; (eapply Forall_impl; [exact H|]); intros f; cbn;
    destruct (f32_ltb f lo), (f32_ltb hi f); cbn; naive_solver.
Qed.

Lemma guard_ok {E} a b (r : result E unit) :
  (if (a =? 0) && (b =? 0) then Ok tt else r) = Ok tt ↔ (a = 0 ∧ b = 0) ∨ r = Ok tt.
Proof. zcases; cbn; intuition lia. Qed.

Lemma guard_okf {E} a b (r : result E unit) :
  (if f32_eqb a f32_zero && f32_eqb b f32_zero then Ok tt else r) = Ok tt ↔
  (f32_eqb a f32_zero = true ∧ f32_eqb b f32_zero = true) ∨ r = Ok tt.
Proof. destruct (f32_eqb a _), (f32_eqb b _); cbn; intuition done. Qed.

(** [checkValueRange] accepts exactly the values within the area's bounds;
    without an area configuration everything is accepted. *)
Theorem checkValueRange_ok_iff v areaConfig :
  checkValueRange v areaConfig = Ok tt ↔ ∀ ac, areaConfig = Some ac → value_in_range v ac.
Proof.
  destruct areaConfig as [ac|]; [|naive_solver].
  transitivity (value_in_range v ac); [|naive_solver].
  unfold checkValueRange, value_in_range. generalize (getPropType (prop v)). intros ty.
  rewrite <- int_range_test with (err := Int32OutOfRange).
  rewrite <- int_range_test with (err := Int64OutOfRange).
  rewrite <- float_range_test.
  rewrite <- !guard_ok, <- guard_okf.
  generalize ((minInt32Value ac =? 0) && (maxInt32Value ac =? 0)).
  generalize ((minInt64Value ac =? 0) && (maxInt64Value ac =? 0)).
  generalize (f32_eqb (minFloatValue ac) f32_zero && f32_eqb (maxFloatValue ac) f32_zero).
  repeat match goal with |- context [check_each ?t ?l] => generalize (check_each t l); intro end.
  intros b1 b2 b3. unfold_types.
  destruct b1, b2, b3; zcases; cbn [orb]; split; try (intuition lia); intros (Ha & Hb & Hc);
    first [reflexivity | apply Ha; lia | apply Hb; lia | apply Hc; lia].
Qed.

(** No comparison with a NaN holds, so a NaN is in every range. *)
Example checkValueRange_nan :
  let ac := mkAreaConfig 0 0 0 0 0 (f32_of_Z 1) (f32_of_Z 2) None 0 false None in
  checkValueRange (mkPropValue 0 0 0x11600207 0 (mkRaw [] [S754_nan] [] [] "")) (Some ac) = Ok tt.
Proof. reflexivity. Qed.

Ltac pick_shape :=
  first [ reflexivity
        | split; [first [reflexivity | left; reflexivity | right; reflexivity]
                 | cbn; rewrite ?length_vec_resize; lia]
        | left; pick_shape | right; pick_shape ].

(** A value constructed for a property type has that type's shape: it
    passes [checkPropValue] for every property of the type, and its measured
    vector size is the size it was made with. *)
Theorem createVehiclePropValueVec_valid ty n p cfg :
  ty ∈ [VehiclePropertyType.BOOLEAN; VehiclePropertyType.INT32; VehiclePropertyType.INT32_VEC;
        VehiclePropertyType.INT64; VehiclePropertyType.INT64_VEC; VehiclePropertyType.FLOAT;
        VehiclePropertyType.FLOAT_VEC; VehiclePropertyType.BYTES; VehiclePropertyType.STRING] →
  getPropType p = ty → (1 ≤ n)%nat →
  let v := value (createVehiclePropValueVec ty n) in
  checkPropValue (mkPropValue 0 0 p 0 v) cfg = Some (Ok tt) ∧
  getVehicleRawValueVectorSize v ty =
    (if existsb (Z.eqb ty) [VehiclePropertyType.BOOLEAN; VehiclePropertyType.INT32;
                            VehiclePropertyType.INT64; VehiclePropertyType.FLOAT] then 1
     else if Z.eqb ty VehiclePropertyType.STRING then 0 else n)%nat.
Proof.
  intros Hty Hp Hn v. rewrite checkPropValue_shape. cbn [prop value]. rewrite Hp.
  unfold value_shape. repeat (apply elem_of_cons in Hty as [->|Hty]); [..|by apply elem_of_nil in Hty].
  all: subst v; split; [|cbn; rewrite ?length_vec_resize; reflexivity].
  all: cbn [value set_value createVehiclePropValueVec]; pick_shape.
Qed.

Lemma createVehiclePropValueVec_valid_witness :
  checkPropValue (mkPropValue 0 0 0x11410a00 0
    (value (createVehiclePropValueVec VehiclePropertyType.INT32_VEC 3))) None = Some (Ok tt).
Proof.
  apply (createVehiclePropValueVec_valid VehiclePropertyType.INT32_VEC 3 0x11410a00 None);
    [|reflexivity|lia].
  repeat (first [left; fail | apply elem_of_cons; ((left; reflexivity) || right)]).
Defined.
