(* ===== verification/DumpOptions.v ===== *)
(** * DumpOptions: the arguments of the dump commands

    Models the parsing half of the dump commands of
    [fake_impl/hardware/src/FakeVehicleHardware.cpp], which
    [VehicleUtils.cpp] helps with the names of properties and areas.  The names
    come from enumerations generated from AIDL: they are parameters, by value
    in the order of the enumeration.  An access to [options] past its end is
    [OutOfBounds]; indices are nat.  Of the error messages only what is wrong
    is kept. *)

From stdpp Require Import base list strings pretty.
From Stdlib Require Import ZArith Lia Ascii.
From S2P Require Import Prelude Float32 NumberParse VehicleTypes VehicleUtils.

Local Open Scope Z_scope.
Local Open Scope vhal_scope.

(** ** Results *)

Inductive OptionError : Type :=
| NotEnoughArguments
| BadProperty (s : string)
| BadArea (s : string)
| BadValue (s : string)              (* not a number, or not a hexadecimal string *)
| NoValues (option : string)
| NotOneValue (option : string)
| Duplicate (option : string)
| UnknownOption (option : string)
| NotSupported (propId : Z)          (* the property has no configuration *)
| UnsupportedType                    (* only int32, int64 and float have supported values *)
| MinAboveMax
| OutOfBounds.

#[export] Instance OptionError_eq_dec : EqDecision OptionError.
Proof. solve_decision. Defined.

Definition Parsed (A : Type) : Type := result OptionError A.

Definition optionAt (options : list string) (index : nat) : Parsed string :=
  match options !! index with Some s => Ok s | None => Err OutOfBounds end.

(** A loop that parses every value and returns at the first error. *)
Fixpoint parseEach {A} (parse : string → option A) (l : list string) : Parsed (list A) :=
  match l with
  | [] => Ok []
  | s :: l' =>
      match parse s with
      | None => Err (BadValue s)
      | Some x => try! xs := parseEach parse l' in Ok (x :: xs)
      end
  end.

Definition checkArgumentsSize (options : list string) (minSize : nat) : bool := (minSize <=? length options)%nat.

(** ** Bytes in hexadecimal *)

Definition hexValue (c : ascii) : option Z :=
  let n := Z.of_N (N_of_ascii c) in
  if (48 <=? n) && (n <=? 57) then Some (n - 48)
  else if (97 <=? n) && (n <=? 102) then Some (n - 97 + 10)
  else None.

(** [bytes[bytes.size() - 1] += v] *)
Fixpoint addToLast (v : Z) (bytes : list Z) : list Z :=
  match bytes with
  | [] => []
  | [b] => [(b + v) mod 256]
  | b :: bytes' => b :: addToLast v bytes'
  end.

Fixpoint hexLoop (s : string) (highDigit : bool) (bytes : list Z) : option (list Z) :=
  match s with
  | EmptyString => Some bytes
  | String c s' =>
      match hexValue c with
      | None => None
      | Some v => hexLoop s' (negb highDigit) (if highDigit then bytes ++ [v * 16] else addToLast v bytes)
      end
  end.

Definition parseHexString (s : string) : option (list Z) :=
  if negb (Nat.even (String.length s)) then None
  else if negb (StartsWith s "0x") then None
  else hexLoop (map_string tolower (String.substring 2 (String.length s - 2) s)) true [].

(** ** Names of properties and areas *)

Fixpoint findName (name : string) (l : list (string * Z)) : option Z :=
  match l with
  | [] => None
  | (n, x) :: l' => if String.eqb name n then Some x else findName name l'
  end.

Definition isWordChar (c : ascii) : bool := bool_decide (is_Some (digit_value c)) || Ascii.eqb c "_".

(** The pattern of names separated by bars, with at most one blank on either
    side of a bar, as the automaton that matches it. *)
Inductive AreaState : Type := ExpectWord (blankAllowed : bool) | InWord | AfterBlank.

Fixpoint matchesAreas (st : AreaState) (s : string) : bool :=
  match s with
  | EmptyString => match st with InWord => true | _ => false end
  | String c s' =>
      match st with
      | ExpectWord blankAllowed =>
          if isWordChar c then matchesAreas InWord s'
          else blankAllowed && Ascii.eqb c " " && matchesAreas (ExpectWord false) s'
      | InWord =>
          if isWordChar c then matchesAreas InWord s'
          else if Ascii.eqb c " " then matchesAreas AfterBlank s'
          else Ascii.eqb c "|" && matchesAreas (ExpectWord true) s'
      | AfterBlank => Ascii.eqb c "|" && matchesAreas (ExpectWord true) s'
      end
  end.

(** The longest runs of word characters. *)
Fixpoint words (s : string) : list string :=
  match s with
  | EmptyString => []
  | String c s' =>
      let ws := words s' in
      if isWordChar c then
        match s', ws with
        | String c' _, w :: ws' => if isWordChar c' then String c w :: ws' else String c EmptyString :: ws
        | _, _ => String c EmptyString :: ws
        end
      else ws
  end.

Section names.
  Context (propertyNames : list (string * Z)) (areaNames : Z → list (string * Z)) (underflow_errno : string → bool).

Definition stringToPropId (propName : string) : option Z := findName propName propertyNames.

Definition hasAreaNames (areaType : Z) : bool :=
  bool_decide (areaType ∈ [VehicleArea.WINDOW; VehicleArea.MIRROR; VehicleArea.SEAT; VehicleArea.DOOR; VehicleArea.WHEEL]).

Definition stringToArea (areaName : string) (propId : Z) : option Z :=
  let areaType := getPropArea propId in
  if hasAreaNames areaType then findName areaName (areaNames areaType) else None.

Definition parsePropId (options : list string) (index : nat) : Parsed Z :=
  try! propIdStr := optionAt options index in
  match stringToPropId propIdStr with
  | Some propId => Ok propId
  | None => match ParseInt32 propIdStr with Some propId => Ok propId | None => Err (BadProperty propIdStr) end
  end.

Fixpoint areaUnion (names : list string) (propId areaId : Z) : option Z :=
  match names with
  | [] => Some areaId
  | name :: names' =>
      match stringToArea name propId with
      | None => None
      | Some a => areaUnion names' propId (Z.lor areaId a)
      end
  end.

Definition parseAreaId (areaIdStr : string) (propId : Z) : Parsed Z :=
  match ParseInt32 areaIdStr with
  | Some areaId => Ok areaId
  | None =>
      if matchesAreas (ExpectWord false) areaIdStr then
        match areaUnion (words areaIdStr) propId 0 with
        | Some areaId => Ok areaId
        | None => Err (BadArea areaIdStr)
        end
      else Err (BadArea areaIdStr)
  end.

(** ** Values of a property *)

Definition SET_PROP_OPTIONS : list string := ["-i"; "-i64"; "-f"; "-s"; "-b"; "-a"; "-t"]%string.

(** The values up to the next option, and the arguments from there; the index
    that the code advances is how many are consumed. *)
Fixpoint getOptionValues (rest : list string) : list string * list string :=
  match rest with
  | [] => ([], [])
  | option :: rest' =>
      if bool_decide (option ∈ SET_PROP_OPTIONS) then ([], rest)
      else let '(values, rest'') := getOptionValues rest' in (option :: values, rest'')
  end.

(** The local variables of [parsePropOptions]; [areaOption] is
    [options[areaIdIndex]]. *)
Record Options : Type := mkOptions {
  optProp : VehiclePropValue;
  parsedOptions : list string;
  areaOption : option string;
}.

Definition with_raw (f : RawPropValues → RawPropValues) (o : Options) : Options :=
  mkOptions (set_value (f (value (optProp o))) (optProp o)) (parsedOptions o) (areaOption o).

Definition raw_int32s (l : list Z) (r : RawPropValues) : RawPropValues :=
  mkRaw l (floatValues r) (int64Values r) (byteValues r) (stringValue r).
Definition raw_int64s (l : list Z) (r : RawPropValues) : RawPropValues :=
  mkRaw (int32Values r) (floatValues r) l (byteValues r) (stringValue r).
Definition raw_floats (l : list f32) (r : RawPropValues) : RawPropValues :=
  mkRaw (int32Values r) l (int64Values r) (byteValues r) (stringValue r).
Definition raw_bytes (l : list Z) (r : RawPropValues) : RawPropValues :=
  mkRaw (int32Values r) (floatValues r) (int64Values r) l (stringValue r).
Definition raw_string (s : string) (r : RawPropValues) : RawPropValues :=
  mkRaw (int32Values r) (floatValues r) (int64Values r) (byteValues r) s.

(** An option that takes at least one value, and one that takes exactly one. *)
Definition someValues {A} (name : string) (argValues : list string) (parse : string → option A) :
    Parsed (list A) :=
  match argValues with [] => Err (NoValues name) | _ => parseEach parse argValues end.
Definition oneValue (name : string) (argValues : list string) : Parsed string :=
  match argValues with [s] => Ok s | _ => Err (NotOneValue name) end.

(** The body of the loop, for an option and its values. *)
Definition applyOption (argType : string) (argValues : list string) (o : Options) : Parsed Options :=
  if bool_decide (argType ∈ parsedOptions o) then Err (Duplicate argType)
  else
    let o := mkOptions (optProp o) (argType :: parsedOptions o) (areaOption o) in
    if EqualsIgnoreCase argType "-i" then
      try! l := someValues argType argValues ParseInt32 in Ok (with_raw (raw_int32s l) o)
    else if EqualsIgnoreCase argType "-i64" then
      try! l := someValues argType argValues ParseInt64 in Ok (with_raw (raw_int64s l) o)
    else if EqualsIgnoreCase argType "-f" then
      try! l := someValues argType argValues (ParseFloat underflow_errno) in Ok (with_raw (raw_floats l) o)
    else if EqualsIgnoreCase argType "-s" then
      try! s := oneValue argType argValues in Ok (with_raw (raw_string s) o)
    else if EqualsIgnoreCase argType "-b" then
      try! s := oneValue argType argValues in
      match parseHexString s with
      | Some bytes => Ok (with_raw (raw_bytes bytes) o)
      | None => Err (BadValue s)
      end
    else if EqualsIgnoreCase argType "-a" then
      try! s := oneValue argType argValues in Ok (mkOptions (optProp o) (parsedOptions o) (Some s))
    else if EqualsIgnoreCase argType "-t" then
      try! s := oneValue argType argValues in
      match ParseInt64 s with
      | Some t => Ok (mkOptions (set_timestamp t (optProp o)) (parsedOptions o) (areaOption o))
      | None => Err (BadValue s)
      end
    else Err (UnknownOption argType).

(** The loop: every round takes an option and its values, so as many rounds as
    there are arguments are enough. *)
Fixpoint optionLoop (rounds : nat) (rest : list string) (o : Options) : Parsed Options :=
  match rounds, rest with
  | S n, argType :: rest' =>
      let '(argValues, rest'') := getOptionValues rest' in
      try! o' := applyOption argType argValues o in optionLoop n rest'' o'
  | _, _ => Ok o
  end.

Definition propFor (propId : Z) : VehiclePropValue :=
  mkPropValue 0 0 propId VehiclePropertyStatus.AVAILABLE emptyRaw.

Definition set_areaId (a : Z) (v : VehiclePropValue) : VehiclePropValue :=
  mkPropValue (timestamp v) a (prop v) (status v) (value v).

Definition parsePropOptions (options : list string) : Parsed VehiclePropValue :=
  try! propId := parsePropId options 1 in
  let rest := drop 2 options in
  try! o := optionLoop (length rest) rest (mkOptions (propFor propId) [] None) in
  match areaOption o with
  | None => Ok (optProp o)
  | Some areaIdStr => try! a := parseAreaId areaIdStr propId in Ok (set_areaId a (optProp o))
  end.

(** [parseOptionValues<T>] *)
Definition parseOptionValues {A} (parse : string → option A) (options : list string) (index count : nat) :
    Parsed (list A) :=
  if (length options <? index + count)%nat then Err NotEnoughArguments
  else parseEach parse (take count (drop index options)).

End names.

(** ** Examples *)

Example areas_read : let names := (λ t : Z, if (t =? VehicleArea.SEAT)%Z then [("ROW_1_LEFT", 1); ("ROW_1_RIGHT", 4)] else [])%string in
  let seat := 0x15600503 in
  parseAreaId names "ROW_1_LEFT | ROW_1_RIGHT" seat = Ok 5 ∧ parseAreaId names "ROW_1_LEFT|ROW_1_LEFT" seat = Ok 1
  ∧ parseAreaId names "49" seat = Ok 49 ∧ parseAreaId names "ROW_1_LEFT |" seat = Err (BadArea "ROW_1_LEFT |")
  ∧ parseAreaId names "ROW_1_LEFT  | ROW_1_RIGHT" seat = Err (BadArea "ROW_1_LEFT  | ROW_1_RIGHT")
  ∧ parseAreaId names "HOOD" seat = Err (BadArea "HOOD").
Proof. by vm_compute. Qed.

Example hex_reads : parseHexString "0xDEADbeef" = Some [0xde; 0xad; 0xbe; 0xef] ∧ parseHexString "0x" = Some []
  ∧ parseHexString "0xabc" = None ∧ parseHexString "0X00" = None ∧ parseHexString "0x0g" = None.
Proof. by vm_compute. Qed.

(** ** Arguments that describe a value *)

Fixpoint hexBytes (l : list Z) : string :=
  match l with
  | [] => EmptyString
  | b :: l' => String (hex_digit (b / 16)) (String (hex_digit (b mod 16)) (hexBytes l'))
  end.

Definition optionGroup (name : string) (values : list string) : list (string * list string) :=
  match values with [] => [] | _ => [(name, values)] end.

(** The options of a value without floating point numbers. *)
Definition valueOptions (v : VehiclePropValue) : list (string * list string) :=
  let r := value v in
  optionGroup "-i" (pretty <$> int32Values r) ++
  optionGroup "-i64" (pretty <$> int64Values r) ++
  optionGroup "-b" (match byteValues r with [] => [] | l => ["0x" +:+ hexBytes l] end) ++
  optionGroup "-s" (if String.eqb (stringValue r) EmptyString then [] else [stringValue r]) ++
  optionGroup "-a" [pretty (areaId v)] ++
  optionGroup "-t" [pretty (timestamp v)].

Definition groupArguments (g : string * list string) : list string := fst g :: snd g.

Definition valueArguments (command : string) (v : VehiclePropValue) : list string :=
  command :: pretty (prop v) :: concat (groupArguments <$> valueOptions v).

(** ** Reading them back *)

Lemma hexValue_digit d : 0 ≤ d < 16 → hexValue (tolower (hex_digit d)) = Some d ∧ tolower (hex_digit d) = hex_digit d.
Proof.
  intros Hd. assert (d = 0 ∨ d = 1 ∨ d = 2 ∨ d = 3 ∨ d = 4 ∨ d = 5 ∨ d = 6 ∨ d = 7 ∨ d = 8 ∨ d = 9 ∨ d = 10
    ∨ d = 11 ∨ d = 12 ∨ d = 13 ∨ d = 14 ∨ d = 15) as H by lia. by repeat destruct H as [->|H]; [..|subst].
Qed.

Lemma addToLast_app v bytes b : addToLast v (bytes ++ [b]) = bytes ++ [(b + v) mod 256].
Proof.
  induction bytes as [|b' bytes IH]; [done|]. cbn [app addToLast]. rewrite IH. by destruct bytes.
Qed.

Definition is_byte (b : Z) : Prop := 0 ≤ b < 256.

Lemma hexLoop_bytes l : Forall is_byte l → ∀ acc, hexLoop (map_string tolower (hexBytes l)) true acc = Some (acc ++ l).
Proof.
  induction 1 as [|b l Hb Hl IH]; intros acc; [by rewrite app_nil_r|].
  assert (Hq : 0 ≤ b / 16 < 16) by (unfold is_byte in Hb; split; [apply Z.div_pos|apply Z.div_lt_upper_bound]; lia).
  assert (Hr : 0 ≤ b mod 16 < 16) by (by apply Z.mod_pos_bound).
  cbn [hexBytes map_string hexLoop]. rewrite (proj1 (hexValue_digit _ Hq)), (proj1 (hexValue_digit _ Hr)).
  cbn [negb]. rewrite addToLast_app, IH, <- app_assoc. cbn [app]. do 3 f_equal.
  rewrite (Z.mul_comm _ 16), <- Z.div_mod by done. by apply Z.mod_small.
Qed.

Lemma substring_all s : String.substring 0 (String.length s) s = s.
Proof. induction s as [|c s IH]; [done|]. cbn. by rewrite IH. Qed.

Lemma parseHexString_bytes l : Forall is_byte l → parseHexString ("0x" +:+ hexBytes l) = Some l.
Proof.
  intros Hl. unfold parseHexString.
  assert (Nat.even (String.length ("0x" +:+ hexBytes l)) = true) as ->.
  { clear Hl. cbn. induction l as [|b l IH]; [done|]. by cbn. }
  change (StartsWith _ "0x") with (StartsWith (hexBytes l) ""). assert (StartsWith (hexBytes l) "" = true) as -> by by destruct (hexBytes l).
  cbn [negb]. change (String.substring 2 _ ("0x" +:+ hexBytes l)) with
    (String.substring 0 (String.length (hexBytes l) - 0) (hexBytes l)).
  rewrite Nat.sub_0_r, substring_all. by apply hexLoop_bytes.
Qed.

Lemma parseEach_pretty (parse : string → option Z) (P : Z → Prop) l :
  (∀ z, P z → parse (pretty z) = Some z) → Forall P l → parseEach parse (pretty <$> l) = Ok l.
Proof. intros Hp. induction 1 as [|z l Hz Hl IH]; [done|]. cbn. rewrite (Hp z Hz). by rewrite IH. Qed.

Definition not_option (s : string) : Prop := s ∉ SET_PROP_OPTIONS.

Lemma pretty_not_option (z : Z) : not_option (pretty z).
Proof.
  intros H. pose proof (strtoll_pretty z) as E. revert H E. generalize (pretty z). intros s H E.
  unfold SET_PROP_OPTIONS in H. rewrite !elem_of_cons, elem_of_nil in H.
  destruct H as [->|[->|[->|[->|[->|[->|[->|[]]]]]]]]; by vm_compute in E.
Qed.

Lemma getOptionValues_stops vals rest : Forall not_option vals →
  match rest with [] => True | s :: _ => s ∈ SET_PROP_OPTIONS end →
  getOptionValues (vals ++ rest) = (vals, rest).
Proof.
  intros Hv Hr. induction Hv as [|s vals Hs Hv IH]; cbn [app].
  - destruct rest as [|s rest]; [done|]. cbn. by rewrite bool_decide_eq_true_2.
  - cbn [getOptionValues]. rewrite bool_decide_eq_false_2 by done. by rewrite IH.
Qed.

Lemma optionLoop_groups undef gs : Forall (λ g, g.1 ∈ SET_PROP_OPTIONS ∧ Forall not_option g.2) gs →
  ∀ n o, (length (concat (groupArguments <$> gs)) ≤ n)%nat →
  optionLoop undef n (concat (groupArguments <$> gs)) o =
    foldl (λ r g, try! o := r in applyOption undef g.1 g.2 o) (Ok o) gs.
Proof.
  assert (Hfail : ∀ e gs, foldl (λ r g, try! o := r in applyOption undef g.1 g.2 o) (Err e) gs = Err e).
  { intros e l. by induction l. }
  induction 1 as [|[name vals] gs [Hname Hvals] Hgs IH]; intros n o Hn; [by destruct n|].
  cbn [fmap list_fmap concat groupArguments fst snd app] in *. destruct n as [|n]; [cbn in Hn; lia|].
  cbn [optionLoop foldl fst snd rbind]. rewrite getOptionValues_stops; [|done|].
  - destruct (applyOption undef name vals o) as [o'|e]; [|by rewrite Hfail]. cbn [rbind]. apply IH.
    cbn in Hn. rewrite length_app in Hn. lia.
  - destruct gs as [|[name' vals'] gs]; [done|]. cbn. by inversion Hgs as [|? ? [? _]].
Qed.

Lemma getOptionValues_length rest : (length (getOptionValues rest).2 ≤ length rest)%nat.
Proof.
  induction rest as [|s rest IH]; [done|]. cbn. case_bool_decide; [done|].
  destruct (getOptionValues rest) as [vals rest']. cbn in *. lia.
Qed.

(** As many rounds as there are arguments are enough. *)
Lemma optionLoop_enough undef n : ∀ m rest o, (length rest ≤ n)%nat → (length rest ≤ m)%nat →
  optionLoop undef n rest o = optionLoop undef m rest o.
Proof.
  induction n as [|n IH]; intros m [|s rest] o Hn Hm; cbn in Hn, Hm; [by destruct m|lia|by destruct m|].
  destruct m as [|m]; [lia|]. cbn. pose proof (getOptionValues_length rest) as Hl.
  destruct (getOptionValues rest) as [vals rest']. cbn in Hl. destruct (applyOption undef s vals o); [|done]. cbn.
  apply IH; lia.
Qed.

(** The values [valueArguments] can spell. *)
Record spellable (v : VehiclePropValue) : Prop := {
  spell_prop : in_i32 (prop v);
  spell_area : in_i32 (areaId v);
  spell_timestamp : in_i64 (timestamp v);
  spell_status : status v = VehiclePropertyStatus.AVAILABLE;
  spell_int32s : Forall in_i32 (int32Values (value v));
  spell_int64s : Forall in_i64 (int64Values (value v));
  spell_bytes : Forall is_byte (byteValues (value v));
  spell_floats : floatValues (value v) = [];
  spell_string : not_option (stringValue (value v));
}.

Lemma hex_not_option l : not_option ("0x" +:+ hexBytes l).
Proof. unfold not_option, SET_PROP_OPTIONS. cbn. rewrite !elem_of_cons, elem_of_nil. intros H. naive_solver. Qed.

Lemma valueOptions_wf v : spellable v → Forall (λ g, g.1 ∈ SET_PROP_OPTIONS ∧ Forall not_option g.2) (valueOptions v).
Proof.
  intros Hv. assert (Hp : ∀ l : list Z, Forall not_option (pretty <$> l)) by (intros l; apply Forall_fmap, Forall_true; intros z; apply pretty_not_option).
  assert (Hg : ∀ name vals, name ∈ SET_PROP_OPTIONS → Forall not_option vals →
    Forall (λ g, g.1 ∈ SET_PROP_OPTIONS ∧ Forall not_option g.2) (optionGroup name vals)).
  { intros name vals Hn Hvals. destruct vals; [apply Forall_nil_2|]. by apply Forall_singleton. }
  assert (Hin : Forall (λ s, s ∈ SET_PROP_OPTIONS) SET_PROP_OPTIONS) by by apply Forall_forall.
  unfold SET_PROP_OPTIONS in Hin at 2. rewrite !Forall_cons in Hin. destruct Hin as (? & ? & ? & ? & ? & ? & ? & _).
  unfold valueOptions. repeat apply Forall_app_2; apply Hg; auto using pretty_not_option.
  - destruct (byteValues _); auto using hex_not_option.
  - destruct (String.eqb _ _); auto using spell_string.
Qed.

(** The first group of the loop: [upd] is what its option does. *)
Lemma fold_optionGroup undef name vals (upd : Options → Options) o gs (R : list string → Options) :
  name ∉ parsedOptions o → (vals = [] → upd o = o) →
  (name ∉ parsedOptions o → vals ≠ [] → applyOption undef name vals o = Ok (upd (mkOptions (optProp o) (name :: parsedOptions o) (areaOption o)))) →
  (∀ parsed, (∀ n, n ≠ name → n ∉ parsedOptions o → n ∉ parsed) →
    ∃ parsed', foldl (λ r g, try! o := r in applyOption undef g.1 g.2 o) (Ok (upd (mkOptions (optProp o) parsed (areaOption o)))) gs = Ok (R parsed')) →
  ∃ parsed', foldl (λ r g, try! o := r in applyOption undef g.1 g.2 o) (Ok o) (optionGroup name vals ++ gs) = Ok (R parsed').
Proof.
  intros Hn Hnil Hcons Hrest. destruct vals as [|x vals].
  - destruct (Hrest (parsedOptions o)) as [p' E]; [done|]. exists p'. cbn [optionGroup app].
    replace (mkOptions _ _ _) with o in E by by destruct o. by rewrite Hnil in E.
  - cbn [optionGroup app foldl fst snd rbind]. rewrite Hcons by done. apply Hrest.
    intros n Hne Hnot. by apply not_elem_of_cons.
Qed.

Lemma someValues_pretty name (parse : string → option Z) (P : Z → Prop) l :
  (∀ z, P z → parse (pretty z) = Some z) → Forall P l → pretty <$> l ≠ [] → someValues name (pretty <$> l) parse = Ok l.
Proof.
  intros Hp Hl Hne. unfold someValues. rewrite (parseEach_pretty _ _ _ Hp Hl). by destruct l.
Qed.

Ltac fresh_option := repeat first
  [ apply not_elem_of_nil
  | match goal with H : ∀ n, _ → _ → n ∉ ?p |- _ ∉ ?p => apply H; [done|] end ].
Ltac run_option := intros Hnew Hne; unfold applyOption; rewrite bool_decide_eq_false_2 by done;
  repeat match goal with |- context [EqualsIgnoreCase ?a ?b] =>
    let r := eval vm_compute in (EqualsIgnoreCase a b) in change (EqualsIgnoreCase a b) with r end; cbv iota.
(** Runs the next option, which does [upd]. *)
Ltac next_option upd :=
  cbn [parsedOptions optProp areaOption with_raw];
  eapply (fold_optionGroup _ _ _ upd); [by fresh_option| |run_option|];
  [..|intros ? ?; cbn [parsedOptions optProp areaOption with_raw] in *].

(** The loop over the options of a value builds the value. *)
Lemma optionLoop_value undef v : spellable v →
  ∃ parsed, foldl (λ r g, try! o := r in applyOption undef g.1 g.2 o) (Ok (mkOptions (propFor (prop v)) [] None)) (valueOptions v) =
    Ok (mkOptions (set_areaId 0 v) parsed (Some (pretty (areaId v)))).
Proof.
  intros Hv. unfold valueOptions. destruct v as [t a p st [i32 f i64 b s]]. destruct Hv. cbn in *. subst.
  next_option (with_raw (raw_int32s i32)); [by destruct i32|by rewrite (someValues_pretty _ _ _ _ ParseInt32_pretty)|].
  next_option (with_raw (raw_int64s i64)); [by destruct i64|by rewrite (someValues_pretty _ _ _ _ ParseInt64_pretty)|].
  next_option (with_raw (raw_bytes b)); [by destruct b| |].
  { destruct b as [|x b]; [done|]. cbn [oneValue rbind].
    pose proof (parseHexString_bytes (x :: b) ltac:(done)) as E. cbn [hexBytes] in E. by rewrite E. }
  next_option (with_raw (raw_string s)); [by destruct s|by destruct s|].
  change [("-a"%string, [pretty a]); ("-t"%string, [pretty t])] with
    (optionGroup "-a" [pretty a] ++ optionGroup "-t" [pretty t] ++ []).
  next_option (λ o, mkOptions (optProp o) (parsedOptions o) (Some (pretty a))); [done|done|].
  next_option (λ o, mkOptions (set_timestamp t (optProp o)) (parsedOptions o) (areaOption o)); [done| |].
  { cbn [oneValue rbind]. by rewrite ParseInt64_pretty. }
  eexists. reflexivity.
Qed.

Lemma parse_valueArguments propertyNames areaNames undef command v :
  spellable v → stringToPropId propertyNames (pretty (prop v)) = None →
  parsePropOptions propertyNames areaNames undef (valueArguments command v) = Ok v.
Proof.
  intros Hv Hname. unfold parsePropOptions, parsePropId, valueArguments. cbn [optionAt lookup list_lookup rbind].
  unfold optionAt. cbn [lookup list_lookup rbind]. rewrite Hname, ParseInt32_pretty by apply Hv. cbn [rbind drop].
  rewrite drop_0, optionLoop_groups by (try done; by apply valueOptions_wf).
  destruct (optionLoop_value undef v Hv) as [parsed ->]. cbn [rbind areaOption optProp].
  unfold parseAreaId. rewrite ParseInt32_pretty by apply Hv. cbn [rbind]. by destruct v.
Qed.

(** A value spelled as the arguments of a command is read back by the command
    as it was, each number, byte, string, area and the timestamp: whatever the
    names of the properties and areas, as long as the number of the property is
    not one of the names. *)
Theorem dump_arguments_round_trip propertyNames areaNames undef command v :
  spellable v → stringToPropId propertyNames (pretty (prop v)) = None →
  parsePropOptions propertyNames areaNames undef (valueArguments command v) = Ok v.
Proof. apply parse_valueArguments. Qed.

Lemma dump_arguments_round_trip_witness :
  let v := mkPropValue (-3) 7 0x21e00001 VehiclePropertyStatus.AVAILABLE (mkRaw [-1; 2147483647] [] [5000000000] [222; 173] "hello") in
  parsePropOptions [("HVAC_TEMPERATURE_SET"%string, 0x15600503)] (λ _, []) (λ _, true) (valueArguments "--set" v) = Ok v.
Proof.
  intros v. apply dump_arguments_round_trip; [|by vm_compute].
  split; try done; cbn; unfold in_i32, in_i64, is_byte, two31, two63; try lia; repeat constructor; try lia.
  unfold not_option, SET_PROP_OPTIONS. rewrite !elem_of_cons, elem_of_nil. naive_solver.
Defined.
