(* ===== verification/VehicleObjectPool.v ===== *)
(** * VehicleObjectPool

    The recycling pools of [VehicleObjectPool.h] and [VehicleObjectPool.cpp]:
    [ObjectPool] (a FIFO of free objects bounded by their total size),
    [InternalPool] (the pool of one property type and vector size) and
    [VehiclePropValuePool] (the map of pools and the [obtain] entry points).

    A [recyclable_ptr] is the object together with its deleter: [None] for the
    disposable deleter, [Some key] for the pool the object goes back to.
    [ObjectPool::mPoolObjectsSize] has no initialiser and the constructor does
    not set it; [uninit_size] stands for the value it happens to hold when a
    pool is created. *)

From stdpp Require Import base gmap list strings.
From Stdlib Require Import ZArith Lia.
From S2P Require Import Prelude Float32 VehicleTypes VehicleUtils.

Local Open Scope Z_scope.

(** ** State *)

Record PoolStats : Type := mkPoolStats {
  Obtained : Z; Created : Z; Recycled : Z; Deleted : Z }.

Record InternalPool : Type := mkInternalPool {
  mPropType : Z;
  mVectorSize : nat;
  ip_maxPoolObjectsSize : Z;
  mObjects : list VehiclePropValue;
  mPoolObjectsSize : Z;
}.

Record VehiclePropValuePool : Type := mkValuePool {
  mMaxRecyclableVectorSize : Z;
  mMaxPoolObjectsSize : Z;
  mValueTypePools : gmap Z InternalPool;
  pool_stats : PoolStats;
}.

Record Recyclable : Type := mkRecyclable { obj : VehiclePropValue; deleter : option Z }.

Definition set_obj (v : VehiclePropValue) (r : Recyclable) : Recyclable :=
  mkRecyclable v (deleter r).

Definition incU32 (z : Z) : Z := (z + 1) mod two32.
Definition incObtained (s : PoolStats) : PoolStats :=
  mkPoolStats (incU32 (Obtained s)) (Created s) (Recycled s) (Deleted s).
Definition incCreated (s : PoolStats) : PoolStats :=
  mkPoolStats (Obtained s) (incU32 (Created s)) (Recycled s) (Deleted s).
Definition incRecycled (s : PoolStats) : PoolStats :=
  mkPoolStats (Obtained s) (Created s) (incU32 (Recycled s)) (Deleted s).
Definition incDeleted (s : PoolStats) : PoolStats :=
  mkPoolStats (Obtained s) (Created s) (Recycled s) (incU32 (Deleted s)).

Definition set_objects (os : list VehiclePropValue) (sz : Z) (ip : InternalPool) : InternalPool :=
  mkInternalPool (mPropType ip) (mVectorSize ip) (ip_maxPoolObjectsSize ip) os sz.

(** ** One pool *)

Definition InternalPool_createObject (ip : InternalPool) : VehiclePropValue :=
  createVehiclePropValueVec (mPropType ip) (mVectorSize ip).

Definition ObjectPool_obtain (ip : InternalPool) (st : PoolStats) :
    VehiclePropValue * InternalPool * PoolStats :=
  match mObjects ip with
  | [] => (InternalPool_createObject ip, ip, incCreated (incObtained st))
  | o :: os =>
      (o, set_objects os (to_u64 (mPoolObjectsSize ip - getVehiclePropValueSize o)) ip,
       incObtained st)
  end.

Definition ObjectPool_recycle (o : VehiclePropValue) (ip : InternalPool) (st : PoolStats) :
    InternalPool * PoolStats :=
  let objectSize := getVehiclePropValueSize o in
  if (ip_maxPoolObjectsSize ip <? objectSize)
     || (to_u64 (ip_maxPoolObjectsSize ip - objectSize) <? mPoolObjectsSize ip)
  then (ip, incDeleted st)
  else (set_objects (mObjects ip ++ [o]) (to_u64 (mPoolObjectsSize ip + objectSize)) ip,
        incRecycled st).

Definition vec_check {A} (ip : InternalPool) (vec : list A) (isVectorType : bool) : bool :=
  Nat.eqb (length vec) (if isVectorType then mVectorSize ip else 0).

Definition InternalPool_check (ip : InternalPool) (v : RawPropValues) : bool :=
  let ty := mPropType ip in
  vec_check ip (int32Values v) ((VehiclePropertyType.INT32 =? ty)
    || (VehiclePropertyType.INT32_VEC =? ty) || (VehiclePropertyType.BOOLEAN =? ty)) &&
  vec_check ip (floatValues v) ((VehiclePropertyType.FLOAT =? ty)
    || (VehiclePropertyType.FLOAT_VEC =? ty)) &&
  vec_check ip (int64Values v) ((VehiclePropertyType.INT64 =? ty)
    || (VehiclePropertyType.INT64_VEC =? ty)) &&
  vec_check ip (byteValues v) (VehiclePropertyType.BYTES =? ty) &&
  Nat.eqb (String.length (stringValue v)) 0.

(** An object whose vectors no longer fit the pool is discarded. *)
Definition InternalPool_recycle (o : VehiclePropValue) (ip : InternalPool) (st : PoolStats) :
    InternalPool * PoolStats :=
  if negb (InternalPool_check ip (value o)) then (ip, st)
  else ObjectPool_recycle o ip st.

(** ** The map of pools *)

Definition isSingleValueType (type : Z) : bool :=
  (type =? VehiclePropertyType.BOOLEAN) || (type =? VehiclePropertyType.INT32)
  || (type =? VehiclePropertyType.INT64) || (type =? VehiclePropertyType.FLOAT).

Definition isComplexType (type : Z) : bool :=
  (type =? VehiclePropertyType.MIXED) || (type =? VehiclePropertyType.STRING).

Definition isDisposable (p : VehiclePropValuePool) (type : Z) (vectorSize : nat) : bool :=
  Nat.eqb vectorSize 0 || (mMaxRecyclableVectorSize p <? Z.of_nat vectorSize)
  || isComplexType type.

Section pool.
  Context (uninit_size : Z).

Definition poolKey (type : Z) (vectorSize : nat) : Z :=
  Z.lor (to_i32 type) (to_i32 (Z.of_nat vectorSize)).

Definition newInternalPool (p : VehiclePropValuePool) (type : Z) (vectorSize : nat) : InternalPool :=
  mkInternalPool type vectorSize (mMaxPoolObjectsSize p) [] uninit_size.

Definition set_pool (key : Z) (ip : InternalPool) (st : PoolStats) (p : VehiclePropValuePool) :
    VehiclePropValuePool :=
  mkValuePool (mMaxRecyclableVectorSize p) (mMaxPoolObjectsSize p)
    (<[key := ip]> (mValueTypePools p)) st.

Definition obtainRecyclable (type : Z) (vectorSize : nat) (p : VehiclePropValuePool) :
    Recyclable * VehiclePropValuePool :=
  let key := poolKey type vectorSize in
  let ip := default (newInternalPool p type vectorSize) (mValueTypePools p !! key) in
  let '(o, ip', st') := ObjectPool_obtain ip (pool_stats p) in
  (mkRecyclable o (Some key), set_pool key ip' st' p).

Definition obtainDisposable (type : Z) (vectorSize : nat) : Recyclable :=
  mkRecyclable (createVehiclePropValueVec type vectorSize) None.

Definition obtainVec (type : Z) (vectorSize : nat) (p : VehiclePropValuePool) :
    Recyclable * VehiclePropValuePool :=
  let vectorSize' :=
    if isSingleValueType type then 1%nat
    else if isComplexType type then 0%nat else vectorSize in
  if isDisposable p type vectorSize' then (obtainDisposable type vectorSize', p)
  else obtainRecyclable type vectorSize' p.

Definition obtain (type : Z) (p : VehiclePropValuePool) : Recyclable * VehiclePropValuePool :=
  if isComplexType type then obtainVec type 0 p else obtainVec type 1 p.

Definition obtainCopy (src : VehiclePropValue) (p : VehiclePropValuePool) :
    Recyclable * VehiclePropValuePool :=
  let type := getPropType (prop src) in
  let vectorSize := getVehicleRawValueVectorSize (value src) type in
  let '(dest, p') := obtainVec type vectorSize p in
  let o := obj dest in
  (set_obj (mkPropValue (timestamp src) (areaId src) (prop src) (status src)
              (copyVehicleRawValue (value o) (value src))) dest, p').

(** [vec[0] = x]; [None] when the vector is empty. *)
Definition store0 {A} (x : A) (l : list A) : option (list A) :=
  match l with [] => None | _ :: l' => Some (x :: l') end.

Definition obtainInt32 (x : Z) (p : VehiclePropValuePool) :
    option (Recyclable * VehiclePropValuePool) :=
  let '(r, p') := obtain VehiclePropertyType.INT32 p in
  let v := value (obj r) in
  match store0 x (int32Values v) with
  | Some l => Some (set_obj (set_value (mkRaw l (floatValues v) (int64Values v) (byteValues v)
                                          (stringValue v)) (obj r)) r, p')
  | None => None
  end.

Definition obtainInt64 (x : Z) (p : VehiclePropValuePool) :
    option (Recyclable * VehiclePropValuePool) :=
  let '(r, p') := obtain VehiclePropertyType.INT64 p in
  let v := value (obj r) in
  match store0 x (int64Values v) with
  | Some l => Some (set_obj (set_value (mkRaw (int32Values v) (floatValues v) l (byteValues v)
                                          (stringValue v)) (obj r)) r, p')
  | None => None
  end.

Definition obtainFloat (x : f32) (p : VehiclePropValuePool) :
    option (Recyclable * VehiclePropValuePool) :=
  let '(r, p') := obtain VehiclePropertyType.FLOAT p in
  let v := value (obj r) in
  match store0 x (floatValues v) with
  | Some l => Some (set_obj (set_value (mkRaw (int32Values v) l (int64Values v) (byteValues v)
                                          (stringValue v)) (obj r)) r, p')
  | None => None
  end.

Definition obtainString (s : string) (p : VehiclePropValuePool) :
    Recyclable * VehiclePropValuePool :=
  let '(r, p') := obtain VehiclePropertyType.STRING p in
  let v := value (obj r) in
  (set_obj (set_value (mkRaw (int32Values v) (floatValues v) (int64Values v) (byteValues v) s)
              (obj r)) r, p').

Definition obtainComplex (p : VehiclePropValuePool) : Recyclable * VehiclePropValuePool :=
  obtain VehiclePropertyType.MIXED p.

Definition obtainBoolean (b : bool) (p : VehiclePropValuePool) :
    option (Recyclable * VehiclePropValuePool) :=
  obtainInt32 (if b then 1 else 0) p.

(** The destructor of a [recyclable_ptr]: the holder may have changed the
    object; the deleter decides where it goes. *)
Definition destroy (r : Recyclable) (p : VehiclePropValuePool) : VehiclePropValuePool :=
  match deleter r with
  | None => p
  | Some key =>
      match mValueTypePools p !! key with
      | Some ip => let '(ip', st') := InternalPool_recycle (obj r) ip (pool_stats p) in
                   set_pool key ip' st' p
      | None => p
      end
  end.

(** ** Histories of a pool: every interleaving of [obtain] and destruction *)

Inductive pool_step : VehiclePropValuePool → VehiclePropValuePool → Prop :=
| step_obtain type n p : type mod 65536 = 0 → in_i32 type → pool_step p (snd (obtainVec type n p))
| step_destroy r p : pool_step p (destroy r p).

Definition newPool (maxVec maxSize : Z) : VehiclePropValuePool :=
  mkValuePool maxVec maxSize ∅ (mkPoolStats 0 0 0 0).

Definition pool_reachable (maxVec maxSize : Z) : VehiclePropValuePool → Prop :=
  rtc pool_step (newPool maxVec maxSize).

End pool.

(** ** Pool keys *)

Lemma lor_add_disjoint q n : 0 ≤ n < 65536 → Z.lor (q * 65536) n = q * 65536 + n.
Proof.
  intros Hn. rewrite <- Z.add_lor_land.
  replace (Z.land (q * 65536) n) with 0; [lia|].
  replace n with (Z.land n (Z.ones 16)) by (rewrite Z.land_ones by lia; apply Z.mod_small; lia).
  rewrite (Z.land_comm n), Z.land_assoc, Z.land_ones by lia.
  replace ((q * 65536) mod 2 ^ 16) with 0; [done|].
  symmetry. apply Z.mod_mul. done.
Qed.

Definition poolable (type : Z) (n : nat) : Prop :=
  type mod 65536 = 0 ∧ in_i32 type ∧ (0 < n)%nat ∧ Z.of_nat n < 65536.

Lemma poolKey_add type n : poolable type n → poolKey type n = type + Z.of_nat n.
Proof.
  intros (Ht & Hi & Hn & Hb). unfold poolKey.
  rewrite !to_i32_id by (done || (unfold in_i32, two31; lia)).
  apply Z.mod_divide in Ht as [q ->]; [|done]. apply lor_add_disjoint. lia.
Qed.

(** A key determines the property type and the vector size. *)
Lemma poolKey_inj t1 n1 t2 n2 :
  poolable t1 n1 → poolable t2 n2 → poolKey t1 n1 = poolKey t2 n2 → t1 = t2 ∧ n1 = n2.
Proof.
  intros H1 H2. rewrite !poolKey_add by done.
  destruct H1 as ([q1 ->]%Z.mod_divide & _ & _ & Hb1); [|done].
  destruct H2 as ([q2 ->]%Z.mod_divide & _ & _ & Hb2); [|done].
  intros Hk. assert (q1 = q2) by lia. subst. split; [done|]. lia.
Qed.

(** ** The invariant of the pools *)

Definition total_size (os : list VehiclePropValue) : Z :=
  foldr (λ o acc, getVehiclePropValueSize o + acc) 0 os.

Lemma total_size_app os1 os2 : total_size (os1 ++ os2) = total_size os1 + total_size os2.
Proof. induction os1 as [|o os1 IH]; cbn [app total_size foldr]; [done|]. unfold total_size in *. lia. Qed.

Lemma getVehiclePropValueSize_pos o : 0 < getVehiclePropValueSize o.
Proof. unfold getVehiclePropValueSize. lia. Qed.

Lemma total_size_nonneg os : 0 ≤ total_size os.
Proof.
  induction os as [|o os IH]; cbn [total_size foldr]; [done|].
  pose proof (getVehiclePropValueSize_pos o). unfold total_size in IH. lia.
Qed.

Record ip_inv (key : Z) (ip : InternalPool) : Prop := mk_ip_inv {
  ip_key : key = poolKey (mPropType ip) (mVectorSize ip);
  ip_poolable : poolable (mPropType ip) (mVectorSize ip);
  ip_single : isSingleValueType (mPropType ip) = true → mVectorSize ip = 1%nat;
  ip_simple : isComplexType (mPropType ip) = false;
  ip_checked : Forall (λ o, InternalPool_check ip (value o) = true) (mObjects ip);
}.

Record pool_inv (maxVec maxSize : Z) (p : VehiclePropValuePool) : Prop := mk_pool_inv {
  pool_maxVec : mMaxRecyclableVectorSize p = maxVec;
  pool_maxSize : mMaxPoolObjectsSize p = maxSize;
  pool_ips : map_Forall ip_inv (mValueTypePools p);
}.

Lemma create_check ip :
  (isSingleValueType (mPropType ip) = true → mVectorSize ip = 1%nat) →
  isComplexType (mPropType ip) = false →
  InternalPool_check ip (value (InternalPool_createObject ip)) = true.
Proof.
  destruct ip as [ty n mx os sz].
  unfold InternalPool_check, InternalPool_createObject, createVehiclePropValueVec, vec_check,
    isSingleValueType, isComplexType. cbn [mPropType mVectorSize].
  type_split ty; intros Hs Hc; try discriminate Hc;
    rewrite ?Hs by reflexivity; rewrite ?length_vec_resize, ?Nat.eqb_refl; done.
Qed.

Lemma check_set_objects os sz ip r :
  InternalPool_check (set_objects os sz ip) r = InternalPool_check ip r.
Proof. done. Qed.

Lemma ip_inv_set_objects key os sz ip :
  ip_inv key ip → Forall (λ o, InternalPool_check ip (value o) = true) os →
  ip_inv key (set_objects os sz ip).
Proof. intros [] Hos. by constructor. Qed.

Lemma ObjectPool_obtain_inv key ip st o ip' st' :
  ip_inv key ip → ObjectPool_obtain ip st = (o, ip', st') →
  ip_inv key ip' ∧ InternalPool_check ip (value o) = true ∧
  mPropType ip' = mPropType ip ∧ mVectorSize ip' = mVectorSize ip.
Proof.
  intros Hip. unfold ObjectPool_obtain. pose proof (ip_checked _ _ Hip) as Hck.
  destruct (mObjects ip) as [|o1 os]; intros [= <- <- <-].
  - split; [done|]. split; [|done]. apply create_check; apply Hip.
  - apply Forall_cons in Hck as [Ho Hos]. split; [by apply ip_inv_set_objects|done].
Qed.

Lemma InternalPool_recycle_inv key o ip st :
  ip_inv key ip → ip_inv key (fst (InternalPool_recycle o ip st)).
Proof.
  intros Hip. unfold InternalPool_recycle, ObjectPool_recycle.
  destruct (InternalPool_check ip (value o)) eqn:Hck; cbn [negb]; [|done].
  case_match; cbn [fst]; [done|]. apply ip_inv_set_objects; [done|].
  apply Forall_app. split; [apply Hip|]. by constructor.
Qed.

Definition pool_config_ok (maxVec maxSize : Z) : Prop := maxVec < 65536 ∧ 0 ≤ maxSize < two64.

Lemma set_pool_inv mv ms key ip st p :
  pool_inv mv ms p → ip_inv key ip → pool_inv mv ms (set_pool key ip st p).
Proof.
  intros [Hv Hs Hm] Hip. constructor; [done..|]. cbn.
  by apply map_Forall_insert_2.
Qed.

Lemma destroy_inv mv ms r p : pool_inv mv ms p → pool_inv mv ms (destroy r p).
Proof.
  intros Hp. unfold destroy. destruct (deleter r) as [key|]; [|done].
  destruct (mValueTypePools p !! key) as [ip|] eqn:Hk; [|done].
  pose proof (pool_ips _ _ _ Hp key ip Hk) as Hip.
  pose proof (InternalPool_recycle_inv key (obj r) ip (pool_stats p) Hip) as Hr.
  destruct (InternalPool_recycle _ _ _) as [ip' st']. by apply set_pool_inv.
Qed.

(** The vector size [obtain] settles on. *)
Definition normVec (type : Z) (n : nat) : nat :=
  if isSingleValueType type then 1%nat else if isComplexType type then 0%nat else n.

(** Two values whose vectors have the same sizes. *)
Definition same_shape (a b : RawPropValues) : Prop :=
  length (int32Values a) = length (int32Values b) ∧
  length (floatValues a) = length (floatValues b) ∧
  length (int64Values a) = length (int64Values b) ∧
  length (byteValues a) = length (byteValues b) ∧
  String.length (stringValue a) = String.length (stringValue b).

Lemma check_same_shape ip a b :
  InternalPool_check ip a = true → InternalPool_check ip b = true → same_shape a b.
Proof.
  unfold InternalPool_check, vec_check, same_shape.
  rewrite !andb_true_iff, !Nat.eqb_eq. intuition congruence.
Qed.

Lemma createVec_norm type n :
  createVehiclePropValueVec type (normVec type n) = createVehiclePropValueVec type n.
Proof.
  unfold normVec, isSingleValueType, isComplexType, createVehiclePropValueVec.
  type_split type; reflexivity.
Qed.

Section pool_theorems.
  Context (uninit_size maxVec maxSize : Z) (Hcfg : pool_config_ok maxVec maxSize).
Notation obtainVec := (obtainVec uninit_size).

Lemma newInternalPool_inv p type n :
  pool_inv maxVec maxSize p → poolable type n →
  (isSingleValueType type = true → n = 1%nat) → isComplexType type = false →
  ip_inv (poolKey type n) (newInternalPool uninit_size p type n).
Proof. intros Hp Hpo Hs Hc. by constructor. Qed.

(** The pool a key resolves to is the pool of that type and size. *)
Lemma resolve_pool p type n :
  pool_inv maxVec maxSize p → poolable type n →
  (isSingleValueType type = true → n = 1%nat) → isComplexType type = false →
  let ip := default (newInternalPool uninit_size p type n)
              (mValueTypePools p !! poolKey type n) in
  ip_inv (poolKey type n) ip ∧ mPropType ip = type ∧ mVectorSize ip = n.
Proof.
  intros Hp Hpo Hs Hc.
  destruct (mValueTypePools p !! poolKey type n) as [ip|] eqn:Hk; cbn [default from_option].
  - pose proof (pool_ips _ _ _ Hp _ _ Hk) as Hip. split; [done|].
    destruct (poolKey_inj (mPropType ip) (mVectorSize ip) type n); [apply Hip|done| |done].
    symmetry. apply Hip.
  - split; [|done]. by apply newInternalPool_inv.
Qed.

Lemma not_disposable p type n :
  pool_inv maxVec maxSize p → isDisposable p type (normVec type n) = false →
  type mod 65536 = 0 → in_i32 type →
  poolable type (normVec type n) ∧ isComplexType type = false ∧
  (isSingleValueType type = true → normVec type n = 1%nat).
Proof.
  intros Hp Hd Ht Hi. unfold isDisposable in Hd.
  rewrite (pool_maxVec _ _ _ Hp) in Hd.
  apply orb_false_iff in Hd as [[H0 Hv]%orb_false_iff Hc].
  apply Nat.eqb_neq in H0. apply Z.ltb_ge in Hv. destruct Hcfg as [Hm _].
  split; [split; [done|split; [done|lia]]|]. split; [done|].
  intros Hs. unfold normVec. by rewrite Hs.
Qed.

Lemma obtainVec_spec p type n :
  pool_inv maxVec maxSize p → type mod 65536 = 0 → in_i32 type →
  let '(r, p') := obtainVec type n p in
  pool_inv maxVec maxSize p' ∧
  same_shape (value (obj r)) (value (createVehiclePropValueVec type n)).
Proof.
  intros Hp Ht Hi. unfold VehicleObjectPool.obtainVec. fold (normVec type n).
  rewrite <- (createVec_norm type n).
  destruct (isDisposable p type (normVec type n)) eqn:Hd; [done|].
  destruct (not_disposable p type n Hp Hd Ht Hi) as (Hpo & Hc & Hs).
  unfold obtainRecyclable.
  destruct (resolve_pool p type (normVec type n) Hp Hpo Hs Hc) as (Hip & Hty & Hsz).
  set (ip := default _ _) in *.
  destruct (ObjectPool_obtain ip (pool_stats p)) as [[o ip'] st'] eqn:Ho.
  destruct (ObjectPool_obtain_inv _ _ _ _ _ _ Hip Ho) as (Hip' & Hck & _).
  split; [by apply set_pool_inv|]. cbn [obj].
  apply (check_same_shape ip); [done|]. rewrite <- Hty, <- Hsz at 1. apply create_check; apply Hip.
Qed.

Lemma pool_reachable_inv p :
  pool_reachable uninit_size maxVec maxSize p → pool_inv maxVec maxSize p.
Proof.
  unfold pool_reachable. intros Hr. remember (newPool maxVec maxSize) as p0 eqn:E.
  assert (pool_inv maxVec maxSize p0) as H0 by (subst; constructor; [done..|apply map_Forall_empty]).
  clear E. induction Hr as [|p1 p2 p3 Hstep _ IH]; [done|]. apply IH.
  destruct Hstep as [type n p1 Ht Hi|r p1]; [|by apply destroy_inv].
  pose proof (obtainVec_spec p1 type n H0 Ht Hi) as H.
  destruct (obtainVec type n p1). apply H.
Qed.

End pool_theorems.

(** ** Size accounting *)

Record acct (maxSize : Z) (ip : InternalPool) : Prop := mk_acct {
  acct_max : ip_maxPoolObjectsSize ip = maxSize;
  acct_sum : mPoolObjectsSize ip = total_size (mObjects ip);
  acct_bound : total_size (mObjects ip) ≤ maxSize;
}.

Lemma ObjectPool_obtain_acct ms ip st :
  0 ≤ ms < two64 → acct ms ip →
  acct ms (snd (fst (ObjectPool_obtain ip st))).
Proof.
  intros Hms [Hm Hs Hb]. unfold ObjectPool_obtain.
  destruct (mObjects ip) as [|o os] eqn:Eo; cbn [fst snd]; [by constructor; rewrite ?Eo|].
  cbn [total_size foldr] in *. fold (total_size os) in *.
  pose proof (getVehiclePropValueSize_pos o). pose proof (total_size_nonneg os).
  constructor; cbn [ip_maxPoolObjectsSize mPoolObjectsSize mObjects set_objects]; [done| |lia].
  rewrite Hs, to_u64_id; [lia|]. unfold_widths. lia.
Qed.

Lemma InternalPool_recycle_acct ms o ip st :
  0 ≤ ms < two64 → acct ms ip → acct ms (fst (InternalPool_recycle o ip st)).
Proof.
  intros Hms [Hm Hs Hb]. unfold InternalPool_recycle, ObjectPool_recycle.
  destruct (negb _); [by constructor|]. rewrite Hm.
  pose proof (getVehiclePropValueSize_pos o). pose proof (total_size_nonneg (mObjects ip)).
  destruct (Z.ltb_spec ms (getVehiclePropValueSize o)); cbn [orb fst]; [by constructor|].
  rewrite to_u64_id by (unfold two64 in *; lia).
  destruct (Z.ltb_spec (ms - getVehiclePropValueSize o) (mPoolObjectsSize ip)); cbn [fst];
    [by constructor|].
  constructor; cbn [ip_maxPoolObjectsSize mPoolObjectsSize mObjects set_objects]; [done| |];
    rewrite total_size_app; cbn [total_size foldr]; [|lia].
  rewrite to_u64_id by (unfold two64 in *; lia). lia.
Qed.

(** A property of single pools that creation, [obtain] and recycling keep
    holds of every pool of every reachable state. *)
Lemma pool_reachable_ind_ip (P : InternalPool → Prop) uninit maxVec maxSize :
  (∀ p type n, mMaxPoolObjectsSize p = maxSize → P (newInternalPool uninit p type n)) →
  (∀ ip st, P ip → P (snd (fst (ObjectPool_obtain ip st)))) →
  (∀ o ip st, P ip → P (fst (InternalPool_recycle o ip st))) →
  ∀ p, pool_reachable uninit maxVec maxSize p → map_Forall (λ _, P) (mValueTypePools p).
Proof.
  intros Hnew Hob Hre p Hr.
  cut (mMaxPoolObjectsSize p = maxSize ∧ map_Forall (λ _, P) (mValueTypePools p)); [naive_solver|].
  unfold pool_reachable in Hr. remember (newPool maxVec maxSize) as p0 eqn:E.
  assert (mMaxPoolObjectsSize p0 = maxSize ∧ map_Forall (λ _, P) (mValueTypePools p0)) as H0
    by (subst; split; [done|apply map_Forall_empty]).
  clear E. induction Hr as [|p1 p2 p3 Hstep _ IH]; [done|]. apply IH. clear IH.
  destruct H0 as [Hmx Hall], Hstep as [type n p1 _ _|r p1].
  - unfold obtainVec. fold (normVec type n). destruct (isDisposable _ _ _); [done|].
    unfold obtainRecyclable. set (key := poolKey _ _).
    assert (P (default (newInternalPool uninit p1 type (normVec type n)) (mValueTypePools p1 !! key)))
      as Hip by (destruct (mValueTypePools p1 !! key) as [ip|] eqn:Hk;
        [by apply (Hall key)|by apply Hnew]).
    specialize (Hob _ (pool_stats p1) Hip).
    destruct (ObjectPool_obtain _ _) as [[o ip'] st']. cbn in *.
    split; [done|]. by apply map_Forall_insert_2.
  - unfold destroy. destruct (deleter r) as [key|]; [|done].
    destruct (mValueTypePools p1 !! key) as [ip|] eqn:Hk; [|done].
    specialize (Hre (obj r) ip (pool_stats p1) (Hall _ _ Hk)).
    destruct (InternalPool_recycle _ _ _) as [ip' st']. cbn in *.
    split; [done|]. by apply map_Forall_insert_2.
Qed.

(** ** Theorems *)

(** In every state the pools can reach, whatever the holders did to the
    objects they gave back, [obtain] of a property type and vector size hands
    out an object whose vectors have exactly the sizes a freshly created value
    of that type has, and leaves the pools in a state with the same
    guarantee: a recycled object never leaks its previous holder's shape. *)
Theorem obtain_shape uninit maxVec maxSize p type n :
  pool_config_ok maxVec maxSize → pool_reachable uninit maxVec maxSize p →
  type mod 65536 = 0 → in_i32 type →
  let '(r, p') := obtainVec uninit type n p in
  pool_reachable uninit maxVec maxSize p' ∧
  same_shape (value (obj r)) (value (createVehiclePropValueVec type n)).
Proof.
  intros Hcfg Hr Ht Hi. pose proof (pool_reachable_inv _ _ _ Hcfg p Hr) as Hp.
  pose proof (obtainVec_spec uninit _ _ Hcfg p type n Hp Ht Hi) as H.
  pose proof (step_obtain uninit type n p Ht Hi) as Hs.
  destruct (obtainVec uninit type n p) as [r p']. split; [|apply H].
  eapply rtc_r; [exact Hr|exact Hs].
Qed.

(** [obtain] of a copy returns an object equal to its source in every
    field, whatever recycled object it reuses. *)
Theorem obtainCopy_copies uninit src p :
  obj (fst (obtainCopy uninit src p)) = src.
Proof.
  unfold obtainCopy. destruct (obtainVec _ _ _ _) as [dest p']. cbn.
  by destruct src as [? ? ? ? []].
Qed.

(** The scalar constructors never touch an empty vector: in every
    reachable state [obtainInt32], [obtainInt64] and [obtainFloat] return a
    value of their type holding just the given element. *)
Theorem obtain_scalar uninit maxVec maxSize p x f :
  pool_config_ok maxVec maxSize → pool_reachable uninit maxVec maxSize p →
  (∃ r p', obtainInt32 uninit x p = Some (r, p') ∧ value (obj r) = mkRaw [x] [] [] [] "") ∧
  (∃ r p', obtainInt64 uninit x p = Some (r, p') ∧ value (obj r) = mkRaw [] [] [x] [] "") ∧
  (∃ r p', obtainFloat uninit f p = Some (r, p') ∧ value (obj r) = mkRaw [] [f] [] [] "").
Proof.
  intros Hcfg Hr. pose proof (pool_reachable_inv _ _ _ Hcfg p Hr) as Hp.
  assert (∀ ty, ty mod 65536 = 0 → in_i32 ty → isComplexType ty = false →
    same_shape (value (obj (fst (obtain uninit ty p)))) (value (createVehiclePropValueVec ty 1))) as Hsh.
  { intros ty Ht Hi Hc. unfold obtain. rewrite Hc. cbn [fst].
    pose proof (obtainVec_spec uninit _ _ Hcfg p ty 1 Hp Ht Hi) as H.
    destruct (obtainVec uninit ty 1 p). apply H. }
  pose proof (Hsh VehiclePropertyType.INT32) as H32.
  pose proof (Hsh VehiclePropertyType.INT64) as H64.
  pose proof (Hsh VehiclePropertyType.FLOAT) as Hf.
  unfold obtainInt32, obtainInt64, obtainFloat, same_shape, obtain in *.
  do 3 (match goal with
        | H : _ → _ → _ → _ |- _ => specialize (H eq_refl ltac:(done) eq_refl); cbn in H
        end).
  cbn [isComplexType orb Z.eqb] in *.
  repeat match goal with
  | |- context [obtainVec uninit ?ty 1 p] =>
      destruct (obtainVec uninit ty 1 p) as [[[? ? ? ? [? ? ? ? ?]] ?] ?]
  end; cbn in *.
  repeat match goal with
  | H : _ ∧ _ |- _ => destruct H
  | H : length ?l = 0%nat |- _ => apply nil_length_inv in H; subst l
  | H : String.length ?s = 0%nat |- _ => destruct s; [clear H|discriminate H]
  | H : length ?l = 1%nat |- _ => destruct l as [|? [|]]; try discriminate H; clear H
  end.
  split_and!; eexists _, _; (split; [reflexivity|done]).
Qed.

(** The free objects kept by a pool never exceed the configured total
    size, and the size counter is exact (so its unsigned subtraction never
    wraps), provided the counter starts at zero. *)
Theorem pool_memory_bound maxVec maxSize p key ip :
  0 ≤ maxSize < two64 → pool_reachable 0 maxVec maxSize p →
  mValueTypePools p !! key = Some ip →
  mPoolObjectsSize ip = total_size (mObjects ip) ∧ total_size (mObjects ip) ≤ maxSize.
Proof.
  intros Hms Hr Hk. cut (acct maxSize ip); [by intros []|].
  revert key ip Hk. change (map_Forall (λ _, acct maxSize) (mValueTypePools p)).
  apply (pool_reachable_ind_ip (acct maxSize) 0 maxVec maxSize); [| | |done].
  - intros q type n Hq. constructor; cbn; [done..|lia].
  - intros ip st. by apply ObjectPool_obtain_acct.
  - intros o ip st. by apply InternalPool_recycle_acct.
Qed.

(** The constructor leaves the counter uninitialised.  If the memory
    happens to hold more than the configured maximum, the pool never keeps an
    object: every [obtain] allocates. *)
Theorem pool_uninitialised_counter uninit maxVec maxSize p key ip :
  0 ≤ maxSize < uninit → uninit < two64 → pool_reachable uninit maxVec maxSize p →
  mValueTypePools p !! key = Some ip → mObjects ip = [].
Proof.
  intros Hms Hu Hr Hk.
  cut (ip_maxPoolObjectsSize ip = maxSize ∧ mPoolObjectsSize ip = uninit ∧ mObjects ip = []);
    [by intros (_ & _ & ?)|].
  revert key ip Hk. set (P := λ ip, ip_maxPoolObjectsSize ip = maxSize ∧ mPoolObjectsSize ip = uninit ∧ mObjects ip = []).
  change (map_Forall (λ _, P) (mValueTypePools p)).
  apply (pool_reachable_ind_ip P uninit maxVec maxSize); [| | |done]; unfold P.
  - by intros q type n Hq.
  - intros ip st (Hm & Hs & Ho). unfold ObjectPool_obtain. by rewrite Ho.
  - intros o ip st (Hm & Hs & Ho). unfold InternalPool_recycle, ObjectPool_recycle.
    destruct (negb _); [done|]. rewrite Hm, Hs.
    destruct (Z.ltb_spec maxSize (getVehiclePropValueSize o)); [done|].
    pose proof (getVehiclePropValueSize_pos o).
    rewrite to_u64_id by lia. by rewrite (proj2 (Z.ltb_lt _ _)) by lia.
Qed.

(** *** Witnesses *)

(** A pool holding one recycled two-element integer vector. *)
Definition example_pool : VehiclePropValuePool :=
  let '(r, p) := obtainVec 0 VehiclePropertyType.INT32_VEC 2 (newPool 4 10240) in
  destroy (set_obj (set_value (mkRaw [7; 8] [] [] [] "") (obj r)) r) p.

Lemma example_pool_reachable : pool_reachable 0 4 10240 example_pool.
Proof.
  eapply rtc_l; [apply (step_obtain 0 VehiclePropertyType.INT32_VEC 2 (newPool 4 10240)); [done|done]|].
  eapply rtc_l; [|apply rtc_refl].
  apply (step_destroy 0 (mkRecyclable (set_value (mkRaw [7; 8] [] [] [] "") emptyPropValue)
    (Some (poolKey VehiclePropertyType.INT32_VEC 2)))).
Qed.

Lemma obtain_shape_witness :
  let '(r, p') := obtainVec 0 VehiclePropertyType.INT32_VEC 2 example_pool in
  pool_reachable 0 4 10240 p' ∧
  same_shape (value (obj r)) (value (createVehiclePropValueVec VehiclePropertyType.INT32_VEC 2)).
Proof.
  apply (obtain_shape 0 4 10240 example_pool VehiclePropertyType.INT32_VEC 2);
    [done|apply example_pool_reachable|done|done].
Defined.

Lemma obtain_scalar_witness :
  ∃ r p', obtainInt32 0 42 example_pool = Some (r, p') ∧ value (obj r) = mkRaw [42] [] [] [] "".
Proof.
  apply (obtain_scalar 0 4 10240 example_pool 42 f32_zero); [done|apply example_pool_reachable].
Defined.

Lemma pool_memory_bound_witness :
  ∃ ip, mValueTypePools example_pool !! 0x00410002 = Some ip ∧
  mPoolObjectsSize ip = total_size (mObjects ip) ∧ total_size (mObjects ip) ≤ 10240.
Proof.
  eexists. split; [vm_compute; reflexivity|].
  apply (pool_memory_bound 4 10240 example_pool 0x00410002);
    [done|apply example_pool_reachable|vm_compute; reflexivity].
Defined.

Lemma pool_uninitialised_counter_witness :
  let '(r, p) := obtainVec 20000 VehiclePropertyType.INT32_VEC 2 (newPool 4 10240) in
  ∃ ip, mValueTypePools (destroy r p) !! 0x00410002 = Some ip ∧ mObjects ip = [].
Proof.
  cbn zeta. eexists. split; [vm_compute; reflexivity|].
  apply (pool_uninitialised_counter 20000 4 10240
    (destroy (fst (obtainVec 20000 VehiclePropertyType.INT32_VEC 2 (newPool 4 10240)))
       (snd (obtainVec 20000 VehiclePropertyType.INT32_VEC 2 (newPool 4 10240)))) 0x00410002);
    [done|done| |vm_compute; reflexivity].
  eapply rtc_l; [apply (step_obtain 20000 VehiclePropertyType.INT32_VEC 2 (newPool 4 10240)); [done|done]|].
  eapply rtc_l; [|apply rtc_refl]. apply step_destroy.
Defined.
