(* ===== verification/VehiclePropertyStore.v ===== *)
(** * VehiclePropertyStore

    The property store of [VehiclePropertyStore.h]/[VehiclePropertyStore.cpp]:
    registered configurations, the stored values keyed by area and token, the
    write path with its outdated-timestamp, status and change-event rules, and
    the timestamp refresh.

    Every member function runs under [mLock] up to the point where it copies
    the callbacks, so an operation is one atomic step on the state; the
    callback invocations that follow are appended to [emitted].  The clock
    [elapsedRealtimeNano] is the sequence [tick] of its readings, [reads]
    counting them.  Values are handed out as copies from the value pool
    ([VehicleObjectPool.obtainCopy_copies]), so a read returns the stored
    value itself. *)

From stdpp Require Import base gmap list strings.
From Stdlib Require Import ZArith Lia.
From S2P Require Import Prelude Float32 VehicleTypes VehicleUtils.

Local Open Scope Z_scope.

(** ** State *)

Inductive EventMode : Type := ON_VALUE_CHANGE | ALWAYS | NEVER.

#[export] Instance EventMode_eq_dec : EqDecision EventMode.
Proof. solve_decision. Defined.

Record RecordId : Type := mkRecordId { ri_area : Z; ri_token : Z }.

#[export] Instance RecordId_eq_dec : EqDecision RecordId.
Proof. solve_decision. Defined.
#[export] Instance RecordId_countable : Countable RecordId.
Proof.
  refine (inj_countable' (λ r, (ri_area r, ri_token r)) (λ q, mkRecordId q.1 q.2) _).
  by intros [].
Defined.

(** [std::function]s registered with the store; callbacks are known by a
    number, a token function is a function. *)
Definition TokenFunction : Type := VehiclePropValue → Z.

Record StoreRecord : Type := mkRecord {
  propConfig : VehiclePropConfig;
  tokenFunction : option TokenFunction;
  values : gmap RecordId VehiclePropValue;
}.

(** A callback invocation. *)
Inductive Event : Type :=
| OnValueChange (callback : nat) (v : VehiclePropValue)
| OnValuesChange (callback : nat) (vs : list VehiclePropValue).

Record Store : Type := mkStore {
  mRecordsByPropId : gmap Z StoreRecord;
  mOnValueChangeCallback : option nat;
  mOnValuesChangeCallback : option nat;
  reads : nat;
  emitted : list Event;
}.

Definition set_records (m : gmap Z StoreRecord) (s : Store) : Store :=
  mkStore m (mOnValueChangeCallback s) (mOnValuesChangeCallback s) (reads s) (emitted s).
Definition set_values (m : gmap RecordId VehiclePropValue) (r : StoreRecord) : StoreRecord :=
  mkRecord (propConfig r) (tokenFunction r) m.
Definition emit (es : list Event) (s : Store) : Store :=
  mkStore (mRecordsByPropId s) (mOnValueChangeCallback s) (mOnValuesChangeCallback s) (reads s)
    (emitted s ++ es).
Definition bump_clock (s : Store) : Store :=
  mkStore (mRecordsByPropId s) (mOnValueChangeCallback s) (mOnValuesChangeCallback s)
    (S (reads s)) (emitted s).

(** ** Lookups *)

Definition getRecordLocked (propId : Z) (s : Store) : option StoreRecord :=
  mRecordsByPropId s !! propId.

Definition getRecordIdLocked (v : VehiclePropValue) (record : StoreRecord) : RecordId :=
  mkRecordId (if isGlobalProp (prop v) then 0 else areaId v)
    (match tokenFunction record with Some f => f v | None => 0 end).

Definition readValueLocked (recId : RecordId) (record : StoreRecord) :
    result StatusCode VehiclePropValue :=
  match values record !! recId with
  | Some v => Ok v
  | None => Err NOT_AVAILABLE
  end.

(** ** Operations *)

Definition registerProperty (config : VehiclePropConfig) (tokenFunc : option TokenFunction)
    (s : Store) : Store :=
  set_records (<[pc_prop config := mkRecord config tokenFunc ∅]> (mRecordsByPropId s)) s.

Section clock.
  Context (tick : nat → Z).

(** The status the stored value gets. *)
Definition write_status (updateStatus : bool) (old : option VehiclePropValue)
    (v : VehiclePropValue) : VehiclePropValue :=
  if updateStatus then v
  else match old with
       | Some o => set_status (status o) v
       | None => set_status VehiclePropertyStatus.AVAILABLE v
       end.

Definition notify_one (s : Store) (v : VehiclePropValue) : list Event :=
  match mOnValuesChangeCallback s, mOnValueChangeCallback s with
  | Some cb, _ => [OnValuesChange cb [v]]
  | None, Some cb => [OnValueChange cb v]
  | None, None => []
  end.

(** The body of [writeValue] once the timestamp is settled. *)
Definition writeStamped (v : VehiclePropValue) (updateStatus : bool) (eventMode : EventMode)
    (s : Store) : Store * result StatusCode unit :=
  let propId := prop v in
  match getRecordLocked propId s with
  | None => (s, Err INVALID_ARG)
  | Some record =>
    if negb (isGlobalProp propId) &&
       match getAreaConfigOf v (propConfig record) with None => true | _ => false end
    then (s, Err INVALID_ARG)
    else
      let recId := getRecordIdLocked v record in
      let old := values record !! recId in
      if match old with Some o => timestamp v <? timestamp o | None => false end
      then (s, Err INVALID_ARG)
      else
        let v' := write_status updateStatus old v in
        let valueUpdated :=
          match old with
          | Some o => negb (RawPropValues_eqb (value o) (value v'))
                      || negb (status o =? status v')
          | None => true
          end in
        let s' := set_records (<[propId := set_values (<[recId := v']> (values record)) record]>
                                 (mRecordsByPropId s)) s in
        match eventMode with
        | NEVER => (s', Ok tt)
        | ALWAYS => (emit (notify_one s' v') s', Ok tt)
        | ON_VALUE_CHANGE =>
            (if valueUpdated then emit (notify_one s' v') s' else s', Ok tt)
        end
  end.

Definition writeValue (propValue : VehiclePropValue) (updateStatus : bool)
    (eventMode : EventMode) (useCurrentTimestamp : bool) (s : Store) :
    Store * result StatusCode unit :=
  if useCurrentTimestamp
  then writeStamped (set_timestamp (tick (reads s)) propValue) updateStatus eventMode (bump_clock s)
  else writeStamped propValue updateStatus eventMode s.

(** One iteration of the refresh loop: the new state and the value to report. *)
Definition refresh_one (propIdAreaId : PropIdAreaId) (eventMode : EventMode) (s : Store) :
    Store * list VehiclePropValue :=
  let propId := pa_propId propIdAreaId in
  match getRecordLocked propId s with
  | None => (s, [])
  | Some record =>
    let propValue := mkPropValue 0 (pa_areaId propIdAreaId) propId VehiclePropertyStatus.AVAILABLE
                       emptyRaw in
    let recId := getRecordIdLocked propValue record in
    match values record !! recId with
    | None => (s, [])
    | Some o =>
      let v := set_timestamp (tick (reads s)) o in
      let s' := set_records (<[propId := set_values (<[recId := v]> (values record)) record]>
                               (mRecordsByPropId s)) (bump_clock s) in
      (s', if decide (eventMode = ALWAYS) then [v] else [])
    end
  end.

Fixpoint refresh_loop (l : list (PropIdAreaId * EventMode)) (s : Store) :
    Store * list VehiclePropValue :=
  match l with
  | [] => (s, [])
  | (p, m) :: l' =>
      let '(s1, vs1) := refresh_one p m s in
      let '(s2, vs2) := refresh_loop l' s1 in
      (s2, vs1 ++ vs2)
  end.

Definition notify_many (s : Store) (vs : list VehiclePropValue) : list Event :=
  if decide (vs = []) then []
  else match mOnValuesChangeCallback s, mOnValueChangeCallback s with
       | Some cb, _ => [OnValuesChange cb vs]
       | None, Some cb => map (OnValueChange cb) vs
       | None, None => []
       end.

(** The map is an [unordered_map]: the loop visits its entries in an
    unspecified order, here that of [map_to_list]. *)
Definition refreshTimestamps (eventModeByPropIdAreaId : gmap PropIdAreaId EventMode) (s : Store) :
    Store :=
  let '(s', updatedValues) := refresh_loop (map_to_list eventModeByPropIdAreaId) s in
  emit (notify_many s updatedValues) s'.

Definition refreshTimestamp (propId a : Z) (eventMode : EventMode) (s : Store) : Store :=
  refreshTimestamps {[mkPropIdAreaId propId a := eventMode]} s.

End clock.

Definition removeValue (v : VehiclePropValue) (s : Store) : Store :=
  match getRecordLocked (prop v) s with
  | None => s
  | Some record =>
      let recId := getRecordIdLocked v record in
      set_records (<[prop v := set_values (delete recId (values record)) record]>
                     (mRecordsByPropId s)) s
  end.

Definition removeValuesForProperty (propId : Z) (s : Store) : Store :=
  match getRecordLocked propId s with
  | None => s
  | Some record => set_records (<[propId := set_values ∅ record]> (mRecordsByPropId s)) s
  end.

Definition readAllValues (s : Store) : list VehiclePropValue :=
  concat (map (λ r, map snd (map_to_list (values (snd r)))) (map_to_list (mRecordsByPropId s))).

Definition readValuesForProperty (propId : Z) (s : Store) :
    result StatusCode (list VehiclePropValue) :=
  match getRecordLocked propId s with
  | None => Err INVALID_ARG
  | Some record => Ok (map snd (map_to_list (values record)))
  end.

Definition readValue (v : VehiclePropValue) (s : Store) : result StatusCode VehiclePropValue :=
  match getRecordLocked (prop v) s with
  | None => Err INVALID_ARG
  | Some record => readValueLocked (getRecordIdLocked v record) record
  end.

Definition readValueFor (propId a token : Z) (s : Store) : result StatusCode VehiclePropValue :=
  match getRecordLocked propId s with
  | None => Err INVALID_ARG
  | Some record =>
      readValueLocked (mkRecordId (if isGlobalProp propId then 0 else a) token) record
  end.

Definition getAllConfigs (s : Store) : list VehiclePropConfig :=
  map (λ r, propConfig (snd r)) (map_to_list (mRecordsByPropId s)).

Definition getPropConfig (propId : Z) (s : Store) : result StatusCode VehiclePropConfig :=
  match getRecordLocked propId s with
  | None => Err INVALID_ARG
  | Some record => Ok (propConfig record)
  end.

(** [getConfig] hands out a pointer to the same configuration. *)
Definition getConfig (propId : Z) (s : Store) : result StatusCode VehiclePropConfig :=
  match getRecordLocked propId s with
  | None => Err INVALID_ARG
  | Some record => Ok (propConfig record)
  end.

Definition setOnValueChangeCallback (cb : option nat) (s : Store) : Store :=
  mkStore (mRecordsByPropId s) cb (mOnValuesChangeCallback s) (reads s) (emitted s).
Definition setOnValuesChangeCallback (cb : option nat) (s : Store) : Store :=
  mkStore (mRecordsByPropId s) (mOnValueChangeCallback s) cb (reads s) (emitted s).

Definition newStore : Store := mkStore ∅ None None 0 [].

(** ** The store as a map

    [stored s p r] is the value kept for property [p] under record id [r]. *)

Definition stored (s : Store) (p : Z) (r : RecordId) : option VehiclePropValue :=
  match mRecordsByPropId s !! p with Some rec => values rec !! r | None => None end.

Lemma stored_emit es s p r : stored (emit es s) p r = stored s p r.
Proof. done. Qed.

Lemma stored_bump s p r : stored (bump_clock s) p r = stored s p r.
Proof. done. Qed.

(** Overwriting the values of one registered property. *)
Lemma stored_set_values s p rec m q r :
  mRecordsByPropId s !! p = Some rec →
  stored (set_records (<[p := set_values m rec]> (mRecordsByPropId s)) s) q r =
  if decide (q = p) then m !! r else stored s q r.
Proof.
  intros Hrec. unfold stored. cbn [mRecordsByPropId set_records].
  destruct (decide (q = p)) as [->|Hne].
  - by rewrite lookup_insert_eq.
  - by rewrite lookup_insert_ne.
Qed.

(** ** The write path *)

(** The value as it is checked: its timestamp is the clock's when asked for. *)
Definition stamped (tick : nat → Z) (useCurrentTimestamp : bool) (s : Store) (v : VehiclePropValue) :=
  if useCurrentTimestamp then set_timestamp (tick (reads s)) v else v.

Definition record_of (s : Store) (v : VehiclePropValue) : option RecordId :=
  getRecordIdLocked v <$> mRecordsByPropId s !! prop v.

(** When a write is accepted: the property is registered, the area is
    configured, and no newer value is stored. *)
Definition admissible (s : Store) (v : VehiclePropValue) : Prop :=
  ∃ record, mRecordsByPropId s !! prop v = Some record ∧
    (isGlobalProp (prop v) = true ∨ is_Some (getAreaConfigOf v (propConfig record))) ∧
    ∀ o, values record !! getRecordIdLocked v record = Some o → timestamp o ≤ timestamp v.

(** Whether the accepted write changes what a reader sees. *)
Definition changes (old : option VehiclePropValue) (v' : VehiclePropValue) : bool :=
  match old with
  | Some o => negb (RawPropValues_eqb (value o) (value v')) || negb (status o =? status v')
  | None => true
  end.

Definition write_events (s : Store) (mode : EventMode) (old : option VehiclePropValue)
    (v' : VehiclePropValue) : list Event :=
  match mode with
  | NEVER => []
  | ALWAYS => notify_one s v'
  | ON_VALUE_CHANGE => if changes old v' then notify_one s v' else []
  end.

(** An inadmissible write. *)
Lemma writeStamped_rejected s v us m :
  ¬ admissible s v → writeStamped v us m s = (s, Err INVALID_ARG).
Proof.
  intros Hna. unfold writeStamped, getRecordLocked.
  destruct (mRecordsByPropId s !! prop v) as [record|] eqn:Hrec; [|done].
  destruct (negb (isGlobalProp (prop v)) && _) eqn:Har; [done|].
  destruct (values record !! getRecordIdLocked v record) as [o|] eqn:Ho.
  - destruct (Z.ltb_spec (timestamp v) (timestamp o)); [done|].
    exfalso. apply Hna. exists record. split_and!; [done| |intros; simplify_eq/=; congruence || lia].
    destruct (isGlobalProp _); [by left|right]. by destruct (getAreaConfigOf _ _).
  - exfalso. apply Hna. exists record. split_and!; [done| |intros; congruence].
    destruct (isGlobalProp _); [by left|right]. by destruct (getAreaConfigOf _ _).
Qed.

Lemma emit_nil s : emit [] s = s.
Proof. destruct s. unfold emit. cbn. by rewrite app_nil_r. Qed.

(** An admissible write. *)
Lemma writeStamped_accepted s v us m record :
  admissible s v → mRecordsByPropId s !! prop v = Some record →
  let recId := getRecordIdLocked v record in
  let old := values record !! recId in
  let v' := write_status us old v in
  writeStamped v us m s =
    (emit (write_events s m old v')
       (set_records (<[prop v := set_values (<[recId := v']> (values record)) record]>
                       (mRecordsByPropId s)) s), Ok tt).
Proof.
  intros (record' & Hrec' & Har & Hts) Hrec. rewrite Hrec in Hrec'. injection Hrec' as <-.
  intros recId old v'. unfold writeStamped, getRecordLocked. rewrite Hrec. fold recId old.
  replace (negb (isGlobalProp (prop v)) && _) with false.
  2: { destruct Har as [->|[ac ->]]; [done|]. by destruct (isGlobalProp _). }
  replace (match old with Some o => timestamp v <? timestamp o | None => false end) with false.
  2: { destruct old as [o|] eqn:Ho; [|done]. symmetry. apply Z.ltb_ge. by apply Hts. }
  fold v'. unfold write_events. fold (changes old v').
  destruct m; [destruct (changes old v')| |]; by rewrite ?emit_nil.
Qed.

Lemma writeValue_stamped tick s v us m uct :
  writeValue tick v us m uct s =
  writeStamped (stamped tick uct s v) us m (if uct then bump_clock s else s).
Proof. by destruct uct. Qed.

#[export] Instance admissible_dec s v : Decision (admissible s v).
Proof.
  destruct (mRecordsByPropId s !! prop v) as [record|] eqn:Hrec;
    [|right; intros (? & ? & _); congruence].
  assert (Decision (isGlobalProp (prop v) = true ∨ is_Some (getAreaConfigOf v (propConfig record))))
    as [Ha|Ha] by (destruct (isGlobalProp (prop v)); [left; by left|];
                   destruct (getAreaConfigOf _ _); [left; by right; eexists|
                     right; by intros [?|[? ?]]]).
  2: { right. intros (? & Hr & ? & _). rewrite Hrec in Hr. by injection Hr as <-. }
  destruct (values record !! getRecordIdLocked v record) as [o|] eqn:Ho;
    [destruct (decide (timestamp o ≤ timestamp v)) as [Hts|Hts]|].
  - left. exists record. split_and!; [done..|]. by intros ? [= <-]%(eq_trans (eq_sym Ho)).
  - right. intros (? & Hr & _ & Hall). rewrite Hrec in Hr. injection Hr as <-. by apply Hts, Hall.
  - left. exists record. split_and!; [done..|]. intros ? Hs. by rewrite Ho in Hs.
Defined.

Lemma writeValue_effect tick s v us m uct :
  let v1 := stamped tick uct s v in
  let '(s', res) := writeValue tick v us m uct s in
  (res = Ok tt ↔ admissible s v1) ∧
  (¬ admissible s v1 →
     res = Err INVALID_ARG ∧ emitted s' = emitted s ∧ ∀ p r, stored s' p r = stored s p r) ∧
  (∀ record, admissible s v1 → mRecordsByPropId s !! prop v1 = Some record →
     let recId := getRecordIdLocked v1 record in
     let v' := write_status us (values record !! recId) v1 in
     emitted s' = emitted s ++ write_events s m (values record !! recId) v' ∧
     ∀ p r, stored s' p r =
       if decide (p = prop v1 ∧ r = recId) then Some v' else stored s p r).
Proof.
  intros v1. rewrite writeValue_stamped. fold v1.
  set (s1 := if uct then bump_clock s else s).
  assert (admissible s1 v1 ↔ admissible s v1) as Hadm by (by destruct uct).
  assert (mRecordsByPropId s1 = mRecordsByPropId s) as Hs1 by (by destruct uct).
  destruct (decide (admissible s v1)) as [Ha|Hna].
  - pose proof Ha as (record & Hrec & _ & _).
    rewrite (writeStamped_accepted s1 v1 us m record) by (rewrite ?Hadm, ?Hs1; done).
    split_and!; [done|done|]. intros record' _ Hrec'. rewrite Hrec in Hrec'. injection Hrec' as <-.
    cbn zeta. split; [by destruct uct|]. intros p r. rewrite stored_emit.
    rewrite stored_set_values by (by rewrite Hs1).
    destruct (decide (p = prop v1)) as [->|Hp].
    + destruct (decide (r = getRecordIdLocked v1 record)) as [->|Hr].
      * rewrite decide_True by done. by rewrite lookup_insert_eq.
      * rewrite decide_False by naive_solver. rewrite lookup_insert_ne by done.
        unfold stored. by rewrite Hrec.
    + rewrite decide_False by naive_solver. unfold stored. by rewrite Hs1.
  - rewrite writeStamped_rejected by (by rewrite Hadm).
    split_and!; [split; [done|tauto]|by destruct uct|tauto].
Qed.

(** C3: The write path.  A write is accepted exactly when the property is
    registered, its area configured and no newer value stored; a rejected
    write returns [INVALID_ARG], changes no stored value and raises no event;
    an accepted write replaces the value of its own key only, keeps or sets
    the status as [updateStatus] says, and raises one event, to the batch
    callback when there is one, if the mode asks for it or the value or status
    changed. *)
Theorem writeValue_spec tick s v us m uct :
  let v1 := stamped tick uct s v in
  let '(s', res) := writeValue tick v us m uct s in
  (res = Ok tt ↔ admissible s v1) ∧
  (¬ admissible s v1 →
     res = Err INVALID_ARG ∧ emitted s' = emitted s ∧ ∀ p r, stored s' p r = stored s p r) ∧
  (∀ record, admissible s v1 → mRecordsByPropId s !! prop v1 = Some record →
     let recId := getRecordIdLocked v1 record in
     let v' := write_status us (values record !! recId) v1 in
     emitted s' = emitted s ++ write_events s m (values record !! recId) v' ∧
     ∀ p r, stored s' p r =
       if decide (p = prop v1 ∧ r = recId) then Some v' else stored s p r).
Proof. exact (writeValue_effect tick s v us m uct). Qed.

(** Reading with a value that was just written. *)
Lemma read_writeStamped s v us m : admissible s v →
  ∃ v', readValue v (fst (writeStamped v us m s)) = Ok v' ∧
    value v' = value v ∧ timestamp v' = timestamp v ∧ areaId v' = areaId v ∧ prop v' = prop v ∧
    (us = true → status v' = status v).
Proof.
  intros Ha. pose proof Ha as (record & Hrec & _ & _). rewrite (writeStamped_accepted s v us m record) by done.
  cbn [fst]. set (v' := write_status _ _ _). exists v'.
  unfold readValue, getRecordLocked, emit. cbn [mRecordsByPropId set_records].
  rewrite lookup_insert_eq. unfold readValueLocked. cbn [values set_values].
  change (getRecordIdLocked v (set_values _ record)) with (getRecordIdLocked v record).
  rewrite lookup_insert_eq. split; [done|]. unfold v', write_status.
  destruct us; [by split_and!|]. destruct (values record !! _); by split_and!.
Qed.

(** C18: A read returns what the last accepted write of its key stored: the
    written data, timestamp, area and property, under the status the write
    settled on. *)
Theorem read_after_write tick s v us m uct :
  let v1 := stamped tick uct s v in
  admissible s v1 →
  ∃ v', readValue v1 (fst (writeValue tick v us m uct s)) = Ok v' ∧
    value v' = value v1 ∧ timestamp v' = timestamp v1 ∧ areaId v' = areaId v1 ∧ prop v' = prop v1 ∧
    (us = true → status v' = status v1).
Proof.
  intros v1 Ha. rewrite writeValue_stamped. apply read_writeStamped. by destruct uct.
Qed.

(** ** Refreshing timestamps *)

Definition refresh_request (a : PropIdAreaId) : VehiclePropValue :=
  mkPropValue 0 (pa_areaId a) (pa_propId a) VehiclePropertyStatus.AVAILABLE emptyRaw.

(** The key a refresh entry addresses, when its property is registered. *)
Definition targets (s : Store) (a : PropIdAreaId) (p : Z) (r : RecordId) : Prop :=
  p = pa_propId a ∧ record_of s (refresh_request a) = Some r.

(** The values of two states differ at most in timestamps, and a changed
    timestamp is one of the clock readings in between, for a key in [P]. *)
Record refreshed (tick : nat → Z) (P : Z → RecordId → Prop) (s s' : Store) : Prop := mk_refreshed {
  rf_reads : (reads s ≤ reads s')%nat;
  rf_record_of : ∀ v, record_of s' v = record_of s v;
  rf_config : ∀ p, getPropConfig p s' = getPropConfig p s;
  rf_emitted : emitted s' = emitted s;
  rf_cb : mOnValueChangeCallback s' = mOnValueChangeCallback s ∧
          mOnValuesChangeCallback s' = mOnValuesChangeCallback s;
  rf_stored : ∀ p r, stored s' p r = stored s p r ∨
    P p r ∧ ∃ o k, (reads s ≤ k < reads s')%nat ∧ stored s p r = Some o ∧
      stored s' p r = Some (set_timestamp (tick k) o);
}.

Section refresh.
  Context (tick : nat → Z).
Notation refreshed := (refreshed tick).

Lemma refreshed_refl P s : refreshed P s s.
Proof. constructor; auto. Qed.

Lemma refreshed_weaken (P Q : Z → RecordId → Prop) s s' :
  (∀ p r, P p r → Q p r) → refreshed P s s' → refreshed Q s s'.
Proof.
  intros HPQ []. constructor; [done..|].
  intros p r. destruct (rf_stored0 p r) as [|[HP ?]]; [by left|right]. auto.
Qed.

Lemma refreshed_trans P s1 s2 s3 :
  refreshed P s1 s2 → refreshed P s2 s3 → refreshed P s1 s3.
Proof.
  intros [R1 I1 C1 E1 [K1 L1] S1] [R2 I2 C2 E2 [K2 L2] S2]. constructor.
  - lia.
  - intros v. by rewrite I2.
  - intros p. by rewrite C2.
  - congruence.
  - split; congruence.
  - intros p r. destruct (S2 p r) as [->|[HP (o & k & Hk & Ho & Ho')]].
    + destruct (S1 p r) as [->|[HP (o & k & Hk & Ho & Ho')]]; [by left|right].
      split; [done|]. exists o, k. split; [lia|done].
    + right. split; [done|]. destruct (S1 p r) as [E|[_ (o1 & k1 & Hk1 & Ho1 & Ho1')]].
      * exists o, k. rewrite <- E. split; [lia|done].
      * exists o1, k. split; [lia|]. split; [done|].
        rewrite Ho1' in Ho. injection Ho as <-. by rewrite Ho'.
Qed.

(** What one iteration does. *)
Lemma refresh_one_spec a m s :
  let '(s', vs) := refresh_one tick a m s in
  refreshed (targets s a) s s' ∧
  match record_of s (refresh_request a) with
  | Some r =>
      match stored s (pa_propId a) r with
      | Some o => (reads s < reads s')%nat ∧
          let v := set_timestamp (tick (reads s)) o in
          stored s' (pa_propId a) r = Some v ∧ vs = if decide (m = ALWAYS) then [v] else []
      | None => vs = []
      end
  | None => vs = []
  end.
Proof.
  unfold refresh_one, getRecordLocked, record_of, stored. fold (refresh_request a).
  change (prop (refresh_request a)) with (pa_propId a).
  destruct (mRecordsByPropId s !! pa_propId a) as [rec|] eqn:Hrec; cbn [fmap option_fmap option_map];
    [|split; [apply refreshed_refl|done]].
  destruct (values rec !! _) as [o|] eqn:Ho; [|split; [apply refreshed_refl|done]].
  set (r := getRecordIdLocked (refresh_request a) rec) in *. split.
  - constructor; cbn; [lia| | |done|done|].
    + intros v. unfold record_of. cbn. destruct (decide (prop v = pa_propId a)) as [E|Hne].
      * rewrite E, lookup_insert_eq, Hrec. done.
      * by rewrite lookup_insert_ne.
    + intros p. unfold getPropConfig, getRecordLocked. cbn.
      destruct (decide (p = pa_propId a)) as [->|Hne].
      * by rewrite lookup_insert_eq, Hrec.
      * by rewrite lookup_insert_ne.
    + intros p r'. unfold stored at 1. cbn.
      destruct (decide (p = pa_propId a)) as [->|Hne];
        [rewrite lookup_insert_eq|left; by rewrite lookup_insert_ne].
      cbn. destruct (decide (r' = r)) as [->|Hr].
      * right. split; [split; [done|]; unfold record_of; cbn; by rewrite Hrec|].
        exists o, (reads s). split; [lia|]. unfold stored. cbn.
        rewrite Hrec, lookup_insert_eq. cbn. by rewrite lookup_insert_eq.
      * left. rewrite lookup_insert_ne by done. unfold stored. by rewrite Hrec.
  - split; [cbn; lia|]. cbn. rewrite lookup_insert_eq. cbn. by rewrite lookup_insert_eq.
Qed.

Lemma refreshed_targets P s s' a p r : refreshed P s s' → targets s' a p r ↔ targets s a p r.
Proof. intros H. unfold targets. by rewrite (rf_record_of _ _ _ _ H). Qed.

Definition targeted (l : list (PropIdAreaId * EventMode)) (s : Store) (p : Z) (r : RecordId) : Prop :=
  ∃ a m, (a, m) ∈ l ∧ targets s a p r.

(** What a refresh finds under a key differs at most in its timestamp. *)
Lemma refreshed_key P s s1 p r o : refreshed P s s1 → stored s p r = Some o →
  ∃ o1, stored s1 p r = Some o1 ∧ ∀ t, set_timestamp t o1 = set_timestamp t o.
Proof.
  intros H Ho. destruct (rf_stored _ _ _ _ H p r) as [E|[_ (o1 & k1 & _ & Ho1 & E)]].
  - exists o. by rewrite E.
  - rewrite Ho in Ho1. injection Ho1 as <-. by eexists.
Qed.

Lemma refreshed_key_back P s s1 p r o1 : refreshed P s s1 → stored s1 p r = Some o1 →
  ∃ o, stored s p r = Some o ∧ ∀ t, set_timestamp t o1 = set_timestamp t o.
Proof.
  intros H Ho. destruct (rf_stored _ _ _ _ H p r) as [E|[_ (o & k & _ & Ho1 & E)]].
  - exists o1. by rewrite <- E.
  - rewrite Ho in E. injection E as ->. by exists o.
Qed.

(** The value [o] of [s] has one of the clock readings up to [s']. *)
Definition restamped (s s' : Store) (p : Z) (r : RecordId) (o : VehiclePropValue) : Prop :=
  ∃ k, (reads s ≤ k < reads s')%nat ∧ stored s' p r = Some (set_timestamp (tick k) o).

Lemma restamped_again P s s1 s2 p r o : (reads s ≤ reads s1)%nat → refreshed P s1 s2 →
  restamped s s1 p r o → restamped s s2 p r o.
Proof.
  intros Hle H (k & Hk & Ho). pose proof (rf_reads _ _ _ _ H).
  destruct (rf_stored _ _ _ _ H p r) as [E|[_ (o' & k' & Hk' & Ho' & E)]].
  - exists k. rewrite E. split; [lia|done].
  - exists k'. rewrite E. split; [lia|]. rewrite Ho in Ho'. by injection Ho' as <-.
Qed.

Lemma targeted_after P l s s1 p r : refreshed P s s1 → targeted l s1 p r ↔ targeted l s p r.
Proof. intros H. unfold targeted. by setoid_rewrite (refreshed_targets _ _ _ _ _ _ H). Qed.

(** The loop refreshes what it addresses, and nothing else. *)
Lemma refresh_loop_refreshed l : ∀ s, refreshed (targeted l s) s (refresh_loop tick l s).1.
Proof.
  induction l as [|[a m] l IH]; intros s; cbn [refresh_loop]; [apply refreshed_refl|].
  pose proof (refresh_one_spec a m s) as H1. destruct (refresh_one tick a m s) as [s1 vs1]. destruct H1 as [H1 _].
  specialize (IH s1). destruct (refresh_loop tick l s1) as [s2 vs2]. cbn [fst] in *.
  apply (refreshed_trans _ s s1 s2).
  - eapply refreshed_weaken; [|exact H1]. intros p r Ht. exists a, m. split; [left|done].
  - eapply refreshed_weaken; [|exact IH]. intros p r Ht. apply (targeted_after _ _ _ _ _ _ H1) in Ht as (a' & m' & Hin & Ht).
    exists a', m'. split; [by right|done].
Qed.

(** A key addressed by the loop ends with one of the loop's clock readings. *)
Lemma refresh_loop_stamps l : ∀ s p r o, targeted l s p r → stored s p r = Some o →
  restamped s (refresh_loop tick l s).1 p r o.
Proof.
  induction l as [|[a m] l IH]; intros s p r o; [by intros (? & ? & ?%elem_of_nil & _)|]. cbn [refresh_loop].
  pose proof (refresh_one_spec a m s) as H1. destruct (refresh_one tick a m s) as [s1 vs1]. destruct H1 as [H1 Hone].
  pose proof (refresh_loop_refreshed l s1) as H2. specialize (IH s1 p r).
  destruct (refresh_loop tick l s1) as [s2 vs2]. cbn [fst] in *.
  pose proof (rf_reads _ _ _ _ H1). pose proof (rf_reads _ _ _ _ H2).
  intros (a' & m' & [[= -> ->]|Hin]%elem_of_cons & Ht) Ho.
  - destruct Ht as [-> Hr]. rewrite Hr, Ho in Hone. destruct Hone as (Hlt & Hs1 & _).
    apply (restamped_again _ s s1 s2 _ r o (rf_reads _ _ _ _ H1) H2). exists (reads s). split; [lia|done].
  - destruct (refreshed_key _ _ _ _ _ _ H1 Ho) as (o1 & Ho1 & Hsame).
    destruct (IH o1) as (k & Hk & E); [apply (targeted_after _ _ _ _ _ _ H1); by exists a', m'|done|].
    exists k. rewrite E, Hsame. split; [lia|done].
Qed.

(** What it reports was asked for, and is the value of a key addressed with one
    of the clock readings. *)
Lemma refresh_loop_reports l : ∀ s v, v ∈ (refresh_loop tick l s).2 →
  ∃ a p r o k, (a, ALWAYS) ∈ l ∧ targets s a p r ∧ stored s p r = Some o ∧
    (reads s ≤ k < reads (refresh_loop tick l s).1)%nat ∧ v = set_timestamp (tick k) o.
Proof.
  induction l as [|[a m] l IH]; intros s v; [by intros ?%elem_of_nil|]. cbn [refresh_loop].
  pose proof (refresh_one_spec a m s) as H1. destruct (refresh_one tick a m s) as [s1 vs1]. destruct H1 as [H1 Hone].
  pose proof (rf_reads _ _ _ _ H1). pose proof (rf_reads _ _ _ _ (refresh_loop_refreshed l s1)). specialize (IH s1 v).
  destruct (refresh_loop tick l s1) as [s2 vs2]. cbn [fst snd] in *. intros [Hi|Hi]%elem_of_app.
  - destruct (record_of s (refresh_request a)) as [r|] eqn:Hr; [|subst vs1; by apply elem_of_nil in Hi].
    destruct (stored s (pa_propId a) r) as [o|] eqn:Ho; [|subst vs1; by apply elem_of_nil in Hi].
    destruct Hone as (Hlt & _ & ->). case_decide as Hm; [|by apply elem_of_nil in Hi].
    apply list_elem_of_singleton in Hi. subst.
    exists a, (pa_propId a), r, o, (reads s). split_and!; [left|done|done|lia|lia|done].
  - apply IH in Hi as (a' & p & r & o1 & k & Hin' & Ht & Ho1 & Hkr & ->).
    apply (refreshed_targets _ _ _ _ _ _ H1) in Ht. destruct (refreshed_key_back _ _ _ _ _ _ H1 Ho1) as (o & Ho & Hsame).
    exists a', p, r, o, k. rewrite Hsame. split_and!; [by right|done|done|lia|lia|done].
Qed.

(** And everything asked for is reported. *)
Lemma refresh_loop_reports_all l : ∀ s a p r o, (a, ALWAYS) ∈ l → targets s a p r → stored s p r = Some o →
  ∃ k, (reads s ≤ k < reads (refresh_loop tick l s).1)%nat ∧ set_timestamp (tick k) o ∈ (refresh_loop tick l s).2.
Proof.
  induction l as [|[a m] l IH]; intros s a' p r o; [by intros ?%elem_of_nil|]. cbn [refresh_loop].
  pose proof (refresh_one_spec a m s) as H1. destruct (refresh_one tick a m s) as [s1 vs1]. destruct H1 as [H1 Hone].
  pose proof (rf_reads _ _ _ _ H1). pose proof (rf_reads _ _ _ _ (refresh_loop_refreshed l s1)). specialize (IH s1 a' p r).
  destruct (refresh_loop tick l s1) as [s2 vs2]. cbn [fst snd] in *. setoid_rewrite elem_of_app.
  intros [Heq|Hin]%elem_of_cons Ht Ho.
  - injection Heq as -> <-. destruct Ht as [-> Hr]. rewrite Hr, Ho in Hone. destruct Hone as (Hlt & _ & ->).
    exists (reads s). split; [lia|left; by left].
  - destruct (refreshed_key _ _ _ _ _ _ H1 Ho) as (o1 & Ho1 & Hsame).
    destruct (IH o1 Hin) as (k & Hkr & Hi); [by apply (refreshed_targets _ _ _ _ _ _ H1)|done|].
    exists k. rewrite Hsame in Hi. split; [lia|by right].
Qed.

Lemma refresh_loop_spec l s :
  let '(s', vs) := refresh_loop tick l s in
  refreshed (targeted l s) s s' ∧
  (∀ p r o, targeted l s p r → stored s p r = Some o →
     ∃ k, (reads s ≤ k < reads s')%nat ∧ stored s' p r = Some (set_timestamp (tick k) o)) ∧
  (∀ v, v ∈ vs → ∃ a p r o k, (a, ALWAYS) ∈ l ∧ targets s a p r ∧ stored s p r = Some o ∧
     (reads s ≤ k < reads s')%nat ∧ v = set_timestamp (tick k) o) ∧
  (∀ a p r o, (a, ALWAYS) ∈ l → targets s a p r → stored s p r = Some o →
     ∃ k, (reads s ≤ k < reads s')%nat ∧ set_timestamp (tick k) o ∈ vs).
Proof.
  pose proof (refresh_loop_refreshed l s) as H1. pose proof (refresh_loop_stamps l s) as H2.
  pose proof (refresh_loop_reports l s) as H3. pose proof (refresh_loop_reports_all l s) as H4.
  destruct (refresh_loop tick l s) as [s' vs]. by split_and!.
Qed.

End refresh.

Lemma refreshTimestamps_effect tick m s :
  let s' := refreshTimestamps tick m s in
  let addressed a p r := is_Some (m !! a) ∧ targets s a p r in
  (∀ p r, (∃ a, addressed a p r) → ∀ o, stored s p r = Some o →
     ∃ k, (reads s ≤ k < reads s')%nat ∧ stored s' p r = Some (set_timestamp (tick k) o)) ∧
  (∀ p r, ¬ (∃ a, addressed a p r) → stored s' p r = stored s p r) ∧
  (∀ p, getPropConfig p s' = getPropConfig p s) ∧
  ∃ vs, emitted s' = emitted s ++ notify_many s vs ∧
    (∀ v, v ∈ vs → ∃ a p r o k, m !! a = Some ALWAYS ∧ targets s a p r ∧
       stored s p r = Some o ∧ (reads s ≤ k < reads s')%nat ∧ v = set_timestamp (tick k) o) ∧
    (∀ a p r o, m !! a = Some ALWAYS → targets s a p r → stored s p r = Some o →
       ∃ k, (reads s ≤ k < reads s')%nat ∧ set_timestamp (tick k) o ∈ vs).
Proof.
  intros s' addressed. pose proof (refresh_loop_spec tick (map_to_list m) s) as H.
  unfold s', refreshTimestamps. destruct (refresh_loop tick (map_to_list m) s) as [s1 vs].
  destruct H as (Hr & Hk & Hv & Hw). setoid_rewrite elem_of_map_to_list in Hv.
  setoid_rewrite elem_of_map_to_list in Hw. split_and!.
  - intros p r (a & [md Hm] & Ht) o Ho. apply (Hk p r o); [|done].
    exists a, md. by rewrite elem_of_map_to_list.
  - intros p r Hn. rewrite stored_emit.
    destruct (rf_stored _ _ _ _ Hr p r) as [|[(a & md & Hin & Ht) _]]; [done|].
    exfalso. apply Hn. exists a. split; [|done]. exists md. by apply elem_of_map_to_list.
  - intros p. apply (rf_config _ _ _ _ Hr).
  - exists vs. cbn. rewrite (rf_emitted _ _ _ _ Hr). by split_and!.
Qed.

(** C37: Refreshing timestamps.  Exactly the stored values the map addresses
    get a clock reading taken during the call as their timestamp, and nothing
    else of them changes; every other value and every configuration is as
    before; the reported values are those addressed with
    [ALWAYS], delivered in one batch when the batch callback is set, one by one
    when only the other callback is, and not at all when neither is. *)
Theorem refreshTimestamps_spec tick m s :
  let s' := refreshTimestamps tick m s in
  let addressed a p r := is_Some (m !! a) ∧ targets s a p r in
  (∀ p r, (∃ a, addressed a p r) → ∀ o, stored s p r = Some o →
     ∃ k, (reads s ≤ k < reads s')%nat ∧ stored s' p r = Some (set_timestamp (tick k) o)) ∧
  (∀ p r, ¬ (∃ a, addressed a p r) → stored s' p r = stored s p r) ∧
  (∀ p, getPropConfig p s' = getPropConfig p s) ∧
  ∃ vs, emitted s' = emitted s ++ notify_many s vs ∧
    (∀ v, v ∈ vs → ∃ a p r o k, m !! a = Some ALWAYS ∧ targets s a p r ∧
       stored s p r = Some o ∧ (reads s ≤ k < reads s')%nat ∧ v = set_timestamp (tick k) o) ∧
    (∀ a p r o, m !! a = Some ALWAYS → targets s a p r → stored s p r = Some o →
       ∃ k, (reads s ≤ k < reads s')%nat ∧ set_timestamp (tick k) o ∈ vs).
Proof. exact (refreshTimestamps_effect tick m s). Qed.

(** ** Histories *)

(** A step of the store.  A caller's own timestamp is [timely] when it is not
    ahead of the clock. *)
Inductive store_step (tick : nat → Z) : Store → Store → Prop :=
| st_register cfg tf s : store_step tick s (registerProperty cfg tf s)
| st_write v us m uct s :
    uct = true ∨ timestamp v ≤ tick (reads s) →
    store_step tick s (fst (writeValue tick v us m uct s))
| st_refresh m s : store_step tick s (refreshTimestamps tick m s)
| st_remove v s : store_step tick s (removeValue v s)
| st_removeAll p s : store_step tick s (removeValuesForProperty p s)
| st_cb cb s : store_step tick s (setOnValueChangeCallback cb s)
| st_cbs cb s : store_step tick s (setOnValuesChangeCallback cb s).

(** The steps that only write. *)
Inductive update_step (tick : nat → Z) : Store → Store → Prop :=
| up_write v us m uct s :
    uct = true ∨ timestamp v ≤ tick (reads s) →
    update_step tick s (fst (writeValue tick v us m uct s))
| up_refresh m s : update_step tick s (refreshTimestamps tick m s).

Definition store_reachable (tick : nat → Z) : Store → Prop := rtc (store_step tick) newStore.

(** Stored values sit under their own property and area, and none is newer
    than the clock. *)
Definition store_inv (tick : nat → Z) (s : Store) : Prop :=
  ∀ p r o, stored s p r = Some o →
    prop o = p ∧ ri_area r = (if isGlobalProp p then 0 else areaId o) ∧ timestamp o ≤ tick (reads s).

Section history.
  Context (tick : nat → Z) (tick_mono : ∀ i j, (i ≤ j)%nat → tick i ≤ tick j).

Lemma store_inv_sub s s' :
  store_inv tick s → (reads s ≤ reads s')%nat →
  (∀ p r o, stored s' p r = Some o → stored s p r = Some o) → store_inv tick s'.
Proof.
  intros Hi Hr Hs p r o Ho. destruct (Hi p r o (Hs _ _ _ Ho)) as (Hp & Ha & Ht).
  split_and!; [done..|]. pose proof (tick_mono _ _ Hr). lia.
Qed.

Lemma write_inv v us m uct s :
  uct = true ∨ timestamp v ≤ tick (reads s) → store_inv tick s →
  store_inv tick (fst (writeValue tick v us m uct s)).
Proof.
  intros Ht Hi. pose proof (writeValue_effect tick s v us m uct) as H. cbn zeta in H.
  assert (reads s ≤ reads (fst (writeValue tick v us m uct s)))%nat as Hreads.
  { rewrite writeValue_stamped. set (s1 := if uct then bump_clock s else s).
    assert (reads s ≤ reads s1)%nat by (subst s1; destruct uct; cbn; lia).
    unfold writeStamped. repeat case_match; cbn; lia. }
  destruct (writeValue tick v us m uct s) as [s' res]. cbn [fst] in *.
  destruct H as (_ & Hrej & Hacc). set (v1 := stamped tick uct s v) in *.
  destruct (decide (admissible s v1)) as [Ha|Hna].
  - pose proof Ha as (record & Hrec & _ & _).
    destruct (Hacc record Ha Hrec) as [_ Hst]. intros p r o. rewrite Hst.
    case_decide as Hd; [|intros Ho; destruct (Hi p r o Ho) as (? & ? & ?);
                          pose proof (tick_mono _ _ Hreads); split_and!; (done || lia)].
    destruct Hd as [-> ->]. intros [= <-]. cbn [ri_area getRecordIdLocked].
    assert (timestamp v1 ≤ tick (reads s)) as Hv1.
    { unfold v1, stamped. destruct uct; cbn; [lia|]. by destruct Ht as [[=]|]. }
    pose proof (tick_mono _ _ Hreads).
    unfold write_status. repeat case_match; cbn; split_and!; (done || lia).
  - apply store_inv_sub with s; [done..|]. intros p r o. by rewrite (proj2 (proj2 (Hrej Hna))).
Qed.

Lemma refresh_inv m s : store_inv tick s → store_inv tick (refreshTimestamps tick m s).
Proof.
  intros Hi. pose proof (refresh_loop_spec tick (map_to_list m) s) as H.
  unfold refreshTimestamps. destruct (refresh_loop tick (map_to_list m) s) as [s1 vs].
  destruct H as [Hr _]. intros p r o. rewrite stored_emit. cbn [reads emit].
  destruct (rf_stored _ _ _ _ Hr p r) as [->|[_ (o1 & k & Hk & Ho1 & ->)]].
  - intros Ho. destruct (Hi p r o Ho) as (? & ? & ?).
    pose proof (tick_mono _ _ (rf_reads _ _ _ _ Hr)). split_and!; (done || lia).
  - intros [= <-]. destruct (Hi p r o1 Ho1) as (? & ? & ?).
    split_and!; [done..|]. cbn. apply tick_mono. lia.
Qed.

Lemma store_step_inv s s' : store_step tick s s' → store_inv tick s → store_inv tick s'.
Proof.
  intros [cfg tf t|v us m uct t Ht|m t|v t|p t|cb t|cb t] Hi; try exact Hi.
  - apply store_inv_sub with t; [done..|]. intros p r o. unfold stored, registerProperty. cbn.
    destruct (decide (p = pc_prop cfg)) as [->|]; [by rewrite lookup_insert_eq|by rewrite lookup_insert_ne].
  - by apply write_inv.
  - by apply refresh_inv.
  - apply store_inv_sub with t; [done| |].
    + unfold removeValue. by destruct (getRecordLocked _ _).
    + intros p r o. unfold removeValue, getRecordLocked.
      destruct (mRecordsByPropId t !! prop v) as [rec|] eqn:Hrec; [|done].
      rewrite stored_set_values by done. case_decide as Hd; [|done]. subst.
      intros [_ Ho]%lookup_delete_Some. unfold stored. by rewrite Hrec.
  - apply store_inv_sub with t; [done| |].
    + unfold removeValuesForProperty. by destruct (getRecordLocked _ _).
    + intros q r o. unfold removeValuesForProperty, getRecordLocked.
      destruct (mRecordsByPropId t !! p) as [rec|] eqn:Hrec; [|done].
      rewrite stored_set_values by done. by case_decide.
Qed.

Lemma store_reachable_inv s : store_reachable tick s → store_inv tick s.
Proof.
  intros Hr. unfold store_reachable in Hr.
  remember newStore as s0 eqn:E. assert (store_inv tick s0) as H0 by (subst; by intros p r o).
  clear E. induction Hr as [|s1 s2 s3 Hs _ IH]; [done|]. eauto using store_step_inv.
Qed.

(** One update never moves a stored timestamp back. *)
Lemma update_step_forward s s' p r o :
  store_inv tick s → update_step tick s s' → stored s p r = Some o →
  ∃ o', stored s' p r = Some o' ∧ timestamp o ≤ timestamp o'.
Proof.
  intros Hi Hs. revert Hi. destruct Hs as [v us m uct t Ht|m t]; intros Hi Ho.
  - pose proof (writeValue_effect tick t v us m uct) as H. cbn zeta in H.
    destruct (writeValue tick v us m uct t) as [s1 res]. cbn [fst].
    destruct H as (_ & Hrej & Hacc). set (v1 := stamped tick uct t v) in *.
    destruct (decide (admissible t v1)) as [Ha|Hna].
    + pose proof Ha as (record & Hrec & _ & Hnew).
      destruct (Hacc record Ha Hrec) as [_ Hst]. rewrite Hst. case_decide as Hd; [|by exists o].
      destruct Hd as [-> ->]. eexists. split; [done|].
      unfold stored in Ho. rewrite Hrec in Ho. specialize (Hnew o Ho).
      unfold write_status. repeat case_match; cbn; lia.
    + rewrite (proj2 (proj2 (Hrej Hna))). by exists o.
  - pose proof (refresh_loop_spec tick (map_to_list m) t) as H.
    unfold refreshTimestamps. destruct (refresh_loop tick (map_to_list m) t) as [s1 vs].
    destruct H as [Hr _]. rewrite stored_emit.
    destruct (rf_stored _ _ _ _ Hr p r) as [->|[_ (o1 & k & Hk & Ho1 & ->)]]; [by exists o|].
    rewrite Ho in Ho1. injection Ho1 as <-. eexists. split; [done|]. cbn.
    destruct (Hi p r o Ho) as (_ & _ & Hts). pose proof (tick_mono (reads t) k). lia.
Qed.

Lemma update_step_store s s' : update_step tick s s' → store_step tick s s'.
Proof. intros []; by constructor. Qed.
End history.

(** C4: Time never runs backwards for a reader.  From any reachable store,
    over any sequence of writes whose own timestamps are not in the future and
    timestamp refreshes, a stored value stays stored and its timestamp never
    decreases, provided the clock is monotonic. *)
Theorem timestamps_monotone tick s s' p r o :
  (∀ i j, (i ≤ j)%nat → tick i ≤ tick j) →
  store_reachable tick s → rtc (update_step tick) s s' → stored s p r = Some o →
  ∃ o', stored s' p r = Some o' ∧ timestamp o ≤ timestamp o'.
Proof.
  intros Hmono Hr Hu Ho. pose proof (store_reachable_inv tick Hmono s Hr) as Hi. clear Hr.
  revert o Ho. induction Hu as [s|s1 s2 s3 Hs _ IH]; intros o Ho; [by exists o|].
  destruct (update_step_forward tick Hmono _ _ _ _ _ Hi Hs Ho) as (o2 & Ho2 & Hle).
  destruct (IH (store_step_inv tick Hmono _ _ (update_step_store tick _ _ Hs) Hi) o2 Ho2)
    as (o3 & Ho3 & Hle'). exists o3. split; [done|lia].
Qed.

(** In every reachable store a read for a property and area returns a
    value of that property and, unless the property is global, of that area,
    never newer than the clock. *)
Theorem read_matches_request tick s v o :
  (∀ i j, (i ≤ j)%nat → tick i ≤ tick j) →
  store_reachable tick s → readValue v s = Ok o →
  prop o = prop v ∧ (isGlobalProp (prop v) = false → areaId o = areaId v) ∧
  timestamp o ≤ tick (reads s).
Proof.
  intros Hmono Hr Ho. pose proof (store_reachable_inv tick Hmono s Hr) as Hi.
  unfold readValue, getRecordLocked, readValueLocked in Ho.
  destruct (mRecordsByPropId s !! prop v) as [rec|] eqn:Hrec; [|done].
  destruct (values rec !! _) as [o'|] eqn:Hv; [|done]. injection Ho as ->.
  destruct (Hi (prop v) (getRecordIdLocked v rec) o) as (Hp & Ha & Ht);
    [unfold stored; by rewrite Hrec|].
  split_and!; [done| |done]. intros Hg. unfold getRecordIdLocked in Ha. cbn in Ha.
  by rewrite Hg in Ha.
Qed.

(** *** Witnesses *)

Definition example_prop : Z := 0x15400500.
Definition example_store : Store :=
  setOnValuesChangeCallback (Some 1%nat)
    (registerProperty (mkPropConfig example_prop 3 1 [areaConfigFor 49] [] "" f32_zero f32_zero)
       None newStore).
Definition example_value (x : Z) : VehiclePropValue :=
  mkPropValue 0 49 example_prop 0 (mkRaw [x] [] [] [] "").
Definition example_tick (n : nat) : Z := 100 + 10 * Z.of_nat n.

Lemma example_tick_mono i j : (i ≤ j)%nat → example_tick i ≤ example_tick j.
Proof. unfold example_tick. lia. Qed.

Lemma example_store_reachable : store_reachable example_tick example_store.
Proof.
  eapply rtc_l; [apply st_register|]. eapply rtc_l; [apply (st_cbs _ (Some 1%nat))|]. apply rtc_refl.
Qed.

Lemma read_after_write_witness :
  ∃ v', readValue (set_timestamp 100 (example_value 5))
          (fst (writeValue example_tick (example_value 5) false ON_VALUE_CHANGE true example_store))
        = Ok v' ∧ value v' = mkRaw [5] [] [] [] "" ∧ timestamp v' = 100 ∧ areaId v' = 49 ∧
        prop v' = example_prop ∧ (false = true → status v' = 0).
Proof.
  apply (read_after_write example_tick example_store (example_value 5) false ON_VALUE_CHANGE true).
  eexists. split; [vm_compute; reflexivity|]. split; [right; vm_compute; by eexists|].
  intros o Ho. vm_compute in Ho. discriminate Ho.
Defined.

Definition example_store2 : Store :=
  fst (writeValue example_tick (example_value 5) false ON_VALUE_CHANGE true example_store).
Definition example_store3 : Store :=
  fst (writeValue example_tick (example_value 6) false ON_VALUE_CHANGE true example_store2).

Lemma timestamps_monotone_witness :
  ∃ o', stored example_store3 example_prop (mkRecordId 49 0) = Some o' ∧ 100 ≤ timestamp o'.
Proof.
  apply (timestamps_monotone example_tick example_store2 example_store3 example_prop (mkRecordId 49 0)
    (set_timestamp 100 (example_value 5))).
  - apply example_tick_mono.
  - eapply rtc_r; [apply example_store_reachable|].
    apply (st_write example_tick (example_value 5) false ON_VALUE_CHANGE true). by left.
  - eapply rtc_l; [|apply rtc_refl].
    apply (up_write example_tick (example_value 6) false ON_VALUE_CHANGE true). by left.
  - vm_compute. reflexivity.
Defined.

Lemma read_matches_request_witness :
  prop (set_timestamp 110 (example_value 6)) = example_prop ∧
  (false = false → areaId (set_timestamp 110 (example_value 6)) = 49) ∧ 110 ≤ 120.
Proof.
  apply (read_matches_request example_tick example_store3 (example_value 0)
    (set_timestamp 110 (example_value 6))).
  - apply example_tick_mono.
  - eapply rtc_r; [eapply rtc_r; [apply example_store_reachable|]|].
    + apply (st_write example_tick (example_value 5) false ON_VALUE_CHANGE true). by left.
    + apply (st_write example_tick (example_value 6) false ON_VALUE_CHANGE true). by left.
  - vm_compute. reflexivity.
Defined.
