(* ===== verification/PendingRequestPool.v ===== *)
(** * PendingRequestPool

    The pool of requests awaiting a hardware answer
    ([PendingRequestPool.h]/[PendingRequestPool.cpp]): per client a FIFO of
    batches of request ids with their timeout.  Every member function holds
    [mLock], so each is one atomic step; [checkTimeout] is the step the
    background thread repeats.  [now] is the operation's reading of
    [elapsedRealtimeNano].  Timed-out batches are returned as the list of
    callback invocations, tagged with their client. *)

From stdpp Require Import base gmap list strings.
From Stdlib Require Import ZArith Lia.
From S2P Require Import Prelude VehicleTypes.

Local Open Scope Z_scope.

(** ** State *)

(** [const void*] client identities and callbacks are known by number. *)
Abbreviation ClientId := nat.

Record PendingRequest : Type := mkPending {
  requestIds : gset Z;
  timeoutTimestamp : Z;
  pr_callback : nat;
}.

Abbreviation Pool := (gmap ClientId (list PendingRequest)).

Definition MAX_PENDING_REQUEST_PER_CLIENT : Z := 10000.

(** ** Operations *)

Definition count_ids (l : list PendingRequest) : nat :=
  sum_with (λ r, size (requestIds r)) l.

(** Some requested id is already pending in the batch. *)
Definition overlaps (ids : gset Z) (r : PendingRequest) : bool :=
  bool_decide (requestIds r ∩ ids ≠ ∅).

Definition addRequests (mTimeoutInNano : Z) (clientId : ClientId) (ids : gset Z) (callback : nat)
    (now : Z) (pool : Pool) : Pool * result StatusCode unit :=
  let pendingRequests := default [] (pool !! clientId) in
  if existsb (overlaps ids) pendingRequests then (pool, Err INVALID_ARG)
  else
    let pendingRequestCount := Z.of_nat (count_ids pendingRequests) in
    if to_u64 (MAX_PENDING_REQUEST_PER_CLIENT - pendingRequestCount) <? Z.of_nat (size ids)
    then (<[clientId := pendingRequests]> pool, Err TRY_AGAIN)
    else (<[clientId := pendingRequests ++ [mkPending ids (now + mTimeoutInNano) callback]]> pool,
          Ok tt).

Definition isRequestPending (clientId : ClientId) (requestId : Z) (pool : Pool) : bool :=
  match pool !! clientId with
  | None => false
  | Some l => existsb (λ r, bool_decide (requestId ∈ requestIds r)) l
  end.

Definition countPendingRequests (clientId : ClientId) (pool : Pool) : nat :=
  match pool !! clientId with None => 0%nat | Some l => count_ids l end.

Definition countAllPendingRequests (pool : Pool) : nat :=
  sum_with (λ c, count_ids (snd c)) (map_to_list pool).

(** The expired prefix of a client's batches, and the rest: the loop stops at
    the first batch that has not timed out. *)
Fixpoint split_expired (now : Z) (l : list PendingRequest) :
    list PendingRequest * list PendingRequest :=
  match l with
  | [] => ([], [])
  | r :: l' =>
      if now <=? timeoutTimestamp r then ([], l)
      else let '(ex, rest) := split_expired now l' in (r :: ex, rest)
  end.

Definition checkTimeout (now : Z) (pool : Pool) : Pool * list (ClientId * PendingRequest) :=
  (omap (λ l, let rest := snd (split_expired now l) in
              if decide (rest = []) then None else Some rest) pool,
   concat (map (λ c, map (pair (fst c)) (fst (split_expired now (snd c)))) (map_to_list pool))).

(** The loop of [tryFinishRequests] over one client's batches. *)
Fixpoint finish_loop (ids : gset Z) (l : list PendingRequest) : list PendingRequest * gset Z :=
  match l with
  | [] => ([], ∅)
  | r :: l' =>
      let '(rest, found) := finish_loop ids l' in
      let left_ids := requestIds r ∖ ids in
      ((if decide (left_ids = ∅) then rest
        else mkPending left_ids (timeoutTimestamp r) (pr_callback r) :: rest),
       (requestIds r ∩ ids) ∪ found)
  end.

Definition tryFinishRequests (clientId : ClientId) (ids : gset Z) (pool : Pool) : Pool * gset Z :=
  match pool !! clientId with
  | None => (pool, ∅)
  | Some l => let '(rest, found) := finish_loop ids l in (<[clientId := rest]> pool, found)
  end.

(** The destructor reports every pending batch as timed out. *)
Definition destructor (pool : Pool) : Pool * list (ClientId * PendingRequest) :=
  (∅, concat (map (λ c, map (pair (fst c)) (snd c)) (map_to_list pool))).

(** ** The pending ids of a client *)

Definition ids_of (l : list PendingRequest) : gset Z := ⋃ (requestIds <$> l).
Definition pending (pool : Pool) (c : ClientId) : gset Z := ids_of (default [] (pool !! c)).

Lemma elem_of_ids_of l i : i ∈ ids_of l ↔ ∃ r, r ∈ l ∧ i ∈ requestIds r.
Proof. unfold ids_of. rewrite elem_of_union_list. set_solver. Qed.

Lemma ids_of_cons r l : ids_of (r :: l) = requestIds r ∪ ids_of l.
Proof. done. Qed.

Lemma ids_of_app l1 l2 : ids_of (l1 ++ l2) = ids_of l1 ∪ ids_of l2.
Proof. unfold ids_of. by rewrite fmap_app, union_list_app_L. Qed.

Lemma isRequestPending_spec c i pool :
  isRequestPending c i pool = true ↔ i ∈ pending pool c.
Proof.
  unfold isRequestPending, pending. destruct (pool !! c) as [l|]; cbn [default from_option id]; [|by rewrite elem_of_ids_of; set_solver].
  rewrite existsb_exists, elem_of_ids_of. setoid_rewrite list_elem_of_In.
  by setoid_rewrite bool_decide_eq_true.
Qed.

(** ** The invariant

    Within a client the batches are disjoint, hold at most
    [MAX_PENDING_REQUEST_PER_CLIENT] ids, and time out in FIFO order. *)

Fixpoint disjoint_batches (l : list PendingRequest) : Prop :=
  match l with
  | [] => True
  | r :: l' => requestIds r ## ids_of l' ∧ disjoint_batches l'
  end.

Fixpoint fifo (l : list PendingRequest) : Prop :=
  match l with
  | [] => True
  | r :: l' => Forall (λ r', timeoutTimestamp r ≤ timeoutTimestamp r') l' ∧ fifo l'
  end.

Record client_inv (bound : Z) (l : list PendingRequest) : Prop := mk_client_inv {
  ci_disjoint : disjoint_batches l;
  ci_count : Z.of_nat (count_ids l) ≤ MAX_PENDING_REQUEST_PER_CLIENT;
  ci_fifo : fifo l;
  ci_bound : Forall (λ r, timeoutTimestamp r ≤ bound) l;
}.

Definition pool_inv (bound : Z) (pool : Pool) : Prop := map_Forall (λ _, client_inv bound) pool.

Lemma client_inv_nil bound : client_inv bound [].
Proof. constructor; cbn; [done|done|done|constructor]. Qed.

Lemma client_of bound pool c : pool_inv bound pool → client_inv bound (default [] (pool !! c)).
Proof.
  intros Hp. destruct (pool !! c) as [l|] eqn:E; [by apply (Hp c)|apply client_inv_nil].
Qed.

Lemma client_inv_weaken b b' l : b ≤ b' → client_inv b l → client_inv b' l.
Proof.
  intros Hb []. constructor; [done..|]. eapply Forall_impl; [done|]. cbn. lia.
Qed.

Lemma count_ids_size l : disjoint_batches l → count_ids l = size (ids_of l).
Proof.
  induction l as [|r l IH]; [done|]. intros [Hd Hl]. cbn [count_ids sum_with].
  rewrite ids_of_cons, size_union by done. unfold count_ids in IH. by rewrite IH.
Qed.

Lemma disjoint_batches_app l r :
  disjoint_batches (l ++ [r]) ↔ disjoint_batches l ∧ ids_of l ## requestIds r.
Proof.
  induction l as [|r' l IH]; cbn [app disjoint_batches].
  - unfold ids_of. cbn. set_solver.
  - rewrite IH, ids_of_app, !ids_of_cons. unfold ids_of at 2. cbn. set_solver.
Qed.

Lemma fifo_app l r :
  fifo l → Forall (λ r', timeoutTimestamp r' ≤ timeoutTimestamp r) l → fifo (l ++ [r]).
Proof.
  induction l as [|r' l IH]; cbn; [done|]. intros [Hf Hl] [Hr Ha]%Forall_cons.
  split; [|by apply IH]. apply Forall_app. split; [done|]. by constructor.
Qed.

(** *** Adding *)

Lemma overlaps_none ids l : existsb (overlaps ids) l = false ↔ ids_of l ## ids.
Proof.
  rewrite <- not_true_iff_false, existsb_exists. unfold overlaps.
  setoid_rewrite <- list_elem_of_In. setoid_rewrite bool_decide_eq_true. split.
  - intros Hn i Hi Hids. apply elem_of_ids_of in Hi as (r & Hr & Hi). apply Hn.
    exists r. split; [done|]. set_solver.
  - intros Hd (r & Hr & Hne). apply Hne. apply set_eq. intros i.
    rewrite elem_of_intersection. split; [|set_solver]. intros [Hi Hids]. exfalso.
    apply (Hd i); [|done]. apply elem_of_ids_of. by exists r.
Qed.

Lemma pending_insert c l pool c' :
  pending (<[c := l]> pool) c' = if decide (c' = c) then ids_of l else pending pool c'.
Proof.
  unfold pending. case_decide as Hd; [subst; by rewrite lookup_insert_eq|by rewrite lookup_insert_ne].
Qed.

Lemma addRequests_cases timeout c ids cb now pool bound :
  pool_inv bound pool →
  let l := default [] (pool !! c) in
  addRequests timeout c ids cb now pool =
    if decide (pending pool c ## ids) then
      if decide (Z.of_nat (count_ids l) + Z.of_nat (size ids) ≤ MAX_PENDING_REQUEST_PER_CLIENT)
      then (<[c := l ++ [mkPending ids (now + timeout) cb]]> pool, Ok tt)
      else (<[c := l]> pool, Err TRY_AGAIN)
    else (pool, Err INVALID_ARG).
Proof.
  intros Hp l. unfold addRequests. fold l. pose proof (client_of _ _ c Hp) as Hl. fold l in Hl.
  destruct (existsb (overlaps ids) l) eqn:Hov.
  - rewrite decide_False; [done|]. change (pending pool c) with (ids_of l).
    rewrite <- overlaps_none. by rewrite Hov.
  - rewrite decide_True by (by apply overlaps_none).
    pose proof (ci_count _ _ Hl) as Hc.
    rewrite to_u64_id by (unfold MAX_PENDING_REQUEST_PER_CLIENT, two64 in *; lia).
    destruct (Z.ltb_spec (MAX_PENDING_REQUEST_PER_CLIENT - Z.of_nat (count_ids l)) (Z.of_nat (size ids))).
    + by rewrite decide_False by lia.
    + by rewrite decide_True by lia.
Qed.

Lemma addRequests_inv timeout c ids cb now bound pool :
  pool_inv bound pool → bound ≤ now + timeout →
  pool_inv (now + timeout) (fst (addRequests timeout c ids cb now pool)).
Proof.
  intros Hp Hb. rewrite (addRequests_cases _ _ _ _ _ _ _ Hp). cbn zeta.
  assert (Hw : pool_inv (now + timeout) pool)
    by (intros c' l' Hl'; eapply client_inv_weaken; [exact Hb|by apply (Hp c')]).
  pose proof (client_of _ _ c Hp) as Hl. pose proof (client_of _ _ c Hw) as Hlw.
  case_decide as Hdis; [|done]. case_decide as Hcnt; cbn [fst]; apply map_Forall_insert_2; try done.
  constructor.
  - apply disjoint_batches_app. split; [apply Hl|exact Hdis].
  - unfold count_ids in *. rewrite sum_with_app. cbn. lia.
  - apply fifo_app; [apply Hl|]. eapply Forall_impl; [apply Hl|]. cbn. lia.
  - apply Forall_app. split; [apply Hlw|]. constructor; [cbn; lia|constructor].
Qed.

(** *** Finishing *)

Lemma finish_loop_spec ids l :
  let '(rest, found) := finish_loop ids l in
  found = ids_of l ∩ ids ∧ ids_of rest = ids_of l ∖ ids ∧
  (disjoint_batches l → disjoint_batches rest) ∧ (fifo l → fifo rest) ∧
  (∀ P : Z → Prop, Forall (λ r, P (timeoutTimestamp r)) l → Forall (λ r, P (timeoutTimestamp r)) rest).
Proof.
  induction l as [|r l IH]; cbn [finish_loop].
  { unfold ids_of. cbn. split_and!; [set_solver|set_solver|done|done|by intros]. }
  destruct (finish_loop ids l) as [rest found]. destruct IH as (-> & Hrest & Hd & Hf & Ht).
  rewrite ids_of_cons. split_and!.
  - set_solver.
  - case_decide as He; [|rewrite ids_of_cons; cbn]; rewrite Hrest; set_solver.
  - intros [Hr Hl]. case_decide; [by apply Hd|]. split; [|by apply Hd]. cbn. rewrite Hrest. set_solver.
  - intros [Hr Hl]. case_decide; [by apply Hf|]. split; [|by apply Hf].
    cbn. by apply (Ht (λ t, timeoutTimestamp r ≤ t)).
  - intros P [HP Hl]%Forall_cons. case_decide; [by apply Ht|]. constructor; [done|by apply Ht].
Qed.

Lemma count_ids_le l l' :
  disjoint_batches l → disjoint_batches l' → ids_of l' ⊆ ids_of l → (count_ids l' ≤ count_ids l)%nat.
Proof. intros Hl Hl' Hs. rewrite !count_ids_size by done. by apply subseteq_size. Qed.

Lemma tryFinishRequests_inv c ids bound pool :
  pool_inv bound pool → pool_inv bound (fst (tryFinishRequests c ids pool)).
Proof.
  intros Hp. unfold tryFinishRequests. destruct (pool !! c) as [l|] eqn:E; [|done].
  pose proof (finish_loop_spec ids l) as Hf. destruct (finish_loop ids l) as [rest found].
  destruct Hf as (_ & Hrest & Hd & Hfi & Ht). pose proof (Hp c l E) as [Hdl Hcl Hfl Hbl].
  apply map_Forall_insert_2; [|done]. constructor; [by apply Hd| |by apply Hfi|by apply (Ht (λ t, t ≤ bound))].
  pose proof (count_ids_le l rest Hdl (Hd Hdl)) as Hle. rewrite Hrest in Hle.
  specialize (Hle ltac:(set_solver)). lia.
Qed.

Lemma tryFinishRequests_pending c ids pool c' :
  let '(pool', found) := tryFinishRequests c ids pool in
  found = pending pool c ∩ ids ∧
  pending pool' c' = if decide (c' = c) then pending pool c ∖ ids else pending pool c'.
Proof.
  unfold tryFinishRequests. unfold pending at 1 3. destruct (pool !! c) as [l|] eqn:E.
  - pose proof (finish_loop_spec ids l) as Hf. destruct (finish_loop ids l) as [rest found].
    destruct Hf as (-> & Hrest & _). split; [done|]. rewrite pending_insert. by rewrite Hrest.
  - cbn. split; [unfold ids_of; cbn; set_solver|]. case_decide; [subst|done].
    unfold pending. rewrite E. unfold ids_of. cbn. set_solver.
Qed.

(** *** Timing out *)

Lemma split_expired_app now l :
  fst (split_expired now l) ++ snd (split_expired now l) = l.
Proof.
  induction l as [|r l IH]; cbn; [done|]. destruct (now <=? timeoutTimestamp r); [done|].
  destruct (split_expired now l) as [ex rest]. cbn in *. by rewrite IH.
Qed.

Lemma split_expired_fst now l : Forall (λ r, timeoutTimestamp r < now) (fst (split_expired now l)).
Proof.
  induction l as [|r l IH]; cbn; [constructor|]. destruct (Z.leb_spec now (timeoutTimestamp r)); cbn;
    [constructor|]. destruct (split_expired now l). by constructor.
Qed.

(** In FIFO order nothing expired is left behind the first live batch. *)
Lemma split_expired_snd now l :
  fifo l → Forall (λ r, now ≤ timeoutTimestamp r) (snd (split_expired now l)).
Proof.
  induction l as [|r l IH]; cbn; [constructor|]. intros [Hr Hl].
  destruct (Z.leb_spec now (timeoutTimestamp r)); cbn.
  - constructor; [done|]. eapply Forall_impl; [exact Hr|]. cbn. lia.
  - destruct (split_expired now l). by apply IH.
Qed.

Lemma disjoint_batches_suffix l1 l2 :
  disjoint_batches (l1 ++ l2) → disjoint_batches l2 ∧ disjoint_batches l1 ∧ ids_of l1 ## ids_of l2.
Proof.
  induction l1 as [|r l1 IH]; cbn [app disjoint_batches].
  - intros H. split_and!; [done|done|]. unfold ids_of. cbn. set_solver.
  - rewrite ids_of_app, ids_of_cons. intros [Hr (H2 & H1 & Hd)%IH]. split_and!; [done| |done|]; set_solver.
Qed.

Lemma fifo_suffix l1 l2 : fifo (l1 ++ l2) → fifo l2.
Proof. induction l1 as [|r l1 IH]; cbn; [done|]. intros [_ H]. by apply IH. Qed.

Lemma client_inv_rest now bound l : client_inv bound l → client_inv bound (snd (split_expired now l)).
Proof.
  intros [Hd Hc Hf Hb]. rewrite <- (split_expired_app now l) in Hd, Hc, Hf, Hb.
  apply disjoint_batches_suffix in Hd as (Hd & _ & _). apply Forall_app in Hb as [_ Hb].
  constructor; [done| |by eapply fifo_suffix|done].
  unfold count_ids in *. rewrite sum_with_app in Hc. lia.
Qed.

Lemma checkTimeout_lookup now pool c :
  default [] (fst (checkTimeout now pool) !! c) = snd (split_expired now (default [] (pool !! c))).
Proof.
  cbn [checkTimeout fst]. rewrite lookup_omap. destruct (pool !! c) as [l|]; [|done]. cbn.
  by case_decide as H; [rewrite H|].
Qed.

Lemma checkTimeout_inv now bound pool :
  pool_inv bound pool → pool_inv bound (fst (checkTimeout now pool)).
Proof.
  intros Hp c l. cbn [checkTimeout fst]. rewrite lookup_omap_Some.
  intros (l0 & Hrest & Hl0). case_decide; [done|]. injection Hrest as <-.
  apply client_inv_rest. by apply (Hp c).
Qed.

(** The callback invocations of a client are its expired batches, in order. *)
Lemma checkTimeout_reported now pool c r :
  (c, r) ∈ snd (checkTimeout now pool) ↔ r ∈ fst (split_expired now (default [] (pool !! c))).
Proof.
  cbn [checkTimeout snd]. rewrite list_elem_of_In, in_concat. split.
  - intros (lc & Hlc & Hin). apply in_map_iff in Hlc as ([c' l] & <- & Hm).
    apply in_map_iff in Hin as (r' & [= <- <-] & Hr). apply list_elem_of_In in Hm, Hr.
    apply elem_of_map_to_list in Hm. cbn in *. by rewrite Hm.
  - intros Hr. destruct (pool !! c) as [l|] eqn:E; [|by apply elem_of_nil in Hr].
    exists (map (pair c) (fst (split_expired now l))). split.
    + apply in_map_iff. exists (c, l). split; [done|]. apply list_elem_of_In.
      by apply elem_of_map_to_list.
    + apply in_map. by apply list_elem_of_In.
Qed.

(** ** Histories

    What a pool history shows to the outside: accepted batches, ids handed
    back as finished, and batches reported as timed out. *)

Inductive pool_event : Type :=
| Added (c : ClientId) (ids : gset Z)
| Finished (c : ClientId) (ids : gset Z)
| TimedOut (c : ClientId) (ids : gset Z).

(** [pool_run timeout now pool log]: some interleaving of the member functions
    with the checking thread, under a monotonic clock last read at [now],
    leaves [pool] and showed [log]. *)
Inductive pool_run (timeout : Z) : Z → Pool → list pool_event → Prop :=
| run_init now : pool_run timeout now ∅ []
| run_add now now' pool log c ids cb pool' res :
    pool_run timeout now pool log → now ≤ now' →
    addRequests timeout c ids cb now' pool = (pool', res) →
    pool_run timeout now' pool' (log ++ if is_ok res then [Added c ids] else [])
| run_finish now pool log c ids pool' found :
    pool_run timeout now pool log →
    tryFinishRequests c ids pool = (pool', found) →
    pool_run timeout now pool' (log ++ [Finished c found])
| run_timeout now now' pool log pool' out :
    pool_run timeout now pool log → now ≤ now' →
    checkTimeout now' pool = (pool', out) →
    pool_run timeout now' pool' (log ++ map (λ cr, TimedOut (fst cr) (requestIds (snd cr))) out).

Definition ind (P : Prop) `{Decision P} : nat := if decide P then 1%nat else 0%nat.

(** How often request [i] of client [c] was accepted, and how often it left. *)
Definition added_in (c : ClientId) (i : Z) (e : pool_event) : nat :=
  match e with Added c' ids => ind (c' = c ∧ i ∈ ids) | _ => 0%nat end.
Definition done_in (c : ClientId) (i : Z) (e : pool_event) : nat :=
  match e with
  | Finished c' ids | TimedOut c' ids => ind (c' = c ∧ i ∈ ids)
  | Added _ _ => 0%nat
  end.

Lemma ind_true P `{Decision P} : P → ind P = 1%nat.
Proof. intros HP. unfold ind. by rewrite decide_True. Qed.
Lemma ind_false P `{Decision P} : ¬ P → ind P = 0%nat.
Proof. intros HP. unfold ind. by rewrite decide_False. Qed.

Lemma batches_count i l :
  disjoint_batches l → sum_with (λ r, ind (i ∈ requestIds r)) l = ind (i ∈ ids_of l).
Proof.
  induction l as [|r l IH]; cbn [sum_with disjoint_batches]; [done|].
  intros [Hr Hl]. rewrite (IH Hl), ids_of_cons. unfold ind. repeat case_decide; set_solver.
Qed.

Lemma sum_with_zero {A} (f : A → nat) l : (∀ x, x ∈ l → f x = 0%nat) → sum_with f l = 0%nat.
Proof.
  induction l as [|x l IH]; cbn; [done|]. intros H. rewrite (H x), IH; [done| |left].
  intros y Hy. apply H. by right.
Qed.

Lemma sum_with_concat_map {A B} (f : B → nat) (g : A → list B) l :
  sum_with f (concat (map g l)) = sum_with (λ x, sum_with f (g x)) l.
Proof. induction l as [|x l IH]; cbn; [done|]. by rewrite sum_with_app, IH. Qed.

Lemma sum_with_map {A B} (f : B → nat) (g : A → B) l :
  sum_with f (map g l) = sum_with (λ x, f (g x)) l.
Proof. induction l as [|x l IH]; cbn; [done|]. by rewrite IH. Qed.

Lemma sum_with_ext {A} (f g : A → nat) l : (∀ x, x ∈ l → f x = g x) → sum_with f l = sum_with g l.
Proof.
  induction l as [|x l IH]; cbn; [done|]. intros H. rewrite (H x), IH; [done| |left].
  intros y Hy. apply H. by right.
Qed.

(** A sum over the entries of a map that only one key contributes to. *)
Lemma sum_map_single (f : ClientId * list PendingRequest → nat) (pool : Pool) c :
  (∀ c' l, c' ≠ c → f (c', l) = 0%nat) → f (c, []) = 0%nat →
  sum_with f (map_to_list pool) = f (c, default [] (pool !! c)).
Proof.
  intros Hf H0. destruct (pool !! c) as [l|] eqn:E; cbn [default from_option id].
  - rewrite <- (sum_with_Permutation _ _ _ (map_to_list_delete pool c l E)). cbn [sum_with].
    rewrite (sum_with_zero f (map_to_list (delete c pool))); [lia|].
    intros [c' l'] Hin%elem_of_map_to_list%lookup_delete_Some. apply Hf. naive_solver.
  - rewrite H0. apply sum_with_zero. intros [c' l'] Hin%elem_of_map_to_list.
    apply Hf. by intros ->; rewrite E in Hin.
Qed.

Lemma timeouts_count now pool bound c i :
  pool_inv bound pool →
  sum_with (done_in c i) (map (λ cr, TimedOut (fst cr) (requestIds (snd cr)))
                             (snd (checkTimeout now pool))) =
  ind (i ∈ ids_of (fst (split_expired now (default [] (pool !! c))))).
Proof.
  intros Hp. cbn [checkTimeout snd]. rewrite sum_with_map, sum_with_concat_map.
  rewrite (sum_map_single _ pool c).
  - rewrite sum_with_map. cbn [fst snd done_in].
    rewrite (sum_with_ext _ (λ r, ind (i ∈ requestIds r))).
    + apply batches_count. pose proof (ci_disjoint _ _ (client_of _ _ c Hp)) as Hd.
      rewrite <- (split_expired_app now) in Hd. by apply disjoint_batches_suffix in Hd as (_ & Hd & _).
    + intros r _. unfold ind. repeat case_decide; naive_solver.
  - intros c' l Hne. rewrite sum_with_map. apply sum_with_zero. intros r _. cbn.
    apply ind_false. naive_solver.
  - done.
Qed.

Lemma pending_checkTimeout now pool c bound :
  pool_inv bound pool →
  let ex := ids_of (fst (split_expired now (default [] (pool !! c)))) in
  ex ⊆ pending pool c ∧ pending (fst (checkTimeout now pool)) c = pending pool c ∖ ex.
Proof.
  intros Hp ex. unfold pending. rewrite checkTimeout_lookup. unfold ex.
  pose proof (ci_disjoint _ _ (client_of _ _ c Hp)) as Hd.
  pose proof (split_expired_app now (default [] (pool !! c))) as E.
  destruct (split_expired now _) as [l1 l2]. cbn [fst snd] in *.
  rewrite <- E in Hd. apply disjoint_batches_suffix in Hd as (_ & _ & Hd).
  rewrite <- E, ids_of_app. split; [set_solver|]. set_solver.
Qed.

Section run.
  Context (timeout : Z).

(** The pool invariant, with every timeout within [timeout] of the clock. *)
Lemma pool_run_inv now pool log : pool_run timeout now pool log → pool_inv (now + timeout) pool.
Proof.
  induction 1 as [now|now now' pool log c ids cb pool' res _ IH Hle E
    |now pool log c ids pool' found _ IH E|now now' pool log pool' out _ IH Hle E].
  - apply map_Forall_empty.
  - pose proof (addRequests_inv timeout c ids cb now' (now + timeout) pool IH ltac:(lia)) as H.
    by rewrite E in H.
  - pose proof (tryFinishRequests_inv c ids _ _ IH) as H. by rewrite E in H.
  - pose proof (checkTimeout_inv now' _ _ IH) as H. rewrite E in H. cbn in H.
    intros c l Hl. eapply client_inv_weaken; [|by apply (H c)]. lia.
Qed.

Lemma ind_union i (a b : gset Z) : a ## b → ind (i ∈ a ∪ b) = (ind (i ∈ a) + ind (i ∈ b))%nat.
Proof. intros Hd. unfold ind. repeat case_decide; set_solver. Qed.

Lemma ind_split i (a b : gset Z) : b ⊆ a → ind (i ∈ a) = (ind (i ∈ b) + ind (i ∈ a ∖ b))%nat.
Proof. intros Hd. unfold ind. repeat case_decide; set_solver. Qed.

Lemma ind_client (c' c : ClientId) i (ids : gset Z) :
  ind (c' = c ∧ i ∈ ids) = if decide (c = c') then ind (i ∈ ids) else 0%nat.
Proof. unfold ind. repeat case_decide; naive_solver. Qed.

Lemma pool_run_count now pool log c i :
  pool_run timeout now pool log →
  sum_with (added_in c i) log = (sum_with (done_in c i) log + ind (i ∈ pending pool c))%nat.
Proof.
  induction 1 as [now|now now' pool log c' ids cb pool' res Hrun IH Hle E
    |now pool log c' ids pool' found Hrun IH E|now now' pool log pool' out Hrun IH Hle E]; [done|..];
    pose proof (pool_run_inv _ _ _ Hrun) as Hinv.
  - pose proof (addRequests_cases timeout c' ids cb now' pool _ Hinv) as Ec.
    rewrite E in Ec. cbn zeta in Ec. revert Ec.
    destruct (decide (pending pool c' ## ids)) as [Hd|Hd];
      [destruct (decide (_ ≤ MAX_PENDING_REQUEST_PER_CLIENT))|]; intros [= -> ->]; cbn [is_ok];
      rewrite ?app_nil_r; [|rewrite IH, pending_insert; destruct (decide (c = c')); by subst|done].
    rewrite !sum_with_app, IH. cbn [sum_with added_in done_in]. rewrite pending_insert, ind_client.
    destruct (decide (c = c')) as [<-|Hc]; [|lia]. rewrite ids_of_app.
    change (ids_of (default [] (pool !! c))) with (pending pool c).
    assert (ids_of [mkPending ids (now' + timeout) cb] = ids) as -> by (unfold ids_of; cbn; set_solver).
    rewrite ind_union by done. lia.
  - pose proof (tryFinishRequests_pending c' ids pool c) as Hf. rewrite E in Hf. destruct Hf as [-> ->].
    rewrite !sum_with_app, IH. cbn [sum_with added_in done_in]. rewrite ind_client.
    destruct (decide (c = c')) as [<-|Hc]; [|lia].
    rewrite (ind_split i (pending pool c) (pending pool c ∩ ids)) by set_solver.
    assert (pending pool c ∖ (pending pool c ∩ ids) = pending pool c ∖ ids) as -> by set_solver. lia.
  - pose proof (timeouts_count now' pool _ c i Hinv) as Ht.
    pose proof (pending_checkTimeout now' pool c _ Hinv) as [Hsub Hp].
    rewrite E in Ht, Hp. cbn [fst snd] in *.
    rewrite !sum_with_app, IH, Ht, Hp.
    rewrite (sum_with_zero (added_in c i)).
    2: { intros e (cr & -> & _)%list_elem_of_fmap. done. }
    rewrite (ind_split i _ _ Hsub). lia.
Qed.
End run.

(** ** Theorems *)

(** C29: [addRequests] accepts a batch exactly when none of its ids is pending
    for the client and the client's total stays within the limit; a duplicate
    is refused with [INVALID_ARG] and an excess with [TRY_AGAIN]; an accepted
    batch becomes pending, a refused one changes nothing, and other clients
    are never affected.  (The unsigned subtraction of the limit check never
    wraps.) *)
Theorem addRequests_spec timeout now now' pool log c ids cb :
  pool_run timeout now pool log → now ≤ now' →
  let '(pool', res) := addRequests timeout c ids cb now' pool in
  let total := Z.of_nat (countPendingRequests c pool) + Z.of_nat (size ids) in
  (res = Ok tt ↔ pending pool c ## ids ∧ total ≤ MAX_PENDING_REQUEST_PER_CLIENT) ∧
  (res = Err INVALID_ARG ↔ ¬ pending pool c ## ids) ∧
  (res = Err TRY_AGAIN ↔ pending pool c ## ids ∧ MAX_PENDING_REQUEST_PER_CLIENT < total) ∧
  ∀ c', pending pool' c' =
    if decide (c' = c ∧ res = Ok tt) then pending pool c ∪ ids else pending pool c'.
Proof.
  intros Hrun Hle. pose proof (pool_run_inv _ _ _ _ Hrun) as Hinv.
  rewrite (addRequests_cases timeout c ids cb now' pool _ Hinv). cbn zeta.
  assert (countPendingRequests c pool = count_ids (default [] (pool !! c))) as ->
    by (unfold countPendingRequests; by destruct (pool !! c)).
  destruct (decide (pending pool c ## ids)) as [Hd|Hd];
    [destruct (decide (_ ≤ MAX_PENDING_REQUEST_PER_CLIENT)) as [Hm|Hm]|];
    (split_and!; [split; intros; (done || (split; [done|lia]) || naive_solver lia)..|]).
  - intros c'. rewrite pending_insert, ids_of_app. repeat case_decide; [|naive_solver..|done].
    unfold ids_of at 2. cbn. unfold pending. set_solver.
  - intros c'. rewrite pending_insert. repeat case_decide; [naive_solver|by subst|naive_solver|done].
  - intros c'. by rewrite decide_False by naive_solver.
Qed.

(** C5: Every request is answered at most once and none is lost: over any
    history, the times a request id was accepted for a client equal the times
    it was handed back as finished or reported as timed out, plus one if it is
    still pending. *)
Theorem answered_exactly_once timeout now pool log c i :
  pool_run timeout now pool log →
  sum_with (added_in c i) log =
    (sum_with (done_in c i) log + (if isRequestPending c i pool then 1 else 0))%nat.
Proof.
  intros Hrun. rewrite (pool_run_count timeout now pool log c i Hrun).
  pose proof (isRequestPending_spec c i pool) as H. unfold ind.
  destruct (isRequestPending c i pool); case_decide; naive_solver.
Qed.

(** A timeout check is exact: it reports precisely the batches whose
    deadline has passed, leaves precisely the others, and so after it no
    pending batch is overdue. *)
Theorem checkTimeout_exact timeout now now' pool log c r :
  pool_run timeout now pool log → now ≤ now' →
  let '(pool', out) := checkTimeout now' pool in
  ((c, r) ∈ out ↔ r ∈ default [] (pool !! c) ∧ timeoutTimestamp r < now') ∧
  (r ∈ default [] (pool' !! c) ↔ r ∈ default [] (pool !! c) ∧ now' ≤ timeoutTimestamp r).
Proof.
  intros Hrun Hle. pose proof (client_of _ _ c (pool_run_inv _ _ _ _ Hrun)) as Hl.
  pose proof (checkTimeout_reported now' pool c r) as Ho.
  pose proof (checkTimeout_lookup now' pool c) as Hr.
  destruct (checkTimeout now' pool) as [pool' out]. cbn [fst snd] in *. rewrite Ho, Hr. clear Ho Hr.
  pose proof (split_expired_app now' (default [] (pool !! c))) as E.
  pose proof (split_expired_fst now' (default [] (pool !! c))) as H1.
  pose proof (split_expired_snd now' _ (ci_fifo _ _ Hl)) as H2.
  destruct (split_expired now' _) as [l1 l2]. cbn [fst snd] in *. rewrite <- E, elem_of_app.
  rewrite Forall_forall in H1, H2. split; split.
  - intros Hin. specialize (H1 r Hin). auto.
  - intros [[|Hin] Hlt]; [done|]. specialize (H2 r Hin). lia.
  - intros Hin. specialize (H2 r Hin). auto.
  - intros [[Hin|] Hlt]; [|done]. specialize (H1 r Hin). lia.
Qed.

(** [tryFinishRequests] hands back exactly the requested ids that were
    pending for the client and removes just those. *)
Theorem tryFinishRequests_spec c ids pool c' :
  let '(pool', found) := tryFinishRequests c ids pool in
  found = pending pool c ∩ ids ∧
  pending pool' c' = (if decide (c' = c) then pending pool c ∖ ids else pending pool c') ∧
  ∀ i, isRequestPending c' i pool' =
       isRequestPending c' i pool && negb (bool_decide (c' = c ∧ i ∈ ids)).
Proof.
  pose proof (tryFinishRequests_pending c ids pool c') as H.
  destruct (tryFinishRequests c ids pool) as [pool' found]. destruct H as [Hf Hp].
  split_and!; [done..|]. intros i. apply eq_true_iff_eq.
  rewrite andb_true_iff, negb_true_iff, bool_decide_eq_false, !isRequestPending_spec, Hp.
  case_decide; set_solver.
Qed.

(** *** Witnesses *)

Definition example_run_pool : Pool :=
  fst (addRequests 10 1%nat {[5%Z; 6%Z]} 0%nat 105 (fst (addRequests 10 1%nat {[3%Z; 4%Z]} 0%nat 100 ∅))).

Lemma example_run : pool_run 10 105 example_run_pool [Added 1%nat {[3%Z; 4%Z]}; Added 1%nat {[5%Z; 6%Z]}].
Proof.
  apply (run_add 10 100 105 (fst (addRequests 10 1%nat {[3%Z; 4%Z]} 0%nat 100 ∅)) [Added 1%nat {[3%Z; 4%Z]}]
    1%nat {[5%Z; 6%Z]} 0%nat _ (Ok tt)); [|lia|vm_compute; reflexivity].
  apply (run_add 10 0 100 ∅ [] 1%nat {[3%Z; 4%Z]} 0%nat _ (Ok tt));
    [apply run_init|lia|vm_compute; reflexivity].
Qed.

Lemma addRequests_spec_witness :
  snd (addRequests 10 1%nat {[4%Z; 9%Z]} 0%nat 106 example_run_pool) = Err INVALID_ARG ∧
  ¬ pending example_run_pool 1%nat ## {[4%Z; 9%Z]}.
Proof.
  pose proof (addRequests_spec 10 105 106 example_run_pool _ 1%nat {[4%Z; 9%Z]} 0%nat example_run ltac:(lia)) as H.
  destruct (addRequests 10 1%nat {[4%Z; 9%Z]} 0%nat 106 example_run_pool) as [p r] eqn:E.
  assert (r = Err INVALID_ARG) as Hr.
  { pose proof (f_equal snd E) as Es. vm_compute in Es. by rewrite <- Es. }
  split; [exact Hr|]. apply H. exact Hr.
Defined.

Lemma answered_exactly_once_witness :
  sum_with (added_in 1%nat 4) [Added 1%nat {[3%Z; 4%Z]}; Added 1%nat {[5%Z; 6%Z]}] =
    (sum_with (done_in 1%nat 4) [Added 1%nat {[3%Z; 4%Z]}; Added 1%nat {[5%Z; 6%Z]}] +
     (if isRequestPending 1%nat 4 example_run_pool then 1 else 0))%nat.
Proof. apply (answered_exactly_once 10 105 example_run_pool _ 1%nat 4 example_run). Defined.

Lemma checkTimeout_exact_witness :
  (1%nat, mkPending {[3%Z; 4%Z]} 110 0%nat) ∈ snd (checkTimeout 112 example_run_pool).
Proof.
  pose proof (checkTimeout_exact 10 105 112 example_run_pool _ 1%nat
    (mkPending {[3%Z; 4%Z]} 110 0%nat) example_run ltac:(lia)) as H.
  destruct (checkTimeout 112 example_run_pool) as [p out]. apply H. split; [|cbn; lia].
  vm_compute. left.
Defined.
