(* ===== verification/RecurrentTimer.v ===== *)
(** * RecurrentTimer: periodic callbacks on a message looper

    Models [RecurrentTimer.cpp] / [RecurrentTimer.h] of
    [vhal-types/aidl/impl/4/utils/common].  The timer state is the two maps and
    the id counter; the looper is the interface [sendMessageAtTime] the
    operations are given.  [queued_send] is the Android looper (a message is
    queued and delivered later on the looper thread); [stub_send] is the
    looper of [vhal-types/stubs/utils/Looper.h], which calls the handler
    before it returns.  The mutex [mLock] is part of the state, because the
    second looper re-enters the timer.  Histories have the looper thread as a
    state machine of its own: it takes a message out of the looper, the timer
    handles it under the mutex, and the callback is called after the mutex is
    released; other threads run in between. *)

From stdpp Require Import base gmap list.
From Stdlib Require Import ZArith Lia.
From S2P Require Import Prelude.

Local Open Scope Z_scope.

(** ** State *)

(** A [std::shared_ptr<Callback>] is its address. *)
Notation Callback := Z (only parsing).

Record CallbackInfo := mkCallbackInfo {
  ci_callback : Callback;
  intervalInNanos : Z;
  nextTimeInNanos : Z
}.

Record Timer := mkTimer {
  mIdByCallback : gmap Callback Z;
  mCallbackInfoById : gmap Z CallbackInfo;
  mCallbackId : Z;
  mLock : bool;                      (* held? *)
  looperQueue : list (Z * Z)         (* messages (time, what) the looper holds *)
}.

Definition INVALID_ID : Z := -1.

Definition newTimer : Timer := mkTimer ∅ ∅ 0 false [].

Definition set_mIdByCallback (f : gmap Callback Z → gmap Callback Z) (t : Timer) : Timer :=
  mkTimer (f (mIdByCallback t)) (mCallbackInfoById t) (mCallbackId t) (mLock t) (looperQueue t).
Definition set_mCallbackInfoById (f : gmap Z CallbackInfo → gmap Z CallbackInfo) (t : Timer) : Timer :=
  mkTimer (mIdByCallback t) (f (mCallbackInfoById t)) (mCallbackId t) (mLock t) (looperQueue t).
Definition set_mCallbackId (n : Z) (t : Timer) : Timer :=
  mkTimer (mIdByCallback t) (mCallbackInfoById t) n (mLock t) (looperQueue t).
Definition set_mLock (b : bool) (t : Timer) : Timer :=
  mkTimer (mIdByCallback t) (mCallbackInfoById t) (mCallbackId t) b (looperQueue t).
Definition set_looperQueue (f : list (Z * Z) → list (Z * Z)) (t : Timer) : Timer :=
  mkTimer (mIdByCallback t) (mCallbackInfoById t) (mCallbackId t) (mLock t) (f (looperQueue t)).

(** How a call ends: it returns with the callbacks it invoked, it locks a
    mutex its own thread holds, it divides by a zero interval, or the fuel
    of a re-entrant looper ran out. *)
Inductive outcome : Type :=
| Done (t : Timer) (called : list Callback)
| Deadlock
| DivisionByZero
| OutOfFuel.

(** The looper's [sendMessageAtTime(time, handler, Message(what))]. *)
Definition Looper := Z → Z → Timer → outcome.

(** The looper's [removeMessages(handler, what)]. *)
Definition removeMessages (what : Z) (t : Timer) : Timer :=
  set_looperQueue (filter (λ m, m.2 ≠ what)) t.

(** ** Binary64 arithmetic on integer values

    [ceil(uptimeNanos() / intervalInNanos) * intervalInNanos] divides in
    [int64_t], converts the quotient to [double], multiplies by the interval
    converted to [double], and converts back.  All these doubles are integers,
    so each step is rounding an integer to 53 significant bits, ties to even. *)
Definition round53 (z : Z) : Z :=
  let a := Z.abs z in
  if a <? 2 ^ 53 then z
  else
    let u := 2 ^ (Z.log2 a - 52) in
    let q := a / u in
    let r := a mod u in
    let q' := if 2 * r <? u then q
              else if u <? 2 * r then q + 1
              else if Z.even q then q else q + 1 in
    Z.sgn z * (q' * u).

Definition alignedTime (now interval : Z) : Z :=
  round53 (round53 (Z.quot now interval) * round53 interval).

(** ** Operations *)

Definition getCallbackIdLocked (c : Callback) (t : Timer) : Z :=
  match mIdByCallback t !! c with Some i => i | None => INVALID_ID end.

(** [insert] of an [unordered_map]: an existing key keeps its value. *)
Definition map_insert_new {V} (k : Z) (v : V) (m : gmap Z V) : gmap Z V :=
  match m !! k with Some _ => m | None => <[k := v]> m end.

Definition unlock (o : outcome) : outcome :=
  match o with Done t cs => Done (set_mLock false t) cs | _ => o end.

Definition registerTimerCallback (send : Looper) (now interval : Z) (c : Callback) (t : Timer)
    : outcome :=
  if mLock t then Deadlock
  else
    let t := set_mLock true t in
    let callbackId := getCallbackIdLocked c t in
    let '(callbackId, t) :=
      if callbackId =? INVALID_ID then
        let i := mCallbackId t in
        (i, set_mIdByCallback (map_insert_new c i) (set_mCallbackId (to_i32 (i + 1)) t))
      else (callbackId, removeMessages callbackId t) in
    if interval =? 0 then DivisionByZero
    else
      let next := alignedTime now interval in
      let t := set_mCallbackInfoById
                 (map_insert_new callbackId (mkCallbackInfo c interval next)) t in
      unlock (send next callbackId t).

Definition unregisterTimerCallback (c : Callback) (t : Timer) : outcome :=
  if mLock t then Deadlock
  else
    let callbackId := getCallbackIdLocked c t in
    if callbackId =? INVALID_ID then Done t []
    else Done (set_mIdByCallback (delete c)
                (set_mCallbackInfoById (delete callbackId)
                  (removeMessages callbackId t))) [].

(** The time of the next call: [intervalCount] is a [size_t]; the product and
    the sum are computed modulo 2^64 and stored back in an [int64_t]. *)
Definition advanceTime (now next interval : Z) : Z :=
  let intervalCount := to_u64 (Z.quot (now - next) interval + 1) in
  to_i64 (to_u64 (next + to_u64 (intervalCount * to_u64 interval))).

Definition handleMessage (send : Looper) (now what : Z) (t : Timer) : outcome :=
  if mLock t then Deadlock
  else
    match mCallbackInfoById t !! what with
    | None => Done t []
    | Some info =>
        if intervalInNanos info =? 0 then DivisionByZero
        else
          let next := advanceTime now (nextTimeInNanos info) (intervalInNanos info) in
          let info' := mkCallbackInfo (ci_callback info) (intervalInNanos info) next in
          let t := set_mCallbackInfoById <[what := info']> (set_mLock true t) in
          match unlock (send next what t) with
          | Done t' cs => Done t' (cs ++ [ci_callback info])
          | o => o
          end
    end.

(** The Android looper: the message is queued. *)
Definition queued_send : Looper :=
  λ time what t, Done (set_looperQueue (λ q, q ++ [(time, what)]) t) [].

(** The looper of [stubs/utils/Looper.h]: the message is handled at once, on
    the sender's stack. *)
Fixpoint stub_send (fuel : nat) (now : Z) : Looper := λ _ what t,
  match fuel with
  | O => OutOfFuel
  | S n => handleMessage (stub_send n now) now what t
  end.

(** The destructor drops every queued message and joins the looper thread. *)
Definition destroyTimer (t : Timer) : Timer := set_looperQueue (λ _, []) t.

Ltac unfold_setters :=
  unfold set_mLock, set_looperQueue, set_mCallbackInfoById, set_mIdByCallback, set_mCallbackId,
    removeMessages, map_insert_new in *; cbn in *.

(** ** Arithmetic of the schedule *)

Lemma round53_id z : Z.abs z < 2 ^ 53 → round53 z = z.
Proof. intros H. unfold round53. by destruct (Z.ltb_spec (Z.abs z) (2 ^ 53)); [|lia]. Qed.

(** Below 2^53 ns (104 days of uptime) the detour through [double] is exact. *)
Lemma alignedTime_exact now interval :
  0 < interval < 2 ^ 53 → 0 ≤ now < 2 ^ 53 →
  alignedTime now interval = now / interval * interval.
Proof.
  intros Hi Hn. unfold alignedTime.
  rewrite Z.quot_div_nonneg by lia.
  assert (0 ≤ now / interval) by (apply Z.div_pos; lia).
  assert (interval * (now / interval) ≤ now) by (apply Z.mul_div_le; lia).
  assert (now / interval ≤ now) by nia.
  rewrite (round53_id (now / interval)), (round53_id interval) by lia.
  apply round53_id. rewrite Z.mul_comm, Z.abs_eq by nia. lia.
Qed.

Lemma advanceTime_spec now next interval :
  0 < interval → 0 ≤ next ≤ now → now + interval < two63 →
  now < advanceTime now next interval ≤ now + interval
  ∧ (advanceTime now next interval - next) mod interval = 0.
Proof.
  intros Hi Hn Hb. unfold advanceTime. rewrite Z.quot_div_nonneg by lia.
  set (q := (now - next) / interval).
  assert (0 ≤ q) by (apply Z.div_pos; lia).
  assert (interval * q ≤ now - next < interval * q + interval).
  { pose proof (Z.mul_div_le (now - next) interval Hi).
    pose proof (Z.mul_succ_div_gt (now - next) interval Hi). subst q. lia. }
  assert (q ≤ now - next) by nia.
  assert (Hw : two64 = 2 * two63) by done.
  assert (Hp : (q + 1) * interval = interval * q + interval) by ring.
  assert (0 ≤ interval * q) by (apply Z.mul_nonneg_nonneg; lia).
  rewrite (to_u64_id (q + 1)), (to_u64_id interval) by lia.
  rewrite (to_u64_id ((q + 1) * interval)) by lia.
  rewrite (to_u64_id (next + _)) by lia.
  rewrite to_i64_id by (unfold in_i64; lia).
  split; [lia|].
  replace (next + (q + 1) * interval - next) with ((q + 1) * interval) by lia.
  apply Z.mod_mul. lia.
Qed.

(** ** Counting messages *)

(** The number of messages the looper holds for an id. *)
Definition pending (what : Z) (q : list (Z * Z)) : nat :=
  length (filter (λ m, m.2 = what) q).

Lemma pending_app what q1 q2 : pending what (q1 ++ q2) = (pending what q1 + pending what q2)%nat.
Proof. unfold pending. by rewrite filter_app, length_app. Qed.

Lemma pending_one what time x : pending what [(time, x)] = if decide (x = what) then 1%nat else 0%nat.
Proof. unfold pending. rewrite filter_cons. cbn. by destruct (decide (x = what)). Qed.

Lemma pending_cons what time x q :
  pending what ((time, x) :: q) = (pending what [(time, x)] + pending what q)%nat.
Proof. apply (pending_app what [(time, x)] q). Qed.

Lemma pending_middle what q1 time x q2 : pending what (q1 ++ (time, x) :: q2) =
  (pending what (q1 ++ q2) + if decide (x = what) then 1 else 0)%nat.
Proof. rewrite !pending_app, pending_cons, pending_one. lia. Qed.

Lemma pending_removed what x q :
  pending what (filter (λ m, m.2 ≠ x) q) = if decide (x = what) then 0%nat else pending what q.
Proof.
  induction q as [|[ti y] q IH]; [by destruct (decide (x = what))|].
  rewrite filter_cons. cbn [snd]. rewrite (pending_cons what ti y q), pending_one.
  destruct (decide (y ≠ x)) as [Hne|Heq].
  - rewrite pending_cons, pending_one, IH.
    destruct (decide (x = what)), (decide (y = what)); try done. congruence.
  - apply dec_stable in Heq as ->. rewrite IH. by destruct (decide (x = what)).
Qed.

#[local] Arguments pending : simpl never.

(** ** What the maps keep, and what each operation does *)

Record timer_wf (t : Timer) : Prop := {
  ti_unlocked : mLock t = false;
  ti_next : 0 ≤ mCallbackId t;
  ti_maps : ∀ c i, mIdByCallback t !! c = Some i ↔
    ∃ info, mCallbackInfoById t !! i = Some info ∧ ci_callback info = c;
  ti_ids : ∀ i info, mCallbackInfoById t !! i = Some info →
    0 ≤ i < mCallbackId t ∧ 0 < intervalInNanos info;
}.

Lemma timer_wf_new : timer_wf newTimer.
Proof. split; cbn; try done; intros; rewrite ?lookup_empty in *; naive_solver. Qed.

Definition registered (t : Timer) (i : Z) : Prop := is_Some (mCallbackInfoById t !! i).

#[export] Instance registered_dec t i : Decision (registered t i).
Proof. unfold registered. apply _. Defined.

Lemma timer_wf_fresh t c interval next q :
  timer_wf t → 0 < interval → mIdByCallback t !! c = None →
  timer_wf (mkTimer (<[c := mCallbackId t]> (mIdByCallback t))
               (<[mCallbackId t := mkCallbackInfo c interval next]> (mCallbackInfoById t))
               (mCallbackId t + 1) false q).
Proof.
  intros [Hl Hn Hm Hi] Hint Hc.
  assert (Hfresh : mCallbackInfoById t !! mCallbackId t = None).
  { destruct (mCallbackInfoById t !! mCallbackId t) eqn:E; [|done]. apply Hi in E. lia. }
  split; cbn; [done|lia| |].
  - intros c' i. rewrite lookup_insert_Some. split.
    + intros [[<- <-]|[Hne H]].
      * eexists. rewrite lookup_insert_eq. done.
      * apply Hm in H as (info & H & ?). exists info. split; [|done].
        rewrite lookup_insert_ne; [done|]. intros <-. congruence.
    + intros (info & H & <-). apply lookup_insert_Some in H as [[<- <-]|[Hne H]]; [by left|].
      assert (Hx : mIdByCallback t !! ci_callback info = Some i) by (apply Hm; eauto).
      right. split; [|done]. intros ->. cbn in *. congruence.
  - intros i info H. apply lookup_insert_Some in H as [[<- <-]|[Hne H]]; cbn; [lia|].
    apply Hi in H. lia.
Qed.

(** Another time for a registered id, its info keeping the callback. *)
Lemma timer_wf_resend t i info next q :
  timer_wf t → mCallbackInfoById t !! i = Some info →
  timer_wf (mkTimer (mIdByCallback t)
               (<[i := mkCallbackInfo (ci_callback info) (intervalInNanos info) next]>
                  (mCallbackInfoById t))
               (mCallbackId t) false q).
Proof.
  intros [Hl Hn Hm Hi] Hc. split; cbn; [done|lia| |].
  - intros c' j. rewrite Hm. setoid_rewrite lookup_insert_Some. split.
    + intros (x & Hx & <-). destruct (decide (i = j)) as [<-|]; [|eauto 6].
      simplify_eq. eexists. split; [by left|done].
    + intros (x & [[<- <-]|[Hne H]] & <-); eauto.
  - intros j x H. apply lookup_insert_Some in H as [[<- <-]|[Hne H]]; cbn; eauto.
Qed.

Lemma timer_wf_delete t c i q :
  timer_wf t → mIdByCallback t !! c = Some i →
  timer_wf (mkTimer (delete c (mIdByCallback t)) (delete i (mCallbackInfoById t)) (mCallbackId t) false q).
Proof.
  intros [Hl Hn Hm Hi] Hc. split; cbn; [done|lia| |].
  - intros c' j. setoid_rewrite lookup_delete_Some. rewrite Hm.
    apply Hm in Hc as (inf & Hc & <-). split.
    + intros (Hne & x & Hx & <-). exists x. split; [|done]. split; [|done].
      intros <-. congruence.
    + intros (x & (Hne & Hx) & <-). split; [|eauto]. intros He. apply Hne.
      assert (H1 : mIdByCallback t !! ci_callback inf = Some i) by (apply Hm; eauto).
      assert (H2 : mIdByCallback t !! ci_callback x = Some j) by (apply Hm; eauto).
      congruence.
  - intros j x H. apply lookup_delete_Some in H as [_ H]. eauto.
Qed.

Lemma timer_wf_queue t q : timer_wf t → timer_wf (set_looperQueue q t).
Proof. by intros [Hl Hn Hm Hi]. Qed.

(** Registering a known callback replaces its messages by one; registering a
    new one adds one message under a fresh id. *)
Record registers (c : Callback) (i : Z) (t t' : Timer) : Prop := {
  rg_wf : timer_wf t';
  rg_id : mIdByCallback t' !! c = Some i;
  rg_registered : ∀ j, registered t' j ↔ i = j ∨ registered t j;
  rg_cases :
    (mIdByCallback t !! c = Some i ∧ mCallbackId t' = mCallbackId t ∧
       ∀ j, pending j (looperQueue t') = if decide (i = j) then 1%nat else pending j (looperQueue t)) ∨
    (mIdByCallback t !! c = None ∧ i = mCallbackId t ∧ mCallbackId t' = mCallbackId t + 1 ∧
       ∀ j, pending j (looperQueue t') = (pending j (looperQueue t) + if decide (i = j) then 1 else 0)%nat);
}.

Lemma register_spec t now interval c :
  timer_wf t → 0 < interval → mCallbackId t < two31 - 1 →
  ∃ t' i, registerTimerCallback queued_send now interval c t = Done t' [] ∧ registers c i t t'.
Proof.
  intros Ht Hint Hb. pose proof Ht as [Hl Hn Hm Hi].
  unfold registerTimerCallback. rewrite Hl. destruct (Z.eqb_spec interval 0); [lia|].
  unfold getCallbackIdLocked. cbn.
  destruct (mIdByCallback t !! c) as [i|] eqn:Hc.
  - pose proof Hc as (info & Hinfo & <-)%Hm. pose proof (Hi _ _ Hinfo).
    destruct (Z.eqb_spec i INVALID_ID); [unfold INVALID_ID in *; lia|].
    unfold queued_send, map_insert_new. cbn. eexists _, i. split; [reflexivity|]. unfold_setters. rewrite Hinfo.
    pose proof (timer_wf_resend t i info (nextTimeInNanos info)
      (filter (λ m, m.2 ≠ i) (looperQueue t) ++ [(alignedTime now interval, i)]) Ht Hinfo) as Hr.
    destruct info as [ic ii it]. cbn in Hr, Hc |- *. rewrite insert_id in Hr by done.
    split; [exact Hr|done| |left].
    + intros j. unfold registered. cbn. split; [by right|]. intros [<-|Hj]; [by eexists|done].
    + split_and!; [done|done|]. intros j. cbn. rewrite pending_app, pending_removed, pending_one.
      by destruct (decide (i = j)); [|rewrite Nat.add_0_r].
  - assert (Hfresh : mCallbackInfoById t !! mCallbackId t = None).
    { destruct (mCallbackInfoById t !! mCallbackId t) eqn:E; [|done]. apply Hi in E. lia. }
    cbn. eexists _, (mCallbackId t). split; [reflexivity|].
    unfold_setters. rewrite Hc, Hfresh, to_i32_id by (unfold in_i32; unfold_widths; lia).
    split; cbn; [by apply timer_wf_fresh|apply lookup_insert_eq| |right].
    + intros j. unfold registered. cbn. rewrite lookup_insert_is_Some'. tauto.
    + split_and!; [done|done|done|]. intros j. by rewrite pending_app, pending_one.
Qed.

Record unregisters (c : Callback) (t t' : Timer) : Prop := {
  ur_wf : timer_wf t';
  ur_next : mCallbackId t' = mCallbackId t;
  ur_registered : ∀ j, registered t' j ↔ registered t j ∧ mIdByCallback t !! c ≠ Some j;
  ur_pending : ∀ j, pending j (looperQueue t') =
    if decide (mIdByCallback t !! c = Some j) then 0%nat else pending j (looperQueue t);
}.

Lemma unregister_spec t c : timer_wf t →
  ∃ t', unregisterTimerCallback c t = Done t' [] ∧ unregisters c t t'.
Proof.
  intros Ht. pose proof Ht as [Hl Hn Hm Hi]. unfold unregisterTimerCallback, getCallbackIdLocked. rewrite Hl.
  destruct (mIdByCallback t !! c) as [i|] eqn:Hc.
  - pose proof Hc as (info & Hinfo & <-)%Hm. pose proof (Hi _ _ Hinfo).
    destruct (Z.eqb_spec i INVALID_ID); [unfold INVALID_ID in *; lia|]. eexists. split; [reflexivity|].
    unfold_setters. rewrite Hl. split; cbn; [by apply timer_wf_delete|done| |].
    + intros j. unfold registered. cbn. rewrite lookup_delete_is_Some, Hc. naive_solver.
    + intros j. rewrite pending_removed, Hc. by repeat case_decide; simplify_eq.
  - cbn. exists t. split; [done|]. split; [done|done| |].
    + intros j. rewrite Hc. naive_solver.
    + intros j. by rewrite Hc.
Qed.

(** The critical section of the handler for a message that was taken from the
    looper before. *)
Lemma handle_outdated t now what : timer_wf t → ¬ registered t what →
  handleMessage queued_send now what t = Done t [].
Proof.
  intros [Hl _ _ _] Hr. unfold handleMessage, registered in *. rewrite Hl.
  destruct (mCallbackInfoById t !! what); [|done]. by destruct Hr.
Qed.

Lemma handle_registered t now what info : timer_wf t → mCallbackInfoById t !! what = Some info →
  ∃ next, let t' := mkTimer (mIdByCallback t)
        (<[what := mkCallbackInfo (ci_callback info) (intervalInNanos info) next]> (mCallbackInfoById t))
        (mCallbackId t) false (looperQueue t ++ [(next, what)]) in
    handleMessage queued_send now what t = Done t' [ci_callback info] ∧ timer_wf t' ∧
    (∀ j, registered t' j ↔ registered t j) ∧
    ∀ j, pending j (looperQueue t') = (pending j (looperQueue t) + if decide (what = j) then 1 else 0)%nat.
Proof.
  intros Ht Hc. pose proof Ht as [Hl Hn Hm Hi]. destruct (Hi _ _ Hc) as [_ Hint].
  exists (advanceTime now (nextTimeInNanos info) (intervalInNanos info)). cbn zeta. split_and!.
  - unfold handleMessage. rewrite Hl, Hc. by destruct (Z.eqb_spec (intervalInNanos info) 0); [lia|].
  - by apply timer_wf_resend.
  - intros j. unfold registered. cbn. rewrite lookup_insert_is_Some'. split; [|tauto].
    intros [<-|Hj]; [by eexists|done].
  - intros j. cbn. by rewrite pending_app, pending_one.
Qed.

(** ** Histories *)

(** The looper thread: it waits for messages, has taken one out of the looper
    and not locked the timer yet, or has left the lock and not called yet. *)
Inductive LooperThread : Type :=
| Waiting
| Dispatching (what : Z)
| Calling (c : Callback).

#[export] Instance thread_eq_dec : EqDecision LooperThread.
Proof. solve_decision. Defined.

(** One step of the timer and its looper thread, with the callback called.
    The looper is one that queues messages; any due message may come next.
    Intervals are positive, and fewer than 2^31 - 1 callbacks are registered.
    When [careful], no callback is registered again while a message of its is
    being dispatched. *)
Inductive timer_step (careful : bool) : Timer * LooperThread → list Callback → Timer * LooperThread → Prop :=
| t_register t t' th now interval c cs :
    0 < interval → mCallbackId t < two31 - 1 →
    (careful = true → ∀ i, mIdByCallback t !! c = Some i → th ≠ Dispatching i) →
    registerTimerCallback queued_send now interval c t = Done t' cs →
    timer_step careful (t, th) cs (t', th)
| t_unregister t t' th c cs :
    unregisterTimerCallback c t = Done t' cs → timer_step careful (t, th) cs (t', th)
| t_take t now time what q1 q2 :
    looperQueue t = q1 ++ (time, what) :: q2 → time ≤ now →
    timer_step careful (t, Waiting) [] (set_looperQueue (λ _, q1 ++ q2) t, Dispatching what)
| t_handle t t' now what c :
    handleMessage queued_send now what t = Done t' [c] →
    timer_step careful (t, Dispatching what) [] (t', Calling c)
| t_ignore t t' now what :
    handleMessage queued_send now what t = Done t' [] →
    timer_step careful (t, Dispatching what) [] (t', Waiting)
| t_call t c : timer_step careful (t, Calling c) [c] (t, Waiting).

Inductive timer_reachable (careful : bool) : Timer * LooperThread → Prop :=
| tr_init : timer_reachable careful (newTimer, Waiting)
| tr_step s cs s' : timer_reachable careful s → timer_step careful s cs s' → timer_reachable careful s'.

(** The messages of [i] that are queued or being dispatched. *)
Definition messages (i : Z) (s : Timer * LooperThread) : nat :=
  (pending i (looperQueue s.1) + if decide (s.2 = Dispatching i) then 1 else 0)%nat.

Record system_inv (careful : bool) (s : Timer * LooperThread) : Prop := {
  sy_wf : timer_wf s.1;
  sy_known : ∀ i, s.2 = Dispatching i → i < mCallbackId s.1;
  sy_some : ∀ i, registered s.1 i → (1 ≤ messages i s ≤ if careful then 1 else 2)%nat;
  sy_none : ∀ i, ¬ registered s.1 i → pending i (looperQueue s.1) = 0%nat;
}.

Lemma messages_same i t t' th th' : pending i (looperQueue t') = pending i (looperQueue t) →
  (th' = Dispatching i ↔ th = Dispatching i) → messages i (t', th') = messages i (t, th).
Proof. intros Hp Hth. unfold messages. cbn [fst snd]. by rewrite Hp, (decide_ext _ _ _ _ Hth). Qed.

Lemma inv_register careful t t' th now interval c cs :
  system_inv careful (t, th) → 0 < interval → mCallbackId t < two31 - 1 →
  (careful = true → ∀ i, mIdByCallback t !! c = Some i → th ≠ Dispatching i) →
  registerTimerCallback queued_send now interval c t = Done t' cs → system_inv careful (t', th).
Proof.
  intros [Hwf Hk Hs Hn] Hint Hb Hcar H. cbn [fst snd] in *.
  destruct (register_spec t now interval c Hwf Hint Hb) as (t1 & i & E & [Hwf' Hid Hreg Hcase]).
  rewrite E in H. injection H as <- <-.
  destruct Hcase as [(Hc & Hnext & Hp)|(Hc & -> & Hnext & Hp)]; split; cbn [fst snd]; try done.
  - intros j Hj. rewrite Hnext. by apply Hk.
  - intros j [<-|Hj]%Hreg.
    + unfold messages. cbn [fst snd]. rewrite Hp, decide_True by done. destruct careful.
      * rewrite decide_False by (by apply Hcar). lia.
      * case_decide; lia.
    + destruct (decide (i = j)) as [<-|Hne].
      * unfold messages. cbn [fst snd]. rewrite Hp, decide_True by done. destruct careful.
        -- rewrite decide_False by (by apply Hcar). lia.
        -- case_decide; lia.
      * rewrite (messages_same j t _ th th); [by apply Hs|by rewrite Hp, decide_False|done].
  - intros j Hj. rewrite Hreg in Hj. rewrite Hp, decide_False by naive_solver. apply Hn. naive_solver.
  - intros j Hj. rewrite Hnext. apply Hk in Hj. lia.
  - assert (Hnew : ¬ registered t (mCallbackId t)) by (intros [info Hi%(ti_ids _ Hwf)]; lia).
    intros j [<-|Hj]%Hreg.
    + unfold messages. cbn [fst snd]. rewrite Hp, Hn, decide_True by done.
      rewrite decide_False by (intros Hd%Hk; lia). destruct careful; lia.
    + rewrite (messages_same j t _ th th); [by apply Hs| |done]. rewrite Hp, decide_False; [lia|congruence].
  - intros j Hj. rewrite Hreg in Hj. rewrite Hp, decide_False, Hn by naive_solver. done.
Qed.

Lemma inv_unregister careful t t' th c cs :
  system_inv careful (t, th) → unregisterTimerCallback c t = Done t' cs → system_inv careful (t', th).
Proof.
  intros [Hwf Hk Hs Hn] H. cbn [fst snd] in *. destruct (unregister_spec t c Hwf) as (t1 & E & [Hwf' Hnext Hreg Hp]).
  rewrite E in H. injection H as <- <-. split; cbn [fst snd]; [done| | |].
  - intros j. rewrite Hnext. apply Hk.
  - intros j [Hj Hc]%Hreg. rewrite (messages_same j t _ th th); [by apply Hs|by rewrite Hp, decide_False|done].
  - intros j Hj. rewrite Hp. case_decide as Hc; [done|]. apply Hn. intros Hr. apply Hj, Hreg. done.
Qed.

Lemma inv_take careful t time what q1 q2 :
  system_inv careful (t, Waiting) → looperQueue t = q1 ++ (time, what) :: q2 →
  system_inv careful (set_looperQueue (λ _, q1 ++ q2) t, Dispatching what).
Proof.
  intros [Hwf Hk Hs Hn] Hq. cbn [fst snd] in *.
  assert (Hp : ∀ j, pending j (looperQueue t) = (pending j (q1 ++ q2) + if decide (what = j) then 1 else 0)%nat)
    by (intros j; by rewrite Hq, pending_middle).
  split; cbn [fst snd]; [by apply timer_wf_queue| | |].
  - intros j [= <-]. cbn. destruct (decide (registered t what)) as [[info Hi]|Hr]; [by apply (ti_ids _ Hwf) in Hi; lia|].
    apply Hn in Hr. rewrite Hp, decide_True in Hr by done. lia.
  - intros j Hj. specialize (Hs j Hj). unfold messages in *. cbn [fst snd looperQueue set_looperQueue] in *.
    rewrite Hp in Hs. rewrite (decide_ext (Dispatching what = Dispatching j) (what = j)) by (split; congruence).
    rewrite (decide_False (P := Waiting = Dispatching j)) in Hs by done. by rewrite Nat.add_0_r in Hs.
  - intros j Hj. specialize (Hn j Hj). rewrite Hp in Hn. cbn. lia.
Qed.

Lemma system_handle careful t t' now what cs : system_inv careful (t, Dispatching what) →
  handleMessage queued_send now what t = Done t' cs →
  match mCallbackInfoById t !! what with
  | Some info => cs = [ci_callback info] ∧ ∀ c, system_inv careful (t', Calling c)
  | None => cs = [] ∧ system_inv careful (t', Waiting)
  end.
Proof.
  intros [Hwf Hk Hs Hn] H. cbn [fst snd] in *. destruct (mCallbackInfoById t !! what) as [info|] eqn:Hi.
  - destruct (handle_registered t now what info Hwf Hi) as (next & E & Hwf' & Hreg & Hp). rewrite E in H.
    injection H as <- <-. split; [done|]. intros c. split; cbn [fst snd]; [done|done| |].
    + intros j Hj%Hreg. specialize (Hs j Hj). unfold messages in *. cbn [fst snd] in *. rewrite Hp.
      rewrite (decide_ext (Dispatching what = Dispatching j) (what = j)) in Hs by (split; congruence).
      rewrite (decide_False (P := Calling c = Dispatching j)) by done. by rewrite Nat.add_0_r.
    + intros j Hj. rewrite Hp, Hn by (by rewrite <- Hreg). rewrite decide_False; [done|].
      intros <-. apply Hj, Hreg. by exists info.
  - rewrite handle_outdated in H; [|done|unfold registered; rewrite Hi; by intros []]. injection H as <- <-.
    split; [done|]. split; cbn [fst snd]; [done|done| |done].
    intros j Hj. rewrite (messages_same j t t (Dispatching what)); [by apply Hs|done|].
    split; [done|]. intros [= <-]. destruct Hj as [? Hj]. congruence.
Qed.

Lemma timer_reachable_inv careful s : timer_reachable careful s → system_inv careful s.
Proof.
  induction 1 as [|s cs s' _ IH Hs].
  { split; cbn; [apply timer_wf_new|done| |done]. intros i [info Hi]. cbn in Hi. by rewrite lookup_empty in Hi. }
  destruct Hs as [t t' th now I c cs HI Hb Hc E|t t' th c cs E|t now time what q1 q2 Hq Ht|t t' now what c E|t t' now what E|t c].
  - by eapply inv_register.
  - by eapply inv_unregister.
  - by eapply inv_take.
  - pose proof (system_handle _ _ _ _ _ _ IH E) as H. destruct (mCallbackInfoById t !! what); [apply H|by destruct H].
  - pose proof (system_handle _ _ _ _ _ _ IH E) as H. destruct (mCallbackInfoById t !! what); [by destruct H|apply H].
  - destruct IH as [Hwf _ Hs Hn]. split; cbn [fst snd] in *; [done|done| |done].
    intros i Hi. rewrite (messages_same i t t (Calling c)); [by apply Hs|done|by split].
Qed.

(** What holds for a client that never registers a callback again: each
    registered callback has exactly one message, queued or being dispatched. *)
Record timer_inv (th : LooperThread) (t : Timer) : Prop := {
  ti_wf :> timer_wf t;
  ti_system : system_inv true (t, th);
}.

Lemma timer_inv_system th t : system_inv true (t, th) → timer_inv th t.
Proof. intros H. split; [apply H|done]. Qed.

Lemma timer_inv_new : timer_inv Waiting newTimer.
Proof. apply timer_inv_system, timer_reachable_inv, tr_init. Qed.

Lemma timer_inv_register th t t' now interval c cs :
  timer_inv th t → 0 < interval → mCallbackId t < two31 - 1 → mIdByCallback t !! c = None →
  registerTimerCallback queued_send now interval c t = Done t' cs → timer_inv th t'.
Proof. intros [_ Hs] HI Hb Hc E. apply timer_inv_system. eapply inv_register; [done..| |done]. intros _ i. by rewrite Hc. Qed.

Lemma timer_inv_unregister th t t' c cs :
  timer_inv th t → unregisterTimerCallback c t = Done t' cs → timer_inv th t'.
Proof. intros [_ Hs] E. apply timer_inv_system. by eapply inv_unregister. Qed.

Lemma timer_inv_take t time what q1 q2 :
  timer_inv Waiting t → looperQueue t = q1 ++ (time, what) :: q2 →
  timer_inv (Dispatching what) (set_looperQueue (λ _, q1 ++ q2) t).
Proof. intros [_ Hs] E. apply timer_inv_system. by eapply inv_take. Qed.

Lemma timer_inv_called c t : timer_inv (Calling c) t → timer_inv Waiting t.
Proof.
  intros [Hwf [_ _ Hs Hn]]. apply timer_inv_system. split; cbn [fst snd] in *; [done|done| |done].
  intros i Hi. rewrite (messages_same i t t (Calling c)); [by apply Hs|done|by split].
Qed.

Lemma timer_inv_messages th t i : timer_inv th t → registered t i → messages i (t, th) = 1%nat.
Proof. intros [_ [_ _ Hs _]] Hi. specialize (Hs i Hi). lia. Qed.

(** ** The properties *)

(** C33: On a looper that queues messages and delivers them on its own thread,
    with positive intervals and fewer than 2^31 - 1 callbacks ever registered:
    in every state the timer reaches, however registrations, removals and the
    looper thread interleave, the mutex is free between the critical sections,
    the two maps are inverse to each other, and each registered callback has one
    or two messages that are queued or being dispatched, so that it never stops
    ticking; it has exactly one when it was never registered again while its
    message was being dispatched.  An id that is not registered has no queued
    message.  The message the looper thread has taken is handled without
    deadlock or division by zero, and calls the callback if it is still
    registered and nothing otherwise. *)
Theorem timer_one_message_per_callback careful t th :
  timer_reachable careful (t, th) →
  mLock t = false
  ∧ (∀ c i, mIdByCallback t !! c = Some i ↔
       ∃ info, mCallbackInfoById t !! i = Some info ∧ ci_callback info = c)
  ∧ (∀ i, registered t i → (1 ≤ messages i (t, th) ≤ if careful then 1 else 2)%nat)
  ∧ (∀ i, ¬ registered t i → pending i (looperQueue t) = 0%nat)
  ∧ (∀ what now, th = Dispatching what → ∃ t',
       handleMessage queued_send now what t =
         Done t' (match mCallbackInfoById t !! what with Some info => [ci_callback info] | None => [] end)).
Proof.
  intros [Hwf _ Hs Hn]%timer_reachable_inv. cbn [fst snd] in *. split_and!; [apply Hwf|apply Hwf|done|done|].
  intros what now _. destruct (mCallbackInfoById t !! what) as [info|] eqn:Hi.
  - destruct (handle_registered t now what info Hwf Hi) as (next & E & _). by eexists.
  - exists t. apply handle_outdated; [done|]. unfold registered. rewrite Hi. by intros [].
Qed.

Definition timer_demo : Timer :=
  mkTimer {[7 := 0]} {[0 := mkCallbackInfo 7 100 200]} 1 false [(200, 0)].

Lemma timer_demo_reachable careful : timer_reachable careful (timer_demo, Waiting).
Proof.
  eapply tr_step; [apply tr_init|].
  eapply (t_register _ _ _ _ 250 100 7 []); [by vm_compute|by vm_compute| |by vm_compute].
  intros _ i Hi. cbn in Hi. by rewrite lookup_empty in Hi.
Qed.

(** Registered again while its message is on the way to the handler, the
    callback has two messages from then on, and ticks twice in each period. *)
Definition timer_doubled : Timer :=
  mkTimer {[7 := 0]} {[0 := mkCallbackInfo 7 100 400]} 1 false [(300, 0); (400, 0)].

Lemma timer_doubled_reachable : timer_reachable false (timer_doubled, Calling 7).
Proof.
  eapply tr_step; [eapply tr_step; [eapply tr_step; [apply (timer_demo_reachable false)|]|]|].
  - eapply (t_take _ _ 300 200 0 [] []); [by vm_compute|by vm_compute].
  - eapply (t_register _ _ _ _ 300 100 7 []); [by vm_compute|by vm_compute|done|by vm_compute].
  - eapply (t_handle _ _ _ 300 0 7). by vm_compute.
Qed.

Theorem timer_one_message_per_callback_witness :
  (timer_reachable true (timer_demo, Waiting) ∧ (1 ≤ messages 0 (timer_demo, Waiting) ≤ 1)%nat) ∧
  (timer_reachable false (timer_doubled, Calling 7) ∧ messages 0 (timer_doubled, Calling 7) = 2%nat ∧
   (1 ≤ messages 0 (timer_doubled, Calling 7) ≤ 2)%nat).
Proof.
  assert (H1 : registered timer_demo 0) by (by eexists).
  assert (H2 : registered timer_doubled 0) by (by eexists).
  split.
  - split; [apply timer_demo_reachable|].
    destruct (timer_one_message_per_callback true _ _ (timer_demo_reachable true)) as (_ & _ & H & _). exact (H 0 H1).
  - split; [apply timer_doubled_reachable|]. split; [reflexivity|].
    destruct (timer_one_message_per_callback false _ _ timer_doubled_reachable) as (_ & _ & H & _). exact (H 0 H2).
Defined.

(** Handling a message that is due calls the callback once and queues its
    next message strictly after the present, at most one interval later, on
    the callback's own grid (a whole number of intervals after the missed
    time), however many periods were missed; nothing else changes. *)
Theorem handleMessage_reschedules careful t th what info now :
  timer_reachable careful (t, th) →
  mCallbackInfoById t !! what = Some info →
  0 ≤ nextTimeInNanos info ≤ now → now + intervalInNanos info < two63 →
  ∃ next,
    handleMessage queued_send now what t =
      Done (mkTimer (mIdByCallback t)
              (<[what := mkCallbackInfo (ci_callback info) (intervalInNanos info) next]>
                 (mCallbackInfoById t))
              (mCallbackId t) false (looperQueue t ++ [(next, what)])) [ci_callback info]
    ∧ now < next ≤ now + intervalInNanos info
    ∧ (next - nextTimeInNanos info) mod intervalInNanos info = 0.
Proof.
  intros [[Hl _ _ Hi] _ _ _]%timer_reachable_inv Hc Hn Hb. cbn [fst snd] in *. destruct (Hi _ _ Hc) as [_ Hpos].
  exists (advanceTime now (nextTimeInNanos info) (intervalInNanos info)).
  split; [|by apply advanceTime_spec].
  unfold handleMessage. rewrite Hl, Hc.
  by destruct (Z.eqb_spec (intervalInNanos info) 0); [lia|].
Qed.

Theorem handleMessage_reschedules_witness :
  timer_reachable true (timer_demo, Waiting) ∧
  ∃ next, handleMessage queued_send 455 0 timer_demo =
      Done (mkTimer (mIdByCallback timer_demo)
              (<[0 := mkCallbackInfo 7 100 next]> (mCallbackInfoById timer_demo))
              1 false (looperQueue timer_demo ++ [(next, 0)])) [7]
    ∧ 455 < next ≤ 455 + 100 ∧ (next - 200) mod 100 = 0.
Proof.
  split; [apply timer_demo_reachable|].
  refine (handleMessage_reschedules true timer_demo Waiting 0 (mkCallbackInfo 7 100 200) 455
            (timer_demo_reachable true) _ _ _); [vm_compute; reflexivity|cbn; lia|vm_compute; reflexivity].
Defined.

(** Registering a callback a second time keeps the interval of the first
    registration, because [insert] does not replace the entry. *)
Lemma reregister_keeps_interval t c i info now interval :
  timer_wf t → mIdByCallback t !! c = Some i → mCallbackInfoById t !! i = Some info →
  interval ≠ 0 →
  ∃ t', registerTimerCallback queued_send now interval c t = Done t' []
    ∧ mCallbackInfoById t' !! i = Some info.
Proof.
  intros [Hl _ _ Hi] Hc Hinfo Hz. pose proof (Hi _ _ Hinfo).
  unfold registerTimerCallback, getCallbackIdLocked. rewrite Hl. cbn. rewrite Hc.
  destruct (Z.eqb_spec i INVALID_ID); [unfold INVALID_ID in *; lia|].
  destruct (Z.eqb_spec interval 0); [done|].
  eexists. split; [reflexivity|]. unfold map_insert_new. cbn. by rewrite Hinfo.
Qed.

(** On the looper of the stubs every registration locks [mLock] twice on one
    thread: the handler runs while the registration still holds the lock. *)
Lemma register_on_stub_deadlocks fuel now interval c t :
  mLock t = false → interval ≠ 0 →
  registerTimerCallback (stub_send (S fuel) now) now interval c t = Deadlock.
Proof.
  intros Hl Hz. unfold registerTimerCallback, getCallbackIdLocked. rewrite Hl. cbn.
  destruct (Z.eqb_spec interval 0); [done|].
  destruct (mIdByCallback t !! c) as [i|]; [destruct (i =? INVALID_ID)|]; reflexivity.
Qed.
