(* ===== verification/ConcurrentQueue.v ===== *)
(** * ConcurrentQueue and BatchingConsumer

    Models [ConcurrentQueue.h] of [vhal-types/aidl/impl/4/utils/common]: the
    queue's operations, each one critical section of [mLock], and the worker
    thread of [BatchingConsumer] as a state machine whose steps interleave with
    the pushes, the deactivation and the stop request of other threads. *)

From stdpp Require Import base list.
From Stdlib Require Import Lia.
From S2P Require Import Prelude.

Section queue.
Context {T : Type}.

(** ** ConcurrentQueue *)

Record ConcurrentQueue := mkQueue {
  mIsActive : bool;
  mQueue : list T
}.

Definition newQueue : ConcurrentQueue := mkQueue true [].

(** [None]: the caller is blocked on the condition variable. *)
Definition waitForItems (q : ConcurrentQueue) : option bool :=
  match mQueue q with
  | [] => if mIsActive q then None else Some (mIsActive q)
  | _ :: _ => Some (mIsActive q)
  end.

Fixpoint flush_loop (queue items : list T) : list T :=
  match queue with
  | [] => items
  | x :: queue' => flush_loop queue' (items ++ [x])
  end.

Definition flush (q : ConcurrentQueue) : ConcurrentQueue * list T :=
  match mQueue q with
  | [] => (q, [])
  | _ :: _ => (mkQueue (mIsActive q) [], flush_loop (mQueue q) [])
  end.

Definition push (item : T) (q : ConcurrentQueue) : ConcurrentQueue :=
  if negb (mIsActive q) then q else mkQueue (mIsActive q) (mQueue q ++ [item]).

Fixpoint push_loop (items queue : list T) : list T :=
  match items with
  | [] => queue
  | x :: items' => push_loop items' (queue ++ [x])
  end.

Definition push_many (items : list T) (q : ConcurrentQueue) : ConcurrentQueue :=
  if negb (mIsActive q) then q else mkQueue (mIsActive q) (push_loop items (mQueue q)).

Definition deactivate (q : ConcurrentQueue) : ConcurrentQueue := mkQueue false (mQueue q).

Lemma flush_loop_app queue items : flush_loop queue items = items ++ queue.
Proof.
  revert items. induction queue as [|x l IH]; intros items; cbn; [by rewrite app_nil_r|].
  by rewrite IH, <-app_assoc.
Qed.

Lemma push_loop_app items queue : push_loop items queue = queue ++ items.
Proof.
  revert queue. induction items as [|x l IH]; intros queue; cbn; [by rewrite app_nil_r|].
  by rewrite IH, <-app_assoc.
Qed.

Lemma flush_eq q : flush q = (mkQueue (mIsActive q) [], mQueue q).
Proof.
  unfold flush. destruct q as [a [|x l]]; [done|].
  by rewrite flush_loop_app.
Qed.

(** ** BatchingConsumer *)

Inductive State := INIT | RUNNING | STOP_REQUESTED | STOPPED.

(** Where the worker thread is in [runInternal]. *)
Inductive Pc :=
| NotStarted          (* before the exchange *)
| LoopHead            (* at the [while] test *)
| InWait              (* inside [waitForItems] *)
| Waited              (* at the test after the wait *)
| Slept               (* at the test after the sleep *)
| BeforeFlush         (* past that test *)
| Leaving             (* at the final store *)
| Exited.

#[export] Instance State_eq_dec : EqDecision State.
Proof. solve_decision. Defined.

Record System := mkSystem {
  sys_queue : ConcurrentQueue;
  mState : State;
  worker : Pc;
  batches : list (list T)             (* the calls of onBatchReceived *)
}.

Definition newSystem : System := mkSystem newQueue INIT NotStarted [].

Definition stop_seen (s : State) : bool := bool_decide (s = STOP_REQUESTED).

(** The worker thread's next step; [None]: it waits, or has exited. *)
Definition runInternal_step (s : System) : option System :=
  match worker s with
  | NotStarted =>
      Some (mkSystem (sys_queue s) RUNNING
              (if bool_decide (mState s = INIT) then LoopHead else Leaving) (batches s))
  | LoopHead =>
      Some (mkSystem (sys_queue s) (mState s)
              (if bool_decide (mState s = RUNNING) then InWait else Leaving) (batches s))
  | InWait =>
      match waitForItems (sys_queue s) with
      | None => None
      | Some _ => Some (mkSystem (sys_queue s) (mState s) Waited (batches s))
      end
  | Waited =>
      Some (mkSystem (sys_queue s) (mState s)
              (if stop_seen (mState s) then Leaving else Slept) (batches s))
  | Slept =>
      Some (mkSystem (sys_queue s) (mState s)
              (if stop_seen (mState s) then Leaving else BeforeFlush) (batches s))
  | BeforeFlush =>
      let '(q, items) := flush (sys_queue s) in
      Some (mkSystem q (mState s) LoopHead
              (match items with [] => batches s | _ :: _ => batches s ++ [items] end))
  | Leaving => Some (mkSystem (sys_queue s) STOPPED Exited (batches s))
  | Exited => None
  end.

Definition requestStop (s : System) : System :=
  mkSystem (sys_queue s) STOP_REQUESTED (worker s) (batches s).

Definition on_queue (f : ConcurrentQueue → ConcurrentQueue) (s : System) : System :=
  mkSystem (f (sys_queue s)) (mState s) (worker s) (batches s).

(** What the threads do, one atomic step at a time. *)
Inductive Event :=
| EPush (x : T)
| EPushMany (l : list T)
| EDeactivate
| ERequestStop
| EWorker.

Definition sys_step (e : Event) (s : System) : option System :=
  match e with
  | EPush x => Some (on_queue (push x) s)
  | EPushMany l => Some (on_queue (push_many l) s)
  | EDeactivate => Some (on_queue deactivate s)
  | ERequestStop => Some (requestStop s)
  | EWorker => runInternal_step s
  end.

Fixpoint sys_run (tr : list Event) (s : System) : option System :=
  match tr with
  | [] => Some s
  | e :: tr' => match sys_step e s with Some s' => sys_run tr' s' | None => None end
  end.

(** The items pushed before the queue is deactivated. *)
Fixpoint accepted (active : bool) (tr : list Event) : list T :=
  match tr with
  | [] => []
  | EPush x :: tr' => (if active then [x] else []) ++ accepted active tr'
  | EPushMany l :: tr' => (if active then l else []) ++ accepted active tr'
  | EDeactivate :: tr' => accepted false tr'
  | _ :: tr' => accepted active tr'
  end.

(** Delivered so far, followed by what is still queued. *)
Definition contents (s : System) : list T := concat (batches s) ++ mQueue (sys_queue s).

Lemma worker_step_contents s s' :
  runInternal_step s = Some s' →
  contents s' = contents s ∧ mIsActive (sys_queue s') = mIsActive (sys_queue s).
Proof.
  unfold runInternal_step, contents. rewrite flush_eq.
  destruct (worker s); try (intros; simplify_eq; done).
  - destruct (waitForItems _); intros; by simplify_eq.
  - intros H. simplify_eq. cbn. split; [|done].
    destruct (mQueue (sys_queue s)) as [|x l]; [done|].
    by rewrite concat_app, app_nil_r; cbn; rewrite app_nil_r.
Qed.

Lemma sys_run_contents tr s s' :
  sys_run tr s = Some s' →
  contents s' = contents s ++ accepted (mIsActive (sys_queue s)) tr.
Proof.
  revert s. induction tr as [|e tr IH]; intros s; cbn.
  - intros H. simplify_eq. by rewrite app_nil_r.
  - destruct (sys_step e s) as [s1|] eqn:He; [|done]. intros Hr.
    rewrite (IH _ Hr). destruct e; cbn in He.
    + simplify_eq. unfold contents, on_queue, push. cbn.
      destruct (mIsActive (sys_queue s)) eqn:Ha; cbn; rewrite ?Ha, <-?app_assoc; done.
    + simplify_eq. unfold contents, on_queue, push_many. cbn.
      destruct (mIsActive (sys_queue s)) eqn:Ha; cbn;
        rewrite ?Ha, ?push_loop_app, <-?app_assoc; done.
    + simplify_eq. done.
    + simplify_eq. done.
    + apply worker_step_contents in He as [-> ->]. done.
Qed.

Lemma sys_run_nonempty tr s s' :
  sys_run tr s = Some s' → Forall (λ b, b ≠ []) (batches s) → Forall (λ b, b ≠ []) (batches s').
Proof.
  revert s. induction tr as [|e tr IH]; intros s; cbn; [intros; by simplify_eq|].
  destruct (sys_step e s) as [s1|] eqn:He; [|done]. intros Hr Hb.
  apply (IH _ Hr). destruct e; cbn in He; simplify_eq; try done.
  revert He. unfold runInternal_step. rewrite flush_eq.
  destruct (worker s); try (intros; simplify_eq; done).
  - destruct (waitForItems _); intros; by simplify_eq.
  - intros H. simplify_eq. cbn. destruct (mQueue (sys_queue s)); [done|].
    apply Forall_app. split; [done|]. by constructor.
Qed.

(** Batches the worker may still deliver once a stop was requested. *)
Definition budget (s : System) : nat :=
  match worker s with BeforeFlush => 1 | _ => 0 end.

(** The stop request is in effect: recorded, or acted upon already. *)
Definition stopping (s : System) : Prop :=
  mState s = STOP_REQUESTED ∧ worker s ≠ NotStarted ∨ worker s = Leaving ∨ worker s = Exited.

Lemma sys_run_stopping tr s s' :
  stopping s → sys_run tr s = Some s' →
  length (batches s') ≤ length (batches s) + budget s.
Proof.
  revert s. induction tr as [|e tr IH]; intros s Hst; cbn; [intros; simplify_eq; lia|].
  destruct (sys_step e s) as [s1|] eqn:He; [|done]. intros Hr.
  assert (Hs1 : stopping s1 ∧ length (batches s1) + budget s1 ≤ length (batches s) + budget s).
  { destruct e; cbn in He; simplify_eq; try done.
    - split; [|done]. unfold stopping in *; cbn. naive_solver.
    - revert He. unfold runInternal_step, stopping, budget in *. rewrite flush_eq.
      destruct (worker s) eqn:Hw.
      + naive_solver.
      + destruct Hst as [[-> _]|[?|?]]; [|done..]. cbn. intros. simplify_eq. cbn. naive_solver lia.
      + destruct (waitForItems _); [|done]. intros. simplify_eq. cbn. naive_solver lia.
      + destruct Hst as [[-> _]|[?|?]]; [|done..]. cbn. intros. simplify_eq. cbn. naive_solver lia.
      + destruct Hst as [[-> _]|[?|?]]; [|done..]. cbn. intros. simplify_eq. cbn. naive_solver lia.
      + intros. simplify_eq. cbn. destruct Hst as [[-> _]|[?|?]]; [|done..].
        split; [by left|]. destruct (mQueue _); rewrite ?length_app; cbn; lia.
      + intros. simplify_eq. cbn. naive_solver lia.
      + done. }
  destruct Hs1 as [H1 H2]. specialize (IH _ H1 Hr). lia.
Qed.

(** C34: Whatever the interleaving of pushes, deactivation, stop requests and
    worker steps, the batches delivered so far followed by what is still
    queued are exactly the items pushed before the deactivation, in order:
    nothing is lost, duplicated or reordered; no delivered batch is empty. *)
Theorem queue_fifo_exactly_once tr s :
  sys_run tr newSystem = Some s →
  concat (batches s) ++ mQueue (sys_queue s) = accepted true tr
  ∧ Forall (λ b, b ≠ []) (batches s).
Proof.
  intros Hr. split; [exact (sys_run_contents _ _ _ Hr)|].
  by apply (sys_run_nonempty _ _ _ Hr).
Qed.

(** Once a running worker is asked to stop, at most one more batch is
    delivered, and none if the request came before the worker's last test. *)
Lemma at_most_one_batch_after_stop tr s s' :
  worker s ≠ NotStarted → sys_run tr (requestStop s) = Some s' →
  length (batches s') ≤ length (batches s) + budget s.
Proof.
  intros Hw Hr. apply (sys_run_stopping tr (requestStop s) s'); [|done]. by left.
Qed.

(** [requestStop] alone does not wake a worker that waits on an empty queue. *)
Lemma stop_request_does_not_wake s :
  worker s = InWait → sys_queue s = newQueue → runInternal_step (requestStop s) = None.
Proof. intros Hw Hq. unfold runInternal_step. cbn. by rewrite Hw, Hq. Qed.

(** Deactivating the queue does: the worker then reaches its exit. *)
Lemma deactivate_after_stop_exits s :
  worker s = InWait →
  ∃ s', sys_run [ERequestStop; EDeactivate; EWorker; EWorker; EWorker] s = Some s'
    ∧ worker s' = Exited ∧ mState s' = STOPPED ∧ contents s' = contents s.
Proof.
  intros Hw. destruct s as [[a q] st w b]. cbn in Hw. subst w.
  destruct q; eexists; split; reflexivity || done.
Qed.
End queue.

Arguments ConcurrentQueue : clear implicits.
Arguments System : clear implicits.
Arguments Event : clear implicits.

Theorem queue_fifo_exactly_once_witness :
  ∃ s, sys_run [EPush 1; EWorker; EWorker; EPushMany [2; 3]; EWorker; EWorker; EWorker; EWorker;
                EPush 4; EDeactivate; EPush 5] newSystem = Some s
    ∧ batches s = [[1; 2; 3]]
    ∧ concat (batches s) ++ mQueue (sys_queue s) = [1; 2; 3; 4].
Proof.
  eexists. split; [vm_compute; reflexivity|]. split; [reflexivity|].
  refine (proj1 (queue_fifo_exactly_once
    [EPush 1; EWorker; EWorker; EPushMany [2; 3]; EWorker; EWorker; EWorker; EWorker;
     EPush 4; EDeactivate; EPush 5] _ _)).
  vm_compute. reflexivity.
Defined.
