(* ===== verification/VehicleHardware.v ===== *)
(** * IVehicleHardware: the interface to the vehicle

    [IVehicleHardware] (vhal-types/.../hardware/include/IVehicleHardware.h) is
    abstract: the managers above are written against it and several
    implementations exist.  [Hardware HS] gives the subscription operations on
    a hardware state [HS]; [HardwareLaws] states what the comments of the
    header promise about them, through the set of [propId, areaId]s the
    hardware currently reports; [SupportedLaws] is the same for changes of
    supported values. *)

From stdpp Require Import base gmap sets list relations.
From Stdlib Require Import ZArith.
From S2P Require Import Prelude Float32 VehicleTypes.

Local Open Scope Z_scope.

Class Hardware (HS : Type) := {
  hw_subscribe : SubscribeOptions → HS → HS * StatusCode;
  hw_unsubscribe : Z → Z → HS → HS * StatusCode;
  hw_updateSampleRate : Z → Z → f32 → HS → HS * StatusCode;
  hw_subscribeSupportedValueChange : list PropIdAreaId → HS → HS * StatusCode;
  hw_unsubscribeSupportedValueChange : list PropIdAreaId → HS → HS * StatusCode;
}.

(** The [propId, areaId]s an options structure addresses. *)
Definition optionsIds (o : SubscribeOptions) : gset PropIdAreaId :=
  list_to_set ((λ a, mkPropIdAreaId (so_propId o) a) <$> so_areaIds o).

(** The laws: a call that returns [OK] has its effect, one that fails has none;
    the calls for supported values leave the property subscriptions alone. *)
Class HardwareLaws (HS : Type) `{Hardware HS} := {
  hw_active : HS → gset PropIdAreaId;

  hw_subscribe_law o h :
    let r := hw_subscribe o h in
    hw_active r.1 = if decide (r.2 = OK) then hw_active h ∪ optionsIds o else hw_active h;
  hw_unsubscribe_law p a h :
    let r := hw_unsubscribe p a h in
    hw_active r.1 =
      if decide (r.2 = OK) then hw_active h ∖ {[mkPropIdAreaId p a]} else hw_active h;
  hw_updateSampleRate_law p a x h :
    hw_active (hw_updateSampleRate p a x h).1 = hw_active h;
  hw_subscribeSupported_active l h :
    hw_active (hw_subscribeSupportedValueChange l h).1 = hw_active h;
  hw_unsubscribeSupported_active l h :
    hw_active (hw_unsubscribeSupportedValueChange l h).1 = hw_active h;
}.

(** The calls for property subscriptions, and several of them. *)
Inductive prop_call {HS : Type} `{Hardware HS} : HS → HS → Prop :=
  | pc_subscribe o h : prop_call h (hw_subscribe o h).1
  | pc_unsubscribe p a h : prop_call h (hw_unsubscribe p a h).1
  | pc_updateSampleRate p a x h : prop_call h (hw_updateSampleRate p a x h).1.

Definition prop_calls {HS : Type} `{Hardware HS} : HS → HS → Prop := rtc prop_call.

(** The same for changes of supported values, which a hardware that inherits
    the defaults of the interface does not provide (they return [OK] and do
    nothing). *)
Class SupportedLaws (HS : Type) `{Hardware HS} := {
  hw_activeSupported : HS → gset PropIdAreaId;

  hw_subscribeSupported_law l h :
    let r := hw_subscribeSupportedValueChange l h in
    hw_activeSupported r.1 =
      if decide (r.2 = OK) then hw_activeSupported h ∪ list_to_set l else hw_activeSupported h;
  hw_unsubscribeSupported_law l h :
    let r := hw_unsubscribeSupportedValueChange l h in
    hw_activeSupported r.1 =
      if decide (r.2 = OK) then hw_activeSupported h ∖ list_to_set l else hw_activeSupported h;
  hw_prop_call_supported h h' :
    prop_call h h' → hw_activeSupported h' = hw_activeSupported h;
}.

Lemma prop_calls_supported {HS : Type} `{Hardware HS} `{!SupportedLaws HS} (h h' : HS) :
  prop_calls h h' → hw_activeSupported h' = hw_activeSupported h.
Proof. induction 1 as [|h1 h2 h3 H12 _ IH]; [done|]. by rewrite IH, (hw_prop_call_supported _ _ H12). Qed.

(** ** Values and configurations

    [hw_getValues] and [hw_setValues] return, besides the status, the calls of
    the result callback the hardware makes before it returns; later calls are
    events of the client. *)

Class ValueHardware (HS : Type) := {
  hw_getAllPropertyConfigs : HS → list VehiclePropConfig;
  hw_getPropertyConfig : Z → HS → option VehiclePropConfig;
  hw_getValues : list GetValueRequest → HS → HS * StatusCode * list (list GetValueResult);
  hw_setValues : list SetValueRequest → HS → HS * StatusCode * list (list SetValueResult);
  hw_getSupportedValuesLists : list PropIdAreaId → HS → HS * list SupportedValuesListResult;
  hw_getMinMaxSupportedValues : list PropIdAreaId → HS → HS * list MinMaxSupportedValueResult;
  hw_checkHealth : HS → HS * StatusCode
}.

(** The default [getPropertyConfig] of the interface. *)
Definition default_getPropertyConfig (propId : Z) (configs : list VehiclePropConfig)
    : option VehiclePropConfig := List.find (λ c, pc_prop c =? propId) configs.

(** ** A hardware that satisfies the laws

    It keeps the two sets, and refuses the properties it is told to refuse. *)

Record SimpleHardware := mkSimpleHardware {
  sh_active : gset PropIdAreaId;
  sh_supported : gset PropIdAreaId;
  sh_refuse : gset PropIdAreaId
}.

Definition sh_answer (ids : gset PropIdAreaId) (h : SimpleHardware) : StatusCode :=
  if decide (ids ∩ sh_refuse h = ∅) then OK else INTERNAL_ERROR.

#[export] Instance simple_hardware : Hardware SimpleHardware := {|
  hw_subscribe o h :=
    if decide (sh_answer (optionsIds o) h = OK)
    then (mkSimpleHardware (sh_active h ∪ optionsIds o) (sh_supported h) (sh_refuse h), OK)
    else (h, INTERNAL_ERROR);
  hw_unsubscribe p a h :=
    if decide (sh_answer {[mkPropIdAreaId p a]} h = OK)
    then (mkSimpleHardware (sh_active h ∖ {[mkPropIdAreaId p a]}) (sh_supported h) (sh_refuse h), OK)
    else (h, INTERNAL_ERROR);
  hw_updateSampleRate p a x h := (h, OK);
  hw_subscribeSupportedValueChange l h :=
    (mkSimpleHardware (sh_active h) (sh_supported h ∪ list_to_set l) (sh_refuse h), OK);
  hw_unsubscribeSupportedValueChange l h :=
    (mkSimpleHardware (sh_active h) (sh_supported h ∖ list_to_set l) (sh_refuse h), OK)
|}.

#[export] Instance simple_hardware_laws : HardwareLaws SimpleHardware.
Proof.
  refine {| hw_active := sh_active |}; intros; try subst r; cbn;
    repeat destruct (decide (sh_answer _ _ = OK)); done.
Defined.

#[export] Instance simple_supported_laws : SupportedLaws SimpleHardware.
Proof.
  refine {| hw_activeSupported := sh_supported |}; [done|done|].
  intros h h' []; cbn; by repeat destruct (decide (sh_answer _ _ = OK)).
Defined.
