(* ===== verification/SubscriptionManager.v ===== *)
(** * SubscriptionManager: who is told about which property

    Models [SubscriptionManager.cpp] / [SubscriptionManager.h] of
    [vhal-server/aidl/impl/4/vhal].  The manager's six maps and the hardware
    behind it are one state; every public operation runs under [mLock], so an
    operation is one step.  Client ids and callbacks are addresses. *)

From stdpp Require Import base gmap sets list.
From Stdlib Require Import ZArith Lia SpecFloat.
From S2P Require Import Prelude Float32 VehicleTypes VehicleUtils VehicleHardware.

Local Open Scope Z_scope.
Local Open Scope vhal_scope.

Notation ClientIdType := Z (only parsing).
Notation CallbackType := Z (only parsing).

(** ** Sampling parameters *)

Definition EPSILON : f32 := S754_finite false 14073749 (-47).              (* 0.0000001f *)
Definition ONE_SECOND_IN_NANOS : f32 := S754_finite false 15625000 6.      (* 1e9f *)
Definition INT64_MAX_f : f32 := S754_finite false 8388608 40.              (* (float)INT64_MAX *)

Definition newSubscribeOptions (propId areaId : Z) (rate res : f32) (vur : bool)
    : SubscribeOptions := mkSubscribeOptions propId [areaId] rate res vur.

Section sampling.
  (** The value of an out-of-range float-to-integer conversion, and [log10f]. *)
  Context (ub_cast : f32 → Z) (log10f : f32 → f32).

Definition getIntervalNanos (sampleRateHz : f32) : result unit Z :=
    if f32_leb sampleRateHz f32_zero then Err tt
    else if f32_leb sampleRateHz (f32_div ONE_SECOND_IN_NANOS INT64_MAX_f) then Err tt
    else Ok (cast_i64 ub_cast (f32_div ONE_SECOND_IN_NANOS sampleRateHz)).

Definition checkSampleRateHz (sampleRateHz : f32) : bool := is_ok (getIntervalNanos sampleRateHz).

Definition checkResolution (res : f32) : bool :=
    if f32_eqb res f32_zero then true
    else
      let log := log10f res in
      f32_ltb (f32_abs (f32_sub log (f32_round log))) EPSILON.
End sampling.

(** ** ContSubConfigs *)

Record SubConfig := mkSubConfig {
  sc_sampleRateHz : f32;
  sc_resolution : f32;
  sc_enableVur : bool
}.

Record ContSubConfigs := mkContSubConfigs {
  mMaxSampleRateHz : f32;
  mMinRequiredResolution : f32;
  mEnableVur : bool;
  mConfigByClient : gmap ClientIdType SubConfig
}.

(** What [operator[]] inserts: zero-initialised, then the member initialisers. *)
Definition emptyContSubConfigs : ContSubConfigs := mkContSubConfigs f32_zero f32_max false ∅.

Fixpoint refresh_configs (l : list (ClientIdType * SubConfig)) (rate res : f32) (vur : bool)
    : f32 * f32 * bool :=
  match l with
  | [] => (rate, res, vur)
  | (_, c) :: l' =>
      refresh_configs l'
        (if f32_ltb rate (sc_sampleRateHz c) then sc_sampleRateHz c else rate)
        (if f32_ltb (sc_resolution c) res then sc_resolution c else res)
        (if negb (sc_enableVur c) then false else vur)
  end.

Definition refreshCombinedConfig (c : ContSubConfigs) : ContSubConfigs :=
  let '(rate, res, vur) :=
    refresh_configs (map_to_list (mConfigByClient c)) f32_zero f32_max true in
  mkContSubConfigs rate res vur (mConfigByClient c).

Definition addClient (clientId : ClientIdType) (s : SubConfig) (c : ContSubConfigs)
    : ContSubConfigs :=
  refreshCombinedConfig (mkContSubConfigs (mMaxSampleRateHz c) (mMinRequiredResolution c)
    (mEnableVur c) (<[clientId := s]> (mConfigByClient c))).

Definition removeClient (clientId : ClientIdType) (c : ContSubConfigs) : ContSubConfigs :=
  refreshCombinedConfig (mkContSubConfigs (mMaxSampleRateHz c) (mMinRequiredResolution c)
    (mEnableVur c) (delete clientId (mConfigByClient c))).

Definition isVurEnabledForClient (clientId : ClientIdType) (c : ContSubConfigs) : bool :=
  match mConfigByClient c !! clientId with None => false | Some s => sc_enableVur s end.

Definition getResolutionForClient (clientId : ClientIdType) (c : ContSubConfigs) : f32 :=
  match mConfigByClient c !! clientId with None => f32_zero | Some s => sc_resolution s end.

(** *** The combined configuration *)

(** A positive float, infinity included. *)
Definition positive (x : f32) : Prop := f32_ltb f32_zero x = true.

Lemma positive_neqb x : positive x → f32_neqb x f32_zero = true.
Proof. unfold positive. by destruct x as [[]|[]| |[] ? ?]. Qed.

Lemma positive_eqb x y : f32_eqb x y = true → positive x → positive y.
Proof. unfold positive. by destruct x as [[]|[]| |[] ? ?], y as [[]|[]| |[] ? ?]. Qed.

(** Floats that compare equal are the same, but for the sign of a zero. *)
Lemma f32_eqb_same x y : f32_eqb x y = true → ∀ z, f32_eqb x z = f32_eqb y z.
Proof.
  intros Hxy. assert (x = y ∨ ∃ a b, x = S754_zero a ∧ y = S754_zero b) as [->|(a & b & -> & ->)].
  - destruct x as [a|a| |a m e], y as [b|b| |b m' e']; try (by right; eauto); try done; try (by destruct a, b);
      try (by destruct a); try (by destruct b).
    + left. by destruct a, b.
    + left. unfold f32_eqb, SFeqb, SFcompare in Hxy.
      destruct a, b, (Z.compare_spec e e') as [He|He|He]; try done; subst e'; f_equal;
        change (Pos.compare_cont Eq m m') with (Pos.compare m m') in Hxy;
        destruct (Pos.compare_spec m m') as [Hm|Hm|Hm]; done.
  - done.
  - by intros [].
Qed.

Lemma positive_not_nan x : positive x → f32_is_nan x = false.
Proof. unfold positive. by destruct x as [[]|[]| |[] ? ?]. Qed.

(** What the loop computes, whatever the order of the clients: the greatest
    rate, the smallest resolution, and whether all enable VUR. *)
Record combined (l : list (ClientIdType * SubConfig)) (rate0 res0 : f32) (vur0 : bool)
    (rate res : f32) (vur : bool) : Prop := {
  cb_rate : ∀ x, x ∈ l → f32_ltb rate (sc_sampleRateHz x.2) = false;
  cb_rate_from : rate = rate0 ∨ ∃ x, x ∈ l ∧ rate = sc_sampleRateHz x.2;
  cb_res : ∀ x, x ∈ l → f32_ltb (sc_resolution x.2) res = false;
  cb_res_from : res = res0 ∨ ∃ x, x ∈ l ∧ res = sc_resolution x.2;
  cb_vur : vur = vur0 && forallb (λ x, sc_enableVur x.2) l
}.

Lemma refresh_configs_up l rate res vur :
  (f32_ltb rate (refresh_configs l rate res vur).1.1 = true
   ∨ (refresh_configs l rate res vur).1.1 = rate)
  ∧ (f32_ltb (refresh_configs l rate res vur).1.2 res = true
     ∨ (refresh_configs l rate res vur).1.2 = res).
Proof.
  revert rate res vur. induction l as [|[c x] l IH]; intros rate res vur; cbn; [auto|].
  match goal with |- context [refresh_configs l ?a ?b ?v] => destruct (IH a b v) as [H1 H2] end.
  revert H1 H2.
  destruct (f32_ltb rate (sc_sampleRateHz x)) eqn:E1, (f32_ltb (sc_resolution x) res) eqn:E2;
    intros [H1|H1] [H2|H2]; rewrite ?H1, ?H2; split; eauto using f32_ltb_trans.
Qed.

Lemma refresh_configs_combined l rate0 res0 vur0 :
  f32_is_nan rate0 = false → f32_is_nan res0 = false →
  let r := refresh_configs l rate0 res0 vur0 in
  combined l rate0 res0 vur0 r.1.1 r.1.2 r.2.
Proof.
  revert rate0 res0 vur0. induction l as [|[c x] l IH]; intros rate0 res0 vur0 Hn1 Hn2 r.
  { subst r. cbn. split; try (intros ? []%elem_of_nil); auto. by rewrite andb_true_r. }
  subst r. cbn [refresh_configs].
  set (rate1 := if f32_ltb rate0 (sc_sampleRateHz x) then sc_sampleRateHz x else rate0).
  set (res1 := if f32_ltb (sc_resolution x) res0 then sc_resolution x else res0).
  set (vur1 := if negb (sc_enableVur x) then false else vur0).
  assert (Hr1 : f32_is_nan rate1 = false ∧ f32_ltb rate1 (sc_sampleRateHz x) = false).
  { subst rate1. destruct (f32_ltb rate0 _) eqn:E; [|done].
    split; [by apply f32_ltb_nan in E as []|apply f32_ltb_irrefl]. }
  assert (Hs1 : f32_is_nan res1 = false ∧ f32_ltb (sc_resolution x) res1 = false).
  { subst res1. destruct (f32_ltb (sc_resolution x) res0) eqn:E; [|done].
    split; [by apply f32_ltb_nan in E as []|apply f32_ltb_irrefl]. }
  destruct Hr1 as [Hr1 Hr1'], Hs1 as [Hs1 Hs1'].
  destruct (IH rate1 res1 vur1 Hr1 Hs1) as [A1 A2 A3 A4 A5].
  destruct (refresh_configs_up l rate1 res1 vur1) as [B1 B2].
  set (r := refresh_configs l rate1 res1 vur1) in *. split.
  - intros y [->|Hy]%elem_of_cons; [|by apply A1].
    destruct B1 as [B1| ->]; [|done]. cbn. destruct (f32_ltb r.1.1 (sc_sampleRateHz x)) eqn:E; [|done].
    by rewrite (f32_ltb_trans _ _ _ B1 E) in Hr1'.
  - destruct A2 as [->|(y & Hy & ->)].
    + subst rate1. destruct (f32_ltb rate0 _); [right|by left].
      exists (c, x). split; [left|done].
    + right. exists y. split; [by right|done].
  - intros y [->|Hy]%elem_of_cons; [|by apply A3].
    destruct B2 as [B2| ->]; [|done]. cbn. destruct (f32_ltb (sc_resolution x) r.1.2) eqn:E; [|done].
    by rewrite (f32_ltb_trans _ _ _ E B2) in Hs1'.
  - destruct A4 as [->|(y & Hy & ->)].
    + subst res1. destruct (f32_ltb _ res0); [right|by left].
      exists (c, x). split; [left|done].
    + right. exists y. split; [by right|done].
  - rewrite A5. subst vur1. cbn. by destruct (sc_enableVur x), vur0; cbn.
Qed.

(** A configuration the manager keeps: freshly inserted, or recomputed after
    its last change; every client's rate is positive. *)
Definition cfg_ok (cfg : ContSubConfigs) : Prop :=
  (∀ c sc, mConfigByClient cfg !! c = Some sc → positive (sc_sampleRateHz sc))
  ∧ (cfg = emptyContSubConfigs ∨ cfg = refreshCombinedConfig cfg).

Lemma refresh_combined_cfg cfg :
  let r := refreshCombinedConfig cfg in
  mConfigByClient r = mConfigByClient cfg
  ∧ combined (map_to_list (mConfigByClient cfg)) f32_zero f32_max true
      (mMaxSampleRateHz r) (mMinRequiredResolution r) (mEnableVur r).
Proof.
  intros r. subst r. unfold refreshCombinedConfig.
  pose proof (refresh_configs_combined (map_to_list (mConfigByClient cfg)) f32_zero f32_max true
    eq_refl eq_refl) as Hc.
  destruct (refresh_configs _ _ _ _) as [[rate res] vur]. done.
Qed.

Lemma refresh_idemp cfg :
  refreshCombinedConfig (refreshCombinedConfig cfg) = refreshCombinedConfig cfg.
Proof.
  unfold refreshCombinedConfig at 2 3.
  destruct (refresh_configs _ _ _ _) as [[rate res] vur] eqn:E.
  unfold refreshCombinedConfig. cbn. by rewrite E.
Qed.

Lemma cfg_ok_empty : cfg_ok emptyContSubConfigs.
Proof. split; [|by left]. intros c sc. cbn. by rewrite lookup_empty. Qed.

Lemma cfg_ok_addClient c sc cfg :
  cfg_ok cfg → positive (sc_sampleRateHz sc) → cfg_ok (addClient c sc cfg).
Proof.
  intros [Hp _] Hsc. unfold addClient.
  split; [|by right; rewrite refresh_idemp].
  rewrite (proj1 (refresh_combined_cfg _)). cbn.
  intros c' sc' [[<- <-]|[_ ?]]%lookup_insert_Some; eauto.
Qed.

Lemma cfg_ok_removeClient c cfg : cfg_ok cfg → cfg_ok (removeClient c cfg).
Proof.
  intros [Hp _]. unfold removeClient.
  split; [|by right; rewrite refresh_idemp].
  rewrite (proj1 (refresh_combined_cfg _)). cbn.
  intros c' sc' [_ ?]%lookup_delete_Some; eauto.
Qed.

Lemma addClient_configs c sc cfg :
  mConfigByClient (addClient c sc cfg) = <[c := sc]> (mConfigByClient cfg).
Proof. unfold addClient. by rewrite (proj1 (refresh_combined_cfg _)). Qed.

Lemma removeClient_configs c cfg :
  mConfigByClient (removeClient c cfg) = delete c (mConfigByClient cfg).
Proof. unfold removeClient. by rewrite (proj1 (refresh_combined_cfg _)). Qed.

(** The combined rate is zero exactly when no client is left. *)
Lemma cfg_ok_rate cfg :
  cfg_ok cfg →
  (mConfigByClient cfg = ∅ → mMaxSampleRateHz cfg = f32_zero)
  ∧ (mConfigByClient cfg ≠ ∅ → positive (mMaxSampleRateHz cfg)).
Proof.
  intros [Hp [->|Hr]]; [done|]. pose proof (refresh_combined_cfg cfg) as [_ Hc].
  rewrite <-Hr in Hc. destruct Hc as [H1 H2 _ _ _]. split.
  - intros He. rewrite He, map_to_list_empty in H2.
    destruct H2 as [?|(x & Hx & _)]; [done|]. by apply elem_of_nil in Hx.
  - intros (c & sc & Hsc)%map_choose. pose proof (Hp c sc Hsc) as Hpos.
    apply elem_of_map_to_list in Hsc. specialize (H1 _ Hsc). cbn in H1.
    destruct H2 as [H2|([c' sc'] & Hx & ->)].
    + rewrite H2 in H1. unfold positive in Hpos. congruence.
    + apply elem_of_map_to_list in Hx. by apply (Hp c').
Qed.

(** ** The manager's state *)

Record Manager (HS : Type) := mkManager {
  mClientsByPropIdAreaId : gmap PropIdAreaId (gmap ClientIdType CallbackType);
  mSubscribedPropsByClient : gmap ClientIdType (gset PropIdAreaId);
  mContSubConfigsByPropIdArea : gmap PropIdAreaId ContSubConfigs;
  mContSubValuesByCallback : gmap CallbackType (gmap PropIdAreaId VehiclePropValue);
  mSupportedValueChangeClientsByPropIdAreaId : gmap PropIdAreaId (gmap ClientIdType CallbackType);
  mSupportedValueChangePropIdAreaIdsByClient : gmap ClientIdType (gset PropIdAreaId);
  mVehicleHardware : HS
}.
Arguments mkManager {HS}.
Arguments mClientsByPropIdAreaId {HS}.
Arguments mSubscribedPropsByClient {HS}.
Arguments mContSubConfigsByPropIdArea {HS}.
Arguments mContSubValuesByCallback {HS}.
Arguments mSupportedValueChangeClientsByPropIdAreaId {HS}.
Arguments mSupportedValueChangePropIdAreaIdsByClient {HS}.
Arguments mVehicleHardware {HS}.

(** The set of values a callback was sent, compared by property and area. *)
Definition valueKey (v : VehiclePropValue) : PropIdAreaId := mkPropIdAreaId (prop v) (areaId v).

Section manager.
Context {HS : Type} `{Hardware HS}.
Context (ub_cast : f32 → Z) (log10f : f32 → f32).
(** [callback->asBinder().get()]. *)
Context (asBinder : CallbackType → ClientIdType).
(** The order in which a hash set is traversed: any order of its elements. *)
Context (hash_order : gset PropIdAreaId → list PropIdAreaId).

Implicit Types (s : Manager HS) (p : PropIdAreaId) (c : ClientIdType) (k : CallbackType).

Definition newManager (h : HS) : Manager HS := mkManager ∅ ∅ ∅ ∅ ∅ ∅ h.

(** The destructor clears four of the maps. *)
Definition clearManager s : Manager HS :=
  mkManager ∅ ∅ (mContSubConfigsByPropIdArea s) (mContSubValuesByCallback s) ∅ ∅
    (mVehicleHardware s).

Definition set_clients (f : gmap PropIdAreaId (gmap ClientIdType CallbackType) → _) s :=
  mkManager (f (mClientsByPropIdAreaId s)) (mSubscribedPropsByClient s)
    (mContSubConfigsByPropIdArea s) (mContSubValuesByCallback s)
    (mSupportedValueChangeClientsByPropIdAreaId s)
    (mSupportedValueChangePropIdAreaIdsByClient s) (mVehicleHardware s).
Definition set_subscribed (f : gmap ClientIdType (gset PropIdAreaId) → _) s :=
  mkManager (mClientsByPropIdAreaId s) (f (mSubscribedPropsByClient s))
    (mContSubConfigsByPropIdArea s) (mContSubValuesByCallback s)
    (mSupportedValueChangeClientsByPropIdAreaId s)
    (mSupportedValueChangePropIdAreaIdsByClient s) (mVehicleHardware s).
Definition set_configs (f : gmap PropIdAreaId ContSubConfigs → _) s :=
  mkManager (mClientsByPropIdAreaId s) (mSubscribedPropsByClient s)
    (f (mContSubConfigsByPropIdArea s)) (mContSubValuesByCallback s)
    (mSupportedValueChangeClientsByPropIdAreaId s)
    (mSupportedValueChangePropIdAreaIdsByClient s) (mVehicleHardware s).
Definition set_values (f : gmap CallbackType (gmap PropIdAreaId VehiclePropValue) → _) s :=
  mkManager (mClientsByPropIdAreaId s) (mSubscribedPropsByClient s)
    (mContSubConfigsByPropIdArea s) (f (mContSubValuesByCallback s))
    (mSupportedValueChangeClientsByPropIdAreaId s)
    (mSupportedValueChangePropIdAreaIdsByClient s) (mVehicleHardware s).
Definition set_supported (f : gmap PropIdAreaId (gmap ClientIdType CallbackType) → _)
    (g : gmap ClientIdType (gset PropIdAreaId) → _) s :=
  mkManager (mClientsByPropIdAreaId s) (mSubscribedPropsByClient s)
    (mContSubConfigsByPropIdArea s) (mContSubValuesByCallback s)
    (f (mSupportedValueChangeClientsByPropIdAreaId s))
    (g (mSupportedValueChangePropIdAreaIdsByClient s)) (mVehicleHardware s).
Definition set_hardware (h : HS) s :=
  mkManager (mClientsByPropIdAreaId s) (mSubscribedPropsByClient s)
    (mContSubConfigsByPropIdArea s) (mContSubValuesByCallback s)
    (mSupportedValueChangeClientsByPropIdAreaId s)
    (mSupportedValueChangePropIdAreaIdsByClient s) h.

Definition Op := M (Manager HS) StatusCode unit.

(** A call to the hardware; a status other than [OK] returns early. *)
Definition hardware_call (f : HS → HS * StatusCode) : Op := λ s,
  let '(h, status) := f (mVehicleHardware s) in
  (set_hardware h s, if decide (status = OK) then Ok tt else Err status).

(** [operator[]] of a map whose missing entries are value-initialised. *)
Definition touch {K V} `{Countable K} (d : V) (k : K) (m : gmap K V) : gmap K V :=
  match m !! k with Some _ => m | None => <[k := d]> m end.

Definition contConfig p s : ContSubConfigs :=
  default emptyContSubConfigs (mContSubConfigsByPropIdArea s !! p).

Definition touch_config p : Op := mmodify (set_configs (touch emptyContSubConfigs p)).

(** ** Subscribing *)

Definition addOnChangeSubscriberLocked p : Op :=
  let! s := mget in
  if decide (is_Some (mClientsByPropIdAreaId s !! p)) then mreturn tt
  else hardware_call (hw_subscribe
         (newSubscribeOptions (pa_propId p) (pa_areaId p) f32_zero f32_zero false)).

Definition updateContSubConfigsLocked p (newConfig : ContSubConfigs) : Op :=
  touch_config p ;;;
  let! s := mget in
  let oldConfig := contConfig p s in
  let newRateHz := mMaxSampleRateHz newConfig in
  let oldRateHz := mMaxSampleRateHz oldConfig in
  let newResolution := mMinRequiredResolution newConfig in
  let oldResolution := mMinRequiredResolution oldConfig in
  if f32_eqb newRateHz oldRateHz && f32_eqb newResolution oldResolution
     && Bool.eqb (mEnableVur newConfig) (mEnableVur oldConfig)
  then mmodify (set_configs <[p := newConfig]>)
  else
    (if f32_neqb newRateHz oldRateHz
     then hardware_call (hw_updateSampleRate (pa_propId p) (pa_areaId p) newRateHz)
     else mreturn tt) ;;;
    (if f32_neqb newRateHz f32_zero
     then hardware_call (hw_subscribe
            (newSubscribeOptions (pa_propId p) (pa_areaId p) newRateHz newResolution
               (mEnableVur newConfig)))
     else hardware_call (hw_unsubscribe (pa_propId p) (pa_areaId p))) ;;;
    mmodify (set_configs <[p := newConfig]>).

Definition addContinuousSubscriberLocked c p (rate res : f32) (vur : bool) : Op :=
  touch_config p ;;;
  let! s := mget in
  updateContSubConfigsLocked p (addClient c (mkSubConfig rate res vur) (contConfig p s)).

(** The checks before anything is subscribed. *)
Definition check_option (isContinuous : bool) (o : SubscribeOptions) : option StatusCode :=
  if isContinuous && negb (is_ok (getIntervalNanos ub_cast (sampleRate o))) then Some INVALID_ARG
  else if isContinuous && negb (checkResolution log10f (resolution o)) then Some INVALID_ARG
  else match so_areaIds o with [] => Some INVALID_ARG | _ => None end.

Definition subscribe_area k (o : SubscribeOptions) (isContinuous : bool) (a : Z) : Op :=
  let c := asBinder k in
  let p := mkPropIdAreaId (so_propId o) a in
  (if isContinuous
   then addContinuousSubscriberLocked c p (sampleRate o) (resolution o) (enableVariableUpdateRate o)
   else addOnChangeSubscriberLocked p) ;;;
  mmodify (set_subscribed (λ m, <[c := default ∅ (m !! c) ∪ {[p]}]> m)) ;;;
  mmodify (set_clients (λ m, <[p := <[c := k]> (default ∅ (m !! p))]> m)).

Definition subscribe k (options : list SubscribeOptions) (isContinuous : bool) : Op :=
  match check_each (check_option isContinuous) options with
  | Err e => mfail e
  | Ok _ =>
      for_each options (λ o, for_each (so_areaIds o) (subscribe_area k o isContinuous))
  end.

(** ** Unsubscribing *)

Definition removeContinuousSubscriberLocked c p : Op :=
  touch_config p ;;;
  let! s := mget in
  updateContSubConfigsLocked p (removeClient c (contConfig p s)).

Definition removeOnChangeSubscriberLocked p : Op :=
  mmodify (set_clients (touch ∅ p)) ;;;
  let! s := mget in
  if decide (1 < size (default ∅ (mClientsByPropIdAreaId s !! p)))%nat then mreturn tt
  else hardware_call (hw_unsubscribe (pa_propId p) (pa_areaId p)).

(** The book-keeping at the end of [unsubscribePropIdAreaIdLocked]. *)
Definition forget_client c p s : Manager HS :=
  let clients := delete c (default ∅ (mClientsByPropIdAreaId s !! p)) in
  if decide (clients = ∅)
  then set_configs (delete p) (set_clients (delete p) s)
  else set_clients <[p := clients]> s.

Definition unsubscribePropIdAreaIdLocked c p : Op :=
  let! s := mget in
  if decide (is_Some (mContSubConfigsByPropIdArea s !! p))
  then removeContinuousSubscriberLocked c p ;;; mmodify (forget_client c p)
  else if decide (mClientsByPropIdAreaId s !! p = None) then mreturn tt
  else removeOnChangeSubscriberLocked p ;;; mmodify (forget_client c p).

Definition erase_subscribed c p s : Manager HS :=
  set_subscribed (alter (λ x, x ∖ {[p]}) c) s.

Definition drop_if_empty c s : Manager HS :=
  if decide (mSubscribedPropsByClient s !! c = Some ∅) then set_subscribed (delete c) s else s.

Definition unsubscribe c (propIds : list Z) : Op :=
  let! s := mget in
  match mSubscribedPropsByClient s !! c with
  | None => mreturn tt
  | Some props =>
      for_each (filter (λ p, pa_propId p ∈ propIds) (hash_order props))
        (λ p, unsubscribePropIdAreaIdLocked c p ;;; mmodify (erase_subscribed c p)) ;;;
      mmodify (drop_if_empty c)
  end.

(** ** Supported-value changes *)

Definition subscribeSupportedValueChange k (ids : list PropIdAreaId) : Op :=
  let c := asBinder k in
  hardware_call (hw_subscribeSupportedValueChange ids) ;;;
  for_each ids (λ p, mmodify (set_supported
    (λ m, <[p := <[c := k]> (default ∅ (m !! p))]> m)
    (λ m, <[c := default ∅ (m !! c) ∪ {[p]}]> m))).

(** [clients.size() == 1 && clients.find(clientId) != clients.end()]. *)
Definition is_only_client c (clients : gmap ClientIdType CallbackType) : bool :=
  bool_decide (size clients = 1%nat) && bool_decide (is_Some (clients !! c)).

Definition sole_client c s p : bool :=
  match mSupportedValueChangeClientsByPropIdAreaId s !! p with
  | None => false
  | Some clients => is_only_client c clients
  end.

Definition forget_supported_clients c p (m : gmap PropIdAreaId (gmap ClientIdType CallbackType)) :=
  let clients := delete c (default ∅ (m !! p)) in
  if decide (clients = ∅) then delete p m else <[p := clients]> m.

Definition forget_supported_ids c p (m : gmap ClientIdType (gset PropIdAreaId)) :=
  let ids := default ∅ (m !! c) ∖ {[p]} in
  if decide (ids = ∅) then delete c m else <[c := ids]> m.

Definition unsubscribeSupportedValueChange c (ids : list PropIdAreaId) : Op :=
  let! s := mget in
  let toUnsubscribe := filter (λ p, sole_client c s p = true) ids in
  match toUnsubscribe with
  | [] => mreturn tt
  | _ :: _ => hardware_call (hw_unsubscribeSupportedValueChange toUnsubscribe)
  end ;;;
  for_each ids (λ p, mmodify (set_supported (forget_supported_clients c p)
                                            (forget_supported_ids c p))).

(** [unsubscribe(clientId)]: everything the client has. *)
Definition unsubscribe_all_props c : Op :=
  let! s := mget in
  match mSubscribedPropsByClient s !! c with
  | None => mreturn tt
  | Some props =>
      for_each (hash_order props) (unsubscribePropIdAreaIdLocked c) ;;;
      mmodify (set_subscribed (delete c))
  end.

Definition unsubscribe_all_supported c : Op :=
  let! s := mget in
  match mSupportedValueChangePropIdAreaIdsByClient s !! c with
  | None => mreturn tt
  | Some ids => unsubscribeSupportedValueChange c (hash_order ids)
  end.

Definition unsubscribeAll c : Op := unsubscribe_all_props c ;;; unsubscribe_all_supported c.

(** ** Distributing events *)

(** [clients[callback].push_back(x)] *)
Definition push_back {X} k (x : X) (m : gmap CallbackType (list X)) : gmap CallbackType (list X) :=
  <[k := default [] (m !! k) ++ [x]]> m.

(** [unordered_set::insert] keeps an element that compares equal. *)
Definition set_insert_value (v : VehiclePropValue) (m : gmap PropIdAreaId VehiclePropValue) :=
  match m !! valueKey v with Some _ => m | None => <[valueKey v := v]> m end.

Definition remember_value k (v : VehiclePropValue) s : Manager HS :=
  set_values (λ m, <[k := set_insert_value v (default ∅ (m !! k))]> m) s.

Definition isValueUpdatedLocked k (v : VehiclePropValue) s : Manager HS * bool :=
  let s := set_values (touch ∅ k) s in
  match default ∅ (mContSubValuesByCallback s !! k) !! valueKey v with
  | None => (remember_value k v s, true)
  | Some it =>
      if timestamp v <? timestamp it then (s, false)
      else if RawPropValues_eqb (value it) (value v) && (status it =? status v)
      then (remember_value k v s, false)
      else (remember_value k v s, true)
  end.

Notation ClientValues := (gmap CallbackType (list VehiclePropValue)).

(** One client of one updated value. *)
Definition distribute_one (v : VehiclePropValue) (client : ClientIdType * CallbackType)
    (acc : Manager HS * ClientValues) : Manager HS * ClientValues :=
  let '(s, out) := acc in
  let '(c, k) := client in
  let p := valueKey v in
  let s := set_configs (touch emptyContSubConfigs p) s in
  let subConfigs := contConfig p s in
  let newValue :=
    set_value (sanitizeByResolution ub_cast (value v) (getResolutionForClient c subConfigs)) v in
  if isVurEnabledForClient c subConfigs && negb (mEnableVur subConfigs)
  then
    let '(s, updated) := isValueUpdatedLocked k newValue s in
    (s, if updated then push_back k newValue out else out)
  else (s, push_back k newValue out).

Fixpoint distribute_clients (v : VehiclePropValue) (l : list (ClientIdType * CallbackType))
    (acc : Manager HS * ClientValues) : Manager HS * ClientValues :=
  match l with
  | [] => acc
  | ck :: l' => distribute_clients v l' (distribute_one v ck acc)
  end.

Fixpoint distribute_values (updatedValues : list VehiclePropValue)
    (acc : Manager HS * ClientValues) : Manager HS * ClientValues :=
  match updatedValues with
  | [] => acc
  | v :: l' =>
      match mClientsByPropIdAreaId acc.1 !! valueKey v with
      | None => distribute_values l' acc
      | Some clients => distribute_values l' (distribute_clients v (map_to_list clients) acc)
      end
  end.

Definition getSubscribedClients (updatedValues : list VehiclePropValue) s
    : Manager HS * ClientValues := distribute_values updatedValues (s, ∅).

Definition push_all {X} (x : X) (l : list (ClientIdType * CallbackType))
    (m : gmap CallbackType (list X)) : gmap CallbackType (list X) :=
  foldl (λ m ck, push_back ck.2 x m) m l.

(** A [SetValueErrorEvent] (and the [VehiclePropError] built from it). *)
Definition ErrorEvent : Type := StatusCode * PropIdAreaId.

Fixpoint collect {X} (clients_of : gmap PropIdAreaId (gmap ClientIdType CallbackType))
    (id_of : X → PropIdAreaId) (events : list X) (out : gmap CallbackType (list X))
    : gmap CallbackType (list X) :=
  match events with
  | [] => out
  | x :: events' =>
      match clients_of !! id_of x with
      | None => collect clients_of id_of events' out
      | Some clients =>
          collect clients_of id_of events' (push_all x (map_to_list clients) out)
      end
  end.

Definition getSubscribedClientsForErrorEvents (events : list ErrorEvent) s
    : gmap CallbackType (list ErrorEvent) :=
  collect (mClientsByPropIdAreaId s) snd events ∅.

Definition getSubscribedClientsForSupportedValueChange (ids : list PropIdAreaId) s
    : gmap CallbackType (list PropIdAreaId) :=
  collect (mSupportedValueChangeClientsByPropIdAreaId s) id ids ∅.

Definition isEmpty s : bool :=
  bool_decide (mSubscribedPropsByClient s = ∅) && bool_decide (mClientsByPropIdAreaId s = ∅)
  && bool_decide (mSupportedValueChangeClientsByPropIdAreaId s = ∅)
  && bool_decide (mSupportedValueChangePropIdAreaIdsByClient s = ∅).

Definition countPropertyChangeClients s : nat := size (mSubscribedPropsByClient s).
Definition countSupportedValueChangeClients s : nat :=
  size (mSupportedValueChangePropIdAreaIdsByClient s).

(** ** What an operation leaves alone

    Proved once for the operations as they are composed, with no assumption on
    the hardware or on the state. *)

Definition clientsOf p s : gmap ClientIdType CallbackType :=
  default ∅ (mClientsByPropIdAreaId s !! p).
Definition propsOf c s : gset PropIdAreaId := default ∅ (mSubscribedPropsByClient s !! c).
Definition supClientsOf p s : gmap ClientIdType CallbackType :=
  default ∅ (mSupportedValueChangeClientsByPropIdAreaId s !! p).
Definition supIdsOf c s : gset PropIdAreaId :=
  default ∅ (mSupportedValueChangePropIdAreaIdsByClient s !! c).

Lemma touch_lookup {K V} `{Countable K} (d : V) (k : K) (m : gmap K V) :
  touch d k m !! k = Some (default d (m !! k)).
Proof using Type. unfold touch. destruct (m !! k) eqn:E; [done|]. by rewrite lookup_insert_eq. Qed.

Lemma touch_lookup_ne {K V} `{Countable K} (d : V) (k j : K) (m : gmap K V) :
  j ≠ k → touch d k m !! j = m !! j.
Proof using Type. intros Hne. unfold touch. destruct (m !! k) eqn:E; [done|]. by rewrite lookup_insert_ne. Qed.

Lemma touch_default {K V} `{Countable K} (d : V) (k j : K) (m : gmap K V) :
  default d (touch d k m !! j) = default d (m !! j).
Proof using Type.
  destruct (decide (j = k)) as [->|]; [by rewrite touch_lookup|by rewrite touch_lookup_ne].
Qed.

Lemma contConfig_touch p s : contConfig p (set_configs (touch emptyContSubConfigs p) s) = contConfig p s.
Proof using Type. unfold contConfig. cbn. by rewrite touch_lookup. Qed.

Lemma keeps_hardware (R : Manager HS → Manager HS → Prop) (f : HS → HS * StatusCode) :
  (∀ s, R s (set_hardware (f (mVehicleHardware s)).1 s)) → keeps R (hardware_call f).
Proof using Type. intros Hf s. specialize (Hf s). unfold hardware_call. by destruct (f _). Qed.

Ltac keep :=
  repeat first [keep_step | apply keeps_hardware; intros]; try done.

(** Who is subscribed to what. *)
Definition same_clients s s' : Prop :=
  (∀ q, clientsOf q s' = clientsOf q s) ∧ mSubscribedPropsByClient s' = mSubscribedPropsByClient s.

#[local] Instance same_clients_preorder : PreOrder same_clients.
Proof.
  split; [done|]. intros s1 s2 s3 [H1 H2] [H3 H4]. split; [intros q; by rewrite H3|congruence].
Qed.

Lemma same_clients_touch p s : same_clients s (set_clients (touch ∅ p) s).
Proof using Type. split; [|done]. intros q. unfold clientsOf. cbn. apply touch_default. Qed.

Lemma updateCont_clients p new : keeps same_clients (updateContSubConfigsLocked p new).
Proof using Type. unfold updateContSubConfigsLocked, touch_config. keep. Qed.
Lemma addContinuous_clients c p rate res vur :
  keeps same_clients (addContinuousSubscriberLocked c p rate res vur).
Proof using Type. unfold addContinuousSubscriberLocked, touch_config. keep. apply updateCont_clients. Qed.
Lemma removeContinuous_clients c p : keeps same_clients (removeContinuousSubscriberLocked c p).
Proof using Type. unfold removeContinuousSubscriberLocked, touch_config. keep. apply updateCont_clients. Qed.
Lemma addOnChange_clients p : keeps same_clients (addOnChangeSubscriberLocked p).
Proof using Type. unfold addOnChangeSubscriberLocked. keep. Qed.
Lemma removeOnChange_clients p : keeps same_clients (removeOnChangeSubscriberLocked p).
Proof using Type. unfold removeOnChangeSubscriberLocked. keep. apply same_clients_touch. Qed.

(** The part of the state that supported-value subscriptions use: the
    operations on property subscriptions leave the maps alone, and make only
    property calls. *)
Definition sup_same s s' : Prop :=
  mSupportedValueChangeClientsByPropIdAreaId s' = mSupportedValueChangeClientsByPropIdAreaId s
  ∧ mSupportedValueChangePropIdAreaIdsByClient s' = mSupportedValueChangePropIdAreaIdsByClient s
  ∧ prop_calls (mVehicleHardware s) (mVehicleHardware s').

#[local] Instance sup_same_preorder : PreOrder sup_same.
Proof.
  split; [intros s; split_and!; [done|done|apply rtc_refl]|].
  intros s1 s2 s3 (H1 & H2 & H3) (H4 & H5 & H6). split_and!; [congruence|congruence|by etrans].
Qed.

Lemma sup_same_frame s s' :
  mSupportedValueChangeClientsByPropIdAreaId s' = mSupportedValueChangeClientsByPropIdAreaId s →
  mSupportedValueChangePropIdAreaIdsByClient s' = mSupportedValueChangePropIdAreaIdsByClient s →
  mVehicleHardware s' = mVehicleHardware s → sup_same s s'.
Proof using Type. intros H1 H2 H3. split_and!; [done|done|]. rewrite H3. apply rtc_refl. Qed.

Ltac keep_sup :=
  keep;
  lazymatch goal with
  | |- sup_same _ (set_hardware _ _) => split_and!; [done|done|apply rtc_once; constructor]
  | |- sup_same _ _ => by apply sup_same_frame
  end.

Lemma updateCont_sup p new : keeps sup_same (updateContSubConfigsLocked p new).
Proof using Type. unfold updateContSubConfigsLocked, touch_config. keep_sup. Qed.
Lemma subscribe_area_sup k o ic a : keeps sup_same (subscribe_area k o ic a).
Proof using Type.
  unfold subscribe_area, addContinuousSubscriberLocked, addOnChangeSubscriberLocked, touch_config.
  keep; try apply updateCont_sup; keep_sup.
Qed.
Lemma forget_client_sup c p s : sup_same s (forget_client c p s).
Proof using Type. unfold forget_client. by case_decide; apply sup_same_frame. Qed.
Lemma unsubscribe_one_sup c p : keeps sup_same (unsubscribePropIdAreaIdLocked c p).
Proof using Type.
  unfold unsubscribePropIdAreaIdLocked, removeContinuousSubscriberLocked,
    removeOnChangeSubscriberLocked, touch_config.
  keep; try apply updateCont_sup; try apply forget_client_sup; keep_sup.
Qed.

Lemma subscribe_sup k options ic : keeps sup_same (subscribe k options ic).
Proof using Type. unfold subscribe. keep. apply subscribe_area_sup. Qed.
Lemma unsubscribe_sup c propIds : keeps sup_same (unsubscribe c propIds).
Proof using Type.
  unfold unsubscribe. keep; try apply unsubscribe_one_sup; try by apply sup_same_frame.
  unfold drop_if_empty. case_decide; by apply sup_same_frame.
Qed.
Lemma unsubscribe_all_props_sup c : keeps sup_same (unsubscribe_all_props c).
Proof using Type. unfold unsubscribe_all_props. keep; try apply unsubscribe_one_sup; by apply sup_same_frame. Qed.

(** ** What subscribing does to the clients *)

Definition requested (options : list SubscribeOptions) : gset PropIdAreaId :=
  list_to_set ((λ oa, mkPropIdAreaId (so_propId oa.1) oa.2) <$> pairs so_areaIds options).

(** The state after the client of [k] was added to the ids [D]. *)
Definition clients_added k (D : gset PropIdAreaId) s s' : Prop :=
  (∀ q, clientsOf q s' =
     if decide (q ∈ D) then <[asBinder k := k]> (clientsOf q s) else clientsOf q s)
  ∧ ∀ c, propsOf c s' = if decide (c = asBinder k) then propsOf c s ∪ D else propsOf c s.

Lemma clients_added_none k s s' : same_clients s s' → clients_added k ∅ s s'.
Proof using Type.
  intros [H1 H2]. split; [intros q; by rewrite H1|]. intros c. unfold propsOf. rewrite H2.
  case_decide; [|done]. by rewrite union_empty_r_L.
Qed.

Lemma clients_added_trans k D1 D2 s1 s2 s3 :
  clients_added k D1 s1 s2 → clients_added k D2 s2 s3 → clients_added k (D1 ∪ D2) s1 s3.
Proof using Type.
  clear hash_order. intros [H1 H2] [H3 H4]. split.
  - intros q. rewrite H3, H1.
    destruct (decide (q ∈ D1)), (decide (q ∈ D2)), (decide (q ∈ D1 ∪ D2)) as [Hu|Hu];
      rewrite elem_of_union in Hu; try tauto. apply insert_insert_eq.
  - intros c. rewrite H4, H2. case_decide; [|done]. by rewrite union_assoc_L.
Qed.

Lemma lookup_default_insert {A} p q (m : gmap ClientIdType A) (mm : gmap PropIdAreaId (gmap ClientIdType A)) :
  default ∅ (<[p := m]> mm !! q) = if decide (q = p) then m else default ∅ (mm !! q).
Proof using Type.
  destruct (decide (q = p)) as [->|]; [by rewrite lookup_insert_eq|by rewrite lookup_insert_ne].
Qed.

Definition record_client k p : Op :=
  mmodify (set_subscribed (λ m, <[asBinder k := default ∅ (m !! asBinder k) ∪ {[p]}]> m)) ;;;
  mmodify (set_clients (λ m, <[p := <[asBinder k := k]> (default ∅ (m !! p))]> m)).

Lemma record_client_added k p s : clients_added k {[p]} s (record_client k p s).1.
Proof using Type.
  split; cbn.
  - intros q. unfold clientsOf. cbn. rewrite lookup_default_insert.
    destruct (decide (q = p)) as [->|]; [by rewrite decide_True by set_solver|].
    by rewrite decide_False by set_solver.
  - intros c. unfold propsOf. cbn. case_decide as Hc; [subst c; by rewrite lookup_insert_eq|].
    by rewrite lookup_insert_ne.
Qed.

Lemma subscribe_area_added k o ic a s :
  let r := subscribe_area k o ic a s in
  clients_added k (if is_ok r.2 then {[mkPropIdAreaId (so_propId o) a]} else ∅) s r.1.
Proof using Type.
  unfold subscribe_area. set (p := mkPropIdAreaId (so_propId o) a).
  change (mmodify _ ;;; mmodify _) with (record_client k p). rewrite mbind_unfold.
  set (op := if ic then _ else _).
  assert (Hop : keeps same_clients op).
  { subst op. destruct ic; [apply addContinuous_clients|apply addOnChange_clients]. }
  specialize (Hop s). unfold Op in *. destruct (op s) as [s1 [[]|e]]; cbn [fst snd is_ok] in *.
  - rewrite <-(union_empty_l_L {[p]}). eapply clients_added_trans; [by apply clients_added_none|].
    apply record_client_added.
  - by apply clients_added_none.
Qed.

Lemma subscribe_loop_added k ic (l : list (SubscribeOptions * Z)) : ∀ s,
  let ids := list_to_set ((λ oa, mkPropIdAreaId (so_propId oa.1) oa.2) <$> l) in
  let r := for_each l (λ oa, subscribe_area k oa.1 ic oa.2) s in
  ∃ D, D ⊆ ids ∧ (is_ok r.2 = true → D = ids) ∧ clients_added k D s r.1.
Proof using Type.
  clear hash_order.
  induction l as [|[o a] l IH]; intros s ids r; subst r ids.
  { exists ∅. split_and!; [done|done|by apply clients_added_none]. }
  cbn [for_each fst snd fmap list_fmap list_to_set]. rewrite mbind_unfold.
  pose proof (subscribe_area_added k o ic a s) as H1.
  destruct (subscribe_area k o ic a s) as [s1 [[]|e]]; cbn [fst snd is_ok] in H1 |- *.
  - destruct (IH s1) as (D & HD1 & HD2 & HD3). exists ({[mkPropIdAreaId (so_propId o) a]} ∪ D).
    split_and!; [set_solver|intros Hok; by rewrite (HD2 Hok)|by eapply clients_added_trans].
  - exists ∅. split_and!; [set_solver|done|done].
Qed.

Lemma subscribe_added k options ic s :
  let r := subscribe k options ic s in
  ∃ D, D ⊆ requested options ∧ (is_ok r.2 = true → D = requested options)
    ∧ clients_added k D s r.1.
Proof using Type.
  intros r. subst r. unfold subscribe. destruct (check_each _ options) as [[]|e].
  - rewrite for_each_nested. apply subscribe_loop_added.
  - exists ∅. split_and!; [set_solver|done|by apply clients_added_none].
Qed.

(** ** What unsubscribing does to the clients *)

(** The state after the client [c] was removed from the ids [D]. *)
Definition clients_removed c (D : gset PropIdAreaId) s s' : Prop :=
  ∀ q, clientsOf q s' = if decide (q ∈ D) then delete c (clientsOf q s) else clientsOf q s.

Lemma clients_removed_none c s s' : same_clients s s' → clients_removed c ∅ s s'.
Proof using Type. intros [H1 _] q. by rewrite H1. Qed.

Lemma clients_removed_trans c D1 D2 s1 s2 s3 :
  clients_removed c D1 s1 s2 → clients_removed c D2 s2 s3 → clients_removed c (D1 ∪ D2) s1 s3.
Proof using Type.
  clear asBinder hash_order. intros H1 H2 q. rewrite H2, H1.
  destruct (decide (q ∈ D1)), (decide (q ∈ D2)), (decide (q ∈ D1 ∪ D2)) as [Hu|Hu];
    rewrite elem_of_union in Hu; try tauto. apply delete_delete_eq.
Qed.

Lemma forget_client_clients c p s q :
  clientsOf q (forget_client c p s) = if decide (q = p) then delete c (clientsOf p s) else clientsOf q s.
Proof using Type.
  unfold forget_client. fold (clientsOf p s). destruct (decide (delete c (clientsOf p s) = ∅)) as [He|He].
  - unfold clientsOf at 1. cbn. destruct (decide (q = p)) as [->|]; [by rewrite lookup_delete_eq, He|].
    by rewrite lookup_delete_ne.
  - unfold clientsOf at 1. cbn. apply lookup_default_insert.
Qed.

Lemma unsubscribe_one_removed c p s :
  let r := unsubscribePropIdAreaIdLocked c p s in
  clients_removed c (if is_ok r.2 then {[p]} else ∅) s r.1
  ∧ mSubscribedPropsByClient r.1 = mSubscribedPropsByClient s.
Proof using Type.
  assert (Hgen : ∀ op : Op, keeps same_clients op →
    let r := (op ;;; mmodify (forget_client c p)) s in
    clients_removed c (if is_ok r.2 then {[p]} else ∅) s r.1
    ∧ mSubscribedPropsByClient r.1 = mSubscribedPropsByClient s).
  { intros op Hop. rewrite mbind_unfold. specialize (Hop s). destruct (op s) as [s1 [[]|e]]; cbn in *.
    - destruct Hop as [H1 H2]. split; [|unfold forget_client; by case_decide].
      intros q. rewrite forget_client_clients, !H1. destruct (decide (q = p)) as [->|].
      + by rewrite decide_True by set_solver.
      + by rewrite decide_False by set_solver.
    - split; [by apply clients_removed_none|apply Hop]. }
  unfold unsubscribePropIdAreaIdLocked. rewrite mbind_mget.
  destruct (decide (is_Some _)); [apply Hgen, removeContinuous_clients|].
  destruct (decide (_ = None)) as [Hn|Hn]; [|apply Hgen, removeOnChange_clients].
  cbn. split; [|done]. intros q. case_decide as Hq; [|done]. apply elem_of_singleton in Hq as ->.
  unfold clientsOf. rewrite Hn. cbn. by rewrite delete_empty.
Qed.

(** ** The invariant of an orderly history *)

Context `{!HardwareLaws HS}.
(** Which [propId, areaId]s are continuous: the caller splits the options by
    the change mode of the property. *)
Context (isCont : PropIdAreaId → bool).
Context (hash_order_elements : ∀ x, hash_order x ≡ₚ elements x).

Record mgr_core s : Prop := {
  mi_nonempty : ∀ p m, mClientsByPropIdAreaId s !! p = Some m → m ≠ ∅;
  mi_binder : ∀ p c k, clientsOf p s !! c = Some k → asBinder k = c;
  mi_onchange : ∀ p, isCont p = false → mContSubConfigsByPropIdArea s !! p = None;
  mi_cont : ∀ p, isCont p = true →
    dom (mConfigByClient (contConfig p s)) = dom (clientsOf p s);
  mi_cfg : ∀ p, cfg_ok (contConfig p s);
  mi_hw : hw_active (mVehicleHardware s) = dom (mClientsByPropIdAreaId s)
}.

(** The two directions of the client map agree. *)
Definition maps_ok s : Prop := ∀ c p, p ∈ propsOf c s ↔ is_Some (clientsOf p s !! c).

Definition mgr_inv s : Prop := mgr_core s ∧ maps_ok s.

Lemma mgr_inv_new h : hw_active h = ∅ → mgr_inv (newManager h).
Proof.
  intros Hh. split.
  2:{ intros c p. unfold propsOf, clientsOf. cbn. rewrite !lookup_empty. cbn.
      rewrite lookup_empty. split; [set_solver|]. by intros [k Hk]. }
  split; unfold clientsOf, contConfig; cbn.
  - intros p m. by rewrite lookup_empty.
  - intros p c k. rewrite lookup_empty. cbn. by rewrite lookup_empty.
  - intros p _. by rewrite lookup_empty.
  - intros p _. by rewrite !lookup_empty.
  - intros p. rewrite lookup_empty. apply cfg_ok_empty.
  - by rewrite Hh, dom_empty_L.
Qed.

(** The hardware changed, nothing else of the subscriptions did. *)
Definition hardware_only (A : gset PropIdAreaId) s s' : Prop :=
  ∃ h, s' = set_hardware h s ∧ hw_active h = A.

Lemma hw_subscribe_one p rate res vur s s' r :
  hardware_call (hw_subscribe (newSubscribeOptions (pa_propId p) (pa_areaId p) rate res vur)) s
    = (s', r) →
  hardware_only (if is_ok r then hw_active (mVehicleHardware s) ∪ {[p]}
                 else hw_active (mVehicleHardware s)) s s'.
Proof using Type.
  clear ub_cast log10f isCont hash_order_elements hash_order asBinder.
  unfold hardware_call.
  pose proof (hw_subscribe_law (newSubscribeOptions (pa_propId p) (pa_areaId p) rate res vur)
    (mVehicleHardware s)) as H1.
  destruct (hw_subscribe _ _) as [h st]. cbn in H1. intros He. injection He as <- <-.
  exists h. split; [done|]. rewrite H1. destruct (decide (st = OK)); [|done]. cbn.
  f_equal. unfold optionsIds. cbn. destruct p. cbn. set_solver.
Qed.

Lemma hw_unsubscribe_one p s s' r :
  hardware_call (hw_unsubscribe (pa_propId p) (pa_areaId p)) s = (s', r) →
  hardware_only (if is_ok r then hw_active (mVehicleHardware s) ∖ {[p]}
                 else hw_active (mVehicleHardware s)) s s'.
Proof using Type.
  unfold hardware_call.
  pose proof (hw_unsubscribe_law (pa_propId p) (pa_areaId p) (mVehicleHardware s)) as H1.
  destruct (hw_unsubscribe _ _ _) as [h st]. cbn in H1. intros He. injection He as <- <-.
  exists h. split; [done|]. rewrite H1. destruct (decide (st = OK)); [|done]. cbn.
  by destruct p.
Qed.

Lemma hw_rate_one p x s s' r :
  hardware_call (hw_updateSampleRate (pa_propId p) (pa_areaId p) x) s = (s', r) →
  hardware_only (hw_active (mVehicleHardware s)) s s'.
Proof using Type.
  unfold hardware_call.
  pose proof (hw_updateSampleRate_law (pa_propId p) (pa_areaId p) x (mVehicleHardware s)) as H1.
  destruct (hw_updateSampleRate _ _ _ _) as [h st]. cbn in H1. intros He. injection He as <- <-.
  by exists h.
Qed.

Lemma addOnChange_any p s s' r :
  addOnChangeSubscriberLocked p s = (s', r) →
  hardware_only (if is_ok r && bool_decide (mClientsByPropIdAreaId s !! p = None)
                 then hw_active (mVehicleHardware s) ∪ {[p]}
                 else hw_active (mVehicleHardware s)) s s'.
Proof using Type.
  unfold addOnChangeSubscriberLocked, mbind', mget, mreturn.
  destruct (decide _) as [Hs|Hs]; intros He.
  - injection He as <- <-. exists (mVehicleHardware s). split; [by destruct s|].
    rewrite bool_decide_false; [by rewrite andb_false_r|]. by apply not_eq_None_Some.
  - apply hw_subscribe_one in He as (h & -> & Ha). exists h. split; [done|]. rewrite Ha.
    rewrite bool_decide_true by (by apply eq_None_not_Some). by rewrite andb_true_r.
Qed.

Lemma addOnChange_spec p s s' r :
  addOnChangeSubscriberLocked p s = (s', r) →
  hw_active (mVehicleHardware s) = dom (mClientsByPropIdAreaId s) →
  hardware_only (if is_ok r then hw_active (mVehicleHardware s) ∪ {[p]}
                 else hw_active (mVehicleHardware s)) s s'.
Proof.
  intros (h & -> & Ha)%addOnChange_any Hhw. exists h. split; [done|]. rewrite Ha.
  destruct (is_ok r); [|done]. cbn. destruct (bool_decide_reflect (mClientsByPropIdAreaId s !! p = None)) as [|Hs]; [done|].
  apply not_eq_None_Some, elem_of_dom in Hs. rewrite Hhw. set_solver.
Qed.

(** Nothing of the combined configuration changes, as the code tests it. *)
Definition same_combined (new old : ContSubConfigs) : bool :=
  f32_eqb (mMaxSampleRateHz new) (mMaxSampleRateHz old)
  && f32_eqb (mMinRequiredResolution new) (mMinRequiredResolution old)
  && Bool.eqb (mEnableVur new) (mEnableVur old).

(** The effect of [updateContSubConfigsLocked] on one [propId, areaId], in
    whatever state it is called. *)
Definition cont_update_any p (new : ContSubConfigs) s s' (ok : bool) : Prop :=
  let A := hw_active (mVehicleHardware s) in
  ∃ h cfgs, s' = set_hardware h (set_configs (λ _, cfgs) s)
    ∧ (∀ q, q ≠ p → cfgs !! q = mContSubConfigsByPropIdArea s !! q)
    ∧ cfgs !! p = Some (if ok then new else contConfig p s)
    ∧ hw_active h =
        (if ok && negb (same_combined new (contConfig p s))
         then if f32_neqb (mMaxSampleRateHz new) f32_zero then A ∪ {[p]} else A ∖ {[p]}
         else A).

(** The rate is told to the hardware where it changed. *)
Lemma change_rate_spec p (b : bool) x s : ∃ s2 r2,
  (if b then hardware_call (hw_updateSampleRate (pa_propId p) (pa_areaId p) x) else mreturn tt) s = (s2, r2) ∧
  hardware_only (hw_active (mVehicleHardware s)) s s2.
Proof using Type.
  destruct b.
  - destruct (hardware_call _ s) as [s2 r2] eqn:E2. exists s2, r2. split; [done|]. by eapply hw_rate_one.
  - exists s, (Ok tt). split; [done|]. exists (mVehicleHardware s). by destruct s.
Qed.

(** The call that subscribes or unsubscribes, and what is stored after it. *)
Lemma switch_spec p new (b : bool) rate res vur s s' r :
  mbind' (if b then hardware_call (hw_subscribe (newSubscribeOptions (pa_propId p) (pa_areaId p) rate res vur))
          else hardware_call (hw_unsubscribe (pa_propId p) (pa_areaId p)))
    (λ _, mmodify (set_configs <[p := new]>)) s = (s', r) →
  let A := hw_active (mVehicleHardware s) in
  ∃ h, s' = set_hardware h (if is_ok r then set_configs <[p := new]> s else s)
    ∧ hw_active h = if is_ok r then if b then A ∪ {[p]} else A ∖ {[p]} else A.
Proof using Type.
  unfold mbind'. destruct b; destruct (hardware_call _ s) as [s3 r3] eqn:E3;
    [apply hw_subscribe_one in E3 as (h3 & -> & Ha3)|apply hw_unsubscribe_one in E3 as (h3 & -> & Ha3)];
    destruct r3 as [[]|e]; intros He; injection He as <- <-; by exists h3.
Qed.

Lemma updateCont_any p new s s' r :
  updateContSubConfigsLocked p new s = (s', r) → cont_update_any p new s s' (is_ok r).
Proof using Type.
  unfold updateContSubConfigsLocked, touch_config. unfold mbind' at 1. unfold mmodify at 1.
  unfold mbind' at 1. unfold mget. rewrite contConfig_touch.
  fold (same_combined new (contConfig p s)).
  set (s1 := set_configs (touch emptyContSubConfigs p) s).
  assert (Hq : ∀ q, q ≠ p → mContSubConfigsByPropIdArea s1 !! q = mContSubConfigsByPropIdArea s !! q).
  { intros q Hne. subst s1. cbn. by apply touch_lookup_ne. }
  assert (Hp1 : mContSubConfigsByPropIdArea s1 !! p = Some (contConfig p s)).
  { subst s1. cbn. by rewrite touch_lookup. }
  unfold cont_update_any. destruct (same_combined new (contConfig p s)); cbn [negb]; intros He.
  - (* nothing changes for the hardware *)
    injection He as <- <-. exists (mVehicleHardware s), (<[p := new]> (mContSubConfigsByPropIdArea s1)).
    split_and!; [done| |by rewrite lookup_insert_eq|done].
    intros q Hne. rewrite lookup_insert_ne by done. by apply Hq.
  - (* the calls to the hardware *)
    destruct (change_rate_spec p (f32_neqb (mMaxSampleRateHz new) (mMaxSampleRateHz (contConfig p s)))
      (mMaxSampleRateHz new) s1) as (s2 & r2 & E2 & h2 & -> & Ha2).
    unfold mbind' at 1 in He. unfold Op in *. rewrite E2 in He. destruct r2 as [[]|e].
    2:{ injection He as <- <-. exists h2, (mContSubConfigsByPropIdArea s1).
        split_and!; [done|done|done|exact Ha2]. }
    apply switch_spec in He as (h3 & -> & Ha3). cbn in Ha3.
    exists h3, (if is_ok r then <[p := new]> (mContSubConfigsByPropIdArea s1) else mContSubConfigsByPropIdArea s1).
    rewrite Ha3, Ha2. destruct (is_ok r); split_and!; try done; [|by rewrite lookup_insert_eq].
    intros q Hne. rewrite lookup_insert_ne by done. by apply Hq.
Qed.

(** Where the rate of the entry is zero exactly when the hardware does not
    report it, the hardware afterwards reports it exactly when the new rate is
    not zero. *)
Definition cont_update p (new : ContSubConfigs) s s' (ok : bool) : Prop :=
  ∃ h cfgs, s' = set_hardware h (set_configs (λ _, cfgs) s)
    ∧ (∀ q, q ≠ p → cfgs !! q = mContSubConfigsByPropIdArea s !! q)
    ∧ cfgs !! p = Some (if ok then new else contConfig p s)
    ∧ hw_active h =
        (if ok
         then if f32_neqb (mMaxSampleRateHz new) f32_zero
              then hw_active (mVehicleHardware s) ∪ {[p]}
              else hw_active (mVehicleHardware s) ∖ {[p]}
         else hw_active (mVehicleHardware s)).

(** When the rate is the one the hardware has, the subscription is as it should. *)
Lemma same_rate_active p new old (A : gset PropIdAreaId) :
  f32_eqb new old = true → new = f32_zero ∨ positive new →
  old = f32_zero ∧ p ∉ A ∨ positive old ∧ p ∈ A →
  A = if f32_neqb new f32_zero then A ∪ {[p]} else A ∖ {[p]}.
Proof.
  intros Heq [->|Hnew] Hold.
  - destruct Hold as [[_ Hold]|[Hpos _]]; [cbn; set_solver|].
    apply f32_eqb_key in Heq; [|done|by apply positive_not_nan].
    unfold positive in Hpos. apply f32_ltb_key in Hpos; [|done|by apply positive_not_nan].
    rewrite <-Heq in Hpos. cbn in Hpos. lia.
  - rewrite positive_neqb by done. destruct Hold as [[-> _]|[_ Hin]]; [|set_solver].
    apply (positive_eqb _ _ Heq) in Hnew. done.
Qed.

Lemma updateCont_spec p new s s' r :
  updateContSubConfigsLocked p new s = (s', r) →
  mMaxSampleRateHz new = f32_zero ∨ positive (mMaxSampleRateHz new) →
  mMaxSampleRateHz (contConfig p s) = f32_zero ∧ p ∉ hw_active (mVehicleHardware s)
  ∨ positive (mMaxSampleRateHz (contConfig p s)) ∧ p ∈ hw_active (mVehicleHardware s) →
  cont_update p new s s' (is_ok r).
Proof.
  intros (h & cfgs & -> & Hq & Hp & Ha)%updateCont_any Hnew Hold. exists h, cfgs.
  split_and!; [done..|]. rewrite Ha. destruct (is_ok r); [|done]. cbn.
  destruct (same_combined _ _) eqn:Hs; [|done]. cbn. unfold same_combined in Hs.
  apply andb_true_iff in Hs as [[Hs _]%andb_true_iff _]. by eapply same_rate_active.
Qed.

(** *** What each step does to the core *)

Lemma clientsOf_None p s : mgr_core s → clientsOf p s = ∅ ↔ mClientsByPropIdAreaId s !! p = None.
Proof.
  intros Hc. unfold clientsOf. split; [|by intros ->].
  destruct (_ !! p) eqn:E; [|done]. cbn. intros ->. by destruct (mi_nonempty s Hc _ _ E).
Qed.

Lemma active_iff p s : mgr_core s → p ∈ hw_active (mVehicleHardware s) ↔ clientsOf p s ≠ ∅.
Proof.
  intros Hc. rewrite (mi_hw s Hc), elem_of_dom, (clientsOf_None p s Hc), not_eq_None_Some. done.
Qed.

(** The rate of a continuous entry is positive exactly when it has clients. *)
Lemma cont_rate p s :
  mgr_core s → isCont p = true →
  mMaxSampleRateHz (contConfig p s) = f32_zero ∧ p ∉ hw_active (mVehicleHardware s)
  ∨ positive (mMaxSampleRateHz (contConfig p s)) ∧ p ∈ hw_active (mVehicleHardware s).
Proof.
  intros Hc Hk. destruct (cfg_ok_rate _ (mi_cfg s Hc p)) as [H1 H2].
  rewrite active_iff by done. pose proof (mi_cont s Hc p Hk) as Hd.
  destruct (decide (clientsOf p s = ∅)) as [He|He].
  - left. split; [|tauto]. apply H1. rewrite He, dom_empty_L in Hd. by apply dom_empty_inv_L.
  - right. split; [|done]. apply H2. intros Hx. rewrite Hx, dom_empty_L in Hd.
    symmetry in Hd. by apply dom_empty_inv_L in Hd.
Qed.

(** Hardware and configurations change without a change of the clients. *)
Lemma mgr_core_frame h cfgs s :
  mgr_core s → hw_active h = hw_active (mVehicleHardware s) →
  (∀ q, default emptyContSubConfigs (cfgs !! q) = contConfig q s) →
  (∀ q, isCont q = false → cfgs !! q = None) →
  mgr_core (set_hardware h (set_configs (λ _, cfgs) s)).
Proof.
  intros [C1 C2 C3 C4 C5 C6] Hh Hq Hk. split; unfold contConfig in *; cbn; try done.
  - intros p Hp. rewrite Hq. by apply C4.
  - intros p. rewrite Hq. apply C5.
  - by rewrite Hh.
Qed.

Lemma mgr_core_add k p h cfgs s X :
  mgr_core s → hw_active h = hw_active (mVehicleHardware s) ∪ {[p]} →
  (∀ q, q ≠ p → default emptyContSubConfigs (cfgs !! q) = contConfig q s) →
  (∀ q, isCont q = false → cfgs !! q = None) →
  cfg_ok (default emptyContSubConfigs (cfgs !! p)) →
  (isCont p = true → dom (mConfigByClient (default emptyContSubConfigs (cfgs !! p)))
                     = {[asBinder k]} ∪ dom (clientsOf p s)) →
  mgr_core (set_clients (λ m, <[p := <[asBinder k := k]> (default ∅ (m !! p))]> m)
    (set_subscribed X (set_hardware h (set_configs (λ _, cfgs) s)))).
Proof.
  intros [C1 C2 C3 C4 C5 C6] Hh Hq Hk Hok Hdom.
  split; unfold clientsOf, contConfig in *; cbn.
  - intros q m [[<- <-]|[Hne Hm]]%lookup_insert_Some; [|by eapply C1]. apply insert_non_empty.
  - intros q c k'. rewrite lookup_default_insert. destruct (decide (q = p)) as [->|]; [|apply C2].
    intros [[<- <-]|[Hne Hm]]%lookup_insert_Some; [done|by eapply C2].
  - intros q Hn. by apply Hk.
  - intros q Hc. rewrite lookup_default_insert. destruct (decide (q = p)) as [->|Hne].
    + rewrite Hdom by done. by rewrite dom_insert_L.
    + rewrite Hq by done. by apply C4.
  - intros q. destruct (decide (q = p)) as [->|Hne]; [done|]. rewrite Hq by done. apply C5.
  - rewrite Hh, C6, dom_insert_L. set_solver.
Qed.

Lemma mgr_core_remove c p h cfgs s :
  mgr_core s → is_Some (clientsOf p s !! c) →
  hw_active h = (if decide (delete c (clientsOf p s) = ∅)
                 then hw_active (mVehicleHardware s) ∖ {[p]} else hw_active (mVehicleHardware s)) →
  (∀ q, q ≠ p → default emptyContSubConfigs (cfgs !! q) = contConfig q s) →
  (∀ q, isCont q = false → cfgs !! q = None) →
  cfg_ok (default emptyContSubConfigs (cfgs !! p)) →
  (isCont p = true → dom (mConfigByClient (default emptyContSubConfigs (cfgs !! p)))
                     = dom (clientsOf p s) ∖ {[c]}) →
  let s' := forget_client c p (set_hardware h (set_configs (λ _, cfgs) s)) in
  mgr_core s' ∧ ∀ q, clientsOf q s' = if decide (q = p) then delete c (clientsOf p s) else clientsOf q s.
Proof.
  intros Hcore Hin Hh Hq Hk Hok Hdom. destruct Hcore as [C1 C2 C3 C4 C5 C6].
  intros s'. subst s'. unfold forget_client. cbn.
  change (default ∅ (mClientsByPropIdAreaId s !! p)) with (clientsOf p s).
  destruct (decide (delete c (clientsOf p s) = ∅)) as [He|He].
  - assert (Hclients : ∀ q, default ∅ (delete p (mClientsByPropIdAreaId s) !! q)
      = if decide (q = p) then delete c (clientsOf p s) else clientsOf q s).
    { intros q. destruct (decide (q = p)) as [->|]; [by rewrite lookup_delete_eq, He|].
      by rewrite lookup_delete_ne. }
    split; [|exact Hclients].
    split; unfold contConfig; cbn.
    + intros q m [_ Hm]%lookup_delete_Some. by eapply C1.
    + intros q c' k'. unfold clientsOf at 1. cbn. rewrite Hclients. destruct (decide (q = p)) as [->|]; [|apply C2].
      by rewrite He, lookup_empty.
    + intros q Hn. destruct (decide (q = p)) as [->|]; [by rewrite lookup_delete_eq|].
      rewrite lookup_delete_ne by done. by apply Hk.
    + intros q Hc. unfold clientsOf at 1. cbn. rewrite Hclients.
      destruct (decide (q = p)) as [->|Hne].
      * rewrite lookup_delete_eq, He. done.
      * rewrite lookup_delete_ne, Hq by done. by apply C4.
    + intros q. destruct (decide (q = p)) as [->|]; [rewrite lookup_delete_eq; apply cfg_ok_empty|].
      rewrite lookup_delete_ne, Hq by done. apply C5.
    + by rewrite Hh, C6, dom_delete_L.
  - assert (Hclients : ∀ q, default ∅ (<[p := delete c (clientsOf p s)]> (mClientsByPropIdAreaId s) !! q)
      = if decide (q = p) then delete c (clientsOf p s) else clientsOf q s).
    { intros q. apply lookup_default_insert. }
    split; [|exact Hclients].
    split; unfold contConfig; cbn.
    + intros q m [[<- <-]|[Hne Hm]]%lookup_insert_Some; [done|]. by eapply C1.
    + intros q c' k'. unfold clientsOf at 1. cbn. rewrite Hclients. destruct (decide (q = p)) as [->|]; [|apply C2].
      intros [_ Hm]%lookup_delete_Some. by eapply C2.
    + intros q Hn. by apply Hk.
    + intros q Hc. unfold clientsOf at 1. cbn. rewrite Hclients.
      destruct (decide (q = p)) as [->|Hne].
      * rewrite Hdom by done. by rewrite dom_delete_L.
      * rewrite Hq by done. by apply C4.
    + intros q. destruct (decide (q = p)) as [->|]; [done|]. rewrite Hq by done. apply C5.
    + rewrite Hh, C6, dom_insert_L. destruct Hin as [k Hin].
      assert (p ∈ dom (mClientsByPropIdAreaId s)); [|set_solver].
      apply elem_of_dom. unfold clientsOf in Hin. destruct (mClientsByPropIdAreaId s !! p); [done|].
      cbn in Hin. by rewrite lookup_empty in Hin.
Qed.

Lemma touch_configs_default p q s (cfgs : gmap PropIdAreaId ContSubConfigs) cfg :
  (∀ q, q ≠ p → cfgs !! q = mContSubConfigsByPropIdArea s !! q) → cfgs !! p = Some cfg →
  default emptyContSubConfigs (cfgs !! q) = if decide (q = p) then cfg else contConfig q s.
Proof.
  intros H1 H2. destruct (decide (q = p)) as [->|]; [by rewrite H2|]. by rewrite H1.
Qed.

(** Subscribing one client to one [propId, areaId], error or not. *)
Definition add_effect k p s s' (ok : bool) : Prop :=
  let c := asBinder k in
  mgr_core s'
  ∧ mSubscribedPropsByClient s' =
      (if ok then <[c := propsOf c s ∪ {[p]}]> (mSubscribedPropsByClient s)
       else mSubscribedPropsByClient s)
  ∧ ∀ q, clientsOf q s' =
      if decide (q = p) then (if ok then <[c := k]> (clientsOf p s) else clientsOf q s)
      else clientsOf q s.

Lemma subscribe_finish k p s h cfgs (r1 : result StatusCode unit) s' r :
  mgr_core s →
  hw_active h = (if is_ok r1 then hw_active (mVehicleHardware s) ∪ {[p]}
                 else hw_active (mVehicleHardware s)) →
  (∀ q, isCont q = false → cfgs !! q = None) →
  (∀ q, q ≠ p → default emptyContSubConfigs (cfgs !! q) = contConfig q s) →
  (if is_ok r1
   then cfg_ok (default emptyContSubConfigs (cfgs !! p))
        ∧ (isCont p = true → dom (mConfigByClient (default emptyContSubConfigs (cfgs !! p)))
                             = {[asBinder k]} ∪ dom (clientsOf p s))
   else default emptyContSubConfigs (cfgs !! p) = contConfig p s) →
  mbind' (λ _, (set_hardware h (set_configs (λ _, cfgs) s), r1)) (λ _, record_client k p) s = (s', r) →
  add_effect k p s s' (is_ok r).
Proof.
  intros Hc Hact Hn Hq Hr. unfold mbind'.
  destruct r1 as [[]|e]; cbn in Hr; intros He; injection He as <- <-.
  - split_and!; [|done|].
    + destruct Hr. by apply mgr_core_add.
    + intros q. unfold clientsOf. cbn. rewrite lookup_default_insert. by destruct (decide _).
  - split_and!; [|done|].
    + apply mgr_core_frame; try done. intros q. destruct (decide (q = p)) as [->|]; auto.
    + intros q. by destruct (decide _).
Qed.

Lemma subscribe_area_spec k o ic a s s' r :
  mgr_core s → isCont (mkPropIdAreaId (so_propId o) a) = ic →
  (ic = true → positive (sampleRate o)) →
  subscribe_area k o ic a s = (s', r) →
  add_effect k (mkPropIdAreaId (so_propId o) a) s s' (is_ok r).
Proof.
  intros Hc Hk Hpos He. revert He. unfold subscribe_area.
  set (p := mkPropIdAreaId (so_propId o) a) in *. set (c := asBinder k) in *.
  change (mmodify _ ;;; mmodify _) with (record_client k p). unfold mbind' at 1.
  destruct ic.
  - unfold addContinuousSubscriberLocked, touch_config. unfold mbind' at 1, mmodify at 1.
    unfold mbind' at 1, mget. rewrite contConfig_touch.
    set (s0 := set_configs (touch emptyContSubConfigs p) s).
    set (new := addClient _ _ _).
    assert (Hnew : cfg_ok new).
    { apply cfg_ok_addClient; [by apply mi_cfg|by apply Hpos]. }
    assert (Hdom : mConfigByClient new = <[c := mkSubConfig (sampleRate o) (resolution o)
      (enableVariableUpdateRate o)]> (mConfigByClient (contConfig p s))).
    { apply addClient_configs. }
    assert (Hprate : positive (mMaxSampleRateHz new)).
    { apply cfg_ok_rate; [done|]. rewrite Hdom. apply insert_non_empty. }
    destruct (updateContSubConfigsLocked p new s0) as [s1 r1] eqn:Hu.
    apply updateCont_spec in Hu as (h & cfgs & Hs1 & Hq & Hcp & Hact).
    2:{ by right. }
    2:{ subst s0. rewrite contConfig_touch. cbn. by apply cont_rate. }
    subst s1. intros He. eapply (subscribe_finish k p s h cfgs r1); try done.
    + rewrite Hact. destruct r1; [|done]. cbn. by rewrite positive_neqb.
    + intros q Hn. assert (q ≠ p) by congruence. rewrite Hq by done. subst s0. cbn.
      rewrite touch_lookup_ne by done. by apply mi_onchange.
    + intros q Hne. rewrite Hq by done. subst s0. cbn. by rewrite touch_lookup_ne.
    + rewrite Hcp. destruct r1; cbn; [|subst s0; by rewrite contConfig_touch].
      split; [done|]. intros _. rewrite Hdom, dom_insert_L. by rewrite mi_cont.
  - destruct (addOnChangeSubscriberLocked p s) as [s1 r1] eqn:Hu.
    apply addOnChange_spec in Hu as (h & Hs1 & Hact); [|by apply mi_hw].
    subst s1. intros He. eapply (subscribe_finish k p s h (mContSubConfigsByPropIdArea s) r1); try done.
    + intros q Hn. by apply mi_onchange.
    + destruct r1; cbn; [|done]. split; [apply (mi_cfg s Hc p)|congruence].
Qed.

(** Unsubscribing one client from one [propId, areaId], error or not. *)
Definition remove_effect c p s s' (ok : bool) : Prop :=
  mgr_core s'
  ∧ mSubscribedPropsByClient s' = mSubscribedPropsByClient s
  ∧ ∀ q, clientsOf q s' =
      if decide (q = p) then (if ok then delete c (clientsOf p s) else clientsOf q s)
      else clientsOf q s.

Lemma unsubscribe_finish c p s h cfgs (r1 : result StatusCode unit) s' r :
  mgr_core s → is_Some (clientsOf p s !! c) →
  hw_active h = (if is_ok r1 && bool_decide (delete c (clientsOf p s) = ∅)
                 then hw_active (mVehicleHardware s) ∖ {[p]}
                 else hw_active (mVehicleHardware s)) →
  (∀ q, isCont q = false → cfgs !! q = None) →
  (∀ q, q ≠ p → default emptyContSubConfigs (cfgs !! q) = contConfig q s) →
  (if is_ok r1
   then cfg_ok (default emptyContSubConfigs (cfgs !! p))
        ∧ (isCont p = true → dom (mConfigByClient (default emptyContSubConfigs (cfgs !! p)))
                             = dom (clientsOf p s) ∖ {[c]})
   else default emptyContSubConfigs (cfgs !! p) = contConfig p s) →
  mbind' (λ _, (set_hardware h (set_configs (λ _, cfgs) s), r1))
    (λ _, mmodify (forget_client c p)) s = (s', r) →
  remove_effect c p s s' (is_ok r).
Proof.
  intros Hc Hin Hact Hn Hq Hr. unfold mbind'.
  destruct r1 as [[]|e]; cbn in Hr, Hact; intros He; injection He as <- <-.
  - destruct Hr as [Hok Hdom].
    destruct (mgr_core_remove c p h cfgs s Hc Hin) as [H1 H2]; try done.
    { rewrite Hact. by destruct (bool_decide_reflect (delete c (clientsOf p s) = ∅)), (decide (delete c (clientsOf p s) = ∅)). }
    split_and!; [done| |exact H2]; unfold forget_client; cbn; by destruct (decide _).
  - split_and!; [|done|].
    + apply mgr_core_frame; try done. intros q. destruct (decide (q = p)) as [->|]; auto.
    + intros q. by destruct (decide _).
Qed.

Lemma removeOnChange_spec c p s s1 r1 :
  mgr_core s → is_Some (clientsOf p s !! c) →
  removeOnChangeSubscriberLocked p s = (s1, r1) →
  ∃ h, s1 = set_hardware h s
    ∧ hw_active h = (if is_ok r1 && bool_decide (delete c (clientsOf p s) = ∅)
                 then hw_active (mVehicleHardware s) ∖ {[p]}
                 else hw_active (mVehicleHardware s)).
Proof.
  intros Hc [k Hin]. unfold removeOnChangeSubscriberLocked, mbind', mmodify, mget.
  assert (Htouch : set_clients (touch ∅ p) s = s).
  { destruct s. unfold set_clients, touch, clientsOf in *. cbn in *.
    destruct (_ !! p) eqn:E; [done|]. cbn in Hin. by rewrite lookup_empty in Hin. }
  rewrite Htouch. fold (clientsOf p s).
  assert (Hsize : delete c (clientsOf p s) = ∅ ↔ size (clientsOf p s) = 1%nat).
  { rewrite <-map_size_empty_iff.
    rewrite <-(insert_delete_id (clientsOf p s) c k) at 2 by done.
    rewrite map_size_insert_None by apply lookup_delete_eq. lia. }
  assert (Hpos : (0 < size (clientsOf p s))%nat).
  { destruct (size _) eqn:E; [|lia]. apply map_size_empty_iff in E. rewrite E in Hin.
    by rewrite lookup_empty in Hin. }
  destruct (decide _) as [Hlt|Hge]; intros He.
  - injection He as <- <-. exists (mVehicleHardware s). split; [by destruct s|].
    cbn. destruct (bool_decide_reflect (delete c (clientsOf p s) = ∅)) as [E|E]; [|done].
    apply Hsize in E. lia.
  - apply hw_unsubscribe_one in He as (h & -> & Ha). exists h. split; [done|].
    rewrite Ha. rewrite bool_decide_true by (apply Hsize; lia). by destruct r1.
Qed.

Lemma unsubscribe_one_spec c p s s' r :
  mgr_core s → is_Some (clientsOf p s !! c) →
  unsubscribePropIdAreaIdLocked c p s = (s', r) →
  remove_effect c p s s' (is_ok r).
Proof.
  intros Hc Hin. unfold unsubscribePropIdAreaIdLocked. unfold mbind' at 1, mget.
  destruct (decide (is_Some (mContSubConfigsByPropIdArea s !! p))) as [Hs|Hs].
  - assert (Hk : isCont p = true).
    { destruct (isCont p) eqn:E; [done|]. rewrite (mi_onchange s Hc p E) in Hs. by destruct Hs. }
    unfold removeContinuousSubscriberLocked, touch_config.
    unfold mbind' at 1. unfold mbind' at 1, mmodify at 1. unfold mbind' at 1, mget.
    rewrite contConfig_touch.
    set (s0 := set_configs (touch emptyContSubConfigs p) s).
    set (new := removeClient _ _).
    assert (Hnew : cfg_ok new) by (by apply cfg_ok_removeClient, mi_cfg).
    assert (Hdom : dom (mConfigByClient new) = dom (clientsOf p s) ∖ {[c]}).
    { subst new. rewrite removeClient_configs, dom_delete_L. by rewrite mi_cont. }
    assert (Hempty : mConfigByClient new = ∅ ↔ delete c (clientsOf p s) = ∅).
    { rewrite <-!dom_empty_iff_L, Hdom. by rewrite dom_delete_L. }
    destruct (cfg_ok_rate new Hnew) as [Hz Hp].
    destruct (updateContSubConfigsLocked p new s0) as [s1 r1] eqn:Hu.
    apply updateCont_spec in Hu as (h & cfgs & Hs1 & Hq & Hcp & Hact).
    2:{ destruct (decide (mConfigByClient new = ∅)); auto. }
    2:{ subst s0. rewrite contConfig_touch. cbn. by apply cont_rate. }
    subst s1. intros He. eapply (unsubscribe_finish c p s h cfgs r1); try done.
    + rewrite Hact. destruct r1; [|done]. cbn.
      destruct (bool_decide_reflect (delete c (clientsOf p s) = ∅)) as [E|E].
      * by rewrite Hz by (by apply Hempty).
      * rewrite positive_neqb by (apply Hp; by rewrite Hempty).
        assert (p ∈ hw_active (mVehicleHardware s)); [|set_solver].
        apply active_iff; [done|]. intros Hx. rewrite Hx in Hin. by destruct Hin.
    + intros q Hn. assert (q ≠ p) by congruence. rewrite Hq by done. subst s0. cbn.
      rewrite touch_lookup_ne by done. by apply mi_onchange.
    + intros q Hne. rewrite Hq by done. subst s0. cbn. by rewrite touch_lookup_ne.
    + rewrite Hcp. destruct r1; cbn; [done|]. subst s0. by rewrite contConfig_touch.
  - destruct (decide (mClientsByPropIdAreaId s !! p = None)) as [Hn|Hn].
    { apply clientsOf_None in Hn; [|done]. rewrite Hn in Hin. by destruct Hin. }
    unfold mbind' at 1.
    destruct (removeOnChangeSubscriberLocked p s) as [s1 r1] eqn:Hu.
    apply (removeOnChange_spec c) in Hu as (h & -> & Hact); [|done..].
    intros He. eapply (unsubscribe_finish c p s h (mContSubConfigsByPropIdArea s) r1); try done.
    + intros q Hq. by apply mi_onchange.
    + destruct r1; cbn; [|done]. split; [apply (mi_cfg s Hc p)|]. intros Hk.
      assert (contConfig p s = emptyContSubConfigs) as Hcc.
      { unfold contConfig. destruct (_ !! p) eqn:E; [by destruct Hs|done]. }
      pose proof (mi_cont s Hc p Hk) as Hd. rewrite Hcc in Hd. cbn in Hd. fold (contConfig p s).
      rewrite Hcc. cbn. set_solver.
Qed.

(** *** The public operations *)

Lemma maps_ok_add k p s s' ok : maps_ok s → add_effect k p s s' ok → maps_ok s'.
Proof.
  intros Hm (_ & Hsub & Hcl) c q. specialize (Hm c q).
  rewrite Hcl. unfold propsOf at 1. rewrite Hsub. fold (propsOf c s).
  destruct ok; [|by destruct (decide _)].
  destruct (decide (c = asBinder k)) as [->|Hne].
  - rewrite lookup_insert_eq. cbn. rewrite elem_of_union, elem_of_singleton, Hm.
    destruct (decide (q = p)) as [->|]; [|naive_solver]. rewrite lookup_insert_eq.
    split; [by eauto|by right].
  - rewrite lookup_insert_ne by done. fold (propsOf c s). rewrite Hm.
    destruct (decide (q = p)) as [->|]; [|done]. by rewrite lookup_insert_ne.
Qed.

Lemma maps_ok_remove c p s s' :
  maps_ok s → remove_effect c p s s' true → maps_ok (erase_subscribed c p s').
Proof.
  intros Hm (_ & Hsub & Hcl) c' q. specialize (Hm c' q).
  unfold propsOf, erase_subscribed. cbn. rewrite Hsub.
  change (clientsOf q (set_subscribed _ s')) with (clientsOf q s'). rewrite Hcl.
  destruct (decide (c' = c)) as [->|Hne].
  - rewrite lookup_alter_eq. unfold propsOf in Hm.
    destruct (decide (q = p)) as [->|Hq].
    + rewrite lookup_delete_eq. destruct (_ !! c); cbn; [|set_solver].
      split; [set_solver|by intros []].
    + rewrite <-Hm. destruct (_ !! c); cbn; set_solver.
  - rewrite lookup_alter_ne by done. fold (propsOf c' s). rewrite Hm.
    destruct (decide (q = p)) as [->|]; [|done]. by rewrite lookup_delete_ne.
Qed.

Lemma mgr_core_subscribed f s : mgr_core s → mgr_core (set_subscribed f s).
Proof. by intros [C1 C2 C3 C4 C5 C6]. Qed.

(** The options a caller may pass: each [propId, areaId] of the kind the flag
    says, and sample rates that are numbers. *)
Definition options_ok (ic : bool) (options : list SubscribeOptions) : Prop :=
  ∀ o, o ∈ options →
    (∀ a, a ∈ so_areaIds o → isCont (mkPropIdAreaId (so_propId o) a) = ic)
    ∧ (ic = true → f32_is_nan (sampleRate o) = false).

Lemma subscribe_loop k ic (l : list (SubscribeOptions * Z)) s :
  mgr_inv s →
  (∀ o a, (o, a) ∈ l → isCont (mkPropIdAreaId (so_propId o) a) = ic
                       ∧ (ic = true → positive (sampleRate o))) →
  mgr_inv (for_each l (λ oa, subscribe_area k oa.1 ic oa.2) s).1.
Proof.
  revert s. induction l as [|[o a] l IH]; intros s [Hc Hm] Hl; [done|].
  cbn [for_each fst snd]. rewrite mbind_unfold. destruct (Hl o a) as [Hk Hpos]; [left|].
  destruct (subscribe_area k o ic a s) as [s1 r1] eqn:E1.
  apply subscribe_area_spec in E1; [|done..].
  pose proof (maps_ok_add _ _ _ _ _ Hm E1) as Hm1. destruct E1 as (Hc1 & _).
  destruct r1 as [[]|e]; [|done]. apply IH; [done|]. intros; apply Hl; by right.
Qed.

Lemma getIntervalNanos_positive x :
  is_ok (getIntervalNanos ub_cast x) = true → f32_is_nan x = false → positive x.
Proof.
  unfold getIntervalNanos, positive. destruct (f32_leb x f32_zero) eqn:E; [done|].
  intros _ Hn. revert E Hn. by destruct x as [[]|[]| |[] ? ?].
Qed.

Lemma subscribe_mgr_inv k options ic s :
  mgr_inv s → options_ok ic options → mgr_inv (subscribe k options ic s).1.
Proof.
  intros Hi Ho. unfold subscribe.
  destruct (check_each (check_option ic) options) as [[]|e] eqn:Hck; [|done].
  rewrite for_each_nested. apply subscribe_loop; [done|].
  intros o a [Hin Ha]%elem_of_pairs. destruct (Ho o Hin) as [Hk Hn]. split; [by apply Hk|].
  intros ->. apply check_each_ok in Hck. rewrite Forall_forall in Hck. specialize (Hck o Hin).
  apply getIntervalNanos_positive; [|by apply Hn].
  unfold check_option in Hck. cbn in Hck. by destruct (is_ok (getIntervalNanos _ _)).
Qed.

Lemma unsubscribe_loop c (l : list PropIdAreaId) s :
  NoDup l → mgr_inv s → (∀ p, p ∈ l → p ∈ propsOf c s) →
  let r := for_each l (λ p, unsubscribePropIdAreaIdLocked c p ;;; mmodify (erase_subscribed c p)) s in
  mgr_inv r.1 ∧
  ∃ D, D ⊆ list_to_set l ∧ (is_ok r.2 = true → D = list_to_set l) ∧ clients_removed c D s r.1.
Proof.
  intros Hnd. revert s. induction Hnd as [|p l Hp Hnd IH]; intros s [Hc Hm] Hl r; subst r.
  { cbn. split; [done|]. exists ∅. split_and!; [done|done|by apply clients_removed_none]. }
  cbn [for_each list_to_set]. unfold mbind'.
  assert (Hin : is_Some (clientsOf p s !! c)) by (apply Hm, Hl; left).
  destruct (unsubscribePropIdAreaIdLocked c p s) as [s1 r1] eqn:E1.
  pose proof (unsubscribe_one_removed c p s) as [Hrem _]. rewrite E1 in Hrem.
  apply unsubscribe_one_spec in E1; [|done..].
  destruct r1 as [[]|e]; cbn [is_ok mmodify fst snd] in *.
  - pose proof (maps_ok_remove _ _ _ _ Hm E1) as Hm1. destruct E1 as (Hc1 & Hsub & Hcl1).
    destruct (IH (erase_subscribed c p s1)) as (Hi & D & HD1 & HD2 & HD3).
    { split; [by apply mgr_core_subscribed|done]. }
    { intros q Hq. unfold propsOf, erase_subscribed. cbn. rewrite lookup_alter_eq, Hsub.
      assert (q ≠ p) by (by intros ->). specialize (Hl q ltac:(by right)). unfold propsOf in Hl.
      destruct (_ !! c); cbn in *; set_solver. }
    split; [done|]. exists ({[p]} ∪ D). split_and!; [set_solver|intros Hok; by rewrite (HD2 Hok)|].
    eapply clients_removed_trans; [exact Hrem|exact HD3].
  - destruct E1 as (Hc1 & Hsub & Hcl1). split.
    + split; [done|]. intros c' q. rewrite Hcl1. unfold propsOf. rewrite Hsub.
      destruct (decide (q = p)) as [->|]; apply Hm.
    + exists ∅. split_and!; [set_solver|done|exact Hrem].
Qed.

Lemma clientsOf_drop c q s : clientsOf q (drop_if_empty c s) = clientsOf q s.
Proof using Type. unfold drop_if_empty. by case_decide. Qed.

Lemma propsOf_drop c c' s : propsOf c' (drop_if_empty c s) = propsOf c' s.
Proof using Type.
  unfold drop_if_empty. destruct (decide _) as [He|]; [|done]. unfold propsOf. cbn.
  destruct (decide (c' = c)) as [->|]; [by rewrite lookup_delete_eq, He|by rewrite lookup_delete_ne].
Qed.

Lemma mgr_inv_drop c s : mgr_inv s → mgr_inv (drop_if_empty c s).
Proof.
  intros [Hc Hm]. split.
  - unfold drop_if_empty. case_decide; [by apply mgr_core_subscribed|done].
  - intros c' q. rewrite propsOf_drop, clientsOf_drop. apply Hm.
Qed.

(** The subscribed ids of a client whose property is listed. *)
Definition targets c (propIds : list Z) s : gset PropIdAreaId :=
  filter (λ p, pa_propId p ∈ propIds) (propsOf c s).

Lemma elem_of_hash_order p x : p ∈ hash_order x ↔ p ∈ x.
Proof using hash_order_elements Type. rewrite (hash_order_elements x). apply elem_of_elements. Qed.

Lemma NoDup_hash_order x : NoDup (hash_order x).
Proof using hash_order_elements Type. rewrite (hash_order_elements x). apply NoDup_elements. Qed.

Lemma unsubscribe_effect c propIds s :
  mgr_inv s →
  let r := unsubscribe c propIds s in
  mgr_inv r.1 ∧
  ∃ D, D ⊆ targets c propIds s ∧ (is_ok r.2 = true → D = targets c propIds s)
    ∧ clients_removed c D s r.1.
Proof.
  intros Hi r. subst r. unfold unsubscribe. rewrite mbind_mget.
  destruct (mSubscribedPropsByClient s !! c) as [props|] eqn:Hp.
  2:{ cbn. split; [done|]. exists ∅.
      assert (targets c propIds s = ∅) as ->.
      { unfold targets, propsOf. rewrite Hp. set_solver. }
      split_and!; [done..|by apply clients_removed_none]. }
  assert (Hprops : propsOf c s = props) by (unfold propsOf; by rewrite Hp).
  set (l := filter (λ p, pa_propId p ∈ propIds) (hash_order props)).
  assert (Hl : list_to_set l = targets c propIds s).
  { unfold targets. rewrite Hprops. subst l. apply set_eq. intros p.
    rewrite elem_of_list_to_set, list_elem_of_filter, elem_of_filter, elem_of_hash_order. done. }
  destruct (unsubscribe_loop c l s) as (H1 & D & HD1 & HD2 & HD3).
  { apply NoDup_filter, NoDup_hash_order. }
  { done. }
  { intros p [_ Hin]%list_elem_of_filter. rewrite Hprops. by apply elem_of_hash_order. }
  rewrite Hl in HD1, HD2. rewrite mbind_unfold.
  destruct (for_each l _ s) as [s1 [[]|e]]; cbn in *.
  - split; [by apply mgr_inv_drop|]. exists D. split_and!; [done..|]. intros q. by rewrite clientsOf_drop.
  - split; [done|]. by exists D.
Qed.

Lemma unsubscribe_all_loop c (l : list PropIdAreaId) s s' :
  NoDup l → mgr_core s → (∀ p, p ∈ l → is_Some (clientsOf p s !! c)) →
  for_each l (unsubscribePropIdAreaIdLocked c) s = (s', Ok tt) →
  mgr_core s' ∧ mSubscribedPropsByClient s' = mSubscribedPropsByClient s
  ∧ clients_removed c (list_to_set l) s s'.
Proof.
  intros Hnd. revert s. induction Hnd as [|p l Hp Hnd IH]; intros s Hc Hl.
  { cbn. intros He. injection He as <-. split_and!; [done|done|by apply clients_removed_none]. }
  cbn [for_each list_to_set]. unfold mbind'. pose proof (unsubscribe_one_removed c p s) as [Hrem _].
  destruct (unsubscribePropIdAreaIdLocked c p s) as [s1 [[]|e]] eqn:E1; [|done].
  apply unsubscribe_one_spec in E1; [|done|by apply Hl; left].
  destruct E1 as (Hc1 & Hsub & Hcl1). cbn in Hcl1, Hrem. intros Hrun.
  destruct (IH s1 Hc1) as (H1 & H3 & H4); [|done|].
  { intros q Hq. rewrite Hcl1. rewrite decide_False by (by intros ->). apply Hl. by right. }
  split_and!; [done|congruence|]. by eapply clients_removed_trans.
Qed.

(** The property part of [unsubscribe(clientId)], when it returns ok. *)
Lemma unsubscribe_all_props_effect c s s1 :
  mgr_inv s → unsubscribe_all_props c s = (s1, Ok tt) →
  mgr_inv s1 ∧ ∀ q, clientsOf q s1 = delete c (clientsOf q s).
Proof.
  intros [Hc Hm]. unfold unsubscribe_all_props. rewrite mbind_mget.
  destruct (mSubscribedPropsByClient s !! c) as [props|] eqn:Hp.
  - rewrite mbind_unfold.
    destruct (for_each _ _ s) as [s2 [[]|e]] eqn:Hl; [|done]. intros He. injection He as <-.
    assert (Hprops : propsOf c s = props) by (unfold propsOf; by rewrite Hp).
    apply unsubscribe_all_loop in Hl as (H1 & H3 & H4);
      [|apply NoDup_hash_order|done|intros p Hin; apply Hm; rewrite Hprops; by apply elem_of_hash_order].
    assert (H5 : ∀ q, clientsOf q s2 = delete c (clientsOf q s)).
    { intros q. rewrite H4. destruct (decide (q ∈ list_to_set (hash_order props))) as [Hin|Hin]; [done|].
      rewrite delete_id; [done|]. apply eq_None_not_Some. rewrite <-(Hm c q), Hprops.
      rewrite elem_of_list_to_set, elem_of_hash_order in Hin. done. }
    split; [split; [by apply mgr_core_subscribed|]|exact H5].
    intros c' q. change (clientsOf q (set_subscribed _ s2)) with (clientsOf q s2). rewrite H5.
    unfold propsOf. cbn. rewrite H3. destruct (decide (c' = c)) as [->|Hne].
    + rewrite !lookup_delete_eq. split; [set_solver|by intros []].
    + rewrite !lookup_delete_ne by done. apply (Hm c' q).
  - intros He. injection He as <-. split; [done|]. intros q.
    rewrite delete_id; [done|]. apply eq_None_not_Some. rewrite <-(Hm c q). unfold propsOf. rewrite Hp. set_solver.
Qed.

(** ** Supported-value subscriptions *)

(** The two maps of supported-value subscriptions agree and hold no empty entry. *)
Record sup_maps_ok s : Prop := {
  sm_maps : ∀ c p, p ∈ supIdsOf c s ↔ is_Some (supClientsOf p s !! c);
  sm_clients : ∀ p m, mSupportedValueChangeClientsByPropIdAreaId s !! p = Some m → m ≠ ∅;
  sm_ids : ∀ c x, mSupportedValueChangePropIdAreaIdsByClient s !! c = Some x → x ≠ ∅
}.

Context `{!SupportedLaws HS}.

Definition sup_inv s : Prop :=
  sup_maps_ok s ∧
  hw_activeSupported (mVehicleHardware s) = dom (mSupportedValueChangeClientsByPropIdAreaId s).

(** The part of the state that property subscriptions use; the operations on
    supported values leave it alone. *)
Definition prop_same s s' : Prop :=
  mClientsByPropIdAreaId s' = mClientsByPropIdAreaId s
  ∧ mSubscribedPropsByClient s' = mSubscribedPropsByClient s
  ∧ mContSubConfigsByPropIdArea s' = mContSubConfigsByPropIdArea s
  ∧ hw_active (mVehicleHardware s') = hw_active (mVehicleHardware s).

#[local] Instance prop_same_preorder : PreOrder prop_same.
Proof. split; [done|]. intros s1 s2 s3. unfold prop_same. intuition congruence. Qed.

Lemma subscribeSupported_prop k ids : keeps prop_same (subscribeSupportedValueChange k ids).
Proof using Type.
  unfold subscribeSupportedValueChange. keep. split_and!; try done. apply hw_subscribeSupported_active.
Qed.
Lemma unsubscribeSupported_prop c ids : keeps prop_same (unsubscribeSupportedValueChange c ids).
Proof using Type.
  unfold unsubscribeSupportedValueChange. keep. split_and!; try done. apply hw_unsubscribeSupported_active.
Qed.
Lemma unsubscribe_all_supported_prop c : keeps prop_same (unsubscribe_all_supported c).
Proof using Type. unfold unsubscribe_all_supported. keep. apply unsubscribeSupported_prop. Qed.

Lemma sup_inv_same s s' : sup_same s s' → sup_inv s → sup_inv s'.
Proof using Type.
  intros (H1 & H2 & H3%prop_calls_supported) [[M1 M2 M3] Hh]. split; [split|congruence].
  - intros c p. unfold supIdsOf, supClientsOf. rewrite H1, H2. apply M1.
  - intros p m. rewrite H1. apply M2.
  - intros c x. rewrite H2. apply M3.
Qed.

Lemma mgr_inv_same s s' : prop_same s s' → mgr_inv s → mgr_inv s'.
Proof.
  intros (H1 & H2 & H3 & H4) [[C1 C2 C3 C4 C5 C6] Hm].
  unfold mgr_inv, maps_ok, propsOf, clientsOf, contConfig in *.
  split; [split|]; unfold clientsOf, contConfig; rewrite ?H1, ?H2, ?H3, ?H4; done.
Qed.

Lemma sup_dom p s : sup_maps_ok s →
  p ∈ dom (mSupportedValueChangeClientsByPropIdAreaId s) ↔ supClientsOf p s ≠ ∅.
Proof using Type.
  intros Hm. rewrite elem_of_dom. unfold supClientsOf. split.
  - intros [m Hp]. rewrite Hp. cbn. by apply (sm_clients s Hm p).
  - destruct (_ !! p); [by eauto|done].
Qed.

(** One iteration of either loop: which clients of which id change. *)
Definition sup_step (f : gmap ClientIdType CallbackType → gmap ClientIdType CallbackType) p s s' : Prop :=
  sup_maps_ok s' ∧ mVehicleHardware s' = mVehicleHardware s
  ∧ ∀ q, supClientsOf q s' = if decide (q = p) then f (supClientsOf p s) else supClientsOf q s.

Lemma sup_step_add k p s :
  sup_maps_ok s →
  sup_step <[asBinder k := k]> p s
    (set_supported (λ m, <[p := <[asBinder k := k]> (default ∅ (m !! p))]> m)
                   (λ m, <[asBinder k := default ∅ (m !! asBinder k) ∪ {[p]}]> m) s).
Proof using Type.
  clear isCont hash_order_elements hash_order.
  intros [M1 M2 M3]. unfold sup_step. split_and!; try done.
  2:{ intros q. unfold supClientsOf. cbn. apply lookup_default_insert. }
  split; unfold supIdsOf, supClientsOf; cbn.
  - intros c q. rewrite lookup_default_insert. specialize (M1 c q).
    destruct (decide (c = asBinder k)) as [->|Hne].
    + rewrite lookup_insert_eq. cbn. fold (supIdsOf (asBinder k) s).
      rewrite elem_of_union, M1, elem_of_singleton.
      destruct (decide (q = p)) as [->|]; [|naive_solver]. rewrite lookup_insert_eq.
      split; [by eauto|by right].
    + rewrite lookup_insert_ne by done. fold (supIdsOf c s). rewrite M1.
      destruct (decide (q = p)) as [->|]; [|done]. by rewrite lookup_insert_ne.
  - intros q m [[<- <-]|[_ Hq]]%lookup_insert_Some; [apply insert_non_empty|by eapply M2].
  - intros c x [[<- <-]|[_ Hq]]%lookup_insert_Some; [set_solver|by eapply M3].
Qed.

Lemma forget_supported_lookup c p (m : gmap PropIdAreaId (gmap ClientIdType CallbackType)) q :
  default ∅ (forget_supported_clients c p m !! q)
  = if decide (q = p) then delete c (default ∅ (m !! p)) else default ∅ (m !! q).
Proof using Type.
  unfold forget_supported_clients. destruct (decide (delete c _ = ∅)) as [He|He].
  - destruct (decide (q = p)) as [->|]; [by rewrite lookup_delete_eq, He|by rewrite lookup_delete_ne].
  - apply lookup_default_insert.
Qed.

Lemma forget_ids_lookup c p (m : gmap ClientIdType (gset PropIdAreaId)) c' :
  default ∅ (forget_supported_ids c p m !! c')
  = if decide (c' = c) then default ∅ (m !! c) ∖ {[p]} else default ∅ (m !! c').
Proof using Type.
  unfold forget_supported_ids. destruct (decide (_ ∖ _ = ∅)) as [He|He].
  - destruct (decide (c' = c)) as [->|]; [by rewrite lookup_delete_eq, He|by rewrite lookup_delete_ne].
  - destruct (decide (c' = c)) as [->|]; [by rewrite lookup_insert_eq|by rewrite lookup_insert_ne].
Qed.

Lemma sup_step_remove c p s :
  sup_maps_ok s →
  sup_step (delete c) p s (set_supported (forget_supported_clients c p) (forget_supported_ids c p) s).
Proof using Type.
  clear isCont asBinder.
  intros [M1 M2 M3]. unfold sup_step. split_and!; try done.
  2:{ intros q. unfold supClientsOf. cbn. apply forget_supported_lookup. }
  split; unfold supIdsOf, supClientsOf; cbn.
  - intros c' q. rewrite forget_supported_lookup, forget_ids_lookup.
    pose proof (M1 c' q) as M. unfold supIdsOf, supClientsOf in M.
    destruct (decide (c' = c)) as [->|Hne].
    + rewrite elem_of_difference, M, elem_of_singleton. destruct (decide (q = p)) as [->|].
      * rewrite lookup_delete_eq. split; [naive_solver|by intros []].
      * naive_solver.
    + rewrite M. destruct (decide (q = p)) as [->|]; [|done]. by rewrite lookup_delete_ne.
  - intros q m. unfold forget_supported_clients. destruct (decide (delete c _ = ∅)).
    + intros [_ Hq]%lookup_delete_Some. by eapply M2.
    + intros [[<- <-]|[_ Hq]]%lookup_insert_Some; [done|by eapply M2].
  - intros c' x. unfold forget_supported_ids. destruct (decide (_ ∖ _ = ∅)).
    + intros [_ Hq]%lookup_delete_Some. by eapply M3.
    + intros [[<- <-]|[_ Hq]]%lookup_insert_Some; [done|by eapply M3].
Qed.

(** A loop of such iterations changes exactly the listed ids. *)
Lemma sup_loop f (body : PropIdAreaId → Manager HS → Manager HS) l s :
  (∀ p t, sup_maps_ok t → sup_step f p t (body p t)) → (∀ m, f (f m) = f m) →
  sup_maps_ok s →
  ∃ s', for_each l (λ p, mmodify (body p)) s = (s', Ok tt : result StatusCode unit)
    ∧ sup_maps_ok s' ∧ mVehicleHardware s' = mVehicleHardware s
    ∧ ∀ q, supClientsOf q s' = if decide (q ∈ l) then f (supClientsOf q s) else supClientsOf q s.
Proof using Type.
  intros Hstep Hidem. revert s. induction l as [|p l IH]; intros s Hm.
  { exists s. split_and!; try done. }
  cbn [for_each]. destruct (Hstep p s Hm) as (H1 & H3 & H4).
  destruct (IH _ H1) as (s' & Es & E1 & E3 & E4). rewrite mbind_mmodify, Es.
  exists s'. split_and!; [done|done|congruence|].
  intros q. rewrite E4, H4. destruct (decide (q = p)) as [->|Hne].
  - rewrite (decide_True (P := p ∈ p :: l)) by left. by destruct (decide (p ∈ l)).
  - destruct (decide (q ∈ l)), (decide (q ∈ p :: l)) as [Hx|Hx]; try done.
    + destruct Hx. by right.
    + by apply elem_of_cons in Hx as [|].
Qed.

Lemma sole_client_iff c s p :
  sole_client c s p = true ↔ supClientsOf p s ≠ ∅ ∧ delete c (supClientsOf p s) = ∅.
Proof using Type.
  clear isCont asBinder.
  unfold sole_client, supClientsOf. destruct (_ !! p) as [m|]; cbn; [|naive_solver].
  unfold is_only_client. rewrite andb_true_iff, !bool_decide_eq_true. split.
  - intros [Hs [k Hk]]. split; [intros ->; by rewrite lookup_empty in Hk|].
    rewrite <-map_size_empty_iff. rewrite <-(insert_delete_id m c k) in Hs by done.
    rewrite map_size_insert_None in Hs by apply lookup_delete_eq. lia.
  - intros [Hne Hd]. destruct (m !! c) as [k|] eqn:Hk.
    + split; [|by eauto]. rewrite <-(insert_delete_id m c k) by done.
      by rewrite Hd, map_size_insert_None, map_size_empty.
    + rewrite delete_id in Hd by done. done.
Qed.

Lemma insert_idemp (c : ClientIdType) (k : CallbackType) (m : gmap ClientIdType CallbackType) :
  <[c := k]> (<[c := k]> m) = <[c := k]> m.
Proof using Type. apply insert_insert_eq. Qed.

Lemma delete_idemp (c : ClientIdType) (m : gmap ClientIdType CallbackType) :
  delete c (delete c m) = delete c m.
Proof using Type. apply delete_delete_eq. Qed.

(** [set_hardware] touches neither map. *)
Lemma sup_maps_hardware h s : sup_maps_ok s → sup_maps_ok (set_hardware h s).
Proof using Type. by intros [M1 M2 M3]. Qed.

Lemma subscribeSupported_effect k ids s :
  sup_inv s →
  let r := subscribeSupportedValueChange k ids s in
  sup_inv r.1
  ∧ ∀ q, supClientsOf q r.1 =
      if decide (is_ok r.2 = true ∧ q ∈ ids) then <[asBinder k := k]> (supClientsOf q s)
      else supClientsOf q s.
Proof using Type.
  clear isCont.
  intros [Hm Hh] r. subst r. unfold subscribeSupportedValueChange, hardware_call. rewrite mbind_unfold.
  destruct (hw_subscribeSupportedValueChange ids (mVehicleHardware s)) as [h st] eqn:E.
  pose proof (hw_subscribeSupported_law ids (mVehicleHardware s)) as L1.
  rewrite E in L1. cbn in L1.
  destruct (decide (st = OK)) as [Hst|Hst].
  - destruct (sup_loop <[asBinder k := k]> (λ p, set_supported
      (λ m, <[p := <[asBinder k := k]> (default ∅ (m !! p))]> m)
      (λ m, <[asBinder k := default ∅ (m !! asBinder k) ∪ {[p]}]> m)) ids (set_hardware h s))
      as (s' & -> & E1 & E3 & E4).
    { intros p t. apply sup_step_add. } { apply insert_idemp. } { by apply sup_maps_hardware. }
    cbn [fst snd is_ok]. split.
    + split; [done|]. rewrite E3. cbn. rewrite L1, Hh. apply set_eq. intros q.
      rewrite sup_dom, E4 by done. rewrite elem_of_union, sup_dom by done.
      change (supClientsOf q (set_hardware h s)) with (supClientsOf q s).
      destruct (decide (q ∈ ids)) as [Hin|Hin].
      * split; [intros _; apply insert_non_empty|]. intros _. right. by apply elem_of_list_to_set.
      * split; [intros [?|?%elem_of_list_to_set]; done|by left].
    + intros q. rewrite E4. change (supClientsOf q (set_hardware h s)) with (supClientsOf q s).
      destruct (decide (q ∈ ids)), (decide (true = true ∧ q ∈ ids)); tauto.
  - cbn [fst snd is_ok]. split; [split; [by apply sup_maps_hardware|]|].
    + cbn. by rewrite L1.
    + intros q. by destruct (decide (false = true ∧ q ∈ ids)) as [[? _]|].
Qed.

Lemma unsubscribeSupported_effect c ids s :
  sup_inv s →
  let r := unsubscribeSupportedValueChange c ids s in
  sup_inv r.1
  ∧ ∀ q, supClientsOf q r.1 =
      if decide (is_ok r.2 = true ∧ q ∈ ids) then delete c (supClientsOf q s)
      else supClientsOf q s.
Proof using Type.
  clear isCont hash_order_elements hash_order asBinder.
  intros [Hm Hh] r. subst r. unfold unsubscribeSupportedValueChange. rewrite mbind_mget.
  set (l := filter (λ p, sole_client c s p = true) ids).
  assert (Hhw : ∃ h r, match l with [] => mreturn tt
      | _ :: _ => hardware_call (hw_unsubscribeSupportedValueChange l) end s = (set_hardware h s, r)
    ∧ hw_activeSupported h = if is_ok (E := StatusCode) r
        then hw_activeSupported (mVehicleHardware s) ∖ list_to_set l
        else hw_activeSupported (mVehicleHardware s)).
  { destruct l as [|p l'] eqn:El.
    - exists (mVehicleHardware s), (Ok tt). split_and!; [by destruct s|cbn; set_solver].
    - unfold hardware_call.
      pose proof (hw_unsubscribeSupported_law (p :: l') (mVehicleHardware s)) as L1.
      destruct (hw_unsubscribeSupportedValueChange (p :: l') (mVehicleHardware s)) as [h st].
      cbn [fst snd] in L1. eexists h, _. split_and!; [done|]. rewrite L1.
      by destruct (decide (st = OK)). }
  destruct Hhw as (h & r & Ecall & L1). unfold Op in *. rewrite mbind_unfold, Ecall.
  destruct r as [[]|e]; cbn [is_ok] in L1.
  - destruct (sup_loop (delete c) (λ p, set_supported (forget_supported_clients c p)
      (forget_supported_ids c p)) ids (set_hardware h s)) as (s' & -> & E1 & E3 & E4).
    { intros p t. apply sup_step_remove. } { apply delete_idemp. } { by apply sup_maps_hardware. }
    cbn [fst snd is_ok]. split.
    + split; [done|]. rewrite E3. cbn. rewrite L1, Hh. apply set_eq. intros q.
      rewrite sup_dom, E4 by done. rewrite elem_of_difference, sup_dom by done.
      change (supClientsOf q (set_hardware h s)) with (supClientsOf q s).
      rewrite elem_of_list_to_set. unfold l. rewrite list_elem_of_filter, sole_client_iff.
      destruct (decide (q ∈ ids)) as [Hin|Hin]; [|tauto].
      split; [|intros Hd; split; [|tauto]; intros He; by rewrite He, delete_empty in Hd].
      intros [Hne Hnot] Hd. tauto.
    + intros q. rewrite E4. change (supClientsOf q (set_hardware h s)) with (supClientsOf q s).
      destruct (decide (q ∈ ids)), (decide (true = true ∧ q ∈ ids)); tauto.
  - cbn [fst snd is_ok]. split; [split; [by apply sup_maps_hardware|]|].
    + cbn. by rewrite L1.
    + intros q. by destruct (decide (false = true ∧ q ∈ ids)) as [[? _]|].
Qed.

(** The part of [unsubscribe(clientId)] for supported values. *)
Lemma unsubscribe_all_supported_effect c s :
  sup_inv s →
  let r := unsubscribe_all_supported c s in
  sup_inv r.1 ∧ (is_ok r.2 = true → ∀ q, supClientsOf q r.1 = delete c (supClientsOf q s)).
Proof using hash_order_elements Type.
  intros Hs. unfold unsubscribe_all_supported. rewrite mbind_mget.
  destruct (mSupportedValueChangePropIdAreaIdsByClient s !! c) as [ids|] eqn:Hids; cbn zeta.
  - destruct (unsubscribeSupported_effect c (hash_order ids) s Hs) as (H1 & H3). split; [done|].
    intros Hok q. rewrite H3. destruct (decide _) as [|Hn]; [done|].
    rewrite delete_id; [done|]. apply eq_None_not_Some.
    rewrite <-(sm_maps s (proj1 Hs)). unfold supIdsOf. rewrite Hids. cbn.
    intros Hin. apply Hn. split; [done|]. by apply elem_of_hash_order.
  - split; [done|]. intros _ q. cbn. rewrite delete_id; [done|]. apply eq_None_not_Some.
    rewrite <-(sm_maps s (proj1 Hs)). unfold supIdsOf. rewrite Hids. set_solver.
Qed.

Lemma unsubscribeAll_sup_inv c s : sup_inv s → sup_inv (unsubscribeAll c s).1.
Proof using hash_order_elements Type.
  intros Hs. unfold unsubscribeAll. rewrite mbind_unfold.
  pose proof (sup_inv_same _ _ (unsubscribe_all_props_sup c s) Hs) as H1.
  destruct (unsubscribe_all_props c s) as [s1 [[]|e]]; cbn in *; [|done].
  by apply unsubscribe_all_supported_effect.
Qed.

(** [unsubscribe(clientId)], when it returns ok. *)
Lemma unsubscribeAll_mgr_inv c s s' :
  mgr_inv s → unsubscribeAll c s = (s', Ok tt) →
  mgr_inv s' ∧ ∀ q, clientsOf q s' = delete c (clientsOf q s).
Proof.
  intros Hi. unfold unsubscribeAll. rewrite mbind_unfold.
  destruct (unsubscribe_all_props c s) as [s1 [[]|e]] eqn:E1; [|done]. intros E2.
  apply unsubscribe_all_props_effect in E1 as [Hi1 Hc1]; [|done].
  pose proof (unsubscribe_all_supported_prop c s1) as Hp. rewrite E2 in Hp. cbn in Hp.
  split; [by eapply mgr_inv_same|]. intros q. unfold clientsOf at 1. by rewrite (proj1 Hp), <-Hc1.
Qed.

Lemma unsubscribeAll_supported c s s' :
  sup_inv s → unsubscribeAll c s = (s', Ok tt) →
  ∀ q, supClientsOf q s' = delete c (supClientsOf q s).
Proof using hash_order_elements Type.
  intros Hs. unfold unsubscribeAll. rewrite mbind_unfold.
  pose proof (unsubscribe_all_props_sup c s) as Hsame.
  destruct (unsubscribe_all_props c s) as [s1 [[]|e]] eqn:E1; [|done]. cbn in Hsame. intros E2 q.
  destruct (unsubscribe_all_supported_effect c s1 (sup_inv_same _ _ Hsame Hs)) as [_ H2].
  rewrite E2 in H2. rewrite (H2 eq_refl). unfold supClientsOf. by rewrite (proj1 Hsame).
Qed.

(** ** Distribution *)

(** The value a client is sent, and whether the manager filters it for the
    client ([VUR] wanted by the client and not applied by the hardware). *)
Definition valueFor c (v : VehiclePropValue) s : VehiclePropValue :=
  set_value (sanitizeByResolution ub_cast (value v)
    (getResolutionForClient c (contConfig (valueKey v) s))) v.
Definition filtered c (v : VehiclePropValue) s : bool :=
  isVurEnabledForClient c (contConfig (valueKey v) s) && negb (mEnableVur (contConfig (valueKey v) s)).

(** What distributing events leaves as it was. *)
Definition ev_same s s' : Prop :=
  mClientsByPropIdAreaId s' = mClientsByPropIdAreaId s
  ∧ mSubscribedPropsByClient s' = mSubscribedPropsByClient s
  ∧ (∀ q, contConfig q s' = contConfig q s)
  ∧ mSupportedValueChangeClientsByPropIdAreaId s' = mSupportedValueChangeClientsByPropIdAreaId s
  ∧ mSupportedValueChangePropIdAreaIdsByClient s' = mSupportedValueChangePropIdAreaIdsByClient s
  ∧ mVehicleHardware s' = mVehicleHardware s.

Lemma ev_same_refl s : ev_same s s.
Proof using Type. by unfold ev_same. Qed.

Lemma ev_same_trans s1 s2 s3 : ev_same s1 s2 → ev_same s2 s3 → ev_same s1 s3.
Proof using Type.
  clear isCont. unfold ev_same. intuition congruence. Qed.

Lemma isValueUpdated_same k v s : let s' := (isValueUpdatedLocked k v s).1 in
  ev_same s s' ∧ mContSubConfigsByPropIdArea s' = mContSubConfigsByPropIdArea s.
Proof using Type.
  unfold isValueUpdatedLocked. destruct (_ !! valueKey v) as [it|]; [|done].
  destruct (timestamp v <? timestamp it); [done|]. by destruct (_ && _).
Qed.

Lemma distribute_one_spec v c k s out :
  let r := distribute_one v (c, k) (s, out) in
  ev_same s r.1
  ∧ (∀ q, q ≠ valueKey v → mContSubConfigsByPropIdArea r.1 !! q = mContSubConfigsByPropIdArea s !! q)
  ∧ ∃ b : bool, r.2 = (if b then push_back k (valueFor c v s) out else out)
      ∧ (filtered c v s = false → b = true).
Proof using Type.
  intros r. subst r. unfold distribute_one.
  rewrite contConfig_touch. fold (valueFor c v s) (filtered c v s).
  set (s1 := set_configs (touch emptyContSubConfigs (valueKey v)) s).
  assert (H1 : ev_same s s1).
  { unfold ev_same. split_and!; try done. intros q. subst s1. unfold contConfig. cbn.
    destruct (decide (q = valueKey v)) as [->|]; [by rewrite touch_lookup|by rewrite touch_lookup_ne]. }
  assert (H2 : ∀ q, q ≠ valueKey v →
    mContSubConfigsByPropIdArea s1 !! q = mContSubConfigsByPropIdArea s !! q).
  { intros q Hq. subst s1. cbn. by apply touch_lookup_ne. }
  destruct (filtered c v s).
  - pose proof (isValueUpdated_same k (valueFor c v s) s1) as [H3 H4].
    destruct (isValueUpdatedLocked k (valueFor c v s) s1) as [s2 b]. cbn in H3, H4 |- *.
    split_and!; [exact (ev_same_trans _ _ _ H1 H3)|intros q Hq; rewrite H4; by apply H2|].
    by exists b.
  - split_and!; [exact H1|exact H2|]. by exists true.
Qed.

Lemma push_back_lookup {X} k k' (x : X) (m : gmap CallbackType (list X)) :
  default [] (push_back k x m !! k') =
    if decide (k' = k) then default [] (m !! k) ++ [x] else default [] (m !! k').
Proof using Type.
  unfold push_back. destruct (decide (k' = k)) as [->|]; [by rewrite lookup_insert_eq|].
  by rewrite lookup_insert_ne.
Qed.

(** What one value adds to the list of one callback. *)
Definition expected k (v : VehiclePropValue) s : list VehiclePropValue :=
  if decide (clientsOf (valueKey v) s !! asBinder k = Some k) then [valueFor (asBinder k) v s] else [].

(** The outcome for a callback [k]: some of the expected values, all of them
    when none is filtered. *)
Definition delivered k (vs : list VehiclePropValue) s (out out' : gmap CallbackType (list VehiclePropValue)) : Prop :=
  ∃ l, default [] (out' !! k) = default [] (out !! k) ++ l
    ∧ l `sublist_of` mjoin ((λ v, expected k v s) <$> vs)
    ∧ ((∀ v, v ∈ vs → filtered (asBinder k) v s = false) → l = mjoin ((λ v, expected k v s) <$> vs)).

Lemma distribute_clients_spec v (l : list (ClientIdType * CallbackType)) s out k :
  NoDup l.*1 → (∀ c k', (c, k') ∈ l → asBinder k' = c) →
  let r := distribute_clients v l (s, out) in
  ev_same s r.1
  ∧ (∀ q, q ≠ valueKey v → mContSubConfigsByPropIdArea r.1 !! q = mContSubConfigsByPropIdArea s !! q)
  ∧ ∃ b : bool, default [] (r.2 !! k) = default [] (out !! k) ++
        (if b && bool_decide ((asBinder k, k) ∈ l) then [valueFor (asBinder k) v s] else [])
      ∧ (filtered (asBinder k) v s = false → b = true).
Proof using Type.
  revert s out. induction l as [|[c k'] l IH]; intros s out Hnd Hb r; subst r.
  { cbn. split_and!; [apply ev_same_refl|done|]. exists true. split; [|done].
    rewrite bool_decide_false by apply not_elem_of_nil. by rewrite app_nil_r. }
  cbn [distribute_clients].
  pose proof (distribute_one_spec v c k' s out) as (H1 & H2 & b1 & H3 & H4).
  destruct (distribute_one v (c, k') (s, out)) as [s1 out1]. cbn [fst snd] in *. subst out1.
  inversion_clear Hnd as [|? ? Hnot Hnd']. cbn [fst] in Hnot.
  specialize (IH s1 (if b1 then push_back k' (valueFor c v s) out else out) Hnd').
  destruct IH as (I1 & I2 & b2 & I3 & I4); [by intros; apply Hb; right|].
  assert (Hv : valueFor (asBinder k) v s1 = valueFor (asBinder k) v s).
  { unfold valueFor. by rewrite (proj1 (proj2 (proj2 H1))). }
  assert (Hf : filtered (asBinder k) v s1 = filtered (asBinder k) v s).
  { unfold filtered. by rewrite (proj1 (proj2 (proj2 H1))). }
  rewrite Hv in I3. rewrite Hf in I4.
  split_and!; [exact (ev_same_trans _ _ _ H1 I1)|intros q Hq; rewrite I2, H2; done|].
  rewrite I3. destruct (decide (k' = k)) as [->|Hne].
  - assert (c = asBinder k) as -> by (symmetry; apply Hb; left).
    assert (bool_decide ((asBinder k, k) ∈ l) = false) as ->.
    { apply bool_decide_false. intros Hin. apply Hnot. apply list_elem_of_fmap. by exists (asBinder k, k). }
    rewrite (bool_decide_true (_ ∈ _ :: _)) by left.
    exists b1. split; [|done]. rewrite !andb_true_r, andb_false_r, app_nil_r.
    destruct b1; [|by rewrite app_nil_r]. rewrite push_back_lookup. by rewrite decide_True.
  - exists b2. split; [|done].
    assert (bool_decide ((asBinder k, k) ∈ (c, k') :: l) = bool_decide ((asBinder k, k) ∈ l)) as ->.
    { apply bool_decide_ext. rewrite elem_of_cons. naive_solver. }
    f_equal. destruct b1; [|done]. rewrite push_back_lookup. by rewrite decide_False.
Qed.

Lemma distribute_values_spec vs s out k :
  (∀ p c k', clientsOf p s !! c = Some k' → asBinder k' = c) →
  let r := distribute_values vs (s, out) in
  ev_same s r.1
  ∧ (∀ q, (∀ v, v ∈ vs → valueKey v = q → mClientsByPropIdAreaId s !! q = None) →
       mContSubConfigsByPropIdArea r.1 !! q = mContSubConfigsByPropIdArea s !! q)
  ∧ delivered k vs s out r.2.
Proof using Type.
  revert s out. induction vs as [|v vs IH]; intros s out Hb r; subst r.
  { cbn. split_and!; [apply ev_same_refl|done|]. exists []. by rewrite app_nil_r. }
  cbn [distribute_values fst].
  destruct (mClientsByPropIdAreaId s !! valueKey v) as [clients|] eqn:Hcl.
  - assert (Hclients : clientsOf (valueKey v) s = clients) by (unfold clientsOf; by rewrite Hcl).
    pose proof (distribute_clients_spec v (map_to_list clients) s out k) as H1.
    destruct H1 as (H1 & H2 & b & H3 & H4); [apply NoDup_fst_map_to_list|
      by intros c k' Hin%elem_of_map_to_list; apply (Hb (valueKey v)); rewrite Hclients|].
    destruct (distribute_clients v (map_to_list clients) (s, out)) as [s1 out1]. cbn [fst snd] in *.
    pose proof H1 as (E1 & _ & E3 & _).
    assert (Hco : ∀ q, clientsOf q s1 = clientsOf q s) by (intros q; unfold clientsOf; by rewrite E1).
    destruct (IH s1 out1) as (I1 & I2 & l & I3 & I4 & I5); [intros p c k'; rewrite Hco; apply Hb|].
    assert (He : ∀ w, expected k w s1 = expected k w s).
    { intros w. unfold expected, valueFor. by rewrite Hco, E3. }
    assert (Hee : ((λ v, expected k v s1) <$> vs) = ((λ v, expected k v s) <$> vs)).
    { apply list_fmap_ext. intros _ w _. apply He. }
    rewrite Hee in I4, I5.
    split_and!; [exact (ev_same_trans _ _ _ H1 I1)| |].
    + intros q Hq. rewrite I2.
      * apply H2. intros Heq. specialize (Hq v ltac:(left) (eq_sym Heq)). congruence.
      * intros w Hw Hk. rewrite E1. apply (Hq w); [by right|done].
    + set (l0 := if b && bool_decide ((asBinder k, k) ∈ map_to_list clients)
                 then [valueFor (asBinder k) v s] else []) in *.
      assert (Hl0 : l0 `sublist_of` expected k v s ∧ (b = true → l0 = expected k v s)).
      { subst l0. unfold expected. rewrite Hclients.
        destruct (bool_decide_reflect ((asBinder k, k) ∈ map_to_list clients)) as [Hin|Hin];
          rewrite elem_of_map_to_list in Hin;
          [rewrite decide_True by done|rewrite decide_False by done]; destruct b; cbn;
          split; try done; apply sublist_nil_l. }
      exists (l0 ++ l). rewrite I3, H3, app_assoc. split_and!; [done| |].
      * cbn. apply sublist_app; [apply Hl0|done].
      * intros Hf. cbn. f_equal; [apply Hl0, H4, Hf; left|]. apply I5. intros w Hw.
        assert (filtered (asBinder k) w s1 = filtered (asBinder k) w s) as ->
          by (unfold filtered; by rewrite E3). apply Hf. by right.
  - destruct (IH s out Hb) as (I1 & I2 & l & I3 & I4 & I5).
    assert (expected k v s = []) as He.
    { unfold expected, clientsOf. rewrite Hcl. cbn. rewrite lookup_empty. by destruct (decide _). }
    split_and!; [done| |].
    + intros q Hq. apply I2. intros w Hw. apply Hq. by right.
    + exists l. cbn. rewrite He. cbn. split_and!; [done|done|].
      intros Hf. apply I5. intros w Hw. apply Hf. by right.
Qed.

(** ** Histories *)

(** What happens to the hardware between the calls of the manager (it serves
    values, it changes its mind about what it accepts). *)
Context (other : HS → HS → Prop).

(** Everything the code allows: any arguments (rates that are NaN included),
    any answers of the hardware, failed and retried calls, any events. *)
Inductive sub_step : Manager HS → Manager HS → Prop :=
| ss_subscribe k options ic s : sub_step s (subscribe k options ic s).1
| ss_unsubscribe c propIds s : sub_step s (unsubscribe c propIds s).1
| ss_unsubscribeAll c s : sub_step s (unsubscribeAll c s).1
| ss_subscribeSupported k ids s : sub_step s (subscribeSupportedValueChange k ids s).1
| ss_unsubscribeSupported c ids s : sub_step s (unsubscribeSupportedValueChange c ids s).1
| ss_distribute vs s : sub_step s (getSubscribedClients vs s).1
| ss_hardware h s : other (mVehicleHardware s) h → sub_step s (set_hardware h s).

(** The manager over the hardware [h0], in any history. *)
Inductive sub_reachable (h0 : HS) : Manager HS → Prop :=
| sr_new : sub_reachable h0 (newManager h0)
| sr_step s s' : sub_reachable h0 s → sub_step s s' → sub_reachable h0 s'.

(** The orderly histories are those without the three situations in which the
    code loses track of the hardware: a continuous subscription with a NaN
    rate, an [unsubscribe(client)] that fails midway, and the distribution of
    an on-change event to a subscriber. *)
Inductive orderly_step : Manager HS → Manager HS → Prop :=
| os_subscribe k options ic s :
    options_ok ic options → orderly_step s (subscribe k options ic s).1
| os_unsubscribe c propIds s : orderly_step s (unsubscribe c propIds s).1
| os_unsubscribeAll c s s' : unsubscribeAll c s = (s', Ok tt) → orderly_step s s'
| os_subscribeSupported k ids s : orderly_step s (subscribeSupportedValueChange k ids s).1
| os_unsubscribeSupported c ids s : orderly_step s (unsubscribeSupportedValueChange c ids s).1
| os_distribute vs s :
    (∀ v, v ∈ vs → isCont (valueKey v) = true ∨ mClientsByPropIdAreaId s !! valueKey v = None) →
    orderly_step s (getSubscribedClients vs s).1
| os_hardware h s : other (mVehicleHardware s) h → orderly_step s (set_hardware h s).

Inductive orderly (h0 : HS) : Manager HS → Prop :=
| or_new : orderly h0 (newManager h0)
| or_step s s' : orderly h0 s → orderly_step s s' → orderly h0 s'.

Lemma orderly_reachable h0 s : orderly h0 s → sub_reachable h0 s.
Proof using Type.
  induction 1 as [|s s' _ IH Hstep]; [apply sr_new|]. apply (sr_step _ _ _ IH).
  destruct Hstep as [| |c s s' He| | | |]; try (by constructor).
  change s' with (s', Ok tt : result StatusCode unit).1. rewrite <-He. constructor.
Qed.

(** *** Orderly histories *)

Lemma mgr_inv_distribute vs s :
  (∀ v, v ∈ vs → isCont (valueKey v) = true ∨ mClientsByPropIdAreaId s !! valueKey v = None) →
  mgr_inv s → mgr_inv (getSubscribedClients vs s).1.
Proof.
  intros Hv [[C1 C2 C3 C4 C5 C6] Hm]. unfold getSubscribedClients.
  pose proof (distribute_values_spec vs s ∅ 0 C2) as ((E1 & E2 & E3 & E4 & E5 & E6) & Hcfg & _).
  set (s' := (distribute_values vs (s, ∅)).1) in *.
  assert (Hcl : ∀ q, clientsOf q s' = clientsOf q s) by (intros q; unfold clientsOf; by rewrite E1).
  split; [split|].
  - intros p m. rewrite E1. apply C1.
  - intros p c k. rewrite Hcl. apply C2.
  - intros p Hp. rewrite Hcfg; [by apply C3|]. intros v Hin <-. destruct (Hv v Hin); congruence.
  - intros p Hp. rewrite E3, Hcl. by apply C4.
  - intros p. rewrite E3. apply C5.
  - by rewrite E6, E1.
  - intros c q. unfold propsOf. rewrite E2, Hcl. apply Hm.
Qed.

Lemma orderly_inv h0 s :
  hw_active h0 = ∅ → (∀ h h', other h h' → hw_active h' = hw_active h) → orderly h0 s → mgr_inv s.
Proof.
  intros H0 Hother. induction 1 as [|s s' _ Hi Hstep]; [by apply mgr_inv_new|].
  revert Hi. destruct Hstep as [k o ic s Ho|c l s|c s s' He|k l s|c l s|vs s Hv|h s Hh]; intros Hi.
  - by apply subscribe_mgr_inv.
  - by apply unsubscribe_effect.
  - by apply (unsubscribeAll_mgr_inv c s).
  - exact (mgr_inv_same _ _ (subscribeSupported_prop k l s) Hi).
  - exact (mgr_inv_same _ _ (unsubscribeSupported_prop c l s) Hi).
  - by apply mgr_inv_distribute.
  - apply (mgr_inv_same s); [|done]. by split_and!; try apply Hother.
Qed.

(** *** All histories: property subscriptions *)

(** The combined configuration of no client. *)
Definition off (cfg : ContSubConfigs) : bool :=
  f32_eqb (mMaxSampleRateHz cfg) f32_zero && f32_eqb (mMinRequiredResolution cfg) f32_max
  && mEnableVur cfg.

(** What holds of one [propId, areaId] with the clients [m], the configuration
    [cfg], reported by the hardware ([act]) or not. *)
Definition wk_at (m : gmap ClientIdType CallbackType) (cfg : ContSubConfigs) (act : Prop) : Prop :=
  (∀ c k, m !! c = Some k → asBinder k = c)
  ∧ (cfg = emptyContSubConfigs ∨ cfg = refreshCombinedConfig cfg)
  ∧ dom (mConfigByClient cfg) ⊆ dom m
  ∧ (m = ∅ → cfg = emptyContSubConfigs)
  ∧ (act → m ≠ ∅ ∧ off cfg = false).

Record wk_inv s : Prop := {
  wk_each : ∀ p, wk_at (clientsOf p s) (contConfig p s) (p ∈ hw_active (mVehicleHardware s));
  wk_maps : ∀ c p, is_Some (clientsOf p s !! c) → p ∈ propsOf c s
}.

Lemma wk_binder p c k s : wk_inv s → clientsOf p s !! c = Some k → asBinder k = c.
Proof using Type. intros [Hw _]. by apply (Hw p). Qed.

Lemma off_same_combined new old : same_combined new old = true → off new = off old.
Proof using Type.
  unfold same_combined, off. rewrite !andb_true_iff, eqb_true_iff. intros [[H1 H2] ->].
  by rewrite (f32_eqb_same _ _ H1), (f32_eqb_same _ _ H2).
Qed.

Lemma off_no_clients cfg : mConfigByClient cfg = ∅ → off (refreshCombinedConfig cfg) = true
  ∧ mMaxSampleRateHz (refreshCombinedConfig cfg) = f32_zero.
Proof using Type. intros He. unfold refreshCombinedConfig. by rewrite He, map_to_list_empty. Qed.

Lemma refreshed cfg : refreshCombinedConfig cfg = refreshCombinedConfig (refreshCombinedConfig cfg).
Proof using Type. by rewrite refresh_idemp. Qed.

(** One entry changes. *)
Lemma wk_at_frame p s s' :
  wk_inv s →
  (∀ q, q ≠ p → clientsOf q s' = clientsOf q s) →
  (∀ q, q ≠ p → contConfig q s' = contConfig q s) →
  (∀ q, q ≠ p → q ∈ hw_active (mVehicleHardware s') ↔ q ∈ hw_active (mVehicleHardware s)) →
  wk_at (clientsOf p s') (contConfig p s') (p ∈ hw_active (mVehicleHardware s')) →
  (∀ c q, is_Some (clientsOf q s' !! c) → q ∈ propsOf c s') →
  wk_inv s'.
Proof using Type.
  intros [Hw _] H1 H2 H3 Hp Hm. split; [|done]. intros q. destruct (decide (q = p)) as [->|Hne]; [done|].
  destruct (Hw q) as (A & B & C & D & F). rewrite H1, H2 by done. split_and!; [done..|].
  by rewrite H3.
Qed.

Lemma wk_same s s' :
  same_clients s s' → (∀ q, contConfig q s' = contConfig q s) →
  hw_active (mVehicleHardware s') = hw_active (mVehicleHardware s) → wk_inv s → wk_inv s'.
Proof using Type.
  intros [H1 H2] H3 H4 [Hw Hm]. split.
  - intros p. rewrite H1, H3, H4. apply Hw.
  - intros c p. unfold propsOf. rewrite H1, H2. apply Hm.
Qed.

(** The outcome of [updateContSubConfigsLocked] at the entry, given that the
    clients after it are [m]. *)
Lemma wk_update p new s s1 (m : gmap ClientIdType CallbackType) :
  wk_inv s → cont_update_any p new s s1 true →
  new = refreshCombinedConfig new →
  dom (mConfigByClient new) ⊆ dom m →
  p ∈ hw_active (mVehicleHardware s1) → m ≠ ∅ ∧ off new = false.
Proof using Type.
  clear other isCont hash_order_elements hash_order.
  intros Hi (h & cfgs & -> & _ & _ & Ha) Hr Hd. cbn. rewrite Ha.
  destruct (wk_each s Hi p) as (_ & _ & _ & _ & Hact). cbn [andb].
  assert (Hoff : m = ∅ → off new = true ∧ mMaxSampleRateHz new = f32_zero).
  { intros ->. rewrite dom_empty_L in Hd. rewrite Hr. apply off_no_clients, dom_empty_inv_L. set_solver. }
  destruct (same_combined new (contConfig p s)) eqn:Hs; cbn.
  - intros Hin. destruct (Hact Hin) as [_ Ho]. rewrite <-(off_same_combined _ _ Hs) in Ho.
    split; [|done]. intros Hm. destruct (Hoff Hm). congruence.
  - destruct (f32_neqb _ _) eqn:Hz; [|set_solver]. intros _.
    unfold f32_neqb in Hz. apply negb_true_iff in Hz.
    assert (Ho : off new = false) by (unfold off, f32_eqb; by rewrite Hz). split; [|done].
    intros Hm. destruct (Hoff Hm). congruence.
Qed.

(** A failed call of the hardware. *)
Lemma wk_failed p new s s1 : wk_inv s → cont_update_any p new s s1 false → wk_inv s1.
Proof using Type.
  intros Hi (h & cfgs & -> & Hq & Hp & Ha). apply (wk_same s); [done| |done|done].
  intros q. unfold contConfig in *. cbn. destruct (decide (q = p)) as [->|Hne]; [by rewrite Hp|by rewrite Hq].
Qed.

Lemma addContinuous_any c p rate res vur s s1 r :
  addContinuousSubscriberLocked c p rate res vur s = (s1, r) →
  cont_update_any p (addClient c (mkSubConfig rate res vur) (contConfig p s)) s s1 (is_ok r).
Proof using Type.
  unfold addContinuousSubscriberLocked, touch_config. rewrite mbind_mmodify, mbind_mget, contConfig_touch.
  intros (h & cfgs & -> & Hq & Hp & Ha)%updateCont_any. rewrite contConfig_touch in Hp, Ha.
  exists h, cfgs. split_and!; [done| |done|done].
  intros q Hne. rewrite Hq by done. cbn. by apply touch_lookup_ne.
Qed.

Lemma removeContinuous_any c p s s1 r :
  removeContinuousSubscriberLocked c p s = (s1, r) →
  cont_update_any p (removeClient c (contConfig p s)) s s1 (is_ok r).
Proof using Type.
  unfold removeContinuousSubscriberLocked, touch_config. rewrite mbind_mmodify, mbind_mget, contConfig_touch.
  intros (h & cfgs & -> & Hq & Hp & Ha)%updateCont_any. rewrite contConfig_touch in Hp, Ha.
  exists h, cfgs. split_and!; [done| |done|done].
  intros q Hne. rewrite Hq by done. cbn. by apply touch_lookup_ne.
Qed.

(** What [cont_update_any] leaves at the other entries. *)
Lemma cont_update_others p new s s1 ok q : cont_update_any p new s s1 ok → q ≠ p →
  contConfig q s1 = contConfig q s ∧
  (q ∈ hw_active (mVehicleHardware s1) ↔ q ∈ hw_active (mVehicleHardware s)).
Proof using Type.
  clear other isCont hash_order_elements hash_order.
  intros (h & cfgs & -> & Hq & _ & Ha) Hne. unfold contConfig. cbn. rewrite Hq, Ha by done.
  split; [done|]. destruct (ok && _); [|done]. destruct (f32_neqb _ _); set_solver.
Qed.
Lemma cont_update_here p new s s1 : cont_update_any p new s s1 true → contConfig p s1 = new.
Proof using Type. intros (h & cfgs & -> & _ & Hp & _). unfold contConfig. cbn. by rewrite Hp. Qed.

Lemma wk_maps_added k D s s' : clients_added k D s s' →
  (∀ c p, is_Some (clientsOf p s !! c) → p ∈ propsOf c s) →
  ∀ c p, is_Some (clientsOf p s' !! c) → p ∈ propsOf c s'.
Proof using Type.
  clear isCont hash_order_elements hash_order.
  intros [H1 H2] Hm c p. rewrite H1, H2. destruct (decide (c = asBinder k)) as [->|Hne].
  - destruct (decide (p ∈ D)); [set_solver|]. intros ?%Hm. set_solver.
  - destruct (decide (p ∈ D)); [rewrite lookup_insert_ne by done|]; apply Hm.
Qed.

Lemma wk_area k o ic a s : wk_inv s → wk_inv (subscribe_area k o ic a s).1.
Proof using Type.
  clear other isCont hash_order_elements hash_order.
  intros Hi. pose proof (subscribe_area_added k o ic a s) as Hadd. revert Hadd. cbn zeta.
  unfold subscribe_area. set (p := mkPropIdAreaId (so_propId o) a).
  change (mmodify _ ;;; mmodify _) with (record_client k p). rewrite !mbind_unfold.
  destruct (wk_each s Hi p) as (W1 & W2 & W3 & W4 & W5).
  destruct ic.
  - destruct (addContinuousSubscriberLocked _ _ _ _ _ s) as [s1 r1] eqn:E.
    pose proof (addContinuous_clients (asBinder k) p (sampleRate o) (resolution o) (enableVariableUpdateRate o) s) as Hcl.
    rewrite E in Hcl. apply addContinuous_any in E. cbn in Hcl. destruct r1 as [[]|e]; cbn [is_ok fst snd] in *.
    2:{ intros _. by eapply wk_failed. }
    set (new := addClient _ _ _) in *. intros Hadd.
    assert (Hd : dom (mConfigByClient new) ⊆ dom (<[asBinder k := k]> (clientsOf p s))).
    { subst new. rewrite addClient_configs, !dom_insert_L. set_solver. }
    assert (Hr : new = refreshCombinedConfig new) by apply refreshed.
    assert (Hp : clientsOf p (record_client k p s1).1 = <[asBinder k := k]> (clientsOf p s)).
    { rewrite (proj1 Hadd). by rewrite decide_True by set_solver. }
    apply (wk_at_frame p s); [done| | | | |].
    + intros q Hne. rewrite (proj1 Hadd). by rewrite decide_False by set_solver.
    + intros q Hne. by apply (cont_update_others p new s s1 true).
    + intros q Hne. by apply (cont_update_others p new s s1 true).
    + rewrite Hp. change (contConfig p (record_client k p s1).1) with (contConfig p s1).
      change (mVehicleHardware (record_client k p s1).1) with (mVehicleHardware s1).
      rewrite (cont_update_here _ _ _ _ E). split_and!; [|by right|done|by intros ?%insert_non_empty|by eapply wk_update].
      intros c k' [[<- <-]|[_ Hk]]%lookup_insert_Some; [done|by apply W1].
    + apply (wk_maps_added _ _ _ _ Hadd), (wk_maps s Hi).
  - destruct (addOnChangeSubscriberLocked p s) as [s1 r1] eqn:E.
    apply addOnChange_any in E as (h & -> & Ha). destruct r1 as [[]|e]; cbn [is_ok fst snd andb] in *.
    2:{ intros _. by apply (wk_same s). }
    intros Hadd.
    assert (Hp : clientsOf p (record_client k p (set_hardware h s)).1 = <[asBinder k := k]> (clientsOf p s)).
    { rewrite (proj1 Hadd). by rewrite decide_True by set_solver. }
    apply (wk_at_frame p s); [done| |done| | |].
    + intros q Hne. rewrite (proj1 Hadd). by rewrite decide_False by set_solver.
    + intros q Hne. cbn. rewrite Ha. destruct (bool_decide _); set_solver.
    + rewrite Hp. change (contConfig p (record_client k p (set_hardware h s)).1) with (contConfig p s).
      cbn [mVehicleHardware record_client mmodify mbind' fst set_clients set_subscribed set_hardware].
      split_and!; [|done|rewrite dom_insert_L; set_solver|by intros ?%insert_non_empty|].
      { intros c k' [[<- <-]|[_ Hk]]%lookup_insert_Some; [done|by apply W1]. }
      rewrite Ha. intros Hin. split; [apply insert_non_empty|].
      destruct (bool_decide_reflect (mClientsByPropIdAreaId s !! p = None)) as [Hn|Hn]; [|by apply W5].
      rewrite W4; [done|]. unfold clientsOf. by rewrite Hn.
    + apply (wk_maps_added _ _ _ _ Hadd), (wk_maps s Hi).
Qed.

Lemma wk_subscribe k options ic s : wk_inv s → wk_inv (subscribe k options ic s).1.
Proof using Type.
  intros Hi. unfold subscribe. destruct (check_each _ options) as [[]|e]; [|done].
  apply for_each_inv; [|done]. intros o s1 _ H1. apply for_each_inv; [|done]. intros a s2 _ H2. by apply wk_area.
Qed.

(** The book-keeping after a client is gone from the hardware's side. *)
Lemma wk_forget c p s s1 :
  wk_inv s → same_clients s s1 →
  (∀ q, q ≠ p → contConfig q s1 = contConfig q s ∧
     (q ∈ hw_active (mVehicleHardware s1) ↔ q ∈ hw_active (mVehicleHardware s))) →
  contConfig p s1 = emptyContSubConfigs ∨ contConfig p s1 = refreshCombinedConfig (contConfig p s1) →
  dom (mConfigByClient (contConfig p s1)) ⊆ dom (delete c (clientsOf p s)) →
  (p ∈ hw_active (mVehicleHardware s1) → delete c (clientsOf p s) ≠ ∅ ∧ off (contConfig p s1) = false) →
  wk_inv (forget_client c p s1).
Proof using Type.
  clear hash_order_elements hash_order.
  intros Hi [Hcl Hsub] Hq Hc Hd Ha.
  destruct (wk_each s Hi p) as (W1 & W2 & W3 & W4 & W5).
  assert (Hp : clientsOf p (forget_client c p s1) = delete c (clientsOf p s)).
  { rewrite forget_client_clients, Hcl. by rewrite decide_True. }
  assert (Hhw : mVehicleHardware (forget_client c p s1) = mVehicleHardware s1).
  { unfold forget_client. by case_decide. }
  assert (Hcfg : ∀ q, q ≠ p → contConfig q (forget_client c p s1) = contConfig q s1).
  { intros q Hne. unfold forget_client, contConfig. case_decide; [|done]. cbn. by rewrite lookup_delete_ne. }
  assert (Hcfgp : contConfig p (forget_client c p s1) =
    if decide (delete c (clientsOf p s) = ∅) then emptyContSubConfigs else contConfig p s1).
  { unfold forget_client. fold (clientsOf p s1). rewrite Hcl. case_decide; [|done].
    unfold contConfig. cbn. by rewrite lookup_delete_eq. }
  apply (wk_at_frame p s); [done| | | | |].
  - intros q Hne. rewrite forget_client_clients, Hcl. by rewrite decide_False.
  - intros q Hne. rewrite Hcfg by done. by apply Hq.
  - intros q Hne. rewrite Hhw. by apply Hq.
  - rewrite Hp, Hhw, Hcfgp. split_and!.
    + intros c' k [_ Hk]%lookup_delete_Some. by apply W1.
    + case_decide; [by left|done].
    + case_decide; [set_solver|done].
    + intros Hm. by rewrite decide_True.
    + intros Hin. destruct (Ha Hin) as [H1 H2]. split; [done|]. by rewrite decide_False.
  - clear Hcfgp. intros c' q. unfold propsOf. replace (mSubscribedPropsByClient (forget_client c p s1)) with (mSubscribedPropsByClient s).
    2:{ unfold forget_client. case_decide; exact (eq_sym Hsub). }
    intros Hin. apply (wk_maps s Hi). revert Hin. rewrite forget_client_clients.
    case_decide as Hqp; rewrite Hcl; [subst q|done]. intros [k [_ Hk]%lookup_delete_Some]. by exists k.
Qed.

Lemma wk_unsubscribe_one c p s : wk_inv s → wk_inv (unsubscribePropIdAreaIdLocked c p s).1.
Proof using Type.
  clear other isCont hash_order_elements hash_order.
  intros Hi. destruct (wk_each s Hi p) as (W1 & W2 & W3 & W4 & W5).
  unfold unsubscribePropIdAreaIdLocked. rewrite mbind_mget.
  destruct (decide (is_Some _)) as [Hs|Hs].
  - rewrite mbind_unfold. pose proof (removeContinuous_clients c p s) as Hcl.
    destruct (removeContinuousSubscriberLocked c p s) as [s1 [[]|e]] eqn:E; apply removeContinuous_any in E;
      cbn in Hcl, E |- *; [|by eapply wk_failed].
    assert (Hd : dom (mConfigByClient (removeClient c (contConfig p s))) ⊆ dom (delete c (clientsOf p s))).
    { rewrite removeClient_configs, !dom_delete_L. set_solver. }
    assert (Hr : removeClient c (contConfig p s) = refreshCombinedConfig (removeClient c (contConfig p s)))
      by apply refreshed.
    apply (wk_forget c p s); [done|done| | | |].
    + intros q Hne. by eapply cont_update_others.
    + rewrite (cont_update_here _ _ _ _ E). by right.
    + by rewrite (cont_update_here _ _ _ _ E).
    + rewrite (cont_update_here _ _ _ _ E). by eapply wk_update.
  - destruct (decide (_ = None)) as [Hn|Hn]; [done|]. rewrite mbind_unfold.
    assert (Hcfg : contConfig p s = emptyContSubConfigs).
    { unfold contConfig. by rewrite (proj2 (eq_None_not_Some _) Hs). }
    unfold removeOnChangeSubscriberLocked. rewrite mbind_mmodify, mbind_mget.
    set (s0 := set_clients (touch ∅ p) s). pose proof (same_clients_touch p s) as H0. fold s0 in H0.
    fold (clientsOf p s0). rewrite (proj1 H0).
    destruct (decide (1 < size (clientsOf p s))%nat) as [Hlt|Hge].
    + cbn. apply (wk_forget c p s); [done|done|done|by left| |].
      * change (contConfig p s0) with (contConfig p s). rewrite Hcfg. set_solver.
      * change (contConfig p s0) with (contConfig p s). rewrite Hcfg. intros _. split; [|done]. intros Hz.
        apply (f_equal size) in Hz. rewrite map_size_empty in Hz. pose proof (map_size_delete c (clientsOf p s)) as Hsz.
        rewrite Hz in Hsz. revert Hsz; destruct (clientsOf p s !! c); unfold id; lia.
    + destruct (hardware_call _ s0) as [s1 [[]|e]] eqn:E; apply hw_unsubscribe_one in E as (h & -> & Ha); cbn in Ha |- *.
      * apply (wk_forget c p s); [done|done| |by left| |].
        -- intros q Hne. split; [done|]. cbn. rewrite Ha. set_solver.
        -- change (contConfig p (set_hardware h s0)) with (contConfig p s). rewrite Hcfg. set_solver.
        -- cbn. rewrite Ha. set_solver.
      * by apply (wk_same s).
Qed.

Lemma wk_erase c p s : wk_inv s → clientsOf p s !! c = None → wk_inv (erase_subscribed c p s).
Proof using Type.
  clear isCont hash_order_elements hash_order.
  intros [Hw Hm] Hp. split; [exact Hw|]. intros c' q Hin.
  change (clientsOf q (erase_subscribed c p s)) with (clientsOf q s) in Hin.
  pose proof (Hm c' q Hin) as Hq. unfold propsOf, erase_subscribed in *. cbn.
  destruct (decide (c' = c)) as [->|Hne]; [|by rewrite lookup_alter_ne]. rewrite lookup_alter_eq.
  assert (q ≠ p) by (intros ->; rewrite Hp in Hin; by destruct Hin).
  destruct (mSubscribedPropsByClient s !! c); cbn in *; set_solver.
Qed.

Lemma wk_unsubscribe c propIds s : wk_inv s → wk_inv (unsubscribe c propIds s).1.
Proof using hash_order_elements Type.
  intros Hi. unfold unsubscribe. rewrite mbind_mget. destruct (_ !! c) as [props|]; [|done].
  rewrite mbind_unfold. set (l := filter _ _).
  assert (Hl : wk_inv (for_each l (λ p, unsubscribePropIdAreaIdLocked c p ;;; mmodify (erase_subscribed c p)) s).1).
  { apply for_each_inv; [|done]. intros p s1 _ H1. rewrite mbind_unfold.
    pose proof (wk_unsubscribe_one c p s1 H1) as H2. pose proof (unsubscribe_one_removed c p s1) as [H3 _].
    destruct (unsubscribePropIdAreaIdLocked c p s1) as [s2 [[]|e]]; cbn in *; [|done].
    apply wk_erase; [done|]. rewrite H3, decide_True by set_solver. apply lookup_delete_eq. }
  destruct (for_each l _ s) as [s1 [[]|e]]; cbn in *; [|done].
  destruct Hl as [Hw Hm]. split.
  - intros p. rewrite clientsOf_drop. specialize (Hw p). unfold drop_if_empty. by case_decide.
  - intros c' q. rewrite clientsOf_drop, propsOf_drop. apply Hm.
Qed.

Lemma wk_unsubscribe_all_props c s : wk_inv s → wk_inv (unsubscribe_all_props c s).1.
Proof using hash_order_elements Type.
  intros Hi. unfold unsubscribe_all_props. rewrite mbind_mget.
  destruct (mSubscribedPropsByClient s !! c) as [props|] eqn:Hp; [|done]. rewrite mbind_unfold.
  assert (Hl : ∀ l s1, wk_inv s1 → let r := for_each l (unsubscribePropIdAreaIdLocked c) s1 in
    wk_inv r.1 ∧ mSubscribedPropsByClient r.1 = mSubscribedPropsByClient s1 ∧
    (∀ q, clientsOf q s1 !! c = None → clientsOf q r.1 !! c = None) ∧
    (is_ok r.2 = true → ∀ q, q ∈ l → clientsOf q r.1 !! c = None)).
  { induction l as [|p l IH]; intros s1 H1; cbn zeta; [by split_and!; try set_solver|].
    cbn [for_each]. rewrite mbind_unfold. pose proof (wk_unsubscribe_one c p s1 H1) as H2.
    pose proof (unsubscribe_one_removed c p s1) as [H3 H4].
    destruct (unsubscribePropIdAreaIdLocked c p s1) as [s2 [[]|e]]; cbn [fst snd is_ok] in *.
    - destruct (IH s2 H2) as (I1 & I2 & I3 & I4). split_and!; [done|congruence| |].
      + intros q Hq. apply I3. rewrite H3. case_decide; [apply lookup_delete_eq|done].
      + intros Hok q [->|Hin]%elem_of_cons; [|by apply I4]. apply I3.
        rewrite H3, decide_True by set_solver. apply lookup_delete_eq.
    - split_and!; [done|done| |done]. intros q Hq. by rewrite H3, decide_False by set_solver. }
  destruct (Hl (hash_order props) s Hi) as ([Hw Hm] & Hsub & _ & Hgone).
  destruct (for_each _ _ s) as [s1 [[]|e]]; cbn in *; [|by split].
  split; [exact Hw|]. intros c' q Hin. change (clientsOf q (set_subscribed _ s1)) with (clientsOf q s1) in Hin.
  pose proof (Hm c' q Hin) as Hq. unfold propsOf in *. cbn. destruct (decide (c' = c)) as [->|Hne]; [|by rewrite lookup_delete_ne].
  exfalso. rewrite Hsub, Hp in Hq. cbn in Hq. rewrite Hgone in Hin by (done || by apply elem_of_hash_order).
  by destruct Hin.
Qed.

Lemma wk_prop_same s s' : prop_same s s' → wk_inv s → wk_inv s'.
Proof using Type.
  intros (H1 & H2 & H3 & H4). apply wk_same; [|intros q; unfold contConfig; by rewrite H3|done].
  split; [intros q; unfold clientsOf; by rewrite H1|done].
Qed.

Lemma wk_new h : hw_active h = ∅ → wk_inv (newManager h).
Proof using Type.
  clear hash_order_elements hash_order.
  intros Hh. split.
  - intros p. unfold wk_at, clientsOf, contConfig. cbn. rewrite !lookup_empty, Hh. cbn.
    split_and!; [intros c k; by rewrite lookup_empty|by left|set_solver|done|set_solver].
  - intros c p. unfold clientsOf. cbn. rewrite lookup_empty. cbn. rewrite lookup_empty. by intros [].
Qed.

Lemma reachable_wk h0 s :
  hw_active h0 = ∅ → (∀ h h', other h h' → hw_active h' = hw_active h) → sub_reachable h0 s → wk_inv s.
Proof using hash_order_elements Type.
  clear isCont.
  intros H0 Hother. induction 1 as [|s s' _ Hi Hstep]; [by apply wk_new|].
  revert Hi. destruct Hstep as [k o ic s|c l s|c s|k l s|c l s|vs s|h s Hh]; intros Hi.
  - by apply wk_subscribe.
  - by apply wk_unsubscribe.
  - unfold unsubscribeAll. rewrite mbind_unfold. pose proof (wk_unsubscribe_all_props c s Hi) as H1.
    destruct (unsubscribe_all_props c s) as [s1 [[]|e]]; [|done].
    exact (wk_prop_same _ _ (unsubscribe_all_supported_prop c s1) H1).
  - exact (wk_prop_same _ _ (subscribeSupported_prop k l s) Hi).
  - exact (wk_prop_same _ _ (unsubscribeSupported_prop c l s) Hi).
  - pose proof (distribute_values_spec vs s ∅ 0 (λ p c k, wk_binder p c k s Hi)) as ((E1 & E2 & E3 & _ & _ & E6) & _).
    apply (wk_same s); [|exact E3|by unfold getSubscribedClients; rewrite E6|done].
    split; [|exact E2]. intros q. unfold clientsOf, getSubscribedClients. by rewrite E1.
  - apply (wk_same s); [done|done|by apply Hother|done].
Qed.

(** Every callback is filed under its own binder, with no assumption at all. *)
Definition binder_ok s : Prop := ∀ p c k, clientsOf p s !! c = Some k → asBinder k = c.

Lemma binder_removed c D s s' : clients_removed c D s s' → binder_ok s → binder_ok s'.
Proof using Type.
  intros Hr Hb p c' k. rewrite Hr. case_decide; [|apply Hb]. intros [_ Hk]%lookup_delete_Some. by eapply Hb.
Qed.

Lemma binder_same s s' : (∀ q, clientsOf q s' = clientsOf q s) → binder_ok s → binder_ok s'.
Proof using Type. intros Hs Hb p c k. rewrite Hs. apply Hb. Qed.

#[local] Instance binder_preorder : PreOrder (λ s s', binder_ok s → binder_ok s').
Proof. split; [by intros s|]. intros s1 s2 s3 H1 H2 H3. auto. Qed.

Lemma binder_unsubscribe_one c p : keeps (λ s s', binder_ok s → binder_ok s') (unsubscribePropIdAreaIdLocked c p).
Proof using Type. intros s. eapply binder_removed, unsubscribe_one_removed. Qed.

Lemma binder_supported (op : Op) : keeps (λ s s', mClientsByPropIdAreaId s' = mClientsByPropIdAreaId s) op →
  keeps (λ s s', binder_ok s → binder_ok s') op.
Proof using Type. intros Hs s. apply binder_same. intros q. unfold clientsOf. by rewrite (Hs s). Qed.

Lemma reachable_binder h0 s : sub_reachable h0 s → binder_ok s.
Proof using Type.
  assert (Hpre : PreOrder (λ s s' : Manager HS, mClientsByPropIdAreaId s' = mClientsByPropIdAreaId s)).
  { split; [by intros ?|]. intros ?????. congruence. }
  assert (Hsup : ∀ c l, keeps (λ s s', mClientsByPropIdAreaId s' = mClientsByPropIdAreaId s)
    (unsubscribeSupportedValueChange c l)).
  { intros c l. unfold unsubscribeSupportedValueChange. keep. }
  induction 1 as [|s s' _ Hb Hstep].
  { intros p c k. unfold clientsOf. cbn. rewrite lookup_empty. cbn. by rewrite lookup_empty. }
  revert Hb. destruct Hstep as [k o ic s|c l s|c s|k l s|c l s|vs s|h s Hh].
  - destruct (subscribe_added k o ic s) as (D & _ & _ & [H1 _]). intros Hb p c k'. rewrite H1.
    case_decide; [|apply Hb]. intros [[<- <-]|[_ Hk]]%lookup_insert_Some; [done|by eapply Hb].
  - assert (Hu : keeps (λ s s', binder_ok s → binder_ok s') (unsubscribe c l)); [|apply (Hu s)].
    unfold unsubscribe. keep; try apply binder_unsubscribe_one.
    eapply binder_same; [intros q|eassumption]. apply clientsOf_drop.
  - assert (Hu : keeps (λ s s', binder_ok s → binder_ok s') (unsubscribeAll c)); [|apply (Hu s)].
    unfold unsubscribeAll, unsubscribe_all_props, unsubscribe_all_supported.
    keep; try apply binder_unsubscribe_one; by apply binder_supported.
  - apply (binder_supported (subscribeSupportedValueChange k l)). unfold subscribeSupportedValueChange. keep.
  - by apply (binder_supported (unsubscribeSupportedValueChange c l)).
  - intros Hb. pose proof (distribute_values_spec vs s ∅ 0 Hb) as ((E1 & _) & _).
    eapply binder_same; [|exact Hb]. intros q. unfold clientsOf, getSubscribedClients. by rewrite E1.
  - done.
Qed.

(** *** All histories: supported values *)

Lemma sup_inv_new h : hw_activeSupported h = ∅ → sup_inv (newManager h).
Proof using Type.
  clear hash_order_elements hash_order.
  intros Hh. split; [split|].
  - intros c p. unfold supIdsOf, supClientsOf. cbn. rewrite !lookup_empty. cbn.
    rewrite lookup_empty. split; [set_solver|by intros []].
  - intros p m. cbn. by rewrite lookup_empty.
  - intros c x. cbn. by rewrite lookup_empty.
  - cbn. by rewrite Hh, dom_empty_L.
Qed.

Lemma reachable_sup h0 s :
  hw_activeSupported h0 = ∅ → (∀ h h', other h h' → hw_activeSupported h' = hw_activeSupported h) →
  sub_reachable h0 s → sup_inv s.
Proof using hash_order_elements Type.
  intros H0 Hother Hr. pose proof (reachable_binder h0 s Hr) as Hb. revert Hb.
  induction Hr as [|s s' Hr IH Hstep]; [intros _; by apply sup_inv_new|]. intros _.
  specialize (IH (reachable_binder h0 s Hr)). pose proof (reachable_binder h0 s Hr) as Hb. revert IH Hb. clear Hr.
  destruct Hstep as [k o ic s|c l s|c s|k l s|c l s|vs s|h s Hh]; intros Hs Hb.
  - exact (sup_inv_same _ _ (subscribe_sup k o ic s) Hs).
  - exact (sup_inv_same _ _ (unsubscribe_sup c l s) Hs).
  - by apply unsubscribeAll_sup_inv.
  - by apply subscribeSupported_effect.
  - by apply unsubscribeSupported_effect.
  - apply (sup_inv_same s); [|done].
    pose proof (distribute_values_spec vs s ∅ 0 Hb) as ((_ & _ & _ & E4 & E5 & E6) & _).
    by apply sup_same_frame.
  - destruct Hs as [Hm Hh']. split; [by apply sup_maps_hardware|]. cbn. by rewrite (Hother _ _ Hh).
Qed.

(** ** The properties *)

(** C6: The manager and the hardware, over a hardware [h0] that reports
    nothing at first, whatever it answers and however it changes in between.
    In every history of subscribing, unsubscribing and distributing events the
    hardware reports a [propId, areaId] only if it has a client; every client
    of an id has that id among its own; every configuration kept for an id is
    the combination of configurations of clients of that id; and for changes of
    supported values the hardware reports exactly the ids that have a client.
    In orderly histories (an id is always subscribed with the same flag, rates
    are numbers, no [unsubscribe(client)] fails midway, no event of an
    on-change property is distributed to a subscriber) the hardware reports
    exactly the ids that have a client, the client map and its inverse agree,
    and a continuous entry has the configuration of exactly its clients: its
    combined rate is the greatest of theirs, its resolution the finest, and VUR
    is on when all of them enable it. *)
Theorem subscriptions_match_hardware h0 s :
  hw_active h0 = ∅ → hw_activeSupported h0 = ∅ →
  (∀ h h', other h h' → hw_active h' = hw_active h ∧ hw_activeSupported h' = hw_activeSupported h) →
  let configured p :=
    let cfg := contConfig p s in
    combined (map_to_list (mConfigByClient cfg)) f32_zero f32_max true
      (mMaxSampleRateHz cfg) (mMinRequiredResolution cfg) (mEnableVur cfg) in
  (sub_reachable h0 s →
     (∀ p, p ∈ hw_active (mVehicleHardware s) → clientsOf p s ≠ ∅)
     ∧ (∀ c p, is_Some (clientsOf p s !! c) → p ∈ propsOf c s)
     ∧ (∀ p, mConfigByClient (contConfig p s) ≠ ∅ →
          dom (mConfigByClient (contConfig p s)) ⊆ dom (clientsOf p s) ∧ configured p)
     ∧ (∀ p, p ∈ hw_activeSupported (mVehicleHardware s) ↔ supClientsOf p s ≠ ∅)
     ∧ (∀ c p, p ∈ supIdsOf c s ↔ is_Some (supClientsOf p s !! c)))
  ∧ (orderly h0 s →
     (∀ p, p ∈ hw_active (mVehicleHardware s) ↔ clientsOf p s ≠ ∅)
     ∧ (∀ c p, p ∈ propsOf c s ↔ is_Some (clientsOf p s !! c))
     ∧ (∀ p, isCont p = true → clientsOf p s ≠ ∅ →
          dom (mConfigByClient (contConfig p s)) = dom (clientsOf p s) ∧ configured p)).
Proof.
  intros H1 H2 Hother configured.
  assert (Hcfg : ∀ p, mConfigByClient (contConfig p s) ≠ ∅ →
    contConfig p s = emptyContSubConfigs ∨ contConfig p s = refreshCombinedConfig (contConfig p s) →
    configured p).
  { intros p Hne [He|Hr]; subst configured; cbn; [by rewrite He in Hne|].
    rewrite Hr at 2 3 4. apply refresh_combined_cfg. }
  split; intros Hr.
  - pose proof (reachable_wk h0 s H1 (λ h h' Ho, proj1 (Hother h h' Ho)) Hr) as [Hw Hm].
    pose proof (reachable_sup h0 s H2 (λ h h' Ho, proj2 (Hother h h' Ho)) Hr) as [Hs Hh].
    split_and!; [|exact Hm| | |apply Hs].
    + intros p Hp. by apply (Hw p).
    + intros p Hne. destruct (Hw p) as (_ & A & B & _). auto.
    + intros p. rewrite Hh. by apply sup_dom.
  - pose proof (orderly_inv h0 s H1 (λ h h' Ho, proj1 (Hother h h' Ho)) Hr) as [Hc Hm].
    split_and!; [intros p; by apply active_iff|exact Hm|].
    intros p Hk Hne. pose proof (mi_cont s Hc p Hk) as Hd. split; [done|]. apply Hcfg, (mi_cfg s Hc p).
    intros He. rewrite He, dom_empty_L in Hd. symmetry in Hd. by apply dom_empty_inv_L in Hd.
Qed.

(** An option is invalid: it has no area, or it is for a continuous property
    and its rate is not above zero, or too small for its interval to be
    represented, or its resolution is neither zero nor a power of ten.  A
    comparison with NaN is false, so that a NaN rate is none of these. *)
Definition option_invalid (ic : bool) (o : SubscribeOptions) : Prop :=
  so_areaIds o = [] ∨
  ic = true ∧
    (f32_leb (sampleRate o) f32_zero = true ∨
     f32_leb (sampleRate o) (f32_div ONE_SECOND_IN_NANOS INT64_MAX_f) = true ∨
     f32_eqb (resolution o) f32_zero = false ∧
     f32_ltb (f32_abs (f32_sub (log10f (resolution o)) (f32_round (log10f (resolution o))))) EPSILON = false).

Lemma check_option_invalid ic o : check_option ic o ≠ None ↔ option_invalid ic o.
Proof using Type.
  clear asBinder.
  unfold check_option, option_invalid, getIntervalNanos, checkResolution.
  destruct ic, (so_areaIds o) as [|a l], (f32_leb (sampleRate o) f32_zero),
    (f32_leb (sampleRate o) (f32_div _ _)), (f32_eqb (resolution o) f32_zero), (f32_ltb _ EPSILON);
    cbn; naive_solver.
Qed.

Lemma check_option_code ic o e : check_option ic o = Some e → e = INVALID_ARG.
Proof using Type. unfold check_option. repeat case_match; congruence. Qed.

(** The hardware accepts every property subscription. *)
Definition hardware_accepts : Prop :=
  (∀ o h, (hw_subscribe o h).2 = OK) ∧ (∀ (p a : Z) h, (hw_unsubscribe p a h).2 = OK)
  ∧ ∀ (p a : Z) x h, (hw_updateSampleRate p a x h).2 = OK.

Lemma hardware_call_accepts f s : (∀ h, (f h).2 = OK) → is_ok (hardware_call f s).2 = true.
Proof using Type.
  intros Hf. unfold hardware_call. specialize (Hf (mVehicleHardware s)). destruct (f _) as [h st].
  cbn in *. by rewrite decide_True.
Qed.

Lemma bind_ok (m m' : Op) s : is_ok (m s).2 = true → (∀ s', is_ok (m' s').2 = true) →
  is_ok ((m ;;; m') s).2 = true.
Proof using Type. rewrite mbind_unfold. destruct (m s) as [s1 [[]|e]]; cbn; [auto|done]. Qed.

Lemma updateCont_accepted p new s : hardware_accepts → is_ok (updateContSubConfigsLocked p new s).2 = true.
Proof using Type.
  intros (H1 & H2 & H3). unfold updateContSubConfigsLocked, touch_config. rewrite mbind_mmodify, mbind_mget.
  destruct (_ && _); [done|]. apply bind_ok.
  - destruct (f32_neqb _ _); [|done]. by apply hardware_call_accepts.
  - intros s'. apply bind_ok; [|done]. destruct (f32_neqb _ _); by apply hardware_call_accepts.
Qed.

Lemma for_each_accepted {A} (l : list A) (body : A → Op) s :
  (∀ x s, is_ok (body x s).2 = true) → is_ok (for_each l body s).2 = true.
Proof using Type. intros Hb. revert s. induction l as [|x l IH]; intros s; [done|]. by apply bind_ok. Qed.

Lemma subscribe_accepted k options ic s : hardware_accepts →
  (∀ o, o ∈ options → ¬ option_invalid ic o) → is_ok (subscribe k options ic s).2 = true.
Proof using Type.
  clear hash_order_elements hash_order.
  intros Hh Hv. unfold subscribe. destruct (check_each (check_option ic) options) as [[]|e] eqn:E.
  - apply for_each_accepted. intros o s1. apply for_each_accepted. intros a s2. unfold subscribe_area.
    apply bind_ok; [|done]. destruct ic.
    + unfold addContinuousSubscriberLocked, touch_config. rewrite mbind_mmodify, mbind_mget. by apply updateCont_accepted.
    + unfold addOnChangeSubscriberLocked. rewrite mbind_mget. destruct (decide _); [done|].
      apply hardware_call_accepts. apply Hh.
  - apply check_each_err in E as (l1 & x & l2 & -> & Hx & _). exfalso. apply (Hv x); [set_solver|].
    apply check_option_invalid. by rewrite Hx.
Qed.

(** C7: [subscribe] in any state, with any options, over any hardware.  With an
    invalid option it is refused with [INVALID_ARG] before anything changes.
    Otherwise the client is added, with its callback, to requested
    [propId, areaId]s and to no other, and these are added to its own ids; to
    all of them when the call returns ok, which it does when the hardware
    accepts everything.  No other client is affected.  (A NaN rate is not
    invalid: the code accepts it.) *)
Theorem subscribe_spec k options ic s s' r :
  subscribe k options ic s = (s', r) →
  ((∃ o, o ∈ options ∧ option_invalid ic o) → s' = s ∧ r = Err INVALID_ARG)
  ∧ (hardware_accepts → (∀ o, o ∈ options → ¬ option_invalid ic o) → r = Ok tt)
  ∧ (∃ D, D ⊆ requested options ∧ (is_ok r = true → D = requested options)
       ∧ (∀ q, clientsOf q s' =
            if decide (q ∈ D) then <[asBinder k := k]> (clientsOf q s) else clientsOf q s)
       ∧ (∀ c, propsOf c s' = if decide (c = asBinder k) then propsOf c s ∪ D else propsOf c s)).
Proof using Type.
  intros He. split_and!.
  - intros (o & Hin & Hck). revert He. unfold subscribe.
    destruct (check_each (check_option ic) options) as [[]|e] eqn:E.
    + apply check_each_ok in E. rewrite Forall_forall in E. by apply check_option_invalid in Hck; destruct Hck, (E o Hin).
    + intros [= <- <-]. split; [done|]. apply check_each_err in E as (l1 & x & l2 & _ & Hx & _).
      by rewrite (check_option_code _ _ _ Hx).
  - intros Hh Hv. pose proof (subscribe_accepted k options ic s Hh Hv) as Hok. rewrite He in Hok.
    by destruct r as [[]|].
  - pose proof (subscribe_added k options ic s) as Hadd. rewrite He in Hadd. exact Hadd.
Qed.

(** [unsubscribe(client, propIds)] removes the client from entries of the
    listed properties it was subscribed to, from all of them when it returns
    ok; [unsubscribe(client)], when it returns ok, removes the client
    everywhere; no other client is affected (orderly histories). *)
Theorem unsubscribe_spec h0 c propIds s :
  hw_active h0 = ∅ → hw_activeSupported h0 = ∅ →
  (∀ h h', other h h' → hw_active h' = hw_active h ∧ hw_activeSupported h' = hw_activeSupported h) →
  orderly h0 s →
  (let r := unsubscribe c propIds s in
   ∃ D, D ⊆ targets c propIds s ∧ (is_ok r.2 = true → D = targets c propIds s)
    ∧ ∀ q, clientsOf q r.1 = if decide (q ∈ D) then delete c (clientsOf q s) else clientsOf q s)
  ∧ (∀ s', unsubscribeAll c s = (s', Ok tt) →
      (∀ q, clientsOf q s' = delete c (clientsOf q s))
      ∧ (∀ q, supClientsOf q s' = delete c (supClientsOf q s))).
Proof.
  intros H1 H2 Hother Ho.
  pose proof (orderly_inv h0 s H1 (λ h h' Ho, proj1 (Hother h h' Ho)) Ho) as Hi.
  pose proof (reachable_sup h0 s H2 (λ h h' Ho, proj2 (Hother h h' Ho)) (orderly_reachable _ _ Ho)) as Hs.
  split.
  - destruct (unsubscribe_effect c propIds s Hi) as (_ & Heff). exact Heff.
  - intros s' He. split; [by eapply unsubscribeAll_mgr_inv|by eapply unsubscribeAll_supported].
Qed.

(** C8: In every history, distributing values gives each callback, in order, the
    values of the [propId, areaId]s its client is subscribed to, sanitized to
    the client's resolution, and no others; all of them when the client did
    not enable variable update rate, or the hardware applies it for everyone,
    so that the manager has nothing to filter. *)
Theorem getSubscribedClients_delivers h0 vs s k :
  sub_reachable h0 s →
  let out := (getSubscribedClients vs s).2 in
  ∃ l, default [] (out !! k) = l
    ∧ l `sublist_of` mjoin ((λ v, expected k v s) <$> vs)
    ∧ ((∀ v, v ∈ vs → filtered (asBinder k) v s = false) →
       l = mjoin ((λ v, expected k v s) <$> vs)).
Proof using Type.
  intros Hr out.
  destruct (distribute_values_spec vs s ∅ k (reachable_binder h0 s Hr)) as (_ & _ & l & H1 & H2 & H3).
  exists l. split_and!; [|done|done]. subst out. unfold getSubscribedClients.
  rewrite H1. by rewrite lookup_empty.
Qed.
End manager.

(** ** Concrete instances *)

Section examples.
Definition ex_hw : SimpleHardware := mkSimpleHardware ∅ ∅ ∅.
Definition ex_cont (p : PropIdAreaId) : bool := pa_propId p =? 1.
Definition ex_log (x : f32) : f32 := f32_zero.
Definition ex_cast (x : f32) : Z := 0.

Notation ex_subscribe := (subscribe ex_cast ex_log (λ k, k)).
Notation ex_unsubscribe := (unsubscribe elements).

Definition ex_option (propId : Z) (rate : Z) : SubscribeOptions :=
  mkSubscribeOptions propId [0] (f32_of_Z rate) f32_zero true.

(** Clients 7 and 8 subscribe to the continuous property 1 and the on-change
    property 2. *)
Definition ex_s0 : Manager SimpleHardware := newManager ex_hw.
Definition ex_s1 := (ex_subscribe 7 [ex_option 1 10] true ex_s0).1.
Definition ex_s2 := (ex_subscribe 8 [ex_option 1 20] true ex_s1).1.
Definition ex_s3 := (ex_subscribe 7 [ex_option 2 0] false ex_s2).1.
Definition ex_s4 := (ex_subscribe 8 [ex_option 2 0] false ex_s3).1.

Lemma ex_options_ok propId rate ic :
  (propId =? 1) = ic → f32_is_nan (f32_of_Z rate) = false →
  options_ok ex_cont ic [ex_option propId rate].
Proof.
  intros Hp Hn o ->%list_elem_of_singleton. split; [|done].
  intros a ->%list_elem_of_singleton. exact Hp.
Qed.

(** Between the calls the hardware may change its mind about what it accepts. *)
Definition ex_other (h h' : SimpleHardware) : Prop :=
  sh_active h' = sh_active h ∧ sh_supported h' = sh_supported h.

Notation ex_orderly := (orderly ex_cast ex_log (λ k, k) elements ex_cont ex_other ex_hw).
Notation ex_reachable := (sub_reachable ex_cast ex_log (λ k, k) elements ex_other ex_hw).

Lemma ex_orderly_s4 : ex_orderly ex_s4.
Proof.
  do 4 (eapply or_step; [|apply os_subscribe, ex_options_ok; reflexivity]).
  apply or_new.
Qed.

Theorem subscriptions_match_hardware_witness :
  ex_orderly ex_s4
  ∧ (∀ p, p ∈ hw_active (mVehicleHardware ex_s4) ↔ clientsOf p ex_s4 ≠ ∅)
  ∧ mMaxSampleRateHz (contConfig (mkPropIdAreaId 1 0) ex_s4) = f32_of_Z 20.
Proof.
  split; [exact ex_orderly_s4|]. split; [|vm_compute; reflexivity].
  destruct (subscriptions_match_hardware ex_cast ex_log (λ k, k) elements ex_cont
    (λ x, reflexivity _) ex_other ex_hw ex_s4) as [_ Hm];
    [reflexivity|reflexivity|done|].
  exact (proj1 (Hm ex_orderly_s4)).
Defined.

Theorem subscribe_spec_witness :
  let r := ex_subscribe 9 [ex_option 3 0] false ex_s4 in
  ∃ D, D ⊆ requested [ex_option 3 0]
    ∧ ∀ q, clientsOf q r.1 =
        if decide (q ∈ D) then <[9 := 9]> (clientsOf q ex_s4) else clientsOf q ex_s4.
Proof.
  destruct (subscribe_spec ex_cast ex_log (λ k, k) 
    9 [ex_option 3 0] false ex_s4 (ex_subscribe 9 [ex_option 3 0] false ex_s4).1
    (ex_subscribe 9 [ex_option 3 0] false ex_s4).2 (surjective_pairing _)) as (_ & _ & D & HD & _ & HD' & _).
  exists D. exact (conj HD HD').
Defined.

Theorem unsubscribe_spec_witness :
  ex_orderly ex_s4
  ∧ ∃ D, D ⊆ targets 7 [1] ex_s4
    ∧ ∀ q, clientsOf q (ex_unsubscribe 7 [1] ex_s4).1 =
        if decide (q ∈ D) then delete 7 (clientsOf q ex_s4) else clientsOf q ex_s4.
Proof.
  split; [exact ex_orderly_s4|].
  destruct (unsubscribe_spec ex_cast ex_log (λ k, k) elements ex_cont (λ x, reflexivity _) ex_other
    ex_hw 7 [1] ex_s4) as [(D & HD & _ & HD') _];
    [reflexivity|reflexivity|done|exact ex_orderly_s4|].
  exists D. exact (conj HD HD').
Defined.

Definition ex_value (propId : Z) (t x : Z) : VehiclePropValue :=
  mkPropValue t 0 propId 0 (mkRaw [x] [] [] [] (stringValue emptyRaw)).

Theorem getSubscribedClients_delivers_witness :
  ex_reachable ex_s4
  ∧ ∃ l, default [] ((getSubscribedClients ex_cast [ex_value 1 5 3; ex_value 2 6 4] ex_s4).2 !! 7) = l
    ∧ l `sublist_of` [ex_value 1 5 3; ex_value 2 6 4].
Proof.
  assert (Hr : ex_reachable ex_s4) by exact (orderly_reachable _ _ _ _ _ _ _ _ ex_orderly_s4).
  split; [exact Hr|].
  destruct (getSubscribedClients_delivers ex_cast ex_log (λ k, k) elements ex_other ex_hw
    [ex_value 1 5 3; ex_value 2 6 4] ex_s4 7 Hr) as (l & H1 & H2 & _).
  exists l. split; [exact H1|]. vm_compute in H2. exact H2.
Defined.

(** ** Where the code departs from its documentation *)

(** Distributing one event of an on-change property inserts a configuration
    for it ([operator[]]); the next unsubscription then takes the property for
    a continuous one and unsubscribes it from the hardware, although client 8
    is still subscribed. *)
Definition bug_s5 := (getSubscribedClients ex_cast [ex_value 2 6 4] ex_s4).1.
Definition bug_s6 := (ex_unsubscribe 7 [2] bug_s5).1.

Lemma onchange_event_then_unsubscribe_bug :
  clientsOf (mkPropIdAreaId 2 0) bug_s6 = {[8 := 8]}
  ∧ mkPropIdAreaId 2 0 ∉ sh_active (mVehicleHardware bug_s6)
  ∧ mkPropIdAreaId 2 0 ∈ sh_active (mVehicleHardware (ex_unsubscribe 7 [2] ex_s4).1).
Proof.
  split; [vm_compute; reflexivity|]. split; [|vm_compute; reflexivity].
  apply (bool_decide_unpack _). vm_compute. exact I.
Qed.

(** Retrying a failed [unsubscribe(client)]: the hardware refuses property 3;
    the first call has already removed client 7 from property 2, the second
    removes it again and unsubscribes the hardware, although client 8 is still
    subscribed to property 2. *)
Definition retry_s5 := (ex_subscribe 7 [ex_option 3 0] false
  (ex_subscribe 8 [ex_option 2 0] false (ex_subscribe 7 [ex_option 2 0] false ex_s0).1).1).1.
Definition retry_s6 := set_hardware
  (mkSimpleHardware (sh_active (mVehicleHardware retry_s5)) ∅ {[mkPropIdAreaId 3 0]}) retry_s5.
Definition retry_order (x : gset PropIdAreaId) : list PropIdAreaId :=
  let l := elements x in
  filter (λ p, pa_propId p = 2) l ++ filter (λ p, pa_propId p ≠ 2) l.
Definition retry_s7 := unsubscribeAll retry_order 7 retry_s6.
Definition retry_s8 := unsubscribeAll retry_order 7 retry_s7.1.

Lemma unsubscribe_retry_bug :
  retry_s7.2 = Err INTERNAL_ERROR
  ∧ mkPropIdAreaId 2 0 ∈ sh_active (mVehicleHardware retry_s7.1)
  ∧ clientsOf (mkPropIdAreaId 2 0) retry_s8.1 = {[8 := 8]}
  ∧ mkPropIdAreaId 2 0 ∉ sh_active (mVehicleHardware retry_s8.1).
Proof.
  split; [vm_compute; reflexivity|]. split; [vm_compute; reflexivity|].
  split; [vm_compute; reflexivity|]. apply (bool_decide_unpack _). vm_compute. exact I.
Qed.

(** A NaN sample rate passes the check, and makes the manager unsubscribe the
    hardware while it answers ok. *)
Lemma nan_sample_rate_accepted :
  is_ok (getIntervalNanos ex_cast S754_nan) = true
  ∧ (let '(s, r) := ex_subscribe 7 [mkSubscribeOptions 1 [0] S754_nan f32_zero true] true ex_s0 in
     r = Ok tt ∧ clientsOf (mkPropIdAreaId 1 0) s = {[7 := 7]} ∧ sh_active (mVehicleHardware s) = ∅).
Proof. split; [reflexivity|]. vm_compute. done. Qed.
End examples.

(** The value the VUR filter compares with is the first one it saw: [insert]
    does not replace an element with an equal key.  After values A, B, the
    return to A is reported as no change, and a repeated B as a change. *)
Lemma vur_filter_compares_with_first {HS} (s : Manager HS) k v it :
  default ∅ (mContSubValuesByCallback s !! k) !! valueKey v = Some it →
  let '(s', _) := isValueUpdatedLocked k v s in
  default ∅ (mContSubValuesByCallback s' !! k) !! valueKey v = Some it.
Proof.
  intros Hit. unfold isValueUpdatedLocked.
  assert (Ht : default ∅ (mContSubValuesByCallback (set_values (touch ∅ k) s) !! k) !! valueKey v = Some it).
  { cbn. by rewrite touch_lookup. }
  rewrite Ht. destruct (timestamp v <? timestamp it); [done|].
  assert (Hr : default ∅ (mContSubValuesByCallback (remember_value k v (set_values (touch ∅ k) s)) !! k)
    !! valueKey v = Some it).
  { unfold remember_value, set_insert_value. cbn [mContSubValuesByCallback set_values] in Ht |- *.
    rewrite Ht. rewrite lookup_insert_eq. exact Ht. }
  by destruct (_ && _).
Qed.
