(* ===== verification/ConnectedClient.v ===== *)
(** * ConnectedClient: one binder client of getValues, setValues or subscribe

    Models [ConnectedClient.cpp] / [ConnectedClient.h] of
    [vhal-server/aidl/impl/4/vhal] and [ParcelableUtils.h].  A client object
    has an address (its id in the request pool) and a callback; the calls made
    on the callback are returned, in order, as a list of [CallbackCall]s.  The
    two instances of the class template share one model, over the interface
    [ResultType]. *)

From stdpp Require Import base gmap sets list.
From Stdlib Require Import ZArith Lia.
From S2P Require Import Prelude VehicleTypes PendingRequestPool.

Local Open Scope Z_scope.

Notation CallbackType := Z (only parsing).

(** ** Results and calls *)

(** The methods of [IVehicleCallback]. *)
Inductive CallbackMethod :=
| onGetValues (results : list GetValueResult)
| onSetValues (results : list SetValueResult)
| onPropertyEvent (values : list VehiclePropValue) (sharedMemoryFileCount : Z)
| onPropertySetError (errors : list VehiclePropError)
| onSupportedValueChange (ids : list PropIdAreaId).

(** A call on a callback.  The status it returns is only logged. *)
Definition CallbackCall : Type := CallbackType * CallbackMethod.

(** What the class template [GetSetValuesClient] needs of its arguments. *)
Class ResultType (R : Type) := {
  requestId : R → Z;
  timeoutResult : Z → R;
  callCallback : list R → CallbackMethod
}.

#[export] Instance getValueResultType : ResultType GetValueResult := {|
  requestId := gr_requestId;
  timeoutResult i := mkGetValueResult i TRY_AGAIN None;
  callCallback := onGetValues
|}.

#[export] Instance setValueResultType : ResultType SetValueResult := {|
  requestId := sr_requestId;
  timeoutResult i := mkSetValueResult i TRY_AGAIN;
  callCallback := onSetValues
|}.

(** [vectorToStableLargeParcelable]: on this port it always succeeds and puts
    the values in the payloads. *)
Definition vectorToStableLargeParcelable {A} (values : list A) : StatusCode * list A := (OK, values).

(** A client object: its address and its callback. *)
Record ConnectedClient := mkClient {
  client_id : ClientId;
  mCallback : CallbackType
}.

Section client.
Context {R : Type} `{ResultType R}.
(** The traversal order of a hash set. *)
Context (id_order : gset Z → list Z).
Implicit Types (k : CallbackType) (results : list R).

Definition sendGetOrSetValueResult k (result : R) : list CallbackCall := [(k, callCallback [result])].

Definition sendGetOrSetValueResultsSeparately k results : list CallbackCall :=
  concat (map (sendGetOrSetValueResult k) results).

Definition sendGetOrSetValueResults k results : list CallbackCall :=
  match vectorToStableLargeParcelable results with
  | (OK, payloads) => [(k, callCallback payloads)]
  | (_, payloads) => sendGetOrSetValueResultsSeparately k payloads
  end.

Definition onTimeout k (timeoutIds : gset Z) : list CallbackCall :=
  sendGetOrSetValueResults k (map timeoutResult (id_order timeoutIds)).

(** The result callback: results whose request is no longer pending are dropped. *)
Definition getOrSetValuesCallback (clientId : ClientId) k results (pool : Pool)
    : Pool * list CallbackCall :=
  let requestIds : gset Z := list_to_set (requestId <$> results) in
  let '(pool, finishedRequests) := tryFinishRequests clientId requestIds pool in
  let results := filter (λ r, requestId r ∈ finishedRequests) results in
  (pool, match results with [] => [] | _ :: _ => sendGetOrSetValueResults k results end).

Definition client_addRequests (timeout : Z) (c : ConnectedClient) (ids : gset Z) (now : Z)
    (pool : Pool) : Pool * result StatusCode unit :=
  addRequests timeout (client_id c) ids (client_id c) now pool.

Definition client_tryFinishRequests (c : ConnectedClient) (ids : gset Z) (pool : Pool)
    : Pool * gset Z := tryFinishRequests (client_id c) ids pool.

Definition sendResults (c : ConnectedClient) results : list CallbackCall :=
  sendGetOrSetValueResults (mCallback c) results.

Definition sendResultsSeparately (c : ConnectedClient) results : list CallbackCall :=
  sendGetOrSetValueResultsSeparately (mCallback c) results.

(** The results the callback delivers: those with a pending request, in order,
    in one call; every id delivered stops being pending. *)
Lemma getOrSetValuesCallback_delivers c k results pool :
  let '(pool', calls) := getOrSetValuesCallback c k results pool in
  let answered := filter (λ r, requestId r ∈ pending pool c) results in
  calls = match answered with [] => [] | _ :: _ => [(k, callCallback answered)] end
  ∧ ∀ c', pending pool' c' =
      if decide (c' = c) then pending pool c ∖ list_to_set (requestId <$> results) else pending pool c'.
Proof.
  unfold getOrSetValuesCallback.
  pose proof (tryFinishRequests_pending c (list_to_set (requestId <$> results)) pool) as Hp.
  destruct (tryFinishRequests c _ pool) as [pool' found].
  destruct (Hp c) as [-> _]. split; [|intros c'; by destruct (Hp c')].
  rewrite (filter_ext_in (λ r, requestId r ∈ pending pool c ∩ list_to_set (requestId <$> results))
             (λ r, requestId r ∈ pending pool c)).
  - by destruct (filter _ results).
  - intros r Hr. rewrite elem_of_intersection, elem_of_list_to_set, list_elem_of_fmap.
    split; [tauto|]. intros ?. split; [done|]. by exists r.
Qed.
End client.

(** ** SubscriptionClient *)

Definition sendUpdatedValues (k : CallbackType) (updatedValues : list VehiclePropValue)
    : list CallbackCall :=
  match updatedValues with
  | [] => []
  | _ :: _ =>
      match vectorToStableLargeParcelable updatedValues with
      | (OK, payloads) => [(k, onPropertyEvent payloads 0)]
      | _ => []
      end
  end.

Definition sendPropertySetErrors (k : CallbackType) (errors : list VehiclePropError)
    : list CallbackCall :=
  match errors with
  | [] => []
  | _ :: _ =>
      match vectorToStableLargeParcelable errors with
      | (OK, payloads) => [(k, onPropertySetError payloads)]
      | _ => []
      end
  end.

Definition sendSupportedValueChangeEvents (k : CallbackType) (ids : list PropIdAreaId)
    : list CallbackCall :=
  match ids with
  | [] => []
  | _ :: _ => [(k, onSupportedValueChange (map (λ p, mkPropIdAreaId (pa_propId p) (pa_areaId p)) ids))]
  end.
