(* ===== verification/DefaultVehicleHal.v ===== *)
(** * DefaultVehicleHal: the IVehicle service

    Models [DefaultVehicleHal.cpp] / [DefaultVehicleHal.h] of
    [vhal-server/aidl/impl/4/vhal].  The HAL state holds the subscription
    manager (with the hardware behind it), the request pool, the clients, the
    configuration cache and the two queues; every binder method is a function
    from the state to the state, the calls made on client callbacks, and the
    status returned to the caller. *)

From stdpp Require Import base gmap sets list strings.
From Stdlib Require Import ZArith Lia SpecFloat.
From S2P Require Import Prelude Float32 VehicleTypes VehicleUtils PendingRequestPool.
From S2P Require Import ConcurrentQueue VehicleHardware SubscriptionManager ConnectedClient.

Local Open Scope Z_scope.
Notation CallbackType := Z (only parsing).
Notation ClientIdType := Z (only parsing).

(** ** Statuses *)

(** The [ScopedAStatus] values the methods return (messages left out). *)
Inductive ScopedAStatus :=
| StatusOk
| NullPointer                        (* EX_NULL_POINTER *)
| TransactionFailed                  (* EX_TRANSACTION_FAILED, client died *)
| ServiceSpecific (code : StatusCode).

Definition toScopedAStatus (r : result StatusCode unit) : ScopedAStatus :=
  match r with Ok _ => StatusOk | Err e => ServiceSpecific e end.

Definition toScopedAStatusWith {E A} (r : result E A) (code : StatusCode) : ScopedAStatus :=
  match r with Ok _ => StatusOk | Err _ => ServiceSpecific code end.

Definition VHAL_HEARTBEAT : Z := 0x0F33 + 0x10000000 + 0x01000000 + 0x00500000.
Definition TIMEOUT_IN_NANO : Z := 30000000000.
Definition HEART_BEAT_INTERVAL_IN_NANO : Z := 3000000000.

(** ** Access and sample rates *)

Definition getDefaultSampleRateHz (rate minRate maxRate : f32) : f32 :=
  if f32_ltb rate minRate then minRate
  else if f32_ltb maxRate rate then maxRate
  else rate.

Definition hasRequiredAccess (access requiredAccess : Z) : bool :=
  (access =? requiredAccess) || (access =? VehiclePropertyAccess.READ_WRITE).

Fixpoint areaConfigsHaveRequiredAccess_loop (l : list VehicleAreaConfig) (requiredAccess : Z) : bool :=
  match l with
  | [] => true
  | c :: l' =>
      if negb (hasRequiredAccess (ac_access c) requiredAccess) then false
      else areaConfigsHaveRequiredAccess_loop l' requiredAccess
  end.

Definition areaConfigsHaveRequiredAccess (l : list VehicleAreaConfig) (requiredAccess : Z) : bool :=
  match l with [] => false | _ => areaConfigsHaveRequiredAccess_loop l requiredAccess end.

(** ** State *)

Record BinderDiedUnlinkedEvent := mkBinderEvent {
  forOnBinderDied : bool;
  be_clientId : ClientIdType
}.

Record Hal (HS : Type) := mkHal {
  mSubscriptionManager : Manager HS;                       (* and the hardware *)
  mPendingRequestPool : Pool;
  mConfigInit : bool;
  mConfigsByPropId : gmap Z VehiclePropConfig;
  mOnBinderDiedContexts : gset ClientIdType;
  mGetValuesClients : gmap ClientIdType ConnectedClient;
  mSetValuesClients : gmap ClientIdType ConnectedClient;
  mNextAddress : ClientId;                                 (* of the next client object *)
  mBinderEvents : ConcurrentQueue BinderDiedUnlinkedEvent;
  mBatchedEventQueue : option (ConcurrentQueue VehiclePropValue)
}.
Arguments mkHal {HS}.
Arguments mSubscriptionManager {HS}.
Arguments mPendingRequestPool {HS}.
Arguments mConfigInit {HS}.
Arguments mConfigsByPropId {HS}.
Arguments mOnBinderDiedContexts {HS}.
Arguments mGetValuesClients {HS}.
Arguments mSetValuesClients {HS}.
Arguments mNextAddress {HS}.
Arguments mBinderEvents {HS}.
Arguments mBatchedEventQueue {HS}.

Section setters.
Context {HS : Type}.
Implicit Types h : Hal HS.
Definition set_manager (m : Manager HS) h := mkHal m (mPendingRequestPool h) (mConfigInit h)
  (mConfigsByPropId h) (mOnBinderDiedContexts h) (mGetValuesClients h) (mSetValuesClients h)
  (mNextAddress h) (mBinderEvents h) (mBatchedEventQueue h).
Definition set_pool (p : Pool) h := mkHal (mSubscriptionManager h) p (mConfigInit h)
  (mConfigsByPropId h) (mOnBinderDiedContexts h) (mGetValuesClients h) (mSetValuesClients h)
  (mNextAddress h) (mBinderEvents h) (mBatchedEventQueue h).
Definition set_hal_configs (i : bool) (c : gmap Z VehiclePropConfig) h :=
  mkHal (mSubscriptionManager h) (mPendingRequestPool h) i c (mOnBinderDiedContexts h)
    (mGetValuesClients h) (mSetValuesClients h) (mNextAddress h) (mBinderEvents h)
    (mBatchedEventQueue h).
Definition set_contexts (f : gset ClientIdType → gset ClientIdType) h :=
  mkHal (mSubscriptionManager h) (mPendingRequestPool h) (mConfigInit h) (mConfigsByPropId h)
    (f (mOnBinderDiedContexts h)) (mGetValuesClients h) (mSetValuesClients h) (mNextAddress h)
    (mBinderEvents h) (mBatchedEventQueue h).
Definition set_getClients (f : gmap ClientIdType ConnectedClient → _) (n : ClientId) h :=
  mkHal (mSubscriptionManager h) (mPendingRequestPool h) (mConfigInit h) (mConfigsByPropId h)
    (mOnBinderDiedContexts h) (f (mGetValuesClients h)) (mSetValuesClients h) n
    (mBinderEvents h) (mBatchedEventQueue h).
Definition set_setClients (f : gmap ClientIdType ConnectedClient → _) (n : ClientId) h :=
  mkHal (mSubscriptionManager h) (mPendingRequestPool h) (mConfigInit h) (mConfigsByPropId h)
    (mOnBinderDiedContexts h) (mGetValuesClients h) (f (mSetValuesClients h)) n
    (mBinderEvents h) (mBatchedEventQueue h).
Definition set_binderEvents (q : ConcurrentQueue BinderDiedUnlinkedEvent) h :=
  mkHal (mSubscriptionManager h) (mPendingRequestPool h) (mConfigInit h) (mConfigsByPropId h)
    (mOnBinderDiedContexts h) (mGetValuesClients h) (mSetValuesClients h) (mNextAddress h)
    q (mBatchedEventQueue h).
Definition set_batchedQueue (q : option (ConcurrentQueue VehiclePropValue)) h :=
  mkHal (mSubscriptionManager h) (mPendingRequestPool h) (mConfigInit h) (mConfigsByPropId h)
    (mOnBinderDiedContexts h) (mGetValuesClients h) (mSetValuesClients h) (mNextAddress h)
    (mBinderEvents h) q.
End setters.

Section hal.
Context {HS : Type} `{Hardware HS, ValueHardware HS}.
(** As in [SubscriptionManager]. *)
Context (ub_cast : f32 → Z) (log10f : f32 → f32) (asBinder : CallbackType → ClientIdType)
        (hash_order : gset PropIdAreaId → list PropIdAreaId).
(** Whether [checkPropValue] accepts a value where it reads out of bounds. *)
Context (ub_check : VehiclePropValue → bool).
(** The generated table of the version each system property needs, and the
    generated [operator<] of [VehiclePropValue]. *)
Context (VersionForVehicleProperty : Z → option Z)
        (value_lt : VehiclePropValue → VehiclePropValue → bool).
(** [getInterfaceVersion], or the version a test sets. *)
Context (interfaceVersion testInterfaceVersion : Z).

Implicit Types (h : Hal HS).

Definition hal_hardware h : HS := mVehicleHardware (mSubscriptionManager h).
Definition set_hal_hardware (x : HS) h : Hal HS :=
  set_manager (set_hardware x (mSubscriptionManager h)) h.

(** The constructor; [batching] is [getPropertyOnChangeEventBatchingWindow() != 0]. *)
Definition newHal (x : HS) (batching : bool) : Hal HS :=
  mkHal (newManager x) ∅ false ∅ ∅ ∅ ∅ 0%nat newQueue (if batching then Some newQueue else None).

(** ** Configurations *)

Definition getVhalInterfaceVersion : Z :=
  if negb (testInterfaceVersion =? 0) then testInterfaceVersion else interfaceVersion.

Definition isConfigSupportedForCurrentVhalVersion (config : VehiclePropConfig) : bool :=
  let myVersion := getVhalInterfaceVersion in
  if negb (isSystemProp (pc_prop config)) then true
  else match VersionForVehicleProperty (pc_prop config) with
       | None => false
       | Some requiredVersion => if myVersion <? requiredVersion then false else true
       end.

Fixpoint store_configs (l : list VehiclePropConfig) (m : gmap Z VehiclePropConfig) :=
  match l with
  | [] => m
  | c :: l' => store_configs l' (<[pc_prop c := c]> m)
  end.

Definition getAllPropConfigsFromHardwareLocked h : Hal HS :=
  let configs := hw_getAllPropertyConfigs (hal_hardware h) in
  let filteredConfigs := filter (λ c, isConfigSupportedForCurrentVhalVersion c = true) configs in
  set_hal_configs true (store_configs filteredConfigs (mConfigsByPropId h)) h.

(** The lazy load in front of every use of the cache. *)
Definition getConfigsByPropId h : Hal HS :=
  if mConfigInit h then h else getAllPropConfigsFromHardwareLocked h.

Definition getAllPropConfigs h : Hal HS * list VehiclePropConfig :=
  let h := getConfigsByPropId h in
  (h, snd <$> map_to_list (mConfigsByPropId h)).

Definition getConfig (propId : Z) h : result unit VehiclePropConfig :=
  if negb (mConfigInit h) then
    match hw_getPropertyConfig propId (hal_hardware h) with
    | None => Err tt
    | Some config => if isConfigSupportedForCurrentVhalVersion config then Ok config else Err tt
    end
  else
    match mConfigsByPropId h !! propId with None => Err tt | Some config => Ok config end.

(** [getPropConfigs]: the configurations asked for, or [INVALID_ARG]. *)
Fixpoint collect_configs (lookup : Z → option VehiclePropConfig) (props : list Z)
    (configs : list VehiclePropConfig) : option (list VehiclePropConfig) :=
  match props with
  | [] => Some configs
  | p :: props' =>
      match lookup p with
      | None => None
      | Some c => collect_configs lookup props' (configs ++ [c])
      end
  end.

Definition getPropConfigs (props : list Z) h : ScopedAStatus * list VehiclePropConfig :=
  let lookup p :=
    if negb (mConfigInit h) then
      match hw_getPropertyConfig p (hal_hardware h) with
      | None => None
      | Some c => if isConfigSupportedForCurrentVhalVersion c then Some c else None
      end
    else mConfigsByPropId h !! p in
  match collect_configs lookup props [] with
  | None => (ServiceSpecific INVALID_ARG, [])
  | Some configs => (StatusOk, configs)
  end.

(** ** Checks on requests *)

Definition checkPermissionHelper (v : VehiclePropValue) (accessToTest : Z) h
    : result StatusCode unit :=
  if negb ((accessToTest =? VehiclePropertyAccess.WRITE) || (accessToTest =? VehiclePropertyAccess.READ)
           || (accessToTest =? VehiclePropertyAccess.READ_WRITE))
  then Err INVALID_ARG
  else
    match getConfig (prop v) h with
    | Err _ => Err INVALID_ARG
    | Ok config =>
        match getAreaConfigOf v config with
        | None =>
            if negb (isGlobalProp (prop v)) then Err INVALID_ARG
            else if negb (hasRequiredAccess (pc_access config) accessToTest) then Err ACCESS_DENIED
            else Ok tt
        | Some areaConfig =>
            if negb (hasRequiredAccess (pc_access config) accessToTest)
               && negb (hasRequiredAccess (ac_access areaConfig) accessToTest)
            then Err ACCESS_DENIED
            else Ok tt
        end
    end.

Definition checkReadPermission (v : VehiclePropValue) h : result StatusCode unit :=
  checkPermissionHelper v VehiclePropertyAccess.READ h.
Definition checkWritePermission (v : VehiclePropValue) h : result StatusCode unit :=
  checkPermissionHelper v VehiclePropertyAccess.WRITE h.

Definition checkProperty (v : VehiclePropValue) h : result unit unit :=
  match getConfig (prop v) h with
  | Err _ => Err tt
  | Ok config =>
      let areaConfig := getAreaConfigOf v config in
      if negb (isGlobalProp (prop v)) && bool_decide (areaConfig = None) then Err tt
      else
        match checkPropValue v (Some config) with
        | Some (Err _) => Err tt
        | None => if ub_check v then
                    match checkValueRange v areaConfig with Err _ => Err tt | Ok _ => Ok tt end
                  else Err tt
        | Some (Ok _) =>
            match checkValueRange v areaConfig with Err _ => Err tt | Ok _ => Ok tt end
        end
  end.

(** [CHECK_DUPLICATE_REQUESTS]: a [std::set] of the values seen so far. *)
Definition set_count (p : VehiclePropValue) (seen : list VehiclePropValue) : bool :=
  existsb (λ q, negb (value_lt q p) && negb (value_lt p q)) seen.

Fixpoint checkDuplicateRequests (values seen : list VehiclePropValue) : result unit unit :=
  match values with
  | [] => Ok tt
  | p :: values' => if set_count p seen then Err tt else checkDuplicateRequests values' (p :: seen)
  end.

(** ** Clients *)

(** [getOrCreateClient] for the two maps. *)
Definition getOrCreateClient (clients : gmap ClientIdType ConnectedClient) (k : CallbackType)
    (next : ClientId) : gmap ClientIdType ConnectedClient * ClientId * ConnectedClient :=
  match clients !! asBinder k with
  | Some c => (clients, next, c)
  | None => let c := mkClient next k in (<[asBinder k := c]> clients, S next, c)
  end.

(** [alive] is the binder's answer: of [isAlive] for a client that is already
    monitored, of [linkToDeath] for a new one. *)
Definition monitorBinderLifeCycleLocked (clientId : ClientIdType) (alive : bool) h : Hal HS * bool :=
  if decide (clientId ∈ mOnBinderDiedContexts h) then (h, alive)
  else (set_contexts (λ s, {[clientId]} ∪ s) h, alive).

Definition onBinderDied (clientId : ClientIdType) h : Hal HS :=
  set_binderEvents (push (mkBinderEvent true clientId) (mBinderEvents h)) h.
Definition onBinderUnlinked (clientId : ClientIdType) h : Hal HS :=
  set_binderEvents (push (mkBinderEvent false clientId) (mBinderEvents h)) h.

Definition onBinderDiedWithContext (clientId : ClientIdType) h : Hal HS :=
  let h := set_setClients (delete clientId) (mNextAddress h) h in
  let h := set_getClients (delete clientId) (mNextAddress h) h in
  set_manager (unsubscribeAll hash_order clientId (mSubscriptionManager h)).1 h.

Definition onBinderUnlinkedWithContext (clientId : ClientIdType) h : Hal HS :=
  set_contexts (λ s, s ∖ {[clientId]}) h.

Definition handleBinderEvent (e : BinderDiedUnlinkedEvent) h : Hal HS :=
  if forOnBinderDied e then onBinderDiedWithContext (be_clientId e) h
  else onBinderUnlinkedWithContext (be_clientId e) h.

(** One round of the handler thread's loop; [None]: it waits, or has left. *)
Definition onBinderDiedUnlinkedHandler h : option (Hal HS) :=
  match waitForItems (mBinderEvents h) with
  | Some true =>
      let '(q, events) := flush (mBinderEvents h) in
      Some (foldl (λ h e, handleBinderEvent e h) (set_binderEvents q h) events)
  | _ => None
  end.

(** ** getValues and setValues *)

(** The result callback the hardware calls. *)
Definition onHardwareResults {R} `{ResultType R} (c : ConnectedClient) (results : list R) h
    : Hal HS * list CallbackCall :=
  let '(pool, calls) := getOrSetValuesCallback (client_id c) (mCallback c) results
                          (mPendingRequestPool h) in
  (set_pool pool h, calls).

Fixpoint deliver_results {R} `{ResultType R} (c : ConnectedClient) (batches : list (list R)) h
    : Hal HS * list CallbackCall :=
  match batches with
  | [] => (h, [])
  | results :: batches' =>
      let '(h, calls) := onHardwareResults c results h in
      let '(h, calls') := deliver_results c batches' h in
      (h, calls ++ calls')
  end.

(** What both methods do once the requests are split: register the hardware
    requests, report the failed ones, call the hardware. *)
Definition sendToHardware {R Q} `{ResultType R} (idOf : Q → Z)
    (call : list Q → HS → HS * StatusCode * list (list R))
    (c : ConnectedClient) (failedResults : list R) (hardwareRequests : list Q) (now : Z) h
    : Hal HS * list CallbackCall * ScopedAStatus :=
  let hardwareRequestIds : gset Z := list_to_set (idOf <$> hardwareRequests) in
  let '(pool, added) := client_addRequests TIMEOUT_IN_NANO c hardwareRequestIds now
                          (mPendingRequestPool h) in
  let h := set_pool pool h in
  match added with
  | Err e => (h, [], ServiceSpecific e)
  | Ok _ =>
      let calls := match failedResults with [] => [] | _ :: _ => sendResults c failedResults end in
      match hardwareRequests with
      | [] => (h, calls, StatusOk)
      | _ :: _ =>
          let '(x, status, early) := call hardwareRequests (hal_hardware h) in
          let '(h, calls') := deliver_results c early (set_hal_hardware x h) in
          if decide (status = OK) then (h, calls ++ calls', StatusOk)
          else
            let '(pool, _) := client_tryFinishRequests c hardwareRequestIds (mPendingRequestPool h) in
            (set_pool pool h, calls ++ calls', ServiceSpecific status)
      end
  end.

Definition read_failure (q : GetValueRequest) h : option GetValueResult :=
  match checkReadPermission (gq_prop q) h with
  | Err e => Some (mkGetValueResult (gq_requestId q) e None)
  | Ok _ => None
  end.

Definition write_failure (q : SetValueRequest) h : option SetValueResult :=
  match checkWritePermission (sq_value q) h with
  | Err e => Some (mkSetValueResult (sq_requestId q) e)
  | Ok _ =>
      match checkProperty (sq_value q) h with
      | Err _ => Some (mkSetValueResult (sq_requestId q) INVALID_ARG)
      | Ok _ => None
      end
  end.

(** The loop over the requests: failed results, and requests for the hardware. *)
Fixpoint split_requests {Q R} (failure : Q → option R) (l : list Q)
    (failedResults : list R) (hardwareRequests : list Q) : list R * list Q :=
  match l with
  | [] => (failedResults, hardwareRequests)
  | q :: l' =>
      match failure q with
      | Some r => split_requests failure l' (failedResults ++ [r]) hardwareRequests
      | None => split_requests failure l' failedResults (hardwareRequests ++ [q])
      end
  end.

Definition getValues (callback : option CallbackType) (requests : list GetValueRequest)
    (now : Z) (alive : bool) h : Hal HS * list CallbackCall * ScopedAStatus :=
  match callback with
  | None => (h, [], NullPointer)
  | Some k =>
      match checkDuplicateRequests (gq_prop <$> requests) [] with
      | Err _ => (h, [], ServiceSpecific INVALID_ARG)
      | Ok _ =>
          let '(failedResults, hardwareRequests) :=
            split_requests (λ q, read_failure q h) requests [] [] in
          let '(h, isAlive) := monitorBinderLifeCycleLocked (asBinder k) alive h in
          if negb isAlive then (h, [], TransactionFailed)
          else
            let '(clients, next, c) :=
              getOrCreateClient (mGetValuesClients h) k (mNextAddress h) in
            sendToHardware gq_requestId hw_getValues c failedResults hardwareRequests now
              (set_getClients (λ _, clients) next h)
      end
  end.

Definition setValues (callback : option CallbackType) (requests : list SetValueRequest)
    (now : Z) (alive : bool) h : Hal HS * list CallbackCall * ScopedAStatus :=
  match callback with
  | None => (h, [], NullPointer)
  | Some k =>
      match checkDuplicateRequests (sq_value <$> requests) [] with
      | Err _ => (h, [], ServiceSpecific INVALID_ARG)
      | Ok _ =>
          let '(failedResults, hardwareRequests) :=
            split_requests (λ q, write_failure q h) requests [] [] in
          let '(h, isAlive) := monitorBinderLifeCycleLocked (asBinder k) alive h in
          if negb isAlive then (h, [], TransactionFailed)
          else
            let '(clients, next, c) :=
              getOrCreateClient (mSetValuesClients h) k (mNextAddress h) in
            sendToHardware sq_requestId hw_setValues c failedResults hardwareRequests now
              (set_setClients (λ _, clients) next h)
      end
  end.

(** ** Subscriptions *)

(** The area configurations the listed areas select; [None]: an area that the
    configuration does not have. *)
Fixpoint select_areas (configs : list VehicleAreaConfig) (areaIds : list Z)
    : option (list VehicleAreaConfig) :=
  match areaIds with
  | [] => Some []
  | a :: areaIds' =>
      match List.find (λ c, ac_areaId c =? a) configs with
      | Some c => option_map (cons c) (select_areas configs areaIds')
      | None =>
          if negb (a =? 0) || negb (bool_decide (configs = [])) then None
          else select_areas configs areaIds'
      end
  end.

Definition check_subscribe_option (configsByPropId : gmap Z VehiclePropConfig)
    (o : SubscribeOptions) : option StatusCode :=
  match configsByPropId !! so_propId o with
  | None => Some INVALID_ARG
  | Some config =>
      match (match so_areaIds o with
             | [] => Some (areaConfigs config)
             | areaIds => select_areas (areaConfigs config) areaIds
             end) with
      | None => Some INVALID_ARG
      | Some areas =>
          if negb (changeMode config =? VehiclePropertyChangeMode.ON_CHANGE)
             && negb (changeMode config =? VehiclePropertyChangeMode.CONTINUOUS)
          then Some INVALID_ARG
          else if negb (hasRequiredAccess (pc_access config) VehiclePropertyAccess.READ)
                  && negb (areaConfigsHaveRequiredAccess areas VehiclePropertyAccess.READ)
          then Some ACCESS_DENIED
          else if changeMode config =? VehiclePropertyChangeMode.CONTINUOUS then
            let defaultRateHz :=
              getDefaultSampleRateHz (sampleRate o) (minSampleRate config) (maxSampleRate config) in
            let sampleRateHz :=
              if f32_neqb (sampleRate o) defaultRateHz then defaultRateHz else sampleRate o in
            if negb (checkSampleRateHz ub_cast sampleRateHz) then Some INVALID_ARG
            else if negb (checkResolution log10f (resolution o)) then Some INVALID_ARG
            else None
          else None
      end
  end.

Definition checkSubscribeOptions (options : list SubscribeOptions)
    (configsByPropId : gmap Z VehiclePropConfig) : result StatusCode unit :=
  check_each (check_subscribe_option configsByPropId) options.

Definition withAreas (areaIds : list Z) (vur : bool) (o : SubscribeOptions) : SubscribeOptions :=
  mkSubscribeOptions (so_propId o) areaIds (sampleRate o) (resolution o) vur.

(** Whether an area supports variable update rate. *)
Definition vur_supported (config : VehiclePropConfig) (propId a : Z) : bool :=
  match getAreaConfig propId a config with
  | None => false
  | Some areaConfig => supportVariableUpdateRate areaConfig
  end.

(** The areas an option stands for: area 0 of a global property; all areas of
    the configuration when none is listed. *)
Definition option_areas (config : VehiclePropConfig) (o : SubscribeOptions) : list Z :=
  if isGlobalProp (so_propId o) then [0]
  else match so_areaIds o with [] => ac_areaId <$> areaConfigs config | l => l end.

(** One option: its on-change and its continuous subscriptions. *)
Definition parse_option (configsByPropId : gmap Z VehiclePropConfig) (o : SubscribeOptions)
    : list SubscribeOptions * list SubscribeOptions :=
  match configsByPropId !! so_propId o with
  | None => ([], [])                (* excluded by checkSubscribeOptions *)
  | Some config =>
      let propId := so_propId o in
      let areaIds := option_areas config o in
      if changeMode config =? VehiclePropertyChangeMode.CONTINUOUS then
        let optionCopy := mkSubscribeOptions propId areaIds
          (getDefaultSampleRateHz (sampleRate o) (minSampleRate config) (maxSampleRate config))
          (resolution o) (enableVariableUpdateRate o) in
        if negb (enableVariableUpdateRate o) then ([], [optionCopy])
        else
          let areasVurEnabled := filter (λ a, vur_supported config propId a = true) areaIds in
          let areasVurDisabled := filter (λ a, vur_supported config propId a ≠ true) areaIds in
          ([], (match areasVurEnabled with [] => [] | l => [withAreas l true optionCopy] end)
               ++ (match areasVurDisabled with [] => [] | l => [withAreas l false optionCopy] end))
      else ([mkSubscribeOptions propId areaIds (sampleRate o) (resolution o)
               (enableVariableUpdateRate o)], [])
  end.

Fixpoint parseSubscribeOptions (options : list SubscribeOptions)
    (configsByPropId : gmap Z VehiclePropConfig) : list SubscribeOptions * list SubscribeOptions :=
  match options with
  | [] => ([], [])
  | o :: options' =>
      let '(c1, n1) := parse_option configsByPropId o in
      let '(c2, n2) := parseSubscribeOptions options' configsByPropId in
      (c1 ++ c2, n1 ++ n2)
  end.

(** A call of the manager; the state it reaches is kept when it fails. *)
Definition manager_call (op : M (Manager HS) StatusCode unit) h : Hal HS * result StatusCode unit :=
  let '(m, r) := op (mSubscriptionManager h) in (set_manager m h, r).

Definition manager_subscribe (k : CallbackType) (options : list SubscribeOptions) (ic : bool) h
    : Hal HS * result StatusCode unit :=
  match options with
  | [] => (h, Ok tt)
  | _ :: _ => manager_call (SubscriptionManager.subscribe ub_cast log10f asBinder k options ic) h
  end.

Definition subscribe (callback : option CallbackType) (options : list SubscribeOptions)
    (alive : bool) h : Hal HS * ScopedAStatus :=
  match callback with
  | None => (h, NullPointer)
  | Some k =>
      let h := getConfigsByPropId h in
      match checkSubscribeOptions options (mConfigsByPropId h) with
      | Err e => (h, ServiceSpecific e)
      | Ok _ =>
          let '(onChange, continuous) := parseSubscribeOptions options (mConfigsByPropId h) in
          let '(h, isAlive) := monitorBinderLifeCycleLocked (asBinder k) alive h in
          if negb isAlive then (h, TransactionFailed)
          else
            let '(h, r1) := manager_subscribe k onChange false h in
            match r1 with
            | Err e => (h, ServiceSpecific e)
            | Ok _ =>
                let '(h, r2) := manager_subscribe k continuous true h in
                (h, toScopedAStatus r2)
            end
      end
  end.

Definition unsubscribe (callback : option CallbackType) (propIds : list Z) h
    : Hal HS * ScopedAStatus :=
  match callback with
  | None => (h, NullPointer)
  | Some k =>
      let '(h, r) := manager_call (SubscriptionManager.unsubscribe hash_order (asBinder k) propIds) h in
      (h, toScopedAStatus r)
  end.

Definition returnSharedMemory (callback : option CallbackType) (sharedMemoryId : Z) h
    : Hal HS * ScopedAStatus := (h, StatusOk).

(** ** Supported values *)

Definition getAreaConfigForPropIdAreaId (propId a : Z) h : result unit VehicleAreaConfig :=
  match getConfig propId h with
  | Err _ => Err tt
  | Ok config => match getAreaConfig propId a config with None => Err tt | Some c => Ok c end
  end.

Definition getHasSupportedValueInfo (propId a : Z) h : result unit HasSupportedValueInfo :=
  match getAreaConfigForPropIdAreaId propId a h with
  | Err _ => Err tt
  | Ok areaConfig =>
      match hasSupportedValueInfo areaConfig with Some i => Ok i | None => Err tt end
  end.

(** The loop of both getters: what is known without the hardware is stored in
    the results, the other requests are collected with their positions. *)
Fixpoint split_supported {R} (wanted : HasSupportedValueInfo → bool) (invalid none : R)
    (ids : list PropIdAreaId) (requestCounter : nat) h
    (results : list R) (counters : list nat) (toHardware : list PropIdAreaId)
    : list R * list nat * list PropIdAreaId :=
  match ids with
  | [] => (results, counters, toHardware)
  | p :: ids' =>
      match getHasSupportedValueInfo (pa_propId p) (pa_areaId p) h with
      | Err _ =>
          split_supported wanted invalid none ids' (S requestCounter) h
            (<[requestCounter := invalid]> results) counters toHardware
      | Ok info =>
          if wanted info
          then split_supported wanted invalid none ids' (S requestCounter) h
                 results (counters ++ [requestCounter]) (toHardware ++ [p])
          else split_supported wanted invalid none ids' (S requestCounter) h
                 (<[requestCounter := none]> results) counters toHardware
      end
  end.

Fixpoint scatter {R} (counters : list nat) (answers : list R) (results : list R) : list R :=
  match counters, answers with
  | i :: counters', a :: answers' => scatter counters' answers' (<[i := a]> results)
  | _, _ => results
  end.

Definition getSupported {R} (wanted : HasSupportedValueInfo → bool) (empty invalid none : R)
    (call : list PropIdAreaId → HS → HS * list R) (ids : list PropIdAreaId) h
    : Hal HS * (ScopedAStatus * list R) :=
  let '(results, counters, toHardware) :=
    split_supported wanted invalid none ids 0 h (vec_resize empty (length ids) []) [] [] in
  match toHardware with
  | [] => (h, (StatusOk, results))
  | _ :: _ =>
      let '(x, answers) := call toHardware (hal_hardware h) in
      let h := set_hal_hardware x h in
      if negb (Nat.eqb (length answers) (length counters))
      then (h, (ServiceSpecific INTERNAL_ERROR, []))
      else (h, (StatusOk, scatter counters answers results))
  end.

Definition getSupportedValuesLists (ids : list PropIdAreaId) h :=
  getSupported hasSupportedValuesList (mkSupportedValuesListResult OK None)
    (mkSupportedValuesListResult INVALID_ARG None) (mkSupportedValuesListResult OK None)
    hw_getSupportedValuesLists ids h.

Definition getMinMaxSupportedValue (ids : list PropIdAreaId) h :=
  getSupported (λ i, hasMinSupportedValue i || hasMaxSupportedValue i)
    (mkMinMaxSupportedValueResult OK None None)
    (mkMinMaxSupportedValueResult INVALID_ARG None None) (mkMinMaxSupportedValueResult OK None None)
    hw_getMinMaxSupportedValues ids h.

(** The ids to subscribe, or an error. *)
Fixpoint supported_to_subscribe (ids : list PropIdAreaId) h (acc : list PropIdAreaId)
    : result unit (list PropIdAreaId) :=
  match ids with
  | [] => Ok acc
  | p :: ids' =>
      match getHasSupportedValueInfo (pa_propId p) (pa_areaId p) h with
      | Err _ => Err tt
      | Ok i =>
          if negb (hasMinSupportedValue i) && negb (hasMaxSupportedValue i)
             && negb (hasSupportedValuesList i)
          then supported_to_subscribe ids' h acc
          else supported_to_subscribe ids' h (acc ++ [p])
      end
  end.

(** [None]: the method calls through a null callback, which neither of these
    two methods tests for. *)
Definition registerSupportedValueChangeCallback (callback : option CallbackType)
    (ids : list PropIdAreaId) (alive : bool) h : option (Hal HS * ScopedAStatus) :=
  match supported_to_subscribe ids h [] with
  | Err e => Some (h, ServiceSpecific INVALID_ARG)
  | Ok [] => Some (h, StatusOk)
  | Ok l =>
      match callback with
      | None => None
      | Some k =>
          let '(h, isAlive) := monitorBinderLifeCycleLocked (asBinder k) alive h in
          if negb isAlive then Some (h, TransactionFailed)
          else
            let '(h, r) := manager_call (subscribeSupportedValueChange asBinder k l) h in
            Some (h, toScopedAStatus r)
      end
  end.

Definition unregisterSupportedValueChangeCallback (callback : option CallbackType)
    (ids : list PropIdAreaId) h : option (Hal HS * ScopedAStatus) :=
  match callback with
  | None => None
  | Some k =>
      let '(h, r) := manager_call (unsubscribeSupportedValueChange (asBinder k) ids) h in
      Some (h, toScopedAStatus r)
  end.

(** ** Events from the hardware *)

Definition onPropertyChangeEvent (updatedValues : list VehiclePropValue) h
    : Hal HS * list CallbackCall :=
  let '(m, byClient) := getSubscribedClients ub_cast updatedValues (mSubscriptionManager h) in
  (set_manager m h, concat (map (λ kv, sendUpdatedValues kv.1 kv.2) (map_to_list byClient))).

Definition batchPropertyChangeEvent (q : ConcurrentQueue VehiclePropValue)
    (updatedValues : list VehiclePropValue) h : Hal HS :=
  set_batchedQueue (Some (push_many updatedValues q)) h.

(** The callback given to [registerOnPropertyChangeEvent]. *)
Definition propertyChangeCallback (updatedValues : list VehiclePropValue) h
    : Hal HS * list CallbackCall :=
  match mBatchedEventQueue h with
  | Some q => (batchPropertyChangeEvent q updatedValues h, [])
  | None => onPropertyChangeEvent updatedValues h
  end.

(** The batching consumer's flush and its batch callback. *)
Definition handleBatchedPropertyEvents h : Hal HS * list CallbackCall :=
  match mBatchedEventQueue h with
  | None => (h, [])
  | Some q =>
      let '(q, items) := flush q in
      let h := set_batchedQueue (Some q) h in
      match items with [] => (h, []) | _ :: _ => onPropertyChangeEvent items h end
  end.

Definition onPropertySetErrorEvent (errorEvents : list ErrorEvent) h : list CallbackCall :=
  concat (map (λ ke, sendPropertySetErrors ke.1
                 (map (λ e, mkPropError (pa_propId e.2) (pa_areaId e.2) e.1) ke.2))
    (map_to_list (getSubscribedClientsForErrorEvents errorEvents (mSubscriptionManager h)))).

Definition onSupportedValueChangeEvent (ids : list PropIdAreaId) h : list CallbackCall :=
  concat (map (λ ki, sendSupportedValueChangeEvents ki.1 ki.2)
    (map_to_list (getSubscribedClientsForSupportedValueChange ids (mSubscriptionManager h)))).

(** The heartbeat; [uptimeMillis] is the clock's reading. *)
Definition checkHealth (uptimeMillis : Z) h : Hal HS * list CallbackCall :=
  let '(x, status) := hw_checkHealth (hal_hardware h) in
  let h := set_hal_hardware x h in
  if negb (bool_decide (status = OK)) then (h, [])
  else
    let heartbeat := mkPropValue 0 0 VHAL_HEARTBEAT VehiclePropertyStatus.AVAILABLE
      (mkRaw [] [] [uptimeMillis] [] (stringValue emptyRaw)) in
    onPropertyChangeEvent [heartbeat] h.

Definition countClients h : nat :=
  size (mGetValuesClients h) + size (mSetValuesClients h)
  + countPropertyChangeClients (mSubscriptionManager h)
  + countSupportedValueChangeClients (mSubscriptionManager h).

(** ** Requests are answered or pending, never lost *)

(** The ids answered by a list of callback calls. *)
Definition call_ids (c : CallbackCall) : list Z :=
  match c.2 with
  | onGetValues rs => gr_requestId <$> rs
  | onSetValues rs => sr_requestId <$> rs
  | _ => []
  end.
Definition answered_ids (calls : list CallbackCall) : gset Z :=
  list_to_set (concat (map call_ids calls)).

Lemma answered_ids_app l1 l2 : answered_ids (l1 ++ l2) = answered_ids l1 ∪ answered_ids l2.
Proof. unfold answered_ids. rewrite map_app, concat_app. apply list_to_set_app_L. Qed.

(** Both result types answer the ids of their results. *)
Class AnswersIds (R : Type) `{ResultType R} := answers_ids k (rs : list R) :
  call_ids (k, callCallback rs) = requestId <$> rs.
#[local] Instance get_answers : AnswersIds GetValueResult.
Proof. by intros k rs. Qed.
#[local] Instance set_answers : AnswersIds SetValueResult.
Proof. by intros k rs. Qed.

Lemma answered_one {R} `{AnswersIds R} k (rs : list R) :
  answered_ids [(k, callCallback rs)] = list_to_set (requestId <$> rs).
Proof. unfold answered_ids. cbn [map concat]. by rewrite answers_ids, app_nil_r. Qed.

Lemma addRequests_pending timeout c ids cb now pool :
  let '(pool', r) := addRequests timeout c ids cb now pool in
  match r with
  | Ok _ => pending pool c ## ids
            ∧ ∀ c', pending pool' c' = if decide (c' = c) then pending pool c ∪ ids else pending pool c'
  | Err _ => ∀ c', pending pool' c' = pending pool c'
  end.
Proof.
  unfold addRequests. destruct (existsb _ _) eqn:Ho; [done|].
  apply overlaps_none in Ho. fold (pending pool c) in Ho.
  destruct (to_u64 _ <? _).
  - intros c'. rewrite pending_insert. by case_decide; subst.
  - split; [done|]. intros c'. rewrite pending_insert. case_decide; [|done].
    rewrite ids_of_app. unfold ids_of at 2. cbn. unfold pending. set_solver.
Qed.

(** The calls of the result callback that the hardware makes. *)
Lemma deliver_results_spec {R} `{AnswersIds R} (c : ConnectedClient) (batches : list (list R)) h :
  let '(h', calls) := deliver_results c batches h in
  pending (mPendingRequestPool h) (client_id c) ⊆
    pending (mPendingRequestPool h') (client_id c) ∪ answered_ids calls
  ∧ pending (mPendingRequestPool h') (client_id c) ⊆ pending (mPendingRequestPool h) (client_id c)
  ∧ (∀ c', c' ≠ client_id c →
       pending (mPendingRequestPool h') c' = pending (mPendingRequestPool h) c')
  ∧ Forall (λ call, call.1 = mCallback c) calls.
Proof.
  revert h. induction batches as [|rs batches IH]; intros h; cbn [deliver_results].
  { unfold answered_ids. cbn. split_and!; [set_solver|done|done|constructor]. }
  unfold onHardwareResults.
  pose proof (getOrSetValuesCallback_delivers (client_id c) (mCallback c) rs (mPendingRequestPool h)) as Hd.
  destruct (getOrSetValuesCallback _ _ _ _) as [pool calls]. destruct Hd as [Hcalls Hpool].
  specialize (IH (set_pool pool h)). destruct (deliver_results c batches (set_pool pool h)) as [h' calls'].
  cbn [mPendingRequestPool set_pool] in IH. destruct IH as (I1 & I2 & I3 & I4).
  pose proof (Hpool (client_id c)) as Hown. rewrite decide_True in Hown by done.
  assert (Hans : pending (mPendingRequestPool h) (client_id c) ∩ list_to_set (requestId <$> rs)
                 ⊆ answered_ids calls).
  { intros i [Hi (r & -> & Hr)%elem_of_list_to_set%list_elem_of_fmap]%elem_of_intersection.
    rewrite Hcalls. assert (Hin : r ∈ filter (λ r, requestId r ∈ pending (mPendingRequestPool h) (client_id c)) rs)
      by (by apply list_elem_of_filter).
    destruct (filter _ rs) as [|x l] eqn:Ef; [by apply elem_of_nil in Hin|].
    rewrite answered_one. apply elem_of_list_to_set, list_elem_of_fmap. by exists r. }
  rewrite answered_ids_app. split_and!.
  - intros i Hi. destruct (decide (i ∈ (list_to_set (requestId <$> rs) : gset Z))); set_solver.
  - set_solver.
  - intros c' Hc. rewrite I3 by done. rewrite Hpool. by rewrite decide_False.
  - apply Forall_app. split; [|done]. rewrite Hcalls. destruct (filter _ _); repeat constructor.
Qed.

(** What one call leaves pending, and answers. *)
Definition request_effect {R Q} `{ResultType R} (idOf : Q → Z) (c : ConnectedClient)
    (failedResults : list R) (hardwareRequests : list Q) h h'
    (calls : list CallbackCall) (st : ScopedAStatus) : Prop :=
  let before := pending (mPendingRequestPool h) (client_id c) in
  let after := pending (mPendingRequestPool h') (client_id c) in
  (∀ c', c' ≠ client_id c → pending (mPendingRequestPool h') c' = pending (mPendingRequestPool h) c')
  ∧ Forall (λ call, call.1 = mCallback c) calls
  ∧ (st = StatusOk →
       list_to_set (requestId <$> failedResults) ⊆ answered_ids calls
       ∧ before ∪ list_to_set (idOf <$> hardwareRequests) ⊆ after ∪ answered_ids calls)
  ∧ (st ≠ StatusOk → after ⊆ before)
  ∧ after ⊆ before ∪ list_to_set (idOf <$> hardwareRequests).

Lemma sendToHardware_spec {R Q} `{AnswersIds R} (idOf : Q → Z) call c
    (failedResults : list R) hardwareRequests now h h' calls st :
  sendToHardware idOf call c failedResults hardwareRequests now h = (h', calls, st) →
  request_effect idOf c failedResults hardwareRequests h h' calls st.
Proof.
  unfold sendToHardware, client_addRequests, request_effect.
  remember (list_to_set (idOf <$> hardwareRequests)) as ids eqn:Hids.
  pose proof (addRequests_pending TIMEOUT_IN_NANO (client_id c) ids (client_id c) now
    (mPendingRequestPool h)) as Ha.
  destruct (addRequests _ _ _ _ _ _) as [pool [[]|e]].
  2:{ intros He. injection He as <- <- <-. cbn [mPendingRequestPool set_pool].
      rewrite !Ha. split_and!; [by intros; rewrite Ha|constructor|done|done|set_solver]. }
  destruct Ha as [Hdisj Ha]. pose proof (Ha (client_id c)) as Hown. rewrite decide_True in Hown by done.
  set (fcalls := match failedResults with [] => [] | _ :: _ => sendResults c failedResults end).
  assert (Hf : list_to_set (requestId <$> failedResults) ⊆ answered_ids fcalls
    ∧ Forall (λ call, call.1 = mCallback c) fcalls).
  { subst fcalls. destruct failedResults as [|r l]; [split; [set_solver|constructor]|].
    unfold sendResults, sendGetOrSetValueResults. cbn [vectorToStableLargeParcelable].
    rewrite answered_one. split; [done|repeat constructor]. }
  destruct Hf as [Hf1 Hf2].
  assert (Hother : ∀ c', c' ≠ client_id c → pending pool c' = pending (mPendingRequestPool h) c').
  { intros c' Hc. rewrite Ha. by rewrite decide_False. }
  destruct hardwareRequests as [|q l] eqn:Eq.
  { intros He. injection He as <- <- <-. cbn [mPendingRequestPool set_pool]. rewrite Hown.
    split_and!; [done|done|intros _; split; [done|]|done|]; clear; set_solver. }
  rewrite <-Eq in *. clear Eq q l. set (h1 := set_pool pool h).
  destruct (call hardwareRequests (hal_hardware h1)) as [[x status] early].
  pose proof (deliver_results_spec c early (set_hal_hardware x h1)) as Hd.
  destruct (deliver_results c early (set_hal_hardware x h1)) as [h2 calls'].
  subst h1. cbn [mPendingRequestPool set_hal_hardware set_manager set_pool] in Hd.
  destruct Hd as (D1 & D2 & D3 & D4). rewrite Hown in D1, D2.
  destruct (decide (status = OK)).
  - intros He. injection He as <- <- <-. rewrite answered_ids_app. split_and!.
    + intros c' Hc. rewrite D3 by done. by apply Hother.
    + by apply Forall_app.
    + intros _. split; [clear -Hf1; set_solver|clear -D1; set_solver].
    + done.
    + done.
  - unfold client_tryFinishRequests.
    pose proof (tryFinishRequests_pending (client_id c) ids (mPendingRequestPool h2)) as Ht.
    destruct (tryFinishRequests _ _ _) as [pool2 found]. intros He. injection He as <- <- <-.
    cbn [mPendingRequestPool set_pool].
    assert (Ht2 : ∀ c', pending pool2 c' = if decide (c' = client_id c)
      then pending (mPendingRequestPool h2) (client_id c) ∖ ids else pending (mPendingRequestPool h2) c').
    { intros c'. apply (Ht c'). }
    split_and!.
    + intros c' Hc. rewrite Ht2, decide_False by done. rewrite D3 by done. by apply Hother.
    + by apply Forall_app.
    + done.
    + intros _. rewrite Ht2, decide_True by done. clear -D2. set_solver.
    + rewrite Ht2, decide_True by done. clear -D2. set_solver.
Qed.

Lemma split_requests_spec {Q R} (failure : Q → option R) l fs hs :
  split_requests failure l fs hs
  = (fs ++ omap failure l, hs ++ filter (λ q, failure q = None) l).
Proof.
  revert fs hs. induction l as [|q l IH]; intros fs hs; cbn [split_requests].
  { by rewrite !app_nil_r. }
  rewrite filter_cons. cbn [omap list_omap]. destruct (failure q) as [r|] eqn:Ef; rewrite IH.
  - rewrite <-app_assoc. by rewrite decide_False by congruence.
  - rewrite decide_True by done. by rewrite <-app_assoc.
Qed.

(** What a client can rely on after a call with requests [ids] of which
    [forwarded] pass the checks: the request of an accepted call is answered
    already or pending; a refused call leaves nothing pending; only requests
    that pass the checks become pending; every callback call goes to the
    client, and no other client is affected. *)
Definition accounted (c : ConnectedClient) (ids forwarded : gset Z) h h'
    (calls : list CallbackCall) (st : ScopedAStatus) : Prop :=
  let before := pending (mPendingRequestPool h) (client_id c) in
  let after := pending (mPendingRequestPool h') (client_id c) in
  (st = StatusOk → ids ⊆ after ∪ answered_ids calls)
  ∧ (st ≠ StatusOk → after ⊆ before)
  ∧ after ⊆ before ∪ forwarded
  ∧ Forall (λ call, call.1 = mCallback c) calls
  ∧ ∀ c', c' ≠ client_id c →
      pending (mPendingRequestPool h') c' = pending (mPendingRequestPool h) c'.

Lemma accounted_unchanged c ids forwarded h h' st :
  mPendingRequestPool h' = mPendingRequestPool h → st ≠ StatusOk →
  accounted c ids forwarded h h' [] st.
Proof.
  intros Hp Hst. unfold accounted. rewrite Hp. split_and!; [done|done|set_solver|constructor|done].
Qed.

Lemma accounted_send {R Q} `{AnswersIds R} (idOf : Q → Z) (failure : Q → option R) call c
    (requests : list Q) now h h0 h' calls st :
  (∀ q r, failure q = Some r → requestId r = idOf q) →
  mPendingRequestPool h0 = mPendingRequestPool h →
  sendToHardware idOf call c (omap failure requests)
    (filter (λ q, failure q = None) requests) now h0 = (h', calls, st) →
  accounted c (list_to_set (idOf <$> requests))
    (list_to_set (idOf <$> filter (λ q, failure q = None) requests)) h h' calls st.
Proof.
  intros Hid Hpool He. apply sendToHardware_spec in He as (E1 & E2 & E3 & E4 & E5).
  rewrite Hpool in *. unfold accounted. split_and!; [|done|done|done|done].
  intros Hst. destruct (E3 Hst) as [F1 F2].
  intros i (q & -> & Hq)%elem_of_list_to_set%list_elem_of_fmap.
  destruct (failure q) as [r|] eqn:Ef.
  - apply elem_of_union_r, F1. apply elem_of_list_to_set, list_elem_of_fmap. exists r.
    split; [by rewrite (Hid q r Ef)|]. apply list_elem_of_omap. eauto.
  - apply F2, elem_of_union_r. apply elem_of_list_to_set, list_elem_of_fmap. exists q.
    split; [done|]. by apply list_elem_of_filter.
Qed.

(** The client object of [k] in a client map, once created. *)
Definition clientOf (clients : gmap ClientIdType ConnectedClient) (k : CallbackType) (next : ClientId)
    : ConnectedClient :=
  match clients !! asBinder k with Some c => c | None => mkClient next k end.

Lemma getOrCreateClient_spec clients k next :
  (getOrCreateClient clients k next).2 = clientOf clients k next
  ∧ (getOrCreateClient clients k next).1.1 !! asBinder k = Some (clientOf clients k next).
Proof.
  unfold getOrCreateClient, clientOf. destruct (clients !! asBinder k) eqn:E; [done|].
  cbn. by rewrite lookup_insert_eq.
Qed.

Lemma monitor_pool k alive h :
  let r := monitorBinderLifeCycleLocked (asBinder k) alive h in
  r.2 = alive ∧ mPendingRequestPool r.1 = mPendingRequestPool h
  ∧ mGetValuesClients r.1 = mGetValuesClients h ∧ mSetValuesClients r.1 = mSetValuesClients h
  ∧ mNextAddress r.1 = mNextAddress h ∧ mSubscriptionManager r.1 = mSubscriptionManager h
  ∧ mConfigsByPropId r.1 = mConfigsByPropId h ∧ mConfigInit r.1 = mConfigInit h.
Proof. unfold monitorBinderLifeCycleLocked. by destruct (decide _). Qed.

(** C9: No request is lost and none is left behind, for [getValues] and
    [setValues] alike, whatever the hardware does: when the call returns ok,
    each of its requests has been answered on the client's callback or is
    pending (and will be answered by the hardware or by the timeout); when it
    returns an error, it leaves none of its requests pending; requests that
    fail the checks never become pending; other clients are not affected. *)
Theorem requests_answered_or_pending k gets sets now alive h :
  (let '(h', calls, st) := getValues (Some k) gets now alive h in
   accounted (clientOf (mGetValuesClients h) k (mNextAddress h))
     (list_to_set (gq_requestId <$> gets))
     (list_to_set (gq_requestId <$> filter (λ q, read_failure q h = None) gets)) h h' calls st)
  ∧ (let '(h', calls, st) := setValues (Some k) sets now alive h in
     accounted (clientOf (mSetValuesClients h) k (mNextAddress h))
       (list_to_set (sq_requestId <$> sets))
       (list_to_set (sq_requestId <$> filter (λ q, write_failure q h = None) sets)) h h' calls st).
Proof.
  pose proof (monitor_pool k alive h) as (M1 & M2 & M3 & M4 & M5 & _). split.
  - unfold getValues. destruct (checkDuplicateRequests _ _); [|by apply accounted_unchanged].
    rewrite split_requests_spec, !app_nil_l.
    destruct (monitorBinderLifeCycleLocked _ _ _) as [h1 b]. cbn [fst snd] in *. subst b.
    destruct alive; cbn [negb]; [|by apply accounted_unchanged].
    rewrite M3, M5. pose proof (getOrCreateClient_spec (mGetValuesClients h) k (mNextAddress h)) as [G1 _].
    destruct (getOrCreateClient _ _ _) as [[clients next] c]. cbn in G1. subst c.
    destruct (sendToHardware _ _ _ _ _ _ _) as [[h' calls] st] eqn:Es.
    eapply (accounted_send gq_requestId (λ q, read_failure q h) _ _ _ _ h
      (set_getClients (λ _, clients) next h1)); [|exact M2|exact Es].
    intros q r. unfold read_failure. destruct (checkReadPermission _ _); intros; by simplify_eq.
  - unfold setValues. destruct (checkDuplicateRequests _ _); [|by apply accounted_unchanged].
    rewrite split_requests_spec, !app_nil_l.
    destruct (monitorBinderLifeCycleLocked _ _ _) as [h1 b]. cbn [fst snd] in *. subst b.
    destruct alive; cbn [negb]; [|by apply accounted_unchanged].
    rewrite M4, M5. pose proof (getOrCreateClient_spec (mSetValuesClients h) k (mNextAddress h)) as [G1 _].
    destruct (getOrCreateClient _ _ _) as [[clients next] c]. cbn in G1. subst c.
    destruct (sendToHardware _ _ _ _ _ _ _) as [[h' calls] st] eqn:Es.
    eapply (accounted_send sq_requestId (λ q, write_failure q h) _ _ _ _ h
      (set_setClients (λ _, clients) next h1)); [|exact M2|exact Es].
    intros q r. unfold write_failure.
    destruct (checkWritePermission (sq_value q) h), (checkProperty (sq_value q) h);
      intros; by simplify_eq.
Qed.

(** ** Access checks *)

(** The access rule: the property is configured for this interface version,
    the area is configured (any area of a global property is), and the
    property or the area grants the access. *)
Definition access_granted (v : VehiclePropValue) (access : Z) h : Prop :=
  ∃ config, getConfig (prop v) h = Ok config
    ∧ (isGlobalProp (prop v) = true ∨ is_Some (getAreaConfigOf v config))
    ∧ (hasRequiredAccess (pc_access config) access = true
       ∨ ∃ a, getAreaConfigOf v config = Some a ∧ hasRequiredAccess (ac_access a) access = true).

Lemma checkPermissionHelper_spec v access h :
  access = VehiclePropertyAccess.WRITE ∨ access = VehiclePropertyAccess.READ
  ∨ access = VehiclePropertyAccess.READ_WRITE →
  (checkPermissionHelper v access h = Ok tt ↔ access_granted v access h)
  ∧ (checkPermissionHelper v access h = Err ACCESS_DENIED →
     ∃ config, getConfig (prop v) h = Ok config ∧ hasRequiredAccess (pc_access config) access = false).
Proof.
  intros Ha. unfold checkPermissionHelper, access_granted.
  assert ((access =? VehiclePropertyAccess.WRITE) || (access =? VehiclePropertyAccess.READ)
    || (access =? VehiclePropertyAccess.READ_WRITE) = true) as ->.
  { destruct Ha as [->|[->| ->]]; reflexivity. }
  cbn [negb]. destruct (getConfig (prop v) h) as [config|e].
  2:{ split; [split; [done|naive_solver]|done]. }
  destruct (getAreaConfigOf v config) as [a|] eqn:Ea.
  - destruct (hasRequiredAccess (pc_access config) access) eqn:E1,
      (hasRequiredAccess (ac_access a) access) eqn:E2; cbn; split; try naive_solver.
    split; [done|]. intros (c & Hc & _ & [?|(a' & ? & ?)]); simplify_eq; congruence.
  - destruct (isGlobalProp (prop v)) eqn:Eg; cbn.
    + destruct (hasRequiredAccess (pc_access config) access) eqn:E1; cbn; split; try naive_solver.
      split; [done|]. intros (c & Hc & _ & [?|(a & ? & ?)]); simplify_eq; congruence.
    + split; [|done]. split; [done|]. intros (c & Hc & [?|[? ?]] & _); simplify_eq; congruence.
Qed.

(** ** Subscribing through the HAL *)

(** The [propId, areaId]s of continuous properties, under the cached configurations. *)
Definition isContIn (configs : gmap Z VehiclePropConfig) (p : PropIdAreaId) : bool :=
  match configs !! pa_propId p with
  | Some config => changeMode config =? VehiclePropertyChangeMode.CONTINUOUS
  | None => false
  end.

(** Numbers where the interface asks for sample rates. *)
Definition rates_are_numbers (options : list SubscribeOptions) (configs : gmap Z VehiclePropConfig)
    : Prop :=
  (∀ o, o ∈ options → f32_is_nan (sampleRate o) = false)
  ∧ (∀ p config, configs !! p = Some config →
       f32_is_nan (minSampleRate config) = false ∧ f32_is_nan (maxSampleRate config) = false).

Lemma parse_option_ok configs (o o' : SubscribeOptions) (ic : bool) :
  o' ∈ (if ic then (parse_option configs o).2 else (parse_option configs o).1) →
  rates_are_numbers [o] configs →
  (∀ a, isContIn configs (mkPropIdAreaId (so_propId o') a) = ic)
  ∧ (ic = true → f32_is_nan (sampleRate o') = false).
Proof.
  intros Hin [Hn Hc]. specialize (Hn o ltac:(left)). revert Hin. unfold parse_option, isContIn.
  destruct (configs !! so_propId o) as [config|] eqn:Ec; [|by destruct ic; intros ?%elem_of_nil].
  destruct (Hc _ _ Ec) as [Hmin Hmax].
  set (areas := option_areas config o).
  assert (Hrate : f32_is_nan (getDefaultSampleRateHz (sampleRate o) (minSampleRate config) (maxSampleRate config)) = false).
  { unfold getDefaultSampleRateHz. repeat case_match; done. }
  destruct (changeMode config =? VehiclePropertyChangeMode.CONTINUOUS) eqn:Em.
  - assert (Hgoal : so_propId o' = so_propId o ∧ f32_is_nan (sampleRate o') = false →
      (∀ a, match configs !! pa_propId (mkPropIdAreaId (so_propId o') a) with
            | Some c => changeMode c =? VehiclePropertyChangeMode.CONTINUOUS | None => false end = true)
      ∧ (true = true → f32_is_nan (sampleRate o') = false)).
    { intros [Hp Hr]. split; [|done]. intros a. cbn. by rewrite Hp, Ec. }
    destruct ic.
    2:{ destruct (negb (enableVariableUpdateRate o)); by intros ?%elem_of_nil. }
    intros Hin. apply Hgoal.
    destruct (negb (enableVariableUpdateRate o)).
    + apply list_elem_of_singleton in Hin as ->. done.
    + apply elem_of_app in Hin as [Hin|Hin]; destruct (filter _ areas); cbn in Hin;
        try (by apply elem_of_nil in Hin); by apply list_elem_of_singleton in Hin as ->.
  - destruct ic; [by intros ?%elem_of_nil|]. cbn. intros ->%list_elem_of_singleton. cbn.
    split; [|done]. intros _. by rewrite Ec.
Qed.

Lemma parseSubscribeOptions_ok options configs (ic : bool) :
  rates_are_numbers options configs →
  options_ok (isContIn configs) ic
    (if ic then (parseSubscribeOptions options configs).2
     else (parseSubscribeOptions options configs).1).
Proof.
  induction options as [|o options IH]; intros [Hn Hc].
  { destruct ic; intros o ?%elem_of_nil; done. }
  cbn [parseSubscribeOptions].
  assert (Hn1 : rates_are_numbers [o] configs).
  { split; [|done]. intros o' ->%list_elem_of_singleton. apply Hn. left. }
  assert (Hn2 : rates_are_numbers options configs).
  { split; [|done]. intros o' Ho. apply Hn. by right. }
  specialize (IH Hn2). pose proof (λ o', parse_option_ok configs o o' ic) as Hone.
  destruct (parse_option configs o) as [c1 n1], (parseSubscribeOptions options configs) as [c2 n2].
  cbn [fst snd] in *. intros o' Hin.
  assert (Hcases : o' ∈ (if ic then n1 else c1) ∨ o' ∈ (if ic then n2 else c2)).
  { destruct ic; by apply elem_of_app in Hin. }
  destruct Hcases as [H1|H2]; [|by apply IH].
  destruct (Hone o' H1 Hn1) as [Ha Hr]. split; [|done]. intros a _. apply Ha.
Qed.

(** The areas an option asks for: area 0 of a global property; every configured
    area when none is listed; else the listed ones. *)
Definition area_asked (config : VehiclePropConfig) (o : SubscribeOptions) (a : Z) : Prop :=
  (isGlobalProp (so_propId o) = true → a = 0)
  ∧ (isGlobalProp (so_propId o) = false → so_areaIds o = [] →
     ∃ c, c ∈ areaConfigs config ∧ ac_areaId c = a)
  ∧ (isGlobalProp (so_propId o) = false → so_areaIds o ≠ [] → a ∈ so_areaIds o).

Lemma option_areas_asked config o a : a ∈ option_areas config o ↔ area_asked config o a.
Proof.
  unfold option_areas, area_asked. destruct (isGlobalProp (so_propId o)).
  - rewrite list_elem_of_singleton. naive_solver.
  - destruct (so_areaIds o) as [|x l] eqn:E; [|naive_solver].
    rewrite list_elem_of_fmap. naive_solver.
Qed.

(** The ids a list of options asks for, under the configurations. *)
Definition asked (options : list SubscribeOptions) (configs : gmap Z VehiclePropConfig)
    (p : PropIdAreaId) : Prop :=
  ∃ o config, o ∈ options ∧ configs !! so_propId o = Some config
    ∧ pa_propId p = so_propId o ∧ area_asked config o (pa_areaId p).

Lemma elem_of_requested p options :
  p ∈ requested options ↔ ∃ o, o ∈ options ∧ pa_propId p = so_propId o ∧ pa_areaId p ∈ so_areaIds o.
Proof.
  unfold requested. rewrite elem_of_list_to_set, list_elem_of_fmap. split.
  - intros ([o a] & -> & [Ho Ha]%elem_of_pairs). by exists o.
  - intros (o & Ho & Hp & Ha). exists (o, pa_areaId p). split; [|by apply elem_of_pairs].
    cbn. rewrite <-Hp. by destruct p.
Qed.

Lemma requested_app l1 l2 : requested (l1 ++ l2) = requested l1 ∪ requested l2.
Proof.
  apply set_eq. intros p. rewrite elem_of_union, !elem_of_requested.
  setoid_rewrite elem_of_app. naive_solver.
Qed.

Lemma parse_option_requested configs o config p :
  configs !! so_propId o = Some config →
  p ∈ requested (parse_option configs o).1 ∪ requested (parse_option configs o).2 ↔
  pa_propId p = so_propId o ∧ pa_areaId p ∈ option_areas config o.
Proof.
  intros Hc. unfold parse_option. rewrite Hc.
  assert (Hone : ∀ o', p ∈ requested [o'] ↔ pa_propId p = so_propId o' ∧ pa_areaId p ∈ so_areaIds o').
  { intros o'. rewrite elem_of_requested. split.
    - intros (x & ->%list_elem_of_singleton & H1 & H2). done.
    - intros [H1 H2]. exists o'. split; [by apply list_elem_of_singleton|done]. }
  assert (Hnil : requested [] = ∅) by done.
  destruct (changeMode config =? _).
  - destruct (negb (enableVariableUpdateRate o)); cbn [fst snd].
    + rewrite Hnil, elem_of_union, Hone. cbn. set_solver.
    + rewrite Hnil, requested_app, !elem_of_union.
      set (areas := option_areas config o). set (copy := mkSubscribeOptions _ areas _ _ _).
      assert (Hpart : ∀ (P : Z → Prop) `{∀ a, Decision (P a)} v o', so_propId o' = so_propId o →
        p ∈ requested (match filter P areas with [] => [] | _ :: _ => [withAreas (filter P areas) v o'] end) ↔
        pa_propId p = so_propId o ∧ pa_areaId p ∈ areas ∧ P (pa_areaId p)).
      { intros P HP v o' Ho'. rewrite <-Ho'.
        assert (Hf : pa_areaId p ∈ filter P areas ↔ pa_areaId p ∈ areas ∧ P (pa_areaId p))
          by (rewrite list_elem_of_filter; tauto).
        rewrite <-Hf. destruct (filter P areas) as [|x l]; [|exact (Hone (withAreas (x :: l) v o'))].
        rewrite Hnil. set_solver. }
      rewrite (Hpart (λ a, vur_supported config (so_propId o) a = true) _ true copy eq_refl).
      rewrite (Hpart (λ a, vur_supported config (so_propId o) a ≠ true) _ false copy eq_refl). destruct (decide (vur_supported config (so_propId o) (pa_areaId p) = true)); set_solver.
  - cbn [fst snd]. rewrite Hnil, elem_of_union, Hone. cbn. set_solver.
Qed.

Lemma parse_requested configs options p :
  p ∈ requested (parseSubscribeOptions options configs).1
      ∪ requested (parseSubscribeOptions options configs).2 ↔ asked options configs p.
Proof.
  unfold asked. setoid_rewrite <-option_areas_asked. induction options as [|o options IH].
  { cbn. unfold requested. cbn. split; [set_solver|]. intros (o & config & Ho & _). by apply elem_of_nil in Ho. }
  cbn [parseSubscribeOptions].
  pose proof (λ config, parse_option_requested configs o config p) as Ho.
  assert (Hno : configs !! so_propId o = None → parse_option configs o = ([], [])).
  { intros Hn. unfold parse_option. by rewrite Hn. }
  destruct (parse_option configs o) as [c1 n1], (parseSubscribeOptions options configs) as [c2 n2].
  cbn [fst snd] in *. rewrite !requested_app.
  setoid_rewrite elem_of_cons.
  destruct (configs !! so_propId o) as [config|] eqn:Ec.
  - specialize (Ho config eq_refl). split.
    + intros Hp. assert (Hcases : p ∈ requested c1 ∪ requested n1 ∨ p ∈ requested c2 ∪ requested n2) by (clear -Hp; set_solver).
      destruct Hcases as [Hp'|Hp']; [apply Ho in Hp'; naive_solver|apply IH in Hp'; naive_solver].
    + intros (o' & config' & [->|Hin] & Hc & Hrest).
      * rewrite Ec in Hc. simplify_eq. apply Ho in Hrest. clear -Hrest. set_solver.
      * assert (Hp : p ∈ requested c2 ∪ requested n2) by (apply IH; naive_solver). clear -Hp. set_solver.
  - specialize (Hno eq_refl). injection Hno as -> ->. split.
    + intros Hp. assert (Hp' : p ∈ requested c2 ∪ requested n2).
      { clear -Hp. unfold requested at 1 3 in Hp. set_solver. }
      apply IH in Hp'. naive_solver.
    + intros (o' & config' & [->|Hin] & Hc & Hrest); [congruence|].
      assert (Hp : p ∈ requested c2 ∪ requested n2) by (apply IH; naive_solver). clear -Hp. set_solver.
Qed.

(** The subscription manager in any history, and in an orderly one. *)
Notation reached := (sub_reachable ub_cast log10f asBinder hash_order).
Notation managed := (orderly ub_cast log10f asBinder hash_order).

Lemma manager_subscribe_spec k options ic h h' r :
  manager_subscribe k options ic h = (h', r) →
  (∀ other (d0 : HS), reached other d0 (mSubscriptionManager h) → reached other d0 (mSubscriptionManager h'))
  ∧ (∀ isc other (d0 : HS), options_ok isc ic options →
       managed isc other d0 (mSubscriptionManager h) → managed isc other d0 (mSubscriptionManager h'))
  ∧ mConfigsByPropId h' = mConfigsByPropId h
  ∧ ∃ D, D ⊆ requested options ∧ (is_ok r = true → D = requested options)
      ∧ ∀ q, clientsOf q (mSubscriptionManager h') =
          if decide (q ∈ D) then <[asBinder k := k]> (clientsOf q (mSubscriptionManager h))
          else clientsOf q (mSubscriptionManager h).
Proof using Type.
  unfold manager_subscribe, manager_call.
  destruct options as [|o l] eqn:El.
  { intros He. injection He as <- <-. split_and!; [done|done|done|]. exists ∅. split_and!; [done|done|].
    intros q. by rewrite decide_False by set_solver. }
  rewrite <-El in *. clear El o l. intros He.
  pose proof (subscribe_added ub_cast log10f asBinder k options ic (mSubscriptionManager h)) as (D & D1 & D2 & D3 & _).
  destruct (SubscriptionManager.subscribe ub_cast log10f asBinder k options ic (mSubscriptionManager h))
    as [m r'] eqn:Es. injection He as <- <-.
  cbn [mSubscriptionManager set_manager mConfigsByPropId fst snd] in *.
  assert (Hm : m = (SubscriptionManager.subscribe ub_cast log10f asBinder k options ic (mSubscriptionManager h)).1)
    by (by rewrite Es).
  split_and!; [| |done|by exists D].
  - intros other d0 Hr. apply (sr_step _ _ _ _ _ _ _ _ Hr). rewrite Hm. constructor.
  - intros isc other d0 Ho Hr. apply (or_step _ _ _ _ _ _ _ _ _ Hr). rewrite Hm. by constructor.
Qed.

(** C10: Subscribing through the HAL, in any state of it, with any options, over
    any hardware.  A refused list of options leaves the subscription manager as
    it was.  A call that returns ok has added the client, with its callback, to
    exactly the [propId, areaId]s the options ask for under the cached
    configurations: area 0 of a global property, every configured area when no
    area is listed, else the listed areas; one that fails may have added it to
    some of them; to other ids, and for other clients, nothing changes.  The
    manager stays in a state it can reach; and when the sample rates of the
    options and of the configurations are numbers (not NaN), it stays in an
    orderly history, the kind of each property taken from the configurations. *)
Theorem hal_subscribe_sound k options alive h h' st :
  let configs := mConfigsByPropId (getConfigsByPropId h) in
  subscribe (Some k) options alive h = (h', st) →
  (∀ e, checkSubscribeOptions options configs = Err e →
       st = ServiceSpecific e ∧ mSubscriptionManager h' = mSubscriptionManager h)
  ∧ (∀ q c, c ≠ asBinder k →
       clientsOf q (mSubscriptionManager h') !! c = clientsOf q (mSubscriptionManager h) !! c)
  ∧ (∀ q, asked options configs q → st = StatusOk →
       clientsOf q (mSubscriptionManager h') !! asBinder k = Some k)
  ∧ (∀ q, ¬ asked options configs q →
       clientsOf q (mSubscriptionManager h') = clientsOf q (mSubscriptionManager h))
  ∧ (∀ other (d0 : HS), reached other d0 (mSubscriptionManager h) → reached other d0 (mSubscriptionManager h'))
  ∧ (∀ other (d0 : HS), rates_are_numbers options configs →
       managed (isContIn configs) other d0 (mSubscriptionManager h) →
       managed (isContIn configs) other d0 (mSubscriptionManager h')).
Proof using Type.
  intros configs. unfold subscribe.
  set (h1 := getConfigsByPropId h) in *.
  assert (Hm1 : mSubscriptionManager h1 = mSubscriptionManager h).
  { subst h1. unfold getConfigsByPropId. by destruct (mConfigInit h). }
  fold configs. destruct (checkSubscribeOptions options configs) as [[]|e] eqn:Hck.
  2:{ intros He. injection He as <- <-. rewrite Hm1. split_and!; [|done|done|done|done|done].
      intros e' [= <-]. done. }
  pose proof (λ q, parse_requested configs options q) as Hreq.
  pose proof (λ Hn, parseSubscribeOptions_ok options configs false Hn) as Hok1.
  pose proof (λ Hn, parseSubscribeOptions_ok options configs true Hn) as Hok2.
  destruct (parseSubscribeOptions options configs) as [l1 l2]. cbn [fst snd] in *.
  pose proof (monitor_pool k alive h1) as (M1 & _ & _ & _ & _ & M6 & M7 & _).
  destruct (monitorBinderLifeCycleLocked (asBinder k) alive h1) as [h2 b]. cbn [fst snd] in *. subst b.
  rewrite Hm1 in M6.
  destruct alive; cbn [negb].
  2:{ intros He. injection He as <- <-. rewrite M6. split_and!; try done. }
  destruct (manager_subscribe k l1 false h2) as [h3 r1] eqn:E1.
  apply manager_subscribe_spec in E1 as (R1 & O1' & C1 & D1 & S1 & O1 & A1). rewrite M6 in R1, O1', A1.
  assert (Hins : ∀ q c, c ≠ asBinder k → clientsOf q (mSubscriptionManager h3) !! c
    = clientsOf q (mSubscriptionManager h) !! c).
  { intros q c Hc. rewrite A1. destruct (decide (q ∈ D1)); [by rewrite lookup_insert_ne|done]. }
  destruct r1 as [[]|e].
  - destruct (manager_subscribe k l2 true h3) as [h4 r2] eqn:E2.
    apply manager_subscribe_spec in E2 as (R2 & O2' & C2 & D2 & S2 & O2 & A2).
    intros He. injection He as <- <-. rewrite (O1 eq_refl) in *. split_and!; [done| | | | |].
    + intros q c Hc. rewrite A2. destruct (decide (q ∈ D2)); [rewrite lookup_insert_ne by done|]; by apply Hins.
    + intros q Hq Hst. destruct r2 as [[]|e]; [|done]. rewrite (O2 eq_refl) in *.
      rewrite A2. apply Hreq, elem_of_union in Hq.
      destruct (decide (q ∈ requested l2)); [by rewrite lookup_insert_eq|]. rewrite A1.
      rewrite decide_True by (clear -Hq n; tauto). by rewrite lookup_insert_eq.
    + intros q Hq. rewrite A2, A1. rewrite <-Hreq in Hq.
      rewrite !decide_False; [done| |]; clear -Hq S2; set_solver.
    + intros other d0 Hr. by apply R2, R1.
    + intros other d0 Hn Hr. apply O2'; [by apply Hok2|]. apply O1'; [by apply Hok1|done].
  - intros He. injection He as <- <-. split_and!; [done|done|done| |done|].
    + intros q Hq. rewrite A1. rewrite <-Hreq in Hq. rewrite decide_False; [done|]. clear -Hq S1. set_solver.
    + intros other d0 Hn Hr. apply O1'; [by apply Hok1|done].
Qed.

(** ** The death of a client *)

(** Handling the death of a client whose hardware subscriptions can be undone
    leaves no trace of it in the manager or in the client maps. *)
Lemma binder_died_forgets_client `{!HardwareLaws HS, !SupportedLaws HS} c isc other (d0 : HS) h m' :
  (∀ x, hash_order x ≡ₚ elements x) →
  hw_active d0 = ∅ → hw_activeSupported d0 = ∅ →
  (∀ a b : HS, other a b → hw_active b = hw_active a ∧ hw_activeSupported b = hw_activeSupported a) →
  managed isc other d0 (mSubscriptionManager h) →
  unsubscribeAll hash_order c (mSubscriptionManager h) = (m', Ok tt) →
  let h' := onBinderDiedWithContext c h in
  mGetValuesClients h' !! c = None ∧ mSetValuesClients h' !! c = None
  ∧ (∀ q, clientsOf q (mSubscriptionManager h') = delete c (clientsOf q (mSubscriptionManager h)))
  ∧ (∀ q, supClientsOf q (mSubscriptionManager h') = delete c (supClientsOf q (mSubscriptionManager h)))
  ∧ managed isc other d0 (mSubscriptionManager h').
Proof.
  intros Hho H1 H2 Hother Hm He h'. subst h'. unfold onBinderDiedWithContext.
  assert (Hi : mgr_inv asBinder isc (mSubscriptionManager h)).
  { eapply orderly_inv; [done|exact H1|intros a b Ho; apply (Hother a b Ho)|exact Hm]. }
  assert (Hs : sup_inv (mSubscriptionManager h)).
  { eapply reachable_sup; [done|exact H2|intros a b Ho; apply (Hother a b Ho)|by eapply orderly_reachable]. }
  assert (U1 : ∀ q, clientsOf q m' = delete c (clientsOf q (mSubscriptionManager h)))
    by (by eapply unsubscribeAll_mgr_inv).
  assert (U2 : ∀ q, supClientsOf q m' = delete c (supClientsOf q (mSubscriptionManager h)))
    by (by eapply unsubscribeAll_supported).
  change (mSubscriptionManager (set_getClients _ _ _)) with (mSubscriptionManager h).
  rewrite He. cbn [mGetValuesClients mSetValuesClients mSubscriptionManager set_manager set_getClients set_setClients fst].
  split_and!; [apply lookup_delete_eq|apply lookup_delete_eq|done|done|].
  eapply or_step; [exact Hm|]. by eapply os_unsubscribeAll.
Qed.

(** ** Routing of supported-value requests *)

Section routing.
Context {R : Type} (wanted : HasSupportedValueInfo → bool) (empty invalid none : R) (h : Hal HS)
  (f : PropIdAreaId → R).

(** Whether a request goes to the hardware, and its answer on its own. *)
Definition goes_to_hardware (p : PropIdAreaId) : bool :=
  match getHasSupportedValueInfo (pa_propId p) (pa_areaId p) h with
  | Ok info => wanted info
  | Err _ => false
  end.
Definition answer_alone (p : PropIdAreaId) : R :=
  match getHasSupportedValueInfo (pa_propId p) (pa_areaId p) h with
  | Err _ => invalid
  | Ok info => if wanted info then f p else none
  end.

Lemma take_S_insert (k : nat) (x : R) (l : list R) :
  (k < length l)%nat → take (S k) (<[k := x]> l) = take k l ++ [x].
Proof.
  intros Hk. rewrite (take_S_r _ _ x) by (by apply list_lookup_insert_eq).
  by rewrite take_insert_ge by lia.
Qed.

Lemma scatter_insert (k : nat) (x : R) cs answers l :
  Forall (λ c, S k ≤ c)%nat cs → scatter cs answers (<[k := x]> l) = <[k := x]> (scatter cs answers l).
Proof.
  intros Hcs. revert answers l. induction Hcs as [|c cs Hc _ IH]; intros [|a answers] l; try done.
  cbn [scatter]. rewrite list_insert_insert_ne by lia. apply IH.
Qed.

Lemma split_supported_spec ids k results counters hwIds :
  length results = (k + length ids)%nat →
  ∃ cs results', split_supported wanted invalid none ids k h results counters hwIds
    = (results', counters ++ cs, hwIds ++ filter (λ p, goes_to_hardware p = true) ids)
  ∧ Forall (λ c, k ≤ c)%nat cs
  ∧ length cs = length (filter (λ p, goes_to_hardware p = true) ids)
  ∧ length results' = length results
  ∧ scatter cs (f <$> filter (λ p, goes_to_hardware p = true) ids) results'
    = take k results ++ (answer_alone <$> ids).
Proof.
  revert k results counters hwIds. induction ids as [|p ids IH]; intros k results counters hwIds Hlen.
  { exists [], results. cbn in *. rewrite !app_nil_r. split_and!; [done|constructor|done|done|].
    rewrite take_ge by lia. done. }
  cbn [length] in Hlen. cbn [split_supported fmap list_fmap]. rewrite filter_cons.
  assert (Hweak : ∀ cs, Forall (λ c, S k ≤ c)%nat cs → Forall (λ c, k ≤ c)%nat cs).
  { intros cs HF. eapply Forall_impl; [exact HF|]. intros c Hc. cbn in *. lia. }
  assert (Hshift : ∀ x cs results', 
    scatter cs (f <$> filter (λ p, goes_to_hardware p = true) ids) results'
      = take (S k) (<[k := x]> results) ++ (answer_alone <$> ids) →
    scatter cs (f <$> filter (λ p, goes_to_hardware p = true) ids) results'
      = take k results ++ x :: (answer_alone <$> ids)).
  { intros x cs results' ->. rewrite take_S_insert by lia. by rewrite <-app_assoc. }
  assert (Hg : goes_to_hardware p = match getHasSupportedValueInfo (pa_propId p) (pa_areaId p) h with
    Ok info => wanted info | Err _ => false end) by done.
  assert (Ha : answer_alone p = match getHasSupportedValueInfo (pa_propId p) (pa_areaId p) h with
    Err _ => invalid | Ok info => if wanted info then f p else none end) by done.
  rewrite Ha. destruct (getHasSupportedValueInfo (pa_propId p) (pa_areaId p) h) as [info|e].
  - destruct (wanted info).
    + rewrite decide_True by done. destruct (IH (S k) results (counters ++ [k]) (hwIds ++ [p])) as (cs & results' & E1 & E2 & E3 & E4 & E5); [lia|].
      exists (k :: cs), results'. rewrite E1, <-!app_assoc. split_and!; [done| | |done|].
      * constructor; [lia|by apply Hweak].
      * cbn. by rewrite E3.
      * cbn [fmap list_fmap scatter]. rewrite scatter_insert by done. rewrite E5.
        destruct (lookup_lt_is_Some_2 results k) as [y Hy]; [lia|].
        rewrite (take_S_r _ _ y) by done. rewrite <-app_assoc. cbn [app].
        rewrite insert_app_r_alt by (rewrite length_take; lia).
        rewrite length_take. replace (k - k `min` length results)%nat with 0%nat by lia. done.
    + rewrite decide_False by congruence. destruct (IH (S k) (<[k := none]> results) counters hwIds) as (cs & results' & E1 & E2 & E3 & E4 & E5);
        [rewrite length_insert; lia|].
      exists cs, results'. rewrite E1. split_and!; [done|by apply Hweak|done|by rewrite E4, length_insert|].
      by apply Hshift.
  - rewrite decide_False by congruence. destruct (IH (S k) (<[k := invalid]> results) counters hwIds) as (cs & results' & E1 & E2 & E3 & E4 & E5);
      [rewrite length_insert; lia|].
    exists cs, results'. rewrite E1. split_and!; [done|by apply Hweak|done|by rewrite E4, length_insert|].
    by apply Hshift.
Qed.

(** The whole getter: each request gets its own answer, in the order of the
    requests; a hardware that returns a wrong number of answers is an error. *)
Lemma getSupported_spec call ids :
  let toHardware := filter (λ p, goes_to_hardware p = true) ids in
  (toHardware ≠ [] → (call toHardware (hal_hardware h)).2 = f <$> toHardware →
     (getSupported wanted empty invalid none call ids h).2 = (StatusOk, answer_alone <$> ids))
  ∧ (toHardware = [] →
     getSupported wanted empty invalid none call ids h = (h, (StatusOk, answer_alone <$> ids)))
  ∧ (toHardware ≠ [] → length (call toHardware (hal_hardware h)).2 ≠ length toHardware →
     (getSupported wanted empty invalid none call ids h).2 = (ServiceSpecific INTERNAL_ERROR, [])).
Proof.
  intros toHardware. unfold getSupported.
  destruct (split_supported_spec ids 0 (vec_resize empty (length ids) []) [] [])
    as (cs & results' & E1 & E2 & E3 & E4 & E5); [by rewrite length_vec_resize|].
  rewrite E1, !app_nil_l. fold toHardware in E3, E5 |- *. cbn [take app] in E5.
  split_and!.
  - intros Hne Hcall. destruct toHardware as [|p l] eqn:El; [done|]. rewrite <-El in *.
    destruct (call toHardware (hal_hardware h)) as [x answers]. cbn [snd] in Hcall. subst answers.
    rewrite length_fmap, <-E3, Nat.eqb_refl. cbn. by rewrite E5.
  - intros ->. destruct cs; [|done]. cbn in E5. by rewrite E5.
  - intros Hne Hlen. destruct toHardware as [|p l] eqn:El; [done|]. rewrite <-El in *.
    destruct (call toHardware (hal_hardware h)) as [x answers]. cbn [snd] in Hlen.
    rewrite E3. by destruct (Nat.eqb_spec (length answers) (length toHardware)).
Qed.
End routing.

(** The supported-value getters answer every request on its own, in the
    order of the requests: [INVALID_ARG] without a configuration that says
    which values are supported, an empty answer when none of the asked kind
    is, else the hardware's answer for that [propId, areaId]; a hardware that
    returns a wrong number of answers yields [INTERNAL_ERROR]. *)
Theorem supported_values_routed ids h (lists : PropIdAreaId → SupportedValuesListResult)
    (minmax : PropIdAreaId → MinMaxSupportedValueResult) :
  (∀ l x, (hw_getSupportedValuesLists l x).2 = lists <$> l) →
  (∀ l x, (hw_getMinMaxSupportedValues l x).2 = minmax <$> l) →
  (getSupportedValuesLists ids h).2 = (StatusOk,
     answer_alone hasSupportedValuesList (mkSupportedValuesListResult INVALID_ARG None)
       (mkSupportedValuesListResult OK None) h lists <$> ids)
  ∧ (getMinMaxSupportedValue ids h).2 = (StatusOk,
     answer_alone (λ i, hasMinSupportedValue i || hasMaxSupportedValue i)
       (mkMinMaxSupportedValueResult INVALID_ARG None None)
       (mkMinMaxSupportedValueResult OK None None) h minmax <$> ids).
Proof.
  intros H1 H2. unfold getSupportedValuesLists, getMinMaxSupportedValue. split.
  - destruct (getSupported_spec hasSupportedValuesList (mkSupportedValuesListResult OK None)
      (mkSupportedValuesListResult INVALID_ARG None) (mkSupportedValuesListResult OK None) h lists
      hw_getSupportedValuesLists ids) as (G1 & G2 & _).
    destruct (decide (filter (λ p, goes_to_hardware hasSupportedValuesList h p = true) ids = [])) as [He|He];
      [by rewrite G2|by apply G1].
  - destruct (getSupported_spec (λ i, hasMinSupportedValue i || hasMaxSupportedValue i)
      (mkMinMaxSupportedValueResult OK None None) (mkMinMaxSupportedValueResult INVALID_ARG None None)
      (mkMinMaxSupportedValueResult OK None None) h minmax
      hw_getMinMaxSupportedValues ids) as (G1 & G2 & _).
    destruct (decide (filter (λ p, goes_to_hardware (λ i, hasMinSupportedValue i || hasMaxSupportedValue i) h p = true) ids = [])) as [He|He];
      [by rewrite G2|by apply G1].
Qed.
End hal.

(** ** Concrete instances *)

Section examples.
(** A hardware with one global continuous property and one global on-change
    one, which answers every value request with two separate results. *)
Definition ex_info : HasSupportedValueInfo := mkHasSupportedValueInfo true false true.
Definition ex_area : VehicleAreaConfig :=
  mkAreaConfig 0 0 0 0 0 f32_zero f32_zero None VehiclePropertyAccess.READ true (Some ex_info).
(** Vendor, global, INT32. *)
Definition ex_prop (i : Z) : Z := 0x21400000 + i.
Definition ex_config (i mode : Z) : VehiclePropConfig :=
  mkPropConfig (ex_prop i) VehiclePropertyAccess.READ_WRITE mode [ex_area] [] (stringValue emptyRaw)
    (f32_of_Z 1) (f32_of_Z 100).
Definition ex_configs : list VehiclePropConfig :=
  [ex_config 1 VehiclePropertyChangeMode.CONTINUOUS; ex_config 2 VehiclePropertyChangeMode.ON_CHANGE].
Definition ex_result (q : GetValueRequest) : GetValueResult :=
  mkGetValueResult (gq_requestId q) OK (Some (gq_prop q)).
Definition ex_lists (p : PropIdAreaId) : SupportedValuesListResult := mkSupportedValuesListResult OK (Some []).
Definition ex_minmax (p : PropIdAreaId) : MinMaxSupportedValueResult :=
  mkMinMaxSupportedValueResult OK (Some emptyRaw) None.

#[local] Instance simple_values : ValueHardware SimpleHardware := {|
  hw_getAllPropertyConfigs h := ex_configs;
  hw_getPropertyConfig p h := default_getPropertyConfig p ex_configs;
  hw_getValues l h := (h, OK, map (λ q, [ex_result q]) l);
  hw_setValues l h := (h, OK, []);
  hw_getSupportedValuesLists l h := (h, ex_lists <$> l);
  hw_getMinMaxSupportedValues l h := (h, ex_minmax <$> l);
  hw_checkHealth h := (h, OK)
|}.

Definition ex_hal : Hal SimpleHardware := newHal (mkSimpleHardware ∅ ∅ ∅) false.
Definition ex_versions (p : Z) : option Z := None.
Definition ex_lt (a b : VehiclePropValue) : bool :=
  (prop a <? prop b) || ((prop a =? prop b) && (timestamp a <? timestamp b)).
Definition ex_options : list SubscribeOptions :=
  [mkSubscribeOptions (ex_prop 1) [] (f32_of_Z 10) f32_zero true;
   mkSubscribeOptions (ex_prop 2) [] f32_zero f32_zero false].
Definition ex_cont : PropIdAreaId → bool :=
  isContIn (mConfigsByPropId (getConfigsByPropId ex_versions 4 0 ex_hal)).

Notation ex_managed := (orderly (λ _, 0) (λ x, f32_zero) (λ k, k) elements ex_cont (λ _ _, False)
  (mkSimpleHardware ∅ ∅ ∅)).

Theorem hal_subscribe_sound_witness :
  let r := subscribe (λ _, 0) (λ x, f32_zero) (λ k, k) ex_versions 4 0 (Some 7) ex_options true ex_hal in
  ex_managed (mSubscriptionManager r.1)
  ∧ r.2 = StatusOk
  ∧ clientsOf (mkPropIdAreaId (ex_prop 1) 0) (mSubscriptionManager r.1) = {[7 := 7]}.
Proof.
  intros r. split; [|split; vm_compute; reflexivity].
  destruct (hal_subscribe_sound (λ _, 0) (λ x, f32_zero) (λ k, k) elements ex_versions 4 0
    7 ex_options true ex_hal r.1 r.2 (surjective_pairing _)) as (_ & _ & _ & _ & _ & Hm).
  apply Hm; [|apply or_new]. split.
  - apply (Forall_forall (λ o, f32_is_nan (sampleRate o) = false)). repeat constructor.
  - apply (map_Forall_to_list (λ _ config, f32_is_nan (minSampleRate config) = false
      ∧ f32_is_nan (maxSampleRate config) = false)).
    vm_compute. repeat constructor.
Defined.

Theorem supported_values_routed_witness :
  (getSupportedValuesLists ex_versions 4 0
     [mkPropIdAreaId 3 0; mkPropIdAreaId (ex_prop 1) 0] ex_hal).2
  = (StatusOk, [mkSupportedValuesListResult INVALID_ARG None; mkSupportedValuesListResult OK (Some [])]).
Proof.
  refine (eq_trans (proj1 (supported_values_routed ex_versions 4 0
    [mkPropIdAreaId 3 0; mkPropIdAreaId (ex_prop 1) 0] ex_hal ex_lists ex_minmax _ _)) _);
    reflexivity.
Defined.

(** ** Where the code departs from its documentation *)

Definition ex_get (i p t : Z) : GetValueRequest :=
  mkGetValueRequest i (mkPropValue t 0 (ex_prop p) 0 emptyRaw).
Notation ex_getValues := (getValues (λ k, k) ex_versions ex_lt 4 0).

(** Two requests of one call may carry the same id: the duplicate check looks
    at the properties only.  The second result is then dropped, because its id
    is no longer pending. *)
Lemma duplicate_request_ids_accepted :
  let '(h, calls, st) := ex_getValues (Some 7) [ex_get 1 1 0; ex_get 1 2 0] 0 true ex_hal in
  st = StatusOk ∧ calls = [(7, onGetValues [ex_result (ex_get 1 1 0)])]
  ∧ pending (mPendingRequestPool h) 0%nat = ∅.
Proof. vm_compute. done. Qed.

(** Two requests for the same property and area are accepted when the values
    in the requests differ elsewhere, here in the timestamp. *)
Lemma duplicate_properties_accepted :
  (ex_getValues (Some 7) [ex_get 1 1 0; ex_get 2 1 5] 0 true ex_hal).2 = StatusOk.
Proof. vm_compute. done. Qed.

(** A NaN sample rate passes the checks of the HAL as well. *)
Lemma nan_sample_rate_accepted_by_hal :
  checkSubscribeOptions (λ _, 0) (λ x, f32_zero)
    [mkSubscribeOptions (ex_prop 1) [] S754_nan f32_zero true]
    (mConfigsByPropId (getConfigsByPropId ex_versions 4 0 ex_hal)) = Ok tt.
Proof. vm_compute. done. Qed.

(** Registering for supported-value changes with a null callback dereferences
    it; the other methods answer [EX_NULL_POINTER]. *)
Lemma null_callback_dereferenced :
  registerSupportedValueChangeCallback (λ k, k) ex_versions 4 0 None
    [mkPropIdAreaId (ex_prop 1) 0] true ex_hal = None.
Proof. vm_compute. done. Qed.
End examples.
