(* ===== verification/HalDump.v ===== *)
(** * DefaultVehicleHal: the dump command

    Models [dump] of [DefaultVehicleHal.cpp], the command line behind the
    service: who may call it, what it passes to the hardware, the reload of the
    configurations the hardware may ask for, and the state it reports.  The
    text of the hardware is whatever the hardware returns. *)

From stdpp Require Import base gmap sets list strings.
From Stdlib Require Import ZArith Lia.
From S2P Require Import Prelude Float32 VehicleTypes VehicleUtils PendingRequestPool ConcurrentQueue.
From S2P Require Import VehicleHardware SubscriptionManager ConnectedClient DefaultVehicleHal.

Local Open Scope Z_scope.

(** [IVehicleHardware::dump] and its result, with a buffer of any type. *)
Record DumpResult (B : Type) : Type := mkDumpResult {
  callerShouldDumpState : bool;
  buffer : B;
  refreshPropertyConfigs : bool;
}.
Arguments mkDumpResult {B}.
Arguments callerShouldDumpState {B}.
Arguments buffer {B}.
Arguments refreshPropertyConfigs {B}.

Class DumpHardware (HS B : Type) := hw_dump : list string → HS → HS * DumpResult B.

Definition AID_ROOT : Z := 0.
Definition AID_SYSTEM : Z := 1000.
Definition AID_SHELL : Z := 2000.

Definition checkDumpPermission (uid : Z) : bool := (uid =? AID_ROOT) || (uid =? AID_SHELL) || (uid =? AID_SYSTEM).

(** The lines under "Vehicle HAL State". *)
Record HalState : Type := mkHalState {
  st_interfaceVersion : Z;
  st_configs : nat;
  st_getValuesClients : nat;
  st_setValuesClients : nat;
  st_subscribeClients : nat;
  st_supportedValuesClients : nat;
}.

Inductive DumpOutput (B : Type) : Type :=
| PermissionDenied
| Dumped (text : B) (state : option HalState).
Arguments PermissionDenied {B}.
Arguments Dumped {B}.

Section dump.
  Context {HS B : Type} `{Hardware HS, !ValueHardware HS, !DumpHardware HS B}.
  Context (VersionForVehicleProperty : Z → option Z) (interfaceVersion testInterfaceVersion : Z).
  Implicit Types (h : Hal HS).

Local Abbreviation reload := (getAllPropConfigsFromHardwareLocked VersionForVehicleProperty interfaceVersion testInterfaceVersion).

Definition halState h : HalState :=
  mkHalState (getVhalInterfaceVersion interfaceVersion testInterfaceVersion) (size (mConfigsByPropId h))
    (size (mGetValuesClients h)) (size (mSetValuesClients h))
    (countPropertyChangeClients (mSubscriptionManager h)) (countSupportedValueChangeClients (mSubscriptionManager h)).

(** The options passed on: a bug report asks for ["-a"]. *)
Definition hardwareOptions (args : list string) : list string :=
  match args with
  | [a] => if String.eqb a "-a" then [] else args
  | _ => args
  end.

Definition dump (uid : Z) (args : list string) h : Hal HS * DumpOutput B :=
  if negb (checkDumpPermission uid) then (h, PermissionDenied)
  else
    let '(x, result) := hw_dump (hardwareOptions args) (hal_hardware h) in
    let h := set_hal_hardware x h in
    let h := if refreshPropertyConfigs result then reload h else h in
    if negb (callerShouldDumpState result) then (h, Dumped (buffer result) None)
    else
      let h := getConfigsByPropId VersionForVehicleProperty interfaceVersion testInterfaceVersion h in
      (h, Dumped (buffer result) (Some (halState h))).

(** ** What a dump changes *)

Lemma store_configs_lookup l m p : store_configs l m !! p =
  match last (filter (λ c, pc_prop c = p) l) with Some c => Some c | None => m !! p end.
Proof.
  revert m. induction l as [|c l IH]; intros m; [done|]. cbn [store_configs]. rewrite IH, filter_cons.
  destruct (decide (pc_prop c = p)) as [<-|Hne].
  - rewrite last_cons. destruct (last _); [done|]. by rewrite lookup_insert_eq.
  - destruct (last _); [done|]. by rewrite lookup_insert_ne.
Qed.

Definition supported (c : VehiclePropConfig) : bool :=
  isConfigSupportedForCurrentVhalVersion VersionForVehicleProperty interfaceVersion testInterfaceVersion c.

(** The configuration the hardware declares for a property, if this version of
    the interface supports it. *)
Definition declared (x : HS) (p : Z) : option VehiclePropConfig :=
  last (filter (λ c, pc_prop c = p) (filter (λ c, supported c = true) (hw_getAllPropertyConfigs x))).

Lemma reload_lookup h p : mConfigsByPropId (reload h) !! p =
  match declared (hal_hardware h) p with Some c => Some c | None => mConfigsByPropId h !! p end.
Proof. apply store_configs_lookup. Qed.

(** A dump by a caller without permission changes nothing.  By any other it
    runs the command of the hardware and touches nothing else of the HAL but
    the configurations: when the hardware asks for it, those the hardware
    declares now replace the old ones of the same properties, and a property
    that the hardware no longer declares keeps the configuration it had. *)
Theorem hal_dump_effect uid args h h' out :
  mConfigInit h = true → dump uid args h = (h', out) →
  (checkDumpPermission uid = false ∧ h' = h ∧ out = PermissionDenied) ∨
  (checkDumpPermission uid = true ∧
   let '(x, result) := hw_dump (hardwareOptions args) (hal_hardware h) in
   hal_hardware h' = x ∧
   mGetValuesClients h' = mGetValuesClients h ∧ mSetValuesClients h' = mSetValuesClients h ∧
   mPendingRequestPool h' = mPendingRequestPool h ∧ mConfigInit h' = true ∧
   (∀ p, mConfigsByPropId h' !! p =
      if refreshPropertyConfigs result
      then match declared x p with Some c => Some c | None => mConfigsByPropId h !! p end
      else mConfigsByPropId h !! p) ∧
   out = Dumped (buffer result) (if callerShouldDumpState result then Some (halState h') else None)).
Proof.
  intros Hinit. unfold dump. destruct (checkDumpPermission uid); cbn [negb]; [|intros [= <- <-]; by left].
  destruct (hw_dump _ _) as [x result]. intros Hd. right. split; [done|].
  set (h1 := set_hal_hardware x h) in Hd. set (h2 := if refreshPropertyConfigs result then reload h1 else h1) in Hd.
  assert (Hinit2 : mConfigInit h2 = true) by (unfold h2; by destruct (refreshPropertyConfigs result)).
  assert (h' = h2 ∧ out = Dumped (buffer result) (if callerShouldDumpState result then Some (halState h2) else None)) as [-> ->].
  { destruct (callerShouldDumpState result); cbn [negb] in Hd; [|by injection Hd as <- <-].
    unfold getConfigsByPropId in Hd. rewrite Hinit2 in Hd. by injection Hd as <- <-. }
  split_and!; [by unfold h2; destruct (refreshPropertyConfigs result)..|done| |done].
  intros p. unfold h2. destruct (refreshPropertyConfigs result); [|done]. rewrite reload_lookup. done.
Qed.

End dump.

(** ** A hardware whose configurations come and go *)

(** It has one more property while it is switched on. *)
Record Switched : Type := mkSwitched { switched_on : bool }.

Definition switched_config (p : Z) : VehiclePropConfig :=
  mkPropConfig p VehiclePropertyAccess.READ_WRITE 0 [] [] EmptyString f32_zero f32_zero.
Definition switched_configs (x : Switched) : list VehiclePropConfig :=
  switched_config 0x21400001 :: (if switched_on x then [switched_config 0x21403000] else []).

#[local] Instance switched_hardware : Hardware Switched := {|
  hw_subscribe o x := (x, OK);
  hw_unsubscribe p a x := (x, OK);
  hw_updateSampleRate p a r x := (x, OK);
  hw_subscribeSupportedValueChange l x := (x, OK);
  hw_unsubscribeSupportedValueChange l x := (x, OK)
|}.
#[local] Instance switched_values : ValueHardware Switched := {|
  hw_getAllPropertyConfigs x := switched_configs x;
  hw_getPropertyConfig p x := default_getPropertyConfig p (switched_configs x);
  hw_getValues l x := (x, OK, []);
  hw_setValues l x := (x, OK, []);
  hw_getSupportedValuesLists l x := (x, []);
  hw_getMinMaxSupportedValues l x := (x, []);
  hw_checkHealth x := (x, OK)
|}.
#[local] Instance switched_dump : DumpHardware Switched string := λ options x,
  match options with
  | [o] => if String.eqb o "--genTestVendorConfigs" then (mkSwitched true, mkDumpResult false "generated" true)
           else (mkSwitched false, mkDumpResult false "restored" true)
  | _ => (x, mkDumpResult true "" false)
  end.

Definition switched_hal : Hal Switched :=
  getAllPropConfigsFromHardwareLocked (λ _, None) 4 0 (newHal (mkSwitched false) false).
Definition switched_run (option : string) (h : Hal Switched) : Hal Switched :=
  fst (dump (B := string) (λ _, None) 4 0 AID_ROOT [option] h).

(** The configuration that was added for a test is still served after it was
    restored. *)
Example restored_configs_stay : let h := switched_run "--genTestVendorConfigs" switched_hal in
  let h' := switched_run "--restoreVendorConfigs" h in
  declared (λ _, None) 4 0 (hal_hardware h') 0x21403000 = None ∧
  mConfigsByPropId h' !! 0x21403000 = Some (switched_config 0x21403000).
Proof. by vm_compute. Qed.

Lemma hal_dump_effect_witness :
  mConfigsByPropId (switched_run "--genTestVendorConfigs" switched_hal) !! 0x21403000 = Some (switched_config 0x21403000).
Proof.
  unfold switched_run.
  destruct (dump (B := string) (λ _, None) 4 0 AID_ROOT ["--genTestVendorConfigs"] switched_hal) as [h1 out] eqn:E.
  destruct (hal_dump_effect (λ _, None) 4 0 AID_ROOT ["--genTestVendorConfigs"] switched_hal h1 out eq_refl E)
    as [(? & _)|(_ & _ & _ & _ & _ & _ & Hp & _)]; [done|]. cbn [fst]. rewrite Hp. by vm_compute.
Defined.
