(* ===== verification/FairSchedule.v ===== *)
(** * FairSchedule: processes that end under every fair schedule

    A process takes turns that a schedule hands to its threads; a thread that
    cannot make a step leaves it as it is.  When each state waits for the turn
    of one thread, and every other turn either makes progress or leaves that
    wait as it is, every schedule that keeps giving turns to the threads
    awaited ends the process.  An event of the schedule may carry more than the
    thread it gives the turn to ([who]): what the thread then reads. *)

From stdpp Require Import base tactics.
From Stdlib Require Import PeanoNat Lia Wf_nat.
From S2P Require Import Prelude.

Section fair.
Context {P E T : Type} (advance : E → P → P) (who : E → T).

(** The process after [n] turns of the schedule. *)
Fixpoint after (schedule : nat → E) (n : nat) (p : P) : P :=
  match n with O => p | S n' => advance (schedule n') (after schedule n' p) end.

(** Each of the threads [ts] gets a turn again and again. *)
Definition fair (ts : T → Prop) (schedule : nat → E) : Prop := ∀ t, ts t → ∀ i, ∃ j, i ≤ j ∧ who (schedule j) = t.

Context (good finished : P → Prop) `{∀ p, Decision (finished p)}.
Context (awaited : P → T) (major minor : P → nat).

(** A turn brings the process on, or leaves the turn it waits for to come. *)
Definition progress (e : E) (p p' : P) : Prop :=
  major p' < major p ∨
  major p' = major p ∧ (minor p' < minor p ∨ minor p' = minor p ∧ awaited p' = awaited p ∧ who e ≠ awaited p).

Context (good_advance : ∀ e p, good p → good (advance e p)).
Context (turn_progress : ∀ e p, good p → ¬ finished p → progress e p (advance e p)).

Lemma after_good σ n p : good p → good (after σ n p).
Proof. intros Hp. induction n as [|n IH]; cbn [after]; [done|by apply good_advance]. Qed.

Context (ts : T → Prop) (awaited_in : ∀ p, ts (awaited p)).

Lemma awaited_comes σ p i : fair ts σ → ∃ d, who (σ (i + d)) = awaited p.
Proof.
  intros Hf. destruct (Hf (awaited p) (awaited_in p) i) as (j & Hj & Ej).
  exists (j - i). by replace (i + (j - i)) with j by lia.
Qed.

Lemma eventually_finished σ p : fair ts σ → ∀ (k r d i : nat), let q := after σ i p in
  good q → major q = k → minor q = r → who (σ (i + d)) = awaited q → ∃ n, finished (after σ n p).
Proof.
  intros Hf k. induction k as [k IHk] using lt_wf_ind. intros r. induction r as [r IHr] using lt_wf_ind.
  assert (Hless : ∀ i, let q := after σ i p in good q → major q < k ∨ major q = k ∧ minor q < r →
    ∃ n, finished (after σ n p)).
  { intros i q Ok Hl. destruct (awaited_comes σ q i Hf) as [d Hd]. destruct Hl as [Hl|[Hl Hr]].
    - by apply (IHk _ Hl (minor q) d i).
    - by apply (IHr _ Hr d i). }
  intros d. induction d as [|d IHd]; intros i q Ok Hk Hr Hd; (destruct (decide (finished q)) as [He|He]; [by exists i|]);
    pose proof (good_advance (σ i) q Ok) as Ok'; pose proof (turn_progress (σ i) q Ok He) as Hp;
    change (advance (σ i) q) with (after σ (S i) p) in *;
    (destruct Hp as [Hl|[Hl [Hr'|(Hr' & Ha & Hne)]]]; [apply (Hless (S i) Ok'); left; lia|apply (Hless (S i) Ok'); right; lia|]).
  - by rewrite Nat.add_0_r in Hd.
  - apply (IHd (S i) Ok'); [lia|lia|]. replace (S i + d) with (i + S d) by lia. by rewrite Hd, Ha.
Qed.

(** The process ends, and there is a first moment at which it has. *)
Lemma fair_schedule_ends σ p : good p → fair ts σ →
  ∃ n, finished (after σ n p) ∧ ∀ m, m < n → ¬ finished (after σ m p).
Proof.
  intros Ok Hf. destruct (awaited_comes σ p 0 Hf) as [d Hd].
  destruct (dec_inh_nat_subset_has_unique_least_element (λ n, finished (after σ n p))) as (n & [Hn Hleast] & _).
  { intros n. destruct (decide (finished (after σ n p))); auto. }
  { by apply (eventually_finished σ p Hf (major p) (minor p) d 0). }
  exists n. split; [done|]. intros m Hm Hfin. specialize (Hleast m Hfin). lia.
Qed.

End fair.

(** Three threads in rotation. *)
Lemma rotation_mod k i : k < 3 → (k + i * 3) mod 3 = k.
Proof. intros Hk. rewrite Nat.Div0.mod_add. by apply Nat.mod_small. Qed.
