(* ===== verification/HalShutdown.v ===== *)
(** * HalShutdown: the destructor of DefaultVehicleHal and the threads it ends

    Models [DefaultVehicleHal::~DefaultVehicleHal] of
    [vhal-server/aidl/impl/4/vhal/src/DefaultVehicleHal.cpp], statement by
    statement, next to the threads that use the object: the handler of binder
    events, the worker of the batching consumer, the heartbeat of the timer,
    the hardware's callbacks and the binder's.  A step that would use an object
    already released is a fault.  The timer's looper calls back in its own
    thread, as on Android.  Two things are assumed of the binder runtime: a
    death recipient that is deleted reports no more deaths, and its cookies are
    unlinked before the hardware is released at the latest, so [HDied] has no
    step after [Serving] and [HUnlinked] none after [Destroyed].  The safety theorem says which faults there
    are, the termination theorem that every fair schedule ends the destructor. *)

From stdpp Require Import base gmap sets list.
From Stdlib Require Import ZArith Lia.
From S2P Require Import Prelude Float32 VehicleTypes PendingRequestPool ConcurrentQueue FairSchedule.
From S2P Require Import VehicleHardware SubscriptionManager ConnectedClient DefaultVehicleHal.

(** ** Where each thread is *)

(** The loop of [onBinderDiedUnlinkedHandler]. *)
Inductive HandlerPc : Type :=
| AtWait
| AtFlush
| Handling (events : list BinderDiedUnlinkedEvent)
| HandlerLeft.

(** The state and the worker of [mPropertyChangeEventsBatchingConsumer]; its
    queue is that of the HAL. *)
Record Consumer : Type := mkConsumer { c_state : State; c_worker : Pc }.

(** The destructor's statements that are done. *)
Inductive Dtor : Type :=
| Serving
| RecipientDeleted        (* mDeathRecipient = ScopedAIBinder_DeathRecipient() *)
| BinderEventsClosed      (* mBinderEvents.deactivate() *)
| HandlerJoined           (* mOnBinderDiedUnlinkedHandlerThread.join() *)
| TimerUnregistered       (* mRecurrentTimer.unregisterTimerCallback(...) *)
| BatchQueueClosed        (* mBatchedEventQueue->deactivate() *)
| StopRequested           (* ...BatchingConsumer->requestStop() *)
| ConsumerJoined          (* ...BatchingConsumer->waitStopped() *)
| ConsumerReset           (* ...BatchingConsumer.reset() *)
| QueueReset              (* mBatchedEventQueue.reset(), or there is none *)
| ManagerReset            (* mSubscriptionManager.reset() *)
| Destroyed.              (* mVehicleHardware.reset() *)

#[export] Instance Dtor_eq_dec : EqDecision Dtor.
Proof. solve_decision. Defined.

(** Statements still to be run. *)
Definition left_of (d : Dtor) : nat :=
  match d with
  | Serving => 11 | RecipientDeleted => 10 | BinderEventsClosed => 9 | HandlerJoined => 8
  | TimerUnregistered => 7 | BatchQueueClosed => 6 | StopRequested => 5 | ConsumerJoined => 4
  | ConsumerReset => 3 | QueueReset => 2 | ManagerReset => 1 | Destroyed => 0
  end.

Record Process (HS : Type) : Type := mkProcess {
  hal : Hal HS;
  batching : bool;                       (* mEventBatchingWindow is not 0 *)
  handler : HandlerPc;
  consumer : option Consumer;
  registered : bool;                     (* mRecurrentAction, with the timer *)
  heartbeat : bool;                      (* the timer thread is inside it *)
  dtor : Dtor;
  made : list CallbackCall               (* to the clients, so far *)
}.
Arguments mkProcess {HS}.
Arguments hal {HS}.
Arguments batching {HS}.
Arguments handler {HS}.
Arguments consumer {HS}.
Arguments registered {HS}.
Arguments heartbeat {HS}.
Arguments dtor {HS}.
Arguments made {HS}.

Inductive Fault : Type :=
| ManagerFreed | QueueFreed | ConsumerFreed | HardwareFreed | ObjectFreed.

(** A step blocks, goes on, or uses what was released. *)
Inductive outcome (A : Type) : Type := Blocked | Next (a : A) | Faulted (f : Fault).
Arguments Blocked {A}.
Arguments Next {A}.
Arguments Faulted {A}.

Inductive Happening : Type :=
| HDtor                                  (* the thread that destroys the object *)
| HHandler
| HConsumer
| HTimer (uptimeMillis : Z)
| HValues (values : list VehiclePropValue)
| HDied (clientId : ClientIdType)
| HUnlinked (clientId : ClientIdType).

Section shutdown.
Context {HS : Type} `{Hardware HS, ValueHardware HS}.
Context (ub_cast : f32 → Z) (hash_order : gset PropIdAreaId → list PropIdAreaId).
Implicit Types (p : Process HS) (h : Hal HS).

Definition set_hal h p := mkProcess h (batching p) (handler p) (consumer p) (registered p) (heartbeat p) (dtor p) (made p).
Definition set_handler x p := mkProcess (hal p) (batching p) x (consumer p) (registered p) (heartbeat p) (dtor p) (made p).
Definition set_consumer x p := mkProcess (hal p) (batching p) (handler p) x (registered p) (heartbeat p) (dtor p) (made p).
Definition set_registered b p := mkProcess (hal p) (batching p) (handler p) (consumer p) b (heartbeat p) (dtor p) (made p).
Definition set_heartbeat b p := mkProcess (hal p) (batching p) (handler p) (consumer p) (registered p) b (dtor p) (made p).
Definition set_dtor d p := mkProcess (hal p) (batching p) (handler p) (consumer p) (registered p) (heartbeat p) d (made p).
Definition add_made l p := mkProcess (hal p) (batching p) (handler p) (consumer p) (registered p) (heartbeat p) (dtor p) (made p ++ l).

Definition managerAlive p : bool := (1 <? left_of (dtor p))%nat.
Definition hardwareAlive p : bool := (0 <? left_of (dtor p))%nat.

(** The constructor: the threads it starts, and the heartbeat it registers. *)
Definition newProcess (x : HS) (window : bool) : Process HS :=
  mkProcess (newHal x window) window AtWait (if window then Some (mkConsumer INIT NotStarted) else None)
    true false Serving [].

(** One step of [onBinderDiedUnlinkedHandler]. *)
Definition handler_step p : outcome (Process HS) :=
  match handler p with
  | HandlerLeft => Blocked
  | pc =>
      if negb (hardwareAlive p) then Faulted ObjectFreed
      else match pc with
           | AtWait =>
               match waitForItems (mBinderEvents (hal p)) with
               | None => Blocked
               | Some true => Next (set_handler AtFlush p)
               | Some false => Next (set_handler HandlerLeft p)
               end
           | AtFlush =>
               let '(q, events) := flush (mBinderEvents (hal p)) in
               Next (set_handler (Handling events) (set_hal (set_binderEvents q (hal p)) p))
           | Handling [] => Next (set_handler AtWait p)
           | Handling (e :: events) =>
               if negb (managerAlive p) then Faulted ManagerFreed
               else Next (set_handler (Handling events) (set_hal (handleBinderEvent hash_order e (hal p)) p))
           | HandlerLeft => Blocked
           end
  end.

(** [handleBatchedPropertyEvents]. *)
Definition deliver_batch (items : list VehiclePropValue) p : outcome (Process HS) :=
  if negb (managerAlive p) then Faulted ManagerFreed
  else let '(h, calls) := onPropertyChangeEvent ub_cast items (hal p) in
       Next (add_made calls (set_hal h p)).

(** The worker has made a step, perhaps with a batch. *)
Definition after_worker (s : System VehiclePropValue) p : outcome (Process HS) :=
  let p := set_consumer (Some (mkConsumer (mState s) (worker s)))
             (set_hal (set_batchedQueue (Some (sys_queue s)) (hal p)) p) in
  match batches s with
  | [] => Next p
  | items :: _ => deliver_batch items p
  end.

(** One step of [BatchingConsumer::runInternal]; it works on a plain pointer to
    the queue. *)
Definition consumer_step p : outcome (Process HS) :=
  match consumer p with
  | None => Blocked
  | Some c =>
      match c_worker c, mBatchedEventQueue (hal p) with
      | Exited, _ => Blocked
      | _, None => Faulted QueueFreed
      | _, Some q =>
          match runInternal_step (mkSystem q (c_state c) (c_worker c) []) with
          | None => Blocked
          | Some s => after_worker s p
          end
      end
  end.

(** The timer's thread: it takes the callback while it is registered, and runs
    it without the timer's lock.  The callback has a plain pointer to the
    hardware and a weak one to the subscription manager. *)
Definition timer_step (uptimeMillis : Z) p : outcome (Process HS) :=
  if heartbeat p then
    if negb (hardwareAlive p) then Faulted HardwareFreed
    else
      let p := set_heartbeat false p in
      if managerAlive p then
        let '(h, calls) := checkHealth ub_cast uptimeMillis (hal p) in Next (add_made calls (set_hal h p))
      else Next (set_hal (set_hal_hardware (hw_checkHealth (hal_hardware (hal p))).1 (hal p)) p)
  else if registered p then Next (set_heartbeat true p) else Blocked.

(** The callback registered with the hardware: weak pointers only. *)
Definition values_step (values : list VehiclePropValue) p : outcome (Process HS) :=
  if negb (hardwareAlive p) then Blocked
  else if batching p then
    match mBatchedEventQueue (hal p) with
    | None => Next p
    | Some q => Next (set_hal (batchPropertyChangeEvent q values (hal p)) p)
    end
  else if managerAlive p then
    let '(h, calls) := onPropertyChangeEvent ub_cast values (hal p) in Next (add_made calls (set_hal h p))
  else Next p.

(** The destructor's next statement. *)
Definition dtor_step p : outcome (Process HS) :=
  match dtor p with
  | Serving => Next (set_dtor RecipientDeleted p)
  | RecipientDeleted =>
      Next (set_dtor BinderEventsClosed (set_hal (set_binderEvents (deactivate (mBinderEvents (hal p))) (hal p)) p))
  | BinderEventsClosed =>
      match handler p with HandlerLeft => Next (set_dtor HandlerJoined p) | _ => Blocked end
  | HandlerJoined => Next (set_dtor TimerUnregistered (set_registered false p))
  | TimerUnregistered =>
      match mBatchedEventQueue (hal p) with
      | None => Next (set_dtor QueueReset p)
      | Some q => Next (set_dtor BatchQueueClosed (set_hal (set_batchedQueue (Some (deactivate q)) (hal p)) p))
      end
  | BatchQueueClosed =>
      match consumer p with
      | None => Faulted ConsumerFreed
      | Some c => Next (set_dtor StopRequested (set_consumer (Some (mkConsumer STOP_REQUESTED (c_worker c))) p))
      end
  | StopRequested =>
      match consumer p with
      | None => Faulted ConsumerFreed
      | Some c => match c_worker c with Exited => Next (set_dtor ConsumerJoined p) | _ => Blocked end
      end
  | ConsumerJoined => Next (set_dtor ConsumerReset (set_consumer None p))
  | ConsumerReset => Next (set_dtor QueueReset (set_hal (set_batchedQueue None (hal p)) p))
  | QueueReset => Next (set_dtor ManagerReset p)
  | ManagerReset => Next (set_dtor Destroyed p)
  | Destroyed => Blocked
  end.

(** A deleted death recipient reports no deaths; its cookies are still
    unlinked. *)
Definition step (e : Happening) p : outcome (Process HS) :=
  match e with
  | HDtor => dtor_step p
  | HHandler => handler_step p
  | HConsumer => consumer_step p
  | HTimer uptimeMillis => timer_step uptimeMillis p
  | HValues values => values_step values p
  | HDied clientId => if decide (dtor p = Serving) then Next (set_hal (onBinderDied clientId (hal p)) p) else Blocked
  | HUnlinked clientId => if hardwareAlive p then Next (set_hal (onBinderUnlinked clientId (hal p)) p) else Blocked
  end.

Fixpoint run (tr : list Happening) p : outcome (Process HS) :=
  match tr with
  | [] => Next p
  | e :: tr' => match step e p with Next p' => run tr' p' | Blocked => Blocked | Faulted f => Faulted f end
  end.

(** ** What holds while it runs *)

(** The methods, and the constructor, leave the object like this. *)
Definition serving p : Prop :=
  dtor p = Serving ∧
  match consumer p with
  | Some _ => batching p = true ∧ is_Some (mBatchedEventQueue (hal p))
  | None => batching p = false ∧ mBatchedEventQueue (hal p) = None
  end.

(** The stop request is recorded, or the worker is past its loop. *)
Definition stopped (c : Consumer) : Prop :=
  c_state c = STOP_REQUESTED ∨ c_worker c = Leaving ∨ c_worker c = Exited.

Definition at_least (d : Dtor) p : Prop := left_of (dtor p) ≤ left_of d.

Definition consumer_ok p (c : Consumer) : Prop :=
  left_of ConsumerReset < left_of (dtor p) ∧
  ∃ q, mBatchedEventQueue (hal p) = Some q ∧
    (at_least BatchQueueClosed p → mIsActive q = false) ∧
    (at_least StopRequested p → stopped c) ∧
    (at_least ConsumerJoined p → c_worker c = Exited).

Record process_ok p : Prop := {
  ok_events : at_least BinderEventsClosed p → mIsActive (mBinderEvents (hal p)) = false;
  ok_handler : at_least HandlerJoined p → handler p = HandlerLeft;
  ok_timer : at_least TimerUnregistered p → registered p = false;
  ok_consumer : match consumer p with
                | Some c => consumer_ok p c
                | None => at_least ConsumerReset p
                    ∨ left_of TimerUnregistered ≤ left_of (dtor p) ∧ mBatchedEventQueue (hal p) = None
                end }.

(** *** The operations of the HAL leave its queues alone *)

Definition same_queues h h' : Prop :=
  mBinderEvents h' = mBinderEvents h ∧ mBatchedEventQueue h' = mBatchedEventQueue h.

Lemma handleBinderEvent_queues e h : same_queues h (handleBinderEvent hash_order e h).
Proof. unfold handleBinderEvent. by destruct (forOnBinderDied e). Qed.

Lemma onPropertyChangeEvent_queues l h : same_queues h (onPropertyChangeEvent ub_cast l h).1.
Proof. unfold onPropertyChangeEvent. by destruct (getSubscribedClients _ _ _). Qed.

Lemma checkHealth_queues u h : same_queues h (checkHealth ub_cast u h).1.
Proof.
  unfold checkHealth. destruct (hw_checkHealth _) as [x st]. destruct (negb _); [done|].
  set (h1 := set_hal_hardware x h). destruct (onPropertyChangeEvent_queues
    [mkPropValue 0 0 VHAL_HEARTBEAT VehiclePropertyStatus.AVAILABLE (mkRaw [] [] [u] [] (stringValue emptyRaw))] h1) as [H1 H2].
  by split; [rewrite H1|rewrite H2].
Qed.

(** *** Steps keep the invariant *)

(** What a step of the other threads may do. *)
Record tame p p' : Prop := {
  tame_dtor : dtor p' = dtor p;
  tame_events : mIsActive (mBinderEvents (hal p')) = mIsActive (mBinderEvents (hal p));
  tame_handler : handler p = HandlerLeft → handler p' = HandlerLeft;
  tame_timer : registered p' = registered p;
  tame_consumer : consumer p' = consumer p;
  tame_queue : mIsActive <$> mBatchedEventQueue (hal p') = mIsActive <$> mBatchedEventQueue (hal p);
  tame_heartbeat : heartbeat p' = true → heartbeat p = true ∨ registered p = true }.

(** And those that are not the handler's. *)
Definition aside p p' : Prop :=
  handler p' = handler p ∧
  (mIsActive (mBinderEvents (hal p)) = false → mBinderEvents (hal p') = mBinderEvents (hal p)).

Lemma tame_ok p p' : tame p p' → process_ok p → process_ok p'.
Proof.
  intros [Hd He Hh Ht Hc Hq _] [Oe Oh Ot Oc]. unfold consumer_ok, at_least in *.
  split; unfold consumer_ok, at_least; rewrite ?Hd, ?He, ?Ht, ?Hc; auto.
  destruct (consumer p) as [c|].
  - destruct Oc as (Hl & q & Eq & Oq). split; [done|]. rewrite Eq in Hq.
    destruct (mBatchedEventQueue (hal p')) as [q'|]; [|done]. exists q'. injection Hq as Hq. rewrite Hq. exact (conj eq_refl Oq).
  - destruct Oc as [Hl|[Hl Eq]]; [by left|right]. split; [done|]. rewrite Eq in Hq.
    by destruct (mBatchedEventQueue (hal p')).
Qed.

Lemma same_queues_tame p h l b : same_queues (hal p) h → (b = true → heartbeat p = true) →
  let p' := add_made l (set_hal h (set_heartbeat b p)) in tame p p' ∧ aside p p'.
Proof. intros [H1 H2] Hb. by split; split; cbn; rewrite ?H1, ?H2; auto. Qed.

Lemma push_closed {T} (x : T) q : mIsActive (push x q) = mIsActive q ∧ (mIsActive q = false → push x q = q).
Proof. unfold push. by destruct (mIsActive q) eqn:E; cbn; rewrite ?E. Qed.

Lemma pushed_tame e p : let p' := set_hal (set_binderEvents (push e (mBinderEvents (hal p))) (hal p)) p in
  tame p p' ∧ aside p p'.
Proof. destruct (push_closed e (mBinderEvents (hal p))). by split; split; cbn; auto. Qed.

(** Only the heartbeat can use what was released, and only if it was running
    when the hardware was. *)
Definition harmless p (f : Fault) : Prop := f = HardwareFreed ∧ heartbeat p = true ∧ dtor p = Destroyed.

Definition step_fine p (R : Process HS → Prop) (o : outcome (Process HS)) : Prop :=
  match o with Blocked => True | Next p' => R p' | Faulted f => harmless p f end.

Lemma managerAlive_false p : managerAlive p = false → at_least ManagerReset p.
Proof. unfold managerAlive, at_least. rewrite Nat.ltb_ge. done. Qed.
Lemma hardwareAlive_false p : hardwareAlive p = false → dtor p = Destroyed.
Proof. unfold hardwareAlive. by destruct (dtor p). Qed.

Lemma handler_step_fine p : process_ok p → step_fine p (tame p) (handler_step p).
Proof.
  intros Ok. unfold handler_step. assert (Hl : at_least HandlerJoined p → handler p = HandlerLeft) by apply Ok.
  destruct (handler p) as [| |[|e events]|] eqn:Hp; [..|done];
    (destruct (hardwareAlive p) eqn:Ha;
       [|apply hardwareAlive_false in Ha; exfalso; unfold at_least in Hl; rewrite Ha in Hl; cbn in Hl; discriminate Hl; lia]);
    cbn [negb].
  - destruct (waitForItems _) as [[]|]; cbn; [..|done]; split; cbn; rewrite ?Hp; auto; done.
  - rewrite flush_eq. split; cbn; rewrite ?Hp; auto; done.
  - split; cbn; rewrite ?Hp; auto; done.
  - destruct (managerAlive p) eqn:Hm; cbn [negb].
    + destruct (handleBinderEvent_queues e (hal p)) as [H1 H2]. split; cbn; rewrite ?H1, ?H2, ?Hp; auto; done.
    + apply managerAlive_false in Hm. unfold at_least in *. cbn in *. discriminate Hl. lia.
Qed.

Lemma timer_step_fine u p : step_fine p (λ p', tame p p' ∧ aside p p') (timer_step u p).
Proof.
  unfold timer_step. destruct (heartbeat p) eqn:Hb.
  - destruct (hardwareAlive p) eqn:Ha; [|by repeat split; [done|apply hardwareAlive_false]]. cbn [negb].
    destruct (managerAlive _); [|by repeat split; auto].
    pose proof (checkHealth_queues u (hal p)) as Hs. cbn [hal set_heartbeat]. destruct (checkHealth _ _ _) as [h calls].
    exact (same_queues_tame p h calls false Hs (λ H, ltac:(done))).
  - destruct (registered p) eqn:Hr; [|done]. by repeat split; auto.
Qed.

Lemma values_step_fine l p : step_fine p (λ p', tame p p' ∧ aside p p') (values_step l p).
Proof.
  unfold values_step. destruct (negb _); [done|]. destruct (batching p).
  - destruct (mBatchedEventQueue (hal p)) as [q|] eqn:Eq; [|by repeat split; auto]. split; [|done].
    split; cbn; auto. rewrite Eq. cbn. unfold push_many. by destruct (mIsActive q) eqn:Ea; cbn; rewrite ?Ea.
  - destruct (managerAlive p); [|by repeat split; auto].
    pose proof (onPropertyChangeEvent_queues l (hal p)) as Hs. destruct (onPropertyChangeEvent _ _ _) as [h calls].
    exact (same_queues_tame p h calls (heartbeat p) Hs id).
Qed.

(** Steps the worker can still make once it is stopped. *)
Definition worker_rank (w : Pc) : nat :=
  match w with
  | Exited => 0
  | Leaving => 1
  | NotStarted | LoopHead | Waited | Slept => 2
  | InWait | BeforeFlush => 3
  end.

Lemma worker_stopped c (q : ConcurrentQueue VehiclePropValue) s : stopped c →
  runInternal_step (mkSystem q (c_state c) (c_worker c) []) = Some s →
  stopped (mkConsumer (mState s) (worker s)) ∧ worker_rank (worker s) < worker_rank (c_worker c).
Proof.
  destruct c as [st w]. unfold stopped, runInternal_step. rewrite flush_eq. cbn.
  intros [->|[->| ->]]; [|intros [= <-]; cbn; split; [tauto|lia]|done].
  destruct w; cbn; try destruct (waitForItems q); intros [= <-]; cbn; (split; [tauto|lia]).
Qed.

(** A worker whose queue is closed does not wait. *)
Lemma worker_unblocked c (q : ConcurrentQueue VehiclePropValue) : mIsActive q = false → c_worker c ≠ Exited →
  is_Some (runInternal_step (mkSystem q (c_state c) (c_worker c) [])).
Proof.
  intros Hq Hw. unfold runInternal_step, waitForItems. cbn. rewrite flush_eq, Hq.
  destruct (c_worker c), (mQueue q); eauto; done.
Qed.

(** What a step of the worker does to the process. *)
Record worker_did p p' : Prop := {
  did_dtor : dtor p' = dtor p;
  did_events : mBinderEvents (hal p') = mBinderEvents (hal p);
  did_handler : handler p' = handler p;
  did_timer : registered p' = registered p ∧ heartbeat p' = heartbeat p;
  did_worker : ∃ c q s, consumer p = Some c ∧ mBatchedEventQueue (hal p) = Some q ∧
    runInternal_step (mkSystem q (c_state c) (c_worker c) []) = Some s ∧
    consumer p' = Some (mkConsumer (mState s) (worker s)) ∧ mBatchedEventQueue (hal p') = Some (sys_queue s) }.

Lemma consumer_step_eq p c q : consumer p = Some c → mBatchedEventQueue (hal p) = Some q →
  consumer_step p = match runInternal_step (mkSystem q (c_state c) (c_worker c) []) with
                    | None => Blocked | Some s => after_worker s p end.
Proof. intros Hc Hq. unfold consumer_step. rewrite Hc, Hq. by destruct (c_worker c). Qed.

Lemma consumer_step_fine p : process_ok p → step_fine p (worker_did p) (consumer_step p).
Proof.
  intros Ok. pose proof (ok_consumer p Ok) as Oc. destruct (consumer p) as [c|] eqn:Hc.
  2: { unfold consumer_step. by rewrite Hc. }
  destruct Oc as (Hl & q & Eq & _). rewrite (consumer_step_eq p c q Hc Eq).
  destruct (runInternal_step _) as [s|] eqn:Es; [|done]. unfold after_worker.
  destruct (batches s) as [|items ?]; [by split; [..|exists c, q, s]|].
  unfold deliver_batch, managerAlive. cbn [dtor set_consumer set_hal]. cbn in Hl.
  assert (1 <? left_of (dtor p) = true)%nat as -> by (apply Nat.ltb_lt; lia). cbn [negb].
  set (h := hal _). destruct (onPropertyChangeEvent_queues items h) as [H1 H2].
  destruct (onPropertyChangeEvent _ items h) as [h' calls]. cbn in H1, H2.
  split; cbn; rewrite ?H1, ?H2; [done..|by exists c, q, s].
Qed.

Lemma worker_did_ok p p' : worker_did p p' → process_ok p → process_ok p'.
Proof.
  intros [Hd He Hh [Ht _] (c & q & s & Hc & Hq & Es & Hc' & Hq')] [Oe Oh Ot Oc].
  split; unfold at_least; rewrite ?Hd, ?He, ?Hh, ?Ht; auto. rewrite Hc'. rewrite Hc in Oc.
  destruct Oc as (Hl & q0 & Eq & Oa & Os & Ox). rewrite Hq in Eq. injection Eq as <-.
  destruct (worker_step_contents _ _ Es) as [_ Ha]. unfold consumer_ok, at_least in *. rewrite Hd, Hq'. cbn [sys_queue] in Ha.
  split; [done|]. exists (sys_queue s). rewrite Ha. split; [done|]. split; [auto|]. split.
  - intros Hs. by apply (worker_stopped c q s (Os Hs)).
  - intros Hx. exfalso. unfold runInternal_step in Es. cbn in Es. by rewrite (Ox Hx) in Es.
Qed.

(** A statement of the destructor keeps the invariant, and is one less to run;
    it waits for a thread only where it joins one. *)
Definition dtor_fine p (o : outcome (Process HS)) : Prop :=
  match o with
  | Blocked => dtor p = Destroyed ∨ dtor p = BinderEventsClosed ∧ handler p ≠ HandlerLeft
      ∨ dtor p = StopRequested ∧ ∃ c, consumer p = Some c ∧ c_worker c ≠ Exited
  | Next p' => process_ok p' ∧ left_of (dtor p') < left_of (dtor p) ∧ handler p' = handler p ∧ heartbeat p' = heartbeat p
  | Faulted f => False
  end.

(** The invariant at a known statement: its parts are implications between
    numbers. *)
Ltac shutdown_ok :=
  split_and!; [split; unfold at_least, consumer_ok, at_least, stopped; cbn; try (by intros; auto with lia);
    try match goal with Oc : context [consumer ?p] |- _ => destruct (consumer p); naive_solver lia end|cbn; lia|done..].

Lemma dtor_step_fine p : process_ok p → dtor_fine p (dtor_step p).
Proof.
  intros [Oe Oh Ot Oc]. unfold dtor_fine, dtor_step, at_least, consumer_ok, at_least, stopped in *.
  destruct (dtor p) eqn:Hd; cbn [left_of] in *.
  - shutdown_ok.
  - shutdown_ok.
  - destruct (handler p) eqn:Hh; [by right; left..|]. shutdown_ok.
  - shutdown_ok.
  - destruct (mBatchedEventQueue (hal p)) as [q|] eqn:Eq; shutdown_ok.
  - destruct (consumer p) as [c|] eqn:Hc; [|lia]. shutdown_ok.
  - destruct (consumer p) as [c|] eqn:Hc; [|lia]. destruct (c_worker c) eqn:Hw; [by right; right; split; [|exists c; rewrite Hw]..|].
    shutdown_ok.
  - shutdown_ok.
  - shutdown_ok.
  - shutdown_ok.
  - shutdown_ok.
  - by left.
Qed.

(** What any step does. *)
Lemma step_ok e p : process_ok p → step_fine p (λ p', process_ok p' ∧ (e = HDtor ∨ dtor p' = dtor p) ∧
  (heartbeat p' = true → heartbeat p = true ∨ registered p = true)) (step e p).
Proof.
  intros Ok. assert (Ht : ∀ p', tame p p' → process_ok p' ∧ (e = HDtor ∨ dtor p' = dtor p) ∧
    (heartbeat p' = true → heartbeat p = true ∨ registered p = true)).
  { intros p' T. split; [exact (tame_ok p p' T Ok)|]. destruct T. auto. }
  destruct e; cbn [step].
  - pose proof (dtor_step_fine p Ok) as F. destruct (dtor_step p); cbn in *; [done| |done].
    destruct F as (? & _ & _ & ->). split_and!; [done|by left|by left].
  - pose proof (handler_step_fine p Ok) as F. destruct (handler_step p); cbn in *; auto.
  - pose proof (consumer_step_fine p Ok) as F. destruct (consumer_step p); cbn in *; [done| |done].
    split; [by eapply worker_did_ok|]. destruct F as [-> _ _ [_ ->] _]. auto.
  - pose proof (timer_step_fine uptimeMillis p) as F. destruct (timer_step _ p); cbn in *; [done| |done]. apply Ht, F.
  - pose proof (values_step_fine values p) as F. destruct (values_step _ p); cbn in *; [done| |done]. apply Ht, F.
  - destruct (decide _); [|done]. apply Ht, pushed_tame.
  - destruct (hardwareAlive p); [|done]. apply Ht, pushed_tame.
Qed.

Lemma serving_ok p : serving p → process_ok p.
Proof.
  intros [Hd Hc]. split; unfold at_least; rewrite Hd; cbn; try lia.
  destruct (consumer p) as [c|].
  - destruct Hc as [_ [q Hq]]. unfold consumer_ok, at_least. rewrite Hd. cbn. split; [lia|]. exists q. split_and!; [done|lia..].
  - right. split; [lia|apply Hc].
Qed.

Lemma step_unregisters e p p' : process_ok p → step e p = Next p' →
  ¬ at_least TimerUnregistered p → at_least TimerUnregistered p' → dtor p' = TimerUnregistered.
Proof.
  intros Ok Hs Hn Ha. pose proof (step_ok e p Ok) as F. rewrite Hs in F. destruct F as (_ & [->|Hd] & _).
  2: { unfold at_least in *. by rewrite Hd in Ha. }
  cbn [step] in Hs. unfold at_least, dtor_step in *. destruct (dtor p) eqn:Hd; cbn in *; try (by destruct Hn; lia).
  - injection Hs as <-. cbn in Ha. lia.
  - injection Hs as <-. cbn in Ha. lia.
  - destruct (handler p); [done..|]. injection Hs as <-. cbn in Ha. lia.
  - by injection Hs as <-.
Qed.

Lemma run_fault tr f : ∀ p, process_ok p → run tr p = Faulted f → f = HardwareFreed ∧
  (at_least TimerUnregistered p → heartbeat p = true) ∧
  (¬ at_least TimerUnregistered p → ∃ tr1 tr2 p1, tr = tr1 ++ tr2 ∧ run tr1 p = Next p1 ∧
    dtor p1 = TimerUnregistered ∧ heartbeat p1 = true).
Proof.
  induction tr as [|e tr IH]; intros p Ok; cbn [run]; [done|]. pose proof (step_ok e p Ok) as F.
  destruct (step e p) as [|p'|g] eqn:Hs; cbn in F; [done| |].
  - destruct F as (Ok' & _ & Hb). intros Hr. destruct (IH p' Ok' Hr) as (Hf & Hl & Hn). split; [done|]. split.
    + intros Ha. assert (at_least TimerUnregistered p').
      { unfold at_least in *. pose proof (step_ok e p Ok) as F. rewrite Hs in F. destruct F as (_ & [-> | ->] & _); [|done].
        pose proof (dtor_step_fine p Ok) as D. cbn [step] in Hs. rewrite Hs in D. destruct D as (_ & D & _). lia. }
      destruct Hb as [?|Hr']; [auto|done|]. by rewrite (ok_timer p Ok Ha) in Hr'.
    + intros Ha. destruct (decide (left_of (dtor p') ≤ left_of TimerUnregistered)) as [Hd|Hd].
      * exists [e], tr, p'. cbn [run]. rewrite Hs. split_and!; [done|done|exact (step_unregisters e p p' Ok Hs Ha Hd)|auto].
      * destruct (Hn Hd) as (tr1 & tr2 & p1 & -> & Hp1 & Hrest). exists (e :: tr1), tr2, p1. cbn [run]. by rewrite Hs.
  - destruct F as (Hg & Hb & Hd). intros [= <-]. split_and!; [done|done|]. unfold at_least. rewrite Hd. cbn. lia.
Qed.

(** C21: Whatever the schedule of the threads, the hardware's events and the deaths
    of clients while the service is destroyed: no thread uses the subscription
    manager, the batching queue, its consumer or the service after it was
    released; the one object that can be used after its release is the
    hardware, by a heartbeat that was running when its callback was
    unregistered. *)
Theorem destructor_safe p tr f : serving p → run tr p = Faulted f →
  f = HardwareFreed ∧ ∃ tr1 tr2 p1, tr = tr1 ++ tr2 ∧ run tr1 p = Next p1 ∧
    dtor p1 = TimerUnregistered ∧ heartbeat p1 = true.
Proof.
  intros Hs Hf. destruct (run_fault tr f p (serving_ok p Hs) Hf) as (? & _ & Hn). split; [done|]. apply Hn.
  unfold at_least. destruct Hs as [-> _]. cbn. lia.
Qed.

(** ** The destructor ends *)

(** A thread that cannot make a step leaves the process as it is. *)
Definition advance (e : Happening) p : Process HS := match step e p with Next p' => p' | _ => p end.

(** The destructor and the threads it joins. *)
Definition own (e : Happening) : Prop := e = HDtor ∨ e = HHandler ∨ e = HConsumer.

(** Steps left to a thread while it is being joined. *)
Definition handler_rank p : nat :=
  match handler p with
  | HandlerLeft => 0
  | AtWait => 1
  | Handling events => 2 + length events
  | AtFlush => 3 + length (mQueue (mBinderEvents (hal p)))
  end.
Definition joined_rank p : nat :=
  match dtor p with
  | BinderEventsClosed => handler_rank p
  | StopRequested => match consumer p with Some c => worker_rank (c_worker c) | None => 0 end
  | _ => 0
  end.

(** The thread whose turn brings the destructor on. *)
Definition awaited p : Happening :=
  match joined_rank p, dtor p with
  | O, _ => HDtor
  | S _, BinderEventsClosed => HHandler
  | S _, _ => HConsumer
  end.

Definition brings_on e p p' : Prop :=
  left_of (dtor p') < left_of (dtor p) ∨
  dtor p' = dtor p ∧ (joined_rank p' < joined_rank p ∨ joined_rank p' = joined_rank p ∧ e ≠ awaited p).

Lemma stays e p : e ≠ awaited p → brings_on e p p.
Proof. right. auto. Qed.

Lemma aside_progress e p p' : process_ok p → tame p p' → aside p p' → e ≠ awaited p → brings_on e p p'.
Proof.
  intros Ok [Hd _ _ _ Hc _ _] [Hh Hq] He. right. split; [done|]. right. split; [|done].
  unfold joined_rank, handler_rank. rewrite Hd, Hc, Hh. destruct (dtor p) eqn:E; try done.
  rewrite Hq; [done|]. apply (ok_events p Ok). unfold at_least. by rewrite E.
Qed.

(** With its queue closed the handler leaves. *)
Lemma handler_progress p : process_ok p → dtor p = BinderEventsClosed →
  handler p = HandlerLeft ∨ ∃ p', handler_step p = Next p' ∧ tame p p' ∧ handler_rank p' < handler_rank p.
Proof.
  intros Ok Hd. assert (Ha : mIsActive (mBinderEvents (hal p)) = false) by (apply (ok_events p Ok); unfold at_least; by rewrite Hd).
  pose proof (handler_step_fine p Ok) as F. unfold handler_step, managerAlive, hardwareAlive, handler_rank in *. rewrite Hd in *. cbn in *.
  destruct (handler p) as [| |[|e events]|] eqn:Hh; [right..|by left].
  - unfold waitForItems in *. rewrite Ha in *. destruct (mQueue _); eexists; (split; [done|split; [done|cbn; lia]]).
  - rewrite flush_eq in *. eexists. split; [done|]. split; [done|cbn; lia].
  - eexists. split; [done|]. split; [done|cbn; lia].
  - eexists. split; [done|]. split; [done|cbn; lia].
Qed.

Lemma handler_turn p : process_ok p → brings_on HHandler p (advance HHandler p).
Proof.
  intros Ok. unfold advance. cbn [step]. destruct (decide (dtor p = BinderEventsClosed)) as [Hd|Hd].
  - destruct (handler_progress p Ok Hd) as [Hl|(p' & -> & T & Hr)].
    + unfold handler_step. rewrite Hl. apply stays. unfold awaited, joined_rank, handler_rank. by rewrite Hd, Hl.
    + right. split; [apply T|]. left. unfold joined_rank. by rewrite (tame_dtor _ _ T), Hd.
  - assert (Hn : HHandler ≠ awaited p) by (unfold awaited; by destruct (joined_rank p), (dtor p)).
    pose proof (handler_step_fine p Ok) as F. destruct (handler_step p) as [|p'|]; [by apply stays| |by apply stays].
    cbn in F. right. split; [apply F|]. right. split; [|done]. unfold joined_rank. rewrite (tame_dtor _ _ F), (tame_consumer _ _ F).
    by destruct (dtor p).
Qed.

Lemma consumer_turn p : process_ok p → brings_on HConsumer p (advance HConsumer p).
Proof.
  intros Ok. unfold advance. cbn [step]. pose proof (consumer_step_fine p Ok) as F. pose proof (ok_consumer p Ok) as Oc.
  destruct (decide (dtor p = StopRequested)) as [Hd|Hd].
  - destruct (consumer p) as [c|] eqn:Hc.
    2: { unfold consumer_step. rewrite Hc. apply stays. unfold awaited, joined_rank. by rewrite Hd, Hc. }
    destruct Oc as (_ & q & Eq & Ha & Hst & _). unfold at_least in *. rewrite Hd in *. cbn in *.
    rewrite (consumer_step_eq p c q Hc Eq) in *. destruct (runInternal_step _) as [s|] eqn:Es.
    + destruct (after_worker s p) as [|p'|g] eqn:Ew; cbn in F; [..|by destruct F as (_ & _ & F); rewrite Hd in F].
      { exfalso. unfold after_worker, deliver_batch in Ew. destruct (batches s); [done|]. destruct (negb _); [done|].
        by destruct (onPropertyChangeEvent _ _ _). }
      right. split; [apply F|]. left. destruct F as [Hd' _ _ _ (c0 & q0 & s0 & Hc0 & Hq0 & Es0 & Hc' & _)].
      rewrite Hc0 in Hc. injection Hc as ->. rewrite Hq0 in Eq. injection Eq as ->.
      unfold joined_rank. rewrite Hd', Hd, Hc', Hc0. eapply (worker_stopped c q s0); [by apply Hst; lia|done].
    + apply stays. unfold awaited, joined_rank. rewrite Hd, Hc. destruct (c_worker c) eqn:Hw; cbn; try done;
        exfalso; destruct (worker_unblocked c q) as [? E]; rewrite ?Hw in *; try congruence; apply Ha; lia.
  - assert (Hn : HConsumer ≠ awaited p) by (unfold awaited, joined_rank; destruct (dtor p); try done; by destruct (handler_rank p)).
    destruct (consumer_step p) as [|p'|]; [by apply stays| |by apply stays]. destruct F as [Hd' He Hh _ _].
    right. split; [done|]. right. split; [|done]. unfold joined_rank, handler_rank. rewrite Hd', Hh, He. by destruct (dtor p).
Qed.

Lemma dtor_turn p : process_ok p → dtor p ≠ Destroyed → brings_on HDtor p (advance HDtor p).
Proof.
  intros Ok Hn. unfold advance. cbn [step]. pose proof (dtor_step_fine p Ok) as F.
  destruct (dtor_step p) as [|p'|f]; cbn in F; [| |done].
  - apply stays. unfold awaited, joined_rank, handler_rank.
    destruct F as [F|[[-> F]|[-> (c & -> & F)]]]; [done| |]; [by destruct (handler p)|by destruct (c_worker c)].
  - left. apply F.
Qed.

Lemma advance_ok e p : process_ok p → process_ok (advance e p).
Proof. intros Ok. unfold advance. pose proof (step_ok e p Ok) as F. destruct (step e p); cbn in F; [done|apply F|done]. Qed.

Lemma run_ok tr : ∀ p p', process_ok p → run tr p = Next p' → process_ok p'.
Proof.
  induction tr as [|e tr IH]; intros p p' Ok; cbn [run]; [by intros [= <-]|]. pose proof (step_ok e p Ok) as F.
  destruct (step e p); cbn in F; [done| |done]. by apply IH, F.
Qed.

(** A turn brings the destructor on, or leaves the one it waits for to come. *)
Lemma turn_progress e p : process_ok p → dtor p ≠ Serving → dtor p ≠ Destroyed → brings_on e p (advance e p).
Proof.
  intros Ok Hs Hd. assert (Ho : ∀ p', tame p p' → aside p p' → e ≠ awaited p → brings_on e p p').
  { intros p'. by apply aside_progress. }
  assert (Hw : ∀ u l i, (e = HTimer u ∨ e = HValues l ∨ e = HDied i ∨ e = HUnlinked i) → e ≠ awaited p).
  { intros u l i He. unfold awaited. destruct (joined_rank p), (dtor p); naive_solver. }
  destruct e as [| | |u|l|i|i].
  - by apply dtor_turn.
  - by apply handler_turn.
  - by apply consumer_turn.
  - unfold advance. cbn [step]. pose proof (timer_step_fine u p) as F. assert (HTimer u ≠ awaited p) by (apply (Hw u [] 0%Z); auto).
    destruct (timer_step u p); cbn in F; [by apply stays|by destruct F; apply Ho|by apply stays].
  - unfold advance. cbn [step]. pose proof (values_step_fine l p) as F. assert (HValues l ≠ awaited p) by (apply (Hw 0%Z l 0%Z); auto).
    destruct (values_step l p); cbn in F; [by apply stays|by destruct F; apply Ho|by apply stays].
  - unfold advance. cbn [step]. rewrite decide_False by done. apply stays, (Hw 0%Z [] i). auto.
  - unfold advance. cbn [step]. assert (HUnlinked i ≠ awaited p) by (apply (Hw 0%Z [] i); auto).
    destruct (pushed_tame (mkBinderEvent false i) p).
    destruct (hardwareAlive p); [by apply Ho|by apply stays].
Qed.

Lemma turn_keeps_going e p : process_ok p → dtor p ≠ Serving → dtor (advance e p) ≠ Serving.
Proof.
  intros Ok Hs. destruct (decide (dtor p = Destroyed)) as [Hd|Hd].
  - unfold advance. pose proof (step_ok e p Ok) as F. destruct (step e p) as [|p'|] eqn:E; [done| |done].
    destruct F as (_ & [->|F] & _); [|by rewrite F]. cbn [step] in E. unfold dtor_step in E. by rewrite Hd in E.
  - destruct (turn_progress e p Ok Hs Hd) as [Hl|[-> _]]; [|done].
    intros E. rewrite E in Hl. destruct (dtor p); cbn in Hl; lia.
Qed.

(** A process whose destructor has begun. *)
Definition ending p : Prop := process_ok p ∧ dtor p ≠ Serving.

Lemma ending_advance e p : ending p → ending (advance e p).
Proof. intros [Ok Hs]. split; [by apply advance_ok|by apply turn_keeps_going]. Qed.

Lemma ending_progress e p : ending p → dtor p ≠ Destroyed →
  progress id awaited (λ p, left_of (dtor p)) joined_rank e p (advance e p).
Proof.
  intros [Ok Hs] Hd. destruct (turn_progress e p Ok Hs Hd) as [Hl|[Hl [Hr|[Hr Ha]]]]; [by left|right; rewrite Hl; auto..].
  split; [done|]. right. split_and!; [done| |done]. unfold awaited. by rewrite Hl, Hr.
Qed.

(** C22: Once it has begun, the destructor ends under every schedule that keeps
    giving turns to it and to the threads it joins, whatever the other threads
    do in between and however much is queued; no step before its end uses what
    was released, and at its end the threads have left and the heartbeat is
    unregistered. *)
Theorem destructor_terminates p0 tr p σ : serving p0 → run tr p0 = Next p → dtor p ≠ Serving → fair id own σ →
  ∃ n, let p' := after advance σ n p in
    dtor p' = Destroyed ∧ handler p' = HandlerLeft ∧ consumer p' = None ∧ registered p' = false ∧
    ∀ m f, m < n → step (σ m) (after advance σ m p) ≠ Faulted f.
Proof.
  intros H0' Hr Hs Hf. assert (Hp : ending p) by (split; [eapply run_ok; [apply serving_ok, H0'|exact Hr]|done]).
  destruct (fair_schedule_ends advance id ending (λ p, dtor p = Destroyed) awaited (λ p, left_of (dtor p)) joined_rank
    ending_advance ending_progress own) with σ p as (n & Hn & Hless); [|done|done|].
  { intros q. unfold own, awaited. destruct (joined_rank q), (dtor q); auto. }
  assert (Hok : ∀ m, process_ok (after advance σ m p)) by (intros m; apply (after_good advance ending ending_advance σ m p Hp)).
  exists n. cbn zeta. destruct (Hok n) as [_ Hh Ht Hc]. unfold at_least in *. rewrite Hn in *. cbn in *.
  split_and!; [done|apply Hh; lia| |apply Ht; lia|].
  - destruct (consumer _) as [c|]; [|done]. destruct Hc as [Hc _]. rewrite Hn in Hc. cbn in Hc. lia.
  - intros m f Hm E. pose proof (step_ok (σ m) _ (Hok m)) as F. rewrite E in F. destruct F as (_ & _ & F).
    exact (Hless m Hm F).
Qed.

End shutdown.

(** ** A hardware that does nothing *)

Record Quiet : Type := mkQuiet {}.

#[local] Instance quiet_hardware : Hardware Quiet := {|
  hw_subscribe o x := (x, OK);
  hw_unsubscribe p a x := (x, OK);
  hw_updateSampleRate p a r x := (x, OK);
  hw_subscribeSupportedValueChange l x := (x, OK);
  hw_unsubscribeSupportedValueChange l x := (x, OK)
|}.
#[local] Instance quiet_values : ValueHardware Quiet := {|
  hw_getAllPropertyConfigs x := [];
  hw_getPropertyConfig p x := None;
  hw_getValues l x := (x, OK, []);
  hw_setValues l x := (x, OK, []);
  hw_getSupportedValuesLists l x := (x, []);
  hw_getMinMaxSupportedValues l x := (x, []);
  hw_checkHealth x := (x, OK)
|}.

Definition quiet_service (window : bool) : Process Quiet := newProcess mkQuiet window.
Definition quiet_run (tr : list Happening) (window : bool) : outcome (Process Quiet) :=
  run (λ _, 0%Z) elements tr (quiet_service window).

Lemma quiet_serving window : serving (quiet_service window).
Proof. destruct window; (split; [done|]); [by split; [|exists newQueue]|done]. Qed.

(** The heartbeat starts, the service is destroyed, and the heartbeat goes on
    to call the hardware. *)
Definition late_heartbeat : list Happening :=
  [HTimer 0; HDtor; HDtor; HHandler; HDtor; HDtor; HDtor; HDtor; HDtor; HTimer 0].

Example heartbeat_outlives_hardware : quiet_run late_heartbeat false = Faulted HardwareFreed.
Proof. by vm_compute. Qed.

Lemma destructor_safe_witness : ∃ tr1 tr2 p1, late_heartbeat = tr1 ++ tr2 ∧
  run (λ _, 0%Z) elements tr1 (quiet_service false) = Next p1 ∧ dtor p1 = TimerUnregistered ∧ heartbeat p1 = true.
Proof.
  destruct (destructor_safe (λ _, 0%Z) elements (quiet_service false) late_heartbeat HardwareFreed) as (_ & Hw).
  - split; [|split]; reflexivity.
  - vm_compute. reflexivity.
  - exact Hw.
Defined.

(** An event still queued when the service is destroyed is not delivered: the
    worker sees the stop request and leaves, and the queue is released with it. *)
Definition queued_event : VehiclePropValue :=
  mkPropValue 0 0 0x11400400 VehiclePropertyStatus.AVAILABLE emptyRaw.
Definition batch_then_destroy : list Happening :=
  [HValues [queued_event]; HConsumer; HConsumer; HConsumer; HConsumer; HDtor; HDtor; HHandler; HDtor; HDtor; HDtor; HDtor;
   HConsumer; HConsumer; HDtor; HDtor].
Definition is_next {A} (o : outcome A) (f : A → bool) : bool := match o with Next a => f a | _ => false end.

Example queued_event_is_dropped : is_next (quiet_run batch_then_destroy true)
  (λ p, bool_decide (dtor p = ConsumerReset) && bool_decide ((prop <$> default [] (mQueue <$> mBatchedEventQueue (hal p))) = [0x11400400%Z])).
Proof. by vm_compute. Qed.

(** Turns in rotation are fair. *)
Definition rotation (i : nat) : Happening :=
  match i mod 3 with O => HDtor | S O => HHandler | _ => HConsumer end.

Lemma rotation_fair : fair id own rotation.
Proof.
  intros e He i. unfold rotation.
  destruct He as [->|[->| ->]]; [exists (0 + i * 3)|exists (1 + i * 3)|exists (2 + i * 3)];
    (split; [lia|rewrite rotation_mod by lia; done]).
Qed.

Lemma destructor_terminates_witness : ∃ p, quiet_run [HDtor] true = Next p ∧
  ∃ n, dtor (after (advance (λ _, 0%Z) elements) rotation n p) = Destroyed.
Proof.
  eexists. split; [reflexivity|].
  destruct (destructor_terminates (λ _, 0%Z) elements (quiet_service true) [HDtor] _ rotation (quiet_serving true) eq_refl
    ltac:(discriminate) rotation_fair) as (n & Hn & _).
  exists n. exact Hn.
Defined.
