(* ===== verification/UserHalHelper.v ===== *)
(** * UserHalHelper: the wire formats of the user HAL

    [fake_impl/userhal/src/UserHalHelper.cpp]: parsing the [int32Values] of a
    user-management property into a request, and building the responses.
    Positions and sizes are [size_t]: the additions wrap at 64 bits; a negative
    [int32_t] count becomes a huge size. *)

From stdpp Require Import base gmap list strings.
From Stdlib Require Import ZArith Lia.
From S2P Require Import Prelude Float32 VehicleTypes VehicleProperty VehicleUtils VehicleObjectPool.

Local Open Scope Z_scope.

(** ** Enumerations, with the ranges [ndk::enum_range] iterates *)

Module InitialUserInfoRequestType.
Definition UNKNOWN : Z := 0.
Definition FIRST_BOOT : Z := 1.
Definition FIRST_BOOT_AFTER_OTA : Z := 2.
Definition COLD_BOOT : Z := 3.
Definition RESUME : Z := 4.
Definition enum_range : list Z := [UNKNOWN; FIRST_BOOT; FIRST_BOOT_AFTER_OTA; COLD_BOOT; RESUME].
End InitialUserInfoRequestType.

Module InitialUserInfoResponseAction.
Definition DEFAULT : Z := 0.
Definition SWITCH : Z := 1.
Definition CREATE : Z := 2.
End InitialUserInfoResponseAction.

Module SwitchUserMessageType.
Definition UNKNOWN : Z := 0.
Definition LEGACY_ANDROID_SWITCH : Z := 1.
Definition ANDROID_SWITCH : Z := 2.
Definition VEHICLE_RESPONSE : Z := 3.
Definition VEHICLE_REQUEST : Z := 4.
Definition ANDROID_POST_SWITCH : Z := 5.
Definition enum_range : list Z :=
  [UNKNOWN; LEGACY_ANDROID_SWITCH; ANDROID_SWITCH; VEHICLE_RESPONSE; VEHICLE_REQUEST;
   ANDROID_POST_SWITCH].
End SwitchUserMessageType.

Module SwitchUserStatus.
Definition SUCCESS : Z := 1.
Definition FAILURE : Z := 2.
End SwitchUserStatus.

Module CreateUserStatus.
Definition SUCCESS : Z := 1.
Definition FAILURE : Z := 2.
End CreateUserStatus.

Module UserIdentificationAssociationType.
Definition INVALID : Z := 0.
Definition KEY_FOB : Z := 1.
Definition CUSTOM_1 : Z := 101.
Definition CUSTOM_2 : Z := 102.
Definition CUSTOM_3 : Z := 103.
Definition CUSTOM_4 : Z := 104.
Definition enum_range : list Z := [INVALID; KEY_FOB; CUSTOM_1; CUSTOM_2; CUSTOM_3; CUSTOM_4].
End UserIdentificationAssociationType.

Module UserIdentificationAssociationSetValue.
Definition INVALID : Z := 0.
Definition ASSOCIATE_CURRENT_USER : Z := 1.
Definition DISASSOCIATE_CURRENT_USER : Z := 2.
Definition DISASSOCIATE_ALL_USERS : Z := 3.
Definition enum_range : list Z :=
  [INVALID; ASSOCIATE_CURRENT_USER; DISASSOCIATE_CURRENT_USER; DISASSOCIATE_ALL_USERS].
End UserIdentificationAssociationSetValue.

(** ** Parcelables *)

Record UserInfo : Type := mkUserInfo { userId : Z; flags : Z }.
Definition USER_FLAG_SYSTEM : Z := 0x01.
Definition USER_FLAG_GUEST : Z := 0x02.
Definition USER_FLAG_EPHEMERAL : Z := 0x04.
Definition USER_FLAG_ADMIN : Z := 0x08.
Definition USER_FLAG_DISABLED : Z := 0x10.
Definition USER_FLAG_PROFILE : Z := 0x20.

Record UsersInfo : Type := mkUsersInfo {
  currentUser : UserInfo; numberUsers : Z; existingUsers : list UserInfo
}.
Record InitialUserInfoRequest : Type := mkInitialUserInfoRequest {
  iur_requestId : Z; requestType : Z; iur_usersInfo : UsersInfo
}.
Record SwitchUserRequest : Type := mkSwitchUserRequest {
  sur_requestId : Z; sur_messageType : Z; targetUser : UserInfo; sur_usersInfo : UsersInfo
}.
Record CreateUserRequest : Type := mkCreateUserRequest {
  cur_requestId : Z; newUserInfo : UserInfo; newUserName : string; cur_usersInfo : UsersInfo
}.
Record RemoveUserRequest : Type := mkRemoveUserRequest {
  rur_requestId : Z; removedUserInfo : UserInfo; rur_usersInfo : UsersInfo
}.
Record UserIdentificationGetRequest : Type := mkUserIdentificationGetRequest {
  uig_requestId : Z; uig_userInfo : UserInfo; numberAssociationTypes : Z;
  associationTypes : list Z
}.
Record UserIdentificationSetAssociation : Type := mkSetAssociation {
  sa_type : Z; sa_value : Z
}.
Record UserIdentificationSetRequest : Type := mkUserIdentificationSetRequest {
  uis_requestId : Z; uis_userInfo : UserInfo; numberAssociations : Z;
  uis_associations : list UserIdentificationSetAssociation
}.
Record InitialUserInfoResponse : Type := mkInitialUserInfoResponse {
  iures_requestId : Z; action : Z; userToSwitchOrCreate : UserInfo;
  userLocales : string; userNameToCreate : string
}.
Record SwitchUserResponse : Type := mkSwitchUserResponse {
  sures_requestId : Z; sures_messageType : Z; sures_status : Z; sures_errorMessage : string
}.
Record CreateUserResponse : Type := mkCreateUserResponse {
  cures_requestId : Z; cures_status : Z; cures_errorMessage : string
}.
Record UserIdentificationAssociation : Type := mkAssociation { as_type : Z; as_value : Z }.
Record UserIdentificationResponse : Type := mkUserIdentificationResponse {
  uir_requestId : Z; numberAssociation : Z;
  uir_associations : list UserIdentificationAssociation; uir_errorMessage : string
}.

(** ** Errors

    [LengthError] is the exception of a [resize] beyond [max_size], which
    nothing catches; [Undefined] is undefined behaviour (an access outside a
    vector, a signed overflow). *)

Inductive HelperError : Type :=
| InvalidProperty | MismatchingProperty | TooFewValues | InvalidUserFlags | NotInEnum
| InvalidMessageType | LengthError | Undefined.

Local Open Scope vhal_scope.

Definition kSeparator : string := "||".
Definition kNumFieldsPerUserInfo : Z := 2.
Definition kNumFieldsPerSetAssociation : Z := 2.

(** ** Parsing *)

Definition verifyAndCast (enum_range : list Z) (v : Z) : result HelperError Z :=
  if existsb (Z.eqb v) enum_range then Ok v else Err NotInEnum.

Definition verifyPropValue (propValue : VehiclePropValue) (vehicleProperty minInt32Values : Z) :
    result HelperError unit :=
  match verifyAndCast VehicleProperty.enum_range (prop propValue) with
  | Err _ => Err InvalidProperty
  | Ok p =>
      if negb (p =? vehicleProperty) then Err MismatchingProperty
      else if vsize (int32Values (value propValue)) <? minInt32Values then Err TooFewValues
      else Ok tt
  end.

(** [v[pos]] of a [std::vector]. *)
Definition vec_at (l : list Z) (pos : Z) : result HelperError Z :=
  match l !! Z.to_nat pos with Some x => Ok x | None => Err Undefined end.

(** [v.resize(n)] for a [size_t]: the largest size of a vector of 8-byte
    elements is [2^60 - 1]; no [int32_t] converts to a size between that and
    the limit for 4-byte elements. *)
Definition vec_max_size : Z := 1152921504606846975.
Definition resize {A} (d : A) (n : Z) : result HelperError (list A) :=
  if vec_max_size <? n then Err LengthError else Ok (vec_resize d (Z.to_nat n) []).

(** [for (size_t i = 0; i < n; ++i) v[i] = f(i)], left at the first error. *)
Definition fill {A} (f : nat → result HelperError A) (n : nat) (v : list A) :
    result HelperError (list A) :=
  match for_each (seq 0 n) (λ i us, match f i with
                                    | Ok a => (<[i := a]> us, Ok tt)
                                    | Err e => (us, Err e)
                                    end) v with
  | (us, Ok _) => Ok us
  | (_, Err e) => Err e
  end.

Definition combinedFlags : Z :=
  Z.lor (Z.lor (Z.lor (Z.lor (Z.lor USER_FLAG_SYSTEM USER_FLAG_GUEST) USER_FLAG_EPHEMERAL)
                 USER_FLAG_ADMIN) USER_FLAG_DISABLED) USER_FLAG_PROFILE.

Definition parseUserInfo (int32Values : list Z) (startPos : Z) : result HelperError UserInfo :=
  if vsize int32Values <? to_u64 (startPos + kNumFieldsPerUserInfo) then Err TooFewValues
  else
    try! id := vec_at int32Values startPos in
    try! intUserFlags := vec_at int32Values (to_u64 (startPos + 1)) in
    if negb (Z.land intUserFlags (Z.lnot combinedFlags) =? 0) then Err InvalidUserFlags
    else Ok (mkUserInfo id intUserFlags).

Definition parseUsersInfo (int32Values : list Z) (startPos : Z) : result HelperError UsersInfo :=
  if vsize int32Values <? to_u64 (startPos + 3) then Err TooFewValues
  else
    try! current := parseUserInfo int32Values startPos in
    try! number := vec_at int32Values (to_u64 (startPos + 2)) in
    try! users := resize (mkUserInfo 0 0) (to_u64 number) in
    try! users' :=
      fill (λ i, parseUserInfo int32Values
                   (to_u64 (startPos + 3 + to_u64 (kNumFieldsPerUserInfo * Z.of_nat i))))
           (Z.to_nat (to_u64 number)) users in
    Ok (mkUsersInfo current number users').

Definition parseUserAssociationTypes (int32Values : list Z) (startPos numberAssociationTypes : Z) :
    result HelperError (list Z) :=
  let minInt32Values := to_u64 (startPos + numberAssociationTypes) in
  if vsize int32Values <? minInt32Values then Err TooFewValues
  else
    try! types := resize UserIdentificationAssociationType.INVALID numberAssociationTypes in
    fill (λ i,
            try! x := vec_at int32Values (to_u64 (startPos + Z.of_nat i)) in
            verifyAndCast UserIdentificationAssociationType.enum_range x)
         (Z.to_nat numberAssociationTypes) types.

Definition parseUserAssociations (int32Values : list Z) (startPos numberAssociations : Z) :
    result HelperError (list UserIdentificationSetAssociation) :=
  let minInt32Values :=
    to_u64 (startPos + to_u64 (numberAssociations * kNumFieldsPerSetAssociation)) in
  if vsize int32Values <? minInt32Values then Err TooFewValues
  else
    try! associations := resize (mkSetAssociation 0 0) numberAssociations in
    fill (λ i,
            let pos := to_u64 (startPos + to_u64 (kNumFieldsPerSetAssociation * Z.of_nat i)) in
            try! x := vec_at int32Values pos in
            try! type := verifyAndCast UserIdentificationAssociationType.enum_range x in
            try! y := vec_at int32Values (to_u64 (pos + 1)) in
            try! v := verifyAndCast UserIdentificationAssociationSetValue.enum_range y in
            Ok (mkSetAssociation type v))
         (Z.to_nat numberAssociations) associations.

Definition toInitialUserInfoRequest (propValue : VehiclePropValue) :
    result HelperError InitialUserInfoRequest :=
  let vals := int32Values (value propValue) in
  try! _u := verifyPropValue propValue VehicleProperty.INITIAL_USER_INFO 2 in
  try! requestId := vec_at vals 0 in
  try! t := vec_at vals 1 in
  try! requestType := verifyAndCast InitialUserInfoRequestType.enum_range t in
  try! usersInfo := parseUsersInfo vals 2 in
  Ok (mkInitialUserInfoRequest requestId requestType usersInfo).

Definition toSwitchUserRequest (propValue : VehiclePropValue) :
    result HelperError SwitchUserRequest :=
  let vals := int32Values (value propValue) in
  try! _u := verifyPropValue propValue VehicleProperty.SWITCH_USER 2 in
  try! t := vec_at vals 1 in
  try! messageType := verifyAndCast SwitchUserMessageType.enum_range t in
  if negb (messageType =? SwitchUserMessageType.LEGACY_ANDROID_SWITCH) &&
     negb (messageType =? SwitchUserMessageType.ANDROID_SWITCH) &&
     negb (messageType =? SwitchUserMessageType.ANDROID_POST_SWITCH)
  then Err InvalidMessageType
  else
    try! requestId := vec_at vals 0 in
    try! target := parseUserInfo vals 2 in
    try! usersInfo := parseUsersInfo vals 4 in
    Ok (mkSwitchUserRequest requestId messageType target usersInfo).

Definition toCreateUserRequest (propValue : VehiclePropValue) :
    result HelperError CreateUserRequest :=
  let vals := int32Values (value propValue) in
  try! _u := verifyPropValue propValue VehicleProperty.CREATE_USER 1 in
  try! requestId := vec_at vals 0 in
  try! newUser := parseUserInfo vals 1 in
  try! usersInfo := parseUsersInfo vals 3 in
  Ok (mkCreateUserRequest requestId newUser (stringValue (value propValue)) usersInfo).

Definition toRemoveUserRequest (propValue : VehiclePropValue) :
    result HelperError RemoveUserRequest :=
  let vals := int32Values (value propValue) in
  try! _u := verifyPropValue propValue VehicleProperty.REMOVE_USER 1 in
  try! requestId := vec_at vals 0 in
  try! removed := parseUserInfo vals 1 in
  try! usersInfo := parseUsersInfo vals 3 in
  Ok (mkRemoveUserRequest requestId removed usersInfo).

Definition toUserIdentificationGetRequest (propValue : VehiclePropValue) :
    result HelperError UserIdentificationGetRequest :=
  let vals := int32Values (value propValue) in
  try! _u := verifyPropValue propValue VehicleProperty.USER_IDENTIFICATION_ASSOCIATION 4 in
  try! requestId := vec_at vals 0 in
  try! user := parseUserInfo vals 1 in
  try! number := vec_at vals 3 in
  try! types := parseUserAssociationTypes vals 4 (to_u64 number) in
  Ok (mkUserIdentificationGetRequest requestId user number types).

Definition toUserIdentificationSetRequest (propValue : VehiclePropValue) :
    result HelperError UserIdentificationSetRequest :=
  let vals := int32Values (value propValue) in
  try! _u := verifyPropValue propValue VehicleProperty.USER_IDENTIFICATION_ASSOCIATION 4 in
  try! requestId := vec_at vals 0 in
  try! user := parseUserInfo vals 1 in
  try! number := vec_at vals 3 in
  try! associations := parseUserAssociations vals 4 (to_u64 number) in
  Ok (mkUserIdentificationSetRequest requestId user number associations).

(** ** Building property values *)

Section build.
  Context (uninit_size : Z).

(** A value of [prop] from the pool, its [int32Values] resized and assigned. *)
Definition buildValue (propId now : Z) (vals : list Z → list Z) (pool : VehiclePropValuePool) :
    Recyclable * VehiclePropValuePool :=
  let '(r, pool') := obtain uninit_size (getPropType propId) pool in
  let v := value (obj r) in
  (set_obj (mkPropValue now (areaId (obj r)) propId (status (obj r))
              (mkRaw (vals (int32Values v)) (floatValues v) (int64Values v) (byteValues v)
                 (stringValue v))) r, pool').

Definition with_string (s : string) (r : Recyclable) : Recyclable :=
  let v := value (obj r) in
  set_obj (set_value (mkRaw (int32Values v) (floatValues v) (int64Values v) (byteValues v) s)
             (obj r)) r.

Definition toVehiclePropValue_switchRequest (now : Z) (request : SwitchUserRequest)
    (pool : VehiclePropValuePool) : result HelperError (Recyclable * VehiclePropValuePool) :=
  if negb (sur_messageType request =? SwitchUserMessageType.VEHICLE_REQUEST)
  then Err InvalidMessageType
  else Ok (buildValue VehicleProperty.SWITCH_USER now
             (λ old, <[2%nat := userId (targetUser request)]>
                     (<[1%nat := sur_messageType request]>
                     (<[0%nat := sur_requestId request]> (vec_resize 0 3 old)))) pool).

Definition toVehiclePropValue_initialUserInfo (now : Z) (response : InitialUserInfoResponse)
    (pool : VehiclePropValuePool) : Recyclable * VehiclePropValuePool :=
  let '(r, pool') :=
    buildValue VehicleProperty.INITIAL_USER_INFO now
      (λ old, <[3%nat := flags (userToSwitchOrCreate response)]>
              (<[2%nat := userId (userToSwitchOrCreate response)]>
              (<[1%nat := action response]>
              (<[0%nat := iures_requestId response]> (vec_resize 0 4 old))))) pool in
  (with_string (userLocales response +:+ kSeparator +:+ userNameToCreate response) r, pool').

Definition toVehiclePropValue_switchResponse (now : Z) (response : SwitchUserResponse)
    (pool : VehiclePropValuePool) : Recyclable * VehiclePropValuePool :=
  let '(r, pool') :=
    buildValue VehicleProperty.SWITCH_USER now
      (λ old, <[2%nat := sures_status response]>
              (<[1%nat := sures_messageType response]>
              (<[0%nat := sures_requestId response]> (vec_resize 0 3 old)))) pool in
  (if sures_status response =? SwitchUserStatus.FAILURE
   then with_string (sures_errorMessage response) r else r, pool').

Definition toVehiclePropValue_createResponse (now : Z) (response : CreateUserResponse)
    (pool : VehiclePropValuePool) : Recyclable * VehiclePropValuePool :=
  let '(r, pool') :=
    buildValue VehicleProperty.CREATE_USER now
      (λ old, <[1%nat := cures_status response]>
              (<[0%nat := cures_requestId response]> (vec_resize 0 2 old))) pool in
  (if cures_status response =? CreateUserStatus.FAILURE
   then with_string (cures_errorMessage response) r else r, pool').

Definition with_int32s (l : list Z) (r : Recyclable) : Recyclable :=
  let v := value (obj r) in
  set_obj (set_value (mkRaw l (floatValues v) (int64Values v) (byteValues v) (stringValue v))
             (obj r)) r.

(** [v[pos] = x]. *)
Definition vec_set (pos : nat) (x : Z) (l : list Z) : result HelperError (list Z) :=
  if decide (pos < length l)%nat then Ok (<[pos := x]> l) else Err Undefined.

Fixpoint storeAssociations (l : list UserIdentificationAssociation) (idxs : list nat)
    (vals : list Z) : result HelperError (list Z) :=
  match idxs with
  | [] => Ok vals
  | i :: idxs' =>
      match l !! i with
      | None => Err Undefined
      | Some a =>
          try! vals1 := vec_set (2 + 2 * i) (as_type a) vals in
          try! vals2 := vec_set (2 + 2 * i + 1) (as_value a) vals1 in
          storeAssociations l idxs' vals2
      end
  end.

Definition toVehiclePropValue_identification (now : Z) (response : UserIdentificationResponse)
    (pool : VehiclePropValuePool) : result HelperError (Recyclable * VehiclePropValuePool) :=
  let '(r, pool') :=
    buildValue VehicleProperty.USER_IDENTIFICATION_ASSOCIATION now (λ old, old) pool in
  let n := numberAssociation response in
  let size := 2 + n * 2 in
  if negb ((- two31 <=? size) && (size <? two31)) then Err Undefined
  else if vec_max_size <? to_u64 size then Err LengthError
  else
    try! vals0 := vec_set 0 (uir_requestId response)
                    (vec_resize 0 (Z.to_nat size) (int32Values (value (obj r)))) in
    try! vals1 := vec_set 1 n vals0 in
    try! vals := storeAssociations (uir_associations response) (seq 0 (Z.to_nat (to_u64 n))) vals1 in
    let r' := with_int32s vals r in
    Ok (if String.eqb (uir_errorMessage response) "" then r'
        else with_string (uir_errorMessage response) r', pool').
End build.

(** ** Filling a vector *)

Section fill.
  Context {A : Type} (f : nat → result HelperError A).



Lemma fill_from_err k n (v v' : list A) e :
  for_each (seq k n) (λ i us, match f i with
                              | Ok a => (<[i := a]> us, Ok tt)
                              | Err e => (us, Err e)
                              end) v = (v', Err e) →
  ∃ i, (k ≤ i < k + n)%nat ∧ f i = Err e.
Proof.
  revert k v. induction n as [|n IH]; intros k v He; cbn [seq for_each] in He; [done|].
  unfold mbind' in He. destruct (f k) as [a|e'] eqn:Hf.
  - destruct (IH _ _ He) as (i & Hi & He'). exists i. split; [lia|done].
  - exists k. split; [lia|]. congruence.
Qed.


Lemma fill_err n v e : fill f n v = Err e → ∃ i, (i < n)%nat ∧ f i = Err e.
Proof.
  unfold fill. destruct (for_each _ _ _) as [us [[]|e']] eqn:He; intros [= ->].
  apply fill_from_err in He as (i & Hi & Hf). exists i. split; [lia|done].
Qed.
End fill.

(** ** The wire layouts

    What [VehicleProperty.aidl] documents for each request. *)



Lemma verifyAndCast_ok r v x : verifyAndCast r v = Ok x ↔ x = v ∧ v ∈ r.
Proof.
  unfold verifyAndCast. destruct (existsb (Z.eqb v) r) eqn:He.
  - apply existsb_exists in He as (y & Hy & ->%Z.eqb_eq). rewrite <- list_elem_of_In in Hy.
    split; [intros [= <-]; done|intros [-> _]; done].
  - split; [done|]. intros [-> Hv]. exfalso.
    assert (existsb (Z.eqb v) r = true) as Hx; [|congruence].
    apply existsb_exists. exists v. split; [by apply list_elem_of_In|apply Z.eqb_refl].
Qed.

Lemma vec_at_ok l pos x : vec_at l pos = Ok x ↔ l !! Z.to_nat pos = Some x.
Proof. unfold vec_at. destruct (l !! Z.to_nat pos); naive_solver. Qed.

Lemma verifyPropValue_ok v p n : p ∈ VehicleProperty.enum_range →
  verifyPropValue v p n = Ok tt ↔ prop v = p ∧ n ≤ vsize (int32Values (value v)).
Proof.
  intros Hp. unfold verifyPropValue.
  destruct (verifyAndCast _ _) as [q|e] eqn:Hq.
  - apply verifyAndCast_ok in Hq as [-> Hq]. destruct (Z.eqb_spec (prop v) p); cbn [negb].
    + destruct (Z.ltb_spec (vsize (int32Values (value v))) n); split; intros; (done || lia).
    + split; [done|]. intros [? _]. lia.
  - split; [done|]. intros [<- _].
    assert (verifyAndCast VehicleProperty.enum_range (prop v) = Ok (prop v)); [|congruence].
    by apply verifyAndCast_ok.
Qed.

(** Positions that do not wrap. *)
Definition pos_ok (p : Z) : Prop := 0 ≤ p < two63.





Lemma resize_ok {A} (d : A) n v : resize d n = Ok v ↔ v = vec_resize d (Z.to_nat n) [] ∧ n ≤ vec_max_size.
Proof.
  unfold resize. destruct (Z.ltb_spec vec_max_size n); split.
  - done.
  - intros [_ ?]. lia.
  - intros [= <-]. split; [done|lia].
  - by intros [-> _].
Qed.

(** A count that is a valid size is not negative. *)
Lemma count_ok n : in_i32 n → (to_u64 n ≤ vec_max_size ↔ 0 ≤ n) ∧ (0 ≤ n → to_u64 n = n).
Proof.
  intros Hn. assert (0 ≤ n → to_u64 n = n) as Hp.
  { intros. apply to_u64_id. unfold_widths. lia. }
  split; [|done]. split.
  - intros Hm. destruct (Z.leb_spec 0 n); [done|]. exfalso. revert Hm. unfold_widths.
    unfold vec_max_size. rewrite <- (Z.mod_add n 1 18446744073709551616) by lia.
    unfold in_i32 in Hn. unfold_widths. rewrite Z.mod_small by lia. lia.
  - intros H. rewrite (Hp H). unfold vec_max_size. unfold_widths. lia.
Qed.

Lemma lookup_i32 (vals : list Z) i x : Forall in_i32 vals → vals !! i = Some x → in_i32 x.
Proof. intros H Hx. by apply (Forall_lookup_1 _ _ _ _ H) in Hx. Qed.

Definition start_ok (p : Z) : Prop := 0 ≤ p < two32.






Lemma prop_in_range p : existsb (Z.eqb p) VehicleProperty.enum_range = true →
  p ∈ VehicleProperty.enum_range.
Proof. intros (x & Hx & ->%Z.eqb_eq)%existsb_exists. by apply list_elem_of_In. Qed.








(** ** The six requests

    What [VehicleProperty.aidl] says of each: the property, the layout of the
    integers (anything may follow), the enumerators and flags that are allowed
    and the counts that must match. *)


















(** The [ANDROID_SWITCH] example of [VehicleProperty.aidl]. *)
Definition example_switch : VehiclePropValue :=
  mkPropValue 0 0 VehicleProperty.SWITCH_USER 0
    (mkRaw [42; 2; 11; 0; 10; 0; 3; 0; 1; 10; 0; 11; 0] [] [] [] "").


(** ** Failures *)

Lemma to_u64_neg n : in_i32 n → n < 0 → to_u64 n = two64 + n.
Proof.
  intros Hn H0. unfold_widths. rewrite <- (Z.mod_add n 1) by lia. rewrite Z.mod_small; lia.
Qed.

Lemma to_u64_wrap z k : (z = two64 + k ∨ z = two64 + two64 + k) → 0 ≤ k < two64 → to_u64 z = k.
Proof.
  unfold_widths. intros [->| ->] Hk.
  - rewrite <- (Z.mod_small k 18446744073709551616) at 2 by lia.
    rewrite <- (Z.mod_add k 1) by lia. f_equal; lia.
  - rewrite <- (Z.mod_small k 18446744073709551616) at 2 by lia.
    rewrite <- (Z.mod_add k 2) by lia. f_equal; lia.
Qed.

Lemma resize_throws {A} (d : A) n : two63 ≤ n → resize d n = Err LengthError.
Proof.
  intros Hn. unfold resize. destruct (Z.ltb_spec vec_max_size n); [done|].
  unfold vec_max_size in *. unfold_widths. lia.
Qed.

(** A negative count is not reported as a malformed request. The count is
    converted to [size_t] and resized to: whatever the other values are, a
    negative number of existing users throws [std::length_error] out of the
    parser, and so does a number of association types between -4 and -1, or
    of associations between -2 and -1, where the size check wraps around. *)
Theorem negative_count_throws vals p n :
  start_ok p → in_i32 n → n < 0 → 4 ≤ vsize vals →
  (∀ cur, parseUserInfo vals p = Ok cur → vals !! Z.to_nat (p + 2) = Some n →
          parseUsersInfo vals p = Err LengthError) ∧
  (-4 ≤ n → parseUserAssociationTypes vals 4 (to_u64 n) = Err LengthError) ∧
  (-2 ≤ n → parseUserAssociations vals 4 (to_u64 n) = Err LengthError).
Proof.
  intros Hp Hn H0 Hsz. rewrite (to_u64_neg n Hn H0). unfold start_ok in Hp. split_and!.
  - intros cur Hc Hl. unfold parseUsersInfo. rewrite (to_u64_id (p + 3)), (to_u64_id (p + 2))
      by (unfold_widths; lia).
    pose proof (lookup_lt_Some _ _ _ Hl).
    destruct (Z.ltb_spec (vsize vals) (p + 3)); [unfold vsize in *; lia|].
    rewrite Hc. cbn [rbind]. unfold vec_at at 1. rewrite Hl. cbn [rbind].
    rewrite (to_u64_neg n Hn H0), resize_throws by (unfold in_i32 in Hn; unfold_widths; lia). done.
  - intros H4. unfold parseUserAssociationTypes.
    rewrite (to_u64_wrap (4 + _) (4 + n)) by (unfold_widths; lia).
    destruct (Z.ltb_spec (vsize vals) (4 + n)); [lia|].
    rewrite resize_throws by (unfold_widths; lia). done.
  - intros H4. unfold parseUserAssociations, kNumFieldsPerSetAssociation.
    rewrite (to_u64_wrap ((two64 + n) * 2) (two64 + 2 * n)) by (unfold in_i32 in Hn; unfold_widths; lia).
    rewrite (to_u64_wrap (4 + _) (4 + 2 * n)) by (unfold_widths; lia).
    destruct (Z.ltb_spec (vsize vals) (4 + 2 * n)); [lia|].
    rewrite resize_throws by (unfold_widths; lia). done.
Qed.

(** A request for the initial user with a negative number of users. *)
Lemma negative_count_throws_witness :
  parseUsersInfo [42; 1; 0; 1; -1] 2 = Err LengthError ∧
  parseUserAssociationTypes [42; 1; 0; 1; -1] 4 (to_u64 (-1)) = Err LengthError ∧
  toInitialUserInfoRequest
    (mkPropValue 0 0 VehicleProperty.INITIAL_USER_INFO 0 (mkRaw [42; 1; 0; 1; -1] [] [] [] ""))
  = Err LengthError.
Proof.
  assert (Hp : start_ok 2) by (unfold start_ok; unfold_widths; lia).
  assert (Hn : in_i32 (-1)) by (unfold_widths; lia).
  destruct (negative_count_throws [42; 1; 0; 1; -1] 2 (-1) Hp Hn ltac:(lia) ltac:(unfold vsize; cbn; lia))
    as (H1 & H2 & _).
  split; [apply (H1 (mkUserInfo 0 1)); reflexivity|].
  split; [apply H2; lia|vm_compute; reflexivity].
Defined.

(** ** The parsers stay inside the vector *)

Lemma parseUserInfo_inside vals p : pos_ok p → parseUserInfo vals p ≠ Err Undefined.
Proof.
  intros Hp. unfold parseUserInfo, kNumFieldsPerUserInfo, pos_ok, vec_at in *.
  rewrite !to_u64_id by (unfold_widths; lia).
  destruct (Z.ltb_spec (vsize vals) (p + 2)) as [|Hge]; [done|]. unfold vsize in Hge.
  destruct (lookup_lt_is_Some_2 vals (Z.to_nat p) ltac:(lia)) as [x ->].
  destruct (lookup_lt_is_Some_2 vals (Z.to_nat (p + 1)) ltac:(lia)) as [y ->]. cbn.
  by destruct (negb _).
Qed.

Lemma fill_inside {A} (f : nat → result HelperError A) n v :
  (∀ i, (i < n)%nat → f i ≠ Err Undefined) → fill f n v ≠ Err Undefined.
Proof. intros Hf He. apply fill_err in He as (i & Hi & He). by apply (Hf i). Qed.

Lemma verifyAndCast_inside r v : verifyAndCast r v ≠ Err Undefined.
Proof. unfold verifyAndCast. by destruct (existsb _ _). Qed.

Lemma rbind_inside {A B} (r : result HelperError A) (k : A → result HelperError B) :
  r ≠ Err Undefined → (∀ a, r = Ok a → k a ≠ Err Undefined) → rbind r k ≠ Err Undefined.
Proof. intros Hr Hk. destruct r; cbn; [by apply Hk|congruence]. Qed.

Lemma resize_inside {A} (d : A) n : resize d n ≠ Err Undefined.
Proof. unfold resize. by destruct (_ <? _). Qed.

Lemma vec_at_inside l p : 0 ≤ p < vsize l → vec_at l p ≠ Err Undefined.
Proof.
  unfold vsize, vec_at. intros Hp.
  by destruct (lookup_lt_is_Some_2 l (Z.to_nat p) ltac:(lia)) as [x ->].
Qed.

(** A count that was resized to, and the positions of its elements. *)
Lemma index_ok (d : Z) n i v : in_i32 n → resize d (to_u64 n) = Ok v →
  (i < Z.to_nat (to_u64 n))%nat → to_u64 n = n ∧ Z.of_nat i < n < two31.
Proof.
  intros Hn [_ Hm]%resize_ok Hi. destruct (count_ok n Hn) as [Hmax Hid].
  apply Hmax in Hm. specialize (Hid Hm). rewrite Hid in Hi. unfold in_i32 in Hn.
  split; [done|]. lia.
Qed.

Lemma resize_retype {A} (d : A) (e : Z) n v : resize d n = Ok v → resize e n = Ok (vec_resize e (Z.to_nat n) []).
Proof. intros [_ Hm]%resize_ok. by apply resize_ok. Qed.

Lemma parseUsersInfo_inside vals p : start_ok p → Forall in_i32 vals →
  parseUsersInfo vals p ≠ Err Undefined.
Proof.
  intros Hp Hv. unfold parseUsersInfo, start_ok in *.
  rewrite (to_u64_id (p + 3)), (to_u64_id (p + 2)) by (unfold_widths; lia).
  destruct (Z.ltb_spec (vsize vals) (p + 3)); [done|].
  apply rbind_inside; [apply parseUserInfo_inside; unfold pos_ok; unfold_widths; lia|]. intros c _.
  apply rbind_inside; [apply vec_at_inside; lia|]. intros n Hn%vec_at_ok.
  apply rbind_inside; [apply resize_inside|]. intros v Hr.
  apply rbind_inside; [|done]. apply fill_inside. intros i Hi.
  destruct (index_ok 0 n i _ (lookup_i32 _ _ _ Hv Hn) (resize_retype _ 0 _ _ Hr) Hi) as [_ Hb].
  apply parseUserInfo_inside. unfold kNumFieldsPerUserInfo, pos_ok.
  rewrite (to_u64_id (2 * Z.of_nat i)) by (unfold_widths; lia).
  rewrite to_u64_id; unfold_widths; lia.
Qed.

Lemma parseUserAssociationTypes_inside vals n : in_i32 n →
  parseUserAssociationTypes vals 4 (to_u64 n) ≠ Err Undefined.
Proof.
  intros Hn. unfold parseUserAssociationTypes.
  destruct (Z.ltb_spec (vsize vals) (to_u64 (4 + to_u64 n))) as [|Hge]; [done|].
  apply rbind_inside; [apply resize_inside|]. intros v Hr. apply fill_inside. intros i Hi.
  destruct (index_ok _ n i _ Hn Hr Hi) as [Hid Hb]. rewrite Hid in Hge.
  rewrite to_u64_id in Hge by (unfold_widths; lia). rewrite to_u64_id by (unfold_widths; lia).
  apply rbind_inside; [apply vec_at_inside; lia|]. intros x _. apply verifyAndCast_inside.
Qed.

Lemma parseUserAssociations_inside vals n : in_i32 n →
  parseUserAssociations vals 4 (to_u64 n) ≠ Err Undefined.
Proof.
  intros Hn. unfold parseUserAssociations, kNumFieldsPerSetAssociation.
  destruct (Z.ltb_spec (vsize vals) (to_u64 (4 + to_u64 (to_u64 n * 2)))) as [|Hge]; [done|].
  apply rbind_inside; [apply resize_inside|]. intros v Hr. apply fill_inside. intros i Hi.
  destruct (index_ok 0 n i _ Hn (resize_retype _ 0 _ _ Hr) Hi) as [Hid Hb]. rewrite Hid in Hge.
  rewrite (to_u64_id (n * 2)), to_u64_id in Hge by (unfold_widths; lia).
  cbn zeta. rewrite (to_u64_id (2 * Z.of_nat i)), (to_u64_id (4 + _)), to_u64_id by (unfold_widths; lia).
  apply rbind_inside; [apply vec_at_inside; lia|]. intros x _.
  apply rbind_inside; [apply verifyAndCast_inside|]. intros t _.
  apply rbind_inside; [apply vec_at_inside; lia|]. intros y _.
  apply rbind_inside; [apply verifyAndCast_inside|done].
Qed.

Lemma verifyPropValue_inside v p n : verifyPropValue v p n ≠ Err Undefined.
Proof.
  unfold verifyPropValue. destruct (verifyAndCast _ _); [|done].
  destruct (negb _); [done|]. by destruct (_ <? _).
Qed.

Ltac inside_step :=
  match goal with
  | H : verifyPropValue _ _ _ = Ok ?u |- _ =>
      destruct u; apply verifyPropValue_ok in H as [_ H]; [|by apply prop_in_range]
  | |- Ok _ ≠ _ => discriminate
  | |- Err _ ≠ _ => discriminate
  | |- rbind _ _ ≠ _ => apply rbind_inside; [|intros ? ?]
  | |- verifyPropValue _ _ _ ≠ _ => apply verifyPropValue_inside
  | |- vec_at _ _ ≠ _ => apply vec_at_inside; lia
  | |- verifyAndCast _ _ ≠ _ => apply verifyAndCast_inside
  | |- parseUserInfo _ _ ≠ _ => apply parseUserInfo_inside; unfold pos_ok; unfold_widths; lia
  | |- parseUsersInfo _ _ ≠ _ =>
      apply parseUsersInfo_inside; [unfold start_ok; unfold_widths; lia|assumption]
  | Hv : Forall in_i32 ?l, H : vec_at ?l _ = Ok ?n |- parseUserAssociationTypes _ _ (to_u64 ?n) ≠ _ =>
      apply parseUserAssociationTypes_inside; apply vec_at_ok in H; by eapply lookup_i32
  | Hv : Forall in_i32 ?l, H : vec_at ?l _ = Ok ?n |- parseUserAssociations _ _ (to_u64 ?n) ≠ _ =>
      apply parseUserAssociations_inside; apply vec_at_ok in H; by eapply lookup_i32
  | |- (if ?b then _ else _) ≠ _ => destruct b
  end.

(** Parsing never reads outside the vector, whatever integers a client
    sends: none of the six parsers has undefined behaviour on any value. *)
Theorem parsers_stay_inside v : Forall in_i32 (int32Values (value v)) →
  toInitialUserInfoRequest v ≠ Err Undefined ∧ toSwitchUserRequest v ≠ Err Undefined ∧
  toCreateUserRequest v ≠ Err Undefined ∧ toRemoveUserRequest v ≠ Err Undefined ∧
  toUserIdentificationGetRequest v ≠ Err Undefined ∧
  toUserIdentificationSetRequest v ≠ Err Undefined.
Proof.
  intros Hv.
  split_and!;
    unfold toInitialUserInfoRequest, toSwitchUserRequest, toCreateUserRequest,
      toRemoveUserRequest, toUserIdentificationGetRequest, toUserIdentificationSetRequest;
    repeat inside_step.
Qed.

Lemma parsers_stay_inside_witness :
  Forall in_i32 (int32Values (value example_switch)) ∧
  toUserIdentificationSetRequest example_switch ≠ Err Undefined.
Proof.
  assert (Forall in_i32 (int32Values (value example_switch))) as H.
  { cbn. repeat constructor; unfold_widths; lia. }
  split; [exact H|]. apply (parsers_stay_inside example_switch H).
Defined.

(** ** The responses *)

(** A global, available value of a user property. *)
Definition userValue (propId now : Z) (ints : list Z) (s : string) : Recyclable :=
  mkRecyclable (mkPropValue now 0 propId VehiclePropertyStatus.AVAILABLE (mkRaw ints [] [] [] s)) None.

(** Values of mixed properties are never recycled. *)
Lemma obtain_mixed uninit propId pool : getPropType propId = VehiclePropertyType.MIXED →
  obtain uninit (getPropType propId) pool = (mkRecyclable emptyPropValue None, pool).
Proof. by intros ->. Qed.

Lemma buildValue_mixed uninit propId now f pool : getPropType propId = VehiclePropertyType.MIXED →
  buildValue uninit propId now f pool = (userValue propId now (f []) "", pool).
Proof. intros H. unfold buildValue. by rewrite obtain_mixed. Qed.

Lemma vec_set_ok pos x l : (pos < length l)%nat → vec_set pos x l = Ok (<[pos := x]> l).
Proof. intros H. unfold vec_set. by rewrite decide_True. Qed.

Lemma storeAssociations_spec l k vals done_ :
  length done_ = (2 + 2 * k)%nat → length vals = (2 * (length l - k))%nat → (k ≤ length l)%nat →
  storeAssociations l (seq k (length l - k)) (done_ ++ vals) =
  Ok (done_ ++ concat ((λ a, [as_type a; as_value a]) <$> drop k l)).
Proof.
  remember (length l - k)%nat as m eqn:Hm. revert k vals done_ Hm.
  induction m as [|m IH]; intros k vals done_ Hm Hd Hv Hk; cbn [seq storeAssociations].
  - rewrite drop_ge by lia. destruct vals; [done|cbn in Hv; lia].
  - destruct (lookup_lt_is_Some_2 l k ltac:(lia)) as [a Ha]. rewrite Ha.
    destruct vals as [|x [|y vals]]; [cbn in Hv; lia|cbn in Hv; lia|].
    rewrite vec_set_ok by (rewrite length_app; cbn; lia). cbn [rbind].
    rewrite vec_set_ok by (rewrite length_insert, length_app; cbn; lia). cbn [rbind].
    replace (2 + 2 * k)%nat with (length done_ + 0)%nat by lia.
    rewrite insert_app_r. cbn [insert list_insert].
    replace (length done_ + 0 + 1)%nat with (length done_ + 1)%nat by lia.
    rewrite insert_app_r. cbn [insert list_insert].
    replace (done_ ++ as_type a :: as_value a :: vals)
      with ((done_ ++ [as_type a; as_value a]) ++ vals) by (by rewrite <- app_assoc).
    rewrite IH; [|lia|rewrite length_app; cbn; lia|cbn in Hv; lia|lia].
    rewrite (drop_S _ _ _ Ha). cbn [fmap list_fmap concat]. by rewrite <- !app_assoc.
Qed.

(** Every response is exactly the documented message: a global value of
    the property, stamped with the time of the call, with the documented
    integers and string and nothing left over from an earlier use of the
    object; the identification response of [n] associations fills its
    [2 + 2n] integers without leaving the vector. *)
Theorem responses_layout uninit now pool :
  (∀ r, sur_messageType r = SwitchUserMessageType.VEHICLE_REQUEST →
     toVehiclePropValue_switchRequest uninit now r pool =
     Ok (userValue VehicleProperty.SWITCH_USER now
           [sur_requestId r; sur_messageType r; userId (targetUser r)] "", pool)) ∧
  (∀ r, toVehiclePropValue_initialUserInfo uninit now r pool =
     (userValue VehicleProperty.INITIAL_USER_INFO now
        [iures_requestId r; action r; userId (userToSwitchOrCreate r); flags (userToSwitchOrCreate r)]
        (userLocales r +:+ kSeparator +:+ userNameToCreate r), pool)) ∧
  (∀ r, toVehiclePropValue_switchResponse uninit now r pool =
     (userValue VehicleProperty.SWITCH_USER now
        [sures_requestId r; sures_messageType r; sures_status r]
        (if sures_status r =? SwitchUserStatus.FAILURE then sures_errorMessage r else ""), pool)) ∧
  (∀ r, toVehiclePropValue_createResponse uninit now r pool =
     (userValue VehicleProperty.CREATE_USER now [cures_requestId r; cures_status r]
        (if cures_status r =? CreateUserStatus.FAILURE then cures_errorMessage r else ""), pool)) ∧
  (∀ r, numberAssociation r = vsize (uir_associations r) → 2 + 2 * numberAssociation r < two31 →
     toVehiclePropValue_identification uninit now r pool =
     Ok (userValue VehicleProperty.USER_IDENTIFICATION_ASSOCIATION now
           ([uir_requestId r; numberAssociation r] ++
            concat ((λ a, [as_type a; as_value a]) <$> uir_associations r))
           (uir_errorMessage r), pool)).
Proof.
  split_and!.
  - intros r Hr. unfold toVehiclePropValue_switchRequest. rewrite buildValue_mixed by done.
    by rewrite Hr.
  - intros r. unfold toVehiclePropValue_initialUserInfo. by rewrite buildValue_mixed.
  - intros r. unfold toVehiclePropValue_switchResponse. rewrite buildValue_mixed by done.
    by destruct (_ =? _).
  - intros r. unfold toVehiclePropValue_createResponse. rewrite buildValue_mixed by done.
    by destruct (_ =? _).
  - intros r Hn Hb. unfold toVehiclePropValue_identification. rewrite buildValue_mixed by done.
    assert (H0 : 0 ≤ numberAssociation r) by (unfold vsize in Hn; lia).
    destruct (Z.leb_spec (- two31) (2 + numberAssociation r * 2)); [|unfold_widths; lia].
    destruct (Z.ltb_spec (2 + numberAssociation r * 2) two31); [|lia]. cbn [andb negb].
    rewrite !to_u64_id by (unfold_widths; lia).
    destruct (Z.ltb_spec vec_max_size (2 + numberAssociation r * 2));
      [unfold vec_max_size in *; unfold_widths; lia|].
    cbn [userValue obj value int32Values].
    replace (Z.to_nat (2 + numberAssociation r * 2))
      with (2 + 2 * length (uir_associations r))%nat by (unfold vsize in Hn; lia).
    assert (Hz : vec_resize 0 (2 + 2 * length (uir_associations r)) [] =
                 0 :: 0 :: replicate (2 * length (uir_associations r)) 0).
    { unfold vec_resize. by rewrite take_nil, Nat.sub_0_r. }
    rewrite Hz, vec_set_ok by (cbn; lia). cbn [rbind].
    rewrite vec_set_ok by (cbn; lia). cbn [rbind insert list_insert].
    replace (Z.to_nat (numberAssociation r)) with (length (uir_associations r) - 0)%nat
      by (unfold vsize in Hn; lia).
    match goal with |- context [storeAssociations ?l ?s ?v] =>
      change v with ([uir_requestId r; numberAssociation r] ++
                     replicate (2 * length (uir_associations r)) 0) end.
    rewrite (storeAssociations_spec _ 0 _ [uir_requestId r; numberAssociation r]);
      [|done|rewrite length_replicate; lia|lia].
    cbn [rbind]. rewrite drop_0.
    destruct (String.eqb_spec (uir_errorMessage r) ""); [by rewrite e|done].
Qed.

(** The key-fob example of [VehicleProperty.aidl]. *)
Definition example_association : UserIdentificationResponse :=
  mkUserIdentificationResponse 42 2 [mkAssociation 1 2; mkAssociation 101 4] "".

Lemma responses_layout_witness :
  toVehiclePropValue_identification 0 7 example_association (newPool 4 10240) =
  Ok (userValue VehicleProperty.USER_IDENTIFICATION_ASSOCIATION 7 [42; 2; 1; 2; 101; 4] "",
      newPool 4 10240).
Proof.
  destruct (responses_layout 0 7 (newPool 4 10240)) as (_ & _ & _ & _ & H).
  apply (H example_association); [reflexivity|unfold_widths; cbn; lia].
Defined.
