(* ===== verification/FakeUserHal.v ===== *)
(** * FakeUserHal: emulation of a user HAL through debug requests

    [fake_impl/userhal/src/FakeUserHal.cpp]. A [set] with a non-zero area ID
    comes from lshal and stores the response of a later request; a [set] with
    area ID 0 comes from Android and is answered, with the stored response when
    there is one. Every operation runs under [mLock], so it is one step. *)

From stdpp Require Import base gmap list strings.
From Stdlib Require Import ZArith Lia.
From S2P Require Import Prelude Float32 VehicleTypes VehicleProperty VehicleUtils VehicleObjectPool.
From S2P Require Import UserHalHelper.

Local Open Scope Z_scope.
Local Open Scope vhal_scope.

Record FakeUserHal : Type := mkFakeUserHal {
  mValuePool : VehiclePropValuePool;
  mInitialUserResponseFromCmd : option Recyclable;
  mSwitchUserResponseFromCmd : option Recyclable;
  mCreateUserResponseFromCmd : option Recyclable;
  mSetUserIdentificationAssociationResponseFromCmd : option Recyclable;
}.

Definition newFakeUserHal (p : VehiclePropValuePool) : FakeUserHal :=
  mkFakeUserHal p None None None None.

Definition with_pool (p : VehiclePropValuePool) (h : FakeUserHal) : FakeUserHal :=
  mkFakeUserHal p (mInitialUserResponseFromCmd h) (mSwitchUserResponseFromCmd h)
    (mCreateUserResponseFromCmd h) (mSetUserIdentificationAssociationResponseFromCmd h).

(** A status returned to the caller, or undefined behaviour. *)
Inductive UserHalError : Type := Status (c : StatusCode) | UB.

Definition HalM : Type → Type := M FakeUserHal UserHalError.

Definition lift {A} (r : result UserHalError A) : HalM A :=
  match r with Ok a => mreturn a | Err e => mfail e end.

Definition getRequestId (v : VehiclePropValue) : result UserHalError Z :=
  match int32Values (value v) with
  | [] => Err (Status INVALID_ARG)
  | id :: _ => Ok id
  end.

Definition getSwitchUserMessageType (v : VehiclePropValue) : result UserHalError Z :=
  match int32Values (value v) with
  | _ :: t :: _ =>
      match verifyAndCast SwitchUserMessageType.enum_range t with
      | Ok m => Ok m
      | Err _ => Err (Status INVALID_ARG)
      end
  | _ => Err (Status INVALID_ARG)
  end.

Definition isSupported (p : Z) : bool :=
  (p =? VehicleProperty.INITIAL_USER_INFO) || (p =? VehicleProperty.SWITCH_USER) ||
  (p =? VehicleProperty.CREATE_USER) || (p =? VehicleProperty.REMOVE_USER) ||
  (p =? VehicleProperty.USER_IDENTIFICATION_ASSOCIATION).

(** [response->value.int32Values[0] = id]. *)
Definition setRequestId (id : Z) (r : Recyclable) : result UserHalError Recyclable :=
  match store0 id (int32Values (value (obj r))) with
  | Some l => Ok (with_int32s l r)
  | None => Err UB
  end.

Definition setAreaId (a : Z) (r : Recyclable) : Recyclable :=
  let v := obj r in set_obj (mkPropValue (timestamp v) a (prop v) (status v) (value v)) r.

(** [-requestId] on [int32_t]. *)
Definition negateId (id : Z) : result UserHalError Z :=
  if id =? - two31 then Err UB else Ok (- id).

Section hal.
  Context (uninit_size : Z).

(** [mValuePool->obtain(v)]. *)
Definition obtainM (v : VehiclePropValue) : HalM Recyclable :=
  λ h, let '(r, p) := obtainCopy uninit_size v (mValuePool h) in (with_pool p h, Ok r).

(** A response built from the pool. *)
Definition buildM (f : VehiclePropValuePool → Recyclable * VehiclePropValuePool) : HalM Recyclable :=
  λ h, let '(r, p) := f (mValuePool h) in (with_pool p h, Ok r).

(** The end of the life of a (possibly null) [RecyclableType]. *)
Definition dispose (r : option Recyclable) : HalM unit :=
  mmodify (λ h, match r with
                | Some r => with_pool (destroy r (mValuePool h)) h
                | None => h
                end).

Definition set_mInitial (r : option Recyclable) (h : FakeUserHal) : FakeUserHal :=
  mkFakeUserHal (mValuePool h) r (mSwitchUserResponseFromCmd h) (mCreateUserResponseFromCmd h)
    (mSetUserIdentificationAssociationResponseFromCmd h).
Definition set_mSwitch (r : option Recyclable) (h : FakeUserHal) : FakeUserHal :=
  mkFakeUserHal (mValuePool h) (mInitialUserResponseFromCmd h) r (mCreateUserResponseFromCmd h)
    (mSetUserIdentificationAssociationResponseFromCmd h).
Definition set_mCreate (r : option Recyclable) (h : FakeUserHal) : FakeUserHal :=
  mkFakeUserHal (mValuePool h) (mInitialUserResponseFromCmd h) (mSwitchUserResponseFromCmd h) r
    (mSetUserIdentificationAssociationResponseFromCmd h).
Definition set_mSetUserId (r : option Recyclable) (h : FakeUserHal) : FakeUserHal :=
  mkFakeUserHal (mValuePool h) (mInitialUserResponseFromCmd h) (mSwitchUserResponseFromCmd h)
    (mCreateUserResponseFromCmd h) r.

(** The parameter owns the response: it is recycled unless it is returned. *)
Definition sendUserHalResponse (response : Recyclable) (requestId : Z) : HalM (option Recyclable) :=
  let a := areaId (obj response) in
  if a =? 1 then
    let! r := lift (setRequestId requestId response) in mreturn (Some (setAreaId 0 r))
  else if a =? 2 then
    let! id := lift (negateId requestId) in
    let! r := lift (setRequestId id response) in mreturn (Some (setAreaId 0 r))
  else if a =? 3 then dispose (Some response) ;;; mfail (Status NOT_AVAILABLE)
  else dispose (Some response) ;;; mfail (Status INTERNAL_ERROR).

Definition defaultUserIdentificationAssociation : HalM (option Recyclable) :=
  mfail (Status NOT_AVAILABLE).

Definition onSetInitialUserInfoResponse (now : Z) (v : VehiclePropValue) :
    HalM (option Recyclable) :=
  let! requestId := lift (getRequestId v) in
  if negb (areaId v =? 0) then
    let! r := obtainM v in
    let! h := mget in
    mput (set_mInitial (Some r) h) ;;; dispose (mInitialUserResponseFromCmd h) ;;; mreturn None
  else
    let! h := mget in
    match mInitialUserResponseFromCmd h with
    | Some r => mput (set_mInitial None h) ;;; sendUserHalResponse r requestId
    | None =>
        let! r := buildM (toVehiclePropValue_initialUserInfo uninit_size now
                            (mkInitialUserInfoResponse requestId InitialUserInfoResponseAction.DEFAULT
                               (mkUserInfo 0 0) "" "")) in
        mreturn (Some r)
    end.

Definition onSetSwitchUserResponse (now : Z) (v : VehiclePropValue) : HalM (option Recyclable) :=
  let! requestId := lift (getRequestId v) in
  let! messageType := lift (getSwitchUserMessageType v) in
  if negb (areaId v =? 0) then
    if messageType =? SwitchUserMessageType.VEHICLE_REQUEST then
      let! r := obtainM v in mreturn (Some r)
    else
      let! r := obtainM v in
      let! h := mget in
      mput (set_mSwitch (Some r) h) ;;; dispose (mSwitchUserResponseFromCmd h) ;;; mreturn None
  else
    let! h := mget in
    match mSwitchUserResponseFromCmd h with
    | Some r => mput (set_mSwitch None h) ;;; sendUserHalResponse r requestId
    | None =>
        if (messageType =? SwitchUserMessageType.LEGACY_ANDROID_SWITCH) ||
           (messageType =? SwitchUserMessageType.ANDROID_POST_SWITCH)
        then mreturn None
        else
          let! r := buildM (toVehiclePropValue_switchResponse uninit_size now
                              (mkSwitchUserResponse requestId SwitchUserMessageType.VEHICLE_RESPONSE
                                 SwitchUserStatus.SUCCESS "")) in
          mreturn (Some r)
    end.

Definition onSetCreateUserResponse (now : Z) (v : VehiclePropValue) : HalM (option Recyclable) :=
  let! requestId := lift (getRequestId v) in
  if negb (areaId v =? 0) then
    let! r := obtainM v in
    let! h := mget in
    mput (set_mCreate (Some r) h) ;;; dispose (mCreateUserResponseFromCmd h) ;;; mreturn None
  else
    let! h := mget in
    match mCreateUserResponseFromCmd h with
    | Some r => mput (set_mCreate None h) ;;; sendUserHalResponse r requestId
    | None =>
        let! r := buildM (toVehiclePropValue_createResponse uninit_size now
                            (mkCreateUserResponse requestId CreateUserStatus.SUCCESS "")) in
        mreturn (Some r)
    end.

Definition onSetUserIdentificationAssociation (v : VehiclePropValue) : HalM (option Recyclable) :=
  let! requestId := lift (getRequestId v) in
  if negb (areaId v =? 0) then
    let! r := obtainM v in
    let! h := mget in
    mput (set_mSetUserId (Some r) h) ;;;
    dispose (mSetUserIdentificationAssociationResponseFromCmd h) ;;; mreturn None
  else
    let! h := mget in
    match mSetUserIdentificationAssociationResponseFromCmd h with
    | Some r => let! copy := obtainM (obj r) in sendUserHalResponse copy requestId
    | None => defaultUserIdentificationAssociation
    end.

Definition onGetUserIdentificationAssociation (v : VehiclePropValue) : HalM (option Recyclable) :=
  let! h := mget in
  match mSetUserIdentificationAssociationResponseFromCmd h with
  | None => defaultUserIdentificationAssociation
  | Some r =>
      let! newValue := obtainM (obj r) in
      match getRequestId v with
      | Ok requestId =>
          let! r' := lift (setRequestId requestId newValue) in mreturn (Some r')
      | Err e => dispose (Some newValue) ;;; mfail e
      end
  end.

Definition onSetProperty (now : Z) (v : VehiclePropValue) : HalM (option Recyclable) :=
  if prop v =? VehicleProperty.INITIAL_USER_INFO then onSetInitialUserInfoResponse now v
  else if prop v =? VehicleProperty.SWITCH_USER then onSetSwitchUserResponse now v
  else if prop v =? VehicleProperty.CREATE_USER then onSetCreateUserResponse now v
  else if prop v =? VehicleProperty.REMOVE_USER then mreturn None
  else if prop v =? VehicleProperty.USER_IDENTIFICATION_ASSOCIATION
  then onSetUserIdentificationAssociation v
  else mfail (Status INVALID_ARG).

Definition onGetProperty (v : VehiclePropValue) : HalM (option Recyclable) :=
  if (prop v =? VehicleProperty.INITIAL_USER_INFO) || (prop v =? VehicleProperty.SWITCH_USER) ||
     (prop v =? VehicleProperty.CREATE_USER) || (prop v =? VehicleProperty.REMOVE_USER)
  then mfail (Status INVALID_ARG)
  else if prop v =? VehicleProperty.USER_IDENTIFICATION_ASSOCIATION
  then onGetUserIdentificationAssociation v
  else mfail (Status INVALID_ARG).

(** ** Specification

    One protocol for all the properties: the stored responses are a map from
    properties to values; a pool is not mentioned.  It is the protocol the
    code follows; [header_set] below is what the comment of [FakeUserHal.h]
    says, and the two are compared. *)

Notation Slots := (gmap Z VehiclePropValue).

Definition answer (cmd : VehiclePropValue) (id : Z) : VehiclePropValue :=
  mkPropValue (timestamp cmd) 0 (prop cmd) (status cmd)
    (mkRaw (id :: tail (int32Values (value cmd))) (floatValues (value cmd))
       (int64Values (value cmd)) (byteValues (value cmd)) (stringValue (value cmd))).

(** The area ID of the stored response selects the behaviour. *)
Definition spec_reply (cmd : VehiclePropValue) (id : Z) : result UserHalError VehiclePropValue :=
  if areaId cmd =? 1 then Ok (answer cmd id)
  else if areaId cmd =? 2 then
    match negateId id with Ok wrong => Ok (answer cmd wrong) | Err e => Err e end
  else if areaId cmd =? 3 then Err (Status NOT_AVAILABLE)
  else Err (Status INTERNAL_ERROR).

(** The answer without a stored response. *)
Definition spec_default (now p id t : Z) : result UserHalError (option VehiclePropValue) :=
  let ok ints s := Ok (Some (obj (userValue p now ints s))) in
  if p =? VehicleProperty.INITIAL_USER_INFO
  then ok [id; InitialUserInfoResponseAction.DEFAULT; 0; 0] kSeparator
  else if p =? VehicleProperty.SWITCH_USER then
    if (t =? SwitchUserMessageType.LEGACY_ANDROID_SWITCH) ||
       (t =? SwitchUserMessageType.ANDROID_POST_SWITCH) then Ok None
    else ok [id; SwitchUserMessageType.VEHICLE_RESPONSE; SwitchUserStatus.SUCCESS] ""
  else if p =? VehicleProperty.CREATE_USER then ok [id; CreateUserStatus.SUCCESS] ""
  else Err (Status NOT_AVAILABLE).

(** The properties with a stored response. *)
Definition has_slot (p : Z) : bool :=
  (p =? VehicleProperty.INITIAL_USER_INFO) || (p =? VehicleProperty.SWITCH_USER) ||
  (p =? VehicleProperty.CREATE_USER) || (p =? VehicleProperty.USER_IDENTIFICATION_ASSOCIATION).

(** The message type, which only [SWITCH_USER] has. *)
Definition spec_type (v : VehiclePropValue) : result UserHalError Z :=
  if prop v =? VehicleProperty.SWITCH_USER then getSwitchUserMessageType v else Ok 0.

Definition spec_set (now : Z) (v : VehiclePropValue) (s : Slots) :
    Slots * result UserHalError (option VehiclePropValue) :=
  let p := prop v in
  if p =? VehicleProperty.REMOVE_USER then (s, Ok None)
  else if negb (has_slot p) then (s, Err (Status INVALID_ARG))
  else match getRequestId v, spec_type v with
       | Err e, _ | _, Err e => (s, Err e)
       | Ok id, Ok t =>
           if negb (areaId v =? 0) then
             if t =? SwitchUserMessageType.VEHICLE_REQUEST then (s, Ok (Some v))
             else (<[p := v]> s, Ok None)
           else match s !! p with
                | Some cmd =>
                    (if p =? VehicleProperty.USER_IDENTIFICATION_ASSOCIATION then s else delete p s,
                     match spec_reply cmd id with Ok x => Ok (Some x) | Err e => Err e end)
                | None => (s, spec_default now p id t)
                end
       end.

Definition spec_get (v : VehiclePropValue) (s : Slots) : result UserHalError (option VehiclePropValue) :=
  if prop v =? VehicleProperty.USER_IDENTIFICATION_ASSOCIATION then
    match s !! prop v with
    | None => Err (Status NOT_AVAILABLE)
    | Some cmd =>
        match getRequestId v with
        | Ok id => Ok (Some (mkPropValue (timestamp cmd) (areaId cmd) (prop cmd) (status cmd)
                               (value (answer cmd id))))
        | Err e => Err e
        end
    end
  else Err (Status INVALID_ARG).

(** ** The header comment

    What the comment above [onSetInitialUserInfoResponse] in [FakeUserHal.h]
    prescribes for a set with the request id [id], line by line; the comments
    of the other properties refer to it.  It does not say what happens for a
    stored area other than 1, 2 and 3 (here: some error), nor whether a stored
    response is used once or stays (here: either). *)
Inductive header_set (id : Z) (v : VehiclePropValue) (s : Slots) :
    Slots → result UserHalError (option VehiclePropValue) → Prop :=
  | header_store : areaId v ≠ 0 → header_set id v s (<[prop v := v]> s) (Ok None)
  | header_default r : areaId v = 0 → s !! prop v = None → prop r = prop v →
      take 2 (int32Values (value r)) = [id; InitialUserInfoResponseAction.DEFAULT] →
      header_set id v s s (Ok (Some r))
  | header_right cmd s' : areaId v = 0 → s !! prop v = Some cmd → delete (prop v) s' = delete (prop v) s →
      areaId cmd = 1 → header_set id v s s' (Ok (Some (answer cmd id)))
  | header_wrong cmd s' wrong : areaId v = 0 → s !! prop v = Some cmd → delete (prop v) s' = delete (prop v) s →
      areaId cmd = 2 → wrong ≠ id → header_set id v s s' (Ok (Some (answer cmd wrong)))
  | header_silent cmd s' e : areaId v = 0 → s !! prop v = Some cmd → delete (prop v) s' = delete (prop v) s →
      areaId cmd = 3 → header_set id v s s' (Err e)
  | header_unsaid cmd s' e : areaId v = 0 → s !! prop v = Some cmd → delete (prop v) s' = delete (prop v) s →
      areaId cmd ∉ [1; 2; 3] → header_set id v s s' (Err e).

(** Where the comment speaks: the whole of INITIAL_USER_INFO, and for the
    properties that refer to it a response given by lshal (a vehicle request
    of SWITCH_USER apart, which is reported at once) and the use of a stored
    one. *)
Definition header_speaks (v : VehiclePropValue) (t : Z) (s : Slots) : Prop :=
  prop v = VehicleProperty.INITIAL_USER_INFO ∨
  areaId v ≠ 0 ∧ t ≠ SwitchUserMessageType.VEHICLE_REQUEST ∨
  areaId v = 0 ∧ is_Some (s !! prop v).

(** ** Simulation *)

Definition slot (p : Z) (h : FakeUserHal) : option Recyclable :=
  if p =? VehicleProperty.INITIAL_USER_INFO then mInitialUserResponseFromCmd h
  else if p =? VehicleProperty.SWITCH_USER then mSwitchUserResponseFromCmd h
  else if p =? VehicleProperty.CREATE_USER then mCreateUserResponseFromCmd h
  else if p =? VehicleProperty.USER_IDENTIFICATION_ASSOCIATION
  then mSetUserIdentificationAssociationResponseFromCmd h
  else None.

Definition cmd_ok (p : Z) (v : VehiclePropValue) : Prop :=
  has_slot p = true ∧ prop v = p ∧ areaId v ≠ 0 ∧ int32Values (value v) ≠ [].

(** The stored responses are those of [s], none of them borrowed from a
    recycling pool, all of them well formed; the pool is [pool]. *)
Record rel (pool : VehiclePropValuePool) (h : FakeUserHal) (s : Slots) : Prop := mk_rel {
  rel_slot : ∀ p, slot p h = (λ v, mkRecyclable v None) <$> s !! p;
  rel_cmd : map_Forall cmd_ok s;
  rel_pool : mValuePool h = pool;
}.

Lemma has_slot_mixed p : has_slot p = true → getPropType p = VehiclePropertyType.MIXED.
Proof.
  unfold has_slot. rewrite !orb_true_iff, !Z.eqb_eq. intros [[[->| ->]| ->]| ->]; reflexivity.
Qed.

Lemma obtainM_mixed v h : has_slot (prop v) = true → obtainM v h = (h, Ok (mkRecyclable v None)).
Proof.
  intros Hp%has_slot_mixed. unfold obtainM, obtainCopy. rewrite Hp. cbn. by destruct h, v as [? ? ? ? []].
Qed.

Lemma slot_insert p v h s pool h' :
  rel pool h s → cmd_ok p v → mValuePool h' = pool →
  (∀ q, slot q h' = if q =? p then Some (mkRecyclable v None) else slot q h) →
  rel pool h' (<[p := v]> s).
Proof.
  intros [Hs Hc Hp] Hv Hp' Hq. split; [|by apply map_Forall_insert_2|done].
  intros q. rewrite Hq. destruct (Z.eqb_spec q p) as [->|Hne].
  - by rewrite lookup_insert_eq.
  - by rewrite lookup_insert_ne, Hs by done.
Qed.

Lemma slot_delete p h s pool h' :
  rel pool h s → mValuePool h' = pool →
  (∀ q, slot q h' = if q =? p then None else slot q h) → rel pool h' (delete p s).
Proof.
  intros [Hs Hc Hp] Hp' Hq. split; [|by apply map_Forall_delete|done].
  intros q. rewrite Hq. destruct (Z.eqb_spec q p) as [->|Hne].
  - by rewrite lookup_delete_eq.
  - by rewrite lookup_delete_ne, Hs by done.
Qed.

(** The result of the code, as the specification reports it. *)
Definition out (r : result UserHalError (option Recyclable)) :
    result UserHalError (option VehiclePropValue) :=
  match r with Ok r => Ok (obj <$> r) | Err e => Err e end.

Lemma send_spec cmd id h : int32Values (value cmd) ≠ [] →
  let '(h', r) := sendUserHalResponse (mkRecyclable cmd None) id h in
  h' = h ∧ out r = match spec_reply cmd id with Ok x => Ok (Some x) | Err e => Err e end.
Proof.
  intros Hne. unfold sendUserHalResponse, spec_reply. cbn [obj].
  assert (Hid : ∀ i, setRequestId i (mkRecyclable cmd None) =
    Ok (mkRecyclable (mkPropValue (timestamp cmd) (areaId cmd) (prop cmd) (status cmd)
                        (value (answer cmd i))) None)).
  { intros i. unfold setRequestId. cbn [obj]. destruct (int32Values (value cmd)) eqn:He; [done|].
    cbn. unfold with_int32s, answer. cbn. by rewrite He. }
  destruct (areaId cmd =? 1); [by rewrite Hid|].
  destruct (areaId cmd =? 2).
  { destruct (negateId id); cbn; [|done]. rewrite Hid. done. }
  destruct (areaId cmd =? 3); unfold dispose; cbn; (split; [by destruct h|done]).
Qed.

Ltac slot_eq := intros q; unfold slot; cbn; zcases; subst; done.

Lemma getRequestId_ne v id : getRequestId v = Ok id → int32Values (value v) ≠ [].
Proof. unfold getRequestId. by destruct (int32Values (value v)). Qed.

(** A stored response and the slot it comes from. *)
Lemma rel_lookup pool h s p : rel pool h s →
  slot p h = None ∧ s !! p = None ∨
  ∃ cmd, slot p h = Some (mkRecyclable cmd None) ∧ s !! p = Some cmd ∧ cmd_ok p cmd.
Proof.
  intros [Hs Hc _]. rewrite Hs. destruct (s !! p) as [cmd|] eqn:He; [right|by left].
  exists cmd. split; [done|]. split; [done|]. by apply (Hc p cmd).
Qed.

(** The pool is left as it was. *)
Lemma dispose_rel pool h s p : rel pool h s →
  ∀ h', mValuePool h' = pool → dispose (slot p h) h' = (h', Ok tt).
Proof.
  intros Hr h' Hp. unfold dispose, mmodify.
  destruct (rel_lookup _ _ _ p Hr) as [[-> _]|(cmd & -> & _)]; [done|]. by destruct h'.
Qed.

Ltac enter :=
  unfold mbind'; cbn [lift mreturn mfail mget mput mmodify].

Lemma initial_sim now v pool h s : prop v = VehicleProperty.INITIAL_USER_INFO → rel pool h s →
  let '(h', r) := onSetInitialUserInfoResponse now v h in
  let '(s', o) := spec_set now v s in rel pool h' s' ∧ out r = o.
Proof.
  intros Hp Hr. unfold onSetInitialUserInfoResponse, spec_set, spec_type. rewrite Hp.
  cbn [has_slot negb orb Z.eqb VehicleProperty.INITIAL_USER_INFO VehicleProperty.REMOVE_USER
       VehicleProperty.SWITCH_USER VehicleProperty.USER_IDENTIFICATION_ASSOCIATION Pos.eqb].
  destruct (getRequestId v) as [id|e] eqn:Hid; enter; [|done].
  destruct (Z.eqb_spec (areaId v) 0) as [Ha|Ha]; cbn [negb].
  - destruct (rel_lookup _ _ _ VehicleProperty.INITIAL_USER_INFO Hr) as [[Hs ->]|(cmd & Hs & -> & Hc)];
      unfold slot in Hs; cbn in Hs; rewrite Hs; enter.
    + cbn. split; [by destruct Hr as [? ? <-], h|done].
    + pose proof (send_spec cmd id (set_mInitial None h)) as Hsend.
      destruct (sendUserHalResponse _ _ _) as [h' r]. destruct Hsend as [-> ->]; [apply Hc|].
      split; [|done]. apply (slot_delete _ h); [done|apply Hr|slot_eq].
  - rewrite obtainM_mixed by (by rewrite Hp). cbn [Z.eqb SwitchUserMessageType.VEHICLE_REQUEST].
    change (mInitialUserResponseFromCmd h) with (slot VehicleProperty.INITIAL_USER_INFO h).
    rewrite (dispose_rel _ _ _ _ Hr) by apply Hr. split; [|done].
    apply (slot_insert _ _ h); [done| |apply Hr|slot_eq].
    split; [done|]. split; [done|]. split; [done|]. by eapply getRequestId_ne.
Qed.

Lemma switch_sim now v pool h s : prop v = VehicleProperty.SWITCH_USER → rel pool h s →
  let '(h', r) := onSetSwitchUserResponse now v h in
  let '(s', o) := spec_set now v s in rel pool h' s' ∧ out r = o.
Proof.
  intros Hp Hr. unfold onSetSwitchUserResponse, spec_set, spec_type. rewrite Hp.
  cbn [has_slot negb orb Z.eqb VehicleProperty.INITIAL_USER_INFO VehicleProperty.REMOVE_USER
       VehicleProperty.SWITCH_USER VehicleProperty.USER_IDENTIFICATION_ASSOCIATION Pos.eqb].
  destruct (getRequestId v) as [id|e] eqn:Hid; enter; [|done].
  destruct (getSwitchUserMessageType v) as [t|e]; enter; [|done].
  destruct (Z.eqb_spec (areaId v) 0) as [Ha|Ha]; cbn [negb].
  - destruct (rel_lookup _ _ _ VehicleProperty.SWITCH_USER Hr) as [[Hs ->]|(cmd & Hs & -> & Hc)];
      unfold slot in Hs; cbn in Hs; rewrite Hs; enter.
    + unfold spec_default.
      cbn [Z.eqb VehicleProperty.INITIAL_USER_INFO VehicleProperty.SWITCH_USER Pos.eqb].
      destruct (_ || _); [done|]. cbn. split; [by destruct Hr as [? ? <-], h|done].
    + pose proof (send_spec cmd id (set_mSwitch None h)) as Hsend.
      destruct (sendUserHalResponse _ _ _) as [h' r]. destruct Hsend as [-> ->]; [apply Hc|].
      split; [|done]. apply (slot_delete _ h); [done|apply Hr|slot_eq].
  - destruct (Z.eqb_spec t SwitchUserMessageType.VEHICLE_REQUEST); enter;
      rewrite obtainM_mixed by (by rewrite Hp); [done|].
    change (mSwitchUserResponseFromCmd h) with (slot VehicleProperty.SWITCH_USER h).
    rewrite (dispose_rel _ _ _ _ Hr) by apply Hr. split; [|done].
    apply (slot_insert _ _ h); [done| |apply Hr|slot_eq].
    split; [done|]. split; [done|]. split; [done|]. by eapply getRequestId_ne.
Qed.

Lemma create_sim now v pool h s : prop v = VehicleProperty.CREATE_USER → rel pool h s →
  let '(h', r) := onSetCreateUserResponse now v h in
  let '(s', o) := spec_set now v s in rel pool h' s' ∧ out r = o.
Proof.
  intros Hp Hr. unfold onSetCreateUserResponse, spec_set, spec_type. rewrite Hp.
  cbn [has_slot negb orb Z.eqb VehicleProperty.INITIAL_USER_INFO VehicleProperty.REMOVE_USER
       VehicleProperty.CREATE_USER VehicleProperty.SWITCH_USER
       VehicleProperty.USER_IDENTIFICATION_ASSOCIATION Pos.eqb].
  destruct (getRequestId v) as [id|e] eqn:Hid; enter; [|done].
  destruct (Z.eqb_spec (areaId v) 0) as [Ha|Ha]; cbn [negb].
  - destruct (rel_lookup _ _ _ VehicleProperty.CREATE_USER Hr) as [[Hs ->]|(cmd & Hs & -> & Hc)];
      unfold slot in Hs; cbn in Hs; rewrite Hs; enter.
    + cbn. split; [by destruct Hr as [? ? <-], h|done].
    + pose proof (send_spec cmd id (set_mCreate None h)) as Hsend.
      destruct (sendUserHalResponse _ _ _) as [h' r]. destruct Hsend as [-> ->]; [apply Hc|].
      split; [|done]. apply (slot_delete _ h); [done|apply Hr|slot_eq].
  - rewrite obtainM_mixed by (by rewrite Hp). cbn [Z.eqb SwitchUserMessageType.VEHICLE_REQUEST].
    change (mCreateUserResponseFromCmd h) with (slot VehicleProperty.CREATE_USER h).
    rewrite (dispose_rel _ _ _ _ Hr) by apply Hr. split; [|done].
    apply (slot_insert _ _ h); [done| |apply Hr|slot_eq].
    split; [done|]. split; [done|]. split; [done|]. by eapply getRequestId_ne.
Qed.

Lemma cmd_ok_has_slot p cmd : cmd_ok p cmd → has_slot (prop cmd) = true.
Proof. by intros (? & -> & _). Qed.

Lemma identification_sim now v pool h s :
  prop v = VehicleProperty.USER_IDENTIFICATION_ASSOCIATION → rel pool h s →
  let '(h', r) := onSetUserIdentificationAssociation v h in
  let '(s', o) := spec_set now v s in rel pool h' s' ∧ out r = o.
Proof.
  intros Hp Hr. unfold onSetUserIdentificationAssociation, spec_set, spec_type. rewrite Hp.
  cbn [has_slot negb orb Z.eqb VehicleProperty.INITIAL_USER_INFO VehicleProperty.REMOVE_USER
       VehicleProperty.CREATE_USER VehicleProperty.SWITCH_USER
       VehicleProperty.USER_IDENTIFICATION_ASSOCIATION Pos.eqb].
  destruct (getRequestId v) as [id|e] eqn:Hid; enter; [|done].
  destruct (Z.eqb_spec (areaId v) 0) as [Ha|Ha]; cbn [negb].
  - destruct (rel_lookup _ _ _ VehicleProperty.USER_IDENTIFICATION_ASSOCIATION Hr)
      as [[Hs ->]|(cmd & Hs & -> & Hc)];
      unfold slot in Hs; cbn in Hs; rewrite Hs; enter; [done|].
    rewrite obtainM_mixed by (eapply cmd_ok_has_slot; exact Hc). cbn [obj].
    pose proof (send_spec cmd id h) as Hsend.
    destruct (sendUserHalResponse _ _ _) as [h' r]. destruct Hsend as [-> ->]; [apply Hc|]. done.
  - rewrite obtainM_mixed by (by rewrite Hp). cbn [Z.eqb SwitchUserMessageType.VEHICLE_REQUEST].
    change (mSetUserIdentificationAssociationResponseFromCmd h)
      with (slot VehicleProperty.USER_IDENTIFICATION_ASSOCIATION h).
    rewrite (dispose_rel _ _ _ _ Hr) by apply Hr. split; [|done].
    apply (slot_insert _ _ h); [done| |apply Hr|slot_eq].
    split; [done|]. split; [done|]. split; [done|]. by eapply getRequestId_ne.
Qed.

Lemma set_sim now v pool h s : rel pool h s →
  let '(h', r) := onSetProperty now v h in
  let '(s', o) := spec_set now v s in rel pool h' s' ∧ out r = o.
Proof.
  intros Hr. unfold onSetProperty.
  destruct (Z.eqb_spec (prop v) VehicleProperty.INITIAL_USER_INFO) as [He|H1]; [by apply initial_sim|].
  destruct (Z.eqb_spec (prop v) VehicleProperty.SWITCH_USER) as [He|H2]; [by apply switch_sim|].
  destruct (Z.eqb_spec (prop v) VehicleProperty.CREATE_USER) as [He|H3]; [by apply create_sim|].
  destruct (Z.eqb_spec (prop v) VehicleProperty.REMOVE_USER) as [He|H4].
  { unfold spec_set. by rewrite He. }
  destruct (Z.eqb_spec (prop v) VehicleProperty.USER_IDENTIFICATION_ASSOCIATION) as [He|H5];
    [by apply identification_sim|].
  unfold spec_set, has_slot.
  apply Z.eqb_neq in H1 as ->, H2 as ->, H3 as ->, H4 as ->, H5 as ->. done.
Qed.

Lemma get_sim v pool h s : rel pool h s →
  let '(h', r) := onGetProperty v h in rel pool h' s ∧ out r = spec_get v s.
Proof.
  intros Hr. unfold onGetProperty, spec_get.
  destruct (Z.eqb_spec (prop v) VehicleProperty.USER_IDENTIFICATION_ASSOCIATION) as [He|Hne].
  - rewrite He. cbn [Z.eqb orb VehicleProperty.INITIAL_USER_INFO VehicleProperty.REMOVE_USER
       VehicleProperty.CREATE_USER VehicleProperty.SWITCH_USER
       VehicleProperty.USER_IDENTIFICATION_ASSOCIATION Pos.eqb].
    unfold onGetUserIdentificationAssociation. enter.
    destruct (rel_lookup _ _ _ VehicleProperty.USER_IDENTIFICATION_ASSOCIATION Hr)
      as [[Hs ->]|(cmd & Hs & -> & Hc)];
      unfold slot in Hs; cbn in Hs; rewrite Hs; enter; [done|].
    rewrite obtainM_mixed by (eapply cmd_ok_has_slot; exact Hc). cbn [obj].
    destruct (getRequestId v) as [id|e].
    + unfold setRequestId. cbn [obj]. destruct Hc as (_ & _ & _ & Hne).
      unfold answer. cbn. by destruct (int32Values (value cmd)).
    + unfold dispose. cbn. split; [by destruct h|done].
  - by destruct (_ || _ || _ || _).
Qed.

(** ** Histories *)

Inductive Op : Type := Set_ (now : Z) (v : VehiclePropValue) | Get (v : VehiclePropValue).

Definition run_op (op : Op) : HalM (option Recyclable) :=
  match op with Set_ now v => onSetProperty now v | Get v => onGetProperty v end.
Definition spec_op (op : Op) (s : Slots) : Slots * result UserHalError (option VehiclePropValue) :=
  match op with Set_ now v => spec_set now v s | Get v => (s, spec_get v s) end.

Fixpoint run (ops : list Op) (h : FakeUserHal) :
    FakeUserHal * list (result UserHalError (option VehiclePropValue)) :=
  match ops with
  | [] => (h, [])
  | op :: ops' => let '(h', r) := run_op op h in let '(h'', rs) := run ops' h' in (h'', out r :: rs)
  end.
Fixpoint spec_run (ops : list Op) (s : Slots) :
    Slots * list (result UserHalError (option VehiclePropValue)) :=
  match ops with
  | [] => (s, [])
  | op :: ops' => let '(s', r) := spec_op op s in let '(s'', rs) := spec_run ops' s' in (s'', r :: rs)
  end.

Lemma op_sim op pool h s : rel pool h s →
  let '(h', r) := run_op op h in let '(s', o) := spec_op op s in rel pool h' s' ∧ out r = o.
Proof.
  intros Hr. destruct op as [now v|v]; cbn [run_op spec_op]; [by apply set_sim|].
  pose proof (get_sim v _ _ _ Hr). by destruct (onGetProperty v h).
Qed.

Lemma run_sim ops pool h s : rel pool h s →
  rel pool (fst (run ops h)) (fst (spec_run ops s)) ∧ snd (run ops h) = snd (spec_run ops s).
Proof.
  revert h s. induction ops as [|op ops IH]; intros h s Hr; [done|]. cbn [run spec_run].
  pose proof (op_sim op _ _ _ Hr) as Hop.
  destruct (run_op op h) as [h' r], (spec_op op s) as [s' o]. destruct Hop as [Hr' ->].
  destruct (IH h' s' Hr') as [H1 H2].
  destruct (run ops h') as [h'' rs], (spec_run ops s') as [s'' os]. cbn in *. by rewrite H2.
Qed.

Lemma rel_new pool : rel pool (newFakeUserHal pool) ∅.
Proof.
  split; [|apply map_Forall_empty|done].
  intros p. rewrite lookup_empty. unfold slot. by repeat case_match.
Qed.

Lemma spec_reply_header v id s s' cmd :
  areaId v = 0 → s !! prop v = Some cmd → delete (prop v) s' = delete (prop v) s →
  (areaId cmd = 2 → id ≠ 0 ∧ id ≠ - two31) →
  header_set id v s s' (match spec_reply cmd id with Ok x => Ok (Some x) | Err e => Err e end).
Proof.
  intros Ha Hs Hd H2. unfold spec_reply, negateId.
  destruct (Z.eqb_spec (areaId cmd) 1); [by apply header_right|].
  destruct (Z.eqb_spec (areaId cmd) 2) as [E|].
  { destruct (H2 E) as [H0 Hm]. apply Z.eqb_neq in Hm as ->. apply header_wrong; [done..|lia]. }
  destruct (Z.eqb_spec (areaId cmd) 3); [by eapply header_silent|].
  eapply header_unsaid; [done..|]. set_solver.
Qed.

Lemma spec_set_header now v s id t :
  has_slot (prop v) = true → getRequestId v = Ok id → spec_type v = Ok t → header_speaks v t s →
  (∀ cmd, s !! prop v = Some cmd → areaId cmd = 2 → id ≠ 0 ∧ id ≠ - two31) →
  header_set id v s (fst (spec_set now v s)) (snd (spec_set now v s)).
Proof.
  intros Hp Hid Ht Hsp H2. unfold spec_set. rewrite Hp, Hid, Ht. cbn [negb].
  destruct (Z.eqb_spec (prop v) VehicleProperty.REMOVE_USER) as [Er|_].
  { rewrite Er in Hp. vm_compute in Hp. discriminate. }
  destruct (Z.eqb_spec (areaId v) 0) as [Ha|Ha]; cbn [negb].
  - destruct (s !! prop v) as [cmd|] eqn:Hs; cbn [fst snd].
    + apply spec_reply_header; [done|done| |by apply H2].
      destruct (_ =? _); [done|]. by rewrite delete_delete_eq.
    + destruct Hsp as [Hi|[[? _]|[_ [? ?]]]]; [|done|congruence]. unfold spec_default. rewrite Hi. cbn.
      apply header_default; cbn; try done; by rewrite Hi.
  - destruct (Z.eqb_spec t SwitchUserMessageType.VEHICLE_REQUEST) as [->|]; [|by apply header_store].
    destruct Hsp as [Hi|[[_ ?]|[? _]]]; [|done..]. unfold spec_type in Ht. rewrite Hi in Ht. done.
Qed.

(** C26: On every history of gets and sets, by lshal and by Android, every call
    of the fake user HAL returns exactly what one uniform protocol over a map
    of stored responses prescribes, and no call ever takes an object from the
    recycling pools or leaves one there.  The protocol is the code's; compared
    with the comment of [FakeUserHal.h], a set conforms to the comment where
    it speaks, except that for a stored response of area 2, meant to carry a
    wrong request id, the request id 0 is answered with the right one (and
    the id [INT32_MIN], whose negation overflows, is undefined); and a get of
    the association, for which the comment refers to the same rules, ignores
    the stored area and always answers with the right id. *)
Theorem user_hal_refines ops pool :
  (snd (run ops (newFakeUserHal pool)) = snd (spec_run ops ∅) ∧
   mValuePool (fst (run ops (newFakeUserHal pool))) = pool) ∧
  (∀ now v s id t,
     has_slot (prop v) = true → getRequestId v = Ok id → spec_type v = Ok t → header_speaks v t s →
     ((∀ cmd, s !! prop v = Some cmd → areaId cmd = 2 → id ≠ 0 ∧ id ≠ - two31) →
      header_set id v s (fst (spec_set now v s)) (snd (spec_set now v s))) ∧
     (∀ cmd, areaId v = 0 → s !! prop v = Some cmd → areaId cmd = 2 → id = 0 →
      snd (spec_set now v s) = Ok (Some (answer cmd id)))) ∧
  (∀ v s id cmd,
     prop v = VehicleProperty.USER_IDENTIFICATION_ASSOCIATION → getRequestId v = Ok id →
     s !! prop v = Some cmd →
     ∃ x, spec_get v s = Ok (Some x) ∧ areaId x = areaId cmd ∧ value x = value (answer cmd id)).
Proof.
  split; [|split].
  - destruct (run_sim ops _ _ _ (rel_new pool)) as [[_ _ Hp] Ho]. done.
  - intros now v s id t Hp Hid Ht Hsp. split; [by eapply spec_set_header|].
    intros cmd Ha Hs H2 ->. unfold spec_set. rewrite Hp, Hid, Ht, Ha, Hs. cbn [negb].
    destruct (Z.eqb_spec (prop v) VehicleProperty.REMOVE_USER) as [Er|_].
    { rewrite Er in Hp. vm_compute in Hp. discriminate. }
    unfold spec_reply, negateId. rewrite H2. done.
  - intros v s id cmd Hp Hid Hs. unfold spec_get. rewrite Hs, Hid, Hp. cbn. by eexists.
Qed.

Lemma spec_run_app ops1 ops2 s :
  snd (spec_run (ops1 ++ ops2) s) =
  snd (spec_run ops1 s) ++ snd (spec_run ops2 (fst (spec_run ops1 s))).
Proof.
  revert s. induction ops1 as [|op ops IH]; intros s; [done|]. cbn [app spec_run].
  destruct (spec_op op s) as [s' o]. specialize (IH s').
  destruct (spec_run (ops ++ ops2) s') as [s1 o1], (spec_run ops s') as [s2 o2]. cbn in *.
  by rewrite IH.
Qed.

(** A well-formed message for a property with a stored response. *)
Record message (p id t a : Z) (v : VehiclePropValue) : Prop := mk_message {
  msg_prop : prop v = p;
  msg_id : getRequestId v = Ok id;
  msg_type : spec_type v = Ok t;
  msg_area : areaId v = a;
}.

Lemma has_slot_not_remove p : has_slot p = true → p =? VehicleProperty.REMOVE_USER = false.
Proof.
  unfold has_slot. rewrite !orb_true_iff, !Z.eqb_eq. intros [[[->| ->]| ->]| ->]; reflexivity.
Qed.

Lemma spec_set_store now p id t a v s : has_slot p = true → message p id t a v → a ≠ 0 →
  t ≠ SwitchUserMessageType.VEHICLE_REQUEST → spec_set now v s = (<[p := v]> s, Ok None).
Proof.
  intros Hs [Hp Hid Ht Ha] H0 Hne. unfold spec_set. rewrite Hp, has_slot_not_remove, Hs, Hid, Ht by done.
  cbn [negb]. rewrite Ha. apply Z.eqb_neq in H0 as ->. apply Z.eqb_neq in Hne as ->. done.
Qed.

Lemma spec_set_android now p id t v s : has_slot p = true → message p id t 0 v →
  spec_set now v s =
  match s !! p with
  | Some cmd =>
      (if p =? VehicleProperty.USER_IDENTIFICATION_ASSOCIATION then s else delete p s,
       match spec_reply cmd id with Ok x => Ok (Some x) | Err e => Err e end)
  | None => (s, spec_default now p id t)
  end.
Proof.
  intros Hs [Hp Hid Ht Ha]. unfold spec_set.
  by rewrite Hp, has_slot_not_remove, Hs, Hid, Ht, Ha by done.
Qed.

(** A response stored from lshal answers the next request of its
    property, whatever happened before, in the way its area ID says (1: the
    request's id; 2: the negated id; 3: no answer; else an error), even when
    that answer is an error only once: the request after it gets the default
    answer again. *)
Theorem lshal_one_shot ops pool now p c0 tc ac cmd id t v id' t' v' :
  has_slot p = true → p ≠ VehicleProperty.USER_IDENTIFICATION_ASSOCIATION →
  message p c0 tc ac cmd → ac ≠ 0 → tc ≠ SwitchUserMessageType.VEHICLE_REQUEST →
  message p id t 0 v → message p id' t' 0 v' →
  snd (run (ops ++ [Set_ now cmd; Set_ now v; Set_ now v']) (newFakeUserHal pool)) =
  snd (run ops (newFakeUserHal pool)) ++
  [Ok None;
   match spec_reply cmd id with Ok x => Ok (Some x) | Err e => Err e end;
   spec_default now p id' t'].
Proof.
  intros Hs Hp Hc Hac Htc Hv Hv'.
  destruct (run_sim (ops ++ [Set_ now cmd; Set_ now v; Set_ now v']) _ _ _ (rel_new pool)) as [_ ->].
  destruct (run_sim ops _ _ _ (rel_new pool)) as [_ ->].
  rewrite spec_run_app. f_equal. cbn [spec_run spec_op].
  rewrite (spec_set_store _ _ _ _ _ _ _ Hs Hc Hac Htc).
  rewrite (spec_set_android _ _ _ _ _ _ Hs Hv), lookup_insert_eq.
  apply Z.eqb_neq in Hp as ->.
  rewrite (spec_set_android _ _ _ _ _ _ Hs Hv'), lookup_delete_eq. done.
Qed.

Lemma getRequestId_defined v : getRequestId v ≠ Err UB.
Proof. unfold getRequestId. by destruct (int32Values (value v)). Qed.

Lemma spec_type_defined v : spec_type v ≠ Err UB.
Proof.
  unfold spec_type, getSwitchUserMessageType. destruct (_ =? _); [|done].
  destruct (int32Values (value v)) as [|? [|? ?]]; [done|done|]. by destruct (verifyAndCast _ _).
Qed.

Lemma spec_reply_defined cmd id : spec_reply cmd id = Err UB ↔ areaId cmd = 2 ∧ id = - two31.
Proof.
  unfold spec_reply, negateId.
  destruct (Z.eqb_spec (areaId cmd) 1); [split; [done|lia]|].
  destruct (Z.eqb_spec (areaId cmd) 2).
  - destruct (Z.eqb_spec id (- two31)); split; (done || naive_solver).
  - destruct (_ =? 3); split; (done || lia || intros [? _]; done).
Qed.

Lemma spec_default_defined now p id t : spec_default now p id t ≠ Err UB.
Proof. unfold spec_default. by repeat case_match. Qed.

Lemma spec_op_defined op s s' :
  (∀ now v, op = Set_ now v → getRequestId v ≠ Ok (- two31)) → spec_op op s ≠ (s', Err UB).
Proof.
  intros Hid. destruct op as [now v|v]; cbn [spec_op].
  - specialize (Hid now v eq_refl). unfold spec_set.
    destruct (_ =? VehicleProperty.REMOVE_USER); [done|]. destruct (negb (has_slot _)); [done|].
    pose proof (getRequestId_defined v). pose proof (spec_type_defined v).
    destruct (getRequestId v) as [id|e]; [|congruence].
    destruct (spec_type v) as [t|e]; [|congruence].
    destruct (negb _); [by destruct (_ =? _)|]. destruct (s !! _) as [cmd|].
    + pose proof (proj1 (spec_reply_defined cmd id)) as Hr.
      destruct (spec_reply cmd id) as [x|e]; [done|]. intros [= _ ->].
      destruct (Hr eq_refl) as [_ ->]. done.
    + pose proof (spec_default_defined now (prop v) id t). congruence.
  - unfold spec_get. destruct (_ =? _); [|done]. destruct (s !! _) as [cmd|]; [|done].
    pose proof (getRequestId_defined v). destruct (getRequestId v); congruence.
Qed.

(** The user HAL is free of undefined behaviour: as long as no request
    carries the id [INT32_MIN] (whose negation overflows), every history of
    operations runs without an access outside a vector or an overflow. *)
Theorem user_hal_defined ops pool :
  (∀ now v, Set_ now v ∈ ops → getRequestId v ≠ Ok (- two31)) →
  Err UB ∉ snd (run ops (newFakeUserHal pool)).
Proof.
  intros Hids. destruct (run_sim ops _ _ _ (rel_new pool)) as [_ ->].
  generalize (∅ : Slots) as s. induction ops as [|op ops IH]; intros s; cbn [spec_run].
  { apply not_elem_of_nil. }
  destruct (spec_op op s) as [s' o] eqn:Hop.
  specialize (IH (λ now v Hin, Hids now v (list_elem_of_further _ _ _ Hin)) s').
  destruct (spec_run ops s') as [s'' os]. cbn [snd] in *.
  apply not_elem_of_cons. split; [|done]. intros <-.
  revert Hop. apply spec_op_defined. intros now v ->. apply (Hids now). left.
Qed.

(** The wrong id of area 2 is the right one for the request id 0. *)
Theorem wrong_id_of_zero cmd x : areaId cmd = 2 → spec_reply cmd 0 = Ok x → x = answer cmd 0.
Proof. intros Ha. unfold spec_reply, negateId. rewrite Ha. cbn. by intros [= <-]. Qed.

(** Getting the association ignores the stored area ID and reports it. *)
Theorem get_ignores_area v cmd id s : prop v = VehicleProperty.USER_IDENTIFICATION_ASSOCIATION →
  s !! prop v = Some cmd → getRequestId v = Ok id →
  ∃ x, spec_get v s = Ok (Some x) ∧ areaId x = areaId cmd ∧ value x = value (answer cmd id).
Proof.
  intros Hp Hs Hid. unfold spec_get. rewrite Hs, Hid. rewrite Hp. cbn. eexists. split; [done|]. done.
Qed.
End hal.

(** ** Examples *)

Definition example_cmd (a : Z) (ints : list Z) (p : Z) : VehiclePropValue :=
  mkPropValue 0 a p 0 (mkRaw ints [] [] [] "").

Lemma lshal_one_shot_witness :
  snd (run 0 [Set_ 5 (example_cmd 1 [0; 2; 11; 8] VehicleProperty.INITIAL_USER_INFO);
              Set_ 5 (example_cmd 0 [42; 1] VehicleProperty.INITIAL_USER_INFO);
              Set_ 5 (example_cmd 0 [43; 1] VehicleProperty.INITIAL_USER_INFO)]
         (newFakeUserHal (newPool 4 10240))) =
  [Ok None;
   Ok (Some (example_cmd 0 [42; 2; 11; 8] VehicleProperty.INITIAL_USER_INFO));
   Ok (Some (mkPropValue 5 0 VehicleProperty.INITIAL_USER_INFO 0 (mkRaw [43; 0; 0; 0] [] [] [] "||")))].
Proof.
  exact (lshal_one_shot 0 [] (newPool 4 10240) 5 VehicleProperty.INITIAL_USER_INFO 0 0 1
           (example_cmd 1 [0; 2; 11; 8] VehicleProperty.INITIAL_USER_INFO) 42 0
           (example_cmd 0 [42; 1] VehicleProperty.INITIAL_USER_INFO) 43 0
           (example_cmd 0 [43; 1] VehicleProperty.INITIAL_USER_INFO)
           eq_refl ltac:(discriminate) ltac:(by split) ltac:(discriminate) ltac:(discriminate)
           ltac:(by split) ltac:(by split)).
Defined.

Lemma user_hal_refines_witness :
  let cmd := example_cmd 2 [0; 2; 11; 8] VehicleProperty.INITIAL_USER_INFO in
  let v := example_cmd 0 [42; 1] VehicleProperty.INITIAL_USER_INFO in
  header_set 42 v {[ VehicleProperty.INITIAL_USER_INFO := cmd ]}
    (fst (spec_set 5 v {[ VehicleProperty.INITIAL_USER_INFO := cmd ]}))
    (snd (spec_set 5 v {[ VehicleProperty.INITIAL_USER_INFO := cmd ]})).
Proof.
  intros cmd v.
  destruct (user_hal_refines 0 [] (newPool 4 10240)) as (_ & H & _).
  apply (H 5 v _ 42 0); [reflexivity|reflexivity|reflexivity|by left|].
  intros c Hc _. unfold two31. lia.
Defined.

Lemma user_hal_defined_witness :
  Err UB ∉ snd (run 0 [Set_ 5 (example_cmd 2 [0] VehicleProperty.CREATE_USER);
                       Set_ 5 (example_cmd 0 [42] VehicleProperty.CREATE_USER)]
                  (newFakeUserHal (newPool 4 10240))).
Proof.
  apply user_hal_defined. intros now v [[= -> ->]|[[= -> ->]|[]%elem_of_nil]%elem_of_cons]%elem_of_cons;
    discriminate.
Defined.
