(* ===== verification/Obd2SensorStore.v ===== *)
(** * Obd2SensorStore: building OBD2 frames

    [fake_impl/obd2frame/src/Obd2SensorStore.cpp]: integer and float sensor
    values with a bitmask of the sensors that are set. *)

From stdpp Require Import base gmap list strings.
From Stdlib Require Import ZArith Lia.
From S2P Require Import Prelude Float32 VehicleTypes VehicleUtils VehicleObjectPool.

Local Open Scope Z_scope.

(** ** The sensor indices *)

Module DiagnosticIntegerSensorIndex.
Definition FUEL_SYSTEM_STATUS : Z := 0.
Definition MALFUNCTION_INDICATOR_LIGHT_ON : Z := 1.
Definition IGNITION_MONITORS_SUPPORTED : Z := 2.
Definition IGNITION_SPECIFIC_MONITORS : Z := 3.
Definition INTAKE_AIR_TEMPERATURE : Z := 4.
Definition COMMANDED_SECONDARY_AIR_STATUS : Z := 5.
Definition NUM_OXYGEN_SENSORS_PRESENT : Z := 6.
Definition RUNTIME_SINCE_ENGINE_START : Z := 7.
Definition DISTANCE_TRAVELED_WITH_MALFUNCTION_INDICATOR_LIGHT_ON : Z := 8.
Definition WARMUPS_SINCE_CODES_CLEARED : Z := 9.
Definition DISTANCE_TRAVELED_SINCE_CODES_CLEARED : Z := 10.
Definition ABSOLUTE_BAROMETRIC_PRESSURE : Z := 11.
Definition CONTROL_MODULE_VOLTAGE : Z := 12.
Definition AMBIENT_AIR_TEMPERATURE : Z := 13.
Definition TIME_WITH_MALFUNCTION_LIGHT_ON : Z := 14.
Definition TIME_SINCE_TROUBLE_CODES_CLEARED : Z := 15.
Definition MAX_FUEL_AIR_EQUIVALENCE_RATIO : Z := 16.
Definition MAX_OXYGEN_SENSOR_VOLTAGE : Z := 17.
Definition MAX_OXYGEN_SENSOR_CURRENT : Z := 18.
Definition MAX_INTAKE_MANIFOLD_ABSOLUTE_PRESSURE : Z := 19.
Definition MAX_AIR_FLOW_RATE_FROM_MASS_AIR_FLOW_SENSOR : Z := 20.
Definition FUEL_TYPE : Z := 21.
Definition FUEL_RAIL_ABSOLUTE_PRESSURE : Z := 22.
Definition ENGINE_OIL_TEMPERATURE : Z := 23.
Definition DRIVER_DEMAND_PERCENT_TORQUE : Z := 24.
Definition ENGINE_ACTUAL_PERCENT_TORQUE : Z := 25.
Definition ENGINE_REFERENCE_PERCENT_TORQUE : Z := 26.
Definition ENGINE_PERCENT_TORQUE_DATA_IDLE : Z := 27.
Definition ENGINE_PERCENT_TORQUE_DATA_POINT1 : Z := 28.
Definition ENGINE_PERCENT_TORQUE_DATA_POINT2 : Z := 29.
Definition ENGINE_PERCENT_TORQUE_DATA_POINT3 : Z := 30.
Definition ENGINE_PERCENT_TORQUE_DATA_POINT4 : Z := 31.
Definition enum_range : list Z :=
  [FUEL_SYSTEM_STATUS; MALFUNCTION_INDICATOR_LIGHT_ON; IGNITION_MONITORS_SUPPORTED;
   IGNITION_SPECIFIC_MONITORS; INTAKE_AIR_TEMPERATURE; COMMANDED_SECONDARY_AIR_STATUS;
   NUM_OXYGEN_SENSORS_PRESENT; RUNTIME_SINCE_ENGINE_START;
   DISTANCE_TRAVELED_WITH_MALFUNCTION_INDICATOR_LIGHT_ON; WARMUPS_SINCE_CODES_CLEARED;
   DISTANCE_TRAVELED_SINCE_CODES_CLEARED; ABSOLUTE_BAROMETRIC_PRESSURE;
   CONTROL_MODULE_VOLTAGE; AMBIENT_AIR_TEMPERATURE; TIME_WITH_MALFUNCTION_LIGHT_ON;
   TIME_SINCE_TROUBLE_CODES_CLEARED; MAX_FUEL_AIR_EQUIVALENCE_RATIO;
   MAX_OXYGEN_SENSOR_VOLTAGE; MAX_OXYGEN_SENSOR_CURRENT;
   MAX_INTAKE_MANIFOLD_ABSOLUTE_PRESSURE; MAX_AIR_FLOW_RATE_FROM_MASS_AIR_FLOW_SENSOR;
   FUEL_TYPE; FUEL_RAIL_ABSOLUTE_PRESSURE; ENGINE_OIL_TEMPERATURE;
   DRIVER_DEMAND_PERCENT_TORQUE; ENGINE_ACTUAL_PERCENT_TORQUE;
   ENGINE_REFERENCE_PERCENT_TORQUE; ENGINE_PERCENT_TORQUE_DATA_IDLE;
   ENGINE_PERCENT_TORQUE_DATA_POINT1; ENGINE_PERCENT_TORQUE_DATA_POINT2;
   ENGINE_PERCENT_TORQUE_DATA_POINT3; ENGINE_PERCENT_TORQUE_DATA_POINT4].
End DiagnosticIntegerSensorIndex.

Module DiagnosticFloatSensorIndex.
Definition CALCULATED_ENGINE_LOAD : Z := 0.
Definition ENGINE_COOLANT_TEMPERATURE : Z := 1.
Definition SHORT_TERM_FUEL_TRIM_BANK1 : Z := 2.
Definition LONG_TERM_FUEL_TRIM_BANK1 : Z := 3.
Definition SHORT_TERM_FUEL_TRIM_BANK2 : Z := 4.
Definition LONG_TERM_FUEL_TRIM_BANK2 : Z := 5.
Definition FUEL_PRESSURE : Z := 6.
Definition INTAKE_MANIFOLD_ABSOLUTE_PRESSURE : Z := 7.
Definition ENGINE_RPM : Z := 8.
Definition VEHICLE_SPEED : Z := 9.
Definition TIMING_ADVANCE : Z := 10.
Definition MAF_AIR_FLOW_RATE : Z := 11.
Definition THROTTLE_POSITION : Z := 12.
Definition OXYGEN_SENSOR1_VOLTAGE : Z := 13.
Definition OXYGEN_SENSOR1_SHORT_TERM_FUEL_TRIM : Z := 14.
Definition OXYGEN_SENSOR1_FUEL_AIR_EQUIVALENCE_RATIO : Z := 15.
Definition OXYGEN_SENSOR2_VOLTAGE : Z := 16.
Definition OXYGEN_SENSOR2_SHORT_TERM_FUEL_TRIM : Z := 17.
Definition OXYGEN_SENSOR2_FUEL_AIR_EQUIVALENCE_RATIO : Z := 18.
Definition OXYGEN_SENSOR3_VOLTAGE : Z := 19.
Definition OXYGEN_SENSOR3_SHORT_TERM_FUEL_TRIM : Z := 20.
Definition OXYGEN_SENSOR3_FUEL_AIR_EQUIVALENCE_RATIO : Z := 21.
Definition OXYGEN_SENSOR4_VOLTAGE : Z := 22.
Definition OXYGEN_SENSOR4_SHORT_TERM_FUEL_TRIM : Z := 23.
Definition OXYGEN_SENSOR4_FUEL_AIR_EQUIVALENCE_RATIO : Z := 24.
Definition OXYGEN_SENSOR5_VOLTAGE : Z := 25.
Definition OXYGEN_SENSOR5_SHORT_TERM_FUEL_TRIM : Z := 26.
Definition OXYGEN_SENSOR5_FUEL_AIR_EQUIVALENCE_RATIO : Z := 27.
Definition OXYGEN_SENSOR6_VOLTAGE : Z := 28.
Definition OXYGEN_SENSOR6_SHORT_TERM_FUEL_TRIM : Z := 29.
Definition OXYGEN_SENSOR6_FUEL_AIR_EQUIVALENCE_RATIO : Z := 30.
Definition OXYGEN_SENSOR7_VOLTAGE : Z := 31.
Definition OXYGEN_SENSOR7_SHORT_TERM_FUEL_TRIM : Z := 32.
Definition OXYGEN_SENSOR7_FUEL_AIR_EQUIVALENCE_RATIO : Z := 33.
Definition OXYGEN_SENSOR8_VOLTAGE : Z := 34.
Definition OXYGEN_SENSOR8_SHORT_TERM_FUEL_TRIM : Z := 35.
Definition OXYGEN_SENSOR8_FUEL_AIR_EQUIVALENCE_RATIO : Z := 36.
Definition FUEL_RAIL_PRESSURE : Z := 37.
Definition FUEL_RAIL_GAUGE_PRESSURE : Z := 38.
Definition COMMANDED_EXHAUST_GAS_RECIRCULATION : Z := 39.
Definition EXHAUST_GAS_RECIRCULATION_ERROR : Z := 40.
Definition COMMANDED_EVAPORATIVE_PURGE : Z := 41.
Definition FUEL_TANK_LEVEL_INPUT : Z := 42.
Definition EVAPORATION_SYSTEM_VAPOR_PRESSURE : Z := 43.
Definition CATALYST_TEMPERATURE_BANK1_SENSOR1 : Z := 44.
Definition CATALYST_TEMPERATURE_BANK2_SENSOR1 : Z := 45.
Definition CATALYST_TEMPERATURE_BANK1_SENSOR2 : Z := 46.
Definition CATALYST_TEMPERATURE_BANK2_SENSOR2 : Z := 47.
Definition ABSOLUTE_LOAD_VALUE : Z := 48.
Definition FUEL_AIR_COMMANDED_EQUIVALENCE_RATIO : Z := 49.
Definition RELATIVE_THROTTLE_POSITION : Z := 50.
Definition ABSOLUTE_THROTTLE_POSITION_B : Z := 51.
Definition ABSOLUTE_THROTTLE_POSITION_C : Z := 52.
Definition ACCELERATOR_PEDAL_POSITION_D : Z := 53.
Definition ACCELERATOR_PEDAL_POSITION_E : Z := 54.
Definition ACCELERATOR_PEDAL_POSITION_F : Z := 55.
Definition COMMANDED_THROTTLE_ACTUATOR : Z := 56.
Definition ETHANOL_FUEL_PERCENTAGE : Z := 57.
Definition ABSOLUTE_EVAPORATION_SYSTEM_VAPOR_PRESSURE : Z := 58.
Definition SHORT_TERM_SECONDARY_OXYGEN_SENSOR_TRIM_BANK1 : Z := 59.
Definition SHORT_TERM_SECONDARY_OXYGEN_SENSOR_TRIM_BANK2 : Z := 60.
Definition SHORT_TERM_SECONDARY_OXYGEN_SENSOR_TRIM_BANK3 : Z := 61.
Definition SHORT_TERM_SECONDARY_OXYGEN_SENSOR_TRIM_BANK4 : Z := 62.
Definition LONG_TERM_SECONDARY_OXYGEN_SENSOR_TRIM_BANK1 : Z := 63.
Definition LONG_TERM_SECONDARY_OXYGEN_SENSOR_TRIM_BANK2 : Z := 64.
Definition LONG_TERM_SECONDARY_OXYGEN_SENSOR_TRIM_BANK3 : Z := 65.
Definition LONG_TERM_SECONDARY_OXYGEN_SENSOR_TRIM_BANK4 : Z := 66.
Definition RELATIVE_ACCELERATOR_PEDAL_POSITION : Z := 67.
Definition HYBRID_BATTERY_PACK_REMAINING_LIFE : Z := 68.
Definition FUEL_INJECTION_TIMING : Z := 69.
Definition ENGINE_FUEL_RATE : Z := 70.
Definition enum_range : list Z :=
  [CALCULATED_ENGINE_LOAD; ENGINE_COOLANT_TEMPERATURE; SHORT_TERM_FUEL_TRIM_BANK1;
   LONG_TERM_FUEL_TRIM_BANK1; SHORT_TERM_FUEL_TRIM_BANK2; LONG_TERM_FUEL_TRIM_BANK2;
   FUEL_PRESSURE; INTAKE_MANIFOLD_ABSOLUTE_PRESSURE; ENGINE_RPM; VEHICLE_SPEED;
   TIMING_ADVANCE; MAF_AIR_FLOW_RATE; THROTTLE_POSITION; OXYGEN_SENSOR1_VOLTAGE;
   OXYGEN_SENSOR1_SHORT_TERM_FUEL_TRIM; OXYGEN_SENSOR1_FUEL_AIR_EQUIVALENCE_RATIO;
   OXYGEN_SENSOR2_VOLTAGE; OXYGEN_SENSOR2_SHORT_TERM_FUEL_TRIM;
   OXYGEN_SENSOR2_FUEL_AIR_EQUIVALENCE_RATIO; OXYGEN_SENSOR3_VOLTAGE;
   OXYGEN_SENSOR3_SHORT_TERM_FUEL_TRIM; OXYGEN_SENSOR3_FUEL_AIR_EQUIVALENCE_RATIO;
   OXYGEN_SENSOR4_VOLTAGE; OXYGEN_SENSOR4_SHORT_TERM_FUEL_TRIM;
   OXYGEN_SENSOR4_FUEL_AIR_EQUIVALENCE_RATIO; OXYGEN_SENSOR5_VOLTAGE;
   OXYGEN_SENSOR5_SHORT_TERM_FUEL_TRIM; OXYGEN_SENSOR5_FUEL_AIR_EQUIVALENCE_RATIO;
   OXYGEN_SENSOR6_VOLTAGE; OXYGEN_SENSOR6_SHORT_TERM_FUEL_TRIM;
   OXYGEN_SENSOR6_FUEL_AIR_EQUIVALENCE_RATIO; OXYGEN_SENSOR7_VOLTAGE;
   OXYGEN_SENSOR7_SHORT_TERM_FUEL_TRIM; OXYGEN_SENSOR7_FUEL_AIR_EQUIVALENCE_RATIO;
   OXYGEN_SENSOR8_VOLTAGE; OXYGEN_SENSOR8_SHORT_TERM_FUEL_TRIM;
   OXYGEN_SENSOR8_FUEL_AIR_EQUIVALENCE_RATIO; FUEL_RAIL_PRESSURE; FUEL_RAIL_GAUGE_PRESSURE;
   COMMANDED_EXHAUST_GAS_RECIRCULATION; EXHAUST_GAS_RECIRCULATION_ERROR;
   COMMANDED_EVAPORATIVE_PURGE; FUEL_TANK_LEVEL_INPUT; EVAPORATION_SYSTEM_VAPOR_PRESSURE;
   CATALYST_TEMPERATURE_BANK1_SENSOR1; CATALYST_TEMPERATURE_BANK2_SENSOR1;
   CATALYST_TEMPERATURE_BANK1_SENSOR2; CATALYST_TEMPERATURE_BANK2_SENSOR2;
   ABSOLUTE_LOAD_VALUE; FUEL_AIR_COMMANDED_EQUIVALENCE_RATIO; RELATIVE_THROTTLE_POSITION;
   ABSOLUTE_THROTTLE_POSITION_B; ABSOLUTE_THROTTLE_POSITION_C; ACCELERATOR_PEDAL_POSITION_D;
   ACCELERATOR_PEDAL_POSITION_E; ACCELERATOR_PEDAL_POSITION_F; COMMANDED_THROTTLE_ACTUATOR;
   ETHANOL_FUEL_PERCENTAGE; ABSOLUTE_EVAPORATION_SYSTEM_VAPOR_PRESSURE;
   SHORT_TERM_SECONDARY_OXYGEN_SENSOR_TRIM_BANK1;
   SHORT_TERM_SECONDARY_OXYGEN_SENSOR_TRIM_BANK2;
   SHORT_TERM_SECONDARY_OXYGEN_SENSOR_TRIM_BANK3;
   SHORT_TERM_SECONDARY_OXYGEN_SENSOR_TRIM_BANK4;
   LONG_TERM_SECONDARY_OXYGEN_SENSOR_TRIM_BANK1;
   LONG_TERM_SECONDARY_OXYGEN_SENSOR_TRIM_BANK2;
   LONG_TERM_SECONDARY_OXYGEN_SENSOR_TRIM_BANK3;
   LONG_TERM_SECONDARY_OXYGEN_SENSOR_TRIM_BANK4; RELATIVE_ACCELERATOR_PEDAL_POSITION;
   HYBRID_BATTERY_PACK_REMAINING_LIFE; FUEL_INJECTION_TIMING; ENGINE_FUEL_RATE].
End DiagnosticFloatSensorIndex.

(** ** BitmaskInVector *)

Record BitmaskInVector : Type := mkBitmask { mStorage : list Z; mNumBits : Z }.

Inductive BitmaskError : Type := OutOfBound | OutsideStorage.

Definition bitmask_resize (numBits : Z) : BitmaskInVector :=
  mkBitmask (replicate (Z.to_nat ((numBits + 7) / 8)) 0) numBits.

Definition bitmask_set (index : Z) (v : bool) (b : BitmaskInVector) :
    result BitmaskError BitmaskInVector :=
  let byteIndex := index / 8 in
  let bitIndex := index mod 8 in
  if mNumBits b <=? index then Err OutOfBound
  else match mStorage b !! Z.to_nat byteIndex with
       | None => Err OutsideStorage
       | Some byte =>
           let newValue :=
             (if v then Z.lor byte (Z.shiftl 1 bitIndex)
              else Z.land byte (Z.lnot (Z.shiftl 1 bitIndex))) mod 256 in
           Ok (mkBitmask (<[Z.to_nat byteIndex := newValue]> (mStorage b)) (mNumBits b))
       end.

Definition bitmask_get (index : Z) (b : BitmaskInVector) : result BitmaskError bool :=
  let byteIndex := index / 8 in
  let bitIndex := index mod 8 in
  if mNumBits b <=? index then Err OutOfBound
  else match mStorage b !! Z.to_nat byteIndex with
       | None => Err OutsideStorage
       | Some byte => Ok (negb (Z.land byte (Z.shiftl 1 bitIndex) =? 0))
       end.

(** ** The store *)

Record Obd2SensorStore : Type := mkSensorStore {
  mIntegerSensors : list Z;
  mFloatSensors : list f32;
  mSensorsBitmask : BitmaskInVector;
}.

(** The loop advances until the next iterator is the end; on an empty range
    it would run past the end. *)
Fixpoint getLastIndex (range : list Z) : option Z :=
  match range with
  | [] => None
  | [x] => Some x
  | _ :: range' => getLastIndex range'
  end.

Definition numSystemIntegerSensors : Z :=
  default 0 (getLastIndex DiagnosticIntegerSensorIndex.enum_range) + 1.
Definition numSystemFloatSensors : Z :=
  default 0 (getLastIndex DiagnosticFloatSensorIndex.enum_range) + 1.

(** [std::vector(n, x)] throws beyond the maximal size: [None]. *)
Definition vec_make {A} (n : Z) (x : A) : option (list A) :=
  if n <? 2305843009213693952 then Some (replicate (Z.to_nat n) x) else None.

(** The counts are [size_t]; the additions wrap. *)
Definition newSensorStore (numVendorIntegerSensors numVendorFloatSensors : Z) :
    option Obd2SensorStore :=
  match vec_make (to_u64 (numSystemIntegerSensors + numVendorIntegerSensors)) 0,
        vec_make (to_u64 (numSystemFloatSensors + numVendorFloatSensors)) f32_zero with
  | Some ints, Some floats =>
      Some (mkSensorStore ints floats (bitmask_resize (vsize ints + vsize floats)))
  | _, _ => None
  end.

Definition with_bitmask (b : BitmaskInVector) (s : Obd2SensorStore) : Obd2SensorStore :=
  mkSensorStore (mIntegerSensors s) (mFloatSensors s) b.

Definition setIntegerSensor (index v : Z) (s : Obd2SensorStore) : Obd2SensorStore * StatusCode :=
  if vsize (mIntegerSensors s) <=? index then (s, INVALID_ARG)
  else
    let s' := mkSensorStore (<[Z.to_nat index := v]> (mIntegerSensors s)) (mFloatSensors s)
                (mSensorsBitmask s) in
    match bitmask_set index true (mSensorsBitmask s) with
    | Ok b => (with_bitmask b s', OK)
    | Err _ => (s', INVALID_ARG)
    end.

Definition setFloatSensor (index : Z) (v : f32) (s : Obd2SensorStore) : Obd2SensorStore * StatusCode :=
  if vsize (mFloatSensors s) <=? index then (s, INVALID_ARG)
  else
    let s' := mkSensorStore (mIntegerSensors s) (<[Z.to_nat index := v]> (mFloatSensors s))
                (mSensorsBitmask s) in
    match bitmask_set (index + vsize (mIntegerSensors s)) true (mSensorsBitmask s) with
    | Ok b => (with_bitmask b s', OK)
    | Err _ => (s', INVALID_ARG)
    end.

(** The frame, in an object of the pool that no pool recycles (its type is
    mixed): [obtain] hands out a value-initialised one. *)
Definition getSensorProperty (uninit_size : Z) (dtc : string) (now : Z) (s : Obd2SensorStore)
    (pool : VehiclePropValuePool) : Recyclable * VehiclePropValuePool :=
  let '(r, pool') := obtain uninit_size VehiclePropertyType.MIXED pool in
  let o := obj r in
  (set_obj (mkPropValue now (areaId o) (prop o) (status o)
              (mkRaw (mIntegerSensors s) (mFloatSensors s) (int64Values (value o))
                 (mStorage (mSensorsBitmask s)) dtc)) r, pool').

(** ** The bitmask *)

Definition bit (b : BitmaskInVector) (i : Z) : bool :=
  match mStorage b !! Z.to_nat (i / 8) with Some y => Z.testbit y (i mod 8) | None => false end.

Record bitmask_wf (b : BitmaskInVector) : Prop := mk_bitmask_wf {
  wf_bits : 0 ≤ mNumBits b;
  wf_storage : vsize (mStorage b) = (mNumBits b + 7) / 8;
  wf_bytes : Forall (λ y, 0 ≤ y < 256) (mStorage b);
}.

Lemma byte_index i n : 0 ≤ i < n → 0 ≤ i / 8 < (n + 7) / 8.
Proof.
  intros Hi. split; [apply Z.div_pos; lia|].
  apply Z.div_lt_upper_bound; [lia|].
  pose proof (Z.div_mod (n + 7) 8). pose proof (Z.mod_pos_bound (n + 7) 8). lia.
Qed.

Lemma lookup_byte b i : bitmask_wf b → 0 ≤ i < mNumBits b →
  ∃ y, mStorage b !! Z.to_nat (i / 8) = Some y ∧ 0 ≤ y < 256.
Proof.
  intros [Hb Hs Hy] Hi. pose proof (byte_index i _ Hi) as Hx. unfold vsize in Hs.
  destruct (lookup_lt_is_Some_2 (mStorage b) (Z.to_nat (i / 8)) ltac:(lia)) as [y Hl].
  exists y. split; [done|]. by apply (Forall_lookup_1 _ _ _ _ Hy Hl).
Qed.

Lemma land_pow2_testbit y k : 0 ≤ k → negb (Z.land y (Z.shiftl 1 k) =? 0) = Z.testbit y k.
Proof.
  intros Hk. destruct (Z.testbit y k) eqn:Ht.
  - apply negb_true_iff, Z.eqb_neq. intros H0.
    apply (f_equal (λ z, Z.testbit z k)) in H0.
    rewrite Z.land_spec, Z.shiftl_spec, Ht, Z.sub_diag, Z.bits_0 in H0 by lia. done.
  - apply negb_false_iff, Z.eqb_eq, Z.bits_inj'. intros n Hn.
    rewrite Z.land_spec, Z.bits_0, Z.shiftl_spec by done.
    destruct (decide (n = k)) as [->|Hne]; [by rewrite Ht|].
    destruct (Z.lt_ge_cases n k).
    + rewrite (Z.testbit_neg_r 1 (n - k)) by lia. by rewrite andb_false_r.
    + rewrite (Z.bits_above_log2 1 (n - k)) by (cbn; lia). by rewrite andb_false_r.
Qed.

Lemma bitmask_get_spec b i : bitmask_wf b → 0 ≤ i < mNumBits b → bitmask_get i b = Ok (bit b i).
Proof.
  intros Hb Hi. unfold bitmask_get, bit. destruct (Z.leb_spec (mNumBits b) i); [lia|].
  destruct (lookup_byte b i Hb Hi) as (y & -> & _).
  rewrite land_pow2_testbit; [done|]. apply Z.mod_pos_bound. lia.
Qed.

Lemma testbit_one_shift n k : 0 ≤ n → 0 ≤ k → Z.testbit (Z.shiftl 1 k) n = (n =? k).
Proof.
  intros Hn Hk. rewrite Z.shiftl_spec by done. destruct (Z.eqb_spec n k) as [->|Hne].
  - by rewrite Z.sub_diag.
  - destruct (Z.lt_ge_cases n k); [by rewrite Z.testbit_neg_r by lia|].
    apply Z.bits_above_log2; cbn; lia.
Qed.

(** [set] changes the one bit. *)
Lemma bitmask_set_spec b i v : bitmask_wf b → 0 ≤ i < mNumBits b →
  ∃ b', bitmask_set i v b = Ok b' ∧ bitmask_wf b' ∧ mNumBits b' = mNumBits b ∧
        ∀ j, 0 ≤ j < mNumBits b → bit b' j = if j =? i then v else bit b j.
Proof.
  intros Hb Hi. unfold bitmask_set. destruct (Z.leb_spec (mNumBits b) i); [lia|].
  destruct (lookup_byte b i Hb Hi) as (y & Hy & Hr). rewrite Hy. eexists. split; [done|].
  pose proof (Z.mod_pos_bound i 8) as Hm. split; [|split; [done|]].
  - destruct Hb as [H0 Hs Hf]. split; cbn [mStorage mNumBits]; [done| |].
    + unfold vsize in *. by rewrite length_insert.
    + apply Forall_insert; [done|]. apply Z.mod_pos_bound. lia.
  - intros j Hj. unfold bit. cbn [mStorage].
    pose proof (Z.mod_pos_bound j 8). pose proof (Z.div_mod i 8). pose proof (Z.div_mod j 8).
    assert (Hij : 0 ≤ i / 8 ∧ 0 ≤ j / 8) by (split; apply Z.div_pos; lia).
    destruct (decide (j / 8 = i / 8)) as [He|Hne].
    + rewrite He, list_lookup_insert_eq by (by eapply lookup_lt_Some). rewrite Hy.
      change 256 with (2 ^ 8). rewrite Z.mod_pow2_bits_low by lia.
      destruct v.
      * rewrite Z.lor_spec, testbit_one_shift by lia.
        destruct (Z.eqb_spec j i) as [->|]; [by rewrite Z.eqb_refl, orb_true_r|].
        destruct (Z.eqb_spec (j mod 8) (i mod 8)); [lia|]. apply orb_false_r.
      * rewrite Z.land_spec, Z.lnot_spec, testbit_one_shift by lia.
        destruct (Z.eqb_spec j i) as [->|]; [by rewrite Z.eqb_refl, andb_false_r|].
        destruct (Z.eqb_spec (j mod 8) (i mod 8)); [lia|]. apply andb_true_r.
    + rewrite list_lookup_insert_ne by lia.
      destruct (Z.eqb_spec j i) as [->|]; [done|]. done.
Qed.

Lemma bitmask_resize_wf n : 0 ≤ n → bitmask_wf (bitmask_resize n) ∧ ∀ i, bit (bitmask_resize n) i = false.
Proof.
  intros Hn. assert (0 ≤ (n + 7) / 8) by (apply Z.div_pos; lia). split.
  - split; cbn; [done| |].
    + unfold vsize. rewrite length_replicate. lia.
    + apply Forall_replicate. lia.
  - intros i. unfold bit. cbn. destruct (_ !! _) as [y|] eqn:Hy; [|done].
    apply lookup_replicate in Hy as [-> _]. apply Z.bits_0.
Qed.

(** ** Histories of a store *)

Inductive SensorOp : Type := SetInteger (index v : Z) | SetFloat (index : Z) (v : f32).

Definition op_index (op : SensorOp) : Z :=
  match op with SetInteger i _ => i | SetFloat i _ => i end.

Definition apply_op (op : SensorOp) (s : Obd2SensorStore) : Obd2SensorStore * StatusCode :=
  match op with
  | SetInteger i v => setIntegerSensor i v s
  | SetFloat i v => setFloatSensor i v s
  end.

Fixpoint apply_ops (ops : list SensorOp) (s : Obd2SensorStore) : Obd2SensorStore * list StatusCode :=
  match ops with
  | [] => (s, [])
  | op :: ops' =>
      let '(s', c) := apply_op op s in let '(s'', cs) := apply_ops ops' s' in (s'', c :: cs)
  end.

(** The bit a reader of a frame finds for position [i] in its [byteValues]:
    position [i] is bit [i mod 8] of byte [i / 8]. *)
Definition frame_bit (bytes : list Z) (i : Z) : option bool :=
  (λ y, Z.testbit y (i mod 8)) <$> bytes !! Z.to_nat (i / 8).

Lemma frame_bit_storage b i : bitmask_wf b → 0 ≤ i < mNumBits b →
  frame_bit (mStorage b) i = Some (bit b i).
Proof.
  intros Hb Hi. unfold frame_bit, bit. by destruct (lookup_byte b i Hb Hi) as (y & -> & _).
Qed.

(** What a frame is meant to hold: the last value of each sensor that was
    set, of [nI] integer and [nF] float sensors. *)
Definition Sensors : Type := gmap Z Z * gmap Z f32.

Definition spec_op (nI nF : Z) (m : Sensors) (op : SensorOp) : Sensors :=
  match op with
  | SetInteger i v => if i <? nI then (<[i := v]> m.1, m.2) else m
  | SetFloat i v => if i <? nF then (m.1, <[i := v]> m.2) else m
  end.

Definition spec_code (nI nF : Z) (op : SensorOp) : StatusCode :=
  match op with
  | SetInteger i _ => if i <? nI then OK else INVALID_ARG
  | SetFloat i _ => if i <? nF then OK else INVALID_ARG
  end.

Definition is_set {A} (x : option A) : bool := match x with Some _ => true | None => false end.

Record represents (nI nF : Z) (s : Obd2SensorStore) (m : Sensors) : Prop := mk_represents {
  rep_ints : vsize (mIntegerSensors s) = nI;
  rep_floats : vsize (mFloatSensors s) = nF;
  rep_wf : bitmask_wf (mSensorsBitmask s);
  rep_bits : mNumBits (mSensorsBitmask s) = nI + nF;
  rep_int : ∀ i, 0 ≤ i < nI → mIntegerSensors s !! Z.to_nat i = Some (default 0 (m.1 !! i)) ∧
                              bit (mSensorsBitmask s) i = is_set (m.1 !! i);
  rep_float : ∀ i, 0 ≤ i < nF → mFloatSensors s !! Z.to_nat i = Some (default f32_zero (m.2 !! i)) ∧
                              bit (mSensorsBitmask s) (nI + i) = is_set (m.2 !! i);
}.

Lemma set_integer_represents nI nF s m i v : represents nI nF s m → 0 ≤ i →
  let '(s', c) := setIntegerSensor i v s in
  represents nI nF s' (spec_op nI nF m (SetInteger i v)) ∧ c = spec_code nI nF (SetInteger i v).
Proof.
  intros [Hi Hf Hw Hb Hint Hflt] H0. unfold setIntegerSensor, spec_op, spec_code.
  rewrite Hi. destruct (Z.leb_spec nI i), (Z.ltb_spec i nI); try lia; [done|].
  destruct (bitmask_set_spec (mSensorsBitmask s) i true Hw) as (b' & -> & Hw' & Hn & Hbit).
  { rewrite Hb. unfold vsize in *. lia. }
  unfold with_bitmask. cbn [mIntegerSensors mFloatSensors mSensorsBitmask fst snd].
  split; [|done]. split; cbn [mIntegerSensors mFloatSensors mSensorsBitmask]; try done.
  - unfold vsize in *. by rewrite length_insert.
  - by rewrite Hn.
  - intros j Hj. cbn [fst]. rewrite Hbit by (unfold vsize in *; lia).
    destruct (Z.eqb_spec j i) as [->|Hne].
    + rewrite lookup_insert_eq, list_lookup_insert_eq by (unfold vsize in *; lia). done.
    + rewrite lookup_insert_ne, list_lookup_insert_ne by (done || lia). by apply Hint.
  - intros j Hj. cbn [snd]. rewrite Hbit by (unfold vsize in *; lia).
    destruct (Z.eqb_spec (nI + j) i); [lia|]. by apply Hflt.
Qed.

Lemma set_float_represents nI nF s m i v : represents nI nF s m → 0 ≤ i →
  let '(s', c) := setFloatSensor i v s in
  represents nI nF s' (spec_op nI nF m (SetFloat i v)) ∧ c = spec_code nI nF (SetFloat i v).
Proof.
  intros [Hi Hf Hw Hb Hint Hflt] H0. unfold setFloatSensor, spec_op, spec_code.
  rewrite Hi, Hf. destruct (Z.leb_spec nF i), (Z.ltb_spec i nF); try lia; [done|].
  assert (HnI : 0 ≤ nI) by (unfold vsize in *; lia).
  destruct (bitmask_set_spec (mSensorsBitmask s) (i + nI) true Hw) as (b' & -> & Hw' & Hn & Hbit);
    [lia|].
  unfold with_bitmask. cbn [mIntegerSensors mFloatSensors mSensorsBitmask fst snd].
  split; [|done]. split; cbn [mIntegerSensors mFloatSensors mSensorsBitmask]; try done.
  - unfold vsize in *. by rewrite length_insert.
  - by rewrite Hn.
  - intros j Hj. cbn [fst]. rewrite Hbit by lia.
    destruct (Z.eqb_spec j (i + nI)); [lia|]. by apply Hint.
  - intros j Hj. cbn [snd]. rewrite Hbit by lia.
    destruct (Z.eqb_spec (nI + j) (i + nI)) as [He|Hne].
    + assert (j = i) as -> by lia.
      rewrite lookup_insert_eq, list_lookup_insert_eq by (unfold vsize in *; lia). done.
    + rewrite lookup_insert_ne, list_lookup_insert_ne by lia. by apply Hflt.
Qed.

Lemma apply_op_represents nI nF s m op : represents nI nF s m → 0 ≤ op_index op →
  let '(s', c) := apply_op op s in
  represents nI nF s' (spec_op nI nF m op) ∧ c = spec_code nI nF op.
Proof.
  intros Hr H0. destruct op; [by apply set_integer_represents|by apply set_float_represents].
Qed.

Lemma apply_ops_represents nI nF ops : Forall (λ op, 0 ≤ op_index op) ops → ∀ s m,
  represents nI nF s m →
  represents nI nF (fst (apply_ops ops s)) (foldl (spec_op nI nF) m ops) ∧
  snd (apply_ops ops s) = spec_code nI nF <$> ops.
Proof.
  induction 1 as [|op ops H0 _ IH]; intros s m Hr; [done|]. cbn [apply_ops foldl fmap list_fmap].
  pose proof (apply_op_represents _ _ _ _ op Hr H0) as Hop.
  destruct (apply_op op s) as [s' c]. destruct Hop as [Hr' ->].
  destruct (IH _ _ Hr') as [H1 H2]. destruct (apply_ops ops s') as [s'' cs]. cbn in *. by rewrite H2.
Qed.

Lemma new_represents nvi nvf s : newSensorStore nvi nvf = Some s →
  represents (vsize (mIntegerSensors s)) (vsize (mFloatSensors s)) s (∅, ∅).
Proof.
  unfold newSensorStore, vec_make. destruct (_ <? _); [|done]. destruct (_ <? _); [|done].
  intros [= <-]. cbn [mIntegerSensors mFloatSensors mSensorsBitmask].
  set (ints := replicate _ 0). set (floats := replicate _ f32_zero).
  destruct (bitmask_resize_wf (vsize ints + vsize floats)) as [Hw Hb]; [unfold vsize; lia|].
  split; cbn [mIntegerSensors mFloatSensors mSensorsBitmask fst snd]; try done.
  - intros i Hi. rewrite lookup_empty, Hb. split; [|done].
    apply lookup_replicate. split; [done|]. unfold ints, vsize in Hi. rewrite length_replicate in Hi. lia.
  - intros i Hi. rewrite lookup_empty, Hb. split; [|done].
    apply lookup_replicate. split; [done|]. unfold floats, vsize in Hi. rewrite length_replicate in Hi. lia.
Qed.

(** C31: A frame says exactly what was recorded: after any sequence of sensor
    writes (their indexes not negative), each accepted when its index is in
    range, the frame holds one value per sensor, the last one written (0 if
    none); its [byteValues] have one bit per sensor, and the bit read from
    them (bit [i mod 8] of byte [i / 8]) is set exactly when the sensor was
    written, integer sensors first. *)
Theorem sensor_frame uninit nvi nvf s0 ops dtc now pool :
  newSensorStore nvi nvf = Some s0 → Forall (λ op, 0 ≤ op_index op) ops →
  let nI := vsize (mIntegerSensors s0) in
  let nF := vsize (mFloatSensors s0) in
  let m := foldl (spec_op nI nF) (∅, ∅) ops in
  let '(s, codes) := apply_ops ops s0 in
  let frame := obj (fst (getSensorProperty uninit dtc now s pool)) in
  codes = spec_code nI nF <$> ops ∧
  timestamp frame = now ∧ stringValue (value frame) = dtc ∧ int64Values (value frame) = [] ∧
  vsize (int32Values (value frame)) = nI ∧ vsize (floatValues (value frame)) = nF ∧
  vsize (byteValues (value frame)) = (nI + nF + 7) / 8 ∧
  Forall (λ y, 0 ≤ y < 256) (byteValues (value frame)) ∧
  (∀ i, 0 ≤ i < nI →
     int32Values (value frame) !! Z.to_nat i = Some (default 0 (m.1 !! i)) ∧
     frame_bit (byteValues (value frame)) i = Some (is_set (m.1 !! i))) ∧
  (∀ i, 0 ≤ i < nF →
     floatValues (value frame) !! Z.to_nat i = Some (default f32_zero (m.2 !! i)) ∧
     frame_bit (byteValues (value frame)) (nI + i) = Some (is_set (m.2 !! i))).
Proof.
  intros Hs Hops. cbn zeta. pose proof (new_represents _ _ _ Hs) as Hr.
  assert (HnI : 0 ≤ vsize (mIntegerSensors s0)) by (unfold vsize; lia).
  assert (HnF : 0 ≤ vsize (mFloatSensors s0)) by (unfold vsize; lia).
  remember (vsize (mIntegerSensors s0)) as nI. remember (vsize (mFloatSensors s0)) as nF.
  destruct (apply_ops_represents _ _ ops Hops _ _ Hr) as [[Hi Hf Hw Hb Hint Hflt] Hc].
  destruct (apply_ops ops s0) as [s codes]. cbn [fst snd] in *.
  split_and!; [done|done|done|done|done|done| | | |].
  - cbn. by rewrite (wf_storage _ Hw), Hb.
  - exact (wf_bytes _ Hw).
  - intros i Hin. split; [by apply Hint|]. cbn.
    rewrite frame_bit_storage by (done || lia). f_equal. by apply Hint.
  - intros i Hin. split; [by apply Hflt|]. cbn.
    rewrite frame_bit_storage by (done || lia). f_equal. by apply Hflt.
Qed.

Lemma sensor_frame_witness :
  ∃ s0, newSensorStore 0 0 = Some s0 ∧
  let '(s, codes) := apply_ops [SetInteger 4 35; SetInteger 32 1; SetFloat 0 f32_zero] s0 in
  let frame := obj (fst (getSensorProperty 0 "" 0 s (newPool 4 10240))) in
  codes = [OK; INVALID_ARG; OK] ∧ frame_bit (byteValues (value frame)) 4 = Some true ∧
  frame_bit (byteValues (value frame)) 5 = Some false ∧
  frame_bit (byteValues (value frame)) 32 = Some true.
Proof.
  destruct (newSensorStore 0 0) as [s0|] eqn:Hs; [|vm_compute in Hs; discriminate].
  exists s0. split; [reflexivity|].
  pose proof (sensor_frame 0 0 0 s0 [SetInteger 4 35; SetInteger 32 1; SetFloat 0 f32_zero] "" 0
                (newPool 4 10240) Hs ltac:(repeat constructor; cbn; lia)) as H.
  assert (Hn : vsize (mIntegerSensors s0) = 32 ∧ vsize (mFloatSensors s0) = 71).
  { vm_compute in Hs. injection Hs as <-. done. }
  cbn zeta in H. destruct Hn as [HI HF]. rewrite HI, HF in H.
  destruct (apply_ops _ s0) as [s codes].
  destruct H as (-> & _ & _ & _ & _ & _ & _ & _ & Hi & Hf).
  split; [reflexivity|]. split; [exact (proj2 (Hi 4 ltac:(lia)))|].
  split; [exact (proj2 (Hi 5 ltac:(lia)))|]. exact (proj2 (Hf 0 ltac:(lia))).
Defined.
