(* ===== verification/FakeObd2Frame.v ===== *)
(** * FakeObd2Frame: the OBD2 live and freeze frames

    [fake_impl/obd2frame/src/FakeObd2Frame.cpp]: default frames are built with
    the sensor store and kept in the property store; freeze frames are stored
    under their timestamp, listed, fetched and cleared. *)

From stdpp Require Import base gmap list strings.
From Stdlib Require Import ZArith Lia.
From S2P Require Import Prelude Float32 VehicleTypes VehicleProperty VehicleUtils VehicleObjectPool.
From S2P Require Import VehiclePropertyStore Obd2SensorStore.

Local Open Scope Z_scope.

Definition OBD2_LIVE_FRAME : Z := VehicleProperty.OBD2_LIVE_FRAME.
Definition OBD2_FREEZE_FRAME : Z := VehicleProperty.OBD2_FREEZE_FRAME.
Definition OBD2_FREEZE_FRAME_INFO : Z := VehicleProperty.OBD2_FREEZE_FRAME_INFO.
Definition OBD2_FREEZE_FRAME_CLEAR : Z := VehicleProperty.OBD2_FREEZE_FRAME_CLEAR.

(** Enumerators of [Obd2FuelSystemStatus], [Obd2IgnitionMonitorKind],
    [Obd2CommonIgnitionMonitors], [Obd2SparkIgnitionMonitors],
    [Obd2SecondaryAirStatus] and [Obd2FuelType]. *)
Definition CLOSED_LOOP : Z := 2.
Definition SPARK : Z := 0.
Definition COMPONENTS_AVAILABLE : Z := Z.shiftl 1 0.
Definition MISFIRE_AVAILABLE : Z := Z.shiftl 1 4.
Definition AC_REFRIGERANT_AVAILABLE : Z := Z.shiftl 1 12.
Definition EVAPORATIVE_SYSTEM_AVAILABLE : Z := Z.shiftl 1 16.
Definition FROM_OUTSIDE_OR_OFF : Z := 4.
Definition GASOLINE : Z := 1.

Definition float_lit (n d : Z) : f32 := f32_of_f64 (f64_lit n d).

Definition defaultFrame : list SensorOp :=
  [SetInteger DiagnosticIntegerSensorIndex.FUEL_SYSTEM_STATUS CLOSED_LOOP;
   SetInteger DiagnosticIntegerSensorIndex.MALFUNCTION_INDICATOR_LIGHT_ON 0;
   SetInteger DiagnosticIntegerSensorIndex.IGNITION_MONITORS_SUPPORTED SPARK;
   SetInteger DiagnosticIntegerSensorIndex.IGNITION_SPECIFIC_MONITORS
     (Z.lor (Z.lor (Z.lor COMPONENTS_AVAILABLE MISFIRE_AVAILABLE) AC_REFRIGERANT_AVAILABLE)
        EVAPORATIVE_SYSTEM_AVAILABLE);
   SetInteger DiagnosticIntegerSensorIndex.INTAKE_AIR_TEMPERATURE 35;
   SetInteger DiagnosticIntegerSensorIndex.COMMANDED_SECONDARY_AIR_STATUS FROM_OUTSIDE_OR_OFF;
   SetInteger DiagnosticIntegerSensorIndex.NUM_OXYGEN_SENSORS_PRESENT 1;
   SetInteger DiagnosticIntegerSensorIndex.RUNTIME_SINCE_ENGINE_START 500;
   SetInteger DiagnosticIntegerSensorIndex.DISTANCE_TRAVELED_WITH_MALFUNCTION_INDICATOR_LIGHT_ON 0;
   SetInteger DiagnosticIntegerSensorIndex.WARMUPS_SINCE_CODES_CLEARED 51;
   SetInteger DiagnosticIntegerSensorIndex.DISTANCE_TRAVELED_SINCE_CODES_CLEARED 365;
   SetInteger DiagnosticIntegerSensorIndex.ABSOLUTE_BAROMETRIC_PRESSURE 30;
   SetInteger DiagnosticIntegerSensorIndex.CONTROL_MODULE_VOLTAGE 12;
   SetInteger DiagnosticIntegerSensorIndex.AMBIENT_AIR_TEMPERATURE 18;
   SetInteger DiagnosticIntegerSensorIndex.MAX_FUEL_AIR_EQUIVALENCE_RATIO 1;
   SetInteger DiagnosticIntegerSensorIndex.FUEL_TYPE GASOLINE;
   SetFloat DiagnosticFloatSensorIndex.CALCULATED_ENGINE_LOAD (float_lit 153 1000);
   SetFloat DiagnosticFloatSensorIndex.SHORT_TERM_FUEL_TRIM_BANK1 (float_lit (-16) 100);
   SetFloat DiagnosticFloatSensorIndex.LONG_TERM_FUEL_TRIM_BANK1 (float_lit (-16) 100);
   SetFloat DiagnosticFloatSensorIndex.SHORT_TERM_FUEL_TRIM_BANK2 (float_lit (-16) 100);
   SetFloat DiagnosticFloatSensorIndex.LONG_TERM_FUEL_TRIM_BANK2 (float_lit (-16) 100);
   SetFloat DiagnosticFloatSensorIndex.INTAKE_MANIFOLD_ABSOLUTE_PRESSURE (float_lit 75 10);
   SetFloat DiagnosticFloatSensorIndex.ENGINE_RPM (float_lit 1250 1);
   SetFloat DiagnosticFloatSensorIndex.VEHICLE_SPEED (float_lit 40 1);
   SetFloat DiagnosticFloatSensorIndex.TIMING_ADVANCE (float_lit 25 10);
   SetFloat DiagnosticFloatSensorIndex.THROTTLE_POSITION (float_lit 1975 100);
   SetFloat DiagnosticFloatSensorIndex.OXYGEN_SENSOR1_VOLTAGE (float_lit 265 1000);
   SetFloat DiagnosticFloatSensorIndex.FUEL_TANK_LEVEL_INPUT (float_lit 824 1000);
   SetFloat DiagnosticFloatSensorIndex.EVAPORATION_SYSTEM_VAPOR_PRESSURE (float_lit (-373) 1000);
   SetFloat DiagnosticFloatSensorIndex.CATALYST_TEMPERATURE_BANK1_SENSOR1 (float_lit 190 1);
   SetFloat DiagnosticFloatSensorIndex.RELATIVE_THROTTLE_POSITION (float_lit 3 1);
   SetFloat DiagnosticFloatSensorIndex.ABSOLUTE_THROTTLE_POSITION_B (float_lit 306 1000);
   SetFloat DiagnosticFloatSensorIndex.ACCELERATOR_PEDAL_POSITION_D (float_lit 188 1000);
   SetFloat DiagnosticFloatSensorIndex.ACCELERATOR_PEDAL_POSITION_E (float_lit 94 1000);
   SetFloat DiagnosticFloatSensorIndex.COMMANDED_THROTTLE_ACTUATOR (float_lit 24 1000)].

(** The status codes of the writes are ignored. *)
Definition fillDefaultObd2Frame (numVendorIntegerSensors numVendorFloatSensors : Z) :
    option Obd2SensorStore :=
  match newSensorStore numVendorIntegerSensors numVendorFloatSensors with
  | Some s => Some (fst (apply_ops defaultFrame s))
  | None => None
  end.

Definition set_prop (p : Z) (v : VehiclePropValue) : VehiclePropValue :=
  mkPropValue (timestamp v) (areaId v) p (status v) (value v).

Section frames.
  Context (tick : nat → Z) (uninit_size : Z).

(** [static_cast<size_t>(propConfig.configArray[i])]; [None] when the
    configuration is too short. *)
Definition vendorSensors (config : VehiclePropConfig) (i : nat) : option Z :=
  to_u64 <$> configArray config !! i.

(** One frame written for property [p] with the trouble code [dtc]; the
    result of the write is ignored. *)
Definition writeFrame (p : Z) (dtc : string) (sensors : Obd2SensorStore)
    (st : Store * VehiclePropValuePool) : Store * VehiclePropValuePool :=
  let '(s, pool) := st in
  let '(r, pool') := getSensorProperty uninit_size dtc (tick (reads s)) sensors pool in
  (fst (writeValue tick (set_prop p (obj r)) true ON_VALUE_CHANGE false (bump_clock s)), pool').

Definition initObd2LiveFrame (config : VehiclePropConfig) (st : Store * VehiclePropValuePool) :
    option (Store * VehiclePropValuePool) :=
  match vendorSensors config 0, vendorSensors config 1 with
  | Some ni, Some nf =>
      match fillDefaultObd2Frame ni nf with
      | Some sensors => Some (writeFrame OBD2_LIVE_FRAME "" sensors st)
      | None => None
      end
  | _, _ => None
  end.

Definition sampleDtcs : list string := ["P0070"; "P0102"; "P0123"]%string.

Definition initObd2FreezeFrame (config : VehiclePropConfig) (st : Store * VehiclePropValuePool) :
    option (Store * VehiclePropValuePool) :=
  match vendorSensors config 0, vendorSensors config 1 with
  | Some ni, Some nf =>
      match fillDefaultObd2Frame ni nf with
      | Some sensors =>
          Some (foldl (λ st dtc, writeFrame OBD2_FREEZE_FRAME dtc sensors st) st sampleDtcs)
      | None => None
      end
  | _, _ => None
  end.

Definition getObd2FreezeFrame (requested : VehiclePropValue) (s : Store) :
    result StatusCode VehiclePropValue :=
  match int64Values (value requested) with
  | [t] =>
      match readValuesForProperty OBD2_FREEZE_FRAME s with
      | Err _ => Err INTERNAL_ERROR
      | Ok [] => Err NOT_AVAILABLE
      | Ok _ =>
          match readValueFor OBD2_FREEZE_FRAME 0 t s with
          | Ok v => Ok v
          | Err _ => Err INVALID_ARG
          end
      end
  | _ => Err INVALID_ARG
  end.

Definition getObd2DtcInfo (s : Store) (pool : VehiclePropValuePool) :
    result StatusCode Recyclable * VehiclePropValuePool :=
  match readValuesForProperty OBD2_FREEZE_FRAME s with
  | Err _ => (Err INTERNAL_ERROR, pool)
  | Ok frames =>
      let timestamps := timestamp <$> frames in
      let '(r, pool') :=
        obtainVec uninit_size VehiclePropertyType.INT64_VEC (length timestamps) pool in
      let o := obj r in
      (Ok (set_obj (set_prop OBD2_FREEZE_FRAME_INFO
             (set_value (mkRaw (int32Values (value o)) (floatValues (value o)) timestamps
                           (byteValues (value o)) (stringValue (value o))) o)) r), pool')
  end.

Fixpoint clear_loop (ts : list Z) (s : Store) : Store * result StatusCode unit :=
  match ts with
  | [] => (s, Ok tt)
  | t :: ts' =>
      match readValueFor OBD2_FREEZE_FRAME 0 t s with
      | Err _ => (s, Err INVALID_ARG)
      | Ok v => clear_loop ts' (removeValue v s)
      end
  end.

Definition clearObd2FreezeFrames (v : VehiclePropValue) (s : Store) : Store * result StatusCode unit :=
  match int64Values (value v) with
  | [] => (removeValuesForProperty OBD2_FREEZE_FRAME s, Ok tt)
  | ts => clear_loop ts s
  end.

Definition isDiagnosticProperty (config : VehiclePropConfig) : bool :=
  (pc_prop config =? OBD2_LIVE_FRAME) || (pc_prop config =? OBD2_FREEZE_FRAME) ||
  (pc_prop config =? OBD2_FREEZE_FRAME_CLEAR) || (pc_prop config =? OBD2_FREEZE_FRAME_INFO).
End frames.

(** ** The freeze frames of a store *)

(** Freeze frames are registered with the timestamp as their token, and every
    stored one is filed under its own timestamp. *)
Record frames_ok (rec : StoreRecord) : Prop := mk_frames_ok {
  fr_token : ∃ f, tokenFunction rec = Some f ∧ ∀ v, f v = timestamp v;
  fr_filed : ∀ r v, values rec !! r = Some v →
               r = mkRecordId 0 (timestamp v) ∧ prop v = OBD2_FREEZE_FRAME;
}.

Definition freeze_registered (s : Store) : Prop :=
  ∃ rec, mRecordsByPropId s !! OBD2_FREEZE_FRAME = Some rec ∧ frames_ok rec.

(** The frame taken at time [t]. *)
Definition frame (s : Store) (t : Z) : option VehiclePropValue :=
  stored s OBD2_FREEZE_FRAME (mkRecordId 0 t).

Lemma readValueFor_frame s t : freeze_registered s →
  readValueFor OBD2_FREEZE_FRAME 0 t s =
  match frame s t with Some v => Ok v | None => Err NOT_AVAILABLE end.
Proof.
  intros (rec & Hr & _). unfold readValueFor, frame, stored, getRecordLocked. rewrite Hr. done.
Qed.

Lemma frame_timestamp s t v : freeze_registered s → frame s t = Some v →
  timestamp v = t ∧ prop v = OBD2_FREEZE_FRAME.
Proof.
  intros (rec & Hr & Hok) Hf. unfold frame, stored in Hf. rewrite Hr in Hf.
  destruct (fr_filed _ Hok _ _ Hf) as [He Hp]. by injection He as ->.
Qed.

(** The values of the property are the frames. *)
Lemma readValuesForProperty_frames s : freeze_registered s →
  ∃ l, readValuesForProperty OBD2_FREEZE_FRAME s = Ok l ∧ NoDup (timestamp <$> l) ∧
       ∀ v, v ∈ l ↔ frame s (timestamp v) = Some v.
Proof.
  intros (rec & Hr & Hok). unfold readValuesForProperty, getRecordLocked. rewrite Hr.
  eexists. split; [done|]. split.
  - rewrite <- list_fmap_compose.
    assert (Heq : ∀ x, x ∈ map_to_list (values rec) → (timestamp ∘ snd) x = ri_token x.1).
    { intros [r v] Hx. apply elem_of_map_to_list in Hx.
      apply (fr_filed _ Hok) in Hx as [-> _]. done. }
    rewrite (list_fmap_ext _ (ri_token ∘ fst)) by (intros i x Hx; apply Heq; by eapply list_elem_of_lookup_2).
    rewrite list_fmap_compose. apply NoDup_fmap_2_strong; [|apply NoDup_fst_map_to_list].
    intros r1 r2 H1 H2 He.
    apply list_elem_of_fmap in H1 as ([? v1] & -> & H1), H2 as ([? v2] & -> & H2).
    apply elem_of_map_to_list in H1, H2. cbn in *.
    apply (fr_filed _ Hok) in H1 as [-> _], H2 as [-> _]. cbn in He. by rewrite He.
  - intros v. rewrite list_elem_of_fmap. unfold frame, stored. rewrite Hr. split.
    + intros ([r w] & -> & Hx). apply elem_of_map_to_list in Hx. cbn.
      by destruct (fr_filed _ Hok _ _ Hx) as [<- _].
    + intros Hv. eexists (_, v). split; [done|]. by apply elem_of_map_to_list.
Qed.

(** Freeze frames are looked up by their timestamp: a request for time
    [t] gets the frame taken at [t], is refused when there is none, and is
    told that nothing is available when there are no frames at all; the list
    of trouble-code times has every frame once. *)
Theorem freeze_frame_queries uninit s pool : freeze_registered s →
  (∀ req t, int64Values (value req) = [t] →
     (∀ v, getObd2FreezeFrame req s = Ok v ↔ frame s t = Some v) ∧
     (getObd2FreezeFrame req s = Err NOT_AVAILABLE ↔ ∀ t', frame s t' = None) ∧
     (getObd2FreezeFrame req s = Err INVALID_ARG ↔
        frame s t = None ∧ ∃ t', is_Some (frame s t'))) ∧
  ∃ r pool', getObd2DtcInfo uninit s pool = (Ok r, pool') ∧
    prop (obj r) = OBD2_FREEZE_FRAME_INFO ∧ NoDup (int64Values (value (obj r))) ∧
    ∀ t, t ∈ int64Values (value (obj r)) ↔ is_Some (frame s t).
Proof.
  intros Hs. destruct (readValuesForProperty_frames s Hs) as (l & Hl & Hnd & Hin).
  assert (Hts : ∀ t, t ∈ timestamp <$> l ↔ is_Some (frame s t)).
  { intros t. rewrite list_elem_of_fmap. split.
    - intros (v & -> & Hv%Hin). by eexists.
    - intros [v Hv]. exists v. destruct (frame_timestamp s t v Hs Hv) as [Ht _].
      split; [done|]. apply Hin. by rewrite Ht. }
  split.
  - intros req t Ht. unfold getObd2FreezeFrame. rewrite Ht, Hl, readValueFor_frame by done.
    destruct l as [|v0 l].
    + assert (Hno : ∀ t', frame s t' = None).
      { intros t'. apply eq_None_not_Some. rewrite <- Hts. apply not_elem_of_nil. }
      rewrite (Hno t). split_and!; [done| |].
      * split; done.
      * split; [done|]. intros [_ [t' [w Hw]]]. by rewrite Hno in Hw.
    + assert (Hsome : ∃ t', is_Some (frame s t')).
      { exists (timestamp v0). apply Hts. left. }
      destruct (frame s t) as [v|] eqn:Hf; split_and!.
      * intros v'. split; intros [= ->]; done.
      * split; [done|]. intros Hno. by rewrite Hno in Hf.
      * split; [done|]. by intros [? _].
      * intros v'. by split.
      * split; [done|]. intros Hno. destruct Hsome as [t' [w Hw]]. by rewrite Hno in Hw.
      * split; [by split|done].
  - unfold getObd2DtcInfo. rewrite Hl.
    destruct (obtainVec _ _ _ _) as [r pool']. eexists _, _. split; [done|].
    cbn. split; [done|]. split; [done|]. exact Hts.
Qed.

(** ** Clearing *)

Lemma removeValue_frame s t v : freeze_registered s → frame s t = Some v →
  freeze_registered (removeValue v s) ∧
  (∀ t', frame (removeValue v s) t' = if decide (t' = t) then None else frame s t') ∧
  (∀ p r, p ≠ OBD2_FREEZE_FRAME → stored (removeValue v s) p r = stored s p r).
Proof.
  intros Hs Hf. destruct (frame_timestamp s t v Hs Hf) as [Ht Hp].
  destruct Hs as (rec & Hr & Hok). destruct (fr_token _ Hok) as (f & Hfn & Hft).
  unfold removeValue, getRecordLocked. rewrite Hp, Hr.
  assert (Hid : getRecordIdLocked v rec = mkRecordId 0 t).
  { unfold getRecordIdLocked. rewrite Hp, Hfn, Hft, Ht. done. }
  rewrite Hid. split_and!.
  - eexists. cbn. split; [by rewrite lookup_insert_eq|]. split; cbn; [by exists f|].
    intros r w Hw. apply lookup_delete_Some in Hw as [_ Hw]. by apply (fr_filed _ Hok).
  - intros t'. unfold frame. rewrite (stored_set_values _ _ _ _ _ _ Hr).
    rewrite decide_True by done. unfold stored. rewrite Hr. case_decide as He.
    + rewrite He. apply lookup_delete_eq.
    + apply lookup_delete_ne. congruence.
  - intros p r Hne. rewrite (stored_set_values _ _ _ _ _ _ Hr). by rewrite decide_False.
Qed.

Lemma clear_loop_spec ts s : freeze_registered s →
  let '(s', r) := clear_loop ts s in
  freeze_registered s' ∧
  (∀ p ri, p ≠ OBD2_FREEZE_FRAME → stored s' p ri = stored s p ri) ∧
  ∃ removed, (∀ t, frame s' t = if decide (t ∈ removed) then None else frame s t) ∧
    NoDup removed ∧ (∀ t, t ∈ removed → is_Some (frame s t)) ∧
    (r = Ok tt ∧ ts = removed ∨
     ∃ t rest, r = Err INVALID_ARG ∧ ts = removed ++ t :: rest ∧ (t ∈ removed ∨ frame s t = None)).
Proof.
  revert s. induction ts as [|t ts IH]; intros s Hs; cbn [clear_loop].
  { split; [done|]. split; [done|]. exists []. split_and!; [done|constructor| |by left].
    intros t Ht. by apply not_elem_of_nil in Ht. }
  rewrite readValueFor_frame by done. destruct (frame s t) as [v|] eqn:Hf.
  - destruct (removeValue_frame s t v Hs Hf) as (Hs1 & Hf1 & Ho1).
    specialize (IH _ Hs1). destruct (clear_loop ts (removeValue v s)) as [s' r].
    destruct IH as (Hs' & Ho & removed & Hfr & Hnd & Hin & Hr).
    split; [done|]. split; [intros; rewrite Ho, Ho1 by done; done|].
    assert (Ht : t ∉ removed).
    { intros H%Hin. rewrite Hf1, decide_True in H by done. by destruct H. }
    exists (t :: removed). split_and!.
    + intros t'. rewrite Hfr, Hf1.
      destruct (decide (t' = t)) as [->|Hne].
      * rewrite (decide_True (P := t ∈ t :: removed)) by left. by case_decide.
      * destruct (decide (t' ∈ removed)); [rewrite decide_True by (by right)|rewrite decide_False]; try done.
        by intros [->|?]%elem_of_cons.
    + by constructor.
    + intros t' [->|H]%elem_of_cons; [by eexists|]. apply Hin in H. rewrite Hf1 in H.
      by case_decide; destruct H.
    + destruct Hr as [[-> ->]|(t0 & rest & -> & -> & Ht0)]; [by left|right].
      exists t0, rest. split; [done|]. split; [done|].
      destruct Ht0 as [H|H]; [left; by right|]. rewrite Hf1 in H.
      case_decide; [left; subst; left|by right].
  - split; [done|]. split; [done|]. exists []. split_and!; [done|constructor| |].
    + intros t' Ht'. by apply not_elem_of_nil in Ht'.
    + right. exists t, ts. split_and!; [done|done|by right].
Qed.

(** Clearing removes exactly the frames it was asked for. Without
    timestamps every frame goes; with timestamps the frames are removed in
    order, and the call succeeds exactly when the timestamps are distinct and
    all of them have a frame: at the first that has none the call fails, and
    the frames before it are gone. Other properties are untouched. *)
Theorem clear_freeze_frames v s : freeze_registered s →
  let '(s', r) := clearObd2FreezeFrames v s in
  let ts := int64Values (value v) in
  freeze_registered s' ∧
  (∀ p ri, p ≠ OBD2_FREEZE_FRAME → stored s' p ri = stored s p ri) ∧
  (ts = [] → r = Ok tt ∧ ∀ t, frame s' t = None) ∧
  (ts ≠ [] →
     (r = Ok tt ↔ NoDup ts ∧ ∀ t, t ∈ ts → is_Some (frame s t)) ∧
     ∃ removed rest, ts = removed ++ rest ∧ (r = Ok tt ↔ rest = []) ∧
       ∀ t, frame s' t = if decide (t ∈ removed) then None else frame s t).
Proof.
  intros Hs. unfold clearObd2FreezeFrames. destruct (int64Values (value v)) as [|t0 ts0] eqn:Hts.
  - destruct Hs as (rec & Hr & Hok). unfold removeValuesForProperty, getRecordLocked. rewrite Hr.
    split_and!; [|intros p ri Hne; by rewrite (stored_set_values _ _ _ _ _ _ Hr), decide_False| |done].
    + eexists. cbn. split; [by rewrite lookup_insert_eq|]. split; [apply Hok|done].
    + intros _. split; [done|]. intros t. unfold frame.
      by rewrite (stored_set_values _ _ _ _ _ _ Hr), decide_True, lookup_empty.
  - pose proof (clear_loop_spec (t0 :: ts0) s Hs) as H.
    destruct (clear_loop (t0 :: ts0) s) as [s' r].
    destruct H as (Hs' & Ho & removed & Hfr & Hnd & Hin & Hr).
    split; [done|]. split; [done|]. split; [done|]. intros _. split.
    + destruct Hr as [[-> ->]|(t & rest & -> & -> & Ht)]; [done|]. split; [done|].
      intros [Hnd2 Hall]. exfalso. destruct Ht as [Ht|Ht].
      * apply NoDup_app in Hnd2 as (_ & Hd & _). apply (Hd t Ht). left.
      * specialize (Hall t). rewrite Ht in Hall. destruct Hall as [? [=]].
        apply elem_of_app. right. left.
    + destruct Hr as [[-> Heq]|(t & rest & -> & Heq & Ht)].
      * exists removed, []. rewrite app_nil_r. done.
      * exists removed, (t :: rest). done.
Qed.

(** ** Initialisation *)

(** The value a frame of the sensors is. *)
Definition frameValue (p now : Z) (dtc : string) (sensors : Obd2SensorStore) : VehiclePropValue :=
  mkPropValue now 0 p VehiclePropertyStatus.AVAILABLE
    (mkRaw (mIntegerSensors sensors) (mFloatSensors sensors) [] (mStorage (mSensorsBitmask sensors)) dtc).

Lemma writeFrame_eq tick uninit p dtc sensors s pool :
  writeFrame tick uninit p dtc sensors (s, pool) =
    (fst (writeValue tick (frameValue p (tick (reads s)) dtc sensors) true ON_VALUE_CHANGE false (bump_clock s)), pool).
Proof. done. Qed.

Lemma writeFrame_freeze tick uninit dtc sensors s pool : freeze_registered s →
  let '(s', pool') := writeFrame tick uninit OBD2_FREEZE_FRAME dtc sensors (s, pool) in
  freeze_registered s' ∧ reads s' = S (reads s) ∧ pool' = pool ∧
  ∀ t, frame s' t = if decide (t = tick (reads s))
                    then Some (frameValue OBD2_FREEZE_FRAME t dtc sensors) else frame s t.
Proof.
  intros (rec & Hr & Hok). destruct (fr_token _ Hok) as (f & Hfn & Hft).
  rewrite writeFrame_eq. set (w := frameValue _ _ _ _). set (s1 := bump_clock s).
  assert (Hid : getRecordIdLocked w rec = mkRecordId 0 (tick (reads s))).
  { unfold getRecordIdLocked. by rewrite Hfn, Hft. }
  assert (Hadm : admissible s1 w).
  { exists rec. split; [done|]. split; [by left|]. intros o Ho. rewrite Hid in Ho.
    destruct (fr_filed _ Hok _ _ Ho) as [He _]. injection He as <-. done. }
  unfold writeValue. rewrite (writeStamped_accepted s1 w true ON_VALUE_CHANGE rec Hadm Hr).
  cbn [fst write_status]. rewrite Hid. split_and!.
  - eexists. cbn. split; [by rewrite lookup_insert_eq|]. split; cbn; [by exists f|].
    intros r v Hv. apply lookup_insert_Some in Hv as [[<- <-]|[_ Hv]]; [done|].
    by apply (fr_filed _ Hok).
  - done.
  - done.
  - intros t. unfold frame. rewrite stored_emit, (stored_set_values s1 _ _ _ _ _ Hr).
    rewrite decide_True by done. unfold stored. cbn [s1 mRecordsByPropId bump_clock]. rewrite Hr.
    destruct (decide (t = tick (reads s))) as [->|Hne].
    + by rewrite lookup_insert_eq.
    + by rewrite lookup_insert_ne by congruence.
Qed.

(** The default sensors with the vendor sensors a configuration declares. *)
Definition defaultSensors (config : VehiclePropConfig) : option Obd2SensorStore :=
  ni ← vendorSensors config 0; nf ← vendorSensors config 1; fillDefaultObd2Frame ni nf.

(** The configuration array starts with the two numbers of vendor sensors. *)
Definition vendor_declared (config : VehiclePropConfig) : Prop :=
  ∃ ni nf rest, configArray config = ni :: nf :: rest ∧ 0 ≤ ni < two31 ∧ 0 ≤ nf < two31.

Lemma defaultSensors_some config : vendor_declared config → ∃ sensors, defaultSensors config = Some sensors.
Proof.
  intros (ni & nf & rest & Hc & Hni & Hnf). unfold defaultSensors, vendorSensors. rewrite Hc.
  cbn [lookup list_lookup fmap option_fmap option_map mbind option_bind]. rewrite !to_u64_id by (unfold_widths; lia).
  unfold fillDefaultObd2Frame, newSensorStore, vec_make.
  change numSystemIntegerSensors with 32. change numSystemFloatSensors with 71.
  rewrite (to_u64_id (32 + ni)), (to_u64_id (71 + nf)) by (unfold_widths; lia).
  destruct (Z.ltb_spec (32 + ni) 2305843009213693952); [|unfold two31 in *; lia].
  destruct (Z.ltb_spec (71 + nf) 2305843009213693952); [by eexists|unfold two31 in *; lia].
Qed.

Lemma init_live_eq tick uninit config st : initObd2LiveFrame tick uninit config st =
  (λ sensors, writeFrame tick uninit OBD2_LIVE_FRAME "" sensors st) <$> defaultSensors config.
Proof.
  unfold initObd2LiveFrame, defaultSensors. destruct (vendorSensors config 0) as [ni|]; [|done].
  destruct (vendorSensors config 1) as [nf|]; [|done]. cbn [mbind option_bind]. by destruct (fillDefaultObd2Frame ni nf).
Qed.

Lemma init_freeze_eq tick uninit config st : initObd2FreezeFrame tick uninit config st =
  (λ sensors, foldl (λ st dtc, writeFrame tick uninit OBD2_FREEZE_FRAME dtc sensors st) st sampleDtcs)
    <$> defaultSensors config.
Proof.
  unfold initObd2FreezeFrame, defaultSensors. destruct (vendorSensors config 0) as [ni|]; [|done].
  destruct (vendorSensors config 1) as [nf|]; [|done]. cbn [mbind option_bind]. by destruct (fillDefaultObd2Frame ni nf).
Qed.

(** Initialisation leaves one freeze frame per sample trouble code, each
    holding the default sensors and filed under the time it was written, as
    long as the clock ticks between the writes. *)
Theorem init_freeze_frames tick uninit config s pool :
  freeze_registered s → (∀ t, frame s t = None) → vendor_declared config → (∀ n, tick n < tick (S n)) →
  ∃ s' sensors, defaultSensors config = Some sensors ∧
    initObd2FreezeFrame tick uninit config (s, pool) = Some (s', pool) ∧
    freeze_registered s' ∧
    ∀ t v, frame s' t = Some v ↔
      ∃ i dtc, sampleDtcs !! i = Some dtc ∧ t = tick (reads s + i)%nat ∧
               v = frameValue OBD2_FREEZE_FRAME t dtc sensors.
Proof.
  intros Hs Hempty Hc Htick. destruct (defaultSensors_some config Hc) as [sensors Hfill].
  rewrite init_freeze_eq, Hfill. cbn [fmap option_fmap option_map foldl sampleDtcs].
  pose proof (writeFrame_freeze tick uninit "P0070" sensors s pool Hs) as H1.
  destruct (writeFrame _ _ _ _ _ (s, pool)) as [s1 p1]. destruct H1 as (Hs1 & Hr1 & -> & Hf1).
  pose proof (writeFrame_freeze tick uninit "P0102" sensors s1 pool Hs1) as H2.
  destruct (writeFrame _ _ _ _ _ (s1, pool)) as [s2 p2]. destruct H2 as (Hs2 & Hr2 & -> & Hf2).
  pose proof (writeFrame_freeze tick uninit "P0123" sensors s2 pool Hs2) as H3.
  destruct (writeFrame _ _ _ _ _ (s2, pool)) as [s3 p3]. destruct H3 as (Hs3 & Hr3 & -> & Hf3).
  exists s3, sensors. split_and!; [done|done|done|]. rewrite Hr2, Hr1 in Hf3. rewrite Hr1 in Hf2.
  pose proof (Htick (reads s)). pose proof (Htick (S (reads s))).
  intros t v. rewrite Hf3, Hf2, Hf1, Hempty. split.
  - intros Hv. destruct (decide (t = tick (S (S (reads s))))) as [->|];
      [|destruct (decide (t = tick (S (reads s)))) as [->|];
        [|destruct (decide (t = tick (reads s))) as [->|]; [|done]]]; injection Hv as <-.
    + exists 2%nat, "P0123"%string. by rewrite Nat.add_comm.
    + exists 1%nat, "P0102"%string. by rewrite Nat.add_comm.
    + exists 0%nat, "P0070"%string. by rewrite Nat.add_0_r.
  - intros (i & dtc & Hi & -> & ->).
    destruct i as [|[|[|i]]]; injection Hi as <- || done; rewrite Nat.add_comm; cbn [Nat.add].
    + rewrite !decide_False, decide_True by (done || lia). done.
    + rewrite decide_False, decide_True by (done || lia). done.
    + by rewrite decide_True.
Qed.

(** ** Examples *)

Definition example_obd2_config : VehiclePropConfig :=
  mkPropConfig OBD2_FREEZE_FRAME VehiclePropertyAccess.READ VehiclePropertyChangeMode.ON_CHANGE
    [] [1; 1] "" f32_zero f32_zero.
Definition example_obd2_store : Store :=
  registerProperty example_obd2_config (Some timestamp) newStore.

Lemma example_obd2_registered :
  freeze_registered example_obd2_store ∧ ∀ t, frame example_obd2_store t = None.
Proof.
  split; [|done]. eexists. split; [done|]. split; cbn; [by exists timestamp|].
  intros r v. by rewrite lookup_empty.
Qed.

Lemma init_freeze_frames_witness :
  ∃ s' sensors,
    initObd2FreezeFrame (λ n, 10 * Z.of_nat n) 0 example_obd2_config (example_obd2_store, newPool 4 10240)
      = Some (s', newPool 4 10240) ∧
    frame s' 10 = Some (frameValue OBD2_FREEZE_FRAME 10 "P0102" sensors).
Proof.
  destruct example_obd2_registered as [H1 H2].
  destruct (init_freeze_frames (λ n, 10 * Z.of_nat n) 0 example_obd2_config example_obd2_store
              (newPool 4 10240) H1 H2 ltac:(exists 1, 1, []; split; [done|unfold_widths; lia])
              ltac:(intros; cbn beta; lia)) as (s' & sensors & _ & Hi & _ & Hf).
  exists s', sensors. split; [exact Hi|]. apply Hf. exists 1%nat, "P0102"%string. done.
Defined.

Lemma freeze_frame_queries_witness :
  getObd2FreezeFrame (mkPropValue 0 0 OBD2_FREEZE_FRAME 0 (mkRaw [] [] [5] [] "")) example_obd2_store
    = Err NOT_AVAILABLE.
Proof.
  destruct example_obd2_registered as [H1 H2].
  destruct (freeze_frame_queries 0 example_obd2_store (newPool 4 10240) H1) as [H _].
  apply (H (mkPropValue 0 0 OBD2_FREEZE_FRAME 0 (mkRaw [] [] [5] [] "")) 5 eq_refl). exact H2.
Defined.

Lemma clear_freeze_frames_witness :
  let '(s', r) := clearObd2FreezeFrames (mkPropValue 0 0 OBD2_FREEZE_FRAME_CLEAR 0 emptyRaw)
                    example_obd2_store in
  freeze_registered s' ∧ r = Ok tt ∧ ∀ t, frame s' t = None.
Proof.
  destruct example_obd2_registered as [H1 H2].
  pose proof (clear_freeze_frames (mkPropValue 0 0 OBD2_FREEZE_FRAME_CLEAR 0 emptyRaw)
                example_obd2_store H1) as H.
  destruct (clearObd2FreezeFrames _ _) as [s' r]. destruct H as (Hs & _ & He & _).
  split; [exact Hs|]. exact (He eq_refl).
Defined.
