(* ===== verification/FakeSubscriptions.v ===== *)
(** * FakeVehicleHardware: subscriptions and the refresh timer

    Models the subscription part of [fake_impl/hardware/src/FakeVehicleHardware.cpp]:
    [subscribe], [unsubscribe], the refresh bookkeeping of continuous
    properties over one recurrent timer callback per interval,
    [refreshTimestampForInterval], and the filter [onValuesChangeCallback]
    applies before it reports changed values.  The timer is the one of
    RecurrentTimer, with the looper thread that takes its messages, on a looper
    that queues them; the values are those of the store of
    VehiclePropertyStore. *)

From stdpp Require Import base gmap sets list strings.
From Stdlib Require Import ZArith Lia.
From S2P Require Import Prelude Float32 VehicleTypes VehiclePropertyStore RecurrentTimer VehicleHardware.

Local Open Scope Z_scope.
Local Open Scope vhal_scope.

(** ** State *)

Record RefreshInfo := mkRefreshInfo { rf_eventMode : EventMode; rf_intervalInNanos : Z }.
#[export] Instance RefreshInfo_eq_dec : EqDecision RefreshInfo.
Proof. solve_decision. Defined.

Record ActionForInterval := mkAction {
  propIdAreaIdsToRefresh : gset PropIdAreaId;
  recurrentAction : Z                     (* address of the shared callback, or [nullAction] *)
}.

Definition nullAction : Z := -1.
Definition emptyAction : ActionForInterval := mkAction ∅ nullAction.

(** [closures] are the callbacks allocated so far: the one at address [k]
    refreshes the interval it captured, the [k]-th of the list. *)
Record Subscriptions := mkSubs {
  mRefreshInfoByPropIdAreaId : gmap PropIdAreaId RefreshInfo;
  mActionByIntervalInNanos : gmap Z ActionForInterval;
  mSubOnChangePropIdAreaIds : gset PropIdAreaId;
  mRecurrentTimer : Timer;
  closures : list Z
}.

Definition newSubscriptions : Subscriptions := mkSubs ∅ ∅ ∅ newTimer [].

Definition set_refresh (f : gmap PropIdAreaId RefreshInfo → gmap PropIdAreaId RefreshInfo)
    (s : Subscriptions) : Subscriptions :=
  mkSubs (f (mRefreshInfoByPropIdAreaId s)) (mActionByIntervalInNanos s)
    (mSubOnChangePropIdAreaIds s) (mRecurrentTimer s) (closures s).
Definition set_actions (f : gmap Z ActionForInterval → gmap Z ActionForInterval)
    (s : Subscriptions) : Subscriptions :=
  mkSubs (mRefreshInfoByPropIdAreaId s) (f (mActionByIntervalInNanos s))
    (mSubOnChangePropIdAreaIds s) (mRecurrentTimer s) (closures s).
Definition set_onChange (f : gset PropIdAreaId → gset PropIdAreaId) (s : Subscriptions) :
    Subscriptions :=
  mkSubs (mRefreshInfoByPropIdAreaId s) (mActionByIntervalInNanos s)
    (f (mSubOnChangePropIdAreaIds s)) (mRecurrentTimer s) (closures s).
Definition set_timer (t : Timer) (s : Subscriptions) : Subscriptions :=
  mkSubs (mRefreshInfoByPropIdAreaId s) (mActionByIntervalInNanos s)
    (mSubOnChangePropIdAreaIds s) t (closures s).

(** How an operation can fail to return: the interval does not fit an
    [int64_t] (undefined), the timer divides by a zero interval, or the
    timer's mutex is held by the thread itself. *)
Inductive crash : Type := CastOverflow | ZeroInterval | TimerDeadlock.

Definition of_timer (o : outcome) (s : Subscriptions) : result crash Subscriptions :=
  match o with
  | Done t _ => Ok (set_timer t s)
  | DivisionByZero => Err ZeroInterval
  | Deadlock | OutOfFuel => Err TimerDeadlock
  end.

(** ** Operations *)

(** [static_cast<int64_t>(1'000'000'000. / sampleRateHz)]: the rate is
    converted to [double], exactly. *)
Definition f64_of_f32 (x : f32) : spec_float :=
  match x with
  | S754_finite s m e => binary_normalize 53 1024 (cond_Zopp s (Z.pos m)) e s
  | _ => x
  end.
Definition intervalOf (sampleRateHz : f32) : option Z :=
  f32_to_i64 (SFdiv 53 1024 (binary_normalize 53 1024 1000000000 0 false) (f64_of_f32 sampleRateHz)).

(** The search stops at the first area configuration of the area. *)
Fixpoint variableUpdateRateIn (l : list VehicleAreaConfig) (areaId : Z) : bool :=
  match l with
  | [] => false
  | areaConfig :: l' =>
      if ac_areaId areaConfig =? areaId then supportVariableUpdateRate areaConfig
      else variableUpdateRateIn l' areaId
  end.
Definition isVariableUpdateRateSupported (vehiclePropConfig : VehiclePropConfig) (areaId : Z) : bool :=
  variableUpdateRateIn (areaConfigs vehiclePropConfig) areaId.

(** [operator[]] on the actions inserts an empty action when the interval has
    none. *)
Definition unregisterRefreshLocked (p : PropIdAreaId) (s : Subscriptions) :
    result crash Subscriptions :=
  match mRefreshInfoByPropIdAreaId s !! p with
  | None => Ok s
  | Some info =>
      let interval := rf_intervalInNanos info in
      let found := default emptyAction (mActionByIntervalInNanos s !! interval) in
      let action := mkAction (propIdAreaIdsToRefresh found ∖ {[p]}) (recurrentAction found) in
      try! s :=
        (if decide (propIdAreaIdsToRefresh action = ∅) then
           try! s := of_timer (unregisterTimerCallback (recurrentAction action) (mRecurrentTimer s)) s in
           Ok (set_actions (delete interval) s)
         else Ok (set_actions <[interval := action]> s)) in
      Ok (set_refresh (delete p) s)
  end.

(** [now] is the clock when the timer registers the callback. *)
Definition registerRefreshLocked (now : Z) (p : PropIdAreaId) (eventMode : EventMode)
    (sampleRateHz : f32) (s : Subscriptions) : result crash Subscriptions :=
  try! s := match mRefreshInfoByPropIdAreaId s !! p with
            | Some _ => unregisterRefreshLocked p s
            | None => Ok s
            end in
  match intervalOf sampleRateHz with
  | None => Err CastOverflow
  | Some interval =>
      let s := set_refresh <[p := mkRefreshInfo eventMode interval]> s in
      match mActionByIntervalInNanos s !! interval with
      | Some action =>
          Ok (set_actions <[interval := mkAction (propIdAreaIdsToRefresh action ∪ {[p]})
                                          (recurrentAction action)]> s)
      | None =>
          let action := Z.of_nat (length (closures s)) in
          let s := mkSubs (mRefreshInfoByPropIdAreaId s)
                     (<[interval := mkAction {[p]} action]> (mActionByIntervalInNanos s))
                     (mSubOnChangePropIdAreaIds s) (mRecurrentTimer s) (closures s ++ [interval]) in
          of_timer (registerTimerCallback queued_send now interval action (mRecurrentTimer s)) s
      end
  end.

Definition subscribePropIdAreaIdLocked (now propId areaId : Z) (sampleRateHz : f32)
    (enableVUR : bool) (config : VehiclePropConfig) (s : Subscriptions) :
    result crash (Subscriptions * StatusCode) :=
  let p := mkPropIdAreaId propId areaId in
  if changeMode config =? VehiclePropertyChangeMode.STATIC then Ok (s, OK)
  else if changeMode config =? VehiclePropertyChangeMode.ON_CHANGE then
    Ok (set_onChange (λ ids, ids ∪ {[p]}) s, OK)
  else if changeMode config =? VehiclePropertyChangeMode.CONTINUOUS then
    if f32_eqb sampleRateHz f32_zero then Ok (s, INVALID_ARG)
    else
      let eventMode := if isVariableUpdateRateSupported config areaId && enableVUR
                       then ON_VALUE_CHANGE else ALWAYS in
      try! s := registerRefreshLocked now p eventMode sampleRateHz s in Ok (s, OK)
  else Ok (s, INVALID_ARG).

(** The loop of [subscribe] over the areas; the first failure returns. *)
Fixpoint subscribe_areas (now propId : Z) (areas : list Z) (rate : f32) (enableVUR : bool)
    (config : VehiclePropConfig) (s : Subscriptions) : result crash (Subscriptions * StatusCode) :=
  match areas with
  | [] => Ok (s, OK)
  | areaId :: areas' =>
      try! r := subscribePropIdAreaIdLocked now propId areaId rate enableVUR config s in
      if decide (r.2 = OK) then subscribe_areas now propId areas' rate enableVUR config r.1 else Ok r
  end.

Definition subscribe (now : Z) (options : SubscribeOptions) (store : Store) (s : Subscriptions) :
    result crash (Subscriptions * StatusCode) :=
  match getPropConfig (so_propId options) store with
  | Err _ => Ok (s, INVALID_ARG)
  | Ok config => subscribe_areas now (so_propId options) (so_areaIds options) (sampleRate options)
                   (enableVariableUpdateRate options) config s
  end.

Definition unsubscribe (propId areaId : Z) (s : Subscriptions) :
    result crash (Subscriptions * StatusCode) :=
  let p := mkPropIdAreaId propId areaId in
  try! s := match mRefreshInfoByPropIdAreaId s !! p with
            | Some _ => unregisterRefreshLocked p s
            | None => Ok s
            end in
  Ok (set_onChange (λ ids, ids ∖ {[p]}) s, OK).

(** The event modes copied under the lock.  [operator[]] on the refresh infos
    inserts a value-initialised one for an unknown id. *)
Definition zeroRefreshInfo : RefreshInfo := mkRefreshInfo ON_VALUE_CHANGE 0.
Fixpoint copyModes (ids : list PropIdAreaId) (s : Subscriptions) :
    Subscriptions * gmap PropIdAreaId EventMode :=
  match ids with
  | [] => (s, ∅)
  | p :: ids' =>
      let info := default zeroRefreshInfo (mRefreshInfoByPropIdAreaId s !! p) in
      let '(s', modes) := copyModes ids' (set_refresh <[p := info]> s) in
      (s', <[p := rf_eventMode info]> modes)
  end.

Definition refreshTimestampForInterval (tick : nat → Z) (interval : Z) (s : Subscriptions)
    (store : Store) : Subscriptions * Store :=
  match mActionByIntervalInNanos s !! interval with
  | None => (s, store)
  | Some action =>
      let '(s', modes) := copyModes (elements (propIdAreaIdsToRefresh action)) s in
      (s', refreshTimestamps tick modes store)
  end.

(** The callback of a recurrent action. *)
Definition runCallback (tick : nat → Z) (c : Z) (st : Subscriptions * Store) : Subscriptions * Store :=
  match closures st.1 !! Z.to_nat c with
  | Some interval => refreshTimestampForInterval tick interval st.1 st.2
  | None => st
  end.

(** The looper thread takes the [n]-th message, if it is due; the timer handles
    the message it took, and then calls the callback. *)
Definition takeMessage (now : Z) (n : nat) (st : Subscriptions * LooperThread) : Subscriptions * LooperThread :=
  let '(s, th) := st in
  match th, looperQueue (mRecurrentTimer s) !! n with
  | Waiting, Some (time, what) =>
      if time <=? now
      then (set_timer (set_looperQueue (λ q, take n q ++ drop (S n) q) (mRecurrentTimer s)) s, Dispatching what)
      else st
  | _, _ => st
  end.
Definition handleTaken (now : Z) (st : Subscriptions * LooperThread) :
    result crash (Subscriptions * LooperThread) :=
  let '(s, th) := st in
  match th with
  | Dispatching what =>
      match handleMessage queued_send now what (mRecurrentTimer s) with
      | Done t [] => Ok (set_timer t s, Waiting)
      | Done t (c :: _) => Ok (set_timer t s, Calling c)
      | DivisionByZero => Err ZeroInterval
      | Deadlock | OutOfFuel => Err TimerDeadlock
      end
  | _ => Ok st
  end.
Definition callHandled (tick : nat → Z) (store : Store) (st : Subscriptions * LooperThread) :
    (Subscriptions * LooperThread) * Store :=
  let '(s, th) := st in
  match th with
  | Calling c => let '(s', store') := runCallback tick c (s, store) in ((s', Waiting), store')
  | _ => (st, store)
  end.

(** [onValuesChangeCallback]: [None] when no callback is registered; else the
    values handed to it, possibly none. *)
Definition isSubscribed (s : Subscriptions) (v : VehiclePropValue) : bool :=
  let p := mkPropIdAreaId (prop v) (areaId v) in
  bool_decide (is_Some (mRefreshInfoByPropIdAreaId s !! p)) ||
  bool_decide (p ∈ mSubOnChangePropIdAreaIds s).
Fixpoint subscribedUpdatedValues (s : Subscriptions) (values : list VehiclePropValue) :
    list VehiclePropValue :=
  match values with
  | [] => []
  | v :: values' =>
      if isSubscribed s v then v :: subscribedUpdatedValues s values'
      else subscribedUpdatedValues s values'
  end.
Definition onValuesChangeCallback (hasCallback : bool) (values : list VehiclePropValue)
    (s : Subscriptions) : option (list VehiclePropValue) :=
  if hasCallback then Some (subscribedUpdatedValues s values) else None.
Definition onValueChangeCallback (hasCallback : bool) (v : VehiclePropValue) (s : Subscriptions) :
    option (list VehiclePropValue) := onValuesChangeCallback hasCallback [v] s.

(** ** The schedule of the timer *)

(** Callback [c] is called every [I] nanoseconds. *)
Definition ticks (t : Timer) (c I : Z) : Prop :=
  ∃ i info, mIdByCallback t !! c = Some i ∧ mCallbackInfoById t !! i = Some info
    ∧ intervalInNanos info = I.

Lemma ticks_fun t c I J : ticks t c I → ticks t c J → I = J.
Proof. intros (i & info & ? & ? & <-) (j & info' & ? & ? & <-). by simplify_eq. Qed.

Lemma ticks_unregistered th t c : timer_inv th t → (∀ I, ¬ ticks t c I) → mIdByCallback t !! c = None.
Proof.
  intros Ht Hn. destruct (mIdByCallback t !! c) as [i|] eqn:E; [|done]. exfalso.
  pose proof E as (info & ? & _)%(ti_maps _ Ht). eapply Hn. by exists i, info.
Qed.

Lemma ticks_register th t now I c :
  timer_inv th t → 0 < I → mCallbackId t < two31 - 1 → (∀ J, ¬ ticks t c J) →
  ∃ t', registerTimerCallback queued_send now I c t = Done t' []
    ∧ timer_inv th t' ∧ mCallbackId t' = mCallbackId t + 1
    ∧ ∀ c' J, ticks t' c' J ↔ (c' = c ∧ J = I) ∨ ticks t c' J.
Proof.
  intros Ht HI Hb Hn. pose proof (ticks_unregistered _ _ _ Ht Hn) as Hc.
  destruct (registerTimerCallback queued_send now I c t) as [t' cs| | |] eqn:E;
    [|revert E; unfold registerTimerCallback, getCallbackIdLocked; rewrite (ti_unlocked _ Ht); cbn;
      rewrite Hc; cbn; destruct (Z.eqb_spec I 0); cbn; first [lia|done] ..].
  pose proof (timer_inv_register _ _ _ _ _ _ _ Ht HI Hb Hc E) as Ht'.
  revert E. unfold registerTimerCallback, getCallbackIdLocked. rewrite (ti_unlocked _ Ht).
  cbn. rewrite Hc. destruct (Z.eqb_spec I 0); [lia|]. cbn. intros Hd. injection Hd as <- <-.
  assert (Hfresh : mCallbackInfoById t !! mCallbackId t = None).
  { destruct (mCallbackInfoById t !! mCallbackId t) eqn:E; [|done]. apply (ti_ids _ Ht) in E. lia. }
  pose proof (ti_next _ Ht).
  eexists. split; [done|]. split; [done|]. clear Ht'. unfold ticks. unfold_setters.
  rewrite Hc, Hfresh, to_i32_id by (unfold in_i32; unfold_widths; lia).
  split; [done|]. intros c' J. destruct (decide (c' = c)) as [->|Hne].
  - setoid_rewrite lookup_insert_eq. split.
    + intros (i & info & [= <-] & Hi & <-). rewrite lookup_insert_eq in Hi. injection Hi as <-. by left.
    + intros [[_ ->]|H']; [|by edestruct Hn]. eexists _, _. split; [done|]. by rewrite lookup_insert_eq.
  - setoid_rewrite (lookup_insert_ne _ c c'); [|done..]. split.
    + intros (i & info & Hi & Hinfo & <-). right. exists i, info.
      rewrite lookup_insert_ne in Hinfo; [done|]. intros <-.
      apply (ti_maps _ Ht) in Hi as (? & ? & _). congruence.
    + intros [[]|(i & info & Hi & Hinfo & <-)]; [done|]. exists i, info.
      rewrite lookup_insert_ne; [done|]. congruence.
Qed.

Lemma ticks_unregister th t c I :
  timer_inv th t → ticks t c I →
  ∃ t', unregisterTimerCallback c t = Done t' [] ∧ timer_inv th t' ∧ mCallbackId t' = mCallbackId t
    ∧ ∀ c' J, ticks t' c' J ↔ c' ≠ c ∧ ticks t c' J.
Proof.
  intros Ht (i & info & Hc & Hi & <-). pose proof (ti_ids _ Ht _ _ Hi) as [Hid _].
  unfold unregisterTimerCallback, getCallbackIdLocked. rewrite (ti_unlocked _ Ht), Hc.
  destruct (Z.eqb_spec i INVALID_ID); [unfold INVALID_ID in *; lia|].
  eexists. split; [done|]. split; [|split; [done|]].
  - apply (timer_inv_unregister th t _ c [] Ht). unfold unregisterTimerCallback, getCallbackIdLocked.
    rewrite (ti_unlocked _ Ht), Hc. by destruct (Z.eqb_spec i INVALID_ID).
  - intros c' J. unfold ticks. unfold_setters. setoid_rewrite lookup_delete_Some. split.
    + intros (j & info' & [Hne Hj] & [_ Hinfo] & <-). split; [done|]. by exists j, info'.
    + intros [Hne (j & info' & Hj & Hinfo & <-)]. exists j, info'. split_and!; [done..| |done|done].
      intros <-. apply Hne. apply (ti_maps _ Ht) in Hj as (? & ? & <-), Hc as (? & ? & <-). by simplify_eq.
Qed.

Lemma ticks_handle t what info now :
  timer_inv (Dispatching what) t → mCallbackInfoById t !! what = Some info →
  ∃ next, let t' := mkTimer (mIdByCallback t)
        (<[what := mkCallbackInfo (ci_callback info) (intervalInNanos info) next]> (mCallbackInfoById t))
        (mCallbackId t) false (looperQueue t ++ [(next, what)]) in
    handleMessage queued_send now what t = Done t' [ci_callback info]
    ∧ next = advanceTime now (nextTimeInNanos info) (intervalInNanos info)
    ∧ timer_inv (Calling (ci_callback info)) t' ∧ ∀ c J, ticks t' c J ↔ ticks t c J.
Proof.
  intros [Ht Hs] Hinfo. pose proof (ti_ids _ Ht _ _ Hinfo) as [_ Hpos].
  exists (advanceTime now (nextTimeInNanos info) (intervalInNanos info)). cbn zeta. set (t' := mkTimer _ _ _ _ _).
  assert (E : handleMessage queued_send now what t = Done t' [ci_callback info]).
  { unfold handleMessage. rewrite (ti_unlocked _ Ht), Hinfo.
    by destruct (Z.eqb_spec (intervalInNanos info) 0); [lia|]. }
  split_and!; [done|done| |].
  - apply timer_inv_system. pose proof (system_handle _ _ _ _ _ _ Hs E) as H. rewrite Hinfo in H. apply H.
  - intros c J. unfold ticks. cbn. split; intros (i & x & Hi & Hx & <-).
    + apply lookup_insert_Some in Hx as [[<- <-]|[_ Hx]]; [by exists what, info|by exists i, x].
    + exists i. destruct (decide (i = what)) as [->|]; [|exists x; by rewrite lookup_insert_ne].
      rewrite lookup_insert_eq. eexists. split_and!; [done..|]. cbn. congruence.
Qed.

(** ** The invariant, with what the looper thread is doing *)

Record subs_inv (th : LooperThread) (s : Subscriptions) : Prop := {
  si_timer : timer_inv th (mRecurrentTimer s);
  si_count : mCallbackId (mRecurrentTimer s) ≤ Z.of_nat (length (closures s));
  si_ticks : ∀ c I, ticks (mRecurrentTimer s) c I ↔
    ∃ a, mActionByIntervalInNanos s !! I = Some a ∧ recurrentAction a = c;
  si_actions : ∀ I a, mActionByIntervalInNanos s !! I = Some a →
    propIdAreaIdsToRefresh a ≠ ∅ ∧ 0 ≤ recurrentAction a ∧
    closures s !! Z.to_nat (recurrentAction a) = Some I;
  si_refresh : ∀ p I, (∃ a, mActionByIntervalInNanos s !! I = Some a ∧ p ∈ propIdAreaIdsToRefresh a)
    ↔ rf_intervalInNanos <$> mRefreshInfoByPropIdAreaId s !! p = Some I
}.

Lemma subs_inv_new : subs_inv Waiting newSubscriptions.
Proof.
  split; cbn; [apply timer_inv_new|done|..].
  - intros c I. split; [intros (i & info & H & _)|intros (a & H & _)]; cbn in H; by rewrite lookup_empty in H.
  - intros I a. by rewrite lookup_empty.
  - intros p I. rewrite !lookup_empty. cbn. split; [by intros (a & ? & _)|done].
Qed.

Section thread.
  Context (th : LooperThread).
Notation subs_inv := (subs_inv th).

Lemma subs_inv_onChange f s : subs_inv s → subs_inv (set_onChange f s).
Proof. by intros [H1 H2 H3 H4 H5]. Qed.

(** An action's callback refreshes no other interval. *)
Lemma action_unique s I a J b :
  subs_inv s → mActionByIntervalInNanos s !! I = Some a → mActionByIntervalInNanos s !! J = Some b →
  recurrentAction a = recurrentAction b → I = J.
Proof.
  intros Hs Ha Hb E. eapply ticks_fun; apply (si_ticks _ _ Hs); eauto.
Qed.

(** The actions after [p] has left, or joined, the ids of one interval that
    keeps others. *)
Lemma subs_inv_edit s I a ids (refresh : gmap PropIdAreaId RefreshInfo) :
  subs_inv s → mActionByIntervalInNanos s !! I = Some a → ids ≠ ∅ →
  (∀ p J, (if decide (J = I) then p ∈ ids
           else ∃ b, mActionByIntervalInNanos s !! J = Some b ∧ p ∈ propIdAreaIdsToRefresh b)
     ↔ rf_intervalInNanos <$> refresh !! p = Some J) →
  subs_inv (mkSubs refresh (<[I := mkAction ids (recurrentAction a)]> (mActionByIntervalInNanos s))
              (mSubOnChangePropIdAreaIds s) (mRecurrentTimer s) (closures s)).
Proof.
  intros Hs Ha Hids Hr. pose proof Hs as [H1 H2 H3 H4 H5]. split; cbn; [done..| | |].
  - intros c J. rewrite H3. setoid_rewrite lookup_insert_Some. split.
    + intros (b & Hb & <-). destruct (decide (I = J)) as [<-|]; [|by eauto 6].
      simplify_eq. eexists. split; [by left|done].
    + intros (b & [[<- <-]|[? Hb]] & <-); eauto.
  - intros J b [[<- <-]|[_ Hb]]%lookup_insert_Some; cbn; [|by apply H4].
    split; [done|]. by apply (H4 _ _ Ha).
  - intros p J. rewrite <- Hr. setoid_rewrite lookup_insert_Some.
    destruct (decide (J = I)) as [->|Hne]; split.
    + by intros (b & [[_ <-]|[? _]] & Hb).
    + intros Hp. eexists. split; [by left|done].
    + intros (b & [[? _]|[_ Hb]] & Hp); [done|eauto].
    + intros (b & Hb & Hp). exists b. split; [right; by split|done].
Qed.

Lemma unregisterRefresh_spec p s : subs_inv s →
  ∃ s', unregisterRefreshLocked p s = Ok s' ∧ subs_inv s'
    ∧ mRefreshInfoByPropIdAreaId s' = delete p (mRefreshInfoByPropIdAreaId s)
    ∧ mSubOnChangePropIdAreaIds s' = mSubOnChangePropIdAreaIds s ∧ closures s' = closures s.
Proof.
  intros Hs. unfold unregisterRefreshLocked.
  destruct (mRefreshInfoByPropIdAreaId s !! p) as [info|] eqn:Hp; cycle 1.
  { exists s. rewrite delete_id by done. done. }
  pose proof (si_refresh _ _ Hs p (rf_intervalInNanos info)) as Hi. rewrite Hp in Hi.
  destruct (proj2 Hi eq_refl) as (a & Ha & Hin). clear Hi.
  set (I := rf_intervalInNanos info) in *.
  assert (Hone : ∀ q J b, mActionByIntervalInNanos s !! J = Some b → q ∈ propIdAreaIdsToRefresh b →
    rf_intervalInNanos <$> mRefreshInfoByPropIdAreaId s !! q = Some J).
  { intros q J b Hb Hq. apply (si_refresh _ _ Hs). eauto. }
  rewrite Ha. cbn [default propIdAreaIdsToRefresh recurrentAction from_option].
  destruct (decide (propIdAreaIdsToRefresh a ∖ {[p]} = ∅)) as [Hempty|Hids].
  - destruct (ticks_unregister th (mRecurrentTimer s) (recurrentAction a) I) as (t' & E & Ht' & Hid & Htk);
      [apply Hs|apply (si_ticks _ _ Hs); eauto|].
    rewrite decide_True by done. cbn. rewrite E. cbn. eexists. split; [done|]. split; [|by cbn]. split; cbn; [done| | | |].
    + rewrite Hid. apply Hs.
    + intros c J. rewrite Htk, (si_ticks _ _ Hs). setoid_rewrite lookup_delete_Some. split.
      * intros (Hne & b & Hb & <-). exists b. split; [|done]. split; [|done]. intros <-. by simplify_eq.
      * intros (b & [Hne Hb] & <-). split; [|eauto]. intros Heq. apply Hne.
        by eapply (action_unique s).
    + intros J b [_ Hb]%lookup_delete_Some. by apply (si_actions _ _ Hs).
    + intros q J. setoid_rewrite lookup_delete_Some. destruct (decide (q = p)) as [->|Hne].
      * rewrite lookup_delete_eq. split; [|done]. intros (b & [HJ Hb] & Hq).
        pose proof (Hone _ _ _ Hb Hq) as Hx. rewrite Hp in Hx. subst I; cbn in Hx; congruence.
      * rewrite lookup_delete_ne, <- (si_refresh _ _ Hs) by done. split; [intros (b & [_ Hb] & Hq); eauto|].
        intros (b & Hb & Hq). exists b. split; [|done]. split; [|done]. intros <-.
        assert (b = a) as -> by congruence. set_solver.
  - rewrite decide_False by done. cbn. eexists. split; [done|]. split; [|by cbn].
    apply (subs_inv_edit s I a _ (delete p (mRefreshInfoByPropIdAreaId s)) Hs Ha Hids).
    intros q J. destruct (decide (J = I)) as [->|HJ].
    + destruct (decide (q = p)) as [->|Hne]; [rewrite lookup_delete_eq; set_solver|].
      rewrite lookup_delete_ne, <- (si_refresh _ _ Hs) by done. split; [set_solver|].
      intros (b & Hb & Hq). simplify_eq. set_solver.
    + destruct (decide (q = p)) as [->|Hne].
      * rewrite lookup_delete_eq. split; [|done]. intros (b & Hb & Hq).
        pose proof (Hone _ _ _ Hb Hq) as Hx. rewrite Hp in Hx. subst I; cbn in Hx; congruence.
      * rewrite lookup_delete_ne by done. apply (si_refresh _ _ Hs).
Qed.

Lemma registerRefresh_fresh_spec now p mode rate I s :
  subs_inv s → mRefreshInfoByPropIdAreaId s !! p = None →
  intervalOf rate = Some I → 0 < I → Z.of_nat (length (closures s)) < two31 - 1 →
  ∃ s', registerRefreshLocked now p mode rate s = Ok s' ∧ subs_inv s'
    ∧ mRefreshInfoByPropIdAreaId s' = <[p := mkRefreshInfo mode I]> (mRefreshInfoByPropIdAreaId s)
    ∧ mSubOnChangePropIdAreaIds s' = mSubOnChangePropIdAreaIds s
    ∧ (length (closures s') ≤ S (length (closures s)))%nat.
Proof.
  intros Hs Hp HI Hpos Hb. unfold registerRefreshLocked. rewrite Hp. cbn [rbind]. rewrite HI. cbn.
  assert (Hother : ∀ J b, mActionByIntervalInNanos s !! J = Some b → p ∉ propIdAreaIdsToRefresh b).
  { intros J b Hb' Hin. pose proof (proj1 (si_refresh _ _ Hs p J) (ex_intro _ b (conj Hb' Hin))) as Hx.
    by rewrite Hp in Hx. }
  destruct (mActionByIntervalInNanos s !! I) as [a|] eqn:Ha.
  - eexists. split; [done|]. split; [|cbn; split_and!; [done..|lia]]. eapply (subs_inv_edit s I a _ (<[p := _]> (mRefreshInfoByPropIdAreaId s)) Hs Ha); [set_solver|].
    intros q J. destruct (decide (q = p)) as [->|Hne].
    + rewrite lookup_insert_eq. destruct (decide (J = I)) as [->|]; cbn; [set_solver|].
      split; [intros (b & Hb' & Hin); by edestruct Hother|congruence].
    + rewrite lookup_insert_ne, <- (si_refresh _ _ Hs) by done.
      destruct (decide (J = I)) as [->|]; [|done]. rewrite elem_of_union, elem_of_singleton. split.
      * intros [Hq|]; [eauto|done].
      * intros (b & Hb' & Hq). simplify_eq. by left.
  - set (c := Z.of_nat (length (closures s))).
    assert (Hlt : ∀ J b, mActionByIntervalInNanos s !! J = Some b → recurrentAction b < c).
    { intros J b Hb'. destruct (si_actions _ _ Hs _ _ Hb') as (_ & H0 & Hc).
      apply lookup_lt_Some in Hc. lia. }
    destruct (ticks_register th (mRecurrentTimer s) now I c) as (t' & E & Ht' & Hid & Htk);
      [apply Hs|done|pose proof (si_count _ _ Hs); lia| |].
    { intros J (b & Hb' & Hx)%(si_ticks _ _ Hs). apply Hlt in Hb'. lia. }
    rewrite E. cbn. eexists. split; [done|].
    split; [|cbn; rewrite length_app; cbn; split_and!; [done..|lia]].
    split; cbn; [done| | | |].
    + rewrite Hid, length_app. cbn. pose proof (si_count _ _ Hs). lia.
    + intros c' J. rewrite Htk, (si_ticks _ _ Hs). setoid_rewrite lookup_insert_Some. split.
      * intros [[-> ->]|(b & Hb' & <-)]; [eexists; split; [by left|done]|].
        exists b. split; [right; split; [congruence|done]|done].
      * intros (b & [[<- <-]|[Hne Hb']] & <-); [by left|right; eauto].
    + intros J b [[<- <-]|[Hne Hb']]%lookup_insert_Some; cbn.
      * split_and!; [set_solver|lia|]. unfold c. by rewrite Nat2Z.id, list_lookup_middle.
      * destruct (si_actions _ _ Hs _ _ Hb') as (? & ? & Hc). split_and!; [done..|].
        by apply lookup_app_l_Some.
    + intros q J. setoid_rewrite lookup_insert_Some. destruct (decide (q = p)) as [->|Hne].
      * rewrite lookup_insert_eq. cbn. split.
        -- intros (b & [[<- <-]|[_ Hb']] & Hin); [done|by edestruct Hother].
        -- intros [= <-]. eexists. split; [by left|]. cbn. set_solver.
      * rewrite lookup_insert_ne, <- (si_refresh _ _ Hs) by done. split.
        -- intros (b & [[<- <-]|[_ Hb']] & Hin); cbn in *; [set_solver|eauto].
        -- intros (b & Hb' & Hin). exists b. split; [right; split; [congruence|done]|done].
Qed.

Lemma registerRefresh_spec now p mode rate I s :
  subs_inv s → intervalOf rate = Some I → 0 < I → Z.of_nat (length (closures s)) < two31 - 1 →
  ∃ s', registerRefreshLocked now p mode rate s = Ok s' ∧ subs_inv s'
    ∧ mRefreshInfoByPropIdAreaId s' = <[p := mkRefreshInfo mode I]> (mRefreshInfoByPropIdAreaId s)
    ∧ mSubOnChangePropIdAreaIds s' = mSubOnChangePropIdAreaIds s
    ∧ (length (closures s') ≤ S (length (closures s)))%nat.
Proof.
  intros Hs HI Hpos Hb.
  destruct (mRefreshInfoByPropIdAreaId s !! p) as [info|] eqn:Hp; [|by apply registerRefresh_fresh_spec].
  destruct (unregisterRefresh_spec p s Hs) as (s1 & E1 & Hs1 & Hr1 & Hc1 & Hcl1).
  destruct (registerRefresh_fresh_spec now p mode rate I s1) as (s' & E & Hs' & Hr & Hc & Hcl);
    [done|by rewrite Hr1, lookup_delete_eq|done|done|by rewrite Hcl1|].
  exists s'. split_and!; [|done| |congruence|congruence].
  - revert E. unfold registerRefreshLocked. rewrite Hp, E1, Hr1, lookup_delete_eq. done.
  - by rewrite Hr, Hr1, insert_delete_eq.
Qed.

(** ** Histories *)

(** The calls the hardware receives, each with the property store as it is at
    the call, and the steps of the looper thread: a due message is taken, the
    timer handles it, and the callback is called.  Calls may come between. *)
Inductive HwOp : Type :=
| OpSubscribe (now : Z) (options : SubscribeOptions) (store : Store)
| OpUnsubscribe (propId areaId : Z)
| OpTake (now : Z) (n : nat)
| OpHandle (now : Z)
| OpCall (tick : nat → Z) (store : Store).

Definition run_op (op : HwOp) (st : Subscriptions * LooperThread) :
    result crash ((Subscriptions * LooperThread) * StatusCode) :=
  match op with
  | OpSubscribe now options store => try! r := subscribe now options store st.1 in Ok ((r.1, st.2), r.2)
  | OpUnsubscribe propId areaId => try! r := unsubscribe propId areaId st.1 in Ok ((r.1, st.2), r.2)
  | OpTake now n => Ok (takeMessage now n st, OK)
  | OpHandle now => try! st' := handleTaken now st in Ok (st', OK)
  | OpCall tick store => Ok ((callHandled tick store st).1, OK)
  end.

Fixpoint run_ops (ops : list HwOp) (st : Subscriptions * LooperThread) :
    result crash ((Subscriptions * LooperThread) * list StatusCode) :=
  match ops with
  | [] => Ok (st, [])
  | op :: ops' =>
      try! r := run_op op st in
      try! q := run_ops ops' r.1 in Ok (q.1, r.2 :: q.2)
  end.

(** The specification: what is refreshed how, and what is reported on change. *)
Definition Requested : Type := gmap PropIdAreaId RefreshInfo * gset PropIdAreaId.

Definition refreshMode (config : VehiclePropConfig) (enableVUR : bool) (a : Z) : EventMode :=
  if isVariableUpdateRateSupported config a && enableVUR then ON_VALUE_CHANGE else ALWAYS.

Definition refreshes (o : SubscribeOptions) (config : VehiclePropConfig) (I : Z) :
    gmap PropIdAreaId RefreshInfo :=
  list_to_map ((λ a, (mkPropIdAreaId (so_propId o) a,
                      mkRefreshInfo (refreshMode config (enableVariableUpdateRate o) a) I))
               <$> so_areaIds o).

Definition spec_subscribe (o : SubscribeOptions) (config : VehiclePropConfig) (r : Requested) :
    Requested * StatusCode :=
  if decide (so_areaIds o = []) then (r, OK)
  else if decide (changeMode config = VehiclePropertyChangeMode.STATIC) then (r, OK)
  else if decide (changeMode config = VehiclePropertyChangeMode.ON_CHANGE) then
    ((r.1, r.2 ∪ optionsIds o), OK)
  else if decide (changeMode config = VehiclePropertyChangeMode.CONTINUOUS) then
    if f32_eqb (sampleRate o) f32_zero then (r, INVALID_ARG)
    else ((refreshes o config (default 0 (intervalOf (sampleRate o))) ∪ r.1, r.2), OK)
  else (r, INVALID_ARG).

Definition spec_op (op : HwOp) (r : Requested) : Requested * StatusCode :=
  match op with
  | OpSubscribe _ o store =>
      match getPropConfig (so_propId o) store with
      | Ok config => spec_subscribe o config r
      | Err _ => (r, INVALID_ARG)
      end
  | OpUnsubscribe p a => ((delete (mkPropIdAreaId p a) r.1, r.2 ∖ {[mkPropIdAreaId p a]}), OK)
  | OpTake _ _ | OpHandle _ | OpCall _ _ => (r, OK)
  end.

Fixpoint spec_ops (ops : list HwOp) (r : Requested) : Requested * list StatusCode :=
  match ops with
  | [] => (r, [])
  | op :: ops' => let q := spec_op op r in let q' := spec_ops ops' q.1 in (q'.1, q.2 :: q'.2)
  end.

(** The rates of continuous properties have a positive interval: between one
    every 292 years and a billion a second. *)
Definition op_ok (op : HwOp) : Prop :=
  match op with
  | OpSubscribe _ o store =>
      ∀ config, getPropConfig (so_propId o) store = Ok config →
        changeMode config = VehiclePropertyChangeMode.CONTINUOUS →
        f32_eqb (sampleRate o) f32_zero = true ∨ ∃ I, intervalOf (sampleRate o) = Some I ∧ 0 < I
  | _ => True
  end.
Definition op_areas (op : HwOp) : nat :=
  match op with OpSubscribe _ o _ => length (so_areaIds o) | _ => 0%nat end.

(** The state represents what was requested. *)
Definition represents (r : Requested) (s : Subscriptions) : Prop :=
  subs_inv s ∧ mRefreshInfoByPropIdAreaId s = r.1 ∧ mSubOnChangePropIdAreaIds s = r.2.

Lemma subscribe_continuous_spec now propId rate vur config I : ∀ areas s,
  f32_eqb rate f32_zero = false → intervalOf rate = Some I → 0 < I →
  changeMode config = VehiclePropertyChangeMode.CONTINUOUS →
  subs_inv s → Z.of_nat (length (closures s) + length areas) < two31 - 1 →
  ∃ s', subscribe_areas now propId areas rate vur config s = Ok (s', OK) ∧ subs_inv s'
    ∧ mRefreshInfoByPropIdAreaId s' =
        list_to_map ((λ a, (mkPropIdAreaId propId a, mkRefreshInfo (refreshMode config vur a) I)) <$> areas)
        ∪ mRefreshInfoByPropIdAreaId s
    ∧ mSubOnChangePropIdAreaIds s' = mSubOnChangePropIdAreaIds s
    ∧ (length (closures s') ≤ length (closures s) + length areas)%nat.
Proof.
  intros areas s Hz HI Hpos Hc. revert s. induction areas as [|a areas IH]; intros s Hs Hb.
  { exists s. cbn. rewrite (left_id_L ∅ (∪)). split_and!; [done..|lia]. }
  cbn [subscribe_areas length] in *. unfold subscribePropIdAreaIdLocked. rewrite Hc, Hz. cbn [Z.eqb].
  destruct (registerRefresh_spec now (mkPropIdAreaId propId a) (refreshMode config vur a) rate I s)
    as (s1 & E & Hs1 & Hr1 & Hc1 & Hl1); [done..|lia|].
  unfold refreshMode in E. cbn. rewrite E. cbn.
  destruct (IH s1 Hs1 ltac:(lia)) as (s' & E' & Hs' & Hr' & Hc' & Hl').
  exists s'. split_and!; [done|done| |congruence|lia].
  rewrite Hr', Hr1.
  apply map_eq. intros q. rewrite !lookup_union. destruct (decide (q = mkPropIdAreaId propId a)) as [->|Hne].
  - rewrite !lookup_insert_eq.
    destruct (list_to_map _ !! _) as [info|] eqn:El; [|by rewrite left_id, union_Some_l by apply _].
    apply elem_of_list_to_map_2 in El. apply list_elem_of_fmap in El as (b & [= -> ->] & _).
    by rewrite !union_Some_l.
  - by rewrite !lookup_insert_ne.
Qed.

Lemma subscribe_onChange_spec now propId rate vur config : ∀ areas s,
  changeMode config = VehiclePropertyChangeMode.ON_CHANGE → subs_inv s →
  ∃ s', subscribe_areas now propId areas rate vur config s = Ok (s', OK) ∧ subs_inv s'
    ∧ mRefreshInfoByPropIdAreaId s' = mRefreshInfoByPropIdAreaId s
    ∧ mSubOnChangePropIdAreaIds s' =
        mSubOnChangePropIdAreaIds s ∪ list_to_set (mkPropIdAreaId propId <$> areas)
    ∧ closures s' = closures s.
Proof.
  intros areas s Hc. revert s. induction areas as [|a areas IH]; intros s Hs.
  { exists s. split_and!; [done..| |done]. cbn. set_solver. }
  cbn [subscribe_areas]. unfold subscribePropIdAreaIdLocked. rewrite Hc. cbn.
  destruct (IH _ (subs_inv_onChange (λ ids, ids ∪ {[mkPropIdAreaId propId a]}) s Hs))
    as (s' & E & ? & ? & Ho & ?).
  exists s'. split_and!; [done..| |done]. rewrite Ho. cbn. set_solver.
Qed.

Lemma subscribe_static_spec now propId rate vur config areas s :
  changeMode config = VehiclePropertyChangeMode.STATIC →
  subscribe_areas now propId areas rate vur config s = Ok (s, OK).
Proof.
  intros Hc. induction areas as [|a areas IH]; [done|].
  cbn. unfold subscribePropIdAreaIdLocked. by rewrite Hc.
Qed.

Lemma run_subscribe_spec now o store s r :
  represents r s → op_ok (OpSubscribe now o store) →
  Z.of_nat (length (closures s) + length (so_areaIds o)) < two31 - 1 →
  let q := spec_op (OpSubscribe now o store) r in
  ∃ s', subscribe now o store s = Ok (s', q.2) ∧ represents q.1 s'
    ∧ (length (closures s') ≤ length (closures s) + length (so_areaIds o))%nat.
Proof.
  intros (Hs & Hr & Ho) Hok Hb. unfold subscribe, spec_op. cbn in Hok.
  destruct (getPropConfig (so_propId o) store) as [config|e]; cycle 1.
  { exists s. split_and!; [done|done|lia]. }
  unfold spec_subscribe. destruct (decide (so_areaIds o = [])) as [->|Hne].
  { exists s. split_and!; [done|done|lia]. }
  destruct (decide (changeMode config = _)) as [Hc|Hc0].
  { rewrite (subscribe_static_spec _ _ _ _ _ _ _ Hc). exists s. split_and!; [done|done|lia]. }
  destruct (decide (changeMode config = _)) as [Hc|Hc1].
  { destruct (subscribe_onChange_spec now (so_propId o) (sampleRate o) (enableVariableUpdateRate o)
                config (so_areaIds o) s Hc Hs) as (s' & E & ? & ? & Ho' & Hl).
    exists s'. unfold represents, optionsIds. cbn. split_and!; [done..|congruence|by rewrite Ho', Ho|rewrite Hl; lia]. }
  destruct (so_areaIds o) as [|a areas] eqn:Ea; [done|]. cbn [subscribe_areas].
  unfold subscribePropIdAreaIdLocked at 1.
  rewrite (proj2 (Z.eqb_neq _ _) Hc0), (proj2 (Z.eqb_neq _ _) Hc1).
  destruct (decide (changeMode config = _)) as [Hc|Hc2]; cycle 1.
  { rewrite (proj2 (Z.eqb_neq _ _) Hc2). exists s. split_and!; [done|done|lia]. }
  destruct (f32_eqb (sampleRate o) f32_zero) eqn:Hz.
  { rewrite Hc. exists s. split_and!; [done|done|lia]. }
  destruct (Hok _ eq_refl Hc) as [|(I & HI & Hpos)]; [congruence|].
  destruct (subscribe_continuous_spec now (so_propId o) (sampleRate o) (enableVariableUpdateRate o)
              config I (so_areaIds o) s) as (s' & E & Hs' & Hr' & Ho' & Hl); [done..|by rewrite Ea|].
  rewrite Ea in E, Hl. cbn [subscribe_areas] in E. unfold subscribePropIdAreaIdLocked at 1 in E.
  rewrite (proj2 (Z.eqb_neq _ _) Hc0), (proj2 (Z.eqb_neq _ _) Hc1), Hz in E.
  exists s'. rewrite E. split_and!; [done| |done]. unfold represents, refreshes. rewrite HI. cbn.
  split_and!; [done|congruence|congruence].
Qed.

Lemma copyModes_spec ids s :
  (∀ p, p ∈ ids → is_Some (mRefreshInfoByPropIdAreaId s !! p)) →
  ∃ modes, copyModes ids s = (s, modes) ∧
    ∀ p, modes !! p = if decide (p ∈ ids) then rf_eventMode <$> mRefreshInfoByPropIdAreaId s !! p else None.
Proof.
  induction ids as [|p ids IH]; intros Hin; [exists ∅; split; [done|intros p; by rewrite lookup_empty]|].
  destruct (Hin p) as [info Hp]; [by left|].
  assert (Hid : set_refresh <[p := info]> s = s).
  { destruct s. unfold set_refresh. cbn in *. by rewrite insert_id. }
  cbn. rewrite Hp. cbn. rewrite Hid. destruct IH as (modes & -> & Hm); [intros; apply Hin; by right|].
  eexists. split; [done|]. intros q. destruct (decide (q = p)) as [->|Hne].
  - rewrite lookup_insert_eq, Hp, decide_True by (by left). done.
  - rewrite lookup_insert_ne, Hm by done. apply decide_ext. rewrite elem_of_cons. naive_solver.
Qed.

(** A refresh collects the modes of exactly the ids of its interval. *)
Lemma refreshTimestamp_spec tick I s store : subs_inv s →
  ∃ modes, refreshTimestampForInterval tick I s store = (s, refreshTimestamps tick modes store)
    ∧ (∀ p md, modes !! p = Some md ↔ mRefreshInfoByPropIdAreaId s !! p = Some (mkRefreshInfo md I))
  ∨ mActionByIntervalInNanos s !! I = None.
Proof.
  intros Hs. unfold refreshTimestampForInterval.
  destruct (mActionByIntervalInNanos s !! I) as [a|] eqn:Ha; [|exists ∅; by right].
  assert (Hmem : ∀ p, p ∈ propIdAreaIdsToRefresh a ↔
    rf_intervalInNanos <$> mRefreshInfoByPropIdAreaId s !! p = Some I).
  { intros p. rewrite <- (si_refresh _ _ Hs), Ha. naive_solver. }
  destruct (copyModes_spec (elements (propIdAreaIdsToRefresh a)) s) as (modes & -> & Hm).
  { intros p Hp%elem_of_elements%Hmem. by destruct (_ !! p). }
  exists modes. left. split; [done|]. intros p md. rewrite Hm.
  destruct (decide (p ∈ elements _)) as [Hp|Hp]; rewrite elem_of_elements, Hmem in Hp;
    destruct (mRefreshInfoByPropIdAreaId s !! p) as [[m J]|]; cbn in *; try done; split; congruence.
Qed.

Lemma run_unsubscribe_spec p a s r : represents r s →
  ∃ s', unsubscribe p a s = Ok (s', OK) ∧ represents (spec_op (OpUnsubscribe p a) r).1 s'
    ∧ (length (closures s') ≤ length (closures s))%nat.
Proof.
  intros (Hs & Hr & Ho). unfold unsubscribe.
  destruct (unregisterRefresh_spec (mkPropIdAreaId p a) s Hs) as (s1 & E & Hs1 & Hr1 & Ho1 & Hl1).
  assert (Hm : match mRefreshInfoByPropIdAreaId s !! mkPropIdAreaId p a with
               | Some _ => unregisterRefreshLocked (mkPropIdAreaId p a) s | None => Ok s end = Ok s1).
  { destruct (_ !! _) eqn:El; [done|]. unfold unregisterRefreshLocked in E. by rewrite El in E. }
  rewrite Hm. cbn. eexists. split; [done|]. unfold represents. cbn.
  split_and!; [by apply subs_inv_onChange|congruence|congruence|rewrite Hl1; lia].
Qed.

End thread.

(** Taking a message, and the call at the end, change nothing but the thread. *)
Lemma take_spec now n s th : subs_inv th s →
  ∃ t th', takeMessage now n (s, th) = (set_timer t s, th') ∧ subs_inv th' (set_timer t s).
Proof.
  intros Hs. unfold takeMessage. destruct th as [|w|c].
  - destruct (looperQueue (mRecurrentTimer s) !! n) as [[time what]|] eqn:Hq;
      [|exists (mRecurrentTimer s), Waiting; by destruct s].
    destruct (time <=? now); [|exists (mRecurrentTimer s), Waiting; by destruct s].
    eexists _, _. split; [reflexivity|]. pose proof (take_drop_middle _ _ _ Hq) as Hsplit.
    pose proof (timer_inv_take _ _ _ _ _ (si_timer _ _ Hs) (eq_sym Hsplit)) as Ht.
    destruct Hs as [_ H2 H3 H4 H5]. by split.
  - exists (mRecurrentTimer s), (Dispatching w). by destruct s.
  - exists (mRecurrentTimer s), (Calling c). by destruct s.
Qed.

Lemma call_spec tick store s c : subs_inv (Calling c) s →
  runCallback tick c (s, store) =
    (s, (runCallback tick c (s, store)).2) ∧ subs_inv Waiting s.
Proof.
  intros Hs. split.
  - unfold runCallback. cbn [fst snd]. destruct (closures s !! Z.to_nat c) as [I|]; [|done].
    destruct (refreshTimestamp_spec (Calling c) tick I s store Hs) as (modes & [[-> _]|Hn]); [done|].
    unfold refreshTimestampForInterval. by rewrite Hn.
  - destruct Hs as [H1 H2 H3 H4 H5]. split; [by eapply timer_inv_called|done..].
Qed.

(** Handling the message of a registered callback: the timer is about to call
    the callback of its interval, and the next message is queued. *)
Lemma handle_spec now s what : subs_inv (Dispatching what) s →
  ∃ t th', handleTaken now (s, Dispatching what) = Ok (set_timer t s, th') ∧ subs_inv th' (set_timer t s) ∧
    ∀ info, mCallbackInfoById (mRecurrentTimer s) !! what = Some info →
      let next := advanceTime now (nextTimeInNanos info) (intervalInNanos info) in
      th' = Calling (ci_callback info) ∧
      closures s !! Z.to_nat (ci_callback info) = Some (intervalInNanos info) ∧
      looperQueue t = looperQueue (mRecurrentTimer s) ++ [(next, what)].
Proof.
  intros Hs. pose proof (si_timer _ _ Hs) as Ht. unfold handleTaken.
  destruct (mCallbackInfoById (mRecurrentTimer s) !! what) as [info|] eqn:Hinfo.
  - destruct (ticks_handle (mRecurrentTimer s) what info now Ht Hinfo) as (next & E & -> & Ht' & Htk). cbn zeta in E.
    rewrite E. eexists _, _. split; [reflexivity|]. split.
    + destruct Hs as [_ H2 H3 H4 H5]. split; cbn; [done|done| |done|done].
      intros c J. rewrite <- H3. exact (Htk c J).
    + intros info' [= <-]. split_and!; [done| |done].
      assert (Htc : ticks (mRecurrentTimer s) (ci_callback info) (intervalInNanos info)).
      { exists what, info. split_and!; [|done..]. apply (ti_maps _ Ht). eauto. }
      apply (si_ticks _ _ Hs) in Htc as (a & Ha & Hrec).
      destruct (si_actions _ _ Hs _ _ Ha) as (_ & _ & Hclo). by rewrite Hrec in Hclo.
  - assert (E : handleMessage queued_send now what (mRecurrentTimer s) = Done (mRecurrentTimer s) []).
    { apply handle_outdated; [apply Ht|]. unfold registered. rewrite Hinfo. by intros []. }
    rewrite E. exists (mRecurrentTimer s), Waiting. split; [done|]. split; [|done].
    pose proof (system_handle _ _ _ _ _ _ (ti_system _ _ Ht) E) as H. rewrite Hinfo in H.
    destruct Hs as [_ H2 H3 H4 H5]. split; [by apply timer_inv_system, H|done..].
Qed.

(** A state of the hardware and its looper thread represents what was
    requested. *)
Definition stands (r : Requested) (st : Subscriptions * LooperThread) : Prop := represents st.2 r st.1.

Lemma run_op_spec op s r :
  stands r s → op_ok op → Z.of_nat (length (closures s.1) + op_areas op) < two31 - 1 →
  ∃ s', run_op op s = Ok (s', (spec_op op r).2) ∧ stands (spec_op op r).1 s'
    ∧ (length (closures s'.1) ≤ length (closures s.1) + op_areas op)%nat.
Proof.
  destruct s as [s th]. unfold stands. cbn [fst snd]. intros Hr Hok Hb.
  pose proof Hr as (Hs & Hr1 & Ho). destruct op as [now o store|p a|now n|now|tick store]; cbn [run_op fst snd].
  - destruct (run_subscribe_spec th now o store s r Hr Hok Hb) as (s' & E & Hr' & Hl).
    exists (s', th). rewrite E. done.
  - destruct (run_unsubscribe_spec th p a s r Hr) as (s' & E & Hr' & Hl). exists (s', th). rewrite E. cbn in Hr' |- *.
    split_and!; [done..|lia].
  - destruct (take_spec now n s th Hs) as (t & th' & -> & Hs'). eexists. split; [done|]. cbn. split; [done|lia].
  - destruct th as [|what|c]; [eexists; split; [done|]; cbn; split; [done|lia]| |eexists; split; [done|]; cbn; split; [done|lia]].
    destruct (handle_spec now s what Hs) as (t & th' & -> & Hs' & _). eexists. split; [done|]. cbn. split; [done|lia].
  - destruct th as [|what|c]; [eexists; split; [done|]; cbn; split; [done|lia]..|].
    destruct (call_spec tick store s c Hs) as [E Hs']. unfold callHandled. rewrite E.
    eexists. split; [done|]. cbn. split; [done|lia].
Qed.

Lemma run_ops_spec ops : ∀ s r,
  stands r s → Forall op_ok ops → Z.of_nat (length (closures s.1) + sum_with op_areas ops) < two31 - 1 →
  ∃ s', run_ops ops s = Ok (s', (spec_ops ops r).2) ∧ stands (spec_ops ops r).1 s'.
Proof.
  induction ops as [|op ops IH]; intros s r Hr Hok Hb; [by exists s|].
  inversion_clear Hok as [|? ? H1 H2]. cbn [sum_with] in Hb.
  destruct (run_op_spec op s r Hr H1) as (s1 & E & Hr1 & Hl1); [lia|].
  destruct (IH s1 (spec_op op r).1 Hr1 H2) as (s' & E' & Hr'); [lia|].
  exists s'. cbn. rewrite E. cbn. rewrite E'. done.
Qed.

Definition newHardware : Subscriptions * LooperThread := (newSubscriptions, Waiting).

Lemma stands_new : stands (∅, ∅) newHardware.
Proof. split_and!; [apply subs_inv_new|done..]. Qed.

(** The [propId, areaId]s the hardware reports. *)
Definition active (s : Subscriptions) : gset PropIdAreaId :=
  dom (mRefreshInfoByPropIdAreaId s) ∪ mSubOnChangePropIdAreaIds s.

Lemma isSubscribed_active s v : isSubscribed s v = true ↔ mkPropIdAreaId (prop v) (areaId v) ∈ active s.
Proof.
  unfold isSubscribed, active. rewrite orb_true_iff, !bool_decide_eq_true, elem_of_union, elem_of_dom. done.
Qed.

Lemma subscribedUpdatedValues_filter s vs :
  subscribedUpdatedValues s vs = filter (λ v, mkPropIdAreaId (prop v) (areaId v) ∈ active s) vs.
Proof.
  induction vs as [|v vs IH]; [done|]. cbn [subscribedUpdatedValues]. rewrite filter_cons, IH.
  pose proof (isSubscribed_active s v). destruct (isSubscribed s v), (decide _); naive_solver.
Qed.

(** C35: On every history of subscriptions, unsubscriptions and steps of the
    looper thread (it takes a due message, the timer handles it, the callback is
    called; calls of the hardware may come in between) the hardware never
    crashes, returns the codes of the specification, keeps exactly the requested
    refreshes and on-change ids, and the timer runs exactly one callback for
    each interval some refreshed id uses and none for any other: ids that share
    a rate share a callback, and the last id of a rate to leave takes it away.
    Three conditions: the rates of continuous properties are zero (refused) or
    numbers whose interval is positive and fits 64 bits, so not NaN, not
    negative and at most 1e9 Hz ([op_ok]); fewer than 2^31 - 1 areas are ever
    subscribed; and the looper queues its messages, as Android's does and the
    one in [stubs] does not. *)
Theorem fake_subscriptions_refine ops :
  Forall op_ok ops → Z.of_nat (sum_with op_areas ops) < two31 - 1 →
  let '((refresh, onChange), codes) := spec_ops ops (∅, ∅) in
  ∃ s th, run_ops ops newHardware = Ok ((s, th), codes)
    ∧ mRefreshInfoByPropIdAreaId s = refresh ∧ mSubOnChangePropIdAreaIds s = onChange
    ∧ (∀ I, (∃ c, ticks (mRecurrentTimer s) c I)
            ↔ ∃ p info, refresh !! p = Some info ∧ rf_intervalInNanos info = I)
    ∧ (∀ c c' I, ticks (mRecurrentTimer s) c I → ticks (mRecurrentTimer s) c' I → c = c').
Proof.
  intros Hok Hb. destruct (run_ops_spec ops newHardware (∅, ∅) stands_new Hok Hb)
    as ([s th] & E & Hs & Hr & Ho).
  destruct (spec_ops ops (∅, ∅)) as [[refresh onChange] codes]. cbn in *.
  exists s, th. split_and!; [done..| |].
  - intros I. split.
    + intros (c & (a & Ha & _)%(si_ticks _ _ Hs)). destruct (si_actions _ _ Hs _ _ Ha) as (Hne & _).
      destruct (set_choose_L _ Hne) as [p Hp].
      pose proof (proj1 (si_refresh _ _ Hs p I) (ex_intro _ a (conj Ha Hp))) as Hx.
      apply fmap_Some in Hx as (info & Hx & ->). exists p, info. by rewrite <- Hr.
    + intros (p & info & Hp & <-). pose proof (si_refresh _ _ Hs p (rf_intervalInNanos info)) as Hx.
      rewrite Hr, Hp in Hx. destruct (proj2 Hx eq_refl) as (a & Ha & _).
      exists (recurrentAction a). apply (si_ticks _ _ Hs). eauto.
  - intros c c' I (a & Ha & <-)%(si_ticks _ _ Hs) (b & Hb' & <-)%(si_ticks _ _ Hs). congruence.
Qed.




Definition isStatic (propId : Z) (store : Store) : bool :=
  match getPropConfig propId store with
  | Ok config => changeMode config =? VehiclePropertyChangeMode.STATIC
  | Err _ => false
  end.

(** The fake hardware keeps the contract of [IVehicleHardware]: a
    successful [subscribe] adds the ids of its options to those reported,
    except that a static property is accepted and never reported; a refused
    one changes nothing; [unsubscribe] removes the id; and of the values that
    change, exactly those of reported ids reach the callback, in order. *)
Theorem fake_hardware_contract th r s :
  represents th r s →
  (∀ now o store, op_ok (OpSubscribe now o store) →
     Z.of_nat (length (closures s) + length (so_areaIds o)) < two31 - 1 →
     ∃ s' code, subscribe now o store s = Ok (s', code) ∧
       active s' =
         (if decide (code = OK ∧ isStatic (so_propId o) store = false)
          then active s ∪ optionsIds o else active s))
  ∧ (∀ propId areaId, ∃ s', unsubscribe propId areaId s = Ok (s', OK)
       ∧ active s' = active s ∖ {[mkPropIdAreaId propId areaId]})
  ∧ (∀ vs, onValuesChangeCallback true vs s =
       Some (filter (λ v, mkPropIdAreaId (prop v) (areaId v) ∈ active s) vs)).
Proof.
  intros Hrep. pose proof Hrep as (Hs & Hr & Ho). split_and!.
  - intros now o store Hok Hb.
    destruct (run_subscribe_spec th now o store s r Hrep Hok Hb) as (s' & E & (Hs' & Hr' & Ho') & _).
    exists s', (spec_op (OpSubscribe now o store) r).2. split; [done|].
    unfold active. rewrite Hr', Ho', Hr, Ho. clear. unfold spec_op, isStatic.
    destruct (getPropConfig (so_propId o) store) as [config|e]; [|by rewrite decide_False by naive_solver].
    unfold spec_subscribe. destruct (decide (so_areaIds o = [])) as [He|Hne].
    { assert (optionsIds o = ∅) as -> by (unfold optionsIds; by rewrite He).
      rewrite (right_id_L ∅ (∪)). by destruct (decide _). }
    destruct (Z.eqb_spec (changeMode config) VehiclePropertyChangeMode.STATIC) as [Hc|Hc0].
    { rewrite (decide_True _ _ Hc), decide_False by naive_solver. done. }
    rewrite (decide_False _ _ Hc0).
    destruct (decide (changeMode config = _)) as [Hc|Hc1]; [cbn; rewrite decide_True by naive_solver; set_solver|].
    destruct (decide (changeMode config = _)) as [Hc|Hc2]; [|cbn; by rewrite decide_False by naive_solver].
    destruct (f32_eqb _ _); cbn; [by rewrite decide_False by naive_solver|].
    rewrite decide_True, dom_union_L by naive_solver. unfold refreshes.
    rewrite dom_list_to_map_L, <- list_fmap_compose. unfold optionsIds. set_solver.
  - intros propId a. destruct (run_unsubscribe_spec th propId a s r Hrep) as (s' & E & (Hs' & Hr' & Ho') & _).
    exists s'. split; [done|]. unfold active. rewrite Hr', Ho', Hr, Ho. cbn. rewrite dom_delete_L. set_solver.
  - intros vs. cbn. by rewrite subscribedUpdatedValues_filter.
Qed.

(** *** Witnesses *)

Definition example_speed : PropIdAreaId := mkPropIdAreaId 0x11600207 0.
Definition example_speed_config : VehiclePropConfig :=
  mkPropConfig 0x11600207 VehiclePropertyAccess.READ VehiclePropertyChangeMode.CONTINUOUS [] [] EmptyString
    (f32_of_Z 1) (f32_of_Z 10).
Definition example_speed_value : VehiclePropValue :=
  mkPropValue 5 0 0x11600207 VehiclePropertyStatus.AVAILABLE (mkRaw [] [f32_of_Z 30] [] [] EmptyString).
Definition example_speed_store : Store :=
  fst (writeValue (λ n, Z.of_nat n) example_speed_value false ON_VALUE_CHANGE false
    (setOnValuesChangeCallback (Some 1%nat) (registerProperty example_speed_config None newStore))).
Definition example_hw_options (rate : Z) : SubscribeOptions :=
  mkSubscribeOptions 0x11600207 [0] (f32_of_Z rate) f32_zero false.
(** Subscribe at 10 Hz, take the message, change the rate to 5 Hz, and let the
    timer handle what it took. *)
Definition example_hw_ops : list HwOp :=
  [OpSubscribe 1000 (example_hw_options 10) example_speed_store;
   OpTake 200 0;
   OpSubscribe 1000 (example_hw_options 5) example_speed_store;
   OpHandle 300].

Lemma example_hw_ops_ok : Forall op_ok example_hw_ops.
Proof.
  unfold example_hw_ops. rewrite !Forall_cons, Forall_nil.
  split_and!; try done; intros config [= <-] _; right; eexists; (split; [vm_compute; reflexivity|lia]).
Qed.

Lemma fake_subscriptions_refine_witness :
  Forall op_ok example_hw_ops ∧ Z.of_nat (sum_with op_areas example_hw_ops) < two31 - 1 ∧
  ∃ s th codes, run_ops example_hw_ops newHardware = Ok ((s, th), codes) ∧ length codes = 4%nat
    ∧ (∃ c, ticks (mRecurrentTimer s) c 200000000) ∧ ¬ (∃ c, ticks (mRecurrentTimer s) c 100000000).
Proof.
  split; [apply example_hw_ops_ok|]. split; [done|].
  pose proof (fake_subscriptions_refine example_hw_ops example_hw_ops_ok ltac:(done)) as H.
  destruct (spec_ops example_hw_ops (∅, ∅)) as [[refresh onChange] codes] eqn:E.
  assert (Hm : map_to_list refresh = [(example_speed, mkRefreshInfo ALWAYS 200000000)]
    ∧ length codes = 4%nat).
  { replace refresh with (spec_ops example_hw_ops (∅, ∅)).1.1 by (by rewrite E).
    replace codes with (spec_ops example_hw_ops (∅, ∅)).2 by (by rewrite E). vm_compute. done. }
  destruct Hm as [Hm Hcodes]. destruct H as (s & th & Hrun & _ & _ & HI & _).
  assert (Hl : ∀ p info, refresh !! p = Some info ↔ (p, info) ∈ map_to_list refresh).
  { intros. symmetry. apply elem_of_map_to_list. }
  setoid_rewrite Hl in HI. rewrite Hm in HI. exists s, th, codes. split_and!; [done..| |].
  - apply HI. exists example_speed, (mkRefreshInfo ALWAYS 200000000). split; [by left|done].
  - rewrite HI. intros (p & info & [= -> ->]%list_elem_of_singleton & ?). done.
Defined.


Lemma fake_hardware_contract_witness :
  represents Waiting (∅, ∅) newSubscriptions
  ∧ ∃ s' code, subscribe 7 (example_hw_options 10) example_speed_store newSubscriptions = Ok (s', code)
    ∧ active s' = {[example_speed]}.
Proof.
  split; [exact stands_new|].
  destruct (proj1 (fake_hardware_contract Waiting (∅, ∅) newSubscriptions stands_new) 7
              (example_hw_options 10) example_speed_store) as (s' & code & E & Ha);
    [intros config [= <-] _; right; eexists; (split; [vm_compute; reflexivity|lia])|done|].
  exists s', code. split; [done|]. rewrite Ha.
  assert (code = OK) as ->.
  { assert (Hv : (λ r, match r with Ok x => x.2 | Err _ => OK end)
      (subscribe 7 (example_hw_options 10) example_speed_store newSubscriptions) = OK) by (vm_compute; done).
    by rewrite E in Hv. }
  rewrite decide_True by (split; [done|vm_compute; reflexivity]). vm_compute. reflexivity.
Defined.
