(* ===== verification/FakeHardwareValues.v ===== *)
(** * FakeVehicleHardware: getting and setting values

    Models the value handling of [fake_impl/hardware/src/FakeVehicleHardware.cpp]:
    [getValue], [setValue] and every special case they dispatch to (the power
    state machine, the HVAC rules, the ADAS rules, the user HAL, the OBD2
    frames and the test properties), over the property store, the value pool
    and the fake user HAL of the other files.

    The external power controller is a gRPC service: its answers are an
    argument.  The pool hands out objects; the objects given to the store, and
    those read from it, are represented by their contents, so this file never
    returns an object to the pool: the theorems hold in every state of the
    pool.  The container [hvacPowerDependentProps] is a list, in whatever order
    the hash set iterates.  The clock is read at each [elapsedRealtimeNano]
    (and once in every call of the user HAL, which needs it only for its
    default answers). *)

From stdpp Require Import base gmap list strings.
From Stdlib Require Import ZArith Lia.
From S2P Require Import Prelude Float32 VehicleTypes VehicleProperty VehicleUtils.
From S2P Require Import VehicleObjectPool VehiclePropertyStore FakeUserHal FakeObd2Frame.

Local Open Scope Z_scope.
Local Open Scope vhal_scope.

(** ** Constants *)

Module VehicleApPowerStateReport.
Definition WAIT_FOR_VHAL : Z := 0x1.
Definition DEEP_SLEEP_ENTRY : Z := 0x2.
Definition DEEP_SLEEP_EXIT : Z := 0x3.
Definition SHUTDOWN_POSTPONE : Z := 0x4.
Definition SHUTDOWN_START : Z := 0x5.
Definition ON : Z := 0x6.
Definition SHUTDOWN_PREPARE : Z := 0x7.
Definition SHUTDOWN_CANCELLED : Z := 0x8.
Definition HIBERNATION_ENTRY : Z := 0x9.
Definition HIBERNATION_EXIT : Z := 0xA.
End VehicleApPowerStateReport.

Module VehicleApPowerStateReq.
Definition ON : Z := 0.
Definition SHUTDOWN_PREPARE : Z := 1.
Definition FINISHED : Z := 3.
End VehicleApPowerStateReq.

Module VehicleUnit.
Definition CELSIUS : Z := 0x30.
Definition FAHRENHEIT : Z := 0x31.
End VehicleUnit.

Module ErrorState.
Definition NOT_AVAILABLE_DISABLED : Z := -2.
Definition NOT_AVAILABLE_SPEED_LOW : Z := -3.
Definition NOT_AVAILABLE_SPEED_HIGH : Z := -4.
Definition NOT_AVAILABLE_POOR_VISIBILITY : Z := -5.
Definition NOT_AVAILABLE_SAFETY : Z := -6.
End ErrorState.

Definition CruiseControlType_STANDARD : Z := 1.
Definition CruiseControlType_ADAPTIVE : Z := 2.
Definition INCREASE_TARGET_TIME_GAP : Z := 5.
Definition DECREASE_TARGET_TIME_GAP : Z := 6.

Definition ECHO_REVERSE_BYTES : Z := 0x21030001.
Definition VENDOR_PROPERTY_FOR_ERROR_CODE_TESTING : Z := 0x21030002.

Definition vendorTestProp (n : Z) : Z :=
  Z.lor (Z.lor (Z.lor n VehiclePropertyGroup.VENDOR) VehicleArea.GLOBAL) VehiclePropertyType.INT32.
Definition STARTING_VENDOR_CODE_PROPERTIES_FOR_TEST : Z := vendorTestProp 0x3000.
Definition ENDING_VENDOR_CODE_PROPERTIES_FOR_TEST : Z := vendorTestProp 0x5000.

Definition mAdasEnabledPropToAdasPropWithErrorState : list (Z * list Z) :=
  [(VehicleProperty.AUTOMATIC_EMERGENCY_BRAKING_ENABLED, [VehicleProperty.AUTOMATIC_EMERGENCY_BRAKING_STATE]);
   (VehicleProperty.FORWARD_COLLISION_WARNING_ENABLED, [VehicleProperty.FORWARD_COLLISION_WARNING_STATE]);
   (VehicleProperty.BLIND_SPOT_WARNING_ENABLED, [VehicleProperty.BLIND_SPOT_WARNING_STATE]);
   (VehicleProperty.LANE_DEPARTURE_WARNING_ENABLED, [VehicleProperty.LANE_DEPARTURE_WARNING_STATE]);
   (VehicleProperty.LANE_KEEP_ASSIST_ENABLED, [VehicleProperty.LANE_KEEP_ASSIST_STATE]);
   (VehicleProperty.LANE_CENTERING_ASSIST_ENABLED, [VehicleProperty.LANE_CENTERING_ASSIST_STATE]);
   (VehicleProperty.EMERGENCY_LANE_KEEP_ASSIST_ENABLED, [VehicleProperty.EMERGENCY_LANE_KEEP_ASSIST_STATE]);
   (VehicleProperty.CRUISE_CONTROL_ENABLED,
    [VehicleProperty.CRUISE_CONTROL_TYPE; VehicleProperty.CRUISE_CONTROL_STATE]);
   (VehicleProperty.HANDS_ON_DETECTION_ENABLED,
    [VehicleProperty.HANDS_ON_DETECTION_DRIVER_STATE; VehicleProperty.HANDS_ON_DETECTION_WARNING]);
   (VehicleProperty.DRIVER_DROWSINESS_ATTENTION_SYSTEM_ENABLED,
    [VehicleProperty.DRIVER_DROWSINESS_ATTENTION_STATE]);
   (VehicleProperty.DRIVER_DROWSINESS_ATTENTION_WARNING_ENABLED,
    [VehicleProperty.DRIVER_DROWSINESS_ATTENTION_WARNING]);
   (VehicleProperty.DRIVER_DISTRACTION_SYSTEM_ENABLED,
    [VehicleProperty.DRIVER_DISTRACTION_STATE; VehicleProperty.DRIVER_DISTRACTION_WARNING]);
   (VehicleProperty.DRIVER_DISTRACTION_WARNING_ENABLED, [VehicleProperty.DRIVER_DISTRACTION_WARNING]);
   (VehicleProperty.LOW_SPEED_COLLISION_WARNING_ENABLED, [VehicleProperty.LOW_SPEED_COLLISION_WARNING_STATE]);
   (VehicleProperty.ELECTRONIC_STABILITY_CONTROL_ENABLED,
    [VehicleProperty.ELECTRONIC_STABILITY_CONTROL_STATE]);
   (VehicleProperty.CROSS_TRAFFIC_MONITORING_ENABLED,
    [VehicleProperty.CROSS_TRAFFIC_MONITORING_WARNING_STATE]);
   (VehicleProperty.LOW_SPEED_AUTOMATIC_EMERGENCY_BRAKING_ENABLED,
    [VehicleProperty.LOW_SPEED_AUTOMATIC_EMERGENCY_BRAKING_STATE])].

(** [find] of the map; the keys are distinct. *)
Fixpoint adasDependentProps (p : Z) (m : list (Z * list Z)) : option (list Z) :=
  match m with
  | [] => None
  | (q, ps) :: m' => if p =? q then Some ps else adasDependentProps p m'
  end.

Definition isPowerProp (p : Z) : bool :=
  (p =? VehicleProperty.VEHICLE_IN_USE) || (p =? VehicleProperty.AP_POWER_BOOTUP_REASON).

(** ** State and effects *)

Record HW : Type := mkHW {
  mServerSidePropStore : Store;
  mFakeUserHal : FakeUserHal;             (* with the value pool it shares *)
  hvacPowerDependentProps : list Z;
}.

Definition set_store (s : Store) (h : HW) : HW :=
  mkHW s (mFakeUserHal h) (hvacPowerDependentProps h).
Definition set_hal (u : FakeUserHal) (h : HW) : HW :=
  mkHW (mServerSidePropStore h) u (hvacPowerDependentProps h).

(** A status code; the vendor error code, which is no enumerator of
    [StatusCode]; or undefined behaviour (an access past a vector, the value
    of an error result, an integer overflow). *)
Inductive HwError : Type := Failed (c : StatusCode) | VendorError | Crash.

#[export] Instance HwError_eq_dec : EqDecision HwError.
Proof. solve_decision. Defined.

Definition HWM : Type → Type := M HW HwError.

(** The answers of the power controller service; [None] when the call fails. *)
Record PowerController : Type := mkPowerController {
  isVehicleInUse : option bool;
  apPowerBootupReason : option Z;
}.

Section values.
  Context (tick : nat → Z) (uninit_size : Z).

Definition elapsedRealtimeNano : HWM Z := λ h,
  let s := mServerSidePropStore h in (set_store (bump_clock s) h, Ok (tick (reads s))).

Definition ofStatus {A} (r : result StatusCode A) : HWM A :=
  match r with Ok a => mreturn a | Err c => mfail (Failed c) end.

(** [mServerSidePropStore->writeValue]. *)
Definition writeM (v : VehiclePropValue) (updateStatus : bool) (mode : EventMode) (useNow : bool) :
    HWM unit := λ h,
  let '(s, r) := writeValue tick v updateStatus mode useNow (mServerSidePropStore h) in
  (set_store s h, match r with Ok _ => Ok tt | Err c => Err (Failed c) end).

(** A call whose result is ignored. *)
Definition ignoring (m : HWM unit) : HWM unit := λ h,
  match m h with (h', Err (Failed _)) => (h', Ok tt) | r => r end.

Definition readStore {A} (f : Store → A) : HWM A := λ h, (h, Ok (f (mServerSidePropStore h))).

Definition withPool {A} (f : VehiclePropValuePool → A * VehiclePropValuePool) : HWM A := λ h,
  let u := mFakeUserHal h in
  let '(a, p) := f (mValuePool u) in (set_hal (with_pool p u) h, Ok a).

(** [mValuePool->obtain(type, n)] and [mValuePool->obtain(v)]. *)
Definition obtainM (type : Z) (n : nat) : HWM VehiclePropValue :=
  let! r := withPool (obtainVec uninit_size type n) in mreturn (obj r).
Definition obtainCopyM (v : VehiclePropValue) : HWM VehiclePropValue :=
  let! r := withPool (obtainCopy uninit_size v) in mreturn (obj r).

(** [mValuePool->obtainInt32(x)]. *)
Definition obtainInt32M (x : Z) : HWM VehiclePropValue := λ h,
  let u := mFakeUserHal h in
  match obtainInt32 uninit_size x (mValuePool u) with
  | Some (r, p) => (set_hal (with_pool p u) h, Ok (obj r))
  | None => (h, Err Crash)
  end.

(** Replacing one vector of a value. *)
Definition with_ints (l : list Z) (v : VehiclePropValue) : VehiclePropValue :=
  let r := value v in
  set_value (mkRaw l (floatValues r) (int64Values r) (byteValues r) (stringValue r)) v.
Definition with_floats (l : list f32) (v : VehiclePropValue) : VehiclePropValue :=
  let r := value v in
  set_value (mkRaw (int32Values r) l (int64Values r) (byteValues r) (stringValue r)) v.
Definition with_bytes (l : list Z) (v : VehiclePropValue) : VehiclePropValue :=
  let r := value v in
  set_value (mkRaw (int32Values r) (floatValues r) (int64Values r) l (stringValue r)) v.

(** ** Power state *)

(** The header of a generated value: area, property, timestamp and status. *)
Definition stamp (propId areaId now : Z) (v : VehiclePropValue) : VehiclePropValue :=
  mkPropValue now areaId propId VehiclePropertyStatus.AVAILABLE (value v).

Definition createApPowerStateReq (state param : Z) : HWM VehiclePropValue :=
  let! req := obtainM VehiclePropertyType.INT32_VEC 2 in
  let! now := elapsedRealtimeNano in
  match int32Values (value req) with
  | _ :: _ :: rest =>
      mreturn (stamp VehicleProperty.AP_POWER_STATE_REQ 0 now (with_ints (state :: param :: rest) req))
  | _ => mfail Crash
  end.

Definition createAdasStateReq (propertyId areaId state : Z) : HWM VehiclePropValue :=
  let! req := obtainM VehiclePropertyType.INT32 1 in
  let! now := elapsedRealtimeNano in
  match int32Values (value req) with
  | _ :: rest => mreturn (stamp propertyId areaId now (with_ints (state :: rest) req))
  | _ => mfail Crash
  end.

Definition setApPowerStateReqShutdown (v : VehiclePropValue) : HWM unit :=
  match int32Values (value v) with
  | [powerStateShutdownParam] =>
      let! prop := createApPowerStateReq VehicleApPowerStateReq.SHUTDOWN_PREPARE
                     powerStateShutdownParam in
      writeM prop true ALWAYS false
  | _ => mfail (Failed INVALID_ARG)
  end.

(** What the switch over the reported state sends back, and how. *)
Definition powerStateAnswer (state : Z) : option (Z * EventMode) :=
  if (state =? VehicleApPowerStateReport.DEEP_SLEEP_EXIT) ||
     (state =? VehicleApPowerStateReport.HIBERNATION_EXIT) ||
     (state =? VehicleApPowerStateReport.SHUTDOWN_CANCELLED) ||
     (state =? VehicleApPowerStateReport.WAIT_FOR_VHAL)
  then Some (VehicleApPowerStateReq.ON, ALWAYS)
  else if (state =? VehicleApPowerStateReport.DEEP_SLEEP_ENTRY) ||
          (state =? VehicleApPowerStateReport.HIBERNATION_ENTRY) ||
          (state =? VehicleApPowerStateReport.SHUTDOWN_START)
  then Some (VehicleApPowerStateReq.FINISHED, ON_VALUE_CHANGE)
  else None.

Definition setApPowerStateReport (v : VehiclePropValue) : HWM unit :=
  let! updatedValue := obtainCopyM v in
  let! now := elapsedRealtimeNano in
  writeM (set_timestamp now updatedValue) false ON_VALUE_CHANGE false ;;;
  match int32Values (value v) with
  | [] => mfail Crash
  | state :: _ =>
      match powerStateAnswer state with
      | Some (req, mode) =>
          let! prop := createApPowerStateReq req 0 in writeM prop true mode false
      | None => mreturn tt
      end
  end.

(** ** HVAC *)

(** An [int] expression that leaves the range overflows: undefined. *)
Definition int_ (z : Z) : option Z :=
  if (- two31 <=? z) && (z <? two31) then Some z else None.

Definition getHvacTempNumIncrements (requestedTemp minTemp maxTemp increment : Z) : option Z :=
  let requestedTemp := Z.max requestedTemp minTemp in
  let requestedTemp := Z.min requestedTemp maxTemp in
  d ← int_ (requestedTemp - minTemp);
  f32_to_i32 (f32_round (f32_div (f32_of_Z d) (f32_of_Z increment))).

(** [minTemp + increment * numIncrements], then divided by 10 as a float. *)
Definition suggestedTemp (minTemp increment numIncrements : Z) : option f32 :=
  p ← int_ (increment * numIncrements);
  s ← int_ (minTemp + p);
  Some (f32_div (f32_of_Z s) (f32_of_Z 10)).

(** The caller checked that the values are four; the configuration array is
    indexed unchecked. *)
Definition updateHvacTemperatureValueSuggestionInput (hvacTemperatureSetConfigArray : list Z)
    (input : list f32) : option (list f32) :=
  match hvacTemperatureSetConfigArray, input with
  | minC :: maxC :: incC :: minF :: maxF :: incF :: _, temp :: unit :: _ :: _ :: rest =>
      requestedTemp ← f32_to_i32 (f32_mul temp (f32_of_Z 10));
      numIncrements ←
        (if f32_eqb unit (f32_of_Z VehicleUnit.CELSIUS)
         then getHvacTempNumIncrements requestedTemp minC maxC incC
         else getHvacTempNumIncrements requestedTemp minF maxF incF);
      c ← suggestedTemp minC incC numIncrements;
      f ← suggestedTemp minF incF numIncrements;
      Some (temp :: unit :: c :: f :: rest)
  | _, _ => None
  end.

Definition setHvacTemperatureValueSuggestion (v : VehiclePropValue) : HWM unit :=
  let! configResult := readStore (getPropConfig VehicleProperty.HVAC_TEMPERATURE_SET) in
  let! config := ofStatus configResult in
  match floatValues (value v) with
  | [_; unit; _; _] as originalInput =>
      if negb (f32_eqb unit (f32_of_Z VehicleUnit.CELSIUS) ||
               f32_eqb unit (f32_of_Z VehicleUnit.FAHRENHEIT))
      then mfail (Failed INVALID_ARG)
      else
        let! updatedValue := obtainCopyM v in
        match updateHvacTemperatureValueSuggestionInput (configArray config)
                (floatValues (value updatedValue)) with
        | None => mfail Crash
        | Some fs =>
            let! now := elapsedRealtimeNano in
            writeM (set_timestamp now (with_floats fs updatedValue)) true ALWAYS false
        end
  | _ => mfail (Failed INVALID_ARG)
  end.

(** The first value whose area covers [areaId] decides. *)
Definition hvacPowerOff (areaId : Z) (hvacPowerOnValues : list VehiclePropValue) : bool :=
  match List.find (λ v, Z.land (VehicleTypes.areaId v) areaId =? areaId) hvacPowerOnValues with
  | Some v => bool_decide (int32Values (value v) = [0])
  | None => false
  end.

Definition isHvacPropAndHvacNotAvailable (propId areaId : Z) (h : HW) : bool :=
  if existsb (Z.eqb propId) (hvacPowerDependentProps h) then
    match readValuesForProperty VehicleProperty.HVAC_POWER_ON (mServerSidePropStore h) with
    | Err _ => false
    | Ok hvacPowerOnValues => hvacPowerOff areaId hvacPowerOnValues
    end
  else false.

(** The loop of [synchronizeHvacTemp]; [tempCToSynchronize] is its variable. *)
Fixpoint synchronize_loop (hvacDualOnAreaId : Z) (tempCToSynchronize : option f32)
    (values : list VehiclePropValue) : HWM unit :=
  match values with
  | [] => mreturn tt
  | v :: values' =>
      if negb (Z.land hvacDualOnAreaId (areaId v) =? areaId v)
         || negb (status v =? VehiclePropertyStatus.AVAILABLE)
      then synchronize_loop hvacDualOnAreaId tempCToSynchronize values'
      else
        match tempCToSynchronize, floatValues (value v) with
        | None, temp :: _ => synchronize_loop hvacDualOnAreaId (Some temp) values'
        | Some temp, _ :: rest =>
            let! now := elapsedRealtimeNano in
            writeM (set_timestamp now (with_floats (temp :: rest) v)) true ALWAYS false ;;;
            synchronize_loop hvacDualOnAreaId tempCToSynchronize values'
        | _, [] => mfail Crash
        end
  end.

Definition synchronizeHvacTemp (hvacDualOnAreaId : Z) (newTempC : option f32) : HWM unit :=
  let! results := readStore (readValuesForProperty VehicleProperty.HVAC_TEMPERATURE_SET) in
  match results with
  | Err _ => mfail (Failed NOT_AVAILABLE)
  | Ok hvacTemperatureSetValues => synchronize_loop hvacDualOnAreaId newTempC hvacTemperatureSetValues
  end.

Definition getSyncedAreaIdIfHvacDualOn (hvacTemperatureSetAreaId : Z) (h : HW) : option Z :=
  match readValuesForProperty VehicleProperty.HVAC_DUAL_ON (mServerSidePropStore h) with
  | Err _ => None
  | Ok hvacDualOnValues =>
      areaId <$> List.find (λ v, (Z.land (areaId v) hvacTemperatureSetAreaId =? hvacTemperatureSetAreaId)
                                && bool_decide (int32Values (value v) = [1])) hvacDualOnValues
  end.

(** Every value of a power dependent property inside the area is written again
    with its new status; a failing write is ignored. *)
Definition sendHvacProperty (areaId hvacPowerOnVal powerPropId : Z) : HWM unit :=
  let! results := readStore (readValuesForProperty powerPropId) in
  match results with
  | Err _ => mreturn tt
  | Ok powerPropValues =>
      for_each powerPropValues (λ v,
        if Z.land (VehicleTypes.areaId v) areaId =? VehicleTypes.areaId v then
          let st := if hvacPowerOnVal =? 0 then VehiclePropertyStatus.UNAVAILABLE
                    else VehiclePropertyStatus.AVAILABLE in
          let! now := elapsedRealtimeNano in
          ignoring (writeM (set_timestamp now (set_status st v)) true ALWAYS false)
        else mreturn tt)
  end.

Definition sendHvacPropertiesCurrentValues (areaId hvacPowerOnVal : Z) : HWM unit :=
  let! h := mget in
  for_each (hvacPowerDependentProps h) (sendHvacProperty areaId hvacPowerOnVal).

(** ** ADAS *)

Definition adasError (errorState : Z) : StatusCode :=
  if errorState =? ErrorState.NOT_AVAILABLE_DISABLED then NOT_AVAILABLE_DISABLED
  else if errorState =? ErrorState.NOT_AVAILABLE_SPEED_LOW then NOT_AVAILABLE_SPEED_LOW
  else if errorState =? ErrorState.NOT_AVAILABLE_SPEED_HIGH then NOT_AVAILABLE_SPEED_HIGH
  else if errorState =? ErrorState.NOT_AVAILABLE_POOR_VISIBILITY then NOT_AVAILABLE_POOR_VISIBILITY
  else if errorState =? ErrorState.NOT_AVAILABLE_SAFETY then NOT_AVAILABLE_SAFETY
  else NOT_AVAILABLE.

(** The global value of a property without token: [readValue(propId)]. *)
Definition isAdasPropertyAvailable (adasStatePropertyId : Z) (s : Store) : result StatusCode unit :=
  match readValueFor adasStatePropertyId 0 0 s with
  | Err _ => Ok tt
  | Ok v =>
      match int32Values (value v) with
      | [errorState] => if errorState <? 0 then Err (adasError errorState) else Ok tt
      | _ => Ok tt
      end
  end.

Definition isCruiseControlTypeStandard (s : Store) : result HwError bool :=
  match isAdasPropertyAvailable VehicleProperty.CRUISE_CONTROL_TYPE s with
  | Err c => Err (Failed c)
  | Ok _ =>
      match readValueFor VehicleProperty.CRUISE_CONTROL_TYPE 0 0 s with
      | Err _ => Err Crash
      | Ok v => match int32Values (value v) with
                | [] => Err Crash
                | x :: _ => Ok (x =? CruiseControlType_STANDARD)
                end
      end
  end.

Definition sendAdasArea (state dependentPropId : Z) (areaConfig : VehicleAreaConfig) : HWM unit :=
  let hardcoded_state :=
    if (state =? 1) && (dependentPropId =? VehicleProperty.CRUISE_CONTROL_TYPE)
    then CruiseControlType_ADAPTIVE else state in
  let! propValue := createAdasStateReq dependentPropId (ac_areaId areaConfig) hardcoded_state in
  ignoring (writeM propValue true ALWAYS false).

Definition sendAdasProperty (state dependentPropId : Z) : HWM unit :=
  let! configResult := readStore (getPropConfig dependentPropId) in
  match configResult with
  | Err _ => mreturn tt
  | Ok config => for_each (areaConfigs config) (sendAdasArea state dependentPropId)
  end.

Definition sendAdasPropertiesState (dependentPropIds : list Z) (state : Z) : HWM unit :=
  for_each dependentPropIds (sendAdasProperty state).

(** ** User HAL and test properties *)

Definition runUserHal (m : HalM (option Recyclable)) : HWM (option Recyclable) := λ h,
  let '(u, r) := m (mFakeUserHal h) in
  (set_hal u h, match r with
                | Ok a => Ok a
                | Err (Status c) => Err (Failed c)
                | Err UB => Err Crash
                end).

Definition setUserHalProp (v : VehiclePropValue) : HWM unit :=
  let! now := elapsedRealtimeNano in
  let! updatedValue := runUserHal (onSetProperty uninit_size now v) in
  match updatedValue with
  | None => mreturn tt
  | Some r =>
      let! now := elapsedRealtimeNano in
      writeM (set_timestamp now (obj r)) true ALWAYS false
  end.

Definition getUserHalProp (v : VehiclePropValue) : HWM VehiclePropValue :=
  let! gotValue := runUserHal (onGetProperty uninit_size v) in
  match gotValue with
  | None => mfail (Failed INTERNAL_ERROR)
  | Some r => let! now := elapsedRealtimeNano in mreturn (set_timestamp now (obj r))
  end.

Definition getEchoReverseBytes (v : VehiclePropValue) : HWM VehiclePropValue :=
  let! readResult := readStore (readValue v) in
  let! gotValue := ofStatus readResult in
  let! now := elapsedRealtimeNano in
  mreturn (set_timestamp now (with_bytes (rev (byteValues (value gotValue))) gotValue)).

Definition getVehicleInUse (service : PowerController) : HWM VehiclePropValue :=
  match isVehicleInUse service with
  | None => mfail (Failed TRY_AGAIN)
  | Some b =>
      let! r := obtainInt32M (if b then 1 else 0) in
      let! now := elapsedRealtimeNano in mreturn (stamp VehicleProperty.VEHICLE_IN_USE 0 now r)
  end.

Definition getApPowerBootupReason (service : PowerController) : HWM VehiclePropValue :=
  match apPowerBootupReason service with
  | None => mfail (Failed TRY_AGAIN)
  | Some x =>
      let! r := obtainInt32M x in
      let! now := elapsedRealtimeNano in mreturn (stamp VehicleProperty.AP_POWER_BOOTUP_REASON 0 now r)
  end.

Definition getPowerPropFromExternalService (service : PowerController) (propId : Z) :
    HWM VehiclePropValue :=
  if propId =? VehicleProperty.VEHICLE_IN_USE then getVehicleInUse service
  else if propId =? VehicleProperty.AP_POWER_BOOTUP_REASON then getApPowerBootupReason service
  else mfail (Failed INTERNAL_ERROR).

(** ** Get *)

Definition isVendorTestProp (propId : Z) : bool :=
  (STARTING_VENDOR_CODE_PROPERTIES_FOR_TEST <=? propId) &&
  (propId <? ENDING_VENDOR_CODE_PROPERTIES_FOR_TEST).

Definition getVendorTestProp (propId : Z) : HWM VehiclePropValue :=
  let! r := obtainInt32M 5 in
  let! now := elapsedRealtimeNano in
  mreturn (mkPropValue now 0 propId (status r) (value r)).

(** [None] is the null result with [isSpecialValue] false; every error is
    returned with the flag set. *)
Definition maybeGetSpecialValue (service : option PowerController) (v : VehiclePropValue) :
    HWM (option VehiclePropValue) :=
  let propId := prop v in
  let special (m : HWM VehiclePropValue) := let! x := m in mreturn (Some x) in
  match (if isPowerProp propId then service else None) with
  | Some svc => special (getPowerPropFromExternalService svc propId)
  | None =>
    if isVendorTestProp propId then special (getVendorTestProp propId)
    else if isSupported propId then special (getUserHalProp v)
    else
      let! h := mget in
      if isHvacPropAndHvacNotAvailable propId (areaId v) h then mfail (Failed NOT_AVAILABLE_DISABLED)
      else if propId =? OBD2_FREEZE_FRAME then
        let! r := readStore (getObd2FreezeFrame v) in
        let! x := ofStatus r in
        let! now := elapsedRealtimeNano in mreturn (Some (set_timestamp now x))
      else if propId =? OBD2_FREEZE_FRAME_INFO then
        let! r := withPool (getObd2DtcInfo uninit_size (mServerSidePropStore h)) in
        let! x := ofStatus r in
        let! now := elapsedRealtimeNano in mreturn (Some (set_timestamp now (obj x)))
      else if propId =? ECHO_REVERSE_BYTES then special (getEchoReverseBytes v)
      else if propId =? VENDOR_PROPERTY_FOR_ERROR_CODE_TESTING then mfail VendorError
      else if propId =? VehicleProperty.CRUISE_CONTROL_TARGET_SPEED then
        ofStatus (isAdasPropertyAvailable VehicleProperty.CRUISE_CONTROL_STATE (mServerSidePropStore h)) ;;;
        mreturn None
      else if (propId =? VehicleProperty.ADAPTIVE_CRUISE_CONTROL_TARGET_TIME_GAP) ||
              (propId =? VehicleProperty.ADAPTIVE_CRUISE_CONTROL_LEAD_VEHICLE_MEASURED_DISTANCE) then
        ofStatus (isAdasPropertyAvailable VehicleProperty.CRUISE_CONTROL_STATE (mServerSidePropStore h)) ;;;
        match isCruiseControlTypeStandard (mServerSidePropStore h) with
        | Err e => mfail e
        | Ok true => mfail (Failed NOT_AVAILABLE_DISABLED)
        | Ok false => mreturn None
        end
      else mreturn None
  end.

Definition getValue (service : option PowerController) (v : VehiclePropValue) : HWM VehiclePropValue :=
  let! special := maybeGetSpecialValue service v in
  match special with
  | Some x => mreturn x
  | None => let! readResult := readStore (readValue v) in ofStatus readResult
  end.

(** ** Set *)

(** [true] is [isSpecialValue]; every error is returned with the flag set. *)
Definition maybeSetSpecialValue (v : VehiclePropValue) : HWM bool :=
  let propId := prop v in
  let special (m : HWM unit) := m ;;; mreturn true in
  if isVendorTestProp propId then mreturn true
  else if isSupported propId then special (setUserHalProp v)
  else
    let! h := mget in
    if isHvacPropAndHvacNotAvailable propId (areaId v) h then mfail (Failed NOT_AVAILABLE_DISABLED)
    else
      match adasDependentProps propId mAdasEnabledPropToAdasPropWithErrorState, int32Values (value v) with
      | Some dependentPropIds, [x] =>
          sendAdasPropertiesState dependentPropIds
            (if x =? 1 then 1 else ErrorState.NOT_AVAILABLE_DISABLED)
      | _, _ => mreturn tt
      end ;;;
      let! h := mget in
      let store := mServerSidePropStore h in
      if (propId =? VehicleProperty.DISPLAY_BRIGHTNESS) || (propId =? VehicleProperty.PER_DISPLAY_BRIGHTNESS)
      then mreturn false
      else if propId =? VehicleProperty.AP_POWER_STATE_REPORT then special (setApPowerStateReport v)
      else if propId =? VehicleProperty.SHUTDOWN_REQUEST then special (setApPowerStateReqShutdown v)
      else if propId =? VehicleProperty.VEHICLE_MAP_SERVICE then mreturn true
      else if propId =? OBD2_FREEZE_FRAME_CLEAR then
        let '(store', r) := clearObd2FreezeFrames v store in
        mmodify (set_store store') ;;; special (ofStatus r)
      else if propId =? VENDOR_PROPERTY_FOR_ERROR_CODE_TESTING then mfail VendorError
      else if propId =? VehicleProperty.HVAC_POWER_ON then
        match int32Values (value v) with
        | [x] => sendHvacPropertiesCurrentValues (areaId v) x ;;; mreturn false
        | _ => mfail (Failed INVALID_ARG)
        end
      else if propId =? VehicleProperty.HVAC_TEMPERATURE_VALUE_SUGGESTION then
        special (setHvacTemperatureValueSuggestion v)
      else if propId =? VehicleProperty.HVAC_TEMPERATURE_SET then
        match floatValues (value v) with
        | [x] => match getSyncedAreaIdIfHvacDualOn (areaId v) h with
                 | Some hvacDualOnAreaId => special (synchronizeHvacTemp hvacDualOnAreaId (Some x))
                 | None => mreturn false
                 end
        | _ => mfail (Failed INVALID_ARG)
        end
      else if propId =? VehicleProperty.HVAC_DUAL_ON then
        match int32Values (value v) with
        | [x] => (if x =? 1 then ignoring (synchronizeHvacTemp (areaId v) None) else mreturn tt) ;;;
                 mreturn false
        | _ => mfail (Failed INVALID_ARG)
        end
      else if propId =? VehicleProperty.LANE_CENTERING_ASSIST_COMMAND then
        ofStatus (isAdasPropertyAvailable VehicleProperty.LANE_CENTERING_ASSIST_STATE store) ;;;
        mreturn false
      else if propId =? VehicleProperty.CRUISE_CONTROL_COMMAND then
        ofStatus (isAdasPropertyAvailable VehicleProperty.CRUISE_CONTROL_STATE store) ;;;
        match isCruiseControlTypeStandard store with
        | Err e => mfail e
        | Ok false => mreturn false
        | Ok true =>
            match int32Values (value v) with
            | [] => mfail Crash
            | x :: _ => if (x =? INCREASE_TARGET_TIME_GAP) || (x =? DECREASE_TARGET_TIME_GAP)
                        then mfail (Failed NOT_AVAILABLE_DISABLED) else mreturn false
            end
        end
      else if propId =? VehicleProperty.ADAPTIVE_CRUISE_CONTROL_TARGET_TIME_GAP then
        ofStatus (isAdasPropertyAvailable VehicleProperty.CRUISE_CONTROL_STATE store) ;;;
        match isCruiseControlTypeStandard store with
        | Err e => mfail e
        | Ok true => mfail (Failed NOT_AVAILABLE_DISABLED)
        | Ok false => mreturn false
        end
      else mreturn false.

Definition setValue (v : VehiclePropValue) : HWM unit :=
  let! isSpecialValue := maybeSetSpecialValue v in
  if isSpecialValue then mreturn tt
  else let! updatedValue := obtainCopyM v in writeM updatedValue false ON_VALUE_CHANGE true.

(** Called by [--inject-event] and by the value generators; the result of the
    write is ignored. *)
Definition eventFromVehicleBus (v : VehiclePropValue) : HWM unit :=
  let! updatedValue := obtainCopyM v in ignoring (writeM updatedValue false ON_VALUE_CHANGE false).

(** ** Requests *)

(** The status of a result: a code, or the vendor error code 0x00ab0005. *)
Inductive HwStatus : Type := Code (c : StatusCode) | VENDOR_ERROR_CODE.

Record HwGetResult : Type := mkHwGetResult {
  hg_requestId : Z; hg_status : HwStatus; hg_prop : option VehiclePropValue }.
Record HwSetResult : Type := mkHwSetResult { hs_requestId : Z; hs_status : HwStatus }.

(** [None]: the thread crashes. *)
Definition handleGetValueRequest (service : option PowerController) (request : GetValueRequest) (h : HW) :
    option (HW * HwGetResult) :=
  match getValue service (gq_prop request) h with
  | (h', Ok v) => Some (h', mkHwGetResult (gq_requestId request) (Code OK) (Some v))
  | (h', Err (Failed c)) => Some (h', mkHwGetResult (gq_requestId request) (Code c) None)
  | (h', Err VendorError) => Some (h', mkHwGetResult (gq_requestId request) VENDOR_ERROR_CODE None)
  | (_, Err Crash) => None
  end.

Definition handleSetValueRequest (request : SetValueRequest) (h : HW) : option (HW * HwSetResult) :=
  match setValue (sq_value request) h with
  | (h', Ok _) => Some (h', mkHwSetResult (sq_requestId request) (Code OK))
  | (h', Err (Failed c)) => Some (h', mkHwSetResult (sq_requestId request) (Code c))
  | (h', Err VendorError) => Some (h', mkHwSetResult (sq_requestId request) VENDOR_ERROR_CODE)
  | (_, Err Crash) => None
  end.

End values.
