(* ===== verification/FakeHardwareLaws.v ===== *)
(** * FakeVehicleHardware: what getting and setting values does

    The theorems about FakeHardwareValues: a plain property reads back what was
    set; the power state machine answers every report as its switch says; the
    HVAC power, temperature and dual rules and the ADAS rules have exactly their
    documented effect on every stored value; the temperature suggestions are
    the nearest configured step; and the cases in which a request crashes. *)

From stdpp Require Import base gmap list strings.
From Stdlib Require Import ZArith Lia.
From S2P Require Import Prelude Float32 VehicleTypes VehicleProperty VehicleUtils.
From S2P Require Import VehicleObjectPool VehiclePropertyStore FakeUserHal FakeObd2Frame.
From S2P Require Import FakeHardwareValues.

Local Open Scope Z_scope.
Local Open Scope vhal_scope.

(** ** Well-formed stores *)

(** No token function distinguishes values of [p]. *)
Definition tokenless (s : Store) (p : Z) : Prop :=
  ∀ v r, prop v = p → record_of s v = Some r → ri_token r = 0.

Definition area_configured (c : VehiclePropConfig) (o : VehiclePropValue) : Prop :=
  isGlobalProp (prop o) = true ∨ is_Some (getAreaConfigOf o c).

(** The token function registered for [p]. *)
Definition tokenFunctionOf (s : Store) (p : Z) : option (option TokenFunction) :=
  tokenFunction <$> mRecordsByPropId s !! p.

(** The registered properties, their configurations and token functions. *)
Definition same_registry (s s' : Store) : Prop :=
  (∀ v, record_of s' v = record_of s v) ∧ (∀ p, getPropConfig p s' = getPropConfig p s) ∧
  mOnValueChangeCallback s' = mOnValueChangeCallback s ∧
  mOnValuesChangeCallback s' = mOnValuesChangeCallback s ∧
  (∀ p, tokenFunctionOf s' p = tokenFunctionOf s p).

Lemma same_registry_refl s : same_registry s s.
Proof. done. Qed.
Lemma same_registry_trans s1 s2 s3 : same_registry s1 s2 → same_registry s2 s3 → same_registry s1 s3.
Proof. intros (A1 & B1 & C1 & D1 & E1) (A2 & B2 & C2 & D2 & E2). split_and!; intros; congruence. Qed.
#[local] Hint Resolve same_registry_refl same_registry_trans : core.

Lemma tokenless_same s s' p : same_registry s s' → tokenless s p → tokenless s' p.
Proof. intros (H & _) Ht v r Hv Hr. rewrite H in Hr. by apply (Ht v). Qed.

Record store_wf (tick : nat → Z) (s : Store) : Prop := mk_store_wf {
  wf_inv : store_inv tick s;
  wf_keyed : ∀ p r o, stored s p r = Some o → tokenless s p → ri_token r = 0;
  wf_configured : ∀ p r o, stored s p r = Some o →
    ∃ c, getPropConfig p s = Ok c ∧ area_configured c o;
}.

Lemma store_wf_new tick : store_wf tick newStore.
Proof. split; intros p r o; by unfold stored, newStore. Qed.

(** The key of a value of a tokenless property. *)
Definition key (v : VehiclePropValue) : RecordId :=
  mkRecordId (if isGlobalProp (prop v) then 0 else areaId v) 0.

Section wf.
  Context (tick : nat → Z) (tick_mono : ∀ i j, (i ≤ j)%nat → tick i ≤ tick j).
Notation store_wf := (store_wf tick).

Lemma stored_key s p r o : store_wf s → tokenless s p → stored s p r = Some o →
  prop o = p ∧ key o = r ∧ timestamp o ≤ tick (reads s).
Proof.
  intros [Hi Hk _] Ht Ho. destruct (Hi p r o Ho) as (Hp & Ha & Hts).
  pose proof (Hk p r o Ho Ht). split_and!; [done| |done]. unfold key. rewrite Hp. destruct r. cbn in *. by subst.
Qed.

Lemma record_of_key s v c : tokenless s (prop v) → getPropConfig (prop v) s = Ok c →
  record_of s v = Some (key v).
Proof.
  intros Ht Hc. unfold getPropConfig, getRecordLocked in Hc.
  destruct (mRecordsByPropId s !! prop v) as [rec|] eqn:Hr; [|done].
  assert (Hk : record_of s v = Some (getRecordIdLocked v rec)) by (unfold record_of; by rewrite Hr).
  rewrite Hk. f_equal. pose proof (Ht v _ eq_refl Hk). unfold getRecordIdLocked, key in *. cbn in *. congruence.
Qed.

(** *** One write *)

Lemma write_registry s v us m uct : same_registry s (fst (writeValue tick v us m uct s)).
Proof.
  rewrite writeValue_stamped. set (s1 := if uct then bump_clock s else s).
  assert (Hs1 : same_registry s s1) by (by destruct uct).
  eapply same_registry_trans; [exact Hs1|]. unfold writeStamped, getRecordLocked.
  destruct (mRecordsByPropId s1 !! prop (stamped tick uct s v)) as [rec|] eqn:Hrec; [|done].
  assert (Hset : ∀ m', same_registry s1 (set_records
    (<[prop (stamped tick uct s v) := set_values m' rec]> (mRecordsByPropId s1)) s1)).
  { intros m'. split_and!; [| |done|done|].
    3: { intros p. unfold tokenFunctionOf. cbn [mRecordsByPropId set_records].
      destruct (decide (p = prop (stamped tick uct s v))) as [->|Hne].
      + by rewrite lookup_insert_eq, Hrec.
      + by rewrite lookup_insert_ne. }
    - intros w. unfold record_of. cbn [mRecordsByPropId set_records].
      destruct (decide (prop w = prop (stamped tick uct s v))) as [->|Hne].
      + by rewrite lookup_insert_eq, Hrec.
      + by rewrite lookup_insert_ne.
    - intros p. unfold getPropConfig, getRecordLocked. cbn [mRecordsByPropId set_records].
      destruct (decide (p = prop (stamped tick uct s v))) as [->|Hne].
      + by rewrite lookup_insert_eq, Hrec.
      + by rewrite lookup_insert_ne. }
  repeat case_match; cbn [fst]; try done; apply Hset.
Qed.

Lemma write_reads s v us m : reads (fst (writeValue tick v us m false s)) = reads s.
Proof. unfold writeValue, writeStamped. repeat case_match; done. Qed.

(** A write of a value of a tokenless property whose area is configured and
    which is not older than the stored one. *)
Lemma write_at s v us m c :
  tokenless s (prop v) → getPropConfig (prop v) s = Ok c → area_configured c v →
  (∀ o, stored s (prop v) (key v) = Some o → timestamp o ≤ timestamp v) →
  let v' := write_status us (stored s (prop v) (key v)) v in
  ∃ s', writeValue tick v us m false s = (s', Ok tt) ∧ same_registry s s' ∧ reads s' = reads s
    ∧ (∀ p r, stored s' p r = if decide (p = prop v ∧ r = key v) then Some v' else stored s p r)
    ∧ emitted s' = emitted s ++ write_events s m (stored s (prop v) (key v)) v'.
Proof.
  intros Ht Hc Ha Hts v'. pose proof (record_of_key s v c Ht Hc) as Hr.
  pose proof (writeValue_effect tick s v us m false) as H. cbn zeta in H. cbn [stamped] in H.
  pose proof (write_registry s v us m false) as Hreg. pose proof (write_reads s v us m) as Hreads.
  destruct (writeValue tick v us m false s) as [s' res]. cbn [fst] in *.
  destruct H as (Hok & _ & Hacc). unfold record_of in Hr.
  destruct (mRecordsByPropId s !! prop v) as [rec|] eqn:Hrec; [|done]. apply (inj Some) in Hr as Hkey.
  assert (Hst : ∀ r, stored s (prop v) r = values rec !! r) by (intros; unfold stored; by rewrite Hrec).
  assert (Hcfg : propConfig rec = c).
  { unfold getPropConfig, getRecordLocked in Hc. rewrite Hrec in Hc. by injection Hc. }
  assert (Hadm : admissible s v).
  { exists rec. split_and!; [done|by rewrite Hcfg|]. intros o Ho. apply Hts. by rewrite Hst, <- Hkey. }
  exists s'. rewrite (proj2 Hok Hadm). destruct (Hacc rec Hadm eq_refl) as [Hem Hall].
  rewrite Hkey in *. rewrite <- Hst in *. split_and!; [done..|exact Hall|exact Hem].
Qed.

Lemma write_wf s v us m uct : uct = true ∨ timestamp v ≤ tick (reads s) →
  store_wf s → store_wf (fst (writeValue tick v us m uct s)).
Proof.
  intros Ht Hwf. pose proof (write_registry s v us m uct) as Hreg.
  pose proof (write_inv tick tick_mono v us m uct s Ht (wf_inv _ _ Hwf)) as Hinv.
  pose proof (writeValue_effect tick s v us m uct) as H. cbn zeta in H.
  destruct (writeValue tick v us m uct s) as [s' res]. cbn [fst] in *.
  destruct H as (_ & Hrej & Hacc). destruct (decide (admissible s (stamped tick uct s v))) as [Ha|Hna].
  - pose proof Ha as (rec & Hrec & Hcfg & _). destruct (Hacc rec Ha Hrec) as [_ Hst].
    set (v1 := stamped tick uct s v) in *. split; [done|..].
    + intros p r o. rewrite Hst. case_decide as Hd.
      * destruct Hd as [-> ->]. intros _ Htl. apply (Htl v1); [done|].
        rewrite (proj1 Hreg). unfold record_of. by rewrite Hrec.
      * intros Ho Htl. eapply (wf_keyed _ _ Hwf); [done|].
        intros w k Hw Hk. apply (Htl w k Hw). by rewrite (proj1 Hreg).
    + intros p r o. rewrite Hst. setoid_rewrite (proj1 (proj2 Hreg)). case_decide as Hd; [|apply Hwf].
      destruct Hd as [-> ->]. intros [= <-]. exists (propConfig rec).
      unfold getPropConfig, getRecordLocked. rewrite Hrec. split; [done|].
      unfold area_configured, write_status. repeat case_match; exact Hcfg.
  - destruct (Hrej Hna) as (_ & _ & Hst). split; [done|..].
    + intros p r o Ho Htl. rewrite Hst in Ho. eapply (wf_keyed _ _ Hwf); [done|].
      intros w k Hw Hk. apply (Htl w k Hw). by rewrite (proj1 Hreg).
    + intros p r o Ho. rewrite Hst in Ho. rewrite (proj1 (proj2 Hreg)). by apply (wf_configured _ _ Hwf p r).
Qed.

Lemma bump_wf s : store_wf s → store_wf (bump_clock s).
Proof.
  intros [Hi Hk Hc]. split; [|exact Hk|exact Hc]. eapply store_inv_sub; [exact tick_mono|exact Hi|cbn; lia|done].
Qed.
End wf.

(** ** Writing values again *)

(** What [sendHvacPropertiesCurrentValues], [synchronizeHvacTemp] and
    [sendAdasPropertiesState] do to one value: write it with the present time,
    as it is, and report it. *)
Definition rewriteM (tick : nat → Z) (v : VehiclePropValue) : HWM unit :=
  let! now := elapsedRealtimeNano tick in writeM tick (set_timestamp now v) true ALWAYS false.

Lemma set_store_id h : set_store (mServerSidePropStore h) h = h.
Proof. by destruct h. Qed.
Lemma set_store_twice s s' h : set_store s (set_store s' h) = set_store s h.
Proof. done. Qed.
Lemma store_set s h : mServerSidePropStore (set_store s h) = s.
Proof. done. Qed.

Section rewriting.
  Context (tick : nat → Z) (tick_mono : ∀ i j, (i ≤ j)%nat → tick i ≤ tick j).
Notation store_wf := (store_wf tick).

Lemma rewrite_one s h v c :
  mServerSidePropStore h = s → store_wf s → tokenless s (prop v) →
  getPropConfig (prop v) s = Ok c → area_configured c v →
  ∃ s', rewriteM tick v h = (set_store s' h, Ok tt) ∧ store_wf s' ∧ same_registry s s'
    ∧ reads s' = S (reads s)
    ∧ (∀ p r, stored s' p r = if decide (p = prop v ∧ r = key v)
                              then Some (set_timestamp (tick (reads s)) v) else stored s p r)
    ∧ emitted s' = emitted s ++ notify_one s (set_timestamp (tick (reads s)) v).
Proof.
  intros Hh Hwf Ht Hc Ha. unfold rewriteM, elapsedRealtimeNano, writeM, mbind'. rewrite Hh.
  cbn [mServerSidePropStore set_store]. set (w := set_timestamp (tick (reads s)) v).
  destruct (write_at tick (bump_clock s) w true ALWAYS c) as (s' & E & Hreg & Hreads & Hst & Hem).
  { exact Ht. }
  { exact Hc. }
  { exact Ha. }
  { intros o Ho. destruct (stored_key tick s (prop v) (key v) o Hwf Ht Ho) as (_ & _ & ?). exact H. }
  pose proof (write_wf tick tick_mono (bump_clock s) w true ALWAYS false) as Hw.
  rewrite E in *. cbn [fst] in Hw. exists s'. split_and!; [done| |done|done|done|exact Hem].
  apply Hw; [right|by apply bump_wf]. cbn. apply tick_mono. lia.
Qed.

(** The values a loop writes again: those that pass [test], changed by [g]. *)
Record rewritten (test : VehiclePropValue → bool) (g : VehiclePropValue → VehiclePropValue)
    (vs : list VehiclePropValue) (s s' : Store) : Prop := mk_rewritten {
  rw_registry : same_registry s s';
  rw_reads : (reads s ≤ reads s')%nat;
  rw_miss : ∀ p r, (∀ v, v ∈ vs → test v = true → prop v = p → key v ≠ r) →
    stored s' p r = stored s p r;
  rw_hit : ∃ ws, Forall2 (λ v w, stored s' (prop v) (key v) = Some w ∧
        ∃ k, (reads s ≤ k < reads s')%nat ∧ w = set_timestamp (tick k) (g v))
      (filter (λ v, test v = true) vs) ws ∧
    emitted s' = emitted s ++ concat (notify_one s <$> ws);
}.

(** A snapshot of stored values of a tokenless property. *)
Record snapshot (s : Store) (p : Z) (vs : list VehiclePropValue) : Prop := mk_snapshot {
  sn_tokenless : tokenless s p;
  sn_stored : ∀ v, v ∈ vs → prop v = p ∧ stored s p (key v) = Some v;
  sn_nodup : NoDup (key <$> vs);
}.

Lemma notify_one_same s s' v : same_registry s s' → notify_one s' v = notify_one s v.
Proof. intros (_ & _ & E1 & E2 & _). unfold notify_one. by rewrite E1, E2. Qed.

Lemma rewrite_loop test g p (body : VehiclePropValue → HWM unit) vs : ∀ h,
  (∀ v h h', test v = true → rewriteM tick (g v) h = (h', Ok tt) → body v h = (h', Ok tt)) →
  (∀ v h, test v = false → body v h = (h, Ok tt)) →
  (∀ v, prop (g v) = prop v ∧ areaId (g v) = areaId v) →
  store_wf (mServerSidePropStore h) → snapshot (mServerSidePropStore h) p vs →
  ∃ s', for_each vs body h = (set_store s' h, Ok tt) ∧ store_wf s'
    ∧ rewritten test g vs (mServerSidePropStore h) s'.
Proof.
  intros h Hbody Hskip Hg. revert h. induction vs as [|v vs IH]; intros h Hwf Hsn.
  { exists (mServerSidePropStore h). rewrite set_store_id. split_and!; [done..|].
    split; [done|lia|done|exists []; by rewrite app_nil_r]. }
  destruct Hsn as [Htl Hst Hnd]. set (s := mServerSidePropStore h) in *.
  destruct (Hst v) as [Hp Hv]; [by left|]. cbn in Hnd. apply NoDup_cons in Hnd as [Hnew Hnd].
  assert (Htest : (test v = true) ∨ (test v = false)) by (destruct (test v); auto).
  destruct Htest as [Ht|Ht].
  - destruct (Hg v) as [Hgp Hga]. assert (Hgk : key (g v) = key v) by (unfold key; by rewrite Hgp, Hga).
    destruct (wf_configured _ _ Hwf p (key v) v Hv) as (c & Hc & Hac).
    destruct (rewrite_one s h (g v) c eq_refl Hwf) as (s1 & E1 & Hwf1 & Hreg1 & Hr1 & Hst1 & Hem1).
    { by rewrite Hgp, Hp. }
    { by rewrite Hgp, Hp. }
    { unfold area_configured, getAreaConfigOf in *. by rewrite Hgp, Hga. }
    rewrite Hgp, Hgk, Hp in Hst1.
    assert (Hsn1 : snapshot s1 p vs).
    { split; [by eapply tokenless_same| |done]. intros w Hw. destruct (Hst w) as [Hwp Hws]; [by right|].
      split; [done|]. rewrite Hst1, decide_False; [done|]. intros [_ He]. apply Hnew. rewrite <- He.
      apply list_elem_of_fmap. eauto. }
    destruct (IH (set_store s1 h) Hwf1 Hsn1) as (s' & E & Hwf' & [Ra Rb Rd (ws & Re1 & Re2)]).
    cbn [mServerSidePropStore set_store] in *.
    exists s'. cbn [for_each]. unfold mbind'. rewrite (Hbody v h _ Ht E1), E. split_and!; [done..|]. split.
    + by eapply same_registry_trans.
    + lia.
    + intros q r Hm. rewrite Rd, Hst1; [|intros w Hw; apply Hm; by right].
      apply decide_False. intros [-> ->]. by apply (Hm v); [left|..].
    + exists (set_timestamp (tick (reads s)) (g v) :: ws). rewrite filter_cons, decide_True by done. split.
      * constructor.
        -- split; [|exists (reads s); split; [lia|done]]. rewrite Rd, Hst1, Hp; [by rewrite decide_True|].
           intros w Hw _ _ He. apply Hnew. rewrite <- He. apply list_elem_of_fmap. eauto.
        -- eapply Forall2_impl; [exact Re1|]. intros a b (Hs' & k & Hk & ->).
           split; [done|]. exists k. split; [lia|done].
      * rewrite Re2, Hem1, fmap_cons. cbn [concat]. rewrite <- app_assoc. do 3 f_equal.
        apply list_fmap_ext. intros _ w _. by apply notify_one_same.
  - assert (Hsn1 : snapshot s p vs) by (split; [done|intros; apply Hst; by right|done]).
    destruct (IH h Hwf Hsn1) as (s' & E & Hwf' & [Ra Rb Rd Re]).
    exists s'. cbn [for_each]. unfold mbind'. rewrite (Hskip v h Ht). split_and!; [done..|]. split; [done..| |].
    + intros q r Hm. apply Rd. intros w Hw. apply Hm. by right.
    + by rewrite filter_cons, decide_False by congruence.
Qed.

(** The effect of rewriting: the stored values in [T] are changed by [g], with
    a time read meanwhile, and reported; nothing else changes. *)
Record updated (T : VehiclePropValue → Prop) (g : VehiclePropValue → VehiclePropValue)
    (s s' : Store) : Prop := mk_updated {
  up_registry : same_registry s s';
  up_reads : (reads s ≤ reads s')%nat;
  up_none : ∀ p r, stored s p r = None → stored s' p r = None;
  up_kept : ∀ p r o, stored s p r = Some o → ¬ T o → stored s' p r = Some o;
  up_changed : ∀ p r o, stored s p r = Some o → T o →
    ∃ k, (reads s ≤ k < reads s')%nat ∧ stored s' p r = Some (set_timestamp (tick k) (g o));
  up_events : ∃ ws, emitted s' = emitted s ++ concat (notify_one s <$> ws) ∧
    ∀ w, w ∈ ws ↔ ∃ p r o, stored s p r = Some o ∧ T o ∧ stored s' p r = Some w;
}.

Lemma updated_none T g s : (∀ p r o, stored s p r = Some o → ¬ T o) → updated T g s s.
Proof.
  intros HT. split; [done|lia|done|done| |].
  - intros p r o Ho HTo. by destruct (HT p r o Ho).
  - exists []. rewrite app_nil_r. split; [done|]. intros w. rewrite elem_of_nil. split; [done|].
    intros (p & r & o & Ho & HTo & _). by destruct (HT p r o Ho).
Qed.

Lemma updated_equiv (T U : VehiclePropValue → Prop) g s s' :
  (∀ p r o, stored s p r = Some o → T o ↔ U o) → updated T g s s' → updated U g s s'.
Proof.
  intros He [H1 H2 H3 H4 H5 (ws & H6 & H7)]. split; [done..| | |].
  - intros p r o Ho Hn. apply (H4 _ _ _ Ho). by rewrite (He _ _ _ Ho).
  - intros p r o Ho Hu. apply (H5 _ _ _ Ho). by rewrite (He _ _ _ Ho).
  - exists ws. split; [done|]. intros w. rewrite H7.
    split; intros (p & r & o & Ho & Ht & Hw); exists p, r, o; split_and!; [done| |done|done| |done];
      by apply (He _ _ _ Ho).
Qed.

(** Two rewritings of values that differ in their properties or areas. *)
Lemma updated_compose (T U : VehiclePropValue → Prop) g s s1 s2 :
  (∀ o, T o → ¬ U o) → (∀ o k, U (set_timestamp k (g o)) ↔ U o) → (∀ o, Decision (T o)) →
  updated T g s s1 → updated U g s1 s2 → updated (λ o, T o ∨ U o) g s s2.
Proof.
  intros Hd Hu Hdec [A1 A2 A3 A4 A5 (wa & A6 & A7)] [B1 B2 B3 B4 B5 (wb & B6 & B7)].
  split.
  - by eapply same_registry_trans.
  - lia.
  - auto.
  - intros p r o Ho Hn. apply B4; [apply A4; tauto|tauto].
  - intros p r o Ho [Ht|Ht].
    + destruct (A5 p r o Ho Ht) as (k & Hk & E). exists k. split; [lia|]. apply (B4 _ _ _ E).
      rewrite Hu. by apply Hd.
    + assert (¬ T o) as Hn by (intros HT; by apply (Hd o)). destruct (B5 p r o (A4 p r o Ho Hn) Ht) as (k & Hk & E).
      exists k. split; [lia|done].
  - exists (wa ++ wb). split.
    + rewrite B6, A6, <- app_assoc, fmap_app, concat_app. do 3 f_equal. apply list_fmap_ext.
      intros _ w _. by apply notify_one_same.
    + intros w. rewrite elem_of_app, A7, B7. split.
      * intros [(p & r & o & Ho & Ht & Hw)|(p & r & o & Ho & Ht & Hw)].
        -- exists p, r, o. split_and!; [done|by left|]. apply B4; [done|].
           destruct (A5 p r o Ho Ht) as (k & _ & E). rewrite Hw in E. injection E as ->.
           rewrite Hu. by apply Hd.
        -- exists p, r. destruct (stored s p r) as [o0|] eqn:Ho0; [|by rewrite (A3 _ _ Ho0) in Ho].
           exists o0. destruct (Hdec o0) as [HT|HT]; [|rewrite (A4 _ _ _ Ho0 HT) in Ho; injection Ho as ->; eauto].
           destruct (A5 p r o0 Ho0 HT) as (k & _ & E). rewrite Ho in E. injection E as ->.
           exfalso. apply (Hd o0 HT). by apply Hu in Ht.
      * intros (p & r & o & Ho & Ht & Hw). destruct (Hdec o) as [HT|HT].
        -- left. exists p, r, o. split_and!; [done..|]. destruct (A5 p r o Ho HT) as (k & _ & E).
           rewrite E. rewrite (B4 _ _ _ E) in Hw; [done|]. rewrite Hu. by apply Hd.
        -- right. exists p, r, o. split_and!; [by apply A4|tauto|done].
Qed.

(** Rewriting from a complete snapshot. *)
Lemma rewritten_updated test g p vs s s' : store_wf s → snapshot s p vs →
  (∀ r o, stored s p r = Some o → o ∈ vs ∧ key o = r ∧ prop o = p) →
  (∀ v, prop (g v) = prop v ∧ areaId (g v) = areaId v) →
  rewritten test g vs s s' → updated (λ o, prop o = p ∧ test o = true) g s s'.
Proof.
  intros Hwf [Htl Hst Hnd] Hall Hg [Ra Rb Rd (ws & Re1 & Re2)].
  assert (Hhit : ∀ v, v ∈ vs → test v = true → ∃ w, w ∈ ws ∧ stored s' p (key v) = Some w ∧
    ∃ k, (reads s ≤ k < reads s')%nat ∧ w = set_timestamp (tick k) (g v)).
  { intros v Hv Ht. assert (v ∈ filter (λ v, test v = true) vs) as Hf by (by apply list_elem_of_filter).
    apply list_elem_of_lookup in Hf as [i Hi]. destruct (Forall2_lookup_l _ _ _ _ _ Re1 Hi) as (w & Hw & Hs & Hk).
    exists w. split; [by eapply list_elem_of_lookup_2|]. destruct (Hst v Hv) as [<- _]. done. }
  split; [done..| | | |].
  - intros q r Hn. rewrite Rd; [done|]. intros v Hv _ <- <-. destruct (Hst v Hv) as [Hp Hs]. rewrite Hp in Hn. congruence.
  - intros q r o Ho Hn. rewrite Rd; [done|]. intros v Hv Ht <- <-. destruct (Hst v Hv) as [Hp Hs].
    rewrite Hp, Hs in Ho. injection Ho as <-. by apply Hn.
  - intros q r o Ho [Hp Ht]. assert (q = p) as -> by (destruct (wf_inv _ _ Hwf q r o Ho) as (? & _); congruence).
    destruct (Hall r o Ho) as (Hv & <- & _). destruct (Hhit o Hv Ht) as (w & _ & E & k & Hk & ->). eauto.
  - exists ws. split; [done|]. intros w. split.
    + intros Hw. apply list_elem_of_lookup in Hw as [i Hi].
      destruct (Forall2_lookup_r _ _ _ _ _ Re1 Hi) as (v & Hv & Hs & _).
      apply list_elem_of_lookup_2, list_elem_of_filter in Hv as [Ht Hv]. destruct (Hst v Hv) as [Hp Ho].
      exists p, (key v), v. rewrite <- Hp at 3. done.
    + intros (q & r & o & Ho & [Hp Ht] & Hw).
      assert (q = p) as -> by (destruct (wf_inv _ _ Hwf q r o Ho) as (? & _); congruence).
      destruct (Hall r o Ho) as (Hv & <- & _). destruct (Hhit o Hv Ht) as (w' & Hin & E & _).
      rewrite Hw in E. by injection E as ->.
Qed.

(** Reading the values of a property gives a snapshot of all of them. *)
Lemma read_snapshot s p vs : store_wf s → tokenless s p → readValuesForProperty p s = Ok vs →
  snapshot s p vs ∧ ∀ r o, stored s p r = Some o → o ∈ vs ∧ key o = r ∧ prop o = p.
Proof.
  intros Hwf Ht Hr. unfold readValuesForProperty, getRecordLocked in Hr.
  destruct (mRecordsByPropId s !! p) as [rec|] eqn:Hrec; [|done]. injection Hr as <-.
  assert (Hst : ∀ r, stored s p r = values rec !! r) by (intros; unfold stored; by rewrite Hrec).
  assert (Hkey : ∀ r o, values rec !! r = Some o → prop o = p ∧ key o = r).
  { intros r o Ho. rewrite <- Hst in Ho. by destruct (stored_key tick s p r o Hwf Ht Ho) as (? & ? & _). }
  assert (Hin : ∀ v, v ∈ map snd (map_to_list (values rec)) ↔ ∃ r, values rec !! r = Some v).
  { intros v. change (map snd) with (fmap (M:=list) (@snd RecordId VehiclePropValue)).
    rewrite list_elem_of_fmap. split.
    - intros ([r o] & -> & H). exists r. by apply elem_of_map_to_list.
    - intros [r H]. exists (r, v). split; [done|]. by apply elem_of_map_to_list. }
  assert (Hmap : key <$> map snd (map_to_list (values rec)) = (map_to_list (values rec)).*1).
  { change (map snd) with (fmap (M:=list) (@snd RecordId VehiclePropValue)).
    rewrite <- list_fmap_compose. apply list_fmap_ext. intros i [r o] H. cbn.
    apply (Hkey r). apply elem_of_map_to_list. by eapply list_elem_of_lookup_2. }
  split.
  - split; [done| |].
    + intros v [r Hv]%Hin. destruct (Hkey r v Hv) as [? <-]. by rewrite Hst.
    + rewrite Hmap. apply NoDup_fst_map_to_list.
  - intros r o Ho. rewrite Hst in Ho. destruct (Hkey r o Ho). split_and!; [|done..]. apply Hin. eauto.
Qed.
End rewriting.

(** ** The loops of the HVAC rules *)

Section hvac_loops.
  Context (tick : nat → Z) (tick_mono : ∀ i j, (i ≤ j)%nat → tick i ≤ tick j).
Notation store_wf := (store_wf tick).
Notation updated := (updated tick).

Definition powerStatus (x : Z) : Z :=
  if x =? 0 then VehiclePropertyStatus.UNAVAILABLE else VehiclePropertyStatus.AVAILABLE.

(** [a] lies inside the area [outer]. *)
Definition inside (a outer : Z) : bool := Z.land a outer =? a.

Lemma ignoring_ok m h h' : m h = (h', Ok tt) → ignoring m h = (h', Ok tt).
Proof. unfold ignoring. by intros ->. Qed.

Lemma tokenless_updated s s' T g p : updated T g s s' → tokenless s p → tokenless s' p.
Proof. intros H. apply tokenless_same, H. Qed.

Lemma sendHvac_loop A x : ∀ deps h, NoDup deps → store_wf (mServerSidePropStore h) →
  (∀ p, p ∈ deps → tokenless (mServerSidePropStore h) p) →
  ∃ s', for_each deps (sendHvacProperty tick A x) h = (set_store s' h, Ok tt) ∧ store_wf s'
    ∧ updated (λ o, prop o ∈ deps ∧ inside (areaId o) A = true) (set_status (powerStatus x))
        (mServerSidePropStore h) s'.
Proof.
  induction deps as [|p deps IH]; intros h Hnd Hwf Htl.
  { exists (mServerSidePropStore h). rewrite set_store_id. split_and!; [done..|].
    apply updated_none. intros q r o _ [Hin _]. by apply not_elem_of_nil in Hin. }
  apply NoDup_cons in Hnd as [Hnew Hnd]. set (s := mServerSidePropStore h) in *.
  assert (∃ s1, sendHvacProperty tick A x p h = (set_store s1 h, Ok tt) ∧ store_wf s1
      ∧ updated (λ o, prop o = p ∧ inside (areaId o) A = true) (set_status (powerStatus x)) s s1)
    as (s1 & E1 & Hwf1 & Hup1).
  { unfold sendHvacProperty. unfold mbind' at 1, readStore. fold s.
    destruct (readValuesForProperty p s) as [vs|e] eqn:Hread.
    - destruct (read_snapshot tick s p vs Hwf (Htl p ltac:(left)) Hread) as [Hsn Hall].
      edestruct (rewrite_loop tick tick_mono (λ v, inside (areaId v) A) (set_status (powerStatus x)) p)
        as (s1 & E & Hwf1 & Hrw); [| | |exact Hwf|exact Hsn|].
      4: { exists s1. split; [exact E|]. split; [done|]. by eapply rewritten_updated. }
      + intros v h0 h1 Ht Hw. cbn beta. unfold inside in Ht. rewrite Ht. exact (ignoring_ok _ _ _ Hw).
      + intros v h0 Ht. cbn beta. unfold inside in Ht. by rewrite Ht.
      + done.
    - exists s. replace (set_store s h) with h by (unfold s; by rewrite set_store_id).
      split_and!; [done..|]. apply updated_none.
      intros q r o Ho [Hp _]. unfold readValuesForProperty, getRecordLocked in Hread.
      destruct (wf_inv _ _ Hwf q r o Ho) as (Hq & _). unfold stored in Ho. rewrite <- Hq, Hp in Ho.
      by destruct (mRecordsByPropId s !! p). }
  destruct (IH (set_store s1 h) Hnd Hwf1) as (s2 & E2 & Hwf2 & Hup2).
  { intros q Hq. eapply tokenless_updated; [exact Hup1|]. apply Htl. by right. }
  exists s2. cbn [for_each]. unfold mbind' at 1. rewrite E1, E2. split_and!; [done..|].
  eapply updated_equiv; [|eapply updated_compose; [| | |exact Hup1|exact Hup2]].
  - intros q r o _. rewrite elem_of_cons. cbn. tauto.
  - intros o [Hp _] [Hin _]. rewrite Hp in Hin. done.
  - done.
  - intros o. apply _.
Qed.

Lemma sendHvac_spec A x h : NoDup (hvacPowerDependentProps h) → store_wf (mServerSidePropStore h) →
  (∀ p, p ∈ hvacPowerDependentProps h → tokenless (mServerSidePropStore h) p) →
  ∃ s', sendHvacPropertiesCurrentValues tick A x h = (set_store s' h, Ok tt) ∧ store_wf s'
    ∧ updated (λ o, prop o ∈ hvacPowerDependentProps h ∧ inside (areaId o) A = true)
        (set_status (powerStatus x)) (mServerSidePropStore h) s'.
Proof. intros. by apply sendHvac_loop. Qed.

(** The temperatures [synchronizeHvacTemp] writes again. *)
Definition synced (dual : Z) (v : VehiclePropValue) : bool :=
  (Z.land dual (areaId v) =? areaId v) && (status v =? VehiclePropertyStatus.AVAILABLE).
Definition with_temp (t : f32) (v : VehiclePropValue) : VehiclePropValue :=
  with_floats (t :: tail (floatValues (value v))) v.

Lemma synchronize_loop_for_each dual t vs : ∀ h,
  (∀ v, v ∈ vs → synced dual v = true → floatValues (value v) ≠ []) →
  synchronize_loop tick dual (Some t) vs h =
  for_each vs (λ v, if synced dual v then rewriteM tick (with_temp t v) else mreturn tt) h.
Proof.
  induction vs as [|v vs IH]; intros h Hne; [done|]. cbn [synchronize_loop for_each].
  assert (Hn : negb (Z.land dual (areaId v) =? areaId v) || negb (status v =? VehiclePropertyStatus.AVAILABLE)
    = negb (synced dual v)) by (unfold synced; by rewrite negb_andb).
  rewrite Hn. pose proof (Hne v ltac:(left)) as Hv.
  destruct (synced dual v); cbn [negb].
  - destruct (floatValues (value v)) as [|t0 rest] eqn:Hf; [by destruct Hv|].
    unfold rewriteM, with_temp. rewrite Hf. cbn [tail]. unfold mbind', elapsedRealtimeNano.
    destruct (writeM _ _ _ _ _ _) as [h1 [[]|e]]; [|done]. apply IH. intros; apply Hne; [by right|done].
  - unfold mbind', mreturn. apply IH. intros; apply Hne; [by right|done].
Qed.

Lemma synchronize_spec dual t h c : store_wf (mServerSidePropStore h) →
  tokenless (mServerSidePropStore h) VehicleProperty.HVAC_TEMPERATURE_SET →
  getPropConfig VehicleProperty.HVAC_TEMPERATURE_SET (mServerSidePropStore h) = Ok c →
  (∀ r o, stored (mServerSidePropStore h) VehicleProperty.HVAC_TEMPERATURE_SET r = Some o →
     floatValues (value o) ≠ []) →
  ∃ s', synchronizeHvacTemp tick dual (Some t) h = (set_store s' h, Ok tt) ∧ store_wf s'
    ∧ updated (λ o, prop o = VehicleProperty.HVAC_TEMPERATURE_SET ∧ synced dual o = true) (with_temp t)
        (mServerSidePropStore h) s'.
Proof.
  intros Hwf Htl Hc Hne. set (s := mServerSidePropStore h) in *.
  unfold synchronizeHvacTemp, mbind', readStore. fold s.
  destruct (readValuesForProperty VehicleProperty.HVAC_TEMPERATURE_SET s) as [vs|e] eqn:Hread.
  2: { unfold readValuesForProperty, getPropConfig in *. by destruct (getRecordLocked _ _). }
  destruct (read_snapshot tick s _ vs Hwf Htl Hread) as [Hsn Hall].
  rewrite synchronize_loop_for_each.
  2: { intros v Hv _. destruct (sn_stored _ _ _ Hsn v Hv) as [_ Hs]. by apply (Hne (key v)). }
  edestruct (rewrite_loop tick tick_mono (synced dual) (with_temp t) VehicleProperty.HVAC_TEMPERATURE_SET)
    as (s1 & E & Hwf1 & Hrw); [| | |exact Hwf|exact Hsn|].
  4: { exists s1. split; [exact E|]. split; [done|]. by eapply rewritten_updated. }
  - intros v h0 h1 Ht Hw. cbn beta. by rewrite Ht.
  - intros v h0 Ht. cbn beta. by rewrite Ht.
  - done.
Qed.
End hvac_loops.

(** ** The state of the hardware *)

Record hw_ok (tick : nat → Z) (maxVec maxSize : Z) (h : HW) : Prop := mk_hw_ok {
  ok_store : store_wf tick (mServerSidePropStore h);
  ok_pool : pool_inv maxVec maxSize (mValuePool (mFakeUserHal h));
}.

(** Property [p] is registered, has no token function and configures the area
    of [v]. *)
Definition accepts (s : Store) (v : VehiclePropValue) : Prop :=
  tokenless s (prop v) ∧ ∃ c, getPropConfig (prop v) s = Ok c ∧ area_configured c v.

Lemma getPropType_poolable p : getPropType p mod 65536 = 0 ∧ in_i32 (getPropType p).
Proof.
  unfold getPropType. split.
  - change 65536 with (2 ^ 16). rewrite <- Z.land_ones by lia.
    rewrite <- Z.land_assoc. change (Z.land VehiclePropertyType.MASK (Z.ones 16)) with 0. apply Z.land_0_r.
  - assert (H : Z.land p VehiclePropertyType.MASK = Z.land p VehiclePropertyType.MASK mod 2 ^ 24).
    { rewrite <- Z.land_ones by lia. by rewrite <- Z.land_assoc. }
    pose proof (Z.mod_pos_bound (Z.land p VehiclePropertyType.MASK) (2 ^ 24) ltac:(lia)).
    unfold in_i32, two31 in *. lia.
Qed.

(** Tests between constants of the sources. *)
Ltac closed_tests :=
  repeat match goal with
  | |- context [Z.eqb ?a ?b] =>
      let r := eval vm_compute in (Z.eqb a b) in
      match r with true => change (Z.eqb a b) with true | false => change (Z.eqb a b) with false end
  | |- context [Z.leb ?a ?b] =>
      let r := eval vm_compute in (Z.leb a b) in
      match r with true => change (Z.leb a b) with true | false => change (Z.leb a b) with false end
  | |- context [Z.ltb ?a ?b] =>
      let r := eval vm_compute in (Z.ltb a b) in
      match r with true => change (Z.ltb a b) with true | false => change (Z.ltb a b) with false end
  end; cbn [orb andb negb].

Section laws.
  Context (tick : nat → Z) (tick_mono : ∀ i j, (i ≤ j)%nat → tick i ≤ tick j).
  Context (uninit_size maxVec maxSize : Z) (Hcfg : pool_config_ok maxVec maxSize).
Notation hw_ok := (hw_ok tick maxVec maxSize).
Notation obtainCopyM := (obtainCopyM uninit_size).
Notation setValue := (setValue tick uninit_size).
Notation getValue := (getValue tick uninit_size).
Notation elapsedRealtimeNano := (elapsedRealtimeNano tick).
Notation createApPowerStateReq := (createApPowerStateReq tick uninit_size).
Notation createAdasStateReq := (createAdasStateReq tick uninit_size).

Lemma obtainCopyM_spec v h : hw_ok h →
  ∃ h', obtainCopyM v h = (h', Ok v) ∧ hw_ok h' ∧ mServerSidePropStore h' = mServerSidePropStore h
    ∧ hvacPowerDependentProps h' = hvacPowerDependentProps h.
Proof.
  intros [Hs Hp]. destruct (getPropType_poolable (prop v)) as [Ht Hi].
  pose proof (obtainVec_spec uninit_size _ _ Hcfg (mValuePool (mFakeUserHal h)) (getPropType (prop v))
    (getVehicleRawValueVectorSize (value v) (getPropType (prop v))) Hp Ht Hi) as H.
  unfold FakeHardwareValues.obtainCopyM, withPool, obtainCopy, mbind'.
  destruct (obtainVec _ _ _ _) as [r p']. cbn. eexists. split.
  - f_equal. f_equal. by destruct v as [? ? ? ? []].
  - split; [|done]. split; [done|]. apply H.
Qed.

Lemma obtainM_spec type n h : hw_ok h → type mod 65536 = 0 → in_i32 type →
  ∃ h' o, obtainM uninit_size type n h = (h', Ok o) ∧ hw_ok h' ∧ mServerSidePropStore h' = mServerSidePropStore h
    ∧ hvacPowerDependentProps h' = hvacPowerDependentProps h
    ∧ same_shape (value o) (value (createVehiclePropValueVec type n)).
Proof.
  intros [Hs Hp] Ht Hi.
  pose proof (obtainVec_spec uninit_size _ _ Hcfg (mValuePool (mFakeUserHal h)) type n Hp Ht Hi) as H.
  unfold obtainM, withPool, mbind'. destruct (obtainVec _ _ _ _) as [r p']. destruct H as [H1 H2]. cbn.
  eexists _, _. split; [done|]. split; [by split|done].
Qed.

(** A value of the shape of two integers, or one, holds nothing else. *)
Lemma shape_ints o ty n : same_shape (value o) (value (createVehiclePropValueVec ty n)) →
  (ty = VehiclePropertyType.INT32_VEC ∨ ty = VehiclePropertyType.INT32 ∧ n = 1%nat) →
  length (int32Values (value o)) = n ∧ ∀ l, value (with_ints l o) = mkRaw l [] [] [] "".
Proof.
  intros (H1 & H2 & H3 & H4 & H5) Hty. destruct o as [? ? ? ? [i f i64 b str]].
  assert (length i = n ∧ length f = 0%nat ∧ length i64 = 0%nat ∧ length b = 0%nat ∧ String.length str = 0%nat)
    as (Hi & Hf & H64 & Hb & Hstr).
  { destruct Hty as [->|[-> ->]]; cbn in *; rewrite ?length_vec_resize in H1; done. }
  split; [done|]. intros l. unfold with_ints. cbn.
  destruct f; [|done]. destruct i64; [|done]. destruct b; [|done]. by destruct str.
Qed.

Lemma elapsed_spec h : hw_ok h →
  elapsedRealtimeNano h = (set_store (bump_clock (mServerSidePropStore h)) h, Ok (tick (reads (mServerSidePropStore h))))
  ∧ hw_ok (set_store (bump_clock (mServerSidePropStore h)) h).
Proof. intros [Hs Hp]. split; [done|]. split; [by apply bump_wf|done]. Qed.

Lemma createApPowerStateReq_spec st param h : hw_ok h →
  ∃ h', createApPowerStateReq st param h =
      (h', Ok (mkPropValue (tick (reads (mServerSidePropStore h))) 0 VehicleProperty.AP_POWER_STATE_REQ
                 VehiclePropertyStatus.AVAILABLE (mkRaw [st; param] [] [] [] "")))
    ∧ hw_ok h' ∧ mServerSidePropStore h' = bump_clock (mServerSidePropStore h)
    ∧ hvacPowerDependentProps h' = hvacPowerDependentProps h.
Proof.
  intros Hok. unfold FakeHardwareValues.createApPowerStateReq.
  destruct (obtainM_spec VehiclePropertyType.INT32_VEC 2 h Hok) as (h1 & o & E & Hok1 & Hs1 & Hd1 & Hsh);
    [done|done|].
  destruct (shape_ints _ _ _ Hsh (or_introl eq_refl)) as [Hl Hv].
  unfold mbind'. rewrite E. destruct (elapsed_spec h1 Hok1) as [-> Hok2]. rewrite Hs1 in *.
  destruct (int32Values (value o)) as [|x [|y [|]]]; try done.
  eexists. split; [|split_and!; [exact Hok2|done|done]]. unfold stamp. by rewrite Hv.
Qed.

Lemma createAdasStateReq_spec p a st h : hw_ok h →
  ∃ h', createAdasStateReq p a st h =
      (h', Ok (mkPropValue (tick (reads (mServerSidePropStore h))) a p
                 VehiclePropertyStatus.AVAILABLE (mkRaw [st] [] [] [] "")))
    ∧ hw_ok h' ∧ mServerSidePropStore h' = bump_clock (mServerSidePropStore h)
    ∧ hvacPowerDependentProps h' = hvacPowerDependentProps h.
Proof.
  intros Hok. unfold FakeHardwareValues.createAdasStateReq.
  destruct (obtainM_spec VehiclePropertyType.INT32 1 h Hok) as (h1 & o & E & Hok1 & Hs1 & Hd1 & Hsh);
    [done|done|].
  destruct (shape_ints _ _ _ Hsh (or_intror (conj eq_refl eq_refl))) as [Hl Hv].
  unfold mbind'. rewrite E. destruct (elapsed_spec h1 Hok1) as [-> Hok2]. rewrite Hs1 in *.
  destruct (int32Values (value o)) as [|x [|]]; try done.
  eexists. split; [|split_and!; [exact Hok2|done|done]]. unfold stamp. by rewrite Hv.
Qed.

(** A write of a value no older than the clock. *)
Lemma writeM_spec v us m h : hw_ok h → accepts (mServerSidePropStore h) v →
  timestamp v ≤ tick (reads (mServerSidePropStore h)) →
  (∀ o, stored (mServerSidePropStore h) (prop v) (key v) = Some o → timestamp o ≤ timestamp v) →
  let s := mServerSidePropStore h in
  let v' := write_status us (stored s (prop v) (key v)) v in
  ∃ h', writeM tick v us m false h = (h', Ok tt) ∧ hw_ok h' ∧ same_registry s (mServerSidePropStore h')
    ∧ reads (mServerSidePropStore h') = reads s
    ∧ hvacPowerDependentProps h' = hvacPowerDependentProps h
    ∧ (∀ p r, stored (mServerSidePropStore h') p r =
         if decide (p = prop v ∧ r = key v) then Some v' else stored s p r)
    ∧ emitted (mServerSidePropStore h') = emitted s ++ write_events s m (stored s (prop v) (key v)) v'.
Proof.
  intros [Hs Hp] (Htl & c & Hc & Ha) Hts Hold s v'.
  destruct (write_at tick s v us m c Htl Hc Ha Hold) as (s' & E & Hreg & Hr & Hst & Hem).
  pose proof (write_wf tick tick_mono s v us m false (or_intror Hts) Hs) as Hwf. rewrite E in Hwf.
  exists (set_store s' h). unfold writeM. fold s. rewrite E. split_and!; [done|by split|done..].
Qed.

Lemma accepts_same s s' v : same_registry s s' → accepts s v → accepts s' v.
Proof.
  intros Hr (Ht & c & Hc & Ha). split; [by eapply tokenless_same|]. exists c.
  by rewrite (proj1 (proj2 Hr)).
Qed.

(** A stored value of a tokenless property is not from the future. *)
Lemma stored_past h p r o : hw_ok h → stored (mServerSidePropStore h) p r = Some o →
  timestamp o ≤ tick (reads (mServerSidePropStore h)).
Proof. intros [Hs _] Ho. by destruct (wf_inv _ _ Hs p r o Ho) as (_ & _ & ?). Qed.

(** ** Plain properties *)

Definition specialProps : list Z :=
  [OBD2_FREEZE_FRAME; OBD2_FREEZE_FRAME_INFO; OBD2_FREEZE_FRAME_CLEAR; ECHO_REVERSE_BYTES;
   VENDOR_PROPERTY_FOR_ERROR_CODE_TESTING; VehicleProperty.AP_POWER_STATE_REPORT;
   VehicleProperty.SHUTDOWN_REQUEST; VehicleProperty.VEHICLE_MAP_SERVICE; VehicleProperty.HVAC_POWER_ON;
   VehicleProperty.HVAC_TEMPERATURE_VALUE_SUGGESTION; VehicleProperty.HVAC_TEMPERATURE_SET;
   VehicleProperty.HVAC_DUAL_ON; VehicleProperty.LANE_CENTERING_ASSIST_COMMAND;
   VehicleProperty.CRUISE_CONTROL_COMMAND; VehicleProperty.CRUISE_CONTROL_TARGET_SPEED;
   VehicleProperty.ADAPTIVE_CRUISE_CONTROL_TARGET_TIME_GAP;
   VehicleProperty.ADAPTIVE_CRUISE_CONTROL_LEAD_VEHICLE_MEASURED_DISTANCE].

(** No rule treats the property specially. *)
Definition plain (service : option PowerController) (h : HW) (p : Z) : bool :=
  negb (isVendorTestProp p || isSupported p || existsb (Z.eqb p) (hvacPowerDependentProps h)
        || existsb (Z.eqb p) specialProps
        || bool_decide (is_Some (adasDependentProps p mAdasEnabledPropToAdasPropWithErrorState))
        || (isPowerProp p && bool_decide (is_Some service))).

Lemma plain_spec service h p : plain service h p = true →
  isVendorTestProp p = false ∧ isSupported p = false ∧ existsb (Z.eqb p) (hvacPowerDependentProps h) = false
  ∧ Forall (λ q, (p =? q) = false) specialProps
  ∧ adasDependentProps p mAdasEnabledPropToAdasPropWithErrorState = None
  ∧ (if isPowerProp p then service else None) = None.
Proof.
  unfold plain. rewrite negb_true_iff, !orb_false_iff. intros [[[[[H1 H2] H3] H4] H5] H6].
  split_and!; [done..| | |].
  - apply Forall_forall. intros q Hq. rewrite <- not_true_iff_false, existsb_exists in H4.
    apply not_true_iff_false. intros He. apply H4. exists q. split; [by apply list_elem_of_In|done].
  - apply bool_decide_eq_false in H5. by destruct (adasDependentProps _ _); [destruct H5|].
  - destruct (isPowerProp p); [|done]. cbn in H6. apply bool_decide_eq_false in H6.
    by destruct service; [destruct H6|].
Qed.

Ltac use_plain H :=
  let H1 := fresh in let H2 := fresh in let H3 := fresh in let H4 := fresh in let H5 := fresh in
  apply plain_spec in H as (H1 & H2 & H3 & H4 & H5 & ?); unfold specialProps in H4;
  repeat (let E := fresh "E" in apply Forall_cons in H4 as [E H4]).

Lemma plain_set service v h : plain service h (prop v) = true →
  maybeSetSpecialValue tick uninit_size v h = (h, Ok false).
Proof.
  intros Hp. use_plain Hp. unfold maybeSetSpecialValue.
  rewrite H, H0. unfold mbind', mget, isHvacPropAndHvacNotAvailable. rewrite H1, H3.
  rewrite E1, E3, E4, E5, E6, E7, E8, E9, E10, E11, E12, E14. unfold mreturn. by destruct (_ || _).
Qed.

Lemma plain_get service v h : plain service h (prop v) = true →
  maybeGetSpecialValue tick uninit_size service v h = (h, Ok None).
Proof.
  intros Hp. use_plain Hp. unfold maybeGetSpecialValue.
  rewrite H4, H, H0. unfold mbind', mget, isHvacPropAndHvacNotAvailable. rewrite H1.
  by rewrite E, E0, E2, E3, E13, E14, E15.
Qed.

(** A value stamped with the present time is never outdated. *)
Lemma stamped_admissible v h : hw_ok h → tokenless (mServerSidePropStore h) (prop v) →
  admissible (mServerSidePropStore h) (stamped tick true (mServerSidePropStore h) v) ↔ accepts (mServerSidePropStore h) v.
Proof.
  intros Hok Htl. set (s := mServerSidePropStore h). set (v1 := stamped tick true s v). split.
  - intros (rec & Hrec & Ha & _). split; [done|]. exists (propConfig rec). split; [|exact Ha].
    unfold getPropConfig, getRecordLocked. change (prop v1) with (prop v) in Hrec. by rewrite Hrec.
  - intros (_ & c & Hc & Ha). unfold getPropConfig, getRecordLocked in Hc.
    change (prop v) with (prop v1) in Hc. destruct (mRecordsByPropId s !! prop v1) as [rec|] eqn:Hrec; [|done].
    injection Hc as <-. exists rec. split_and!; [done|exact Ha|]. intros o Ho.
    apply (stored_past h (prop v1) (getRecordIdLocked v1 rec) o Hok). unfold stored. fold s. by rewrite Hrec.
Qed.

(** Setting a plain property is one write of the store. *)
Lemma plain_setValue service v h : hw_ok h → plain service h (prop v) = true →
  ∃ h1, mServerSidePropStore h1 = mServerSidePropStore h ∧ hvacPowerDependentProps h1 = hvacPowerDependentProps h ∧
    setValue v h =
      let '(s', r) := writeValue tick v false ON_VALUE_CHANGE true (mServerSidePropStore h) in
      (set_store s' h1, match r with Ok _ => Ok tt | Err c => Err (Failed c) end).
Proof.
  intros Hok Hp. destruct (obtainCopyM_spec v h Hok) as (h1 & E1 & _ & Hs1 & Hd1).
  exists h1. split_and!; [done..|].
  unfold FakeHardwareValues.setValue, mbind'. rewrite (plain_set service v h Hp), E1.
  unfold writeM. rewrite Hs1. by destruct (writeValue _ _ _ _ _ _).
Qed.

(** What a plain property reads after it was set. *)
Lemma plain_set_accepted service v h :
  hw_ok h → plain service h (prop v) = true → accepts (mServerSidePropStore h) v →
  let s := mServerSidePropStore h in
  let old := stored s (prop v) (key v) in
  let w := write_status false old (set_timestamp (tick (reads s)) v) in
  ∃ h', setValue v h = (h', Ok tt)
    ∧ (∀ q, prop q = prop v → isGlobalProp (prop v) = true ∨ areaId q = areaId v →
         getValue service q h' = (h', Ok w))
    ∧ (∀ p r, (p, r) ≠ (prop v, key v) → stored (mServerSidePropStore h') p r = stored s p r)
    ∧ emitted (mServerSidePropStore h') =
        emitted s ++ (if changes old w then notify_one s w else []).
Proof.
  intros Hok Hp Ha s. pose proof (proj1 Ha) as Htl.
  destruct (plain_setValue service v h Hok Hp) as (h1 & Hs1 & Hd1 & Hset). fold s in Hs1, Hset.
  destruct (writeValue tick v false ON_VALUE_CHANGE true s) as [s' res] eqn:Ew.
  pose proof (writeValue_effect tick s v false ON_VALUE_CHANGE true) as H.
  pose proof (write_registry tick s v false ON_VALUE_CHANGE true) as Hreg.
  rewrite Ew in H, Hreg. cbn zeta in H. cbn [fst] in Hreg. destruct H as (Hres & _ & Hacc).
  set (v1 := stamped tick true s v) in *.
  assert (Hadm : admissible s v1) by by apply stamped_admissible.
  pose proof Hadm as (rec & Hrec & _).
  destruct (Hacc rec Hadm Hrec) as [Hem Hst]. destruct Ha as (_ & c & Hc & _).
  assert (Hk : getRecordIdLocked v1 rec = key v).
  { pose proof (record_of_key s v1 c Htl Hc) as Hr. unfold record_of in Hr.
    rewrite Hrec in Hr. by apply (inj Some) in Hr. }
  assert (Hold : values rec !! getRecordIdLocked v1 rec = stored s (prop v) (key v)).
  { unfold stored. change (prop v) with (prop v1) at 1. by rewrite Hrec, Hk. }
  rewrite Hold in *. rewrite Hk in *. change (prop v1) with (prop v) in *.
  exists (set_store s' h1). rewrite Hset, (proj2 Hres Hadm). split_and!; [done| | |exact Hem].
  + intros q Hq Harea. unfold FakeHardwareValues.getValue, mbind'.
    rewrite plain_get by (unfold plain in *; cbn; by rewrite Hd1, Hq).
    unfold readStore, readValue, readValueLocked. cbn [mServerSidePropStore set_store]. rewrite Hq.
    assert (Hrk : record_of s' q = Some (key v)).
    { rewrite (proj1 Hreg). rewrite (record_of_key s q c) by (by rewrite Hq). unfold key. rewrite Hq.
      destruct (isGlobalProp (prop v)); [done|]. by destruct Harea as [ | -> ]. }
    unfold record_of in Hrk. rewrite Hq in Hrk. unfold getRecordLocked.
    pose proof (Hst (prop v) (key v)) as Hv. rewrite decide_True in Hv by done. unfold stored in Hv.
    destruct (mRecordsByPropId s' !! prop v) as [rec'|]; [|done]. apply (inj Some) in Hrk. by rewrite Hrk, Hv.
  + intros p r Hne. cbn. rewrite Hst. apply decide_False. intros [-> ->]. done.
Qed.

(** C24: In a well-formed state, a property no rule treats specially, with no
    token function, reads back what was set: the value with the time of the write and the status it had, for every request of the
    same area; a set is refused, without effect, exactly when the property is
    not registered or the area not configured. *)
Theorem set_then_get service v h :
  hw_ok h → plain service h (prop v) = true → tokenless (mServerSidePropStore h) (prop v) →
  let s := mServerSidePropStore h in
  (accepts s v →
     let old := stored s (prop v) (key v) in
     let w := write_status false old (set_timestamp (tick (reads s)) v) in
     ∃ h', setValue v h = (h', Ok tt)
       ∧ (∀ q, prop q = prop v → isGlobalProp (prop v) = true ∨ areaId q = areaId v →
            getValue service q h' = (h', Ok w))
       ∧ (∀ p r, (p, r) ≠ (prop v, key v) → stored (mServerSidePropStore h') p r = stored s p r)
       ∧ emitted (mServerSidePropStore h') =
           emitted s ++ (if changes old w then notify_one s w else []))
  ∧ (¬ accepts s v →
       ∃ h', setValue v h = (h', Err (Failed INVALID_ARG))
         ∧ (∀ p r, stored (mServerSidePropStore h') p r = stored s p r)
         ∧ emitted (mServerSidePropStore h') = emitted s).
Proof.
  intros Hok Hp Htl s. split; intros Ha; [by apply plain_set_accepted|].
  destruct (plain_setValue service v h Hok Hp) as (h1 & Hs1 & Hd1 & Hset). fold s in Hs1, Hset.
  destruct (writeValue tick v false ON_VALUE_CHANGE true s) as [s' res] eqn:Ew.
  pose proof (writeValue_effect tick s v false ON_VALUE_CHANGE true) as H.
  rewrite Ew in H. cbn zeta in H. destruct H as (_ & Hrej & _).
  destruct (Hrej (λ Hadm, Ha (proj1 (stamped_admissible v h Hok Htl) Hadm))) as (-> & Hem & Hst).
  exists (set_store s' h1). by rewrite Hset.
Qed.

(** ** Power state *)

(** What a write of [v] with the present time does, whatever its other data. *)
Lemma write_now v us m h : hw_ok h → accepts (mServerSidePropStore h) v →
  let s := mServerSidePropStore h in
  let w := write_status us (stored s (prop v) (key v)) (set_timestamp (tick (reads s)) v) in
  ∃ h', (let! now := elapsedRealtimeNano in writeM tick (set_timestamp now v) us m false) h = (h', Ok tt)
    ∧ hw_ok h' ∧ same_registry s (mServerSidePropStore h')
    ∧ (reads s ≤ reads (mServerSidePropStore h'))%nat
    ∧ hvacPowerDependentProps h' = hvacPowerDependentProps h
    ∧ (∀ p r, stored (mServerSidePropStore h') p r =
         if decide (p = prop v ∧ r = key v) then Some w else stored s p r)
    ∧ emitted (mServerSidePropStore h') = emitted s ++ write_events s m (stored s (prop v) (key v)) w.
Proof.
  intros Hok Ha s w. destruct (elapsed_spec h Hok) as [E Hok1]. fold s in E, Hok1.
  destruct (writeM_spec (set_timestamp (tick (reads s)) v) us m (set_store (bump_clock s) h) Hok1)
    as (h' & E' & Hok' & Hreg & Hr & Hd & Hst & Hem).
  - exact Ha.
  - cbn. apply tick_mono. lia.
  - intros o Ho. exact (stored_past h _ _ o Hok Ho).
  - exists h'. unfold mbind'. rewrite E, E'. split_and!; [done..| |done|exact Hst|exact Hem].
    rewrite Hr. cbn. lia.
Qed.

Lemma hvac_skip p a h : p ∉ hvacPowerDependentProps h → isHvacPropAndHvacNotAvailable p a h = false.
Proof.
  intros Hn. unfold isHvacPropAndHvacNotAvailable.
  destruct (existsb (Z.eqb p) (hvacPowerDependentProps h)) eqn:E; [|done].
  apply existsb_exists in E as (q & Hq & He%Z.eqb_eq). subst q. destruct Hn. by apply list_elem_of_In.
Qed.

Definition globalKey : RecordId := mkRecordId 0 0.

(** Where a set of a property that only its own handler treats ends up. *)
Ltac reach_handler Hp :=
  unfold FakeHardwareValues.setValue; rewrite mbind_unfold; unfold maybeSetSpecialValue;
  rewrite Hp; unfold isVendorTestProp, isSupported; closed_tests; rewrite mbind_mget, hvac_skip by done;
  match goal with |- context [adasDependentProps ?p ?m] =>
    change (adasDependentProps p m) with (@None (list Z)) end;
  unfold mbind', mget, mreturn.

Lemma set_power_state v h : prop v = VehicleProperty.AP_POWER_STATE_REPORT →
  VehicleProperty.AP_POWER_STATE_REPORT ∉ hvacPowerDependentProps h →
  setValue v h = match setApPowerStateReport tick uninit_size v h with
                 | (h', Ok _) => (h', Ok tt) | (h', Err e) => (h', Err e) end.
Proof. intros Hp Hdep. reach_handler Hp. by destruct (setApPowerStateReport tick uninit_size v h) as [h' [[]|e]]. Qed.

Lemma set_suggestion v h : prop v = VehicleProperty.HVAC_TEMPERATURE_VALUE_SUGGESTION →
  VehicleProperty.HVAC_TEMPERATURE_VALUE_SUGGESTION ∉ hvacPowerDependentProps h →
  setValue v h = match setHvacTemperatureValueSuggestion tick uninit_size v h with
                 | (h', Ok _) => (h', Ok tt) | (h', Err e) => (h', Err e) end.
Proof. intros Hp Hdep. reach_handler Hp. by destruct (setHvacTemperatureValueSuggestion tick uninit_size v h) as [h' [[]|e]]. Qed.

(** Writing the answer to a report. *)
Lemma answer_written s2 h3 v3 mode : hw_ok h3 → accepts (mServerSidePropStore h3) v3 →
  mServerSidePropStore h3 = bump_clock s2 → timestamp v3 = tick (reads s2) → mode ≠ NEVER →
  (∀ o, stored (mServerSidePropStore h3) (prop v3) (key v3) = Some o → timestamp o ≤ tick (reads s2)) →
  ∃ h4, writeM tick v3 true mode false h3 = (h4, Ok tt) ∧
    (∀ p r, stored (mServerSidePropStore h4) p r = if decide (p = prop v3 ∧ r = key v3) then Some v3 else stored s2 p r) ∧
    ((mode = ALWAYS ∨ changes (stored s2 (prop v3) (key v3)) v3 = true) →
       emitted (mServerSidePropStore h4) = emitted s2 ++ notify_one s2 v3).
Proof.
  intros Hok Ha Hs Ht Hm Ho. destruct (writeM_spec v3 true mode h3 Hok) as (h4 & E & _ & _ & _ & _ & Hst & Hem).
  - exact Ha.
  - rewrite Hs, Ht. cbn. apply tick_mono. lia.
  - intros o Hso. rewrite Ht. by apply Ho.
  - exists h4. split; [done|]. cbn [write_status] in Hst, Hem. rewrite Hs in Hst, Hem. split; [exact Hst|].
    intros Hmode. rewrite Hem. change (emitted (bump_clock s2)) with (emitted s2). f_equal.
    assert (Hn : notify_one (bump_clock s2) v3 = notify_one s2 v3) by (by apply notify_one_same).
    unfold write_events. destruct mode; [|exact Hn|done]. destruct Hmode as [|Hc]; [done|].
    change (changes (stored (bump_clock s2) (prop v3) (key v3)) v3 = true) in Hc. rewrite Hc. exact Hn.
Qed.

Lemma answer_mode state req mode : powerStateAnswer state = Some (req, mode) → mode ≠ NEVER.
Proof. unfold powerStateAnswer. intros H ->. by repeat case_match. Qed.

(** The first half of a power state report: the report is stored. *)
Lemma report_written v h state rest :
  hw_ok h → prop v = VehicleProperty.AP_POWER_STATE_REPORT → int32Values (value v) = state :: rest →
  VehicleProperty.AP_POWER_STATE_REPORT ∉ hvacPowerDependentProps h →
  accepts (mServerSidePropStore h) v →
  ∃ h2 w es, let s := mServerSidePropStore h in let s2 := mServerSidePropStore h2 in
    hw_ok h2 ∧ same_registry s s2 ∧ (reads s ≤ reads s2)%nat ∧
    value w = value v ∧ timestamp w = tick (reads s) ∧ emitted s2 = emitted s ++ es ∧
    (∀ p r, stored s2 p r = if decide (p = VehicleProperty.AP_POWER_STATE_REPORT ∧ r = globalKey)
                            then Some w else stored s p r) ∧
    setValue v h = match powerStateAnswer state with
                   | Some (req, mode) =>
                       let! prop := createApPowerStateReq req 0 in writeM tick prop true mode false
                   | None => mreturn tt
                   end h2.
Proof.
  intros Hok Hp Hints Hdep Ha. pose proof (set_power_state v h Hp Hdep) as Hset.
  unfold setApPowerStateReport in Hset.
  destruct (obtainCopyM_spec v h Hok) as (h1 & E1 & Hok1 & Hs1 & Hd1).
  rewrite mbind_unfold, E1 in Hset.
  destruct (write_now v false ON_VALUE_CHANGE h1 Hok1) as (h2 & E2 & Hok2 & Hreg2 & Hr2 & Hd2 & Hst2 & Hem2);
    [by rewrite Hs1|]. rewrite Hs1 in Hreg2, Hr2, Hst2, Hem2.
  assert (Hk : key v = globalKey) by (unfold key; by rewrite Hp). rewrite Hp, Hk in Hst2.
  set (w2 := write_status _ _ _) in Hst2, Hem2.
  assert (Hw2 : value w2 = value v ∧ timestamp w2 = tick (reads (mServerSidePropStore h))).
  { unfold w2, write_status. by destruct (stored _ _ _). }
  unfold mbind' at 1 in E2. unfold mbind' at 1 in Hset.
  destruct (elapsedRealtimeNano h1) as [h1' [now|e]]; [|done]. rewrite mbind_unfold, E2, Hints in Hset.
  exists h2, w2. eexists. cbv zeta. split_and!; try done; [by destruct Hw2|by destruct Hw2|].
  rewrite Hset. match goal with |- (let (_, _) := ?y in _) = _ => by destruct y as [h3 [[]|e]] end.
Qed.

(** The power state machine.  A reported state is stored with the present
    time, and answered as the switch says: leaving sleep, a cancelled shutdown
    and WAIT_FOR_VHAL are answered by ON, always with an event; entering sleep
    and SHUTDOWN_START by FINISHED; nothing else is answered.  The answer is
    exactly [state; 0], available, stamped no earlier than the report; no other
    value changes. *)
Theorem power_state_report v h state rest :
  hw_ok h → prop v = VehicleProperty.AP_POWER_STATE_REPORT → int32Values (value v) = state :: rest →
  VehicleProperty.AP_POWER_STATE_REPORT ∉ hvacPowerDependentProps h →
  let s := mServerSidePropStore h in
  accepts s v → accepts s (mkPropValue 0 0 VehicleProperty.AP_POWER_STATE_REQ 0 emptyRaw) →
  ∃ h', setValue v h = (h', Ok tt) ∧
    let s' := mServerSidePropStore h' in
    (∃ w, stored s' VehicleProperty.AP_POWER_STATE_REPORT globalKey = Some w ∧ value w = value v
       ∧ timestamp w = tick (reads s))
    ∧ (∀ p r, p ≠ VehicleProperty.AP_POWER_STATE_REPORT → p ≠ VehicleProperty.AP_POWER_STATE_REQ →
         stored s' p r = stored s p r)
    ∧ match powerStateAnswer state with
      | Some (req, mode) => ∃ k, (reads s ≤ k)%nat ∧
          let w := mkPropValue (tick k) 0 VehicleProperty.AP_POWER_STATE_REQ
                     VehiclePropertyStatus.AVAILABLE (mkRaw [req; 0] [] [] [] "") in
          stored s' VehicleProperty.AP_POWER_STATE_REQ globalKey = Some w
          ∧ ((mode = ALWAYS ∨ changes (stored s VehicleProperty.AP_POWER_STATE_REQ globalKey) w = true) →
             ∃ es, emitted s' = emitted s ++ es ++ notify_one s w)
      | None => ∀ r, stored s' VehicleProperty.AP_POWER_STATE_REQ r
                     = stored s VehicleProperty.AP_POWER_STATE_REQ r
      end.
Proof.
  intros Hok Hp Hints Hdep s Ha Hreq.
  destruct (report_written v h state rest Hok Hp Hints Hdep Ha)
    as (h2 & w2 & es & Hok2 & Hreg2 & Hr2 & Hv2 & Ht2 & Hem2 & Hst2 & Hset). cbv zeta in *. fold s in Hreg2, Hr2, Ht2, Hem2, Hst2.
  set (s2 := mServerSidePropStore h2) in *.
  assert (Hgoal : ∀ h', (∀ p r, p ≠ VehicleProperty.AP_POWER_STATE_REQ →
       stored (mServerSidePropStore h') p r = stored s2 p r) →
    (∃ w, stored (mServerSidePropStore h') VehicleProperty.AP_POWER_STATE_REPORT globalKey = Some w
        ∧ value w = value v ∧ timestamp w = tick (reads s))
    ∧ (∀ p r, p ≠ VehicleProperty.AP_POWER_STATE_REPORT → p ≠ VehicleProperty.AP_POWER_STATE_REQ →
         stored (mServerSidePropStore h') p r = stored s p r)).
  { intros h' Hst. split.
    - exists w2. rewrite Hst by done. rewrite Hst2, decide_True by done. done.
    - intros p r H1 H2. rewrite Hst by done. rewrite Hst2. apply decide_False. naive_solver. }
  destruct (powerStateAnswer state) as [[req mode]|] eqn:Hans.
  - destruct (createApPowerStateReq_spec req 0 h2 Hok2) as (h3 & E3 & Hok3 & Hs3 & Hd3).
    rewrite mbind_unfold, E3 in Hset. fold s2 in Hset, Hs3, E3.
    set (v3 := mkPropValue (tick (reads s2)) 0 VehicleProperty.AP_POWER_STATE_REQ _ _) in *.
    assert (Hreg3 : same_registry s (mServerSidePropStore h3)) by (by rewrite Hs3).
    destruct (answer_written s2 h3 v3 mode Hok3) as (h4 & E4 & Hst4 & Hem4);
      [|exact Hs3|done|by eapply answer_mode|intros o Ho; rewrite Hs3 in Ho; exact (stored_past h2 _ _ o Hok2 Ho)|].
    { eapply (accepts_same s); [done|]. destruct Hreq as (A & c & B & C). split; [exact A|]. by exists c. }
    rewrite E4 in Hset. exists h4. split; [done|]. destruct (Hgoal h4) as [G1 G2].
    { intros p r Hne. rewrite Hst4. apply decide_False. naive_solver. }
    split_and!; [done..|]. exists (reads s2). split; [done|]. split; [by rewrite Hst4, decide_True|].
    assert (Hold : stored s2 (prop v3) (key v3) = stored s VehicleProperty.AP_POWER_STATE_REQ globalKey)
      by (rewrite Hst2; by rewrite decide_False by naive_solver).
    rewrite Hold in Hem4. intros Hmode. eexists. rewrite (Hem4 Hmode), Hem2, <- app_assoc. do 2 f_equal.
    by apply notify_one_same.
  - exists h2. split; [done|]. destruct (Hgoal h2) as [G1 G2]; [done|]. split_and!; [done..|].
    intros r. rewrite Hst2. apply decide_False. naive_solver.
Qed.

(** ** HVAC *)

Lemma hw_ok_updated h s' : hw_ok h → store_wf tick s' → hw_ok (set_store s' h).
Proof. intros [_ Hp] Hs. by split. Qed.

Definition hvac_on_request (v : VehiclePropValue) (x : Z) : Prop :=
  prop v = VehicleProperty.HVAC_POWER_ON ∧ int32Values (value v) = [x].

(** A write at the end of [setValue]. *)
Lemma final_write v h : hw_ok h → accepts (mServerSidePropStore h) v →
  let s := mServerSidePropStore h in
  let w := write_status false (stored s (prop v) (key v)) (set_timestamp (tick (reads s)) v) in
  ∃ h', (let! updatedValue := obtainCopyM v in writeM tick updatedValue false ON_VALUE_CHANGE true) h
      = (h', Ok tt) ∧ hw_ok h' ∧ same_registry s (mServerSidePropStore h')
    ∧ hvacPowerDependentProps h' = hvacPowerDependentProps h
    ∧ (∀ p r, stored (mServerSidePropStore h') p r =
         if decide (p = prop v ∧ r = key v) then Some w else stored s p r)
    ∧ emitted (mServerSidePropStore h') =
        emitted s ++ write_events s ON_VALUE_CHANGE (stored s (prop v) (key v)) w.
Proof.
  intros Hok Ha s w. destruct (obtainCopyM_spec v h Hok) as (h1 & E1 & Hok1 & Hs1 & Hd1).
  destruct (write_now v false ON_VALUE_CHANGE h1 Hok1) as (h2 & E2 & Hok2 & Hreg2 & _ & Hd2 & Hst2 & Hem2);
    [by rewrite Hs1|].
  exists h2. rewrite Hs1 in Hreg2, Hst2, Hem2. rewrite mbind_unfold, E1.
  split_and!; [|done|done|by rewrite Hd2|done|done].
  unfold mbind', FakeHardwareValues.elapsedRealtimeNano, writeM in *. cbn [mServerSidePropStore set_store] in E2.
  unfold writeValue. unfold writeValue in E2. cbn [set_timestamp] in *.
  destruct (writeStamped (set_timestamp (tick (reads (mServerSidePropStore h1))) v) false ON_VALUE_CHANGE
              (bump_clock (mServerSidePropStore h1))) as [s' r]. exact E2.
Qed.

Lemma set_hvac_power v h x : hvac_on_request v x →
  VehicleProperty.HVAC_POWER_ON ∉ hvacPowerDependentProps h →
  setValue v h = (sendHvacPropertiesCurrentValues tick (areaId v) x ;;;
                  let! updatedValue := obtainCopyM v in
                  writeM tick updatedValue false ON_VALUE_CHANGE true) h.
Proof.
  intros [Hp Hx] Hd. unfold FakeHardwareValues.setValue. rewrite !mbind_unfold. unfold maybeSetSpecialValue.
  rewrite Hp. unfold isVendorTestProp, isSupported. closed_tests. rewrite mbind_mget, hvac_skip by done.
  assert (adasDependentProps VehicleProperty.HVAC_POWER_ON
            mAdasEnabledPropToAdasPropWithErrorState = None) as -> by reflexivity.
  rewrite Hx. unfold mbind' at 1. unfold mreturn at 1. rewrite mbind_mget. cbn iota beta. rewrite mbind_unfold.
  by destruct (sendHvacPropertiesCurrentValues tick (areaId v) x h) as [h' [[]|e]].
Qed.

Lemma hvacPowerOff_covered a A x vs : (∀ o, o ∈ vs → inside a (areaId o) = true → areaId o = A) →
  (∃ o, o ∈ vs ∧ areaId o = A) → inside a A = true →
  (∀ o, o ∈ vs → areaId o = A → int32Values (value o) = [x]) →
  hvacPowerOff a vs = (x =? 0).
Proof.
  intros Huniq (o0 & Hin0 & HA) Hins Hx. unfold hvacPowerOff.
  assert (Hins0 : inside a (areaId o0) = true) by (by rewrite HA).
  destruct (List.find _ vs) as [o|] eqn:E.
  - apply List.find_some in E as [Hin He]. apply list_elem_of_In in Hin.
    rewrite (Hx o Hin); [|apply Huniq; [done|]; unfold inside; by rewrite Z.land_comm].
    apply eq_true_iff_eq. rewrite bool_decide_eq_true, Z.eqb_eq. naive_solver.
  - exfalso. apply list_elem_of_In in Hin0. apply (List.find_none _ _ E) in Hin0.
    unfold inside in Hins0. rewrite Z.land_comm in Hins0. congruence.
Qed.

(** The switch [w] of the area decides for [a]: every switch whose area contains
    [a] is it. *)
Lemma switch_decides v w a x h : hw_ok h →
  let s := mServerSidePropStore h in
  tokenless s VehicleProperty.HVAC_POWER_ON → (∃ c, getPropConfig VehicleProperty.HVAC_POWER_ON s = Ok c) →
  prop v = VehicleProperty.HVAC_POWER_ON → int32Values (value v) = [x] → value w = value v ∧ areaId w = areaId v →
  stored s VehicleProperty.HVAC_POWER_ON (key v) = Some w →
  (∀ o, stored s VehicleProperty.HVAC_POWER_ON (key o) = Some o →
     o = w ∨ (inside a (areaId o) = true → areaId o = areaId v)) →
  inside a (areaId v) = true →
  ∃ vs, readValuesForProperty VehicleProperty.HVAC_POWER_ON s = Ok vs ∧ hvacPowerOff a vs = (x =? 0).
Proof.
  intros Hok s Htl [c Hc] Hp Hx Hw Hst Hcase Ha.
  destruct (readValuesForProperty VehicleProperty.HVAC_POWER_ON s) as [vs|e] eqn:Hread.
  2: { exfalso. unfold readValuesForProperty, getPropConfig in *. by destruct (getRecordLocked _ s). }
  exists vs. split; [done|]. destruct (read_snapshot tick s _ vs (ok_store _ _ _ _ Hok) Htl Hread) as [Hsn Hall].
  destruct (Hall (key v) w Hst) as (Hwin & _ & _). apply (hvacPowerOff_covered a (areaId v) x vs).
  - intros o Hin Hins. destruct (sn_stored _ _ _ Hsn o Hin) as [_ Hso].
    destruct (Hcase o Hso) as [->|Ho]; [apply Hw|by apply Ho].
  - exists w. split; [done|apply Hw].
  - done.
  - intros o Hin HoA. destruct (sn_stored _ _ _ Hsn o Hin) as [Hpo Hso].
    assert (key o = key v) as Hk by (unfold key; by rewrite Hpo, Hp, HoA).
    rewrite Hk, Hst in Hso. injection Hso as <-. by rewrite (proj1 Hw).
Qed.

(** A value of the switch is not touched by a sweep over the dependent
    properties. *)
Lemma kept_or_none h P f s1 : hw_ok h →
  updated tick (λ o, prop o ∈ hvacPowerDependentProps h ∧ P o) f (mServerSidePropStore h) s1 →
  ∀ p o, p ∉ hvacPowerDependentProps h → stored s1 p (key o) = Some o → stored (mServerSidePropStore h) p (key o) = Some o.
Proof.
  intros Hok Hup p o Hdep Hso. destruct (stored (mServerSidePropStore h) p (key o)) as [o'|] eqn:Ho'.
  - rewrite <- Hso. symmetry. rewrite <- Ho'. rewrite Ho'. eapply up_kept; [exact Hup|done|].
    intros [Hin' _]. destruct (wf_inv _ _ (ok_store _ _ _ _ Hok) _ _ _ Ho') as [Hpp _]. by rewrite Hpp in Hin'.
  - by rewrite (up_none _ _ _ _ _ Hup _ _ Ho') in Hso.
Qed.

(** Switching the HVAC power of an area.  Every stored value of a power
    dependent property inside the area becomes unavailable when the power goes
    off and available when it comes on, with the present time and one report
    each; no other value changes but the switch itself; and from then on, in
    any area whose power that switch alone decides, getting or setting a
    dependent property is refused with NOT_AVAILABLE_DISABLED exactly when the
    power is off. *)
Theorem hvac_power_switch v h x c :
  hw_ok h → hvac_on_request v x → VehicleProperty.HVAC_POWER_ON ∉ hvacPowerDependentProps h →
  NoDup (hvacPowerDependentProps h) →
  let s := mServerSidePropStore h in
  (∀ p, p ∈ VehicleProperty.HVAC_POWER_ON :: hvacPowerDependentProps h → tokenless s p) →
  getPropConfig VehicleProperty.HVAC_POWER_ON s = Ok c → area_configured c v →
  ∃ h' s1, setValue v h = (h', Ok tt) ∧
    updated tick (λ o, prop o ∈ hvacPowerDependentProps h ∧ inside (areaId o) (areaId v) = true)
      (set_status (powerStatus x)) s s1 ∧
    (∀ p r, (p, r) ≠ (VehicleProperty.HVAC_POWER_ON, key v) →
       stored (mServerSidePropStore h') p r = stored s1 p r) ∧
    (∃ w, stored (mServerSidePropStore h') VehicleProperty.HVAC_POWER_ON (key v) = Some w
       ∧ value w = value v) ∧
    ∀ a, inside a (areaId v) = true →
      (∀ r o, stored s VehicleProperty.HVAC_POWER_ON r = Some o → inside a (areaId o) = true →
         areaId o = areaId v) →
      ∀ q, prop q ∈ hvacPowerDependentProps h → areaId q = a →
        isHvacPropAndHvacNotAvailable (prop q) a h' = (x =? 0) ∧
        (x = 0 → isVendorTestProp (prop q) = false → isSupported (prop q) = false →
           setValue q h' = (h', Err (Failed NOT_AVAILABLE_DISABLED))
           ∧ ∀ service, (if isPowerProp (prop q) then service else None) = None →
               getValue service q h' = (h', Err (Failed NOT_AVAILABLE_DISABLED))).
Proof.
  intros Hok Hreq Hdep Hnd s Htl Hc Hac. pose proof Hreq as [Hp Hx].
  destruct (sendHvac_spec tick tick_mono (areaId v) x h Hnd (ok_store _ _ _ _ Hok)) as (s1 & E1 & Hwf1 & Hup);
    [intros p Hin; apply Htl; by right|]. fold s in Hup.
  pose proof (hw_ok_updated h s1 Hok Hwf1) as Hok1. set (h1 := set_store s1 h) in *.
  destruct (final_write v h1 Hok1) as (h2 & E2 & Hok2 & Hreg2 & Hd2 & Hst2 & _).
  { eapply (accepts_same s); [apply Hup|]. split; [rewrite Hp; apply Htl; by left|].
    exists c. by rewrite Hp. }
  change (mServerSidePropStore h1) with s1 in Hreg2, Hst2. rewrite Hp in Hst2.
  set (w := write_status false _ _) in Hst2.
  assert (Hw : value w = value v ∧ areaId w = areaId v) by (unfold w, write_status; by destruct (stored s1 _ _)).
  exists h2, s1. split_and!.
  - rewrite (set_hvac_power v h x Hreq Hdep). rewrite mbind_unfold, E1. exact E2.
  - exact Hup.
  - intros p r Hne. rewrite Hst2. apply decide_False. intros [-> ->]. done.
  - exists w. split; [|apply Hw]. rewrite Hst2. by rewrite decide_True.
  - intros a Ha Huniq q Hq Hqa. assert (Hd' : hvacPowerDependentProps h2 = hvacPowerDependentProps h) by (by rewrite Hd2).
    assert (Hav : isHvacPropAndHvacNotAvailable (prop q) a h2 = (x =? 0)).
    { unfold isHvacPropAndHvacNotAvailable. rewrite Hd'.
      assert (existsb (Z.eqb (prop q)) (hvacPowerDependentProps h) = true) as ->.
      { apply existsb_exists. exists (prop q). split; [by apply list_elem_of_In|apply Z.eqb_refl]. }
      assert (Hreg : same_registry s (mServerSidePropStore h2)) by (eapply same_registry_trans; [apply Hup|done]).
      destruct (switch_decides v w a x h2 Hok2) as (vs & Hread & Hoff); [|exists c; by rewrite (proj1 (proj2 Hreg))|done|done|apply Hw|..].
      + eapply tokenless_same; [done|]. apply Htl. by left.
      + rewrite Hst2. by rewrite decide_True.
      + intros o Ho. rewrite Hst2 in Ho. case_decide as Hd; [left; by injection Ho as ->|right]. apply (Huniq (key o)).
        by apply (kept_or_none _ _ _ _ Hok Hup _ _ Hdep).
      + exact Ha.
      + by rewrite Hread. }
    split; [done|]. intros -> Hvt Hsu. split.
    + unfold FakeHardwareValues.setValue, maybeSetSpecialValue. rewrite mbind_unfold, Hvt, Hsu, mbind_mget, Hqa, Hav.
      done.
    + intros service Hsv. unfold FakeHardwareValues.getValue, maybeGetSpecialValue.
      rewrite mbind_unfold, Hsv, Hvt, Hsu, mbind_mget, Hqa, Hav. done.
Qed.

(** What the temperature rules need of the store: the temperatures are
    registered without token function, and none is empty. *)
Record temperatures_ok (s : Store) : Prop := mk_temperatures_ok {
  to_tokenless : tokenless s VehicleProperty.HVAC_TEMPERATURE_SET;
  to_config : ∃ c, getPropConfig VehicleProperty.HVAC_TEMPERATURE_SET s = Ok c;
  to_nonempty : ∀ r o, stored s VehicleProperty.HVAC_TEMPERATURE_SET r = Some o →
    floatValues (value o) ≠ [];
}.

(** While a dual area covering the request is on, setting a temperature
    gives that temperature to every available stored temperature inside the
    dual area (status, area and the rest of the value kept, the time renewed,
    one report each) and changes nothing else. *)
Theorem hvac_temperature_dual v h x dual :
  hw_ok h → prop v = VehicleProperty.HVAC_TEMPERATURE_SET → floatValues (value v) = [x] →
  isHvacPropAndHvacNotAvailable VehicleProperty.HVAC_TEMPERATURE_SET (areaId v) h = false →
  getSyncedAreaIdIfHvacDualOn (areaId v) h = Some dual →
  temperatures_ok (mServerSidePropStore h) →
  ∃ s', setValue v h = (set_store s' h, Ok tt) ∧
    updated tick (λ o, prop o = VehicleProperty.HVAC_TEMPERATURE_SET ∧ synced dual o = true) (with_temp x)
      (mServerSidePropStore h) s'.
Proof.
  intros Hok Hp Hx Hav Hdual [Htl [c Hc] Hne].
  destruct (synchronize_spec tick tick_mono dual x h c) as (s' & E & _ & Hup); [apply Hok|done..|].
  exists s'. split; [|done]. unfold FakeHardwareValues.setValue. rewrite mbind_unfold. unfold maybeSetSpecialValue.
  rewrite Hp. unfold isVendorTestProp, isSupported. closed_tests. rewrite mbind_mget, Hav.
  assert (adasDependentProps VehicleProperty.HVAC_TEMPERATURE_SET
            mAdasEnabledPropToAdasPropWithErrorState = None) as -> by reflexivity.
  unfold mbind' at 1. unfold mreturn at 1. rewrite mbind_mget, Hx, Hdual, mbind_unfold, E. done.
Qed.

Lemma mbind_ext {S E A B} (m : M S E A) (k1 k2 : A → M S E B) s :
  (∀ a s', k1 a s' = k2 a s') → mbind' m k1 s = mbind' m k2 s.
Proof. intros Hk. unfold mbind'. destruct (m s) as [s' [a|e]]; [apply Hk|done]. Qed.

(** Without a given temperature the loop takes that of the first synced value
    and gives it to the others. *)
Lemma synchronize_loop_first dual vs h :
  NoDup (key <$> vs) → (∀ v, v ∈ vs → synced dual v = true → floatValues (value v) ≠ []) →
  (∀ v, v ∈ vs → synced dual v = false) ∧ synchronize_loop tick dual None vs h = (h, Ok tt) ∨
  ∃ v0 t, v0 ∈ vs ∧ synced dual v0 = true ∧ head (floatValues (value v0)) = Some t ∧
    synchronize_loop tick dual None vs h =
    for_each vs (λ v, if synced dual v && bool_decide (key v ≠ key v0)
                      then rewriteM tick (with_temp t v) else mreturn tt) h.
Proof.
  induction vs as [|v vs IH]; intros Hnd Hne.
  { left. split; [|done]. intros v Hv. by apply not_elem_of_nil in Hv. }
  apply NoDup_cons in Hnd as [Hnew Hnd]. cbn [synchronize_loop].
  assert (Hn : negb (Z.land dual (areaId v) =? areaId v) || negb (status v =? VehiclePropertyStatus.AVAILABLE)
    = negb (synced dual v)) by (unfold synced; by rewrite negb_andb).
  rewrite Hn. pose proof (Hne v ltac:(left)) as Hv. destruct (synced dual v) eqn:Hs; cbn [negb].
  - destruct (floatValues (value v)) as [|t rest] eqn:Hf; [by destruct Hv|]. right. exists v, t.
    rewrite Hf. split_and!; [by left|done|done|].
    rewrite synchronize_loop_for_each by (intros; apply Hne; [by right|done]).
    cbn [for_each]. rewrite Hs, bool_decide_eq_false_2 by naive_solver. cbn [andb].
    unfold mbind', mreturn at 2. clear -Hnew.
    assert (∀ w, w ∈ vs → key w ≠ key v) as Hd.
    { intros w Hw He. apply Hnew. rewrite <- He. apply list_elem_of_fmap. eauto. }
    clear Hnew. revert h. induction vs as [|w vs IH]; intros h; [done|]. cbn [for_each].
    rewrite (bool_decide_eq_true_2 (key w ≠ key v)) by (apply Hd; by left). rewrite andb_true_r.
    apply mbind_ext. intros _ h1. apply IH. intros; apply Hd; by right.
  - destruct IH as [[Hall E]|(v0 & t & Hin & Hs0 & Ht & E)]; [done|intros; apply Hne; [by right|done]|left|right].
    + split; [|done]. intros w [->|Hw]%elem_of_cons; [done|by apply Hall].
    + exists v0, t. split_and!; [by right|done|done|]. rewrite E. cbn [for_each]. rewrite Hs. done.
Qed.

(** Switching a dual area on gives one temperature, that of one of the
    available values inside the area, to all the others inside it, and then
    stores the switch; when nothing inside is available, only the switch is
    stored. *)
Theorem hvac_dual_on v h :
  hw_ok h → prop v = VehicleProperty.HVAC_DUAL_ON → int32Values (value v) = [1] →
  isHvacPropAndHvacNotAvailable VehicleProperty.HVAC_DUAL_ON (areaId v) h = false →
  let s := mServerSidePropStore h in
  accepts s v → temperatures_ok s →
  ∃ h' s1, setValue v h = (h', Ok tt) ∧
    (∀ p r, (p, r) ≠ (VehicleProperty.HVAC_DUAL_ON, key v) →
       stored (mServerSidePropStore h') p r = stored s1 p r) ∧
    (∃ w, stored (mServerSidePropStore h') VehicleProperty.HVAC_DUAL_ON (key v) = Some w ∧ value w = value v) ∧
    ((∀ r o, stored s VehicleProperty.HVAC_TEMPERATURE_SET r = Some o → synced (areaId v) o = false) ∧ s1 = s ∨
     ∃ r0 v0 t, stored s VehicleProperty.HVAC_TEMPERATURE_SET r0 = Some v0 ∧ synced (areaId v) v0 = true ∧
       head (floatValues (value v0)) = Some t ∧
       updated tick (λ o, prop o = VehicleProperty.HVAC_TEMPERATURE_SET ∧
                          synced (areaId v) o && bool_decide (key o ≠ r0) = true) (with_temp t) s s1).
Proof.
  intros Hok Hp Hx Hav s Ha [Htl [c Hc] Hne].
  assert (Hset : setValue v h = (ignoring (synchronizeHvacTemp tick (areaId v) None) ;;;
    let! updatedValue := obtainCopyM v in writeM tick updatedValue false ON_VALUE_CHANGE true) h).
  { unfold FakeHardwareValues.setValue. rewrite !mbind_unfold. unfold maybeSetSpecialValue.
    rewrite Hp. unfold isVendorTestProp, isSupported. closed_tests. rewrite mbind_mget, Hav.
    assert (adasDependentProps VehicleProperty.HVAC_DUAL_ON
              mAdasEnabledPropToAdasPropWithErrorState = None) as -> by reflexivity.
    unfold mbind' at 1. unfold mreturn at 1. rewrite mbind_mget, Hx, mbind_unfold. closed_tests.
    by destruct (ignoring _ h) as [h' [[]|e]]. }
  destruct (readValuesForProperty VehicleProperty.HVAC_TEMPERATURE_SET s) as [vs|e] eqn:Hread.
  2: { exfalso. unfold readValuesForProperty, getPropConfig in *. by destruct (getRecordLocked _ s). }
  pose proof (ok_store _ _ _ _ Hok) as Hwf. fold s in Hwf.
  destruct (read_snapshot tick s _ vs Hwf Htl Hread) as [Hsn Hall].
  assert (Hloop : ∃ s1, synchronizeHvacTemp tick (areaId v) None h = (set_store s1 h, Ok tt) ∧ store_wf tick s1
    ∧ same_registry s s1 ∧
    ((∀ r o, stored s VehicleProperty.HVAC_TEMPERATURE_SET r = Some o → synced (areaId v) o = false) ∧ s1 = s ∨
     ∃ r0 v0 t, stored s VehicleProperty.HVAC_TEMPERATURE_SET r0 = Some v0 ∧ synced (areaId v) v0 = true ∧
       head (floatValues (value v0)) = Some t ∧
       updated tick (λ o, prop o = VehicleProperty.HVAC_TEMPERATURE_SET ∧
                          synced (areaId v) o && bool_decide (key o ≠ r0) = true) (with_temp t) s s1)).
  { unfold synchronizeHvacTemp, mbind', readStore. fold s. rewrite Hread.
    destruct (synchronize_loop_first (areaId v) vs h) as [[Hno E]|(v0 & t & Hin & Hs0 & Ht & E)].
    - apply Hsn.
    - intros w Hw _. destruct (sn_stored _ _ _ Hsn w Hw) as [_ Hs]. by apply (Hne (key w)).
    - exists s. rewrite E. replace (set_store s h) with h by (unfold s; by rewrite set_store_id).
      split_and!; [done..|]. left. split; [|done]. intros r o Ho. apply Hno. by apply (Hall r).
    - edestruct (rewrite_loop tick tick_mono (λ o, synced (areaId v) o && bool_decide (key o ≠ key v0)) (with_temp t)
                   VehicleProperty.HVAC_TEMPERATURE_SET) as (s1 & E1 & Hwf1 & Hrw); [| | |exact Hwf|exact Hsn|].
      4: { exists s1. rewrite E. split; [exact E1|]. split_and!; [done|apply Hrw|]. right.
           destruct (sn_stored _ _ _ Hsn v0 Hin) as [_ Hv0]. exists (key v0), v0, t. split_and!; [done..|].
           by eapply rewritten_updated. }
      + intros w h0 h1 Hw Hr. cbn beta. by rewrite Hw.
      + intros w h0 Hw. cbn beta. by rewrite Hw.
      + done. }
  destruct Hloop as (s1 & E1 & Hwf1 & Hreg1 & Hcases).
  destruct (final_write v (set_store s1 h) (hw_ok_updated h s1 Hok Hwf1)) as (h2 & E2 & _ & _ & _ & Hst2 & _).
  { by eapply (accepts_same s). }
  change (mServerSidePropStore (set_store s1 h)) with s1 in Hst2. rewrite Hp in Hst2.
  exists h2, s1. split_and!; [| | |done].
  - rewrite Hset, mbind_unfold, (ignoring_ok _ _ _ E1). exact E2.
  - intros p r Hn. rewrite Hst2. apply decide_False. intros [-> ->]. done.
  - eexists. rewrite Hst2, decide_True by done. split; [done|]. unfold write_status. by destruct (stored s1 _ _).
Qed.

(** ** ADAS *)

Definition adasState (st p : Z) : Z :=
  if (st =? 1) && (p =? VehicleProperty.CRUISE_CONTROL_TYPE) then CruiseControlType_ADAPTIVE else st.

Definition adasKey (p a : Z) : RecordId := mkRecordId (if isGlobalProp p then 0 else a) 0.

(** A generated state value, stored under [r], made no earlier than reading [n]. *)
Definition adas_value (st p : Z) (n : nat) (r : RecordId) (o : VehiclePropValue) : Prop :=
  ∃ k a, (n ≤ k)%nat ∧ (isGlobalProp p = false → a = ri_area r) ∧
    o = mkPropValue (tick k) a p VehiclePropertyStatus.AVAILABLE (mkRaw [adasState st p] [] [] [] "").

(** The state values were sent for the areas [acs] of [p]; other properties
    are untouched. *)
Record sent (st p : Z) (acs : list VehicleAreaConfig) (s s' : Store) : Prop := mk_sent {
  se_registry : same_registry s s';
  se_reads : (reads s ≤ reads s')%nat;
  se_hit : ∀ ac, ac ∈ acs → ∃ o, stored s' p (adasKey p (ac_areaId ac)) = Some o ∧
    adas_value st p (reads s) (adasKey p (ac_areaId ac)) o;
  se_keep : ∀ r, stored s' p r = stored s p r ∨
    ∃ o, stored s' p r = Some o ∧ adas_value st p (reads s) r o;
  se_other : ∀ q r, q ≠ p → stored s' q r = stored s q r;
}.

Lemma adas_value_later st p n n' r o : (n ≤ n')%nat → adas_value st p n' r o → adas_value st p n r o.
Proof. intros Hn (k & a & Hk & H). exists k, a. split; [lia|done]. Qed.

Lemma sendAdas_areas st p c acs : ∀ h, hw_ok h →
  tokenless (mServerSidePropStore h) p → getPropConfig p (mServerSidePropStore h) = Ok c →
  (∀ ac, ac ∈ acs → ac ∈ areaConfigs c) →
  ∃ h', for_each acs (sendAdasArea tick uninit_size st p) h = (h', Ok tt)
    ∧ hw_ok h' ∧ hvacPowerDependentProps h' = hvacPowerDependentProps h
    ∧ sent st p acs (mServerSidePropStore h) (mServerSidePropStore h').
Proof.
  induction acs as [|ac acs IH]; intros h Hok Htl Hc Hin.
  { exists h. split_and!; [done..|]. split; [done|lia| |by left|done]. intros ac Hac. by apply not_elem_of_nil in Hac. }
  set (s := mServerSidePropStore h) in *. set (a := ac_areaId ac). fold (adasState st p).
  destruct (createAdasStateReq_spec p a (adasState st p) h Hok) as (h1 & E1 & Hok1 & Hs1 & Hd1). fold s in E1, Hs1.
  set (w := mkPropValue (tick (reads s)) a p VehiclePropertyStatus.AVAILABLE _) in E1.
  assert (Hacc : accepts s w).
  { split; [done|]. exists c. split; [done|]. unfold area_configured. cbn.
    destruct (isGlobalProp p) eqn:Hg; [by left|right]. unfold getAreaConfigOf, getAreaConfig. cbn. rewrite Hg.
    pose proof (Hin ac ltac:(left)) as Ha. destruct (areaConfigs c) as [|c0 cs] eqn:Hcs; [by apply not_elem_of_nil in Ha|].
    destruct (List.find (λ x, ac_areaId x =? a) (c0 :: cs)) eqn:Ef; [done|].
    apply list_elem_of_In in Ha. apply (List.find_none _ _ Ef) in Ha. unfold a in Ha. by rewrite Z.eqb_refl in Ha. }
  destruct (writeM_spec w true ALWAYS h1 Hok1) as (h2 & E2 & Hok2 & Hreg2 & Hr2 & Hd2 & Hst2 & _).
  { rewrite Hs1. exact Hacc. }
  { rewrite Hs1. cbn. apply tick_mono. lia. }
  { intros o Ho. rewrite Hs1 in Ho. exact (stored_past h _ _ o Hok Ho). }
  rewrite Hs1 in Hreg2, Hr2, Hst2. cbn [write_status] in Hst2.
  change (prop w) with p in Hst2. change (key w) with (adasKey p a) in Hst2.
  assert (Hw : adas_value st p (reads s) (adasKey p a) w).
  { exists (reads s), a. split_and!; [lia| |done]. intros Hg. unfold adasKey. by rewrite Hg. }
  destruct (IH h2 Hok2) as (h3 & E3 & Hok3 & Hd3 & [Ra Rb Rc Rd Re]).
  { by eapply (tokenless_same s). }
  { rewrite (proj1 (proj2 Hreg2)). exact Hc. }
  { intros x Hx. apply Hin. by right. }
  set (s2 := mServerSidePropStore h2) in *. set (s3 := mServerSidePropStore h3) in *.
  assert (Hrs : reads s2 = S (reads s)) by (rewrite Hr2; done).
  exists h3. split.
  { cbn [for_each]. rewrite mbind_unfold. unfold sendAdasArea at 1. fold (adasState st p) a.
    rewrite mbind_unfold, E1, (ignoring_ok _ _ _ E2). exact E3. }
  split_and!; [done|by rewrite Hd3, Hd2|]. fold s3. split.
  - by eapply same_registry_trans.
  - lia.
  - intros x [->|Hx]%elem_of_cons.
    + destruct (Rd (adasKey p a)) as [Heq|(o & Ho & Hv)].
      * exists w. unfold a in *. rewrite Heq, Hst2, decide_True by done. done.
      * exists o. split; [done|]. eapply adas_value_later; [|exact Hv]. lia.
    + destruct (Rc x Hx) as (o & Ho & Hv). exists o. split; [done|]. eapply adas_value_later; [|exact Hv]. lia.
  - intros r. destruct (Rd r) as [Heq|(o & Ho & Hv)].
    + rewrite Heq, Hst2. case_decide as Hd; [|by left]. destruct Hd as [_ ->]. right. by exists w.
    + right. exists o. split; [done|]. eapply adas_value_later; [|exact Hv]. lia.
  - intros q r Hq. rewrite Re, Hst2 by done. apply decide_False. naive_solver.
Qed.

(** All the dependent properties. *)
Lemma sendAdas_spec st deps : ∀ h, hw_ok h → NoDup deps →
  (∀ p, p ∈ deps → tokenless (mServerSidePropStore h) p) →
  ∃ h', sendAdasPropertiesState tick uninit_size deps st h = (h', Ok tt)
    ∧ hw_ok h' ∧ hvacPowerDependentProps h' = hvacPowerDependentProps h
    ∧ let s := mServerSidePropStore h in let s' := mServerSidePropStore h' in
      same_registry s s'
    ∧ (∀ p c ac, p ∈ deps → getPropConfig p s = Ok c → ac ∈ areaConfigs c →
         ∃ o, stored s' p (adasKey p (ac_areaId ac)) = Some o ∧
           adas_value st p (reads s) (adasKey p (ac_areaId ac)) o)
    ∧ (∀ q r, q ∉ deps → stored s' q r = stored s q r).
Proof.
  induction deps as [|p deps IH]; intros h Hok Hnd Htl.
  { exists h. split; [done|]. split; [done|]. split; [done|]. split_and!; [done| |done]. intros p c ac Hp. by apply not_elem_of_nil in Hp. }
  apply NoDup_cons in Hnd as [Hnew Hnd]. unfold sendAdasPropertiesState. cbn [for_each].
  rewrite mbind_unfold. unfold sendAdasProperty at 1. unfold mbind', readStore.
  set (s := mServerSidePropStore h) in *.
  destruct (getPropConfig p s) as [c|e] eqn:Hc.
  - destruct (sendAdas_areas st p c (areaConfigs c) h Hok (Htl p ltac:(left)) Hc) as (h1 & E1 & Hok1 & Hd1 & [Ra Rb Rc Rd Re]);
      [done|]. rewrite E1.
    destruct (IH h1 Hok1 Hnd) as (h2 & E2 & Hok2 & Hd2 & Sa & Sb & Sc).
    { intros q Hq. eapply (tokenless_same s); [done|]. apply Htl. by right. }
    fold s in Ra, Rb, Rc, Rd, Re.
    exists h2. split; [exact E2|]. split; [done|]. split; [by rewrite Hd2|]. split_and!.
    + by eapply same_registry_trans.
    + intros q c' ac [->|Hq]%elem_of_cons Hc' Hac.
      * rewrite Hc in Hc'. injection Hc' as <-. destruct (Rc ac Hac) as (o & Ho & Hv). exists o. by rewrite Sc.
      * destruct (Sb q c' ac Hq) as (o & Ho & Hv); [|done|].
        -- rewrite (proj1 (proj2 Ra)). exact Hc'.
        -- exists o. split; [done|]. eapply adas_value_later; [|exact Hv]. done.
    + intros q r Hq. rewrite not_elem_of_cons in Hq. rewrite Sc, Re by tauto. done.
  - destruct (IH h Hok Hnd) as (h2 & E2 & Hok2 & Hd2 & Sa & Sb & Sc).
    { intros q Hq. apply Htl. by right. }
    exists h2. split; [exact E2|]. split; [done|]. split; [done|]. split_and!; [done| |].
    + intros q c' ac [->|Hq]%elem_of_cons Hc' Hac; [fold s in Hc'; congruence|]. by apply (Sb q c' ac).
    + intros q r Hq. rewrite not_elem_of_cons in Hq. apply Sc. tauto.
Qed.

Lemma adasDependentProps_in p m deps : adasDependentProps p m = Some deps → (p, deps) ∈ m.
Proof.
  induction m as [|[q ps] m IH]; [done|]. cbn. destruct (Z.eqb_spec p q) as [->|]; [intros [= ->]; by left|].
  intros H. right. by apply IH.
Qed.

(** No enabling property has another rule, nor depends on itself. *)
Lemma adas_table p deps :
  adasDependentProps p mAdasEnabledPropToAdasPropWithErrorState = Some deps →
  isVendorTestProp p = false ∧ isSupported p = false ∧ Forall (λ q, (p =? q) = false) specialProps
  ∧ NoDup deps ∧ p ∉ deps.
Proof.
  intros Hin%adasDependentProps_in.
  assert (Hall : forallb (λ pd, negb (isVendorTestProp pd.1) && negb (isSupported pd.1)
      && forallb (λ q, negb (pd.1 =? q)) specialProps && bool_decide (NoDup pd.2) && bool_decide (pd.1 ∉ pd.2))
    mAdasEnabledPropToAdasPropWithErrorState = true) by (vm_compute; reflexivity).
  rewrite forallb_forall in Hall. specialize (Hall (p, deps) (proj1 (list_elem_of_In _ _) Hin)). cbn [fst snd] in Hall.
  rewrite !andb_true_iff, !negb_true_iff, !bool_decide_eq_true, forallb_forall in Hall.
  destruct Hall as [[[[H1 H2] H3] H4] H5]. split_and!; [done..| |done|done].
  apply Forall_forall. intros q Hq. apply negb_true_iff, H3. by apply list_elem_of_In.
Qed.

Definition adasSent (x : Z) : Z := if x =? 1 then 1 else ErrorState.NOT_AVAILABLE_DISABLED.

Lemma set_adas v h x deps :
  adasDependentProps (prop v) mAdasEnabledPropToAdasPropWithErrorState = Some deps →
  int32Values (value v) = [x] → prop v ∉ hvacPowerDependentProps h →
  setValue v h = (sendAdasPropertiesState tick uninit_size deps (adasSent x) ;;;
                  let! updatedValue := obtainCopyM v in
                  writeM tick updatedValue false ON_VALUE_CHANGE true) h.
Proof.
  intros Hdeps Hx Hd. destruct (adas_table _ _ Hdeps) as (Hvt & Hsu & Hall & _). unfold specialProps in Hall.
  repeat (let E := fresh "E" in apply Forall_cons in Hall as [E Hall]).
  unfold FakeHardwareValues.setValue. rewrite !mbind_unfold. unfold maybeSetSpecialValue.
  rewrite Hvt, Hsu, mbind_mget, hvac_skip, Hdeps, Hx by done. fold (adasSent x). rewrite mbind_unfold.
  destruct (sendAdasPropertiesState tick uninit_size deps (adasSent x) h) as [h' [[]|e]]; [|done].
  rewrite mbind_mget, E1, E3, E4, E5, E6, E7, E8, E9, E10, E11, E12, E14.
  by destruct (_ || _).
Qed.

(** Switching an ADAS feature on or off.  Every configured area of every
    property the feature's table row lists gets the state of the switch (1, or
    the error state NOT_AVAILABLE_DISABLED; ADAPTIVE for a switched on cruise
    control type), available and with the present time; the switch itself is
    stored; nothing else changes. *)
Theorem adas_switch v h x deps :
  hw_ok h → adasDependentProps (prop v) mAdasEnabledPropToAdasPropWithErrorState = Some deps →
  int32Values (value v) = [x] → prop v ∉ hvacPowerDependentProps h →
  let s := mServerSidePropStore h in
  accepts s v → (∀ p, p ∈ deps → tokenless s p) →
  ∃ h', setValue v h = (h', Ok tt) ∧
    let s' := mServerSidePropStore h' in
    (∀ p c ac, p ∈ deps → getPropConfig p s = Ok c → ac ∈ areaConfigs c →
       ∃ o, stored s' p (adasKey p (ac_areaId ac)) = Some o ∧
         adas_value (adasSent x) p (reads s) (adasKey p (ac_areaId ac)) o)
    ∧ (∃ w, stored s' (prop v) (key v) = Some w ∧ value w = value v)
    ∧ (∀ q r, q ∉ deps → (q, r) ≠ (prop v, key v) → stored s' q r = stored s q r).
Proof.
  intros Hok Hdeps Hx Hd s Ha Htl. destruct (adas_table _ _ Hdeps) as (_ & _ & _ & Hnd & Hself).
  destruct (sendAdas_spec (adasSent x) deps h Hok Hnd Htl) as (h1 & E1 & Hok1 & Hd1 & Ra & Rb & Rc).
  destruct (final_write v h1 Hok1) as (h2 & E2 & Hok2 & Hreg2 & Hd2 & Hst2 & _).
  { by eapply (accepts_same s). }
  exists h2. rewrite (set_adas v h x deps Hdeps Hx Hd), mbind_unfold, E1. split; [done|]. split_and!.
  - intros p c ac Hp Hc Hac. destruct (Rb p c ac Hp Hc Hac) as (o & Ho & Hv). exists o. split; [|done].
    rewrite Hst2, decide_False; [done|]. intros [-> _]. done.
  - eexists. rewrite Hst2, decide_True by done. split; [done|]. unfold write_status. by destruct (stored _ _ _).
  - intros q r Hq Hne. rewrite Hst2, decide_False by naive_solver. by apply Rc.
Qed.

(** A disabled cruise control refuses every request that depends on it. *)
Definition cruise_gets : list Z :=
  [VehicleProperty.CRUISE_CONTROL_TARGET_SPEED; VehicleProperty.ADAPTIVE_CRUISE_CONTROL_TARGET_TIME_GAP;
   VehicleProperty.ADAPTIVE_CRUISE_CONTROL_LEAD_VEHICLE_MEASURED_DISTANCE].
Definition cruise_sets : list Z :=
  [VehicleProperty.CRUISE_CONTROL_COMMAND; VehicleProperty.ADAPTIVE_CRUISE_CONTROL_TARGET_TIME_GAP].

Lemma adas_unavailable p s r o st : stored s p globalKey = Some o → isGlobalProp p = true →
  adas_value st p r globalKey o → adasState st p = ErrorState.NOT_AVAILABLE_DISABLED →
  isAdasPropertyAvailable p s = Err NOT_AVAILABLE_DISABLED.
Proof.
  intros Ho Hg (k & a & _ & _ & ->) Hst. unfold isAdasPropertyAvailable, readValueFor, getRecordLocked, readValueLocked.
  rewrite Hg. unfold stored, globalKey in Ho. destruct (mRecordsByPropId s !! p) as [rec|]; [|done].
  rewrite Ho. cbn. by rewrite Hst.
Qed.

(** After CRUISE_CONTROL_ENABLED is set to anything but 1, getting the
    target speed, the time gap or the distance to the lead vehicle, and setting
    a cruise control command or the time gap, are refused with
    NOT_AVAILABLE_DISABLED and change nothing: no request reaches a disabled
    feature. *)
Theorem cruise_control_disabled v h x c :
  hw_ok h → prop v = VehicleProperty.CRUISE_CONTROL_ENABLED → int32Values (value v) = [x] → x ≠ 1 →
  (∀ q, q ∈ prop v :: cruise_gets ++ cruise_sets → q ∉ hvacPowerDependentProps h) →
  let s := mServerSidePropStore h in
  accepts s v → tokenless s VehicleProperty.CRUISE_CONTROL_TYPE → tokenless s VehicleProperty.CRUISE_CONTROL_STATE →
  getPropConfig VehicleProperty.CRUISE_CONTROL_STATE s = Ok c → areaConfigs c ≠ [] →
  ∃ h', setValue v h = (h', Ok tt) ∧
    (∀ service q, prop q ∈ cruise_gets → getValue service q h' = (h', Err (Failed NOT_AVAILABLE_DISABLED))) ∧
    (∀ q, prop q ∈ cruise_sets → setValue q h' = (h', Err (Failed NOT_AVAILABLE_DISABLED))).
Proof.
  intros Hok Hp Hx Hne Hd s Ha Ht1 Ht2 Hc Hacs.
  assert (Hdeps : adasDependentProps (prop v) mAdasEnabledPropToAdasPropWithErrorState =
    Some [VehicleProperty.CRUISE_CONTROL_TYPE; VehicleProperty.CRUISE_CONTROL_STATE]) by (by rewrite Hp).
  destruct (adas_table _ _ Hdeps) as (_ & _ & _ & Hnd & Hself).
  destruct (sendAdas_spec (adasSent x) _ h Hok Hnd) as (h1 & E1 & Hok1 & Hd1 & Ra & Rb & _).
  { intros p Hin. repeat (apply elem_of_cons in Hin as [->|Hin]; [done|]). by apply not_elem_of_nil in Hin. }
  destruct (final_write v h1 Hok1) as (h2 & E2 & Hok2 & Hreg2 & Hd2 & Hst2 & _).
  { by eapply (accepts_same s). }
  exists h2. rewrite (set_adas v h x _ Hdeps Hx) by (apply Hd; by left). rewrite mbind_unfold, E1. split; [done|].
  destruct (areaConfigs c) as [|ac acs] eqn:Hac; [done|].
  destruct (Rb VehicleProperty.CRUISE_CONTROL_STATE c ac) as (o & Ho & Hv);
    [by right; left|done|rewrite Hac; by left|].
  assert (Hun : isAdasPropertyAvailable VehicleProperty.CRUISE_CONTROL_STATE (mServerSidePropStore h2)
    = Err NOT_AVAILABLE_DISABLED).
  { eapply (adas_unavailable _ _ (reads s) o (adasSent x)); [|reflexivity|exact Hv|].
    - rewrite Hst2, decide_False; [exact Ho|]. rewrite Hp. by intros [? _].
    - unfold adasSent. by destruct (Z.eqb_spec x 1). }
  assert (Hskip : ∀ q a, q ∈ cruise_gets ++ cruise_sets → isHvacPropAndHvacNotAvailable q a h2 = false).
  { intros q a Hq. apply hvac_skip. rewrite Hd2, Hd1. apply Hd. by right. }
  split.
  - intros service q Hq. unfold FakeHardwareValues.getValue, maybeGetSpecialValue. rewrite mbind_unfold.
    repeat (apply elem_of_cons in Hq as [->|Hq]; [unfold isVendorTestProp, isSupported, isPowerProp; closed_tests;
      rewrite mbind_mget, Hskip by (apply list_elem_of_In; cbn; tauto); closed_tests;
      unfold mbind', ofStatus, mfail; by rewrite Hun|]). by apply not_elem_of_nil in Hq.
  - intros q Hq. unfold FakeHardwareValues.setValue, maybeSetSpecialValue. rewrite mbind_unfold.
    repeat (apply elem_of_cons in Hq as [->|Hq]; [unfold isVendorTestProp, isSupported; closed_tests;
      rewrite mbind_mget, Hskip by (apply list_elem_of_In; cbn; tauto);
      cbn [adasDependentProps mAdasEnabledPropToAdasPropWithErrorState]; closed_tests;
      unfold mbind', mget, mreturn, ofStatus, mfail; by rewrite Hun|]). by apply not_elem_of_nil in Hq.
Qed.

(** ** Requests that crash *)

Lemma obtainInt32M_spec x h : hw_ok h →
  ∃ h' o, obtainInt32M uninit_size x h = (h', Ok o) ∧ hw_ok h'
    ∧ mServerSidePropStore h' = mServerSidePropStore h ∧ value o = mkRaw [x] [] [] [] "".
Proof.
  intros [Hs Hp]. unfold obtainInt32M, obtainInt32, obtain. cbn [isComplexType orb Z.eqb].
  change (isComplexType VehiclePropertyType.INT32) with false. cbn iota.
  pose proof (obtainVec_spec uninit_size _ _ Hcfg (mValuePool (mFakeUserHal h)) VehiclePropertyType.INT32 1
    Hp ltac:(done) ltac:(done)) as H.
  destruct (obtainVec _ _ _ _) as [r p']. destruct H as [Hp' Hsh].
  destruct (shape_ints _ _ _ Hsh (or_intror (conj eq_refl eq_refl))) as [Hl Hv].
  unfold store0. destruct (int32Values (value (obj r))) as [|y [|]] eqn:E; [done| |done].
  eexists _, _. split; [done|]. split; [by split|]. split; [done|]. cbn. specialize (Hv [x]). exact Hv.
Qed.

Lemma user_get_defined v pool slots u : rel pool u slots →
  snd (onGetProperty uninit_size v u) ≠ Err UB.
Proof.
  intros Hr. pose proof (get_sim uninit_size v pool u slots Hr) as H.
  destruct (onGetProperty uninit_size v u) as [u' r]. destruct H as [_ Ho]. cbn. intros ->.
  cbn in Ho. unfold spec_get in Ho. destruct (_ =? _); [|done]. destruct (slots !! prop v) as [cmd|]; [|done].
  destruct (getRequestId v) eqn:Hid; [done|]. injection Ho as <-. by apply (getRequestId_defined v).
Qed.

(** The getters that use the pool or the user HAL are defined. *)
Lemma power_get_defined svc p h : hw_ok h → snd (getPowerPropFromExternalService tick uninit_size svc p h) ≠ Err Crash.
Proof.
  intros Hok. unfold getPowerPropFromExternalService, getVehicleInUse, getApPowerBootupReason, mbind'.
  destruct (_ =? _); [destruct (isVehicleInUse svc) as [b|]|destruct (_ =? _); [destruct (apPowerBootupReason svc) as [b|]|]]; try done.
  - by destruct (obtainInt32M_spec (if b then 1 else 0) h Hok) as (h1 & o & -> & _).
  - by destruct (obtainInt32M_spec b h Hok) as (h1 & o & -> & _).
Qed.

Lemma vendor_get_defined p h : hw_ok h → snd (getVendorTestProp tick uninit_size p h) ≠ Err Crash.
Proof. intros Hok. unfold getVendorTestProp, mbind'. by destruct (obtainInt32M_spec 5 h Hok) as (h1 & o & -> & _). Qed.

Lemma user_prop_get_defined v h pool slots : rel pool (mFakeUserHal h) slots → snd (getUserHalProp tick uninit_size v h) ≠ Err Crash.
Proof.
  intros Hrel. unfold getUserHalProp, runUserHal, mbind'. pose proof (user_get_defined v pool slots _ Hrel) as Hd.
  by destruct (onGetProperty uninit_size v (mFakeUserHal h)) as [u [[r|]|[c|]]].
Qed.

(** A special value is returned as it is. *)
Lemma special_defined (m : HWM VehiclePropValue) (k : option VehiclePropValue → HWM VehiclePropValue) h :
  (∀ x, k (Some x) = mreturn x) → snd (m h) ≠ Err Crash →
  snd (match (let! x := m in mreturn (Some x)) h with (h', Ok a) => k a h' | (h', Err e) => (h', Err e) end) ≠ Err Crash.
Proof. intros Hk Hm. unfold mbind'. destruct (m h) as [h' [x|e]]; [|done]. unfold mreturn. by rewrite Hk. Qed.

(** Getting a value never crashes, in any state of the pool and of the user
    HAL, except for the two adaptive cruise control properties while the cruise
    control is available and its type has no value to read. *)
Theorem get_crash_iff service v h pool slots :
  hw_ok h → rel pool (mFakeUserHal h) slots →
  let s := mServerSidePropStore h in
  snd (getValue service v h) = Err Crash ↔
    (prop v = VehicleProperty.ADAPTIVE_CRUISE_CONTROL_TARGET_TIME_GAP ∨
     prop v = VehicleProperty.ADAPTIVE_CRUISE_CONTROL_LEAD_VEHICLE_MEASURED_DISTANCE)
    ∧ isHvacPropAndHvacNotAvailable (prop v) (areaId v) h = false
    ∧ isAdasPropertyAvailable VehicleProperty.CRUISE_CONTROL_STATE s = Ok tt
    ∧ isCruiseControlTypeStandard s = Err Crash.
Proof.
  intros Hok Hrel s.
  assert (Hread : ∀ h', snd ((let! r := readStore (readValue v) in ofStatus r) h') ≠ Err Crash).
  { intros h'. unfold mbind', readStore, ofStatus. by destruct (readValue v _). }
  assert (Hend : ∀ h', snd ((let! r := readStore (readValue v) in ofStatus r) h') = Err Crash ↔ False).
  { intros h'. split; [apply Hread|done]. }
  unfold FakeHardwareValues.getValue. unfold maybeGetSpecialValue.
  rewrite mbind_unfold.
  destruct (if isPowerProp (prop v) then service else None) as [svc|] eqn:Hsvc.
  - assert (isPowerProp (prop v) = true) as Hpw by (by destruct (isPowerProp _)).
    assert (Hno : ∀ X : Prop, (prop v = VehicleProperty.ADAPTIVE_CRUISE_CONTROL_TARGET_TIME_GAP ∨
       prop v = VehicleProperty.ADAPTIVE_CRUISE_CONTROL_LEAD_VEHICLE_MEASURED_DISTANCE) ∧ X ↔ False).
    { intros X. split; [|done]. intros [[He|He] _]; by rewrite He in Hpw. }
    rewrite Hno. split; [|done]. by apply special_defined, power_get_defined.
  - destruct (isVendorTestProp (prop v)) eqn:Hvt.
    { split.
      - intros H. exfalso. revert H. by apply special_defined, vendor_get_defined.
      - intros [[He|He] _]; by rewrite He in Hvt. }
    destruct (isSupported (prop v)) eqn:Hsu.
    { split.
      - intros H. exfalso. revert H. by eapply special_defined, user_prop_get_defined.
      - intros [[He|He] _]; by rewrite He in Hsu. }
    rewrite mbind_mget. destruct (isHvacPropAndHvacNotAvailable (prop v) (areaId v) h) eqn:Hav.
    { split; [done|]. by intros (_ & ? & _). }
    destruct (Z.eqb_spec (prop v) OBD2_FREEZE_FRAME) as [He|_].
    { rewrite He. split; [|intros [[?|?] _]; done]. unfold mbind', readStore, ofStatus.
      by destruct (getObd2FreezeFrame v _). }
    destruct (Z.eqb_spec (prop v) OBD2_FREEZE_FRAME_INFO) as [He|_].
    { rewrite He. split; [|intros [[?|?] _]; done]. unfold mbind', withPool, ofStatus.
      by destruct (getObd2DtcInfo _ _ _) as [[r|c] p']. }
    destruct (Z.eqb_spec (prop v) ECHO_REVERSE_BYTES) as [He|_].
    { rewrite He. split; [|intros [[?|?] _]; done]. unfold getEchoReverseBytes, mbind', readStore, ofStatus.
      by destruct (readValue v _). }
    destruct (Z.eqb_spec (prop v) VENDOR_PROPERTY_FOR_ERROR_CODE_TESTING) as [He|_].
    { rewrite He. split; [done|intros [[?|?] _]; done]. }
    fold s. destruct (Z.eqb_spec (prop v) VehicleProperty.CRUISE_CONTROL_TARGET_SPEED) as [He|_].
    { rewrite He. split; [|intros [[?|?] _]; done]. unfold mbind' at 1, ofStatus at 1.
      destruct (isAdasPropertyAvailable _ s); [|done]. unfold mreturn. intros H. by apply Hread in H. }
    destruct (Z.eqb_spec (prop v) VehicleProperty.ADAPTIVE_CRUISE_CONTROL_TARGET_TIME_GAP) as [H1|H1];
      destruct (Z.eqb_spec (prop v) VehicleProperty.ADAPTIVE_CRUISE_CONTROL_LEAD_VEHICLE_MEASURED_DISTANCE) as [H2|H2];
      cbn [orb].
    4: { unfold mreturn. rewrite Hend. split; [done|]. intros [[?|?] _]; done. }
    all: unfold mbind' at 1, ofStatus at 1; destruct (isAdasPropertyAvailable VehicleProperty.CRUISE_CONTROL_STATE s)
           as [[]|e]; [|split; [done|]; by intros (_ & _ & ? & _)].
    all: unfold mreturn at 1; destruct (isCruiseControlTypeStandard s) as [[]|e]; unfold mreturn, mfail; cbn [snd];
      rewrite ?Hend; naive_solver.
Qed.

(** ** Temperature suggestions *)

(** The nearest multiple of [increment] to [d], halves up. *)
Definition nearest (d increment : Z) : Z := (2 * d + increment) / (2 * increment).
Definition clamp (x lo hi : Z) : Z := Z.min (Z.max x lo) hi.

Definition below (n : nat) (P : Z → bool) : bool := forallb (λ k, P (Z.of_nat k)) (seq 0 n).
Lemma below_spec n P d : below n P = true → 0 ≤ d < Z.of_nat n → P d = true.
Proof.
  unfold below. rewrite forallb_forall. intros H Hd. rewrite <- (Z2Nat.id d) by lia. apply H, in_seq. lia.
Qed.

(** The configuration of HVAC_TEMPERATURE_SET in DefaultProperties.json: 17.5 to
    32.5 degrees Celsius by 0.5, 60 to 90 degrees Fahrenheit by 1. *)
Definition default_hvac_config : list Z := [175; 325; 5; 600; 900; 10].

Lemma increments_celsius t : getHvacTempNumIncrements t 175 325 5 = Some (nearest (clamp t 175 325 - 175) 5).
Proof.
  unfold getHvacTempNumIncrements. fold (clamp t 175 325).
  assert (Hall : below 151 (λ d, bool_decide ((int_ d ≫= λ d, f32_to_i32 (f32_round (f32_div (f32_of_Z d) (f32_of_Z 5))))
                                           = Some (nearest d 5))) = true) by (vm_compute; reflexivity).
  apply (below_spec _ _ (clamp t 175 325 - 175)) in Hall; [|unfold clamp; lia]. by apply bool_decide_eq_true in Hall.
Qed.
Lemma increments_fahrenheit t : getHvacTempNumIncrements t 600 900 10 = Some (nearest (clamp t 600 900 - 600) 10).
Proof.
  unfold getHvacTempNumIncrements. fold (clamp t 600 900).
  assert (Hall : below 301 (λ d, bool_decide ((int_ d ≫= λ d, f32_to_i32 (f32_round (f32_div (f32_of_Z d) (f32_of_Z 10))))
                                           = Some (nearest d 10))) = true) by (vm_compute; reflexivity).
  apply (below_spec _ _ (clamp t 600 900 - 600)) in Hall; [|unfold clamp; lia]. by apply bool_decide_eq_true in Hall.
Qed.

Lemma nearest_bounds d inc N : 0 < inc → 0 ≤ d ≤ inc * N →
  0 ≤ nearest d inc ≤ N ∧ - inc ≤ 2 * (inc * nearest d inc - d) ≤ inc.
Proof.
  intros Hi Hd. unfold nearest.
  pose proof (Z.mul_div_le (2 * d + inc) (2 * inc) ltac:(lia)).
  pose proof (Z.mul_succ_div_gt (2 * d + inc) (2 * inc) ltac:(lia)).
  pose proof (Z.div_pos (2 * d + inc) (2 * inc) ltac:(lia) ltac:(lia)).
  set (q := (2 * d + inc) / (2 * inc)) in *.
  assert (q ≤ N) by nia. split; [lia|]. nia.
Qed.

(** The suggestion computed under the default configuration: the two
    temperatures of the step nearest to the request. *)
Lemma suggestion_values temp unit x y t : f32_to_i32 (f32_mul temp (f32_of_Z 10)) = Some t →
  let celsius := f32_of_Z VehicleUnit.CELSIUS in
  let n := if f32_eqb unit celsius then nearest (clamp t 175 325 - 175) 5 else nearest (clamp t 600 900 - 600) 10 in
  updateHvacTemperatureValueSuggestionInput default_hvac_config [temp; unit; x; y] =
    Some [temp; unit; f32_div (f32_of_Z (175 + 5 * n)) (f32_of_Z 10); f32_div (f32_of_Z (600 + 10 * n)) (f32_of_Z 10)] ∧
  0 ≤ n ≤ 30 ∧ (if f32_eqb unit celsius then -5 ≤ 2 * (175 + 5 * n - clamp t 175 325) ≤ 5
                else -10 ≤ 2 * (600 + 10 * n - clamp t 600 900) ≤ 10).
Proof.
  intros Ht celsius n.
  assert (Hn : 0 ≤ n ≤ 30 ∧ (if f32_eqb unit celsius then -5 ≤ 2 * (175 + 5 * n - clamp t 175 325) ≤ 5
      else -10 ≤ 2 * (600 + 10 * n - clamp t 600 900) ≤ 10)).
  { unfold n. destruct (f32_eqb unit celsius).
    - pose proof (nearest_bounds (clamp t 175 325 - 175) 5 30 ltac:(lia) ltac:(unfold clamp; lia)). lia.
    - pose proof (nearest_bounds (clamp t 600 900 - 600) 10 30 ltac:(lia) ltac:(unfold clamp; lia)). lia. }
  split; [|exact Hn]. unfold updateHvacTemperatureValueSuggestionInput, default_hvac_config. rewrite Ht. cbn [mbind option_bind].
  rewrite increments_celsius, increments_fahrenheit. fold celsius.
  assert ((if f32_eqb unit celsius then Some (nearest (clamp t 175 325 - 175) 5)
           else Some (nearest (clamp t 600 900 - 600) 10)) = Some n) as -> by (unfold n; by destruct (f32_eqb _ _)).
  cbn [mbind option_bind]. unfold suggestedTemp, int_, two31. destruct Hn as [Hn _].
  repeat match goal with
  | |- context [(?a <=? ?b) && (?b <? ?d)] =>
      replace ((a <=? b) && (b <? d)) with true by (symmetry; apply andb_true_iff; rewrite Z.leb_le, Z.ltb_lt; lia);
      cbn [mbind option_bind]
  end. done.
Qed.

(** The request of 17.76 degrees Celsius. *)
Definition request_17_76 : f32 := f32_of_f64 (f64_lit 1776 100).

(** The code cuts the tenfold of a request to an integer before it looks for
    the step: 17.76 becomes 17.7, and the suggestion is 17.5 although 18.0, the
    next step, is nearer to the request. *)
Lemma suggestion_cuts_first :
  updateHvacTemperatureValueSuggestionInput default_hvac_config
    [request_17_76; f32_of_Z VehicleUnit.CELSIUS; f32_zero; f32_zero] =
    Some [request_17_76; f32_of_Z VehicleUnit.CELSIUS; f32_div (f32_of_Z 175) (f32_of_Z 10);
          f32_div (f32_of_Z 600) (f32_of_Z 10)] ∧
  f32_ltb (f32_sub (f32_of_Z 18) request_17_76)
          (f32_sub request_17_76 (f32_div (f32_of_Z 175) (f32_of_Z 10))) = true.
Proof. split; vm_compute; reflexivity. Qed.

(** C40: Setting a temperature suggestion under the default configuration.  For
    four floats with a known unit and a temperature whose tenfold is in the
    range of an [int], let [t] be that tenfold cut to an integer, the request
    in whole tenths of a degree as the code has it.  The suggestion stored
    (always reported) keeps the request and adds the two temperatures of one
    step [n]: the step nearest to [t] clamped to the range, within half an
    increment of it, so both suggestions lie in the configured ranges.  It is
    the nearest step to the cut request, not always to the request itself:
    for 17.76 degrees the code suggests 17.5 although 18.0 is nearer.  A wrong
    number of floats or an unknown unit is refused without effect. *)
Theorem temperature_suggestion v h c :
  hw_ok h → prop v = VehicleProperty.HVAC_TEMPERATURE_VALUE_SUGGESTION →
  prop v ∉ hvacPowerDependentProps h → accepts (mServerSidePropStore h) v →
  getPropConfig VehicleProperty.HVAC_TEMPERATURE_SET (mServerSidePropStore h) = Ok c →
  configArray c = default_hvac_config →
  let celsius := f32_of_Z VehicleUnit.CELSIUS in let fahrenheit := f32_of_Z VehicleUnit.FAHRENHEIT in
  (∀ temp unit x y t, floatValues (value v) = [temp; unit; x; y] →
     f32_to_i32 (f32_mul temp (f32_of_Z 10)) = Some t →
     f32_eqb unit celsius = true ∨ f32_eqb unit celsius = false ∧ f32_eqb unit fahrenheit = true →
     ∃ h' w n, setValue v h = (h', Ok tt) ∧ 0 ≤ n ≤ 30 ∧
       (if f32_eqb unit celsius then -5 ≤ 2 * (175 + 5 * n - clamp t 175 325) ≤ 5
        else -10 ≤ 2 * (600 + 10 * n - clamp t 600 900) ≤ 10) ∧
       stored (mServerSidePropStore h') (prop v) (key v) = Some w ∧
       floatValues (value w) = [temp; unit; f32_div (f32_of_Z (175 + 5 * n)) (f32_of_Z 10);
                                f32_div (f32_of_Z (600 + 10 * n)) (f32_of_Z 10)] ∧
       emitted (mServerSidePropStore h') =
         emitted (mServerSidePropStore h) ++ notify_one (mServerSidePropStore h) w)
  ∧ ((length (floatValues (value v)) ≠ 4%nat ∨
      ∃ temp unit x y, floatValues (value v) = [temp; unit; x; y] ∧
        f32_eqb unit celsius = false ∧ f32_eqb unit fahrenheit = false) →
     setValue v h = (h, Err (Failed INVALID_ARG)))
  ∧ (∀ x y, floatValues (value v) = [request_17_76; celsius; x; y] →
     f32_ltb (f32_sub (f32_of_Z 18) request_17_76)
             (f32_sub request_17_76 (f32_div (f32_of_Z 175) (f32_of_Z 10))) = true ∧
     ∃ h' w, setValue v h = (h', Ok tt) ∧
       stored (mServerSidePropStore h') (prop v) (key v) = Some w ∧
       floatValues (value w) = [request_17_76; celsius; f32_div (f32_of_Z 175) (f32_of_Z 10);
                                f32_div (f32_of_Z 600) (f32_of_Z 10)]).
Proof.
  intros Hok Hp Hd Ha Hc Harr celsius fahrenheit. set (s := mServerSidePropStore h) in *.
  rewrite Hp in Hd. pose proof (set_suggestion v h Hp Hd) as Hset.
  unfold setHvacTemperatureValueSuggestion in Hset. unfold mbind' at 1, readStore in Hset. fold s in Hset.
  rewrite Hc in Hset. unfold mbind' at 1, ofStatus, mreturn at 1 in Hset.
  match goal with |- ?A ∧ ?B ∧ ?C => assert (HA : A); [|split; [exact HA|split]] end.
  - intros temp unit x y t Hf Ht Hunit. rewrite Hf in Hset. fold celsius fahrenheit in Hset.
    assert (negb (f32_eqb unit celsius || f32_eqb unit fahrenheit) = false) as Hu.
    { destruct Hunit as [->|[-> ->]]; done. }
    rewrite Hu in Hset. destruct (obtainCopyM_spec v h Hok) as (h1 & E1 & Hok1 & Hs1 & _).
    rewrite mbind_unfold, E1, Harr, Hf in Hset.
    set (n := if f32_eqb unit celsius then nearest (clamp t 175 325 - 175) 5
              else nearest (clamp t 600 900 - 600) 10).
    set (fs := [temp; unit; f32_div (f32_of_Z (175 + 5 * n)) (f32_of_Z 10);
                f32_div (f32_of_Z (600 + 10 * n)) (f32_of_Z 10)]).
    pose proof (suggestion_values temp unit x y t Ht) as [Hup Hn]. fold celsius n fs in Hup, Hn.
    rewrite Hup in Hset.
    destruct (write_now (with_floats fs v) true ALWAYS h1 Hok1) as (h2 & E2 & _ & _ & _ & _ & Hst2 & Hem2).
    { rewrite Hs1. exact Ha. }
    rewrite Hs1 in Hst2, Hem2. fold s in Hst2, Hem2. rewrite E2 in Hset.
    eexists h2, _, n. split; [done|]. split; [apply Hn|]. split; [apply Hn|].
    split; [rewrite Hst2, decide_True by done; reflexivity|]. split; [done|exact Hem2].
  - intros Hbad. assert (Herr : setValue v h = (h, Err (Failed INVALID_ARG))); [|exact Herr].
    destruct (floatValues (value v)) as [|a [|b [|x [|y [|z l]]]]]; try exact Hset.
    destruct Hbad as [Hl|(temp & unit & x' & y' & [= <- <- <- <-] & H1 & H2)]; [done|].
    fold celsius fahrenheit in Hset. rewrite H1, H2 in Hset. exact Hset.
  - intros x y Hf. split; [apply suggestion_cuts_first|].
    destruct (HA request_17_76 celsius x y 177 Hf) as (h' & w & n & Hs & Hn & Hb & Hw & Hfs & _).
    { vm_compute. reflexivity. }
    { left. vm_compute. reflexivity. }
    replace (f32_eqb celsius celsius) with true in Hb by (vm_compute; reflexivity).
    replace (clamp 177 175 325) with 177 in Hb by reflexivity.
    assert (n = 0) as -> by lia. by exists h', w.
Qed.

End laws.


(** ** Examples *)

(** No registered token function: every property is tokenless. *)
Definition token_free (s : Store) : Prop := map_Forall (λ _ rec, tokenFunction rec = None) (mRecordsByPropId s).

Lemma token_free_tokenless s p : token_free s → tokenless s p.
Proof.
  intros Hf v r _ Hr. unfold record_of in Hr. destruct (mRecordsByPropId s !! prop v) as [rec|] eqn:E; [|done].
  injection Hr as <-. unfold getRecordIdLocked. cbn. by rewrite (Hf _ _ E).
Qed.

(** Registering properties before any value is written. *)
Definition registerAll (cs : list VehiclePropConfig) : Store :=
  fold_right (λ c s, registerProperty c None s) newStore cs.

Lemma registerAll_facts cs :
  token_free (registerAll cs) ∧ ∀ p r, stored (registerAll cs) p r = None.
Proof.
  induction cs as [|c cs [IH1 IH2]]; cbn [registerAll fold_right].
  { split; [apply map_Forall_empty|done]. }
  split.
  - by apply map_Forall_insert_2.
  - intros p r. specialize (IH2 p r). unfold stored, registerProperty in *. cbn.
    destruct (decide (p = pc_prop c)) as [->|]; [by rewrite lookup_insert_eq|by rewrite lookup_insert_ne].
Qed.

Lemma registerAll_wf tick cs : store_wf tick (registerAll cs).
Proof. destruct (registerAll_facts cs) as [_ H]. split; intros p r o; by rewrite H. Qed.

Definition example_config (p : Z) (areas array : list Z) : VehiclePropConfig :=
  mkPropConfig p 3 1 (areaConfigFor <$> areas) array "" f32_zero f32_zero.

Definition example_configs : list VehiclePropConfig :=
  [example_config VehicleProperty.AP_POWER_STATE_REPORT [] [];
   example_config VehicleProperty.AP_POWER_STATE_REQ [] [];
   example_config VehicleProperty.HVAC_POWER_ON [49; 68] [];
   example_config VehicleProperty.HVAC_FAN_SPEED [49; 68] [];
   example_config VehicleProperty.HVAC_DUAL_ON [117] [];
   example_config VehicleProperty.HVAC_TEMPERATURE_SET [49; 68] default_hvac_config;
   example_config VehicleProperty.HVAC_TEMPERATURE_VALUE_SUGGESTION [0] [];
   example_config VehicleProperty.CRUISE_CONTROL_ENABLED [0] [];
   example_config VehicleProperty.CRUISE_CONTROL_TYPE [0] [];
   example_config VehicleProperty.CRUISE_CONTROL_STATE [0] [];
   example_config VehicleProperty.PERF_ODOMETER [0] []].

Definition example_hw : HW :=
  mkHW (registerAll example_configs) (newFakeUserHal (newPool 4 10240)) [VehicleProperty.HVAC_FAN_SPEED].

Lemma example_pool_ok : pool_config_ok 4 10240.
Proof. by split. Qed.

Lemma example_hw_ok : hw_ok example_tick 4 10240 example_hw.
Proof. split; [apply registerAll_wf|]. split; [done|done|]. apply map_Forall_empty. Qed.

Lemma example_tokenless p : tokenless (mServerSidePropStore example_hw) p.
Proof. apply token_free_tokenless, registerAll_facts. Qed.

Lemma example_accepts v :
  match getPropConfig (prop v) (mServerSidePropStore example_hw) with
  | Ok c => isGlobalProp (prop v) || bool_decide (is_Some (getAreaConfigOf v c))
  | Err _ => false
  end = true → accepts (mServerSidePropStore example_hw) v.
Proof.
  intros H. split; [apply example_tokenless|]. destruct (getPropConfig _ _) as [c|]; [|done].
  exists c. split; [done|]. apply orb_true_iff in H as [H|H]; [by left|right; by apply bool_decide_eq_true in H].
Qed.

Lemma example_not_dependent p : p ≠ VehicleProperty.HVAC_FAN_SPEED → p ∉ hvacPowerDependentProps example_hw.
Proof. intros Hp Hin. apply Hp. by apply list_elem_of_singleton in Hin. Qed.

Definition example_int (p a x : Z) : VehiclePropValue := mkPropValue 0 a p 0 (mkRaw [x] [] [] [] "").

Lemma set_then_get_witness : ∃ h',
  setValue example_tick 0 (example_int VehicleProperty.PERF_ODOMETER 0 7) example_hw = (h', Ok tt) ∧
  getValue example_tick 0 None (example_int VehicleProperty.PERF_ODOMETER 5 0) h'
    = (h', Ok (set_timestamp 100 (example_int VehicleProperty.PERF_ODOMETER 0 7))).
Proof.
  destruct (set_then_get example_tick 0 4 10240 example_pool_ok None
              (example_int VehicleProperty.PERF_ODOMETER 0 7) example_hw example_hw_ok) as [H _].
  { vm_compute. reflexivity. }
  { apply example_tokenless. }
  destruct H as (h' & Hs & Hg & _); [apply example_accepts; vm_compute; reflexivity|].
  exists h'. split; [exact Hs|]. apply (Hg (example_int VehicleProperty.PERF_ODOMETER 5 0)); [reflexivity|].
  left. reflexivity.
Defined.

Lemma power_state_report_witness : ∃ h' k,
  setValue example_tick 0 (example_int VehicleProperty.AP_POWER_STATE_REPORT 0 2) example_hw = (h', Ok tt) ∧
  stored (mServerSidePropStore h') VehicleProperty.AP_POWER_STATE_REQ globalKey
    = Some (mkPropValue (example_tick k) 0 VehicleProperty.AP_POWER_STATE_REQ 0 (mkRaw [3; 0] [] [] [] "")).
Proof.
  destruct (power_state_report example_tick example_tick_mono 0 4 10240 example_pool_ok
              (example_int VehicleProperty.AP_POWER_STATE_REPORT 0 2) example_hw 2 [] example_hw_ok
              eq_refl eq_refl) as (h' & Hs & _ & _ & k & _ & Hreq & _).
  { apply example_not_dependent. vm_compute. discriminate. }
  { apply example_accepts. vm_compute. reflexivity. }
  { apply example_accepts. vm_compute. reflexivity. }
  exists h', k. split; [exact Hs|exact Hreq].
Defined.

Lemma hvac_power_switch_witness : ∃ h',
  setValue example_tick 0 (example_int VehicleProperty.HVAC_POWER_ON 49 0) example_hw = (h', Ok tt) ∧
  setValue example_tick 0 (example_int VehicleProperty.HVAC_FAN_SPEED 49 3) h'
    = (h', Err (Failed NOT_AVAILABLE_DISABLED)).
Proof.
  destruct (hvac_power_switch example_tick example_tick_mono 0 4 10240 example_pool_ok
              (example_int VehicleProperty.HVAC_POWER_ON 49 0) example_hw 0
              (example_config VehicleProperty.HVAC_POWER_ON [49; 68] [])
              example_hw_ok) as (h' & s1 & Hs & _ & _ & _ & Hoff).
  { by split. }
  { apply example_not_dependent. vm_compute. discriminate. }
  { apply NoDup_singleton. }
  { intros p _. apply example_tokenless. }
  { vm_compute. reflexivity. }
  { right. vm_compute. by eexists. }
  exists h'. split; [exact Hs|].
  apply (Hoff 49 eq_refl) with (q := example_int VehicleProperty.HVAC_FAN_SPEED 49 3);
    [|by left|reflexivity..].
  intros r o Ho. exfalso. revert Ho. unfold example_hw. cbn [mServerSidePropStore].
  rewrite (proj2 (registerAll_facts example_configs)). discriminate.
Defined.

Lemma cruise_control_disabled_witness : ∃ h',
  setValue example_tick 0 (example_int VehicleProperty.CRUISE_CONTROL_ENABLED 0 0) example_hw = (h', Ok tt) ∧
  getValue example_tick 0 None (example_int VehicleProperty.CRUISE_CONTROL_TARGET_SPEED 0 0) h'
    = (h', Err (Failed NOT_AVAILABLE_DISABLED)) ∧
  setValue example_tick 0 (example_int VehicleProperty.CRUISE_CONTROL_COMMAND 0 1) h'
    = (h', Err (Failed NOT_AVAILABLE_DISABLED)).
Proof.
  destruct (cruise_control_disabled example_tick example_tick_mono 0 4 10240 example_pool_ok
              (example_int VehicleProperty.CRUISE_CONTROL_ENABLED 0 0) example_hw 0
              (example_config VehicleProperty.CRUISE_CONTROL_STATE [0] [])
              example_hw_ok eq_refl eq_refl) as (h' & Hs & Hg & Hset).
  { discriminate. }
  { intros q Hq. apply example_not_dependent. intros ->. revert Hq. apply (bool_decide_unpack _).
    vm_compute. exact I. }
  { apply example_accepts. vm_compute. reflexivity. }
  { apply example_tokenless. }
  { apply example_tokenless. }
  { vm_compute. reflexivity. }
  { discriminate. }
  exists h'. split; [exact Hs|]. split.
  - apply Hg. apply (bool_decide_unpack _). vm_compute. exact I.
  - apply Hset. apply (bool_decide_unpack _). vm_compute. exact I.
Defined.

Lemma get_crash_iff_witness :
  snd (getValue example_tick 0 None
         (example_int VehicleProperty.ADAPTIVE_CRUISE_CONTROL_TARGET_TIME_GAP 0 0) example_hw) = Err Crash.
Proof.
  apply (get_crash_iff example_tick 0 4 10240 example_pool_ok None
           (example_int VehicleProperty.ADAPTIVE_CRUISE_CONTROL_TARGET_TIME_GAP 0 0) example_hw
           (newPool 4 10240) ∅ example_hw_ok).
  - apply rel_new.
  - split; [by left|]. vm_compute. done.
Defined.

Definition example_suggestion : VehiclePropValue :=
  mkPropValue 0 0 VehicleProperty.HVAC_TEMPERATURE_VALUE_SUGGESTION 0
    (mkRaw [] [f32_div (f32_of_Z 45) (f32_of_Z 2); f32_of_Z VehicleUnit.CELSIUS; f32_zero; f32_zero] [] [] "").

Lemma temperature_suggestion_witness : ∃ h' w n,
  setValue example_tick 0 example_suggestion example_hw = (h', Ok tt) ∧
  stored (mServerSidePropStore h') VehicleProperty.HVAC_TEMPERATURE_VALUE_SUGGESTION globalKey = Some w ∧
  -5 ≤ 2 * (175 + 5 * n - 225) ≤ 5.
Proof.
  destruct (temperature_suggestion example_tick example_tick_mono 0 4 10240 example_pool_ok
              example_suggestion example_hw
              (example_config VehicleProperty.HVAC_TEMPERATURE_SET [49; 68] default_hvac_config)
              example_hw_ok eq_refl) as [H _].
  { apply example_not_dependent. vm_compute. discriminate. }
  { apply example_accepts. vm_compute. reflexivity. }
  { vm_compute. reflexivity. }
  { reflexivity. }
  destruct (H (f32_div (f32_of_Z 45) (f32_of_Z 2)) (f32_of_Z VehicleUnit.CELSIUS) f32_zero f32_zero 225
              eq_refl) as (h' & w & n & Hs & _ & Hn & Hst & _).
  { vm_compute. reflexivity. }
  { left. vm_compute. reflexivity. }
  exists h', w, n. split; [exact Hs|]. split; [exact Hst|exact Hn].
Defined.

Lemma adas_switch_witness : ∃ h' o,
  setValue example_tick 0 (example_int VehicleProperty.CRUISE_CONTROL_ENABLED 0 1) example_hw = (h', Ok tt) ∧
  stored (mServerSidePropStore h') VehicleProperty.CRUISE_CONTROL_STATE globalKey = Some o ∧
  int32Values (value o) = [1].
Proof.
  destruct (adas_switch example_tick example_tick_mono 0 4 10240 example_pool_ok
              (example_int VehicleProperty.CRUISE_CONTROL_ENABLED 0 1) example_hw 1
              [VehicleProperty.CRUISE_CONTROL_TYPE; VehicleProperty.CRUISE_CONTROL_STATE]
              example_hw_ok eq_refl eq_refl) as (h' & Hs & Hdep & _).
  { apply example_not_dependent. vm_compute. discriminate. }
  { apply example_accepts. vm_compute. reflexivity. }
  { intros p _. apply example_tokenless. }
  destruct (Hdep VehicleProperty.CRUISE_CONTROL_STATE
              (example_config VehicleProperty.CRUISE_CONTROL_STATE [0] []) (areaConfigFor 0))
    as (o & Ho & Hv).
  { by right; left. }
  { vm_compute. reflexivity. }
  { by left. }
  exists h', o. split; [exact Hs|]. split; [exact Ho|].
  destruct Hv as (k & a & _ & _ & ->). reflexivity.
Defined.

(** Two zones with a temperature each, joined by a dual area when [dual]. *)
Definition example_write (v : VehiclePropValue) (s : Store) : Store :=
  fst (writeValue example_tick v true ALWAYS true s).
Definition example_temp (a t : Z) : VehiclePropValue :=
  mkPropValue 0 a VehicleProperty.HVAC_TEMPERATURE_SET 0 (mkRaw [] [f32_of_Z t] [] [] "").
Definition example_dual_store (dual : Z) : Store :=
  example_write (example_temp 49 20) (example_write (example_temp 68 23)
    (example_write (example_int VehicleProperty.HVAC_DUAL_ON 117 dual) (registerAll example_configs))).
Definition example_dual_hw (dual : Z) : HW := set_store (example_dual_store dual) example_hw.

Lemma example_write_wf v s : store_wf example_tick s → store_wf example_tick (example_write v s).
Proof. intros H. apply (write_wf _ example_tick_mono); [by left|done]. Qed.

Lemma example_dual_registry dual : same_registry (registerAll example_configs) (example_dual_store dual).
Proof. repeat (eapply same_registry_trans; [|apply write_registry]). apply same_registry_refl. Qed.

Lemma example_dual_wf dual : store_wf example_tick (example_dual_store dual).
Proof. repeat apply example_write_wf. apply registerAll_wf. Qed.

Lemma example_dual_ok dual : hw_ok example_tick 4 10240 (example_dual_hw dual).
Proof. split; [apply example_dual_wf|apply example_hw_ok]. Qed.

Lemma example_dual_tokenless dual p : tokenless (example_dual_store dual) p.
Proof. apply (tokenless_same _ _ _ (example_dual_registry dual)), token_free_tokenless, registerAll_facts. Qed.

Lemma example_dual_config dual p :
  getPropConfig p (example_dual_store dual) = getPropConfig p (registerAll example_configs).
Proof. apply (example_dual_registry dual). Qed.

Definition stored_values (p : Z) (s : Store) : list (RecordId * VehiclePropValue) :=
  match mRecordsByPropId s !! p with Some rec => map_to_list (values rec) | None => [] end.

Lemma stored_values_spec p s r o : stored s p r = Some o → (r, o) ∈ stored_values p s.
Proof.
  unfold stored, stored_values. destruct (mRecordsByPropId s !! p); [|done].
  intros H. by apply elem_of_map_to_list.
Qed.

Lemma example_temperatures_ok dual : dual = 0 ∨ dual = 1 → temperatures_ok (example_dual_store dual).
Proof.
  intros Hd.
  assert (Hf : forallb (λ kv, match floatValues (value kv.2) with [] => false | _ => true end)
                 (stored_values VehicleProperty.HVAC_TEMPERATURE_SET (example_dual_store dual)) = true).
  { destruct Hd as [-> | ->]; vm_compute; reflexivity. }
  split.
  - apply example_dual_tokenless.
  - eexists. rewrite example_dual_config. vm_compute. reflexivity.
  - intros r o Ho%stored_values_spec E. rewrite forallb_forall in Hf.
    specialize (Hf (r, o) (proj1 (list_elem_of_In _ _) Ho)). cbn in Hf. by rewrite E in Hf.
Qed.

Lemma hvac_temperature_dual_witness : ∃ s',
  setValue example_tick 0 (example_temp 49 25) (example_dual_hw 1) = (set_store s' (example_dual_hw 1), Ok tt) ∧
  ∃ o, stored s' VehicleProperty.HVAC_TEMPERATURE_SET (mkRecordId 68 0) = Some o ∧
    floatValues (value o) = [f32_of_Z 25].
Proof.
  destruct (hvac_temperature_dual example_tick example_tick_mono 0 4 10240 (example_temp 49 25)
              (example_dual_hw 1) (f32_of_Z 25) 117 (example_dual_ok 1) eq_refl eq_refl) as (s' & Hs & Hup).
  { vm_compute. reflexivity. }
  { vm_compute. reflexivity. }
  { apply (example_temperatures_ok 1). by right. }
  exists s'. split; [exact Hs|].
  destruct (up_changed _ _ _ _ _ Hup VehicleProperty.HVAC_TEMPERATURE_SET (mkRecordId 68 0)
              (mkPropValue 110 68 VehicleProperty.HVAC_TEMPERATURE_SET 0 (mkRaw [] [f32_of_Z 23] [] [] "")))
    as (k & _ & Ho).
  { vm_compute. reflexivity. }
  { split; vm_compute; reflexivity. }
  eexists. split; [exact Ho|]. reflexivity.
Defined.

Lemma hvac_dual_on_witness : ∃ h',
  setValue example_tick 0 (example_int VehicleProperty.HVAC_DUAL_ON 117 1) (example_dual_hw 0) = (h', Ok tt).
Proof.
  destruct (hvac_dual_on example_tick example_tick_mono 0 4 10240 example_pool_ok
              (example_int VehicleProperty.HVAC_DUAL_ON 117 1) (example_dual_hw 0) (example_dual_ok 0)
              eq_refl eq_refl) as (h' & s1 & Hs & _).
  { vm_compute. reflexivity. }
  { split; [apply example_dual_tokenless|].
    exists (example_config VehicleProperty.HVAC_DUAL_ON [117] []). split; [vm_compute; reflexivity|].
    right. vm_compute. by eexists. }
  { apply (example_temperatures_ok 0). by left. }
  exists h'. exact Hs.
Defined.
