(* ===== verification/FakeRequests.v ===== *)
(** * FakeVehicleHardware: the request queues

    Models [getValues], [setValues] and the class [PendingRequestHandler] of
    [fake_impl/hardware/src/FakeVehicleHardware.cpp]: each of the two handlers
    owns a queue and a worker thread that flushes it, handles the requests one
    after the other, groups the results by callback and then calls every
    callback once.  The clients' pushes, the two workers and [stop] interleave.

    A callback is identified by its address (a [nat]).  One request is handled
    in one step: the workers share the store, the pool and the user HAL, whose
    methods are critical sections.  The iteration order of [callbackToResults]
    is the order of [map_to_list]; the theorems do not depend on it. *)

From stdpp Require Import base gmap list.
From Stdlib Require Import ZArith Lia.
From S2P Require Import Prelude VehicleTypes VehiclePropertyStore ConcurrentQueue FakeHardwareValues.

Local Open Scope vhal_scope.

(** A thread's next step. *)
Inductive Outcome (A : Type) : Type := Next (a : A) | Blocked | Crashed.
Arguments Next {A} a.
Arguments Blocked {A}.
Arguments Crashed {A}.

Section handler.
  Context {St Req Res : Type}.

Record RequestWithCallback : Type := mkRWC { request : Req; callback : nat }.

Notation Results := (gmap nat (list Res)).

(** Where the worker thread is. *)
Inductive Worker : Type :=
| Waiting                                                    (* in [waitForItems] *)
| Flushing                                                   (* entering [handleRequestsOnce] *)
| Handling (items : list RequestWithCallback) (callbackToResults : Results)   (* first loop *)
| Answering (todo : list (nat * list Res))                   (* second loop *)
| Exited.

Record PendingRequestHandler : Type := mkHandler {
  mRequests : ConcurrentQueue RequestWithCallback;
  mThread : Worker;
  answers : list (nat * list Res);                           (* the calls made, in order *)
}.

Definition newHandler : PendingRequestHandler := mkHandler newQueue Waiting [].

Definition addRequest (r : Req) (cb : nat) (h : PendingRequestHandler) : PendingRequestHandler :=
  mkHandler (push (mkRWC r cb) (mRequests h)) (mThread h) (answers h).

(** [getValues] and [setValues]: one push per request. *)
Definition addRequests (cb : nat) (requests : list Req) (h : PendingRequestHandler) : PendingRequestHandler :=
  foldl (λ h r, addRequest r cb h) h requests.

(** [stop]; the [join] that follows waits for the thread to be [Exited]. *)
Definition stop (h : PendingRequestHandler) : PendingRequestHandler :=
  mkHandler (deactivate (mRequests h)) (mThread h) (answers h).

Definition addResult (cb : nat) (r : Res) (m : Results) : Results :=
  <[cb := default [] (m !! cb) ++ [r]]> m.

Section step.
  Context (handle : Req → St → option (St * Res)).

(** [handleRequestsOnce], undisturbed. *)
Fixpoint handle_loop (items : list RequestWithCallback) (m : Results) (s : St) : option (Results * St) :=
  match items with
  | [] => Some (m, s)
  | rwc :: items' =>
      match handle (request rwc) s with
      | Some (s', r) => handle_loop items' (addResult (callback rwc) r m) s'
      | None => None
      end
  end.

Definition handleRequestsOnce (h : PendingRequestHandler) (s : St) : option (PendingRequestHandler * St) :=
  let '(q, items) := flush (mRequests h) in
  match handle_loop items ∅ s with
  | Some (m, s') => Some (mkHandler q Waiting (answers h ++ map_to_list m), s')
  | None => None
  end.

(** The worker thread, step by step. *)
Definition worker_step (h : PendingRequestHandler) (s : St) : Outcome (PendingRequestHandler * St) :=
  let q := mRequests h in
  match mThread h with
  | Waiting =>
      match waitForItems q with
      | None => Blocked
      | Some true => Next (mkHandler q Flushing (answers h), s)
      | Some false => Next (mkHandler q Exited (answers h), s)
      end
  | Flushing => let '(q', items) := flush q in Next (mkHandler q' (Handling items ∅) (answers h), s)
  | Handling [] m => Next (mkHandler q (Answering (map_to_list m)) (answers h), s)
  | Handling (rwc :: items) m =>
      match handle (request rwc) s with
      | Some (s', r) => Next (mkHandler q (Handling items (addResult (callback rwc) r m)) (answers h), s')
      | None => Crashed
      end
  | Answering [] => Next (mkHandler q Waiting (answers h), s)
  | Answering (call :: todo) => Next (mkHandler q (Answering todo) (answers h ++ [call]), s)
  | Exited => Blocked
  end.

Fixpoint worker_run (n : nat) (h : PendingRequestHandler) (s : St) : Outcome (PendingRequestHandler * St) :=
  match n with
  | O => Next (h, s)
  | S n' => match worker_step h s with
            | Next (h', s') => worker_run n' h' s'
            | o => o
            end
  end.

Lemma worker_run_app n m h s h' s' : worker_run n h s = Next (h', s') →
  worker_run (n + m) h s = worker_run m h' s'.
Proof.
  revert h s. induction n as [|n IH]; intros h s; cbn; [by intros [= -> ->]|].
  destruct (worker_step h s) as [[h1 s1]| |]; [apply IH|done..].
Qed.

Lemma worker_run_crash n m h s : worker_run n h s = Crashed → worker_run (n + m) h s = Crashed.
Proof.
  revert h s. induction n as [|n IH]; intros h s; cbn; [done|].
  destruct (worker_step h s) as [[h1 s1]| |]; [apply IH|done..].
Qed.
End step.

(** ** What a callback is owed *)

Section ids.
  Context (request_id : Req → Z) (result_id : Res → Z).

(** The ids of the requests for [cb] in a queue or batch. *)
Definition asked (cb : nat) (items : list RequestWithCallback) : list Z :=
  (λ i, request_id (request i)) <$> filter (λ i, callback i = cb) items.

(** The ids in a list of calls of [cb]. *)
Definition called (cb : nat) (calls : list (nat * list Res)) : list Z :=
  result_id <$> concat (snd <$> filter (λ c, c.1 = cb) calls).

Definition inFlight (cb : nat) (w : Worker) : list Z :=
  match w with
  | Handling items m => (result_id <$> default [] (m !! cb)) ++ asked cb items
  | Answering todo => called cb todo
  | _ => []
  end.

(** Answered, in the worker's hands, or queued. *)
Definition contents (cb : nat) (h : PendingRequestHandler) : list Z :=
  called cb (answers h) ++ inFlight cb (mThread h) ++ asked cb (mQueue (mRequests h)).

Lemma asked_app cb l1 l2 : asked cb (l1 ++ l2) = asked cb l1 ++ asked cb l2.
Proof. unfold asked. by rewrite filter_app, fmap_app. Qed.

Lemma asked_cons cb i l :
  asked cb (i :: l) = (if decide (callback i = cb) then [request_id (request i)] else []) ++ asked cb l.
Proof. unfold asked. rewrite filter_cons. by case_decide. Qed.

Lemma called_app cb l1 l2 : called cb (l1 ++ l2) = called cb l1 ++ called cb l2.
Proof. unfold called. by rewrite filter_app, fmap_app, concat_app, fmap_app. Qed.

#[local] Arguments asked : simpl never.
#[local] Arguments called : simpl never.

(** Iterating over the map calls every callback once, with all its results. *)
Lemma called_map_to_list cb (m : Results) : called cb (map_to_list m) = result_id <$> default [] (m !! cb).
Proof.
  unfold called. f_equal.
  assert (Hl : ∀ l : list (nat * list Res), NoDup l.*1 →
    concat (snd <$> filter (λ c, c.1 = cb) l) =
    default [] (match filter (λ c, c.1 = cb) l with [] => None | c :: _ => Some c.2 end)
    ∧ ∀ c, c ∈ l → c.1 = cb → filter (λ c, c.1 = cb) l = [c]).
  { induction l as [|[k rs] l IH]; [intros _; split; [done|by intros c ?%elem_of_nil]|].
    cbn [fmap list_fmap]. rewrite NoDup_cons. intros [Hk Hnd]. destruct (IH Hnd) as [IH1 IH2].
    rewrite filter_cons. cbn [fst]. case_decide as Hc.
    - subst k. assert (filter (λ c, c.1 = cb) l = []) as ->.
      { destruct (filter _ l) as [|c l'] eqn:E; [done|]. exfalso. apply Hk. apply list_elem_of_fmap. exists c.
        assert (c ∈ filter (λ c, c.1 = cb) l) as Hc by (rewrite E; left). apply list_elem_of_filter in Hc as [? ?]. done. }
      cbn. rewrite app_nil_r. split; [done|]. intros c [->|Hin]%elem_of_cons Hc; [done|]. exfalso. apply Hk.
      apply list_elem_of_fmap. exists c. done.
    - split; [done|]. intros c [->|Hin]%elem_of_cons Hcb; [done|]. by apply IH2. }
  destruct (Hl (map_to_list m) (NoDup_fst_map_to_list m)) as [-> Hin].
  destruct (m !! cb) as [rs|] eqn:E.
  - rewrite (Hin (cb, rs)); [done|by apply elem_of_map_to_list|done].
  - destruct (filter _ _) as [|[k rs] l] eqn:F; [done|]. exfalso.
    assert ((k, rs) ∈ filter (λ c : nat * list Res, c.1 = cb) (map_to_list m)) as H by (rewrite F; left).
    apply list_elem_of_filter in H as [Hk H]. cbn in Hk. subst k. apply elem_of_map_to_list in H. congruence.
Qed.

(** Handling keeps the request's id. *)
Definition keeps_id (handle : Req → St → option (St * Res)) : Prop :=
  ∀ q s s' r, handle q s = Some (s', r) → result_id r = request_id q.

Lemma contents_addRequest cb r cb' h : contents cb (addRequest r cb' h) =
  contents cb h ++ (if mIsActive (mRequests h) then asked cb [mkRWC r cb'] else []).
Proof.
  unfold contents, addRequest, push. destruct (mRequests h) as [act q]. cbn. destruct act; cbn.
  - by rewrite asked_app, !app_assoc.
  - by rewrite app_nil_r.
Qed.

Lemma lookup_addResult cb cb' r (m : Results) : default [] (addResult cb' r m !! cb) =
  default [] (m !! cb) ++ (if decide (cb' = cb) then [r] else []).
Proof.
  unfold addResult. case_decide as Hc; [by rewrite Hc, lookup_insert_eq|].
  by rewrite lookup_insert_ne, app_nil_r.
Qed.

Lemma contents_step handle cb h s h' s' : keeps_id handle →
  worker_step handle h s = Next (h', s') → contents cb h' = contents cb h.
Proof.
  intros Hid. unfold worker_step, contents. destruct h as [q w a]. cbn. destruct w as [| |[|rwc items] m|[|c todo]|]; cbn.
  - destruct (waitForItems q) as [[]|]; [| |done]; by intros [= <- <-].
  - rewrite flush_eq. intros [= <- <-]. cbn. by rewrite lookup_empty, app_nil_r.
  - intros [= <- <-]. cbn. by rewrite called_map_to_list, app_nil_r.
  - destruct (handle (request rwc) s) as [[s1 r]|] eqn:E; [|done]. intros [= <- <-]. cbn.
    apply Hid in E. rewrite asked_cons, lookup_addResult, fmap_app, <- E. do 2 f_equal.
    rewrite <- app_assoc. f_equal. f_equal. by case_decide.
  - intros [= <- <-]. done.
  - intros [= <- <-]. cbn. rewrite called_app, <- app_assoc. f_equal. rewrite app_assoc. f_equal.
    by rewrite <- called_app.
  - done.
Qed.

Lemma contents_run handle cb n : keeps_id handle → ∀ h s h' s',
  worker_run handle n h s = Next (h', s') → contents cb h' = contents cb h.
Proof.
  intros Hid. induction n as [|n IH]; intros h s h' s'; cbn; [by intros [= -> ->]|].
  destruct (worker_step handle h s) as [[h1 s1]| |] eqn:E; [|done..].
  intros Hr. rewrite (IH _ _ _ _ Hr). by eapply contents_step.
Qed.
End ids.

(** ** Termination *)

Section termination.
  Context (handle : Req → St → option (St * Res)).
Notation worker_step := (worker_step handle).
Notation worker_run := (worker_run handle).

Definition emptied (q : ConcurrentQueue RequestWithCallback) : ConcurrentQueue RequestWithCallback :=
  mkQueue (mIsActive q) [].

(** The worker alone reaches [w], or a request crashes on the way. *)
Definition reaches (w : Worker) (q : ConcurrentQueue RequestWithCallback) (h : PendingRequestHandler)
    (s : St) : Prop :=
  ∃ n, worker_run n h s = Crashed ∨
    ∃ a s', worker_run n h s = Next (mkHandler q w a, s').

Lemma reaches_step w q h s h1 s1 : worker_step h s = Next (h1, s1) → reaches w q h1 s1 → reaches w q h s.
Proof. intros E (n & Hn). exists (S n). cbn. by rewrite E. Qed.

Lemma reaches_trans w q w1 q1 h s : reaches w1 q1 h s →
  (∀ a s', reaches w q (mkHandler q1 w1 a) s') → reaches w q h s.
Proof.
  intros (n & [Hn|(a & s' & Hn)]) H; [by exists n; left|].
  destruct (H a s') as (m & Hm). exists (n + m)%nat. by rewrite (worker_run_app handle n m _ _ _ _ Hn).
Qed.

Lemma answering_ends q todo a s : reaches Waiting q (mkHandler q (Answering todo) a) s.
Proof.
  revert a s. induction todo as [|c todo IH]; intros a s; [by exists 1%nat; right; eauto|].
  by eapply reaches_step; [|apply IH].
Qed.

Lemma handling_ends q items m a s : reaches Waiting q (mkHandler q (Handling items m) a) s.
Proof.
  revert m a s. induction items as [|i items IH]; intros m a s.
  { eapply reaches_step; [done|]. apply answering_ends. }
  destruct (handle (request i) s) as [[s1 r]|] eqn:E.
  - eapply reaches_step; [cbn; by rewrite E|]. apply IH.
  - exists 1%nat. left. cbn. by rewrite E.
Qed.

Lemma flushing_ends q a s : reaches Waiting (emptied q) (mkHandler q Flushing a) s.
Proof. eapply reaches_step; [cbn; rewrite flush_eq; done|]. apply handling_ends. Qed.

Lemma to_waiting h s : mThread h ≠ Exited →
  reaches Waiting (mRequests h) h s ∨ reaches Waiting (emptied (mRequests h)) h s.
Proof.
  destruct h as [q w a]. destruct w as [| |items m|todo|]; cbn; intros Hw; [left|right|left|left|done].
  - exists O. right. by eexists _, _.
  - apply flushing_ends.
  - apply handling_ends.
  - apply answering_ends.
Qed.

Lemma drains q a s : mIsActive q = true → reaches Waiting (emptied q) (mkHandler q Waiting a) s.
Proof.
  intros Ha. destruct q as [act [|i l]]; cbn in Ha; subst act.
  - exists O. right. by eexists _, _.
  - eapply reaches_step; [done|]. apply flushing_ends.
Qed.

(** With an empty queue the idle worker is blocked, or exits when stopped. *)
Lemma reaches_exit q a s : mIsActive q = false → reaches Exited q (mkHandler q Waiting a) s.
Proof.
  intros Ha. eapply reaches_step; [|exists O; right; by eexists _, _].
  destruct q as [act [|i l]]; cbn in *; by subst act.
Qed.

Context (request_id : Req → Z) (result_id : Res → Z).

(** The requests in the worker's hands that are not handled yet, and those
    queued. *)
Definition held (h : PendingRequestHandler) : list RequestWithCallback :=
  match mThread h with Handling items _ => items | _ => [] end ++ mQueue (mRequests h).

(** The worker alone comes to rest.  Either handling one of the requests it
    holds crashes; or it waits on an empty queue, having answered everything it
    was given; or, only when it is stopped, it has exited: everything it had
    taken is answered, and the queue is what the stop left in it (nothing,
    when the worker was about to take the batch). *)
Definition settles (h : PendingRequestHandler) (s : St) : Prop :=
  ∃ n, (worker_run n h s = Crashed ∧ ∃ i s1, i ∈ held h ∧ handle (request i) s1 = None) ∨
    ∃ h' s', worker_run n h s = Next (h', s') ∧ worker_step h' s' = Blocked ∧
      match mThread h' with
      | Waiting => mQueue (mRequests h') = [] ∧
          ∀ cb, called result_id cb (answers h') = contents request_id result_id cb h
      | Exited => (mIsActive (mRequests h) = false ∨ mThread h = Exited) ∧
          mRequests h' = (match mThread h with Flushing => emptied (mRequests h) | _ => mRequests h end) ∧
          ∀ cb, called result_id cb (answers h') ++ asked request_id cb (mQueue (mRequests h')) =
                contents request_id result_id cb h
      | _ => False
      end.

Lemma held_step h s h' s' i : worker_step h s = Next (h', s') → i ∈ held h' → i ∈ held h.
Proof.
  unfold worker_step, held. destruct h as [q w a]. cbn. destruct w as [| |[|rwc items] m|[|c todo]|]; cbn.
  - destruct (waitForItems q) as [[]|]; [| |done]; by intros [= <- <-].
  - rewrite flush_eq. intros [= <- <-]. cbn. by rewrite app_nil_r.
  - by intros [= <- <-].
  - destruct (handle (request rwc) s) as [[s1 r]|]; [|done]. intros [= <- <-]. cbn. by right.
  - by intros [= <- <-].
  - by intros [= <- <-].
  - done.
Qed.

(** Only a request it holds can crash the worker. *)
Lemma crash_cause n : ∀ h s, worker_run n h s = Crashed →
  ∃ i s1, i ∈ held h ∧ handle (request i) s1 = None.
Proof.
  induction n as [|n IH]; intros h s; cbn; [done|].
  destruct (worker_step h s) as [[h1 s1]| |] eqn:E; [|done|].
  - intros (i & s2 & Hi & Hn)%IH. exists i, s2. split; [by eapply held_step|done].
  - intros _. revert E. unfold worker_step, held. destruct h as [q w a]. cbn.
    destruct w as [| |[|rwc items] m|[|c todo]|]; rewrite ?flush_eq; cbn; try done.
    + by destruct (waitForItems q) as [[]|].
    + destruct (handle (request rwc) s) as [[s1 r]|] eqn:Hh; [done|]. intros _. exists rwc, s.
      split; [left|done].
Qed.

Lemma reaches_settles q h s : keeps_id request_id result_id handle →
  mIsActive q = true → reaches Waiting (emptied q) h s → settles h s.
Proof.
  intros Hid Ha (n & [Hn|(a & s' & Hn)]).
  { exists n. left. split; [done|]. by eapply crash_cause. }
  exists n. right. eexists _, s'. split; [done|]. cbn. rewrite Ha. split; [done|]. split; [done|]. intros cb.
  rewrite <- (contents_run request_id result_id handle cb n Hid _ _ _ _ Hn).
  unfold contents. cbn. unfold asked. cbn. by rewrite app_nil_r.
Qed.

(** A stopped worker finishes what it has in hand and exits. *)
Lemma stopped_exits h s : mThread h ≠ Exited → mIsActive (mRequests h) = false →
  reaches Exited (match mThread h with Flushing => emptied (mRequests h) | _ => mRequests h end) h s.
Proof.
  intros Hw Ha. destruct h as [q w a]. cbn [mThread mRequests] in *.
  assert (Hx : ∀ a s, reaches Exited q (mkHandler q Waiting a) s) by (intros; by apply reaches_exit).
  destruct w as [| |items m|todo|]; try done.
  - eapply reaches_trans; [apply flushing_ends|]. intros a' s'. by apply reaches_exit.
  - eapply reaches_trans; [apply handling_ends|done].
  - eapply reaches_trans; [apply answering_ends|done].
Qed.

Lemma all_settle h s : keeps_id request_id result_id handle → settles h s.
Proof.
  intros Hid. assert (mThread h = Exited ∨ mThread h ≠ Exited) as [He|Hw] by (destruct (mThread h); auto).
  { exists O. right. eexists h, s. split; [done|]. unfold worker_step. rewrite He. split; [done|].
    split; [by right|]. split; [done|]. intros cb. unfold contents. by rewrite He. }
  destruct (mIsActive (mRequests h)) eqn:Ha.
  - apply (reaches_settles (mRequests h)); [done..|].
    destruct (to_waiting h s Hw) as [H|H]; [|done].
    eapply reaches_trans; [exact H|]. intros a s'. by apply drains.
  - destruct (stopped_exits h s Hw Ha) as (n & [Hn|(a & s' & Hn)]).
    { exists n. left. split; [done|]. by eapply crash_cause. }
    exists n. right. eexists _, s'. split; [done|]. split; [done|]. cbn [mThread mRequests answers].
    split; [by left|]. split; [done|]. intros cb.
    by rewrite <- (contents_run request_id result_id handle cb n Hid _ _ _ _ Hn).
Qed.
End termination.
End handler.

Arguments RequestWithCallback : clear implicits.
Arguments Worker : clear implicits.
Arguments PendingRequestHandler : clear implicits.

(** ** FakeVehicleHardware *)

Record FakeRequests : Type := mkFakeRequests {
  mHardware : HW;
  mPendingGetValueRequests : PendingRequestHandler GetValueRequest HwGetResult;
  mPendingSetValueRequests : PendingRequestHandler SetValueRequest HwSetResult;
}.

Definition newFakeRequests (h : HW) : FakeRequests := mkFakeRequests h newHandler newHandler.

Section system.
  Context (tick : nat → Z) (uninit_size : Z).
Notation handleGet service := (handleGetValueRequest tick uninit_size service).
Notation handleSet := (handleSetValueRequest tick uninit_size).

Definition on_get f (fr : FakeRequests) : FakeRequests :=
  mkFakeRequests (mHardware fr) (f (mPendingGetValueRequests fr)) (mPendingSetValueRequests fr).
Definition on_set f (fr : FakeRequests) : FakeRequests :=
  mkFakeRequests (mHardware fr) (mPendingGetValueRequests fr) (f (mPendingSetValueRequests fr)).

Definition getValues (cb : nat) (requests : list GetValueRequest) (fr : FakeRequests) : FakeRequests * StatusCode :=
  (on_get (addRequests cb requests) fr, OK).
Definition setValues (cb : nat) (requests : list SetValueRequest) (fr : FakeRequests) : FakeRequests * StatusCode :=
  (on_set (addRequests cb requests) fr, OK).

(** The threads' steps: one push of a [getValues] or [setValues] call, one step
    of a worker (the power controller answers [service] to it), [stop] by the
    destructor, and whatever else changes the shared state. *)
Inductive Event : Type :=
| EGet (cb : nat) (r : GetValueRequest)
| ESet (cb : nat) (r : SetValueRequest)
| EGetWorker (service : option PowerController)
| ESetWorker
| EStopGet
| EStopSet
| EHardware (f : HW → HW).

Definition fr_step (e : Event) (fr : FakeRequests) : Outcome FakeRequests :=
  match e with
  | EGet cb r => Next (on_get (addRequest r cb) fr)
  | ESet cb r => Next (on_set (addRequest r cb) fr)
  | EGetWorker service =>
      match worker_step (handleGet service) (mPendingGetValueRequests fr) (mHardware fr) with
      | Next (g, h) => Next (mkFakeRequests h g (mPendingSetValueRequests fr))
      | Blocked => Blocked
      | Crashed => Crashed
      end
  | ESetWorker =>
      match worker_step handleSet (mPendingSetValueRequests fr) (mHardware fr) with
      | Next (w, h) => Next (mkFakeRequests h (mPendingGetValueRequests fr) w)
      | Blocked => Blocked
      | Crashed => Crashed
      end
  | EStopGet => Next (on_get stop fr)
  | EStopSet => Next (on_set stop fr)
  | EHardware f => Next (mkFakeRequests (f (mHardware fr)) (mPendingGetValueRequests fr) (mPendingSetValueRequests fr))
  end.

Fixpoint fr_run (tr : list Event) (fr : FakeRequests) : Outcome FakeRequests :=
  match tr with
  | [] => Next fr
  | e :: tr' => match fr_step e fr with Next fr' => fr_run tr' fr' | o => o end
  end.

(** The ids asked for [cb] before [stop]. *)
Fixpoint getsAsked (active : bool) (cb : nat) (tr : list Event) : list Z :=
  match tr with
  | [] => []
  | EGet cb' r :: tr' =>
      (if active && bool_decide (cb' = cb) then [gq_requestId r] else []) ++ getsAsked active cb tr'
  | EStopGet :: tr' => getsAsked false cb tr'
  | _ :: tr' => getsAsked active cb tr'
  end.
Fixpoint setsAsked (active : bool) (cb : nat) (tr : list Event) : list Z :=
  match tr with
  | [] => []
  | ESet cb' r :: tr' =>
      (if active && bool_decide (cb' = cb) then [sq_requestId r] else []) ++ setsAsked active cb tr'
  | EStopSet :: tr' => setsAsked false cb tr'
  | _ :: tr' => setsAsked active cb tr'
  end.

Lemma get_keeps_id service : keeps_id gq_requestId hg_requestId (handleGet service).
Proof.
  intros q s s' r. unfold handleGetValueRequest.
  destruct (getValue _ _ _ _ _) as [h [v|[c| |]]]; by intros [= _ <-].
Qed.
Lemma set_keeps_id : keeps_id sq_requestId hs_requestId handleSet.
Proof.
  intros q s s' r. unfold handleSetValueRequest.
  destruct (setValue _ _ _ _) as [h [v|[c| |]]]; by intros [= _ <-].
Qed.

(** A queue's activity changes only by [stop]. *)
Lemma worker_step_active {S Req Res} (handle : Req → S → option (S * Res)) h s h' s' :
  worker_step handle h s = Next (h', s') → mIsActive (mRequests h') = mIsActive (mRequests h).
Proof.
  unfold worker_step. destruct h as [q w a]. cbn. destruct w as [| |[|i l] m|[|c l]|]; cbn.
  - destruct (waitForItems q) as [[]|]; [| |done]; by intros [= <- <-].
  - rewrite flush_eq. by intros [= <- <-].
  - by intros [= <- <-].
  - destruct (handle _ _) as [[s1 r]|]; [|done]. by intros [= <- <-].
  - by intros [= <- <-].
  - by intros [= <- <-].
  - done.
Qed.

Notation owedGet := (contents gq_requestId hg_requestId).
Notation owedSet := (contents sq_requestId hs_requestId).
Notation activeGet fr := (mIsActive (mRequests (mPendingGetValueRequests fr))).
Notation activeSet fr := (mIsActive (mRequests (mPendingSetValueRequests fr))).

(** One step adds what it asks for, and changes the activity as [getsAsked] and
    [setsAsked] do. *)
Lemma step_gets e tr fr fr' cb : fr_step e fr = Next fr' →
  owedGet cb (mPendingGetValueRequests fr') ++ getsAsked (activeGet fr') cb tr =
    owedGet cb (mPendingGetValueRequests fr) ++ getsAsked (activeGet fr) cb (e :: tr).
Proof.
  destruct e as [cb' r|cb' r|svc| | | |g]; cbn [fr_step getsAsked]; try (by intros [= <-]).
  - intros [= <-]. cbn [mPendingGetValueRequests on_get]. rewrite contents_addRequest, <- app_assoc. f_equal.
    unfold addRequest, push, asked. rewrite filter_cons.
    destruct (mRequests (mPendingGetValueRequests fr)) as [[] q]; cbn; [|done].
    by case_decide; case_bool_decide.
  - destruct (worker_step _ _ _) as [[h' s']| |] eqn:E; [|done..]. intros [= <-]. cbn.
    rewrite (worker_step_active _ _ _ _ _ E). f_equal. eapply contents_step; [apply get_keeps_id|exact E].
  - destruct (worker_step _ _ _) as [[h' s']| |]; [|done..]. by intros [= <-].
Qed.

Lemma step_sets e tr fr fr' cb : fr_step e fr = Next fr' →
  owedSet cb (mPendingSetValueRequests fr') ++ setsAsked (activeSet fr') cb tr =
    owedSet cb (mPendingSetValueRequests fr) ++ setsAsked (activeSet fr) cb (e :: tr).
Proof.
  destruct e as [cb' r|cb' r|svc| | | |g]; cbn [fr_step setsAsked]; try (by intros [= <-]).
  - intros [= <-]. cbn [mPendingSetValueRequests on_set]. rewrite contents_addRequest, <- app_assoc. f_equal.
    unfold addRequest, push, asked. rewrite filter_cons.
    destruct (mRequests (mPendingSetValueRequests fr)) as [[] q]; cbn; [|done].
    by case_decide; case_bool_decide.
  - destruct (worker_step _ _ _) as [[h' s']| |]; [|done..]. by intros [= <-].
  - destruct (worker_step _ _ _) as [[h' s']| |] eqn:E; [|done..]. intros [= <-]. cbn.
    rewrite (worker_step_active _ _ _ _ _ E). f_equal. eapply contents_step; [apply set_keeps_id|exact E].
Qed.

Lemma run_owed tr cb : ∀ fr fr', fr_run tr fr = Next fr' →
  owedGet cb (mPendingGetValueRequests fr') =
    owedGet cb (mPendingGetValueRequests fr) ++ getsAsked (activeGet fr) cb tr ∧
  owedSet cb (mPendingSetValueRequests fr') =
    owedSet cb (mPendingSetValueRequests fr) ++ setsAsked (activeSet fr) cb tr.
Proof.
  induction tr as [|e tr IH]; intros fr fr'; cbn [fr_run].
  { intros [= ->]. cbn. by rewrite !app_nil_r. }
  destruct (fr_step e fr) as [fr1| |] eqn:E; [|done..]. intros [-> ->]%IH.
  split; [by apply step_gets|by apply step_sets].
Qed.

(** C27: Whatever the interleaving of the clients, the two workers and the
    destructor, for every callback the ids answered so far, those in the
    worker's hands and those queued are, in order, exactly the ids asked for
    before the stop: every request is answered at most once, in the order of
    the requests of its callback, and to its own callback only. *)
Theorem hardware_requests_in_order tr h fr cb :
  fr_run tr (newFakeRequests h) = Next fr →
  called hg_requestId cb (answers (mPendingGetValueRequests fr))
    ++ inFlight gq_requestId hg_requestId cb (mThread (mPendingGetValueRequests fr))
    ++ asked gq_requestId cb (mQueue (mRequests (mPendingGetValueRequests fr)))
  = getsAsked true cb tr ∧
  called hs_requestId cb (answers (mPendingSetValueRequests fr))
    ++ inFlight sq_requestId hs_requestId cb (mThread (mPendingSetValueRequests fr))
    ++ asked sq_requestId cb (mQueue (mRequests (mPendingSetValueRequests fr)))
  = setsAsked true cb tr.
Proof. apply run_owed. Qed.

(** C39: In every state each worker, left alone, comes to rest after finitely many
    steps.  Unless handling one of the requests it holds crashes, it then waits
    on an empty queue with everything asked of it answered, each callback's
    requests in order; or, after [stop] only, it has exited with everything it
    had taken from the queue answered and the rest still in the queue. *)
Theorem hardware_workers_terminate service fr :
  settles (handleGet service) gq_requestId hg_requestId (mPendingGetValueRequests fr) (mHardware fr) ∧
  settles handleSet sq_requestId hs_requestId (mPendingSetValueRequests fr) (mHardware fr).
Proof. split; apply all_settle; [apply get_keeps_id|apply set_keeps_id]. Qed.

(** The worker's steps compute [handleRequestsOnce]. *)
Lemma worker_computes_handleRequestsOnce {S Req Res} (handle : Req → S → option (S * Res)) q a s h' s' :
  handleRequestsOnce handle (mkHandler q Flushing a) s = Some (h', s') →
  ∃ n, worker_run handle n (mkHandler q Flushing a) s = Next (h', s').
Proof.
  unfold handleRequestsOnce. cbn. destruct (flush q) as [q' items] eqn:Hf.
  destruct (handle_loop handle items ∅ s) as [[m s1]|] eqn:Hl; [|done]. intros [= <- <-].
  assert (Hh : ∀ items m0 s, handle_loop handle items m0 s = Some (m, s1) →
    ∃ n, worker_run handle n (mkHandler q' (Handling items m0) a) s
         = Next (mkHandler q' (Answering (map_to_list m)) a, s1)).
  { clear. induction items as [|i items IH]; intros m0 s; cbn; [intros [= -> ->]; by exists 1%nat|].
    destruct (handle (request i) s) as [[s2 r]|] eqn:E; [|done]. intros (n & Hn)%IH.
    exists (1 + n)%nat. cbn. by rewrite E. }
  assert (Ha : ∀ l a, ∃ n, worker_run handle n (mkHandler q' (Answering l) a) s1
                           = Next (mkHandler q' Waiting (a ++ l), s1)).
  { clear. induction l as [|c l IH]; intros a; [exists 1%nat; cbn; by rewrite app_nil_r|].
    destruct (IH (a ++ [c])) as (n & Hn). exists (1 + n)%nat. cbn. by rewrite Hn, <- app_assoc. }
  destruct (Hh _ _ _ Hl) as (n1 & H1). destruct (Ha (map_to_list m) a) as (n2 & H2).
  exists (1 + (n1 + n2))%nat. cbn. rewrite Hf. by rewrite (worker_run_app _ n1 n2 _ _ _ _ H1).
Qed.
End system.

(** ** Batches

    A call pushes its requests one by one; the worker may take the queue at
    any time in between, and handles what it took as one batch. *)

Section batches.
  Context {St Req Res : Type} (handle : Req → St → option (St * Res)).

Definition serveBatch (cb : nat) (requests : list Req) (s : St) : option (St * list (list Res)) :=
  match handleRequestsOnce handle (addRequests cb requests newHandler) s with
  | Some (handler, s') => Some (s', snd <$> answers handler)
  | None => None
  end.

Fixpoint serveBatches (cb : nat) (batches : list (list Req)) (s : St) : option (St * list (list Res)) :=
  match batches with
  | [] => Some (s, [])
  | requests :: batches' =>
      '(s1, rs) ← serveBatch cb requests s;
      '(s2, rs') ← serveBatches cb batches' s1;
      Some (s2, rs ++ rs')
  end.

(** The requests handled one after the other. *)
Fixpoint handleAll (requests : list Req) (s : St) : option (St * list Res) :=
  match requests with
  | [] => Some (s, [])
  | q :: requests' =>
      '(s1, r) ← handle q s;
      '(s2, rs) ← handleAll requests' s1;
      Some (s2, r :: rs)
  end.

Lemma handleAll_app l1 l2 s : handleAll (l1 ++ l2) s =
  ('(s1, r1) ← handleAll l1 s; '(s2, r2) ← handleAll l2 s1; Some (s2, r1 ++ r2)).
Proof.
  revert s. induction l1 as [|q l1 IH]; intros s; cbn; [by destruct (handleAll l2 s) as [[]|]|].
  destruct (handle q s) as [[s1 r]|]; [|done]. cbn. rewrite IH.
  destruct (handleAll l1 s1) as [[s2 r1]|]; [|done]. cbn. by destruct (handleAll l2 s2) as [[]|].
Qed.

Lemma addRequests_queue cb requests : ∀ h : PendingRequestHandler Req Res, mIsActive (mRequests h) = true →
  addRequests cb requests h =
    mkHandler (mkQueue true (mQueue (mRequests h) ++ ((λ q, mkRWC q cb) <$> requests))) (mThread h) (answers h).
Proof.
  induction requests as [|q l IH]; intros [[act items] w a]; cbn; intros ->; [by rewrite app_nil_r|].
  unfold addRequests in *. cbn. unfold addRequest. cbn. rewrite IH by done. cbn. by rewrite <- app_assoc.
Qed.

Lemma handle_loop_one cb requests : ∀ (rs : list Res) s,
  handle_loop handle ((λ q, mkRWC q cb) <$> requests) {[cb := rs]} s =
    ('(s', rs') ← handleAll requests s; Some ({[cb := rs ++ rs']}, s')).
Proof.
  induction requests as [|q l IH]; intros rs s; cbn; [by rewrite app_nil_r|].
  destruct (handle q s) as [[s1 r]|]; [|done]. cbn. unfold addResult. rewrite lookup_singleton_eq, insert_singleton_eq. cbn.
  rewrite IH. destruct (handleAll l s1) as [[s2 rs']|]; [|done]. cbn. by rewrite <- app_assoc.
Qed.

(** A batch is answered by one call of the callback with all its results. *)
Lemma serveBatch_spec cb requests s : requests ≠ [] →
  serveBatch cb requests s = ('(s', rs) ← handleAll requests s; Some (s', [rs])).
Proof.
  intros Hne. unfold serveBatch, handleRequestsOnce. rewrite addRequests_queue by done. cbn.
  destruct requests as [|q l]; [done|]. rewrite flush_eq. cbn.
  destruct (handle q s) as [[s1 r]|]; [|done]. cbn. rewrite lookup_empty, insert_empty. cbn.
  rewrite handle_loop_one. destruct (handleAll l s1) as [[s2 rs]|]; [|done]. cbn. by rewrite map_to_list_singleton.
Qed.

(** However the requests are cut into batches, they are handled in order and
    their results delivered in order. *)
Lemma serveBatches_spec cb batches s : Forall (λ b, b ≠ []) batches →
  match handleAll (concat batches) s with
  | None => serveBatches cb batches s = None
  | Some (s', rs) => ∃ calls, serveBatches cb batches s = Some (s', calls) ∧ concat calls = rs ∧
      length calls = length batches
  end.
Proof.
  intros Hne. revert s. induction Hne as [|b l Hb _ IH]; intros s; cbn; [by exists []|].
  rewrite handleAll_app, serveBatch_spec by done. destruct (handleAll b s) as [[s1 r1]|]; [|done]. cbn.
  specialize (IH s1). destruct (handleAll (concat l) s1) as [[s2 r2]|]; cbn.
  - destruct IH as (calls & -> & Hc & Hl). exists ([r1] ++ calls). cbn. rewrite Hc, Hl. by split_and!.
  - by rewrite IH.
Qed.

Lemma handleAll_ids (idOf : Req → Z) (resultId : Res → Z) requests : keeps_id idOf resultId handle →
  ∀ s s' rs, handleAll requests s = Some (s', rs) → resultId <$> rs = idOf <$> requests.
Proof.
  intros Hk. induction requests as [|q l IH]; intros s s' rs; cbn; [by intros [= <- <-]|].
  destruct (handle q s) as [[s1 r]|] eqn:E; [|done]. cbn. destruct (handleAll l s1) as [[s2 rs']|] eqn:E'; [|done].
  intros [= <- <-]. cbn. f_equal; [by eapply Hk|by eapply IH].
Qed.
End batches.

(** ** Example *)

Definition example_request_hw : HW :=
  mkHW newStore (FakeUserHal.newFakeUserHal (VehicleObjectPool.newPool 4 10240)) [].
Definition example_get (id : Z) : GetValueRequest :=
  mkGetValueRequest id (mkPropValue 0 0 0x11400500 0 emptyRaw).

(** Two callbacks, one request still queued. *)
Definition example_requests : list Event :=
  [EGet 1 (example_get 7); EGet 2 (example_get 8); EGet 1 (example_get 9);
   EGetWorker None; EGetWorker None; EGetWorker None; EGetWorker None; EGetWorker None; EGetWorker None;
   EGetWorker None; EGetWorker None; EGet 1 (example_get 10)].

Lemma hardware_requests_in_order_witness : ∃ fr,
  fr_run (λ n, Z.of_nat n) 0 example_requests (newFakeRequests example_request_hw) = Next fr ∧
  called hg_requestId 1 (answers (mPendingGetValueRequests fr))
    ++ inFlight gq_requestId hg_requestId 1 (mThread (mPendingGetValueRequests fr))
    ++ asked gq_requestId 1 (mQueue (mRequests (mPendingGetValueRequests fr))) = [7; 9; 10]%Z ∧
  asked gq_requestId 1 (mQueue (mRequests (mPendingGetValueRequests fr))) = [10]%Z.
Proof.
  destruct (fr_run (λ n, Z.of_nat n) 0 example_requests (newFakeRequests example_request_hw))
    as [fr| |] eqn:E; [|vm_compute in E; discriminate E..].
  exists fr. split; [reflexivity|]. split.
  - apply (hardware_requests_in_order (λ n, Z.of_nat n) 0 example_requests example_request_hw fr 1 E).
  - vm_compute in E. injection E as <-. reflexivity.
Defined.
