(* ===== verification/PropertyTables.v ===== *)
(** * The generated tables over the system properties

    [generated_lib/4/cpp]: the default and the allowed access, the change mode
    and the interface version of every system property.  A C++ map built from
    a list of pairs keeps the first pair of a key: [find]. *)

From stdpp Require Import base list.
From Stdlib Require Import ZArith.
From S2P Require Import Prelude VehicleTypes VehicleProperty.

Local Open Scope Z_scope.

Fixpoint table_find {A} (p : Z) (t : list (Z * A)) : option A :=
  match t with
  | [] => None
  | (q, a) :: t' => if p =? q then Some a else table_find p t'
  end.

Lemma table_find_elem {A} p (t : list (Z * A)) a : table_find p t = Some a → (p, a) ∈ t.
Proof.
  induction t as [|[q b] t IH]; [done|]. cbn. destruct (Z.eqb_spec p q) as [->|_].
  - intros [= ->]. left.
  - intros H. right. by apply IH.
Qed.

Lemma table_find_keys {A} p (t : list (Z * A)) : p ∈ fst <$> t ↔ is_Some (table_find p t).
Proof.
  induction t as [|[q b] t IH]; cbn.
  - split; [by intros ?%elem_of_nil|by intros []].
  - rewrite elem_of_cons, IH. destruct (Z.eqb_spec p q); naive_solver.
Qed.

Definition DefaultAccessForVehicleProperty_1 : list (Z * Z) :=
  [(VehicleProperty.INFO_VIN, VehiclePropertyAccess.READ);
   (VehicleProperty.INFO_MAKE, VehiclePropertyAccess.READ);
   (VehicleProperty.INFO_MODEL, VehiclePropertyAccess.READ);
   (VehicleProperty.INFO_MODEL_YEAR, VehiclePropertyAccess.READ);
   (VehicleProperty.INFO_FUEL_CAPACITY, VehiclePropertyAccess.READ);
   (VehicleProperty.INFO_FUEL_TYPE, VehiclePropertyAccess.READ);
   (VehicleProperty.INFO_EV_BATTERY_CAPACITY, VehiclePropertyAccess.READ);
   (VehicleProperty.INFO_EV_CONNECTOR_TYPE, VehiclePropertyAccess.READ);
   (VehicleProperty.INFO_FUEL_DOOR_LOCATION, VehiclePropertyAccess.READ);
   (VehicleProperty.INFO_EV_PORT_LOCATION, VehiclePropertyAccess.READ);
   (VehicleProperty.INFO_DRIVER_SEAT, VehiclePropertyAccess.READ);
   (VehicleProperty.INFO_EXTERIOR_DIMENSIONS, VehiclePropertyAccess.READ);
   (VehicleProperty.INFO_MULTI_EV_PORT_LOCATIONS, VehiclePropertyAccess.READ);
   (VehicleProperty.INFO_MODEL_TRIM, VehiclePropertyAccess.READ);
   (VehicleProperty.INFO_VEHICLE_SIZE_CLASS, VehiclePropertyAccess.READ);
   (VehicleProperty.PERF_ODOMETER, VehiclePropertyAccess.READ);
   (VehicleProperty.PERF_VEHICLE_SPEED, VehiclePropertyAccess.READ);
   (VehicleProperty.PERF_VEHICLE_SPEED_DISPLAY, VehiclePropertyAccess.READ);
   (VehicleProperty.PERF_STEERING_ANGLE, VehiclePropertyAccess.READ);
   (VehicleProperty.PERF_REAR_STEERING_ANGLE, VehiclePropertyAccess.READ);
   (VehicleProperty.INSTANTANEOUS_FUEL_ECONOMY, VehiclePropertyAccess.READ);
   (VehicleProperty.INSTANTANEOUS_EV_EFFICIENCY, VehiclePropertyAccess.READ);
   (VehicleProperty.ENGINE_COOLANT_TEMP, VehiclePropertyAccess.READ);
   (VehicleProperty.ENGINE_OIL_LEVEL, VehiclePropertyAccess.READ);
   (VehicleProperty.ENGINE_OIL_TEMP, VehiclePropertyAccess.READ);
   (VehicleProperty.ENGINE_RPM, VehiclePropertyAccess.READ);
   (VehicleProperty.WHEEL_TICK, VehiclePropertyAccess.READ);
   (VehicleProperty.FUEL_LEVEL, VehiclePropertyAccess.READ);
   (VehicleProperty.FUEL_DOOR_OPEN, VehiclePropertyAccess.READ_WRITE);
   (VehicleProperty.EV_BATTERY_LEVEL, VehiclePropertyAccess.READ);
   (VehicleProperty.EV_CURRENT_BATTERY_CAPACITY, VehiclePropertyAccess.READ);
   (VehicleProperty.EV_CHARGE_PORT_OPEN, VehiclePropertyAccess.READ_WRITE);
   (VehicleProperty.EV_CHARGE_PORT_CONNECTED, VehiclePropertyAccess.READ);
   (VehicleProperty.EV_BATTERY_INSTANTANEOUS_CHARGE_RATE, VehiclePropertyAccess.READ);
   (VehicleProperty.RANGE_REMAINING, VehiclePropertyAccess.READ_WRITE);
   (VehicleProperty.EV_BATTERY_AVERAGE_TEMPERATURE, VehiclePropertyAccess.READ);
   (VehicleProperty.TIRE_PRESSURE, VehiclePropertyAccess.READ);
   (VehicleProperty.CRITICALLY_LOW_TIRE_PRESSURE, VehiclePropertyAccess.READ);
   (VehicleProperty.ACCELERATOR_PEDAL_COMPRESSION_PERCENTAGE, VehiclePropertyAccess.READ);
   (VehicleProperty.BRAKE_PEDAL_COMPRESSION_PERCENTAGE, VehiclePropertyAccess.READ);
   (VehicleProperty.BRAKE_PAD_WEAR_PERCENTAGE, VehiclePropertyAccess.READ);
   (VehicleProperty.BRAKE_FLUID_LEVEL_LOW, VehiclePropertyAccess.READ);
   (VehicleProperty.VEHICLE_PASSIVE_SUSPENSION_HEIGHT, VehiclePropertyAccess.READ);
   (VehicleProperty.ENGINE_IDLE_AUTO_STOP_ENABLED, VehiclePropertyAccess.READ_WRITE);
   (VehicleProperty.IMPACT_DETECTED, VehiclePropertyAccess.READ);
   (VehicleProperty.VEHICLE_HORN_ENGAGED, VehiclePropertyAccess.READ_WRITE);
   (VehicleProperty.GEAR_SELECTION, VehiclePropertyAccess.READ);
   (VehicleProperty.CURRENT_GEAR, VehiclePropertyAccess.READ);
   (VehicleProperty.PARKING_BRAKE_ON, VehiclePropertyAccess.READ);
   (VehicleProperty.PARKING_BRAKE_AUTO_APPLY, VehiclePropertyAccess.READ);
   (VehicleProperty.EV_BRAKE_REGENERATION_LEVEL, VehiclePropertyAccess.READ_WRITE);
   (VehicleProperty.FUEL_LEVEL_LOW, VehiclePropertyAccess.READ);
   (VehicleProperty.NIGHT_MODE, VehiclePropertyAccess.READ);
   (VehicleProperty.TURN_SIGNAL_STATE, VehiclePropertyAccess.READ);
   (VehicleProperty.IGNITION_STATE, VehiclePropertyAccess.READ);
   (VehicleProperty.ABS_ACTIVE, VehiclePropertyAccess.READ);
   (VehicleProperty.TRACTION_CONTROL_ACTIVE, VehiclePropertyAccess.READ);
   (VehicleProperty.EV_STOPPING_MODE, VehiclePropertyAccess.READ_WRITE);
   (VehicleProperty.ELECTRONIC_STABILITY_CONTROL_ENABLED, VehiclePropertyAccess.READ_WRITE);
   (VehicleProperty.ELECTRONIC_STABILITY_CONTROL_STATE, VehiclePropertyAccess.READ);
   (VehicleProperty.TURN_SIGNAL_LIGHT_STATE, VehiclePropertyAccess.READ);
   (VehicleProperty.TURN_SIGNAL_SWITCH, VehiclePropertyAccess.READ_WRITE);
   (VehicleProperty.HVAC_FAN_SPEED, VehiclePropertyAccess.READ_WRITE);
   (VehicleProperty.HVAC_FAN_DIRECTION, VehiclePropertyAccess.READ_WRITE);
   (VehicleProperty.HVAC_TEMPERATURE_CURRENT, VehiclePropertyAccess.READ);
   (VehicleProperty.HVAC_TEMPERATURE_SET, VehiclePropertyAccess.READ_WRITE);
   (VehicleProperty.HVAC_DEFROSTER, VehiclePropertyAccess.READ_WRITE);
   (VehicleProperty.HVAC_AC_ON, VehiclePropertyAccess.READ_WRITE);
   (VehicleProperty.HVAC_MAX_AC_ON, VehiclePropertyAccess.READ_WRITE);
   (VehicleProperty.HVAC_MAX_DEFROST_ON, VehiclePropertyAccess.READ_WRITE);
   (VehicleProperty.HVAC_RECIRC_ON, VehiclePropertyAccess.READ_WRITE);
   (VehicleProperty.HVAC_DUAL_ON, VehiclePropertyAccess.READ_WRITE);
   (VehicleProperty.HVAC_AUTO_ON, VehiclePropertyAccess.READ_WRITE);
   (VehicleProperty.HVAC_SEAT_TEMPERATURE, VehiclePropertyAccess.READ_WRITE);
   (VehicleProperty.HVAC_SIDE_MIRROR_HEAT, VehiclePropertyAccess.READ_WRITE);
   (VehicleProperty.HVAC_STEERING_WHEEL_HEAT, VehiclePropertyAccess.READ_WRITE);
   (VehicleProperty.HVAC_TEMPERATURE_DISPLAY_UNITS, VehiclePropertyAccess.READ_WRITE);
   (VehicleProperty.HVAC_ACTUAL_FAN_SPEED_RPM, VehiclePropertyAccess.READ);
   (VehicleProperty.HVAC_POWER_ON, VehiclePropertyAccess.READ_WRITE);
   (VehicleProperty.HVAC_FAN_DIRECTION_AVAILABLE, VehiclePropertyAccess.READ);
   (VehicleProperty.HVAC_AUTO_RECIRC_ON, VehiclePropertyAccess.READ_WRITE);
   (VehicleProperty.HVAC_SEAT_VENTILATION, VehiclePropertyAccess.READ_WRITE);
   (VehicleProperty.HVAC_ELECTRIC_DEFROSTER_ON, VehiclePropertyAccess.READ_WRITE);
   (VehicleProperty.HVAC_TEMPERATURE_VALUE_SUGGESTION, VehiclePropertyAccess.READ_WRITE);
   (VehicleProperty.DISTANCE_DISPLAY_UNITS, VehiclePropertyAccess.READ_WRITE);
   (VehicleProperty.FUEL_VOLUME_DISPLAY_UNITS, VehiclePropertyAccess.READ_WRITE);
   (VehicleProperty.TIRE_PRESSURE_DISPLAY_UNITS, VehiclePropertyAccess.READ_WRITE);
   (VehicleProperty.EV_BATTERY_DISPLAY_UNITS, VehiclePropertyAccess.READ_WRITE);
   (VehicleProperty.FUEL_CONSUMPTION_UNITS_DISTANCE_OVER_VOLUME, VehiclePropertyAccess.READ_WRITE);
   (VehicleProperty.VEHICLE_SPEED_DISPLAY_UNITS, VehiclePropertyAccess.READ_WRITE);
   (VehicleProperty.EXTERNAL_CAR_TIME, VehiclePropertyAccess.READ);
   (VehicleProperty.ANDROID_EPOCH_TIME, VehiclePropertyAccess.WRITE);
   (VehicleProperty.STORAGE_ENCRYPTION_BINDING_SEED, VehiclePropertyAccess.READ_WRITE);
   (VehicleProperty.ENV_OUTSIDE_TEMPERATURE, VehiclePropertyAccess.READ);
   (VehicleProperty.AP_POWER_STATE_REQ, VehiclePropertyAccess.READ);
   (VehicleProperty.AP_POWER_STATE_REPORT, VehiclePropertyAccess.READ_WRITE);
   (VehicleProperty.AP_POWER_BOOTUP_REASON, VehiclePropertyAccess.READ);
   (VehicleProperty.DISPLAY_BRIGHTNESS, VehiclePropertyAccess.READ_WRITE);
   (VehicleProperty.PER_DISPLAY_BRIGHTNESS, VehiclePropertyAccess.READ_WRITE);
   (VehicleProperty.VALET_MODE_ENABLED, VehiclePropertyAccess.READ_WRITE);
   (VehicleProperty.HEAD_UP_DISPLAY_ENABLED, VehiclePropertyAccess.READ_WRITE);
   (VehicleProperty.HW_KEY_INPUT, VehiclePropertyAccess.READ);
   (VehicleProperty.HW_KEY_INPUT_V2, VehiclePropertyAccess.READ);
   (VehicleProperty.HW_MOTION_INPUT, VehiclePropertyAccess.READ);
   (VehicleProperty.HW_ROTARY_INPUT, VehiclePropertyAccess.READ);
   (VehicleProperty.HW_CUSTOM_INPUT, VehiclePropertyAccess.READ);
   (VehicleProperty.DOOR_POS, VehiclePropertyAccess.READ_WRITE);
   (VehicleProperty.DOOR_MOVE, VehiclePropertyAccess.READ_WRITE);
   (VehicleProperty.DOOR_LOCK, VehiclePropertyAccess.READ_WRITE);
   (VehicleProperty.DOOR_CHILD_LOCK_ENABLED, VehiclePropertyAccess.READ_WRITE);
   (VehicleProperty.MIRROR_Z_POS, VehiclePropertyAccess.READ_WRITE);
   (VehicleProperty.MIRROR_Z_MOVE, VehiclePropertyAccess.READ_WRITE);
   (VehicleProperty.MIRROR_Y_POS, VehiclePropertyAccess.READ_WRITE);
   (VehicleProperty.MIRROR_Y_MOVE, VehiclePropertyAccess.READ_WRITE);
   (VehicleProperty.MIRROR_LOCK, VehiclePropertyAccess.READ_WRITE);
   (VehicleProperty.MIRROR_FOLD, VehiclePropertyAccess.READ_WRITE);
   (VehicleProperty.MIRROR_AUTO_FOLD_ENABLED, VehiclePropertyAccess.READ_WRITE);
   (VehicleProperty.MIRROR_AUTO_TILT_ENABLED, VehiclePropertyAccess.READ_WRITE);
   (VehicleProperty.SEAT_MEMORY_SELECT, VehiclePropertyAccess.WRITE);
   (VehicleProperty.SEAT_MEMORY_SET, VehiclePropertyAccess.WRITE);
   (VehicleProperty.SEAT_BELT_BUCKLED, VehiclePropertyAccess.READ_WRITE);
   (VehicleProperty.SEAT_BELT_HEIGHT_POS, VehiclePropertyAccess.READ_WRITE);
   (VehicleProperty.SEAT_BELT_HEIGHT_MOVE, VehiclePropertyAccess.READ_WRITE);
   (VehicleProperty.SEAT_FORE_AFT_POS, VehiclePropertyAccess.READ_WRITE);
   (VehicleProperty.SEAT_FORE_AFT_MOVE, VehiclePropertyAccess.READ_WRITE);
   (VehicleProperty.SEAT_BACKREST_ANGLE_1_POS, VehiclePropertyAccess.READ_WRITE);
   (VehicleProperty.SEAT_BACKREST_ANGLE_1_MOVE, VehiclePropertyAccess.READ_WRITE);
   (VehicleProperty.SEAT_BACKREST_ANGLE_2_POS, VehiclePropertyAccess.READ_WRITE);
   (VehicleProperty.SEAT_BACKREST_ANGLE_2_MOVE, VehiclePropertyAccess.READ_WRITE);
   (VehicleProperty.SEAT_HEIGHT_POS, VehiclePropertyAccess.READ_WRITE);
   (VehicleProperty.SEAT_HEIGHT_MOVE, VehiclePropertyAccess.READ_WRITE);
   (VehicleProperty.SEAT_DEPTH_POS, VehiclePropertyAccess.READ_WRITE);
   (VehicleProperty.SEAT_DEPTH_MOVE, VehiclePropertyAccess.READ_WRITE);
   (VehicleProperty.SEAT_TILT_POS, VehiclePropertyAccess.READ_WRITE);
   (VehicleProperty.SEAT_TILT_MOVE, VehiclePropertyAccess.READ_WRITE);
   (VehicleProperty.SEAT_LUMBAR_FORE_AFT_POS, VehiclePropertyAccess.READ_WRITE);
   (VehicleProperty.SEAT_LUMBAR_FORE_AFT_MOVE, VehiclePropertyAccess.READ_WRITE);
   (VehicleProperty.SEAT_LUMBAR_SIDE_SUPPORT_POS, VehiclePropertyAccess.READ_WRITE);
   (VehicleProperty.SEAT_LUMBAR_SIDE_SUPPORT_MOVE, VehiclePropertyAccess.READ_WRITE);
   (VehicleProperty.SEAT_HEADREST_HEIGHT_POS, VehiclePropertyAccess.READ_WRITE)].

Definition DefaultAccessForVehicleProperty_2 : list (Z * Z) :=
  [(VehicleProperty.SEAT_HEADREST_HEIGHT_POS_V2, VehiclePropertyAccess.READ_WRITE);
   (VehicleProperty.SEAT_HEADREST_HEIGHT_MOVE, VehiclePropertyAccess.READ_WRITE);
   (VehicleProperty.SEAT_HEADREST_ANGLE_POS, VehiclePropertyAccess.READ_WRITE);
   (VehicleProperty.SEAT_HEADREST_ANGLE_MOVE, VehiclePropertyAccess.READ_WRITE);
   (VehicleProperty.SEAT_HEADREST_FORE_AFT_POS, VehiclePropertyAccess.READ_WRITE);
   (VehicleProperty.SEAT_HEADREST_FORE_AFT_MOVE, VehiclePropertyAccess.READ_WRITE);
   (VehicleProperty.SEAT_FOOTWELL_LIGHTS_STATE, VehiclePropertyAccess.READ);
   (VehicleProperty.SEAT_FOOTWELL_LIGHTS_SWITCH, VehiclePropertyAccess.READ_WRITE);
   (VehicleProperty.SEAT_EASY_ACCESS_ENABLED, VehiclePropertyAccess.READ_WRITE);
   (VehicleProperty.SEAT_AIRBAG_ENABLED, VehiclePropertyAccess.READ_WRITE);
   (VehicleProperty.SEAT_AIRBAGS_DEPLOYED, VehiclePropertyAccess.READ);
   (VehicleProperty.SEAT_CUSHION_SIDE_SUPPORT_POS, VehiclePropertyAccess.READ_WRITE);
   (VehicleProperty.SEAT_CUSHION_SIDE_SUPPORT_MOVE, VehiclePropertyAccess.READ_WRITE);
   (VehicleProperty.SEAT_LUMBAR_VERTICAL_POS, VehiclePropertyAccess.READ_WRITE);
   (VehicleProperty.SEAT_LUMBAR_VERTICAL_MOVE, VehiclePropertyAccess.READ_WRITE);
   (VehicleProperty.SEAT_WALK_IN_POS, VehiclePropertyAccess.READ_WRITE);
   (VehicleProperty.SEAT_BELT_PRETENSIONER_DEPLOYED, VehiclePropertyAccess.READ);
   (VehicleProperty.SEAT_OCCUPANCY, VehiclePropertyAccess.READ);
   (VehicleProperty.WINDOW_POS, VehiclePropertyAccess.READ_WRITE);
   (VehicleProperty.WINDOW_MOVE, VehiclePropertyAccess.READ_WRITE);
   (VehicleProperty.WINDOW_LOCK, VehiclePropertyAccess.READ_WRITE);
   (VehicleProperty.WINDSHIELD_WIPERS_PERIOD, VehiclePropertyAccess.READ);
   (VehicleProperty.WINDSHIELD_WIPERS_STATE, VehiclePropertyAccess.READ);
   (VehicleProperty.WINDSHIELD_WIPERS_SWITCH, VehiclePropertyAccess.READ_WRITE);
   (VehicleProperty.STEERING_WHEEL_DEPTH_POS, VehiclePropertyAccess.READ_WRITE);
   (VehicleProperty.STEERING_WHEEL_DEPTH_MOVE, VehiclePropertyAccess.READ_WRITE);
   (VehicleProperty.STEERING_WHEEL_HEIGHT_POS, VehiclePropertyAccess.READ_WRITE);
   (VehicleProperty.STEERING_WHEEL_HEIGHT_MOVE, VehiclePropertyAccess.READ_WRITE);
   (VehicleProperty.STEERING_WHEEL_THEFT_LOCK_ENABLED, VehiclePropertyAccess.READ_WRITE);
   (VehicleProperty.STEERING_WHEEL_LOCKED, VehiclePropertyAccess.READ_WRITE);
   (VehicleProperty.STEERING_WHEEL_EASY_ACCESS_ENABLED, VehiclePropertyAccess.READ_WRITE);
   (VehicleProperty.GLOVE_BOX_DOOR_POS, VehiclePropertyAccess.READ_WRITE);
   (VehicleProperty.GLOVE_BOX_LOCKED, VehiclePropertyAccess.READ_WRITE);
   (VehicleProperty.VEHICLE_MAP_SERVICE, VehiclePropertyAccess.READ_WRITE);
   (VehicleProperty.LOCATION_CHARACTERIZATION, VehiclePropertyAccess.READ);
   (VehicleProperty.ULTRASONICS_SENSOR_POSITION, VehiclePropertyAccess.READ);
   (VehicleProperty.ULTRASONICS_SENSOR_ORIENTATION, VehiclePropertyAccess.READ);
   (VehicleProperty.ULTRASONICS_SENSOR_FIELD_OF_VIEW, VehiclePropertyAccess.READ);
   (VehicleProperty.ULTRASONICS_SENSOR_DETECTION_RANGE, VehiclePropertyAccess.READ);
   (VehicleProperty.ULTRASONICS_SENSOR_SUPPORTED_RANGES, VehiclePropertyAccess.READ);
   (VehicleProperty.ULTRASONICS_SENSOR_MEASURED_DISTANCE, VehiclePropertyAccess.READ);
   (VehicleProperty.OBD2_LIVE_FRAME, VehiclePropertyAccess.READ);
   (VehicleProperty.OBD2_FREEZE_FRAME, VehiclePropertyAccess.READ);
   (VehicleProperty.OBD2_FREEZE_FRAME_INFO, VehiclePropertyAccess.READ);
   (VehicleProperty.OBD2_FREEZE_FRAME_CLEAR, VehiclePropertyAccess.WRITE);
   (VehicleProperty.HEADLIGHTS_STATE, VehiclePropertyAccess.READ);
   (VehicleProperty.HIGH_BEAM_LIGHTS_STATE, VehiclePropertyAccess.READ);
   (VehicleProperty.FOG_LIGHTS_STATE, VehiclePropertyAccess.READ);
   (VehicleProperty.HAZARD_LIGHTS_STATE, VehiclePropertyAccess.READ);
   (VehicleProperty.HEADLIGHTS_SWITCH, VehiclePropertyAccess.READ_WRITE);
   (VehicleProperty.HIGH_BEAM_LIGHTS_SWITCH, VehiclePropertyAccess.READ_WRITE);
   (VehicleProperty.FOG_LIGHTS_SWITCH, VehiclePropertyAccess.READ_WRITE);
   (VehicleProperty.HAZARD_LIGHTS_SWITCH, VehiclePropertyAccess.READ_WRITE);
   (VehicleProperty.CABIN_LIGHTS_STATE, VehiclePropertyAccess.READ);
   (VehicleProperty.CABIN_LIGHTS_SWITCH, VehiclePropertyAccess.READ_WRITE);
   (VehicleProperty.READING_LIGHTS_STATE, VehiclePropertyAccess.READ);
   (VehicleProperty.READING_LIGHTS_SWITCH, VehiclePropertyAccess.READ_WRITE);
   (VehicleProperty.STEERING_WHEEL_LIGHTS_STATE, VehiclePropertyAccess.READ);
   (VehicleProperty.STEERING_WHEEL_LIGHTS_SWITCH, VehiclePropertyAccess.READ_WRITE);
   (VehicleProperty.SUPPORT_CUSTOMIZE_VENDOR_PERMISSION, VehiclePropertyAccess.READ);
   (VehicleProperty.DISABLED_OPTIONAL_FEATURES, VehiclePropertyAccess.READ);
   (VehicleProperty.INITIAL_USER_INFO, VehiclePropertyAccess.READ_WRITE);
   (VehicleProperty.SWITCH_USER, VehiclePropertyAccess.READ_WRITE);
   (VehicleProperty.CREATE_USER, VehiclePropertyAccess.READ_WRITE);
   (VehicleProperty.REMOVE_USER, VehiclePropertyAccess.WRITE);
   (VehicleProperty.USER_IDENTIFICATION_ASSOCIATION, VehiclePropertyAccess.READ_WRITE);
   (VehicleProperty.EVS_SERVICE_REQUEST, VehiclePropertyAccess.READ);
   (VehicleProperty.POWER_POLICY_REQ, VehiclePropertyAccess.READ);
   (VehicleProperty.POWER_POLICY_GROUP_REQ, VehiclePropertyAccess.READ);
   (VehicleProperty.CURRENT_POWER_POLICY, VehiclePropertyAccess.READ_WRITE);
   (VehicleProperty.WATCHDOG_ALIVE, VehiclePropertyAccess.WRITE);
   (VehicleProperty.WATCHDOG_TERMINATED_PROCESS, VehiclePropertyAccess.WRITE);
   (VehicleProperty.VHAL_HEARTBEAT, VehiclePropertyAccess.READ);
   (VehicleProperty.CLUSTER_SWITCH_UI, VehiclePropertyAccess.READ);
   (VehicleProperty.CLUSTER_DISPLAY_STATE, VehiclePropertyAccess.READ);
   (VehicleProperty.CLUSTER_REPORT_STATE, VehiclePropertyAccess.WRITE);
   (VehicleProperty.CLUSTER_REQUEST_DISPLAY, VehiclePropertyAccess.WRITE);
   (VehicleProperty.CLUSTER_NAVIGATION_STATE, VehiclePropertyAccess.WRITE);
   (VehicleProperty.ELECTRONIC_TOLL_COLLECTION_CARD_TYPE, VehiclePropertyAccess.READ);
   (VehicleProperty.ELECTRONIC_TOLL_COLLECTION_CARD_STATUS, VehiclePropertyAccess.READ);
   (VehicleProperty.FRONT_FOG_LIGHTS_STATE, VehiclePropertyAccess.READ);
   (VehicleProperty.FRONT_FOG_LIGHTS_SWITCH, VehiclePropertyAccess.READ_WRITE);
   (VehicleProperty.REAR_FOG_LIGHTS_STATE, VehiclePropertyAccess.READ);
   (VehicleProperty.REAR_FOG_LIGHTS_SWITCH, VehiclePropertyAccess.READ_WRITE);
   (VehicleProperty.EV_CHARGE_CURRENT_DRAW_LIMIT, VehiclePropertyAccess.READ_WRITE);
   (VehicleProperty.EV_CHARGE_PERCENT_LIMIT, VehiclePropertyAccess.READ_WRITE);
   (VehicleProperty.EV_CHARGE_STATE, VehiclePropertyAccess.READ);
   (VehicleProperty.EV_CHARGE_SWITCH, VehiclePropertyAccess.READ_WRITE);
   (VehicleProperty.EV_CHARGE_TIME_REMAINING, VehiclePropertyAccess.READ);
   (VehicleProperty.EV_REGENERATIVE_BRAKING_STATE, VehiclePropertyAccess.READ);
   (VehicleProperty.TRAILER_PRESENT, VehiclePropertyAccess.READ);
   (VehicleProperty.VEHICLE_CURB_WEIGHT, VehiclePropertyAccess.READ);
   (VehicleProperty.GENERAL_SAFETY_REGULATION_COMPLIANCE_REQUIREMENT, VehiclePropertyAccess.READ);
   (VehicleProperty.SUPPORTED_PROPERTY_IDS, VehiclePropertyAccess.READ);
   (VehicleProperty.SHUTDOWN_REQUEST, VehiclePropertyAccess.WRITE);
   (VehicleProperty.VEHICLE_IN_USE, VehiclePropertyAccess.READ_WRITE);
   (VehicleProperty.CLUSTER_HEARTBEAT, VehiclePropertyAccess.WRITE);
   (VehicleProperty.VEHICLE_DRIVING_AUTOMATION_CURRENT_LEVEL, VehiclePropertyAccess.READ);
   (VehicleProperty.VEHICLE_DRIVING_AUTOMATION_TARGET_LEVEL, VehiclePropertyAccess.READ);
   (VehicleProperty.CAMERA_SERVICE_CURRENT_STATE, VehiclePropertyAccess.WRITE);
   (VehicleProperty.PER_DISPLAY_MAX_BRIGHTNESS, VehiclePropertyAccess.READ);
   (VehicleProperty.AUTOMATIC_EMERGENCY_BRAKING_ENABLED, VehiclePropertyAccess.READ_WRITE);
   (VehicleProperty.AUTOMATIC_EMERGENCY_BRAKING_STATE, VehiclePropertyAccess.READ);
   (VehicleProperty.FORWARD_COLLISION_WARNING_ENABLED, VehiclePropertyAccess.READ_WRITE);
   (VehicleProperty.FORWARD_COLLISION_WARNING_STATE, VehiclePropertyAccess.READ);
   (VehicleProperty.BLIND_SPOT_WARNING_ENABLED, VehiclePropertyAccess.READ_WRITE);
   (VehicleProperty.BLIND_SPOT_WARNING_STATE, VehiclePropertyAccess.READ);
   (VehicleProperty.LANE_DEPARTURE_WARNING_ENABLED, VehiclePropertyAccess.READ_WRITE);
   (VehicleProperty.LANE_DEPARTURE_WARNING_STATE, VehiclePropertyAccess.READ);
   (VehicleProperty.LANE_KEEP_ASSIST_ENABLED, VehiclePropertyAccess.READ_WRITE);
   (VehicleProperty.LANE_KEEP_ASSIST_STATE, VehiclePropertyAccess.READ);
   (VehicleProperty.LANE_CENTERING_ASSIST_ENABLED, VehiclePropertyAccess.READ_WRITE);
   (VehicleProperty.LANE_CENTERING_ASSIST_COMMAND, VehiclePropertyAccess.WRITE);
   (VehicleProperty.LANE_CENTERING_ASSIST_STATE, VehiclePropertyAccess.READ);
   (VehicleProperty.EMERGENCY_LANE_KEEP_ASSIST_ENABLED, VehiclePropertyAccess.READ_WRITE);
   (VehicleProperty.EMERGENCY_LANE_KEEP_ASSIST_STATE, VehiclePropertyAccess.READ);
   (VehicleProperty.CRUISE_CONTROL_ENABLED, VehiclePropertyAccess.READ_WRITE);
   (VehicleProperty.CRUISE_CONTROL_TYPE, VehiclePropertyAccess.READ_WRITE);
   (VehicleProperty.CRUISE_CONTROL_STATE, VehiclePropertyAccess.READ);
   (VehicleProperty.CRUISE_CONTROL_COMMAND, VehiclePropertyAccess.WRITE);
   (VehicleProperty.CRUISE_CONTROL_TARGET_SPEED, VehiclePropertyAccess.READ);
   (VehicleProperty.ADAPTIVE_CRUISE_CONTROL_TARGET_TIME_GAP, VehiclePropertyAccess.READ_WRITE);
   (VehicleProperty.ADAPTIVE_CRUISE_CONTROL_LEAD_VEHICLE_MEASURED_DISTANCE, VehiclePropertyAccess.READ);
   (VehicleProperty.HANDS_ON_DETECTION_ENABLED, VehiclePropertyAccess.READ_WRITE);
   (VehicleProperty.HANDS_ON_DETECTION_DRIVER_STATE, VehiclePropertyAccess.READ);
   (VehicleProperty.HANDS_ON_DETECTION_WARNING, VehiclePropertyAccess.READ);
   (VehicleProperty.DRIVER_DROWSINESS_ATTENTION_SYSTEM_ENABLED, VehiclePropertyAccess.READ_WRITE);
   (VehicleProperty.DRIVER_DROWSINESS_ATTENTION_STATE, VehiclePropertyAccess.READ);
   (VehicleProperty.DRIVER_DROWSINESS_ATTENTION_WARNING_ENABLED, VehiclePropertyAccess.READ_WRITE);
   (VehicleProperty.DRIVER_DROWSINESS_ATTENTION_WARNING, VehiclePropertyAccess.READ);
   (VehicleProperty.DRIVER_DISTRACTION_SYSTEM_ENABLED, VehiclePropertyAccess.READ_WRITE);
   (VehicleProperty.DRIVER_DISTRACTION_STATE, VehiclePropertyAccess.READ);
   (VehicleProperty.DRIVER_DISTRACTION_WARNING_ENABLED, VehiclePropertyAccess.READ_WRITE);
   (VehicleProperty.DRIVER_DISTRACTION_WARNING, VehiclePropertyAccess.READ);
   (VehicleProperty.LOW_SPEED_COLLISION_WARNING_ENABLED, VehiclePropertyAccess.READ_WRITE);
   (VehicleProperty.LOW_SPEED_COLLISION_WARNING_STATE, VehiclePropertyAccess.READ);
   (VehicleProperty.CROSS_TRAFFIC_MONITORING_ENABLED, VehiclePropertyAccess.READ_WRITE);
   (VehicleProperty.CROSS_TRAFFIC_MONITORING_WARNING_STATE, VehiclePropertyAccess.READ);
   (VehicleProperty.LOW_SPEED_AUTOMATIC_EMERGENCY_BRAKING_ENABLED, VehiclePropertyAccess.READ_WRITE);
   (VehicleProperty.LOW_SPEED_AUTOMATIC_EMERGENCY_BRAKING_STATE, VehiclePropertyAccess.READ)].

Definition DefaultAccessForVehicleProperty : list (Z * Z) := DefaultAccessForVehicleProperty_1 ++ DefaultAccessForVehicleProperty_2.

Definition AllowedAccessForVehicleProperty_1 : list (Z * list Z) :=
  [(VehicleProperty.INFO_VIN, [VehiclePropertyAccess.READ]);
   (VehicleProperty.INFO_MAKE, [VehiclePropertyAccess.READ]);
   (VehicleProperty.INFO_MODEL, [VehiclePropertyAccess.READ]);
   (VehicleProperty.INFO_MODEL_YEAR, [VehiclePropertyAccess.READ]);
   (VehicleProperty.INFO_FUEL_CAPACITY, [VehiclePropertyAccess.READ]);
   (VehicleProperty.INFO_FUEL_TYPE, [VehiclePropertyAccess.READ]);
   (VehicleProperty.INFO_EV_BATTERY_CAPACITY, [VehiclePropertyAccess.READ]);
   (VehicleProperty.INFO_EV_CONNECTOR_TYPE, [VehiclePropertyAccess.READ]);
   (VehicleProperty.INFO_FUEL_DOOR_LOCATION, [VehiclePropertyAccess.READ]);
   (VehicleProperty.INFO_EV_PORT_LOCATION, [VehiclePropertyAccess.READ]);
   (VehicleProperty.INFO_DRIVER_SEAT, [VehiclePropertyAccess.READ]);
   (VehicleProperty.INFO_EXTERIOR_DIMENSIONS, [VehiclePropertyAccess.READ]);
   (VehicleProperty.INFO_MULTI_EV_PORT_LOCATIONS, [VehiclePropertyAccess.READ]);
   (VehicleProperty.INFO_MODEL_TRIM, [VehiclePropertyAccess.READ]);
   (VehicleProperty.INFO_VEHICLE_SIZE_CLASS, [VehiclePropertyAccess.READ]);
   (VehicleProperty.PERF_ODOMETER, [VehiclePropertyAccess.READ]);
   (VehicleProperty.PERF_VEHICLE_SPEED, [VehiclePropertyAccess.READ]);
   (VehicleProperty.PERF_VEHICLE_SPEED_DISPLAY, [VehiclePropertyAccess.READ]);
   (VehicleProperty.PERF_STEERING_ANGLE, [VehiclePropertyAccess.READ]);
   (VehicleProperty.PERF_REAR_STEERING_ANGLE, [VehiclePropertyAccess.READ]);
   (VehicleProperty.INSTANTANEOUS_FUEL_ECONOMY, [VehiclePropertyAccess.READ]);
   (VehicleProperty.INSTANTANEOUS_EV_EFFICIENCY, [VehiclePropertyAccess.READ]);
   (VehicleProperty.ENGINE_COOLANT_TEMP, [VehiclePropertyAccess.READ]);
   (VehicleProperty.ENGINE_OIL_LEVEL, [VehiclePropertyAccess.READ]);
   (VehicleProperty.ENGINE_OIL_TEMP, [VehiclePropertyAccess.READ]);
   (VehicleProperty.ENGINE_RPM, [VehiclePropertyAccess.READ]);
   (VehicleProperty.WHEEL_TICK, [VehiclePropertyAccess.READ]);
   (VehicleProperty.FUEL_LEVEL, [VehiclePropertyAccess.READ]);
   (VehicleProperty.FUEL_DOOR_OPEN, [VehiclePropertyAccess.READ_WRITE; VehiclePropertyAccess.READ]);
   (VehicleProperty.EV_BATTERY_LEVEL, [VehiclePropertyAccess.READ]);
   (VehicleProperty.EV_CURRENT_BATTERY_CAPACITY, [VehiclePropertyAccess.READ]);
   (VehicleProperty.EV_CHARGE_PORT_OPEN, [VehiclePropertyAccess.READ_WRITE; VehiclePropertyAccess.READ]);
   (VehicleProperty.EV_CHARGE_PORT_CONNECTED, [VehiclePropertyAccess.READ]);
   (VehicleProperty.EV_BATTERY_INSTANTANEOUS_CHARGE_RATE, [VehiclePropertyAccess.READ]);
   (VehicleProperty.RANGE_REMAINING, [VehiclePropertyAccess.READ_WRITE; VehiclePropertyAccess.READ]);
   (VehicleProperty.EV_BATTERY_AVERAGE_TEMPERATURE, [VehiclePropertyAccess.READ]);
   (VehicleProperty.TIRE_PRESSURE, [VehiclePropertyAccess.READ]);
   (VehicleProperty.CRITICALLY_LOW_TIRE_PRESSURE, [VehiclePropertyAccess.READ]);
   (VehicleProperty.ACCELERATOR_PEDAL_COMPRESSION_PERCENTAGE, [VehiclePropertyAccess.READ]);
   (VehicleProperty.BRAKE_PEDAL_COMPRESSION_PERCENTAGE, [VehiclePropertyAccess.READ]);
   (VehicleProperty.BRAKE_PAD_WEAR_PERCENTAGE, [VehiclePropertyAccess.READ]);
   (VehicleProperty.BRAKE_FLUID_LEVEL_LOW, [VehiclePropertyAccess.READ]);
   (VehicleProperty.VEHICLE_PASSIVE_SUSPENSION_HEIGHT, [VehiclePropertyAccess.READ]);
   (VehicleProperty.ENGINE_IDLE_AUTO_STOP_ENABLED, [VehiclePropertyAccess.READ_WRITE; VehiclePropertyAccess.READ]);
   (VehicleProperty.IMPACT_DETECTED, [VehiclePropertyAccess.READ]);
   (VehicleProperty.VEHICLE_HORN_ENGAGED, [VehiclePropertyAccess.READ_WRITE; VehiclePropertyAccess.READ]);
   (VehicleProperty.GEAR_SELECTION, [VehiclePropertyAccess.READ]);
   (VehicleProperty.CURRENT_GEAR, [VehiclePropertyAccess.READ]);
   (VehicleProperty.PARKING_BRAKE_ON, [VehiclePropertyAccess.READ]);
   (VehicleProperty.PARKING_BRAKE_AUTO_APPLY, [VehiclePropertyAccess.READ]);
   (VehicleProperty.EV_BRAKE_REGENERATION_LEVEL, [VehiclePropertyAccess.READ_WRITE; VehiclePropertyAccess.READ]);
   (VehicleProperty.FUEL_LEVEL_LOW, [VehiclePropertyAccess.READ]);
   (VehicleProperty.NIGHT_MODE, [VehiclePropertyAccess.READ]);
   (VehicleProperty.TURN_SIGNAL_STATE, [VehiclePropertyAccess.READ]);
   (VehicleProperty.IGNITION_STATE, [VehiclePropertyAccess.READ]);
   (VehicleProperty.ABS_ACTIVE, [VehiclePropertyAccess.READ]);
   (VehicleProperty.TRACTION_CONTROL_ACTIVE, [VehiclePropertyAccess.READ]);
   (VehicleProperty.EV_STOPPING_MODE, [VehiclePropertyAccess.READ_WRITE; VehiclePropertyAccess.READ]);
   (VehicleProperty.ELECTRONIC_STABILITY_CONTROL_ENABLED, [VehiclePropertyAccess.READ_WRITE; VehiclePropertyAccess.READ]);
   (VehicleProperty.ELECTRONIC_STABILITY_CONTROL_STATE, [VehiclePropertyAccess.READ]);
   (VehicleProperty.TURN_SIGNAL_LIGHT_STATE, [VehiclePropertyAccess.READ]);
   (VehicleProperty.TURN_SIGNAL_SWITCH, [VehiclePropertyAccess.READ_WRITE; VehiclePropertyAccess.READ]);
   (VehicleProperty.HVAC_FAN_SPEED, [VehiclePropertyAccess.READ_WRITE; VehiclePropertyAccess.READ]);
   (VehicleProperty.HVAC_FAN_DIRECTION, [VehiclePropertyAccess.READ_WRITE; VehiclePropertyAccess.READ]);
   (VehicleProperty.HVAC_TEMPERATURE_CURRENT, [VehiclePropertyAccess.READ]);
   (VehicleProperty.HVAC_TEMPERATURE_SET, [VehiclePropertyAccess.READ_WRITE; VehiclePropertyAccess.READ]);
   (VehicleProperty.HVAC_DEFROSTER, [VehiclePropertyAccess.READ_WRITE; VehiclePropertyAccess.READ]);
   (VehicleProperty.HVAC_AC_ON, [VehiclePropertyAccess.READ_WRITE; VehiclePropertyAccess.READ]);
   (VehicleProperty.HVAC_MAX_AC_ON, [VehiclePropertyAccess.READ_WRITE; VehiclePropertyAccess.READ]);
   (VehicleProperty.HVAC_MAX_DEFROST_ON, [VehiclePropertyAccess.READ_WRITE; VehiclePropertyAccess.READ]);
   (VehicleProperty.HVAC_RECIRC_ON, [VehiclePropertyAccess.READ_WRITE; VehiclePropertyAccess.READ]);
   (VehicleProperty.HVAC_DUAL_ON, [VehiclePropertyAccess.READ_WRITE; VehiclePropertyAccess.READ]);
   (VehicleProperty.HVAC_AUTO_ON, [VehiclePropertyAccess.READ_WRITE; VehiclePropertyAccess.READ]);
   (VehicleProperty.HVAC_SEAT_TEMPERATURE, [VehiclePropertyAccess.READ_WRITE; VehiclePropertyAccess.READ]);
   (VehicleProperty.HVAC_SIDE_MIRROR_HEAT, [VehiclePropertyAccess.READ_WRITE; VehiclePropertyAccess.READ]);
   (VehicleProperty.HVAC_STEERING_WHEEL_HEAT, [VehiclePropertyAccess.READ_WRITE; VehiclePropertyAccess.READ]);
   (VehicleProperty.HVAC_TEMPERATURE_DISPLAY_UNITS, [VehiclePropertyAccess.READ_WRITE; VehiclePropertyAccess.READ]);
   (VehicleProperty.HVAC_ACTUAL_FAN_SPEED_RPM, [VehiclePropertyAccess.READ]);
   (VehicleProperty.HVAC_POWER_ON, [VehiclePropertyAccess.READ_WRITE; VehiclePropertyAccess.READ]);
   (VehicleProperty.HVAC_FAN_DIRECTION_AVAILABLE, [VehiclePropertyAccess.READ]);
   (VehicleProperty.HVAC_AUTO_RECIRC_ON, [VehiclePropertyAccess.READ_WRITE; VehiclePropertyAccess.READ]);
   (VehicleProperty.HVAC_SEAT_VENTILATION, [VehiclePropertyAccess.READ_WRITE; VehiclePropertyAccess.READ]);
   (VehicleProperty.HVAC_ELECTRIC_DEFROSTER_ON, [VehiclePropertyAccess.READ_WRITE; VehiclePropertyAccess.READ]);
   (VehicleProperty.HVAC_TEMPERATURE_VALUE_SUGGESTION, [VehiclePropertyAccess.READ_WRITE]);
   (VehicleProperty.DISTANCE_DISPLAY_UNITS, [VehiclePropertyAccess.READ_WRITE; VehiclePropertyAccess.READ]);
   (VehicleProperty.FUEL_VOLUME_DISPLAY_UNITS, [VehiclePropertyAccess.READ_WRITE; VehiclePropertyAccess.READ]);
   (VehicleProperty.TIRE_PRESSURE_DISPLAY_UNITS, [VehiclePropertyAccess.READ_WRITE; VehiclePropertyAccess.READ]);
   (VehicleProperty.EV_BATTERY_DISPLAY_UNITS, [VehiclePropertyAccess.READ_WRITE; VehiclePropertyAccess.READ]);
   (VehicleProperty.FUEL_CONSUMPTION_UNITS_DISTANCE_OVER_VOLUME, [VehiclePropertyAccess.READ_WRITE; VehiclePropertyAccess.READ]);
   (VehicleProperty.VEHICLE_SPEED_DISPLAY_UNITS, [VehiclePropertyAccess.READ_WRITE; VehiclePropertyAccess.READ]);
   (VehicleProperty.EXTERNAL_CAR_TIME, [VehiclePropertyAccess.READ]);
   (VehicleProperty.ANDROID_EPOCH_TIME, [VehiclePropertyAccess.WRITE]);
   (VehicleProperty.STORAGE_ENCRYPTION_BINDING_SEED, [VehiclePropertyAccess.READ_WRITE]);
   (VehicleProperty.ENV_OUTSIDE_TEMPERATURE, [VehiclePropertyAccess.READ]);
   (VehicleProperty.AP_POWER_STATE_REQ, [VehiclePropertyAccess.READ]);
   (VehicleProperty.AP_POWER_STATE_REPORT, [VehiclePropertyAccess.READ_WRITE]);
   (VehicleProperty.AP_POWER_BOOTUP_REASON, [VehiclePropertyAccess.READ]);
   (VehicleProperty.DISPLAY_BRIGHTNESS, [VehiclePropertyAccess.READ_WRITE; VehiclePropertyAccess.READ]);
   (VehicleProperty.PER_DISPLAY_BRIGHTNESS, [VehiclePropertyAccess.READ_WRITE]);
   (VehicleProperty.VALET_MODE_ENABLED, [VehiclePropertyAccess.READ_WRITE; VehiclePropertyAccess.READ]);
   (VehicleProperty.HEAD_UP_DISPLAY_ENABLED, [VehiclePropertyAccess.READ_WRITE; VehiclePropertyAccess.READ]);
   (VehicleProperty.HW_KEY_INPUT, [VehiclePropertyAccess.READ]);
   (VehicleProperty.HW_KEY_INPUT_V2, [VehiclePropertyAccess.READ]);
   (VehicleProperty.HW_MOTION_INPUT, [VehiclePropertyAccess.READ]);
   (VehicleProperty.HW_ROTARY_INPUT, [VehiclePropertyAccess.READ]);
   (VehicleProperty.HW_CUSTOM_INPUT, [VehiclePropertyAccess.READ]);
   (VehicleProperty.DOOR_POS, [VehiclePropertyAccess.READ_WRITE; VehiclePropertyAccess.READ]);
   (VehicleProperty.DOOR_MOVE, [VehiclePropertyAccess.READ_WRITE; VehiclePropertyAccess.READ]);
   (VehicleProperty.DOOR_LOCK, [VehiclePropertyAccess.READ_WRITE; VehiclePropertyAccess.READ]);
   (VehicleProperty.DOOR_CHILD_LOCK_ENABLED, [VehiclePropertyAccess.READ_WRITE; VehiclePropertyAccess.READ]);
   (VehicleProperty.MIRROR_Z_POS, [VehiclePropertyAccess.READ_WRITE; VehiclePropertyAccess.READ]);
   (VehicleProperty.MIRROR_Z_MOVE, [VehiclePropertyAccess.READ_WRITE; VehiclePropertyAccess.READ]);
   (VehicleProperty.MIRROR_Y_POS, [VehiclePropertyAccess.READ_WRITE; VehiclePropertyAccess.READ]);
   (VehicleProperty.MIRROR_Y_MOVE, [VehiclePropertyAccess.READ_WRITE; VehiclePropertyAccess.READ]);
   (VehicleProperty.MIRROR_LOCK, [VehiclePropertyAccess.READ_WRITE; VehiclePropertyAccess.READ]);
   (VehicleProperty.MIRROR_FOLD, [VehiclePropertyAccess.READ_WRITE; VehiclePropertyAccess.READ]);
   (VehicleProperty.MIRROR_AUTO_FOLD_ENABLED, [VehiclePropertyAccess.READ_WRITE; VehiclePropertyAccess.READ]);
   (VehicleProperty.MIRROR_AUTO_TILT_ENABLED, [VehiclePropertyAccess.READ_WRITE; VehiclePropertyAccess.READ]);
   (VehicleProperty.SEAT_MEMORY_SELECT, [VehiclePropertyAccess.WRITE]);
   (VehicleProperty.SEAT_MEMORY_SET, [VehiclePropertyAccess.WRITE]);
   (VehicleProperty.SEAT_BELT_BUCKLED, [VehiclePropertyAccess.READ_WRITE; VehiclePropertyAccess.READ]);
   (VehicleProperty.SEAT_BELT_HEIGHT_POS, [VehiclePropertyAccess.READ_WRITE; VehiclePropertyAccess.READ]);
   (VehicleProperty.SEAT_BELT_HEIGHT_MOVE, [VehiclePropertyAccess.READ_WRITE; VehiclePropertyAccess.READ]);
   (VehicleProperty.SEAT_FORE_AFT_POS, [VehiclePropertyAccess.READ_WRITE; VehiclePropertyAccess.READ]);
   (VehicleProperty.SEAT_FORE_AFT_MOVE, [VehiclePropertyAccess.READ_WRITE; VehiclePropertyAccess.READ]);
   (VehicleProperty.SEAT_BACKREST_ANGLE_1_POS, [VehiclePropertyAccess.READ_WRITE; VehiclePropertyAccess.READ]);
   (VehicleProperty.SEAT_BACKREST_ANGLE_1_MOVE, [VehiclePropertyAccess.READ_WRITE; VehiclePropertyAccess.READ]);
   (VehicleProperty.SEAT_BACKREST_ANGLE_2_POS, [VehiclePropertyAccess.READ_WRITE; VehiclePropertyAccess.READ]);
   (VehicleProperty.SEAT_BACKREST_ANGLE_2_MOVE, [VehiclePropertyAccess.READ_WRITE; VehiclePropertyAccess.READ]);
   (VehicleProperty.SEAT_HEIGHT_POS, [VehiclePropertyAccess.READ_WRITE; VehiclePropertyAccess.READ]);
   (VehicleProperty.SEAT_HEIGHT_MOVE, [VehiclePropertyAccess.READ_WRITE; VehiclePropertyAccess.READ]);
   (VehicleProperty.SEAT_DEPTH_POS, [VehiclePropertyAccess.READ_WRITE; VehiclePropertyAccess.READ]);
   (VehicleProperty.SEAT_DEPTH_MOVE, [VehiclePropertyAccess.READ_WRITE; VehiclePropertyAccess.READ]);
   (VehicleProperty.SEAT_TILT_POS, [VehiclePropertyAccess.READ_WRITE; VehiclePropertyAccess.READ]);
   (VehicleProperty.SEAT_TILT_MOVE, [VehiclePropertyAccess.READ_WRITE; VehiclePropertyAccess.READ]);
   (VehicleProperty.SEAT_LUMBAR_FORE_AFT_POS, [VehiclePropertyAccess.READ_WRITE; VehiclePropertyAccess.READ]);
   (VehicleProperty.SEAT_LUMBAR_FORE_AFT_MOVE, [VehiclePropertyAccess.READ_WRITE; VehiclePropertyAccess.READ]);
   (VehicleProperty.SEAT_LUMBAR_SIDE_SUPPORT_POS, [VehiclePropertyAccess.READ_WRITE; VehiclePropertyAccess.READ]);
   (VehicleProperty.SEAT_LUMBAR_SIDE_SUPPORT_MOVE, [VehiclePropertyAccess.READ_WRITE; VehiclePropertyAccess.READ]);
   (VehicleProperty.SEAT_HEADREST_HEIGHT_POS, [VehiclePropertyAccess.READ_WRITE; VehiclePropertyAccess.READ])].

Definition AllowedAccessForVehicleProperty_2 : list (Z * list Z) :=
  [(VehicleProperty.SEAT_HEADREST_HEIGHT_POS_V2, [VehiclePropertyAccess.READ_WRITE; VehiclePropertyAccess.READ]);
   (VehicleProperty.SEAT_HEADREST_HEIGHT_MOVE, [VehiclePropertyAccess.READ_WRITE; VehiclePropertyAccess.READ]);
   (VehicleProperty.SEAT_HEADREST_ANGLE_POS, [VehiclePropertyAccess.READ_WRITE; VehiclePropertyAccess.READ]);
   (VehicleProperty.SEAT_HEADREST_ANGLE_MOVE, [VehiclePropertyAccess.READ_WRITE; VehiclePropertyAccess.READ]);
   (VehicleProperty.SEAT_HEADREST_FORE_AFT_POS, [VehiclePropertyAccess.READ_WRITE; VehiclePropertyAccess.READ]);
   (VehicleProperty.SEAT_HEADREST_FORE_AFT_MOVE, [VehiclePropertyAccess.READ_WRITE; VehiclePropertyAccess.READ]);
   (VehicleProperty.SEAT_FOOTWELL_LIGHTS_STATE, [VehiclePropertyAccess.READ]);
   (VehicleProperty.SEAT_FOOTWELL_LIGHTS_SWITCH, [VehiclePropertyAccess.READ_WRITE; VehiclePropertyAccess.READ]);
   (VehicleProperty.SEAT_EASY_ACCESS_ENABLED, [VehiclePropertyAccess.READ_WRITE; VehiclePropertyAccess.READ]);
   (VehicleProperty.SEAT_AIRBAG_ENABLED, [VehiclePropertyAccess.READ_WRITE; VehiclePropertyAccess.READ]);
   (VehicleProperty.SEAT_AIRBAGS_DEPLOYED, [VehiclePropertyAccess.READ]);
   (VehicleProperty.SEAT_CUSHION_SIDE_SUPPORT_POS, [VehiclePropertyAccess.READ_WRITE; VehiclePropertyAccess.READ]);
   (VehicleProperty.SEAT_CUSHION_SIDE_SUPPORT_MOVE, [VehiclePropertyAccess.READ_WRITE; VehiclePropertyAccess.READ]);
   (VehicleProperty.SEAT_LUMBAR_VERTICAL_POS, [VehiclePropertyAccess.READ_WRITE; VehiclePropertyAccess.READ]);
   (VehicleProperty.SEAT_LUMBAR_VERTICAL_MOVE, [VehiclePropertyAccess.READ_WRITE; VehiclePropertyAccess.READ]);
   (VehicleProperty.SEAT_WALK_IN_POS, [VehiclePropertyAccess.READ_WRITE; VehiclePropertyAccess.READ]);
   (VehicleProperty.SEAT_BELT_PRETENSIONER_DEPLOYED, [VehiclePropertyAccess.READ]);
   (VehicleProperty.SEAT_OCCUPANCY, [VehiclePropertyAccess.READ]);
   (VehicleProperty.WINDOW_POS, [VehiclePropertyAccess.READ_WRITE; VehiclePropertyAccess.READ]);
   (VehicleProperty.WINDOW_MOVE, [VehiclePropertyAccess.READ_WRITE; VehiclePropertyAccess.READ]);
   (VehicleProperty.WINDOW_LOCK, [VehiclePropertyAccess.READ_WRITE; VehiclePropertyAccess.READ]);
   (VehicleProperty.WINDSHIELD_WIPERS_PERIOD, [VehiclePropertyAccess.READ]);
   (VehicleProperty.WINDSHIELD_WIPERS_STATE, [VehiclePropertyAccess.READ]);
   (VehicleProperty.WINDSHIELD_WIPERS_SWITCH, [VehiclePropertyAccess.READ_WRITE; VehiclePropertyAccess.READ]);
   (VehicleProperty.STEERING_WHEEL_DEPTH_POS, [VehiclePropertyAccess.READ_WRITE; VehiclePropertyAccess.READ]);
   (VehicleProperty.STEERING_WHEEL_DEPTH_MOVE, [VehiclePropertyAccess.READ_WRITE; VehiclePropertyAccess.READ]);
   (VehicleProperty.STEERING_WHEEL_HEIGHT_POS, [VehiclePropertyAccess.READ_WRITE; VehiclePropertyAccess.READ]);
   (VehicleProperty.STEERING_WHEEL_HEIGHT_MOVE, [VehiclePropertyAccess.READ_WRITE; VehiclePropertyAccess.READ]);
   (VehicleProperty.STEERING_WHEEL_THEFT_LOCK_ENABLED, [VehiclePropertyAccess.READ_WRITE; VehiclePropertyAccess.READ]);
   (VehicleProperty.STEERING_WHEEL_LOCKED, [VehiclePropertyAccess.READ_WRITE; VehiclePropertyAccess.READ]);
   (VehicleProperty.STEERING_WHEEL_EASY_ACCESS_ENABLED, [VehiclePropertyAccess.READ_WRITE; VehiclePropertyAccess.READ]);
   (VehicleProperty.GLOVE_BOX_DOOR_POS, [VehiclePropertyAccess.READ_WRITE; VehiclePropertyAccess.READ]);
   (VehicleProperty.GLOVE_BOX_LOCKED, [VehiclePropertyAccess.READ_WRITE; VehiclePropertyAccess.READ]);
   (VehicleProperty.VEHICLE_MAP_SERVICE, [VehiclePropertyAccess.READ_WRITE]);
   (VehicleProperty.LOCATION_CHARACTERIZATION, [VehiclePropertyAccess.READ]);
   (VehicleProperty.ULTRASONICS_SENSOR_POSITION, [VehiclePropertyAccess.READ]);
   (VehicleProperty.ULTRASONICS_SENSOR_ORIENTATION, [VehiclePropertyAccess.READ]);
   (VehicleProperty.ULTRASONICS_SENSOR_FIELD_OF_VIEW, [VehiclePropertyAccess.READ]);
   (VehicleProperty.ULTRASONICS_SENSOR_DETECTION_RANGE, [VehiclePropertyAccess.READ]);
   (VehicleProperty.ULTRASONICS_SENSOR_SUPPORTED_RANGES, [VehiclePropertyAccess.READ]);
   (VehicleProperty.ULTRASONICS_SENSOR_MEASURED_DISTANCE, [VehiclePropertyAccess.READ]);
   (VehicleProperty.OBD2_LIVE_FRAME, [VehiclePropertyAccess.READ]);
   (VehicleProperty.OBD2_FREEZE_FRAME, [VehiclePropertyAccess.READ]);
   (VehicleProperty.OBD2_FREEZE_FRAME_INFO, [VehiclePropertyAccess.READ]);
   (VehicleProperty.OBD2_FREEZE_FRAME_CLEAR, [VehiclePropertyAccess.WRITE]);
   (VehicleProperty.HEADLIGHTS_STATE, [VehiclePropertyAccess.READ]);
   (VehicleProperty.HIGH_BEAM_LIGHTS_STATE, [VehiclePropertyAccess.READ]);
   (VehicleProperty.FOG_LIGHTS_STATE, [VehiclePropertyAccess.READ]);
   (VehicleProperty.HAZARD_LIGHTS_STATE, [VehiclePropertyAccess.READ]);
   (VehicleProperty.HEADLIGHTS_SWITCH, [VehiclePropertyAccess.READ_WRITE; VehiclePropertyAccess.READ]);
   (VehicleProperty.HIGH_BEAM_LIGHTS_SWITCH, [VehiclePropertyAccess.READ_WRITE; VehiclePropertyAccess.READ]);
   (VehicleProperty.FOG_LIGHTS_SWITCH, [VehiclePropertyAccess.READ_WRITE; VehiclePropertyAccess.READ]);
   (VehicleProperty.HAZARD_LIGHTS_SWITCH, [VehiclePropertyAccess.READ_WRITE; VehiclePropertyAccess.READ]);
   (VehicleProperty.CABIN_LIGHTS_STATE, [VehiclePropertyAccess.READ]);
   (VehicleProperty.CABIN_LIGHTS_SWITCH, [VehiclePropertyAccess.READ_WRITE; VehiclePropertyAccess.READ]);
   (VehicleProperty.READING_LIGHTS_STATE, [VehiclePropertyAccess.READ]);
   (VehicleProperty.READING_LIGHTS_SWITCH, [VehiclePropertyAccess.READ_WRITE; VehiclePropertyAccess.READ]);
   (VehicleProperty.STEERING_WHEEL_LIGHTS_STATE, [VehiclePropertyAccess.READ]);
   (VehicleProperty.STEERING_WHEEL_LIGHTS_SWITCH, [VehiclePropertyAccess.READ_WRITE; VehiclePropertyAccess.READ]);
   (VehicleProperty.SUPPORT_CUSTOMIZE_VENDOR_PERMISSION, [VehiclePropertyAccess.READ]);
   (VehicleProperty.DISABLED_OPTIONAL_FEATURES, [VehiclePropertyAccess.READ]);
   (VehicleProperty.INITIAL_USER_INFO, [VehiclePropertyAccess.READ_WRITE]);
   (VehicleProperty.SWITCH_USER, [VehiclePropertyAccess.READ_WRITE]);
   (VehicleProperty.CREATE_USER, [VehiclePropertyAccess.READ_WRITE]);
   (VehicleProperty.REMOVE_USER, [VehiclePropertyAccess.WRITE]);
   (VehicleProperty.USER_IDENTIFICATION_ASSOCIATION, [VehiclePropertyAccess.READ_WRITE]);
   (VehicleProperty.EVS_SERVICE_REQUEST, [VehiclePropertyAccess.READ]);
   (VehicleProperty.POWER_POLICY_REQ, [VehiclePropertyAccess.READ]);
   (VehicleProperty.POWER_POLICY_GROUP_REQ, [VehiclePropertyAccess.READ]);
   (VehicleProperty.CURRENT_POWER_POLICY, [VehiclePropertyAccess.READ_WRITE]);
   (VehicleProperty.WATCHDOG_ALIVE, [VehiclePropertyAccess.WRITE]);
   (VehicleProperty.WATCHDOG_TERMINATED_PROCESS, [VehiclePropertyAccess.WRITE]);
   (VehicleProperty.VHAL_HEARTBEAT, [VehiclePropertyAccess.READ]);
   (VehicleProperty.CLUSTER_SWITCH_UI, [VehiclePropertyAccess.READ]);
   (VehicleProperty.CLUSTER_DISPLAY_STATE, [VehiclePropertyAccess.READ]);
   (VehicleProperty.CLUSTER_REPORT_STATE, [VehiclePropertyAccess.WRITE]);
   (VehicleProperty.CLUSTER_REQUEST_DISPLAY, [VehiclePropertyAccess.WRITE]);
   (VehicleProperty.CLUSTER_NAVIGATION_STATE, [VehiclePropertyAccess.WRITE]);
   (VehicleProperty.ELECTRONIC_TOLL_COLLECTION_CARD_TYPE, [VehiclePropertyAccess.READ]);
   (VehicleProperty.ELECTRONIC_TOLL_COLLECTION_CARD_STATUS, [VehiclePropertyAccess.READ]);
   (VehicleProperty.FRONT_FOG_LIGHTS_STATE, [VehiclePropertyAccess.READ]);
   (VehicleProperty.FRONT_FOG_LIGHTS_SWITCH, [VehiclePropertyAccess.READ_WRITE; VehiclePropertyAccess.READ]);
   (VehicleProperty.REAR_FOG_LIGHTS_STATE, [VehiclePropertyAccess.READ]);
   (VehicleProperty.REAR_FOG_LIGHTS_SWITCH, [VehiclePropertyAccess.READ_WRITE; VehiclePropertyAccess.READ]);
   (VehicleProperty.EV_CHARGE_CURRENT_DRAW_LIMIT, [VehiclePropertyAccess.READ_WRITE; VehiclePropertyAccess.READ]);
   (VehicleProperty.EV_CHARGE_PERCENT_LIMIT, [VehiclePropertyAccess.READ_WRITE; VehiclePropertyAccess.READ]);
   (VehicleProperty.EV_CHARGE_STATE, [VehiclePropertyAccess.READ]);
   (VehicleProperty.EV_CHARGE_SWITCH, [VehiclePropertyAccess.READ_WRITE; VehiclePropertyAccess.READ]);
   (VehicleProperty.EV_CHARGE_TIME_REMAINING, [VehiclePropertyAccess.READ]);
   (VehicleProperty.EV_REGENERATIVE_BRAKING_STATE, [VehiclePropertyAccess.READ]);
   (VehicleProperty.TRAILER_PRESENT, [VehiclePropertyAccess.READ]);
   (VehicleProperty.VEHICLE_CURB_WEIGHT, [VehiclePropertyAccess.READ]);
   (VehicleProperty.GENERAL_SAFETY_REGULATION_COMPLIANCE_REQUIREMENT, [VehiclePropertyAccess.READ]);
   (VehicleProperty.SUPPORTED_PROPERTY_IDS, [VehiclePropertyAccess.READ]);
   (VehicleProperty.SHUTDOWN_REQUEST, [VehiclePropertyAccess.WRITE]);
   (VehicleProperty.VEHICLE_IN_USE, [VehiclePropertyAccess.READ_WRITE; VehiclePropertyAccess.READ]);
   (VehicleProperty.CLUSTER_HEARTBEAT, [VehiclePropertyAccess.WRITE]);
   (VehicleProperty.VEHICLE_DRIVING_AUTOMATION_CURRENT_LEVEL, [VehiclePropertyAccess.READ]);
   (VehicleProperty.VEHICLE_DRIVING_AUTOMATION_TARGET_LEVEL, [VehiclePropertyAccess.READ]);
   (VehicleProperty.CAMERA_SERVICE_CURRENT_STATE, [VehiclePropertyAccess.WRITE]);
   (VehicleProperty.PER_DISPLAY_MAX_BRIGHTNESS, [VehiclePropertyAccess.READ]);
   (VehicleProperty.AUTOMATIC_EMERGENCY_BRAKING_ENABLED, [VehiclePropertyAccess.READ_WRITE; VehiclePropertyAccess.READ]);
   (VehicleProperty.AUTOMATIC_EMERGENCY_BRAKING_STATE, [VehiclePropertyAccess.READ]);
   (VehicleProperty.FORWARD_COLLISION_WARNING_ENABLED, [VehiclePropertyAccess.READ_WRITE; VehiclePropertyAccess.READ]);
   (VehicleProperty.FORWARD_COLLISION_WARNING_STATE, [VehiclePropertyAccess.READ]);
   (VehicleProperty.BLIND_SPOT_WARNING_ENABLED, [VehiclePropertyAccess.READ_WRITE; VehiclePropertyAccess.READ]);
   (VehicleProperty.BLIND_SPOT_WARNING_STATE, [VehiclePropertyAccess.READ]);
   (VehicleProperty.LANE_DEPARTURE_WARNING_ENABLED, [VehiclePropertyAccess.READ_WRITE; VehiclePropertyAccess.READ]);
   (VehicleProperty.LANE_DEPARTURE_WARNING_STATE, [VehiclePropertyAccess.READ]);
   (VehicleProperty.LANE_KEEP_ASSIST_ENABLED, [VehiclePropertyAccess.READ_WRITE; VehiclePropertyAccess.READ]);
   (VehicleProperty.LANE_KEEP_ASSIST_STATE, [VehiclePropertyAccess.READ]);
   (VehicleProperty.LANE_CENTERING_ASSIST_ENABLED, [VehiclePropertyAccess.READ_WRITE; VehiclePropertyAccess.READ]);
   (VehicleProperty.LANE_CENTERING_ASSIST_COMMAND, [VehiclePropertyAccess.WRITE]);
   (VehicleProperty.LANE_CENTERING_ASSIST_STATE, [VehiclePropertyAccess.READ]);
   (VehicleProperty.EMERGENCY_LANE_KEEP_ASSIST_ENABLED, [VehiclePropertyAccess.READ_WRITE; VehiclePropertyAccess.READ]);
   (VehicleProperty.EMERGENCY_LANE_KEEP_ASSIST_STATE, [VehiclePropertyAccess.READ]);
   (VehicleProperty.CRUISE_CONTROL_ENABLED, [VehiclePropertyAccess.READ_WRITE; VehiclePropertyAccess.READ]);
   (VehicleProperty.CRUISE_CONTROL_TYPE, [VehiclePropertyAccess.READ_WRITE; VehiclePropertyAccess.READ]);
   (VehicleProperty.CRUISE_CONTROL_STATE, [VehiclePropertyAccess.READ]);
   (VehicleProperty.CRUISE_CONTROL_COMMAND, [VehiclePropertyAccess.WRITE]);
   (VehicleProperty.CRUISE_CONTROL_TARGET_SPEED, [VehiclePropertyAccess.READ]);
   (VehicleProperty.ADAPTIVE_CRUISE_CONTROL_TARGET_TIME_GAP, [VehiclePropertyAccess.READ_WRITE; VehiclePropertyAccess.READ]);
   (VehicleProperty.ADAPTIVE_CRUISE_CONTROL_LEAD_VEHICLE_MEASURED_DISTANCE, [VehiclePropertyAccess.READ]);
   (VehicleProperty.HANDS_ON_DETECTION_ENABLED, [VehiclePropertyAccess.READ_WRITE; VehiclePropertyAccess.READ]);
   (VehicleProperty.HANDS_ON_DETECTION_DRIVER_STATE, [VehiclePropertyAccess.READ]);
   (VehicleProperty.HANDS_ON_DETECTION_WARNING, [VehiclePropertyAccess.READ]);
   (VehicleProperty.DRIVER_DROWSINESS_ATTENTION_SYSTEM_ENABLED, [VehiclePropertyAccess.READ_WRITE; VehiclePropertyAccess.READ]);
   (VehicleProperty.DRIVER_DROWSINESS_ATTENTION_STATE, [VehiclePropertyAccess.READ]);
   (VehicleProperty.DRIVER_DROWSINESS_ATTENTION_WARNING_ENABLED, [VehiclePropertyAccess.READ_WRITE; VehiclePropertyAccess.READ]);
   (VehicleProperty.DRIVER_DROWSINESS_ATTENTION_WARNING, [VehiclePropertyAccess.READ]);
   (VehicleProperty.DRIVER_DISTRACTION_SYSTEM_ENABLED, [VehiclePropertyAccess.READ_WRITE; VehiclePropertyAccess.READ]);
   (VehicleProperty.DRIVER_DISTRACTION_STATE, [VehiclePropertyAccess.READ]);
   (VehicleProperty.DRIVER_DISTRACTION_WARNING_ENABLED, [VehiclePropertyAccess.READ_WRITE; VehiclePropertyAccess.READ]);
   (VehicleProperty.DRIVER_DISTRACTION_WARNING, [VehiclePropertyAccess.READ]);
   (VehicleProperty.LOW_SPEED_COLLISION_WARNING_ENABLED, [VehiclePropertyAccess.READ_WRITE; VehiclePropertyAccess.READ]);
   (VehicleProperty.LOW_SPEED_COLLISION_WARNING_STATE, [VehiclePropertyAccess.READ]);
   (VehicleProperty.CROSS_TRAFFIC_MONITORING_ENABLED, [VehiclePropertyAccess.READ_WRITE; VehiclePropertyAccess.READ]);
   (VehicleProperty.CROSS_TRAFFIC_MONITORING_WARNING_STATE, [VehiclePropertyAccess.READ]);
   (VehicleProperty.LOW_SPEED_AUTOMATIC_EMERGENCY_BRAKING_ENABLED, [VehiclePropertyAccess.READ_WRITE; VehiclePropertyAccess.READ]);
   (VehicleProperty.LOW_SPEED_AUTOMATIC_EMERGENCY_BRAKING_STATE, [VehiclePropertyAccess.READ])].

Definition AllowedAccessForVehicleProperty : list (Z * list Z) := AllowedAccessForVehicleProperty_1 ++ AllowedAccessForVehicleProperty_2.

Definition ChangeModeForVehicleProperty_1 : list (Z * Z) :=
  [(VehicleProperty.INFO_VIN, VehiclePropertyChangeMode.STATIC);
   (VehicleProperty.INFO_MAKE, VehiclePropertyChangeMode.STATIC);
   (VehicleProperty.INFO_MODEL, VehiclePropertyChangeMode.STATIC);
   (VehicleProperty.INFO_MODEL_YEAR, VehiclePropertyChangeMode.STATIC);
   (VehicleProperty.INFO_FUEL_CAPACITY, VehiclePropertyChangeMode.STATIC);
   (VehicleProperty.INFO_FUEL_TYPE, VehiclePropertyChangeMode.STATIC);
   (VehicleProperty.INFO_EV_BATTERY_CAPACITY, VehiclePropertyChangeMode.STATIC);
   (VehicleProperty.INFO_EV_CONNECTOR_TYPE, VehiclePropertyChangeMode.STATIC);
   (VehicleProperty.INFO_FUEL_DOOR_LOCATION, VehiclePropertyChangeMode.STATIC);
   (VehicleProperty.INFO_EV_PORT_LOCATION, VehiclePropertyChangeMode.STATIC);
   (VehicleProperty.INFO_DRIVER_SEAT, VehiclePropertyChangeMode.STATIC);
   (VehicleProperty.INFO_EXTERIOR_DIMENSIONS, VehiclePropertyChangeMode.STATIC);
   (VehicleProperty.INFO_MULTI_EV_PORT_LOCATIONS, VehiclePropertyChangeMode.STATIC);
   (VehicleProperty.INFO_MODEL_TRIM, VehiclePropertyChangeMode.STATIC);
   (VehicleProperty.INFO_VEHICLE_SIZE_CLASS, VehiclePropertyChangeMode.STATIC);
   (VehicleProperty.PERF_ODOMETER, VehiclePropertyChangeMode.CONTINUOUS);
   (VehicleProperty.PERF_VEHICLE_SPEED, VehiclePropertyChangeMode.CONTINUOUS);
   (VehicleProperty.PERF_VEHICLE_SPEED_DISPLAY, VehiclePropertyChangeMode.CONTINUOUS);
   (VehicleProperty.PERF_STEERING_ANGLE, VehiclePropertyChangeMode.CONTINUOUS);
   (VehicleProperty.PERF_REAR_STEERING_ANGLE, VehiclePropertyChangeMode.CONTINUOUS);
   (VehicleProperty.INSTANTANEOUS_FUEL_ECONOMY, VehiclePropertyChangeMode.CONTINUOUS);
   (VehicleProperty.INSTANTANEOUS_EV_EFFICIENCY, VehiclePropertyChangeMode.CONTINUOUS);
   (VehicleProperty.ENGINE_COOLANT_TEMP, VehiclePropertyChangeMode.CONTINUOUS);
   (VehicleProperty.ENGINE_OIL_LEVEL, VehiclePropertyChangeMode.ON_CHANGE);
   (VehicleProperty.ENGINE_OIL_TEMP, VehiclePropertyChangeMode.CONTINUOUS);
   (VehicleProperty.ENGINE_RPM, VehiclePropertyChangeMode.CONTINUOUS);
   (VehicleProperty.WHEEL_TICK, VehiclePropertyChangeMode.CONTINUOUS);
   (VehicleProperty.FUEL_LEVEL, VehiclePropertyChangeMode.CONTINUOUS);
   (VehicleProperty.FUEL_DOOR_OPEN, VehiclePropertyChangeMode.ON_CHANGE);
   (VehicleProperty.EV_BATTERY_LEVEL, VehiclePropertyChangeMode.CONTINUOUS);
   (VehicleProperty.EV_CURRENT_BATTERY_CAPACITY, VehiclePropertyChangeMode.ON_CHANGE);
   (VehicleProperty.EV_CHARGE_PORT_OPEN, VehiclePropertyChangeMode.ON_CHANGE);
   (VehicleProperty.EV_CHARGE_PORT_CONNECTED, VehiclePropertyChangeMode.ON_CHANGE);
   (VehicleProperty.EV_BATTERY_INSTANTANEOUS_CHARGE_RATE, VehiclePropertyChangeMode.CONTINUOUS);
   (VehicleProperty.RANGE_REMAINING, VehiclePropertyChangeMode.CONTINUOUS);
   (VehicleProperty.EV_BATTERY_AVERAGE_TEMPERATURE, VehiclePropertyChangeMode.CONTINUOUS);
   (VehicleProperty.TIRE_PRESSURE, VehiclePropertyChangeMode.CONTINUOUS);
   (VehicleProperty.CRITICALLY_LOW_TIRE_PRESSURE, VehiclePropertyChangeMode.STATIC);
   (VehicleProperty.ACCELERATOR_PEDAL_COMPRESSION_PERCENTAGE, VehiclePropertyChangeMode.CONTINUOUS);
   (VehicleProperty.BRAKE_PEDAL_COMPRESSION_PERCENTAGE, VehiclePropertyChangeMode.CONTINUOUS);
   (VehicleProperty.BRAKE_PAD_WEAR_PERCENTAGE, VehiclePropertyChangeMode.ON_CHANGE);
   (VehicleProperty.BRAKE_FLUID_LEVEL_LOW, VehiclePropertyChangeMode.ON_CHANGE);
   (VehicleProperty.VEHICLE_PASSIVE_SUSPENSION_HEIGHT, VehiclePropertyChangeMode.CONTINUOUS);
   (VehicleProperty.ENGINE_IDLE_AUTO_STOP_ENABLED, VehiclePropertyChangeMode.ON_CHANGE);
   (VehicleProperty.IMPACT_DETECTED, VehiclePropertyChangeMode.ON_CHANGE);
   (VehicleProperty.VEHICLE_HORN_ENGAGED, VehiclePropertyChangeMode.ON_CHANGE);
   (VehicleProperty.GEAR_SELECTION, VehiclePropertyChangeMode.ON_CHANGE);
   (VehicleProperty.CURRENT_GEAR, VehiclePropertyChangeMode.ON_CHANGE);
   (VehicleProperty.PARKING_BRAKE_ON, VehiclePropertyChangeMode.ON_CHANGE);
   (VehicleProperty.PARKING_BRAKE_AUTO_APPLY, VehiclePropertyChangeMode.ON_CHANGE);
   (VehicleProperty.EV_BRAKE_REGENERATION_LEVEL, VehiclePropertyChangeMode.ON_CHANGE);
   (VehicleProperty.FUEL_LEVEL_LOW, VehiclePropertyChangeMode.ON_CHANGE);
   (VehicleProperty.NIGHT_MODE, VehiclePropertyChangeMode.ON_CHANGE);
   (VehicleProperty.TURN_SIGNAL_STATE, VehiclePropertyChangeMode.ON_CHANGE);
   (VehicleProperty.IGNITION_STATE, VehiclePropertyChangeMode.ON_CHANGE);
   (VehicleProperty.ABS_ACTIVE, VehiclePropertyChangeMode.ON_CHANGE);
   (VehicleProperty.TRACTION_CONTROL_ACTIVE, VehiclePropertyChangeMode.ON_CHANGE);
   (VehicleProperty.EV_STOPPING_MODE, VehiclePropertyChangeMode.ON_CHANGE);
   (VehicleProperty.ELECTRONIC_STABILITY_CONTROL_ENABLED, VehiclePropertyChangeMode.ON_CHANGE);
   (VehicleProperty.ELECTRONIC_STABILITY_CONTROL_STATE, VehiclePropertyChangeMode.ON_CHANGE);
   (VehicleProperty.TURN_SIGNAL_LIGHT_STATE, VehiclePropertyChangeMode.ON_CHANGE);
   (VehicleProperty.TURN_SIGNAL_SWITCH, VehiclePropertyChangeMode.ON_CHANGE);
   (VehicleProperty.HVAC_FAN_SPEED, VehiclePropertyChangeMode.ON_CHANGE);
   (VehicleProperty.HVAC_FAN_DIRECTION, VehiclePropertyChangeMode.ON_CHANGE);
   (VehicleProperty.HVAC_TEMPERATURE_CURRENT, VehiclePropertyChangeMode.ON_CHANGE);
   (VehicleProperty.HVAC_TEMPERATURE_SET, VehiclePropertyChangeMode.ON_CHANGE);
   (VehicleProperty.HVAC_DEFROSTER, VehiclePropertyChangeMode.ON_CHANGE);
   (VehicleProperty.HVAC_AC_ON, VehiclePropertyChangeMode.ON_CHANGE);
   (VehicleProperty.HVAC_MAX_AC_ON, VehiclePropertyChangeMode.ON_CHANGE);
   (VehicleProperty.HVAC_MAX_DEFROST_ON, VehiclePropertyChangeMode.ON_CHANGE);
   (VehicleProperty.HVAC_RECIRC_ON, VehiclePropertyChangeMode.ON_CHANGE);
   (VehicleProperty.HVAC_DUAL_ON, VehiclePropertyChangeMode.ON_CHANGE);
   (VehicleProperty.HVAC_AUTO_ON, VehiclePropertyChangeMode.ON_CHANGE);
   (VehicleProperty.HVAC_SEAT_TEMPERATURE, VehiclePropertyChangeMode.ON_CHANGE);
   (VehicleProperty.HVAC_SIDE_MIRROR_HEAT, VehiclePropertyChangeMode.ON_CHANGE);
   (VehicleProperty.HVAC_STEERING_WHEEL_HEAT, VehiclePropertyChangeMode.ON_CHANGE);
   (VehicleProperty.HVAC_TEMPERATURE_DISPLAY_UNITS, VehiclePropertyChangeMode.ON_CHANGE);
   (VehicleProperty.HVAC_ACTUAL_FAN_SPEED_RPM, VehiclePropertyChangeMode.ON_CHANGE);
   (VehicleProperty.HVAC_POWER_ON, VehiclePropertyChangeMode.ON_CHANGE);
   (VehicleProperty.HVAC_FAN_DIRECTION_AVAILABLE, VehiclePropertyChangeMode.STATIC);
   (VehicleProperty.HVAC_AUTO_RECIRC_ON, VehiclePropertyChangeMode.ON_CHANGE);
   (VehicleProperty.HVAC_SEAT_VENTILATION, VehiclePropertyChangeMode.ON_CHANGE);
   (VehicleProperty.HVAC_ELECTRIC_DEFROSTER_ON, VehiclePropertyChangeMode.ON_CHANGE);
   (VehicleProperty.HVAC_TEMPERATURE_VALUE_SUGGESTION, VehiclePropertyChangeMode.ON_CHANGE);
   (VehicleProperty.DISTANCE_DISPLAY_UNITS, VehiclePropertyChangeMode.ON_CHANGE);
   (VehicleProperty.FUEL_VOLUME_DISPLAY_UNITS, VehiclePropertyChangeMode.ON_CHANGE);
   (VehicleProperty.TIRE_PRESSURE_DISPLAY_UNITS, VehiclePropertyChangeMode.ON_CHANGE);
   (VehicleProperty.EV_BATTERY_DISPLAY_UNITS, VehiclePropertyChangeMode.ON_CHANGE);
   (VehicleProperty.FUEL_CONSUMPTION_UNITS_DISTANCE_OVER_VOLUME, VehiclePropertyChangeMode.ON_CHANGE);
   (VehicleProperty.VEHICLE_SPEED_DISPLAY_UNITS, VehiclePropertyChangeMode.ON_CHANGE);
   (VehicleProperty.EXTERNAL_CAR_TIME, VehiclePropertyChangeMode.ON_CHANGE);
   (VehicleProperty.ANDROID_EPOCH_TIME, VehiclePropertyChangeMode.ON_CHANGE);
   (VehicleProperty.STORAGE_ENCRYPTION_BINDING_SEED, VehiclePropertyChangeMode.ON_CHANGE);
   (VehicleProperty.ENV_OUTSIDE_TEMPERATURE, VehiclePropertyChangeMode.CONTINUOUS);
   (VehicleProperty.AP_POWER_STATE_REQ, VehiclePropertyChangeMode.ON_CHANGE);
   (VehicleProperty.AP_POWER_STATE_REPORT, VehiclePropertyChangeMode.ON_CHANGE);
   (VehicleProperty.AP_POWER_BOOTUP_REASON, VehiclePropertyChangeMode.STATIC);
   (VehicleProperty.DISPLAY_BRIGHTNESS, VehiclePropertyChangeMode.ON_CHANGE);
   (VehicleProperty.PER_DISPLAY_BRIGHTNESS, VehiclePropertyChangeMode.ON_CHANGE);
   (VehicleProperty.VALET_MODE_ENABLED, VehiclePropertyChangeMode.ON_CHANGE);
   (VehicleProperty.HEAD_UP_DISPLAY_ENABLED, VehiclePropertyChangeMode.ON_CHANGE);
   (VehicleProperty.HW_KEY_INPUT, VehiclePropertyChangeMode.ON_CHANGE);
   (VehicleProperty.HW_KEY_INPUT_V2, VehiclePropertyChangeMode.ON_CHANGE);
   (VehicleProperty.HW_MOTION_INPUT, VehiclePropertyChangeMode.ON_CHANGE);
   (VehicleProperty.HW_ROTARY_INPUT, VehiclePropertyChangeMode.ON_CHANGE);
   (VehicleProperty.HW_CUSTOM_INPUT, VehiclePropertyChangeMode.ON_CHANGE);
   (VehicleProperty.DOOR_POS, VehiclePropertyChangeMode.ON_CHANGE);
   (VehicleProperty.DOOR_MOVE, VehiclePropertyChangeMode.ON_CHANGE);
   (VehicleProperty.DOOR_LOCK, VehiclePropertyChangeMode.ON_CHANGE);
   (VehicleProperty.DOOR_CHILD_LOCK_ENABLED, VehiclePropertyChangeMode.ON_CHANGE);
   (VehicleProperty.MIRROR_Z_POS, VehiclePropertyChangeMode.ON_CHANGE);
   (VehicleProperty.MIRROR_Z_MOVE, VehiclePropertyChangeMode.ON_CHANGE);
   (VehicleProperty.MIRROR_Y_POS, VehiclePropertyChangeMode.ON_CHANGE);
   (VehicleProperty.MIRROR_Y_MOVE, VehiclePropertyChangeMode.ON_CHANGE);
   (VehicleProperty.MIRROR_LOCK, VehiclePropertyChangeMode.ON_CHANGE);
   (VehicleProperty.MIRROR_FOLD, VehiclePropertyChangeMode.ON_CHANGE);
   (VehicleProperty.MIRROR_AUTO_FOLD_ENABLED, VehiclePropertyChangeMode.ON_CHANGE);
   (VehicleProperty.MIRROR_AUTO_TILT_ENABLED, VehiclePropertyChangeMode.ON_CHANGE);
   (VehicleProperty.SEAT_MEMORY_SELECT, VehiclePropertyChangeMode.ON_CHANGE);
   (VehicleProperty.SEAT_MEMORY_SET, VehiclePropertyChangeMode.ON_CHANGE);
   (VehicleProperty.SEAT_BELT_BUCKLED, VehiclePropertyChangeMode.ON_CHANGE);
   (VehicleProperty.SEAT_BELT_HEIGHT_POS, VehiclePropertyChangeMode.ON_CHANGE);
   (VehicleProperty.SEAT_BELT_HEIGHT_MOVE, VehiclePropertyChangeMode.ON_CHANGE);
   (VehicleProperty.SEAT_FORE_AFT_POS, VehiclePropertyChangeMode.ON_CHANGE);
   (VehicleProperty.SEAT_FORE_AFT_MOVE, VehiclePropertyChangeMode.ON_CHANGE);
   (VehicleProperty.SEAT_BACKREST_ANGLE_1_POS, VehiclePropertyChangeMode.ON_CHANGE);
   (VehicleProperty.SEAT_BACKREST_ANGLE_1_MOVE, VehiclePropertyChangeMode.ON_CHANGE);
   (VehicleProperty.SEAT_BACKREST_ANGLE_2_POS, VehiclePropertyChangeMode.ON_CHANGE);
   (VehicleProperty.SEAT_BACKREST_ANGLE_2_MOVE, VehiclePropertyChangeMode.ON_CHANGE);
   (VehicleProperty.SEAT_HEIGHT_POS, VehiclePropertyChangeMode.ON_CHANGE);
   (VehicleProperty.SEAT_HEIGHT_MOVE, VehiclePropertyChangeMode.ON_CHANGE);
   (VehicleProperty.SEAT_DEPTH_POS, VehiclePropertyChangeMode.ON_CHANGE);
   (VehicleProperty.SEAT_DEPTH_MOVE, VehiclePropertyChangeMode.ON_CHANGE);
   (VehicleProperty.SEAT_TILT_POS, VehiclePropertyChangeMode.ON_CHANGE);
   (VehicleProperty.SEAT_TILT_MOVE, VehiclePropertyChangeMode.ON_CHANGE);
   (VehicleProperty.SEAT_LUMBAR_FORE_AFT_POS, VehiclePropertyChangeMode.ON_CHANGE);
   (VehicleProperty.SEAT_LUMBAR_FORE_AFT_MOVE, VehiclePropertyChangeMode.ON_CHANGE);
   (VehicleProperty.SEAT_LUMBAR_SIDE_SUPPORT_POS, VehiclePropertyChangeMode.ON_CHANGE);
   (VehicleProperty.SEAT_LUMBAR_SIDE_SUPPORT_MOVE, VehiclePropertyChangeMode.ON_CHANGE);
   (VehicleProperty.SEAT_HEADREST_HEIGHT_POS, VehiclePropertyChangeMode.ON_CHANGE)].

Definition ChangeModeForVehicleProperty_2 : list (Z * Z) :=
  [(VehicleProperty.SEAT_HEADREST_HEIGHT_POS_V2, VehiclePropertyChangeMode.ON_CHANGE);
   (VehicleProperty.SEAT_HEADREST_HEIGHT_MOVE, VehiclePropertyChangeMode.ON_CHANGE);
   (VehicleProperty.SEAT_HEADREST_ANGLE_POS, VehiclePropertyChangeMode.ON_CHANGE);
   (VehicleProperty.SEAT_HEADREST_ANGLE_MOVE, VehiclePropertyChangeMode.ON_CHANGE);
   (VehicleProperty.SEAT_HEADREST_FORE_AFT_POS, VehiclePropertyChangeMode.ON_CHANGE);
   (VehicleProperty.SEAT_HEADREST_FORE_AFT_MOVE, VehiclePropertyChangeMode.ON_CHANGE);
   (VehicleProperty.SEAT_FOOTWELL_LIGHTS_STATE, VehiclePropertyChangeMode.ON_CHANGE);
   (VehicleProperty.SEAT_FOOTWELL_LIGHTS_SWITCH, VehiclePropertyChangeMode.ON_CHANGE);
   (VehicleProperty.SEAT_EASY_ACCESS_ENABLED, VehiclePropertyChangeMode.ON_CHANGE);
   (VehicleProperty.SEAT_AIRBAG_ENABLED, VehiclePropertyChangeMode.ON_CHANGE);
   (VehicleProperty.SEAT_AIRBAGS_DEPLOYED, VehiclePropertyChangeMode.ON_CHANGE);
   (VehicleProperty.SEAT_CUSHION_SIDE_SUPPORT_POS, VehiclePropertyChangeMode.ON_CHANGE);
   (VehicleProperty.SEAT_CUSHION_SIDE_SUPPORT_MOVE, VehiclePropertyChangeMode.ON_CHANGE);
   (VehicleProperty.SEAT_LUMBAR_VERTICAL_POS, VehiclePropertyChangeMode.ON_CHANGE);
   (VehicleProperty.SEAT_LUMBAR_VERTICAL_MOVE, VehiclePropertyChangeMode.ON_CHANGE);
   (VehicleProperty.SEAT_WALK_IN_POS, VehiclePropertyChangeMode.ON_CHANGE);
   (VehicleProperty.SEAT_BELT_PRETENSIONER_DEPLOYED, VehiclePropertyChangeMode.ON_CHANGE);
   (VehicleProperty.SEAT_OCCUPANCY, VehiclePropertyChangeMode.ON_CHANGE);
   (VehicleProperty.WINDOW_POS, VehiclePropertyChangeMode.ON_CHANGE);
   (VehicleProperty.WINDOW_MOVE, VehiclePropertyChangeMode.ON_CHANGE);
   (VehicleProperty.WINDOW_LOCK, VehiclePropertyChangeMode.ON_CHANGE);
   (VehicleProperty.WINDSHIELD_WIPERS_PERIOD, VehiclePropertyChangeMode.ON_CHANGE);
   (VehicleProperty.WINDSHIELD_WIPERS_STATE, VehiclePropertyChangeMode.ON_CHANGE);
   (VehicleProperty.WINDSHIELD_WIPERS_SWITCH, VehiclePropertyChangeMode.ON_CHANGE);
   (VehicleProperty.STEERING_WHEEL_DEPTH_POS, VehiclePropertyChangeMode.ON_CHANGE);
   (VehicleProperty.STEERING_WHEEL_DEPTH_MOVE, VehiclePropertyChangeMode.ON_CHANGE);
   (VehicleProperty.STEERING_WHEEL_HEIGHT_POS, VehiclePropertyChangeMode.ON_CHANGE);
   (VehicleProperty.STEERING_WHEEL_HEIGHT_MOVE, VehiclePropertyChangeMode.ON_CHANGE);
   (VehicleProperty.STEERING_WHEEL_THEFT_LOCK_ENABLED, VehiclePropertyChangeMode.ON_CHANGE);
   (VehicleProperty.STEERING_WHEEL_LOCKED, VehiclePropertyChangeMode.ON_CHANGE);
   (VehicleProperty.STEERING_WHEEL_EASY_ACCESS_ENABLED, VehiclePropertyChangeMode.ON_CHANGE);
   (VehicleProperty.GLOVE_BOX_DOOR_POS, VehiclePropertyChangeMode.ON_CHANGE);
   (VehicleProperty.GLOVE_BOX_LOCKED, VehiclePropertyChangeMode.ON_CHANGE);
   (VehicleProperty.VEHICLE_MAP_SERVICE, VehiclePropertyChangeMode.ON_CHANGE);
   (VehicleProperty.LOCATION_CHARACTERIZATION, VehiclePropertyChangeMode.STATIC);
   (VehicleProperty.ULTRASONICS_SENSOR_POSITION, VehiclePropertyChangeMode.STATIC);
   (VehicleProperty.ULTRASONICS_SENSOR_ORIENTATION, VehiclePropertyChangeMode.STATIC);
   (VehicleProperty.ULTRASONICS_SENSOR_FIELD_OF_VIEW, VehiclePropertyChangeMode.STATIC);
   (VehicleProperty.ULTRASONICS_SENSOR_DETECTION_RANGE, VehiclePropertyChangeMode.STATIC);
   (VehicleProperty.ULTRASONICS_SENSOR_SUPPORTED_RANGES, VehiclePropertyChangeMode.STATIC);
   (VehicleProperty.ULTRASONICS_SENSOR_MEASURED_DISTANCE, VehiclePropertyChangeMode.CONTINUOUS);
   (VehicleProperty.OBD2_LIVE_FRAME, VehiclePropertyChangeMode.ON_CHANGE);
   (VehicleProperty.OBD2_FREEZE_FRAME, VehiclePropertyChangeMode.ON_CHANGE);
   (VehicleProperty.OBD2_FREEZE_FRAME_INFO, VehiclePropertyChangeMode.ON_CHANGE);
   (VehicleProperty.OBD2_FREEZE_FRAME_CLEAR, VehiclePropertyChangeMode.ON_CHANGE);
   (VehicleProperty.HEADLIGHTS_STATE, VehiclePropertyChangeMode.ON_CHANGE);
   (VehicleProperty.HIGH_BEAM_LIGHTS_STATE, VehiclePropertyChangeMode.ON_CHANGE);
   (VehicleProperty.FOG_LIGHTS_STATE, VehiclePropertyChangeMode.ON_CHANGE);
   (VehicleProperty.HAZARD_LIGHTS_STATE, VehiclePropertyChangeMode.ON_CHANGE);
   (VehicleProperty.HEADLIGHTS_SWITCH, VehiclePropertyChangeMode.ON_CHANGE);
   (VehicleProperty.HIGH_BEAM_LIGHTS_SWITCH, VehiclePropertyChangeMode.ON_CHANGE);
   (VehicleProperty.FOG_LIGHTS_SWITCH, VehiclePropertyChangeMode.ON_CHANGE);
   (VehicleProperty.HAZARD_LIGHTS_SWITCH, VehiclePropertyChangeMode.ON_CHANGE);
   (VehicleProperty.CABIN_LIGHTS_STATE, VehiclePropertyChangeMode.ON_CHANGE);
   (VehicleProperty.CABIN_LIGHTS_SWITCH, VehiclePropertyChangeMode.ON_CHANGE);
   (VehicleProperty.READING_LIGHTS_STATE, VehiclePropertyChangeMode.ON_CHANGE);
   (VehicleProperty.READING_LIGHTS_SWITCH, VehiclePropertyChangeMode.ON_CHANGE);
   (VehicleProperty.STEERING_WHEEL_LIGHTS_STATE, VehiclePropertyChangeMode.ON_CHANGE);
   (VehicleProperty.STEERING_WHEEL_LIGHTS_SWITCH, VehiclePropertyChangeMode.ON_CHANGE);
   (VehicleProperty.SUPPORT_CUSTOMIZE_VENDOR_PERMISSION, VehiclePropertyChangeMode.STATIC);
   (VehicleProperty.DISABLED_OPTIONAL_FEATURES, VehiclePropertyChangeMode.STATIC);
   (VehicleProperty.INITIAL_USER_INFO, VehiclePropertyChangeMode.ON_CHANGE);
   (VehicleProperty.SWITCH_USER, VehiclePropertyChangeMode.ON_CHANGE);
   (VehicleProperty.CREATE_USER, VehiclePropertyChangeMode.ON_CHANGE);
   (VehicleProperty.REMOVE_USER, VehiclePropertyChangeMode.ON_CHANGE);
   (VehicleProperty.USER_IDENTIFICATION_ASSOCIATION, VehiclePropertyChangeMode.ON_CHANGE);
   (VehicleProperty.EVS_SERVICE_REQUEST, VehiclePropertyChangeMode.ON_CHANGE);
   (VehicleProperty.POWER_POLICY_REQ, VehiclePropertyChangeMode.ON_CHANGE);
   (VehicleProperty.POWER_POLICY_GROUP_REQ, VehiclePropertyChangeMode.ON_CHANGE);
   (VehicleProperty.CURRENT_POWER_POLICY, VehiclePropertyChangeMode.ON_CHANGE);
   (VehicleProperty.WATCHDOG_ALIVE, VehiclePropertyChangeMode.ON_CHANGE);
   (VehicleProperty.WATCHDOG_TERMINATED_PROCESS, VehiclePropertyChangeMode.ON_CHANGE);
   (VehicleProperty.VHAL_HEARTBEAT, VehiclePropertyChangeMode.ON_CHANGE);
   (VehicleProperty.CLUSTER_SWITCH_UI, VehiclePropertyChangeMode.ON_CHANGE);
   (VehicleProperty.CLUSTER_DISPLAY_STATE, VehiclePropertyChangeMode.ON_CHANGE);
   (VehicleProperty.CLUSTER_REPORT_STATE, VehiclePropertyChangeMode.ON_CHANGE);
   (VehicleProperty.CLUSTER_REQUEST_DISPLAY, VehiclePropertyChangeMode.ON_CHANGE);
   (VehicleProperty.CLUSTER_NAVIGATION_STATE, VehiclePropertyChangeMode.ON_CHANGE);
   (VehicleProperty.ELECTRONIC_TOLL_COLLECTION_CARD_TYPE, VehiclePropertyChangeMode.ON_CHANGE);
   (VehicleProperty.ELECTRONIC_TOLL_COLLECTION_CARD_STATUS, VehiclePropertyChangeMode.ON_CHANGE);
   (VehicleProperty.FRONT_FOG_LIGHTS_STATE, VehiclePropertyChangeMode.ON_CHANGE);
   (VehicleProperty.FRONT_FOG_LIGHTS_SWITCH, VehiclePropertyChangeMode.ON_CHANGE);
   (VehicleProperty.REAR_FOG_LIGHTS_STATE, VehiclePropertyChangeMode.ON_CHANGE);
   (VehicleProperty.REAR_FOG_LIGHTS_SWITCH, VehiclePropertyChangeMode.ON_CHANGE);
   (VehicleProperty.EV_CHARGE_CURRENT_DRAW_LIMIT, VehiclePropertyChangeMode.ON_CHANGE);
   (VehicleProperty.EV_CHARGE_PERCENT_LIMIT, VehiclePropertyChangeMode.ON_CHANGE);
   (VehicleProperty.EV_CHARGE_STATE, VehiclePropertyChangeMode.ON_CHANGE);
   (VehicleProperty.EV_CHARGE_SWITCH, VehiclePropertyChangeMode.ON_CHANGE);
   (VehicleProperty.EV_CHARGE_TIME_REMAINING, VehiclePropertyChangeMode.CONTINUOUS);
   (VehicleProperty.EV_REGENERATIVE_BRAKING_STATE, VehiclePropertyChangeMode.ON_CHANGE);
   (VehicleProperty.TRAILER_PRESENT, VehiclePropertyChangeMode.ON_CHANGE);
   (VehicleProperty.VEHICLE_CURB_WEIGHT, VehiclePropertyChangeMode.STATIC);
   (VehicleProperty.GENERAL_SAFETY_REGULATION_COMPLIANCE_REQUIREMENT, VehiclePropertyChangeMode.STATIC);
   (VehicleProperty.SUPPORTED_PROPERTY_IDS, VehiclePropertyChangeMode.STATIC);
   (VehicleProperty.SHUTDOWN_REQUEST, VehiclePropertyChangeMode.ON_CHANGE);
   (VehicleProperty.VEHICLE_IN_USE, VehiclePropertyChangeMode.ON_CHANGE);
   (VehicleProperty.CLUSTER_HEARTBEAT, VehiclePropertyChangeMode.ON_CHANGE);
   (VehicleProperty.VEHICLE_DRIVING_AUTOMATION_CURRENT_LEVEL, VehiclePropertyChangeMode.ON_CHANGE);
   (VehicleProperty.VEHICLE_DRIVING_AUTOMATION_TARGET_LEVEL, VehiclePropertyChangeMode.ON_CHANGE);
   (VehicleProperty.CAMERA_SERVICE_CURRENT_STATE, VehiclePropertyChangeMode.ON_CHANGE);
   (VehicleProperty.PER_DISPLAY_MAX_BRIGHTNESS, VehiclePropertyChangeMode.STATIC);
   (VehicleProperty.AUTOMATIC_EMERGENCY_BRAKING_ENABLED, VehiclePropertyChangeMode.ON_CHANGE);
   (VehicleProperty.AUTOMATIC_EMERGENCY_BRAKING_STATE, VehiclePropertyChangeMode.ON_CHANGE);
   (VehicleProperty.FORWARD_COLLISION_WARNING_ENABLED, VehiclePropertyChangeMode.ON_CHANGE);
   (VehicleProperty.FORWARD_COLLISION_WARNING_STATE, VehiclePropertyChangeMode.ON_CHANGE);
   (VehicleProperty.BLIND_SPOT_WARNING_ENABLED, VehiclePropertyChangeMode.ON_CHANGE);
   (VehicleProperty.BLIND_SPOT_WARNING_STATE, VehiclePropertyChangeMode.ON_CHANGE);
   (VehicleProperty.LANE_DEPARTURE_WARNING_ENABLED, VehiclePropertyChangeMode.ON_CHANGE);
   (VehicleProperty.LANE_DEPARTURE_WARNING_STATE, VehiclePropertyChangeMode.ON_CHANGE);
   (VehicleProperty.LANE_KEEP_ASSIST_ENABLED, VehiclePropertyChangeMode.ON_CHANGE);
   (VehicleProperty.LANE_KEEP_ASSIST_STATE, VehiclePropertyChangeMode.ON_CHANGE);
   (VehicleProperty.LANE_CENTERING_ASSIST_ENABLED, VehiclePropertyChangeMode.ON_CHANGE);
   (VehicleProperty.LANE_CENTERING_ASSIST_COMMAND, VehiclePropertyChangeMode.ON_CHANGE);
   (VehicleProperty.LANE_CENTERING_ASSIST_STATE, VehiclePropertyChangeMode.ON_CHANGE);
   (VehicleProperty.EMERGENCY_LANE_KEEP_ASSIST_ENABLED, VehiclePropertyChangeMode.ON_CHANGE);
   (VehicleProperty.EMERGENCY_LANE_KEEP_ASSIST_STATE, VehiclePropertyChangeMode.ON_CHANGE);
   (VehicleProperty.CRUISE_CONTROL_ENABLED, VehiclePropertyChangeMode.ON_CHANGE);
   (VehicleProperty.CRUISE_CONTROL_TYPE, VehiclePropertyChangeMode.ON_CHANGE);
   (VehicleProperty.CRUISE_CONTROL_STATE, VehiclePropertyChangeMode.ON_CHANGE);
   (VehicleProperty.CRUISE_CONTROL_COMMAND, VehiclePropertyChangeMode.ON_CHANGE);
   (VehicleProperty.CRUISE_CONTROL_TARGET_SPEED, VehiclePropertyChangeMode.ON_CHANGE);
   (VehicleProperty.ADAPTIVE_CRUISE_CONTROL_TARGET_TIME_GAP, VehiclePropertyChangeMode.ON_CHANGE);
   (VehicleProperty.ADAPTIVE_CRUISE_CONTROL_LEAD_VEHICLE_MEASURED_DISTANCE, VehiclePropertyChangeMode.CONTINUOUS);
   (VehicleProperty.HANDS_ON_DETECTION_ENABLED, VehiclePropertyChangeMode.ON_CHANGE);
   (VehicleProperty.HANDS_ON_DETECTION_DRIVER_STATE, VehiclePropertyChangeMode.ON_CHANGE);
   (VehicleProperty.HANDS_ON_DETECTION_WARNING, VehiclePropertyChangeMode.ON_CHANGE);
   (VehicleProperty.DRIVER_DROWSINESS_ATTENTION_SYSTEM_ENABLED, VehiclePropertyChangeMode.ON_CHANGE);
   (VehicleProperty.DRIVER_DROWSINESS_ATTENTION_STATE, VehiclePropertyChangeMode.ON_CHANGE);
   (VehicleProperty.DRIVER_DROWSINESS_ATTENTION_WARNING_ENABLED, VehiclePropertyChangeMode.ON_CHANGE);
   (VehicleProperty.DRIVER_DROWSINESS_ATTENTION_WARNING, VehiclePropertyChangeMode.ON_CHANGE);
   (VehicleProperty.DRIVER_DISTRACTION_SYSTEM_ENABLED, VehiclePropertyChangeMode.ON_CHANGE);
   (VehicleProperty.DRIVER_DISTRACTION_STATE, VehiclePropertyChangeMode.ON_CHANGE);
   (VehicleProperty.DRIVER_DISTRACTION_WARNING_ENABLED, VehiclePropertyChangeMode.ON_CHANGE);
   (VehicleProperty.DRIVER_DISTRACTION_WARNING, VehiclePropertyChangeMode.ON_CHANGE);
   (VehicleProperty.LOW_SPEED_COLLISION_WARNING_ENABLED, VehiclePropertyChangeMode.ON_CHANGE);
   (VehicleProperty.LOW_SPEED_COLLISION_WARNING_STATE, VehiclePropertyChangeMode.ON_CHANGE);
   (VehicleProperty.CROSS_TRAFFIC_MONITORING_ENABLED, VehiclePropertyChangeMode.ON_CHANGE);
   (VehicleProperty.CROSS_TRAFFIC_MONITORING_WARNING_STATE, VehiclePropertyChangeMode.ON_CHANGE);
   (VehicleProperty.LOW_SPEED_AUTOMATIC_EMERGENCY_BRAKING_ENABLED, VehiclePropertyChangeMode.ON_CHANGE);
   (VehicleProperty.LOW_SPEED_AUTOMATIC_EMERGENCY_BRAKING_STATE, VehiclePropertyChangeMode.ON_CHANGE)].

Definition ChangeModeForVehicleProperty : list (Z * Z) := ChangeModeForVehicleProperty_1 ++ ChangeModeForVehicleProperty_2.

Definition VersionForVehicleProperty_1 : list (Z * Z) :=
  [(VehicleProperty.INFO_VIN, 1);
   (VehicleProperty.INFO_MAKE, 1);
   (VehicleProperty.INFO_MODEL, 1);
   (VehicleProperty.INFO_MODEL_YEAR, 1);
   (VehicleProperty.INFO_FUEL_CAPACITY, 1);
   (VehicleProperty.INFO_FUEL_TYPE, 1);
   (VehicleProperty.INFO_EV_BATTERY_CAPACITY, 1);
   (VehicleProperty.INFO_EV_CONNECTOR_TYPE, 1);
   (VehicleProperty.INFO_FUEL_DOOR_LOCATION, 1);
   (VehicleProperty.INFO_EV_PORT_LOCATION, 1);
   (VehicleProperty.INFO_DRIVER_SEAT, 1);
   (VehicleProperty.INFO_EXTERIOR_DIMENSIONS, 1);
   (VehicleProperty.INFO_MULTI_EV_PORT_LOCATIONS, 1);
   (VehicleProperty.INFO_MODEL_TRIM, 4);
   (VehicleProperty.INFO_VEHICLE_SIZE_CLASS, 4);
   (VehicleProperty.PERF_ODOMETER, 1);
   (VehicleProperty.PERF_VEHICLE_SPEED, 1);
   (VehicleProperty.PERF_VEHICLE_SPEED_DISPLAY, 1);
   (VehicleProperty.PERF_STEERING_ANGLE, 1);
   (VehicleProperty.PERF_REAR_STEERING_ANGLE, 1);
   (VehicleProperty.INSTANTANEOUS_FUEL_ECONOMY, 4);
   (VehicleProperty.INSTANTANEOUS_EV_EFFICIENCY, 4);
   (VehicleProperty.ENGINE_COOLANT_TEMP, 1);
   (VehicleProperty.ENGINE_OIL_LEVEL, 1);
   (VehicleProperty.ENGINE_OIL_TEMP, 1);
   (VehicleProperty.ENGINE_RPM, 1);
   (VehicleProperty.WHEEL_TICK, 1);
   (VehicleProperty.FUEL_LEVEL, 1);
   (VehicleProperty.FUEL_DOOR_OPEN, 1);
   (VehicleProperty.EV_BATTERY_LEVEL, 1);
   (VehicleProperty.EV_CURRENT_BATTERY_CAPACITY, 2);
   (VehicleProperty.EV_CHARGE_PORT_OPEN, 1);
   (VehicleProperty.EV_CHARGE_PORT_CONNECTED, 1);
   (VehicleProperty.EV_BATTERY_INSTANTANEOUS_CHARGE_RATE, 1);
   (VehicleProperty.RANGE_REMAINING, 1);
   (VehicleProperty.EV_BATTERY_AVERAGE_TEMPERATURE, 3);
   (VehicleProperty.TIRE_PRESSURE, 1);
   (VehicleProperty.CRITICALLY_LOW_TIRE_PRESSURE, 1);
   (VehicleProperty.ACCELERATOR_PEDAL_COMPRESSION_PERCENTAGE, 4);
   (VehicleProperty.BRAKE_PEDAL_COMPRESSION_PERCENTAGE, 4);
   (VehicleProperty.BRAKE_PAD_WEAR_PERCENTAGE, 4);
   (VehicleProperty.BRAKE_FLUID_LEVEL_LOW, 4);
   (VehicleProperty.VEHICLE_PASSIVE_SUSPENSION_HEIGHT, 4);
   (VehicleProperty.ENGINE_IDLE_AUTO_STOP_ENABLED, 2);
   (VehicleProperty.IMPACT_DETECTED, 3);
   (VehicleProperty.VEHICLE_HORN_ENGAGED, 4);
   (VehicleProperty.GEAR_SELECTION, 1);
   (VehicleProperty.CURRENT_GEAR, 1);
   (VehicleProperty.PARKING_BRAKE_ON, 1);
   (VehicleProperty.PARKING_BRAKE_AUTO_APPLY, 1);
   (VehicleProperty.EV_BRAKE_REGENERATION_LEVEL, 2);
   (VehicleProperty.FUEL_LEVEL_LOW, 1);
   (VehicleProperty.NIGHT_MODE, 1);
   (VehicleProperty.TURN_SIGNAL_STATE, 1);
   (VehicleProperty.IGNITION_STATE, 1);
   (VehicleProperty.ABS_ACTIVE, 1);
   (VehicleProperty.TRACTION_CONTROL_ACTIVE, 1);
   (VehicleProperty.EV_STOPPING_MODE, 2);
   (VehicleProperty.ELECTRONIC_STABILITY_CONTROL_ENABLED, 3);
   (VehicleProperty.ELECTRONIC_STABILITY_CONTROL_STATE, 3);
   (VehicleProperty.TURN_SIGNAL_LIGHT_STATE, 4);
   (VehicleProperty.TURN_SIGNAL_SWITCH, 4);
   (VehicleProperty.HVAC_FAN_SPEED, 1);
   (VehicleProperty.HVAC_FAN_DIRECTION, 1);
   (VehicleProperty.HVAC_TEMPERATURE_CURRENT, 1);
   (VehicleProperty.HVAC_TEMPERATURE_SET, 1);
   (VehicleProperty.HVAC_DEFROSTER, 1);
   (VehicleProperty.HVAC_AC_ON, 1);
   (VehicleProperty.HVAC_MAX_AC_ON, 1);
   (VehicleProperty.HVAC_MAX_DEFROST_ON, 1);
   (VehicleProperty.HVAC_RECIRC_ON, 1);
   (VehicleProperty.HVAC_DUAL_ON, 1);
   (VehicleProperty.HVAC_AUTO_ON, 1);
   (VehicleProperty.HVAC_SEAT_TEMPERATURE, 1);
   (VehicleProperty.HVAC_SIDE_MIRROR_HEAT, 1);
   (VehicleProperty.HVAC_STEERING_WHEEL_HEAT, 1);
   (VehicleProperty.HVAC_TEMPERATURE_DISPLAY_UNITS, 1);
   (VehicleProperty.HVAC_ACTUAL_FAN_SPEED_RPM, 1);
   (VehicleProperty.HVAC_POWER_ON, 1);
   (VehicleProperty.HVAC_FAN_DIRECTION_AVAILABLE, 1);
   (VehicleProperty.HVAC_AUTO_RECIRC_ON, 1);
   (VehicleProperty.HVAC_SEAT_VENTILATION, 1);
   (VehicleProperty.HVAC_ELECTRIC_DEFROSTER_ON, 1);
   (VehicleProperty.HVAC_TEMPERATURE_VALUE_SUGGESTION, 1);
   (VehicleProperty.DISTANCE_DISPLAY_UNITS, 1);
   (VehicleProperty.FUEL_VOLUME_DISPLAY_UNITS, 1);
   (VehicleProperty.TIRE_PRESSURE_DISPLAY_UNITS, 1);
   (VehicleProperty.EV_BATTERY_DISPLAY_UNITS, 1);
   (VehicleProperty.FUEL_CONSUMPTION_UNITS_DISTANCE_OVER_VOLUME, 1);
   (VehicleProperty.VEHICLE_SPEED_DISPLAY_UNITS, 1);
   (VehicleProperty.EXTERNAL_CAR_TIME, 1);
   (VehicleProperty.ANDROID_EPOCH_TIME, 1);
   (VehicleProperty.STORAGE_ENCRYPTION_BINDING_SEED, 1);
   (VehicleProperty.ENV_OUTSIDE_TEMPERATURE, 1);
   (VehicleProperty.AP_POWER_STATE_REQ, 1);
   (VehicleProperty.AP_POWER_STATE_REPORT, 1);
   (VehicleProperty.AP_POWER_BOOTUP_REASON, 1);
   (VehicleProperty.DISPLAY_BRIGHTNESS, 1);
   (VehicleProperty.PER_DISPLAY_BRIGHTNESS, 2);
   (VehicleProperty.VALET_MODE_ENABLED, 3);
   (VehicleProperty.HEAD_UP_DISPLAY_ENABLED, 3);
   (VehicleProperty.HW_KEY_INPUT, 1);
   (VehicleProperty.HW_KEY_INPUT_V2, 2);
   (VehicleProperty.HW_MOTION_INPUT, 2);
   (VehicleProperty.HW_ROTARY_INPUT, 1);
   (VehicleProperty.HW_CUSTOM_INPUT, 1);
   (VehicleProperty.DOOR_POS, 1);
   (VehicleProperty.DOOR_MOVE, 1);
   (VehicleProperty.DOOR_LOCK, 1);
   (VehicleProperty.DOOR_CHILD_LOCK_ENABLED, 2);
   (VehicleProperty.MIRROR_Z_POS, 1);
   (VehicleProperty.MIRROR_Z_MOVE, 1);
   (VehicleProperty.MIRROR_Y_POS, 1);
   (VehicleProperty.MIRROR_Y_MOVE, 1);
   (VehicleProperty.MIRROR_LOCK, 1);
   (VehicleProperty.MIRROR_FOLD, 1);
   (VehicleProperty.MIRROR_AUTO_FOLD_ENABLED, 2);
   (VehicleProperty.MIRROR_AUTO_TILT_ENABLED, 2);
   (VehicleProperty.SEAT_MEMORY_SELECT, 1);
   (VehicleProperty.SEAT_MEMORY_SET, 1);
   (VehicleProperty.SEAT_BELT_BUCKLED, 1);
   (VehicleProperty.SEAT_BELT_HEIGHT_POS, 1);
   (VehicleProperty.SEAT_BELT_HEIGHT_MOVE, 1);
   (VehicleProperty.SEAT_FORE_AFT_POS, 1);
   (VehicleProperty.SEAT_FORE_AFT_MOVE, 1);
   (VehicleProperty.SEAT_BACKREST_ANGLE_1_POS, 1);
   (VehicleProperty.SEAT_BACKREST_ANGLE_1_MOVE, 1);
   (VehicleProperty.SEAT_BACKREST_ANGLE_2_POS, 1);
   (VehicleProperty.SEAT_BACKREST_ANGLE_2_MOVE, 1);
   (VehicleProperty.SEAT_HEIGHT_POS, 1);
   (VehicleProperty.SEAT_HEIGHT_MOVE, 1);
   (VehicleProperty.SEAT_DEPTH_POS, 1);
   (VehicleProperty.SEAT_DEPTH_MOVE, 1);
   (VehicleProperty.SEAT_TILT_POS, 1);
   (VehicleProperty.SEAT_TILT_MOVE, 1);
   (VehicleProperty.SEAT_LUMBAR_FORE_AFT_POS, 1);
   (VehicleProperty.SEAT_LUMBAR_FORE_AFT_MOVE, 1);
   (VehicleProperty.SEAT_LUMBAR_SIDE_SUPPORT_POS, 1);
   (VehicleProperty.SEAT_LUMBAR_SIDE_SUPPORT_MOVE, 1);
   (VehicleProperty.SEAT_HEADREST_HEIGHT_POS, 1)].

Definition VersionForVehicleProperty_2 : list (Z * Z) :=
  [(VehicleProperty.SEAT_HEADREST_HEIGHT_POS_V2, 2);
   (VehicleProperty.SEAT_HEADREST_HEIGHT_MOVE, 1);
   (VehicleProperty.SEAT_HEADREST_ANGLE_POS, 1);
   (VehicleProperty.SEAT_HEADREST_ANGLE_MOVE, 1);
   (VehicleProperty.SEAT_HEADREST_FORE_AFT_POS, 1);
   (VehicleProperty.SEAT_HEADREST_FORE_AFT_MOVE, 1);
   (VehicleProperty.SEAT_FOOTWELL_LIGHTS_STATE, 2);
   (VehicleProperty.SEAT_FOOTWELL_LIGHTS_SWITCH, 2);
   (VehicleProperty.SEAT_EASY_ACCESS_ENABLED, 2);
   (VehicleProperty.SEAT_AIRBAG_ENABLED, 2);
   (VehicleProperty.SEAT_AIRBAGS_DEPLOYED, 3);
   (VehicleProperty.SEAT_CUSHION_SIDE_SUPPORT_POS, 2);
   (VehicleProperty.SEAT_CUSHION_SIDE_SUPPORT_MOVE, 2);
   (VehicleProperty.SEAT_LUMBAR_VERTICAL_POS, 2);
   (VehicleProperty.SEAT_LUMBAR_VERTICAL_MOVE, 2);
   (VehicleProperty.SEAT_WALK_IN_POS, 2);
   (VehicleProperty.SEAT_BELT_PRETENSIONER_DEPLOYED, 3);
   (VehicleProperty.SEAT_OCCUPANCY, 1);
   (VehicleProperty.WINDOW_POS, 1);
   (VehicleProperty.WINDOW_MOVE, 1);
   (VehicleProperty.WINDOW_LOCK, 1);
   (VehicleProperty.WINDSHIELD_WIPERS_PERIOD, 2);
   (VehicleProperty.WINDSHIELD_WIPERS_STATE, 2);
   (VehicleProperty.WINDSHIELD_WIPERS_SWITCH, 2);
   (VehicleProperty.STEERING_WHEEL_DEPTH_POS, 2);
   (VehicleProperty.STEERING_WHEEL_DEPTH_MOVE, 2);
   (VehicleProperty.STEERING_WHEEL_HEIGHT_POS, 2);
   (VehicleProperty.STEERING_WHEEL_HEIGHT_MOVE, 2);
   (VehicleProperty.STEERING_WHEEL_THEFT_LOCK_ENABLED, 2);
   (VehicleProperty.STEERING_WHEEL_LOCKED, 2);
   (VehicleProperty.STEERING_WHEEL_EASY_ACCESS_ENABLED, 2);
   (VehicleProperty.GLOVE_BOX_DOOR_POS, 2);
   (VehicleProperty.GLOVE_BOX_LOCKED, 2);
   (VehicleProperty.VEHICLE_MAP_SERVICE, 1);
   (VehicleProperty.LOCATION_CHARACTERIZATION, 2);
   (VehicleProperty.ULTRASONICS_SENSOR_POSITION, 3);
   (VehicleProperty.ULTRASONICS_SENSOR_ORIENTATION, 3);
   (VehicleProperty.ULTRASONICS_SENSOR_FIELD_OF_VIEW, 3);
   (VehicleProperty.ULTRASONICS_SENSOR_DETECTION_RANGE, 3);
   (VehicleProperty.ULTRASONICS_SENSOR_SUPPORTED_RANGES, 3);
   (VehicleProperty.ULTRASONICS_SENSOR_MEASURED_DISTANCE, 3);
   (VehicleProperty.OBD2_LIVE_FRAME, 1);
   (VehicleProperty.OBD2_FREEZE_FRAME, 1);
   (VehicleProperty.OBD2_FREEZE_FRAME_INFO, 1);
   (VehicleProperty.OBD2_FREEZE_FRAME_CLEAR, 1);
   (VehicleProperty.HEADLIGHTS_STATE, 1);
   (VehicleProperty.HIGH_BEAM_LIGHTS_STATE, 1);
   (VehicleProperty.FOG_LIGHTS_STATE, 1);
   (VehicleProperty.HAZARD_LIGHTS_STATE, 1);
   (VehicleProperty.HEADLIGHTS_SWITCH, 1);
   (VehicleProperty.HIGH_BEAM_LIGHTS_SWITCH, 1);
   (VehicleProperty.FOG_LIGHTS_SWITCH, 1);
   (VehicleProperty.HAZARD_LIGHTS_SWITCH, 1);
   (VehicleProperty.CABIN_LIGHTS_STATE, 1);
   (VehicleProperty.CABIN_LIGHTS_SWITCH, 1);
   (VehicleProperty.READING_LIGHTS_STATE, 1);
   (VehicleProperty.READING_LIGHTS_SWITCH, 1);
   (VehicleProperty.STEERING_WHEEL_LIGHTS_STATE, 2);
   (VehicleProperty.STEERING_WHEEL_LIGHTS_SWITCH, 2);
   (VehicleProperty.SUPPORT_CUSTOMIZE_VENDOR_PERMISSION, 1);
   (VehicleProperty.DISABLED_OPTIONAL_FEATURES, 1);
   (VehicleProperty.INITIAL_USER_INFO, 1);
   (VehicleProperty.SWITCH_USER, 1);
   (VehicleProperty.CREATE_USER, 1);
   (VehicleProperty.REMOVE_USER, 1);
   (VehicleProperty.USER_IDENTIFICATION_ASSOCIATION, 1);
   (VehicleProperty.EVS_SERVICE_REQUEST, 1);
   (VehicleProperty.POWER_POLICY_REQ, 1);
   (VehicleProperty.POWER_POLICY_GROUP_REQ, 1);
   (VehicleProperty.CURRENT_POWER_POLICY, 1);
   (VehicleProperty.WATCHDOG_ALIVE, 1);
   (VehicleProperty.WATCHDOG_TERMINATED_PROCESS, 1);
   (VehicleProperty.VHAL_HEARTBEAT, 1);
   (VehicleProperty.CLUSTER_SWITCH_UI, 1);
   (VehicleProperty.CLUSTER_DISPLAY_STATE, 1);
   (VehicleProperty.CLUSTER_REPORT_STATE, 1);
   (VehicleProperty.CLUSTER_REQUEST_DISPLAY, 1);
   (VehicleProperty.CLUSTER_NAVIGATION_STATE, 1);
   (VehicleProperty.ELECTRONIC_TOLL_COLLECTION_CARD_TYPE, 1);
   (VehicleProperty.ELECTRONIC_TOLL_COLLECTION_CARD_STATUS, 1);
   (VehicleProperty.FRONT_FOG_LIGHTS_STATE, 1);
   (VehicleProperty.FRONT_FOG_LIGHTS_SWITCH, 1);
   (VehicleProperty.REAR_FOG_LIGHTS_STATE, 1);
   (VehicleProperty.REAR_FOG_LIGHTS_SWITCH, 1);
   (VehicleProperty.EV_CHARGE_CURRENT_DRAW_LIMIT, 1);
   (VehicleProperty.EV_CHARGE_PERCENT_LIMIT, 1);
   (VehicleProperty.EV_CHARGE_STATE, 1);
   (VehicleProperty.EV_CHARGE_SWITCH, 1);
   (VehicleProperty.EV_CHARGE_TIME_REMAINING, 1);
   (VehicleProperty.EV_REGENERATIVE_BRAKING_STATE, 1);
   (VehicleProperty.TRAILER_PRESENT, 1);
   (VehicleProperty.VEHICLE_CURB_WEIGHT, 1);
   (VehicleProperty.GENERAL_SAFETY_REGULATION_COMPLIANCE_REQUIREMENT, 2);
   (VehicleProperty.SUPPORTED_PROPERTY_IDS, 2);
   (VehicleProperty.SHUTDOWN_REQUEST, 2);
   (VehicleProperty.VEHICLE_IN_USE, 2);
   (VehicleProperty.CLUSTER_HEARTBEAT, 3);
   (VehicleProperty.VEHICLE_DRIVING_AUTOMATION_CURRENT_LEVEL, 3);
   (VehicleProperty.VEHICLE_DRIVING_AUTOMATION_TARGET_LEVEL, 4);
   (VehicleProperty.CAMERA_SERVICE_CURRENT_STATE, 3);
   (VehicleProperty.PER_DISPLAY_MAX_BRIGHTNESS, 3);
   (VehicleProperty.AUTOMATIC_EMERGENCY_BRAKING_ENABLED, 2);
   (VehicleProperty.AUTOMATIC_EMERGENCY_BRAKING_STATE, 2);
   (VehicleProperty.FORWARD_COLLISION_WARNING_ENABLED, 2);
   (VehicleProperty.FORWARD_COLLISION_WARNING_STATE, 2);
   (VehicleProperty.BLIND_SPOT_WARNING_ENABLED, 2);
   (VehicleProperty.BLIND_SPOT_WARNING_STATE, 2);
   (VehicleProperty.LANE_DEPARTURE_WARNING_ENABLED, 2);
   (VehicleProperty.LANE_DEPARTURE_WARNING_STATE, 2);
   (VehicleProperty.LANE_KEEP_ASSIST_ENABLED, 2);
   (VehicleProperty.LANE_KEEP_ASSIST_STATE, 2);
   (VehicleProperty.LANE_CENTERING_ASSIST_ENABLED, 2);
   (VehicleProperty.LANE_CENTERING_ASSIST_COMMAND, 2);
   (VehicleProperty.LANE_CENTERING_ASSIST_STATE, 2);
   (VehicleProperty.EMERGENCY_LANE_KEEP_ASSIST_ENABLED, 2);
   (VehicleProperty.EMERGENCY_LANE_KEEP_ASSIST_STATE, 2);
   (VehicleProperty.CRUISE_CONTROL_ENABLED, 2);
   (VehicleProperty.CRUISE_CONTROL_TYPE, 2);
   (VehicleProperty.CRUISE_CONTROL_STATE, 2);
   (VehicleProperty.CRUISE_CONTROL_COMMAND, 2);
   (VehicleProperty.CRUISE_CONTROL_TARGET_SPEED, 2);
   (VehicleProperty.ADAPTIVE_CRUISE_CONTROL_TARGET_TIME_GAP, 2);
   (VehicleProperty.ADAPTIVE_CRUISE_CONTROL_LEAD_VEHICLE_MEASURED_DISTANCE, 2);
   (VehicleProperty.HANDS_ON_DETECTION_ENABLED, 2);
   (VehicleProperty.HANDS_ON_DETECTION_DRIVER_STATE, 2);
   (VehicleProperty.HANDS_ON_DETECTION_WARNING, 2);
   (VehicleProperty.DRIVER_DROWSINESS_ATTENTION_SYSTEM_ENABLED, 3);
   (VehicleProperty.DRIVER_DROWSINESS_ATTENTION_STATE, 3);
   (VehicleProperty.DRIVER_DROWSINESS_ATTENTION_WARNING_ENABLED, 3);
   (VehicleProperty.DRIVER_DROWSINESS_ATTENTION_WARNING, 3);
   (VehicleProperty.DRIVER_DISTRACTION_SYSTEM_ENABLED, 3);
   (VehicleProperty.DRIVER_DISTRACTION_STATE, 3);
   (VehicleProperty.DRIVER_DISTRACTION_WARNING_ENABLED, 3);
   (VehicleProperty.DRIVER_DISTRACTION_WARNING, 3);
   (VehicleProperty.LOW_SPEED_COLLISION_WARNING_ENABLED, 3);
   (VehicleProperty.LOW_SPEED_COLLISION_WARNING_STATE, 3);
   (VehicleProperty.CROSS_TRAFFIC_MONITORING_ENABLED, 3);
   (VehicleProperty.CROSS_TRAFFIC_MONITORING_WARNING_STATE, 3);
   (VehicleProperty.LOW_SPEED_AUTOMATIC_EMERGENCY_BRAKING_ENABLED, 3);
   (VehicleProperty.LOW_SPEED_AUTOMATIC_EMERGENCY_BRAKING_STATE, 3)].

Definition VersionForVehicleProperty : list (Z * Z) := VersionForVehicleProperty_1 ++ VersionForVehicleProperty_2.

(** ** The tables agree *)

(** One row of the tables: a default access that is allowed and subsumes every
    allowed access, a change mode and a version of the interface. *)
Definition row_ok (p : Z) : bool :=
  match table_find p DefaultAccessForVehicleProperty, table_find p AllowedAccessForVehicleProperty,
        table_find p ChangeModeForVehicleProperty, table_find p VersionForVehicleProperty with
  | Some d, Some allowed, Some mode, Some version =>
      existsb (Z.eqb d) allowed && forallb (λ a, Z.lor a d =? d) allowed
      && (VehiclePropertyAccess.READ <=? d) && (d <=? VehiclePropertyAccess.READ_WRITE)
      && (VehiclePropertyChangeMode.STATIC <=? mode) && (mode <=? VehiclePropertyChangeMode.CONTINUOUS)
      && (1 <=? version) && (version <=? 4)
  | _, _, _, _ => false
  end.

Definition table_keys : list Z := fst <$> DefaultAccessForVehicleProperty.

Lemma tables_checked :
  forallb row_ok table_keys && bool_decide (NoDup table_keys)
  && bool_decide ((fst <$> AllowedAccessForVehicleProperty) = table_keys)
  && bool_decide ((fst <$> ChangeModeForVehicleProperty) = table_keys)
  && bool_decide ((fst <$> VersionForVehicleProperty) = table_keys)
  && bool_decide (VehicleProperty.enum_range = VehicleProperty.INVALID :: table_keys) = true.
Proof. vm_compute. reflexivity. Qed.

(** The generated tables cover the same properties, namely every system
    property; each has a default access that is allowed and includes every
    other allowed access, a change mode, and a version this interface knows. *)
Theorem property_tables_consistent p :
  p ∈ VehicleProperty.enum_range → p ≠ VehicleProperty.INVALID →
  ∃ d allowed mode version,
    table_find p DefaultAccessForVehicleProperty = Some d ∧
    table_find p AllowedAccessForVehicleProperty = Some allowed ∧
    table_find p ChangeModeForVehicleProperty = Some mode ∧
    table_find p VersionForVehicleProperty = Some version ∧
    d ∈ allowed ∧ (∀ a, a ∈ allowed → Z.lor a d = d) ∧
    VehiclePropertyAccess.READ ≤ d ≤ VehiclePropertyAccess.READ_WRITE ∧
    VehiclePropertyChangeMode.STATIC ≤ mode ≤ VehiclePropertyChangeMode.CONTINUOUS ∧ 1 ≤ version ≤ 4.
Proof.
  intros Hin Hp. pose proof tables_checked as H. rewrite !andb_true_iff in H.
  destruct H as [[[[[Hrows _] _] _] _] Henum]. apply bool_decide_eq_true in Henum. rewrite Henum in Hin.
  apply elem_of_cons in Hin as [|Hin]; [done|].
  rewrite forallb_forall in Hrows. specialize (Hrows p (proj1 (list_elem_of_In _ _) Hin)). unfold row_ok in Hrows.
  destruct (table_find p DefaultAccessForVehicleProperty) as [d|]; [|done].
  destruct (table_find p AllowedAccessForVehicleProperty) as [allowed|]; [|done].
  destruct (table_find p ChangeModeForVehicleProperty) as [mode|]; [|done].
  destruct (table_find p VersionForVehicleProperty) as [version|]; [|done].
  rewrite !andb_true_iff, existsb_exists, forallb_forall, !Z.leb_le in Hrows.
  destruct Hrows as (((((((Hd & Ha) & ?) & ?) & ?) & ?) & ?) & ?). exists d, allowed, mode, version.
  split_and!; try done.
  - destruct Hd as (x & Hx & ->%Z.eqb_eq). by apply list_elem_of_In.
  - intros a Hal%list_elem_of_In. apply Z.eqb_eq, Ha, Hal.
Qed.

Lemma property_tables_consistent_witness : ∃ mode,
  table_find VehicleProperty.HVAC_POWER_ON ChangeModeForVehicleProperty = Some mode ∧ 0 ≤ mode ≤ 2.
Proof.
  destruct (property_tables_consistent VehicleProperty.HVAC_POWER_ON) as (d & al & mode & v & _ & _ & Hm & _ & _ & _ & _ & Hr & _).
  { apply (bool_decide_unpack _). vm_compute. exact I. }
  { discriminate. }
  exists mode. split; [exact Hm|exact Hr].
Defined.
