(* ===== verification/PropertyAnnotations.v ===== *)
(** * The generated tables of annotations and enumerations

    [generated_lib/4/cpp]: the annotations of every system property, and the
    enumerations its values come from.  An enumeration is known by its name;
    its enumerators, which AIDL generates, are a parameter. *)

From stdpp Require Import base gmap sets list strings.
From Stdlib Require Import ZArith.
From S2P Require Import Prelude VehicleTypes VehicleProperty PropertyTables.

Local Open Scope Z_scope.

(** [AnnotationsForVehicleProperty] *)

Definition AnnotationsForVehicleProperty_1 : list (Z * list string) :=
  [(VehicleProperty.INFO_VIN, ["access"; "change_mode"; "version"]);
   (VehicleProperty.INFO_MAKE, ["access"; "change_mode"; "version"]);
   (VehicleProperty.INFO_MODEL, ["access"; "change_mode"; "version"]);
   (VehicleProperty.INFO_MODEL_YEAR, ["access"; "change_mode"; "unit"; "version"]);
   (VehicleProperty.INFO_FUEL_CAPACITY, ["access"; "change_mode"; "unit"; "version"]);
   (VehicleProperty.INFO_FUEL_TYPE, ["access"; "change_mode"; "data_enum"; "version"]);
   (VehicleProperty.INFO_EV_BATTERY_CAPACITY, ["access"; "change_mode"; "unit"; "version"]);
   (VehicleProperty.INFO_EV_CONNECTOR_TYPE, ["access"; "change_mode"; "data_enum"; "version"]);
   (VehicleProperty.INFO_FUEL_DOOR_LOCATION, ["access"; "change_mode"; "data_enum"; "version"]);
   (VehicleProperty.INFO_EV_PORT_LOCATION, ["access"; "change_mode"; "data_enum"; "version"]);
   (VehicleProperty.INFO_DRIVER_SEAT, ["access"; "change_mode"; "data_enum"; "version"]);
   (VehicleProperty.INFO_EXTERIOR_DIMENSIONS, ["access"; "change_mode"; "unit"; "version"]);
   (VehicleProperty.INFO_MULTI_EV_PORT_LOCATIONS, ["access"; "change_mode"; "data_enum"; "version"]);
   (VehicleProperty.INFO_MODEL_TRIM, ["access"; "change_mode"; "version"]);
   (VehicleProperty.INFO_VEHICLE_SIZE_CLASS, ["access"; "change_mode"; "data_enum"; "version"]);
   (VehicleProperty.PERF_ODOMETER, ["access"; "change_mode"; "unit"; "version"]);
   (VehicleProperty.PERF_VEHICLE_SPEED, ["access"; "change_mode"; "unit"; "version"]);
   (VehicleProperty.PERF_VEHICLE_SPEED_DISPLAY, ["access"; "change_mode"; "unit"; "version"]);
   (VehicleProperty.PERF_STEERING_ANGLE, ["access"; "change_mode"; "unit"; "version"]);
   (VehicleProperty.PERF_REAR_STEERING_ANGLE, ["access"; "change_mode"; "unit"; "version"]);
   (VehicleProperty.INSTANTANEOUS_FUEL_ECONOMY, ["access"; "change_mode"; "version"]);
   (VehicleProperty.INSTANTANEOUS_EV_EFFICIENCY, ["access"; "change_mode"; "version"]);
   (VehicleProperty.ENGINE_COOLANT_TEMP, ["access"; "change_mode"; "unit"; "version"]);
   (VehicleProperty.ENGINE_OIL_LEVEL, ["access"; "change_mode"; "data_enum"; "require_supported_values_list"; "version"]);
   (VehicleProperty.ENGINE_OIL_TEMP, ["access"; "change_mode"; "unit"; "version"]);
   (VehicleProperty.ENGINE_RPM, ["access"; "change_mode"; "unit"; "version"]);
   (VehicleProperty.WHEEL_TICK, ["access"; "change_mode"; "version"]);
   (VehicleProperty.FUEL_LEVEL, ["access"; "change_mode"; "unit"; "version"]);
   (VehicleProperty.FUEL_DOOR_OPEN, ["access"; "change_mode"; "version"]);
   (VehicleProperty.EV_BATTERY_LEVEL, ["access"; "change_mode"; "unit"; "version"]);
   (VehicleProperty.EV_CURRENT_BATTERY_CAPACITY, ["access"; "change_mode"; "unit"; "version"]);
   (VehicleProperty.EV_CHARGE_PORT_OPEN, ["access"; "change_mode"; "version"]);
   (VehicleProperty.EV_CHARGE_PORT_CONNECTED, ["access"; "change_mode"; "version"]);
   (VehicleProperty.EV_BATTERY_INSTANTANEOUS_CHARGE_RATE, ["access"; "change_mode"; "unit"; "version"]);
   (VehicleProperty.RANGE_REMAINING, ["access"; "change_mode"; "unit"; "version"]);
   (VehicleProperty.EV_BATTERY_AVERAGE_TEMPERATURE, ["access"; "change_mode"; "unit"; "version"]);
   (VehicleProperty.TIRE_PRESSURE, ["access"; "change_mode"; "require_min_max_supported_value"; "unit"; "version"]);
   (VehicleProperty.CRITICALLY_LOW_TIRE_PRESSURE, ["access"; "change_mode"; "unit"; "version"]);
   (VehicleProperty.ACCELERATOR_PEDAL_COMPRESSION_PERCENTAGE, ["access"; "change_mode"; "version"]);
   (VehicleProperty.BRAKE_PEDAL_COMPRESSION_PERCENTAGE, ["access"; "change_mode"; "version"]);
   (VehicleProperty.BRAKE_PAD_WEAR_PERCENTAGE, ["access"; "change_mode"; "version"]);
   (VehicleProperty.BRAKE_FLUID_LEVEL_LOW, ["access"; "change_mode"; "version"]);
   (VehicleProperty.VEHICLE_PASSIVE_SUSPENSION_HEIGHT, ["access"; "change_mode"; "require_min_max_supported_value"; "version"]);
   (VehicleProperty.ENGINE_IDLE_AUTO_STOP_ENABLED, ["access"; "change_mode"; "version"]);
   (VehicleProperty.IMPACT_DETECTED, ["access"; "change_mode"; "data_enum"; "data_enum_bit_flags"; "require_supported_values_list"; "version"]);
   (VehicleProperty.VEHICLE_HORN_ENGAGED, ["access"; "change_mode"; "version"]);
   (VehicleProperty.GEAR_SELECTION, ["access"; "change_mode"; "data_enum"; "legacy_supported_values_in_config"; "require_supported_values_list"; "version"]);
   (VehicleProperty.CURRENT_GEAR, ["access"; "change_mode"; "data_enum"; "legacy_supported_values_in_config"; "require_supported_values_list"; "version"]);
   (VehicleProperty.PARKING_BRAKE_ON, ["access"; "change_mode"; "version"]);
   (VehicleProperty.PARKING_BRAKE_AUTO_APPLY, ["access"; "change_mode"; "version"]);
   (VehicleProperty.EV_BRAKE_REGENERATION_LEVEL, ["access"; "change_mode"; "require_min_max_supported_value"; "version"]);
   (VehicleProperty.FUEL_LEVEL_LOW, ["access"; "change_mode"; "version"]);
   (VehicleProperty.NIGHT_MODE, ["access"; "change_mode"; "version"]);
   (VehicleProperty.TURN_SIGNAL_STATE, ["access"; "change_mode"; "data_enum"; "version"]);
   (VehicleProperty.IGNITION_STATE, ["access"; "change_mode"; "data_enum"; "require_supported_values_list"; "version"]);
   (VehicleProperty.ABS_ACTIVE, ["access"; "change_mode"; "version"]);
   (VehicleProperty.TRACTION_CONTROL_ACTIVE, ["access"; "change_mode"; "version"]);
   (VehicleProperty.EV_STOPPING_MODE, ["access"; "change_mode"; "data_enum"; "require_supported_values_list"; "version"]);
   (VehicleProperty.ELECTRONIC_STABILITY_CONTROL_ENABLED, ["access"; "change_mode"; "version"]);
   (VehicleProperty.ELECTRONIC_STABILITY_CONTROL_STATE, ["access"; "change_mode"; "data_enum"; "require_supported_values_list"; "version"]);
   (VehicleProperty.TURN_SIGNAL_LIGHT_STATE, ["access"; "change_mode"; "data_enum"; "data_enum_bit_flags"; "require_supported_values_list"; "version"]);
   (VehicleProperty.TURN_SIGNAL_SWITCH, ["access"; "change_mode"; "data_enum"; "require_supported_values_list"; "version"]);
   (VehicleProperty.HVAC_FAN_SPEED, ["access"; "change_mode"; "require_min_max_supported_value"; "version"]);
   (VehicleProperty.HVAC_FAN_DIRECTION, ["access"; "change_mode"; "data_enum"; "version"]);
   (VehicleProperty.HVAC_TEMPERATURE_CURRENT, ["access"; "change_mode"; "unit"; "version"]);
   (VehicleProperty.HVAC_TEMPERATURE_SET, ["access"; "change_mode"; "require_min_max_supported_value"; "unit"; "version"]);
   (VehicleProperty.HVAC_DEFROSTER, ["access"; "change_mode"; "version"]);
   (VehicleProperty.HVAC_AC_ON, ["access"; "change_mode"; "version"]);
   (VehicleProperty.HVAC_MAX_AC_ON, ["access"; "change_mode"; "version"]);
   (VehicleProperty.HVAC_MAX_DEFROST_ON, ["access"; "change_mode"; "version"]);
   (VehicleProperty.HVAC_RECIRC_ON, ["access"; "change_mode"; "version"]);
   (VehicleProperty.HVAC_DUAL_ON, ["access"; "change_mode"; "version"]);
   (VehicleProperty.HVAC_AUTO_ON, ["access"; "change_mode"; "version"]);
   (VehicleProperty.HVAC_SEAT_TEMPERATURE, ["access"; "change_mode"; "require_min_max_supported_value"; "version"]);
   (VehicleProperty.HVAC_SIDE_MIRROR_HEAT, ["access"; "change_mode"; "require_min_max_supported_value"; "version"]);
   (VehicleProperty.HVAC_STEERING_WHEEL_HEAT, ["access"; "change_mode"; "require_min_max_supported_value"; "version"]);
   (VehicleProperty.HVAC_TEMPERATURE_DISPLAY_UNITS, ["access"; "change_mode"; "data_enum"; "legacy_supported_values_in_config"; "require_supported_values_list"; "version"]);
   (VehicleProperty.HVAC_ACTUAL_FAN_SPEED_RPM, ["access"; "change_mode"; "version"]);
   (VehicleProperty.HVAC_POWER_ON, ["access"; "change_mode"; "version"]);
   (VehicleProperty.HVAC_FAN_DIRECTION_AVAILABLE, ["access"; "change_mode"; "data_enum"; "data_enum_bit_flags"; "version"]);
   (VehicleProperty.HVAC_AUTO_RECIRC_ON, ["access"; "change_mode"; "version"]);
   (VehicleProperty.HVAC_SEAT_VENTILATION, ["access"; "change_mode"; "require_min_max_supported_value"; "version"]);
   (VehicleProperty.HVAC_ELECTRIC_DEFROSTER_ON, ["access"; "change_mode"; "version"]);
   (VehicleProperty.HVAC_TEMPERATURE_VALUE_SUGGESTION, ["access"; "change_mode"; "version"]);
   (VehicleProperty.DISTANCE_DISPLAY_UNITS, ["access"; "change_mode"; "data_enum"; "legacy_supported_values_in_config"; "require_supported_values_list"; "version"]);
   (VehicleProperty.FUEL_VOLUME_DISPLAY_UNITS, ["access"; "change_mode"; "data_enum"; "legacy_supported_values_in_config"; "require_supported_values_list"; "version"]);
   (VehicleProperty.TIRE_PRESSURE_DISPLAY_UNITS, ["access"; "change_mode"; "data_enum"; "legacy_supported_values_in_config"; "require_supported_values_list"; "version"]);
   (VehicleProperty.EV_BATTERY_DISPLAY_UNITS, ["access"; "change_mode"; "data_enum"; "legacy_supported_values_in_config"; "require_supported_values_list"; "version"]);
   (VehicleProperty.FUEL_CONSUMPTION_UNITS_DISTANCE_OVER_VOLUME, ["access"; "change_mode"; "version"]);
   (VehicleProperty.VEHICLE_SPEED_DISPLAY_UNITS, ["access"; "change_mode"; "data_enum"; "legacy_supported_values_in_config"; "require_supported_values_list"; "version"]);
   (VehicleProperty.EXTERNAL_CAR_TIME, ["access"; "change_mode"; "unit"; "version"]);
   (VehicleProperty.ANDROID_EPOCH_TIME, ["access"; "change_mode"; "unit"; "version"]);
   (VehicleProperty.STORAGE_ENCRYPTION_BINDING_SEED, ["access"; "change_mode"; "version"]);
   (VehicleProperty.ENV_OUTSIDE_TEMPERATURE, ["access"; "change_mode"; "unit"; "version"]);
   (VehicleProperty.AP_POWER_STATE_REQ, ["access"; "change_mode"; "version"]);
   (VehicleProperty.AP_POWER_STATE_REPORT, ["access"; "change_mode"; "version"]);
   (VehicleProperty.AP_POWER_BOOTUP_REASON, ["access"; "change_mode"; "version"]);
   (VehicleProperty.DISPLAY_BRIGHTNESS, ["access"; "change_mode"; "version"]);
   (VehicleProperty.PER_DISPLAY_BRIGHTNESS, ["access"; "change_mode"; "version"]);
   (VehicleProperty.VALET_MODE_ENABLED, ["access"; "change_mode"; "version"]);
   (VehicleProperty.HEAD_UP_DISPLAY_ENABLED, ["access"; "change_mode"; "version"]);
   (VehicleProperty.HW_KEY_INPUT, ["access"; "change_mode"; "version"]);
   (VehicleProperty.HW_KEY_INPUT_V2, ["access"; "change_mode"; "version"]);
   (VehicleProperty.HW_MOTION_INPUT, ["access"; "change_mode"; "version"]);
   (VehicleProperty.HW_ROTARY_INPUT, ["access"; "change_mode"; "data_enum"; "version"]);
   (VehicleProperty.HW_CUSTOM_INPUT, ["access"; "change_mode"; "data_enum"; "version"]);
   (VehicleProperty.DOOR_POS, ["access"; "change_mode"; "require_min_max_supported_value"; "version"]);
   (VehicleProperty.DOOR_MOVE, ["access"; "change_mode"; "require_min_max_supported_value"; "version"]);
   (VehicleProperty.DOOR_LOCK, ["access"; "change_mode"; "version"]);
   (VehicleProperty.DOOR_CHILD_LOCK_ENABLED, ["access"; "change_mode"; "version"]);
   (VehicleProperty.MIRROR_Z_POS, ["access"; "change_mode"; "require_min_max_supported_value"; "version"]);
   (VehicleProperty.MIRROR_Z_MOVE, ["access"; "change_mode"; "require_min_max_supported_value"; "version"]);
   (VehicleProperty.MIRROR_Y_POS, ["access"; "change_mode"; "require_min_max_supported_value"; "version"]);
   (VehicleProperty.MIRROR_Y_MOVE, ["access"; "change_mode"; "require_min_max_supported_value"; "version"]);
   (VehicleProperty.MIRROR_LOCK, ["access"; "change_mode"; "version"]);
   (VehicleProperty.MIRROR_FOLD, ["access"; "change_mode"; "version"]);
   (VehicleProperty.MIRROR_AUTO_FOLD_ENABLED, ["access"; "change_mode"; "version"]);
   (VehicleProperty.MIRROR_AUTO_TILT_ENABLED, ["access"; "change_mode"; "version"]);
   (VehicleProperty.SEAT_MEMORY_SELECT, ["access"; "change_mode"; "require_min_max_supported_value"; "version"]);
   (VehicleProperty.SEAT_MEMORY_SET, ["access"; "change_mode"; "require_min_max_supported_value"; "version"]);
   (VehicleProperty.SEAT_BELT_BUCKLED, ["access"; "change_mode"; "version"]);
   (VehicleProperty.SEAT_BELT_HEIGHT_POS, ["access"; "change_mode"; "require_min_max_supported_value"; "version"]);
   (VehicleProperty.SEAT_BELT_HEIGHT_MOVE, ["access"; "change_mode"; "require_min_max_supported_value"; "version"]);
   (VehicleProperty.SEAT_FORE_AFT_POS, ["access"; "change_mode"; "require_min_max_supported_value"; "version"]);
   (VehicleProperty.SEAT_FORE_AFT_MOVE, ["access"; "change_mode"; "require_min_max_supported_value"; "version"]);
   (VehicleProperty.SEAT_BACKREST_ANGLE_1_POS, ["access"; "change_mode"; "require_min_max_supported_value"; "version"]);
   (VehicleProperty.SEAT_BACKREST_ANGLE_1_MOVE, ["access"; "change_mode"; "require_min_max_supported_value"; "version"]);
   (VehicleProperty.SEAT_BACKREST_ANGLE_2_POS, ["access"; "change_mode"; "require_min_max_supported_value"; "version"]);
   (VehicleProperty.SEAT_BACKREST_ANGLE_2_MOVE, ["access"; "change_mode"; "require_min_max_supported_value"; "version"]);
   (VehicleProperty.SEAT_HEIGHT_POS, ["access"; "change_mode"; "require_min_max_supported_value"; "version"]);
   (VehicleProperty.SEAT_HEIGHT_MOVE, ["access"; "change_mode"; "require_min_max_supported_value"; "version"]);
   (VehicleProperty.SEAT_DEPTH_POS, ["access"; "change_mode"; "require_min_max_supported_value"; "version"]);
   (VehicleProperty.SEAT_DEPTH_MOVE, ["access"; "change_mode"; "require_min_max_supported_value"; "version"]);
   (VehicleProperty.SEAT_TILT_POS, ["access"; "change_mode"; "require_min_max_supported_value"; "version"]);
   (VehicleProperty.SEAT_TILT_MOVE, ["access"; "change_mode"; "require_min_max_supported_value"; "version"]);
   (VehicleProperty.SEAT_LUMBAR_FORE_AFT_POS, ["access"; "change_mode"; "require_min_max_supported_value"; "version"]);
   (VehicleProperty.SEAT_LUMBAR_FORE_AFT_MOVE, ["access"; "change_mode"; "require_min_max_supported_value"; "version"]);
   (VehicleProperty.SEAT_LUMBAR_SIDE_SUPPORT_POS, ["access"; "change_mode"; "require_min_max_supported_value"; "version"]);
   (VehicleProperty.SEAT_LUMBAR_SIDE_SUPPORT_MOVE, ["access"; "change_mode"; "require_min_max_supported_value"; "version"]);
   (VehicleProperty.SEAT_HEADREST_HEIGHT_POS, ["access"; "change_mode"; "version"])]%string.

Definition AnnotationsForVehicleProperty_2 : list (Z * list string) :=
  [(VehicleProperty.SEAT_HEADREST_HEIGHT_POS_V2, ["access"; "change_mode"; "require_min_max_supported_value"; "version"]);
   (VehicleProperty.SEAT_HEADREST_HEIGHT_MOVE, ["access"; "change_mode"; "require_min_max_supported_value"; "version"]);
   (VehicleProperty.SEAT_HEADREST_ANGLE_POS, ["access"; "change_mode"; "require_min_max_supported_value"; "version"]);
   (VehicleProperty.SEAT_HEADREST_ANGLE_MOVE, ["access"; "change_mode"; "require_min_max_supported_value"; "version"]);
   (VehicleProperty.SEAT_HEADREST_FORE_AFT_POS, ["access"; "change_mode"; "require_min_max_supported_value"; "version"]);
   (VehicleProperty.SEAT_HEADREST_FORE_AFT_MOVE, ["access"; "change_mode"; "require_min_max_supported_value"; "version"]);
   (VehicleProperty.SEAT_FOOTWELL_LIGHTS_STATE, ["access"; "change_mode"; "data_enum"; "require_supported_values_list"; "version"]);
   (VehicleProperty.SEAT_FOOTWELL_LIGHTS_SWITCH, ["access"; "change_mode"; "data_enum"; "require_supported_values_list"; "version"]);
   (VehicleProperty.SEAT_EASY_ACCESS_ENABLED, ["access"; "change_mode"; "version"]);
   (VehicleProperty.SEAT_AIRBAG_ENABLED, ["access"; "change_mode"; "version"]);
   (VehicleProperty.SEAT_AIRBAGS_DEPLOYED, ["access"; "change_mode"; "data_enum"; "require_supported_values_list"; "version"]);
   (VehicleProperty.SEAT_CUSHION_SIDE_SUPPORT_POS, ["access"; "change_mode"; "require_min_max_supported_value"; "version"]);
   (VehicleProperty.SEAT_CUSHION_SIDE_SUPPORT_MOVE, ["access"; "change_mode"; "require_min_max_supported_value"; "version"]);
   (VehicleProperty.SEAT_LUMBAR_VERTICAL_POS, ["access"; "change_mode"; "require_min_max_supported_value"; "version"]);
   (VehicleProperty.SEAT_LUMBAR_VERTICAL_MOVE, ["access"; "change_mode"; "require_min_max_supported_value"; "version"]);
   (VehicleProperty.SEAT_WALK_IN_POS, ["access"; "change_mode"; "require_min_max_supported_value"; "version"]);
   (VehicleProperty.SEAT_BELT_PRETENSIONER_DEPLOYED, ["access"; "change_mode"; "version"]);
   (VehicleProperty.SEAT_OCCUPANCY, ["access"; "change_mode"; "data_enum"; "require_supported_values_list"; "version"]);
   (VehicleProperty.WINDOW_POS, ["access"; "change_mode"; "require_min_max_supported_value"; "version"]);
   (VehicleProperty.WINDOW_MOVE, ["access"; "change_mode"; "require_min_max_supported_value"; "version"]);
   (VehicleProperty.WINDOW_LOCK, ["access"; "change_mode"; "version"]);
   (VehicleProperty.WINDSHIELD_WIPERS_PERIOD, ["access"; "change_mode"; "require_min_max_supported_value"; "unit"; "version"]);
   (VehicleProperty.WINDSHIELD_WIPERS_STATE, ["access"; "change_mode"; "data_enum"; "require_supported_values_list"; "version"]);
   (VehicleProperty.WINDSHIELD_WIPERS_SWITCH, ["access"; "change_mode"; "data_enum"; "require_supported_values_list"; "version"]);
   (VehicleProperty.STEERING_WHEEL_DEPTH_POS, ["access"; "change_mode"; "require_min_max_supported_value"; "version"]);
   (VehicleProperty.STEERING_WHEEL_DEPTH_MOVE, ["access"; "change_mode"; "require_min_max_supported_value"; "version"]);
   (VehicleProperty.STEERING_WHEEL_HEIGHT_POS, ["access"; "change_mode"; "require_min_max_supported_value"; "version"]);
   (VehicleProperty.STEERING_WHEEL_HEIGHT_MOVE, ["access"; "change_mode"; "require_min_max_supported_value"; "version"]);
   (VehicleProperty.STEERING_WHEEL_THEFT_LOCK_ENABLED, ["access"; "change_mode"; "version"]);
   (VehicleProperty.STEERING_WHEEL_LOCKED, ["access"; "change_mode"; "version"]);
   (VehicleProperty.STEERING_WHEEL_EASY_ACCESS_ENABLED, ["access"; "change_mode"; "version"]);
   (VehicleProperty.GLOVE_BOX_DOOR_POS, ["access"; "change_mode"; "require_min_max_supported_value"; "version"]);
   (VehicleProperty.GLOVE_BOX_LOCKED, ["access"; "change_mode"; "version"]);
   (VehicleProperty.VEHICLE_MAP_SERVICE, ["access"; "change_mode"; "version"]);
   (VehicleProperty.LOCATION_CHARACTERIZATION, ["access"; "change_mode"; "version"]);
   (VehicleProperty.ULTRASONICS_SENSOR_POSITION, ["access"; "change_mode"; "version"]);
   (VehicleProperty.ULTRASONICS_SENSOR_ORIENTATION, ["access"; "change_mode"; "version"]);
   (VehicleProperty.ULTRASONICS_SENSOR_FIELD_OF_VIEW, ["access"; "change_mode"; "version"]);
   (VehicleProperty.ULTRASONICS_SENSOR_DETECTION_RANGE, ["access"; "change_mode"; "version"]);
   (VehicleProperty.ULTRASONICS_SENSOR_SUPPORTED_RANGES, ["access"; "change_mode"; "version"]);
   (VehicleProperty.ULTRASONICS_SENSOR_MEASURED_DISTANCE, ["access"; "change_mode"; "version"]);
   (VehicleProperty.OBD2_LIVE_FRAME, ["access"; "change_mode"; "version"]);
   (VehicleProperty.OBD2_FREEZE_FRAME, ["access"; "change_mode"; "version"]);
   (VehicleProperty.OBD2_FREEZE_FRAME_INFO, ["access"; "change_mode"; "version"]);
   (VehicleProperty.OBD2_FREEZE_FRAME_CLEAR, ["access"; "change_mode"; "version"]);
   (VehicleProperty.HEADLIGHTS_STATE, ["access"; "change_mode"; "data_enum"; "require_supported_values_list"; "version"]);
   (VehicleProperty.HIGH_BEAM_LIGHTS_STATE, ["access"; "change_mode"; "data_enum"; "require_supported_values_list"; "version"]);
   (VehicleProperty.FOG_LIGHTS_STATE, ["access"; "change_mode"; "data_enum"; "require_supported_values_list"; "version"]);
   (VehicleProperty.HAZARD_LIGHTS_STATE, ["access"; "change_mode"; "data_enum"; "require_supported_values_list"; "version"]);
   (VehicleProperty.HEADLIGHTS_SWITCH, ["access"; "change_mode"; "data_enum"; "require_supported_values_list"; "version"]);
   (VehicleProperty.HIGH_BEAM_LIGHTS_SWITCH, ["access"; "change_mode"; "data_enum"; "require_supported_values_list"; "version"]);
   (VehicleProperty.FOG_LIGHTS_SWITCH, ["access"; "change_mode"; "data_enum"; "require_supported_values_list"; "version"]);
   (VehicleProperty.HAZARD_LIGHTS_SWITCH, ["access"; "change_mode"; "data_enum"; "require_supported_values_list"; "version"]);
   (VehicleProperty.CABIN_LIGHTS_STATE, ["access"; "change_mode"; "data_enum"; "require_supported_values_list"; "version"]);
   (VehicleProperty.CABIN_LIGHTS_SWITCH, ["access"; "change_mode"; "data_enum"; "require_supported_values_list"; "version"]);
   (VehicleProperty.READING_LIGHTS_STATE, ["access"; "change_mode"; "data_enum"; "require_supported_values_list"; "version"]);
   (VehicleProperty.READING_LIGHTS_SWITCH, ["access"; "change_mode"; "data_enum"; "require_supported_values_list"; "version"]);
   (VehicleProperty.STEERING_WHEEL_LIGHTS_STATE, ["access"; "change_mode"; "data_enum"; "require_supported_values_list"; "version"]);
   (VehicleProperty.STEERING_WHEEL_LIGHTS_SWITCH, ["access"; "change_mode"; "data_enum"; "require_supported_values_list"; "version"]);
   (VehicleProperty.SUPPORT_CUSTOMIZE_VENDOR_PERMISSION, ["access"; "change_mode"; "version"]);
   (VehicleProperty.DISABLED_OPTIONAL_FEATURES, ["access"; "change_mode"; "version"]);
   (VehicleProperty.INITIAL_USER_INFO, ["access"; "change_mode"; "version"]);
   (VehicleProperty.SWITCH_USER, ["access"; "change_mode"; "version"]);
   (VehicleProperty.CREATE_USER, ["access"; "change_mode"; "version"]);
   (VehicleProperty.REMOVE_USER, ["access"; "change_mode"; "version"]);
   (VehicleProperty.USER_IDENTIFICATION_ASSOCIATION, ["access"; "change_mode"; "version"]);
   (VehicleProperty.EVS_SERVICE_REQUEST, ["access"; "change_mode"; "version"]);
   (VehicleProperty.POWER_POLICY_REQ, ["access"; "change_mode"; "version"]);
   (VehicleProperty.POWER_POLICY_GROUP_REQ, ["access"; "change_mode"; "version"]);
   (VehicleProperty.CURRENT_POWER_POLICY, ["access"; "change_mode"; "version"]);
   (VehicleProperty.WATCHDOG_ALIVE, ["access"; "change_mode"; "version"]);
   (VehicleProperty.WATCHDOG_TERMINATED_PROCESS, ["access"; "change_mode"; "version"]);
   (VehicleProperty.VHAL_HEARTBEAT, ["access"; "change_mode"; "version"]);
   (VehicleProperty.CLUSTER_SWITCH_UI, ["access"; "change_mode"; "version"]);
   (VehicleProperty.CLUSTER_DISPLAY_STATE, ["access"; "change_mode"; "version"]);
   (VehicleProperty.CLUSTER_REPORT_STATE, ["access"; "change_mode"; "version"]);
   (VehicleProperty.CLUSTER_REQUEST_DISPLAY, ["access"; "change_mode"; "version"]);
   (VehicleProperty.CLUSTER_NAVIGATION_STATE, ["access"; "change_mode"; "version"]);
   (VehicleProperty.ELECTRONIC_TOLL_COLLECTION_CARD_TYPE, ["access"; "change_mode"; "data_enum"; "require_supported_values_list"; "version"]);
   (VehicleProperty.ELECTRONIC_TOLL_COLLECTION_CARD_STATUS, ["access"; "change_mode"; "data_enum"; "require_supported_values_list"; "version"]);
   (VehicleProperty.FRONT_FOG_LIGHTS_STATE, ["access"; "change_mode"; "data_enum"; "require_supported_values_list"; "version"]);
   (VehicleProperty.FRONT_FOG_LIGHTS_SWITCH, ["access"; "change_mode"; "data_enum"; "require_supported_values_list"; "version"]);
   (VehicleProperty.REAR_FOG_LIGHTS_STATE, ["access"; "change_mode"; "data_enum"; "require_supported_values_list"; "version"]);
   (VehicleProperty.REAR_FOG_LIGHTS_SWITCH, ["access"; "change_mode"; "data_enum"; "require_supported_values_list"; "version"]);
   (VehicleProperty.EV_CHARGE_CURRENT_DRAW_LIMIT, ["access"; "change_mode"; "unit"; "version"]);
   (VehicleProperty.EV_CHARGE_PERCENT_LIMIT, ["access"; "change_mode"; "legacy_supported_values_in_config"; "version"]);
   (VehicleProperty.EV_CHARGE_STATE, ["access"; "change_mode"; "data_enum"; "require_supported_values_list"; "version"]);
   (VehicleProperty.EV_CHARGE_SWITCH, ["access"; "change_mode"; "version"]);
   (VehicleProperty.EV_CHARGE_TIME_REMAINING, ["access"; "change_mode"; "unit"; "version"]);
   (VehicleProperty.EV_REGENERATIVE_BRAKING_STATE, ["access"; "change_mode"; "data_enum"; "require_supported_values_list"; "version"]);
   (VehicleProperty.TRAILER_PRESENT, ["access"; "change_mode"; "data_enum"; "require_supported_values_list"; "version"]);
   (VehicleProperty.VEHICLE_CURB_WEIGHT, ["access"; "change_mode"; "version"]);
   (VehicleProperty.GENERAL_SAFETY_REGULATION_COMPLIANCE_REQUIREMENT, ["access"; "change_mode"; "data_enum"; "version"]);
   (VehicleProperty.SUPPORTED_PROPERTY_IDS, ["access"; "change_mode"; "version"]);
   (VehicleProperty.SHUTDOWN_REQUEST, ["access"; "change_mode"; "data_enum"; "version"]);
   (VehicleProperty.VEHICLE_IN_USE, ["access"; "change_mode"; "version"]);
   (VehicleProperty.CLUSTER_HEARTBEAT, ["access"; "change_mode"; "version"]);
   (VehicleProperty.VEHICLE_DRIVING_AUTOMATION_CURRENT_LEVEL, ["access"; "change_mode"; "data_enum"; "require_supported_values_list"; "version"]);
   (VehicleProperty.VEHICLE_DRIVING_AUTOMATION_TARGET_LEVEL, ["access"; "change_mode"; "data_enum"; "require_supported_values_list"; "version"]);
   (VehicleProperty.CAMERA_SERVICE_CURRENT_STATE, ["access"; "change_mode"; "data_enum"; "version"]);
   (VehicleProperty.PER_DISPLAY_MAX_BRIGHTNESS, ["access"; "change_mode"; "version"]);
   (VehicleProperty.AUTOMATIC_EMERGENCY_BRAKING_ENABLED, ["access"; "change_mode"; "version"]);
   (VehicleProperty.AUTOMATIC_EMERGENCY_BRAKING_STATE, ["access"; "change_mode"; "data_enum"; "require_supported_values_list"; "version"]);
   (VehicleProperty.FORWARD_COLLISION_WARNING_ENABLED, ["access"; "change_mode"; "version"]);
   (VehicleProperty.FORWARD_COLLISION_WARNING_STATE, ["access"; "change_mode"; "data_enum"; "require_supported_values_list"; "version"]);
   (VehicleProperty.BLIND_SPOT_WARNING_ENABLED, ["access"; "change_mode"; "version"]);
   (VehicleProperty.BLIND_SPOT_WARNING_STATE, ["access"; "change_mode"; "data_enum"; "require_supported_values_list"; "version"]);
   (VehicleProperty.LANE_DEPARTURE_WARNING_ENABLED, ["access"; "change_mode"; "version"]);
   (VehicleProperty.LANE_DEPARTURE_WARNING_STATE, ["access"; "change_mode"; "data_enum"; "require_supported_values_list"; "version"]);
   (VehicleProperty.LANE_KEEP_ASSIST_ENABLED, ["access"; "change_mode"; "version"]);
   (VehicleProperty.LANE_KEEP_ASSIST_STATE, ["access"; "change_mode"; "data_enum"; "require_supported_values_list"; "version"]);
   (VehicleProperty.LANE_CENTERING_ASSIST_ENABLED, ["access"; "change_mode"; "version"]);
   (VehicleProperty.LANE_CENTERING_ASSIST_COMMAND, ["access"; "change_mode"; "data_enum"; "require_supported_values_list"; "version"]);
   (VehicleProperty.LANE_CENTERING_ASSIST_STATE, ["access"; "change_mode"; "data_enum"; "require_supported_values_list"; "version"]);
   (VehicleProperty.EMERGENCY_LANE_KEEP_ASSIST_ENABLED, ["access"; "change_mode"; "version"]);
   (VehicleProperty.EMERGENCY_LANE_KEEP_ASSIST_STATE, ["access"; "change_mode"; "data_enum"; "require_supported_values_list"; "version"]);
   (VehicleProperty.CRUISE_CONTROL_ENABLED, ["access"; "change_mode"; "version"]);
   (VehicleProperty.CRUISE_CONTROL_TYPE, ["access"; "change_mode"; "data_enum"; "require_supported_values_list"; "version"]);
   (VehicleProperty.CRUISE_CONTROL_STATE, ["access"; "change_mode"; "data_enum"; "require_supported_values_list"; "version"]);
   (VehicleProperty.CRUISE_CONTROL_COMMAND, ["access"; "change_mode"; "data_enum"; "require_supported_values_list"; "version"]);
   (VehicleProperty.CRUISE_CONTROL_TARGET_SPEED, ["access"; "change_mode"; "require_min_max_supported_value"; "unit"; "version"]);
   (VehicleProperty.ADAPTIVE_CRUISE_CONTROL_TARGET_TIME_GAP, ["access"; "change_mode"; "legacy_supported_values_in_config"; "require_supported_values_list"; "unit"; "version"]);
   (VehicleProperty.ADAPTIVE_CRUISE_CONTROL_LEAD_VEHICLE_MEASURED_DISTANCE, ["access"; "change_mode"; "require_min_max_supported_value"; "unit"; "version"]);
   (VehicleProperty.HANDS_ON_DETECTION_ENABLED, ["access"; "change_mode"; "version"]);
   (VehicleProperty.HANDS_ON_DETECTION_DRIVER_STATE, ["access"; "change_mode"; "data_enum"; "require_supported_values_list"; "version"]);
   (VehicleProperty.HANDS_ON_DETECTION_WARNING, ["access"; "change_mode"; "data_enum"; "require_supported_values_list"; "version"]);
   (VehicleProperty.DRIVER_DROWSINESS_ATTENTION_SYSTEM_ENABLED, ["access"; "change_mode"; "version"]);
   (VehicleProperty.DRIVER_DROWSINESS_ATTENTION_STATE, ["access"; "change_mode"; "data_enum"; "require_supported_values_list"; "version"]);
   (VehicleProperty.DRIVER_DROWSINESS_ATTENTION_WARNING_ENABLED, ["access"; "change_mode"; "version"]);
   (VehicleProperty.DRIVER_DROWSINESS_ATTENTION_WARNING, ["access"; "change_mode"; "data_enum"; "require_supported_values_list"; "version"]);
   (VehicleProperty.DRIVER_DISTRACTION_SYSTEM_ENABLED, ["access"; "change_mode"; "version"]);
   (VehicleProperty.DRIVER_DISTRACTION_STATE, ["access"; "change_mode"; "data_enum"; "require_supported_values_list"; "version"]);
   (VehicleProperty.DRIVER_DISTRACTION_WARNING_ENABLED, ["access"; "change_mode"; "version"]);
   (VehicleProperty.DRIVER_DISTRACTION_WARNING, ["access"; "change_mode"; "data_enum"; "require_supported_values_list"; "version"]);
   (VehicleProperty.LOW_SPEED_COLLISION_WARNING_ENABLED, ["access"; "change_mode"; "version"]);
   (VehicleProperty.LOW_SPEED_COLLISION_WARNING_STATE, ["access"; "change_mode"; "data_enum"; "require_supported_values_list"; "version"]);
   (VehicleProperty.CROSS_TRAFFIC_MONITORING_ENABLED, ["access"; "change_mode"; "version"]);
   (VehicleProperty.CROSS_TRAFFIC_MONITORING_WARNING_STATE, ["access"; "change_mode"; "data_enum"; "require_supported_values_list"; "version"]);
   (VehicleProperty.LOW_SPEED_AUTOMATIC_EMERGENCY_BRAKING_ENABLED, ["access"; "change_mode"; "version"]);
   (VehicleProperty.LOW_SPEED_AUTOMATIC_EMERGENCY_BRAKING_STATE, ["access"; "change_mode"; "data_enum"; "require_supported_values_list"; "version"])]%string.

Definition AnnotationsForVehicleProperty : list (Z * list string) :=
  AnnotationsForVehicleProperty_1 ++ AnnotationsForVehicleProperty_2.

(** The cases of [getSupportedEnumValuesForProperty] *)

Definition EnumsForVehicleProperty_1 : list (Z * list string) :=
  [(VehicleProperty.INFO_FUEL_TYPE, ["FuelType"]);
   (VehicleProperty.INFO_EV_CONNECTOR_TYPE, ["EvConnectorType"]);
   (VehicleProperty.INFO_FUEL_DOOR_LOCATION, ["PortLocationType"]);
   (VehicleProperty.INFO_EV_PORT_LOCATION, ["PortLocationType"]);
   (VehicleProperty.INFO_DRIVER_SEAT, ["VehicleAreaSeat"]);
   (VehicleProperty.INFO_MULTI_EV_PORT_LOCATIONS, ["PortLocationType"]);
   (VehicleProperty.INFO_VEHICLE_SIZE_CLASS, ["VehicleSizeClass"]);
   (VehicleProperty.ENGINE_OIL_LEVEL, ["VehicleOilLevel"]);
   (VehicleProperty.IMPACT_DETECTED, ["ImpactSensorLocation"]);
   (VehicleProperty.GEAR_SELECTION, ["VehicleGear"]);
   (VehicleProperty.CURRENT_GEAR, ["VehicleGear"]);
   (VehicleProperty.TURN_SIGNAL_STATE, ["VehicleTurnSignal"]);
   (VehicleProperty.IGNITION_STATE, ["VehicleIgnitionState"]);
   (VehicleProperty.EV_STOPPING_MODE, ["EvStoppingMode"]);
   (VehicleProperty.ELECTRONIC_STABILITY_CONTROL_STATE, ["ElectronicStabilityControlState"; "ErrorState"]);
   (VehicleProperty.TURN_SIGNAL_LIGHT_STATE, ["VehicleTurnSignal"]);
   (VehicleProperty.TURN_SIGNAL_SWITCH, ["VehicleTurnSignal"]);
   (VehicleProperty.HVAC_FAN_DIRECTION, ["VehicleHvacFanDirection"]);
   (VehicleProperty.HVAC_TEMPERATURE_DISPLAY_UNITS, ["VehicleUnit"]);
   (VehicleProperty.HVAC_FAN_DIRECTION_AVAILABLE, ["VehicleHvacFanDirection"]);
   (VehicleProperty.DISTANCE_DISPLAY_UNITS, ["VehicleUnit"]);
   (VehicleProperty.FUEL_VOLUME_DISPLAY_UNITS, ["VehicleUnit"]);
   (VehicleProperty.TIRE_PRESSURE_DISPLAY_UNITS, ["VehicleUnit"]);
   (VehicleProperty.EV_BATTERY_DISPLAY_UNITS, ["VehicleUnit"]);
   (VehicleProperty.VEHICLE_SPEED_DISPLAY_UNITS, ["VehicleUnit"]);
   (VehicleProperty.HW_ROTARY_INPUT, ["RotaryInputType"]);
   (VehicleProperty.HW_CUSTOM_INPUT, ["CustomInputType"]);
   (VehicleProperty.SEAT_FOOTWELL_LIGHTS_STATE, ["VehicleLightState"]);
   (VehicleProperty.SEAT_FOOTWELL_LIGHTS_SWITCH, ["VehicleLightSwitch"]);
   (VehicleProperty.SEAT_AIRBAGS_DEPLOYED, ["VehicleAirbagLocation"])]%string.

Definition EnumsForVehicleProperty_2 : list (Z * list string) :=
  [(VehicleProperty.SEAT_OCCUPANCY, ["VehicleSeatOccupancyState"]);
   (VehicleProperty.WINDSHIELD_WIPERS_STATE, ["WindshieldWipersState"]);
   (VehicleProperty.WINDSHIELD_WIPERS_SWITCH, ["WindshieldWipersSwitch"]);
   (VehicleProperty.HEADLIGHTS_STATE, ["VehicleLightState"]);
   (VehicleProperty.HIGH_BEAM_LIGHTS_STATE, ["VehicleLightState"]);
   (VehicleProperty.FOG_LIGHTS_STATE, ["VehicleLightState"]);
   (VehicleProperty.HAZARD_LIGHTS_STATE, ["VehicleLightState"]);
   (VehicleProperty.HEADLIGHTS_SWITCH, ["VehicleLightSwitch"]);
   (VehicleProperty.HIGH_BEAM_LIGHTS_SWITCH, ["VehicleLightSwitch"]);
   (VehicleProperty.FOG_LIGHTS_SWITCH, ["VehicleLightSwitch"]);
   (VehicleProperty.HAZARD_LIGHTS_SWITCH, ["VehicleLightSwitch"]);
   (VehicleProperty.CABIN_LIGHTS_STATE, ["VehicleLightState"]);
   (VehicleProperty.CABIN_LIGHTS_SWITCH, ["VehicleLightSwitch"]);
   (VehicleProperty.READING_LIGHTS_STATE, ["VehicleLightState"]);
   (VehicleProperty.READING_LIGHTS_SWITCH, ["VehicleLightSwitch"]);
   (VehicleProperty.STEERING_WHEEL_LIGHTS_STATE, ["VehicleLightState"]);
   (VehicleProperty.STEERING_WHEEL_LIGHTS_SWITCH, ["VehicleLightSwitch"]);
   (VehicleProperty.ELECTRONIC_TOLL_COLLECTION_CARD_TYPE, ["ElectronicTollCollectionCardType"]);
   (VehicleProperty.ELECTRONIC_TOLL_COLLECTION_CARD_STATUS, ["ElectronicTollCollectionCardStatus"]);
   (VehicleProperty.FRONT_FOG_LIGHTS_STATE, ["VehicleLightState"]);
   (VehicleProperty.FRONT_FOG_LIGHTS_SWITCH, ["VehicleLightSwitch"]);
   (VehicleProperty.REAR_FOG_LIGHTS_STATE, ["VehicleLightState"]);
   (VehicleProperty.REAR_FOG_LIGHTS_SWITCH, ["VehicleLightSwitch"]);
   (VehicleProperty.EV_CHARGE_STATE, ["EvChargeState"]);
   (VehicleProperty.EV_REGENERATIVE_BRAKING_STATE, ["EvRegenerativeBrakingState"]);
   (VehicleProperty.TRAILER_PRESENT, ["TrailerState"]);
   (VehicleProperty.GENERAL_SAFETY_REGULATION_COMPLIANCE_REQUIREMENT, ["GsrComplianceRequirementType"]);
   (VehicleProperty.SHUTDOWN_REQUEST, ["VehicleApPowerStateShutdownParam"]);
   (VehicleProperty.VEHICLE_DRIVING_AUTOMATION_CURRENT_LEVEL, ["VehicleAutonomousState"]);
   (VehicleProperty.VEHICLE_DRIVING_AUTOMATION_TARGET_LEVEL, ["VehicleAutonomousState"])]%string.

Definition EnumsForVehicleProperty_3 : list (Z * list string) :=
  [(VehicleProperty.CAMERA_SERVICE_CURRENT_STATE, ["CameraServiceState"]);
   (VehicleProperty.AUTOMATIC_EMERGENCY_BRAKING_STATE, ["AutomaticEmergencyBrakingState"; "ErrorState"]);
   (VehicleProperty.FORWARD_COLLISION_WARNING_STATE, ["ForwardCollisionWarningState"; "ErrorState"]);
   (VehicleProperty.BLIND_SPOT_WARNING_STATE, ["BlindSpotWarningState"; "ErrorState"]);
   (VehicleProperty.LANE_DEPARTURE_WARNING_STATE, ["LaneDepartureWarningState"; "ErrorState"]);
   (VehicleProperty.LANE_KEEP_ASSIST_STATE, ["LaneKeepAssistState"; "ErrorState"]);
   (VehicleProperty.LANE_CENTERING_ASSIST_COMMAND, ["LaneCenteringAssistCommand"]);
   (VehicleProperty.LANE_CENTERING_ASSIST_STATE, ["LaneCenteringAssistState"; "ErrorState"]);
   (VehicleProperty.EMERGENCY_LANE_KEEP_ASSIST_STATE, ["EmergencyLaneKeepAssistState"; "ErrorState"]);
   (VehicleProperty.CRUISE_CONTROL_TYPE, ["CruiseControlType"; "ErrorState"]);
   (VehicleProperty.CRUISE_CONTROL_STATE, ["CruiseControlState"; "ErrorState"]);
   (VehicleProperty.CRUISE_CONTROL_COMMAND, ["CruiseControlCommand"]);
   (VehicleProperty.HANDS_ON_DETECTION_DRIVER_STATE, ["HandsOnDetectionDriverState"; "ErrorState"]);
   (VehicleProperty.HANDS_ON_DETECTION_WARNING, ["HandsOnDetectionWarning"; "ErrorState"]);
   (VehicleProperty.DRIVER_DROWSINESS_ATTENTION_STATE, ["DriverDrowsinessAttentionState"; "ErrorState"]);
   (VehicleProperty.DRIVER_DROWSINESS_ATTENTION_WARNING, ["DriverDrowsinessAttentionWarning"; "ErrorState"]);
   (VehicleProperty.DRIVER_DISTRACTION_STATE, ["DriverDistractionState"; "ErrorState"]);
   (VehicleProperty.DRIVER_DISTRACTION_WARNING, ["DriverDistractionWarning"; "ErrorState"]);
   (VehicleProperty.LOW_SPEED_COLLISION_WARNING_STATE, ["LowSpeedCollisionWarningState"; "ErrorState"]);
   (VehicleProperty.CROSS_TRAFFIC_MONITORING_WARNING_STATE, ["CrossTrafficMonitoringWarningState"; "ErrorState"]);
   (VehicleProperty.LOW_SPEED_AUTOMATIC_EMERGENCY_BRAKING_STATE, ["LowSpeedAutomaticEmergencyBrakingState"; "ErrorState"])]%string.

Definition EnumsForVehicleProperty : list (Z * list string) :=
  EnumsForVehicleProperty_1 ++ EnumsForVehicleProperty_2 ++ EnumsForVehicleProperty_3.

(** [addSupportedValues] of every enumeration of the case. *)
Definition getSupportedEnumValuesForProperty (enumValues : string → list Z) (propertyId : Z) : gset Z :=
  match table_find propertyId EnumsForVehicleProperty with
  | Some enums => list_to_set (concat (enumValues <$> enums))
  | None => ∅
  end.

Definition annotated (p : Z) (annotation : string) : bool :=
  match table_find p AnnotationsForVehicleProperty with
  | Some l => bool_decide (annotation ∈ l)
  | None => false
  end.

Definition annotation_row (p : Z) : bool :=
  annotated p "access" && annotated p "change_mode" && annotated p "version" &&
  Bool.eqb (annotated p "data_enum") (match table_find p EnumsForVehicleProperty with Some l => negb (length l =? 0)%nat | None => false end).

Lemma annotations_checked :
  forallb annotation_row table_keys
  && bool_decide (fst <$> AnnotationsForVehicleProperty = table_keys)
  && forallb (λ q, bool_decide (q ∈ table_keys)) (fst <$> EnumsForVehicleProperty) = true.
Proof. vm_compute. reflexivity. Qed.

(** The values of the enumerations of a case. *)
Definition valuesOf (enumValues : string → list Z) (o : option (list string)) : gset Z :=
  match o with Some enums => list_to_set (concat (enumValues <$> enums)) | None => ∅ end.

Lemma valuesOf_elem enumValues o x :
  x ∈ valuesOf enumValues o ↔ ∃ enums e, o = Some enums ∧ e ∈ enums ∧ x ∈ enumValues e.
Proof.
  destruct o as [enums|]; cbn; [|split; [by intros ?%elem_of_empty|by intros (? & ? & ? & _)]].
  rewrite elem_of_list_to_set, list_elem_of_In, in_concat. split.
  - intros (l & Hl & Hx). apply list_elem_of_In, list_elem_of_fmap in Hl as (e & -> & He).
    exists enums, e. split_and!; [done|done|by apply list_elem_of_In].
  - intros (? & e & [= <-] & He & Hx). exists (enumValues e). rewrite <- !list_elem_of_In. split; [|done].
    apply list_elem_of_fmap. by exists e.
Qed.

Lemma valuesOf_nonempty enumValues o : (∀ e, enumValues e ≠ []) →
  (match o with Some l => negb (length l =? 0)%nat | None => false end = true ↔ valuesOf enumValues o ≠ ∅).
Proof.
  intros Hne. destruct o as [[|e enums]|]; [by split|..|by split]. split; [|done]. intros _ Hempty.
  destruct (enumValues e) as [|x l] eqn:Ee; [by destruct (Hne e)|]. apply (not_elem_of_empty (C := gset Z) x).
  rewrite <- Hempty. apply valuesOf_elem. exists (e :: enums), e. rewrite Ee. by repeat split; left.
Qed.

(** The annotations cover the same properties as the other tables, each with
    its access, change mode and version; and exactly the properties annotated
    to take values of an enumeration have the values of their enumerations as
    supported values, all of them. *)
Theorem annotations_consistent enumValues p :
  (∀ e, enumValues e ≠ []) →
  (p ∈ table_keys ↔ is_Some (table_find p AnnotationsForVehicleProperty)) ∧
  (p ∈ table_keys → annotated p "access" = true ∧ annotated p "change_mode" = true ∧ annotated p "version" = true) ∧
  (annotated p "data_enum" = true ↔ getSupportedEnumValuesForProperty enumValues p ≠ ∅) ∧
  (∀ x, x ∈ getSupportedEnumValuesForProperty enumValues p ↔
     ∃ enums e, table_find p EnumsForVehicleProperty = Some enums ∧ e ∈ enums ∧ x ∈ enumValues e).
Proof.
  intros Hne. pose proof annotations_checked as H. rewrite !andb_true_iff in H. destruct H as [[Hrows Hkeys%bool_decide_eq_true] Henums].
  rewrite forallb_Forall, Forall_forall in Hrows, Henums.
  change (getSupportedEnumValuesForProperty enumValues p) with (valuesOf enumValues (table_find p EnumsForVehicleProperty)).
  assert (Hin : p ∈ table_keys ↔ is_Some (table_find p AnnotationsForVehicleProperty)) by (rewrite <- Hkeys; apply table_find_keys).
  assert (Hen : is_Some (table_find p EnumsForVehicleProperty) → p ∈ table_keys).
  { intros Hp%table_find_keys. apply (bool_decide_eq_true_1 (p ∈ table_keys)), Henums, Hp. }
  rewrite <- (valuesOf_nonempty enumValues _ Hne). split_and!; [done| | |intros x; apply valuesOf_elem].
  - intros Hp. specialize (Hrows p Hp). unfold annotation_row in Hrows. rewrite !andb_true_iff in Hrows. destruct Hrows as [[[Ha Hc] Hv] _]. exact (conj Ha (conj Hc Hv)).
  - destruct (decide (p ∈ table_keys)) as [Hp|Hp].
    + specialize (Hrows p Hp). unfold annotation_row in Hrows. rewrite !andb_true_iff in Hrows. destruct Hrows as [_ E%Bool.eqb_prop]. rewrite E. reflexivity.
    + unfold annotated. destruct (table_find p AnnotationsForVehicleProperty) eqn:E; [by destruct Hp; apply Hin|].
      destruct (table_find p EnumsForVehicleProperty) eqn:E2; [by destruct Hp; apply Hen|done].
Qed.

Lemma annotations_consistent_witness :
  annotated VehicleProperty.INFO_FUEL_TYPE "data_enum" = true ↔
  getSupportedEnumValuesForProperty (λ _, [0]) VehicleProperty.INFO_FUEL_TYPE ≠ ∅.
Proof. apply annotations_consistent. done. Defined.
