(* ===== verification/JsonValue.v ===== *)
(** * JSON values

    The program parses its files with jsoncpp, a library outside the
    repository.  Its values are a type parameter with the operations the code
    calls and what they are documented to do; [None] is an exception
    ([Json::LogicError]).  [Json] is one concrete value type, which converts
    values to their own kind only (and integers to floats). *)

From stdpp Require Import base list strings.
From Stdlib Require Import ZArith Lia.
From S2P Require Import Prelude Float32.

Local Open Scope Z_scope.

Class JsonValue (J : Type) := {
  isObject : J → bool;
  isArray : J → bool;
  isString : J → bool;
  isBool : J → bool;
  isInt : J → bool;
  isInt64 : J → bool;
  isDouble : J → bool;
  asBool : J → option bool;
  asInt : J → option Z;
  asInt64 : J → option Z;
  asFloat : J → option f32;
  asString : J → option string;
  size : J → nat;
  empty : J → bool;                          (* null, or an array or object of size 0 *)
  iterate : J → list J;                      (* the elements of an array, the values of an object *)
  elementAt : J → nat → J;                   (* [operator[](ArrayIndex)] of an array *)
  isMember : string → J → bool;              (* of an object *)
  member : string → J → J;                   (* [operator[](key)]: null when absent *)
}.

(** A conversion after the test of its type does not throw. *)
Class JsonLaws (J : Type) `{JsonValue J} : Prop := {
  asBool_ok j : isBool j = true → is_Some (asBool j);
  asInt_ok j : isInt j = true → ∃ z, asInt j = Some z ∧ in_i32 z;
  asInt64_ok j : isInt64 j = true → ∃ z, asInt64 j = Some z ∧ in_i64 z;
  asFloat_ok j : isDouble j = true → is_Some (asFloat j);
  asString_ok j : isString j = true → is_Some (asString j);
}.

(** ** A concrete value type *)

Inductive Json : Type :=
| JNull
| JBool (b : bool)
| JInt (z : Z)
| JDouble (x : f32)
| JString (s : string)
| JArray (l : list Json)
| JObject (l : list (string * Json)).

Fixpoint assoc {A} (k : string) (l : list (string * A)) : option A :=
  match l with
  | [] => None
  | (k', a) :: l' => if String.eqb k k' then Some a else assoc k l'
  end.

Definition fits (lo hi : Z) (j : Json) : option Z :=
  match j with JInt z => if (lo <=? z) && (z <? hi) then Some z else None | _ => None end.

#[export] Instance Json_value : JsonValue Json := {|
  isObject j := match j with JObject _ => true | _ => false end;
  isArray j := match j with JArray _ => true | _ => false end;
  isString j := match j with JString _ => true | _ => false end;
  isBool j := match j with JBool _ => true | _ => false end;
  isInt j := bool_decide (is_Some (fits (- two31) two31 j));
  isInt64 j := bool_decide (is_Some (fits (- two63) two63 j));
  isDouble j := match j with JDouble _ | JInt _ => true | _ => false end;
  asBool j := match j with JBool b => Some b | _ => None end;
  asInt j := fits (- two31) two31 j;
  asInt64 j := fits (- two63) two63 j;
  asFloat j := match j with JDouble x => Some x | JInt z => Some (f32_of_Z z) | _ => None end;
  asString j := match j with JString s => Some s | _ => None end;
  size j := match j with JArray l => length l | JObject l => length l | _ => 0%nat end;
  empty j := match j with JNull | JArray [] | JObject [] => true | _ => false end;
  iterate j := match j with JArray l => l | JObject l => snd <$> l | _ => [] end;
  elementAt j i := match j with JArray l => default JNull (l !! i) | _ => JNull end;
  isMember k j := match j with JObject l => bool_decide (is_Some (assoc k l)) | _ => false end;
  member k j := match j with JObject l => default JNull (assoc k l) | _ => JNull end;
|}.

Lemma fits_range lo hi j z : fits lo hi j = Some z → lo ≤ z < hi.
Proof.
  destruct j; try done. cbn. destruct (_ && _) eqn:E; [|done]. intros [= <-].
  rewrite andb_true_iff, Z.leb_le, Z.ltb_lt in E. lia.
Qed.

Lemma is_Some_fits lo hi j : bool_decide (is_Some (fits lo hi j)) = true → ∃ z, fits lo hi j = Some z ∧ lo ≤ z < hi.
Proof. intros (z & Hz)%bool_decide_eq_true. exists z. split; [done|]. by eapply fits_range. Qed.

#[export] Instance Json_laws : JsonLaws Json.
Proof.
  split; intros j; [|apply is_Some_fits|apply is_Some_fits| |]; destruct j; try done; by eexists.
Qed.
