(* ===== verification/JsonConfigLoader.v ===== *)
(** * JsonConfigLoader: parsing the property configuration

    Models [default_config/JsonConfigLoader]: [JsonValueParser] (fields given as
    JSON values or as constants "TYPE::NAME"), [JsonConfigParser] (fields that
    may come from an area or from its property, defaults from the generated
    tables, accumulated errors) and [loadPropConfig], with the constants of
    [utils/common/include/PropertyUtils.h].

    The text of an error is not modelled, only which error it is.  The
    enumerators of the generated AIDL enums, with the names [toString] gives
    them, are the parameter [enumerators]. *)

From stdpp Require Import base gmap list strings.
From Stdlib Require Import ZArith Lia.
From S2P Require Import Prelude Float32 VehicleTypes VehicleProperty PropertyTables JsonValue.

Local Open Scope string_scope.
Local Open Scope list_scope.
Local Open Scope Z_scope.

(** ** Constants *)

Definition DOOR_1_LEFT : Z := 1.
Definition DOOR_1_RIGHT : Z := 4.
Definition DOOR_2_LEFT : Z := 0x10.
Definition DOOR_2_RIGHT : Z := 0x40.
Definition DOOR_REAR : Z := 0x20000000.
Definition WINDOW_1_LEFT : Z := 0x10.
Definition WINDOW_1_RIGHT : Z := 0x40.
Definition WINDOW_2_LEFT : Z := 0x100.
Definition WINDOW_2_RIGHT : Z := 0x400.
Definition WINDOW_ROOF_TOP_1 : Z := 0x10000.
Definition FAN_DIRECTION_FACE : Z := 1.
Definition FAN_DIRECTION_FLOOR : Z := 2.
Definition FAN_DIRECTION_DEFROST : Z := 4.
Definition SEAT_1_LEFT : Z := 1.
Definition SEAT_1_RIGHT : Z := 4.
Definition SEAT_2_LEFT : Z := 0x10.
Definition SEAT_2_RIGHT : Z := 0x40.
Definition SEAT_2_CENTER : Z := 0x20.
Definition FUEL_DOOR_REAR_LEFT : Z := 4.
Definition CHARGE_PORT_FRONT_LEFT : Z := 1.
Definition CHARGE_PORT_REAR_LEFT : Z := 4.
Definition LIGHT_STATE_ON : Z := 1.
Definition LIGHT_STATE_OFF : Z := 0.
Definition LIGHT_SWITCH_OFF : Z := 0.
Definition LIGHT_SWITCH_ON : Z := 1.
Definition LIGHT_SWITCH_AUTO : Z := 0x100.
Definition EV_STOPPING_MODE_CREEP : Z := 1.
Definition EV_STOPPING_MODE_ROLL : Z := 2.
Definition EV_STOPPING_MODE_HOLD : Z := 3.
Definition WHEEL_FRONT_LEFT : Z := 1.
Definition WHEEL_FRONT_RIGHT : Z := 2.
Definition WHEEL_REAR_LEFT : Z := 4.
Definition WHEEL_REAR_RIGHT : Z := 8.
Definition HVAC_LEFT : Z := Z.lor (Z.lor SEAT_1_LEFT SEAT_2_LEFT) SEAT_2_CENTER.
Definition HVAC_RIGHT : Z := Z.lor SEAT_1_RIGHT SEAT_2_RIGHT.
Definition HVAC_ALL : Z := Z.lor HVAC_LEFT HVAC_RIGHT.
Definition HVAC_FRONT_ROW : Z := Z.lor SEAT_1_LEFT SEAT_1_RIGHT.
Definition HVAC_REAR_ROW : Z := Z.lor (Z.lor SEAT_2_LEFT SEAT_2_CENTER) SEAT_2_RIGHT.

Definition COMPATIBLE_API_VERSIONS : list Z := [1; 2].

Definition CONSTANTS_BY_NAME : list (string * Z) :=
  [("DOOR_1_RIGHT", DOOR_1_RIGHT);
   ("DOOR_1_LEFT", DOOR_1_LEFT);
   ("DOOR_2_RIGHT", DOOR_2_RIGHT);
   ("DOOR_2_LEFT", DOOR_2_LEFT);
   ("DOOR_REAR", DOOR_REAR);
   ("HVAC_ALL", HVAC_ALL);
   ("HVAC_LEFT", HVAC_LEFT);
   ("HVAC_RIGHT", HVAC_RIGHT);
   ("HVAC_FRONT_ROW", HVAC_FRONT_ROW);
   ("HVAC_REAR_ROW", HVAC_REAR_ROW);
   ("WINDOW_1_LEFT", WINDOW_1_LEFT);
   ("WINDOW_1_RIGHT", WINDOW_1_RIGHT);
   ("WINDOW_2_LEFT", WINDOW_2_LEFT);
   ("WINDOW_2_RIGHT", WINDOW_2_RIGHT);
   ("WINDOW_ROOF_TOP_1", WINDOW_ROOF_TOP_1);
   ("WINDOW_1_RIGHT_2_LEFT_2_RIGHT", Z.lor (Z.lor WINDOW_1_RIGHT WINDOW_2_LEFT) WINDOW_2_RIGHT);
   ("SEAT_1_LEFT", SEAT_1_LEFT);
   ("SEAT_1_RIGHT", SEAT_1_RIGHT);
   ("SEAT_2_LEFT", SEAT_2_LEFT);
   ("SEAT_2_RIGHT", SEAT_2_RIGHT);
   ("SEAT_2_CENTER", SEAT_2_CENTER);
   ("SEAT_2_LEFT_2_RIGHT_2_CENTER", Z.lor (Z.lor SEAT_2_LEFT SEAT_2_RIGHT) SEAT_2_CENTER);
   ("WHEEL_REAR_RIGHT", WHEEL_REAR_RIGHT);
   ("WHEEL_REAR_LEFT", WHEEL_REAR_LEFT);
   ("WHEEL_FRONT_RIGHT", WHEEL_FRONT_RIGHT);
   ("WHEEL_FRONT_LEFT", WHEEL_FRONT_LEFT);
   ("CHARGE_PORT_FRONT_LEFT", CHARGE_PORT_FRONT_LEFT);
   ("CHARGE_PORT_REAR_LEFT", CHARGE_PORT_REAR_LEFT);
   ("FAN_DIRECTION_UNKNOWN", 0);
   ("FAN_DIRECTION_FLOOR", FAN_DIRECTION_FLOOR);
   ("FAN_DIRECTION_FACE", FAN_DIRECTION_FACE);
   ("FAN_DIRECTION_DEFROST", FAN_DIRECTION_DEFROST);
   ("FAN_DIRECTION_FACE_FLOOR", Z.lor FAN_DIRECTION_FACE FAN_DIRECTION_FLOOR);
   ("FAN_DIRECTION_FACE_DEFROST", Z.lor FAN_DIRECTION_FACE FAN_DIRECTION_DEFROST);
   ("FAN_DIRECTION_FLOOR_DEFROST", Z.lor FAN_DIRECTION_FLOOR FAN_DIRECTION_DEFROST);
   ("FAN_DIRECTION_FLOOR_DEFROST_FACE", Z.lor (Z.lor FAN_DIRECTION_FLOOR FAN_DIRECTION_DEFROST) FAN_DIRECTION_FACE);
   ("FUEL_DOOR_REAR_LEFT", FUEL_DOOR_REAR_LEFT);
   ("LIGHT_STATE_ON", LIGHT_STATE_ON);
   ("LIGHT_STATE_OFF", LIGHT_STATE_OFF);
   ("LIGHT_SWITCH_OFF", LIGHT_SWITCH_OFF);
   ("LIGHT_SWITCH_ON", LIGHT_SWITCH_ON);
   ("LIGHT_SWITCH_AUTO", LIGHT_SWITCH_AUTO);
   ("EV_STOPPING_MODE_CREEP", EV_STOPPING_MODE_CREEP);
   ("EV_STOPPING_MODE_ROLL", EV_STOPPING_MODE_ROLL);
   ("EV_STOPPING_MODE_HOLD", EV_STOPPING_MODE_HOLD);
   ("MIRROR_DRIVER_LEFT_RIGHT", Z.lor 1 2)].

Definition enumTypes : list string :=
  ["VehiclePropertyAccess";
   "VehiclePropertyChangeMode";
   "LocationCharacterization";
   "VehicleGear";
   "VehicleAreaWindow";
   "VehicleAreaMirror";
   "VehicleOilLevel";
   "VehicleUnit";
   "VehicleSeatOccupancyState";
   "VehicleHvacFanDirection";
   "VehicleApPowerStateReport";
   "VehicleTurnSignal";
   "VehicleVendorPermission";
   "EvsServiceType";
   "EvsServiceState";
   "EvConnectorType";
   "VehicleProperty";
   "GsrComplianceRequirementType";
   "VehicleIgnitionState";
   "FuelType";
   "WindshieldWipersState";
   "WindshieldWipersSwitch";
   "VehicleAutonomousState";
   "VehicleAirbagLocation";
   "ImpactSensorLocation";
   "VehicleSizeClass";
   "EmergencyLaneKeepAssistState";
   "CameraServiceState";
   "CruiseControlType";
   "CruiseControlState";
   "CruiseControlCommand";
   "HandsOnDetectionDriverState";
   "HandsOnDetectionWarning";
   "DriverDrowsinessAttentionState";
   "DriverDrowsinessAttentionWarning";
   "DriverDistractionState";
   "DriverDistractionWarning";
   "ErrorState";
   "AutomaticEmergencyBrakingState";
   "ForwardCollisionWarningState";
   "BlindSpotWarningState";
   "LaneDepartureWarningState";
   "LaneKeepAssistState";
   "LaneCenteringAssistCommand";
   "LaneCenteringAssistState";
   "LowSpeedCollisionWarningState";
   "ElectronicStabilityControlState";
   "CrossTrafficMonitoringWarningState";
   "LowSpeedAutomaticEmergencyBrakingState";
   "VehicleApPowerBootupReason"].

(** ** Errors and the parsers' effect

    The parsers append to [errors]; [EM] threads that vector. *)

Inductive ConfigError : Type :=
| NotAnObject
| NotAnArray (field : string)
| MissingField (field : string)
| WrongType (field : string)
| InvalidConstant (field : string)
| UndefinedConstant (type name : string)
| NotSpecified (field : string)
| Thrown.                                  (* an exception of the JSON library *)

Definition EM (A : Type) : Type := list ConfigError → A * list ConfigError.
Definition eret {A} (a : A) : EM A := λ errors, (a, errors).
Definition ebind {A B} (m : EM A) (k : A → EM B) : EM B := λ errors,
  let '(a, errors') := m errors in k a errors'.
Definition push_error (e : ConfigError) : EM unit := λ errors, (tt, errors ++ [e]).

Notation "'do' x := m 'in' k" := (ebind m (λ x, k))
  (at level 10, x pattern, m at level 100, k at level 200) : vhal_scope.
Local Open Scope vhal_scope.

Record ConfigDeclaration : Type := mkConfigDeclaration {
  config : VehiclePropConfig;
  initialValue : RawPropValues;
  initialAreaValues : gmap Z RawPropValues;
  supportedValuesForAreaId : gmap Z (list f32);
}.

(** [convertValueToType] and the cast of a constant. *)
Record FieldType (J T : Type) : Type := mkFieldType {
  convertValueToType : string → J → result ConfigError T;
  ofConstant : Z → T;
}.
Arguments convertValueToType {J T}.
Arguments ofConstant {J T}.
Arguments mkFieldType {J T}.

(** The outcome of trying to parse into a variable: whether it succeeded,
    whether the field was found, and the variable's content. *)
Record Tried (T : Type) : Type := mkTried { tried_ok : bool; tried_found : bool; tried_out : T }.
Arguments mkTried {T}.
Arguments tried_ok {T}.
Arguments tried_found {T}.
Arguments tried_out {T}.

Section loader.
  Context {J : Type} `{!JsonValue J} (enumerators : string → list (string * Z)).

(** ** JsonValueParser *)

Definition checked {T} (fieldName : string) (test : bool) (r : option T) : result ConfigError T :=
  if negb test then Err (WrongType fieldName)
  else match r with Some a => Ok a | None => Err Thrown end.

Definition boolField : FieldType J bool :=
  mkFieldType (λ fieldName v, checked fieldName (isBool v) (asBool v)) (λ z, negb (z =? 0)).
Definition int32Field : FieldType J Z :=
  mkFieldType (λ fieldName v, checked fieldName (isInt v) (asInt v)) (λ z, z).
Definition floatField : FieldType J f32 :=
  mkFieldType (λ fieldName v, checked fieldName (isDouble v) (asFloat v)) f32_of_Z.
Definition int64Field : FieldType J Z :=
  mkFieldType (λ fieldName v, checked fieldName (isInt64 v) (asInt64 v)) (λ z, z).

Definition parseStringValue (fieldName : string) (v : J) : result ConfigError string :=
  checked fieldName (isString v) (asString v).

(** The map of [ConstantParser<T>]; a later enumerator of the same name wins. *)
Definition mValueByName (type : string) : gmap string Z :=
  if String.eqb type "VehicleProperty" then
    <["RANGE_REMAINING" := VehicleProperty.RANGE_REMAINING]>
      (<["FUEL_DOOR_OPEN" := VehicleProperty.FUEL_DOOR_OPEN]>
        (foldl (λ m nv, <[nv.1 := nv.2]> m) ∅ (enumerators type)))
  else
    foldl (λ m nv, <[nv.1 := nv.2]> (if String.eqb nv.1 "GALLON" then <["US_GALLON" := nv.2]> m else m))
      ∅ (enumerators type).

(** [None]: no parser for the type; [Some None]: no such constant. *)
Definition constantParser (type name : string) : option (option Z) :=
  if String.eqb type "Constants" then Some (assoc name CONSTANTS_BY_NAME)
  else if existsb (String.eqb type) enumTypes then Some (mValueByName type !! name)
  else None.

Definition maybeGetTypeAndValueName (jsonFieldValue : string) : option (string * string) :=
  match String.index 0 "::" jsonFieldValue with
  | None => None
  | Some pos =>
      let type := String.substring 0 pos jsonFieldValue in
      let valueName := String.substring (pos + 2) (String.length jsonFieldValue - (pos + 2)) jsonFieldValue in
      if negb (String.eqb type "Constants") && negb (existsb (String.eqb type) enumTypes) then None
      else Some (type, valueName)
  end.

Definition parseConstantValue (typeValueName : string * string) : result ConfigError Z :=
  let '(type, valueName) := typeValueName in
  match constantParser type valueName with
  | None => Err (UndefinedConstant type valueName)
  | Some None => Err (UndefinedConstant type valueName)
  | Some (Some z) => Ok z
  end.

Definition parseValue {T} (t : FieldType J T) (fieldName : string) (v : J) : result ConfigError T :=
  if negb (isString v) then convertValueToType t fieldName v
  else
    match asString v with
    | None => Err Thrown
    | Some str =>
        match maybeGetTypeAndValueName str with
        | None => Err (InvalidConstant fieldName)
        | Some typeAndValue =>
            match parseConstantValue typeAndValue with
            | Err e => Err e
            | Ok constantValue => Ok (ofConstant t constantValue)
            end
        end
    end.

Definition elements (v : J) : list J := elementAt v <$> seq 0 (size v).

Fixpoint parse_elements {T} (t : FieldType J T) (fieldName : string) (l : list J) : result ConfigError (list T) :=
  match l with
  | [] => Ok []
  | v :: l' =>
      match parseValue t fieldName v with
      | Err e => Err e
      | Ok a => match parse_elements t fieldName l' with Err e => Err e | Ok l => Ok (a :: l) end
      end
  end.

Definition parseArray {T} (t : FieldType J T) (fieldName : string) (v : J) : result ConfigError (list T) :=
  if negb (isArray v) then Err (WrongType fieldName) else parse_elements t fieldName (elements v).

(** ** JsonConfigParser *)

(** The body the two [tryParse...ToVariable] templates share: [parse] is
    [parseValue<T>] or [parseArray<T>]. *)
Definition tryParse {T} (parse : string → J → result ConfigError T) (parentJsonNode : J)
    (fieldName : string) (fieldIsOptional : bool) (out : T) : EM (Tried T) :=
  if negb (isObject parentJsonNode) then
    do _ := push_error NotAnObject in eret (mkTried false false out)
  else if negb (isMember fieldName parentJsonNode) then
    if negb fieldIsOptional then
      do _ := push_error (MissingField fieldName) in eret (mkTried false false out)
    else eret (mkTried true false out)
  else
    match parse fieldName (member fieldName parentJsonNode) with
    | Err e => do _ := push_error e in eret (mkTried false false out)
    | Ok a => eret (mkTried true true a)
    end.

(** The field may come from any of the parents; the first that has it decides. *)
Fixpoint tryParseParents {T} (parse : string → J → result ConfigError T) (parentJsonNodes : list J)
    (fieldName : string) (fieldIsOptional : bool) (out : T) : EM (Tried T) :=
  match parentJsonNodes with
  | [] =>
      if negb fieldIsOptional then
        do _ := push_error (MissingField fieldName) in eret (mkTried false false out)
      else eret (mkTried true false out)
  | parentJsonNode :: parentJsonNodes' =>
      do r := tryParse parse parentJsonNode fieldName true out in
      if negb (tried_ok r) then eret r
      else if tried_found r then eret r
      else tryParseParents parse parentJsonNodes' fieldName fieldIsOptional (tried_out r)
  end.

Definition tryParseJsonValueToVariable {T} (t : FieldType J T) := tryParse (parseValue t).
Definition tryParseJsonArrayToVariable {T} (t : FieldType J T) := tryParse (parseArray t).
Definition tryParseJsonString := tryParse parseStringValue.
Definition tryParseJsonArrayFromParents {T} (t : FieldType J T) := tryParseParents (parseArray t).

(** The variable's content after trying, whether it succeeded or not. *)
Definition content {T} (m : EM (Tried T)) : EM T := do r := m in eret (tried_out r).

Definition parseAccessChangeMode (parentJsonNode : J) (fieldName : string)
    (defaultAccessChangeModeValue : option Z) (out : Z) : EM Z :=
  if negb (isObject parentJsonNode) then do _ := push_error NotAnObject in eret out
  else if isMember fieldName parentJsonNode then
    match parseValue int32Field fieldName (member fieldName parentJsonNode) with
    | Err e => do _ := push_error e in eret out
    | Ok z => eret z
    end
  else
    match defaultAccessChangeModeValue with
    | None => do _ := push_error (NotSpecified fieldName) in eret out
    | Some z => eret z
    end.

Definition parsePropValues (parentJsonNode : J) (fieldName : string) (out : RawPropValues) :
    EM (bool * RawPropValues) :=
  if negb (isObject parentJsonNode) then do _ := push_error NotAnObject in eret (false, out)
  else if negb (isMember fieldName parentJsonNode) then eret (false, out)
  else
    let jsonValue := member fieldName parentJsonNode in
    do i32 := tryParseJsonArrayToVariable int32Field jsonValue "int32Values" true (int32Values out) in
    do f := tryParseJsonArrayToVariable floatField jsonValue "floatValues" true (floatValues out) in
    do i64 := tryParseJsonArrayToVariable int64Field jsonValue "int64Values" true (int64Values out) in
    do s := tryParseJsonString jsonValue "stringValue" true (stringValue out) in
    eret (tried_ok i32 && tried_ok f && tried_ok i64 && tried_ok s,
          mkRaw (tried_out i32) (tried_out f) (tried_out i64) (byteValues out) (tried_out s)).

Definition parseSupportedValueInfo (j : J) : EM HasSupportedValueInfo :=
  do lo := content (tryParseJsonValueToVariable boolField j "hasMinSupportedValue" true false) in
  do hi := content (tryParseJsonValueToVariable boolField j "hasMaxSupportedValue" true false) in
  do l := content (tryParseJsonValueToVariable boolField j "hasSupportedValuesList" true false) in
  eret (mkHasSupportedValueInfo lo hi l).

(** The fields of one area, which may come from the area or its property. *)
Definition parseAreaConfig (parentJsonNode jsonAreaConfig : J) (areaId : Z) (config : VehiclePropConfig) :
    EM (VehicleAreaConfig * list f32) :=
  let parents := [jsonAreaConfig; parentJsonNode] in
  let field {T} (t : FieldType J T) name (out : T) :=
    content (tryParseParents (parseValue t) parents name true out) in
  do access := parseAccessChangeMode jsonAreaConfig "access" (Some (pc_access config)) 0 in
  do minI32 := field int32Field "minInt32Value" 0 in
  do maxI32 := field int32Field "maxInt32Value" 0 in
  do minI64 := field int64Field "minInt64Value" 0 in
  do maxI64 := field int64Field "maxInt64Value" 0 in
  do minF := field floatField "minFloatValue" f32_zero in
  do maxF := field floatField "maxFloatValue" f32_zero in
  do vur := field boolField "supportVariableUpdateRate" true in
  do enums := content (tryParseJsonArrayFromParents int64Field parents "supportedEnumValues" true []) in
  do supported := content (tryParseJsonArrayFromParents floatField parents "supportedValues" true []) in
  do info :=
    (if isMember "hasSupportedValueInfo" jsonAreaConfig then
       do i := parseSupportedValueInfo (member "hasSupportedValueInfo" jsonAreaConfig) in eret (Some i)
     else if isMember "hasSupportedValueInfo" parentJsonNode then
       do i := parseSupportedValueInfo (member "hasSupportedValueInfo" parentJsonNode) in eret (Some i)
     else eret None) in
  eret (mkAreaConfig areaId minI32 maxI32 minI64 maxI64 minF maxF
          (match enums with [] => None | _ => Some enums end) access vur info, supported).

Definition parseArea (parentJsonNode : J) (decl : ConfigDeclaration) (jsonAreaConfig : J) :
    EM ConfigDeclaration :=
  do area := tryParseJsonValueToVariable int32Field jsonAreaConfig "areaId" false 0 in
  if negb (tried_ok area) then eret decl
  else
    let areaId := tried_out area in
    do (areaConfig, supported) := parseAreaConfig parentJsonNode jsonAreaConfig areaId (config decl) in
    do (ok, areaValue) := parsePropValues jsonAreaConfig "defaultValue" emptyRaw in
    let c := config decl in
    eret (mkConfigDeclaration
      (mkPropConfig (pc_prop c) (pc_access c) (changeMode c) (areaConfigs c ++ [areaConfig]) (configArray c)
         (configString c) (minSampleRate c) (maxSampleRate c))
      (initialValue decl)
      (if ok then <[areaId := areaValue]> (initialAreaValues decl)
       else if negb (RawPropValues_eqb (initialValue decl) emptyRaw)
            then <[areaId := initialValue decl]> (initialAreaValues decl)
            else initialAreaValues decl)
      (match supported with [] => supportedValuesForAreaId decl
       | _ => <[areaId := supported]> (supportedValuesForAreaId decl) end)).

Fixpoint parse_each {A} (body : A → J → EM A) (a : A) (l : list J) : EM A :=
  match l with
  | [] => eret a
  | j :: l' => do a' := body a j in parse_each body a' l'
  end.

Definition parseAreas (parentJsonNode : J) (fieldName : string) (decl : ConfigDeclaration) :
    EM ConfigDeclaration :=
  if negb (isObject parentJsonNode) then do _ := push_error NotAnObject in eret decl
  else if negb (isMember fieldName parentJsonNode) then eret decl
  else
    let jsonValue := member fieldName parentJsonNode in
    if negb (isArray jsonValue) then do _ := push_error (NotAnArray fieldName) in eret decl
    else parse_each (parseArea parentJsonNode) decl (elements jsonValue).

(** If no area is configured, variable update rate is allowed globally. *)
Definition globalAreaConfig (access : Z) : VehicleAreaConfig :=
  mkAreaConfig 0 0 0 0 0 f32_zero f32_zero None access true None.

Definition parseProperty (propJsonValue : J) (propId : Z) : EM ConfigDeclaration :=
  do access := parseAccessChangeMode propJsonValue "access"
                 (table_find propId DefaultAccessForVehicleProperty) 0 in
  do mode := parseAccessChangeMode propJsonValue "changeMode"
               (table_find propId ChangeModeForVehicleProperty) 0 in
  do str := content (tryParseJsonString propJsonValue "configString" true "") in
  do arr := content (tryParseJsonArrayToVariable int32Field propJsonValue "configArray" true []) in
  do (_, initial) := parsePropValues propJsonValue "defaultValue" emptyRaw in
  do minRate := content (tryParseJsonValueToVariable floatField propJsonValue "minSampleRate" true f32_zero) in
  do maxRate := content (tryParseJsonValueToVariable floatField propJsonValue "maxSampleRate" true f32_zero) in
  do decl := parseAreas propJsonValue "areas"
               (mkConfigDeclaration (mkPropConfig propId access mode [] arr str minRate maxRate) initial ∅ ∅) in
  let c := config decl in
  match areaConfigs c with
  | [] => eret (mkConfigDeclaration
            (mkPropConfig (pc_prop c) (pc_access c) (changeMode c) [globalAreaConfig (pc_access c)] (configArray c)
               (configString c) (minSampleRate c) (maxSampleRate c))
            (initialValue decl) (initialAreaValues decl) (supportedValuesForAreaId decl))
  | _ => eret decl
  end.

Definition parseEachProperty (propJsonValue : J) : EM (option ConfigDeclaration) := λ errors,
  let initialErrorCount := length errors in
  (do property := tryParseJsonValueToVariable int32Field propJsonValue "property" false 0 in
   if negb (tried_ok property) then eret None
   else
     do decl := parseProperty propJsonValue (tried_out property) in
     λ errors', (if negb (length errors' =? initialErrorCount)%nat then None else Some decl, errors')) errors.

Inductive LoadError : Type :=
| ParseError                               (* not JSON *)
| RootNotAnObject
| Incompatible
| MissingProperties
| PropertyErrors (errors : list ConfigError)
| Exception.                               (* thrown by the JSON library *)

Fixpoint parseProperties (l : list J) (configsByPropId : gmap Z ConfigDeclaration) :
    EM (gmap Z ConfigDeclaration) :=
  match l with
  | [] => eret configsByPropId
  | j :: l' =>
      do maybeConfig := parseEachProperty j in
      parseProperties l' (match maybeConfig with
                          | Some decl => <[pc_prop (config decl) := decl]> configsByPropId
                          | None => configsByPropId
                          end)
  end.

(** [None] when the stream is not JSON. *)
Definition parseJsonConfig (stream : option J) : result LoadError (gmap Z ConfigDeclaration) :=
  match stream with
  | None => Err ParseError
  | Some root =>
      if negb (isObject root) then Err RootNotAnObject
      else
        match (if isMember "apiVersion" root then asInt (member "apiVersion" root) else Some 1) with
        | None => Err Exception
        | Some apiVersion =>
            if negb (existsb (Z.eqb apiVersion) COMPATIBLE_API_VERSIONS) then Err Incompatible
            else if negb (isMember "properties" root) || negb (isArray (member "properties" root))
            then Err MissingProperties
            else
              let '(configsByPropId, errors) := parseProperties (elements (member "properties" root)) ∅ [] in
              match errors with
              | [] => Ok configsByPropId
              | _ => Err (PropertyErrors errors)
              end
        end
  end.

(** [loadPropConfig(stream)]. *)
Definition loadPropConfig (stream : option J) : result LoadError (gmap Z ConfigDeclaration) :=
  parseJsonConfig stream.

(** [loadPropConfigsFromDir] over the files of the directory, each readable and
    parsed or not ([None]: the directory cannot be opened). *)
Definition loadPropConfigsFromDir (files : option (list (option J)))
    (configsByPropId : gmap Z ConfigDeclaration) : bool * gmap Z ConfigDeclaration :=
  match files with
  | None => (false, configsByPropId)
  | Some files =>
      (true, foldl (λ m file, match loadPropConfig file with Ok l => l ∪ m | Err _ => m end) configsByPropId files)
  end.
End loader.

(** ** Errors only accumulate

    A parser's result does not depend on the errors before it, and it appends
    its own. *)

Definition appends {A} (m : EM A) : Prop := ∀ errors, m errors = (fst (m []), errors ++ snd (m [])).

Create HintDb em.

Lemma eret_appends {A} (a : A) : appends (eret a).
Proof. intros errors. unfold eret. cbn. by rewrite app_nil_r. Qed.

Lemma push_appends e : appends (push_error e).
Proof. intros errors. done. Qed.

Lemma ebind_appends {A B} (m : EM A) (k : A → EM B) : appends m → (∀ a, appends (k a)) → appends (ebind m k).
Proof.
  intros Hm Hk errors. unfold ebind. rewrite (Hm errors). destruct (m []) as [a es]. cbn.
  rewrite (Hk a (errors ++ es)), (Hk a es). cbn. by rewrite app_assoc.
Qed.

#[export] Hint Resolve eret_appends push_appends ebind_appends : em.

Ltac appends :=
  repeat first
    [ apply ebind_appends | apply eret_appends | apply push_appends
    | progress intros | progress case_match | solve [auto with em] ].

Section appends.
  Context {J : Type} `{!JsonValue J} (enumerators : string → list (string * Z)).

Lemma tryParse_appends {T} (parse : string → J → result ConfigError T) j f o (out : T) :
  appends (tryParse parse j f o out).
Proof. unfold tryParse. appends. Qed.

Lemma tryValue_appends {T} (t : FieldType J T) j f o (out : T) :
  appends (tryParseJsonValueToVariable enumerators t j f o out).
Proof. apply tryParse_appends. Qed.
Lemma tryArray_appends {T} (t : FieldType J T) j f o (out : list T) :
  appends (tryParseJsonArrayToVariable enumerators t j f o out).
Proof. apply tryParse_appends. Qed.
Lemma tryString_appends j f o out : appends (tryParseJsonString j f o out).
Proof. apply tryParse_appends. Qed.

Lemma tryParseParents_appends {T} (parse : string → J → result ConfigError T) js f o : ∀ (out : T),
  appends (tryParseParents parse js f o out).
Proof.
  induction js as [|j js IH]; intros out; cbn; [appends|].
  apply ebind_appends; [apply tryParse_appends|]. intros r. destruct r as [[] [] x]; cbn; auto with em.
Qed.

Lemma content_appends {T} (m : EM (Tried T)) : appends m → appends (content m).
Proof. intros H. apply ebind_appends; [done|]. intros r. apply eret_appends. Qed.

Lemma parseAccessChangeMode_appends j f d out : appends (parseAccessChangeMode enumerators j f d out).
Proof. unfold parseAccessChangeMode. appends. Qed.

#[local] Hint Resolve tryParse_appends tryValue_appends tryArray_appends tryString_appends tryParseParents_appends content_appends parseAccessChangeMode_appends : em.

Lemma parsePropValues_appends j f out : appends (parsePropValues enumerators j f out).
Proof. unfold parsePropValues. appends. Qed.

Lemma parseSupportedValueInfo_appends j : appends (parseSupportedValueInfo enumerators j).
Proof. unfold parseSupportedValueInfo. appends. Qed.

#[local] Hint Resolve parsePropValues_appends parseSupportedValueInfo_appends : em.

Lemma parseAreaConfig_appends p j a c : appends (parseAreaConfig enumerators p j a c).
Proof. unfold parseAreaConfig, tryParseJsonArrayFromParents. appends. Qed.

#[local] Hint Resolve parseAreaConfig_appends : em.

Lemma parseArea_appends p d j : appends (parseArea enumerators p d j).
Proof. unfold parseArea. appends. Qed.

Lemma parse_each_appends {A} (body : A → J → EM A) l : (∀ a j, appends (body a j)) → ∀ a, appends (parse_each body a l).
Proof. intros Hb. induction l as [|j l IH]; intros a; cbn; [apply eret_appends|]. by apply ebind_appends. Qed.

Lemma parseAreas_appends p f d : appends (parseAreas enumerators p f d).
Proof.
  unfold parseAreas. repeat case_match; [appends..|].
  apply parse_each_appends. intros. apply parseArea_appends.
Qed.

#[local] Hint Resolve parseAreas_appends : em.

Lemma parseProperty_appends j p : appends (parseProperty enumerators j p).
Proof. unfold parseProperty. appends. Qed.

Lemma parseEachProperty_appends j : appends (parseEachProperty enumerators j).
Proof.
  intros errors. unfold parseEachProperty, ebind.
  rewrite (tryValue_appends int32Field j "property" false 0 errors).
  destruct (tryParseJsonValueToVariable _ _ _ _ _ _ []) as [r es]. cbn [fst snd].
  destruct (tried_ok r); cbn [negb]; [|done].
  rewrite (parseProperty_appends j (tried_out r) (errors ++ es)), (parseProperty_appends j (tried_out r) es).
  cbn [fst snd]. rewrite <- app_assoc. f_equal. set (new := es ++ _).
  rewrite length_app. cbn [length].
  destruct (Nat.eqb_spec (length errors + length new) (length errors)), (Nat.eqb_spec (length new) 0); try done; lia.
Qed.
End appends.

#[export] Hint Resolve tryParse_appends tryValue_appends tryArray_appends tryString_appends
  tryParseParents_appends content_appends parseAccessChangeMode_appends parsePropValues_appends
  parseSupportedValueInfo_appends parseAreaConfig_appends parseArea_appends parseAreas_appends
  parseProperty_appends parseEachProperty_appends : em.
