(* ===== verification/JsonConfigLaws.v ===== *)
(** * JsonConfigLoader: what a loaded configuration is

    The theorems about JsonConfigLoader: a file loads exactly when none of its
    properties has an error; each declaration is the one its JSON object
    describes, with the fields an area inherits from its property and the
    defaults of the generated tables; and constants "TYPE::NAME" have the value
    of the enumerator. *)

From stdpp Require Import base gmap list strings.
From Stdlib Require Import ZArith Lia.
From S2P Require Import Prelude Float32 VehicleTypes VehicleProperty PropertyTables JsonValue JsonConfigLoader.

Local Open Scope string_scope.
Local Open Scope list_scope.
Local Open Scope Z_scope.
Local Open Scope vhal_scope.

(** ** Parsers that report no error *)

Lemma ebind_silent {A B} (m : EM A) (k : A → EM B) b : (∀ a, appends (k a)) →
  ebind m k [] = (b, []) → ∃ a, m [] = (a, []) ∧ k a [] = (b, []).
Proof.
  intros Hk. unfold ebind. destruct (m []) as [a es]. rewrite (Hk a es).
  intros [= Hb Hes]. apply app_eq_nil in Hes as [-> Hes]. exists a. split; [done|].
  destruct (k a []) as [b' es']. cbn in *. congruence.
Qed.

Section spec.
  Context {J : Type} `{!JsonValue J} (enumerators : string → list (string * Z)).

Notation Parse T := (string → J → result ConfigError T).
Notation parseV t := (parseValue enumerators t).
Notation parseA t := (parseArray enumerators t).

(** The content of a field of [j], or [out] without it. *)
Definition field_or {T} (parse : Parse T) (j : J) (name : string) (out v : T) : Prop :=
  if isMember name j then parse name (member name j) = Ok v else v = out.

(** The content of a field of an area, of its property, or [out]. *)
Definition inherited {T} (parse : Parse T) (area parent : J) (name : string) (out v : T) : Prop :=
  if isMember name area then parse name (member name area) = Ok v else field_or parse parent name out v.

Lemma tryParse_silent {T} (parse : Parse T) j name o out r : tryParse parse j name o out [] = (r, []) →
  isObject j = true ∧ tried_ok r = true ∧ tried_found r = isMember name j ∧ field_or parse j name out (tried_out r)
  ∧ (o = false → isMember name j = true).
Proof.
  unfold tryParse, field_or. destruct (isObject j); cbn; [|done].
  destruct (isMember name j); cbn.
  - destruct (parse name (member name j)) as [a|e]; cbn; [|done]. intros [= <-]. done.
  - destruct o; cbn; [|done]. intros [= <-]. done.
Qed.

Lemma content_silent {T} (m : EM (Tried T)) v : content m [] = (v, []) → ∃ r, m [] = (r, []) ∧ v = tried_out r.
Proof.
  unfold content, ebind, eret. destruct (m []) as [r es]. intros [= <- ->]. by exists r.
Qed.

Lemma field_silent {T} (parse : Parse T) j name out v : content (tryParse parse j name true out) [] = (v, []) →
  isObject j = true ∧ field_or parse j name out v.
Proof. intros (r & (? & _ & _ & H & _)%tryParse_silent & ->)%content_silent. done. Qed.

Lemma inherited_silent {T} (parse : Parse T) area parent name out v :
  content (tryParseParents parse [area; parent] name true out) [] = (v, []) → inherited parse area parent name out v.
Proof.
  intros (r & Hr & ->)%content_silent. cbn [tryParseParents] in Hr. unfold inherited.
  apply ebind_silent in Hr as (r1 & (_ & Hok & Hfound & Hf & _)%tryParse_silent & Hr).
  - rewrite Hok, Hfound in Hr. cbn in Hr. unfold field_or in Hf. destruct (isMember name area) eqn:E.
    + injection Hr as <-. done.
    + apply ebind_silent in Hr as (r2 & (_ & Hok2 & Hfound2 & Hf2 & _)%tryParse_silent & Hr).
      * rewrite Hok2 in Hr. cbn in Hr. rewrite Hf in Hf2. destruct (tried_found r2); cbn in Hr; by injection Hr as <-.
      * intros r2. destruct r2 as [[] [] ?]; apply eret_appends.
  - intros r1. destruct r1 as [[] [] ?]; cbn; try apply eret_appends.
    apply ebind_appends; [apply tryParse_appends|]. intros r2. destruct r2 as [[] [] ?]; apply eret_appends.
Qed.

Lemma access_silent j name d out v : parseAccessChangeMode enumerators j name d out [] = (v, []) →
  if isMember name j then parseV int32Field name (member name j) = Ok v else d = Some v.
Proof.
  unfold parseAccessChangeMode. destruct (isObject j); cbn; [|done]. destruct (isMember name j).
  - destruct (parseValue _ _ _ _) as [a|e]; cbn; [|done]. by intros [= <-].
  - destruct d; [|done]. by intros [= <-].
Qed.

(** The values object [j]: each vector is parsed, or empty. *)
Record values_spec (j : J) (v : RawPropValues) : Prop := mk_values_spec {
  vs_int32 : field_or (parseA int32Field) j "int32Values" [] (int32Values v);
  vs_float : field_or (parseA floatField) j "floatValues" [] (floatValues v);
  vs_int64 : field_or (parseA int64Field) j "int64Values" [] (int64Values v);
  vs_bytes : byteValues v = [];
  vs_string : field_or parseStringValue j "stringValue" "" (stringValue v);
}.

Lemma parsePropValues_silent j name ok v : parsePropValues enumerators j name emptyRaw [] = ((ok, v), []) →
  isObject j = true ∧ ok = isMember name j ∧
  if isMember name j then values_spec (member name j) v else v = emptyRaw.
Proof.
  unfold parsePropValues. destruct (isObject j); cbn; [|done]. destruct (isMember name j); cbn.
  2: { by intros [= <- <-]. }
  intros H.
  apply ebind_silent in H as (i & (Hj & Hi & _ & Fi & _)%tryParse_silent & H); [|appends].
  apply ebind_silent in H as (f & (_ & Hf & _ & Ff & _)%tryParse_silent & H); [|appends].
  apply ebind_silent in H as (l & (_ & Hl & _ & Fl & _)%tryParse_silent & H); [|appends].
  apply ebind_silent in H as (str & (_ & Hs & _ & Fs & _)%tryParse_silent & H); [|appends].
  rewrite Hi, Hf, Hl, Hs in H. injection H as <- <-. split_and!; [done..|]. by split.
Qed.

(** *** Areas *)

Record info_spec (j : J) (i : HasSupportedValueInfo) : Prop := mk_info_spec {
  is_min : field_or (parseV boolField) j "hasMinSupportedValue" false (hasMinSupportedValue i);
  is_max : field_or (parseV boolField) j "hasMaxSupportedValue" false (hasMaxSupportedValue i);
  is_list : field_or (parseV boolField) j "hasSupportedValuesList" false (hasSupportedValuesList i);
}.

Lemma parseSupportedValueInfo_silent j i : parseSupportedValueInfo enumerators j [] = (i, []) → info_spec j i.
Proof.
  unfold parseSupportedValueInfo, tryParseJsonValueToVariable. intros H.
  apply ebind_silent in H as (lo & (_ & Hlo)%field_silent & H); [|appends].
  apply ebind_silent in H as (hi & (_ & Hhi)%field_silent & H); [|appends].
  apply ebind_silent in H as (l & (_ & Hl)%field_silent & H); [|appends].
  injection H as <-. by split.
Qed.

(** The area [area] of the property [parent], whose access is [access]: every
    field is the area's own, else the property's, else the default. *)
Record area_spec (parent area : J) (access : Z) (ac : VehicleAreaConfig) (supported : list f32) : Prop :=
mk_area_spec {
  as_areaId : isMember "areaId" area = true ∧ parseV int32Field "areaId" (member "areaId" area) = Ok (ac_areaId ac);
  as_access : field_or (parseV int32Field) area "access" access (ac_access ac);
  as_minInt32 : inherited (parseV int32Field) area parent "minInt32Value" 0 (minInt32Value ac);
  as_maxInt32 : inherited (parseV int32Field) area parent "maxInt32Value" 0 (maxInt32Value ac);
  as_minInt64 : inherited (parseV int64Field) area parent "minInt64Value" 0 (minInt64Value ac);
  as_maxInt64 : inherited (parseV int64Field) area parent "maxInt64Value" 0 (maxInt64Value ac);
  as_minFloat : inherited (parseV floatField) area parent "minFloatValue" f32_zero (minFloatValue ac);
  as_maxFloat : inherited (parseV floatField) area parent "maxFloatValue" f32_zero (maxFloatValue ac);
  as_variableUpdateRate :
    inherited (parseV boolField) area parent "supportVariableUpdateRate" true (supportVariableUpdateRate ac);
  as_enums : ∃ enums, inherited (parseA int64Field) area parent "supportedEnumValues" [] enums ∧
    supportedEnumValues ac = match enums with [] => None | _ => Some enums end;
  as_supported : inherited (parseA floatField) area parent "supportedValues" [] supported;
  as_info :
    if isMember "hasSupportedValueInfo" area
    then ∃ i, hasSupportedValueInfo ac = Some i ∧ info_spec (member "hasSupportedValueInfo" area) i
    else if isMember "hasSupportedValueInfo" parent
    then ∃ i, hasSupportedValueInfo ac = Some i ∧ info_spec (member "hasSupportedValueInfo" parent) i
    else hasSupportedValueInfo ac = None;
}.

(** The initial value of an area: its own, else the property's unless empty. *)
Definition area_value_spec (area : J) (propertyValue : RawPropValues) (v : option RawPropValues) : Prop :=
  if isMember "defaultValue" area then ∃ r, v = Some r ∧ values_spec (member "defaultValue" area) r
  else v = if negb (RawPropValues_eqb propertyValue emptyRaw) then Some propertyValue else None.

Definition Area : Type := VehicleAreaConfig * list f32 * option RawPropValues.

Definition add_area (d : ConfigDeclaration) (a : Area) : ConfigDeclaration :=
  let '(ac, supported, v) := a in
  let c := config d in
  mkConfigDeclaration
    (mkPropConfig (pc_prop c) (pc_access c) (changeMode c) (areaConfigs c ++ [ac]) (configArray c)
       (configString c) (minSampleRate c) (maxSampleRate c))
    (initialValue d)
    (match v with Some r => <[ac_areaId ac := r]> (initialAreaValues d) | None => initialAreaValues d end)
    (match supported with [] => supportedValuesForAreaId d
     | _ => <[ac_areaId ac := supported]> (supportedValuesForAreaId d) end).

Lemma parseAreaConfig_silent parent area id c ac supported :
  isObject area = true → isObject parent = true →
  isMember "areaId" area = true → parseV int32Field "areaId" (member "areaId" area) = Ok id →
  parseAreaConfig enumerators parent area id c [] = ((ac, supported), []) →
  ac_areaId ac = id ∧ area_spec parent area (pc_access c) ac supported.
Proof.
  intros Ha Hp Hm Hid. unfold parseAreaConfig. cbv zeta. intros H.
  apply ebind_silent in H as (acc & Hacc%access_silent & H); [|appends].
  apply ebind_silent in H as (x1 & H1%inherited_silent & H); [|appends].
  apply ebind_silent in H as (x2 & H2%inherited_silent & H); [|appends].
  apply ebind_silent in H as (x3 & H3%inherited_silent & H); [|appends].
  apply ebind_silent in H as (x4 & H4%inherited_silent & H); [|appends].
  apply ebind_silent in H as (x5 & H5%inherited_silent & H); [|appends].
  apply ebind_silent in H as (x6 & H6%inherited_silent & H); [|appends].
  apply ebind_silent in H as (x7 & H7%inherited_silent & H); [|appends].
  apply ebind_silent in H as (x8 & H8%inherited_silent & H); [|appends].
  apply ebind_silent in H as (x9 & H9%inherited_silent & H); [|appends].
  apply ebind_silent in H as (x10 & H10 & H); [|appends].
  injection H as <- <-. split; [done|]. split; cbn; try done.
  - unfold field_or. destruct (isMember "access" area); [done|congruence].
  - by exists x8.
  - destruct (isMember "hasSupportedValueInfo" area); [|destruct (isMember "hasSupportedValueInfo" parent)].
    + apply ebind_silent in H10 as (i & Hi%parseSupportedValueInfo_silent & H10); [|appends].
      injection H10 as <-. by exists i.
    + apply ebind_silent in H10 as (i & Hi%parseSupportedValueInfo_silent & H10); [|appends].
      injection H10 as <-. by exists i.
    + by injection H10 as <-.
Qed.

Lemma parseArea_silent parent d area d' : isObject parent = true →
  parseArea enumerators parent d area [] = (d', []) →
  ∃ a : Area, area_spec parent area (pc_access (config d)) a.1.1 a.1.2 ∧ area_value_spec area (initialValue d) a.2
    ∧ d' = add_area d a.
Proof.
  intros Hp. unfold parseArea, tryParseJsonValueToVariable. intros H.
  apply ebind_silent in H as (r & (Ha & Hr & _ & Hf & Hreq)%tryParse_silent & H).
  2: { intros r. appends. }
  rewrite Hr in H. cbn [negb] in H. unfold field_or in Hf. rewrite (Hreq eq_refl) in Hf.
  apply ebind_silent in H as ([ac supported] & Hac & H); [|appends].
  apply (parseAreaConfig_silent _ _ _ _ _ _ Ha Hp (Hreq eq_refl) Hf) in Hac as [Hid Hac].
  apply ebind_silent in H as ([ok v] & (_ & Hok & Hv)%parsePropValues_silent & H); [|appends].
  injection H as <-. rewrite Hok, <- Hid.
  exists (ac, supported, if isMember "defaultValue" area then Some v
                         else if negb (RawPropValues_eqb (initialValue d) emptyRaw) then Some (initialValue d) else None).
  split; [done|]. split.
  - unfold area_value_spec. cbn. destruct (isMember "defaultValue" area); [by exists v|done].
  - unfold add_area. rewrite Hid.
    by destruct (isMember "defaultValue" area), (negb (RawPropValues_eqb (initialValue d) emptyRaw)).
Qed.

Lemma add_area_keeps d a : pc_access (config (add_area d a)) = pc_access (config d) ∧
  initialValue (add_area d a) = initialValue d.
Proof. by destruct a as [[ac s] v]. Qed.

Lemma parse_areas_silent parent l : ∀ d d', isObject parent = true →
  parse_each (parseArea enumerators parent) d l [] = (d', []) →
  ∃ areas : list Area, Forall2 (λ j a, area_spec parent j (pc_access (config d)) a.1.1 a.1.2
                                       ∧ area_value_spec j (initialValue d) a.2) l areas
    ∧ d' = foldl add_area d areas.
Proof.
  induction l as [|j l IH]; intros d d' Hp H; cbn in H.
  { injection H as <-. exists []. by split. }
  apply ebind_silent in H as (d1 & (a & Ha & Hv & ->)%parseArea_silent & H); [|done|].
  2: { intros. apply parse_each_appends. intros. apply parseArea_appends. }
  apply IH in H as (areas & Hall & ->); [|done]. destruct (add_area_keeps d a) as [E1 E2]. rewrite E1, E2 in Hall.
  exists (a :: areas). split; [by constructor|done].
Qed.

(** *** Properties *)

Definition with_default {T} (parse : Parse T) (j : J) (name : string) (d : option T) (v : T) : Prop :=
  if isMember name j then parse name (member name j) = Ok v else d = Some v.

Definition add_value (m : gmap Z RawPropValues) (a : Area) : gmap Z RawPropValues :=
  match a.2 with Some r => <[ac_areaId a.1.1 := r]> m | None => m end.
Definition add_supported (m : gmap Z (list f32)) (a : Area) : gmap Z (list f32) :=
  match a.1.2 with [] => m | l => <[ac_areaId a.1.1 := l]> m end.

(** The declaration the JSON object [j] describes. *)
Record property_spec (j : J) (d : ConfigDeclaration) : Prop := mk_property_spec {
  ps_prop : isMember "property" j = true ∧
    parseV int32Field "property" (member "property" j) = Ok (pc_prop (config d));
  ps_access : with_default (parseV int32Field) j "access"
    (table_find (pc_prop (config d)) DefaultAccessForVehicleProperty) (pc_access (config d));
  ps_changeMode : with_default (parseV int32Field) j "changeMode"
    (table_find (pc_prop (config d)) ChangeModeForVehicleProperty) (changeMode (config d));
  ps_configString : field_or parseStringValue j "configString" "" (configString (config d));
  ps_configArray : field_or (parseA int32Field) j "configArray" [] (configArray (config d));
  ps_minSampleRate : field_or (parseV floatField) j "minSampleRate" f32_zero (minSampleRate (config d));
  ps_maxSampleRate : field_or (parseV floatField) j "maxSampleRate" f32_zero (maxSampleRate (config d));
  ps_initialValue : if isMember "defaultValue" j then values_spec (member "defaultValue" j) (initialValue d)
                    else initialValue d = emptyRaw;
  ps_areas : ∃ areas : list Area,
    (if isMember "areas" j
     then isArray (member "areas" j) = true ∧
          Forall2 (λ area a, area_spec j area (pc_access (config d)) a.1.1 a.1.2
                             ∧ area_value_spec area (initialValue d) a.2) (elements (member "areas" j)) areas
     else areas = [])
    ∧ areaConfigs (config d) =
        match areas with [] => [globalAreaConfig (pc_access (config d))] | _ => (λ a, a.1.1) <$> areas end
    ∧ initialAreaValues d = foldl add_value ∅ areas
    ∧ supportedValuesForAreaId d = foldl add_supported ∅ areas;
}.

Lemma foldl_add_area areas : ∀ d, foldl add_area d areas =
  mkConfigDeclaration
    (mkPropConfig (pc_prop (config d)) (pc_access (config d)) (changeMode (config d))
       (areaConfigs (config d) ++ ((λ a, a.1.1) <$> areas)) (configArray (config d)) (configString (config d))
       (minSampleRate (config d)) (maxSampleRate (config d)))
    (initialValue d) (foldl add_value (initialAreaValues d) areas) (foldl add_supported (supportedValuesForAreaId d) areas).
Proof.
  induction areas as [|[[ac sup] v] areas IH]; intros d; cbn [foldl].
  - destruct d as [[] ? ? ?]. cbn. by rewrite app_nil_r.
  - rewrite IH. cbn. rewrite <- app_assoc. by destruct sup.
Qed.

Lemma parseProperty_silent j p d : isObject j = true →
  isMember "property" j = true → parseV int32Field "property" (member "property" j) = Ok p →
  parseProperty enumerators j p [] = (d, []) → property_spec j d.
Proof.
  intros Hj Hm Hp. unfold parseProperty, tryParseJsonString, tryParseJsonArrayToVariable, tryParseJsonValueToVariable.
  intros H.
  apply ebind_silent in H as (acc & Hacc%access_silent & H); [|appends].
  apply ebind_silent in H as (mode & Hmode%access_silent & H); [|appends].
  apply ebind_silent in H as (str & (_ & Hstr)%field_silent & H); [|appends].
  apply ebind_silent in H as (arr & (_ & Harr)%field_silent & H); [|appends].
  apply ebind_silent in H as ([ok iv] & (_ & _ & Hiv)%parsePropValues_silent & H); [|appends].
  apply ebind_silent in H as (r1 & (_ & Hr1)%field_silent & H); [|appends].
  apply ebind_silent in H as (r2 & (_ & Hr2)%field_silent & H); [|appends].
  apply ebind_silent in H as (d1 & Hd1 & H); [|appends].
  assert (∃ areas : list Area,
    (if isMember "areas" j
     then isArray (member "areas" j) = true ∧
          Forall2 (λ area a, area_spec j area acc a.1.1 a.1.2 ∧ area_value_spec area iv a.2)
            (elements (member "areas" j)) areas
     else areas = [])
    ∧ d1 = foldl add_area (mkConfigDeclaration (mkPropConfig p acc mode [] arr str r1 r2) iv ∅ ∅) areas)
    as (areas & Hareas & ->).
  { unfold parseAreas in Hd1. rewrite Hj in Hd1. cbn in Hd1. destruct (isMember "areas" j); cbn in Hd1.
    - destruct (isArray (member "areas" j)); cbn in Hd1; [|done].
      apply parse_areas_silent in Hd1 as (areas & Hall & ->); [|done]. by exists areas.
    - injection Hd1 as <-. by exists []. }
  rewrite foldl_add_area in H. cbn in H.
  assert (Hd : config d = mkPropConfig p acc mode
      (match areas with [] => [globalAreaConfig acc] | _ => (λ a, a.1.1) <$> areas end) arr str r1 r2
    ∧ initialValue d = iv ∧ initialAreaValues d = foldl add_value ∅ areas
    ∧ supportedValuesForAreaId d = foldl add_supported ∅ areas).
  { destruct areas as [|a areas]; cbn in H; by injection H as <-. }
  destruct Hd as (E1 & E2 & E3 & E4).
  split; rewrite ?E1, ?E2, ?E3, ?E4; cbn; try done. exists areas. by split_and!.
Qed.

Lemma parseEachProperty_silent j o : parseEachProperty enumerators j [] = (o, []) →
  ∃ d, o = Some d ∧ property_spec j d.
Proof.
  unfold parseEachProperty, ebind.
  destruct (tryParseJsonValueToVariable _ _ _ _ _ _ []) as [r es] eqn:E. intros H.
  assert (es = []) as ->.
  { destruct (negb (tried_ok r)); [by injection H|]. rewrite parseProperty_appends in H.
    destruct (negb _); injection H as _ H; by apply app_eq_nil in H as [? _]. }
  apply tryParse_silent in E as (Hj & Hr & _ & Hf & Hreq).
  rewrite Hr in H. cbn [negb] in H. unfold field_or in Hf. rewrite (Hreq eq_refl) in Hf.
  destruct (parseProperty _ _ _ []) as [d es] eqn:E. injection H as <- ->.
  exists d. split; [done|]. by eapply parseProperty_silent; [..|exact E]; auto.
Qed.

(** *** Files *)

Definition properties (root : J) : list J := elements (member "properties" root).

(** The root object is one the loader accepts. *)
Definition root_ok (root : J) : Prop :=
  isObject root = true ∧
  (∃ v, (if isMember "apiVersion" root then asInt (member "apiVersion" root) else Some 1) = Some v
        ∧ v ∈ COMPATIBLE_API_VERSIONS) ∧
  isMember "properties" root = true ∧ isArray (member "properties" root) = true.

Definition declare (m : gmap Z ConfigDeclaration) (d : ConfigDeclaration) : gmap Z ConfigDeclaration :=
  <[pc_prop (config d) := d]> m.

Definition errors_of (j : J) : list ConfigError := snd (parseEachProperty enumerators j []).

Lemma parseProperties_appends l : ∀ m, appends (parseProperties enumerators l m).
Proof.
  induction l as [|j l IH]; intros m; cbn; [apply eret_appends|].
  apply ebind_appends; [apply parseEachProperty_appends|]. intros o. destruct o; apply IH.
Qed.

Lemma parseProperties_errors l : ∀ m, snd (parseProperties enumerators l m []) = concat (errors_of <$> l).
Proof.
  induction l as [|j l IH]; intros m; cbn; [done|]. unfold ebind, errors_of at 1.
  destruct (parseEachProperty enumerators j []) as [o es] eqn:E. rewrite parseProperties_appends. cbn.
  by rewrite IH.
Qed.

Lemma parseProperties_silent l : ∀ m m', parseProperties enumerators l m [] = (m', []) →
  ∃ decls, Forall2 property_spec l decls ∧ m' = foldl declare m decls.
Proof.
  induction l as [|j l IH]; intros m m' H; cbn in H.
  { injection H as <-. exists []. by split. }
  apply ebind_silent in H as (o & (d & -> & Hd)%parseEachProperty_silent & H).
  2: { intros o. destruct o; apply parseProperties_appends. }
  apply IH in H as (decls & Hall & ->). exists (d :: decls). split; [by constructor|done].
Qed.

Lemma load_root root : root_ok root → loadPropConfig enumerators (Some root) =
  match parseProperties enumerators (properties root) ∅ [] with
  | (m, []) => Ok m
  | (_, es) => Err (PropertyErrors es)
  end.
Proof.
  intros (Ho & (v & Hv & Hc) & Hm & Ha). unfold loadPropConfig, parseJsonConfig. rewrite Ho, Hv, Hm, Ha. cbn [negb orb].
  assert (existsb (Z.eqb v) COMPATIBLE_API_VERSIONS = true) as ->.
  { apply existsb_exists. exists v. split; [by apply list_elem_of_In|apply Z.eqb_refl]. }
  cbn [negb]. unfold properties. by destruct (parseProperties _ _ _ _) as [m []].
Qed.

Lemma load_ok_root root m : loadPropConfig enumerators (Some root) = Ok m → root_ok root.
Proof.
  unfold loadPropConfig, parseJsonConfig, root_ok. destruct (isObject root); cbn [negb]; [|done].
  destruct (if isMember "apiVersion" root then _ else _) as [v|]; [|done].
  destruct (existsb (Z.eqb v) COMPATIBLE_API_VERSIONS) eqn:Hv; [|done]. cbn [negb].
  apply existsb_exists in Hv as (x & Hx%list_elem_of_In & ->%Z.eqb_eq).
  destruct (isMember "properties" root), (isArray (member "properties" root)); try done.
  intros _. split_and!; [done| |done..]. by exists x.
Qed.

Lemma load_foldl root m : loadPropConfig enumerators (Some root) = Ok m →
  ∃ decls, Forall2 property_spec (properties root) decls ∧ m = foldl declare ∅ decls.
Proof.
  intros H. pose proof (load_ok_root _ _ H) as Hr. rewrite (load_root _ Hr) in H.
  destruct (parseProperties _ _ _ _) as [m' [|]] eqn:E; [|done]. injection H as <-.
  by apply parseProperties_silent in E.
Qed.

(** Every declaration is found under its property. *)
Definition keyed (m : gmap Z ConfigDeclaration) : Prop := map_Forall (λ p d, pc_prop (config d) = p) m.

Lemma foldl_declare_keyed decls : ∀ m, keyed m → keyed (foldl declare m decls).
Proof.
  induction decls as [|d decls IH]; intros m Hm; [done|]. cbn. apply IH. by apply map_Forall_insert_2.
Qed.

Lemma load_keyed stream m : loadPropConfig enumerators stream = Ok m → keyed m.
Proof.
  destruct stream as [root|]; [|done]. intros (decls & _ & ->)%load_foldl.
  apply foldl_declare_keyed, map_Forall_empty.
Qed.

Lemma load_dir_keyed files m : keyed m → keyed (snd (loadPropConfigsFromDir enumerators files m)).
Proof.
  destruct files as [files|]; [|done]. cbn. revert m. induction files as [|f files IH]; intros m Hm; cbn; [done|].
  apply IH. destruct (loadPropConfig enumerators f) as [l|] eqn:E; [|done]. apply load_keyed in E.
  by apply map_Forall_union_2.
Qed.

(** C11: A loaded file declares, for each object of its property array in order
    (a later declaration of an id replaces an earlier one), the configuration
    the object describes: its own fields, the generated defaults for access and
    change mode, the fields the areas inherit, the areas' initial values, or
    the global area when there is none. *)
Theorem load_declares root m : loadPropConfig enumerators (Some root) = Ok m →
  ∃ decls, Forall2 property_spec (properties root) decls ∧ m = foldl declare ∅ decls.
Proof. apply load_foldl. Qed.

(** Loading is all or nothing: a file with an acceptable root either loads,
    when no property has an error, or is rejected with the errors of all its
    properties in order. *)
Theorem load_all_or_nothing root : root_ok root →
  (is_ok (loadPropConfig enumerators (Some root)) = true ↔ Forall (λ j, errors_of j = []) (properties root)) ∧
  (∀ es, loadPropConfig enumerators (Some root) = Err (PropertyErrors es) ↔
     es = concat (errors_of <$> properties root) ∧ es ≠ []).
Proof.
  intros Hr. rewrite (load_root _ Hr). pose proof (parseProperties_errors (properties root) ∅) as He.
  destruct (parseProperties _ _ _ _) as [m es']. cbn in He. subst es'. split.
  - assert (concat (errors_of <$> properties root) = [] ↔ Forall (λ j, errors_of j = []) (properties root)) as <-.
    { induction (properties root) as [|j l IH]; cbn; [split; [constructor|done]|]. rewrite Forall_cons, <- IH. split.
      - by intros [? ?]%app_eq_nil.
      - by intros [-> ->]. }
    by destruct (concat _).
  - intros es. destruct (concat (errors_of <$> properties root)) as [|e l]; [naive_solver|].
    split; [by intros [= <-]|]. by intros [-> _].
Qed.
End spec.

(** ** Constants *)

Lemma substring_app_l t s : String.substring 0 (String.length t) (t +:+ s) = t.
Proof.
  induction t as [|a t IH]; [by destruct s|].
  change (String a (String.substring 0 (String.length t) (t +:+ s)) = String a t). by rewrite IH.
Qed.

Lemma substring_skip t n m s : String.substring (String.length t + n) m (t +:+ s) = String.substring n m s.
Proof. induction t as [|a t IH]; [done|]. exact IH. Qed.

Lemma substring_full s : String.substring 0 (String.length s) s = s.
Proof. induction s as [|a s IH]; cbn; [done|]. by rewrite IH. Qed.

Lemma string_length_app t s : String.length (t +:+ s) = (String.length t + String.length s)%nat.
Proof.
  induction t as [|a t IH]; [done|].
  change (S (String.length (t +:+ s)) = S (String.length t) + String.length s)%nat. by rewrite IH.
Qed.

(** No type name contains the delimiter. *)
Lemma delimiter_found name :
  Forall (λ type, String.index 0 "::" (type +:+ "::" +:+ name) = Some (String.length type)) ("Constants" :: enumTypes).
Proof. unfold enumTypes. destruct name; repeat (constructor; [reflexivity|]); constructor. Qed.

Section constants.
  Context {J : Type} `{JsonValue J} (enumerators : string → list (string * Z)).

Lemma split_constant type name : type ∈ "Constants" :: enumTypes →
  maybeGetTypeAndValueName (type +:+ "::" +:+ name) = Some (type, name).
Proof.
  intros Hin. pose proof (delimiter_found name) as Hd. rewrite Forall_forall in Hd.
  unfold maybeGetTypeAndValueName. rewrite (Hd type Hin). cbv beta iota zeta. rewrite substring_app_l, substring_skip.
  replace (String.length (type +:+ "::" +:+ name) - (String.length type + 2))%nat with (String.length name).
  2: { rewrite !string_length_app. change (String.length "::") with 2%nat. lia. }
  assert (negb (String.eqb type "Constants") && negb (existsb (String.eqb type) enumTypes) = false) as ->.
  { apply elem_of_cons in Hin as [->|Hin]; [done|]. apply andb_false_iff. right.
    apply negb_false_iff, existsb_exists. exists type. split; [by apply list_elem_of_In|apply String.eqb_refl]. }
  change (String.substring 2 (String.length name) ("::" +:+ name)) with (String.substring 0 (String.length name) name).
  by rewrite substring_full.
Qed.

Lemma lookup_foldl_insert (f : gmap string Z → string * Z → gmap string Z) l k z :
  (∀ m nv, nv.1 ≠ k → f m nv !! k = m !! k) → (∀ m nv, f m nv !! nv.1 = Some nv.2) →
  NoDup (fst <$> l) → (k, z) ∈ l → ∀ m, foldl f m l !! k = Some z.
Proof.
  intros Hne Heq. assert (Hkeep : ∀ l m, k ∉ fst <$> l → foldl f m l !! k = m !! k).
  { clear l. induction l as [|[k' z'] l IH]; intros m Hk; [done|]. cbn in Hk. apply not_elem_of_cons in Hk as [? ?].
    cbn. rewrite IH by done. by apply Hne. }
  induction l as [|[k' z'] l IH]; intros Hnd Hin m; [by apply elem_of_nil in Hin|].
  cbn in Hnd. apply NoDup_cons in Hnd as [Hk Hnd]. cbn [foldl].
  apply elem_of_cons in Hin as [[= -> ->]|Hin]; [|by apply IH]. rewrite Hkeep by done. exact (Heq m (k', z')).
Qed.

(** A field given as "TYPE::NAME" has the value of that constant: for a type
    of the loader with distinct enumerator names, of the enumerator [toString]
    names so; for "Constants", of the table; an unknown name is an error, and so
    is a string that names no type. *)
Theorem constant_fields f v str :
  isString v = true → asString v = Some str →
  (∀ type name, str = type +:+ "::" +:+ name →
     (∀ z, type ∈ enumTypes → NoDup (fst <$> enumerators type) → (name, z) ∈ enumerators type →
        name ∉ ["US_GALLON"; "FUEL_DOOR_OPEN"; "RANGE_REMAINING"] →
        parseValue enumerators int32Field f v = Ok z) ∧
     (∀ z, type = "Constants" → assoc name CONSTANTS_BY_NAME = Some z →
        parseValue enumerators int32Field f v = Ok z ∧ parseValue enumerators int64Field f v = Ok z) ∧
     (type = "Constants" → assoc name CONSTANTS_BY_NAME = None →
        parseValue enumerators int32Field f v = Err (UndefinedConstant type name))) ∧
  (String.index 0 "::" str = None → parseValue enumerators int32Field f v = Err (InvalidConstant f)).
Proof.
  intros Hs Hstr.
  assert (Hparse : ∀ (t : FieldType J Z) type name, str = type +:+ "::" +:+ name → type ∈ "Constants" :: enumTypes →
    parseValue enumerators t f v = match parseConstantValue enumerators (type, name) with
                                   | Ok z => Ok (ofConstant t z) | Err e => Err e end).
  { intros t type name -> Hin. unfold parseValue. rewrite Hs, Hstr, split_constant by done. cbn [negb].
    by destruct (parseConstantValue _ _). }
  split.
  - intros type name Heq. split_and!.
    + intros z Hin Hnd Hz Hname. rewrite (Hparse _ type name Heq) by (by right).
      rewrite !not_elem_of_cons in Hname. destruct Hname as (? & ? & ? & _).
      unfold parseConstantValue, constantParser.
      assert (String.eqb type "Constants" = false) as ->.
      { apply String.eqb_neq. intros ->. revert Hin. apply (bool_decide_unpack _). vm_compute. exact I. }
      assert (existsb (String.eqb type) enumTypes = true) as ->.
      { apply existsb_exists. exists type. split; [by apply list_elem_of_In|apply String.eqb_refl]. }
      assert (mValueByName enumerators type !! name = Some z) as ->; [|done].
      unfold mValueByName. destruct (String.eqb type "VehicleProperty").
      * rewrite !lookup_insert_ne by congruence. apply lookup_foldl_insert; try done; intros m nv.
        -- intros. by apply lookup_insert_ne.
        -- apply lookup_insert_eq.
      * apply lookup_foldl_insert; try done; intros m nv; [|intros; apply lookup_insert_eq].
        intros. rewrite lookup_insert_ne by done. destruct (String.eqb nv.1 "GALLON"); [|done].
        by apply lookup_insert_ne.
    + intros z -> Hz. rewrite !(Hparse _ _ _ Heq) by left.
      unfold parseConstantValue, constantParser. rewrite String.eqb_refl, Hz. done.
    + intros -> Hz. rewrite (Hparse _ _ _ Heq) by left.
      unfold parseConstantValue, constantParser. by rewrite String.eqb_refl, Hz.
  - intros Hi. unfold parseValue, maybeGetTypeAndValueName. by rewrite Hs, Hstr, Hi.
Qed.
End constants.

(** ** Examples *)

Definition example_enumerators (type : string) : list (string * Z) :=
  if String.eqb type "VehicleProperty"
  then [("HVAC_FAN_SPEED", VehicleProperty.HVAC_FAN_SPEED); ("PERF_ODOMETER", VehicleProperty.PERF_ODOMETER)]
  else [].

(** A zoned property with an inherited maximum and a global one with defaults. *)
Definition example_fan : Json :=
  JObject [("property", JString "VehicleProperty::HVAC_FAN_SPEED"); ("maxInt32Value", JInt 7);
           ("defaultValue", JObject [("int32Values", JArray [JInt 3])]);
           ("areas", JArray [JObject [("areaId", JString "Constants::HVAC_LEFT")];
                             JObject [("areaId", JString "Constants::HVAC_RIGHT"); ("maxInt32Value", JInt 5)]])].
Definition example_odometer : Json := JObject [("property", JString "VehicleProperty::PERF_ODOMETER")].
Definition example_root : Json :=
  JObject [("apiVersion", JInt 2); ("properties", JArray [example_fan; example_odometer])].

Lemma example_root_ok : root_ok example_root.
Proof.
  split; [reflexivity|]. split; [|split; reflexivity]. exists 2. split; [reflexivity|].
  apply (bool_decide_unpack _). vm_compute. exact I.
Qed.

Lemma load_declares_witness : ∃ m d1 d2,
  loadPropConfig example_enumerators (Some example_root) = Ok m ∧
  property_spec example_enumerators example_fan d1 ∧ property_spec example_enumerators example_odometer d2 ∧
  m = declare (declare ∅ d1) d2.
Proof.
  destruct (loadPropConfig example_enumerators (Some example_root)) as [m|e] eqn:E; [|vm_compute in E; discriminate E].
  destruct (load_declares example_enumerators example_root m E) as (decls & Hall & Hm).
  change (properties example_root) with [example_fan; example_odometer] in Hall.
  apply Forall2_cons_inv_l in Hall as (d1 & l1 & Hd1 & Hall & ->).
  apply Forall2_cons_inv_l in Hall as (d2 & l2 & Hd2 & Hall & ->). apply Forall2_nil_inv_l in Hall as ->.
  exists m, d1, d2. split; [reflexivity|]. split; [exact Hd1|]. split; [exact Hd2|]. exact Hm.
Defined.

Lemma load_all_or_nothing_witness : is_ok (loadPropConfig example_enumerators (Some example_root)) = true.
Proof.
  apply (load_all_or_nothing example_enumerators example_root example_root_ok).
  repeat constructor; vm_compute; reflexivity.
Defined.
Lemma constant_fields_witness :
  parseValue example_enumerators int32Field "property" (JString "VehicleProperty::PERF_ODOMETER")
    = Ok VehicleProperty.PERF_ODOMETER ∧
  parseValue example_enumerators int32Field "property" (JString "PERF_ODOMETER") = Err (InvalidConstant "property").
Proof.
  split.
  - destruct (constant_fields (J := Json) (H := Json_value) example_enumerators "property" (JString "VehicleProperty::PERF_ODOMETER")
                "VehicleProperty::PERF_ODOMETER" eq_refl eq_refl) as [H _].
    destruct (H "VehicleProperty" "PERF_ODOMETER" eq_refl) as [Hv _]. apply Hv.
    + apply (bool_decide_unpack _). vm_compute. exact I.
    + apply (bool_decide_unpack _). vm_compute. exact I.
    + right. left.
    + apply (bool_decide_unpack _). vm_compute. exact I.
  - apply (constant_fields (J := Json) (H := Json_value) example_enumerators "property" (JString "PERF_ODOMETER") "PERF_ODOMETER" eq_refl eq_refl).
    reflexivity.
Defined.

(** A version that is not an integer is not an error result but an exception. *)
Example api_version_throws :
  loadPropConfig example_enumerators (Some (JObject [("apiVersion", JString "1"); ("properties", JArray [])])) = Err Exception.
Proof. reflexivity. Qed.
