(* ===== verification/FakeInit.v ===== *)
(** * FakeVehicleHardware: from the loaded configuration to the store

    Models [storePropInitialValue] and [init] of
    [fake_impl/hardware/src/FakeVehicleHardware.cpp], which register the
    declared properties, store their initial values and collect the supported
    values, and the queries [getMinMaxSupportedValues] and
    [getSupportedValuesLists].  The declarations come in the order the map of
    the loader iterates. *)

From stdpp Require Import base gmap list strings.
From Stdlib Require Import ZArith Lia.
From S2P Require Import Prelude Float32 VehicleTypes VehicleProperty VehicleUtils.
From S2P Require Import VehicleObjectPool VehiclePropertyStore FakeUserHal FakeObd2Frame.
From S2P Require Import FakeHardwareValues FakeHardwareLaws JsonValue JsonConfigLoader JsonConfigLaws.

Local Open Scope Z_scope.
Local Open Scope vhal_scope.

(** ** Initial values *)

(** The areas that get a value: a global property has a single one. *)
Definition initialAreas (cfg : VehiclePropConfig) : list Z :=
  if isGlobalProp (pc_prop cfg) then [0] else ac_areaId <$> areaConfigs cfg.

(** [None]: no value is stored for the area. *)
Definition initialValueFor (decl : ConfigDeclaration) (curArea : Z) : option RawPropValues :=
  if bool_decide (initialAreaValues decl = ∅) then
    if RawPropValues_eqb (initialValue decl) emptyRaw then None else Some (initialValue decl)
  else initialAreaValues decl !! curArea.

(** Insertion into the set of dependent properties. *)
Definition insertDependent (deps : list Z) (p : Z) : list Z :=
  if existsb (Z.eqb p) deps then deps else deps ++ [p].

Definition set_dependent (deps : list Z) (h : HW) : HW :=
  mkHW (mServerSidePropStore h) (mFakeUserHal h) deps.

(** ** Supported values *)

Record Supported : Type := mkSupported {
  mMinSupportedValueByPropIdAreaId : gmap PropIdAreaId RawPropValues;
  mMaxSupportedValueByPropIdAreaId : gmap PropIdAreaId RawPropValues;
  mSupportedValuesByPropIdAreaId : gmap PropIdAreaId (list RawPropValues);
}.

Definition noSupported : Supported := mkSupported ∅ ∅ ∅.

Definition rawInt32 (x : Z) : RawPropValues := mkRaw [x] [] [] [] "".
Definition rawInt64 (x : Z) : RawPropValues := mkRaw [] [] [x] [] "".
Definition rawFloat (x : f32) : RawPropValues := mkRaw [] [x] [] [] "".

Definition setMinSupportedValue (p a : Z) (r : RawPropValues) (s : Supported) : Supported :=
  mkSupported (<[mkPropIdAreaId p a := r]> (mMinSupportedValueByPropIdAreaId s))
    (mMaxSupportedValueByPropIdAreaId s) (mSupportedValuesByPropIdAreaId s).
Definition setMaxSupportedValue (p a : Z) (r : RawPropValues) (s : Supported) : Supported :=
  mkSupported (mMinSupportedValueByPropIdAreaId s)
    (<[mkPropIdAreaId p a := r]> (mMaxSupportedValueByPropIdAreaId s)) (mSupportedValuesByPropIdAreaId s).
Definition setSupportedValues (p a : Z) (l : list RawPropValues) (s : Supported) : Supported :=
  mkSupported (mMinSupportedValueByPropIdAreaId s) (mMaxSupportedValueByPropIdAreaId s)
    (<[mkPropIdAreaId p a := l]> (mSupportedValuesByPropIdAreaId s)).

(** The bound of an area in the type of its property. *)
Definition boundOf (type i32 i64 : Z) (f : f32) : option RawPropValues :=
  if type =? VehiclePropertyType.INT32 then Some (rawInt32 i32)
  else if type =? VehiclePropertyType.INT64 then Some (rawInt64 i64)
  else if type =? VehiclePropertyType.FLOAT then Some (rawFloat f)
  else None.

(** One entry of "supportedValues"; the outer [None] is an undefined cast. *)
Definition supportedFloat (type : Z) (x : f32) : option (list RawPropValues) :=
  if type =? VehiclePropertyType.INT32 then z ← f32_to_i32 x; Some [rawInt32 z]
  else if type =? VehiclePropertyType.INT64 then z ← f32_to_i64 x; Some [rawInt64 z]
  else if type =? VehiclePropertyType.FLOAT then Some [rawFloat x]
  else Some [].

Definition supportedEnums (type : Z) (enums : option (list Z)) : list RawPropValues :=
  if type =? VehiclePropertyType.INT32 then (λ x, rawInt32 (to_i32 x)) <$> default [] enums
  else if type =? VehiclePropertyType.INT64 then rawInt64 <$> default [] enums
  else [].

Definition supportedList (type : Z) (floats : option (list f32)) (enums : option (list Z)) :
    option (list RawPropValues) :=
  match floats with
  | Some l => ls ← mapM (supportedFloat type) l; Some (concat ls)
  | None => Some (supportedEnums type enums)
  end.

(** The loop body over the areas; an area whose type has no bounds is left
    at the first bound it claims. *)
Definition supportArea (cfg : VehiclePropConfig) (floats : gmap Z (list f32)) (s : Supported)
    (ac : VehicleAreaConfig) : option Supported :=
  let type := getPropType (pc_prop cfg) in
  let p := pc_prop cfg in
  let a := ac_areaId ac in
  match hasSupportedValueInfo ac with
  | None => Some s
  | Some info =>
      let lo := boundOf type (minInt32Value ac) (minInt64Value ac) (minFloatValue ac) in
      let hi := boundOf type (maxInt32Value ac) (maxInt64Value ac) (maxFloatValue ac) in
      if hasMinSupportedValue info && bool_decide (lo = None) then Some s
      else
        let s := match lo with
                 | Some r => if hasMinSupportedValue info then setMinSupportedValue p a r s else s
                 | None => s end in
        if hasMaxSupportedValue info && bool_decide (hi = None) then Some s
        else
          let s := match hi with
                   | Some r => if hasMaxSupportedValue info then setMaxSupportedValue p a r s else s
                   | None => s end in
          if hasSupportedValuesList info then
            match supportedList type (floats !! a) (supportedEnumValues ac) with
            | None => None
            | Some [] => Some s
            | Some l => Some (setSupportedValues p a l s)
            end
          else Some s
  end.

Fixpoint supportAreas (cfg : VehiclePropConfig) (floats : gmap Z (list f32)) (acs : list VehicleAreaConfig)
    (s : Supported) : option Supported :=
  match acs with
  | [] => Some s
  | ac :: acs' => s' ← supportArea cfg floats s ac; supportAreas cfg floats acs' s'
  end.

Definition getMinMaxSupportedValues (ids : list PropIdAreaId) (s : Supported) : list MinMaxSupportedValueResult :=
  (λ id, match mMinSupportedValueByPropIdAreaId s !! id, mMaxSupportedValueByPropIdAreaId s !! id with
         | None, None => mkMinMaxSupportedValueResult INVALID_ARG None None
         | lo, hi => mkMinMaxSupportedValueResult OK lo hi
         end) <$> ids.

Definition getSupportedValuesLists (ids : list PropIdAreaId) (s : Supported) : list SupportedValuesListResult :=
  (λ id, match mSupportedValuesByPropIdAreaId s !! id with
         | None => mkSupportedValuesListResult INVALID_ARG None
         | Some l => mkSupportedValuesListResult OK (Some (Some <$> l))
         end) <$> ids.

(** ** Initialisation *)

Record Init : Type := mkInit { init_hw : HW; init_supported : Supported }.

Definition InitM : Type → Type := M Init HwError.

Definition onHw {A} (m : HWM A) : InitM A := λ i,
  let '(h, r) := m (init_hw i) in (mkInit h (init_supported i), r).
Definition onStore (f : Store → Store) : InitM unit :=
  onHw (mmodify (λ h, set_store (f (mServerSidePropStore h)) h)).

Section init.
  Context (tick : nat → Z) (uninit_size : Z).

(** One area; a failing write is only logged. *)
Definition storeAreaValue (decl : ConfigDeclaration) (curArea : Z) : HWM unit :=
  let! now := elapsedRealtimeNano tick in
  match initialValueFor decl curArea with
  | None => mreturn tt
  | Some r =>
      let! v := obtainCopyM uninit_size (mkPropValue now curArea (pc_prop (config decl)) VehiclePropertyStatus.AVAILABLE r) in
      ignoring (writeM tick v true ON_VALUE_CHANGE false)
  end.

Definition storePropInitialValue (decl : ConfigDeclaration) : HWM unit :=
  let cfg := config decl in
  (if pc_prop cfg =? VehicleProperty.HVAC_POWER_ON
   then mmodify (λ h, set_dependent (foldl insertDependent (hvacPowerDependentProps h) (configArray cfg)) h)
   else mreturn tt) ;;;
  for_each (initialAreas cfg) (storeAreaValue decl).

(** The configuration registered for a declaration: the system property decides
    the first entry of AP_POWER_STATE_REQ's array, indexed unchecked. *)
Definition registeredConfig (s2rS2dConfig : Z) (cfg : VehiclePropConfig) : option VehiclePropConfig :=
  if pc_prop cfg =? VehicleProperty.AP_POWER_STATE_REQ then
    match configArray cfg with
    | [] => None
    | _ :: rest =>
        Some (mkPropConfig (pc_prop cfg) (pc_access cfg) (changeMode cfg) (areaConfigs cfg) (s2rS2dConfig :: rest)
                (configString cfg) (minSampleRate cfg) (maxSampleRate cfg))
    end
  else Some cfg.

Definition tokenFunctionFor (p : Z) : option TokenFunction :=
  if p =? VehicleProperty.AP_POWER_STATE_REQ then None
  else if p =? OBD2_FREEZE_FRAME then Some timestamp else None.

Definition initProperty (s2rS2dConfig : Z) (decl : ConfigDeclaration) : InitM unit :=
  match registeredConfig s2rS2dConfig (config decl) with
  | None => mfail Crash
  | Some cfg =>
      onStore (registerProperty cfg (tokenFunctionFor (pc_prop cfg))) ;;;
      if isDiagnosticProperty cfg then mreturn tt
      else
        onHw (storePropInitialValue decl) ;;;
        let! i := mget in
        match supportAreas cfg (supportedValuesForAreaId decl) (areaConfigs cfg) (init_supported i) with
        | None => mfail Crash
        | Some s => mput (mkInit (init_hw i) s)
        end
  end.

Definition initProperties (s2rS2dConfig : Z) (decls : list ConfigDeclaration) : InitM unit :=
  for_each decls (initProperty s2rS2dConfig).

Definition initFrame (p : Z)
    (f : VehiclePropConfig → Store * VehiclePropValuePool → option (Store * VehiclePropValuePool)) : InitM unit := λ i,
  let h := init_hw i in
  match getPropConfig p (mServerSidePropStore h) with
  | Err _ => (i, Ok tt)
  | Ok cfg =>
      match f cfg (mServerSidePropStore h, mValuePool (mFakeUserHal h)) with
      | None => (i, Err Crash)
      | Some (s, pool) => (mkInit (set_store s (set_hal (with_pool pool (mFakeUserHal h)) h)) (init_supported i), Ok tt)
      end
  end.

(** [init]; the callback forwards to [onValuesChangeCallback] (FakeSubscriptions). *)
Definition init (s2rS2dConfig : Z) (decls : list ConfigDeclaration) (callback : nat) : InitM unit :=
  initProperties s2rS2dConfig decls ;;;
  initFrame OBD2_LIVE_FRAME (initObd2LiveFrame tick uninit_size) ;;;
  initFrame OBD2_FREEZE_FRAME (initObd2FreezeFrame tick uninit_size) ;;;
  onStore (setOnValuesChangeCallback (Some callback)).
End init.

(** [loadConfigDeclarations]: [None] is the exit without a default directory;
    [UseOverrideConfigDir] is a system property. *)
Definition loadConfigDeclarations {J} `{!JsonValue J} (enumerators : string → list (string * Z))
    (UseOverrideConfigDir : bool) (defaultConfigDir overrideConfigDir : option (list (option J))) :
    option (gmap Z ConfigDeclaration) :=
  let '(defaultConfigLoaded, configsByPropId) := loadPropConfigsFromDir enumerators defaultConfigDir ∅ in
  if negb defaultConfigLoaded then None
  else Some (if UseOverrideConfigDir then snd (loadPropConfigsFromDir enumerators overrideConfigDir configsByPropId)
             else configsByPropId).

(** ** Registering *)

Section laws.
  Context (tick : nat → Z) (tick_mono : ∀ i j, (i ≤ j)%nat → tick i ≤ tick j).
  Context (uninit_size maxVec maxSize : Z) (Hcfg : pool_config_ok maxVec maxSize).
Notation hw_ok := (hw_ok tick maxVec maxSize).

Definition unregistered (s : Store) (p : Z) : Prop := mRecordsByPropId s !! p = None.

Lemma stored_unregistered s p r : unregistered s p → stored s p r = None.
Proof. unfold unregistered, stored. by intros ->. Qed.

Lemma registerProperty_registers c tf s : unregistered s (pc_prop c) →
  let s' := registerProperty c tf s in
  getPropConfig (pc_prop c) s' = Ok c ∧ (tf = None → tokenless s' (pc_prop c)) ∧
  (∀ p r, stored s' p r = stored s p r) ∧
  (∀ p, p ≠ pc_prop c → getPropConfig p s' = getPropConfig p s ∧ mRecordsByPropId s' !! p = mRecordsByPropId s !! p) ∧
  reads s' = reads s ∧ tokenFunctionOf s' (pc_prop c) = Some tf.
Proof.
  intros Hu s'. unfold s', registerProperty. split_and!; try done.
  5: { unfold tokenFunctionOf. cbn. by rewrite lookup_insert_eq. }
  - unfold getPropConfig, getRecordLocked. cbn. by rewrite lookup_insert_eq.
  - intros -> v r Hv Hr. unfold record_of in Hr. cbn in Hr. rewrite Hv, lookup_insert_eq in Hr. by injection Hr as <-.
  - intros p r. unfold stored. cbn. destruct (decide (p = pc_prop c)) as [->|].
    + rewrite lookup_insert_eq. cbn. unfold unregistered in Hu. rewrite Hu. by rewrite lookup_empty.
    + by rewrite lookup_insert_ne.
  - intros p Hp. unfold getPropConfig, getRecordLocked. cbn. by rewrite lookup_insert_ne.
Qed.

Lemma tokenless_lookup s s' p : mRecordsByPropId s' !! p = mRecordsByPropId s !! p → tokenless s' p ↔ tokenless s p.
Proof. intros E. unfold tokenless, record_of. split; intros H v r <-; [rewrite <- E|rewrite E]; by apply H. Qed.

Lemma register_wf c tf s : unregistered s (pc_prop c) → store_wf tick s → store_wf tick (registerProperty c tf s).
Proof.
  intros Hu [Hi Hk Hc]. destruct (registerProperty_registers c tf s Hu) as (_ & _ & Hst & Hother & Hr & _).
  assert (Hne : ∀ p r o, stored s p r = Some o → p ≠ pc_prop c).
  { intros p r o Ho ->. by rewrite stored_unregistered in Ho. }
  split.
  - intros p r o. rewrite Hst, Hr. apply Hi.
  - intros p r o Ho Ht. rewrite Hst in Ho. apply (Hk p r o Ho).
    by apply (tokenless_lookup s (registerProperty c tf s)); [apply Hother, (Hne p r o)|].
  - intros p r o Ho. rewrite Hst in Ho. destruct (Hother p (Hne p r o Ho)) as [-> _]. by apply (Hc p r o).
Qed.

(** ** Initial values *)

Notation storeAreaValue := (storeAreaValue tick uninit_size).
Notation storePropInitialValue := (storePropInitialValue tick uninit_size).

(** The value [init] stores for an area, read at the [k]-th clock reading. *)
Definition initialStored (d : ConfigDeclaration) (a : Z) (x : RawPropValues) (k : nat) : VehiclePropValue :=
  mkPropValue (tick k) a (pc_prop (config d)) VehiclePropertyStatus.AVAILABLE x.

Lemma initial_area_configured d a c x k : a ∈ initialAreas (config d) →
  areaConfigs c = areaConfigs (config d) → area_configured c (initialStored d a x k) ∧
  key (initialStored d a x k) = mkRecordId a 0.
Proof.
  unfold initialAreas, area_configured, key, initialStored. cbn [prop areaId].
  destruct (isGlobalProp (pc_prop (config d))) eqn:Hg.
  - intros ->%list_elem_of_singleton _. split; [by left|done].
  - intros (ac & -> & Hin)%list_elem_of_fmap Hc. split; [right|done].
    unfold getAreaConfigOf, getAreaConfig. cbn [prop areaId]. rewrite Hg, Hc.
    destruct (areaConfigs (config d)) as [|c0 l]; [by apply elem_of_nil in Hin|].
    destruct (List.find _ _) eqn:E; [by eexists|]. exfalso.
    apply list_elem_of_In in Hin. pose proof (List.find_none _ _ E _ Hin) as Hf. cbn in Hf.
    by rewrite Z.eqb_refl in Hf.
Qed.

(** Property [p] is registered for a declaration's areas, without token. *)
Definition ready (s : Store) (d : ConfigDeclaration) : Prop :=
  tokenless s (pc_prop (config d)) ∧
  ∃ c, getPropConfig (pc_prop (config d)) s = Ok c ∧ areaConfigs c = areaConfigs (config d).

Lemma ready_same s s' d : same_registry s s' → ready s d → ready s' d.
Proof.
  intros Hr (Ht & c & Hc & Ha). split; [by eapply tokenless_same|]. exists c.
  split; [|done]. destruct Hr as (_ & E & _). by rewrite E.
Qed.

Lemma storeArea_spec d a h : hw_ok h → ready (mServerSidePropStore h) d → a ∈ initialAreas (config d) →
  let s := mServerSidePropStore h in
  ∃ h', storeAreaValue d a h = (h', Ok tt) ∧ hw_ok h' ∧ same_registry s (mServerSidePropStore h') ∧
    hvacPowerDependentProps h' = hvacPowerDependentProps h ∧
    ∀ q r, stored (mServerSidePropStore h') q r =
      if decide (q = pc_prop (config d) ∧ r = mkRecordId a 0)
      then match initialValueFor d a with
           | Some x => Some (initialStored d a x (reads s)) | None => stored s q r end
      else stored s q r.
Proof.
  intros Hok (Ht & c & Hc & Hac) Ha s. destruct (elapsed_spec tick tick_mono maxVec maxSize h Hok) as [E Hok1].
  unfold FakeInit.storeAreaValue. rewrite mbind_unfold, E. fold s in Hok1 |- *.
  destruct (initialValueFor d a) as [x|] eqn:Hx.
  - change (mkPropValue (tick (reads s)) a (pc_prop (config d)) VehiclePropertyStatus.AVAILABLE x)
      with (initialStored d a x (reads s)).
    destruct (initial_area_configured d a c x (reads s) Ha Hac) as [Hconf Hkey].
    destruct (obtainCopyM_spec tick uninit_size maxVec maxSize Hcfg (initialStored d a x (reads s)) _ Hok1)
      as (h1 & E1 & Hok2 & Hs1 & Hd1).
    rewrite mbind_unfold, E1.
    destruct (writeM_spec tick tick_mono maxVec maxSize (initialStored d a x (reads s)) true ON_VALUE_CHANGE h1 Hok2)
      as (h2 & E2 & Hok3 & Hreg & _ & Hd2 & Hst & _).
    + rewrite Hs1. split; [exact Ht|]. exists c. split; [exact Hc|exact Hconf].
    + rewrite Hs1. cbn. apply tick_mono. lia.
    + intros o Ho. rewrite Hs1 in Ho. exact (stored_past tick maxVec maxSize h _ _ o Hok Ho).
    + rewrite Hs1 in Hreg, Hst. exists h2. rewrite (ignoring_ok _ _ _ E2). split_and!; [done..|by rewrite Hd2, Hd1|].
      intros q r. rewrite Hst, Hkey. done.
  - eexists. split; [done|]. split; [exact Hok1|]. split; [done|]. split; [done|].
    intros q r. by case_decide.
Qed.

(** The areas [l] of [d] hold their initial values; all else is as before. *)
Definition filled (d : ConfigDeclaration) (l : list Z) (s s' : Store) : Prop :=
  (∀ a x, a ∈ l → initialValueFor d a = Some x →
     ∃ k, stored s' (pc_prop (config d)) (mkRecordId a 0) = Some (initialStored d a x k)) ∧
  (∀ q r, (∀ a x, a ∈ l → initialValueFor d a = Some x → q = pc_prop (config d) → r ≠ mkRecordId a 0) →
     stored s' q r = stored s q r).

Lemma storeAreas_spec d l : ∀ h, hw_ok h → ready (mServerSidePropStore h) d →
  (∀ a, a ∈ l → a ∈ initialAreas (config d)) →
  ∃ h', for_each l (storeAreaValue d) h = (h', Ok tt) ∧ hw_ok h' ∧
    same_registry (mServerSidePropStore h) (mServerSidePropStore h') ∧
    hvacPowerDependentProps h' = hvacPowerDependentProps h ∧
    filled d l (mServerSidePropStore h) (mServerSidePropStore h').
Proof.
  induction l as [|a l IH]; intros h Hok Hr Hl; cbn [for_each].
  { exists h. split_and!; [done|done|apply same_registry_refl|done|]. split; [by intros a x ?%elem_of_nil|done]. }
  destruct (storeArea_spec d a h Hok Hr) as (h1 & E1 & Hok1 & Hreg1 & Hd1 & Hst1); [apply Hl; by left|].
  destruct (IH h1 Hok1) as (h' & E & Hok' & Hreg & Hd & [Hin Hout]).
  { by eapply ready_same. }
  { intros b Hb. apply Hl. by right. }
  exists h'. unfold mbind'. rewrite E1. split_and!; [done|done|by eapply same_registry_trans|by rewrite Hd|].
  split.
  - intros b x Hb Hx. destruct (decide (b ∈ l)) as [Hbl|Hbl]; [by apply Hin|].
    apply elem_of_cons in Hb as [->|]; [|done].
    exists (reads (mServerSidePropStore h)). rewrite Hout, Hst1, decide_True, Hx; [done..|].
    intros c y Hc _ _ [= ->]. done.
  - intros q r Hq. rewrite Hout, Hst1.
    + case_decide as He; [|done]. destruct (initialValueFor d a) as [x|] eqn:Hx; [|done].
      exfalso. destruct He as [-> ->]. by apply (Hq a x); [left|..].
    + intros b x Hb Hx. apply (Hq b x); [by right|done].
Qed.

(** The set of dependent properties after inserting [l]. *)
Lemma insertDependent_in l : ∀ deps x, x ∈ foldl insertDependent deps l ↔ x ∈ deps ∨ x ∈ l.
Proof.
  induction l as [|p l IH]; intros deps x; cbn [foldl].
  { rewrite elem_of_nil. tauto. }
  rewrite IH, elem_of_cons. unfold insertDependent. destruct (existsb (Z.eqb p) deps) eqn:E.
  - apply existsb_exists in E as (y & Hy%list_elem_of_In & ->%Z.eqb_eq). naive_solver.
  - rewrite elem_of_app, list_elem_of_singleton. tauto.
Qed.

Lemma insertDependent_nodup l : ∀ deps, NoDup deps → NoDup (foldl insertDependent deps l).
Proof.
  induction l as [|p l IH]; intros deps Hd; cbn [foldl]; [done|]. apply IH. unfold insertDependent.
  destruct (existsb (Z.eqb p) deps) eqn:E; [done|]. apply NoDup_app. split; [done|]. split; [|apply NoDup_singleton].
  intros x Hx ->%list_elem_of_singleton. apply not_true_iff_false in E. apply E, existsb_exists.
  exists p. split; [by apply list_elem_of_In|apply Z.eqb_refl].
Qed.

Definition dependentsOf (d : ConfigDeclaration) : list Z :=
  if pc_prop (config d) =? VehicleProperty.HVAC_POWER_ON then configArray (config d) else [].

Lemma storeProp_spec d h : hw_ok h → ready (mServerSidePropStore h) d →
  ∃ h', storePropInitialValue d h = (h', Ok tt) ∧ hw_ok h' ∧
    same_registry (mServerSidePropStore h) (mServerSidePropStore h') ∧
    hvacPowerDependentProps h' = foldl insertDependent (hvacPowerDependentProps h) (dependentsOf d) ∧
    filled d (initialAreas (config d)) (mServerSidePropStore h) (mServerSidePropStore h').
Proof.
  intros Hok Hr. unfold FakeInit.storePropInitialValue, dependentsOf.
  destruct (pc_prop (config d) =? VehicleProperty.HVAC_POWER_ON).
  - rewrite mbind_mmodify. set (h1 := set_dependent _ h).
    destruct (storeAreas_spec d (initialAreas (config d)) h1) as (h' & E & Hok' & Hreg & Hd & Hf).
    { destruct Hok. by split. }
    { done. }
    { done. }
    exists h'. by rewrite E.
  - destruct (storeAreas_spec d (initialAreas (config d)) h Hok Hr) as (h' & E & Hok' & Hreg & Hd & Hf); [done|].
    exists h'. unfold mbind', mreturn. by rewrite E.
Qed.

(** ** One declaration *)

(** The areas whose values [init] stores. *)
Definition valueAreas (d : ConfigDeclaration) : list Z :=
  if isDiagnosticProperty (config d) then [] else initialAreas (config d).

Definition dependents (d : ConfigDeclaration) : list Z :=
  if isDiagnosticProperty (config d) then [] else dependentsOf d.

(** What the declaration says of an area's supported values. *)
Definition declaredMin (type : Z) (ac : VehicleAreaConfig) : option RawPropValues :=
  match hasSupportedValueInfo ac with
  | Some info => if hasMinSupportedValue info
                 then boundOf type (minInt32Value ac) (minInt64Value ac) (minFloatValue ac) else None
  | None => None
  end.
Definition declaredMax (type : Z) (ac : VehicleAreaConfig) : option RawPropValues :=
  match hasSupportedValueInfo ac with
  | Some info => if hasMaxSupportedValue info
                 then boundOf type (maxInt32Value ac) (maxInt64Value ac) (maxFloatValue ac) else None
  | None => None
  end.

(** [None] when a float of "supportedValues" does not fit the type. *)
Definition declaredList (type : Z) (floats : gmap Z (list f32)) (ac : VehicleAreaConfig) :
    option (list RawPropValues) :=
  match hasSupportedValueInfo ac with
  | Some info => if hasSupportedValuesList info
                 then supportedList type (floats !! ac_areaId ac) (supportedEnumValues ac) else Some []
  | None => Some []
  end.

Definition nonEmpty {A} (l : list A) : option (list A) := match l with [] => None | _ => Some l end.

Definition putAt {A} (k : PropIdAreaId) (o : option A) (m : gmap PropIdAreaId A) : gmap PropIdAreaId A :=
  match o with Some x => <[k := x]> m | None => m end.

Definition numericType (type : Z) : bool :=
  (type =? VehiclePropertyType.INT32) || (type =? VehiclePropertyType.INT64) || (type =? VehiclePropertyType.FLOAT).

Lemma boundOf_none type i32 i64 f : boundOf type i32 i64 f = None ↔ numericType type = false.
Proof. unfold boundOf, numericType. by repeat case_match. Qed.

Lemma supportedFloats_other type l : numericType type = false →
  ∃ ls, mapM (supportedFloat type) l = Some ls ∧ concat ls = [].
Proof.
  unfold numericType. intros Hn. induction l as [|x l (ls & E & Hc)]; [by exists []|].
  exists ([] :: ls). split; [|done]. cbn. rewrite E. unfold supportedFloat.
  destruct (type =? VehiclePropertyType.INT32), (type =? VehiclePropertyType.INT64),
    (type =? VehiclePropertyType.FLOAT); done.
Qed.

Lemma supportedList_other type floats enums : numericType type = false → supportedList type floats enums = Some [].
Proof.
  intros Hn. unfold supportedList. destruct floats as [l|].
  - destruct (supportedFloats_other type l Hn) as (ls & -> & Hc). cbn. by rewrite Hc.
  - unfold numericType in Hn. unfold supportedEnums. by repeat case_match.
Qed.

(** The area loop stores exactly what the declaration says. *)
Lemma supportArea_eq cfg floats s ac :
  let t := getPropType (pc_prop cfg) in
  let k := mkPropIdAreaId (pc_prop cfg) (ac_areaId ac) in
  supportArea cfg floats s ac =
    match declaredList t floats ac with
    | None => None
    | Some l => Some (mkSupported (putAt k (declaredMin t ac) (mMinSupportedValueByPropIdAreaId s))
                  (putAt k (declaredMax t ac) (mMaxSupportedValueByPropIdAreaId s))
                  (putAt k (nonEmpty l) (mSupportedValuesByPropIdAreaId s)))
    end.
Proof.
  intros t k. unfold supportArea, declaredList, declaredMin, declaredMax. fold t. destruct s as [smin smax sl].
  destruct (hasSupportedValueInfo ac) as [[hmin hmax hlist]|]; [|done].
  cbn [hasMinSupportedValue hasMaxSupportedValue hasSupportedValuesList].
  set (lo := boundOf t _ _ _). set (hi := boundOf t (maxInt32Value ac) _ _).
  destruct (numericType t) eqn:Hn.
  - assert (∃ a, lo = Some a) as [a ->].
    { destruct lo as [a|] eqn:E; [by exists a|]. apply boundOf_none in E. congruence. }
    assert (∃ b, hi = Some b) as [b ->].
    { destruct hi as [b|] eqn:E; [by exists b|]. apply boundOf_none in E. congruence. }
    rewrite !bool_decide_false, !andb_false_r by done.
    destruct hlist; [destruct (supportedList _ _ _) as [[|x l]|]|]; by destruct hmin, hmax.
  - assert (lo = None) as -> by by apply boundOf_none.
    assert (hi = None) as -> by by apply boundOf_none.
    rewrite (supportedList_other _ _ _ Hn). rewrite !bool_decide_true, !andb_true_r by done.
    by destruct hmin, hmax, hlist.
Qed.

Definition minOf (s : Supported) (p a : Z) := mMinSupportedValueByPropIdAreaId s !! mkPropIdAreaId p a.
Definition maxOf (s : Supported) (p a : Z) := mMaxSupportedValueByPropIdAreaId s !! mkPropIdAreaId p a.
Definition listOf (s : Supported) (p a : Z) := mSupportedValuesByPropIdAreaId s !! mkPropIdAreaId p a.

(** The entries of areas [l] of [p] are as the area configurations declare. *)
Record supports (p : Z) (floats : gmap Z (list f32)) (acs : list VehicleAreaConfig) (s s' : Supported) : Prop := {
  sup_in : ∀ ac, ac ∈ acs → ∃ l, declaredList (getPropType p) floats ac = Some l ∧
    minOf s' p (ac_areaId ac) = declaredMin (getPropType p) ac ∧
    maxOf s' p (ac_areaId ac) = declaredMax (getPropType p) ac ∧
    listOf s' p (ac_areaId ac) = nonEmpty l;
  sup_out : ∀ q a, (q = p → a ∉ (ac_areaId <$> acs)) →
    minOf s' q a = minOf s q a ∧ maxOf s' q a = maxOf s q a ∧ listOf s' q a = listOf s q a;
}.

Definition unsupported (s : Supported) (p : Z) : Prop :=
  ∀ a, minOf s p a = None ∧ maxOf s p a = None ∧ listOf s p a = None.

Lemma putAt_eq {A} k (o : option A) m : m !! k = None → putAt k o m !! k = o.
Proof. intros H. destruct o; [apply lookup_insert_eq|done]. Qed.
Lemma putAt_ne {A} k j (o : option A) m : k ≠ j → putAt k o m !! j = m !! j.
Proof. intros H. destruct o; [by apply lookup_insert_ne|done]. Qed.

Lemma supportAreas_spec cfg floats acs : NoDup (ac_areaId <$> acs) →
  (∀ ac, ac ∈ acs → declaredList (getPropType (pc_prop cfg)) floats ac ≠ None) →
  ∀ s, (∀ a, a ∈ (ac_areaId <$> acs) → minOf s (pc_prop cfg) a = None ∧ maxOf s (pc_prop cfg) a = None ∧
              listOf s (pc_prop cfg) a = None) →
  ∃ s', supportAreas cfg floats acs s = Some s' ∧ supports (pc_prop cfg) floats acs s s'.
Proof.
  set (p := pc_prop cfg). induction acs as [|ac acs IH]; intros Hnd Hl s Hs; cbn [supportAreas].
  { exists s. split; [done|]. split; [by intros ac ?%elem_of_nil|done]. }
  cbn in Hnd. apply NoDup_cons in Hnd as [Hac Hnd].
  rewrite supportArea_eq. fold p. destruct (declaredList (getPropType p) floats ac) as [l|] eqn:Hd; [|].
  2: { by destruct (Hl ac); [left|]. }
  cbn [mbind option_bind]. set (s1 := mkSupported _ _ _).
  assert (H1 : ∀ q a, (q = p → a ≠ ac_areaId ac) →
            minOf s1 q a = minOf s q a ∧ maxOf s1 q a = maxOf s q a ∧ listOf s1 q a = listOf s q a).
  { intros q a Hne. assert (mkPropIdAreaId p (ac_areaId ac) ≠ mkPropIdAreaId q a) by (intros [= ->]; by apply Hne).
    unfold minOf, maxOf, listOf. cbn. by rewrite !putAt_ne. }
  destruct (IH Hnd) with (s := s1) as (s' & E & [Hin Hout]).
  { intros b Hb. apply Hl. by right. }
  { intros a Ha. destruct (H1 p a) as (-> & -> & ->); [by intros _ ->|]. apply Hs. cbn. by right. }
  exists s'. split; [exact E|]. split.
  - intros b [->|Hb]%elem_of_cons; [|by apply Hin]. exists l. split; [done|].
    destruct (Hout p (ac_areaId ac)) as (-> & -> & ->); [done|].
    destruct (Hs (ac_areaId ac)) as (Ha & Hb & Hc); [by left|].
    unfold minOf, maxOf, listOf in *. cbn. by rewrite !putAt_eq.
  - intros q a Hq. cbn in Hq. destruct (Hout q a) as (-> & -> & ->).
    + intros ->. specialize (Hq eq_refl). rewrite elem_of_cons in Hq. tauto.
    + apply H1. intros ->. specialize (Hq eq_refl). rewrite elem_of_cons in Hq. tauto.
Qed.

Lemma unregistered_iff s p : unregistered s p ↔ ∀ c, getPropConfig p s ≠ Ok c.
Proof.
  unfold unregistered, getPropConfig, getRecordLocked. destruct (mRecordsByPropId s !! p) as [r|]; [|done].
  split; [done|]. intros H. by destruct (H (propConfig r)).
Qed.

(** The two properties that hold frames. *)
Definition isFrame (p : Z) : bool := (p =? OBD2_LIVE_FRAME) || (p =? OBD2_FREEZE_FRAME).

(** A declaration that [init] can take: AP_POWER_STATE_REQ has a config array,
    the areas are distinct, their listed floats fit the type, and the arrays of
    the OBD2 frames start with the numbers of vendor sensors. *)
Record loadable (d : ConfigDeclaration) : Prop := {
  ld_power : pc_prop (config d) = VehicleProperty.AP_POWER_STATE_REQ → configArray (config d) ≠ [];
  ld_areas : NoDup (ac_areaId <$> areaConfigs (config d));
  ld_lists : ∀ ac, ac ∈ areaConfigs (config d) →
    declaredList (getPropType (pc_prop (config d))) (supportedValuesForAreaId d) ac ≠ None;
  ld_frames : isFrame (pc_prop (config d)) = true → vendor_declared (config d);
}.

Lemma registered_ok s2r d : loadable d → ∃ c, registeredConfig s2r (config d) = Some c ∧
  pc_prop c = pc_prop (config d) ∧ areaConfigs c = areaConfigs (config d).
Proof.
  intros [Hp _ _ _]. unfold registeredConfig. destruct (_ =? _) eqn:E; [|by eexists].
  apply Z.eqb_eq in E. destruct (configArray (config d)); [by destruct (Hp E)|]. by eexists.
Qed.

Lemma registered_plain d : isDiagnosticProperty (config d) = false → tokenFunctionFor (pc_prop (config d)) = None.
Proof.
  unfold isDiagnosticProperty, tokenFunctionFor. rewrite !orb_false_iff. intros [[[_ ->] _] _]. by destruct (_ =? _).
Qed.

(** What initialising declaration [d] does to the registry, the values, the
    supported values and the set of dependent properties. *)
Record initialised (s2r : Z) (d : ConfigDeclaration) (i i' : Init) : Prop := {
  in_config : ∃ c, registeredConfig s2r (config d) = Some c ∧
    getPropConfig (pc_prop (config d)) (mServerSidePropStore (init_hw i')) = Ok c;
  in_token : tokenFunctionOf (mServerSidePropStore (init_hw i')) (pc_prop (config d))
    = Some (tokenFunctionFor (pc_prop (config d)));
  in_others : ∀ p, p ≠ pc_prop (config d) →
    getPropConfig p (mServerSidePropStore (init_hw i')) = getPropConfig p (mServerSidePropStore (init_hw i)) ∧
    tokenFunctionOf (mServerSidePropStore (init_hw i')) p = tokenFunctionOf (mServerSidePropStore (init_hw i)) p;
  in_filled : filled d (valueAreas d) (mServerSidePropStore (init_hw i)) (mServerSidePropStore (init_hw i'));
  in_deps : hvacPowerDependentProps (init_hw i')
    = foldl insertDependent (hvacPowerDependentProps (init_hw i)) (dependents d);
  in_supported : if isDiagnosticProperty (config d) then init_supported i' = init_supported i
    else supports (pc_prop (config d)) (supportedValuesForAreaId d) (areaConfigs (config d))
           (init_supported i) (init_supported i');
}.

Lemma onStore_run f i : onStore f i =
  (mkInit (set_store (f (mServerSidePropStore (init_hw i))) (init_hw i)) (init_supported i), Ok tt).
Proof. done. Qed.

Lemma onHw_run {A} (m : HWM A) i h r : m (init_hw i) = (h, r) → onHw m i = (mkInit h (init_supported i), r).
Proof. unfold onHw. by intros ->. Qed.

Lemma initProperty_spec s2r d i : loadable d → hw_ok (init_hw i) →
  unregistered (mServerSidePropStore (init_hw i)) (pc_prop (config d)) →
  unsupported (init_supported i) (pc_prop (config d)) →
  ∃ i', initProperty tick uninit_size s2r d i = (i', Ok tt) ∧ hw_ok (init_hw i') ∧ initialised s2r d i i'.
Proof.
  intros Hl Hok Hu Hs. destruct (registered_ok s2r d Hl) as (c & Hc & Hp & Ha). unfold FakeInit.initProperty. rewrite Hc.
  assert (Hdiag : isDiagnosticProperty c = isDiagnosticProperty (config d)) by (unfold isDiagnosticProperty; by rewrite Hp).
  set (tf := tokenFunctionFor (pc_prop c)). rewrite <- Hp in Hu.
  destruct (registerProperty_registers c tf _ Hu) as (Hcfg1 & Htok & Hst & Hother & Hr & Hfn). cbn zeta in *.
  rewrite mbind_unfold, onStore_run. cbn [fst snd]. set (i1 := mkInit _ _).
  assert (Hok1 : hw_ok (init_hw i1)).
  { destruct Hok. split; [by apply register_wf|done]. }
  rewrite Hdiag. destruct (isDiagnosticProperty (config d)) eqn:Hd.
  { exists i1. split; [done|]. split; [exact Hok1|]. split; unfold valueAreas, dependents; rewrite ?Hd.
    - exists c. by rewrite <- Hp.
    - by rewrite <- Hp.
    - intros p Hne. unfold tokenFunctionOf. cbn [i1 init_hw mServerSidePropStore set_store].
      by destruct (Hother p) as [-> ->]; [by rewrite Hp|].
    - split; [by intros a x ?%elem_of_nil|]. intros q r _. apply Hst.
    - done.
    - done. }
  destruct (storeProp_spec d (init_hw i1) Hok1) as (h2 & E2 & Hok2 & Hreg & Hdep & Hfill).
  { split; [rewrite <- Hp; apply Htok; unfold tf; rewrite Hp; by apply registered_plain|].
    exists c. split; [|exact Ha]. rewrite <- Hp. exact Hcfg1. }
  rewrite mbind_unfold, (onHw_run _ _ _ _ E2), mbind_mget. cbn [init_supported init_hw].
  destruct (supportAreas_spec (config d) (supportedValuesForAreaId d) (areaConfigs (config d)) (ld_areas d Hl)
              (ld_lists d Hl) (init_supported i)) as (s' & E & Hsup).
  { intros a _. apply Hs. }
  assert (Ec : ∀ fl acs s, supportAreas c fl acs s = supportAreas (config d) fl acs s).
  { intros fl acs. induction acs as [|ac acs IH]; intros s; [done|]. cbn [supportAreas].
    rewrite !supportArea_eq, Hp. destruct (declaredList _ _ _); [|done]. apply IH. }
  rewrite Ec, Ha. unfold i1. cbn [init_supported]. rewrite E. unfold mput.
  eexists. split; [reflexivity|]. split; [exact Hok2|].
  split; unfold valueAreas, dependents; cbn [init_hw init_supported]; rewrite ?Hd; [| | | |exact Hdep|exact Hsup].
  - exists c. split; [done|]. destruct Hreg as (_ & -> & _). by rewrite <- Hp.
  - destruct Hreg as (_ & _ & _ & _ & ->). by rewrite <- Hp.
  - intros p Hne. destruct Hreg as (_ & -> & _ & _ & ->). unfold tokenFunctionOf.
    cbn [i1 init_hw mServerSidePropStore set_store]. by destruct (Hother p) as [-> ->]; [by rewrite Hp|].
  - destruct Hfill as [Hin Hout]. split; [exact Hin|]. intros q r Hq. rewrite (Hout q r Hq). apply Hst.
Qed.

(** ** All the declarations *)

Definition minMaxAnswer (lo hi : option RawPropValues) : MinMaxSupportedValueResult :=
  match lo, hi with
  | None, None => mkMinMaxSupportedValueResult INVALID_ARG None None
  | _, _ => mkMinMaxSupportedValueResult OK lo hi
  end.
Definition listAnswer (l : list RawPropValues) : SupportedValuesListResult :=
  match l with
  | [] => mkSupportedValuesListResult INVALID_ARG None
  | _ => mkSupportedValuesListResult OK (Some (Some <$> l))
  end.

(** The state [i] is as declaration [d] says. *)
Record satisfied (s2r : Z) (d : ConfigDeclaration) (i : Init) : Prop := {
  sat_config : ∃ c, registeredConfig s2r (config d) = Some c ∧
    getPropConfig (pc_prop (config d)) (mServerSidePropStore (init_hw i)) = Ok c;
  sat_token : tokenFunctionOf (mServerSidePropStore (init_hw i)) (pc_prop (config d))
    = Some (tokenFunctionFor (pc_prop (config d)));
  sat_values : ∀ a x, a ∈ valueAreas d → initialValueFor d a = Some x →
    ∃ k, stored (mServerSidePropStore (init_hw i)) (pc_prop (config d)) (mkRecordId a 0) = Some (initialStored d a x k);
  sat_supported : isDiagnosticProperty (config d) = false → ∀ ac, ac ∈ areaConfigs (config d) →
    let t := getPropType (pc_prop (config d)) in
    let id := mkPropIdAreaId (pc_prop (config d)) (ac_areaId ac) in
    getMinMaxSupportedValues [id] (init_supported i) = [minMaxAnswer (declaredMin t ac) (declaredMax t ac)] ∧
    ∃ l, declaredList t (supportedValuesForAreaId d) ac = Some l ∧
      getSupportedValuesLists [id] (init_supported i) = [listAnswer l];
}.

(** Nothing of property [p] differs. *)
Record untouched (p : Z) (i i' : Init) : Prop := {
  un_config : getPropConfig p (mServerSidePropStore (init_hw i')) = getPropConfig p (mServerSidePropStore (init_hw i));
  un_token : tokenFunctionOf (mServerSidePropStore (init_hw i')) p = tokenFunctionOf (mServerSidePropStore (init_hw i)) p;
  un_values : ∀ r, stored (mServerSidePropStore (init_hw i')) p r = stored (mServerSidePropStore (init_hw i)) p r;
  un_supported : ∀ a, minOf (init_supported i') p a = minOf (init_supported i) p a ∧
    maxOf (init_supported i') p a = maxOf (init_supported i) p a ∧
    listOf (init_supported i') p a = listOf (init_supported i) p a;
}.

Lemma untouched_trans p i1 i2 i3 : untouched p i1 i2 → untouched p i2 i3 → untouched p i1 i3.
Proof.
  intros [A1 T1 B1 C1] [A2 T2 B2 C2]. split; [congruence..|intros r; by rewrite B2|].
  intros a. destruct (C2 a) as (-> & -> & ->). apply C1.
Qed.

Lemma initialised_untouched s2r d i i' p : initialised s2r d i i' → p ≠ pc_prop (config d) → untouched p i i'.
Proof.
  intros [_ _ Ho [_ Hf] _ Hs] Hp. split; [by apply Ho|by apply Ho| |].
  - intros r. apply Hf. intros a x _ _ ->. done.
  - intros a. destruct (isDiagnosticProperty (config d)); [by rewrite Hs|]. by apply (sup_out _ _ _ _ _ Hs).
Qed.

Lemma untouched_answers p a i i' : untouched p i i' →
  getMinMaxSupportedValues [mkPropIdAreaId p a] (init_supported i')
    = getMinMaxSupportedValues [mkPropIdAreaId p a] (init_supported i) ∧
  getSupportedValuesLists [mkPropIdAreaId p a] (init_supported i')
    = getSupportedValuesLists [mkPropIdAreaId p a] (init_supported i).
Proof.
  intros [_ _ _ Hs]. destruct (Hs a) as (E1 & E2 & E3). unfold minOf, maxOf, listOf in *.
  unfold getMinMaxSupportedValues, getSupportedValuesLists. cbn [fmap list_fmap]. by rewrite E1, E2, E3.
Qed.

Lemma satisfied_untouched s2r d i i' : untouched (pc_prop (config d)) i i' → satisfied s2r d i → satisfied s2r d i'.
Proof.
  intros Hu [Hc Ht Hv Hs]. pose proof Hu as [Ec Et Ev _]. split.
  - destruct Hc as (c & ? & ?). exists c. split; [done|]. congruence.
  - by rewrite Et.
  - intros a x Ha Hx. destruct (Hv a x Ha Hx) as [k Hk]. exists k. by rewrite Ev.
  - intros Hd ac Hac. cbn zeta. destruct (untouched_answers _ (ac_areaId ac) _ _ Hu) as [-> ->]. by apply Hs.
Qed.

Lemma initialised_satisfied s2r d i i' : initialised s2r d i i' → satisfied s2r d i'.
Proof.
  intros [Hc Ht _ [Hin _] _ Hs]. split; [done|done|done|]. intros Hd ac Hac. cbn zeta. rewrite Hd in Hs.
  destruct (sup_in _ _ _ _ _ Hs ac Hac) as (l & Hl & Hlo & Hhi & Hli). unfold minOf, maxOf, listOf in *.
  unfold getMinMaxSupportedValues, getSupportedValuesLists. cbn [fmap list_fmap]. rewrite Hlo, Hhi, Hli. split.
  - unfold minMaxAnswer. by destruct (declaredMin _ _), (declaredMax _ _).
  - exists l. split; [done|]. by destruct l.
Qed.

(** The dependents collected from the declarations, in order. *)
Definition allDependents (decls : list ConfigDeclaration) : list Z := concat (dependents <$> decls).

Lemma allDependents_in decls p : p ∈ allDependents decls ↔
  ∃ d, d ∈ decls ∧ pc_prop (config d) = VehicleProperty.HVAC_POWER_ON ∧ p ∈ configArray (config d).
Proof.
  assert (Hd : ∀ d, p ∈ dependents d ↔ pc_prop (config d) = VehicleProperty.HVAC_POWER_ON ∧ p ∈ configArray (config d)).
  { intros d. unfold dependents, dependentsOf. destruct (Z.eqb_spec (pc_prop (config d)) VehicleProperty.HVAC_POWER_ON) as [E|E].
    - assert (isDiagnosticProperty (config d) = false) as -> by (unfold isDiagnosticProperty; by rewrite E). tauto.
    - destruct (isDiagnosticProperty _); rewrite elem_of_nil; tauto. }
  unfold allDependents. rewrite list_elem_of_In, in_concat. split.
  - intros (l & Hl%list_elem_of_In & Hp%list_elem_of_In). apply list_elem_of_fmap in Hl as (d & -> & Hin).
    exists d. split; [done|]. by apply Hd.
  - intros (d & Hin & Hp). exists (dependents d). split; apply list_elem_of_In; [by apply list_elem_of_fmap_2|by apply Hd].
Qed.

Lemma initProperties_run s2r decls : ∀ i,
  hw_ok (init_hw i) → NoDup ((λ d, pc_prop (config d)) <$> decls) →
  (∀ d, d ∈ decls → loadable d ∧ unregistered (mServerSidePropStore (init_hw i)) (pc_prop (config d)) ∧
     unsupported (init_supported i) (pc_prop (config d))) →
  ∃ i', initProperties tick uninit_size s2r decls i = (i', Ok tt) ∧ hw_ok (init_hw i') ∧
    (∀ d, d ∈ decls → satisfied s2r d i') ∧
    (∀ p, p ∉ ((λ d, pc_prop (config d)) <$> decls) → untouched p i i') ∧
    (∀ q r, (∀ d a x, d ∈ decls → a ∈ valueAreas d → initialValueFor d a = Some x →
        q = pc_prop (config d) → r ≠ mkRecordId a 0) →
      stored (mServerSidePropStore (init_hw i')) q r = stored (mServerSidePropStore (init_hw i)) q r) ∧
    hvacPowerDependentProps (init_hw i')
      = foldl insertDependent (hvacPowerDependentProps (init_hw i)) (allDependents decls).
Proof.
  unfold FakeInit.initProperties. induction decls as [|d decls IH]; intros i Hok Hnd Hd; cbn [for_each].
  { exists i. split_and!; [done|done|by intros d ?%elem_of_nil|done|done|done]. }
  cbn [fmap list_fmap] in Hnd. apply NoDup_cons in Hnd as [Hnew Hnd].
  destruct (Hd d) as (Hl & Hu & Hs); [by left|].
  destruct (initProperty_spec s2r d i Hl Hok Hu Hs) as (i1 & E1 & Hok1 & Hin1).
  assert (Hun : ∀ e, e ∈ decls → pc_prop (config e) ≠ pc_prop (config d)).
  { intros e He Heq. apply Hnew. rewrite <- Heq. apply list_elem_of_fmap. by exists e. }
  destruct (IH i1 Hok1 Hnd) as (i' & E & Hok' & Hsat & Hunt & Hst & Hdep).
  { intros e He. destruct (Hd e) as (Hle & Hue & Hse); [by right|]. split; [done|].
    destruct (initialised_untouched _ _ _ _ _ Hin1 (Hun e He)) as [Ec _ _ Es]. split.
    - apply unregistered_iff. rewrite Ec. by apply unregistered_iff.
    - intros a. destruct (Es a) as (-> & -> & ->). apply Hse. }
  exists i'. rewrite mbind_unfold, E1. cbn [fst snd]. split_and!; [done|done| | | |].
  - intros e [->|He]%elem_of_cons; [|by apply Hsat].
    apply (satisfied_untouched s2r d i1 i'); [by apply Hunt|by eapply initialised_satisfied].
  - intros p Hp. cbn [fmap list_fmap] in Hp. apply not_elem_of_cons in Hp as [Hp1 Hp2].
    eapply untouched_trans; [by eapply initialised_untouched|by apply Hunt].
  - intros q r Hq. rewrite Hst.
    + apply (in_filled _ _ _ _ Hin1). intros a x Ha Hx. apply (Hq d a x); [by left|done|done].
    + intros e a x He. apply Hq. by right.
  - rewrite Hdep, (in_deps _ _ _ _ Hin1). unfold allDependents. cbn [fmap list_fmap concat]. by rewrite foldl_app.
Qed.

Lemma initProperties_spec s2r decls hal :
  pool_inv maxVec maxSize (mValuePool hal) → NoDup ((λ d, pc_prop (config d)) <$> decls) →
  (∀ d, d ∈ decls → loadable d) →
  ∃ i', initProperties tick uninit_size s2r decls (mkInit (mkHW newStore hal []) noSupported) = (i', Ok tt) ∧
    hw_ok (init_hw i') ∧
    (∀ d, d ∈ decls → satisfied s2r d i') ∧
    (∀ p, p ∉ ((λ d, pc_prop (config d)) <$> decls) →
       ∀ c, getPropConfig p (mServerSidePropStore (init_hw i')) ≠ Ok c) ∧
    (∀ q r v, stored (mServerSidePropStore (init_hw i')) q r = Some v → ∃ d a x k, d ∈ decls ∧ a ∈ valueAreas d ∧
        initialValueFor d a = Some x ∧ q = pc_prop (config d) ∧ r = mkRecordId a 0 ∧ v = initialStored d a x k) ∧
    NoDup (hvacPowerDependentProps (init_hw i')) ∧
    (∀ p, p ∈ hvacPowerDependentProps (init_hw i') ↔
       ∃ d, d ∈ decls ∧ pc_prop (config d) = VehicleProperty.HVAC_POWER_ON ∧ p ∈ configArray (config d)).
Proof.
  intros Hpool Hnd Hl. set (i := mkInit _ _).
  destruct (initProperties_run s2r decls i) as (i' & E & Hok & Hsat & Hunt & Hst & Hdep); [|done| |].
  { split; [apply store_wf_new|exact Hpool]. }
  { intros d Hd. split; [by apply Hl|]. by split. }
  exists i'. split_and!; [done|done|done| | | |].
  - intros p Hp c. destruct (Hunt p Hp) as [-> _ _ _]. done.
  - intros q r v Hv. destruct (decide (Exists (λ da, q = pc_prop (config da.1) ∧ r = mkRecordId da.2 0 ∧
        is_Some (initialValueFor da.1 da.2)) (pairs valueAreas decls))) as [Hex|Hno].
    + apply Exists_exists in Hex as ([d a] & Hin & -> & -> & [x Hx]). cbn [fst snd] in *.
      apply elem_of_pairs in Hin as [Hd Ha]. destruct (sat_values _ _ _ (Hsat d Hd) a x Ha Hx) as [k Hk].
      exists d, a, x, k. rewrite Hk in Hv. by injection Hv as <-.
    + exfalso. rewrite Hst in Hv; [done|]. intros d a x Hd Ha Hx -> ->. apply Hno, Exists_exists.
      exists (d, a). split; [by apply elem_of_pairs|]. cbn [fst snd]. split_and!; [done|done|by exists x].
  - rewrite Hdep. apply insertDependent_nodup, NoDup_nil_2.
  - intros p. rewrite Hdep, insertDependent_in, allDependents_in. unfold i. cbn [init_hw hvacPowerDependentProps].
    rewrite elem_of_nil. tauto.
Qed.

(** ** The frames *)

Lemma tokenless_none s p : tokenFunctionOf s p = Some None → tokenless s p.
Proof.
  unfold tokenFunctionOf, tokenless, record_of. intros H v r -> Hr.
  destruct (mRecordsByPropId s !! p) as [rec|]; [|done]. injection H as H. injection Hr as <-.
  unfold getRecordIdLocked. by rewrite H.
Qed.

Lemma freeze_unfilled s : tokenFunctionOf s OBD2_FREEZE_FRAME = Some (Some timestamp) →
  (∀ r, stored s OBD2_FREEZE_FRAME r = None) → freeze_registered s.
Proof.
  unfold tokenFunctionOf, freeze_registered, stored. intros H Hs.
  destruct (mRecordsByPropId s !! OBD2_FREEZE_FRAME) as [rec|]; [|done]. injection H as H. exists rec. split; [done|].
  split; [by exists timestamp|]. intros r v Hv. by rewrite Hs in Hv.
Qed.

(** A frame leaves all but the values of its property as it was. *)
Record frame_kept (p : Z) (s s' : Store) : Prop := {
  fk_wf : store_wf tick s';
  fk_registry : same_registry s s';
  fk_others : ∀ q r, q ≠ p → stored s' q r = stored s q r;
}.

Lemma writeFrame_kept p dtc sensors s pool : store_wf tick s →
  frame_kept p s (fst (writeFrame tick uninit_size p dtc sensors (s, pool))).
Proof.
  intros Hs. rewrite writeFrame_eq. cbn [fst]. set (w := frameValue _ _ _ _).
  pose proof (bump_wf tick tick_mono s Hs) as Hs1. split.
  - apply write_wf; [done| |done]. right. apply tick_mono. cbn. lia.
  - eapply same_registry_trans; [|apply write_registry]. done.
  - intros q r Hq. pose proof (writeValue_effect tick (bump_clock s) w true ON_VALUE_CHANGE false) as H.
    destruct (writeValue _ _ _ _ _ _) as [s' res]. cbn zeta in H. cbn [stamped fst] in *. destruct H as (_ & Hrej & Hacc).
    destruct (decide (admissible (bump_clock s) w)) as [Ha|Hna]; [|by apply Hrej].
    pose proof Ha as (rec & Hrec & _). destruct (Hacc rec Ha Hrec) as [_ Hst]. rewrite Hst, decide_False; [done|].
    by intros [-> _].
Qed.

Lemma writeFrames_kept p dtcs sensors : ∀ s pool, store_wf tick s →
  let st := foldl (λ st dtc, writeFrame tick uninit_size p dtc sensors st) (s, pool) dtcs in
  frame_kept p s st.1 ∧ st.2 = pool.
Proof.
  induction dtcs as [|dtc dtcs IH]; intros s pool Hs; cbn [foldl]; [done|].
  pose proof (writeFrame_kept p dtc sensors s pool Hs) as [Hs1 Hr1 Ho1]. rewrite writeFrame_eq in *. cbn [fst] in *.
  set (s1 := fst _) in *. destruct (IH s1 pool Hs1) as [[Hs2 Hr2 Ho2] Hp]. split; [|done]. split; [done| |].
  - by eapply same_registry_trans.
  - intros q r Hq. by rewrite Ho2, Ho1.
Qed.

(** All but the frames, and the callback, is as before. *)
Record frames_only (i i' : Init) : Prop := {
  fo_config : ∀ p, getPropConfig p (mServerSidePropStore (init_hw i')) = getPropConfig p (mServerSidePropStore (init_hw i));
  fo_token : ∀ p, tokenFunctionOf (mServerSidePropStore (init_hw i')) p = tokenFunctionOf (mServerSidePropStore (init_hw i)) p;
  fo_values : ∀ p r, isFrame p = false →
    stored (mServerSidePropStore (init_hw i')) p r = stored (mServerSidePropStore (init_hw i)) p r;
  fo_deps : hvacPowerDependentProps (init_hw i') = hvacPowerDependentProps (init_hw i);
  fo_supported : init_supported i' = init_supported i;
}.

Lemma frames_only_trans i1 i2 i3 : frames_only i1 i2 → frames_only i2 i3 → frames_only i1 i3.
Proof.
  intros [A1 B1 C1 D1 E1] [A2 B2 C2 D2 E2]. split; [intros; congruence..| |congruence|congruence].
  intros p r Hp. by rewrite C2, C1.
Qed.

Lemma satisfied_frames s2r d i i' : frames_only i i' → satisfied s2r d i → satisfied s2r d i'.
Proof.
  intros [Ec Et Ev _ Es] [Hc Ht Hv Hs]. split; rewrite ?Ec, ?Et, ?Es; [done|done| |done].
  intros a x Ha Hx. destruct (Hv a x Ha Hx) as [k Hk]. exists k. rewrite Ev; [done|].
  unfold valueAreas in Ha. destruct (isDiagnosticProperty (config d)) eqn:Hd; [by apply elem_of_nil in Ha|].
  unfold isDiagnosticProperty in Hd. rewrite !orb_false_iff in Hd. unfold isFrame. by destruct Hd as [[[-> ->] _] _].
Qed.

(** [initFrame] on a property that is not declared, and on a declared one. *)
Lemma initFrame_undeclared p f i :
  (∀ c, getPropConfig p (mServerSidePropStore (init_hw i)) ≠ Ok c) → initFrame p f i = (i, Ok tt).
Proof. intros H. unfold initFrame. destruct (getPropConfig _ _) as [c|e]; [by destruct (H c)|done]. Qed.

Lemma initFrame_declared p f i c s' : hw_ok (init_hw i) →
  let s := mServerSidePropStore (init_hw i) in
  let pool := mValuePool (mFakeUserHal (init_hw i)) in
  getPropConfig p s = Ok c → f c (s, pool) = Some (s', pool) → frame_kept p s s' → isFrame p = true →
  ∃ i', initFrame p f i = (i', Ok tt) ∧ hw_ok (init_hw i') ∧ frames_only i i' ∧
    mServerSidePropStore (init_hw i') = s'.
Proof.
  intros [Hs Hp] s pool Hc Hf [Hwf Hreg Ho] Hfr. unfold initFrame. fold s pool. rewrite Hc, Hf.
  eexists. split; [done|]. split; [split; [exact Hwf|]|]; [destruct (mFakeUserHal (init_hw i)); exact Hp|]. split; [|done].
  destruct Hreg as (_ & Hg & _ & _ & Ht). split; [exact Hg|exact Ht| |done|done].
  intros q r Hq. apply Ho. intros ->. by rewrite Hfr in Hq.
Qed.

(** The live frame of the property's only area. *)
Lemma init_live_spec i c : hw_ok (init_hw i) →
  let s := mServerSidePropStore (init_hw i) in
  getPropConfig OBD2_LIVE_FRAME s = Ok c → vendor_declared c → tokenFunctionOf s OBD2_LIVE_FRAME = Some None →
  (∀ r, stored s OBD2_LIVE_FRAME r = None) →
  ∃ i' sensors, defaultSensors c = Some sensors ∧
    initFrame OBD2_LIVE_FRAME (initObd2LiveFrame tick uninit_size) i = (i', Ok tt) ∧ hw_ok (init_hw i') ∧
    frames_only i i' ∧
    (∀ q r, q ≠ OBD2_LIVE_FRAME → stored (mServerSidePropStore (init_hw i')) q r = stored s q r) ∧
    ∀ r v, stored (mServerSidePropStore (init_hw i')) OBD2_LIVE_FRAME r = Some v ↔
      r = mkRecordId 0 0 ∧ v = frameValue OBD2_LIVE_FRAME (tick (reads s)) "" sensors.
Proof.
  intros Hok s Hc Hv Ht Hnone. destruct (defaultSensors_some c Hv) as [sensors Hd].
  pose proof (writeFrame_kept OBD2_LIVE_FRAME "" sensors s (mValuePool (mFakeUserHal (init_hw i))) (ok_store _ _ _ _ Hok)) as Hk.
  rewrite writeFrame_eq in Hk. cbn [fst] in Hk. set (w := frameValue _ _ _ _) in Hk.
  destruct (write_at tick (bump_clock s) w true ON_VALUE_CHANGE c) as (s' & E & _ & _ & Hst & _); [|exact Hc|by left| |].
  { by apply tokenless_none. }
  { intros o Ho. change (stored (bump_clock s)) with (stored s) in Ho. by rewrite Hnone in Ho. }
  rewrite E in Hk. cbn [fst] in Hk.
  destruct (initFrame_declared OBD2_LIVE_FRAME (initObd2LiveFrame tick uninit_size) i c s' Hok Hc) as (i' & Ei & Hok' & Hfo & Es);
    [|done|done|].
  { rewrite init_live_eq, Hd. cbn [fmap option_fmap option_map]. rewrite writeFrame_eq. fold s w. by rewrite E. }
  exists i', sensors. split_and!; [done|done|done|done| |].
  - intros q r Hq. rewrite Es. by apply (fk_others _ _ _ Hk).
  - intros r v. rewrite Es, Hst. change (key w) with (mkRecordId 0 0). change (prop w) with OBD2_LIVE_FRAME.
    change (stored (bump_clock s)) with (stored s).
    case_decide as He.
    + destruct He as [_ ->]. rewrite Hnone. split; [by intros [= <-]|by intros [_ ->]].
    + rewrite Hnone. split; [done|]. intros [-> _]. by destruct He.
Qed.

(** One freeze frame per sample trouble code. *)
Lemma init_freeze_spec i c : hw_ok (init_hw i) → (∀ n, tick n < tick (S n)) →
  let s := mServerSidePropStore (init_hw i) in
  getPropConfig OBD2_FREEZE_FRAME s = Ok c → vendor_declared c →
  tokenFunctionOf s OBD2_FREEZE_FRAME = Some (Some timestamp) → (∀ r, stored s OBD2_FREEZE_FRAME r = None) →
  ∃ i' sensors, defaultSensors c = Some sensors ∧
    initFrame OBD2_FREEZE_FRAME (initObd2FreezeFrame tick uninit_size) i = (i', Ok tt) ∧ hw_ok (init_hw i') ∧
    frames_only i i' ∧
    (∀ q r, q ≠ OBD2_FREEZE_FRAME → stored (mServerSidePropStore (init_hw i')) q r = stored s q r) ∧
    ∀ r v, stored (mServerSidePropStore (init_hw i')) OBD2_FREEZE_FRAME r = Some v ↔
      ∃ n dtc, sampleDtcs !! n = Some dtc ∧ r = mkRecordId 0 (tick (reads s + n)%nat) ∧
        v = frameValue OBD2_FREEZE_FRAME (tick (reads s + n)%nat) dtc sensors.
Proof.
  intros Hok Htick s Hc Hv Ht Hnone. set (pool := mValuePool (mFakeUserHal (init_hw i))).
  destruct (init_freeze_frames tick uninit_size c s pool (freeze_unfilled s Ht Hnone)) as (s' & sensors & Hd & E & Hfr & Hf);
    [intros t; apply Hnone|done|done|].
  pose proof (writeFrames_kept OBD2_FREEZE_FRAME sampleDtcs sensors s pool (ok_store _ _ _ _ Hok)) as [Hk _].
  set (st := foldl _ _ _) in Hk. pose proof E as E'. rewrite init_freeze_eq, Hd in E'.
  change (Some st = Some (s', pool)) in E'. apply (inj Some) in E'. rewrite E' in Hk. cbn [fst] in Hk.
  destruct (initFrame_declared OBD2_FREEZE_FRAME (initObd2FreezeFrame tick uninit_size) i c s' Hok Hc E Hk)
    as (i' & Ei & Hok' & Hfo & Es); [done|].
  exists i', sensors. split_and!; [done|done|done|done| |].
  - intros q r Hq. rewrite Es. by apply (fk_others _ _ _ Hk).
  - intros r v. rewrite Es. split.
    + intros Hrv. pose proof Hfr as (rec & Hrec & Hro). pose proof Hrv as Hrv'. unfold stored in Hrv'. rewrite Hrec in Hrv'.
      destruct (fr_filed _ Hro r v Hrv') as [-> _]. apply Hf in Hrv as (n & dtc & Hn & Htn & ->).
      exists n, dtc. split; [done|]. by rewrite Htn.
    + intros (n & dtc & Hn & -> & ->). apply Hf. by exists n, dtc.
Qed.

(** ** The frames [init] leaves for the declarations [m] *)

Definition live_initialised (m : gmap Z ConfigDeclaration) (s : Store) : Prop :=
  match m !! OBD2_LIVE_FRAME with
  | Some d => ∃ sensors k, defaultSensors (config d) = Some sensors ∧ ∀ r v, stored s OBD2_LIVE_FRAME r = Some v ↔
      r = mkRecordId 0 0 ∧ v = frameValue OBD2_LIVE_FRAME (tick k) "" sensors
  | None => ∀ r, stored s OBD2_LIVE_FRAME r = None
  end.

Definition freeze_initialised (m : gmap Z ConfigDeclaration) (s : Store) : Prop :=
  match m !! OBD2_FREEZE_FRAME with
  | Some d => ∃ sensors k, defaultSensors (config d) = Some sensors ∧ ∀ r v, stored s OBD2_FREEZE_FRAME r = Some v ↔
      ∃ n dtc, sampleDtcs !! n = Some dtc ∧ r = mkRecordId 0 (tick (k + n)%nat) ∧
        v = frameValue OBD2_FREEZE_FRAME (tick (k + n)%nat) dtc sensors
  | None => ∀ r, stored s OBD2_FREEZE_FRAME r = None
  end.

(** The configuration registered for a frame property is the declared one. *)
Lemma satisfied_frame s2r d i : isFrame (pc_prop (config d)) = true → satisfied s2r d i →
  getPropConfig (pc_prop (config d)) (mServerSidePropStore (init_hw i)) = Ok (config d).
Proof.
  intros Hf [(c & Hc & ->) _ _ _]. unfold registeredConfig in Hc. unfold isFrame in Hf.
  destruct (Z.eqb_spec (pc_prop (config d)) VehicleProperty.AP_POWER_STATE_REQ) as [E|]; [by rewrite E in Hf|].
  congruence.
Qed.

(** Both frames, after the declarations. *)
Lemma init_frames s2r m i : hw_ok (init_hw i) → (∀ n, tick n < tick (S n)) →
  (∀ p d, m !! p = Some d → pc_prop (config d) = p ∧ loadable d ∧ satisfied s2r d i) →
  (∀ p, m !! p = None → ∀ c, getPropConfig p (mServerSidePropStore (init_hw i)) ≠ Ok c) →
  (∀ p r, isFrame p = true → stored (mServerSidePropStore (init_hw i)) p r = None) →
  ∃ i', (initFrame OBD2_LIVE_FRAME (initObd2LiveFrame tick uninit_size) ;;;
         initFrame OBD2_FREEZE_FRAME (initObd2FreezeFrame tick uninit_size)) i = (i', Ok tt) ∧ hw_ok (init_hw i') ∧
    frames_only i i' ∧ live_initialised m (mServerSidePropStore (init_hw i')) ∧
    freeze_initialised m (mServerSidePropStore (init_hw i')).
Proof.
  intros Hok Htick Hm Hno Hempty.
  assert (H1 : ∃ i1, initFrame OBD2_LIVE_FRAME (initObd2LiveFrame tick uninit_size) i = (i1, Ok tt) ∧ hw_ok (init_hw i1) ∧
    frames_only i i1 ∧ live_initialised m (mServerSidePropStore (init_hw i1)) ∧
    ∀ q r, q ≠ OBD2_LIVE_FRAME →
      stored (mServerSidePropStore (init_hw i1)) q r = stored (mServerSidePropStore (init_hw i)) q r).
  { unfold live_initialised. destruct (m !! OBD2_LIVE_FRAME) as [d|] eqn:Hd.
    - destruct (Hm _ _ Hd) as (Hp & Hl & Hs). pose proof (sat_token _ _ _ Hs) as Ht.
      pose proof (satisfied_frame s2r d i) as Hc. rewrite Hp in *. specialize (Hc eq_refl Hs).
      destruct (init_live_spec i (config d) Hok Hc) as (i1 & sensors & Hsen & E & Hok1 & Hfo & Ho & Hst);
        [by apply (ld_frames d Hl); rewrite Hp|done|intros r; by apply Hempty|].
      exists i1. split_and!; [done..| |done]. by eexists _, _.
    - exists i. rewrite (initFrame_undeclared _ _ i (Hno _ Hd)). split_and!; [done..|intros r; by apply Hempty|done]. }
  destruct H1 as (i1 & E1 & Hok1 & Hfo1 & Hlive & Ho1). rewrite mbind_unfold, E1.
  unfold freeze_initialised, live_initialised in *. destruct (m !! OBD2_FREEZE_FRAME) as [d|] eqn:Hd.
  - destruct (Hm _ _ Hd) as (Hp & Hl & Hs%(satisfied_frames _ _ _ _ Hfo1)). pose proof (sat_token _ _ _ Hs) as Ht.
    pose proof (satisfied_frame s2r d i1) as Hc. rewrite Hp in *. specialize (Hc eq_refl Hs).
    destruct (init_freeze_spec i1 (config d) Hok1 Htick Hc) as (i2 & sensors & Hsen & E & Hok2 & Hfo & Ho & Hst);
      [by apply (ld_frames d Hl); rewrite Hp|done|intros r; rewrite Ho1; [by apply Hempty|done]|].
    exists i2. split_and!; [done|done|by eapply frames_only_trans| |by eexists _, _].
    destruct (m !! OBD2_LIVE_FRAME) as [e|]; [|intros r; by rewrite Ho].
    destruct Hlive as (se & k & Hse & Hiff). exists se, k. split; [done|]. intros r v. by rewrite Ho.
  - exists i1. rewrite (initFrame_undeclared _ _ i1).
    + split_and!; [done..|]. intros r. rewrite Ho1 by done. by apply Hempty.
    + intros c. rewrite (fo_config _ _ Hfo1). by apply Hno.
Qed.

(** ** From the files *)

Lemma keyed_elem m d : keyed m → d ∈ (snd <$> map_to_list m) ↔ m !! pc_prop (config d) = Some d.
Proof.
  intros Hk. rewrite list_elem_of_fmap. split.
  - intros ([p e] & -> & Hin%elem_of_map_to_list). cbn. by rewrite (Hk p e Hin).
  - intros H. exists (pc_prop (config d), d). split; [done|]. by apply elem_of_map_to_list.
Qed.

Lemma keyed_nodup m decls : keyed m → decls ≡ₚ (snd <$> map_to_list m) → NoDup ((λ d, pc_prop (config d)) <$> decls).
Proof.
  intros Hk ->. rewrite <- list_fmap_compose.
  replace (((λ d, pc_prop (config d)) ∘ snd) <$> map_to_list m) with (fst <$> map_to_list m); [apply NoDup_fst_map_to_list|].
  apply list_fmap_ext. intros i [p e] Hi. symmetry. apply (Hk p e). apply elem_of_map_to_list, list_elem_of_lookup. by exists i.
Qed.

Lemma declarations_keyed {J} `{!JsonValue J} enumerators useOverride defaultDir overrideDir m :
  loadConfigDeclarations enumerators useOverride defaultDir overrideDir = Some m → keyed m.
Proof.
  intros Hm. unfold loadConfigDeclarations in Hm.
  pose proof (load_dir_keyed enumerators defaultDir ∅ (map_Forall_empty _)) as Hd.
  destruct (loadPropConfigsFromDir enumerators defaultDir ∅) as [[] m0]; [|done]. cbn [snd negb] in *.
  injection Hm as <-. destruct useOverride; [by apply load_dir_keyed|done].
Qed.

Lemma valueAreas_frame d a : isFrame (pc_prop (config d)) = true → a ∉ valueAreas d.
Proof.
  unfold isFrame, valueAreas, isDiagnosticProperty. intros ->. by apply not_elem_of_nil.
Qed.

(** C19: starting the hardware succeeds and makes it what the configuration
    files say.  For the declarations loaded from the directories, taken in any
    order and each one [init] can take ([loadable]: AP_POWER_STATE_REQ has a
    config array, no area is listed twice, the listed supported floats fit the
    property's type, the OBD2 frames' arrays give two vendor sensor counts),
    and a clock that advances between readings: every declared property is
    registered with its configuration (the power-state one with the system
    property's support word); every non-diagnostic area with an initial value
    holds exactly that value, AVAILABLE; when declared, OBD2_LIVE_FRAME holds
    exactly one default frame and OBD2_FREEZE_FRAME exactly one per sample
    trouble code, filed under its time; nothing else is stored, and only the
    frames of declared properties are; the supported minima, maxima and lists
    are answered as declared; the properties that depend on the HVAC power are
    those of HVAC_POWER_ON's config array, each once; and the store calls the
    hardware back. *)
Theorem startup_satisfies_configuration {J} `{!JsonValue J} (enumerators : string → list (string * Z))
    useOverride defaultDir overrideDir m s2r decls hal callback :
  loadConfigDeclarations enumerators useOverride defaultDir overrideDir = Some m →
  decls ≡ₚ (snd <$> map_to_list m) → (∀ p d, m !! p = Some d → loadable d) →
  pool_inv maxVec maxSize (mValuePool hal) → (∀ n, tick n < tick (S n)) →
  ∃ i', init tick uninit_size s2r decls callback (mkInit (mkHW newStore hal []) noSupported) = (i', Ok tt) ∧
    hw_ok (init_hw i') ∧
    (∀ p d, m !! p = Some d → pc_prop (config d) = p ∧ satisfied s2r d i') ∧
    (∀ q r v, isFrame q = false → stored (mServerSidePropStore (init_hw i')) q r = Some v →
       ∃ d a x k, m !! q = Some d ∧ a ∈ valueAreas d ∧
        initialValueFor d a = Some x ∧ r = mkRecordId a 0 ∧ v = initialStored d a x k) ∧
    live_initialised m (mServerSidePropStore (init_hw i')) ∧
    freeze_initialised m (mServerSidePropStore (init_hw i')) ∧
    NoDup (hvacPowerDependentProps (init_hw i')) ∧
    (∀ p, p ∈ hvacPowerDependentProps (init_hw i') ↔
       ∃ d, m !! VehicleProperty.HVAC_POWER_ON = Some d ∧ p ∈ configArray (config d)) ∧
    mOnValuesChangeCallback (mServerSidePropStore (init_hw i')) = Some callback.
Proof.
  intros Hm Hperm Hl Hpool Htick. pose proof (declarations_keyed _ _ _ _ _ Hm) as Hk.
  assert (Hin : ∀ d, d ∈ decls ↔ m !! pc_prop (config d) = Some d).
  { intros d. rewrite Hperm. by apply keyed_elem. }
  destruct (initProperties_spec s2r decls hal Hpool (keyed_nodup m decls Hk Hperm)) as (i1 & E & Hok & Hsat & Hno & Hst & Hnd & Hdep).
  { intros d Hd. eapply Hl. by apply Hin. }
  assert (Hsat' : ∀ p d, m !! p = Some d → pc_prop (config d) = p ∧ loadable d ∧ satisfied s2r d i1).
  { intros p d Hd. pose proof (Hk p d Hd) as Hp. split_and!; [done|by eapply Hl|]. apply Hsat, Hin. by rewrite Hp. }
  destruct (init_frames s2r m i1 Hok Htick Hsat') as (i2 & E2 & Hok2 & Hfo & Hlive & Hfreeze).
  { intros p Hp. apply Hno. rewrite list_elem_of_fmap. intros (d & -> & Hd%Hin). congruence. }
  { intros p r Hp. destruct (stored _ p r) as [v|] eqn:Hv; [|done].
    destruct (Hst _ _ _ Hv) as (d & a & x & k & _ & Ha & _ & -> & _). by destruct (valueAreas_frame d a Hp). }
  pose (i' := mkInit (set_store (setOnValuesChangeCallback (Some callback) (mServerSidePropStore (init_hw i2))) (init_hw i2))
                (init_supported i2)).
  assert (Hfo' : frames_only i1 i') by by destruct Hfo.
  exists i'. split_and!; [| | | |exact Hlive|exact Hfreeze| | |done].
  - unfold FakeInit.init. rewrite mbind_unfold, E, mbind_unfold. rewrite mbind_unfold in E2.
    destruct (initFrame OBD2_LIVE_FRAME _ i1) as [x [[]|e]]; [|done]. by rewrite mbind_unfold, E2.
  - destruct Hok2 as [[Hi Hkd Hcf] Hp]. split; [by split|exact Hp].
  - intros p d Hd. destruct (Hsat' p d Hd) as (Hp & _ & Hs). split; [exact Hp|]. by eapply satisfied_frames.
  - intros q r v Hq Hv. rewrite (fo_values _ _ Hfo') in Hv by done.
    destruct (Hst q r v Hv) as (d & a & x & k & Hd & Ha & Hx & -> & Hr & Hv').
    exists d, a, x, k. split; [by apply Hin|]. by split.
  - by rewrite (fo_deps _ _ Hfo').
  - intros p. rewrite (fo_deps _ _ Hfo'), Hdep. split; intros (d & Hd).
    + destruct Hd as (Hd & Hp & Hc). exists d. rewrite <- Hp. split; [by apply Hin|done].
    + destruct Hd as [Hd Hc]. pose proof (Hk _ _ Hd) as Hp. exists d. split; [apply Hin; by rewrite Hp|done].
Qed.
End laws.

(** ** An example configuration *)

Definition example_startup_names (type : string) : list (string * Z) :=
  if String.eqb type "VehicleProperty"
  then [("HVAC_FAN_SPEED", VehicleProperty.HVAC_FAN_SPEED); ("HVAC_POWER_ON", VehicleProperty.HVAC_POWER_ON);
        ("OBD2_LIVE_FRAME", OBD2_LIVE_FRAME); ("OBD2_FREEZE_FRAME", OBD2_FREEZE_FRAME)]
  else [].

Definition example_power : Json :=
  JObject [("property", JString "VehicleProperty::HVAC_POWER_ON");
           ("configArray", JArray [JString "VehicleProperty::HVAC_FAN_SPEED"]);
           ("defaultValue", JObject [("int32Values", JArray [JInt 1])]);
           ("areas", JArray [JObject [("areaId", JString "Constants::HVAC_LEFT")]])].
Definition example_speed : Json :=
  JObject [("property", JString "VehicleProperty::HVAC_FAN_SPEED"); ("minInt32Value", JInt 1); ("maxInt32Value", JInt 7);
           ("hasSupportedValueInfo", JObject [("hasMinSupportedValue", JBool true); ("hasMaxSupportedValue", JBool true)]);
           ("areas", JArray [JObject [("areaId", JString "Constants::HVAC_LEFT");
                                      ("defaultValue", JObject [("int32Values", JArray [JInt 3])])];
                             JObject [("areaId", JString "Constants::HVAC_RIGHT")]])].
Definition example_frames (name : string) : Json :=
  JObject [("property", JString name); ("configArray", JArray [JInt 1; JInt 0])].
Definition example_file : Json :=
  JObject [("properties", JArray [example_power; example_speed; example_frames "VehicleProperty::OBD2_LIVE_FRAME";
                                  example_frames "VehicleProperty::OBD2_FREEZE_FRAME"])].
Definition example_dir : option (list (option Json)) := Some [Some example_file; None].

Definition loadableb (d : ConfigDeclaration) : bool :=
  negb (pc_prop (config d) =? VehicleProperty.AP_POWER_STATE_REQ) &&
  bool_decide (NoDup (ac_areaId <$> areaConfigs (config d))) &&
  forallb (λ ac, match declaredList (getPropType (pc_prop (config d))) (supportedValuesForAreaId d) ac with
                 | Some _ => true | None => false end) (areaConfigs (config d)) &&
  (negb (isFrame (pc_prop (config d))) ||
   match configArray (config d) with
   | ni :: nf :: _ => (0 <=? ni) && (ni <? two31) && (0 <=? nf) && (nf <? two31)
   | _ => false
   end).

Lemma loadableb_ok d : loadableb d = true → loadable d.
Proof.
  unfold loadableb. intros [[[Hp Hn]%andb_true_iff Hf]%andb_true_iff Hv]%andb_true_iff. split.
  - intros E. rewrite E in Hp. discriminate Hp.
  - by apply bool_decide_eq_true in Hn.
  - intros ac Hac. rewrite forallb_forall in Hf. apply list_elem_of_In in Hac. apply Hf in Hac. by destruct (declaredList _ _ _).
  - intros E. rewrite E in Hv. unfold vendor_declared. destruct (configArray (config d)) as [|ni [|nf rest]]; try done.
    exists ni, nf, rest. split; [done|]. cbn [negb orb] in Hv. rewrite !andb_true_iff, !Z.leb_le, !Z.ltb_lt in Hv. tauto.
Qed.

Lemma startup_satisfies_configuration_witness : ∃ m i' d k,
  loadConfigDeclarations example_startup_names false example_dir None = Some m ∧
  FakeInit.init example_tick 0 0 (snd <$> map_to_list m) 7
    (mkInit (mkHW newStore (newFakeUserHal (newPool 4 10240)) []) noSupported) = (i', Ok tt) ∧
  m !! VehicleProperty.HVAC_FAN_SPEED = Some d ∧
  stored (mServerSidePropStore (init_hw i')) VehicleProperty.HVAC_FAN_SPEED (mkRecordId 49 0)
    = Some (initialStored example_tick d 49 (rawInt32 3) k) ∧
  getMinMaxSupportedValues [mkPropIdAreaId VehicleProperty.HVAC_FAN_SPEED 68] (init_supported i')
    = [mkMinMaxSupportedValueResult OK (Some (rawInt32 1)) (Some (rawInt32 7))] ∧
  (∃ n, stringValue ∘ value <$> stored (mServerSidePropStore (init_hw i')) OBD2_FREEZE_FRAME
     (mkRecordId 0 (example_tick n)) = Some "P0102"%string).
Proof.
  set (l := loadConfigDeclarations example_startup_names false example_dir None).
  destruct l as [m|] eqn:E; [|vm_compute in E; discriminate E].
  destruct (m !! VehicleProperty.HVAC_FAN_SPEED) as [d|] eqn:Hd; [|injection E as <-; vm_compute in Hd; discriminate Hd].
  destruct (startup_satisfies_configuration example_tick example_tick_mono 0 4 10240 example_pool_ok example_startup_names
              false example_dir None m 0 (snd <$> map_to_list m) (newFakeUserHal (newPool 4 10240)) 7%nat E (reflexivity _))
    as (i' & Hrun & _ & Hsat & _ & _ & Hfreeze & _).
  { intros p e He. apply loadableb_ok.
    assert (Hall : forallb loadableb (snd <$> map_to_list m) = true) by (injection E as <-; vm_compute; reflexivity).
    rewrite forallb_forall in Hall. apply Hall, list_elem_of_In, list_elem_of_fmap. exists (p, e).
    split; [reflexivity|]. by apply elem_of_map_to_list. }
  { split; [done|done|]. apply map_Forall_empty. }
  { intros n. unfold example_tick. lia. }
  assert (Hfr : ∃ n v, stored (mServerSidePropStore (init_hw i')) OBD2_FREEZE_FRAME (mkRecordId 0 (example_tick n)) = Some v ∧
            stringValue (value v) = "P0102"%string).
  { unfold freeze_initialised in Hfreeze.
    destruct (m !! OBD2_FREEZE_FRAME) as [df|] eqn:Hdf; [|injection E as <-; vm_compute in Hdf; discriminate Hdf].
    destruct Hfreeze as (sensors & k & _ & Hf). exists (k + 1)%nat, (frameValue OBD2_FREEZE_FRAME (example_tick (k + 1)) "P0102" sensors). split; [|reflexivity].
    apply Hf. exists 1%nat, "P0102"%string. done. }
  destruct (Hsat _ _ Hd) as [Hp Hs].
  assert (Hfan : initialValueFor d 49 = Some (rawInt32 3) ∧ existsb (Z.eqb 49) (valueAreas d) = true ∧
     ∃ ac, areaConfigs (config d) !! 1%nat = Some ac ∧ isDiagnosticProperty (config d) = false ∧ ac_areaId ac = 68 ∧
        minMaxAnswer (declaredMin VehiclePropertyType.INT32 ac) (declaredMax VehiclePropertyType.INT32 ac)
         = mkMinMaxSupportedValueResult OK (Some (rawInt32 1)) (Some (rawInt32 7))).
  { injection E as <-. vm_compute in Hd. injection Hd as <-. split; [vm_compute; reflexivity|].
    split; [vm_compute; reflexivity|]. eexists. split; [reflexivity|]. split; [vm_compute; reflexivity|].
    split; [reflexivity|]. vm_compute. reflexivity. }
  destruct Hfan as (Hi & Ha & ac & Hac & Hdiag & Hid & Hans).
  destruct (sat_values _ _ _ _ Hs 49 (rawInt32 3)) as [k Hk]; [|exact Hi|].
  { apply existsb_exists in Ha as (x & Hx%list_elem_of_In & <-%Z.eqb_eq). exact Hx. }
  exists m, i', d, k. split; [reflexivity|]. split; [exact Hrun|]. split; [exact Hd|]. rewrite Hp in Hk. split; [exact Hk|].
  destruct (sat_supported _ _ _ _ Hs Hdiag ac) as [H _]; [apply list_elem_of_lookup; by exists 1%nat|].
  rewrite Hp, Hid in H. split.
  { rewrite H. f_equal. exact Hans. }
  destruct Hfr as (n & v & Hv & Hs'). exists n. rewrite Hv. cbn. f_equal. exact Hs'.
Defined.
