(* ===== verification/ProtoMessageConverter.v ===== *)
(** * ProtoMessageConverter: the AIDL types and their protobuf messages

    Models [vhal-ipc-grpc/.../proto_message_converter/src/ProtoMessageConverter.cpp]
    and the messages of [vhal-ipc-grpc/aidl/impl/4/proto].  A message is the
    record of its fields, a repeated field a list, a message field an option;
    the generated accessors [set_], [add_], [mutable_] update them.  The
    overloads of [aidlToProto] and [protoToAidl] are the instances of a class;
    both write into an existing object, as the code does. *)

From stdpp Require Import base list strings.
From Stdlib Require Import ZArith Lia.
From S2P Require Import Prelude Float32 VehicleTypes.

Local Open Scope Z_scope.

(** ** Messages *)

(** Bytes fields hold [char]s, signed here. *)
Definition to_char (b : Z) : Z := if b <? 128 then b else b - 256.
Definition to_uint8 (c : Z) : Z := c mod 256.

Record pRawPropValues : Type := mkpRaw {
  r_int32_values : list Z;
  r_float_values : list f32;
  r_int64_values : list Z;
  r_byte_values : list Z;
  r_string_value : string;
}.

Record pVehiclePropValue : Type := mkpValue {
  v_timestamp : Z;
  v_area_id : Z;
  v_prop : Z;
  v_status : Z;
  v_int32_values : list Z;
  v_float_values : list f32;
  v_int64_values : list Z;
  v_byte_values : list Z;
  v_string_value : string;
}.

Record pHasSupportedValueInfo : Type := mkpInfo {
  has_min_supported_value : bool;
  has_max_supported_value : bool;
  has_supported_values_list : bool;
}.

Record pVehicleAreaConfig : Type := mkpArea {
  a_area_id : Z;
  min_int32_value : Z;
  max_int32_value : Z;
  min_int64_value : Z;
  max_int64_value : Z;
  min_float_value : f32;
  max_float_value : f32;
  supported_enum_values : list Z;
  a_access : Z;
  support_variable_update_rate : bool;
  has_supported_value_info : option pHasSupportedValueInfo;
}.

Record pVehiclePropConfig : Type := mkpConfig {
  c_prop : Z;
  c_access : Z;
  change_mode : Z;
  area_configs : list pVehicleAreaConfig;
  config_array : list Z;
  config_string : string;
  min_sample_rate : f32;
  max_sample_rate : f32;
}.

Record pSubscribeOptions : Type := mkpOptions {
  o_prop_id : Z;
  o_area_ids : list Z;
  o_sample_rate : f32;
  o_resolution : f32;
  enable_variable_update_rate : bool;
}.

Record pPropIdAreaId : Type := mkpPropIdAreaId { i_prop_id : Z; i_area_id : Z }.

Record pMinMaxSupportedValueResult : Type := mkpMinMax {
  m_status : StatusCode;
  min_supported_value : option pRawPropValues;
  max_supported_value : option pRawPropValues;
}.

Record pSupportedValuesListResult : Type := mkpList {
  l_status : StatusCode;
  supported_values_list : list pRawPropValues;
}.

(** ** The converters *)

Class ProtoConverter (A P : Type) := {
  aidlToProto : A → P → P;
  protoToAidl : P → A → A;
  freshProto : P;
  freshAidl : A;
}.

(** [add_x()] then converting into it, for each element. *)
Definition addAll {A P} `{ProtoConverter A P} (l : list A) (out : list P) : list P :=
  foldl (λ out x, out ++ [aidlToProto x freshProto]) out l.

(** *** RawPropValues *)

Definition rawToProto (i : RawPropValues) (out : pRawPropValues) : pRawPropValues :=
  mkpRaw (r_int32_values out ++ int32Values i) (r_float_values out ++ floatValues i)
    (r_int64_values out ++ int64Values i) (to_char <$> byteValues i) (stringValue i).

Definition rawToAidl (i : pRawPropValues) (out : RawPropValues) : RawPropValues :=
  mkRaw (r_int32_values i) (r_float_values i) (r_int64_values i)
    (byteValues out ++ (to_uint8 <$> r_byte_values i)) (r_string_value i).

#[export] Instance raw_converter : ProtoConverter RawPropValues pRawPropValues := {|
  aidlToProto := rawToProto; protoToAidl := rawToAidl;
  freshProto := mkpRaw [] [] [] [] ""; freshAidl := emptyRaw |}.

(** *** VehiclePropValue *)

Definition valueToProto (i : VehiclePropValue) (out : pVehiclePropValue) : pVehiclePropValue :=
  mkpValue (timestamp i) (areaId i) (prop i) (status i)
    (v_int32_values out ++ int32Values (value i)) (v_float_values out ++ floatValues (value i))
    (v_int64_values out ++ int64Values (value i)) (to_char <$> byteValues (value i)) (stringValue (value i)).

Definition valueToAidl (i : pVehiclePropValue) (out : VehiclePropValue) : VehiclePropValue :=
  mkPropValue (v_timestamp i) (v_area_id i) (v_prop i) (v_status i)
    (mkRaw (v_int32_values i) (v_float_values i) (v_int64_values i)
       (byteValues (value out) ++ (to_uint8 <$> v_byte_values i)) (v_string_value i)).

#[export] Instance value_converter : ProtoConverter VehiclePropValue pVehiclePropValue := {|
  aidlToProto := valueToProto; protoToAidl := valueToAidl;
  freshProto := mkpValue 0 0 0 0 [] [] [] [] ""; freshAidl := emptyPropValue |}.

(** *** VehiclePropConfig *)

Definition infoToProto (i : HasSupportedValueInfo) : pHasSupportedValueInfo :=
  mkpInfo (hasMinSupportedValue i) (hasMaxSupportedValue i) (hasSupportedValuesList i).

(** Into an area just added. *)
Definition areaToProto (i : VehicleAreaConfig) : pVehicleAreaConfig :=
  mkpArea (ac_areaId i) (minInt32Value i) (maxInt32Value i) (minInt64Value i) (maxInt64Value i)
    (minFloatValue i) (maxFloatValue i)
    (match supportedEnumValues i with Some l => l | None => [] end) (ac_access i)
    (supportVariableUpdateRate i) (infoToProto <$> hasSupportedValueInfo i).

Definition infoToAidl (i : pHasSupportedValueInfo) : HasSupportedValueInfo :=
  mkHasSupportedValueInfo (has_min_supported_value i) (has_max_supported_value i) (has_supported_values_list i).

(** [cast_to_acfg] *)
Definition cast_to_acfg (i : pVehicleAreaConfig) : VehicleAreaConfig :=
  mkAreaConfig (a_area_id i) (min_int32_value i) (max_int32_value i) (min_int64_value i) (max_int64_value i)
    (min_float_value i) (max_float_value i)
    (if negb (length (supported_enum_values i) =? 0)%nat then Some (supported_enum_values i) else None)
    (a_access i) (support_variable_update_rate i) (infoToAidl <$> has_supported_value_info i).

Definition configToProto (i : VehiclePropConfig) (out : pVehiclePropConfig) : pVehiclePropConfig :=
  mkpConfig (pc_prop i) (pc_access i) (changeMode i) (areaToProto <$> areaConfigs i)
    (config_array out ++ configArray i) (configString i) (minSampleRate i) (maxSampleRate i).

Definition configToAidl (i : pVehiclePropConfig) (out : VehiclePropConfig) : VehiclePropConfig :=
  mkPropConfig (c_prop i) (c_access i) (change_mode i) (cast_to_acfg <$> area_configs i) (config_array i)
    (config_string i) (min_sample_rate i) (max_sample_rate i).

#[export] Instance config_converter : ProtoConverter VehiclePropConfig pVehiclePropConfig := {|
  aidlToProto := configToProto; protoToAidl := configToAidl;
  freshProto := mkpConfig 0 0 0 [] [] "" f32_zero f32_zero;
  freshAidl := mkPropConfig 0 VehiclePropertyAccess.NONE 0 [] [] "" f32_zero f32_zero |}.

(** *** SubscribeOptions *)

Definition optionsToProto (i : SubscribeOptions) (out : pSubscribeOptions) : pSubscribeOptions :=
  mkpOptions (so_propId i) (o_area_ids out ++ so_areaIds i) (sampleRate i) (resolution i) (enableVariableUpdateRate i).
Definition optionsToAidl (i : pSubscribeOptions) (out : SubscribeOptions) : SubscribeOptions :=
  mkSubscribeOptions (o_prop_id i) (o_area_ids i) (o_sample_rate i) (o_resolution i) (enable_variable_update_rate i).

#[export] Instance options_converter : ProtoConverter SubscribeOptions pSubscribeOptions := {|
  aidlToProto := optionsToProto; protoToAidl := optionsToAidl;
  freshProto := mkpOptions 0 [] f32_zero f32_zero false;
  freshAidl := mkSubscribeOptions 0 [] f32_zero f32_zero false |}.

(** *** PropIdAreaId *)

Definition idToProto (i : PropIdAreaId) (out : pPropIdAreaId) : pPropIdAreaId :=
  mkpPropIdAreaId (pa_propId i) (pa_areaId i).
Definition idToAidl (i : pPropIdAreaId) (out : PropIdAreaId) : PropIdAreaId :=
  mkPropIdAreaId (i_prop_id i) (i_area_id i).

#[export] Instance id_converter : ProtoConverter PropIdAreaId pPropIdAreaId := {|
  aidlToProto := idToProto; protoToAidl := idToAidl;
  freshProto := mkpPropIdAreaId 0 0; freshAidl := mkPropIdAreaId 0 0 |}.

(** *** Supported values *)

(** [mutable_x()] converts into the field, creating it when it is not there. *)
Definition intoField (i : option RawPropValues) (field : option pRawPropValues) : option pRawPropValues :=
  match i with
  | Some r => Some (aidlToProto r (default freshProto field))
  | None => field
  end.
Definition fromField (i : option pRawPropValues) (field : option RawPropValues) : option RawPropValues :=
  match i with
  | Some r => Some (protoToAidl r freshAidl)
  | None => field
  end.

Definition minMaxToProto (i : MinMaxSupportedValueResult) (out : pMinMaxSupportedValueResult) :
    pMinMaxSupportedValueResult :=
  mkpMinMax (mm_status i) (intoField (minSupportedValue i) (min_supported_value out))
    (intoField (maxSupportedValue i) (max_supported_value out)).
Definition minMaxToAidl (i : pMinMaxSupportedValueResult) (out : MinMaxSupportedValueResult) :
    MinMaxSupportedValueResult :=
  mkMinMaxSupportedValueResult (m_status i) (fromField (min_supported_value i) (minSupportedValue out))
    (fromField (max_supported_value i) (maxSupportedValue out)).

#[export] Instance minmax_converter : ProtoConverter MinMaxSupportedValueResult pMinMaxSupportedValueResult := {|
  aidlToProto := minMaxToProto; protoToAidl := minMaxToAidl;
  freshProto := mkpMinMax OK None None; freshAidl := mkMinMaxSupportedValueResult OK None None |}.

(** The values of the list; null elements are left out. *)
Definition listToProto (i : SupportedValuesListResult) (out : pSupportedValuesListResult) :
    pSupportedValuesListResult :=
  mkpList (sl_status i)
    (match supportedValuesList i with
     | None => supported_values_list out
     | Some l => foldl (λ acc o, match o with Some r => acc ++ [aidlToProto r freshProto] | None => acc end)
                   (supported_values_list out) l
     end).
Definition listToAidl (i : pSupportedValuesListResult) (out : SupportedValuesListResult) :
    SupportedValuesListResult :=
  if decide (l_status i = OK)
  then mkSupportedValuesListResult (l_status i)
         (Some ((λ r, Some (protoToAidl r freshAidl)) <$> supported_values_list i))
  else mkSupportedValuesListResult (l_status i) (supportedValuesList out).

#[export] Instance list_converter : ProtoConverter SupportedValuesListResult pSupportedValuesListResult := {|
  aidlToProto := listToProto; protoToAidl := listToAidl;
  freshProto := mkpList OK []; freshAidl := mkSupportedValuesListResult OK None |}.

(** ** Round trips

    [survives a] is what the other side sees of [a]. *)

Class ConverterLaws (A P : Type) `{ProtoConverter A P} := {
  wellFormed : A → Prop;
  survives : A → A;
  roundTrip a : wellFormed a → protoToAidl (aidlToProto a freshProto) freshAidl = survives a;
}.

Definition transmit {A P} `{ProtoConverter A P} (a : A) : A := protoToAidl (aidlToProto a freshProto) freshAidl.

Lemma to_uint8_char b : 0 ≤ b < 256 → to_uint8 (to_char b) = b.
Proof.
  intros Hb. unfold to_uint8, to_char. destruct (Z.ltb_spec b 128).
  - apply Z.mod_small. lia.
  - replace (b - 256) with (b + (-1) * 256) by lia. rewrite Z.mod_add by lia. apply Z.mod_small. lia.
Qed.

Definition bytes_ok (r : RawPropValues) : Prop := Forall (λ b, 0 ≤ b < 256) (byteValues r).

Lemma bytes_round_trip l : Forall (λ b, 0 ≤ b < 256) l → to_uint8 <$> (to_char <$> l) = l.
Proof. induction 1 as [|b l Hb Hl IH]; [done|]. cbn. by rewrite to_uint8_char, IH. Qed.

#[export] Instance raw_laws : ConverterLaws RawPropValues pRawPropValues.
Proof.
  refine {| wellFormed := bytes_ok; survives := λ r, r |}. intros [i f l b s] Hb. cbn.
  unfold rawToAidl, rawToProto, bytes_ok in *. cbn in *. by rewrite bytes_round_trip.
Defined.

#[export] Instance value_laws : ConverterLaws VehiclePropValue pVehiclePropValue.
Proof.
  refine {| wellFormed := λ v, bytes_ok (value v); survives := λ v, v |}. intros [t a p st [i f l b s]] Hb. cbn.
  unfold valueToAidl, valueToProto, bytes_ok in *. cbn in *. by rewrite bytes_round_trip.
Defined.

(** An empty list of supported enum values arrives as none. *)
Definition survivingArea (c : VehicleAreaConfig) : VehicleAreaConfig :=
  mkAreaConfig (ac_areaId c) (minInt32Value c) (maxInt32Value c) (minInt64Value c) (maxInt64Value c)
    (minFloatValue c) (maxFloatValue c)
    (match supportedEnumValues c with Some [] => None | o => o end)
    (ac_access c) (supportVariableUpdateRate c) (hasSupportedValueInfo c).

Definition survivingConfig (c : VehiclePropConfig) : VehiclePropConfig :=
  mkPropConfig (pc_prop c) (pc_access c) (changeMode c) (survivingArea <$> areaConfigs c) (configArray c)
    (configString c) (minSampleRate c) (maxSampleRate c).

Lemma area_round_trip c : cast_to_acfg (areaToProto c) = survivingArea c.
Proof.
  destruct c as [a i1 i2 l1 l2 f1 f2 en ac vur info]. unfold cast_to_acfg, areaToProto, survivingArea. cbn.
  f_equal; [by destruct en as [[|x l]|]|]. by destruct info as [[]|].
Qed.

#[export] Instance config_laws : ConverterLaws VehiclePropConfig pVehiclePropConfig.
Proof.
  refine {| wellFormed := λ _, True; survives := survivingConfig |}. intros c _. cbn.
  unfold configToAidl, configToProto, survivingConfig. cbn. f_equal. rewrite <- list_fmap_compose.
  apply list_fmap_ext. intros i x _. apply area_round_trip.
Defined.

#[export] Instance options_laws : ConverterLaws SubscribeOptions pSubscribeOptions.
Proof. refine {| wellFormed := λ _, True; survives := λ o, o |}. by intros []. Defined.

#[export] Instance id_laws : ConverterLaws PropIdAreaId pPropIdAreaId.
Proof. refine {| wellFormed := λ _, True; survives := λ o, o |}. by intros []. Defined.

Definition opt_ok (o : option RawPropValues) : Prop := match o with Some r => bytes_ok r | None => True end.

Lemma field_round_trip o : opt_ok o → fromField (intoField o None) None = o.
Proof. destruct o as [r|]; [|done]. intros Hr. cbn [intoField fromField default]. f_equal. exact (roundTrip r Hr). Qed.

#[export] Instance minmax_laws : ConverterLaws MinMaxSupportedValueResult pMinMaxSupportedValueResult.
Proof.
  refine {| wellFormed := λ r, opt_ok (minSupportedValue r) ∧ opt_ok (maxSupportedValue r); survives := λ r, r |}.
  intros [st lo hi] [Hlo Hhi]. cbn in *. unfold minMaxToAidl, minMaxToProto. cbn.
  f_equal; by apply field_round_trip.
Defined.

(** A failed result loses its list, a successful one without a list gets the
    empty list, and null elements disappear. *)
Definition survivingList (r : SupportedValuesListResult) : SupportedValuesListResult :=
  if decide (sl_status r = OK)
  then mkSupportedValuesListResult OK (Some (Some <$> omap id (default [] (supportedValuesList r))))
  else mkSupportedValuesListResult (sl_status r) None.

Lemma foldl_add l : ∀ acc,
  foldl (λ acc o, match o with Some r => acc ++ [rawToProto r (mkpRaw [] [] [] [] "")] | None => acc end) acc l
  = acc ++ ((λ r, rawToProto r (mkpRaw [] [] [] [] "")) <$> omap id l).
Proof.
  induction l as [|[r|] l IH]; intros acc; cbn; [by rewrite app_nil_r| |apply IH]. by rewrite IH, <- app_assoc.
Qed.

#[export] Instance list_laws : ConverterLaws SupportedValuesListResult pSupportedValuesListResult.
Proof.
  refine {| wellFormed := λ r, Forall opt_ok (default [] (supportedValuesList r)); survives := survivingList |}.
  intros [st o] Hw. cbn in *. unfold listToAidl, listToProto, survivingList. cbn.
  destruct (decide (st = OK)) as [->|]; [|done]. f_equal. f_equal. destruct o as [l|]; [|done]. cbn in *.
  rewrite foldl_add. cbn [app]. rewrite <- list_fmap_compose. induction Hw as [|[r|] l Hr Hl IH]; cbn; [done| |done].
  cbn in IH. rewrite IH. do 2 f_equal. exact (roundTrip r Hr).
Defined.

(** C36: Every AIDL value the two processes exchange arrives as it was sent:
    property values, raw values, subscribe options, ids and the bounds of
    supported values exactly (bytes 0..255 included, which travel as signed
    chars);
    configurations up to an empty list of supported enum values, which arrives
    as none; and supported-value lists without the list of a failed result,
    with an empty list for a missing one, and without null elements. *)
Theorem converters_round_trip :
  (∀ r : RawPropValues, bytes_ok r → transmit r = r) ∧
  (∀ v : VehiclePropValue, bytes_ok (value v) → transmit v = v) ∧
  (∀ o : SubscribeOptions, transmit o = o) ∧
  (∀ p : PropIdAreaId, transmit p = p) ∧
  (∀ c : VehiclePropConfig, transmit c = survivingConfig c) ∧
  (∀ r : MinMaxSupportedValueResult, opt_ok (minSupportedValue r) → opt_ok (maxSupportedValue r) → transmit r = r) ∧
  (∀ r : SupportedValuesListResult, Forall opt_ok (default [] (supportedValuesList r)) → transmit r = survivingList r).
Proof.
  split_and!.
  - intros r Hr. exact (roundTrip r Hr).
  - intros v Hv. exact (roundTrip v Hv).
  - intros o. exact (roundTrip o I).
  - intros p. exact (roundTrip p I).
  - intros c. exact (roundTrip c I).
  - intros r Hlo Hhi. exact (roundTrip r (conj Hlo Hhi)).
  - intros r Hr. exact (roundTrip r Hr).
Qed.

Lemma converters_round_trip_witness :
  transmit (mkPropValue 7 0 VehiclePropertyType.BYTES 0 (mkRaw [] [] [] [200; 0; 127] "x"))
    = mkPropValue 7 0 VehiclePropertyType.BYTES 0 (mkRaw [] [] [] [200; 0; 127] "x") ∧
  transmit (mkSupportedValuesListResult OK (Some [None; Some emptyRaw])) = mkSupportedValuesListResult OK (Some [Some emptyRaw]).
Proof.
  destruct converters_round_trip as (_ & Hv & _ & _ & _ & _ & Hl). split.
  - apply Hv. unfold bytes_ok. cbn. repeat constructor; lia.
  - rewrite Hl; [reflexivity|]. cbn. repeat constructor.
Defined.
