(* ===== verification/GRPCVehicleProxyServer.v ===== *)
(** * GrpcVehicleProxyServer: a vehicle hardware served to another process

    Models [vhal-ipc-grpc/aidl/impl/4/grpc/GRPCVehicleProxyServer.cpp]: the
    calls that wait for the hardware, those that pass through, and the event
    writer thread with its streaming connections.  [VehicleServer] is the
    service of [VehicleServer.proto]: what a client can call.  The gRPC
    transport delivers messages as they were sent; which writes to a stream
    succeed is a parameter of each write. *)

From stdpp Require Import base gmap sets list strings.
From Stdlib Require Import ZArith Lia.
From S2P Require Import Prelude Float32 VehicleTypes VehicleHardware ProtoMessageConverter.

Local Open Scope Z_scope.

(** ** The service *)

Inductive GrpcCode : Type := ABORTED | INTERNAL | UNIMPLEMENTED | OtherCode (n : nat).
Inductive GrpcStatus : Type := GrpcOk | GrpcError (error_code : GrpcCode).

Definition grpc_ok (s : GrpcStatus) : bool := match s with GrpcOk => true | GrpcError _ => false end.

(** [value] is absent when the message was not set. *)
Record pVehiclePropValueRequest : Type := mkpRequest { q_request_id : Z; q_value : option pVehiclePropValue }.
Record pSetValueResult : Type := mkpSetResult { s_request_id : Z; s_status : StatusCode }.
Record pGetValueResult : Type := mkpGetResult {
  g_request_id : Z;
  g_status : StatusCode;
  g_value : option pVehiclePropValue;
}.
Record DumpResult : Type := mkDumpResult {
  callerShouldDumpState : bool;
  buffer : string;
  refreshPropertyConfigs : bool;
}.

Class VehicleServer (S : Type) := {
  rpc_GetAllPropertyConfig : S → list pVehiclePropConfig * GrpcStatus;
  rpc_SetValues : list pVehiclePropValueRequest → S → S * GrpcStatus * list pSetValueResult;
  rpc_GetValues : list pVehiclePropValueRequest → S → S * GrpcStatus * list pGetValueResult;
  rpc_UpdateSampleRate : Z → Z → f32 → S → S * GrpcStatus * StatusCode;
  rpc_Subscribe : pSubscribeOptions → S → S * GrpcStatus * StatusCode;
  rpc_Unsubscribe : Z → Z → S → S * GrpcStatus * StatusCode;
  rpc_CheckHealth : S → S * GrpcStatus * StatusCode;
  rpc_Dump : list string → S → S * GrpcStatus * DumpResult;
  rpc_GetMinMaxSupportedValues : list pPropIdAreaId → S → S * GrpcStatus * list pMinMaxSupportedValueResult;
  rpc_GetSupportedValuesLists : list pPropIdAreaId → S → S * GrpcStatus * list pSupportedValuesListResult;
}.

(** ** Waiting for results *)

(** The variables the result callback of a call shares with it. *)
Record Pending (R : Type) : Type := mkPending {
  requestIds : gset Z;
  tmpResults : list R;
  complete : bool;
}.
Arguments mkPending {R}.
Arguments requestIds {R}.
Arguments tmpResults {R}.
Arguments complete {R}.

Section pending.
  Context {A R : Type} (requestId : A → Z) (toProto : A → R).

Definition onResult (p : Pending R) (aidlResult : A) : Pending R :=
  mkPending (requestIds p ∖ {[requestId aidlResult]}) (tmpResults p ++ [toProto aidlResult]) (complete p).

(** One call of the result callback. *)
Definition onResults (p : Pending R) (results : list A) : Pending R :=
  let p := foldl onResult p results in
  if decide (requestIds p = ∅) then mkPending (requestIds p) (tmpResults p) true else p.

(** The state after the callbacks [batches]. *)
Definition awaitResults (ids : list Z) (batches : list (list A)) : Pending R :=
  foldl onResults (mkPending (list_to_set ids) [] false) batches.

Lemma onResult_all l : ∀ p, foldl onResult p l =
  mkPending (requestIds p ∖ list_to_set (requestId <$> l)) (tmpResults p ++ (toProto <$> l)) (complete p).
Proof.
  induction l as [|a l IH]; intros [ids res c]; cbn.
  { f_equal; [by rewrite difference_empty_L|]. by rewrite app_nil_r. }
  rewrite IH. cbn. rewrite <- app_assoc. cbn. f_equal. by rewrite difference_difference_l_L.
Qed.

Lemma covered_split (X Y Z : gset Z) : X ∖ Y ⊆ Z ↔ X ⊆ Y ∪ Z.
Proof.
  split; intros H x Hx.
  - apply elem_of_union. destruct (decide (x ∈ Y)); [by left|right]. apply H. by apply elem_of_difference.
  - apply elem_of_difference in Hx as [Hx Hy]. apply H, elem_of_union in Hx as [|]; done.
Qed.

(** One callback: the results are kept, their ids taken off, and the call is
    complete once none is left. *)
Lemma onResults_effect p b :
  tmpResults (onResults p b) = tmpResults p ++ (toProto <$> b) ∧
  requestIds (onResults p b) = requestIds p ∖ list_to_set (requestId <$> b) ∧
  (complete (onResults p b) = true ↔ complete p = true ∨ requestIds p ⊆ list_to_set (requestId <$> b)).
Proof.
  assert (He : requestIds p ∖ list_to_set (requestId <$> b) = ∅ ↔ requestIds p ⊆ list_to_set (requestId <$> b)).
  { pose proof (covered_split (requestIds p) (list_to_set (requestId <$> b)) ∅) as H.
    rewrite union_empty_r_L in H. rewrite <- H. split; [by intros ->|]. intros Hs. apply set_eq_subseteq.
    split; [exact Hs|apply empty_subseteq]. }
  rewrite <- He. unfold onResults. rewrite onResult_all. cbn [requestIds tmpResults complete].
  destruct (decide _) as [Hd|Hd]; cbn [requestIds tmpResults complete]; split_and!; try done.
  - split; [by right|done].
  - split; [by left|]. by intros [|].
Qed.

Lemma awaitResults_all batches : ∀ p,
  let p' := foldl onResults p batches in
  tmpResults p' = tmpResults p ++ (toProto <$> concat batches) ∧
  (complete p' = true ↔ complete p = true ∨
    (batches ≠ [] ∧ requestIds p ⊆ list_to_set (requestId <$> concat batches))).
Proof.
  induction batches as [|b batches IH]; intros p; cbn [foldl concat].
  { split; [by rewrite app_nil_r|]. split; [by left|]. by intros [|[]]. }
  destruct (IH (onResults p b)) as (Hres & Hc). cbn zeta. rewrite Hres, Hc.
  destruct (onResults_effect p b) as (-> & -> & ->). rewrite !fmap_app, list_to_set_app_L, covered_split.
  split; [by rewrite <- app_assoc|]. split.
  - intros [[Hp|Hs]|[_ Hs]]; [by left|right|right]; (split; [done|]); [|exact Hs].
    etrans; [exact Hs|apply union_subseteq_l].
  - intros [Hp|[_ Hs]]; [by left; left|]. destruct batches as [|b' l]; [left; right|by right].
    cbn [concat fmap list_fmap list_to_set] in Hs. by rewrite union_empty_r_L in Hs.
Qed.

Lemma awaitResults_spec ids batches :
  let p := awaitResults ids batches in
  tmpResults p = toProto <$> concat batches ∧
  (complete p = true ↔ batches ≠ [] ∧ ∀ i, i ∈ ids → i ∈ (requestId <$> concat batches)).
Proof.
  destruct (awaitResults_all batches (mkPending (list_to_set ids) [] false)) as (Hr & Hc). cbn [tmpResults complete requestIds app] in *.
  unfold awaitResults. split; [exact Hr|]. rewrite Hc. split.
  - intros [|[Hb Hs]]; [done|]. split; [done|]. intros i Hi. apply (elem_of_list_to_set (C := gset Z)), Hs.
    by apply elem_of_list_to_set.
  - intros [Hb Hs]. right. split; [done|]. intros i Hi%elem_of_list_to_set. by apply elem_of_list_to_set, Hs.
Qed.
End pending.

(** ** The calls *)

Class DumpHardware (HS : Type) := { hw_dump : list string → HS → HS * DumpResult }.

Section server.
  Context {HS : Type} `{!Hardware HS} `{!ValueHardware HS} `{!DumpHardware HS}.
  (** The result callbacks that arrive while the call waits, besides those the
      hardware makes before it returns. *)
  Context (later_set : list SetValueRequest → HS → list (list SetValueResult)).
  Context (later_get : list GetValueRequest → HS → list (list GetValueResult)).
  (** Whether the [i]-th write to the stream of configurations succeeds. *)
  Context (written : nat → bool).

Definition getPropIdAreaIdsFromProtoRequest (l : list pPropIdAreaId) : list PropIdAreaId :=
  (λ i, protoToAidl i freshAidl) <$> l.

Definition aidlResultsToProtoResults {A P} `{ProtoConverter A P} (aidlResults : list A) : list P :=
  addAll aidlResults [].

Fixpoint write_configs (i : nat) (configs : list VehiclePropConfig) : list pVehiclePropConfig * GrpcStatus :=
  match configs with
  | [] => ([], GrpcOk)
  | c :: configs' =>
      if written i then
        let '(sent, st) := write_configs (S i) configs' in (aidlToProto c freshProto :: sent, st)
      else ([], GrpcError ABORTED)
  end.

Definition GetAllPropertyConfig (h : HS) : list pVehiclePropConfig * GrpcStatus :=
  write_configs 0 (hw_getAllPropertyConfigs h).

(** [value()] of an unset field is the default message. *)
Definition toSetRequest (q : pVehiclePropValueRequest) : SetValueRequest :=
  mkSetValueRequest (q_request_id q) (protoToAidl (default freshProto (q_value q)) freshAidl).
Definition toGetRequest (q : pVehiclePropValueRequest) : GetValueRequest :=
  mkGetValueRequest (q_request_id q) (protoToAidl (default freshProto (q_value q)) freshAidl).

Definition setResultToProto (r : SetValueResult) : pSetValueResult := mkpSetResult (sr_requestId r) (sr_status r).
Definition getResultToProto (r : GetValueResult) : pGetValueResult :=
  mkpGetResult (gr_requestId r) (gr_status r) ((λ v, aidlToProto v freshProto) <$> gr_prop r).

Definition SetValues (requests : list pVehiclePropValueRequest) (h : HS) : HS * GrpcStatus * list pSetValueResult :=
  let aidlRequests := toSetRequest <$> requests in
  let '(h', aidlStatus, calls) := hw_setValues aidlRequests h in
  if decide (aidlStatus ≠ OK) then (h', GrpcError INTERNAL, [])
  else
    let p := awaitResults sr_requestId setResultToProto (q_request_id <$> requests) (calls ++ later_set aidlRequests h') in
    if negb (complete p) then (h', GrpcError INTERNAL, []) else (h', GrpcOk, tmpResults p).

Definition GetValues (requests : list pVehiclePropValueRequest) (h : HS) : HS * GrpcStatus * list pGetValueResult :=
  let aidlRequests := toGetRequest <$> requests in
  let '(h', aidlStatus, calls) := hw_getValues aidlRequests h in
  if decide (aidlStatus ≠ OK) then (h', GrpcError INTERNAL, [])
  else
    let p := awaitResults gr_requestId getResultToProto (q_request_id <$> requests) (calls ++ later_get aidlRequests h') in
    if negb (complete p) then (h', GrpcError INTERNAL, []) else (h', GrpcOk, tmpResults p).

Definition UpdateSampleRate (p a : Z) (r : f32) (h : HS) : HS * GrpcStatus * StatusCode :=
  let '(h', status_code) := hw_updateSampleRate p a r h in (h', GrpcOk, status_code).

Definition Subscribe (protoSubscribeOptions : pSubscribeOptions) (h : HS) : HS * GrpcStatus * StatusCode :=
  let '(h', status_code) := hw_subscribe (protoToAidl protoSubscribeOptions freshAidl) h in (h', GrpcOk, status_code).

Definition Unsubscribe (propId areaId : Z) (h : HS) : HS * GrpcStatus * StatusCode :=
  let '(h', status_code) := hw_unsubscribe propId areaId h in (h', GrpcOk, status_code).

Definition CheckHealth (h : HS) : HS * GrpcStatus * StatusCode :=
  let '(h', status_code) := hw_checkHealth h in (h', GrpcOk, status_code).

Definition Dump (options : list string) (h : HS) : HS * GrpcStatus * DumpResult :=
  let '(h', r) := hw_dump options h in (h', GrpcOk, r).

Definition GetMinMaxSupportedValues (ids : list pPropIdAreaId) (h : HS) :
    HS * GrpcStatus * list pMinMaxSupportedValueResult :=
  let '(h', rs) := hw_getMinMaxSupportedValues (getPropIdAreaIdsFromProtoRequest ids) h in
  (h', GrpcOk, aidlResultsToProtoResults rs).

Definition GetSupportedValuesLists (ids : list pPropIdAreaId) (h : HS) :
    HS * GrpcStatus * list pSupportedValuesListResult :=
  let '(h', rs) := hw_getSupportedValuesLists (getPropIdAreaIdsFromProtoRequest ids) h in
  (h', GrpcOk, aidlResultsToProtoResults rs).

Definition GrpcVehicleProxyServer : VehicleServer HS := {|
  rpc_GetAllPropertyConfig := GetAllPropertyConfig;
  rpc_SetValues := SetValues;
  rpc_GetValues := GetValues;
  rpc_UpdateSampleRate := UpdateSampleRate;
  rpc_Subscribe := Subscribe;
  rpc_Unsubscribe := Unsubscribe;
  rpc_CheckHealth := CheckHealth;
  rpc_Dump := Dump;
  rpc_GetMinMaxSupportedValues := GetMinMaxSupportedValues;
  rpc_GetSupportedValuesLists := GetSupportedValuesLists |}.

(** A get call answers what the hardware answered, all or nothing: when the
    hardware accepts it and its callbacks, in time, cover every request id, the
    reply has every result received, in order and with its value; otherwise it
    is an internal error without results.  A call without requests succeeds
    only when the hardware calls back for it. *)
Theorem proxy_get_values requests h :
  let aidlRequests := toGetRequest <$> requests in
  let '(h', aidlStatus, calls) := hw_getValues aidlRequests h in
  let received := calls ++ later_get aidlRequests h' in
  let answered := aidlStatus = OK ∧ received ≠ [] ∧
    (∀ i, i ∈ (q_request_id <$> requests) → i ∈ (gr_requestId <$> concat received)) in
  (answered → GetValues requests h = (h', GrpcOk, getResultToProto <$> concat received)) ∧
  (¬ answered → GetValues requests h = (h', GrpcError INTERNAL, [])).
Proof.
  cbn zeta. unfold GetValues. destruct (hw_getValues _ h) as [[h' st] calls].
  set (received := calls ++ _). destruct (awaitResults_spec gr_requestId getResultToProto (q_request_id <$> requests) received)
    as [Hr Hc]. cbn zeta in *. destruct (decide (st ≠ OK)) as [Hst|Hst].
  { split; [by intros [? _]|done]. }
  apply dec_stable in Hst. subst st. rewrite Hr. split.
  - intros (_ & Hne & Hall). assert (complete (awaitResults gr_requestId getResultToProto (q_request_id <$> requests) received) = true)
      as -> by (apply Hc; by split). done.
  - intros Hno. destruct (complete _) eqn:E; [|done]. exfalso. apply Hno. split; [done|]. by apply Hc.
Qed.
End server.

(** ** Streaming connections

    A connection remembers what its stream accepted ([sent]) and, as an
    observation, how many messages had been written before it joined. *)

Section streams.
  Context {V : Type}.

Record ConnectionDescriptor : Type := mkConnection {
  mStream : bool;                                  (* not a null pointer *)
  mConnectionID : nat;
  mShutdownFlag : bool;
  sent : list V;
  joined : nat;
}.

Definition conn_Shutdown (c : ConnectionDescriptor) : ConnectionDescriptor :=
  mkConnection (mStream c) (mConnectionID c) true (sent c) (joined c).

(** [Write]; [up] tells whether the stream takes the message. *)
Definition conn_Write (up : bool) (values : V) (c : ConnectionDescriptor) : ConnectionDescriptor * bool :=
  if negb (mStream c) then (conn_Shutdown c, false)
  else if negb (mShutdownFlag c) && up
  then (mkConnection (mStream c) (mConnectionID c) (mShutdownFlag c) (sent c ++ [values]) (joined c), true)
  else (conn_Shutdown c, false).

(** [Wait] returns. *)
Definition conn_done (c : ConnectionDescriptor) : bool := mShutdownFlag c.

(** The connections of one kind of stream, those removed, the messages written
    and those queued. *)
Record Stream : Type := mkStreamState {
  connections : list ConnectionDescriptor;
  lost : list ConnectionDescriptor;
  connection_id_counter : nat;
  history : list V;                                (* observation: the messages written *)
  mQueue : list V;
}.

Definition newStream : Stream := mkStreamState [] [] 0 [] [].

Definition writeToStream (up : nat → bool) (values : V) (s : Stream) : Stream :=
  let written := (λ c, conn_Write (up (mConnectionID c)) values c) <$> connections s in
  let brokenConn := (λ cb, mConnectionID cb.1) <$> filter (λ cb, cb.2 = false) written in
  let broken c := existsb (Nat.eqb (mConnectionID c)) brokenConn in
  mkStreamState (filter (λ c, broken c = false) (fst <$> written))
    (lost s ++ filter (λ c, broken c = true) (fst <$> written))
    (connection_id_counter s) (history s ++ [values]) (mQueue s).

(** [StartPropertyValuesStream] and [StartSupportedValuesChangeStream]. *)
Definition startStream (stream : bool) (s : Stream) : Stream :=
  let id := S (connection_id_counter s) in
  mkStreamState (connections s ++ [mkConnection stream id false [] (length (history s))]) (lost s) id
    (history s) (mQueue s).

Definition enqueue (values : V) (s : Stream) : Stream :=
  mkStreamState (connections s) (lost s) (connection_id_counter s) (history s) (mQueue s ++ [values]).
Definition swapQueue (s : Stream) : Stream * list V :=
  (mkStreamState (connections s) (lost s) (connection_id_counter s) (history s) [], mQueue s).
Definition shutdownStream (s : Stream) : Stream :=
  mkStreamState (conn_Shutdown <$> connections s) (lost s) (connection_id_counter s) (history s) (mQueue s).

(** A connection got, without gap, repetition or reordering, the messages
    written from its start on, up to where it was lost. *)
Definition delivered (k : nat) (written : list V) (c : ConnectionDescriptor) : Prop :=
  (joined c ≤ k ≤ length written)%nat ∧ sent c = drop (joined c) (take k written).

Record stream_ok (s : Stream) : Prop := mk_stream_ok {
  live_delivered : Forall (delivered (length (history s)) (history s)) (connections s);
  lost_delivered : Forall (λ c, mShutdownFlag c = true ∧ ∃ k, delivered k (history s) c) (lost s);
  ids_unique : NoDup (mConnectionID <$> connections s);
  ids_bounded : Forall (λ c, (mConnectionID c ≤ connection_id_counter s)%nat) (connections s);
}.

Lemma delivered_grow k w v c : delivered k w c → delivered k (w ++ [v]) c.
Proof.
  intros [Hk Hs]. split; [rewrite length_app; lia|]. by rewrite take_app_le by lia.
Qed.

Lemma delivered_write w v c : delivered (length w) w c →
  delivered (length (w ++ [v])) (w ++ [v]) (mkConnection (mStream c) (mConnectionID c) (mShutdownFlag c) (sent c ++ [v]) (joined c)).
Proof.
  intros [Hk Hs]. split; [cbn; rewrite length_app; lia|]. cbn. rewrite firstn_all, Hs, firstn_all.
  by rewrite drop_app_le by lia.
Qed.

(** The effect of one write on a connection. *)
Lemma conn_Write_cases up v c :
  (conn_Write up v c = (mkConnection (mStream c) (mConnectionID c) (mShutdownFlag c) (sent c ++ [v]) (joined c), true)
     ∧ mStream c = true ∧ mShutdownFlag c = false ∧ up = true) ∨
  (conn_Write up v c = (conn_Shutdown c, false) ∧ (mStream c = false ∨ mShutdownFlag c = true ∨ up = false)).
Proof.
  unfold conn_Write. destruct (mStream c), (mShutdownFlag c), up; cbn; first [left; by split_and!|right; split; [done|by auto]].
Qed.

Lemma conn_Write_id up v c : mConnectionID (conn_Write up v c).1 = mConnectionID c.
Proof. by destruct (conn_Write_cases up v c) as [[-> _]|[-> _]]. Qed.

(** With unique ids the broken connections are those whose write failed. *)
Lemma broken_iff (up : nat → bool) v l c : NoDup (mConnectionID <$> l) → c ∈ l →
  existsb (Nat.eqb (mConnectionID (conn_Write (up (mConnectionID c)) v c).1))
    ((λ cb, mConnectionID cb.1) <$> filter (λ cb, cb.2 = false) ((λ c, conn_Write (up (mConnectionID c)) v c) <$> l))
  = negb (conn_Write (up (mConnectionID c)) v c).2.
Proof.
  intros Hnd Hc. rewrite conn_Write_id. apply eq_true_iff_eq. rewrite existsb_exists, negb_true_iff. split.
  - intros (i & Hi%list_elem_of_In & Heq%Nat.eqb_eq). apply list_elem_of_fmap in Hi as (cb & -> & Hin).
    apply list_elem_of_filter in Hin as [Hf Hin]. apply list_elem_of_fmap in Hin as (c' & -> & Hc').
    rewrite conn_Write_id in Heq.
    assert (c = c') as ->; [|exact Hf].
    apply list_elem_of_lookup in Hc as [i Hi], Hc' as [j Hj].
    assert (i = j) as ->; [|congruence].
    apply (NoDup_lookup _ i j (mConnectionID c) Hnd); rewrite list_lookup_fmap; [by rewrite Hi|by rewrite Hj, Heq].
  - intros Hf. exists (mConnectionID c). split; [|apply Nat.eqb_refl]. apply list_elem_of_In, list_elem_of_fmap.
    exists (conn_Write (up (mConnectionID c)) v c). split; [by rewrite conn_Write_id|]. apply list_elem_of_filter.
    split; [exact Hf|]. apply list_elem_of_fmap. by exists c.
Qed.

Lemma writeToStream_ok up v s : stream_ok s → stream_ok (writeToStream up v s).
Proof.
  intros [Hlive Hlost Hnd Hids]. unfold writeToStream.
  set (wr := λ c, conn_Write (up (mConnectionID c)) v c).
  set (ids := (λ cb, mConnectionID cb.1) <$> filter (λ cb, cb.2 = false) (wr <$> connections s)).
  assert (Hb : ∀ c, c ∈ connections s → existsb (Nat.eqb (mConnectionID (wr c).1)) ids = negb (wr c).2).
  { intros c Hc. by apply broken_iff. }
  assert (Hfst : mConnectionID <$> (fst <$> (wr <$> connections s)) = mConnectionID <$> connections s).
  { rewrite <- !list_fmap_compose. apply list_fmap_ext. intros i c _. apply conn_Write_id. }
  assert (Hin : ∀ x, x ∈ (fst <$> (wr <$> connections s)) → ∃ c, c ∈ connections s ∧ x = (wr c).1 ∧
     existsb (Nat.eqb (mConnectionID x)) ids = negb (wr c).2).
  { intros x Hx. rewrite <- list_fmap_compose in Hx. apply list_elem_of_fmap in Hx as (c & -> & Hc).
    exists c. split_and!; [done|done|by apply Hb]. }
  rewrite Forall_forall in Hlive, Hlost, Hids.
  split; cbn [connections lost history connection_id_counter].
  - apply Forall_forall. intros x [Hx Hl]%list_elem_of_filter. destruct (Hin x Hl) as (c & Hc & -> & He).
    rewrite He in Hx. apply negb_false_iff in Hx. unfold wr in *.
    destruct (conn_Write_cases (up (mConnectionID c)) v c) as [[E _]|[E _]]; rewrite E in Hx |- *; [|discriminate Hx].
    by apply delivered_write, Hlive.
  - apply Forall_app. split.
    + apply Forall_forall. intros x Hx. destruct (Hlost x Hx) as (Hf & k & Hk). split; [done|]. exists k.
      by apply delivered_grow.
    + apply Forall_forall. intros x [Hx Hl]%list_elem_of_filter. destruct (Hin x Hl) as (c & Hc & -> & He).
      rewrite He in Hx. apply negb_true_iff in Hx. unfold wr in *.
      destruct (conn_Write_cases (up (mConnectionID c)) v c) as [[E _]|[E _]]; rewrite E in Hx |- *; [discriminate Hx|].
      split; [done|]. exists (length (history s)). apply delivered_grow. exact (Hlive c Hc).
  - apply (sublist_NoDup _ (mConnectionID <$> (fst <$> (wr <$> connections s)))); [by rewrite Hfst|].
    apply fmap_sublist, sublist_filter.
  - apply Forall_forall. intros x [_ Hl]%list_elem_of_filter. destruct (Hin x Hl) as (c & Hc & -> & _).
    unfold wr. rewrite conn_Write_id. by apply Hids.
Qed.

(** An open connection whose stream takes the message has it, and stays. *)
Lemma writeToStream_up (up : nat → bool) v s c : stream_ok s → c ∈ connections s →
  mStream c = true → mShutdownFlag c = false → up (mConnectionID c) = true →
  mkConnection (mStream c) (mConnectionID c) (mShutdownFlag c) (sent c ++ [v]) (joined c) ∈ connections (writeToStream up v s).
Proof.
  intros [_ _ Hnd _] Hc Hm Hf Hu. unfold writeToStream. cbn [connections].
  assert (E : conn_Write (up (mConnectionID c)) v c =
    (mkConnection (mStream c) (mConnectionID c) (mShutdownFlag c) (sent c ++ [v]) (joined c), true)).
  { unfold conn_Write. by rewrite Hm, Hf, Hu. }
  apply list_elem_of_filter. split.
  - pose proof (broken_iff up v (connections s) c Hnd Hc) as Hb. rewrite E in Hb. exact Hb.
  - apply list_elem_of_fmap. exists (conn_Write (up (mConnectionID c)) v c). split; [by rewrite E|].
    apply list_elem_of_fmap. by exists c.
Qed.

Lemma startStream_ok b s : stream_ok s → stream_ok (startStream b s).
Proof.
  intros [Hlive Hlost Hnd Hids]. split; cbn.
  - apply Forall_app. split; [done|]. apply Forall_singleton. split; cbn; [lia|]. by rewrite firstn_all, drop_all.
  - done.
  - rewrite fmap_app. apply NoDup_app. split; [done|]. split; [|apply NoDup_singleton].
    intros i Hi ->%list_elem_of_singleton. apply list_elem_of_fmap in Hi as (c & Hc & Hin).
    rewrite Forall_forall in Hids. apply Hids in Hin. cbn in *. lia.
  - apply Forall_app. split; [|apply Forall_singleton; cbn; lia]. eapply Forall_impl; [exact Hids|]. cbn. intros c Hc. lia.
Qed.

Lemma shutdownStream_ok s : stream_ok s → stream_ok (shutdownStream s).
Proof.
  intros [Hlive Hlost Hnd Hids]. split; cbn; [|done| |]; rewrite ?Forall_fmap; try done.
  by rewrite <- list_fmap_compose.
Qed.

Lemma new_ok : stream_ok newStream.
Proof. split; cbn; constructor. Qed.
End streams.
Arguments ConnectionDescriptor : clear implicits.
Arguments Stream : clear implicits.
Arguments mkConnection {V}.
Arguments mkStreamState {V}.

(** ** The event writer *)

Inductive Writer : Type :=
| WriterWaiting                                                  (* on the condition variable *)
| Writing (propBatch : list (list pVehiclePropValue)) (changeBatch : list (list pPropIdAreaId)) (stop : bool)
| WriterExited.

Record EventServer : Type := mkEventServer {
  valueStream : Stream (list pVehiclePropValue);        (* mValueStreamingConnections, mPropValueQueue *)
  changeStream : Stream (list pPropIdAreaId);           (* mSupportedValuesChangeConnections and its queue *)
  mStopEventWriter : bool;
  mEventWriterThread : Writer;
}.

Definition newEventServer : EventServer := mkEventServer newStream newStream false WriterWaiting.

(** [OnVehiclePropChange] and [OnSupportedValuesChange]. *)
Definition OnVehiclePropChange (values : list VehiclePropValue) (s : EventServer) : EventServer :=
  mkEventServer (enqueue (addAll values []) (valueStream s)) (changeStream s) (mStopEventWriter s) (mEventWriterThread s).
Definition OnSupportedValuesChange (ids : list PropIdAreaId) (s : EventServer) : EventServer :=
  mkEventServer (valueStream s) (enqueue (addAll ids []) (changeStream s)) (mStopEventWriter s) (mEventWriterThread s).

(** One step of [eventWriterLoop]: taking both queues, one [writeToStream], or
    going back to wait. *)
Definition eventWriter_step (up : nat → bool) (s : EventServer) : option EventServer :=
  match mEventWriterThread s with
  | WriterWaiting =>
      if mStopEventWriter s || negb (length (mQueue (valueStream s)) =? 0)%nat
         || negb (length (mQueue (changeStream s)) =? 0)%nat
      then
        let '(values, propBatch) := swapQueue (valueStream s) in
        let '(changes, changeBatch) := swapQueue (changeStream s) in
        Some (mkEventServer values changes (mStopEventWriter s) (Writing propBatch changeBatch (mStopEventWriter s)))
      else None
  | Writing (v :: propBatch) changeBatch stop =>
      Some (mkEventServer (writeToStream up v (valueStream s)) (changeStream s) (mStopEventWriter s)
              (Writing propBatch changeBatch stop))
  | Writing [] (c :: changeBatch) stop =>
      Some (mkEventServer (valueStream s) (writeToStream up c (changeStream s)) (mStopEventWriter s)
              (Writing [] changeBatch stop))
  | Writing [] [] stop =>
      Some (mkEventServer (valueStream s) (changeStream s) (mStopEventWriter s)
              (if stop then WriterExited else WriterWaiting))
  | WriterExited => None
  end.

(** What the threads of the process can do; [Shutdown] sets the flag, joins the
    writer, and then shuts the connections down. *)
Inductive ServerEvent : Type :=
| EValues (values : list VehiclePropValue)
| EChanges (ids : list PropIdAreaId)
| EStartValues (stream : bool)
| EStartChanges (stream : bool)
| EWriter (up : nat → bool)
| EStop
| EShutdown.

Definition server_step (e : ServerEvent) (s : EventServer) : option EventServer :=
  match e with
  | EValues values => Some (OnVehiclePropChange values s)
  | EChanges ids => Some (OnSupportedValuesChange ids s)
  | EStartValues b => Some (mkEventServer (startStream b (valueStream s)) (changeStream s) (mStopEventWriter s) (mEventWriterThread s))
  | EStartChanges b => Some (mkEventServer (valueStream s) (startStream b (changeStream s)) (mStopEventWriter s) (mEventWriterThread s))
  | EWriter up => eventWriter_step up s
  | EStop => Some (mkEventServer (valueStream s) (changeStream s) true (mEventWriterThread s))
  | EShutdown =>
      match mEventWriterThread s with
      | WriterExited => Some (mkEventServer (shutdownStream (valueStream s)) (shutdownStream (changeStream s))
                                (mStopEventWriter s) WriterExited)
      | _ => None
      end
  end.

Fixpoint server_run (tr : list ServerEvent) (s : EventServer) : option EventServer :=
  match tr with
  | [] => Some s
  | e :: tr' => match server_step e s with Some s' => server_run tr' s' | None => None end
  end.

(** *** What was raised, and what became of it *)

Fixpoint raisedValues (tr : list ServerEvent) : list (list pVehiclePropValue) :=
  match tr with
  | [] => []
  | EValues values :: tr' => addAll values [] :: raisedValues tr'
  | _ :: tr' => raisedValues tr'
  end.
Fixpoint raisedChanges (tr : list ServerEvent) : list (list pPropIdAreaId) :=
  match tr with
  | [] => []
  | EChanges ids :: tr' => addAll ids [] :: raisedChanges tr'
  | _ :: tr' => raisedChanges tr'
  end.

Definition valueBatch (w : Writer) : list (list pVehiclePropValue) :=
  match w with Writing propBatch _ _ => propBatch | _ => [] end.
Definition changeBatch (w : Writer) : list (list pPropIdAreaId) :=
  match w with Writing _ b _ => b | _ => [] end.

Definition allValues (s : EventServer) : list (list pVehiclePropValue) :=
  history (valueStream s) ++ valueBatch (mEventWriterThread s) ++ mQueue (valueStream s).
Definition allChanges (s : EventServer) : list (list pPropIdAreaId) :=
  history (changeStream s) ++ changeBatch (mEventWriterThread s) ++ mQueue (changeStream s).

Lemma stream_ok_queue {V} (s : Stream V) q : stream_ok s →
  stream_ok (mkStreamState (connections s) (lost s) (connection_id_counter s) (history s) q).
Proof. by intros []. Qed.

Lemma eventWriter_step_keeps up s s' : eventWriter_step up s = Some s' →
  allValues s' = allValues s ∧ allChanges s' = allChanges s ∧
  (stream_ok (valueStream s) → stream_ok (valueStream s')) ∧ (stream_ok (changeStream s) → stream_ok (changeStream s')).
Proof.
  unfold eventWriter_step, allValues, allChanges.
  destruct (mEventWriterThread s) as [|[|v pb] [|c cb] stop|]; intros H; [destruct (_ || _); [|done]|..|done];
    injection H as <-; cbn; [| |by rewrite <- !app_assoc; auto using @writeToStream_ok..].
  - rewrite !app_nil_r. split_and!; [done|done|by apply stream_ok_queue..].
  - by destruct stop.
Qed.

Lemma server_step_keeps e tr s s' : server_step e s = Some s' →
  allValues s' ++ raisedValues tr = allValues s ++ raisedValues (e :: tr) ∧
  allChanges s' ++ raisedChanges tr = allChanges s ++ raisedChanges (e :: tr) ∧
  (stream_ok (valueStream s) → stream_ok (valueStream s')) ∧ (stream_ok (changeStream s) → stream_ok (changeStream s')).
Proof.
  destruct e; cbn [server_step raisedValues raisedChanges]; intros H.
  5: { by apply eventWriter_step_keeps in H as (-> & -> & ? & ?). }
  6: { destruct (mEventWriterThread s) eqn:Hw; try done. injection H as <-. unfold allValues, allChanges. rewrite Hw.
       cbn. split_and!; try done; by apply shutdownStream_ok. }
  all: injection H as <-; unfold allValues, allChanges; cbn; rewrite <- ?app_assoc; split_and!;
    try done; intros; try (by apply stream_ok_queue); by apply startStream_ok.
Qed.

Lemma server_run_keeps tr : ∀ s s', server_run tr s = Some s' →
  allValues s' = allValues s ++ raisedValues tr ∧ allChanges s' = allChanges s ++ raisedChanges tr ∧
  (stream_ok (valueStream s) → stream_ok (valueStream s')) ∧ (stream_ok (changeStream s) → stream_ok (changeStream s')).
Proof.
  induction tr as [|e tr IH]; intros s s'; cbn [server_run].
  { intros [= ->]. cbn. by rewrite !app_nil_r. }
  destruct (server_step e s) as [s1|] eqn:E; [|done]. intros (H1 & H2 & H3 & H4)%IH.
  destruct (server_step_keeps e tr s s1 E) as (G1 & G2 & G3 & G4). rewrite H1, H2.
  split_and!; [exact G1|exact G2|tauto|tauto].
Qed.

(** C14: Whatever the interleaving of the hardware's events, the clients that
    start a stream, the event writer and the failures of writes: the events of
    each kind are written, being written or queued in the order they were
    raised; every open connection has received exactly those written since it
    was started, none missing or repeated; and a connection that was lost is
    shut down and received them up to some point. *)
Theorem events_streamed_in_order tr s : server_run tr newEventServer = Some s →
  (history (valueStream s) ++ valueBatch (mEventWriterThread s) ++ mQueue (valueStream s) = raisedValues tr ∧
   history (changeStream s) ++ changeBatch (mEventWriterThread s) ++ mQueue (changeStream s) = raisedChanges tr) ∧
  (∀ c, c ∈ connections (valueStream s) → sent c = drop (joined c) (history (valueStream s))) ∧
  (∀ c, c ∈ connections (changeStream s) → sent c = drop (joined c) (history (changeStream s))) ∧
  (∀ c, c ∈ lost (valueStream s) → conn_done c = true ∧ ∃ k, sent c = drop (joined c) (take k (history (valueStream s)))) ∧
  (∀ c, c ∈ lost (changeStream s) → conn_done c = true ∧ ∃ k, sent c = drop (joined c) (take k (history (changeStream s)))).
Proof.
  intros H. destruct (server_run_keeps tr _ _ H) as (Hv & Hc & Hsv & Hsc).
  destruct (Hsv new_ok) as [Hvl Hvo _ _]. destruct (Hsc new_ok) as [Hcl Hco _ _].
  assert (Hlive : ∀ V (st : Stream V) c, Forall (delivered (length (history st)) (history st)) (connections st) →
     c ∈ connections st → sent c = drop (joined c) (history st)).
  { intros V st c Hf Hin. rewrite Forall_forall in Hf. destruct (Hf c Hin) as [_ Hs]. by rewrite firstn_all in Hs. }
  assert (Hlost : ∀ V (st : Stream V) c, Forall (λ c, mShutdownFlag c = true ∧ ∃ k, delivered k (history st) c) (lost st) →
     c ∈ lost st → conn_done c = true ∧ ∃ k, sent c = drop (joined c) (take k (history st))).
  { intros V st c Hf Hin. rewrite Forall_forall in Hf. destruct (Hf c Hin) as [Hd (k & _ & Hs)]. split; [done|by exists k]. }
  split; [by split|]. split_and!; eauto.
Qed.

(** *** The writer comes to rest *)

(** [n] steps of the writer; [up i] says which connections take the write of
    the [i]-th. *)
Fixpoint writer_run (n i : nat) (up : nat → nat → bool) (s : EventServer) : option EventServer :=
  match n with
  | O => Some s
  | S n' => match eventWriter_step (up i) s with Some s' => writer_run n' (S i) up s' | None => None end
  end.

Lemma writer_run_app n m i up s s1 : writer_run n i up s = Some s1 →
  writer_run (n + m) i up s = writer_run m (i + n) up s1.
Proof.
  revert i s. induction n as [|n IH]; intros i s; cbn [writer_run Nat.add]; [by rewrite Nat.add_0_r; intros [= ->]|].
  destruct (eventWriter_step (up i) s) as [s2|]; [|done]. intros E. rewrite (IH _ _ E).
  by replace (i + S n)%nat with (S i + n)%nat by lia.
Qed.

Definition queues_empty (s : EventServer) : Prop := mQueue (valueStream s) = [] ∧ mQueue (changeStream s) = [].

(** The writer has nothing left to write. *)
Definition at_rest (s : EventServer) : Prop :=
  (mEventWriterThread s = WriterWaiting ∧ mStopEventWriter s = false ∧ queues_empty s)
  ∨ mEventWriterThread s = WriterExited.

(** A batch in hand is written to its end. *)
Lemma writing_ends n : ∀ s pb cb stop i up, mEventWriterThread s = Writing pb cb stop →
  n = S (length pb + length cb) →
  ∃ s', writer_run n i up s = Some s' ∧ mEventWriterThread s' = (if stop then WriterExited else WriterWaiting) ∧
    mStopEventWriter s' = mStopEventWriter s ∧ mQueue (valueStream s') = mQueue (valueStream s) ∧
    mQueue (changeStream s') = mQueue (changeStream s).
Proof.
  induction n as [|n IH]; intros s pb cb stop i up Hw Hn; [done|]. cbn [writer_run]. unfold eventWriter_step. rewrite Hw.
  destruct pb as [|v pb]; [destruct cb as [|c cb]|]; cbn in Hn.
  - injection Hn as ->. eexists. split; [reflexivity|]. by split_and!.
  - set (s1 := mkEventServer _ _ _ _). destruct (IH s1 [] cb stop (S i) up) as (s' & E & H); [done|cbn; lia|].
    exists s'. split; [exact E|exact H].
  - set (s1 := mkEventServer _ _ _ _). destruct (IH s1 pb cb stop (S i) up) as (s' & E & H); [done|cbn; lia|].
    exists s'. split; [exact E|exact H].
Qed.

Lemma waiting_rests s i up : mEventWriterThread s = WriterWaiting → ∃ n s', writer_run n i up s = Some s' ∧ at_rest s' ∧
  queues_empty s' ∧ (mStopEventWriter s = true → mEventWriterThread s' = WriterExited).
Proof.
  intros Hw.
  destruct (mStopEventWriter s || negb (length (mQueue (valueStream s)) =? 0)%nat
         || negb (length (mQueue (changeStream s)) =? 0)%nat) eqn:Hgo.
  - set (s1 := mkEventServer (swapQueue (valueStream s)).1 (swapQueue (changeStream s)).1 (mStopEventWriter s)
                 (Writing (mQueue (valueStream s)) (mQueue (changeStream s)) (mStopEventWriter s))).
    assert (E1 : writer_run 1 i up s = Some s1).
    { cbn. unfold eventWriter_step. by rewrite Hw, Hgo. }
    destruct (writing_ends _ s1 _ _ _ (i + 1) up eq_refl eq_refl) as (s' & E & Hw' & Hs & Hv & Hc).
    eexists (1 + _)%nat, s'. split; [by rewrite (writer_run_app _ _ _ _ _ _ E1), E|].
    assert (queues_empty s') by (split; [by rewrite Hv|by rewrite Hc]).
    unfold at_rest. rewrite Hw', Hs. cbn [mStopEventWriter s1]. destruct (mStopEventWriter s).
    + split_and!; [by right|done|done].
    + split_and!; [by left|done|done].
  - exists 0%nat, s. apply orb_false_iff in Hgo as [[Hs Hv]%orb_false_iff Hc].
    apply negb_false_iff, Nat.eqb_eq, nil_length_inv in Hv, Hc. split_and!; [done|by left|done|by rewrite Hs].
Qed.

(** Left alone, the event writer comes to rest after finitely many steps
    whatever writes fail: it waits with both queues empty, or it has exited;
    once the stop flag is set a waiting writer writes all that is queued and
    exits. *)
Theorem event_writer_terminates s up : ∃ n s', writer_run n 0 up s = Some s' ∧ at_rest s' ∧
  (mEventWriterThread s = WriterWaiting → queues_empty s' ∧
     (mStopEventWriter s = true → mEventWriterThread s' = WriterExited)).
Proof.
  destruct (mEventWriterThread s) as [|pb cb stop|] eqn:Hw.
  - destruct (waiting_rests s 0 up Hw) as (n & s' & E & Hr & Hq & Hx). exists n, s'. split_and!; [done|done|by split].
  - destruct (writing_ends _ s pb cb stop 0 up Hw eq_refl) as (s1 & E1 & Hw1 & _). destruct stop.
    + eexists _, s1. split; [exact E1|]. split; [by right|done].
    + destruct (waiting_rests s1 (0 + S (length pb + length cb)) up Hw1) as (n & s' & E & Hr & _).
      eexists (_ + n)%nat, s'. split; [rewrite (writer_run_app _ _ _ _ _ _ E1); exact E|]. by split.
  - exists 0%nat, s. split; [done|]. split; [by right|done].
Qed.

(** ** Examples *)

(** Two clients; the second one's stream breaks at the second event. *)
Definition example_value (t : Z) : VehiclePropValue :=
  mkPropValue t 0 VehiclePropertyType.INT32 0 (mkRaw [t] [] [] [] "").
Definition example_events : list ServerEvent :=
  [EStartValues true; EValues [example_value 1]; EWriter (λ _, true); EWriter (λ _, true); EStartValues true;
   EValues [example_value 2]; EWriter (λ _, true); EWriter (λ _, true); EWriter (λ id, Nat.eqb id 1)].

Lemma events_streamed_in_order_witness : ∃ s c, server_run example_events newEventServer = Some s ∧
  connections (valueStream s) = [c] ∧
  sent c = [[aidlToProto (example_value 1) freshProto]; [aidlToProto (example_value 2) freshProto]].
Proof.
  destruct (server_run example_events newEventServer) as [s|] eqn:E; [|discriminate E].
  destruct (events_streamed_in_order example_events s E) as (_ & Hlive & _).
  injection E as <-. eexists _, _. split; [reflexivity|]. split; [reflexivity|].
  rewrite Hlive by (left; reflexivity). reflexivity.
Defined.

(** A hardware that answers every get with the same reading, at once, and
    counts the sets. *)
Record EchoHardware : Type := mkEcho { echo_sets : nat; echo_subscribed : list SubscribeOptions }.

Definition echo_config : VehiclePropConfig :=
  mkPropConfig VehiclePropertyType.INT32 3 1 [areaConfigFor 0] [5] "" f32_zero f32_zero.

#[export] Instance echo_hardware : Hardware EchoHardware := {|
  hw_subscribe o h := (mkEcho (echo_sets h) (echo_subscribed h ++ [o]), OK);
  hw_unsubscribe p a h := (h, OK);
  hw_updateSampleRate p a r h := (h, OK);
  hw_subscribeSupportedValueChange l h := (h, OK);
  hw_unsubscribeSupportedValueChange l h := (h, OK) |}.
#[export] Instance echo_values : ValueHardware EchoHardware := {|
  hw_getAllPropertyConfigs h := [echo_config];
  hw_getPropertyConfig p h := default_getPropertyConfig p [echo_config];
  hw_getValues rs h := (h, OK, [(λ r, mkGetValueResult (gq_requestId r) OK (Some (example_value 9))) <$> rs]);
  hw_setValues rs h := (mkEcho (echo_sets h + length rs) (echo_subscribed h), OK,
                        [(λ r, mkSetValueResult (sq_requestId r) OK) <$> rs]);
  hw_getSupportedValuesLists ids h := (h, (λ _, mkSupportedValuesListResult OK (Some [Some emptyRaw])) <$> ids);
  hw_getMinMaxSupportedValues ids h := (h, (λ _, mkMinMaxSupportedValueResult OK (Some emptyRaw) None) <$> ids);
  hw_checkHealth h := (h, OK) |}.
#[export] Instance echo_dump : DumpHardware EchoHardware := {|
  hw_dump options h := (h, mkDumpResult true "echo" false) |}.

Lemma proxy_get_values_witness :
  GetValues (λ _ _, []) [mkpRequest 3 None] (mkEcho 0 [])
    = (mkEcho 0 [], GrpcOk, [mkpGetResult 3 OK (Some (aidlToProto (example_value 9) freshProto))]).
Proof.
  destruct (proxy_get_values (λ _ _, []) [mkpRequest 3 None] (mkEcho 0 [])) as [H _]. apply H.
  split; [reflexivity|]. split; [discriminate|]. intros i Hi. exact Hi.
Defined.
