(* ===== verification/GRPCVehicleHardware.v ===== *)
(** * GRPCVehicleHardware: a vehicle hardware in another process

    Models [vhal-ipc-grpc/aidl/impl/4/grpc/GRPCVehicleHardware.cpp]: the client
    side of the service, written against [VehicleServer], and its composition
    with the proxy server.  The state of a call is the client and the server
    behind its stub; [now] is a reading of the clock, [tick] the sequence of
    readings of a thread that runs alone. *)

From stdpp Require Import base gmap sets list strings sorting.
From Stdlib Require Import ZArith Lia.
From S2P Require Import Prelude Float32 VehicleTypes VehicleHardware ProtoMessageConverter GRPCVehicleProxyServer.

Local Open Scope Z_scope.

Definition MAX_RETRY_COUNT : nat := 5.

Record GRPCVehicleHardware : Type := mkGrpc {
  mOnPropChange : option nat;
  mOnSetErr : option nat;
  mOnSupportedValueChange : option nat;
  mShuttingDownFlag : bool;
  mLatestUpdateTimestamps : gmap PropIdAreaId (Z * Z);   (* external and Android timestamp *)
  clock_reads : nat;
}.

Definition newGrpc : GRPCVehicleHardware := mkGrpc None None None false ∅ 0.

Definition set_latest (m : gmap PropIdAreaId (Z * Z)) (g : GRPCVehicleHardware) : GRPCVehicleHardware :=
  mkGrpc (mOnPropChange g) (mOnSetErr g) (mOnSupportedValueChange g) (mShuttingDownFlag g) m (clock_reads g).
Definition read_clock (g : GRPCVehicleHardware) : GRPCVehicleHardware :=
  mkGrpc (mOnPropChange g) (mOnSetErr g) (mOnSupportedValueChange g) (mShuttingDownFlag g)
    (mLatestUpdateTimestamps g) (S (clock_reads g)).

(** ** Callbacks: the first registration stays *)

Definition registerOnPropertyChangeEvent (cb : nat) (g : GRPCVehicleHardware) : GRPCVehicleHardware :=
  match mOnPropChange g with
  | Some _ => g
  | None => mkGrpc (Some cb) (mOnSetErr g) (mOnSupportedValueChange g) (mShuttingDownFlag g)
              (mLatestUpdateTimestamps g) (clock_reads g)
  end.
Definition registerOnPropertySetErrorEvent (cb : nat) (g : GRPCVehicleHardware) : GRPCVehicleHardware :=
  match mOnSetErr g with
  | Some _ => g
  | None => mkGrpc (mOnPropChange g) (Some cb) (mOnSupportedValueChange g) (mShuttingDownFlag g)
              (mLatestUpdateTimestamps g) (clock_reads g)
  end.
Definition registerSupportedValueChangeCallback (cb : nat) (g : GRPCVehicleHardware) : GRPCVehicleHardware :=
  match mOnSupportedValueChange g with
  | Some _ => g
  | None => mkGrpc (mOnPropChange g) (mOnSetErr g) (Some cb) (mShuttingDownFlag g)
              (mLatestUpdateTimestamps g) (clock_reads g)
  end.

(** ** Timestamps *)

Definition valueKey (v : VehiclePropValue) : PropIdAreaId := mkPropIdAreaId (prop v) (areaId v).

(** The locked part of [setAndroidTimestamp]; [now] was read before taking the
    lock.  [None]: the value is outdated. *)
Definition stampLocked (now : Z) (v : VehiclePropValue) (m : gmap PropIdAreaId (Z * Z)) :
    gmap PropIdAreaId (Z * Z) * option VehiclePropValue :=
  let externalTimestamp := timestamp v in
  match m !! valueKey v with
  | None => (<[valueKey v := (externalTimestamp, now)]> m, Some (set_timestamp now v))
  | Some (latest, android) =>
      if latest <? externalTimestamp
      then (<[valueKey v := (externalTimestamp, now)]> m, Some (set_timestamp now v))
      else if externalTimestamp =? latest then (m, Some (set_timestamp android v))
      else (m, None)
  end.

Section client.
  Context (tick : nat → Z).
  Context {S : Type} `{!VehicleServer S}.

Definition setAndroidTimestamp (v : VehiclePropValue) (g : GRPCVehicleHardware) :
    GRPCVehicleHardware * option VehiclePropValue :=
  let now := tick (clock_reads g) in
  let g := read_clock g in
  let '(m, r) := stampLocked now v (mLatestUpdateTimestamps g) in (set_latest m g, r).

(** ** Configurations *)

Definition getAllPropertyConfigs (s : S) : list VehiclePropConfig :=
  (λ protoConfig, protoToAidl protoConfig freshAidl) <$> fst (rpc_GetAllPropertyConfig s).

Definition getPropertyConfig (propId : Z) (s : S) : option VehiclePropConfig :=
  List.find (λ config, pc_prop config =? propId) (getAllPropertyConfigs s).

(** ** Setting values

    The list of callback calls, and the status. *)
Definition setRequestToProto (r : SetValueRequest) : pVehiclePropValueRequest :=
  mkpRequest (sq_requestId r) (Some (aidlToProto (sq_value r) freshProto)).
Definition getRequestToProto (r : GetValueRequest) : pVehiclePropValueRequest :=
  mkpRequest (gq_requestId r) (Some (aidlToProto (gq_prop r) freshProto)).

Definition setValues (requests : list SetValueRequest) (s : S) : S * list (list SetValueResult) * StatusCode :=
  let '(s', grpc_status, protoResults) := rpc_SetValues (setRequestToProto <$> requests) s in
  if negb (grpc_ok grpc_status) then (s', [], INTERNAL_ERROR)
  else (s', [(λ r, mkSetValueResult (s_request_id r) (s_status r)) <$> protoResults], OK).

(** ** Getting values *)

(** [requestById]: a later request of the same id replaces an earlier one. *)
Definition requestById (requests : list GetValueRequest) : gmap Z GetValueRequest :=
  foldl (λ m r, <[gq_requestId r := r]> m) ∅ requests.

(** The loop over the server's results: the results kept and the requests to
    send again. *)
Fixpoint handleResults (byId : gmap Z GetValueRequest) (protoResults : list pGetValueResult)
    (g : GRPCVehicleHardware) (results : list GetValueResult) (retryRequests : list GetValueRequest) :
    GRPCVehicleHardware * list GetValueResult * list GetValueRequest :=
  match protoResults with
  | [] => (g, results, retryRequests)
  | protoResult :: protoResults' =>
      let requestId := g_request_id protoResult in
      match byId !! requestId with
      | None => handleResults byId protoResults' g results retryRequests
      | Some request =>
          match g_value protoResult with
          | None =>
              handleResults byId protoResults' g
                (results ++ [mkGetValueResult requestId (g_status protoResult) None]) retryRequests
          | Some protoValue =>
              match setAndroidTimestamp (protoToAidl protoValue freshAidl) g with
              | (g', None) => handleResults byId protoResults' g' results (retryRequests ++ [request])
              | (g', Some value) =>
                  handleResults byId protoResults' g'
                    (results ++ [mkGetValueResult requestId (g_status protoResult) (Some value)]) retryRequests
              end
          end
      end
  end.

(** The recursion passes [retryCount++], the count before its increment; it is
    bounded by [fuel] here, [None] when that is spent. *)
Fixpoint getValuesWithRetry (fuel : nat) (requests : list GetValueRequest) (results : list GetValueResult)
    (retryCount : nat) (g : GRPCVehicleHardware) (s : S) :
    option (GRPCVehicleHardware * S * list GetValueResult * StatusCode) :=
  match fuel with
  | O => None
  | Datatypes.S fuel' =>
      if (retryCount =? MAX_RETRY_COUNT)%nat then Some (g, s, results, TRY_AGAIN)
      else
        let '(s', grpc_status, protoResults) := rpc_GetValues (getRequestToProto <$> requests) s in
        if negb (grpc_ok grpc_status) then Some (g, s', results, INTERNAL_ERROR)
        else
          let '(g', results', retryRequests) := handleResults (requestById requests) protoResults g results [] in
          if negb (length retryRequests =? 0)%nat
          then getValuesWithRetry fuel' retryRequests results' retryCount g' s'
          else Some (g', s', results', OK)
  end.

(** The calls of the callback, and the status. *)
Definition getValues (fuel : nat) (requests : list GetValueRequest) (g : GRPCVehicleHardware) (s : S) :
    option (GRPCVehicleHardware * S * list (list GetValueResult) * StatusCode) :=
  match getValuesWithRetry fuel requests [] 0 g s with
  | None => None
  | Some (g', s', results, status) =>
      if decide (status ≠ OK) then Some (g', s', [], status)
      else Some (g', s', if negb (length results =? 0)%nat then [results] else [], status)
  end.

(** ** Calls that pass through *)

Definition passThrough (r : S * GrpcStatus * StatusCode) : S * StatusCode :=
  let '(s', grpc_status, protoStatus) := r in
  if negb (grpc_ok grpc_status) then (s', INTERNAL_ERROR) else (s', protoStatus).

(** A legacy server does not implement the call. *)
Definition passThroughLegacy (r : S * GrpcStatus * StatusCode) : S * StatusCode :=
  let '(s', grpc_status, protoStatus) := r in
  match grpc_status with
  | GrpcError UNIMPLEMENTED => (s', OK)
  | GrpcError _ => (s', INTERNAL_ERROR)
  | GrpcOk => (s', protoStatus)
  end.

Definition checkHealth (s : S) : S * StatusCode := passThrough (rpc_CheckHealth s).
Definition subscribe (options : SubscribeOptions) (s : S) : S * StatusCode :=
  passThroughLegacy (rpc_Subscribe (aidlToProto options freshProto) s).
Definition unsubscribe (propId areaId : Z) (s : S) : S * StatusCode :=
  passThroughLegacy (rpc_Unsubscribe propId areaId s).
Definition updateSampleRate (propId areaId : Z) (sampleRate : f32) (s : S) : S * StatusCode :=
  passThrough (rpc_UpdateSampleRate propId areaId sampleRate s).

Definition dump (options : list string) (s : S) : S * DumpResult :=
  let '(s', grpc_status, r) := rpc_Dump options s in
  if negb (grpc_ok grpc_status) then (s', mkDumpResult false "" false) else (s', r).

(** ** Supported values *)

Definition fillPropIdAreaIdsToProtoRequest (ids : list PropIdAreaId) : list pPropIdAreaId := addAll ids [].

Definition convertResults {A P} `{ProtoConverter A P} (protoResults : list P) : list A :=
  (λ p, protoToAidl p freshAidl) <$> protoResults.

Definition getMinMaxSupportedValues (ids : list PropIdAreaId) (s : S) : S * list MinMaxSupportedValueResult :=
  let '(s', grpc_status, protoResults) := rpc_GetMinMaxSupportedValues (fillPropIdAreaIdsToProtoRequest ids) s in
  if negb (grpc_ok grpc_status) then (s', (λ _, mkMinMaxSupportedValueResult INTERNAL_ERROR None None) <$> ids)
  else (s', convertResults protoResults).

Definition getSupportedValuesLists (ids : list PropIdAreaId) (s : S) : S * list SupportedValuesListResult :=
  let '(s', grpc_status, protoResults) := rpc_GetSupportedValuesLists (fillPropIdAreaIdsToProtoRequest ids) s in
  if negb (grpc_ok grpc_status) then (s', (λ _, mkSupportedValuesListResult INTERNAL_ERROR None) <$> ids)
  else (s', convertResults protoResults).

(** ** Polling the event streams *)

(** The values of a message that are not outdated. *)
Fixpoint poll_message (protoValues : list pVehiclePropValue) (g : GRPCVehicleHardware) (values : list VehiclePropValue) :
    GRPCVehicleHardware * list VehiclePropValue :=
  match protoValues with
  | [] => (g, values)
  | protoValue :: protoValues' =>
      match setAndroidTimestamp (protoToAidl protoValue freshAidl) g with
      | (g', None) => poll_message protoValues' g' values
      | (g', Some aidlValue) => poll_message protoValues' g' (values ++ [aidlValue])
      end
  end.

(** [pollValue] over the messages the stream gives before it ends or the client
    shuts down: the calls of the callback. *)
Fixpoint pollValue (messages : list (list pVehiclePropValue)) (g : GRPCVehicleHardware)
    (calls : list (nat * list VehiclePropValue)) : GRPCVehicleHardware * list (nat * list VehiclePropValue) :=
  match messages with
  | [] => (g, calls)
  | protoValues :: messages' =>
      let '(g', values) := poll_message protoValues g [] in
      match values, mOnPropChange g' with
      | [], _ => pollValue messages' g' calls
      | _, Some cb => pollValue messages' g' (calls ++ [(cb, values)])
      | _, None => pollValue messages' g' calls
      end
  end.

(** [ValuePollingLoop]: the streams opened until the client shuts down. *)
Fixpoint ValuePollingLoop (sessions : list (list (list pVehiclePropValue))) (g : GRPCVehicleHardware)
    (calls : list (nat * list VehiclePropValue)) : GRPCVehicleHardware * list (nat * list VehiclePropValue) :=
  match sessions with
  | [] => (g, calls)
  | messages :: sessions' => let '(g', calls') := pollValue messages g calls in ValuePollingLoop sessions' g' calls'
  end.

Definition pollSupportedValuesChange (messages : list (list pPropIdAreaId)) (g : GRPCVehicleHardware) :
    list (nat * list PropIdAreaId) :=
  omap (λ message,
    let ids := (λ p, protoToAidl p freshAidl) <$> message in
    match ids, mOnSupportedValueChange g with
    | [], _ => None
    | _, Some cb => Some (cb, ids)
    | _, None => None
    end) messages.

(** [SupportedValuesChangeLoop]: the streams opened, each with the status it
    ended with; one that is not implemented ends the loop. *)
Fixpoint SupportedValuesChangeLoop (sessions : list (list (list pPropIdAreaId) * GrpcStatus)) (g : GRPCVehicleHardware) :
    list (nat * list PropIdAreaId) :=
  match sessions with
  | [] => []
  | (messages, status) :: sessions' =>
      pollSupportedValuesChange messages g ++
      match status with
      | GrpcError UNIMPLEMENTED => []
      | _ => SupportedValuesChangeLoop sessions' g
      end
  end.
End client.

(** ** The timestamps handed out *)

(** The locked sections in the order they run, each with the time read before. *)
Fixpoint stampAll (l : list (Z * VehiclePropValue)) (m : gmap PropIdAreaId (Z * Z)) : list (option VehiclePropValue) :=
  match l with
  | [] => []
  | (now, v) :: l' => let '(m', r) := stampLocked now v m in r :: stampAll l' m'
  end.

Lemma stampLocked_cases now v m :
  let k := valueKey v in
  (∃ w, stampLocked now v m = (<[k := (timestamp v, timestamp w)]> m, Some w) ∧ w = set_timestamp (timestamp w) v ∧
     match m !! k with
     | None => timestamp w = now
     | Some (e, a) => (e < timestamp v ∧ timestamp w = now) ∨ (e = timestamp v ∧ timestamp w = a)
     end) ∨
  (∃ e a, m !! k = Some (e, a) ∧ timestamp v < e ∧ stampLocked now v m = (m, None)).
Proof.
  cbn zeta. unfold stampLocked. destruct (m !! valueKey v) as [[e a]|] eqn:E.
  - destruct (Z.ltb_spec e (timestamp v)).
    { left. exists (set_timestamp now v). split_and!; [done|done|by left]. }
    destruct (Z.eqb_spec (timestamp v) e) as [->|]; [|right; exists e, a; split_and!; [done|lia|done]].
    left. exists (set_timestamp a v). split; [|split; [done|by right]]. cbn.
    rewrite insert_id by done. done.
  - left. by exists (set_timestamp now v).
Qed.

Lemma stampLocked_other now v m k : k ≠ valueKey v → (stampLocked now v m).1 !! k = m !! k.
Proof.
  intros Hk. destruct (stampLocked_cases now v m) as [(w & -> & _)|(e & a & _ & _ & ->)]; [|done].
  cbn. by rewrite lookup_insert_ne by done.
Qed.

(** The recorded external timestamp of a key only grows. *)
Lemma stampLocked_latest now v m k e a : m !! k = Some (e, a) →
  ∃ e' a', (stampLocked now v m).1 !! k = Some (e', a') ∧ e ≤ e' ∧ (e = e' → a = a') ∧ (a' = a ∨ a' = now).
Proof.
  intros Hk. destruct (decide (k = valueKey v)) as [->|Hne].
  - destruct (stampLocked_cases now v m) as [(w & -> & _ & Hc)|(e1 & a1 & _ & _ & ->)]; cbn.
    + rewrite Hk in Hc. rewrite lookup_insert_eq. exists (timestamp v), (timestamp w). split; [done|].
      destruct Hc as [[? ->]|[-> ->]]; (split; [lia|]); (split; [lia|]); [by right|by left].
    + exists e, a. split_and!; [done|lia|done|by left].
  - rewrite stampLocked_other by done. exists e, a. split_and!; [done|lia|done|by left].
Qed.

(** The clock readings of [l] come after [t] and in order. *)
Definition ordered (t : Z) (l : list (Z * VehiclePropValue)) : Prop := StronglySorted Z.le (t :: (fst <$> l)).

Lemma ordered_cons t now v l : ordered t ((now, v) :: l) → t ≤ now ∧ ordered t l ∧ ordered now l.
Proof.
  unfold ordered. cbn. intros [Hs Hf]%StronglySorted_inv. apply Forall_cons in Hf as [Ht Hf].
  split; [done|]. split; [|done]. constructor; [|done]. by apply StronglySorted_inv in Hs as [? _].
Qed.

(** Later accepted values of a key, against what is recorded now. *)
Lemma stampAll_after l : ∀ m k e a, m !! k = Some (e, a) → ∀ j now v w,
  l !! j = Some (now, v) → stampAll l m !! j = Some (Some w) → valueKey v = k →
  e ≤ timestamp v ∧ (e = timestamp v → timestamp w = a) ∧ (ordered a l → a ≤ timestamp w).
Proof.
  induction l as [|[now0 v0] l IH]; intros m k e a Hk j now v w Hj Hr Hv; [done|]. cbn [stampAll] in Hr.
  destruct (stampLocked now0 v0 m) as [m' r] eqn:E. destruct j as [|j]; cbn in Hj, Hr.
  - injection Hj as -> ->. injection Hr as ->.
    destruct (stampLocked_cases now v m) as [(w' & E' & _ & Hc)|(e1 & a1 & _ & _ & E')]; rewrite E in E'; [|done].
    injection E' as _ <-. rewrite Hv, Hk in Hc. split_and!; [lia|lia|].
    intros [Hn _]%ordered_cons. destruct Hc as [[_ ->]|[_ ->]]; lia.
  - pose proof (stampLocked_latest now0 v0 m k e a Hk) as (e' & a' & Hk' & Hle & Heq & Ha). rewrite E in Hk'.
    destruct (IH m' k e' a' Hk' j now v w Hj Hr Hv) as (H1 & H2 & H3). split_and!; [lia| |].
    + intros He. assert (e = e') by lia. rewrite H2 by lia. symmetry. by apply Heq.
    + intros (Hn & Ho & Ho')%ordered_cons. destruct Ha as [->| ->]; [by apply H3|]. etrans; [exact Hn|by apply H3].
Qed.

Lemma stampAll_older l : ∀ m j now v, l !! j = Some (now, v) → stampAll l m !! j = Some None →
  (∃ e a, m !! valueKey v = Some (e, a) ∧ timestamp v < e) ∨
  (∃ i now' v' w, (i < j)%nat ∧ l !! i = Some (now', v') ∧ stampAll l m !! i = Some (Some w) ∧
     valueKey v' = valueKey v ∧ timestamp v < timestamp v').
Proof.
  induction l as [|[now0 v0] l IH]; intros m j now v Hj Hr; [done|]. cbn [stampAll] in *.
  destruct (stampLocked now0 v0 m) as [m' r] eqn:E. destruct j as [|j]; cbn in Hj, Hr.
  - injection Hj as -> ->. injection Hr as ->.
    destruct (stampLocked_cases now v m) as [(w' & E' & _)|(e1 & a1 & Hk & Ht & _)]; [by rewrite E in E'|].
    left. by exists e1, a1.
  - destruct (IH m' j now v Hj Hr) as [(e & a & Hk & Ht)|(i & now' & v' & w & Hi & Hl & Hs & Hkey & Ht)].
    + destruct (stampLocked_cases now0 v0 m) as [(w' & E' & _ & _)|(e1 & a1 & Hk1 & Ht1 & E')]; rewrite E in E'; injection E' as -> ->.
      * destruct (decide (valueKey v0 = valueKey v)) as [Heq|Hne].
        -- right. exists 0%nat, now0, v0, w'. rewrite Heq, lookup_insert_eq in Hk. injection Hk as <- _.
           split_and!; [lia|done..].
        -- left. rewrite lookup_insert_ne in Hk by done. by exists e, a.
      * left. by exists e, a.
    + right. exists (Datatypes.S i), now', v', w. split_and!; [lia|done..].
Qed.

(** The map after the locked sections [l]. *)
Fixpoint stampState (l : list (Z * VehiclePropValue)) (m : gmap PropIdAreaId (Z * Z)) : gmap PropIdAreaId (Z * Z) :=
  match l with
  | [] => m
  | (now, v) :: l' => stampState l' (stampLocked now v m).1
  end.

Lemma stampAll_app l1 l2 : ∀ m, stampAll (l1 ++ l2) m = stampAll l1 m ++ stampAll l2 (stampState l1 m).
Proof.
  induction l1 as [|[now v] l1 IH]; intros m; [done|]. cbn. destruct (stampLocked now v m) as [m' r] eqn:E. cbn.
  by rewrite IH.
Qed.

Lemma stampAll_length l : ∀ m, length (stampAll l m) = length l.
Proof. induction l as [|[now v] l IH]; intros m; [done|]. cbn. destruct (stampLocked now v m). cbn. by rewrite IH. Qed.

Lemma stampAll_at l1 now v l2 m :
  stampAll (l1 ++ (now, v) :: l2) m =
  stampAll l1 m ++ (stampLocked now v (stampState l1 m)).2 :: stampAll l2 (stampLocked now v (stampState l1 m)).1.
Proof. rewrite stampAll_app. cbn. by destruct (stampLocked now v (stampState l1 m)). Qed.

(** A recorded local timestamp is one of the clock readings. *)
Lemma stampState_read l : ∀ m k e a, stampState l m !! k = Some (e, a) →
  a ∈ (fst <$> l) ∨ ∃ k' e', m !! k' = Some (e', a).
Proof.
  induction l as [|[now v] l IH]; intros m k e a Hk; cbn in *; [right; by exists k, e|].
  destruct (IH _ _ _ _ Hk) as [Hin|(k' & e' & Hk')]; [left; by right|].
  destruct (stampLocked_cases now v m) as [(w & E & _ & Hc)|(e1 & a1 & _ & _ & E)]; rewrite E in Hk'; cbn in Hk'.
  - destruct (decide (valueKey v = k')) as [<-|Hne].
    + rewrite lookup_insert_eq in Hk'. injection Hk' as _ <-. destruct (m !! valueKey v) as [[e0 a0]|] eqn:Hm.
      * destruct Hc as [[_ ->]|[_ ->]]; [left; by left|right; by exists (valueKey v), e0].
      * rewrite Hc. left. by left.
    + rewrite lookup_insert_ne in Hk' by done. right. by exists k', e'.
  - right. by exists k', e'.
Qed.

Lemma ordered_suffix t l1 l2 a : ordered t (l1 ++ l2) → a ∈ (fst <$> l1) → ordered a l2.
Proof.
  unfold ordered. rewrite fmap_app. intros [Hs _]%StronglySorted_inv Ha. revert Hs.
  induction l1 as [|[now v] l1 IH]; cbn in *; [by apply elem_of_nil in Ha|].
  intros [Hs Hf]%StronglySorted_inv. apply elem_of_cons in Ha as [->|Ha]; [|by apply IH].
  apply Forall_app in Hf as [_ Hf]. constructor; [|done].
  clear -Hs. induction (fst <$> l1) as [|x l IH]; [done|]. apply IH. by apply StronglySorted_inv in Hs as [? _].
Qed.

(** However the get results and the events of the two threads interleave, the
    values of a property area are handed out in the server's order: an
    accepted value is never older, on the server, than one accepted before;
    equal server timestamps get equal local ones; a value is refused only
    because a newer one was accepted; only the timestamp is changed; and when
    the clock readings are taken in the order of the updates, local timestamps
    never decrease. *)
Theorem values_never_go_back l i j nowi vi wi nowj vj : (i < j)%nat →
  l !! i = Some (nowi, vi) → l !! j = Some (nowj, vj) → valueKey vi = valueKey vj →
  stampAll l ∅ !! i = Some (Some wi) →
  wi = set_timestamp (timestamp wi) vi ∧
  (∀ wj, stampAll l ∅ !! j = Some (Some wj) →
     timestamp vi ≤ timestamp vj ∧ (timestamp vi = timestamp vj → timestamp wi = timestamp wj) ∧
     (∀ t, ordered t l → timestamp wi ≤ timestamp wj)) ∧
  (stampAll l ∅ !! j = Some None → ∃ m nowm vm wm, (m < j)%nat ∧ l !! m = Some (nowm, vm) ∧
     stampAll l ∅ !! m = Some (Some wm) ∧ valueKey vm = valueKey vj ∧ timestamp vj < timestamp vm).
Proof.
  intros Hij Hi Hj Hkey Hwi. apply list_elem_of_split_length in Hi as (l1 & l2 & -> & ->).
  rewrite lookup_app_r in Hj by lia. destruct (j - length l1)%nat as [|j'] eqn:Hj'; [lia|]. cbn in Hj.
  rewrite stampAll_at in Hwi. rewrite list_lookup_middle in Hwi by (by rewrite stampAll_length). injection Hwi as Hwi.
  set (m := stampState l1 ∅) in *.
  destruct (stampLocked_cases nowi vi m) as [(w & E & Hw & Hc)|(e1 & a1 & _ & _ & E)]; rewrite E in Hwi; [|done].
  injection Hwi as ->. split; [done|]. split.
  - intros wj Hwj. rewrite stampAll_at in Hwj. fold m in Hwj.
    rewrite lookup_app_r in Hwj by (rewrite stampAll_length; lia). rewrite stampAll_length, Hj', E in Hwj. cbn in Hwj.
    destruct (stampAll_after l2 _ (valueKey vi) (timestamp vi) (timestamp wi) (lookup_insert_eq _ _ _) j' nowj vj wj Hj Hwj)
      as (H1 & H2 & H3); [done|]. split_and!; [done|intros; symmetry; auto|].
    intros t Ho. apply H3.
    assert (Hi : timestamp wi ∈ (fst <$> (l1 ++ [(nowi, vi)]))).
    { rewrite fmap_app. apply elem_of_app. destruct (m !! valueKey vi) as [[e a]|] eqn:Hm.
      - destruct Hc as [[_ ->]|[_ ->]]; [right; by left|left].
        destruct (stampState_read l1 ∅ _ _ _ Hm) as [|(k' & e' & Hk')]; [done|by rewrite lookup_empty in Hk'].
      - rewrite Hc. right. by left. }
    apply (ordered_suffix t (l1 ++ [(nowi, vi)])); [by rewrite <- app_assoc|exact Hi].
  - intros Hwj. assert (Hj2 : (l1 ++ (nowi, vi) :: l2) !! j = Some (nowj, vj)) by (rewrite lookup_app_r by lia; by rewrite Hj').
    destruct (stampAll_older _ ∅ j nowj vj Hj2 Hwj) as [(e & a & Hm & _)|(i & nowm & vm & wm & H)];
      [by rewrite lookup_empty in Hm|]. by exists i, nowm, vm, wm.
Qed.

(** The clock is read before the lock is taken: two updates whose readings are
    in the other order get decreasing local timestamps. *)
Example readings_out_of_order :
  stampAll [(20, example_value 1); (10, example_value 2)] ∅
    = [Some (set_timestamp 20 (example_value 1)); Some (set_timestamp 10 (example_value 2))].
Proof. reflexivity. Qed.

Lemma values_never_go_back_witness :
  stampAll [(10, example_value 5); (11, example_value 4); (12, example_value 5); (13, example_value 6)] ∅
    = [Some (set_timestamp 10 (example_value 5)); None; Some (set_timestamp 10 (example_value 5)); Some (set_timestamp 13 (example_value 6))]
  ∧ 10 ≤ 13.
Proof.
  split; [reflexivity|].
  destruct (values_never_go_back [(10, example_value 5); (11, example_value 4); (12, example_value 5); (13, example_value 6)]
              0 3 10 (example_value 5) (set_timestamp 10 (example_value 5)) 13 (example_value 6))
    as (_ & H & _); [lia|reflexivity..|].
  destruct (H (set_timestamp 13 (example_value 6)) eq_refl) as (_ & _ & Hle). apply (Hle 0).
  repeat constructor; cbn; lia.
Defined.

(** ** Retrying *)

Section retry.
  Context (tick : nat → Z) {S : Type} `{!VehicleServer S}.
Notation getValuesWithRetry := (getValuesWithRetry tick).
Notation handleResults := (handleResults tick).

Definition latest (g : GRPCVehicleHardware) (k : PropIdAreaId) : option (Z * Z) := mLatestUpdateTimestamps g !! k.

(** A value older than what is recorded of its property area. *)
Definition outdated (g : GRPCVehicleHardware) (v : VehiclePropValue) : Prop :=
  ∃ e a, latest g (valueKey v) = Some (e, a) ∧ timestamp v < e.

Lemma setAndroidTimestamp_outdated v g : outdated g v → (setAndroidTimestamp tick v g).2 = None.
Proof.
  intros (e & a & Hl & Ht). unfold setAndroidTimestamp, latest in *. cbn.
  destruct (stampLocked_cases (tick (clock_reads g)) v (mLatestUpdateTimestamps g)) as [(w & _ & _ & Hc)|(e1 & a1 & _ & _ & ->)]; [|done].
  rewrite Hl in Hc. destruct Hc as [[? _]|[-> _]]; lia.
Qed.

Lemma setAndroidTimestamp_still v v' g : outdated g v → outdated (setAndroidTimestamp tick v' g).1 v.
Proof.
  intros (e & a & Hl & Ht). unfold outdated, setAndroidTimestamp, latest in *. cbn.
  destruct (stampLocked_latest (tick (clock_reads g)) v' _ _ _ _ Hl) as (e' & a' & Hl' & Hle & _).
  destruct (stampLocked _ _ _) as [m r]. cbn in *. exists e', a'. split; [done|lia].
Qed.

Lemma requestById_id requests id r : requestById requests !! id = Some r → r ∈ requests ∧ gq_requestId r = id.
Proof.
  unfold requestById. assert (Hgen : ∀ m : gmap Z GetValueRequest, (∀ id r, m !! id = Some r → gq_requestId r = id) →
    foldl (λ m r, <[gq_requestId r := r]> m) m requests !! id = Some r →
    (r ∈ requests ∨ m !! id = Some r) ∧ gq_requestId r = id).
  { induction requests as [|q l IH]; intros m Hm H; cbn in H; [split; [by right|by apply Hm]|].
    apply IH in H as [[Hin|Hin] Hid].
    - split; [left; by right|done].
    - split; [|done]. destruct (decide (gq_requestId q = id)) as [<-|Hne].
      + rewrite lookup_insert_eq in Hin. injection Hin as ->. left. by left.
      + rewrite lookup_insert_ne in Hin by done. by right.
    - intros id' r'. destruct (decide (gq_requestId q = id')) as [<-|Hne].
      + rewrite lookup_insert_eq. by intros [= <-].
      + rewrite lookup_insert_ne by done. apply Hm. }
  intros H. destruct (Hgen ∅) as [[?|?] ?]; [done|exact H|done|done].
Qed.

Lemma requestById_some requests id : id ∈ (gq_requestId <$> requests) → is_Some (requestById requests !! id).
Proof.
  unfold requestById. assert (Hgen : ∀ m : gmap Z GetValueRequest, is_Some (m !! id) ∨ id ∈ (gq_requestId <$> requests) →
    is_Some (foldl (λ m r, <[gq_requestId r := r]> m) m requests !! id)).
  { induction requests as [|q l IH]; intros m Hm; cbn; [destruct Hm as [|Hm]; [done|by apply elem_of_nil in Hm]|].
    apply IH. destruct (decide (gq_requestId q = id)) as [<-|Hne]; [left; by rewrite lookup_insert_eq|].
    rewrite lookup_insert_ne by done. destruct Hm as [|Hm]; [by left|]. cbn in Hm.
    apply elem_of_cons in Hm as [->|]; [done|by right]. }
  intros H. apply Hgen. by right.
Qed.

(** What the loop keeps: recorded timestamps only grow, and the requests to
    retry are among those sent. *)
Lemma handleResults_keeps byId rs : ∀ g results retry,
  let '(g', results', retry') := handleResults byId rs g results retry in
  (∀ v, outdated g v → outdated g' v) ∧
  (∀ q, q ∈ retry → q ∈ retry') ∧
  (∀ q, q ∈ retry' → q ∈ retry ∨ ∃ id, byId !! id = Some q).
Proof.
  induction rs as [|p rs IH]; intros g results retry; cbn [GRPCVehicleHardware.handleResults].
  { split_and!; auto. }
  destruct (byId !! g_request_id p) as [q|] eqn:Hq; [|apply IH].
  destruct (g_value p) as [pv|]; [|apply IH].
  destruct (setAndroidTimestamp tick (protoToAidl pv freshAidl) g) as [g1 [w|]] eqn:E.
  - specialize (IH g1 (results ++ [mkGetValueResult (g_request_id p) (g_status p) (Some w)]) retry).
    destruct (handleResults _ _ _ _ _) as [[g' results'] retry']. destruct IH as (H1 & H2 & H3). split_and!; [|done|done].
    intros v Hv. apply H1. pose proof (setAndroidTimestamp_still v (protoToAidl pv freshAidl) g Hv) as H. by rewrite E in H.
  - specialize (IH g1 results (retry ++ [q])).
    destruct (handleResults _ _ _ _ _) as [[g' results'] retry']. destruct IH as (H1 & H2 & H3). split_and!.
    + intros v Hv. apply H1. pose proof (setAndroidTimestamp_still v (protoToAidl pv freshAidl) g Hv) as H. by rewrite E in H.
    + intros x Hx. apply H2, elem_of_app. by left.
    + intros x Hx. apply H3 in Hx as [Hx|Hx]; [|by right]. apply elem_of_app in Hx as [Hx|Hx]; [by left|].
      apply list_elem_of_singleton in Hx as ->. right. by eexists.
Qed.

(** A result with an outdated value puts its request on the list. *)
Lemma handleResults_retry byId p pv rs : ∀ g results retry, p ∈ rs → g_value p = Some pv →
  is_Some (byId !! g_request_id p) → outdated g (protoToAidl pv freshAidl) →
  (handleResults byId rs g results retry).2 ≠ [].
Proof.
  induction rs as [|p' rs IH]; intros g results retry Hin Hv Hq Ho; [by apply elem_of_nil in Hin|].
  cbn [GRPCVehicleHardware.handleResults]. apply elem_of_cons in Hin as [<-|Hin].
  - destruct Hq as [q Hq]. rewrite Hq, Hv. pose proof (setAndroidTimestamp_outdated _ _ Ho) as Hn.
    destruct (setAndroidTimestamp tick _ g) as [g1 r]. cbn in Hn. subst r.
    pose proof (handleResults_keeps byId rs g1 results (retry ++ [q])) as Hk.
    destruct (handleResults _ _ _ _ _) as [[g' results'] retry']. destruct Hk as (_ & Hk & _). cbn. intros ->.
    eapply elem_of_nil, Hk, elem_of_app. right. by left.
  - destruct (byId !! g_request_id p') as [q|]; [|by apply IH].
    destruct (g_value p') as [pv'|]; [|by apply IH].
    destruct (setAndroidTimestamp tick (protoToAidl pv' freshAidl) g) as [g1 [w|]] eqn:E;
      (apply IH; [done..|]); pose proof (setAndroidTimestamp_still _ (protoToAidl pv' freshAidl) g Ho) as H; by rewrite E in H.
Qed.

Lemma retry_status fuel : ∀ requests results k g s r, k ≠ MAX_RETRY_COUNT →
  getValuesWithRetry fuel requests results k g s = Some r → r.2 ≠ TRY_AGAIN.
Proof.
  induction fuel as [|fuel IH]; intros requests results k g s r Hk; cbn [GRPCVehicleHardware.getValuesWithRetry]; [done|].
  destruct (Nat.eqb_spec k MAX_RETRY_COUNT); [done|].
  destruct (rpc_GetValues _ s) as [[s' st] rs]. destruct (negb (grpc_ok st)); [by intros [= <-]|].
  destruct (handleResults _ rs g results []) as [[g' results'] retry].
  destruct (negb _); [by apply IH|by intros [= <-]].
Qed.

(** The server keeps answering the requests it gets, in the states [P], with
    some value that is older than one the client has seen. *)
Definition keepsAnsweringOutdated (P : S → Prop) (g : GRPCVehicleHardware) : Prop :=
  ∀ s (requests : list GetValueRequest), P s → requests ≠ [] →
    let '(s', st, rs) := rpc_GetValues (getRequestToProto <$> requests) s in
    P s' ∧ st = GrpcOk ∧ ∃ p pv, p ∈ rs ∧ g_value p = Some pv ∧ g_request_id p ∈ (gq_requestId <$> requests) ∧
      outdated g (protoToAidl pv freshAidl).

Lemma retry_forever P g0 : keepsAnsweringOutdated P g0 → ∀ fuel requests results g s,
  (∀ v, outdated g0 v → outdated g v) → P s → requests ≠ [] →
  getValuesWithRetry fuel requests results 0 g s = None.
Proof.
  intros Hserver fuel. induction fuel as [|fuel IH]; intros requests results g s Hg HP Hne; [done|].
  cbn [GRPCVehicleHardware.getValuesWithRetry]. change (0 =? MAX_RETRY_COUNT)%nat with false. cbv iota.
  pose proof (Hserver s requests HP Hne) as H. destruct (rpc_GetValues _ s) as [[s' st] rs].
  destruct H as (HP' & -> & p & pv & Hin & Hv & Hid & Ho). cbn [grpc_ok negb].
  pose proof (handleResults_keeps (requestById requests) rs g results []) as Hk.
  pose proof (handleResults_retry (requestById requests) p pv rs g results [] Hin Hv (requestById_some _ _ Hid) (Hg _ Ho)) as Hr.
  destruct (handleResults _ rs g results []) as [[g' results'] retry]. cbn [snd] in Hr. destruct Hk as (Hk & _ & _).
  destruct retry as [|q retry]; [done|]. cbn [length Nat.eqb negb]. apply IH; [auto|done|done].
Qed.

(** The limit on retries never acts: no get call, however often it is
    retried, ends with TRY_AGAIN; and against a server that keeps answering
    with a value older than the client has seen, the call does not return,
    whatever the number of rounds. *)
Theorem retry_limit_never_reached :
  (∀ fuel requests g s r, getValues tick fuel requests g s = Some r → r.2 ≠ TRY_AGAIN) ∧
  (∀ P g s requests, keepsAnsweringOutdated P g → P s → requests ≠ [] →
     ∀ fuel, getValues tick fuel requests g s = None).
Proof.
  split.
  - intros fuel requests g s r. unfold getValues.
    destruct (getValuesWithRetry fuel requests [] 0 g s) as [[[[g' s'] results] st]|] eqn:E; [|done].
    apply retry_status in E; [|done]. cbn in E. case_decide; by intros [= <-].
  - intros P g s requests Hs HP Hne fuel. unfold getValues. by rewrite (retry_forever P g Hs).
Qed.
End retry.

(** A server that has stopped at time 1. *)
Definition stuck_server : VehicleServer unit := {|
  rpc_GetAllPropertyConfig s := ([], GrpcOk);
  rpc_SetValues rs s := (s, GrpcOk, []);
  rpc_GetValues rs s := (s, GrpcOk, (λ r, mkpGetResult (q_request_id r) OK (Some (aidlToProto (example_value 1) freshProto))) <$> rs);
  rpc_UpdateSampleRate p a r s := (s, GrpcOk, OK);
  rpc_Subscribe o s := (s, GrpcOk, OK);
  rpc_Unsubscribe p a s := (s, GrpcOk, OK);
  rpc_CheckHealth s := (s, GrpcOk, OK);
  rpc_Dump o s := (s, GrpcOk, mkDumpResult false "" false);
  rpc_GetMinMaxSupportedValues ids s := (s, GrpcOk, []);
  rpc_GetSupportedValuesLists ids s := (s, GrpcOk, []) |}.

Definition example_client : GRPCVehicleHardware :=
  set_latest {[ valueKey (example_value 0) := (2, 0) ]} newGrpc.

Lemma retry_limit_never_reached_witness :
  getValues (VehicleServer0 := stuck_server) Z.of_nat 100 [mkGetValueRequest 7 (example_value 0)] example_client tt = None.
Proof.
  destruct (retry_limit_never_reached Z.of_nat (VehicleServer0 := stuck_server)) as [_ H].
  apply (H (λ _, True)); [|done|done].
  intros s requests _ Hne. destruct requests as [|q l]; [done|]. cbn. split; [done|]. split; [done|].
  eexists _, _. split; [by left|]. split; [reflexivity|]. split; [by left|]. exists 2, 0. split; [reflexivity|reflexivity].
Defined.

(** ** The client over the proxy server *)

Lemma options_arrive (o : SubscribeOptions) : protoToAidl (aidlToProto o freshProto) freshAidl = o.
Proof. exact (roundTrip o I). Qed.
Lemma value_arrives (v : VehiclePropValue) : bytes_ok (value v) → protoToAidl (aidlToProto v freshProto) freshAidl = v.
Proof. intros Hv. exact (roundTrip v Hv). Qed.

Section remote.
  Context {HS : Type} `{!Hardware HS} `{!ValueHardware HS} `{!DumpHardware HS}.
  Context (later_set : list SetValueRequest → HS → list (list SetValueResult)).
  Context (later_get : list GetValueRequest → HS → list (list GetValueResult)).
  Context (tick : nat → Z).
#[local] Instance proxy : VehicleServer HS := GrpcVehicleProxyServer later_set later_get (λ _, true).

Lemma addAll_fmap {A P} `{ProtoConverter A P} (l : list A) : ∀ out,
  addAll l out = out ++ ((λ x, aidlToProto x freshProto) <$> l).
Proof.
  induction l as [|x l IH]; intros out; cbn; [by rewrite app_nil_r|]. unfold addAll in *. rewrite IH.
  by rewrite <- app_assoc.
Qed.

(** Lists of messages, there and back. *)
Lemma transmit_list {A P} `{ConverterLaws A P} (l : list A) : Forall wellFormed l →
  (λ p, protoToAidl p freshAidl) <$> addAll l [] = survives <$> l.
Proof.
  intros Hl. rewrite addAll_fmap. cbn [app]. rewrite <- list_fmap_compose. induction Hl as [|x l Hx Hl IH]; [done|].
  cbn. f_equal; [exact (roundTrip x Hx)|exact IH].
Qed.

Lemma transmit_ids (ids : list PropIdAreaId) : (λ p, protoToAidl p freshAidl) <$> addAll ids [] = ids.
Proof.
  rewrite (transmit_list ids); [|apply Forall_forall; intros; exact I]. cbn. apply list_fmap_id.
Qed.

Lemma write_configs_all configs i :
  write_configs (λ _, true) i configs = ((λ c, aidlToProto c freshProto) <$> configs, GrpcOk).
Proof. revert i. induction configs as [|c l IH]; intros i; [done|]. cbn. by rewrite IH. Qed.

(** C20: A hardware behind the proxy server, over a channel that delivers the
    calls, is the hardware: subscribing,
    unsubscribing, changing a rate, the health check and the dump give its
    status and have its effect; configurations arrive up to empty lists of
    supported enum values; and, when the bytes in the results are in 0..255, the
    bounds of supported values arrive exactly and supported-value lists as
    [survivingList] says. *)
Theorem remote_hardware_transparent h :
  getAllPropertyConfigs h = survivingConfig <$> hw_getAllPropertyConfigs h ∧
  (∀ o, subscribe o h = hw_subscribe o h) ∧
  (∀ p a, unsubscribe p a h = hw_unsubscribe p a h) ∧
  (∀ p a r, updateSampleRate p a r h = hw_updateSampleRate p a r h) ∧
  checkHealth h = hw_checkHealth h ∧
  (∀ options, dump options h = hw_dump options h) ∧
  (∀ ids h' rs, hw_getMinMaxSupportedValues ids h = (h', rs) →
     Forall (λ r, opt_ok (minSupportedValue r) ∧ opt_ok (maxSupportedValue r)) rs →
     getMinMaxSupportedValues ids h = (h', rs)) ∧
  (∀ ids h' rs, hw_getSupportedValuesLists ids h = (h', rs) →
     Forall (λ r, Forall opt_ok (default [] (supportedValuesList r))) rs →
     getSupportedValuesLists ids h = (h', survivingList <$> rs)).
Proof.
  split_and!.
  - unfold getAllPropertyConfigs. cbn. unfold GetAllPropertyConfig. rewrite write_configs_all. cbn.
    rewrite <- list_fmap_compose. apply list_fmap_ext. intros i c _. exact (roundTrip c I).
  - intros o. unfold subscribe. cbn. unfold Subscribe. rewrite options_arrive. by destruct (hw_subscribe o h).
  - intros p a. unfold unsubscribe. cbn. unfold Unsubscribe. by destruct (hw_unsubscribe p a h).
  - intros p a r. unfold updateSampleRate. cbn. unfold UpdateSampleRate. by destruct (hw_updateSampleRate p a r h).
  - unfold checkHealth. cbn. unfold CheckHealth. by destruct (hw_checkHealth h).
  - intros options. unfold dump. cbn. unfold Dump. by destruct (hw_dump options h).
  - intros ids h' rs E Hwf. unfold getMinMaxSupportedValues, fillPropIdAreaIdsToProtoRequest. cbn.
    unfold GetMinMaxSupportedValues, getPropIdAreaIdsFromProtoRequest. rewrite transmit_ids, E. cbn. f_equal.
    unfold convertResults, aidlResultsToProtoResults.
    pose proof (transmit_list (P := pMinMaxSupportedValueResult) rs) as Ht. rewrite (Ht Hwf). cbn. apply list_fmap_id.
  - intros ids h' rs E Hwf. unfold getSupportedValuesLists, fillPropIdAreaIdsToProtoRequest. cbn.
    unfold GetSupportedValuesLists, getPropIdAreaIdsFromProtoRequest. rewrite transmit_ids, E. cbn. f_equal.
    unfold convertResults, aidlResultsToProtoResults.
    pose proof (transmit_list (P := pSupportedValuesListResult) rs) as Ht. by rewrite (Ht Hwf).
Qed.

(** *** Values *)

Lemma set_requests_arrive requests : Forall (λ r, bytes_ok (value (sq_value r))) requests →
  toSetRequest <$> (setRequestToProto <$> requests) = requests ∧
  q_request_id <$> (setRequestToProto <$> requests) = sq_requestId <$> requests.
Proof.
  intros Hr. rewrite <- !list_fmap_compose. split; [|by apply list_fmap_ext].
  induction Hr as [|[i v] l Hv Hl IH]; [done|]. cbn. f_equal; [|exact IH]. unfold toSetRequest. cbn.
  f_equal. exact (roundTrip v Hv).
Qed.

Lemma get_requests_arrive requests : Forall (λ r, bytes_ok (value (gq_prop r))) requests →
  toGetRequest <$> (getRequestToProto <$> requests) = requests ∧
  q_request_id <$> (getRequestToProto <$> requests) = gq_requestId <$> requests.
Proof.
  intros Hr. rewrite <- !list_fmap_compose. split; [|by apply list_fmap_ext].
  induction Hr as [|[i v] l Hv Hl IH]; [done|]. cbn. f_equal; [|exact IH]. unfold toGetRequest. cbn.
  f_equal. exact (roundTrip v Hv).
Qed.

(** Setting values through the proxy server is setting them on the hardware:
    when the hardware accepts the call and answers every request in time, the
    callback is called once with all its answers in order; otherwise the call
    fails with an internal error and the callback is not called. *)
Theorem remote_set_values requests h :
  Forall (λ r, bytes_ok (value (sq_value r))) requests →
  let '(h', status, calls) := hw_setValues requests h in
  let received := calls ++ later_set requests h' in
  let answered := status = OK ∧ received ≠ [] ∧ (∀ i, i ∈ (sq_requestId <$> requests) → i ∈ (sr_requestId <$> concat received)) in
  (answered → setValues requests h = (h', [concat received], OK)) ∧
  (¬ answered → setValues requests h = (h', [], INTERNAL_ERROR)).
Proof.
  intros Hr. destruct (set_requests_arrive requests Hr) as [E1 E2].
  unfold setValues. cbn [rpc_SetValues proxy GrpcVehicleProxyServer]. unfold SetValues. rewrite E1, E2.
  destruct (hw_setValues requests h) as [[h' st] calls]. cbv zeta. set (received := calls ++ _).
  destruct (awaitResults_spec sr_requestId setResultToProto (sq_requestId <$> requests) received) as [Hres Hc]. cbv zeta in *.
  set (p := awaitResults _ _ _ _) in *. clearbody p. destruct (decide (st ≠ OK)) as [Hst|Hst].
  { split; [by intros [? _]|done]. }
  apply dec_stable in Hst. subst st. rewrite Hres. split.
  - intros (_ & Hne & Hall). assert (complete p = true) as -> by (apply Hc; by split). cbn [negb grpc_ok].
    f_equal. f_equal. f_equal. rewrite <- list_fmap_compose.
    transitivity (id <$> concat received); [|apply list_fmap_id]. apply list_fmap_ext. by intros i [] _.
  - intros Hno. destruct (complete p) eqn:E; [|done]. exfalso. apply Hno. split; [done|]. by apply Hc.
Qed.

(** The same result, with a timestamp of this process. *)
Definition same_but_time (r r' : GetValueResult) : Prop :=
  gr_requestId r' = gr_requestId r ∧ gr_status r' = gr_status r ∧
  match gr_prop r, gr_prop r' with
  | None, None => True
  | Some v, Some v' => v' = set_timestamp (timestamp v') v
  | _, _ => False
  end.

Definition current (g : GRPCVehicleHardware) (v : VehiclePropValue) : Prop := ¬ outdated g v.

Lemma setAndroidTimestamp_current v g : current g v →
  ∃ g' v', setAndroidTimestamp tick v g = (g', Some v') ∧ v' = set_timestamp (timestamp v') v ∧
    (∀ w, valueKey w ≠ valueKey v → current g w → current g' w).
Proof.
  intros Hc. unfold setAndroidTimestamp. cbn.
  destruct (stampLocked_cases (tick (clock_reads g)) v (mLatestUpdateTimestamps g)) as [(w & E & Hw & _)|(e & a & He & Ht & _)].
  - rewrite E. eexists _, w. split; [done|]. split; [done|]. intros u Hu Hcu (e & a & Hl & Ht). apply Hcu. exists e, a.
    unfold latest in *. cbn in Hl. by rewrite lookup_insert_ne in Hl.
  - exfalso. apply Hc. by exists e, a.
Qed.

Lemma handleResults_current byId rs : Forall (λ r, is_Some (byId !! gr_requestId r)) rs →
  Forall (λ r, match gr_prop r with Some v => bytes_ok (value v) | None => True end) rs →
  NoDup (valueKey <$> omap gr_prop rs) →
  ∀ g results, (∀ v, v ∈ omap gr_prop rs → current g v) →
  ∃ g' results', handleResults tick byId (getResultToProto <$> rs) g results [] = (g', results ++ results', []) ∧
    Forall2 same_but_time rs results'.
Proof.
  induction rs as [|[i st o] rs IH]; intros Hid Hb Hnd g results Hcur.
  { exists g, []. cbn. by rewrite app_nil_r. }
  apply Forall_cons in Hid as [[q Hq] Hid]. apply Forall_cons in Hb as [Hv Hb]. cbn in Hq.
  cbn [fmap list_fmap handleResults getResultToProto g_request_id g_value g_status gr_requestId gr_status gr_prop].
  rewrite Hq. destruct o as [v|]; cbn [fmap option_fmap option_map] in *.
  - cbn in Hnd. apply NoDup_cons in Hnd as [Hnew Hnd].
    rewrite (value_arrives v Hv).
    destruct (setAndroidTimestamp_current v g) as (g1 & v' & E & Hv' & Hkeep); [apply Hcur; by left|]. rewrite E.
    destruct (IH Hid Hb Hnd g1 (results ++ [mkGetValueResult i st (Some v')])) as (g' & results' & E' & Hall).
    { intros w Hw. apply Hkeep; [|apply Hcur; by right]. intros Heq. apply Hnew. rewrite <- Heq.
      by apply list_elem_of_fmap_2. }
    exists g', (mkGetValueResult i st (Some v') :: results'). rewrite E', <- app_assoc. split; [done|].
    constructor; [|done]. by split_and!.
  - destruct (IH Hid Hb Hnd g (results ++ [mkGetValueResult i st None])) as (g' & results' & E' & Hall); [exact Hcur|].
    exists g', (mkGetValueResult i st None :: results'). rewrite E', <- app_assoc. split; [done|].
    constructor; [|done]. by split_and!.
Qed.

(** Getting values through the proxy server is getting them from the
    hardware, in one round, when the values are not older than those the
    client has seen: the callback gets all the hardware's answers in order,
    each with its id, status and value, stamped with the time of this process;
    a call the hardware does not answer in time is an internal error. *)
Theorem remote_get_values requests h g fuel :
  Forall (λ r, bytes_ok (value (gq_prop r))) requests → (fuel ≠ 0)%nat →
  let '(h', status, calls) := hw_getValues requests h in
  let received := concat (calls ++ later_get requests h') in
  let answered := status = OK ∧ calls ++ later_get requests h' ≠ [] ∧
    (∀ i, i ∈ (gq_requestId <$> requests) → i ∈ (gr_requestId <$> received)) in
  (¬ answered → getValues tick fuel requests g h = Some (g, h', [], INTERNAL_ERROR)) ∧
  (answered → Forall (λ r, gr_requestId r ∈ (gq_requestId <$> requests)) received →
     Forall (λ r, match gr_prop r with Some v => bytes_ok (value v) | None => True end) received →
     NoDup (valueKey <$> omap gr_prop received) → (∀ v, v ∈ omap gr_prop received → current g v) →
     ∃ g' results, getValues tick fuel requests g h
         = Some (g', h', match received with [] => [] | _ => [results] end, OK) ∧
       Forall2 same_but_time received results).
Proof.
  intros Hr Hf. destruct fuel as [|fuel]; [done|]. destruct (get_requests_arrive requests Hr) as [E1 E2].
  unfold getValues. cbn [getValuesWithRetry]. change (0 =? MAX_RETRY_COUNT)%nat with false. cbv iota.
  cbn [rpc_GetValues proxy GrpcVehicleProxyServer]. unfold GetValues. rewrite E1, E2.
  destruct (hw_getValues requests h) as [[h' st] calls]. cbv zeta. set (batches := calls ++ _).
  destruct (awaitResults_spec gr_requestId getResultToProto (gq_requestId <$> requests) batches) as [Hres Hc]. cbv zeta in *.
  set (p := awaitResults _ _ _ _) in *. clearbody p. destruct (decide (st ≠ OK)) as [Hst|Hst].
  { split; [by intros _|]. by intros [? _]. }
  apply dec_stable in Hst. subst st. rewrite Hres. split.
  - intros Hno. destruct (complete p) eqn:E; [exfalso; apply Hno; split; [done|]; by apply Hc|]. done.
  - intros (_ & Hne & Hall) Hids Hb Hnd Hcur. assert (complete p = true) as -> by (apply Hc; by split).
    cbn [negb grpc_ok].
    destruct (handleResults_current (requestById requests) (concat batches)) with (g := g) (results := @nil GetValueResult)
      as (g' & results & E & Hsame); [|done..|].
    { eapply Forall_impl; [exact Hids|]. cbn. intros r. apply requestById_some. }
    rewrite E. cbn [app length Nat.eqb negb]. exists g', results. split; [|done].
    destruct Hsame; done.
Qed.
End remote.

(** The echo hardware of the server's example, over the wire. *)
Lemma remote_hardware_transparent_witness :
  getAllPropertyConfigs (VehicleServer0 := GrpcVehicleProxyServer (λ _ _, []) (λ _ _, []) (λ _, true)) (mkEcho 0 []) = [echo_config] ∧
  getMinMaxSupportedValues (VehicleServer0 := GrpcVehicleProxyServer (λ _ _, []) (λ _ _, []) (λ _, true))
    [mkPropIdAreaId 1 0] (mkEcho 0 []) = (mkEcho 0 [], [mkMinMaxSupportedValueResult OK (Some emptyRaw) None]).
Proof.
  destruct (remote_hardware_transparent (HS := EchoHardware) (λ _ _, []) (λ _ _, []) (mkEcho 0 [])) as (Hc & _ & _ & _ & _ & _ & Hm & _).
  split; [exact Hc|]. apply Hm; [reflexivity|]. repeat constructor.
Defined.

Lemma remote_set_values_witness :
  setValues (VehicleServer0 := GrpcVehicleProxyServer (λ _ _, []) (λ _ _, []) (λ _, true))
    [mkSetValueRequest 4 (example_value 1)] (mkEcho 0 []) = (mkEcho 1 [], [[mkSetValueResult 4 OK]], OK).
Proof.
  destruct (remote_set_values (HS := EchoHardware) (λ _ _, []) (λ _ _, []) [mkSetValueRequest 4 (example_value 1)] (mkEcho 0 [])) as [H _].
  - repeat constructor.
  - apply H. split; [reflexivity|]. split; [discriminate|]. intros i Hi. exact Hi.
Defined.

Lemma remote_get_values_witness : ∃ g' results,
  getValues (VehicleServer0 := GrpcVehicleProxyServer (λ _ _, []) (λ _ _, []) (λ _, true)) Z.of_nat 1
    [mkGetValueRequest 4 (example_value 1)] newGrpc (mkEcho 0 []) = Some (g', mkEcho 0 [], [results], OK) ∧
  Forall2 same_but_time [mkGetValueResult 4 OK (Some (example_value 9))] results.
Proof.
  destruct (remote_get_values (HS := EchoHardware) (λ _ _, []) (λ _ _, []) Z.of_nat [mkGetValueRequest 4 (example_value 1)]
              (mkEcho 0 []) newGrpc 1) as [_ H].
  - repeat constructor.
  - discriminate.
  - apply H.
    + split; [reflexivity|]. split; [discriminate|]. intros i Hi. exact Hi.
    + repeat constructor.
    + repeat constructor.
    + apply NoDup_singleton.
    + intros v _ (e & a & Hl & _). discriminate Hl.
Defined.
