(* ===== verification/RemoteHardware.v ===== *)
(** * RemoteHardware: GRPCVehicleHardware as an IVehicleHardware

    [GRPCVehicleHardware] implements [IVehicleHardware]: its methods are those
    of GRPCVehicleHardware, put together here as instances of the interface,
    so that what is written against it (SubscriptionManager, DefaultVehicleHal)
    runs over a hardware in another process.  The state is the client with the
    server behind its stub.  [ServerLaws] is what the contract of a hardware
    becomes across the service; the proxy server keeps it for any hardware
    that keeps its own.

    The two methods for changes of supported values are not overridden: they
    are the defaults of the interface, which do nothing and return [OK]. *)

From stdpp Require Import base gmap sets list strings.
From Stdlib Require Import ZArith Lia.
From S2P Require Import Prelude Float32 VehicleTypes VehicleHardware SubscriptionManager.
From S2P Require Import ProtoMessageConverter GRPCVehicleProxyServer GRPCVehicleHardware.

Local Open Scope Z_scope.

#[export] Instance GrpcStatus_eq_dec : EqDecision GrpcStatus.
Proof. unfold EqDecision, Decision. repeat decide equality. Defined.

(** ** The instances *)

Record Remote (S : Type) : Type := mkRemote {
  remote_client : GRPCVehicleHardware;
  remote_server : S;
}.
Arguments mkRemote {S}.
Arguments remote_client {S}.
Arguments remote_server {S}.

Definition set_server {S} (s : S) (r : Remote S) : Remote S := mkRemote (remote_client r) s.

(** [None]: a call of [getValues] has not returned within [fuel] rounds; the
    answers given from then on are placeholders. *)
Definition calling {S A} (placeholder : A) (call : S → S * A) (r : option (Remote S)) : option (Remote S) * A :=
  match r with
  | None => (None, placeholder)
  | Some r => let '(s, a) := call (remote_server r) in (Some (set_server s r), a)
  end.

(** The inherited [subscribeSupportedValueChange] and
    [unsubscribeSupportedValueChange]: they do nothing and return [OK]. *)
Definition default_subscribeSupported {S} (propIdAreaIds : list PropIdAreaId) (r : option (Remote S)) :
    option (Remote S) * StatusCode := (r, OK).
Definition default_unsubscribeSupported {S} (propIdAreaIds : list PropIdAreaId) (r : option (Remote S)) :
    option (Remote S) * StatusCode := (r, OK).

Section instances.
  Context (tick : nat → Z) (fuel : nat) {S : Type} `{!VehicleServer S}.

Definition remote_hardware : Hardware (option (Remote S)) := {|
  hw_subscribe o := calling INTERNAL_ERROR (GRPCVehicleHardware.subscribe o);
  hw_unsubscribe p a := calling INTERNAL_ERROR (GRPCVehicleHardware.unsubscribe p a);
  hw_updateSampleRate p a rate := calling INTERNAL_ERROR (GRPCVehicleHardware.updateSampleRate p a rate);
  hw_subscribeSupportedValueChange := default_subscribeSupported;
  hw_unsubscribeSupportedValueChange := default_unsubscribeSupported |}.

Definition remote_getValues (requests : list GetValueRequest) (r : option (Remote S)) :
    option (Remote S) * StatusCode * list (list GetValueResult) :=
  match r with
  | None => (None, INTERNAL_ERROR, [])
  | Some r =>
      match GRPCVehicleHardware.getValues tick fuel requests (remote_client r) (remote_server r) with
      | None => (None, INTERNAL_ERROR, [])
      | Some (g, s, calls, status) => (Some (mkRemote g s), status, calls)
      end
  end.

Definition remote_setValues (requests : list SetValueRequest) (r : option (Remote S)) :
    option (Remote S) * StatusCode * list (list SetValueResult) :=
  match r with
  | None => (None, INTERNAL_ERROR, [])
  | Some r => let '(s, calls, status) := GRPCVehicleHardware.setValues requests (remote_server r) in
              (Some (set_server s r), status, calls)
  end.

Definition remote_values : ValueHardware (option (Remote S)) := {|
  hw_getAllPropertyConfigs r := match r with None => [] | Some r => GRPCVehicleHardware.getAllPropertyConfigs (remote_server r) end;
  hw_getPropertyConfig p r := match r with None => None | Some r => GRPCVehicleHardware.getPropertyConfig p (remote_server r) end;
  hw_getValues := remote_getValues;
  hw_setValues := remote_setValues;
  hw_getSupportedValuesLists ids := calling [] (GRPCVehicleHardware.getSupportedValuesLists ids);
  hw_getMinMaxSupportedValues ids := calling [] (GRPCVehicleHardware.getMinMaxSupportedValues ids);
  hw_checkHealth := calling INTERNAL_ERROR GRPCVehicleHardware.checkHealth |}.
End instances.

(** ** The contract across the service *)

(** A call that arrives and answers [OK] has its effect, one that fails has
    none; a server that does not implement the calls is not one of these. *)
Class ServerLaws (S : Type) `{!VehicleServer S} := {
  sv_active : S → gset PropIdAreaId;
  sv_subscribe_law (o : SubscribeOptions) s :
    let '(s', grpc_status, code) := rpc_Subscribe (aidlToProto o freshProto) s in
    grpc_status ≠ GrpcError UNIMPLEMENTED ∧
    sv_active s' = if decide (grpc_status = GrpcOk ∧ code = OK) then sv_active s ∪ optionsIds o else sv_active s;
  sv_unsubscribe_law p a s :
    let '(s', grpc_status, code) := rpc_Unsubscribe p a s in
    grpc_status ≠ GrpcError UNIMPLEMENTED ∧
    sv_active s' = if decide (grpc_status = GrpcOk ∧ code = OK)
                   then sv_active s ∖ {[mkPropIdAreaId p a]} else sv_active s;
  sv_updateSampleRate_law p a rate s :
    let '(s', _, _) := rpc_UpdateSampleRate p a rate s in sv_active s' = sv_active s;
}.

Section laws.
  Context {S : Type} `{!VehicleServer S} `{!ServerLaws S}.
#[local] Existing Instance remote_hardware.

Definition remote_active (r : option (Remote S)) : gset PropIdAreaId :=
  match r with None => ∅ | Some r => sv_active (remote_server r) end.
Lemma decide_status (X Y : gset PropIdAreaId) g (c : StatusCode) : g ≠ GrpcError UNIMPLEMENTED →
  (if decide (g = GrpcOk ∧ c = OK) then X else Y) =
  (if decide ((match g with GrpcError UNIMPLEMENTED => OK | GrpcError _ => INTERNAL_ERROR | GrpcOk => c end) = OK)
   then X else Y).
Proof. intros Hg. destruct g as [|[]]; repeat case_decide; naive_solver. Qed.

(** The client keeps the contract of [IVehicleHardware] over any server that
    keeps its own. *)
Definition remote_laws : HardwareLaws (option (Remote S)).
Proof.
  refine {| hw_active := remote_active |}.
  - intros o [r|]; [|done]. cbn. pose proof (sv_subscribe_law o (remote_server r)) as Hl.
    unfold subscribe, passThroughLegacy. destruct (rpc_Subscribe _ _) as [[s' g] c]. destruct Hl as [Hg Ha].
    rewrite (decide_status _ _ g c Hg) in Ha. by destruct g as [|[]].
  - intros p a [r|]; [|done]. cbn. pose proof (sv_unsubscribe_law p a (remote_server r)) as Hl.
    unfold unsubscribe, passThroughLegacy. destruct (rpc_Unsubscribe _ _ _) as [[s' g] c]. destruct Hl as [Hg Ha].
    rewrite (decide_status _ _ g c Hg) in Ha. by destruct g as [|[]].
  - intros p a x [r|]; [|done]. cbn. pose proof (sv_updateSampleRate_law p a x (remote_server r)) as Hl.
    unfold updateSampleRate, passThrough. destruct (rpc_UpdateSampleRate _ _ _ _) as [[s' g] c].
    by destruct (negb _).
  - by intros l [r|].
  - by intros l [r|].
Defined.
End laws.

(** The proxy server keeps it when its hardware does. *)
Section proxy.
  Context {HS : Type} `{!Hardware HS, !ValueHardware HS, !DumpHardware HS, !HardwareLaws HS}.
  Context (later_set : list SetValueRequest → HS → list (list SetValueResult)).
  Context (later_get : list GetValueRequest → HS → list (list GetValueResult)).
  Context (written : nat → bool).

Lemma decide_and_true (X Y : gset PropIdAreaId) (c : StatusCode) :
  (if decide (c = OK) then X else Y) = (if decide (GrpcOk = GrpcOk ∧ c = OK) then X else Y).
Proof. repeat case_decide; naive_solver. Qed.

Definition proxy_laws : ServerLaws (VehicleServer0 := GrpcVehicleProxyServer later_set later_get written) HS.
Proof.
  refine {| sv_active := hw_active |}.
  - intros o h. cbn. unfold Subscribe. rewrite options_arrive. pose proof (hw_subscribe_law o h) as Ha. cbn zeta in Ha.
    destruct (hw_subscribe o h) as [h' c]. split; [done|]. etrans; [exact Ha|]. cbn. apply decide_and_true.
  - intros p a h. cbn. unfold Unsubscribe. pose proof (hw_unsubscribe_law p a h) as Ha. cbn zeta in Ha.
    destruct (hw_unsubscribe p a h) as [h' c]. split; [done|]. etrans; [exact Ha|]. cbn. apply decide_and_true.
  - intros p a x h. cbn. unfold UpdateSampleRate. pose proof (hw_updateSampleRate_law p a x h) as Ha.
    by destruct (hw_updateSampleRate p a x h).
Defined.
End proxy.

(** ** A channel that loses calls

    [lost n] is the error with which the [n]-th call of the channel fails
    without having reached the server, if it does.  (A call whose reply alone
    is lost has its effect and is reported as failed; such a channel breaks
    the contract and is not one of these.) *)
Record Channel (S : Type) : Type := mkChannel { channel_server : S; channel_calls : nat }.
Arguments mkChannel {S}.
Arguments channel_server {S}.
Arguments channel_calls {S}.

Section channel.
  Context (lost : nat → option GrpcCode) {S : Type} `{!VehicleServer S}.

Definition over {A} (placeholder : A) (call : S → S * GrpcStatus * A) (c : Channel S) : Channel S * GrpcStatus * A :=
  let n := Datatypes.S (channel_calls c) in
  match lost (channel_calls c) with
  | Some e => (mkChannel (channel_server c) n, GrpcError e, placeholder)
  | None => let '(s, g, a) := call (channel_server c) in (mkChannel s n, g, a)
  end.

Definition lossy_channel : VehicleServer (Channel S) := {|
  rpc_GetAllPropertyConfig c :=
    match lost (channel_calls c) with
    | Some e => ([], GrpcError e)
    | None => rpc_GetAllPropertyConfig (channel_server c)
    end;
  rpc_SetValues requests := over [] (rpc_SetValues requests);
  rpc_GetValues requests := over [] (rpc_GetValues requests);
  rpc_UpdateSampleRate p a rate := over INTERNAL_ERROR (rpc_UpdateSampleRate p a rate);
  rpc_Subscribe o := over INTERNAL_ERROR (rpc_Subscribe o);
  rpc_Unsubscribe p a := over INTERNAL_ERROR (rpc_Unsubscribe p a);
  rpc_CheckHealth := over INTERNAL_ERROR rpc_CheckHealth;
  rpc_Dump options := over (mkDumpResult false "" false) (rpc_Dump options);
  rpc_GetMinMaxSupportedValues ids := over [] (rpc_GetMinMaxSupportedValues ids);
  rpc_GetSupportedValuesLists ids := over [] (rpc_GetSupportedValuesLists ids) |}.

(** Losing calls keeps the contract, as long as a lost call is not answered as
    if the server did not implement it. *)
Definition channel_laws `{!ServerLaws S} (Hlost : ∀ n, lost n ≠ Some UNIMPLEMENTED) :
    ServerLaws (VehicleServer0 := lossy_channel) (Channel S).
Proof.
  refine {| sv_active := λ c, sv_active (channel_server c) |}; intros; cbn; unfold over;
    pose proof (Hlost (channel_calls s)) as Hn; destruct (lost _) as [e|]; try by (split; [congruence|by rewrite decide_False by naive_solver]).
  - pose proof (sv_subscribe_law o (channel_server s)) as Hl. by destruct (rpc_Subscribe _ _) as [[s' g] c].
  - pose proof (sv_unsubscribe_law p a (channel_server s)) as Hl. by destruct (rpc_Unsubscribe _ _ _) as [[s' g] c].
  - done.
  - pose proof (sv_updateSampleRate_law p a rate (channel_server s)) as Hl.
    by destruct (rpc_UpdateSampleRate _ _ _ _) as [[s' g] c].
Defined.
End channel.

(** ** Subscriptions across the bridge *)

Section subscriptions.
  Context {HS : Type} `{!Hardware HS, !ValueHardware HS, !DumpHardware HS, !HardwareLaws HS}.
  Context (later_set : list SetValueRequest → HS → list (list SetValueResult)).
  Context (later_get : list GetValueRequest → HS → list (list GetValueResult)).
  Context (written : nat → bool).
  Context (lost : nat → option GrpcCode) (Hlost : ∀ n, lost n ≠ Some UNIMPLEMENTED).
#[local] Instance server : VehicleServer HS := GrpcVehicleProxyServer later_set later_get written.
#[local] Instance server_laws : ServerLaws HS := proxy_laws later_set later_get written.
#[local] Instance channel : VehicleServer (Channel HS) := lossy_channel lost.
#[local] Instance channel_contract : ServerLaws (Channel HS) := channel_laws lost Hlost.
#[local] Instance bridge_hardware : Hardware (option (Remote (Channel HS))) := remote_hardware.
#[local] Instance bridge_laws : HardwareLaws (option (Remote (Channel HS))) := remote_laws.
  (** As in SubscriptionManager. *)
  Context (ub_cast : f32 → Z) (log10f : f32 → f32) (asBinder : Z → Z).
  Context (hash_order : gset PropIdAreaId → list PropIdAreaId).
  Context (hash_order_elements : ∀ x, hash_order x ≡ₚ elements x).
  Context (isCont : PropIdAreaId → bool).
  (** What else happens to the client, the channel and the hardware. *)
  Context (other : option (Remote (Channel HS)) → option (Remote (Channel HS)) → Prop).

(** What the hardware in the other process reports. *)
Definition reported (s : Manager (option (Remote (Channel HS)))) : gset PropIdAreaId :=
  match mVehicleHardware s with
  | Some r => hw_active (channel_server (remote_server r))
  | None => ∅
  end.

(** C16: The subscription manager of this process and the hardware of the other
    one, through GRPCVehicleHardware, a channel that loses any calls (the lost
    ones without effect and not answered UNIMPLEMENTED) and the proxy server.
    In every history the hardware reports only [propId, areaId]s that have a
    client here; in orderly ones (see [orderly]) it reports precisely those.
    Subscriptions to changes of supported values do not get there: the client
    inherits the defaults, which answer ok and tell the server nothing. *)
Theorem bridge_subscriptions_match_hardware g h0 calls s :
  hw_active h0 = ∅ → (∀ r r', other r r' → hw_active r' = hw_active r) →
  let start := Some (mkRemote g (mkChannel h0 calls)) in
  (sub_reachable ub_cast log10f asBinder hash_order other start s →
     ∀ p, p ∈ reported s → clientsOf p s ≠ ∅) ∧
  (orderly ub_cast log10f asBinder hash_order isCont other start s →
     ∀ p, p ∈ reported s ↔ clientsOf p s ≠ ∅) ∧
  (∀ k ids, let r := subscribeSupportedValueChange asBinder k ids s in
     r.2 = Ok tt ∧ mVehicleHardware r.1 = mVehicleHardware s).
Proof.
  intros H0 Hother start. split_and!.
  - intros Hr p Hp.
    assert (Hw : wk_inv asBinder s) by (refine (reachable_wk _ _ _ _ hash_order_elements other start s H0 Hother Hr)).
    by apply (wk_each _ s Hw p).
  - intros Ho p.
    assert (Hi : mgr_inv asBinder isCont s) by (refine (orderly_inv _ _ _ _ _ hash_order_elements other start s H0 Hother Ho)).
    exact (active_iff asBinder isCont p s (proj1 Hi)).
  - intros k ids.
    assert (Hloop : ∀ (f : PropIdAreaId → Manager (option (Remote (Channel HS))) → _) l t,
      (∀ p t, mVehicleHardware (f p t) = mVehicleHardware t) →
      let r := for_each l (λ p, mmodify (f p)) t : _ * result StatusCode unit in
      r.2 = Ok tt ∧ mVehicleHardware r.1 = mVehicleHardware t).
    { intros f l. induction l as [|p l IH]; intros t Hf; [done|]. cbn [for_each]. rewrite mbind_mmodify.
      destruct (IH (f p t) Hf) as [H1 H2]. split; [done|]. by rewrite H2, Hf. }
    unfold subscribeSupportedValueChange. rewrite mbind_unfold. unfold hardware_call.
    cbn [hw_subscribeSupportedValueChange bridge_hardware remote_hardware default_subscribeSupported].
    unfold default_subscribeSupported. rewrite decide_True by done.
    destruct (Hloop (λ p, SubscriptionManager.set_supported
      (λ m, <[p := <[asBinder k := k]> (default ∅ (m !! p))]> m)
      (λ m, <[asBinder k := default ∅ (m !! asBinder k) ∪ {[p]}]> m)) ids (set_hardware (mVehicleHardware s) s))
      as [H1 H2]; [done|]. by split.
Qed.
End subscriptions.

(** *** Example: two clients of a hardware in another process, the second call lost *)

#[local] Instance simple_values : ValueHardware SimpleHardware := {|
  hw_getAllPropertyConfigs h := [];
  hw_getPropertyConfig p h := None;
  hw_getValues rs h := (h, OK, []);
  hw_setValues rs h := (h, OK, []);
  hw_getSupportedValuesLists ids h := (h, []);
  hw_getMinMaxSupportedValues ids h := (h, []);
  hw_checkHealth h := (h, OK) |}.
#[local] Instance simple_dump : DumpHardware SimpleHardware := {|
  hw_dump options h := (h, mkDumpResult false "" false) |}.
Definition ex_lost (n : nat) : option GrpcCode := if decide (n = 2%nat) then Some (OtherCode 14) else None.
Lemma ex_lost_ok n : ex_lost n ≠ Some UNIMPLEMENTED.
Proof. unfold ex_lost. by case_decide. Qed.
#[local] Instance simple_server : VehicleServer SimpleHardware :=
  GrpcVehicleProxyServer (λ _ _, []) (λ _ _, []) (λ _, true).
#[local] Instance simple_channel : VehicleServer (Channel SimpleHardware) := lossy_channel ex_lost.
#[local] Instance simple_remote : Hardware (option (Remote (Channel SimpleHardware))) := remote_hardware.

Definition ex_start : option (Remote (Channel SimpleHardware)) :=
  Some (mkRemote newGrpc (mkChannel (mkSimpleHardware ∅ ∅ ∅) 0)).
Definition ex_join (k : Z) (rate : Z) (m : Manager (option (Remote (Channel SimpleHardware)))) :=
  SubscriptionManager.subscribe ex_cast ex_log (λ k, k) k [ex_option 1 rate] true m.
Definition ex_bridge : Manager (option (Remote (Channel SimpleHardware))) :=
  (ex_join 8 20 (ex_join 7 10 (newManager ex_start)).1).1.

Lemma ex_bridge_orderly :
  orderly ex_cast ex_log (λ k, k) elements ex_cont (λ _ _, False) ex_start ex_bridge.
Proof.
  unfold ex_bridge, ex_join. do 2 (eapply or_step; [|apply os_subscribe, ex_options_ok; reflexivity]).
  apply or_new.
Qed.

Lemma bridge_subscriptions_match_hardware_witness :
  (∀ p, p ∈ reported ex_bridge ↔ clientsOf p ex_bridge ≠ ∅) ∧
  (ex_join 8 20 (ex_join 7 10 (newManager ex_start)).1).2 = Err INTERNAL_ERROR ∧
  sh_active <$> (channel_server ∘ remote_server <$> mVehicleHardware ex_bridge) = Some {[mkPropIdAreaId 1 0]}.
Proof.
  split; [|split; vm_compute; reflexivity].
  destruct (bridge_subscriptions_match_hardware (HS := SimpleHardware) (λ _ _, []) (λ _ _, []) (λ _, true)
    ex_lost ex_lost_ok ex_cast ex_log (λ k, k) elements (λ x, reflexivity _) ex_cont (λ _ _, False)
    newGrpc (mkSimpleHardware ∅ ∅ ∅) 0 ex_bridge) as (_ & H & _); [reflexivity|done|].
  exact (H ex_bridge_orderly).
Defined.
