(* ===== verification/RemoteShutdown.v ===== *)
(** * RemoteShutdown: the polling threads of GRPCVehicleHardware and its destructor

    Models the threads of [vhal-ipc-grpc/aidl/impl/4/grpc/GRPCVehicleHardware.cpp]
    ([ValuePollingLoop], [SupportedValuesChangeLoop]) one access to shared state
    at a time, next to the destructor, which takes the mutex, sets the flag,
    cancels the streams and joins the threads.
    What one message does is [GRPCVehicleHardware.pollValue] and
    [pollSupportedValuesChange].  Of gRPC: a cancelled stream stops giving
    messages and finishes; another one gives what the server sends, and
    finishes when the server ends it. *)

From stdpp Require Import base list.
From Stdlib Require Import ZArith Lia.
From S2P Require Import Prelude VehicleTypes ProtoMessageConverter FairSchedule.
From S2P Require Import GRPCVehicleProxyServer GRPCVehicleHardware.

(** ** One polling thread *)

Inductive PollPc : Type :=
| AtLoop         (* the loop's test of mShuttingDownFlag *)
| AtInsert       (* before mStreamContexts.insert *)
| AtStream       (* the test of the flag before Read *)
| InRead
| AtErase        (* before mStreamContexts.erase *)
| InFinish
| AfterPoll      (* the loop's second test of the flag *)
| PollDone.

#[export] Instance PollPc_eq_dec : EqDecision PollPc.
Proof. solve_decision. Defined.

(** [inserted]: its context is in [mStreamContexts].  [ended]: the status the
    stream ended with. *)
Record Poller : Type := mkPoller {
  pc : PollPc;
  inserted : bool;
  cancelled : bool;
  ended : option GrpcStatus
}.

Definition newPoller : Poller := mkPoller AtLoop false false None.
Definition goto (x : PollPc) (t : Poller) : Poller := mkPoller x (inserted t) (cancelled t) (ended t).

(** What the stream gives when the thread looks. *)
Inductive Input (M : Type) : Type := Silent | Received (message : M) | Ended (st : GrpcStatus).
Arguments Silent {M}.
Arguments Received {M}.
Arguments Ended {M}.

Definition CANCELLED : GrpcCode := OtherCode 1.

(** One step: the thread and the message it has to handle; [None]: it waits.
    [flag] is [mShuttingDownFlag], [locked] that the destructor holds
    [mShutdownMutex], [stops] which statuses end the loop. *)
Definition poll_step {M} (stops : GrpcStatus → bool) (flag locked : bool) (i : Input M) (t : Poller) :
    option (Poller * option M) :=
  match pc t with
  | AtLoop => Some (goto (if flag then PollDone else AtInsert) t, None)
  | AtInsert => if locked then None else Some (mkPoller AtStream true false None, None)
  | AtStream => Some (goto (if flag then AtErase else InRead) t, None)
  | InRead =>
      match i with
      | Received m => Some (goto AtStream t, Some m)
      | Ended st => Some (mkPoller AtErase (inserted t) (cancelled t) (Some st), None)
      | Silent => if cancelled t then Some (goto AtErase t, None) else None
      end
  | AtErase => if locked then None else Some (mkPoller InFinish false (cancelled t) (ended t), None)
  | InFinish =>
      match ended t, i with
      | Some _, _ => Some (goto AfterPoll t, None)
      | None, Ended st => Some (mkPoller AfterPoll (inserted t) (cancelled t) (Some st), None)
      | None, _ => if cancelled t then Some (mkPoller AfterPoll (inserted t) (cancelled t) (Some (GrpcError CANCELLED)), None)
                   else None
      end
  | AfterPoll =>
      Some (goto (if bool_decide (is_Some (ended t)) && stops (default GrpcOk (ended t)) then PollDone
                  else if flag then PollDone else AtLoop) t, None)
  | PollDone => None
  end.

(** ** The client and its destructor *)

Inductive RemoteDtor : Type :=
| Running
| Locked             (* mShutdownMutex is taken *)
| Flagged            (* the flag is set *)
| ContextsCancelled  (* every context cancelled, the set cleared, the mutex released *)
| ValuesJoined
| RemoteDestroyed.

#[export] Instance RemoteDtor_eq_dec : EqDecision RemoteDtor.
Proof. solve_decision. Defined.

Record Remote : Type := mkRemote {
  client : GRPCVehicleHardware;
  valuePoller : Poller;
  changePoller : Poller;
  remoteDtor : RemoteDtor;
  valueCalls : list (nat * list VehiclePropValue);
  changeCalls : list (nat * list PropIdAreaId)
}.

Definition newRemote (g : GRPCVehicleHardware) : Remote := mkRemote g newPoller newPoller Running [] [].

Definition is_unimplemented (s : GrpcStatus) : bool := match s with GrpcError UNIMPLEMENTED => true | _ => false end.

Definition set_shutting_down (g : GRPCVehicleHardware) : GRPCVehicleHardware :=
  mkGrpc (mOnPropChange g) (mOnSetErr g) (mOnSupportedValueChange g) true (mLatestUpdateTimestamps g) (clock_reads g).

(** [TryCancel] on the contexts of the set, which is then cleared. *)
Definition cancelContext (t : Poller) : Poller :=
  if inserted t then mkPoller (pc t) false true (ended t) else t.

(** The destructor's next step; [None]: it waits for a thread. *)
Definition remote_dtor_step (r : Remote) : option Remote :=
  match remoteDtor r with
  | Running => Some (mkRemote (client r) (valuePoller r) (changePoller r) Locked (valueCalls r) (changeCalls r))
  | Locked => Some (mkRemote (set_shutting_down (client r)) (valuePoller r) (changePoller r) Flagged (valueCalls r) (changeCalls r))
  | Flagged => Some (mkRemote (client r) (cancelContext (valuePoller r)) (cancelContext (changePoller r)) ContextsCancelled
                       (valueCalls r) (changeCalls r))
  | ContextsCancelled =>
      if decide (pc (valuePoller r) = PollDone)
      then Some (mkRemote (client r) (valuePoller r) (changePoller r) ValuesJoined (valueCalls r) (changeCalls r)) else None
  | ValuesJoined =>
      if decide (pc (changePoller r) = PollDone)
      then Some (mkRemote (client r) (valuePoller r) (changePoller r) RemoteDestroyed (valueCalls r) (changeCalls r)) else None
  | RemoteDestroyed => None
  end.

Definition mutex_held (r : Remote) : bool := bool_decide (remoteDtor r = Locked ∨ remoteDtor r = Flagged).

Inductive RemoteEvent : Type :=
| RDtor
| RValues (i : Input (list pVehiclePropValue))
| RChanges (i : Input (list pPropIdAreaId)).

Section remote.
Context (tick : nat → Z).
Implicit Types r : Remote.

Definition remote_step (e : RemoteEvent) r : option Remote :=
  match e with
  | RDtor => remote_dtor_step r
  | RValues i =>
      match poll_step (λ _, false) (mShuttingDownFlag (client r)) (mutex_held r) i (valuePoller r) with
      | None => None
      | Some (t, None) => Some (mkRemote (client r) t (changePoller r) (remoteDtor r) (valueCalls r) (changeCalls r))
      | Some (t, Some m) =>
          let '(g, calls) := pollValue tick [m] (client r) (valueCalls r) in
          Some (mkRemote g t (changePoller r) (remoteDtor r) calls (changeCalls r))
      end
  | RChanges i =>
      match poll_step is_unimplemented (mShuttingDownFlag (client r)) (mutex_held r) i (changePoller r) with
      | None => None
      | Some (t, m) =>
          Some (mkRemote (client r) (valuePoller r) t (remoteDtor r) (valueCalls r)
                  (changeCalls r ++ match m with Some m => pollSupportedValuesChange [m] (client r) | None => [] end))
      end
  end.

Fixpoint remote_run (tr : list RemoteEvent) r : option Remote :=
  match tr with
  | [] => Some r
  | e :: tr' => match remote_step e r with Some r' => remote_run tr' r' | None => None end
  end.

End remote.

(** ** What holds while it runs *)

(** Inside [pollValue], where its context exists. *)
Definition in_poll (t : Poller) : Prop := pc t = AtStream ∨ pc t = InRead ∨ pc t = AtErase.

(** A context in the set belongs to a call of [pollValue] that is running. *)
Definition context_valid (t : Poller) : Prop := inserted t = true → in_poll t.

(** The thread before the destructor has cancelled the contexts. *)
Definition tracked (flag : bool) (t : Poller) : Prop :=
  (in_poll t → inserted t = true) ∧ cancelled t = false ∧
  (pc t = InFinish ∨ flag = false ∧ pc t = AtErase → is_Some (ended t)).

(** And after it has, unless it was about to insert its context. *)
Definition prompt (t : Poller) : Prop :=
  pc t ≠ AtInsert ∧ (pc t = AtStream ∨ pc t = InRead → cancelled t = true) ∧
  (pc t = AtErase ∨ pc t = InFinish → cancelled t = true ∨ is_Some (ended t)).

(** Steps left to a prompt thread once the flag is set. *)
Definition poll_rank (t : Poller) : nat :=
  match pc t with
  | PollDone => 0 | AtLoop | AfterPoll => 1 | InFinish => 2 | AtErase => 3 | AtStream => 4 | InRead => 5 | AtInsert => 6
  end.

Section poll.
Context {M : Type} (stops : GrpcStatus → bool).
Implicit Types (t : Poller) (i : Input M).

Ltac poll_cases :=
  unfold poll_step, context_valid, tracked, prompt, in_poll, poll_rank, goto in *; cbn in *;
  repeat match goal with
  | H : context [match ?x with _ => _ end] |- _ => destruct x eqn:?; try discriminate H
  end; simplify_eq/=.

Lemma poll_valid flag locked i t t' m : poll_step stops flag locked i t = Some (t', m) → context_valid t → context_valid t'.
Proof. destruct t as [x ins can st]. intros Hs Hv. poll_cases; naive_solver. Qed.

Lemma poll_tracked flag locked i t t' m : (flag = true → locked = true) →
  poll_step stops flag locked i t = Some (t', m) → tracked flag t → tracked flag t'.
Proof.
  destruct t as [x ins can st]. intros Hl Hs Hv.
  destruct flag; [rewrite (Hl eq_refl) in Hs|destruct locked]; clear Hl; poll_cases; naive_solver.
Qed.

Lemma poll_prompt i t : prompt t → pc t ≠ PollDone → ∃ t' m, poll_step stops true false i t = Some (t', m) ∧
  prompt t' ∧ poll_rank t' < poll_rank t.
Proof.
  destruct t as [x ins can st]. intros (Hi & Hp & He) Hd. unfold prompt in *. cbn in *.
  assert (Hread : x = InRead → can = true) by auto. assert (Hfin : x = InFinish → can = true ∨ is_Some st) by auto.
  destruct x; try done; unfold poll_step; cbn.
  - eexists _, _. split; [done|]. cbn. split; [naive_solver|lia].
  - eexists _, _. split; [done|]. cbn. split; [naive_solver|lia].
  - rewrite (Hread eq_refl). destruct i; (eexists _, _; split; [done|]); cbn; (split; [naive_solver|lia]).
  - eexists _, _. split; [done|]. cbn. split; [naive_solver|lia].
  - destruct (Hfin eq_refl) as [->|[st' ->]]; [destruct st, i|]; (eexists _, _; split; [done|]); cbn; (split; [naive_solver|lia]).
  - eexists _, _. split; [done|]. cbn. destruct (_ && _); (split; [naive_solver|cbn; lia]).
Qed.

Lemma poll_no_insert locked i t t' m : poll_step stops true locked i t = Some (t', m) → pc t ≠ AtInsert → pc t' ≠ AtInsert.
Proof. destruct t as [x ins can st]. intros Hs Hv. poll_cases; naive_solver. Qed.

Lemma poll_done flag locked i t : pc t = PollDone → poll_step stops flag locked i t = None.
Proof. unfold poll_step. by intros ->. Qed.
End poll.

(** ** The client *)

Section remote_laws.
Context (tick : nat → Z).
Implicit Types r : Remote.

Definition before_cancel r : Prop := remoteDtor r = Running ∨ remoteDtor r = Locked ∨ remoteDtor r = Flagged.

(** The flag is set. *)
Definition begun r : bool := match remoteDtor r with Running | Locked => false | _ => true end.

Lemma flag_locks r : before_cancel r → begun r = true → mutex_held r = true.
Proof.
  unfold before_cancel, begun, mutex_held. intros Hb H. apply bool_decide_eq_true. destruct (remoteDtor r); naive_solver.
Qed.

Record remote_ok r : Prop := {
  rok_flag : mShuttingDownFlag (client r) = begun r;
  rok_valid : context_valid (valuePoller r) ∧ context_valid (changePoller r);
  rok_tracked : before_cancel r → tracked (mShuttingDownFlag (client r)) (valuePoller r) ∧
    tracked (mShuttingDownFlag (client r)) (changePoller r);
  rok_values : remoteDtor r = ValuesJoined ∨ remoteDtor r = RemoteDestroyed → pc (valuePoller r) = PollDone;
  rok_changes : remoteDtor r = RemoteDestroyed → pc (changePoller r) = PollDone }.

Lemma pollValue_flag messages : ∀ g calls, mShuttingDownFlag (pollValue tick messages g calls).1 = mShuttingDownFlag g.
Proof.
  assert (Hm : ∀ l g vs, mShuttingDownFlag (poll_message tick l g vs).1 = mShuttingDownFlag g).
  { induction l as [|v l IH]; intros g vs; cbn [poll_message]; [done|]. unfold setAndroidTimestamp.
    destruct (stampLocked _ _ _) as [m [v'|]]; by rewrite IH. }
  induction messages as [|m l IH]; intros g calls; cbn [pollValue]; [done|].
  specialize (Hm m g []). destruct (poll_message tick m g []) as [g' values].
  destruct values, (mOnPropChange g'); by rewrite IH.
Qed.

(** A step of a polling thread: that of [poll_step], and nothing else that the
    destructor looks at. *)
Definition polled (b : bool) r r' : Prop :=
  remoteDtor r' = remoteDtor r ∧ mShuttingDownFlag (client r') = mShuttingDownFlag (client r) ∧
  (if b then changePoller r' = changePoller r else valuePoller r' = valuePoller r) ∧
  let poller r := if b then valuePoller r else changePoller r in
  ∃ M stops (i : Input M) m, poll_step stops (mShuttingDownFlag (client r)) (mutex_held r) i (poller r) = Some (poller r', m).

Lemma remote_step_polled e r r' : remote_step tick e r = Some r' →
  match e with RDtor => remote_dtor_step r = Some r' | RValues _ => polled true r r' | RChanges _ => polled false r r' end.
Proof.
  destruct e as [|i|i]; cbn [remote_step]; [done|..].
  - destruct (poll_step _ _ _ i _) as [[t [m|]]|] eqn:E; [|intros [= <-]|done].
    + pose proof (pollValue_flag [m] (client r) (valueCalls r)) as Hf. destruct (pollValue _ _ _ _) as [g calls].
      intros [= <-]. split_and!; [done|done|done|]. by eexists _, _, i, _.
    + split_and!; [done|done|done|]. by eexists _, _, i, _.
  - destruct (poll_step _ _ _ i _) as [[t m]|] eqn:E; [intros [= <-]|done].
    split_and!; [done|done|done|]. by eexists _, _, i, _.
Qed.

Lemma remote_ok_new g : mShuttingDownFlag g = false → remote_ok (newRemote g).
Proof.
  intros Hg. split; cbn; [by rewrite Hg|done| |by intros [|]|done]. intros _. unfold tracked, in_poll, newPoller. cbn. naive_solver.
Qed.

Lemma tracked_cancelled t : tracked true t → context_valid t → context_valid (cancelContext t) ∧
  (pc t ≠ AtInsert → prompt (cancelContext t)).
Proof.
  unfold tracked, context_valid, prompt, cancelContext. intros (Hi & _ & Hf) Hv. destruct t as [x [] can st]; cbn in *.
  - split; [done|]. intros Hn. split_and!; auto.
  - assert (Hout : ¬ in_poll (mkPoller x false can st)) by (intros Hx; by apply Hi in Hx). unfold in_poll in Hout. cbn in Hout.
    split; [done|]. intros Hn. split_and!; [done|tauto|]. intros [Hx|Hx]; [tauto|auto].
Qed.

Lemma remote_ok_step e r r' : remote_step tick e r = Some r' → remote_ok r → remote_ok r'.
Proof.
  intros Hs%remote_step_polled Hok. pose proof Hok as [Of [Ov Oc] Ot Oj Ok].
  assert (Hl : before_cancel r → mShuttingDownFlag (client r) = true → mutex_held r = true).
  { intros Hb Hf. rewrite Of in Hf. by apply flag_locks. }
  unfold before_cancel in *. destruct e as [|i|i].
  - unfold remote_dtor_step in Hs. destruct (remoteDtor r) eqn:Hd; cbn in *; simplify_eq/=.
    + split; unfold begun, before_cancel; cbn; [by rewrite Of; unfold begun; rewrite Hd|done| |by intros [|]|done].
      intros _. apply Ot. by left.
    + split; unfold begun, before_cancel; cbn; [done|done| |by intros [|]|done].
      intros _. destruct Ot as [(?&?&?) (?&?&?)]; [tauto|]. split; split_and!; naive_solver.
    + destruct Ot as [Tv Tc]; [tauto|]. assert (Hf : mShuttingDownFlag (client r) = true).
      { rewrite Of. unfold begun. by rewrite Hd. }
      rewrite Hf in *. split; unfold begun, before_cancel; cbn; [done|split|naive_solver|by intros [|]|done];
        by apply tracked_cancelled.
    + destruct (decide _); [|done]. simplify_eq.
      split; unfold begun, before_cancel; cbn; [by rewrite Of; unfold begun; rewrite Hd|done|naive_solver|auto|done].
    + destruct (decide _); [|done]. simplify_eq.
      split; unfold begun, before_cancel; cbn; [by rewrite Of; unfold begun; rewrite Hd|done|naive_solver|auto|auto].
  - destruct Hs as (Hd & Hf & Hc & M & stops & i' & m & Hs).
    split; unfold begun, before_cancel; rewrite ?Hd, ?Hf, ?Hc in *; auto.
    + split; [exact (poll_valid _ _ _ _ _ _ _ Hs Ov)|done].
    + intros Hb. destruct (Ot Hb) as [Tv Tc]. split; [|done]. exact (poll_tracked _ _ _ _ _ _ _ (Hl Hb) Hs Tv).
    + intros Hj. apply Oj in Hj. rewrite poll_done in Hs by done. done.
  - destruct Hs as (Hd & Hf & Hc & M & stops & i' & m & Hs).
    split; unfold begun, before_cancel; rewrite ?Hd, ?Hf, ?Hc in *; auto.
    + split; [done|exact (poll_valid _ _ _ _ _ _ _ Hs Oc)].
    + intros Hb. destruct (Ot Hb) as [Tv Tc]. split; [done|]. exact (poll_tracked _ _ _ _ _ _ _ (Hl Hb) Hs Tc).
    + intros Hj. apply Ok in Hj. rewrite poll_done in Hs by done. done.
Qed.

Lemma remote_ok_run tr : ∀ r r', remote_run tick tr r = Some r' → remote_ok r → remote_ok r'.
Proof.
  induction tr as [|e tr IH]; intros r r'; cbn [remote_run]; [by intros [= <-]|].
  destruct (remote_step tick e r) as [r1|] eqn:E; [|done]. intros Hr Ok. by eapply IH, remote_ok_step.
Qed.

(** Under any interleaving of the polling threads, the server and the
    destructor: every context the destructor can cancel is that of a call of
    [pollValue] or [pollSupportedValuesChange] still running, none is left when
    the client is gone, and both threads have ended by then. *)
Theorem contexts_valid tr g r : mShuttingDownFlag g = false → remote_run tick tr (newRemote g) = Some r →
  (inserted (valuePoller r) = true → in_poll (valuePoller r)) ∧
  (inserted (changePoller r) = true → in_poll (changePoller r)) ∧
  (remoteDtor r = RemoteDestroyed → pc (valuePoller r) = PollDone ∧ pc (changePoller r) = PollDone ∧
     inserted (valuePoller r) = false ∧ inserted (changePoller r) = false).
Proof.
  intros Hg Hr. destruct (remote_ok_run _ _ _ Hr (remote_ok_new g Hg)) as [_ [Hv Hc] _ Hj Hk]. split_and!; [exact Hv|exact Hc|].
  intros Hd. assert (Hn : ∀ t, context_valid t → pc t = PollDone → inserted t = false).
  { intros t Ht Hp. destruct (inserted t) eqn:E; [|done]. destruct (Ht E) as [H|[H|H]]; congruence. }
  split_and!; auto.
Qed.

(** ** The destructor ends, unless a stream was opened too late *)

Inductive Thread : Type := TDtor | TValues | TChanges.
Definition who (e : RemoteEvent) : Thread :=
  match e with RDtor => TDtor | RValues _ => TValues | RChanges _ => TChanges end.

Definition remote_advance (e : RemoteEvent) r : Remote := match remote_step tick e r with Some r' => r' | None => r end.

Definition statements_left r : nat :=
  match remoteDtor r with Running => 5 | Locked => 4 | Flagged => 3 | ContextsCancelled => 2 | ValuesJoined => 1 | RemoteDestroyed => 0 end.
Definition joined_poller_rank r : nat :=
  match remoteDtor r with
  | ContextsCancelled => poll_rank (valuePoller r)
  | ValuesJoined => poll_rank (changePoller r)
  | _ => 0
  end.
Definition remote_awaited r : Thread :=
  match joined_poller_rank r, remoteDtor r with
  | O, _ => TDtor
  | S _, ContextsCancelled => TValues
  | S _, _ => TChanges
  end.

(** The destructor has begun and no thread was about to insert a context. *)
Record closing r : Prop := {
  cl_ok : remote_ok r;
  cl_begun : begun r = true;
  cl_insert : pc (valuePoller r) ≠ AtInsert ∧ pc (changePoller r) ≠ AtInsert;
  cl_prompt : remoteDtor r ≠ Flagged → prompt (valuePoller r) ∧ prompt (changePoller r) }.

Lemma closing_flag r : closing r → mShuttingDownFlag (client r) = true.
Proof. intros [Ok Hb _ _]. by rewrite (rok_flag r Ok). Qed.

Lemma closing_mutex r : begun r = true → remoteDtor r ≠ Flagged → mutex_held r = false.
Proof. intros Hb H. apply bool_decide_eq_false. unfold begun in Hb. by destruct (remoteDtor r); intros [|]. Qed.

(** A prompt thread keeps its promise whatever turn it gets. *)
Lemma prompt_step {M} stops (i : Input M) t t' m : poll_step stops true false i t = Some (t', m) → prompt t → prompt t'.
Proof.
  intros Hs Hp. destruct (decide (pc t = PollDone)) as [Hd|Hd]; [by rewrite poll_done in Hs|].
  destruct (poll_prompt stops i t Hp Hd) as (t1 & m1 & E & Hp1 & _). congruence.
Qed.

Lemma closing_step e r r' : remote_step tick e r = Some r' → closing r → closing r'.
Proof.
  intros Hs Hcl. pose proof (closing_flag r Hcl) as Hfl. destruct Hcl as [Ok Hb [Iv Ic] Hp].
  pose proof (remote_ok_step e r r' Hs Ok) as Ok'. apply remote_step_polled in Hs. destruct e as [|i|i].
  - unfold remote_dtor_step in Hs. destruct Ok as [_ [Ov Oc] Ot _ _]. rewrite Hfl in Ot. unfold before_cancel, begun in *.
    destruct (remoteDtor r) eqn:Hd; cbn in Hs; try done; [simplify_eq|destruct (decide _); [|done]; simplify_eq..].
    + destruct Ot as [Tv Tc]; [tauto|]. split; [done|done|cbn|intros _; cbn].
      * split; [by destruct (valuePoller r) as [? [] ? ?]|by destruct (changePoller r) as [? [] ? ?]].
      * by split; apply tracked_cancelled.
    + split; [done|done|done|auto].
    + split; [done|done|done|auto].
  - destruct Hs as (Hd & _ & Hc & M & stops & i' & m & Hs). rewrite Hfl in Hs.
    split; [done|by unfold begun; rewrite Hd|rewrite Hc; split; [by eapply poll_no_insert|done]|rewrite Hd, Hc].
    intros Hn. destruct (Hp Hn) as [Pv Pc]. rewrite (closing_mutex r Hb Hn) in Hs. split; [by eapply prompt_step|done].
  - destruct Hs as (Hd & _ & Hc & M & stops & i' & m & Hs). rewrite Hfl in Hs.
    split; [done|by unfold begun; rewrite Hd|rewrite Hc; split; [done|by eapply poll_no_insert]|rewrite Hd, Hc].
    intros Hn. destruct (Hp Hn) as [Pv Pc]. rewrite (closing_mutex r Hb Hn) in Hs. split; [done|by eapply prompt_step].
Qed.

Lemma closing_advance e r : closing r → closing (remote_advance e r).
Proof. intros Hc. unfold remote_advance. destruct (remote_step tick e r) eqn:E; [by eapply closing_step|done]. Qed.

(** The turn of the thread that is being joined. *)
Lemma values_turn i r : closing r → remoteDtor r ≠ Flagged → pc (valuePoller r) ≠ PollDone →
  ∃ r', remote_step tick (RValues i) r = Some r' ∧ poll_rank (valuePoller r') < poll_rank (valuePoller r).
Proof.
  intros Hcl Hn Hd. destruct (cl_prompt r Hcl Hn) as [Hp _]. cbn [remote_step]. rewrite (closing_flag r Hcl), (closing_mutex r (cl_begun r Hcl) Hn).
  destruct (poll_prompt (λ _, false) i _ Hp Hd) as (t & [m|] & -> & _ & Hr); [|by eexists].
  destruct (pollValue _ _ _ _). by eexists.
Qed.

Lemma changes_turn i r : closing r → remoteDtor r ≠ Flagged → pc (changePoller r) ≠ PollDone →
  ∃ r', remote_step tick (RChanges i) r = Some r' ∧ poll_rank (changePoller r') < poll_rank (changePoller r).
Proof.
  intros Hcl Hn Hd. destruct (cl_prompt r Hcl Hn) as [_ Hp]. cbn [remote_step]. rewrite (closing_flag r Hcl), (closing_mutex r (cl_begun r Hcl) Hn).
  destruct (poll_prompt is_unimplemented i _ Hp Hd) as (t & m & -> & _ & Hr). by eexists.
Qed.

Lemma poll_rank_zero t : poll_rank t = 0 ↔ pc t = PollDone.
Proof. unfold poll_rank. by destruct (pc t). Qed.

Notation brings_on := (progress who remote_awaited statements_left joined_poller_rank).

Lemma same_wait e r r' : remoteDtor r' = remoteDtor r → joined_poller_rank r' = joined_poller_rank r →
  who e ≠ remote_awaited r → brings_on e r r'.
Proof.
  intros Hd Hr Hw. right. unfold statements_left, remote_awaited. rewrite Hd, Hr. split; [done|]. right. by split_and!.
Qed.

Lemma joined_step e r r' : remoteDtor r' = remoteDtor r → joined_poller_rank r' < joined_poller_rank r → brings_on e r r'.
Proof. intros Hd Hr. right. unfold statements_left. rewrite Hd. auto. Qed.

Lemma closing_progress e r : closing r → remoteDtor r ≠ RemoteDestroyed → brings_on e r (remote_advance e r).
Proof.
  intros Hcl Hn. pose proof (cl_begun r Hcl) as Hb. unfold begun in Hb. unfold remote_advance. destruct e as [|i|i].
  - cbn [remote_step]. unfold remote_dtor_step. destruct (remoteDtor r) eqn:Hd; try done.
    + left. unfold statements_left. rewrite Hd. cbn. lia.
    + destruct (decide _) as [Hp|Hp]; [left; unfold statements_left; rewrite Hd; cbn; lia|]. apply same_wait; [done..|].
      unfold remote_awaited, joined_poller_rank. rewrite Hd. rewrite <- poll_rank_zero in Hp. by destruct (poll_rank _).
    + destruct (decide _) as [Hp|Hp]; [left; unfold statements_left; rewrite Hd; cbn; lia|]. apply same_wait; [done..|].
      unfold remote_awaited, joined_poller_rank. rewrite Hd. rewrite <- poll_rank_zero in Hp. by destruct (poll_rank _).
  - destruct (decide (remoteDtor r = ContextsCancelled ∧ pc (valuePoller r) ≠ PollDone)) as [[Hd Hp]|Hother].
    + destruct (values_turn i r Hcl) as (r' & E & Hr); [by rewrite Hd|done|]. rewrite E.
      apply remote_step_polled in E as (Hd' & _). apply joined_step; [done|]. unfold joined_poller_rank. by rewrite Hd', Hd.
    + assert (Hw : who (RValues i) ≠ remote_awaited r).
      { unfold remote_awaited, joined_poller_rank. destruct (remoteDtor r) eqn:Hd; try done; [|by destruct (poll_rank _)].
        destruct (poll_rank (valuePoller r)) eqn:Hr; [done|]. destruct Hother. split; [done|]. rewrite <- poll_rank_zero. lia. }
      destruct (remote_step tick (RValues i) r) as [r'|] eqn:E; [|by apply same_wait].
      apply remote_step_polled in E as (Hd' & _ & Hc & M & stops & i' & m & Hs). apply same_wait; [done| |done].
      unfold joined_poller_rank. rewrite Hd', Hc. destruct (remoteDtor r) eqn:Hd; try done.
      rewrite poll_done in Hs; [done|]. destruct (decide (pc (valuePoller r) = PollDone)); [done|]. by destruct Hother.
  - destruct (decide (remoteDtor r = ValuesJoined ∧ pc (changePoller r) ≠ PollDone)) as [[Hd Hp]|Hother].
    + destruct (changes_turn i r Hcl) as (r' & E & Hr); [by rewrite Hd|done|]. rewrite E.
      apply remote_step_polled in E as (Hd' & _). apply joined_step; [done|]. unfold joined_poller_rank. by rewrite Hd', Hd.
    + assert (Hw : who (RChanges i) ≠ remote_awaited r).
      { unfold remote_awaited, joined_poller_rank. destruct (remoteDtor r) eqn:Hd; try done; [by destruct (poll_rank _)|].
        destruct (poll_rank (changePoller r)) eqn:Hr; [done|]. destruct Hother. split; [done|]. rewrite <- poll_rank_zero. lia. }
      destruct (remote_step tick (RChanges i) r) as [r'|] eqn:E; [|by apply same_wait].
      apply remote_step_polled in E as (Hd' & _ & Hc & M & stops & i' & m & Hs). apply same_wait; [done| |done].
      unfold joined_poller_rank. rewrite Hd', Hc. destruct (remoteDtor r) eqn:Hd; try done.
      rewrite poll_done in Hs; [done|]. destruct (decide (pc (changePoller r) = PollDone)); [done|]. by destruct Hother.
Qed.

(** C23: If no polling thread had passed the test of the flag without having
    registered its context when the destructor, which holds the mutex, has set
    the flag, the destructor ends under every schedule that keeps giving turns to it and to the two
    threads, even when the server never ends a stream nor sends anything. *)
Theorem remote_destructor_terminates tr g r σ : mShuttingDownFlag g = false →
  remote_run tick tr (newRemote g) = Some r → remoteDtor r = Flagged →
  pc (valuePoller r) ≠ AtInsert → pc (changePoller r) ≠ AtInsert → fair who (λ _, True) σ →
  ∃ n, remoteDtor (after remote_advance σ n r) = RemoteDestroyed.
Proof.
  intros Hg Hr Hd Hv Hc Hf. assert (Hcl : closing r).
  { split; [by eapply remote_ok_run, remote_ok_new|unfold begun; by rewrite Hd|done|by rewrite Hd]. }
  destruct (fair_schedule_ends remote_advance who closing (λ r, remoteDtor r = RemoteDestroyed) remote_awaited statements_left
    joined_poller_rank closing_advance closing_progress (λ _, True)) with σ r as (n & Hn & _); [done..|]. by exists n.
Qed.

End remote_laws.

(** ** A stream opened too late *)

(** The value thread tests the flag; the destructor sets it and cancels the
    contexts; then the thread registers its own and opens the stream. *)
Definition late_stream : list RemoteEvent :=
  [RValues Silent; RDtor; RDtor; RDtor; RValues Silent; RValues Silent; RValues Silent; RChanges Silent].

Definition late_client : option Remote := remote_run (λ _, 0%Z) late_stream (newRemote newGrpc).

(** From then on nothing happens unless the server ends the stream: the thread
    waits in [Finish], and the destructor for the thread. *)
Definition ends_values (e : RemoteEvent) : bool := match e with RValues (Ended _) => true | _ => false end.

Example late_stream_hangs : ∃ r, late_client = Some r ∧ remoteDtor r = ContextsCancelled ∧ pc (valuePoller r) = InFinish ∧
  ∀ e, ends_values e = false → remote_step (λ _, 0%Z) e r = None.
Proof.
  eexists. split; [vm_compute; reflexivity|]. split; [done|]. split; [done|].
  by intros [|[|m|st]|i] He.
Qed.

Lemma contexts_valid_witness : ∃ r, remote_run (λ _, 0%Z) [RValues Silent; RValues Silent] (newRemote newGrpc) = Some r ∧
  inserted (valuePoller r) = true ∧ in_poll (valuePoller r).
Proof.
  eexists. split; [reflexivity|]. split; [reflexivity|].
  destruct (contexts_valid (λ _, 0%Z) [RValues Silent; RValues Silent] newGrpc _ eq_refl eq_refl) as (Hv & _).
  apply Hv. reflexivity.
Defined.

Definition remote_rotation (i : nat) : RemoteEvent :=
  match Nat.modulo i 3 with O => RDtor | S O => RValues Silent | _ => RChanges Silent end.

Lemma remote_rotation_fair : fair who (λ _, True) remote_rotation.
Proof.
  intros t _ i. unfold remote_rotation.
  destruct t; [exists (0 + i * 3)|exists (1 + i * 3)|exists (2 + i * 3)]; (split; [lia|rewrite rotation_mod by lia; done]).
Qed.

(** The value thread is reading when the destructor begins. *)
Lemma remote_destructor_terminates_witness : ∃ r,
  remote_run (λ _, 0%Z) [RValues Silent; RValues Silent; RValues Silent; RDtor; RDtor] (newRemote newGrpc) = Some r ∧
  pc (valuePoller r) = InRead ∧ ∃ n, remoteDtor (after (remote_advance (λ _, 0%Z)) remote_rotation n r) = RemoteDestroyed.
Proof.
  eexists. split; [reflexivity|]. split; [reflexivity|].
  apply (remote_destructor_terminates (λ _, 0%Z) [RValues Silent; RValues Silent; RValues Silent; RDtor; RDtor] newGrpc);
    [reflexivity|reflexivity|reflexivity|discriminate|discriminate|exact remote_rotation_fair].
Defined.
