(* ===== verification/ValueGenerators.v ===== *)
(** * Fake value generators

    Models [FakeValueGenerator], [LinearFakeValueGenerator] and
    [JsonFakeValueGenerator] of [fake_impl/GeneratorHub].  [nextEvent] takes
    the reading of the clock it may use; [None] is undefined behaviour (a
    signed overflow or a float outside the integer type).  The assertions of
    the code are not compiled in release builds. *)

From stdpp Require Import base gmap list strings.
From Stdlib Require Import ZArith Lia.
From S2P Require Import Prelude Float32 VehicleTypes VehicleProperty VehicleUtils.
From S2P Require Import Obd2SensorStore FakeObd2Frame JsonValue.

Local Open Scope Z_scope.

(** ** The interface *)

Class FakeValueGenerator (G : Type) := {
  nextEvent : Z → G → option (G * option VehiclePropValue)
}.

(** [steady t g]: the events of [g] do not go back before [t], nor later before
    one already produced. *)
Class SteadyGenerator (G : Type) `{FakeValueGenerator G} := {
  steady : Z → G → Prop;
  steady_next t now g g' ev : steady t g → t ≤ now → nextEvent now g = Some (g', Some ev) →
    t ≤ timestamp ev ∧ steady (timestamp ev) g';
}.

(** Signed 64-bit arithmetic: overflow is undefined. *)
Definition checked64 (z : Z) : option Z := if (- two63 <=? z) && (z <? two63) then Some z else None.

Lemma checked64_some z z' : checked64 z = Some z' → z' = z.
Proof. unfold checked64. destruct (_ && _); [by intros [= <-]|done]. Qed.

Lemma checked64_in z : - two63 ≤ z < two63 → checked64 z = Some z.
Proof. intros Hz. unfold checked64. destruct (Z.leb_spec (- two63) z), (Z.ltb_spec z two63); first [done|lia]. Qed.

(** ** LinearFakeValueGenerator *)

Record GeneratorCfg : Type := mkGeneratorCfg {
  gc_propId : Z;
  middleValue : f32;
  currentValue : f32;
  dispersion : f32;
  increment : f32;
  interval : Z;
  lastEventTimestamp : Z;
}.

Definition initGenCfg (propId : Z) (middle init disp incr : f32) (interval : Z) : GeneratorCfg :=
  let init := if f32_ltb init (f32_sub middle disp) || f32_leb (f32_add middle disp) init then middle else init in
  mkGeneratorCfg propId middle init disp incr interval 0.

(** From a request; its vectors are indexed unchecked. *)
Definition linearFromRequest (request : VehiclePropValue) : option GeneratorCfg :=
  let v := value request in
  match int32Values v, floatValues v, int64Values v with
  | _ :: propId :: _, middle :: disp :: incr :: _, interval :: _ =>
      Some (initGenCfg propId middle middle disp incr interval)
  | _, _, _ => None
  end.

(** The value of an event in the type of its property; no value for the other types. *)
Definition linearValue (propId : Z) (x : f32) : option RawPropValues :=
  let type := getPropType propId in
  if type =? VehiclePropertyType.INT32 then
    match f32_to_i32 x with Some z => Some (mkRaw [z] [] [] [] "") | None => None end
  else if type =? VehiclePropertyType.INT64 then
    match f32_to_i64 x with Some z => Some (mkRaw [] [] [z] [] "") | None => None end
  else if type =? VehiclePropertyType.FLOAT then Some (mkRaw [] [x] [] [] "")
  else Some emptyRaw.

Definition linear_nextEvent (now : Z) (g : GeneratorCfg) : option (GeneratorCfg * option VehiclePropValue) :=
  match linearValue (gc_propId g) (currentValue g) with
  | None => None
  | Some v =>
      match (if lastEventTimestamp g =? 0 then Some now else checked64 (lastEventTimestamp g + interval g)) with
      | None => None
      | Some t =>
          let x := f32_add (currentValue g) (increment g) in
          let x := if f32_leb (f32_add (middleValue g) (dispersion g)) x
                   then f32_sub x (f32_mul (f32_of_Z 2) (dispersion g)) else x in
          Some (mkGeneratorCfg (gc_propId g) (middleValue g) x (dispersion g) (increment g) (interval g) t,
                Some (mkPropValue t 0 (gc_propId g) VehiclePropertyStatus.AVAILABLE v))
      end
  end.

#[export] Instance linear_generator : FakeValueGenerator GeneratorCfg := {| nextEvent := linear_nextEvent |}.

(** ** JsonFakeValueGenerator *)

Definition isDiagnostic (p : Z) : bool := (p =? OBD2_LIVE_FRAME) || (p =? OBD2_FREEZE_FRAME).

Definition setBit (bytes : list Z) (idx : nat) : option (list Z) :=
  match bytes !! (idx / 8)%nat with
  | Some b => Some (<[(idx / 8)%nat := Z.lor b (Z.shiftl 1 (Z.of_nat (idx mod 8)))]> bytes)
  | None => None
  end.

(** Setting the bit [base + i] of every element [i] that is not zero. *)
Fixpoint setBits {A} (nonzero : A → bool) (base : nat) (l : list A) (bytes : list Z) : option (list Z) :=
  match l with
  | [] => Some bytes
  | x :: l' =>
      match (if nonzero x then setBit bytes base else Some bytes) with
      | Some bytes' => setBits nonzero (S base) l' bytes'
      | None => None
      end
  end.

Definition lastIntegerSensorIndex : nat := Z.to_nat (default 0 (getLastIndex DiagnosticIntegerSensorIndex.enum_range)).
Definition lastFloatSensorIndex : nat := Z.to_nat (default 0 (getLastIndex DiagnosticFloatSensorIndex.enum_range)).

Definition generateDiagnosticBytes (diagnosticValue : RawPropValues) : option (list Z) :=
  let byteSize := (lastIntegerSensorIndex + lastFloatSensorIndex + 2)%nat in
  let bytes := replicate ((byteSize + 7) / 8) 0 in
  match setBits (λ x, negb (x =? 0)) 0 (int32Values diagnosticValue) bytes with
  | Some bytes => setBits (λ x, f32_neqb x f32_zero) (lastIntegerSensorIndex + 1) (floatValues diagnosticValue) bytes
  | None => None
  end.

Section parse.
  Context {J : Type} `{!JsonValue J}.

(** [operator[](ArrayIndex)] throws on what is neither an array nor null, so a
    loop over the indices only reads an array. *)
Definition copyJsonArray {T} (as_ : J → option T) (jsonArray : J) : option (list T) :=
  if (size jsonArray =? 0)%nat then Some []
  else if isArray jsonArray then mapM (λ i, as_ (elementAt jsonArray i)) (seq 0 (size jsonArray))
  else None.

Definition copyMixedValueJson (jsonValue : J) : option RawPropValues :=
  if negb (isObject jsonValue) then None
  else
    i32 ← copyJsonArray asInt (member "int32Values" jsonValue);
    i64 ← copyJsonArray asInt64 (member "int64Values" jsonValue);
    f ← copyJsonArray asFloat (member "floatValues" jsonValue);
    s ← asString (member "stringValue" jsonValue);
    Some (mkRaw i32 f i64 [] s).

(** The value of one event: [None] an exception, [Some None] a type that is
    skipped. *)
Definition parseEventValue (p : Z) (v : J) : option (option RawPropValues) :=
  let type := getPropType p in
  if (type =? VehiclePropertyType.BOOLEAN) || (type =? VehiclePropertyType.INT32) then
    x ← asInt v; Some (Some (mkRaw [x] [] [] [] ""))
  else if type =? VehiclePropertyType.INT64 then x ← asInt64 v; Some (Some (mkRaw [] [] [x] [] ""))
  else if type =? VehiclePropertyType.FLOAT then x ← asFloat v; Some (Some (mkRaw [] [x] [] [] ""))
  else if type =? VehiclePropertyType.STRING then x ← asString v; Some (Some (mkRaw [] [] [] [] x))
  else if type =? VehiclePropertyType.INT32_VEC then l ← mapM asInt (iterate v); Some (Some (mkRaw l [] [] [] ""))
  else if type =? VehiclePropertyType.MIXED then
    r ← copyMixedValueJson v;
    if isDiagnostic p then
      bytes ← generateDiagnosticBytes r;
      Some (Some (mkRaw (int32Values r) (floatValues r) (int64Values r) bytes (stringValue r)))
    else Some (Some r)
  else Some None.

(** One raw event; skipped when it is not an object or a field is missing. *)
Definition parseEvent (rawEvent : J) : option (option VehiclePropValue) :=
  if negb (isObject rawEvent) then Some None
  else if empty (member "prop" rawEvent) || empty (member "areaId" rawEvent)
          || empty (member "value" rawEvent) || empty (member "timestamp" rawEvent) then Some None
  else
    t ← asInt64 (member "timestamp" rawEvent);
    a ← asInt (member "areaId" rawEvent);
    p ← asInt (member "prop" rawEvent);
    v ← parseEventValue p (member "value" rawEvent);
    Some (option_map (λ r, mkPropValue t a p VehiclePropertyStatus.AVAILABLE r) v).

(** [None] for the stream: it is not JSON. *)
Definition parseFakeValueJson (stream : option J) : option (list VehiclePropValue) :=
  match stream with
  | None => Some []
  | Some rawEvents =>
      if (size rawEvents =? 0)%nat then Some []
      else if isArray rawEvents then
        events ← mapM (λ i, parseEvent (elementAt rawEvents i)) (seq 0 (size rawEvents));
        Some (omap id events)
      else None
  end.
End parse.

Record JsonFakeValueGenerator : Type := mkJsonGenerator {
  mEventIndex : nat;
  mEvents : list VehiclePropValue;
  mLastEventTimestamp : Z;
  mNumOfIterations : Z;
}.

(** [initWithStream] *)
Definition newJsonGenerator (events : list VehiclePropValue) (iteration : Z) : JsonFakeValueGenerator :=
  mkJsonGenerator 0 events 0 iteration.

(** From a request: indefinitely when the number of iterations is not given.
    [file] is the parsed file of the name in [stringValue], [None] when it
    cannot be opened. *)
Definition jsonFromRequest (request : VehiclePropValue) (file : option (list VehiclePropValue)) : JsonFakeValueGenerator :=
  let numOfIterations := match int32Values (value request) with _ :: n :: _ => n | _ => -1 end in
  match file with
  | Some events => newJsonGenerator events numOfIterations
  | None => mkJsonGenerator 0 [] 0 0
  end.

(** The time of the next event, in an iteration or at the start of a new one. *)
Definition nextEventTime (g : JsonFakeValueGenerator) (event : VehiclePropValue) : option Z :=
  match mEventIndex g with
  | O => checked64 (mLastEventTimestamp g + 1000000)
  | S i =>
      match mEvents g !! i with
      | None => None
      | Some previous =>
          d ← checked64 (timestamp event - timestamp previous);
          checked64 (mLastEventTimestamp g + d)
      end
  end.

Definition json_nextEvent (now : Z) (g : JsonFakeValueGenerator) :
    option (JsonFakeValueGenerator * option VehiclePropValue) :=
  if (mNumOfIterations g =? 0) || (length (mEvents g) =? 0)%nat then Some (g, None)
  else
    match mEvents g !! mEventIndex g with
    | None => None
    | Some event =>
        match (if mLastEventTimestamp g =? 0 then Some now else nextEventTime g event) with
        | None => None
        | Some t =>
            let index := S (mEventIndex g) in
            let wrap := (index =? length (mEvents g))%nat in
            Some (mkJsonGenerator (if wrap then 0%nat else index) (mEvents g) t
                    (if wrap && (0 <? mNumOfIterations g) then mNumOfIterations g - 1 else mNumOfIterations g),
                  Some (set_timestamp t event))
        end
    end.

Definition hasNext (g : JsonFakeValueGenerator) : bool :=
  negb (mNumOfIterations g =? 0) && (0 <? length (mEvents g))%nat.

#[export] Instance json_generator : FakeValueGenerator JsonFakeValueGenerator := {| nextEvent := json_nextEvent |}.

(** ** Steady generators *)

Lemma linear_next_time now g g' ev : linear_nextEvent now g = Some (g', Some ev) →
  timestamp ev = lastEventTimestamp g' ∧ interval g' = interval g ∧
  lastEventTimestamp g' = (if lastEventTimestamp g =? 0 then now else lastEventTimestamp g + interval g).
Proof.
  unfold linear_nextEvent. destruct (linearValue _ _) as [v|]; [|done]. destruct (lastEventTimestamp g =? 0).
  - by intros [= <- <-].
  - destruct (checked64 _) as [t|] eqn:E; [|done]. apply checked64_some in E as ->. by intros [= <- <-].
Qed.

#[export] Instance linear_steady : SteadyGenerator GeneratorCfg.
Proof.
  refine {| steady := λ t g, 0 ≤ interval g ∧ (lastEventTimestamp g = 0 ∨ t ≤ lastEventTimestamp g) |}.
  intros t now g g' ev [Hi Hl] Ht (E1 & E2 & E3)%linear_next_time. rewrite E1, E2, E3.
  destruct (Z.eqb_spec (lastEventTimestamp g) 0); lia.
Defined.

(** The recorded times do not go back. *)
Definition recorded_in_order (events : list VehiclePropValue) : Prop :=
  ∀ i e1 e2, events !! i = Some e1 → events !! S i = Some e2 → timestamp e1 ≤ timestamp e2.

Lemma json_next_time now g g' ev : json_nextEvent now g = Some (g', Some ev) →
  timestamp ev = mLastEventTimestamp g' ∧ mEvents g' = mEvents g ∧
  (if mLastEventTimestamp g =? 0 then mLastEventTimestamp g' = now
   else recorded_in_order (mEvents g) → mLastEventTimestamp g ≤ mLastEventTimestamp g').
Proof.
  unfold json_nextEvent. destruct (_ || _); [done|]. destruct (mEvents g !! mEventIndex g) as [e|] eqn:He; [|done].
  destruct (mLastEventTimestamp g =? 0); [by intros [= <- <-]|].
  destruct (nextEventTime g e) as [t|] eqn:Ht; [|done]. intros [= <- <-]. split_and!; [done|done|]. intros Ho. cbn.
  unfold nextEventTime in Ht. destruct (mEventIndex g) as [|i].
  - apply checked64_some in Ht as ->. lia.
  - destruct (mEvents g !! i) as [p|] eqn:Hp; [|done]. destruct (checked64 (timestamp e - _)) as [d|] eqn:Hd; [|done].
    apply checked64_some in Hd as ->. cbn in Ht. apply checked64_some in Ht as ->. pose proof (Ho i p e Hp He). lia.
Qed.

#[export] Instance json_steady : SteadyGenerator JsonFakeValueGenerator.
Proof.
  refine {| steady := λ t g, recorded_in_order (mEvents g) ∧ (mLastEventTimestamp g = 0 ∨ t ≤ mLastEventTimestamp g) |}.
  intros t now g g' ev [Ho Hl] Ht (E1 & E2 & E3)%json_next_time. rewrite E1, E2.
  destruct (Z.eqb_spec (mLastEventTimestamp g) 0); [rewrite E3|specialize (E3 Ho)]; split; [lia| |lia|]; (split; [done|lia]).
Defined.

(** ** Replaying a recording *)

(** The next [m] events, fewer when the generator ends; [nows] are the readings
    of the clock. *)
Fixpoint produce {G} `{FakeValueGenerator G} (m : nat) (nows : nat → Z) (g : G) : option (G * list VehiclePropValue) :=
  match m with
  | O => Some (g, [])
  | S m' =>
      match nextEvent (nows 0%nat) g with
      | None => None
      | Some (g', None) => Some (g', [])
      | Some (g', Some ev) =>
          match produce m' (λ i, nows (S i)) g' with
          | None => None
          | Some (g'', l) => Some (g'', ev :: l)
          end
      end
  end.

Lemma produce_app {G} `{FakeValueGenerator G} m1 m2 : ∀ nows (g g' : G) l,
  produce m1 nows g = Some (g', l) → length l = m1 →
  produce (m1 + m2) nows g =
    match produce m2 (λ i, nows (m1 + i)%nat) g' with None => None | Some (g'', l') => Some (g'', l ++ l') end.
Proof.
  induction m1 as [|m1 IH]; intros nows g g' l; cbn [produce Nat.add].
  { intros [= <- <-] _. by destruct (produce m2 _ g) as [[]|]. }
  destruct (nextEvent (nows 0%nat) g) as [[g1 [ev|]]|]; [|by intros [= <- <-]|done].
  destruct (produce m1 (λ i, nows (S i)) g1) as [[g2 l2]|] eqn:E; [|done]. intros [= <- <-] [= Hl].
  rewrite (IH _ _ _ _ E Hl). cbn. by destruct (produce m2 _ g2) as [[]|].
Qed.

Section replay.
  Context (events : list VehiclePropValue) (first : VehiclePropValue) (rest : list VehiclePropValue).
  Context (Hevents : events = first :: rest) (Horder : recorded_in_order events).
  Context (Hrange : Forall (λ e, 0 ≤ timestamp e < two63) events).

(** An event replayed in a pass that starts at [t]. *)
Definition at_pass (t : Z) (e : VehiclePropValue) : VehiclePropValue := set_timestamp (t + (timestamp e - timestamp first)) e.
Definition last_event : VehiclePropValue := default first (events !! (length events - 1)%nat).
Definition span : Z := timestamp last_event - timestamp first.

Lemma range_at i e : events !! i = Some e → 0 ≤ timestamp e < two63.
Proof. intros He. rewrite Forall_forall in Hrange. apply Hrange, list_elem_of_lookup. by exists i. Qed.

Lemma after_first i e : events !! i = Some e → timestamp first ≤ timestamp e.
Proof.
  revert e. induction i as [|i IH]; intros e He; [by rewrite Hevents in He; injection He as ->|].
  destruct (events !! i) as [p|] eqn:Hp.
  - etrans; [by apply IH|]. by apply (Horder i).
  - apply lookup_lt_Some in He. apply lookup_ge_None in Hp. lia.
Qed.

Lemma last_at : events !! (length events - 1)%nat = Some last_event.
Proof.
  unfold last_event. destruct (events !! (length events - 1)%nat) eqn:E; [done|].
  apply lookup_ge_None in E. rewrite Hevents in E. cbn in E. lia.
Qed.

Lemma before_last i e : events !! i = Some e → timestamp e ≤ timestamp last_event.
Proof.
  assert (Hgen : ∀ k, events !! (length events - 1 - k)%nat = None ∨
     ∀ e, events !! (length events - 1 - k)%nat = Some e → timestamp e ≤ timestamp last_event).
  { induction k as [|k IH]; right; intros x Hx.
    - rewrite Nat.sub_0_r, last_at in Hx. by injection Hx as ->.
    - destruct (decide (k < length events - 1)%nat) as [Hk|Hk].
      + destruct (events !! (length events - 1 - k)%nat) as [y|] eqn:Hy.
        * transitivity (timestamp y); [|destruct IH as [|IH]; [done|by apply IH]].
          apply (Horder (length events - 1 - S k)%nat); [done|].
          replace (S (length events - 1 - S k))%nat with (length events - 1 - k)%nat by lia. done.
        * apply lookup_ge_None in Hy. lia.
      + replace (length events - 1 - S k)%nat with (length events - 1 - k)%nat in Hx by lia.
        destruct IH as [IH|IH]; [by rewrite IH in Hx|by apply IH]. }
  intros He. pose proof (lookup_lt_Some _ _ _ He) as Hi.
  destruct (Hgen (length events - 1 - i)%nat) as [Hn|Hs];
    replace (length events - 1 - (length events - 1 - i))%nat with i in * by lia; [by rewrite Hn in He|by apply Hs].
Qed.

Lemma span_nonneg : 0 ≤ span.
Proof. unfold span. pose proof (before_last 0 first). rewrite Hevents in *. specialize (H eq_refl). lia. Qed.

(** One event inside a pass. *)
Lemma replay_one t n now i p e : n ≠ 0 → 0 < t → t + span < two63 →
  events !! i = Some p → events !! S i = Some e →
  json_nextEvent now (mkJsonGenerator (S i) events (t + (timestamp p - timestamp first)) n)
  = Some (mkJsonGenerator (if (S (S i) =? length events)%nat then 0%nat else S (S i)) events (t + (timestamp e - timestamp first))
            (if (S (S i) =? length events)%nat && (0 <? n) then n - 1 else n), Some (at_pass t e)).
Proof.
  intros Hn Ht Hb Hp He. unfold json_nextEvent. cbn [mNumOfIterations mEvents mEventIndex mLastEventTimestamp].
  assert (n =? 0 = false) as -> by by apply Z.eqb_neq.
  assert ((length events =? 0)%nat = false) as -> by (apply Nat.eqb_neq; rewrite Hevents; done). cbn [orb].
  rewrite He. pose proof (after_first i p Hp). pose proof (after_first (S i) e He). pose proof (before_last _ _ Hp).
  pose proof (before_last _ _ He). pose proof (Horder _ _ _ Hp He). pose proof (range_at _ _ Hp). pose proof (range_at _ _ He).
  unfold span in Hb. assert (t + (timestamp p - timestamp first) =? 0 = false) as -> by (apply Z.eqb_neq; lia).
  unfold nextEventTime. cbn [mEventIndex mEvents mLastEventTimestamp]. rewrite Hp.
  rewrite checked64_in by (unfold two63 in *; lia). cbn [mbind option_bind].
  rewrite checked64_in by (unfold two63 in *; lia).
  replace (t + (timestamp p - timestamp first) + (timestamp e - timestamp p)) with (t + (timestamp e - timestamp first)) by lia.
  done.
Qed.

Definition used (n : Z) : Z := if 0 <? n then n - 1 else n.

(** From inside a pass to its end. *)
Lemma replay_rest t n : n ≠ 0 → 0 < t → t + span < two63 → ∀ m i p nows,
  events !! i = Some p → (S i < length events)%nat → m = (length events - S i)%nat →
  produce m nows (mkJsonGenerator (S i) events (t + (timestamp p - timestamp first)) n)
  = Some (mkJsonGenerator 0 events (t + span) (used n), at_pass t <$> drop (S i) events).
Proof.
  intros Hn Ht Hb. induction m as [|m IH]; intros i p nows Hp Hi Hm; [lia|]. cbn [produce nextEvent json_generator].
  destruct (lookup_lt_is_Some_2 events (S i) Hi) as [e He]. rewrite (replay_one t n _ i p e Hn Ht Hb Hp He).
  rewrite (drop_S _ _ _ He). destruct (Nat.eqb_spec (S (S i)) (length events)) as [Hl|Hl]; cbn [andb].
  - assert (m = 0)%nat as -> by lia. cbn [produce]. rewrite drop_ge by lia. cbn. unfold span.
    pose proof last_at as Hlast. rewrite <- Hl in Hlast. cbn in Hlast. rewrite ?Nat.sub_0_r, He in Hlast. by injection Hlast as <-.
  - rewrite (IH (S i) e) by (done || lia). done.
Qed.

(** A whole pass: it starts at [t], the clock's reading for the first, one
    millisecond after the end of the previous one for the others. *)
Lemma replay_pass t n L nows : n ≠ 0 → 0 < t → t + span < two63 → (if L =? 0 then t = nows 0%nat else t = L + 1000000) →
  produce (length events) nows (mkJsonGenerator 0 events L n)
  = Some (mkJsonGenerator 0 events (t + span) (used n), at_pass t <$> events).
Proof.
  intros Hn Ht Hb Hstart. pose proof span_nonneg as Hs. rewrite Hevents at 1. cbn [length produce nextEvent json_generator].
  unfold json_nextEvent. cbn [mNumOfIterations mEvents mEventIndex mLastEventTimestamp].
  assert (n =? 0 = false) as -> by by apply Z.eqb_neq.
  assert ((length events =? 0)%nat = false) as -> by (apply Nat.eqb_neq; rewrite Hevents; done). cbn [orb].
  assert (H0 : events !! 0%nat = Some first) by (by rewrite Hevents). rewrite H0.
  assert ((if L =? 0 then Some (nows 0%nat) else nextEventTime (mkJsonGenerator 0 events L n) first) = Some t) as ->.
  { destruct (L =? 0); [by rewrite Hstart|]. unfold nextEventTime. cbn. rewrite Hstart in *.
    apply checked64_in. unfold two63 in *. lia. }
  destruct (Nat.eqb_spec 1 (length events)) as [Hl|Hl]; cbn [andb].
  - assert (Hrest : rest = []) by (rewrite Hevents in Hl; destruct rest; [done|cbn in Hl; lia]).
    assert (Hsp : span = 0).
    { unfold span. pose proof last_at as Hlast. rewrite <- Hl in Hlast. cbn in Hlast. rewrite H0 in Hlast.
      injection Hlast as <-. lia. }
    rewrite Hrest, Hevents, Hrest, Hsp, Z.add_0_r. cbn. unfold at_pass. by rewrite Z.sub_diag, Z.add_0_r.
  - pose proof (replay_rest t n Hn Ht Hb (length rest) 0 first (λ i, nows (S i)) H0) as Hrest.
    rewrite Z.sub_diag, Z.add_0_r in Hrest. rewrite Hrest; [|rewrite Hevents in *; cbn in *; lia..].
    rewrite Hevents. cbn. unfold at_pass at 2. by rewrite Z.sub_diag, Z.add_0_r.
Qed.

(** The events of [N] passes from [t] on. *)
Definition passes (N : nat) (t : Z) : list VehiclePropValue :=
  concat ((λ q, at_pass (t + Z.of_nat q * (span + 1000000)) <$> events) <$> seq 0 N).

Lemma passes_S N t : passes (S N) t = (at_pass t <$> events) ++ passes N (t + (span + 1000000)).
Proof.
  unfold passes. cbn [seq fmap list_fmap concat]. f_equal; [by rewrite Z.add_0_r|].
  rewrite <- fmap_S_seq, <- list_fmap_compose. f_equal. apply list_fmap_ext. intros i q _. cbn [compose]. unfold compose.
  do 2 f_equal. lia.
Qed.

Lemma replay_passes N : ∀ t n L nows, n < 0 ∨ Z.of_nat N ≤ n → 0 < t → t + Z.of_nat N * (span + 1000000) < two63 →
  (if L =? 0 then t = nows 0%nat else t = L + 1000000) →
  ∃ L', produce (N * length events) nows (mkJsonGenerator 0 events L n)
        = Some (mkJsonGenerator 0 events L' (if n <? 0 then n else n - Z.of_nat N), passes N t).
Proof.
  pose proof span_nonneg as Hs. induction N as [|N IH]; intros t n L nows Hn Ht Hb Hstart.
  { exists L. cbn. destruct (n <? 0); [done|]. by rewrite Z.sub_0_r. }
  cbn [Nat.mul]. assert (Hpass : t + span < two63) by nia.
  pose proof (replay_pass t n L nows) as Hp. rewrite (produce_app _ _ _ _ _ _ (Hp ltac:(lia) Ht Hpass Hstart)) by apply length_fmap.
  destruct (IH (t + (span + 1000000)) (used n) (t + span) (λ i, nows (length events + i)%nat)) as [L' E].
  - unfold used. destruct (Z.ltb_spec 0 n); lia.
  - lia.
  - lia.
  - assert (t + span =? 0 = false) as -> by (apply Z.eqb_neq; lia). lia.
  - rewrite E, passes_S. exists L'. do 3 f_equal. unfold used.
    destruct (Z.ltb_spec 0 n), (Z.ltb_spec n 0), (Z.ltb_spec (n - 1) 0); lia.
Qed.
End replay.

(** A recording is replayed as it was made: asked for [N] iterations, the
    generator produces exactly [N] times the recorded events, in order, the
    first at the time of the first call, each next one after the recorded
    delay, a new iteration one millisecond after the last event of the one
    before; then it ends and stays ended.  Asked for a negative number it
    produces the same events and never ends. *)
Theorem recording_is_replayed first rest N nows :
  let events := first :: rest in
  recorded_in_order events → Forall (λ e, 0 ≤ timestamp e < two63) events →
  0 < nows 0%nat → nows 0%nat + Z.of_nat N * (span events first + 1000000) < two63 →
  (∃ g', produce (N * length events) nows (newJsonGenerator events (Z.of_nat N)) = Some (g', passes events first N (nows 0%nat)) ∧
     hasNext g' = false ∧ ∀ now, nextEvent now g' = Some (g', None)) ∧
  (∀ n, n < 0 → ∃ g', produce (N * length events) nows (newJsonGenerator events n) = Some (g', passes events first N (nows 0%nat)) ∧
     hasNext g' = true).
Proof.
  intros events Ho Hr Hnow Hb. split.
  - destruct (replay_passes events first rest eq_refl Ho Hr N (nows 0%nat) (Z.of_nat N) 0 nows) as [L' E]; [lia|done..|].
    eexists. split; [exact E|]. assert (Z.of_nat N <? 0 = false) as -> by (apply Z.ltb_ge; lia). rewrite Z.sub_diag. by split.
  - intros n Hn. destruct (replay_passes events first rest eq_refl Ho Hr N (nows 0%nat) n 0 nows) as [L' E]; [by left|done..|].
    eexists. split; [exact E|]. unfold hasNext. cbn. destruct (n <? 0) eqn:Hneg; [|apply Z.ltb_ge in Hneg; lia].
    assert (n =? 0 = false) as -> by (apply Z.eqb_neq; lia). done.
Qed.

Definition example_recorded (t x : Z) : VehiclePropValue :=
  mkPropValue t 0 VehicleProperty.PERF_VEHICLE_SPEED 0 (mkRaw [] [f32_of_Z x] [] [] "").

Lemma recording_is_replayed_witness : ∃ g',
  produce 4 (λ _, 5000000000) (newJsonGenerator [example_recorded 100 1; example_recorded 700 2] 2)
    = Some (g', [example_recorded 5000000000 1; example_recorded 5000000600 2;
                 example_recorded 5001000600 1; example_recorded 5001001200 2]) ∧ hasNext g' = false.
Proof.
  destruct (recording_is_replayed (example_recorded 100 1) [example_recorded 700 2] 2 (λ _, 5000000000)) as [(g' & E & Hn & _) _].
  - intros [|[|i]] e1 e2 H1 H2; [injection H1 as <-; injection H2 as <-; cbn; lia|discriminate H2|discriminate H2].
  - repeat constructor; cbn; unfold two63; lia.
  - lia.
  - reflexivity.
  - exists g'. split; [exact E|exact Hn].
Defined.
