(* ===== verification/GeneratorHub.v ===== *)
(** * GeneratorHub: the scheduler of the event generators

    Models [fake_impl/GeneratorHub/src/GeneratorHub.cpp]: the priority queue of
    pending events, the map of generators and the thread that delivers, as a
    step relation in real time.  A section that holds the lock is one step; a
    step is labelled with the times at which it reads the clock.  The priority
    queue is a multiset of which the top is any event of the least timestamp.
    The thread sleeps while it holds a reference to the top of the queue; a
    push meanwhile may move the events, and the code then relies on being
    woken, so a sleep that ends takes the top again. *)

From stdpp Require Import base gmap list strings.
From Stdlib Require Import ZArith Lia.
From S2P Require Import Prelude Float32 VehicleTypes VehicleProperty VehicleUtils ValueGenerators.

Local Open Scope Z_scope.

Section hub.
  Context {G : Type} `{!FakeValueGenerator G}.

Record VhalEvent : Type := mkVhalEvent { generatorId : Z; val : VehiclePropValue }.

Definition time (e : VhalEvent) : Z := timestamp (val e).

(** Where the thread is. *)
Inductive Thread : Type :=
| LoopTop
| WaitingForEvent                    (* [mCond.wait] *)
| Sleeping (until : Z)               (* [mCond.wait_for] *)
| Exited.

Record GeneratorHub : Type := mkHub {
  mEventQueue : list VhalEvent;
  mGenerators : gmap Z G;
  mShuttingDownFlag : bool;
  mThread : Thread;
  delivered : list (Z * VhalEvent);  (* calls of [mOnHalEvent], each with its time *)
}.

Definition newHub : GeneratorHub := mkHub [] ∅ false LoopTop [].

Definition is_top (q : list VhalEvent) (e : VhalEvent) : Prop := e ∈ q ∧ ∀ e', e' ∈ q → time e ≤ time e'.

(** Popping events whose generator does not exist. *)
Inductive purge (gens : gmap Z G) : list VhalEvent → list VhalEvent → Prop :=
| purge_empty : purge gens [] []
| purge_stop q e : is_top q e → is_Some (gens !! generatorId e) → purge gens q q
| purge_pop q q1 q2 e : is_top q e → gens !! generatorId e = None → q ≡ₚ e :: q1 → purge gens q1 q2 → purge gens q q2.

(** Handling the top event at [now]; the generator reads the clock at [t]. *)
Inductive handle (now t : Z) (h : GeneratorHub) : GeneratorHub → Prop :=
| handle_next e q g g' ev : is_top (mEventQueue h) e → mEventQueue h ≡ₚ e :: q → mGenerators h !! generatorId e = Some g →
    nextEvent t g = Some (g', Some ev) →
    handle now t h (mkHub (mkVhalEvent (generatorId e) ev :: q) (<[generatorId e := g']> (mGenerators h))
                      (mShuttingDownFlag h) LoopTop (delivered h ++ [(now, e)]))
| handle_last e q g g' : is_top (mEventQueue h) e → mEventQueue h ≡ₚ e :: q → mGenerators h !! generatorId e = Some g →
    nextEvent t g = Some (g', None) →
    handle now t h (mkHub q (delete (generatorId e) (mGenerators h)) (mShuttingDownFlag h) LoopTop (delivered h ++ [(now, e)]))
| handle_gone e q : is_top (mEventQueue h) e → mEventQueue h ≡ₚ e :: q → mGenerators h !! generatorId e = None →
    handle now t h (mkHub q (delete (generatorId e) (mGenerators h)) (mShuttingDownFlag h) LoopTop (delivered h ++ [(now, e)])).

Definition at_thread (p : Thread) (h : GeneratorHub) : GeneratorHub :=
  mkHub (mEventQueue h) (mGenerators h) (mShuttingDownFlag h) p (delivered h).
Definition with_queue (q : list VhalEvent) (h : GeneratorHub) : GeneratorHub :=
  mkHub q (mGenerators h) (mShuttingDownFlag h) (mThread h) (delivered h).

(** The rest of the loop body once the queue is not empty or the hub shuts
    down. *)
Inductive proceed (now t : Z) (h : GeneratorHub) : GeneratorHub → Prop :=
| proceed_exit : mShuttingDownFlag h = true → proceed now t h (at_thread Exited h)
| proceed_sleep e : mShuttingDownFlag h = false → is_top (mEventQueue h) e → now < time e →
    proceed now t h (at_thread (Sleeping (time e)) h)
| proceed_handle e h' : mShuttingDownFlag h = false → is_top (mEventQueue h) e → time e ≤ now →
    handle now t h h' → proceed now t h h'.

Inductive Action : Type :=
| Register (id : Z) (g : G)
| Unregister (id : Z)
| ShutDown
| Run.

(** [registerGenerator] *)
Definition registered (id : Z) (g : G) (ev : VehiclePropValue) (h : GeneratorHub) : GeneratorHub :=
  mkHub (match mGenerators h !! id with None => mkVhalEvent id ev :: mEventQueue h | Some _ => mEventQueue h end)
    (<[id := g]> (mGenerators h)) (mShuttingDownFlag h) (mThread h) (delivered h).

(** [unregisterGenerator] *)
Definition unregisterGenerator (id : Z) (h : GeneratorHub) : GeneratorHub * bool :=
  (mkHub (mEventQueue h) (delete id (mGenerators h)) (mShuttingDownFlag h) (mThread h) (delivered h),
   bool_decide (is_Some (mGenerators h !! id))).

Definition shutDown (h : GeneratorHub) : GeneratorHub :=
  mkHub (mEventQueue h) (mGenerators h) true (mThread h) (delivered h).

Inductive hub_step (now t : Z) (h : GeneratorHub) : Action → GeneratorHub → Prop :=
| step_register id g g' ev : nextEvent t g = Some (g', Some ev) → hub_step now t h (Register id g) (registered id g' ev h)
| step_register_empty id g g' : nextEvent t g = Some (g', None) → hub_step now t h (Register id g) h
| step_unregister id : hub_step now t h (Unregister id) (fst (unregisterGenerator id h))
| step_shutdown : hub_step now t h ShutDown (shutDown h)
| step_exit : mThread h = LoopTop → mShuttingDownFlag h = true → hub_step now t h Run (at_thread Exited h)
| step_wait q : mThread h = LoopTop → purge (mGenerators h) (mEventQueue h) q → q = [] → mShuttingDownFlag h = false →
    hub_step now t h Run (at_thread WaitingForEvent (with_queue q h))
| step_go q h' : mThread h = LoopTop → purge (mGenerators h) (mEventQueue h) q → q ≠ [] ∨ mShuttingDownFlag h = true →
    proceed now t (with_queue q h) h' → hub_step now t h Run h'
| step_woken h' : mThread h = WaitingForEvent → mEventQueue h ≠ [] ∨ mShuttingDownFlag h = true → proceed now t h h' →
    hub_step now t h Run h'
| step_notified u : mThread h = Sleeping u → hub_step now t h Run (at_thread LoopTop h)
| step_timeout u h' : mThread h = Sleeping u → u ≤ now → handle now t h h' → hub_step now t h Run h'.

(** Executions in real time, of the actions [allowed] lets happen: [T] is the
    time of the last clock reading. *)
Inductive reach (allowed : Z → GeneratorHub → Action → Prop) : Z → GeneratorHub → Prop :=
| reach_new T : reach allowed T newHub
| reach_step T now t h a h' : reach allowed T h → T ≤ now → now ≤ t → allowed t h a → hub_step now t h a h' →
    reach allowed t h'.

(** ** The queue under the steps *)

Lemma is_top_nonempty q e : is_top q e → q ≠ [].
Proof. intros [He _] ->. by apply elem_of_nil in He. Qed.

Lemma purge_subset gens q q' : purge gens q q' → ∀ e, e ∈ q' → e ∈ q.
Proof.
  induction 1 as [|q e Ht Hl|q q1 q2 e Ht Hl Hp Hpurge IH]; [done|done|]. intros x Hx. rewrite Hp. right. by apply IH.
Qed.

Lemma purge_live gens q q' : purge gens q q' → ∀ e, e ∈ q → is_Some (gens !! generatorId e) → e ∈ q'.
Proof.
  induction 1 as [|q e Ht Hl|q q1 q2 e Ht Hl Hp Hpurge IH]; [done|done|]. intros x Hx Hlive. apply IH; [|done].
  rewrite Hp in Hx. apply elem_of_cons in Hx as [->|]; [|done]. rewrite Hl in Hlive. by destruct Hlive.
Qed.

Lemma purge_sublist gens q q' : purge gens q q' → ∃ dead, q ≡ₚ dead ++ q'.
Proof.
  induction 1 as [|q e Ht Hl|q q1 q2 e Ht Hl Hp Hpurge [dead IH]]; [by exists []|by exists []|].
  exists (e :: dead). rewrite Hp, IH. done.
Qed.
Lemma top_of q : q ≠ [] → ∃ e, is_top q e.
Proof.
  induction q as [|x q IH]; [done|]. intros _. destruct q as [|y q].
  { exists x. split; [by left|]. by intros e' ->%list_elem_of_singleton. }
  destruct (IH ltac:(done)) as (e & He & Hmin). destruct (Z.leb_spec (time x) (time e)) as [Hx|Hx].
  - exists x. split; [by left|]. intros e' [->|He']%elem_of_cons; [lia|]. specialize (Hmin e' He'). lia.
  - exists e. split; [by right|]. intros e' [->|He']%elem_of_cons; [lia|by apply Hmin].
Qed.

(** The purge ends. *)
Lemma purge_total gens q : ∃ q', purge gens q q'.
Proof.
  remember (length q) as n eqn:Hn. revert q Hn. induction n as [|n IH]; intros q Hn.
  { apply symmetry, nil_length_inv in Hn as ->. exists []. constructor. }
  assert (Hne : q ≠ []) by by intros ->. destruct (top_of q Hne) as [e Ht].
  destruct (gens !! generatorId e) as [g|] eqn:Hg; [exists q; by eapply purge_stop|].
  destruct (proj1 (elem_of_Permutation q e)) as [q1 Hq1]; [by apply Ht|].
  destruct (IH q1) as [q2 H2]; [rewrite Hq1 in Hn; by injection Hn|]. exists q2. by eapply purge_pop.
Qed.

(** ** What every step preserves *)

Definition has_pending (h : GeneratorHub) (id : Z) : Prop := ∃ e, e ∈ mEventQueue h ∧ generatorId e = id.

Record hub_inv (T : Z) (h : GeneratorHub) : Prop := mkInv {
  inv_pending : ∀ id, is_Some (mGenerators h !! id) → has_pending h id;
  inv_on_time : ∀ n e, (n, e) ∈ delivered h → time e ≤ n ∧ n ≤ T;
  inv_sleep : ∀ u, mThread h = Sleeping u → ∃ e, e ∈ mEventQueue h ∧ time e ≤ u;
  inv_exit : mThread h = Exited → mShuttingDownFlag h = true;
}.

Lemma inv_later T T' h : T ≤ T' → hub_inv T h → hub_inv T' h.
Proof. intros HT [Hp Ho Hs He]. split; [done| |done|done]. intros n e Hd. destruct (Ho n e Hd). lia. Qed.

Lemma inv_purged T h q : hub_inv T h → mThread h = LoopTop → purge (mGenerators h) (mEventQueue h) q →
  hub_inv T (with_queue q h).
Proof.
  intros [Hp Ho Hs He] Hl Hq. split; cbn; [|done|by rewrite Hl|by rewrite Hl].
  intros id Hid. destruct (Hp id Hid) as (e & Hin & <-). exists e. split; [|done]. by eapply purge_live.
Qed.

Lemma top_least q e e' : is_top q e → e' ∈ q → time e ≤ time e'.
Proof. intros [_ H]. apply H. Qed.

Lemma other_pending h e q id : mEventQueue h ≡ₚ e :: q → has_pending h id → id ≠ generatorId e → ∃ e', e' ∈ q ∧ generatorId e' = id.
Proof.
  intros Hq (e' & Hin & <-) Hne. exists e'. split; [|done]. rewrite Hq in Hin. apply elem_of_cons in Hin as [->|]; done.
Qed.

Lemma on_time_app T T' l now e : T ≤ T' → now ≤ T' → time e ≤ now → (∀ n e', (n, e') ∈ l → time e' ≤ n ∧ n ≤ T) →
  ∀ n e', (n, e') ∈ l ++ [(now, e)] → time e' ≤ n ∧ n ≤ T'.
Proof.
  intros HT Hn He Ho n e' [Hin|Hin]%elem_of_app; [destruct (Ho n e' Hin); lia|].
  apply list_elem_of_singleton in Hin as [= -> ->]. lia.
Qed.

Lemma inv_handle T now t h h' : T ≤ now → now ≤ t → (∀ e, is_top (mEventQueue h) e → time e ≤ now) →
  hub_inv T h → handle now t h h' → hub_inv t h'.
Proof.
  intros HT Hn Hdue [Hp Ho Hs He] Hh. destruct Hh as [e q g g' ev Ht Hq Hg Hnx|e q g g' Ht Hq Hg Hnx|e q Ht Hq Hg];
    (split; cbn; [|eapply on_time_app; [| |by apply Hdue|exact Ho]; lia|done|done]); intros id Hid.
  - destruct (decide (id = generatorId e)) as [->|Hne]; [eexists; split; [by left|done]|].
    rewrite lookup_insert_ne in Hid by done. destruct (other_pending h e q id Hq (Hp id Hid) Hne) as (e' & Hin & <-).
    exists e'. split; [by right|done].
  - apply lookup_delete_is_Some in Hid as [Hne Hid]. by apply (other_pending h e q id Hq (Hp id Hid)).
  - apply lookup_delete_is_Some in Hid as [Hne Hid]. by apply (other_pending h e q id Hq (Hp id Hid)).
Qed.

Lemma inv_proceed T now t h h' : T ≤ now → now ≤ t → hub_inv T h → proceed now t h h' → hub_inv t h'.
Proof.
  intros HT Hn Hi [Hd|e Hd Ht Hlt|e h'' Hd Ht Hle Hh].
  - apply (inv_later T t) in Hi as [Hp Ho Hs He]; [|lia]. by split.
  - apply (inv_later T t) in Hi as [Hp Ho Hs He]; [|lia]. split; cbn; [done|done| |done].
    intros u [= <-]. exists e. split; [by apply Ht|lia].
  - apply (inv_handle T now t h); [done|done| |done|done]. intros e' He'. etrans; [|exact Hle].
    apply (top_least (mEventQueue h)); [done|by apply Ht].
Qed.

Lemma hub_inv_step T now t h a h' : T ≤ now → now ≤ t → hub_inv T h → hub_step now t h a h' → hub_inv t h'.
Proof.
  intros HT Hn Hi Hs. pose proof (inv_later T t h ltac:(lia) Hi) as [Hp Ho Hsl He].
  destruct Hs as [id g g' ev Hg|id g g' Hg|id| |Hl Hd|q Hl Hq -> Hd|q h' Hl Hq Hne Hpr|h' Hl Hne Hpr|u Hl|u h' Hl Hu Hh].
  - split; cbn; [|done| |done].
    + intros id' Hid'. unfold has_pending. cbn. destruct (decide (id' = id)) as [->|Hne].
      * destruct (mGenerators h !! id) eqn:E; [apply Hp; by rewrite E|]. eexists; split; [by left|done].
      * rewrite lookup_insert_ne in Hid' by done. destruct (Hp id' Hid') as (e & Hin & <-). exists e.
        split; [|done]. destruct (mGenerators h !! id); [done|by right].
    + intros u Hu. destruct (Hsl u Hu) as (e & Hin & Hle). exists e. split; [|done].
      destruct (mGenerators h !! id); [done|by right].
  - by split.
  - split; cbn; [|done|done|done]. intros id' [_ Hid']%lookup_delete_is_Some. by apply Hp.
  - by split.
  - by split.
  - apply (inv_purged t h []) in Hl as [Hp' _ _ _]; [|by split|done]. by split.
  - eapply (inv_proceed T); [done|done|by apply (inv_purged T h q)|done].
  - by eapply (inv_proceed T).
  - by split.
  - apply (inv_handle T now t h); [done|done| |done|done]. intros e Ht. destruct (Hsl u Hl) as (e' & Hin & Hle).
    pose proof (top_least _ e e' Ht Hin). lia.
Qed.

Lemma reach_inv allowed T h : reach allowed T h → hub_inv T h.
Proof.
  induction 1 as [T|T now t h a h' Hr IH HT Hn Ha Hs].
  - split; cbn; [|by intros ? ? ?%elem_of_nil|done|done]. intros id Hid. rewrite lookup_empty in Hid. by destruct Hid.
  - exact (hub_inv_step T now t h a h' HT Hn IH Hs).
Qed.
(** ** Ordering *)

Definition ids (q : list VhalEvent) : list Z := generatorId <$> q.

(** Registrations of ids that are not in use, of steady generators. *)
Definition fresh_registrations `{!SteadyGenerator G} (t : Z) (h : GeneratorHub) (a : Action) : Prop :=
  match a with
  | Register id g => mGenerators h !! id = None ∧ ¬ has_pending h id ∧ steady t g
  | _ => True
  end.

Record order_inv `{!SteadyGenerator G} (h : GeneratorHub) : Prop := mkOrder {
  ord_unique : NoDup (ids (mEventQueue h));
  ord_steady : ∀ e g, e ∈ mEventQueue h → mGenerators h !! generatorId e = Some g → steady (time e) g;
  ord_queue : ∀ n d e, (n, d) ∈ delivered h → e ∈ mEventQueue h → time d ≤ time e;
  ord_delivered : ∀ i n1 d1 n2 d2, delivered h !! i = Some (n1, d1) → delivered h !! S i = Some (n2, d2) → time d1 ≤ time d2;
}.

Lemma order_purged `{!SteadyGenerator G} h q : order_inv h → purge (mGenerators h) (mEventQueue h) q → order_inv (with_queue q h).
Proof.
  intros [Hu Hs Hq Hd] Hp. destruct (purge_sublist _ _ _ Hp) as [dead Hperm]. split; cbn; [| | |done].
  - unfold ids in *. rewrite Hperm, fmap_app in Hu. by apply NoDup_app in Hu as (_ & _ & Hu).
  - intros e g He. apply Hs. by eapply purge_subset.
  - intros n d e Hnd He. eapply Hq; [done|]. by eapply purge_subset.
Qed.

Lemma delivered_snoc (l : list (Z * VhalEvent)) n d : (∀ n' d', (n', d') ∈ l → time d' ≤ time d) →
  (∀ i n1 d1 n2 d2, l !! i = Some (n1, d1) → l !! S i = Some (n2, d2) → time d1 ≤ time d2) →
  ∀ i n1 d1 n2 d2, (l ++ [(n, d)]) !! i = Some (n1, d1) → (l ++ [(n, d)]) !! S i = Some (n2, d2) → time d1 ≤ time d2.
Proof.
  intros Hlast Hl i n1 d1 n2 d2 H1 H2. apply lookup_snoc_Some in H2 as [[Hi H2]|[Hi [= <- <-]]].
  - rewrite lookup_app_l in H1 by lia. by eapply Hl.
  - rewrite lookup_app_l in H1 by lia. eapply Hlast. by eapply list_elem_of_lookup_2.
Qed.

Lemma order_handle `{!SteadyGenerator G} now t h h' : now ≤ t → (∀ e, is_top (mEventQueue h) e → time e ≤ now) →
  order_inv h → handle now t h h' → order_inv h'.
Proof.
  intros Hn Hdue [Hu Hs Hq Hd] Hh.
  assert (Hpop : ∀ e q, is_top (mEventQueue h) e → mEventQueue h ≡ₚ e :: q →
    generatorId e ∉ ids q ∧ NoDup (ids q) ∧ (∀ e', e' ∈ q → e' ∈ mEventQueue h ∧ time e ≤ time e' ∧ generatorId e' ≠ generatorId e) ∧
    (∀ n d, (n, d) ∈ delivered h → time d ≤ time e)).
  { intros e q Ht Hp. unfold ids in Hu. rewrite Hp in Hu. apply NoDup_cons in Hu as [Hni Hnd]. split; [done|]. split; [done|].
    split; [|intros n d Hin; eapply Hq; [done|by apply Ht]].
    intros e' He'. assert (Hin : e' ∈ mEventQueue h) by (rewrite Hp; by right). split; [done|].
    split; [by apply (top_least (mEventQueue h))|]. intros E. apply Hni. rewrite <- E. by apply list_elem_of_fmap_2. }
  assert (Hdel : ∀ e q n d x, is_top (mEventQueue h) e → mEventQueue h ≡ₚ e :: q → x ∈ q →
    (n, d) ∈ delivered h ++ [(now, e)] → time d ≤ time x).
  { intros e q n d x Ht Hp Hx [Hin|Hin]%elem_of_app; destruct (Hpop e q Ht Hp) as (_ & _ & Hall & _); destruct (Hall x Hx) as (Hxq & Hle & _);
      [by eapply Hq|]. apply list_elem_of_singleton in Hin as [= -> ->]. done. }
  destruct Hh as [e q g g' ev Ht Hp Hg Hnx|e q g g' Ht Hp Hg Hnx|e q Ht Hp Hg];
    destruct (Hpop e q Ht Hp) as (Hni & Hnd & Hall & Hlast); (split; cbn; [| | |by apply delivered_snoc]).
  - by apply NoDup_cons.
  - pose proof (Hs e g (proj1 Ht) Hg) as Hst. pose proof (Hdue e Ht) as Hde.
    destruct (steady_next (time e) t g g' ev Hst ltac:(lia) Hnx) as [Hle Hst'].
    intros x gx [->|Hx]%elem_of_cons; [rewrite lookup_insert_eq; by intros [= <-]|].
    destruct (Hall x Hx) as (Hxq & _ & Hne). rewrite lookup_insert_ne by done. by apply Hs.
  - pose proof (Hs e g (proj1 Ht) Hg) as Hst. pose proof (Hdue e Ht) as Hde.
    destruct (steady_next (time e) t g g' ev Hst ltac:(lia) Hnx) as [Hle _].
    intros n d x Hin [->|Hx]%elem_of_cons; [|by eapply Hdel]. unfold time at 2. cbn [val]. etrans; [|exact Hle].
    apply elem_of_app in Hin as [Hin|Hin]; [by eapply Hlast|]. by apply list_elem_of_singleton in Hin as [= -> ->].
  - done.
  - intros x gx Hx Hgx. apply lookup_delete_Some in Hgx as [_ Hgx]. apply Hs; [by apply Hall|done].
  - intros n d x Hin Hx. by eapply Hdel.
  - done.
  - intros x gx Hx Hgx. apply lookup_delete_Some in Hgx as [_ Hgx]. apply Hs; [by apply Hall|done].
  - intros n d x Hin Hx. by eapply Hdel.
Qed.

Lemma order_proceed `{!SteadyGenerator G} now t h h' : now ≤ t → order_inv h → proceed now t h h' → order_inv h'.
Proof.
  intros Hn Hi [Hd|e Hd Ht Hlt|e h'' Hd Ht Hle Hh]; [by destruct Hi; split..|].
  eapply (order_handle now t h); [done| |done|done]. intros e' He'. etrans; [|exact Hle].
  apply (top_least (mEventQueue h)); [done|by apply Ht].
Qed.

Lemma order_step `{!SteadyGenerator G} T now t h a h' : T ≤ now → now ≤ t → hub_inv T h → order_inv h →
  fresh_registrations t h a → hub_step now t h a h' → order_inv h'.
Proof.
  intros HT Hn Hh Hi Ha Hs. destruct Hs as [id g g' ev Hg|id g g' Hg|id| |Hl Hd|q Hl Hq -> Hd|q h' Hl Hq Hne Hpr|h' Hl Hne Hpr|u Hl|u h' Hl Hu Hhd].
  - destruct Ha as (Hnew & Hnp & Hst). destruct (steady_next t t g g' ev Hst ltac:(lia) Hg) as [Hle Hst'].
    destruct Hi as [Hu Hs Hq Hd]. unfold registered. rewrite Hnew. split; cbn; [| | |done].
    + apply NoDup_cons. split; [|done]. intros (e & E & Hin)%list_elem_of_fmap. apply Hnp. by exists e.
    + intros e ge [->|He]%elem_of_cons; [rewrite lookup_insert_eq; by intros [= <-]|].
      rewrite lookup_insert_ne; [by apply Hs|]. intros E. apply Hnp. by exists e.
    + intros n d e Hin [->|He]%elem_of_cons; [|by eapply Hq]. destruct (inv_on_time T h Hh n d Hin). unfold time in *. cbn. lia.
  - done.
  - destruct Hi as [Hu Hs Hq Hd]. split; cbn; [done| |done|done]. intros e g He [_ Hg]%lookup_delete_Some. by apply Hs.
  - by destruct Hi; split.
  - by destruct Hi; split.
  - destruct (order_purged h [] Hi Hq). by split.
  - eapply (order_proceed now t); [done|by apply (order_purged h q)|done].
  - by eapply (order_proceed now t).
  - by destruct Hi; split.
  - eapply (order_handle now t h); [done| |done|done]. intros e Ht. destruct (inv_sleep T h Hh u Hl) as (e' & Hin & Hle).
    pose proof (top_least _ e e' Ht Hin). lia.
Qed.

Lemma reach_order `{!SteadyGenerator G} T h : reach fresh_registrations T h → order_inv h.
Proof.
  induction 1 as [T|T now t h a h' Hr IH HT Hn Ha Hs].
  - split; cbn; [by apply NoDup_nil|by intros ? ? ?%elem_of_nil|by intros ? ? ? ?%elem_of_nil|done].
  - exact (order_step T now t h a h' HT Hn (reach_inv _ T h Hr) IH Ha Hs).
Qed.
(** ** Progress *)

Lemma handle_total now t h : mEventQueue h ≠ [] → (∀ id g, mGenerators h !! id = Some g → nextEvent t g ≠ None) →
  ∃ h', handle now t h h'.
Proof.
  intros Hne Hg. destruct (top_of _ Hne) as [e Ht]. destruct (proj1 (elem_of_Permutation (mEventQueue h) e)) as [q Hq]; [by apply Ht|].
  destruct (mGenerators h !! generatorId e) as [g|] eqn:E; [|eexists; by eapply handle_gone].
  specialize (Hg _ _ E). destruct (nextEvent t g) as [[g' [ev|]]|] eqn:Hn; [| |done].
  - eexists. by eapply handle_next.
  - eexists. by eapply handle_last.
Qed.

Lemma handle_delivers now t h h' : handle now t h h' → ∃ d, is_top (mEventQueue h) d ∧ delivered h' = delivered h ++ [(now, d)].
Proof. by destruct 1 as [e|e|e]; exists e. Qed.

(** With an event that is due the loop body handles one. *)
Lemma proceed_due now t h e : mShuttingDownFlag h = false → e ∈ mEventQueue h → time e ≤ now →
  (∀ id g, mGenerators h !! id = Some g → nextEvent t g ≠ None) →
  (∃ h', proceed now t h h') ∧
  (∀ h', proceed now t h h' → ∃ d, delivered h' = delivered h ++ [(now, d)] ∧ time d ≤ time e).
Proof.
  intros Hd He Hdue Hg. assert (Hne : mEventQueue h ≠ []) by (intros E; rewrite E in He; by apply elem_of_nil in He). split.
  - destruct (top_of _ Hne) as [d Ht]. destruct (handle_total now t h Hne Hg) as [h' Hh]. exists h'.
    eapply proceed_handle; [done|done| |done]. pose proof (top_least _ d e Ht He). lia.
  - intros h' [Hd'|d Hd' Ht Hlt|d h'' Hd' Ht Hle Hh]; [by rewrite Hd in Hd'| |].
    + pose proof (top_least _ d e Ht He). lia.
    + destruct (handle_delivers _ _ _ _ Hh) as (d' & Ht' & E). exists d'. split; [done|]. by apply (top_least (mEventQueue h)).
Qed.

Lemma run_due now t h id : hub_inv now h → mShuttingDownFlag h = false → is_Some (mGenerators h !! id) →
  (∀ id g, mGenerators h !! id = Some g → nextEvent t g ≠ None) →
  ∀ e, e ∈ mEventQueue h → generatorId e = id → time e ≤ now →
  (∃ h', hub_step now t h Run h') ∧
  (∀ h', hub_step now t h Run h' → (∃ d, delivered h' = delivered h ++ [(now, d)] ∧ time d ≤ time e) ∨
     (∃ u, mThread h = Sleeping u ∧ h' = at_thread LoopTop h)).
Proof.
  intros [Hp Ho Hs Hx] Hd Hid Hg e He <- Hdue. assert (Hne : mEventQueue h ≠ []) by (intros E; rewrite E in He; by apply elem_of_nil in He).
  assert (Hpurged : ∀ q, purge (mGenerators h) (mEventQueue h) q → e ∈ q) by (intros q Hq; by eapply purge_live).
  split.
  - destruct (mThread h) as [| |u|] eqn:Hl; [| | |by rewrite Hx in Hd].
    + destruct (purge_total (mGenerators h) (mEventQueue h)) as [q Hq]. pose proof (Hpurged q Hq) as Heq.
      destruct (proj1 (proceed_due now t (with_queue q h) e Hd Heq Hdue Hg)) as [h' Hpr].
      exists h'. eapply step_go; [done|done| |done]. left. intros ->. by apply elem_of_nil in Heq.
    + destruct (proj1 (proceed_due now t h e Hd He Hdue Hg)) as [h' Hpr]. exists h'. by eapply step_woken; [|left|].
    + eexists. by eapply step_notified.
  - intros h' Hst. inversion Hst as [| | | |Hl Hd'|q Hl Hq Hq0 Hd'|q h'' Hl Hq Hne' Hpr|h'' Hl Hne' Hpr|u Hl|u h'' Hl Hu Hh]; subst.
    + by rewrite Hd in Hd'.
    + apply Hpurged, elem_of_nil in Hq. done.
    + left. by apply (proj2 (proceed_due now t (with_queue q h) e Hd (Hpurged q Hq) Hdue Hg)).
    + left. by apply (proj2 (proceed_due now t h e Hd He Hdue Hg)).
    + right. by exists u.
    + left. destruct (handle_delivers _ _ _ _ Hh) as (d' & Ht' & E). exists d'. split; [done|]. by apply (top_least (mEventQueue h)).
Qed.

(** C28: The events come out in order.  When every registration is of an id
    that is not in use, with a generator whose events do not go back, then in
    every reachable state, whatever was registered, unregistered or delayed:
    the events were delivered in the order of their timestamps, none before
    its time, every event still pending is later than all of them, and each
    generator has exactly one pending event. *)
Theorem events_delivered_in_order `{!SteadyGenerator G} T h : reach fresh_registrations T h →
  (∀ i n1 d1 n2 d2, delivered h !! i = Some (n1, d1) → delivered h !! S i = Some (n2, d2) → time d1 ≤ time d2) ∧
  (∀ n d, (n, d) ∈ delivered h → time d ≤ n) ∧
  (∀ n d e, (n, d) ∈ delivered h → e ∈ mEventQueue h → time d ≤ time e) ∧
  (∀ id, is_Some (mGenerators h !! id) → ∃ e, e ∈ mEventQueue h ∧ generatorId e = id) ∧ NoDup (ids (mEventQueue h)).
Proof.
  intros Hr. destruct (reach_order T h Hr) as [Hu Hs Hq Hd]. destruct (reach_inv _ T h Hr) as [Hp Ho _ _].
  split; [done|]. split; [|done]. intros n d Hin. by apply (Ho n d).
Qed.

(** C25: No registered generator is forgotten, however generators are
    registered, replaced and unregistered: in every reachable state of a hub
    that is not shutting down it has a pending event, and once that event is
    due the thread can take a step, and any step it takes delivers an event
    that is due and not later than it, unless the thread was asleep and only
    starts its loop again. *)
Theorem registered_events_are_delivered allowed T h id : reach allowed T h → mShuttingDownFlag h = false →
  is_Some (mGenerators h !! id) →
  ∃ e, e ∈ mEventQueue h ∧ generatorId e = id ∧
    ∀ now t, T ≤ now → time e ≤ now → (∀ id g, mGenerators h !! id = Some g → nextEvent t g ≠ None) →
    (∃ h', hub_step now t h Run h') ∧
    (∀ h', hub_step now t h Run h' → (∃ d, delivered h' = delivered h ++ [(now, d)] ∧ time d ≤ time e) ∨
       (∃ u, mThread h = Sleeping u ∧ h' = at_thread LoopTop h)).
Proof.
  intros Hr Hd Hid. pose proof (reach_inv allowed T h Hr) as Hi. destruct (inv_pending T h Hi id Hid) as (e & He & Hg).
  exists e. split; [done|]. split; [done|]. intros now t Hn Hdue Hnx.
  by apply (run_due now t h id (inv_later T now h Hn Hi) Hd Hid Hnx).
Qed.
End hub.
Arguments GeneratorHub : clear implicits.

(** ** An execution *)

Definition speedGenerator : GeneratorCfg :=
  initGenCfg VehicleProperty.PERF_VEHICLE_SPEED (f32_of_Z 10) (f32_of_Z 10) (f32_of_Z 5) (f32_of_Z 1) 5.
Definition speedEvent (t v : Z) : VhalEvent :=
  mkVhalEvent 1 (mkPropValue t 0 VehicleProperty.PERF_VEHICLE_SPEED VehiclePropertyStatus.AVAILABLE
                   (mkRaw [] [f32_of_Z v] [] [] "")).
Definition speedAt (t v : Z) : GeneratorCfg :=
  mkGeneratorCfg VehicleProperty.PERF_VEHICLE_SPEED (f32_of_Z 10) (f32_of_Z v) (f32_of_Z 5) (f32_of_Z 1) 5 t.

Definition hub1 : GeneratorHub GeneratorCfg :=
  mkHub [speedEvent 20 10] {[ 1 := speedAt 20 11 ]} false LoopTop [].
Definition hub2 : GeneratorHub GeneratorCfg :=
  mkHub [speedEvent 25 11] {[ 1 := speedAt 25 12 ]} false LoopTop [(21, speedEvent 20 10)].

Lemma only_top e : is_top [e] e.
Proof. split; [by left|]. by intros e' ->%list_elem_of_singleton. Qed.

Lemma hub1_reached : reach fresh_registrations 20 hub1.
Proof.
  apply (reach_step _ 20 20 20 newHub (Register 1 speedGenerator)); [by apply reach_new|done|done| |].
  - split; [done|]. split; [by intros (e & He%elem_of_nil & _)|]. split; [done|by left].
  - assert (E : hub1 = registered 1 (speedAt 20 11) (val (speedEvent 20 10)) newHub) by reflexivity.
    rewrite E. by eapply step_register.
Qed.

Lemma hub2_reached : reach fresh_registrations 21 hub2.
Proof.
  apply (reach_step _ 20 21 21 hub1 Run); [by apply hub1_reached|done|done|done|].
  eapply (step_go 21 21 hub1 [speedEvent 20 10]); [done| |by left|].
  - apply (purge_stop _ _ (speedEvent 20 10)); [by apply only_top|by eexists].
  - eapply (proceed_handle 21 21 _ (speedEvent 20 10)); [done|by apply only_top|done|].
    assert (E : hub2 = mkHub (mkVhalEvent 1 (val (speedEvent 25 11)) :: []) (<[1 := speedAt 25 12]> (mGenerators hub1))
      false LoopTop ([] ++ [(21, speedEvent 20 10)])) by (unfold hub2, hub1; cbn [mGenerators]; by rewrite insert_singleton_eq).
    rewrite E. by apply (handle_next 21 21 (with_queue [speedEvent 20 10] hub1) (speedEvent 20 10) [] (speedAt 20 11));
      [apply only_top|..].
Qed.

Lemma events_delivered_in_order_witness :
  (∀ n d e, (n, d) ∈ delivered hub2 → e ∈ mEventQueue hub2 → time d ≤ time e) ∧
  (∃ e, e ∈ mEventQueue hub2 ∧ generatorId e = 1).
Proof.
  destruct (events_delivered_in_order 21 hub2 hub2_reached) as (_ & _ & Hq & Hp & _). split; [exact Hq|].
  apply Hp. by exists (speedAt 25 12).
Defined.

Lemma registered_events_are_delivered_witness : ∃ e, e ∈ mEventQueue hub1 ∧ generatorId e = 1 ∧
  ((∃ h', hub_step 20 20 hub1 Run h') ∧
   ∀ h', hub_step 20 20 hub1 Run h' → (∃ d, delivered h' = delivered hub1 ++ [(20, d)] ∧ time d ≤ time e) ∨
     (∃ u, mThread hub1 = Sleeping u ∧ h' = at_thread LoopTop hub1)).
Proof.
  destruct (registered_events_are_delivered _ 20 hub1 1 hub1_reached eq_refl) as (e & He & Hi & H).
  - by exists (speedAt 20 11).
  - exists e. split; [exact He|]. split; [exact Hi|]. apply H; [done| |].
    + by apply list_elem_of_singleton in He as ->.
    + intros id g Hg. cbn [mGenerators hub1] in Hg. apply lookup_singleton_Some in Hg as [_ <-]. vm_compute. done.
Defined.

(** A generator registered under an id in use replaces the old one, but its
    first event is not in the queue: the old generator's is delivered in its
    place. *)
Example replaced_generator_first_event_lost :
  let slow := initGenCfg VehicleProperty.PERF_VEHICLE_SPEED (f32_of_Z 90) (f32_of_Z 90) (f32_of_Z 5) (f32_of_Z 1) 5 in
  ∃ h, hub_step 20 20 hub1 (Register 1 slow) h ∧ mEventQueue h = [speedEvent 20 10] ∧
       linear_nextEvent 20 slow ≠ None ∧ time (speedEvent 20 10) = 20.
Proof. eexists. split; [by apply step_register; vm_compute|]. by split_and!. Qed.
