(* ===== verification/FakeDump.v ===== *)
(** * FakeVehicleHardware: the dump commands

    Models [dump] of [fake_impl/hardware/src/FakeVehicleHardware.cpp] with
    every command it dispatches to, over the state of the hardware: its values,
    the supported values, the saved values, the subscriptions and the generator
    hub.  A command is a function of the state; its reply keeps what happened
    and the data reported, the wording is left out.  Calls of the registered
    callbacks are a trace.  The commands run while the other threads of the
    hardware run: each section under a lock is atomic in the code, and here a
    whole command is, but for [--set] and [--restore-prop]: these read the clock
    and only then write, so each is two parts, and the theorems about them let
    the state change in between.

    [Crash] is undefined behaviour, or an exception of the JSON library that
    nothing catches.  The hash of a string and the JSON library are
    parameters, as are the names of DumpOptions.  The hash maps that are only
    printed are given by the order in which they iterate. *)

From stdpp Require Import base gmap sets list strings pretty.
From Stdlib Require Import ZArith Lia.
From S2P Require Import Prelude Float32 NumberParse VehicleTypes VehicleProperty VehicleUtils DumpOptions.
From S2P Require Import VehicleObjectPool VehiclePropertyStore FakeUserHal FakeSubscriptions FakeHardwareValues FakeHardwareLaws.
From S2P Require Import FakeInit.
From S2P Require Import JsonValue ValueGenerators GeneratorHub.

Local Open Scope Z_scope.
Local Open Scope vhal_scope.

(** ** State *)

Inductive Generator : Type :=
| LinearGenerator (g : GeneratorCfg)
| JsonGenerator (g : JsonFakeValueGenerator).

#[export] Instance generator_generator : FakeValueGenerator Generator := {|
  nextEvent now g :=
    match g with
    | LinearGenerator g => '(g', ev) ← linear_nextEvent now g; Some (LinearGenerator g', ev)
    | JsonGenerator g => '(g', ev) ← json_nextEvent now g; Some (JsonGenerator g', ev)
    end |}.

(** A call of a registered callback. *)
Inductive Call : Type :=
| PropertyChange (callback : nat) (values : list VehiclePropValue)
| SupportedValueChange (callback : nat) (ids : list PropIdAreaId).

Record Hardware : Type := mkHardware {
  hwValues : HW;
  hwSupported : Supported;
  hwSubscriptions : Subscriptions;
  mSavedProps : gmap PropIdAreaId VehiclePropValue;
  mGeneratorHub : GeneratorHub Generator;
  mAddExtraTestVendorConfigs : bool;
  mOnPropertyChangeCallback : option nat;
  mOnPropertySetErrorCallback : option nat;
  mOnSupportedValueChangeCallback : option nat;
  calls : list Call;
}.

Definition with_values (v : HW) (d : Hardware) : Hardware :=
  mkHardware v (hwSupported d) (hwSubscriptions d) (mSavedProps d) (mGeneratorHub d) (mAddExtraTestVendorConfigs d)
    (mOnPropertyChangeCallback d) (mOnPropertySetErrorCallback d) (mOnSupportedValueChangeCallback d) (calls d).
Definition with_supported (s : Supported) (d : Hardware) : Hardware :=
  mkHardware (hwValues d) s (hwSubscriptions d) (mSavedProps d) (mGeneratorHub d) (mAddExtraTestVendorConfigs d)
    (mOnPropertyChangeCallback d) (mOnPropertySetErrorCallback d) (mOnSupportedValueChangeCallback d) (calls d).
Definition with_saved (m : gmap PropIdAreaId VehiclePropValue) (d : Hardware) : Hardware :=
  mkHardware (hwValues d) (hwSupported d) (hwSubscriptions d) m (mGeneratorHub d) (mAddExtraTestVendorConfigs d)
    (mOnPropertyChangeCallback d) (mOnPropertySetErrorCallback d) (mOnSupportedValueChangeCallback d) (calls d).
Definition with_hub (g : GeneratorHub Generator) (d : Hardware) : Hardware :=
  mkHardware (hwValues d) (hwSupported d) (hwSubscriptions d) (mSavedProps d) g (mAddExtraTestVendorConfigs d)
    (mOnPropertyChangeCallback d) (mOnPropertySetErrorCallback d) (mOnSupportedValueChangeCallback d) (calls d).
Definition with_extra (b : bool) (d : Hardware) : Hardware :=
  mkHardware (hwValues d) (hwSupported d) (hwSubscriptions d) (mSavedProps d) (mGeneratorHub d) b
    (mOnPropertyChangeCallback d) (mOnPropertySetErrorCallback d) (mOnSupportedValueChangeCallback d) (calls d).
Definition called (c : list Call) (d : Hardware) : Hardware :=
  mkHardware (hwValues d) (hwSupported d) (hwSubscriptions d) (mSavedProps d) (mGeneratorHub d) (mAddExtraTestVendorConfigs d)
    (mOnPropertyChangeCallback d) (mOnPropertySetErrorCallback d) (mOnSupportedValueChangeCallback d) (calls d ++ c).

(** ** Callbacks, which are registered once *)

Definition registerOnce (current : option nat) (callback : nat) : option nat :=
  match current with Some c => Some c | None => Some callback end.

Definition registerOnPropertyChangeEvent (callback : nat) (d : Hardware) : Hardware :=
  mkHardware (hwValues d) (hwSupported d) (hwSubscriptions d) (mSavedProps d) (mGeneratorHub d) (mAddExtraTestVendorConfigs d)
    (registerOnce (mOnPropertyChangeCallback d) callback) (mOnPropertySetErrorCallback d)
    (mOnSupportedValueChangeCallback d) (calls d).
Definition registerOnPropertySetErrorEvent (callback : nat) (d : Hardware) : Hardware :=
  mkHardware (hwValues d) (hwSupported d) (hwSubscriptions d) (mSavedProps d) (mGeneratorHub d) (mAddExtraTestVendorConfigs d)
    (mOnPropertyChangeCallback d) (registerOnce (mOnPropertySetErrorCallback d) callback)
    (mOnSupportedValueChangeCallback d) (calls d).
Definition registerSupportedValueChangeCallback (callback : nat) (d : Hardware) : Hardware :=
  mkHardware (hwValues d) (hwSupported d) (hwSubscriptions d) (mSavedProps d) (mGeneratorHub d) (mAddExtraTestVendorConfigs d)
    (mOnPropertyChangeCallback d) (mOnPropertySetErrorCallback d)
    (registerOnce (mOnSupportedValueChangeCallback d) callback) (calls d).

(** ** Configurations *)

Definition vendorConfig (propId : Z) : VehiclePropConfig :=
  mkPropConfig propId VehiclePropertyAccess.READ_WRITE 0 [] [] EmptyString f32_zero f32_zero.

Definition generateVendorConfigs : list VehiclePropConfig :=
  vendorConfig <$> seqZ STARTING_VENDOR_CODE_PROPERTIES_FOR_TEST
    (ENDING_VENDOR_CODE_PROPERTIES_FOR_TEST - STARTING_VENDOR_CODE_PROPERTIES_FOR_TEST).

Definition storeOf (d : Hardware) : Store := mServerSidePropStore (hwValues d).

Definition getAllPropertyConfigs (d : Hardware) : list VehiclePropConfig :=
  getAllConfigs (storeOf d) ++ (if mAddExtraTestVendorConfigs d then generateVendorConfigs else []).

(** ** Replies *)

Inductive Reply : Type :=
| Help
| InvalidOption
| BadArguments (e : OptionError)
| PropertySet | SetFailed (e : HwError)
| PropertyRead (v : VehiclePropValue) | ReadFailed (e : HwError)
| Saved | SaveFailed (e : StatusCode)
| Restored | NothingSaved | RestoreFailed (e : HwError)
| EventInjected
| BoundsSet | SupportedSet
| Listed (configs : list (Z * list Z))                  (* property and its areas *)
| Rows (rows : list (Z * Z * result HwError VehiclePropValue) * list OptionError)
| Subscribed (continuous : list (Z * PropIdAreaId * RefreshInfo)) (onChange : list PropIdAreaId)
| UserHal
| VendorConfigsAdded | VendorConfigsRemoved
| GeneratorStarted (cookie : Z) | GeneratorStopped | NoGenerator | NoEvents
| EventsGenerated.

Record DumpResult : Type := mkDumpResult {
  callerShouldDumpState : bool;
  refreshPropertyConfigs : bool;
  buffer : Reply;
}.

Definition DumpM : Type → Type := M Hardware HwError.

(** A call into the hardware: a crash stays one, an error is a value. *)
Definition attempt {A} (m : HWM A) : DumpM (result HwError A) := λ d,
  match m (hwValues d) with
  | (h, Ok a) => (with_values h d, Ok (Ok a))
  | (h, Err Crash) => (with_values h d, Err Crash)
  | (h, Err e) => (with_values h d, Ok (Err e))
  end.
Definition performing {A} (m : HWM A) : DumpM A := λ d,
  let '(h, r) := m (hwValues d) in (with_values h d, r).

(** A command that replies with the error of its arguments. *)
Definition parsing {A} (r : Parsed A) (k : A → DumpM Reply) : DumpM Reply :=
  match r with Ok a => k a | Err e => mreturn (BadArguments e) end.
Notation "'parse!' x := r 'in' k" := (parsing r (λ x, k))
  (at level 200, x pattern, r at level 100, k at level 200, right associativity).

Definition requiring (options : list string) (minSize : nat) (k : DumpM Reply) : DumpM Reply :=
  if checkArgumentsSize options minSize then k else mreturn (BadArguments NotEnoughArguments).

(** A command in two parts with no lock held in between: other threads may run
    between the parts. *)
Definition continuing {V} (prepare : DumpM (Reply + V)) (k : V → DumpM Reply) : DumpM Reply :=
  let! prepared := prepare in
  match prepared with inl reply => mreturn reply | inr v => k v end.

(** A loop of a command over a list, collecting its results. *)
Fixpoint collecting {A B} (f : A → DumpM B) (l : list A) : DumpM (list B) :=
  match l with
  | [] => mreturn []
  | x :: l' => let! y := f x in let! ys := collecting f l' in mreturn (y :: ys)
  end.

Section dump.
  Context (tick : nat → Z) (uninit_size : Z) (service : option PowerController).
  Context (propertyNames : list (string * Z)) (areaNames : Z → list (string * Z)) (underflow_errno : string → bool).
(** The JSON library, the files ([None]: cannot be opened; [Some None]: not
    JSON), and [std::hash<std::string>]. *)
  Context {J : Type} `{!JsonValue J} (readFile : string → option (option J)) (readText : string → option J)
    (hash : string → Z).

Local Abbreviation elapsedRealtimeNano := (elapsedRealtimeNano).
Local Abbreviation parseOptions := (parsePropOptions propertyNames areaNames underflow_errno).

Definition clock : DumpM Z := performing (elapsedRealtimeNano tick).

(** ** Values *)

(** [--set] up to the reading of the clock: its reply, or the stamped value it
    is about to write.  No lock is held across the reading and the write. *)
Definition dumpSetProperties_prepare (options : list string) : DumpM (Reply + VehiclePropValue) :=
  if negb (checkArgumentsSize options 3) then mreturn (inl (BadArguments NotEnoughArguments))
  else match parseOptions options with
  | Err e => mreturn (inl (BadArguments e))
  | Ok prop =>
      let! r := attempt (
        let! isSpecialValue := maybeSetSpecialValue tick uninit_size prop in
        if isSpecialValue then mreturn None
        else
          let! updatedValue := obtainCopyM uninit_size prop in
          let! now := elapsedRealtimeNano tick in
          mreturn (Some (set_timestamp now updatedValue))) in
      mreturn (match r with
               | Ok (Some updatedValue) => inr updatedValue
               | Ok None => inl PropertySet
               | Err e => inl (SetFailed e)
               end)
  end.

Definition dumpSetProperties_write (updatedValue : VehiclePropValue) : DumpM Reply :=
  let! setResult := attempt (writeM tick updatedValue false ON_VALUE_CHANGE false) in
  mreturn (match setResult with Ok _ => PropertySet | Err e => SetFailed e end).

Definition dumpSetProperties (options : list string) : DumpM Reply :=
  continuing (dumpSetProperties_prepare options) dumpSetProperties_write.

(** The value of a property, special or stored. *)
Definition readAny (v : VehiclePropValue) : HWM VehiclePropValue :=
  let! special := maybeGetSpecialValue tick uninit_size service v in
  match special with
  | Some x => mreturn x
  | None => let! r := readStore (readValue v) in ofStatus r
  end.

Definition dumpGetPropertyWithArg (options : list string) : DumpM Reply :=
  requiring options 3 (
    parse! prop := parseOptions options in
    let! r := attempt (readAny prop) in
    mreturn (match r with Ok v => PropertyRead v | Err e => ReadFailed e end)).

Definition dumpInjectEvent (options : list string) : DumpM Reply :=
  requiring options 3 (
    parse! prop := parseOptions options in
    performing (eventFromVehicleBus tick uninit_size prop) ;;; mreturn EventInjected).

Definition savedKey (v : VehiclePropValue) : PropIdAreaId := mkPropIdAreaId (prop v) (areaId v).

Definition dumpSaveProperty (options : list string) : DumpM Reply :=
  requiring options 2 (
    parse! value := parseOptions options in
    let! d := mget in
    match readValue value (storeOf d) with
    | Err e => mreturn (SaveFailed e)
    | Ok readResult =>
        mmodify (λ d, with_saved (<[savedKey value := readResult]> (mSavedProps d)) d) ;;; mreturn Saved
    end).

(** [--restore-prop] up to the reading of the clock, likewise. *)
Definition dumpRestoreProperty_prepare (options : list string) : DumpM (Reply + VehiclePropValue) :=
  if negb (checkArgumentsSize options 2) then mreturn (inl (BadArguments NotEnoughArguments))
  else match parseOptions options with
  | Err e => mreturn (inl (BadArguments e))
  | Ok value =>
      let! d := mget in
      match mSavedProps d !! savedKey value with
      | None => mreturn (inl NothingSaved)
      | Some savedValue =>
          mmodify (λ d, with_saved (delete (savedKey value) (mSavedProps d)) d) ;;;
          let! now := clock in mreturn (inr (set_timestamp now savedValue))
      end
  end.

Definition dumpRestoreProperty_write (savedValue : VehiclePropValue) : DumpM Reply :=
  let! writeResult := attempt (writeM tick savedValue false ON_VALUE_CHANGE false) in
  mreturn (match writeResult with Ok _ => Restored | Err e => RestoreFailed e end).

Definition dumpRestoreProperty (options : list string) : DumpM Reply :=
  continuing (dumpRestoreProperty_prepare options) dumpRestoreProperty_write.

Definition dumpOnePropertyById (propId areaId : Z) : DumpM (Z * Z * result HwError VehiclePropValue) :=
  let! r := attempt (readAny (mkPropValue 0 areaId propId VehiclePropertyStatus.AVAILABLE emptyRaw)) in
  mreturn (propId, areaId, r).

Definition dumpOnePropertyByConfig (config : VehiclePropConfig) :
    DumpM (list (Z * Z * result HwError VehiclePropValue)) :=
  match areaConfigs config with
  | [] => let! row := dumpOnePropertyById (pc_prop config) 0 in mreturn [row]
  | acs => collecting (λ ac, dumpOnePropertyById (pc_prop config) (ac_areaId ac)) acs
  end.

Definition dumpAllProperties : DumpM Reply :=
  let! d := mget in
  let! rows := collecting dumpOnePropertyByConfig (getAllConfigs (storeOf d)) in
  mreturn (Rows (concat rows, [])).

(** One argument of [--get]: its rows, or what is wrong with it. *)
Definition dumpArgument (options : list string) (index : nat) :
    DumpM (list (Z * Z * result HwError VehiclePropValue) * list OptionError) :=
  match parsePropId propertyNames options index with
  | Err e => mreturn ([], [e])
  | Ok prop =>
      let! d := mget in
      match getPropConfig prop (storeOf d) with
      | Err _ => mreturn ([], [NotSupported prop])
      | Ok config => let! rows := dumpOnePropertyByConfig config in mreturn (rows, [])
      end
  end.

Definition dumpSpecificProperty (options : list string) : DumpM Reply :=
  requiring options 2 (
    let! parts := collecting (dumpArgument options) (seq 1 (length options - 1)) in
    mreturn (Rows (concat (fst <$> parts), concat (snd <$> parts)))).

Definition dumpListProperties (d : Hardware) : Reply :=
  Listed ((λ config, (pc_prop config, ac_areaId <$> areaConfigs config)) <$> getAllConfigs (storeOf d)).

(** The subscriptions; reading the refresh infos is [copyModes]. *)
Definition dumpSubscriptions : DumpM Reply := λ d,
  let s := hwSubscriptions d in
  let row := λ I p, (I, p, default zeroRefreshInfo (mRefreshInfoByPropIdAreaId s !! p)) in
  let actions := map_to_list (mActionByIntervalInNanos s) in
  let ids := concat ((λ a : Z * ActionForInterval, elements (propIdAreaIdsToRefresh a.2)) <$> actions) in
  let continuous := concat ((λ a : Z * ActionForInterval, row a.1 <$> elements (propIdAreaIdsToRefresh a.2)) <$> actions) in
  (mkHardware (hwValues d) (hwSupported d) (fst (copyModes ids s)) (mSavedProps d) (mGeneratorHub d)
     (mAddExtraTestVendorConfigs d) (mOnPropertyChangeCallback d) (mOnPropertySetErrorCallback d)
     (mOnSupportedValueChangeCallback d) (calls d),
   Ok (Subscribed continuous (elements (mSubOnChangePropIdAreaIds s)))).

(** ** Supported values *)

(** The property, the area and the index behind them. *)
Definition parseDumpOptionPropIdAreaId (options : list string) (index : nat) (s : Store) : Parsed (Z * Z * nat) :=
  try! propId := parsePropId propertyNames options index in
  match getPropConfig propId s with
  | Err _ => Err (NotSupported propId)
  | Ok _ =>
      try! next := optionAt options (index + 1) in
      if EqualsIgnoreCase next "-a" then
        if (length options <=? index + 2)%nat then Err NotEnoughArguments
        else
          try! areaIdStr := optionAt options (index + 2) in
          try! areaId := parseAreaId areaNames areaIdStr propId in
          Ok (propId, areaId, (index + 3)%nat)
      else Ok (propId, 0, (index + 1)%nat)
  end.

Definition parseMinMax {T} (parse : string → option T) (gt : T → T → bool) (options : list string) (index : nat) :
    Parsed (T * T) :=
  try! values := parseOptionValues parse options index 2 in
  match values with
  | [minValue; maxValue] => if gt minValue maxValue then Err MinAboveMax else Ok (minValue, maxValue)
  | _ => Err OutOfBounds
  end.

(** [parseAndSetMinMaxValue<T>] *)
Definition parseAndSetMinMaxValue {T} (parse : string → option T) (gt : T → T → bool) (raw : T → RawPropValues)
    (propId areaId : Z) (options : list string) (index : nat) (s : Supported) : Parsed Supported :=
  try! bounds := parseMinMax parse gt options index in
  Ok (setMaxSupportedValue propId areaId (raw bounds.2) (setMinSupportedValue propId areaId (raw bounds.1) s)).

Definition triggerSupportedValueChange (propId areaId : Z) : DumpM unit :=
  mmodify (λ d, match mOnSupportedValueChangeCallback d with
                | None => d
                | Some cb => called [SupportedValueChange cb [mkPropIdAreaId propId areaId]] d
                end).

Definition dumpSetMinMaxValue (options : list string) : DumpM Reply :=
  requiring options 4 (
    let! d := mget in
    parse! (propId, areaId, index) := parseDumpOptionPropIdAreaId options 1 (storeOf d) in
    let type := getPropType propId in
    let s := hwSupported d in
    parse! s' :=
      if type =? VehiclePropertyType.INT32 then
        parseAndSetMinMaxValue ParseInt32 Z.gtb rawInt32 propId areaId options index s
      else if type =? VehiclePropertyType.INT64 then
        parseAndSetMinMaxValue ParseInt64 Z.gtb rawInt64 propId areaId options index s
      else if type =? VehiclePropertyType.FLOAT then
        parseAndSetMinMaxValue (ParseFloat underflow_errno) (λ x y, f32_ltb y x) rawFloat propId areaId options index s
      else Err UnsupportedType in
    mmodify (with_supported s') ;;;
    triggerSupportedValueChange propId areaId ;;;
    mreturn BoundsSet).

Definition parseOptionsToSupportedValuesList {T} (parse : string → option T) (raw : T → RawPropValues)
    (options : list string) (index : nat) : Parsed (list RawPropValues) :=
  try! values := parseOptionValues parse options index (length options - index) in
  match values with [] => Err NotEnoughArguments | _ => Ok (raw <$> values) end.

Definition dumpSetSupportedValues (options : list string) : DumpM Reply :=
  requiring options 3 (
    let! d := mget in
    parse! (propId, areaId, index) := parseDumpOptionPropIdAreaId options 1 (storeOf d) in
    let type := getPropType propId in
    parse! values :=
      if type =? VehiclePropertyType.INT32 then parseOptionsToSupportedValuesList ParseInt32 rawInt32 options index
      else if type =? VehiclePropertyType.INT64 then parseOptionsToSupportedValuesList ParseInt64 rawInt64 options index
      else if type =? VehiclePropertyType.FLOAT then
        parseOptionsToSupportedValuesList (ParseFloat underflow_errno) rawFloat options index
      else Err UnsupportedType in
    mmodify (λ d, with_supported (setSupportedValues propId areaId values (hwSupported d)) d) ;;;
    triggerSupportedValueChange propId areaId ;;;
    mreturn SupportedSet).

(** ** Generated data *)

Definition numberAt {A} (parse : string → option A) (options : list string) (index : nat) : Parsed A :=
  try! s := optionAt options index in
  match parse s with Some x => Ok x | None => Err (BadValue s) end.
Local Abbreviation int32At := (numberAt ParseInt32).
Local Abbreviation int64At := (numberAt ParseInt64).
Local Abbreviation floatAt := (numberAt (ParseFloat underflow_errno)).

(** [mGeneratorHub->registerGenerator]; the pointer may be null. *)
Definition registerGenerator (id : Z) (generator : option Generator) : DumpM unit := λ d,
  match generator with
  | None => (d, Err Crash)
  | Some g =>
      match nextEvent (tick (reads (storeOf d))) g with
      | None => (d, Err Crash)
      | Some (g', None) => (d, Ok tt)
      | Some (g', Some ev) => (clock ;;; mmodify (λ d, with_hub (registered id g' ev (mGeneratorHub d)) d)) d
      end
  end.

Definition stopGenerator (id : Z) : DumpM Reply := λ d,
  let '(hub, removed) := unregisterGenerator id (mGeneratorHub d) in
  (with_hub hub d, Ok (if removed : bool then GeneratorStopped else NoGenerator)).

Definition exactly (n : nat) (options : list string) (k : DumpM Reply) : DumpM Reply :=
  if (length options =? n)%nat then k else mreturn (BadArguments NotEnoughArguments).

Definition startLinear (options : list string) : DumpM Reply :=
  exactly 8 options (
    parse! propId := int32At options 2 in
    parse! middleValue := floatAt options 3 in
    parse! currentValue := floatAt options 4 in
    parse! dispersion := floatAt options 5 in
    parse! increment := floatAt options 6 in
    parse! interval := int64At options 7 in
    registerGenerator propId
      (Some (LinearGenerator (initGenCfg propId middleValue currentValue dispersion increment interval))) ;;;
    mreturn (GeneratorStarted propId)).

Definition stopLinear (options : list string) : DumpM Reply :=
  exactly 3 options (parse! propId := int32At options 2 in stopGenerator propId).

(** [JsonFakeValueGenerator(path, iteration)] *)
Definition generatorFromPath (events : option (list VehiclePropValue)) (iteration : Z) : JsonFakeValueGenerator :=
  match events with Some l => newJsonGenerator l iteration | None => mkJsonGenerator 0 [] 0 0 end.

Definition startWith (id : Z) (generator : JsonFakeValueGenerator) : DumpM Reply :=
  if hasNext generator then
    registerGenerator id (Some (JsonGenerator generator)) ;;; mreturn (GeneratorStarted id)
  else mreturn NoEvents.

Definition startJson (options : list string) : DumpM Reply :=
  if negb ((length options =? 4) || (length options =? 5))%nat then mreturn (BadArguments NotEnoughArguments)
  else
    parse! repetition := if (length options =? 5)%nat then int32At options 4 else Ok (-1) in
    parse! kind := optionAt options 2 in
    parse! source := optionAt options 3 in
    let cookie := to_i32 (hash source) in
    if String.eqb kind "--path" then
      match readFile source with
      | None => startWith cookie (generatorFromPath None repetition)
      | Some stream =>
          match parseFakeValueJson stream with
          | None => mfail Crash
          | Some events => startWith cookie (generatorFromPath (Some events) repetition)
          end
      end
    else if String.eqb kind "--content" then
      match parseFakeValueJson (readText source) with
      | None => mfail Crash
      | Some events => startWith cookie (newJsonGenerator events repetition)
      end
    else registerGenerator cookie None ;;; mreturn (GeneratorStarted cookie).

Definition stopJson (options : list string) : DumpM Reply :=
  exactly 3 options (parse! cookie := int32At options 2 in stopGenerator cookie).

(** [onValueChangeCallback] *)
Definition sendEvent (v : VehiclePropValue) : DumpM unit := λ d,
  match mOnPropertyChangeCallback d with
  | None => (d, Ok tt)
  | Some cb => (called [PropertyChange cb (subscribedUpdatedValues (hwSubscriptions d) [v])] d, Ok tt)
  end.

Definition available (now areaId propId : Z) (r : RawPropValues) : VehiclePropValue :=
  mkPropValue now areaId propId VehiclePropertyStatus.AVAILABLE r.

Definition ACTION_DOWN : Z := 0.
Definition ACTION_UP : Z := 1.

Definition createHwInputKeyProp (action keyCode targetDisplay : Z) : DumpM VehiclePropValue :=
  let! now := clock in
  mreturn (available now 0 VehicleProperty.HW_KEY_INPUT (mkRaw [action; keyCode; targetDisplay] [] [] [] EmptyString)).

Definition keyPress (options : list string) : DumpM Reply :=
  exactly 4 options (
    parse! keyCode := int32At options 2 in
    parse! display := int32At options 3 in
    let! down := createHwInputKeyProp ACTION_DOWN keyCode display in
    sendEvent down ;;;
    let! up := createHwInputKeyProp ACTION_UP keyCode display in
    sendEvent up ;;;
    mreturn EventsGenerated).

Definition createHwKeyInputV2Prop (area targetDisplay keyCode action repeatCount : Z) : DumpM VehiclePropValue :=
  let! now := clock in
  let! now' := clock in
  mreturn (available now area VehicleProperty.HW_KEY_INPUT_V2
    (mkRaw [targetDisplay; keyCode; action; repeatCount] [] [now'] [] EmptyString)).

Definition keyInputV2 (options : list string) : DumpM Reply :=
  exactly 7 options (
    parse! area := int32At options 2 in
    parse! display := int32At options 3 in
    parse! keyCode := int32At options 4 in
    parse! action := int32At options 5 in
    parse! repeatCount := int32At options 6 in
    let! v := createHwKeyInputV2Prop area display keyCode action repeatCount in
    sendEvent v ;;;
    mreturn EventsGenerated).

Record Pointer : Type := mkPointer {
  pointerId : Z; toolType : Z; xData : f32; yData : f32; pressure : f32; pointerSize : f32 }.

(** The pointers from index [i] on, [n] of them. *)
Fixpoint parsePointers (n i : nat) (options : list string) : Parsed (list Pointer) :=
  match n with
  | O => Ok []
  | S n' =>
      try! marker := optionAt options i in
      if negb (String.eqb marker "--pointer") then Err (BadValue marker)
      else
        try! id := int32At options (i + 1) in
        try! tool := int32At options (i + 2) in
        try! x := floatAt options (i + 3) in
        try! y := floatAt options (i + 4) in
        try! pr := floatAt options (i + 5) in
        try! sz := floatAt options (i + 6) in
        try! rest := parsePointers n' (i + 7) options in
        Ok (mkPointer id tool x y pr sz :: rest)
  end.

Definition createHwMotionInputProp (area display inputType action buttonState : Z) (pointers : list Pointer) :
    DumpM VehiclePropValue :=
  let! now := clock in
  let! now' := clock in
  mreturn (available now area VehicleProperty.HW_MOTION_INPUT
    (mkRaw ([display; inputType; action; buttonState; Z.of_nat (length pointers)]
              ++ (pointerId <$> pointers) ++ (toolType <$> pointers))
           ((xData <$> pointers) ++ (yData <$> pointers) ++ (pressure <$> pointers) ++ (pointerSize <$> pointers))
           [now'] [] EmptyString)).

Definition motionInput (options : list string) : DumpM Reply :=
  let optionsSize := length options in
  if (optionsSize / 7 <? 2)%nat || negb (optionsSize mod 7 =? 0)%nat then mreturn (BadArguments NotEnoughArguments)
  else
    let pointerCount := (optionsSize / 7 - 1)%nat in
    parse! area := int32At options 2 in
    parse! display := int32At options 3 in
    parse! inputType := int32At options 4 in
    parse! action := int32At options 5 in
    parse! buttonState := int32At options 6 in
    parse! pointers := parsePointers pointerCount 7 options in
    let! v := createHwMotionInputProp area display inputType action buttonState pointers in
    sendEvent v ;;;
    mreturn EventsGenerated.

Definition genFakeDataCommand (options : list string) : DumpM Reply :=
  match options with
  | _ :: command :: _ =>
      if String.eqb command "--startlinear" then startLinear options
      else if String.eqb command "--stoplinear" then stopLinear options
      else if String.eqb command "--startjson" then startJson options
      else if String.eqb command "--stopjson" then stopJson options
      else if String.eqb command "--keypress" then keyPress options
      else if String.eqb command "--keyinputv2" then keyInputV2 options
      else if String.eqb command "--motioninput" then motionInput options
      else mreturn (BadArguments (UnknownOption command))
  | _ => mreturn (BadArguments NotEnoughArguments)
  end.

(** ** dump *)

(** A command that changes nothing but what it is about. *)
Definition replying (m : DumpM Reply) : DumpM DumpResult :=
  let! r := m in mreturn (mkDumpResult false false r).

Definition vendorConfigs (b : bool) (r : Reply) : DumpM DumpResult :=
  mmodify (with_extra b) ;;; mreturn (mkDumpResult false true r).

Definition kUserHalDumpOption : string := "--user-hal".

Definition dump (options : list string) : DumpM DumpResult :=
  match options with
  | [] => let! r := dumpAllProperties in mreturn (mkDumpResult true false r)
  | option :: _ =>
      if EqualsIgnoreCase option "--help" then replying (mreturn Help)
      else if EqualsIgnoreCase option "--list" then let! d := mget in replying (mreturn (dumpListProperties d))
      else if EqualsIgnoreCase option "--get" then replying (dumpSpecificProperty options)
      else if EqualsIgnoreCase option "--getWithArg" then replying (dumpGetPropertyWithArg options)
      else if EqualsIgnoreCase option "--set" then replying (dumpSetProperties options)
      else if EqualsIgnoreCase option "--save-prop" then replying (dumpSaveProperty options)
      else if EqualsIgnoreCase option "--restore-prop" then replying (dumpRestoreProperty options)
      else if EqualsIgnoreCase option "--inject-event" then replying (dumpInjectEvent options)
      else if EqualsIgnoreCase option kUserHalDumpOption then replying (mreturn UserHal)
      else if EqualsIgnoreCase option "--genfakedata" then replying (genFakeDataCommand options)
      else if EqualsIgnoreCase option "--genTestVendorConfigs" then vendorConfigs true VendorConfigsAdded
      else if EqualsIgnoreCase option "--restoreVendorConfigs" then vendorConfigs false VendorConfigsRemoved
      else if EqualsIgnoreCase option "--dumpSub" then replying dumpSubscriptions
      else if EqualsIgnoreCase option "--set-minmaxvalue" then replying (dumpSetMinMaxValue options)
      else if EqualsIgnoreCase option "--set-supportedvalues" then replying (dumpSetSupportedValues options)
      else replying (mreturn InvalidOption)
  end.

End dump.

(** ** Reading the arguments stays inside them *)

Definition inside {A} (r : Parsed A) : Prop := r ≠ Err OutOfBounds.

Lemma inside_bind {A B} (r : Parsed A) (k : A → Parsed B) : inside r → (∀ a, inside (k a)) → inside (try! x := r in k x).
Proof. unfold inside. intros Hr Hk. destruct r as [a|e]; cbn; [apply Hk|congruence]. Qed.

Lemma optionAt_inside options i : (i < length options)%nat → inside (optionAt options i).
Proof. intros Hi. unfold optionAt, inside. destruct (lookup_lt_is_Some_2 _ _ Hi) as [s ->]. done. Qed.

Lemma parseEach_inside {A} (parse : string → option A) l : inside (parseEach parse l).
Proof.
  induction l as [|s l IH]; [done|]. cbn. destruct (parse s); [|done]. apply inside_bind; [done|]. done.
Qed.

Lemma parsePropId_inside names options i : (i < length options)%nat → inside (parsePropId names options i).
Proof.
  intros Hi. unfold parsePropId. apply inside_bind; [by apply optionAt_inside|].
  intros s. by destruct (stringToPropId names s), (ParseInt32 s).
Qed.

Lemma parseAreaId_inside names s p : inside (parseAreaId names s p).
Proof. unfold parseAreaId. repeat case_match; done. Qed.

Lemma someValues_inside {A} name vals (parse : string → option A) : inside (someValues name vals parse).
Proof. destruct vals; [done|]. apply parseEach_inside. Qed.

Lemma oneValue_inside name vals : inside (oneValue name vals).
Proof. by destruct vals as [|? []]. Qed.

Create HintDb inside.
#[export] Hint Resolve inside_bind optionAt_inside parseEach_inside parsePropId_inside parseAreaId_inside
  someValues_inside oneValue_inside : inside.

Lemma applyOption_inside undef name vals o : inside (applyOption undef name vals o).
Proof.
  unfold applyOption. repeat case_match; try done; apply inside_bind; auto with inside; intros; try done; case_match; done.
Qed.

Lemma optionLoop_inside undef n : ∀ rest o, inside (optionLoop undef n rest o).
Proof.
  induction n as [|n IH]; intros [|s rest] o; try done. cbn. destruct (getOptionValues rest) as [vals rest'].
  apply inside_bind; [apply applyOption_inside|]. intros o'. apply IH.
Qed.
#[export] Hint Resolve applyOption_inside optionLoop_inside : inside.

Lemma parsePropOptions_inside names areas undef options : (2 ≤ length options)%nat →
  inside (parsePropOptions names areas undef options).
Proof.
  intros Hn. unfold parsePropOptions. apply inside_bind; [apply parsePropId_inside; lia|]. intros p.
  apply inside_bind; [apply optionLoop_inside|]. intros o. destruct (areaOption o); [|done].
  apply inside_bind; [apply parseAreaId_inside|done].
Qed.

Lemma parseOptionValues_inside {A} (parse : string → option A) options i n : inside (parseOptionValues parse options i n).
Proof. unfold parseOptionValues. case_match; [done|]. apply parseEach_inside. Qed.

Lemma parseEach_length {A} (parse : string → option A) l xs : parseEach parse l = Ok xs → length xs = length l.
Proof.
  revert xs. induction l as [|s l IH]; intros xs; cbn; [by intros [= <-]|]. destruct (parse s); [|done].
  intros (ys & Hys & [= <-])%rbind_ok. cbn. by rewrite (IH ys).
Qed.

Lemma parseMinMax_inside {T} (parse : string → option T) gt options i : inside (parseMinMax parse gt options i).
Proof.
  unfold parseMinMax, parseOptionValues. destruct (Nat.ltb_spec (length options) (i + 2)) as [|Hn]; [done|].
  destruct (parseEach parse _) as [xs|e] eqn:E; cbn.
  - apply parseEach_length in E. rewrite length_take, length_drop in E. destruct xs as [|x [|y [|]]]; cbn [length] in E; try lia.
    unfold inside. by destruct (gt x y).
  - pose proof (parseEach_inside parse (take 2 (drop i options))) as H. rewrite E in H.
    unfold inside in *. congruence.
Qed.

Lemma parseDumpOption_inside names areas options s : (3 ≤ length options)%nat →
  inside (parseDumpOptionPropIdAreaId names areas options 1 s).
Proof.
  intros Hn. unfold parseDumpOptionPropIdAreaId. apply inside_bind; [apply parsePropId_inside; lia|]. intros p.
  case_match; [|done]. apply inside_bind; [apply optionAt_inside; lia|]. intros next. case_match; [|done].
  destruct (Nat.leb_spec (length options) (1 + 2)); [done|].
  apply inside_bind; [apply optionAt_inside; lia|]. intros ?. apply inside_bind; [apply parseAreaId_inside|done].
Qed.

Lemma numberAt_inside {A} (parse : string → option A) options i : (i < length options)%nat → inside (numberAt parse options i).
Proof. intros Hi. unfold numberAt. apply inside_bind; [by apply optionAt_inside|]. intros s. by destruct (parse s). Qed.

Lemma parsePointers_inside undef options n : ∀ i, (i + 7 * n ≤ length options)%nat → inside (parsePointers undef n i options).
Proof.
  induction n as [|n IH]; intros i Hi; [done|]. cbn [parsePointers].
  apply inside_bind; [apply optionAt_inside; lia|]. intros marker. case_match; [done|].
  do 6 (apply inside_bind; [apply numberAt_inside; lia|intros ?]). apply inside_bind; [apply IH; lia|done].
Qed.

Definition reply_inside (r : Reply) : Prop :=
  match r with
  | BadArguments e => e ≠ OutOfBounds
  | Rows (_, es) => OutOfBounds ∉ es
  | _ => True
  end.

(** A command that never replies with an access past its arguments. *)
Definition stays (m : DumpM Reply) : Prop := ∀ d d' r, m d = (d', Ok r) → reply_inside r.

Lemma stays_return r : reply_inside r → stays (mreturn r).
Proof. by intros Hr d d' r' [= <- <-]. Qed.

Lemma stays_bind {A} (m : DumpM A) k : (∀ a, stays (k a)) → stays (mbind' m k).
Proof. intros Hk d d' r. rewrite mbind_unfold. destruct (m d) as [d1 [a|e]]; [apply Hk|done]. Qed.

Lemma stays_parsing {A} (p : Parsed A) k : inside p → (∀ a, stays (k a)) → stays (parsing p k).
Proof.
  intros Hp Hk. destruct p as [a|e]; [apply Hk|]. apply stays_return. cbn. intros ->. by apply Hp.
Qed.

(** The first part of a command, likewise. *)
Definition prepares {V} (m : DumpM (Reply + V)) : Prop := ∀ d d' r, m d = (d', Ok (inl r)) → reply_inside r.

Lemma stays_continuing {V} (m : DumpM (Reply + V)) k : prepares m → (∀ v, stays (k v)) → stays (continuing m k).
Proof.
  intros Hm Hk d d' r. unfold continuing. rewrite mbind_unfold. destruct (m d) as [d1 [[r1|v]|e]] eqn:E; [|apply Hk|done].
  intros [= _ <-]. by eapply Hm.
Qed.

Lemma stays_requiring options n m : ((n ≤ length options)%nat → stays m) → stays (requiring options n m).
Proof.
  intros Hm. unfold requiring, checkArgumentsSize. destruct (Nat.leb_spec n (length options)); [by apply Hm|].
  by apply stays_return.
Qed.

Lemma stays_exactly options n m : (length options = n → stays m) → stays (exactly n options m).
Proof. intros Hm. unfold exactly. destruct (Nat.eqb_spec (length options) n); [by apply Hm|]. by apply stays_return. Qed.

Lemma stays_fail e : stays (mfail e).
Proof. by intros d d' r. Qed.

Lemma stays_stopGenerator id : stays (stopGenerator id).
Proof. intros d d' r. unfold stopGenerator. destruct (unregisterGenerator _ _) as [hub []]; by intros [= <- <-]. Qed.

(** Goes through a command. *)
Ltac staying := repeat first
  [ done
  | apply stays_stopGenerator
  | apply stays_fail
  | apply stays_requiring; intros ?
  | apply stays_exactly; intros ?
  | apply stays_bind; intros ?
  | apply stays_parsing; [|intros ?]
  | match goal with
    | |- inside (parsePropOptions _ _ _ _) => apply parsePropOptions_inside; lia
    | |- inside (parseDumpOptionPropIdAreaId _ _ _ _ _) => apply parseDumpOption_inside; lia
    | |- inside (numberAt _ _ _) => apply numberAt_inside; lia
    | |- inside (optionAt _ _) => apply optionAt_inside; lia
    | |- inside (parseMinMax _ _ _ _) => apply parseMinMax_inside
    | |- inside (parseAndSetMinMaxValue _ _ _ _ _ _ _ _) => unfold parseAndSetMinMaxValue
    | |- inside (rbind _ _) => apply inside_bind; [|intros ?]
    end
  | case_match
  | apply stays_return ].

Section laws.
  Context (tick : nat → Z) (uninit_size : Z) (service : option PowerController).
  Context (propertyNames : list (string * Z)) (areaNames : Z → list (string * Z)) (underflow_errno : string → bool).
  Context {J : Type} `{!JsonValue J} (readFile : string → option (option J)) (readText : string → option J)
    (hash : string → Z).

Local Abbreviation parseOptions := (parsePropOptions propertyNames areaNames underflow_errno).
Local Abbreviation dump := (dump tick uninit_size service propertyNames areaNames underflow_errno readFile readText hash).

Lemma supported_list_inside {T} (parse : string → option T) raw options i :
  inside (parseOptionsToSupportedValuesList parse raw options i).
Proof.
  unfold parseOptionsToSupportedValuesList. apply inside_bind; [apply parseOptionValues_inside|]. by intros [].
Qed.

Lemma stays_setMinMax options : stays (dumpSetMinMaxValue propertyNames areaNames underflow_errno options).
Proof. unfold dumpSetMinMaxValue. staying. Qed.

Lemma stays_setSupported options : stays (dumpSetSupportedValues propertyNames areaNames underflow_errno options).
Proof. unfold dumpSetSupportedValues. staying; apply supported_list_inside. Qed.

Lemma stays_motion options : stays (motionInput tick underflow_errno options).
Proof.
  unfold motionInput. destruct (_ || _) eqn:E; [by apply stays_return|].
  apply orb_false_iff in E as [E1%Nat.ltb_ge E2%negb_false_iff%Nat.eqb_eq].
  pose proof (Nat.div_mod_eq (length options) 7) as Hn. staying. apply parsePointers_inside. lia.
Qed.

Lemma stays_startJson options : stays (startJson tick readFile readText hash options).
Proof.
  unfold startJson. destruct (negb _) eqn:E; [by apply stays_return|].
  apply negb_false_iff, orb_true_iff in E.
  assert (4 ≤ length options)%nat by (destruct E as [?%Nat.eqb_eq|?%Nat.eqb_eq]; lia).
  unfold startWith. staying. apply numberAt_inside. by apply Nat.eqb_eq in H0; lia.
Qed.

Lemma stays_genFakeData options :
  stays (genFakeDataCommand tick underflow_errno readFile readText hash options).
Proof.
  unfold genFakeDataCommand. destruct options as [|o [|c options]]; [by apply stays_return|by apply stays_return|].
  unfold startLinear, stopLinear, stopJson, keyPress, keyInputV2. staying; auto using stays_startJson, stays_motion.
Qed.

Lemma collecting_Forall {A B} (f : A → DumpM B) (P : B → Prop) l d d' ys :
  (∀ x, x ∈ l → ∀ d d' y, f x d = (d', Ok y) → P y) → collecting f l d = (d', Ok ys) → Forall P ys.
Proof.
  revert d d' ys. induction l as [|x l IH]; intros d d' ys Hf; cbn; [by intros [= _ <-]|].
  rewrite mbind_unfold. destruct (f x d) as [d1 [y|e]] eqn:E; [|done]. rewrite mbind_unfold.
  destruct (collecting f l d1) as [d2 [zs|e]] eqn:E2; [|done]. intros [= _ <-]. constructor.
  - eapply Hf; [by left|exact E].
  - eapply IH; [|exact E2]. intros z Hz. apply Hf. by right.
Qed.

Lemma dumpArgument_inside options i d d' part : (i < length options)%nat →
  dumpArgument tick uninit_size service propertyNames options i d = (d', Ok part) → OutOfBounds ∉ part.2.
Proof.
  intros Hi. pose proof (parsePropId_inside propertyNames options i Hi) as Hp. unfold dumpArgument.
  destruct (parsePropId _ _ _) as [p|e].
  - rewrite mbind_mget. destruct (getPropConfig _ _).
    + rewrite mbind_unfold. destruct (dumpOnePropertyByConfig _ _ _ _ _) as [d1 [rows|?]]; [|done].
      intros [= _ <-]. apply not_elem_of_nil.
    + intros [= _ <-]. by apply not_elem_of_cons; split; [|apply not_elem_of_nil].
  - intros [= _ <-]. apply not_elem_of_cons. split; [|apply not_elem_of_nil]. cbn. intros <-. by apply Hp.
Qed.

Lemma stays_set options : stays (dumpSetProperties tick uninit_size propertyNames areaNames underflow_errno options).
Proof.
  apply stays_continuing.
  - intros d d' r. unfold dumpSetProperties_prepare, checkArgumentsSize.
    destruct (Nat.leb_spec 3 (length options)); cbn [negb]; [|by intros [= _ <-]].
    pose proof (parsePropOptions_inside propertyNames areaNames underflow_errno options ltac:(lia)) as Hp.
    destruct (parseOptions options) as [v|e]; [|by intros [= _ <-]; intros ->].
    rewrite mbind_unfold. destruct (attempt _ d) as [d1 [[[x|]|e]|e]]; by intros [= _ <-].
  - intros v. unfold dumpSetProperties_write. staying.
Qed.

Lemma stays_restore options : stays (dumpRestoreProperty tick propertyNames areaNames underflow_errno options).
Proof.
  apply stays_continuing.
  - intros d d' r. unfold dumpRestoreProperty_prepare, checkArgumentsSize.
    destruct (Nat.leb_spec 2 (length options)); cbn [negb]; [|by intros [= _ <-]].
    pose proof (parsePropOptions_inside propertyNames areaNames underflow_errno options ltac:(lia)) as Hp.
    destruct (parseOptions options) as [v|e]; [|by intros [= _ <-]; intros ->].
    rewrite mbind_mget. destruct (mSavedProps d !! savedKey v); by intros [= _ <-].
  - intros v. unfold dumpRestoreProperty_write. staying.
Qed.

Lemma stays_get options : stays (dumpSpecificProperty tick uninit_size service propertyNames options).
Proof.
  apply stays_requiring. intros Hn d d' r. rewrite mbind_unfold. destruct (collecting _ _ d) as [d1 [parts|e]] eqn:E; [|done].
  intros [= _ <-]. cbn. apply (collecting_Forall _ (λ part, OutOfBounds ∉ part.2)) in E.
  - induction E as [|part parts Hpart Hparts IH]; [apply not_elem_of_nil|]. cbn. rewrite elem_of_app. tauto.
  - intros i Hi dd dd' y. apply dumpArgument_inside. apply elem_of_seq in Hi. lia.
Qed.

(** No dump command reads past its arguments, whatever they are. *)
Theorem dump_reads_its_arguments options d d' r : dump options d = (d', Ok r) → reply_inside (buffer r).
Proof.
  unfold FakeDump.dump. destruct options as [|option options].
  - rewrite mbind_unfold. destruct (dumpAllProperties _ _ _ d) as [d1 [r1|e]] eqn:E; [|done]. intros [= _ <-].
    revert E. unfold dumpAllProperties. rewrite mbind_mget, mbind_unfold. destruct (collecting _ _ _) as [d2 [rows|e]]; [|done].
    intros [= _ <-]. apply not_elem_of_nil.
  - intros H.
    assert (Hall : ∀ m, stays m → replying m d = (d', Ok r) → reply_inside (buffer r)).
    { intros m Hm. unfold replying. rewrite mbind_unfold. destruct (m d) as [d1 [r1|e]] eqn:E; [|done].
      intros [= _ <-]. eapply Hm, E. }
    revert H. repeat case_match; try (by intros [= _ <-]); apply Hall; try (unfold dumpGetPropertyWithArg,
      dumpSaveProperty, dumpInjectEvent; by staying);
      auto using stays_set, stays_restore, stays_get, stays_genFakeData, stays_setMinMax, stays_setSupported.
Qed.

(** ** Commands and requests *)

Lemma attempt_run {A} (m : HWM A) d :
  attempt m d = match m (hwValues d) with
                | (h, Ok a) => (with_values h d, Ok (Ok a))
                | (h, Err Crash) => (with_values h d, Err Crash)
                | (h, Err e) => (with_values h d, Ok (Err e))
                end.
Proof. done. Qed.

Lemma command_length command v : (4 ≤ length (valueArguments command v))%nat.
Proof.
  unfold valueArguments, valueOptions. rewrite !fmap_app, !concat_app. cbn. rewrite !length_app. cbn. lia.
Qed.

(** The reply to a request that the hardware answers. *)
Definition answering {A} (reply : A → Reply) (failed : HwError → Reply) (r : HW * result HwError A) (d : Hardware) :
    Hardware * result HwError DumpResult :=
  match r with
  | (h, Ok a) => (with_values h d, Ok (mkDumpResult false false (reply a)))
  | (h, Err Crash) => (with_values h d, Err Crash)
  | (h, Err e) => (with_values h d, Ok (mkDumpResult false false (failed e)))
  end.

(** What a command does when it writes value [p], stamped before, in state [d]:
    the write is accepted when the property and its area are configured and no
    newer value is stored; it then leaves the value under the stored status and
    replies [ok].  Otherwise nothing changes and it replies with the error. *)
Definition writes_stamped (write : DumpM Reply) (ok : Reply) (failed : HwError → Reply) (p : VehiclePropValue)
    (d : Hardware) : Prop :=
  let '(d', r) := write d in
  (admissible (storeOf d) p → r = Ok ok ∧ ∃ w, readValue p (storeOf d') = Ok w ∧
     value w = value p ∧ timestamp w = timestamp p ∧ areaId w = areaId p ∧ prop w = prop p ∧
     status w = match readValue p (storeOf d) with
                | Ok old => status old | Err _ => VehiclePropertyStatus.AVAILABLE end) ∧
  (¬ admissible (storeOf d) p → r = Ok (failed (Failed INVALID_ARG)) ∧ d' = d).

Lemma write_stamped p d ok failed :
  writes_stamped (let! r := attempt (writeM tick p false ON_VALUE_CHANGE false) in
                  mreturn (match r with Ok _ => ok | Err e => failed e end)) ok failed p d.
Proof.
  unfold writes_stamped. rewrite mbind_unfold, attempt_run. unfold writeM, writeValue.
  change (mServerSidePropStore (hwValues d)) with (storeOf d).
  destruct (decide (admissible (storeOf d) p)) as [Ha|Ha].
  - pose proof Ha as (rec & Hrec & _). rewrite (writeStamped_accepted _ _ _ _ rec Ha Hrec).
    cbv beta iota zeta. split; [intros _|done]. split; [done|]. eexists. split.
    { unfold readValue, getRecordLocked, emit, storeOf. cbn. rewrite lookup_insert_eq. unfold readValueLocked. cbn.
      change (getRecordIdLocked p (set_values _ rec)) with (getRecordIdLocked p rec). by rewrite lookup_insert_eq. }
    unfold readValue, getRecordLocked, readValueLocked. rewrite Hrec. unfold write_status.
    by destruct (values rec !! getRecordIdLocked p rec).
  - rewrite writeStamped_rejected by done. cbv beta iota zeta. split; [done|]. intros _. split; [done|].
    destruct d as [[] ? ? ? ? ? ? ? ? ?]. done.
Qed.

Lemma obtainCopyM_value v h : ∃ h', obtainCopyM uninit_size v h = (h', Ok v).
Proof.
  unfold obtainCopyM, withPool, obtainCopy, mbind'. destruct (obtainVec _ _ _ _) as [r p']. cbn. eexists.
  f_equal. f_equal. by destruct v as [? ? ? ? []].
Qed.

(** C12: [--set] and [--getWithArg] with the arguments that spell a value, which
    has no floats and the status AVAILABLE, and whose property is given by number
    ([spellable], and no property is named by that number): when no other thread
    runs between the parts of [--set], both do to the hardware exactly what
    [setValue] and [getValue] of the value do and report their outcome, special
    rules, errors and events alike.  When others do run, [--set] writes the
    value under the time it read before: it is accepted when nothing newer is
    stored by then and reported as failed, changing nothing, when something is,
    where [setValue], which stamps the value under the lock, is never late. *)
Theorem dump_commands_are_requests v d :
  spellable v → stringToPropId propertyNames (pretty (prop v)) = None →
  dump (valueArguments "--set" v) d =
    answering (λ _, PropertySet) SetFailed (setValue tick uninit_size v (hwValues d)) d ∧
  dump (valueArguments "--getWithArg" v) d =
    answering PropertyRead ReadFailed (getValue tick uninit_size service v (hwValues d)) d ∧
  ∀ d1 p, dumpSetProperties_prepare tick uninit_size propertyNames areaNames underflow_errno
            (valueArguments "--set" v) d = (d1, Ok (inr p)) →
    (∃ k, p = set_timestamp (tick k) v ∧ reads (storeOf d1) = S k) ∧
    ∀ d2, writes_stamped (dumpSetProperties_write tick p) PropertySet SetFailed p d2.
Proof.
  intros Hv Hname.
  assert (Hlen : ∀ c n, (n ≤ 4)%nat → checkArgumentsSize (valueArguments c v) n = true).
  { intros c n Hn. unfold checkArgumentsSize. pose proof (command_length c v). apply Nat.leb_le. lia. }
  assert (Hprep : dumpSetProperties_prepare tick uninit_size propertyNames areaNames underflow_errno
            (valueArguments "--set" v) d =
    (let! r := attempt (
        let! isSpecialValue := maybeSetSpecialValue tick uninit_size v in
        if isSpecialValue then mreturn None
        else
          let! updatedValue := obtainCopyM uninit_size v in
          let! now := elapsedRealtimeNano tick in
          mreturn (Some (set_timestamp now updatedValue))) in
      mreturn (match r with
               | Ok (Some updatedValue) => inr updatedValue
               | Ok None => inl PropertySet
               | Err e => inl (SetFailed e)
               end)) d).
  { unfold dumpSetProperties_prepare. rewrite Hlen by lia. cbn [negb]. by rewrite parse_valueArguments. }
  split_and!.
  - change (dump (valueArguments "--set" v) d) with
      (replying (dumpSetProperties tick uninit_size propertyNames areaNames underflow_errno (valueArguments "--set" v)) d).
    unfold replying, dumpSetProperties, continuing. rewrite !mbind_unfold, Hprep, mbind_unfold, attempt_run.
    unfold setValue. rewrite !mbind_unfold.
    destruct (maybeSetSpecialValue tick uninit_size v (hwValues d)) as [h [[]|[]]]; [done| |done..].
    rewrite !mbind_unfold. destruct (obtainCopyM_value v h) as [h' ->].
    unfold dumpSetProperties_write, writeM. cbn -[writeValue]. rewrite mbind_unfold, attempt_run. cbn -[writeStamped].
    unfold answering, writeM, writeValue. cbn -[writeStamped]. by destruct (writeStamped _ _ _ _) as [s [[]|e]].
  - change (dump (valueArguments "--getWithArg" v) d) with
      (replying (dumpGetPropertyWithArg tick uninit_size service propertyNames areaNames underflow_errno (valueArguments "--getWithArg" v)) d).
    unfold dumpGetPropertyWithArg, replying, requiring. rewrite Hlen by lia. rewrite parse_valueArguments by done. cbn [parsing].
    rewrite mbind_unfold, mbind_unfold, attempt_run.
    change (readAny tick uninit_size service v) with (getValue tick uninit_size service v).
    unfold answering. by destruct (getValue tick uninit_size service v (hwValues d)) as [h [a|[]]].
  - intros d1 p. rewrite Hprep, mbind_unfold, attempt_run, mbind_unfold.
    destruct (maybeSetSpecialValue tick uninit_size v (hwValues d)) as [h [[]|[]]]; [done| |done..].
    rewrite mbind_unfold. destruct (obtainCopyM_value v h) as [h' ->]. cbn. intros [= <- <-].
    split; [by eexists|]. intros d2. apply write_stamped.
Qed.

(** ** Saving and restoring *)

(** C32: What [--save-prop] saves is what [--restore-prop] of the same property and
    area brings back, if nothing else was saved or restored in between, whatever
    else happened to the hardware.  The restore takes the value out of the saved
    ones (another restore then finds nothing and changes nothing), stamps it and
    writes it; other threads may run before the write.  The data of the saved
    value is back when the property and area are still configured and nothing
    newer was stored since the stamp, under the time of the restore, but with
    the status that is stored then, not the saved one; otherwise the restore
    fails, and the saved value is gone. *)
Theorem restore_brings_back_what_was_saved saving restoring v0 v1 o d d1 d2 :
  checkArgumentsSize saving 2 = true → parseOptions saving = Ok v0 →
  checkArgumentsSize restoring 2 = true → parseOptions restoring = Ok v1 → savedKey v1 = savedKey v0 →
  readValue v0 (storeOf d) = Ok o →
  dumpSaveProperty propertyNames areaNames underflow_errno saving d = (d1, Ok Saved) →
  mSavedProps d2 = mSavedProps d1 →
  let o' := set_timestamp (tick (reads (storeOf d2))) o in
  let prepare := dumpRestoreProperty_prepare tick propertyNames areaNames underflow_errno restoring in
  let restore := dumpRestoreProperty tick propertyNames areaNames underflow_errno restoring in
  storeOf d1 = storeOf d ∧
  ∃ d3, prepare d2 = (d3, Ok (inr o')) ∧ storeOf d3 = bump_clock (storeOf d2) ∧
    restore d2 = dumpRestoreProperty_write tick o' d3 ∧
    (∀ d4, writes_stamped (dumpRestoreProperty_write tick o') Restored RestoreFailed o' d4) ∧
    ∀ d4, mSavedProps d4 = mSavedProps d3 → restore d4 = (d4, Ok NothingSaved).
Proof.
  intros Hs Hp0 Hr Hp1 Hk Ho Hsave Hsame o' prepare restore.
  unfold dumpSaveProperty, requiring, parsing in Hsave. rewrite Hs, Hp0, mbind_mget, Ho, mbind_mmodify in Hsave.
  injection Hsave as <-. split; [done|].
  assert (Hprep : ∀ d, prepare d = match mSavedProps d !! savedKey v0 with
    | None => (d, Ok (inl NothingSaved))
    | Some x => (mmodify (λ d, with_saved (delete (savedKey v0) (mSavedProps d)) d) ;;;
        let! now := clock tick in mreturn (inr (set_timestamp now x))) d end).
  { intros e. unfold prepare, dumpRestoreProperty_prepare. rewrite Hr, Hp1. cbn [negb]. rewrite mbind_mget, Hk.
    by destruct (mSavedProps e !! savedKey v0). }
  assert (Hrun : ∃ d3, prepare d2 = (d3, Ok (inr o')) ∧ storeOf d3 = bump_clock (storeOf d2) ∧
            mSavedProps d3 !! savedKey v0 = None).
  { rewrite Hprep, Hsame. cbn [mSavedProps with_saved]. rewrite lookup_insert_eq. eexists. split_and!; [done|done|].
    cbn. apply lookup_delete_eq. }
  destruct Hrun as (d3 & E & Est & Hno). exists d3. split_and!; [done|done| | |].
  - unfold restore, dumpRestoreProperty, continuing. fold prepare. by rewrite mbind_unfold, E.
  - intros d4. apply write_stamped.
  - intros d4 H4. unfold restore, dumpRestoreProperty, continuing. fold prepare.
    by rewrite mbind_unfold, Hprep, H4, Hno.
Qed.

(** ** Supported values *)

(** The order in which bounds are checked, in the type of the property. *)
Definition bound_above (a b : RawPropValues) : bool :=
  match int32Values a, int64Values a, floatValues a, int32Values b, int64Values b, floatValues b with
  | [x], [], [], [y], [], [] | [], [x], [], [], [y], [] => Z.gtb x y
  | [], [], [x], [], [], [y] => f32_ltb y x
  | _, _, _, _, _, _ => false
  end.

Definition supportedChanged (p a : Z) (d : Hardware) : list Call :=
  match mOnSupportedValueChangeCallback d with
  | Some cb => [SupportedValueChange cb [mkPropIdAreaId p a]]
  | None => []
  end.

Lemma set_bounds {T} (parse : string → option T) gt raw p a options i s s' :
  (∀ x y, bound_above (raw x) (raw y) = gt x y) →
  parseAndSetMinMaxValue parse gt raw p a options i s = Ok s' →
  ∃ lo hi, s' = setMaxSupportedValue p a hi (setMinSupportedValue p a lo s) ∧ bound_above lo hi = false.
Proof.
  intros Hraw (b & Hb & [= <-])%rbind_ok. exists (raw b.1), (raw b.2). split; [done|]. rewrite Hraw.
  apply rbind_ok in Hb as (vals & _ & H). destruct vals as [|x [|y []]]; [done..| |done].
  destruct (gt x y) eqn:E; [done|]. by injection H as <-.
Qed.

Lemma bounds_answered p a lo hi s : getMinMaxSupportedValues [mkPropIdAreaId p a]
    (setMaxSupportedValue p a hi (setMinSupportedValue p a lo s)) = [mkMinMaxSupportedValueResult OK (Some lo) (Some hi)].
Proof.
  unfold getMinMaxSupportedValues. cbn -[lookup insert]. by rewrite !lookup_insert_eq.
Qed.

(** [--set-minmaxvalue] either rejects its arguments and changes nothing, or
    sets both bounds of one property and area of which the lower is not above
    the upper; [getMinMaxSupportedValues] then answers with them, and the
    registered callback is told this property and area, once. *)
Theorem set_bounds_are_reported options d d' r :
  dumpSetMinMaxValue propertyNames areaNames underflow_errno options d = (d', Ok r) →
  (∃ e, r = BadArguments e ∧ d' = d) ∨
  (r = BoundsSet ∧ ∃ p a lo hi, is_Some (mRecordsByPropId (storeOf d) !! p) ∧ bound_above lo hi = false ∧
     d' = called (supportedChanged p a d)
            (with_supported (setMaxSupportedValue p a hi (setMinSupportedValue p a lo (hwSupported d))) d) ∧
     getMinMaxSupportedValues [mkPropIdAreaId p a] (hwSupported d') =
       [mkMinMaxSupportedValueResult OK (Some lo) (Some hi)]).
Proof.
  unfold dumpSetMinMaxValue, requiring. destruct (checkArgumentsSize options 4); [|intros [= <- <-]; left; eauto].
  rewrite mbind_mget. destruct (parseDumpOptionPropIdAreaId _ _ _ _ _) as [[[p a] i]|e] eqn:Ep; [|intros [= <- <-]; left; eauto].
  cbn [parsing].
  match goal with |- parsing ?x _ _ = _ → _ => destruct x as [s'|e] eqn:Es end; [|intros [= <- <-]; left; eauto].
  cbn [parsing]. rewrite mbind_mmodify. unfold triggerSupportedValueChange. rewrite mbind_mmodify. intros [= <- <-]. right. split; [done|].
  assert (∃ lo hi, s' = setMaxSupportedValue p a hi (setMinSupportedValue p a lo (hwSupported d)) ∧ bound_above lo hi = false)
    as (lo & hi & -> & Hlo).
  { revert Es. repeat case_match; try done; by apply set_bounds. }
  assert (is_Some (mRecordsByPropId (storeOf d) !! p)).
  { apply rbind_ok in Ep as (p' & _ & Hc). unfold getPropConfig, getRecordLocked in Hc.
    destruct (mRecordsByPropId (storeOf d) !! p') eqn:E; [|done]. apply rbind_ok in Hc as (n & _ & Hn).
    destruct (EqualsIgnoreCase n "-a"); [destruct (_ <=? _)%nat; [done|]|]; [apply rbind_ok in Hn as (? & _ & (? & _ & [= <- _ _])%rbind_ok)|injection Hn as <- _ _]; by rewrite E. }
  exists p, a, lo, hi. split_and!; [done|done| |].
  - unfold supportedChanged. cbn. destruct (mOnSupportedValueChangeCallback d); [done|].
    unfold called, with_supported. cbn. by rewrite app_nil_r.
  - rewrite <- (bounds_answered p a lo hi (hwSupported d)). f_equal. cbn. by destruct (mOnSupportedValueChangeCallback d).
Qed.

(** ** The vendor configurations for tests *)

Lemma vendor_props p : p ∈ pc_prop <$> generateVendorConfigs ↔ isVendorTestProp p = true.
Proof.
  unfold generateVendorConfigs. rewrite <- list_fmap_compose, (list_fmap_ext _ id) by done. rewrite list_fmap_id, elem_of_seqZ.
  unfold isVendorTestProp. rewrite andb_true_iff, Z.leb_le, Z.ltb_lt. lia.
Qed.

(** The two vendor commands switch between the configurations of the store and
    these with the test properties added, one configuration for each property
    that reads treat as a test property and no other; every switch asks the
    caller to refresh its copy of the configurations. *)
Theorem vendor_configs_toggle d :
  ∃ d1 d2, dump ["--genTestVendorConfigs"] d = (d1, Ok (mkDumpResult false true VendorConfigsAdded)) ∧
    dump ["--restoreVendorConfigs"] d1 = (d2, Ok (mkDumpResult false true VendorConfigsRemoved)) ∧
    (∀ p, p ∈ pc_prop <$> getAllPropertyConfigs d1 ↔
       p ∈ pc_prop <$> getAllConfigs (storeOf d) ∨ isVendorTestProp p = true) ∧
    length (getAllPropertyConfigs d1) = (length (getAllConfigs (storeOf d)) + 8192)%nat ∧
    getAllPropertyConfigs d2 = getAllConfigs (storeOf d).
Proof.
  exists (with_extra true d), (with_extra false d). split_and!; [done|done| | |].
  - intros p. unfold getAllPropertyConfigs. cbn [mAddExtraTestVendorConfigs with_extra].
    rewrite fmap_app, elem_of_app, vendor_props. done.
  - unfold getAllPropertyConfigs. cbn [mAddExtraTestVendorConfigs with_extra].
    rewrite length_app. unfold generateVendorConfigs. rewrite length_fmap, length_seqZ. done.
  - apply app_nil_r.
Qed.

End laws.

(** ** Examples *)

Definition example_hardware : Hardware :=
  mkHardware example_hw noSupported newSubscriptions ∅ newHub false (Some 1%nat) None (Some 2%nat) [].

Definition example_dump : list string → Hardware → Hardware * result HwError DumpResult :=
  dump example_tick 0 None [("HVAC_FAN_SPEED"%string, VehicleProperty.HVAC_FAN_SPEED)]
    (λ t, if t =? VehicleArea.SEAT then [("ROW_1_LEFT"%string, 49)] else []) (λ _, true)
    (λ _, None) (λ _, Some (JArray [])) (λ _, 0).

Definition example_reply (options : list string) (d : Hardware) : option Reply :=
  match snd (example_dump options d) with Ok r => Some (buffer r) | Err _ => None end.

(** [--startjson] with anything but [--path] and [--content] registers a null
    generator, which the hub dereferences. *)
Example startjson_null_generator :
  snd (example_dump ["--genfakedata"; "--startjson"; "content"; "[]"] example_hardware) = Err Crash.
Proof. by vm_compute. Qed.

(** [nan] is a number: as a bound it passes the check, and a linear generator
    of an int32 property converts it. *)
Example nan_is_accepted :
  example_reply ["--set-minmaxvalue"; "358614275"; "-a"; "49"; "nan"; "20"] example_hardware = Some BoundsSet ∧
  snd (example_dump ["--genfakedata"; "--startlinear"; "356517120"; "nan"; "nan"; "1"; "1"; "1000"] example_hardware) = Err Crash.
Proof. by vm_compute. Qed.

(** Options are recognised in any case only where one is expected: in any other
    case they do not end the values before them. *)
Example upper_case_options :
  example_reply ["--set"; "HVAC_FAN_SPEED"; "-I"; "3"; "-a"; "ROW_1_LEFT"] example_hardware = Some PropertySet ∧
  example_reply ["--set"; "HVAC_FAN_SPEED"; "-i"; "3"; "-A"; "ROW_1_LEFT"] example_hardware = Some (BadArguments (BadValue "-A")).
Proof. by vm_compute. Qed.

Lemma dump_reads_its_arguments_witness :
  reply_inside (match snd (example_dump ["--set-minmaxvalue"; "HVAC_FAN_SPEED"; "-a"; "49"] example_hardware) with
                | Ok r => buffer r | Err _ => Help end).
Proof.
  destruct (example_dump ["--set-minmaxvalue"; "HVAC_FAN_SPEED"; "-a"; "49"] example_hardware) as [d' [r|e]] eqn:E.
  - exact (dump_reads_its_arguments _ _ _ _ _ _ _ _ _ _ _ _ _ E).
  - exact I.
Defined.

Definition admissibleb (s : Store) (v : VehiclePropValue) : bool :=
  match mRecordsByPropId s !! prop v with
  | None => false
  | Some record =>
      (isGlobalProp (prop v) || match getAreaConfigOf v (propConfig record) with Some _ => true | None => false end) &&
      match VehiclePropertyStore.values record !! getRecordIdLocked v record with Some o => timestamp o <=? timestamp v | None => true end
  end.

Lemma admissibleb_iff s v : admissibleb s v = true ↔ admissible s v.
Proof.
  unfold admissibleb, admissible. destruct (mRecordsByPropId s !! prop v) as [record|]; [|by split; [|intros (? & ? & _)]].
  rewrite andb_true_iff, orb_true_iff. split.
  - intros [Hc Ht]. exists record. split; [done|]. split.
    + destruct Hc as [Hc|Hc]; [by left|right]. by destruct (getAreaConfigOf v (propConfig record)).
    + intros o Ho. rewrite Ho in Ht. by apply Z.leb_le.
  - intros (r & [= <-] & Hc & Ht). split.
    + destruct Hc as [Hc|[x Hx]]; [by left|right]. by rewrite Hx.
    + destruct (VehiclePropertyStore.values record !! _) as [o|]; [|done]. by apply Z.leb_le, Ht.
Qed.

Definition saved_hw : Hardware :=
  match example_dump ["--set"; "HVAC_FAN_SPEED"; "-i"; "3"; "-a"; "49"] example_hardware with (d, _) => d end.
Definition disturbed_hw (d : Hardware) : Hardware :=
  match example_dump ["--set"; "HVAC_FAN_SPEED"; "-i"; "9"; "-a"; "49"] d with (d', _) => d' end.
Definition fan_request : VehiclePropValue :=
  mkPropValue 0 49 VehicleProperty.HVAC_FAN_SPEED VehiclePropertyStatus.AVAILABLE emptyRaw.
Definition fan_value : VehiclePropValue :=
  match readValue fan_request (storeOf saved_hw) with Ok v => v | Err _ => fan_request end.

Definition example_prepare : DumpM (Reply + VehiclePropValue) :=
  dumpSetProperties_prepare example_tick 0 [("HVAC_FAN_SPEED"%string, VehicleProperty.HVAC_FAN_SPEED)]
    (λ t, if t =? VehicleArea.SEAT then [("ROW_1_LEFT"%string, 49)] else []) (λ _, true)
    (valueArguments "--set" (example_int VehicleProperty.HVAC_FAN_SPEED 49 3)).

(** Undisturbed, [--set] is [setValue]; with another [--set] in between, its
    write comes too late. *)
Lemma dump_commands_are_requests_witness :
  let v := example_int VehicleProperty.HVAC_FAN_SPEED 49 3 in
  example_dump (valueArguments "--set" v) example_hardware =
    answering (λ _, PropertySet) SetFailed (setValue example_tick 0 v example_hw) example_hardware ∧
  ∃ d1 p, example_prepare example_hardware = (d1, Ok (inr p)) ∧
    dumpSetProperties_write example_tick p (disturbed_hw d1) =
      (disturbed_hw d1, Ok (SetFailed (Failed INVALID_ARG))).
Proof.
  intros v. unfold example_dump.
  assert (Hv : spellable v).
  { split; try done; cbn; unfold in_i32, in_i64, is_byte, two31, two63; try lia; repeat constructor; try lia.
    unfold not_option, SET_PROP_OPTIONS. rewrite !elem_of_cons, elem_of_nil. naive_solver. }
  destruct (dump_commands_are_requests example_tick 0 None [("HVAC_FAN_SPEED"%string, VehicleProperty.HVAC_FAN_SPEED)]
    (λ t, if t =? VehicleArea.SEAT then [("ROW_1_LEFT"%string, 49)] else []) (λ _, true)
    (λ _, None) (λ _, Some (JArray [])) (λ _, 0) v example_hardware Hv ltac:(by vm_compute)) as (H1 & _ & H3).
  split; [exact H1|]. destruct (example_prepare example_hardware) as [d1 r] eqn:E.
  destruct r as [[r|p]|e]; [by vm_compute in E..| |by vm_compute in E]. exists d1, p. split; [done|].
  destruct (H3 d1 p E) as [_ Hw]. specialize (Hw (disturbed_hw d1)). unfold writes_stamped in Hw.
  destruct (dumpSetProperties_write example_tick p (disturbed_hw d1)) as [d3 r]. destruct Hw as [_ Hw].
  destruct Hw as [-> ->]; [|done]. rewrite <- admissibleb_iff. vm_compute in E. injection E as <- <-. by vm_compute.
Defined.

Lemma restore_brings_back_what_was_saved_witness :
  let save := dumpSaveProperty [("HVAC_FAN_SPEED"%string, VehicleProperty.HVAC_FAN_SPEED)] (λ _, []) (λ _, true)
                ["--save-prop"; "HVAC_FAN_SPEED"; "-a"; "49"] in
  let restore := dumpRestoreProperty example_tick [("HVAC_FAN_SPEED"%string, VehicleProperty.HVAC_FAN_SPEED)] (λ _, []) (λ _, true)
                ["--restore-prop"; "HVAC_FAN_SPEED"; "-a"; "49"] in
  let d2 := disturbed_hw (fst (save saved_hw)) in
  let o' := set_timestamp (example_tick (reads (storeOf d2))) fan_value in
  ∃ d3 w, restore d2 = (d3, Ok Restored) ∧ readValue o' (storeOf d3) = Ok w ∧ int32Values (value w) = [3].
Proof.
  intros save restore d2 o'.
  destruct (restore_brings_back_what_was_saved example_tick
    [("HVAC_FAN_SPEED"%string, VehicleProperty.HVAC_FAN_SPEED)] (λ _, []) (λ _, true)
    ["--save-prop"; "HVAC_FAN_SPEED"; "-a"; "49"] ["--restore-prop"; "HVAC_FAN_SPEED"; "-a"; "49"]
    fan_request fan_request fan_value saved_hw (fst (save saved_hw)) d2) as (_ & d3 & _ & Hst & Hrun & Hw & _);
    [by vm_compute..|].
  specialize (Hw d3). fold restore o' in Hrun, Hw. unfold writes_stamped in Hw. rewrite <- Hrun in Hw.
  destruct (restore d2) as [d5 r] eqn:E. destruct Hw as [Hw _]. destruct Hw as (-> & w & Hr & Hval & _).
  - rewrite Hst. apply admissibleb_iff. by vm_compute.
  - exists d5, w. split_and!; [done|exact Hr|]. rewrite Hval. by vm_compute.
Defined.

Lemma set_bounds_are_reported_witness :
  let options := ["--set-minmaxvalue"; "HVAC_FAN_SPEED"; "-a"; "49"; "1"; "7"]%string in
  let run := dumpSetMinMaxValue [("HVAC_FAN_SPEED"%string, VehicleProperty.HVAC_FAN_SPEED)] (λ _, []) (λ _, true) options in
  ∃ lo hi, getMinMaxSupportedValues [mkPropIdAreaId VehicleProperty.HVAC_FAN_SPEED 49] (hwSupported (fst (run example_hardware)))
    = [mkMinMaxSupportedValueResult OK (Some lo) (Some hi)] ∧ bound_above lo hi = false.
Proof.
  intros options run. assert (E : run example_hardware = (fst (run example_hardware), Ok BoundsSet)) by by vm_compute.
  destruct (set_bounds_are_reported _ _ _ _ _ _ _ E) as [(e & He & _)|(_ & p & a & lo & hi & _ & Hlo & Hd & Hans)]; [done|].
  exists lo, hi. split; [|exact Hlo]. rewrite <- Hans. f_equal.
  assert (Hcalls : calls (fst (run example_hardware)) = [SupportedValueChange 2 [mkPropIdAreaId VehicleProperty.HVAC_FAN_SPEED 49]])
    by by vm_compute.
  rewrite Hd in Hcalls. by injection Hcalls as <- <-.
Defined.
