(* ===== verification/VehicleService.v ===== *)
(** * VehicleService: the server process

    Models [server/vhal/src/VehicleService.cpp] and the life of the server
    object it starts ([Start], [Wait], [Shutdown] of
    [grpc/GRPCVehicleProxyServer.cpp]): the fake hardware behind the proxy
    server, as one process that others call through [VehicleServer].

    A call of the service is one step of the process: the hardware's worker
    threads run while it waits, and the batches in which they find the requests
    are a parameter ([cut]).  The events a call makes the hardware report are
    queued for the event writer in the same step.  As a call takes one step, its
    timeout ([kHardwareOpTimeout]) never fires here: the step is a call whose
    answers come in time; what SetValues and GetValues do when they do not is
    in GRPCVehicleProxyServer.  [None] is a process that is
    not up, has crashed or has locked itself out: its callers get UNAVAILABLE. *)

From stdpp Require Import base gmap sets list strings.
From Stdlib Require Import ZArith Lia.
From S2P Require Import Prelude Float32 NumberParse VehicleTypes VehicleProperty VehicleUtils.
From S2P Require Import VehicleObjectPool VehiclePropertyStore ConcurrentQueue FakeUserHal FakeSubscriptions.
From S2P Require Import FakeHardwareValues FakeHardwareLaws FakeRequests FakeInit JsonValue FakeDump.
From S2P Require Import VehicleHardware ProtoMessageConverter GRPCVehicleProxyServer.

Local Open Scope Z_scope.
Local Open Scope vhal_scope.

(** ** Starting and stopping the server *)

Record ServerObject : Type := mkServerObject {
  mServiceAddrs : list string;
  mServer : option bool;               (* null, or whether it was shut down *)
  eventServer : EventServer;
  writerJoined : bool;                 (* [mEventWriterThread] is no longer joinable *)
}.

Definition newServer (serverAddrs : list string) : ServerObject :=
  mkServerObject serverAddrs None newEventServer false.

(** [BuildAndStart] of gRPC: whether it listens on all the addresses.  [None]:
    the [CHECK] fails. *)
Definition Start (BuildAndStart : list string → bool) (s : ServerObject) : option ServerObject :=
  match mServer s with
  | Some _ => Some s
  | None => if BuildAndStart (mServiceAddrs s)
            then Some (mkServerObject (mServiceAddrs s) (Some false) (eventServer s) (writerJoined s))
            else None
  end.

(** The three parts of [Shutdown]: the flag, the [join] (which blocks, [None],
    until the writer has exited), and the connections with the server. *)
Definition Shutdown_flag (s : ServerObject) : ServerObject :=
  mkServerObject (mServiceAddrs s) (mServer s)
    (mkEventServer (valueStream (eventServer s)) (changeStream (eventServer s)) true (mEventWriterThread (eventServer s)))
    (writerJoined s).
Definition Shutdown_join (s : ServerObject) : option ServerObject :=
  if writerJoined s then Some s
  else match mEventWriterThread (eventServer s) with
       | WriterExited => Some (mkServerObject (mServiceAddrs s) (mServer s) (eventServer s) true)
       | _ => None
       end.
Definition Shutdown_streams (s : ServerObject) : ServerObject :=
  let e := eventServer s in
  mkServerObject (mServiceAddrs s) (match mServer s with Some _ => Some true | None => None end)
    (mkEventServer (shutdownStream (valueStream e)) (shutdownStream (changeStream e)) (mStopEventWriter e) (mEventWriterThread e))
    (writerJoined s).

Definition with_events (e : EventServer) (s : ServerObject) : ServerObject :=
  mkServerObject (mServiceAddrs s) (mServer s) e (writerJoined s).

(** [Shutdown], the event writer making [n] steps after the flag is set. *)
Definition Shutdown (n : nat) (up : nat → nat → bool) (s : ServerObject) : option ServerObject :=
  let s := Shutdown_flag s in
  e ← writer_run n 0 up (eventServer s);
  s ← Shutdown_join (with_events e s);
  Some (Shutdown_streams s).

(** [Wait] blocks ([None]) while the server runs. *)
Definition Wait (s : ServerObject) : option ServerObject :=
  match mServer s with
  | Some false => None
  | _ => Some (mkServerObject (mServiceAddrs s) None (eventServer s) (writerJoined s))
  end.

(** The implicit destructor; [None]: a joinable thread is destroyed, which
    terminates the process. *)
Definition destroy (s : ServerObject) : option unit := if writerJoined s then Some tt else None.

(** [main], from the arguments after the program's name: the server is started
    and waited for, and destroyed on return.  [run] is what becomes of it
    before [Wait] sees it; [None]: [main] does not return. *)
Definition kDefaultAddr : string := "0.0.0.0:50051".
Definition serviceAddr (args : list string) : string := match args with [] => kDefaultAddr | addr :: _ => addr end.
Definition main (BuildAndStart : list string → bool) (run : ServerObject → ServerObject) (args : list string) : option unit :=
  server ← Start BuildAndStart (newServer [serviceAddr args]);
  server ← Wait (run server);
  destroy server.

(** [main] returns only when someone has called [Shutdown] for it. *)
Lemma main_returns_iff BuildAndStart run args :
  main BuildAndStart run args = Some tt ↔
  BuildAndStart [serviceAddr args] = true ∧
  ∀ server, Start BuildAndStart (newServer [serviceAddr args]) = Some server →
    mServer (run server) ≠ Some false ∧ writerJoined (run server) = true.
Proof.
  unfold main, Start, Wait, destroy. cbn. destruct (BuildAndStart _); [|by split; [|intros [? _]]]. cbn. split.
  - intros E. split; [done|]. intros server [= <-]. destruct (mServer (run _)) as [[]|]; cbn in E; try done; by destruct (writerJoined _).
  - intros [_ H]. destruct (H _ eq_refl) as [Hs Hw]. destruct (mServer (run _)) as [[]|]; cbn; try done; by rewrite Hw.
Qed.

(** The event writer moves what is queued to what is written, in order. *)
Lemma writer_run_keeps n : ∀ i up s s', writer_run n i up s = Some s' →
  allValues s' = allValues s ∧ allChanges s' = allChanges s.
Proof.
  induction n as [|n IH]; intros i up s s'; cbn [writer_run]; [by intros [= ->]|].
  destruct (eventWriter_step (up i) s) as [s1|] eqn:E; [|done]. intros [-> ->]%IH.
  by destruct (eventWriter_step_keeps _ _ _ E) as (-> & -> & _).
Qed.

(** C17: Shutting down an idle server writes the events that were queued, then
    closes every stream: the writer needs finitely many steps whatever writes
    fail, after which [Wait] returns and the object can be destroyed, which is
    not so before. *)
Theorem shutdown_flushes_events s up :
  mEventWriterThread (eventServer s) = WriterWaiting → writerJoined s = false → mServer s = Some false →
  Wait s = None ∧ destroy s = None ∧
  ∃ n s', Shutdown n up s = Some s' ∧
    (let e := eventServer s in let e' := eventServer s' in
     history (valueStream e') = history (valueStream e) ++ mQueue (valueStream e) ∧
     history (changeStream e') = history (changeStream e) ++ mQueue (changeStream e) ∧
     Forall (λ c, conn_done c = true) (connections (valueStream e')) ∧
     Forall (λ c, conn_done c = true) (connections (changeStream e')) ∧
     eventWriter_step (up 0%nat) e' = None) ∧
    ∃ s'', Wait s' = Some s'' ∧ mServer s'' = None ∧ destroy s'' = Some tt.
Proof.
  intros Hw Hj Hs. split; [by unfold Wait; rewrite Hs|]. split; [by unfold destroy; rewrite Hj|].
  destruct (event_writer_terminates (eventServer (Shutdown_flag s)) up) as (n & e1 & E & _ & H).
  destruct (H Hw) as [[Hv Hc] Hx]. specialize (Hx eq_refl). clear H.
  destruct (writer_run_keeps _ _ _ _ _ E) as [Kv Kc]. unfold allValues, allChanges in Kv, Kc.
  cbn in Kv, Kc. rewrite Hx, Hv, Hw in Kv. rewrite Hx, Hc, Hw in Kc. cbn in Kv, Kc. rewrite app_nil_r in Kv, Kc.
  exists n. eexists. split.
  { unfold Shutdown. rewrite E. cbn. unfold Shutdown_join. cbn. rewrite Hj, Hx. reflexivity. }
  cbn. split.
  - split_and!; [exact Kv|exact Kc| | |by unfold eventWriter_step; cbn; rewrite Hx];
      apply Forall_fmap, Forall_forall; by intros.
  - unfold Wait. cbn. rewrite Hs. eexists. split; [done|]. by split.
Qed.

(** ** The process *)

Record Process : Type := mkProcess { hardware : FakeDump.Hardware; served : EventServer }.

(** What the hardware reports of an event of the store: [onValuesChangeCallback]. *)
Definition eventValues (e : VehiclePropertyStore.Event) : list VehiclePropValue :=
  match e with OnValueChange _ v => [v] | OnValuesChange _ vs => vs end.
Definition reportOf (d : FakeDump.Hardware) (e : VehiclePropertyStore.Event) : list Call :=
  match mOnPropertyChangeCallback d with
  | None => []
  | Some cb =>
      match onValuesChangeCallback true (eventValues e) (hwSubscriptions d) with
      | Some values => [PropertyChange cb values]
      | None => []
      end
  end.

(** The calls of the registered callbacks between two states of a call. *)
Definition reports (d d' : FakeDump.Hardware) : list Call :=
  concat (reportOf d' <$> drop (length (emitted (storeOf d))) (emitted (storeOf d')))
  ++ drop (length (calls d)) (calls d').

(** The callbacks the proxy server registered: they queue the event. *)
Definition onCall (e : EventServer) (c : Call) : EventServer :=
  match c with
  | PropertyChange _ values => OnVehiclePropChange values e
  | SupportedValueChange _ ids => OnSupportedValuesChange ids e
  end.

Definition perform {A} (f : FakeDump.Hardware → option (FakeDump.Hardware * A)) (p : Process) : option (Process * A) :=
  '(d, a) ← f (hardware p);
  Some (mkProcess d (foldl onCall (served p) (reports (hardware p) d)), a).

(** A method of the hardware, on a process that may have crashed. *)
Definition inProcess {A} (placeholder : A) (f : FakeDump.Hardware → option (FakeDump.Hardware * A)) (p : option Process) :
    option Process * A :=
  match p with
  | None => (None, placeholder)
  | Some p => match perform f p with Some (p', a) => (Some p', a) | None => (None, placeholder) end
  end.

Definition statusOf (s : HwStatus) : StatusCode :=
  match s with Code c => c | VENDOR_ERROR_CODE => VendorStatus 0x00ab0005 end.
Definition toGetValueResult (r : HwGetResult) : GetValueResult :=
  mkGetValueResult (hg_requestId r) (statusOf (hg_status r)) (hg_prop r).
Definition toSetValueResult (r : HwSetResult) : SetValueResult :=
  mkSetValueResult (hs_requestId r) (statusOf (hs_status r)).

Definition on_values {A} (f : HW → option (HW * A)) (d : FakeDump.Hardware) : option (FakeDump.Hardware * A) :=
  '(h, a) ← f (hwValues d); Some (with_values h d, a).
Definition with_subscriptions (s : Subscriptions) (d : FakeDump.Hardware) : FakeDump.Hardware :=
  FakeDump.mkHardware (hwValues d) (hwSupported d) s (mSavedProps d) (mGeneratorHub d) (mAddExtraTestVendorConfigs d)
    (mOnPropertyChangeCallback d) (mOnPropertySetErrorCallback d) (mOnSupportedValueChangeCallback d) (calls d).
Definition on_subscriptions (f : Subscriptions → result crash (Subscriptions * StatusCode)) (d : FakeDump.Hardware) :
    option (FakeDump.Hardware * StatusCode) :=
  match f (hwSubscriptions d) with
  | Ok (s, code) => Some (with_subscriptions s d, code)
  | Err _ => None
  end.
Definition unchanged {A} (f : FakeDump.Hardware → A) (d : FakeDump.Hardware) : option (FakeDump.Hardware * A) :=
  Some (d, f d).

Section process.
  (** The clock, the size of a vector the code leaves unset, and the power
      controller; how many requests the worker finds at a time. *)
  Context (tick : nat → Z) (uninit_size : Z) (service : option PowerController).
  Context (cut : ∀ A, list A → list (list A)).
  (** As in FakeDump, and the text of a reply. *)
  Context (propertyNames : list (string * Z)) (areaNames : Z → list (string * Z)) (underflow_errno : string → bool).
  Context {J : Type} `{!JsonValue J} (readFile : string → option (option J)) (readText : string → option J)
    (hash : string → Z) (wording : Reply → string).

(** [FakeVehicleHardware::subscribe], with the time at which it runs. *)
Definition process_subscribe (o : SubscribeOptions) (d : FakeDump.Hardware) : option (FakeDump.Hardware * StatusCode) :=
  let s := storeOf d in
  on_subscriptions (FakeSubscriptions.subscribe (tick (reads s)) o s)
    (with_values (set_store (bump_clock s) (hwValues d)) d).

Definition process_hardware : VehicleHardware.Hardware (option Process) := {|
  hw_subscribe o := inProcess INTERNAL_ERROR (process_subscribe o);
  hw_unsubscribe propId areaId := inProcess INTERNAL_ERROR (on_subscriptions (FakeSubscriptions.unsubscribe propId areaId));
  hw_updateSampleRate propId areaId rate := inProcess INTERNAL_ERROR (unchanged (λ _, OK));       (* the interface's *)
  hw_subscribeSupportedValueChange ids := inProcess INTERNAL_ERROR (unchanged (λ _, OK));
  hw_unsubscribeSupportedValueChange ids := inProcess INTERNAL_ERROR (unchanged (λ _, OK)) |}.

Definition process_getValues (requests : list GetValueRequest) (p : option Process) :
    option Process * StatusCode * list (list GetValueResult) :=
  let '(p', batches) := inProcess [] (on_values (serveBatches (handleGetValueRequest tick uninit_size service) 0 (cut _ requests))) p in
  (p', match p' with Some _ => OK | None => INTERNAL_ERROR end, map (map toGetValueResult) batches).
Definition process_setValues (requests : list SetValueRequest) (p : option Process) :
    option Process * StatusCode * list (list SetValueResult) :=
  let '(p', batches) := inProcess [] (on_values (serveBatches (handleSetValueRequest tick uninit_size) 0 (cut _ requests))) p in
  (p', match p' with Some _ => OK | None => INTERNAL_ERROR end, map (map toSetValueResult) batches).

Definition process_configs (p : option Process) : list VehiclePropConfig :=
  match p with None => [] | Some p => FakeDump.getAllPropertyConfigs (hardware p) end.

Definition process_values : ValueHardware (option Process) := {|
  hw_getAllPropertyConfigs := process_configs;
  hw_getPropertyConfig propId p := default_getPropertyConfig propId (process_configs p);
  hw_getValues := process_getValues;
  hw_setValues := process_setValues;
  hw_getSupportedValuesLists ids := inProcess [] (unchanged (λ d, FakeInit.getSupportedValuesLists ids (hwSupported d)));
  hw_getMinMaxSupportedValues ids := inProcess [] (unchanged (λ d, FakeInit.getMinMaxSupportedValues ids (hwSupported d)));
  hw_checkHealth := inProcess INTERNAL_ERROR (unchanged (λ _, OK)) |}.

Definition noDump : GRPCVehicleProxyServer.DumpResult := GRPCVehicleProxyServer.mkDumpResult false "" false.
Definition process_dump : DumpHardware (option Process) := {|
  hw_dump options := inProcess noDump (λ d,
    match FakeDump.dump tick uninit_size service propertyNames areaNames underflow_errno readFile readText hash options d with
    | (d', Ok r) => Some (d', GRPCVehicleProxyServer.mkDumpResult (FakeDump.callerShouldDumpState r)
                                (wording (FakeDump.buffer r)) (FakeDump.refreshPropertyConfigs r))
    | (_, Err _) => None
    end) |}.
#[local] Existing Instances process_hardware process_values process_dump.

(** ** The service *)

Definition UNAVAILABLE : GrpcCode := OtherCode 14.

(** A call during which the process dies, or of a dead process. *)
Definition answered {A} (nothing : A) (r : option Process * GrpcStatus * A) : option Process * GrpcStatus * A :=
  match r with
  | (Some p, status, a) => (Some p, status, a)
  | (None, _, _) => (None, GrpcError UNAVAILABLE, nothing)
  end.

Definition proxy : VehicleServer (option Process) := GrpcVehicleProxyServer (λ _ _, []) (λ _ _, []) (λ _, true).
#[local] Existing Instance proxy.

Definition process_server : VehicleServer (option Process) := {|
  rpc_GetAllPropertyConfig p := match p with
    | Some _ => GetAllPropertyConfig (λ _, true) p
    | None => ([], GrpcError UNAVAILABLE)
    end;
  rpc_SetValues requests p := answered [] (SetValues (λ _ _, []) requests p);
  rpc_GetValues requests p := answered [] (GetValues (λ _ _, []) requests p);
  rpc_UpdateSampleRate propId areaId rate p := answered OK (UpdateSampleRate propId areaId rate p);
  rpc_Subscribe o p := answered OK (Subscribe o p);
  rpc_Unsubscribe propId areaId p := answered OK (Unsubscribe propId areaId p);
  rpc_CheckHealth p := answered OK (CheckHealth p);
  rpc_Dump options p := answered noDump (Dump options p);
  rpc_GetMinMaxSupportedValues ids p := answered [] (GetMinMaxSupportedValues ids p);
  rpc_GetSupportedValuesLists ids p := answered [] (GetSupportedValuesLists ids p) |}.

(** ** What a call gives *)

Context (cut_concat : ∀ A (l : list A), concat (cut A l) = l).
Context (cut_nonempty : ∀ A (l : list A), Forall (λ b, b ≠ []) (cut A l)).

(** The process once the hardware's values are [h]. *)
Definition after (h : HW) (p : Process) : Process :=
  let d := with_values h (hardware p) in mkProcess d (foldl onCall (served p) (reports (hardware p) d)).

Lemma cut_some A (l : list A) : l ≠ [] → cut A l ≠ [].
Proof. intros Hl Hc. apply Hl. by rewrite <- (cut_concat A l), Hc. Qed.

Lemma concat_map_map {A B} (f : A → B) (l : list (list A)) : concat (map (map f) l) = f <$> concat l.
Proof. by rewrite concat_map. Qed.

(** The results of a method of the process that serves [requests]. *)
Lemma serve_spec {Q R} (handle : Q → HW → option (HW * R)) requests p :
  inProcess [] (on_values (serveBatches handle 0 (cut _ requests))) (Some p) =
    match handleAll handle requests (hwValues (hardware p)) with
    | None => (None, [])
    | Some (h, _) => (Some (after h p),
        match serveBatches handle 0 (cut _ requests) (hwValues (hardware p)) with Some (_, b) => b | None => [] end)
    end.
Proof.
  pose proof (serveBatches_spec handle 0 (cut _ requests) (hwValues (hardware p)) (cut_nonempty _ requests)) as H.
  rewrite cut_concat in H. unfold inProcess, perform, on_values.
  destruct (handleAll handle requests _) as [[h rs]|]; [destruct H as (calls & -> & _)|rewrite H]; done.
Qed.

Lemma serve_results {Q R} (handle : Q → HW → option (HW * R)) requests h0 h rs :
  handleAll handle requests h0 = Some (h, rs) → requests ≠ [] →
  ∃ calls, serveBatches handle 0 (cut _ requests) h0 = Some (h, calls) ∧ concat calls = rs ∧ calls ≠ [].
Proof.
  intros E Hne. pose proof (serveBatches_spec handle 0 (cut _ requests) h0 (cut_nonempty _ requests)) as H.
  rewrite cut_concat, E in H. destruct H as (calls & Hs & Hc & Hl). exists calls. split_and!; [done..|].
  intros ->. by apply (cut_some _ _ Hne), nil_length_inv.
Qed.

(** A call whose results cover its ids gives all of them. *)
Lemma await_all {A R} (id : A → Z) (toProto : A → R) ids (calls : list (list A)) :
  id <$> concat calls = ids → calls ≠ [] →
  let p := awaitResults id toProto ids calls in complete p = true ∧ tmpResults p = toProto <$> concat calls.
Proof.
  intros Hids Hne. destruct (awaitResults_spec id toProto ids calls) as [Hr Hc]. cbv zeta in *. split; [|exact Hr].
  apply Hc. split; [done|]. by rewrite Hids.
Qed.

Lemma toSetRequest_id (requests : list pVehiclePropValueRequest) : sq_requestId <$> (toSetRequest <$> requests) = q_request_id <$> requests.
Proof. rewrite <- list_fmap_compose. by apply list_fmap_ext. Qed.
Lemma toGetRequest_id (requests : list pVehiclePropValueRequest) : gq_requestId <$> (toGetRequest <$> requests) = q_request_id <$> requests.
Proof. rewrite <- list_fmap_compose. by apply list_fmap_ext. Qed.

Lemma service_set requests p : requests ≠ [] →
  rpc_SetValues (VehicleServer := process_server) requests (Some p) =
    match handleAll (handleSetValueRequest tick uninit_size) (toSetRequest <$> requests) (hwValues (hardware p)) with
    | Some (h, rs) => (Some (after h p), GrpcOk, setResultToProto <$> (toSetValueResult <$> rs))
    | None => (None, GrpcError UNAVAILABLE, [])
    end.
Proof.
  intros Hne. cbn [rpc_SetValues process_server]. unfold SetValues. cbn [hw_setValues process_values].
  unfold process_setValues. rewrite serve_spec. assert (Hne' : toSetRequest <$> requests ≠ []) by (by destruct requests).
  destruct (handleAll _ (toSetRequest <$> requests) _) as [[h rs]|] eqn:E; [|done].
  destruct (serve_results _ _ _ _ _ E Hne') as (calls & -> & Hc & Hcne). rewrite decide_False by (intros H; by apply H).
  rewrite app_nil_r. destruct (await_all sr_requestId setResultToProto (q_request_id <$> requests) (map (map toSetValueResult) calls))
    as [-> ->].
  - rewrite concat_map_map, Hc, <- list_fmap_compose, <- toSetRequest_id.
    exact (handleAll_ids _ sq_requestId hs_requestId _ (set_keeps_id tick uninit_size) _ _ _ E).
  - by destruct calls.
  - cbn. by rewrite concat_map_map, Hc.
Qed.

Lemma service_get requests p : requests ≠ [] →
  rpc_GetValues (VehicleServer := process_server) requests (Some p) =
    match handleAll (handleGetValueRequest tick uninit_size service) (toGetRequest <$> requests) (hwValues (hardware p)) with
    | Some (h, rs) => (Some (after h p), GrpcOk, getResultToProto <$> (toGetValueResult <$> rs))
    | None => (None, GrpcError UNAVAILABLE, [])
    end.
Proof.
  intros Hne. cbn [rpc_GetValues process_server]. unfold GetValues. cbn [hw_getValues process_values].
  unfold process_getValues. rewrite serve_spec. assert (Hne' : toGetRequest <$> requests ≠ []) by (by destruct requests).
  destruct (handleAll _ (toGetRequest <$> requests) _) as [[h rs]|] eqn:E; [|done].
  destruct (serve_results _ _ _ _ _ E Hne') as (calls & -> & Hc & Hcne). rewrite decide_False by (intros H; by apply H).
  rewrite app_nil_r. destruct (await_all gr_requestId getResultToProto (q_request_id <$> requests) (map (map toGetValueResult) calls))
    as [-> ->].
  - rewrite concat_map_map, Hc, <- list_fmap_compose, <- toGetRequest_id.
    exact (handleAll_ids _ gq_requestId hg_requestId _ (get_keeps_id tick uninit_size service) _ _ _ E).
  - by destruct calls.
  - cbn. by rewrite concat_map_map, Hc.
Qed.

(** The service answers a call with the results of handling its requests one
    after the other, whatever batches the worker takes them in; when handling
    them crashes the process, the caller gets UNAVAILABLE and no result. *)
Theorem service_answers_requests requests p : requests ≠ [] →
  rpc_SetValues (VehicleServer := process_server) requests (Some p) =
    match handleAll (handleSetValueRequest tick uninit_size) (toSetRequest <$> requests) (hwValues (hardware p)) with
    | Some (h, rs) => (Some (after h p), GrpcOk, setResultToProto <$> (toSetValueResult <$> rs))
    | None => (None, GrpcError UNAVAILABLE, [])
    end ∧
  rpc_GetValues (VehicleServer := process_server) requests (Some p) =
    match handleAll (handleGetValueRequest tick uninit_size service) (toGetRequest <$> requests) (hwValues (hardware p)) with
    | Some (h, rs) => (Some (after h p), GrpcOk, getResultToProto <$> (toGetValueResult <$> rs))
    | None => (None, GrpcError UNAVAILABLE, [])
    end.
Proof. intros Hne. split; [by apply service_set|by apply service_get]. Qed.
End process.

(** ** Examples *)

(** A queued event, and a stream whose writes fail. *)
Definition ex_server_object : ServerObject :=
  mkServerObject [kDefaultAddr] (Some false)
    (OnVehiclePropChange [example_value 3] (mkEventServer (startStream true newStream) newStream false WriterWaiting)) false.

Lemma shutdown_flushes_events_witness : ∃ n s', Shutdown n (λ _ _, false) ex_server_object = Some s' ∧
  history (valueStream (eventServer s')) = [[aidlToProto (example_value 3) freshProto]] ∧ destroy s' = Some tt.
Proof.
  destruct (shutdown_flushes_events ex_server_object (λ _ _, false) eq_refl eq_refl eq_refl)
    as (_ & _ & n & s' & E & (Hh & _) & s'' & Hw & _ & Hd).
  exists n, s'. split; [exact E|]. split; [exact Hh|]. unfold Wait in Hw.
  unfold destroy in *. destruct (mServer s') as [[]|]; try discriminate Hw; injection Hw as <-; exact Hd.
Defined.

Definition ex_fake : Process :=
  mkProcess (FakeDump.mkHardware example_hw FakeInit.noSupported newSubscriptions ∅ GeneratorHub.newHub false (Some 1%nat) None None [])
    newEventServer.

(** The worker takes every request by itself. *)
Definition ex_cut (A : Type) (l : list A) : list (list A) := map (λ x, [x]) l.
Lemma ex_cut_concat A (l : list A) : concat (ex_cut A l) = l.
Proof. induction l as [|x l IH]; [done|]. cbn. f_equal. exact IH. Qed.
Lemma ex_cut_nonempty A (l : list A) : Forall (λ b, b ≠ []) (ex_cut A l).
Proof. induction l; by constructor. Qed.

Definition ex_service : VehicleServer (option Process) :=
  process_server example_tick 0 None ex_cut [] (λ _, []) (λ _, true) (J := Json) (λ _, None) (λ _, None) (λ _, 0) (λ _, EmptyString).

(** A set of the odometer, from the wire. *)
Definition ex_set : pVehiclePropValueRequest :=
  mkpRequest 4 (Some (aidlToProto (example_int VehicleProperty.VehicleProperty.PERF_ODOMETER 0 7) freshProto)).

Lemma service_answers_requests_witness : ∃ h,
  rpc_SetValues (VehicleServer := ex_service) [ex_set] (Some ex_fake) = (Some (after h ex_fake), GrpcOk, [mkpSetResult 4 OK]).
Proof.
  destruct (service_answers_requests example_tick 0 None ex_cut [] (λ _, []) (λ _, true) (J := Json) (λ _, None) (λ _, None)
    (λ _, 0) (λ _, EmptyString) ex_cut_concat ex_cut_nonempty [ex_set] ex_fake ltac:(discriminate)) as [Hs _].
  destruct (handleAll (handleSetValueRequest example_tick 0) (toSetRequest <$> [ex_set]) (hwValues (hardware ex_fake)))
    as [[h rs]|] eqn:E.
  - exists h. etransitivity; [exact Hs|]. apply (f_equal (option_map snd)) in E. vm_compute in E. injection E as <-. reflexivity.
  - exfalso. apply (f_equal (option_map snd)) in E. vm_compute in E. discriminate E.
Defined.
