(* ===== verification/VhalBridge.v ===== *)
(** * VhalBridge: the Android service over the server process

    Models [vhal-bridge/main.cpp], which puts [DefaultVehicleHal] on top of a
    [GRPCVehicleHardware] connected to the server process of VehicleService,
    and follows a request through all of them: HAL, client, service, proxy
    server, request worker, property store, and back. *)

From S2P Require Import JsonValue.
From stdpp Require Import base gmap sets list strings.
From Stdlib Require Import ZArith Lia.
From S2P Require Import Prelude Float32 VehicleTypes VehicleUtils PendingRequestPool ConcurrentQueue.
From S2P Require Import VehicleHardware SubscriptionManager ConnectedClient DefaultVehicleHal.
From S2P Require Import VehiclePropertyStore FakeSubscriptions FakeHardwareValues FakeHardwareLaws FakeRequests.
From S2P Require Import FakeDump ProtoMessageConverter GRPCVehicleProxyServer GRPCVehicleHardware RemoteHardware VehicleService.

Local Open Scope Z_scope.

(** ** The HAL over a hardware that answers at once *)

(** A client may add these requests: none is pending, and the limit holds. *)
Definition room (pool : Pool) (c : ClientId) (ids : gset Z) : Prop :=
  pending pool c ## ids ∧
  Z.of_nat (size (pending pool c)) + Z.of_nat (size ids) ≤ MAX_PENDING_REQUEST_PER_CLIENT.

(** What a call that was answered at once leaves: the hardware's new state,
    nothing more pending than before, and the configurations. *)
Record settled {HS} (bound : Z) (h : Hal HS) (x : HS) (h' : Hal HS) : Prop := {
  st_hardware : hal_hardware h' = x;
  st_manager : mSubscriptionManager h' = set_hardware x (mSubscriptionManager h);
  st_pool : pool_inv bound (mPendingRequestPool h');
  st_pending : ∀ c, pending (mPendingRequestPool h') c = pending (mPendingRequestPool h) c;
  st_init : mConfigInit h' = mConfigInit h;
  st_configs : mConfigsByPropId h' = mConfigsByPropId h;
  st_batching : mBatchedEventQueue h' = mBatchedEventQueue h;
}.

Lemma filter_all {A} (P : A → Prop) `{∀ x, Decision (P x)} (l : list A) : Forall P l → filter P l = l.
Proof. induction 1 as [|x l Hx _ IH]; [done|]. by rewrite filter_cons_True, IH. Qed.

Lemma omap_all_None {A B} (f : A → option B) (l : list A) : (∀ x, x ∈ l → f x = None) → omap f l = [].
Proof.
  induction l as [|x l IH]; [done|]. intros Hf. cbn. rewrite Hf by left. apply IH. intros y Hy. apply Hf. by right.
Qed.

Section answering.
  Context {HS : Type} `{!ValueHardware HS}.
  Context (asBinder : Z → Z) (ub_check : VehiclePropValue → bool).
  Context (VersionForVehicleProperty : Z → option Z) (value_lt : VehiclePropValue → VehiclePropValue → bool).
  Context (interfaceVersion testInterfaceVersion : Z).
  Implicit Types h : Hal HS.

Lemma addRequests_room timeout c ids cb now pool bound : pool_inv bound pool → bound ≤ now + timeout → room pool c ids →
  ∃ pool', PendingRequestPool.addRequests timeout c ids cb now pool = (pool', Ok tt) ∧ pool_inv (now + timeout) pool' ∧
    ∀ c', pending pool' c' = if decide (c' = c) then pending pool c ∪ ids else pending pool c'.
Proof.
  intros Hp Hb [Hd Hr]. pose proof (addRequests_inv timeout c ids cb now bound pool Hp Hb) as Hp'.
  pose proof (addRequests_pending asBinder VersionForVehicleProperty timeout c ids cb now pool) as Ha.
  rewrite (addRequests_cases timeout c ids cb now pool bound Hp) in Hp', Ha |- *. cbn zeta in *.
  rewrite decide_True in Hp', Ha |- * by done.
  assert (Z.of_nat (count_ids (default [] (pool !! c))) + Z.of_nat (size ids) ≤ MAX_PENDING_REQUEST_PER_CLIENT) as Hle.
  { rewrite count_ids_size by apply (client_of _ _ c Hp). exact Hr. }
  rewrite decide_True in Hp', Ha |- * by done. eexists. split; [done|]. by destruct Ha.
Qed.

Lemma sendToHardware_answered {R Q} `{ResultType R} (idOf : Q → Z) call c (requests : list Q) now bound h x (rs : list R) :
  let ids : gset Z := list_to_set (idOf <$> requests) in
  requests ≠ [] → pool_inv bound (mPendingRequestPool h) → bound ≤ now + TIMEOUT_IN_NANO →
  room (mPendingRequestPool h) (client_id c) ids →
  call requests (hal_hardware h) = (x, OK, [rs]) → (requestId <$> rs) = (idOf <$> requests) →
  ∃ h', sendToHardware idOf call c [] requests now h = (h', [(mCallback c, callCallback rs)], StatusOk) ∧
    settled (now + TIMEOUT_IN_NANO) h x h'.
Proof.
  intros ids Hne Hp Hb Hroom Hcall Hids.
  destruct (addRequests_room TIMEOUT_IN_NANO (client_id c) ids (client_id c) now _ bound Hp Hb Hroom) as (pool1 & Ha & Hp1 & Hpend1).
  unfold sendToHardware, client_addRequests. fold ids. rewrite Ha. destruct requests as [|q l]; [done|].
  change (hal_hardware (set_pool pool1 h)) with (hal_hardware h). rewrite Hcall. cbn [deliver_results].
  unfold onHardwareResults. cbn [mPendingRequestPool set_hal_hardware set_manager set_pool].
  pose proof (getOrSetValuesCallback_delivers (client_id c) (mCallback c) rs pool1) as Hd.
  destruct (getOrSetValuesCallback (client_id c) (mCallback c) rs pool1) as [pool2 calls] eqn:Eg. destruct Hd as [-> Hpend2].
  assert (Hall : filter (λ r, requestId r ∈ pending pool1 (client_id c)) rs = rs).
  { apply filter_all. apply Forall_forall. intros r Hr. rewrite Hpend1, decide_True by done. apply elem_of_union_r.
    apply elem_of_list_to_set. rewrite <- Hids. by apply list_elem_of_fmap_2. }
  rewrite Hall. destruct rs as [|r rs]; [done|]. cbn [app]. rewrite decide_True by done.
  eexists. split; [done|]. split; try done.
  - cbn. unfold getOrSetValuesCallback in Eg.
    pose proof (tryFinishRequests_inv (client_id c) (list_to_set (requestId <$> r :: rs)) _ pool1 Hp1) as Hi.
    destruct (tryFinishRequests _ _ pool1) as [p f]. by injection Eg as <- _.
  - intros c'. cbn. rewrite Hpend2, Hids. fold ids. rewrite Hpend1. case_decide as Hc; [|by rewrite Hpend1, decide_False].
    subst c'. rewrite decide_True by done. destruct Hroom as [Hdis _]. set_solver.
Qed.

(** A hardware that refuses the call without a result. *)
Lemma sendToHardware_refused {R Q} `{ResultType R} (idOf : Q → Z) call c (requests : list Q) now bound h x e :
  let ids : gset Z := list_to_set (idOf <$> requests) in
  requests ≠ [] → pool_inv bound (mPendingRequestPool h) → bound ≤ now + TIMEOUT_IN_NANO →
  room (mPendingRequestPool h) (client_id c) ids →
  call requests (hal_hardware h) = (x, e, []) → e ≠ OK →
  ∃ h', sendToHardware (R := R) idOf call c [] requests now h = (h', [], ServiceSpecific e) ∧
    settled (now + TIMEOUT_IN_NANO) h x h'.
Proof.
  intros ids Hne Hp Hb Hroom Hcall He.
  destruct (addRequests_room TIMEOUT_IN_NANO (client_id c) ids (client_id c) now _ bound Hp Hb Hroom) as (pool1 & Ha & Hp1 & Hpend1).
  unfold sendToHardware, client_addRequests. fold ids. rewrite Ha. destruct requests as [|q l]; [done|].
  change (hal_hardware (set_pool pool1 h)) with (hal_hardware h). rewrite Hcall. cbn [deliver_results]. rewrite decide_False by done.
  cbn [mPendingRequestPool set_hal_hardware set_manager set_pool]. unfold client_tryFinishRequests.
  pose proof (tryFinishRequests_inv (client_id c) ids _ pool1 Hp1) as Hi.
  pose proof (tryFinishRequests_pending (client_id c) ids pool1) as Hf.
  destruct (tryFinishRequests _ _ pool1) as [pool2 found]. eexists. split; [done|]. split; try done.
  intros c'. destruct (Hf c') as [_ E]. cbn. rewrite E, !Hpend1. repeat case_decide; subst; try done.
  destruct Hroom as [Hdis _]. set_solver.
Qed.

(** Registering a client and its death recipient touches none of this. *)
Record same_core h h0 : Prop := {
  sc_pool : mPendingRequestPool h0 = mPendingRequestPool h;
  sc_manager : mSubscriptionManager h0 = mSubscriptionManager h;
  sc_init : mConfigInit h0 = mConfigInit h;
  sc_configs : mConfigsByPropId h0 = mConfigsByPropId h;
  sc_batching : mBatchedEventQueue h0 = mBatchedEventQueue h;
}.

Lemma settled_from bound h h0 x h' : same_core h h0 → settled bound h0 x h' → settled bound h x h'.
Proof.
  intros [C1 C2 C3 C4 C5] [S1 S2 S3 S4 S5 S6 S7]. rewrite C1 in S4. rewrite C2 in S2. rewrite C3 in S5. rewrite C4 in S6.
  rewrite C5 in S7. by split.
Qed.

Lemma monitor_core k h : let h1 := (monitorBinderLifeCycleLocked (asBinder k) true h).1 in
  same_core h h1 ∧ mGetValuesClients h1 = mGetValuesClients h ∧ mSetValuesClients h1 = mSetValuesClients h ∧
  mNextAddress h1 = mNextAddress h ∧ (monitorBinderLifeCycleLocked (asBinder k) true h).2 = true.
Proof. unfold monitorBinderLifeCycleLocked. by destruct (decide _). Qed.

Notation hal_setValues := (DefaultVehicleHal.setValues asBinder ub_check VersionForVehicleProperty value_lt
  interfaceVersion testInterfaceVersion).
Notation hal_getValues := (DefaultVehicleHal.getValues asBinder VersionForVehicleProperty value_lt
  interfaceVersion testInterfaceVersion).
Notation hal_write_failure := (write_failure ub_check VersionForVehicleProperty interfaceVersion testInterfaceVersion).
Notation hal_read_failure := (read_failure VersionForVehicleProperty interfaceVersion testInterfaceVersion).

(** Requests that pass the checks, of a living client, go to the hardware. *)
Lemma hal_setValues_sends k requests now h :
  checkDuplicateRequests value_lt (sq_value <$> requests) [] = Ok tt →
  (∀ q, q ∈ requests → hal_write_failure q h = None) →
  ∃ h0, same_core h h0 ∧ hal_setValues (Some k) requests now true h =
    sendToHardware sq_requestId hw_setValues (clientOf asBinder (mSetValuesClients h) k (mNextAddress h)) [] requests now h0.
Proof.
  intros Hdup Hck. unfold DefaultVehicleHal.setValues. rewrite Hdup, split_requests_spec.
  rewrite (omap_all_None _ _ Hck), (filter_all _ requests) by by apply Forall_forall. cbn [app].
  destruct (monitor_core k h) as (Hcore & _ & M & Ma & Mb).
  destruct (monitorBinderLifeCycleLocked (asBinder k) true h) as [h1 b]. cbn [fst snd] in *. subst b. cbn [negb].
  rewrite M, Ma. pose proof (getOrCreateClient_spec asBinder (mSetValuesClients h) k (mNextAddress h)) as [G1 _].
  destruct (getOrCreateClient _ _ _ _) as [[clients next] c']. cbn in G1. subst c'.
  eexists. split; [|reflexivity]. by destruct Hcore.
Qed.

Lemma hal_getValues_sends k requests now h :
  checkDuplicateRequests value_lt (gq_prop <$> requests) [] = Ok tt →
  (∀ q, q ∈ requests → hal_read_failure q h = None) →
  ∃ h0, same_core h h0 ∧ hal_getValues (Some k) requests now true h =
    sendToHardware gq_requestId hw_getValues (clientOf asBinder (mGetValuesClients h) k (mNextAddress h)) [] requests now h0.
Proof.
  intros Hdup Hck. unfold DefaultVehicleHal.getValues. rewrite Hdup, split_requests_spec.
  rewrite (omap_all_None _ _ Hck), (filter_all _ requests) by by apply Forall_forall. cbn [app].
  destruct (monitor_core k h) as (Hcore & M & _ & Ma & Mb).
  destruct (monitorBinderLifeCycleLocked (asBinder k) true h) as [h1 b]. cbn [fst snd] in *. subst b. cbn [negb].
  rewrite M, Ma. pose proof (getOrCreateClient_spec asBinder (mGetValuesClients h) k (mNextAddress h)) as [G1 _].
  destruct (getOrCreateClient _ _ _ _) as [[clients next] c']. cbn in G1. subst c'.
  eexists. split; [|reflexivity]. by destruct Hcore.
Qed.

(** Requests the HAL sends on: they are distinct and pass its checks, and its
    pool has room for them. *)
Record sendable {Q R} (idOf : Q → Z) (valueOf : Q → VehiclePropValue) (failure : Q → option R) (c : ConnectedClient)
    (requests : list Q) now bound h : Prop := {
  se_some : requests ≠ [];
  se_distinct : checkDuplicateRequests value_lt (valueOf <$> requests) [] = Ok tt;
  se_checks : ∀ q, q ∈ requests → failure q = None;
  se_pool : pool_inv bound (mPendingRequestPool h);
  se_bound : bound ≤ now + TIMEOUT_IN_NANO;
  se_room : room (mPendingRequestPool h) (client_id c) (list_to_set (idOf <$> requests));
}.

Lemma hal_setValues_answered k requests now bound h x rs :
  let c := clientOf asBinder (mSetValuesClients h) k (mNextAddress h) in
  sendable sq_requestId sq_value (λ q, hal_write_failure q h) c requests now bound h →
  hw_setValues requests (hal_hardware h) = (x, OK, [rs]) → sr_requestId <$> rs = sq_requestId <$> requests →
  ∃ h', hal_setValues (Some k) requests now true h = (h', [(mCallback c, onSetValues rs)], StatusOk) ∧
    settled (now + TIMEOUT_IN_NANO) h x h'.
Proof.
  intros c [Hne Hdup Hck Hp Hb Hroom] Hcall Hids.
  destruct (hal_setValues_sends k requests now h Hdup Hck) as (h0 & Hcore & ->).
  destruct (sendToHardware_answered sq_requestId hw_setValues c requests now bound h0 x rs) as (h' & E & Hst);
    rewrite ?(sc_pool _ _ Hcore); try done; [by unfold hal_hardware; rewrite (sc_manager _ _ Hcore)|].
  exists h'. split; [exact E|]. by eapply settled_from.
Qed.

Lemma hal_setValues_refused k requests now bound h x e :
  let c := clientOf asBinder (mSetValuesClients h) k (mNextAddress h) in
  sendable sq_requestId sq_value (λ q, hal_write_failure q h) c requests now bound h →
  hw_setValues requests (hal_hardware h) = (x, e, []) → e ≠ OK →
  ∃ h', hal_setValues (Some k) requests now true h = (h', [], ServiceSpecific e) ∧
    settled (now + TIMEOUT_IN_NANO) h x h'.
Proof.
  intros c [Hne Hdup Hck Hp Hb Hroom] Hcall He.
  destruct (hal_setValues_sends k requests now h Hdup Hck) as (h0 & Hcore & ->).
  destruct (sendToHardware_refused sq_requestId hw_setValues c requests now bound h0 x e) as (h' & E & Hst);
    rewrite ?(sc_pool _ _ Hcore); try done; [by unfold hal_hardware; rewrite (sc_manager _ _ Hcore)|].
  exists h'. split; [exact E|]. by eapply settled_from.
Qed.

Lemma hal_getValues_answered k requests now bound h x rs :
  let c := clientOf asBinder (mGetValuesClients h) k (mNextAddress h) in
  sendable gq_requestId gq_prop (λ q, hal_read_failure q h) c requests now bound h →
  hw_getValues requests (hal_hardware h) = (x, OK, [rs]) → gr_requestId <$> rs = gq_requestId <$> requests →
  ∃ h', hal_getValues (Some k) requests now true h = (h', [(mCallback c, onGetValues rs)], StatusOk) ∧
    settled (now + TIMEOUT_IN_NANO) h x h'.
Proof.
  intros c [Hne Hdup Hck Hp Hb Hroom] Hcall Hids.
  destruct (hal_getValues_sends k requests now h Hdup Hck) as (h0 & Hcore & ->).
  destruct (sendToHardware_answered gq_requestId hw_getValues c requests now bound h0 x rs) as (h' & E & Hst);
    rewrite ?(sc_pool _ _ Hcore); try done; [by unfold hal_hardware; rewrite (sc_manager _ _ Hcore)|].
  exists h'. split; [exact E|]. by eapply settled_from.
Qed.

Lemma hal_getValues_refused k requests now bound h x e :
  let c := clientOf asBinder (mGetValuesClients h) k (mNextAddress h) in
  sendable gq_requestId gq_prop (λ q, hal_read_failure q h) c requests now bound h →
  hw_getValues requests (hal_hardware h) = (x, e, []) → e ≠ OK →
  ∃ h', hal_getValues (Some k) requests now true h = (h', [], ServiceSpecific e) ∧
    settled (now + TIMEOUT_IN_NANO) h x h'.
Proof.
  intros c [Hne Hdup Hck Hp Hb Hroom] Hcall He.
  destruct (hal_getValues_sends k requests now h Hdup Hck) as (h0 & Hcore & ->).
  destruct (sendToHardware_refused gq_requestId hw_getValues c requests now bound h0 x e) as (h' & E & Hst);
    rewrite ?(sc_pool _ _ Hcore); try done; [by unfold hal_hardware; rewrite (sc_manager _ _ Hcore)|].
  exists h'. split; [exact E|]. by eapply settled_from.
Qed.

(** With the configurations loaded, the checks depend on them alone. *)
Lemma read_failure_configs q h h' : mConfigInit h = true → mConfigInit h' = mConfigInit h →
  mConfigsByPropId h' = mConfigsByPropId h →
  read_failure VersionForVehicleProperty interfaceVersion testInterfaceVersion q h'
  = read_failure VersionForVehicleProperty interfaceVersion testInterfaceVersion q h.
Proof.
  intros Hi Hi' Hc. unfold read_failure, checkReadPermission, checkPermissionHelper, DefaultVehicleHal.getConfig. by rewrite Hi', Hi, Hc.
Qed.
End answering.

(** ** The client over the server process *)

Section bridge.
  (** The server's clock and parameters (VehicleService), the client's clock,
      and how many rounds a get is followed. *)
  Context (tick : nat → Z) (uninit_size : Z) (service : option PowerController).
  Context (cut : ∀ A, list A → list (list A)).
  Context (propertyNames : list (string * Z)) (areaNames : Z → list (string * Z)) (underflow_errno : string → bool).
  Context {J : Type} `{!JsonValue J} (readFile : string → option (option J)) (readText : string → option J)
    (hash : string → Z) (wording : Reply → string).
  Context (local_tick : nat → Z) (rounds : nat).
  (** As in DefaultVehicleHal. *)
  Context (asBinder : Z → Z) (ub_check : VehiclePropValue → bool).
  Context (VersionForVehicleProperty : Z → option Z) (value_lt : VehiclePropValue → VehiclePropValue → bool).
  Context (interfaceVersion testInterfaceVersion : Z).
#[local] Instance server_process : VehicleServer (option Process) :=
  process_server tick uninit_size service cut propertyNames areaNames underflow_errno readFile readText hash wording.

Notation BridgeHardware := (option (Remote (option Process))).

Definition bridge_hardware : VehicleHardware.Hardware BridgeHardware := remote_hardware.
Definition bridge_values : ValueHardware BridgeHardware := remote_values local_tick rounds.
#[local] Existing Instances bridge_hardware bridge_values.

(** *** main *)

Definition kDefaultServerAddr : string := "127.0.0.1:50051".
Definition kServerAddrProp : string := "vendor.vhal.grpc.server".

(** The arguments after the program's name; an unset property reads as "". *)
Definition resolveServerAddr (args : list string) (system_property_get : string → string) : string :=
  let property := match system_property_get kServerAddrProp with
                  | EmptyString => kDefaultServerAddr
                  | propValue => propValue
                  end in
  match args with
  | [] => property
  | EmptyString :: _ => property
  | arg :: _ => arg
  end.

(** [main]: the service registered, [vhal] over a new client of the server at
    its address ([None]: none is up there; waiting for it only logs), and the
    exit code. *)
Definition main (args : list string) (system_property_get : string → string) (connect : string → option Process)
    (addService : bool) : Hal BridgeHardware * Z :=
  let server := connect (resolveServerAddr args system_property_get) in
  let client := GRPCVehicleHardware.registerOnPropertyChangeEvent 0
                  (GRPCVehicleHardware.registerOnPropertySetErrorEvent 1 newGrpc) in
  let vhal := newHal (Some (mkRemote (GRPCVehicleHardware.registerSupportedValueChangeCallback 2 client) server)) false in
  (vhal, if addService then 0 else 1).

(** The bridge carries on when the server is not up ("the gRPC channel will
    reconnect"), but the configurations are fetched once: if a client lists
    them, or subscribes, before the server is up, the HAL keeps an empty list,
    and whatever server it reaches afterwards it knows no property and refuses
    every request. *)
Theorem early_use_loses_configurations args property connect addService k q x :
  connect (resolveServerAddr args property) = None →
  let h0 := (main args property connect addService).1 in
  let h1 := (getAllPropConfigs VersionForVehicleProperty interfaceVersion testInterfaceVersion h0).1 in
  let h := set_hal_hardware x h1 in
  (getAllPropConfigs VersionForVehicleProperty interfaceVersion testInterfaceVersion h).2 = [] ∧
  DefaultVehicleHal.getConfig VersionForVehicleProperty interfaceVersion testInterfaceVersion k h = Err tt ∧
  read_failure VersionForVehicleProperty interfaceVersion testInterfaceVersion q h
    = Some (mkGetValueResult (gq_requestId q) INVALID_ARG None).
Proof.
  intros Hdown. unfold main. rewrite Hdown. cbv zeta. set (h := set_hal_hardware x _).
  assert (Hc : mConfigsByPropId h = ∅ ∧ mConfigInit h = true) by done. destruct Hc as [Hc Hi].
  assert (Hget : ∀ k, DefaultVehicleHal.getConfig VersionForVehicleProperty interfaceVersion testInterfaceVersion k h = Err tt).
  { intros k'. unfold DefaultVehicleHal.getConfig. rewrite Hi. cbn [negb]. by rewrite Hc, lookup_empty. }
  split; [|split].
  - unfold getAllPropConfigs, getConfigsByPropId. by rewrite Hi, Hc, map_to_list_empty.
  - apply Hget.
  - unfold read_failure, checkReadPermission, checkPermissionHelper. by rewrite Hget.
Qed.

(** *** Requests across the wire *)

Context (cut_concat : ∀ A (l : list A), concat (cut A l) = l).
Context (cut_nonempty : ∀ A (l : list A), Forall (λ b, b ≠ []) (cut A l)).

Lemma bridge_set requests g p h rs :
  requests ≠ [] → Forall (λ r, bytes_ok (value (sq_value r))) requests →
  handleAll (handleSetValueRequest tick uninit_size) requests (hwValues (hardware p)) = Some (h, rs) →
  hw_setValues requests (Some (mkRemote g (Some p))) =
    (Some (mkRemote g (Some (after h p))), OK, [toSetValueResult <$> rs]).
Proof.
  intros Hne Hb E. cbn. unfold GRPCVehicleHardware.setValues. destruct (set_requests_arrive requests Hb) as [E1 _].
  unfold server_process.
  rewrite service_set by (done || by destruct requests). rewrite E1, E. cbn. unfold set_server. cbn. do 2 f_equal. f_equal.
  rewrite <- list_fmap_compose. transitivity (id <$> (toSetValueResult <$> rs)); [|apply list_fmap_id].
  apply list_fmap_ext. by intros i [] _.
Qed.

(** The server process is dead, or dies of these requests. *)
Definition dies {Q R} (handle : Q → HW → option (HW * R)) (requests : list Q) (p : option Process) : Prop :=
  match p with
  | None => True
  | Some p => handleAll handle requests (hwValues (hardware p)) = None
  end.

Lemma bridge_set_dies requests g p :
  requests ≠ [] → Forall (λ r, bytes_ok (value (sq_value r))) requests →
  dies (handleSetValueRequest tick uninit_size) requests p →
  hw_setValues requests (Some (mkRemote g p)) = (Some (mkRemote g None), INTERNAL_ERROR, []).
Proof.
  intros Hne Hb Hd. cbn. unfold GRPCVehicleHardware.setValues, server_process. destruct p as [p|]; [|done].
  rewrite service_set by (done || by destruct requests). rewrite (proj1 (set_requests_arrive requests Hb)).
  cbn in Hd. by rewrite Hd.
Qed.

Lemma bridge_get_dies requests g p :
  requests ≠ [] → (rounds ≠ 0)%nat → Forall (λ r, bytes_ok (value (gq_prop r))) requests →
  dies (handleGetValueRequest tick uninit_size service) requests p →
  hw_getValues requests (Some (mkRemote g p)) = (Some (mkRemote g None), INTERNAL_ERROR, []).
Proof.
  intros Hne Hr Hb Hd. cbn. unfold GRPCVehicleHardware.getValues. destruct rounds as [|n]; [done|]. cbn [getValuesWithRetry].
  change (0 =? MAX_RETRY_COUNT)%nat with false. cbv iota. unfold server_process. destruct p as [p|]; [|done].
  rewrite service_get by (done || by destruct requests). rewrite (proj1 (get_requests_arrive requests Hb)).
  cbn in Hd. by rewrite Hd.
Qed.

(** The client has recorded no value from the server's future. *)
Definition in_sync (g : GRPCVehicleHardware) (p : Process) : Prop :=
  ∀ k e a, latest g k = Some (e, a) → e ≤ tick (reads (storeOf (hardware p))).

Lemma bridge_get requests g p h rs :
  requests ≠ [] → (rounds ≠ 0)%nat → Forall (λ r, bytes_ok (value (gq_prop r))) requests →
  handleAll (handleGetValueRequest tick uninit_size service) requests (hwValues (hardware p)) = Some (h, rs) →
  Forall (λ r, match hg_prop r with Some v => bytes_ok (value v) ∧ current g v | None => True end) rs →
  NoDup (valueKey <$> omap hg_prop rs) →
  ∃ g' results, hw_getValues requests (Some (mkRemote g (Some p))) =
      (Some (mkRemote g' (Some (after h p))), OK, [results]) ∧
    Forall2 same_but_time (toGetValueResult <$> rs) results.
Proof.
  intros Hne Hr Hb E Hv Hnd. cbn. unfold GRPCVehicleHardware.getValues. destruct rounds as [|n]; [done|].
  destruct (get_requests_arrive requests Hb) as [E1 _]. cbn [getValuesWithRetry].
  change (0 =? MAX_RETRY_COUNT)%nat with false. cbv iota. unfold server_process.
  rewrite service_get by (done || by destruct requests). rewrite E1, E. cbn [negb grpc_ok].
  assert (Homap : ∀ rs : list HwGetResult, omap gr_prop (toGetValueResult <$> rs) = omap hg_prop rs).
  { clear. induction rs as [|r rs IH]; [done|]. cbn. by rewrite <- IH. }
  rewrite Forall_forall in Hv.
  destruct (handleResults_current local_tick (requestById requests) (toGetValueResult <$> rs)) with (g := g) (results := @nil GetValueResult)
    as (g' & results & Eh & Hsame).
  - apply Forall_fmap, Forall_forall. intros r Hin. apply requestById_some. cbn.
    rewrite <- (handleAll_ids _ gq_requestId hg_requestId _ (get_keeps_id tick uninit_size service) _ _ _ E).
    by apply list_elem_of_fmap_2.
  - apply Forall_fmap, Forall_forall. intros r Hin. specialize (Hv r Hin). cbn. by destruct (hg_prop r); [destruct Hv|].
  - by rewrite Homap.
  - intros v. rewrite Homap. intros (r & Hin & Hp)%list_elem_of_omap. specialize (Hv r Hin). rewrite Hp in Hv. by destruct Hv.
  - rewrite Eh. cbn [app length Nat.eqb negb].
    assert (Hlen : length results ≠ 0%nat).
    { rewrite <- (Forall2_length _ _ _ Hsame), length_fmap. intros Hz. apply Hne.
      pose proof (handleAll_ids _ gq_requestId hg_requestId _ (get_keeps_id tick uninit_size service) _ _ _ E) as Hi.
      apply nil_length_inv. rewrite <- (length_fmap gq_requestId), <- Hi, length_fmap. exact Hz. }
    exists g', results. split; [|done]. destruct results; [done|]. done.
Qed.

(** *** From a binder client to the property store and back *)

Context (maxVec maxSize : Z) (Hcfg : VehicleObjectPool.pool_config_ok maxVec maxSize).

Lemma handleAll_one {Q R} (handle : Q → HW → option (HW * R)) q s s' r :
  handle q s = Some (s', r) → handleAll handle [q] s = Some (s', [r]).
Proof. intros E. cbn. by rewrite E. Qed.

Notation hal_setValues := (DefaultVehicleHal.setValues asBinder ub_check VersionForVehicleProperty value_lt
  interfaceVersion testInterfaceVersion).
Notation hal_getValues := (DefaultVehicleHal.getValues asBinder VersionForVehicleProperty value_lt
  interfaceVersion testInterfaceVersion).
Notation hal_write_failure := (write_failure ub_check VersionForVehicleProperty interfaceVersion testInterfaceVersion).
Notation hal_read_failure := (read_failure VersionForVehicleProperty interfaceVersion testInterfaceVersion).

(** C15: When the server process is dead, or dies of the requests it is handling,
    a call that the HAL would send (its checks passed, room for the ids, bytes in
    0..255) fails with an internal error: its callback is not called, none of
    its requests stays pending, and the HAL can go on. *)
Theorem dead_server_fails_requests h g p k sets gets now bound :
  hal_hardware h = Some (mkRemote g p) → (rounds ≠ 0)%nat →
  (sendable value_lt sq_requestId sq_value (λ q, hal_write_failure q h)
     (clientOf asBinder (mSetValuesClients h) k (mNextAddress h)) sets now bound h →
   Forall (λ r, bytes_ok (value (sq_value r))) sets → dies (handleSetValueRequest tick uninit_size) sets p →
   ∃ h', hal_setValues (Some k) sets now true h = (h', [], ServiceSpecific INTERNAL_ERROR) ∧
     settled (now + TIMEOUT_IN_NANO) h (Some (mkRemote g None)) h') ∧
  (sendable value_lt gq_requestId gq_prop (λ q, hal_read_failure q h)
     (clientOf asBinder (mGetValuesClients h) k (mNextAddress h)) gets now bound h →
   Forall (λ r, bytes_ok (value (gq_prop r))) gets → dies (handleGetValueRequest tick uninit_size service) gets p →
   ∃ h', hal_getValues (Some k) gets now true h = (h', [], ServiceSpecific INTERNAL_ERROR) ∧
     settled (now + TIMEOUT_IN_NANO) h (Some (mkRemote g None)) h').
Proof.
  intros Hh Hr. split; intros Hse Hb Hd; pose proof (se_some _ _ _ _ _ _ _ _ _ Hse) as Hne.
  - eapply hal_setValues_refused; [exact Hse| |done]. rewrite Hh. by apply bridge_set_dies.
  - eapply hal_getValues_refused; [exact Hse| |done]. rewrite Hh. by apply bridge_get_dies.
Qed.

(** A call of [setValues] with one request that the whole chain accepts: the
    HAL has loaded the configurations, its checks pass and its pool has room;
    the process is alive, its hardware in order, and the property one that no
    rule treats specially; the client has recorded no value from the server's
    future. *)
Record settable h g p k i v now bound : Prop := {
  sb_hardware : hal_hardware h = Some (mkRemote g (Some p));
  sb_init : mConfigInit h = true;
  sb_sync : in_sync g p;
  sb_ok : hw_ok tick maxVec maxSize (hwValues (hardware p));
  sb_plain : plain service (hwValues (hardware p)) (prop v) = true;
  sb_accepts : accepts (storeOf (hardware p)) v;
  sb_bytes : bytes_ok (value v);
  sb_check : hal_write_failure (mkSetValueRequest i v) h = None;
  sb_pool : pool_inv bound (mPendingRequestPool h);
  sb_bound : bound ≤ now + TIMEOUT_IN_NANO;
  sb_room : room (mPendingRequestPool h) (client_id (clientOf asBinder (mSetValuesClients h) k (mNextAddress h))) {[i]};
}.

(** What the property's area holds from then on, read at time [t]. *)
Definition heldValue (p : Process) (v : VehiclePropValue) (t : Z) : VehiclePropValue :=
  write_status false (stored (storeOf (hardware p)) (prop v) (key v)) (set_timestamp t v).
Definition writeTime (p : Process) : Z := tick (reads (storeOf (hardware p))).

Lemma heldValue_facts p v t : value (heldValue p v t) = value v ∧ timestamp (heldValue p v t) = t ∧
  valueKey (heldValue p v t) = valueKey v ∧ ∀ t', set_timestamp t' (heldValue p v t) = heldValue p v t'.
Proof. unfold heldValue, write_status. by destruct (stored _ _ _). Qed.

(** The set call: its result, and the process after it. *)
Lemma bridge_sets h g p k i v now bound : settable h g p k i v now bound →
  let c := clientOf asBinder (mSetValuesClients h) k (mNextAddress h) in
  let s := storeOf (hardware p) in let w := heldValue p v (writeTime p) in
  ∃ h1 d, hal_setValues (Some k) [mkSetValueRequest i v] now true h
      = (h1, [(mCallback c, onSetValues [mkSetValueResult i OK])], StatusOk) ∧
    settled (now + TIMEOUT_IN_NANO) h (Some (mkRemote g (Some (after d p)))) h1 ∧
    (∀ q, prop q = prop v → isGlobalProp (prop v) = true ∨ areaId q = areaId v →
       getValue tick uninit_size service q d = (d, Ok w)) ∧
    emitted (mServerSidePropStore d) =
      emitted s ++ (if changes (stored s (prop v) (key v)) w then notify_one s w else []).
Proof.
  intros [Hh _ _ Hok Hp Ha Hb Hck Hpool Hbound Hroom] c s w.
  destruct (plain_set_accepted tick uninit_size maxVec maxSize Hcfg service v _ Hok Hp Ha) as (d & Hset & Hget & _ & Hem).
  assert (Hs : handleAll (handleSetValueRequest tick uninit_size) [mkSetValueRequest i v] (hwValues (hardware p))
    = Some (d, [mkHwSetResult i (Code OK)])).
  { apply handleAll_one. unfold handleSetValueRequest. cbn. by rewrite Hset. }
  destruct (hal_setValues_answered asBinder ub_check VersionForVehicleProperty value_lt interfaceVersion testInterfaceVersion
    k [mkSetValueRequest i v] now bound h (Some (mkRemote g (Some (after d p)))) [mkSetValueResult i OK])
    as (h1 & E1 & Hst); [| |done|].
  { split; [done|done|by intros ? ->%list_elem_of_singleton|done|done|by cbn; rewrite union_empty_r_L]. }
  { rewrite Hh, (bridge_set [mkSetValueRequest i v] g p d _ ltac:(done) ltac:(by apply Forall_singleton) Hs). done. }
  by exists h1, d.
Qed.

(** A value as old as the last write is not outdated for the client. *)
Lemma held_current g p v : in_sync g p → current g (heldValue p v (writeTime p)).
Proof.
  intros Hs (e & a & He%Hs & Ht). destruct (heldValue_facts p v (writeTime p)) as (_ & E & _). rewrite E in Ht.
  unfold writeTime in Ht. lia.
Qed.

(** C1: End to end: a binder client of the bridge sets a property of the vehicle
    that no rule treats specially and gets its result; then any client that
    gets the same property and area is given that value, with a time of this
    process and the status the property had.  The call goes through the
    checks of the HAL, its pending requests, the conversion to messages, the
    service, the conversion back, the request worker in whatever batches, and
    the property store; each call is answered by one call of the client's
    callback before it returns. *)
Theorem bridge_set_then_get h g p k i v now bound :
  settable h g p k i v now bound → (rounds ≠ 0)%nat →
  let c := clientOf asBinder (mSetValuesClients h) k (mNextAddress h) in
  ∃ h1, hal_setValues (Some k) [mkSetValueRequest i v] now true h
      = (h1, [(mCallback c, onSetValues [mkSetValueResult i OK])], StatusOk) ∧
    ∀ k' j q now', prop q = prop v → isGlobalProp (prop v) = true ∨ areaId q = areaId v → bytes_ok (value q) →
      hal_read_failure (mkGetValueRequest j q) h = None → now ≤ now' →
      let c' := clientOf asBinder (mGetValuesClients h1) k' (mNextAddress h1) in
      room (mPendingRequestPool h) (client_id c') {[j]} →
      ∃ h2 t, hal_getValues (Some k') [mkGetValueRequest j q] now' true h1
        = (h2, [(mCallback c', onGetValues [mkGetValueResult j OK (Some (heldValue p v t))])], StatusOk).
Proof.
  intros Hsb Hrounds c. destruct (bridge_sets _ _ _ _ _ _ _ _ Hsb) as (h1 & d & E1 & [T1 _ T3 T4 T5 T6 _] & Hget & _).
  exists h1. split; [exact E1|]. intros k' j q now' Hq Harea Hbq Hrd Hnow c' Hroom'.
  assert (Hs : handleAll (handleGetValueRequest tick uninit_size service) [mkGetValueRequest j q] (hwValues (hardware (after d p)))
    = Some (d, [mkHwGetResult j (Code OK) (Some (heldValue p v (writeTime p)))])).
  { apply handleAll_one. unfold handleGetValueRequest. cbn. by rewrite (Hget q Hq Harea). }
  destruct (heldValue_facts p v (writeTime p)) as (Hwv & _ & _ & Hwt).
  destruct (bridge_get [mkGetValueRequest j q] g (after d p) d _ ltac:(done) Hrounds ltac:(by apply Forall_singleton) Hs)
    as (g' & results & Eg & Hsame); [|apply NoDup_singleton|].
  { apply Forall_singleton. cbn [hg_prop]. rewrite Hwv. split; [apply Hsb|apply held_current, Hsb]. }
  apply Forall2_cons_inv_l in Hsame as (r & l & (R1 & R2 & R3) & Hnil & ->). apply Forall2_nil_inv_l in Hnil as ->.
  destruct r as [ri rst [rv|]]; cbn [gr_requestId gr_status gr_prop toGetValueResult hg_requestId hg_status hg_prop statusOf] in R1, R2, R3;
    [subst ri rst|done].
  destruct (hal_getValues_answered asBinder VersionForVehicleProperty value_lt interfaceVersion testInterfaceVersion
    k' [mkGetValueRequest j q] now' (now + TIMEOUT_IN_NANO) h1 (Some (mkRemote g' (Some (after d (after d p)))))
    [mkGetValueResult j OK (Some rv)]) as (h2 & E2 & _); [| |done|].
  - split; [done|done| |exact T3|lia|].
    + intros ? ->%list_elem_of_singleton. by rewrite (read_failure_configs _ _ _ _ h h1) by (done || apply Hsb).
    + cbn. rewrite union_empty_r_L. unfold room in *. by rewrite T4.
  - by rewrite T1, Eg.
  - exists h2, (timestamp rv). by rewrite E2, <- (Hwt (timestamp rv)), <- R3.
Qed.

(** *** From the property store to the subscribers *)

Context (ub_cast : f32 → Z).

(** The store's event of a change is reported when the property's area is
    subscribed, and queued for the streams. *)
Lemma change_queued d p v w cb cb0 :
  emitted (mServerSidePropStore d) = emitted (storeOf (hardware p)) ++ notify_one (storeOf (hardware p)) w →
  mOnValuesChangeCallback (storeOf (hardware p)) = Some cb0 → mOnPropertyChangeCallback (hardware p) = Some cb →
  valueKey w = valueKey v → isSubscribed (hwSubscriptions (hardware p)) v = true →
  served (after d p) = OnVehiclePropChange [w] (served p).
Proof.
  intros Hem Hcb0 Hcb Hk Hsub. unfold after, reports. cbn [served storeOf hwValues with_values calls].
  change (storeOf (with_values d (hardware p))) with (mServerSidePropStore d).
  rewrite Hem, drop_app_length, drop_all, app_nil_r. unfold notify_one. rewrite Hcb0. cbn.
  unfold reportOf. cbn. rewrite Hcb. cbn.
  assert (isSubscribed (hwSubscriptions (hardware p)) w = true) as ->; [|done].
  unfold isSubscribed in *. change (mkPropIdAreaId (prop w) (areaId w)) with (valueKey w). rewrite Hk. exact Hsub.
Qed.

(** The idle event writer writes the one queued message to an open stream. *)
Lemma message_written e values conn up :
  stream_ok (valueStream e) → mEventWriterThread e = WriterWaiting → mStopEventWriter e = false → queues_empty e →
  conn ∈ connections (valueStream e) → mStream conn = true → mShutdownFlag conn = false →
  (∀ i, up i (mConnectionID conn) = true) →
  ∃ e' conn', writer_run 3 0 up (OnVehiclePropChange values e) = Some e' ∧ conn' ∈ connections (valueStream e') ∧
    mConnectionID conn' = mConnectionID conn ∧ sent conn' = sent conn ++ [addAll values []] ∧
    mEventWriterThread e' = WriterWaiting ∧ queues_empty e'.
Proof.
  intros Hok Hw Hs [Hq1 Hq2] Hc Hm Hf Hu. cbn [writer_run]. unfold eventWriter_step at 1. cbn. rewrite Hw, Hs, Hq1. cbn. rewrite Hq2. cbn.
  eexists _, _. split; [reflexivity|]. split.
  - apply (writeToStream_up (up 1%nat) _ _ conn); [by apply stream_ok_queue|done..].
  - by split_and!.
Qed.

(** The client takes a message with one value that is not outdated. *)
Lemma message_polled g v pollcb : bytes_ok (value v) → current g v → mOnPropChange g = Some pollcb →
  ∃ g' t, pollValue local_tick [addAll [v] []] g [] = (g', [(pollcb, [set_timestamp t v])]).
Proof.
  intros Hb Hc Hcb. cbn [pollValue addAll foldl poll_message]. cbn [app poll_message]. rewrite (value_arrives v Hb).
  destruct (setAndroidTimestamp_current local_tick v g Hc) as (g' & v' & E & Hv' & _). rewrite E. cbn [poll_message app].
  assert (mOnPropChange g' = Some pollcb) as ->.
  { unfold setAndroidTimestamp in E. destruct (stampLocked _ _ _) as [m r]. by injection E as <- _. }
  exists g', (timestamp v'). by rewrite <- Hv'.
Qed.

(** The HAL calls every subscriber it does not filter. *)
Lemma event_distributed v k (h : Hal BridgeHardware) :
  let m := mSubscriptionManager h in
  (∀ p c k', clientsOf p m !! c = Some k' → asBinder k' = c) → mBatchedEventQueue h = None →
  clientsOf (valueKey v) m !! asBinder k = Some k → filtered (asBinder k) v m = false →
  (k, onPropertyEvent [valueFor ub_cast (asBinder k) v m] 0) ∈ (propertyChangeCallback ub_cast [v] h).2.
Proof.
  intros m Hb Hq Hk Hf. unfold propertyChangeCallback, onPropertyChangeEvent. rewrite Hq.
  destruct (distribute_values_spec ub_cast asBinder [v] m ∅ k Hb) as (_ & _ & l & Hl & _ & Hall).
  unfold getSubscribedClients. fold m. destruct (distribute_values ub_cast [v] (m, ∅)) as [m' out]. cbn [snd] in *.
  rewrite lookup_empty in Hl. cbn in Hl. rewrite Hall in Hl by (by intros ? ->%list_elem_of_singleton).
  cbn in Hl. rewrite app_nil_r in Hl. unfold expected in Hl.
  change (SubscriptionManager.valueKey v) with (valueKey v) in Hl. rewrite decide_True in Hl by done.
  destruct (out !! k) as [l'|] eqn:Eo; cbn in Hl; [subst l'|done].
  apply list_elem_of_In, in_concat. eexists. split.
  - apply in_map_iff. exists (k, [valueFor ub_cast (asBinder k) v m]). split; [reflexivity|].
    by apply list_elem_of_In, elem_of_map_to_list.
  - by left.
Qed.

(** What the change of a set needs to reach the binder clients: the hardware
    and its server have their callbacks, the area is subscribed on the
    hardware, the event writer is idle, and the bridge's stream is open. *)
Record streaming h g p v cb pollcb conn : Prop := {
  sm_store : is_Some (mOnValuesChangeCallback (storeOf (hardware p)));
  sm_callback : mOnPropertyChangeCallback (hardware p) = Some cb;
  sm_subscribed : isSubscribed (hwSubscriptions (hardware p)) v = true;
  sm_ok : stream_ok (valueStream (served p));
  sm_writer : mEventWriterThread (served p) = WriterWaiting ∧ mStopEventWriter (served p) = false ∧ queues_empty (served p);
  sm_connection : conn ∈ connections (valueStream (served p)) ∧ mStream conn = true ∧ mShutdownFlag conn = false;
  sm_poll : mOnPropChange g = Some pollcb;
  sm_batching : mBatchedEventQueue h = None;
  sm_binders : ∀ q c k', clientsOf q (mSubscriptionManager (HS := BridgeHardware) h) !! c = Some k' → asBinder k' = c;
}.

(** C2: End to end, for a set that is accepted ([settable]: a plain property
    with a valid request) and changes the stored value, when every link of the
    chain is up ([streaming]: the area is subscribed on the hardware, whose
    change callback and that of its server are registered; the event writer is
    idle with empty queues; the bridge's stream is open and its client has a
    callback; the HAL does not batch) and the writes to the stream succeed.
    Then every binder client of the bridge that is subscribed to the area, and
    for which the HAL's own filter of variable update rates is not in force,
    is called back with the new value, stamped with the time of this process
    and rounded to the client's resolution: the store reports the change to the
    server, which queues it before the set call is answered; the event writer
    sends it on the bridge's stream; the bridge takes it from the stream and
    hands it to the HAL, which calls the subscribers. *)
Theorem bridge_change_reaches_subscribers h g p k i v now bound cb pollcb conn up :
  settable h g p k i v now bound → streaming h g p v cb pollcb conn →
  changes (stored (storeOf (hardware p)) (prop v) (key v)) (heldValue p v (writeTime p)) = true →
  (∀ n, up n (mConnectionID conn) = true) →
  ∃ h1 p1 calls, hal_setValues (Some k) [mkSetValueRequest i v] now true h = (h1, calls, StatusOk) ∧
    hal_hardware h1 = Some (mkRemote g (Some p1)) ∧
    ∃ e conn' message, writer_run 3 0 up (served p1) = Some e ∧ conn' ∈ connections (valueStream e) ∧
      mConnectionID conn' = mConnectionID conn ∧ sent conn' = sent conn ++ [message] ∧
      ∃ g' t, let v' := heldValue p v t in
        pollValue local_tick [message] g [] = (g', [(pollcb, [v'])]) ∧
        ∀ k', clientsOf (valueKey v) (mSubscriptionManager h) !! asBinder k' = Some k' →
          filtered (asBinder k') v' (mSubscriptionManager h) = false →
          (k', onPropertyEvent [valueFor ub_cast (asBinder k') v' (mSubscriptionManager h)] 0)
            ∈ (propertyChangeCallback ub_cast [v'] h1).2.
Proof.
  intros Hsb [[cb0 Hcb0] Hcb Hsub Hsok (Hw & Hstop & Hq) (Hc & Hm & Hf) Hpoll Hbatch Hbind] Hch Hup.
  destruct (bridge_sets _ _ _ _ _ _ _ _ Hsb) as (h1 & d & E1 & [T1 T2 _ _ _ _ T7] & _ & Hem).
  rewrite Hch in Hem. destruct (heldValue_facts p v (writeTime p)) as (Hwv & _ & Hwk & Hwt).
  set (w := heldValue p v (writeTime p)) in *.
  pose proof (change_queued d p v w cb cb0 Hem Hcb0 Hcb Hwk Hsub) as Hserved.
  destruct (message_written (served p) [w] conn up Hsok Hw Hstop Hq Hc Hm Hf Hup) as (e & conn' & Ew & Hc' & Hid & Hsent & _).
  destruct (message_polled g w pollcb) as (g' & t & Ep); [rewrite Hwv; apply Hsb|apply held_current, Hsb|done|].
  exists h1, (after d p). eexists. split; [exact E1|]. split; [exact T1|].
  exists e, conn', (addAll [w] []). rewrite Hserved. split_and!; [done..|].
  exists g', t. cbv zeta. rewrite <- (Hwt t). split; [exact Ep|]. intros k' Hk' Hfil.
  pose proof (event_distributed (set_timestamp t w) k' h1) as Hd. cbv zeta in Hd. rewrite T2 in Hd. apply Hd.
  - exact Hbind.
  - by rewrite T7.
  - change (valueKey (set_timestamp t w)) with (valueKey w). rewrite Hwk. exact Hk'.
  - exact Hfil.
Qed.
End bridge.

(** ** Example: a car with one binder client

    The server process has the properties of FakeHardwareLaws' example and has
    accepted the bridge's stream; the bridge starts, and client 9 subscribes to
    the odometer. *)

Definition ex_store : Store := setOnValuesChangeCallback (Some 7%nat) (registerAll example_configs).
Definition ex_values (s : Store) : HW := set_store s example_hw.
Definition ex_events : EventServer :=
  mkEventServer (startStream true newStream) newStream false WriterWaiting.
Definition ex_process (s : Store) (subs : Subscriptions) : Process :=
  mkProcess (FakeDump.with_values (ex_values s) (FakeDump.mkHardware example_hw FakeInit.noSupported subs ∅ GeneratorHub.newHub
               false (Some 1%nat) None (Some 2%nat) [])) ex_events.
Definition ex_started : Process := ex_process ex_store newSubscriptions.
Definition ex_odometer : PropIdAreaId := mkPropIdAreaId VehicleProperty.VehicleProperty.PERF_ODOMETER 0.

(** The process once the odometer is subscribed: a clock reading later. *)
Definition ex_subscribed : Process :=
  ex_process (bump_clock ex_store) (set_onChange (λ ids, ids ∪ {[ex_odometer]}) newSubscriptions).

#[local] Existing Instance ex_service.
#[local] Instance ex_bridge_hardware : VehicleHardware.Hardware (option (Remote (option Process))) := remote_hardware.
#[local] Instance ex_bridge_values : ValueHardware (option (Remote (option Process))) := remote_values Z.of_nat 1.

Definition ex_version (p : Z) : option Z := Some 1.
Definition ex_options : list SubscribeOptions :=
  [mkSubscribeOptions VehicleProperty.VehicleProperty.PERF_ODOMETER [0] f32_zero f32_zero false].
Definition ex_bridge : Hal (option (Remote (option Process))) :=
  (DefaultVehicleHal.subscribe (λ _, 0) (λ _, f32_zero) (λ k, k) ex_version 4 0 (Some 9) ex_options true
     (VhalBridge.main [] (λ _, EmptyString) (λ _, Some ex_started) true).1).1.
Definition ex_km (x : Z) : VehiclePropValue :=
  mkPropValue 0 0 VehicleProperty.VehicleProperty.PERF_ODOMETER 0 (mkRaw [] [f32_of_Z x] [] [] EmptyString).

Lemma ex_bridge_hardware_state : hal_hardware ex_bridge = Some (mkRemote (GRPCVehicleHardware.registerSupportedValueChangeCallback 2
    (GRPCVehicleHardware.registerOnPropertySetErrorEvent 1 (GRPCVehicleHardware.registerOnPropertyChangeEvent 0 newGrpc))) (Some ex_subscribed)).
Proof. vm_compute. reflexivity. Qed.

Lemma ex_values_ok s : mRecordsByPropId s = mRecordsByPropId (registerAll example_configs) → hw_ok example_tick 4 10240 (ex_values s).
Proof.
  intros Hs. destruct (registerAll_facts example_configs) as [_ Hnone].
  assert (H : ∀ p r, stored s p r = None) by (intros p r; unfold stored; rewrite Hs; apply Hnone).
  split; [split; intros p r o; cbn; by rewrite H|]. split; [done|done|]. apply map_Forall_empty.
Qed.

Definition ex_client : GRPCVehicleHardware :=
  GRPCVehicleHardware.registerSupportedValueChangeCallback 2
    (GRPCVehicleHardware.registerOnPropertySetErrorEvent 1 (GRPCVehicleHardware.registerOnPropertyChangeEvent 0 newGrpc)).

Notation in_example f := (f example_tick 0 None ex_cut [] (λ _, []) (λ _, true) Json _ (λ _, None) (λ _, None) (λ _, 0)
  (λ _, EmptyString) Z.of_nat 1%nat (λ k, k) (λ _, true) ex_version) (only parsing).

Lemma ex_settable x : (in_example (@settable)) 4 0 4 10240 ex_bridge ex_client ex_subscribed 9 1 (ex_km x) 0 0.
Proof.
  split.
  - exact ex_bridge_hardware_state.
  - vm_compute. reflexivity.
  - intros k e a H. discriminate H.
  - by apply ex_values_ok.
  - vm_compute. reflexivity.
  - apply (example_accepts (ex_km x)). vm_compute. reflexivity.
  - constructor.
  - vm_compute. reflexivity.
  - assert (mPendingRequestPool ex_bridge = ∅) as -> by (vm_compute; reflexivity). apply map_Forall_empty.
  - vm_compute. discriminate.
  - assert (mPendingRequestPool ex_bridge = ∅) as -> by (vm_compute; reflexivity). split.
    + unfold pending. rewrite lookup_empty. apply disjoint_empty_l.
    + vm_compute. discriminate.
Qed.

Lemma bridge_set_then_get_witness : ∃ h1 h2 t,
  DefaultVehicleHal.setValues (λ k, k) (λ _, true) ex_version ex_lt 4 0 (Some 9) [mkSetValueRequest 1 (ex_km 7)] 0 true ex_bridge
    = (h1, [(9, onSetValues [mkSetValueResult 1 OK])], StatusOk) ∧
  DefaultVehicleHal.getValues (λ k, k) ex_version ex_lt 4 0 (Some 9) [mkGetValueRequest 1 (ex_km 0)] 5 true h1
    = (h2, [(9, onGetValues [mkGetValueResult 1 OK (Some (set_timestamp t (ex_km 7)))])], StatusOk).
Proof.
  destruct ((in_example (@bridge_set_then_get)) ex_lt 4 0 ex_cut_concat ex_cut_nonempty 4 10240 example_pool_ok
    ex_bridge ex_client ex_subscribed 9 1 (ex_km 7) 0 0 (ex_settable 7) ltac:(discriminate)) as (h1 & E1 & H).
  exists h1.
  assert (Hc : mGetValuesClients h1 = ∅).
  { transitivity (mGetValuesClients (DefaultVehicleHal.setValues (λ k, k) (λ _, true) ex_version ex_lt 4 0 (Some 9)
      [mkSetValueRequest 1 (ex_km 7)] 0 true ex_bridge).1.1); [|vm_compute; reflexivity].
    symmetry. exact (f_equal (λ r, mGetValuesClients r.1.1) E1). }
  destruct (H 9 1 (ex_km 0) 5) as (h2 & t & E2); [reflexivity|by left|constructor|vm_compute; reflexivity|discriminate| |].
  - assert (mPendingRequestPool ex_bridge = ∅) as -> by (vm_compute; reflexivity). split.
    + unfold pending. rewrite lookup_empty. apply disjoint_empty_l.
    + unfold pending. rewrite lookup_empty. vm_compute. discriminate.
  - exists h2, t. split; [exact E1|]. etransitivity; [exact E2|]. unfold clientOf. rewrite Hc. reflexivity.
Defined.

(** Client 9 is told of the change it made. *)
Lemma ex_streaming x : streaming (λ k, k) ex_bridge ex_client ex_subscribed (ex_km x) 1 0
  (mkConnection true 1 false [] 0).
Proof.
  split.
  - by eexists.
  - reflexivity.
  - vm_compute. reflexivity.
  - apply startStream_ok, new_ok.
  - by split_and!.
  - split; [by left|done].
  - reflexivity.
  - vm_compute. reflexivity.
  - intros q c k'. assert (mClientsByPropIdAreaId (mSubscriptionManager ex_bridge) = {[ex_odometer := {[9 := 9]}]}) as Hm
      by (vm_compute; reflexivity).
    unfold clientsOf. rewrite Hm. destruct (decide (q = ex_odometer)) as [->|Hq].
    + rewrite lookup_singleton_eq. cbn. by intros [-> ->]%lookup_singleton_Some.
    + by rewrite lookup_singleton_ne.
Qed.

Lemma bridge_change_reaches_subscribers_witness : ∃ h1 calls t,
  DefaultVehicleHal.setValues (λ k, k) (λ _, true) ex_version ex_lt 4 0 (Some 9) [mkSetValueRequest 1 (ex_km 7)] 0 true ex_bridge
    = (h1, calls, StatusOk) ∧
  (9, onPropertyEvent [set_timestamp t (ex_km 7)] 0)
    ∈ (propertyChangeCallback (λ _, 0) [set_timestamp t (ex_km 7)] h1).2.
Proof.
  destruct ((in_example (@bridge_change_reaches_subscribers)) ex_lt 4 0 ex_cut_concat ex_cut_nonempty 4 10240 example_pool_ok
    (λ _, 0) ex_bridge ex_client ex_subscribed 9 1 (ex_km 7) 0 0 1%nat 0%nat (mkConnection true 1 false [] 0) (λ _ _, true)
    (ex_settable 7) (ex_streaming 7) ltac:(vm_compute; reflexivity) (λ _, reflexivity _))
    as (h1 & p1 & calls & E1 & _ & e & conn' & message & _ & _ & _ & _ & g' & t & _ & H).
  exists h1, calls, t. split; [exact E1|].
  assert (Hm : clientsOf (valueKey (ex_km 7)) (mSubscriptionManager ex_bridge) !! 9 = Some 9) by (vm_compute; reflexivity).
  exact (H 9 Hm ltac:(vm_compute; reflexivity)).
Defined.

(** The server process has died. *)
Lemma dead_server_fails_requests_witness : ∃ h',
  DefaultVehicleHal.setValues (λ k, k) (λ _, true) ex_version ex_lt 4 0 (Some 9) [mkSetValueRequest 1 (ex_km 7)] 0 true
    (set_hal_hardware (Some (mkRemote ex_client None)) ex_bridge) = (h', [], ServiceSpecific INTERNAL_ERROR).
Proof.
  destruct ((in_example (@dead_server_fails_requests)) ex_lt 4 0 ex_cut_concat ex_cut_nonempty
    (set_hal_hardware (Some (mkRemote ex_client None)) ex_bridge) ex_client None 9 [mkSetValueRequest 1 (ex_km 7)] [] 0 0
    eq_refl ltac:(discriminate)) as [H _].
  destruct H as (h' & E & _).
  - split; [discriminate|reflexivity| | |vm_compute; discriminate|].
    + intros q ->%list_elem_of_singleton. vm_compute. reflexivity.
    + assert (mPendingRequestPool (set_hal_hardware (Some (mkRemote ex_client None)) ex_bridge) = ∅) as -> by (vm_compute; reflexivity).
      apply map_Forall_empty.
    + assert (mPendingRequestPool (set_hal_hardware (Some (mkRemote ex_client None)) ex_bridge) = ∅) as -> by (vm_compute; reflexivity).
      split; [unfold pending; rewrite lookup_empty; apply disjoint_empty_l|vm_compute; discriminate].
  - repeat constructor.
  - exact I.
  - exists h'. exact E.
Defined.
