(* ===== verification/GatewayConfig.v ===== *)
(** * GatewayConfig: the configuration of the gateway

    Models [vhal-gateway/src/GatewayConfig.cpp]: the records of
    [GatewayConfig.h], [std::stoul] with base 0 (a 64-bit [unsigned long]) as
    the loader uses it, over the digits of NumberParse, and [loadFromFile], which returns an error message, the
    empty one for success, and may leave part of the file in its output.
    Opening and parsing the file are parameters. *)

From stdpp Require Import base list strings.
From Stdlib Require Import ZArith Lia Ascii.
From S2P Require Import Prelude NumberParse JsonValue.

Local Open Scope Z_scope.

(** ** Records *)

Record GatewayProperty : Type := mkGatewayProperty { id : Z; desc : string }.
Record GatewayMessage : Type := mkGatewayMessage { msgId : string; properties : list GatewayProperty }.
Record GatewayNodeConfig : Type := mkGatewayNodeConfig { ipaddr : string; messages : list GatewayMessage }.
Record GatewayConfig : Type := mkGatewayConfig { version : string; nodes : list GatewayNodeConfig }.

(** ** std::stoul(s, nullptr, 0) *)

(** Base 0: a prefix tells the base. *)
Definition magnitude (s : string) : option Z :=
  match s with
  | String "0" (String x (String c _ as s')) =>
      if (Ascii.eqb x "x" || Ascii.eqb x "X") && bool_decide (is_Some (digit_in 16 c)) then digits 16 s' else digits 8 s
  | String "0" _ => digits 8 s
  | _ => digits 10 s
  end.

(** [None]: [std::invalid_argument] or [std::out_of_range]. *)
Definition stoul (s : string) : option Z :=
  let '(negative, s) := split_sign (skip_spaces s) in
  match magnitude s with
  | None => None
  | Some n => if two64 <=? n then None else Some ((if negative : bool then - n else n) mod two64)
  end.

(** ** loadFromFile *)

(** A value, an error message that is returned, or an exception. *)
Inductive Outcome (A : Type) : Type :=
| Loaded (a : A)
| LoadError (message : string)
| Throws.
Arguments Loaded {A}.
Arguments LoadError {A}.
Arguments Throws {A}.

Definition obind {A B} (o : Outcome A) (f : A → Outcome B) : Outcome B :=
  match o with Loaded a => f a | LoadError m => LoadError m | Throws => Throws end.

Declare Scope gateway_scope.
Delimit Scope gateway_scope with gateway.
Notation "'let*' x ':=' o 'in' f" := (obind o (λ x, f))
  (at level 200, x name, o at level 100, f at level 200, right associativity) : gateway_scope.
Notation "'check*' o 'in' f" := (obind o (λ _ : unit, f)) (at level 200, o at level 100, f at level 200, right associativity) : gateway_scope.
Local Open Scope gateway_scope.

Fixpoint collect {A B} (f : A → Outcome B) (l : list A) : Outcome (list B) :=
  match l with
  | [] => Loaded []
  | x :: l' => let* y := f x in let* ys := collect f l' in Loaded (y :: ys)
  end.

Section load.
  Context {J : Type} `{!JsonValue J}.

Definition isNull (j : J) : bool := empty j && negb (isArray j) && negb (isObject j).

(** [if (!j.isMember(k) || !j[k].kind()) return message;]: [isMember] throws on
    a value that is neither an object nor null. *)
Definition required (k : string) (kind : J → bool) (message : string) (j : J) : Outcome unit :=
  if isObject j then
    if negb (isMember k j) || negb (kind (member k j)) then LoadError message else Loaded tt
  else if isNull j then LoadError message else Throws.

Definition stringOf (j : J) : Outcome string := match asString j with Some s => Loaded s | None => Throws end.

Definition loadProperty (msgId : string) (propJson : J) : Outcome GatewayProperty :=
  check* required "id" isString ("A property entry in message '" +:+ msgId +:+ "' is missing 'id'") propJson in
  check* required "desc" isString ("A property entry in message '" +:+ msgId +:+ "' is missing 'desc'") propJson in
  let* desc := stringOf (member "desc" propJson) in
  let* idStr := stringOf (member "id" propJson) in
  match stoul idStr with
  | Some n => Loaded (mkGatewayProperty (to_i32 n) desc)
  | None => LoadError ("Invalid property id '" +:+ idStr +:+ "' in message '" +:+ msgId +:+ "'")
  end.

Definition loadMessage (msgJson : J) : Outcome GatewayMessage :=
  check* required "msgId" isString "A message entry is missing 'msgId'" msgJson in
  check* required "properties" isArray "A message entry is missing 'properties'" msgJson in
  let* msgId := stringOf (member "msgId" msgJson) in
  let* properties := collect (loadProperty msgId) (iterate (member "properties" msgJson)) in
  Loaded (mkGatewayMessage msgId properties).

Definition loadNode (nodeJson : J) : Outcome GatewayNodeConfig :=
  check* required "ipaddr" isString "A gatewayNode is missing 'ipaddr'" nodeJson in
  check* required "messages" isArray "A gatewayNode is missing 'messages'" nodeJson in
  let* ipaddr := stringOf (member "ipaddr" nodeJson) in
  let* messages := collect loadMessage (iterate (member "messages" nodeJson)) in
  Loaded (mkGatewayNodeConfig ipaddr messages).

(** The nodes go into [out] one by one. *)
Fixpoint loadNodes (l : list J) (out : GatewayConfig) : option (string * GatewayConfig) :=
  match l with
  | [] => Some (EmptyString, out)
  | nodeJson :: l' =>
      match loadNode nodeJson with
      | Loaded node => loadNodes l' (mkGatewayConfig (version out) (nodes out ++ [node]))
      | LoadError message => Some (message, out)
      | Throws => None
      end
  end.

(** [None] is an exception; [file] is [None] when the file does not open, and
    an error of the parser or the root otherwise. *)
Definition loadFromFile (path : string) (file : option (string + J)) (out : GatewayConfig) : option (string * GatewayConfig) :=
  match file with
  | None => Some ("Cannot open config file: " +:+ path, out)
  | Some (inl errs) => Some ("JSON parse error in " +:+ path +:+ ": " +:+ errs, out)
  | Some (inr root) =>
      match required "version" isString "Missing or invalid 'version' field" root with
      | Throws => None
      | LoadError message => Some (message, out)
      | Loaded _ =>
          match asString (member "version" root) with
          | None => None
          | Some v =>
              let out := mkGatewayConfig v (nodes out) in
              match required "gatewayNodes" isArray "Missing or invalid 'gatewayNodes' array" root with
              | Throws => None
              | LoadError message => Some (message, out)
              | Loaded _ => loadNodes (iterate (member "gatewayNodes" root)) out
              end
          end
      end
  end.
End load.

Definition newGatewayConfig : GatewayConfig := mkGatewayConfig EmptyString [].

(** ** Hexadecimal ids *)

(** An id as the files write it: eight digits after [0x]. *)
Definition hex_id (i : Z) : string := "0x" +:+ hex 8 (i mod two32).

Lemma stoul_hex_id i : in_i32 i → stoul (hex_id i) = Some (i mod two32) ∧ to_i32 (i mod two32) = i.
Proof.
  intros Hi. assert (Hr : 0 ≤ i mod two32 < two32) by (apply Z.mod_pos_bound; done). split.
  - assert (stoul (hex_id i) = match magnitude (String "0" (String "x" (hex 8 (i mod two32)))) with
      None => None | Some n => if two64 <=? n then None else Some (n mod two64) end) as -> by reflexivity.
    assert (E : magnitude (String "0" (String "x" (hex 8 (i mod two32)))) = Some (i mod two32)).
    { unfold magnitude. cbn [hex]. rewrite hex_digit_in by (apply Z.mod_pos_bound; lia). cbn [Ascii.eqb].
      change (bool_decide (is_Some (Some _))) with true. cbn [orb andb Ascii.eqb Bool.eqb].
      pose proof (digits_hex 7 (i mod two32) ltac:(lia)) as E. cbn [hex] in E. rewrite E.
      f_equal. apply Z.mod_small. exact Hr. }
    rewrite E. assert (two64 <=? i mod two32 = false) as -> by (apply Z.leb_gt; unfold two32, two64 in *; lia).
    f_equal. apply Z.mod_small. unfold two32, two64 in *. lia.
  - unfold to_i32, two32, two31, in_i32 in *. rewrite Zplus_mod_idemp_l. rewrite Z.mod_small; unfold two31 in *; lia.
Qed.

(** ** A configuration as a file *)

Definition propertyToJson (p : GatewayProperty) : Json :=
  JObject [("id"%string, JString (hex_id (id p))); ("desc"%string, JString (desc p))].
Definition messageToJson (m : GatewayMessage) : Json :=
  JObject [("msgId"%string, JString (msgId m)); ("properties"%string, JArray (propertyToJson <$> properties m))].
Definition nodeToJson (n : GatewayNodeConfig) : Json :=
  JObject [("ipaddr"%string, JString (ipaddr n)); ("messages"%string, JArray (messageToJson <$> messages n))].
Definition configToJson (c : GatewayConfig) : Json :=
  JObject [("version"%string, JString (version c)); ("gatewayNodes"%string, JArray (nodeToJson <$> nodes c))].

Definition ids_in_range (c : GatewayConfig) : Prop :=
  Forall (λ n, Forall (λ m, Forall (λ p, in_i32 (id p)) (properties m)) (messages n)) (nodes c).

Lemma collect_map {A B} (f : A → Outcome B) (g : B → A) (P : B → Prop) l :
  (∀ y, P y → f (g y) = Loaded y) → Forall P l → collect f (g <$> l) = Loaded l.
Proof. intros Hf. induction 1 as [|y l Hy Hl IH]; [done|]. cbn [fmap list_fmap collect]. by rewrite (Hf y Hy), IH. Qed.

Lemma loadProperty_json m p : in_i32 (id p) → loadProperty m (propertyToJson p) = Loaded p.
Proof.
  intros Hi. destruct (stoul_hex_id (id p) Hi) as [E1 E2]. unfold loadProperty, required, propertyToJson.
  cbn -[stoul hex_id to_i32 two32]. rewrite E1, E2. by destruct p.
Qed.

Lemma loadMessage_json m : Forall (λ p, in_i32 (id p)) (properties m) → loadMessage (messageToJson m) = Loaded m.
Proof.
  intros Hp. unfold loadMessage, required, messageToJson. cbn -[loadProperty].
  rewrite (collect_map _ _ _ _ (loadProperty_json (msgId m)) Hp). by destruct m.
Qed.

Lemma loadNode_json n : Forall (λ m, Forall (λ p, in_i32 (id p)) (properties m)) (messages n) → loadNode (nodeToJson n) = Loaded n.
Proof.
  intros Hm. unfold loadNode, required, nodeToJson. cbn -[loadMessage].
  rewrite (collect_map _ _ _ _ loadMessage_json Hm). by destruct n.
Qed.

Lemma loadNodes_json l : Forall (λ n, Forall (λ m, Forall (λ p, in_i32 (id p)) (properties m)) (messages n)) l →
  ∀ out, loadNodes (nodeToJson <$> l) out = Some (EmptyString, mkGatewayConfig (version out) (nodes out ++ l)).
Proof.
  induction 1 as [|n l Hn Hl IH]; intros out; [by destruct out; cbn; rewrite app_nil_r|].
  cbn [fmap list_fmap loadNodes]. rewrite (loadNode_json n Hn), IH. cbn. by rewrite <- app_assoc.
Qed.

(** A gateway configuration written as a file, with the property ids in
    hexadecimal, is loaded back as it was: version, nodes, message groups and
    properties in order, the ids as the 32-bit integers they were. *)
Theorem gateway_config_round_trip path c : ids_in_range c →
  loadFromFile path (Some (inr (configToJson c))) newGatewayConfig = Some (EmptyString, c).
Proof.
  intros Hc. unfold loadFromFile, required, configToJson. cbn -[loadNodes].
  rewrite (loadNodes_json _ Hc). by destruct c.
Qed.

Lemma gateway_config_round_trip_witness :
  let c := mkGatewayConfig "1.0" [mkGatewayNodeConfig "192.168.10.20:50051"
    [mkGatewayMessage "ivi-basic" [mkGatewayProperty 289408000 "GEAR_SELECTION"; mkGatewayProperty (-1) "ALL_BITS"]]] in
  loadFromFile "gateway-configs.json" (Some (inr (configToJson c))) newGatewayConfig = Some (EmptyString, c).
Proof. intros c. apply gateway_config_round_trip. repeat constructor; cbn; unfold in_i32, two31; lia. Defined.

(** The id of the configuration that is shipped, and what [stoul] also takes:
    blanks, signs, octal and anything behind the digits. *)
Example stoul_reads : stoul "0x11400400" = Some 289408000 ∧ stoul " -1" = Some (two64 - 1) ∧ stoul "010" = Some 8
  ∧ stoul "0x" = Some 0 ∧ stoul "12junk" = Some 12 ∧ stoul "junk" = None ∧ stoul "18446744073709551616" = None.
Proof. by vm_compute. Qed.

(** ** When a file is accepted *)

Section accept.
  Context {J : Type} `{!JsonValue J}.

(** No message is empty. *)
Definition speaks {A} (o : Outcome A) : Prop := o ≠ LoadError EmptyString.

Lemma required_speaks k kind c s (j : J) : speaks (required k kind (String c s) j).
Proof. unfold speaks, required. by destruct (isObject j), (negb (isMember k j) || negb (kind (member k j))), (isNull j). Qed.

Lemma obind_speaks {A B} (o : Outcome A) (f : A → Outcome B) : speaks o → (∀ a, speaks (f a)) → speaks (obind o f).
Proof. unfold speaks. intros Ho Hf. destruct o as [a|m|]; cbn; [apply Hf| |done]. intros [= ->]. by apply Ho. Qed.

Lemma asString_speaks (j : J) : speaks (stringOf j).
Proof. unfold speaks, stringOf. by destruct (asString j). Qed.

Lemma collect_speaks {A B} (f : A → Outcome B) l : (∀ a, speaks (f a)) → speaks (collect f l).
Proof.
  intros Hf. induction l as [|x l IH]; cbn [collect]; [done|]. apply obind_speaks; [apply Hf|]. intros y.
  by apply obind_speaks.
Qed.

Lemma loadProperty_speaks m (j : J) : speaks (loadProperty m j).
Proof.
  unfold loadProperty. do 2 (apply obind_speaks; [apply required_speaks|intros _]).
  do 2 (apply obind_speaks; [apply asString_speaks|intros ?]). by destruct (stoul _).
Qed.

Lemma loadMessage_speaks (j : J) : speaks (loadMessage j).
Proof.
  unfold loadMessage. do 2 (apply obind_speaks; [apply required_speaks|intros _]).
  apply obind_speaks; [apply asString_speaks|intros m]. apply obind_speaks; [|done].
  apply collect_speaks. intros ?. apply loadProperty_speaks.
Qed.

Lemma loadNode_speaks (j : J) : speaks (loadNode j).
Proof.
  unfold loadNode. do 2 (apply obind_speaks; [apply required_speaks|intros _]).
  apply obind_speaks; [apply asString_speaks|intros m]. apply obind_speaks; [|done].
  apply collect_speaks. intros ?. apply loadMessage_speaks.
Qed.

Lemma loadNodes_empty (l : list J) : ∀ out out', loadNodes l out = Some (EmptyString, out') ↔
  ∃ ns, Forall2 (λ j n, loadNode j = Loaded n) l ns ∧ out' = mkGatewayConfig (version out) (nodes out ++ ns).
Proof.
  induction l as [|j l IH]; intros out out'; cbn [loadNodes].
  - split; [intros [= <-]; exists []; split; [constructor|destruct out; cbn; by rewrite app_nil_r]|].
    intros (ns & Hns & ->). inversion Hns. destruct out. cbn. by rewrite app_nil_r.
  - pose proof (loadNode_speaks j) as Hsp. destruct (loadNode j) as [n|m|] eqn:E.
    + rewrite IH. cbn. split.
      * intros (ns & Hns & ->). exists (n :: ns). split; [by constructor|]. by rewrite <- app_assoc.
      * intros (ns & Hns & ->). inversion Hns as [|? n' ? ns' Hn Hns']; subst. rewrite E in Hn. injection Hn as <-.
        exists ns'. split; [done|]. by rewrite <- app_assoc.
    + split; [intros [= -> _]; by destruct Hsp|]. intros (ns & Hns & _). inversion Hns as [|? ? ? ? Hn]; subst. by rewrite E in Hn.
    + split; [done|]. intros (ns & Hns & _). inversion Hns as [|? ? ? ? Hn]; subst. by rewrite E in Hn.
Qed.

(** The loader reports success exactly for files that open and parse, with a
    version string and an array of nodes every one of which loads; the result
    is then the version and all the nodes, in order.  So a file with any
    invalid node, message, property or id is an error and never starts a
    gateway with part of its configuration. *)
Theorem gateway_config_accepted path file out out' :
  loadFromFile path file out = Some (EmptyString, out') ↔
  ∃ root v ns, file = Some (inr (root : J)) ∧ isObject root = true ∧
    isMember "version" root = true ∧ isString (member "version" root) = true ∧ asString (member "version" root) = Some v ∧
    isMember "gatewayNodes" root = true ∧ isArray (member "gatewayNodes" root) = true ∧
    Forall2 (λ j n, loadNode j = Loaded n) (iterate (member "gatewayNodes" root)) ns ∧
    out' = mkGatewayConfig v (nodes out ++ ns).
Proof.
  assert (Hreq : ∀ k kind c s (j : J), required k kind (String c s) j = Loaded tt ↔
    isObject j = true ∧ isMember k j = true ∧ kind (member k j) = true).
  { intros k kind c s j. unfold required. destruct (isObject j), (isMember k j), (kind (member k j)), (isNull j); cbn; naive_solver. }
  unfold loadFromFile. destruct file as [[errs|root]|]; [split; [done|by intros (? & ? & ? & ? & _)]| |split; [done|by intros (? & ? & ? & ? & _)]].
  split.
  - destruct (required "version" _ _ root) as [[]|m|] eqn:E1; [|intros [= -> _]; by eapply required_speaks in E1|done].
    apply Hreq in E1 as (Ho & Hv1 & Hv2). destruct (asString (member "version" root)) as [v|] eqn:Ev; [|done].
    destruct (required "gatewayNodes" _ _ root) as [[]|m|] eqn:E2; [|intros [= -> _]; by eapply required_speaks in E2|done].
    apply Hreq in E2 as (_ & Hn1 & Hn2). intros (ns & Hns & ->)%loadNodes_empty. by exists root, v, ns.
  - intros (root' & v & ns & [= <-] & Ho & Hv1 & Hv2 & Ev & Hn1 & Hn2 & Hns & ->).
    rewrite (proj2 (Hreq "version"%string isString _ _ root) (conj Ho (conj Hv1 Hv2))), Ev.
    rewrite (proj2 (Hreq "gatewayNodes"%string isArray _ _ root) (conj Ho (conj Hn1 Hn2))).
    apply loadNodes_empty. by exists ns.
Qed.
End accept.
