(* ===== verification/NodeForwarder.v ===== *)
(** * NodeForwarder: property changes sent to one remote node

    Models [vhal-gateway/src/NodeForwarder.cpp]: the message groups of a node,
    the queue of batches, and the worker thread as steps that interleave with
    the callers.  The remote is any [VehicleServer], whose state other clients
    may change between two steps. *)

From stdpp Require Import base gmap sets list strings.
From Stdlib Require Import ZArith Lia.
From S2P Require Import Prelude Float32 VehicleTypes VehicleHardware ProtoMessageConverter GRPCVehicleProxyServer GatewayConfig.

Local Open Scope Z_scope.

Record MessageFilter : Type := mkMessageFilter { mf_msgId : string; mf_propIds : gset Z }.
Record ForwardBatch : Type := mkForwardBatch { fb_msgId : string; fb_values : list VehiclePropValue }.

(** ** Groups *)

Definition filterOf (msg : GatewayMessage) : MessageFilter :=
  mkMessageFilter (msgId msg) (list_to_set (id <$> properties msg)).

Definition allPropIds (config : GatewayNodeConfig) : gset Z :=
  list_to_set (concat ((λ msg, id <$> properties msg) <$> messages config)).

(** The values of a message group. *)
Definition groupValues (msg : MessageFilter) (values : list VehiclePropValue) : list VehiclePropValue :=
  filter (λ v, prop v ∈ mf_propIds msg) values.

(** The loop over the groups: what is pushed on the queue. *)
Fixpoint partitionValues (msgs : list MessageFilter) (values : list VehiclePropValue) : list ForwardBatch :=
  match msgs with
  | [] => []
  | msg :: msgs' =>
      let batch := mkForwardBatch (mf_msgId msg) (groupValues msg values) in
      if negb (length (fb_values batch) =? 0)%nat
      then batch :: partitionValues msgs' values else partitionValues msgs' values
  end.

(** The request of a batch: ids by position. *)
Definition batchRequest (batch : ForwardBatch) : list pVehiclePropValueRequest :=
  imap (λ i v, mkpRequest (Z.of_nat i) (Some (aidlToProto v freshProto))) (fb_values batch).

(** ** The forwarder and its worker *)

Inductive Worker : Type := WorkerLoop | Sending (batch : ForwardBatch) | WorkerExited.

Section forwarder.
  Context {S : Type} `{!VehicleServer S}.

Record NodeForwarder : Type := mkNodeForwarder {
  mMessages : list MessageFilter;
  mAllPropIds : gset Z;
  mQueue : list ForwardBatch;
  mRunning : bool;
  mWorker : Worker;
  remote : S;
  sentBatches : list (ForwardBatch * GrpcStatus);   (* observation: the calls made *)
}.

Definition newNodeForwarder (config : GatewayNodeConfig) (s : S) : NodeForwarder :=
  mkNodeForwarder (filterOf <$> messages config) (allPropIds config) [] true WorkerLoop s [].

Definition set_worker (w : Worker) (q : list ForwardBatch) (f : NodeForwarder) : NodeForwarder :=
  mkNodeForwarder (mMessages f) (mAllPropIds f) q (mRunning f) w (remote f) (sentBatches f).

Definition forward (values : list VehiclePropValue) (f : NodeForwarder) : NodeForwarder :=
  if negb (existsb (λ v, bool_decide (prop v ∈ mAllPropIds f)) values) then f
  else mkNodeForwarder (mMessages f) (mAllPropIds f) (mQueue f ++ partitionValues (mMessages f) values) (mRunning f)
         (mWorker f) (remote f) (sentBatches f).

(** One step of [workerLoop]: taking a batch, sending it, or leaving; [None]
    while it waits. *)
Definition worker_step (f : NodeForwarder) : option NodeForwarder :=
  match mWorker f with
  | WorkerLoop =>
      match mQueue f with
      | [] => if mRunning f then None else Some (set_worker WorkerExited [] f)
      | batch :: q => Some (set_worker (Sending batch) q f)
      end
  | Sending batch =>
      let '(s', status, results) := rpc_SetValues (batchRequest batch) (remote f) in
      Some (mkNodeForwarder (mMessages f) (mAllPropIds f) (mQueue f) (mRunning f) WorkerLoop s'
              (sentBatches f ++ [(batch, status)]))
  | WorkerExited => None
  end.

(** Calls of [forward], steps of the worker, the start of the destructor, and
    other clients of the remote. *)
Inductive ForwarderEvent : Type :=
| EForward (values : list VehiclePropValue)
| EWorker
| EDestroy
| ERemote (s : S).

Definition forwarder_step (e : ForwarderEvent) (f : NodeForwarder) : option NodeForwarder :=
  match e with
  | EForward values => if mRunning f then Some (forward values f) else None
  | EWorker => worker_step f
  | EDestroy => Some (mkNodeForwarder (mMessages f) (mAllPropIds f) (mQueue f) false (mWorker f) (remote f) (sentBatches f))
  | ERemote s => Some (mkNodeForwarder (mMessages f) (mAllPropIds f) (mQueue f) (mRunning f) (mWorker f) s (sentBatches f))
  end.

Fixpoint forwarder_run (tr : list ForwarderEvent) (f : NodeForwarder) : option NodeForwarder :=
  match tr with
  | [] => Some f
  | e :: tr' => match forwarder_step e f with Some f' => forwarder_run tr' f' | None => None end
  end.

(** ** What a call of forward puts on the queue *)

Definition inHand (w : Worker) : list ForwardBatch := match w with Sending b => [b] | _ => [] end.

(** Everything forwarded so far: sent, in hand, queued. *)
Definition allBatches (f : NodeForwarder) : list ForwardBatch :=
  (fst <$> sentBatches f) ++ inHand (mWorker f) ++ mQueue f.

(** The batches an event gives rise to. *)
Fixpoint raisedBatches (msgs : list MessageFilter) (tr : list ForwarderEvent) : list ForwardBatch :=
  match tr with
  | [] => []
  | EForward values :: tr' => partitionValues msgs values ++ raisedBatches msgs tr'
  | _ :: tr' => raisedBatches msgs tr'
  end.

Lemma partition_irrelevant msgs values : (∀ v m, v ∈ values → m ∈ msgs → prop v ∉ mf_propIds m) →
  partitionValues msgs values = [].
Proof.
  induction msgs as [|m msgs IH]; intros Hno; [done|]. cbn [partitionValues fb_values].
  assert (groupValues m values = []) as ->.
  { unfold groupValues. destruct (filter _ values) as [|v l] eqn:E; [done|]. assert (Hin : v ∈ v :: l) by by left.
    rewrite <- E in Hin. apply list_elem_of_filter in Hin as [Hp Hv]. by destruct (Hno v m Hv ltac:(by left)). }
  cbn. apply IH. intros v m' Hv Hm'. apply Hno; [done|by right].
Qed.

(** The fast path only leaves out what the groups leave out. *)
Lemma forward_spec values f : (∀ m p, m ∈ mMessages f → p ∈ mf_propIds m → p ∈ mAllPropIds f) →
  forward values f = set_worker (mWorker f) (mQueue f ++ partitionValues (mMessages f) values) f.
Proof.
  intros Hsub. unfold forward, set_worker. destruct (existsb _ values) eqn:E; [done|]. cbn [negb].
  rewrite partition_irrelevant; [by rewrite app_nil_r; destruct f|].
  intros v m Hv Hm Hp. assert (existsb (λ v, bool_decide (prop v ∈ mAllPropIds f)) values = true) as Hy; [|by rewrite E in Hy].
  apply existsb_exists. exists v. split; [by apply list_elem_of_In|]. apply bool_decide_eq_true. by apply (Hsub m).
Qed.

Lemma groups_covered config m p : m ∈ (filterOf <$> messages config) → p ∈ mf_propIds m → p ∈ allPropIds config.
Proof.
  intros (msg & -> & Hm)%list_elem_of_fmap. cbn. unfold allPropIds. rewrite !elem_of_list_to_set. intros Hp.
  apply list_elem_of_In, in_concat. exists (id <$> properties msg). split; [|by apply list_elem_of_In].
  apply list_elem_of_In, list_elem_of_fmap. by exists msg.
Qed.

(** ** Invariant *)

Record forwarder_inv (config : GatewayNodeConfig) (tr : list ForwarderEvent) (f : NodeForwarder) : Prop := mkForwarderInv {
  fi_messages : mMessages f = filterOf <$> messages config;
  fi_all : mAllPropIds f = allPropIds config;
  fi_batches : allBatches f = raisedBatches (filterOf <$> messages config) tr;
  fi_exit : mWorker f = WorkerExited → mRunning f = false ∧ mQueue f = [];
}.

Lemma raised_app msgs tr e : raisedBatches msgs (tr ++ [e]) = raisedBatches msgs tr ++ raisedBatches msgs [e].
Proof. induction tr as [|[] tr IH]; cbn in *; [done| |done..]. by rewrite IH, <- app_assoc. Qed.

Lemma forwarder_inv_step config tr e f f' : forwarder_inv config tr f → forwarder_step e f = Some f' →
  forwarder_inv config (tr ++ [e]) f'.
Proof.
  intros [Hm Ha Hb Hx] Hs. destruct e as [values| | |s]; cbn in Hs.
  - destruct (mRunning f) eqn:Hr; [|done]. injection Hs as <-. rewrite forward_spec.
    2: { intros m p Hmm Hp. rewrite Hm in Hmm. rewrite Ha. by eapply groups_covered. }
    split; [done|done| |by cbn; intros ?%Hx; destruct H; congruence]. rewrite raised_app, <- Hb. unfold allBatches. cbn.
    by rewrite Hm, app_nil_r, <- !app_assoc.
  - unfold worker_step in Hs. unfold allBatches in Hb. destruct (mWorker f) as [|batch|] eqn:Hw; [| |done].
    + destruct (mQueue f) as [|batch q] eqn:Hq; [destruct (mRunning f) eqn:Hr; [done|]|]; injection Hs as <-;
        (split; [done|done| |]); unfold allBatches; cbn; rewrite ?raised_app, ?app_nil_r; cbn; rewrite <- ?Hb, ?app_nil_r; done.
    + destruct (rpc_SetValues _ _) as [[s' st] rs]. injection Hs as <-. split; [done|done| |done].
      rewrite raised_app, <- Hb. unfold allBatches. cbn. by rewrite fmap_app, app_nil_r, <- app_assoc.
  - injection Hs as <-. split; [done|done| |].
    + rewrite raised_app, <- Hb. cbn. by rewrite app_nil_r.
    + intros Hw. by destruct (Hx Hw).
  - injection Hs as <-. split; [done|done| |done]. rewrite raised_app, <- Hb. cbn. by rewrite app_nil_r.
Qed.

Lemma forwarder_inv_run config tr2 : ∀ tr1 f f', forwarder_inv config tr1 f → forwarder_run tr2 f = Some f' →
  forwarder_inv config (tr1 ++ tr2) f'.
Proof.
  induction tr2 as [|e tr2 IH]; intros tr1 f f' Hi; cbn [forwarder_run]; [intros [= <-]; by rewrite app_nil_r|].
  destruct (forwarder_step e f) as [f1|] eqn:E; [|done]. intros Hr. rewrite cons_middle, app_assoc.
  by apply (IH _ f1); [eapply forwarder_inv_step|].
Qed.

Lemma forwarder_inv_new config s : forwarder_inv config [] (newNodeForwarder config s).
Proof. by split. Qed.

(** Under any interleaving of forwarded changes, the worker, other clients
    of the remote and the destructor: the batches sent to the remote, the one
    in hand and those queued are, in order, exactly those the changes gave
    rise to, whatever calls failed; and the worker leaves only when the
    forwarder is being destroyed and everything was sent. *)
Theorem batches_sent_in_order config s tr f : forwarder_run tr (newNodeForwarder config s) = Some f →
  (fst <$> sentBatches f) ++ inHand (mWorker f) ++ mQueue f = raisedBatches (filterOf <$> messages config) tr ∧
  (mWorker f = WorkerExited → mRunning f = false ∧ (fst <$> sentBatches f) = raisedBatches (filterOf <$> messages config) tr).
Proof.
  intros Hr. destruct (forwarder_inv_run config tr [] _ f (forwarder_inv_new config s) Hr) as [_ _ Hb Hx]. cbn [app] in Hb. split; [exact Hb|].
  intros Hw. destruct (Hx Hw) as [Hrun Hq]. split; [done|]. rewrite <- Hb. unfold allBatches. by rewrite Hw, Hq, app_nil_r.
Qed.

(** ** Partition *)

Lemma partition_elem msgs values b : b ∈ partitionValues msgs values ↔
  ∃ m, m ∈ msgs ∧ b = mkForwardBatch (mf_msgId m) (groupValues m values) ∧ groupValues m values ≠ [].
Proof.
  induction msgs as [|m msgs IH]; cbn [partitionValues fb_values].
  { split; [by intros ?%elem_of_nil|]. by intros (m & ?%elem_of_nil & _). }
  destruct (groupValues m values) as [|v l] eqn:E; cbn [length Nat.eqb negb].
  - rewrite IH. split; [intros (m' & Hm' & H); exists m'; split; [by right|done]|].
    intros (m' & [->|Hm']%elem_of_cons & Hb & Hne); [by rewrite E in Hne|by exists m'].
  - rewrite elem_of_cons, IH. split.
    + intros [->|(m' & Hm' & H)]; [exists m; split; [by left|]; by rewrite E|]. exists m'. split; [by right|done].
    + intros (m' & [->|Hm']%elem_of_cons & Hb & Hne); [left; by rewrite Hb, E|right; by exists m'].
Qed.

(** A change event becomes one batch for each message group that has one
    of the changed properties, and no other batch, in the order of the groups;
    a batch has exactly the changed values of its group's properties, in the
    order they were reported.  Values of properties that are in no group of
    the node never leave for it. *)
Theorem forward_partitions config s values :
  let q := mQueue (forward values (newNodeForwarder config s)) in
  (∀ b, b ∈ q ↔ ∃ msg, msg ∈ messages config ∧ fb_msgId b = msgId msg ∧
      fb_values b = filter (λ v, prop v ∈ (id <$> properties msg)) values ∧ fb_values b ≠ []) ∧
  sublist (fb_msgId <$> q) (msgId <$> messages config) ∧
  (∀ b v, b ∈ q → v ∈ fb_values b → v ∈ values ∧ ∃ msg p, msg ∈ messages config ∧ p ∈ properties msg ∧ id p = prop v).
Proof.
  cbn zeta. rewrite forward_spec by (intros m p; apply groups_covered). cbn [mQueue set_worker newNodeForwarder mMessages app].
  assert (Hg : ∀ msg, groupValues (filterOf msg) values = filter (λ v, prop v ∈ (id <$> properties msg)) values).
  { intros msg. unfold groupValues, filterOf. cbn [mf_propIds]. apply list_filter_iff. intros v. by rewrite elem_of_list_to_set. }
  assert (Hq : ∀ b, b ∈ partitionValues (filterOf <$> messages config) values ↔ ∃ msg, msg ∈ messages config ∧ fb_msgId b = msgId msg ∧
      fb_values b = filter (λ v, prop v ∈ (id <$> properties msg)) values ∧ fb_values b ≠ []).
  { intros b. rewrite partition_elem. split.
    - intros (m & (msg & -> & Hm)%list_elem_of_fmap & -> & Hne). exists msg. rewrite <- Hg. by split_and!.
    - intros (msg & Hm & Hid & Hv & Hne). exists (filterOf msg). split; [by apply list_elem_of_fmap_2|].
      rewrite Hg. split; [|by rewrite <- Hv]. destruct b. cbn in *. by subst. }
  split; [exact Hq|]. split.
  - induction (messages config) as [|msg l IH]; [constructor|]. cbn [fmap list_fmap partitionValues fb_values mf_msgId filterOf].
    assert (Hl : sublist (fb_msgId <$> partitionValues (filterOf <$> l) values) (msgId <$> l)).
    { clear. induction l as [|msg l IH]; [constructor|]. cbn [fmap list_fmap partitionValues fb_values].
      destruct (negb _); cbn; [by constructor|by constructor]. }
    destruct (negb _); cbn; by constructor.
  - intros b v (msg & Hm & _ & Hv & _)%Hq Hin. rewrite Hv in Hin. apply list_elem_of_filter in Hin as [Hp Hin].
    split; [done|]. apply list_elem_of_fmap in Hp as (p & Hp & Hpin). by exists msg, p.
Qed.

(** ** Shutdown *)

Fixpoint drain (n : nat) (f : NodeForwarder) : option NodeForwarder :=
  match n with O => Some f | Datatypes.S n' => match worker_step f with Some f' => drain n' f' | None => None end end.

Lemma drain_queue q : ∀ f, mRunning f = false → mWorker f = WorkerLoop → mQueue f = q →
  ∃ f', drain (1 + 2 * length q) f = Some f' ∧ mWorker f' = WorkerExited ∧
    (fst <$> sentBatches f') = (fst <$> sentBatches f) ++ q.
Proof.
  induction q as [|b q IH]; intros f Hr Hw Hq.
  - cbn. unfold worker_step. rewrite Hw, Hq, Hr. eexists. split; [done|]. split; [done|]. cbn. by rewrite app_nil_r.
  - replace (1 + 2 * length (b :: q))%nat with (Datatypes.S (Datatypes.S (1 + 2 * length q))) by (cbn; lia). cbn [drain].
    unfold worker_step at 1. rewrite Hw, Hq. unfold worker_step at 1. cbn [mWorker set_worker remote mQueue sentBatches mMessages mAllPropIds mRunning].
    destruct (rpc_SetValues _ _) as [[s' st] rs]. set (f1 := mkNodeForwarder _ _ _ _ _ _ _).
    destruct (IH f1 Hr eq_refl eq_refl) as (f' & E & Hx & Hs). exists f'. split; [exact E|]. split; [done|].
    rewrite Hs. cbn. rewrite fmap_app. cbn. by rewrite <- app_assoc.
Qed.

(** The destructor's join returns: once the forwarder is being destroyed
    the worker leaves after finitely many steps, at most two for each batch
    that is queued or in hand and one more, having sent all of them whether
    the remote answers or fails. *)
Theorem forwarder_shutdown_terminates f : mRunning f = false → mWorker f ≠ WorkerExited →
  ∃ n f', (n ≤ 2 * length (inHand (mWorker f) ++ mQueue f) + 1)%nat ∧ drain n f = Some f' ∧ mWorker f' = WorkerExited ∧
    (fst <$> sentBatches f') = (fst <$> sentBatches f) ++ inHand (mWorker f) ++ mQueue f.
Proof.
  intros Hr Hne. destruct (mWorker f) as [|batch|] eqn:Hw; [| |done]; cbn [inHand app].
  - destruct (drain_queue (mQueue f) f Hr Hw eq_refl) as (f' & E & Hx & Hs).
    exists (1 + 2 * length (mQueue f))%nat, f'. split; [lia|done].
  - destruct (rpc_SetValues (batchRequest batch) (remote f)) as [[s' st] rs] eqn:Hrpc.
    set (f1 := mkNodeForwarder (mMessages f) (mAllPropIds f) (mQueue f) (mRunning f) WorkerLoop s' (sentBatches f ++ [(batch, st)])).
    destruct (drain_queue (mQueue f) f1 Hr eq_refl eq_refl) as (f' & E & Hx & Hs).
    exists (Datatypes.S (1 + 2 * length (mQueue f))), f'. split; [cbn; lia|]. split; [|split; [done|]].
    + cbn [drain]. unfold worker_step. rewrite Hw, Hrpc. exact E.
    + rewrite Hs. cbn. rewrite fmap_app. cbn. by rewrite <- app_assoc.
Qed.
End forwarder.
Arguments NodeForwarder : clear implicits.
Arguments ForwarderEvent : clear implicits.

(** ** Examples *)

(** A remote that logs the requests or, while it is down, fails. *)
Record LogServer : Type := mkLog { log_up : bool; log_requests : list (list pVehiclePropValueRequest) }.

#[export] Instance log_server : VehicleServer LogServer := {|
  rpc_GetAllPropertyConfig s := ([], GrpcOk);
  rpc_SetValues rs s := if log_up s then (mkLog true (log_requests s ++ [rs]), GrpcOk, []) else (s, GrpcError INTERNAL, []);
  rpc_GetValues rs s := (s, GrpcOk, []);
  rpc_UpdateSampleRate p a r s := (s, GrpcOk, OK);
  rpc_Subscribe o s := (s, GrpcOk, OK);
  rpc_Unsubscribe p a s := (s, GrpcOk, OK);
  rpc_CheckHealth s := (s, GrpcOk, OK);
  rpc_Dump o s := (s, GrpcOk, mkDumpResult false EmptyString false);
  rpc_GetMinMaxSupportedValues ids s := (s, GrpcOk, []);
  rpc_GetSupportedValuesLists ids s := (s, GrpcOk, []) |}.

Definition gear : Z := 289408000.
Definition gearAt (t v : Z) : VehiclePropValue := mkPropValue t 0 gear VehiclePropertyStatus.AVAILABLE (mkRaw [v] [] [] [] EmptyString).
Definition example_node : GatewayNodeConfig :=
  mkGatewayNodeConfig "192.168.10.20:50051" [mkGatewayMessage "ivi-basic" [mkGatewayProperty gear "GEAR_SELECTION"]].
Definition speedEvent (t v : Z) : VehiclePropValue :=
  mkPropValue t 0 291504647 VehiclePropertyStatus.AVAILABLE (mkRaw [] [f32_of_Z v] [] [] EmptyString).

Definition example_forwarder : NodeForwarder LogServer := newNodeForwarder example_node (mkLog true []).
Definition gearBatch (t v : Z) : ForwardBatch := mkForwardBatch "ivi-basic" [gearAt t v].

Lemma batches_sent_in_order_witness : ∃ f,
  forwarder_run [EForward [gearAt 1 4; speedEvent 1 3]; EForward [speedEvent 2 4]; EWorker; EWorker; EForward [gearAt 3 8]; EDestroy]
    example_forwarder = Some f ∧
  (fst <$> sentBatches f) ++ inHand (mWorker f) ++ mQueue f = [gearBatch 1 4; gearBatch 3 8].
Proof.
  destruct (forwarder_run _ example_forwarder) as [f|] eqn:E; [|vm_compute in E; discriminate E].
  destruct (batches_sent_in_order example_node _ _ f E) as [H _]. exists f. split; [reflexivity|]. rewrite H. vm_compute. reflexivity.
Defined.

Lemma forward_partitions_witness :
  gearBatch 1 4 ∈ mQueue (forward [speedEvent 1 3; gearAt 1 4] example_forwarder) ∧
  ∀ b v, b ∈ mQueue (forward [speedEvent 1 3; gearAt 1 4] example_forwarder) → v ∈ fb_values b → v ∈ [speedEvent 1 3; gearAt 1 4].
Proof.
  destruct (forward_partitions example_node (mkLog true []) [speedEvent 1 3; gearAt 1 4]) as (Hq & _ & Hv). split.
  - apply Hq. eexists. split; [left|]. split; [reflexivity|]. split; [vm_compute; reflexivity|discriminate].
  - intros b v Hb Hin. exact (proj1 (Hv b v Hb Hin)).
Defined.

Lemma forwarder_shutdown_terminates_witness : ∃ n f',
  drain n (mkNodeForwarder [] ∅ [gearBatch 3 8] false (Sending (gearBatch 1 4)) (mkLog false []) []) = Some f' ∧
  mWorker f' = WorkerExited ∧ (fst <$> sentBatches f') = [gearBatch 1 4; gearBatch 3 8].
Proof.
  destruct (forwarder_shutdown_terminates (mkNodeForwarder [] ∅ [gearBatch 3 8] false (Sending (gearBatch 1 4)) (mkLog false []) []))
    as (n & f' & _ & E & Hx & Hs); [reflexivity|discriminate|]. exists n, f'. split; [exact E|]. split; [exact Hx|exact Hs].
Defined.
