(* ===== verification/VhalGateway.v ===== *)
(** * VhalGateway: the gateway between two nodes

    Models [vhal-gateway/src/VhalGateway.cpp]: the constructor, [pollOnce] and
    the poll loop of [start] together with the workers of the forwarders, over
    the [GRPCVehicleHardware] client of the local server.  Other clients may
    change the local and the remote servers between two steps, and the threads
    of the local client its own state. *)

From stdpp Require Import base gmap sets list strings.
From Stdlib Require Import ZArith Lia.
From S2P Require Import Prelude Float32 VehicleTypes VehicleHardware ProtoMessageConverter GRPCVehicleProxyServer GRPCVehicleHardware GatewayConfig NodeForwarder.

Local Open Scope Z_scope.

Definition gatewayPropIds (config : GatewayConfig) : gset Z :=
  list_to_set (concat ((λ n, concat ((λ m, id <$> properties m) <$> messages n)) <$> nodes config)).

(** The requests of every poll, one for each id in the order the set of ids is
    traversed. *)
Definition buildRequests (order : list Z) : list GetValueRequest :=
  imap (λ i p, mkGetValueRequest (Z.of_nat i) (mkPropValue 0 0 p VehiclePropertyStatus.AVAILABLE emptyRaw)) order.

(** ** Detecting changes *)

(** [result.status != OK || !result.prop.has_value()] *)
Definition okValue (result : GetValueResult) : option VehiclePropValue :=
  if decide (gr_status result ≠ OK) then None else gr_prop result.

Definition differs (previous : option VehiclePropValue) (v : VehiclePropValue) : bool :=
  match previous with None => true | Some o => negb (RawPropValues_eqb (value o) (value v)) end.

(** The loop over the results: the values last seen and the changed ones. *)
Fixpoint detectChanges (results : list GetValueResult) (previous : gmap Z VehiclePropValue)
    (changedValues : list VehiclePropValue) : gmap Z VehiclePropValue * list VehiclePropValue :=
  match results with
  | [] => (previous, changedValues)
  | result :: results' =>
      match okValue result with
      | None => detectChanges results' previous changedValues
      | Some v =>
          if differs (previous !! prop v) v
          then detectChanges results' (<[prop v := v]> previous) (changedValues ++ [v])
          else detectChanges results' previous changedValues
      end
  end.

Section gateway.
  Context (tick : nat → Z).
  Context {SL : Type} `{!VehicleServer SL} {SR : Type} `{!VehicleServer SR}.

Record VhalGateway : Type := mkVhalGateway {
  mForwarders : list (NodeForwarder SR);
  mPreviousValues : gmap Z VehiclePropValue;
  mGetRequests : list GetValueRequest;
  mLocalHardware : GRPCVehicleHardware;
  local : SL;                                   (* the local server *)
  readings : list (list GetValueResult);        (* observation: the results of the successful polls *)
}.

(** [traverse] is the order in which the set is iterated. *)
Definition newVhalGateway (config : GatewayConfig) (traverse : gset Z → list Z) (remoteOf : nat → SR) (s : SL) : VhalGateway :=
  mkVhalGateway (imap (λ i n, newNodeForwarder n (remoteOf i)) (nodes config)) ∅
    (buildRequests (traverse (gatewayPropIds config))) newGrpc s [].

(** [pollOnce]; [None] when the call to the local server does not return in
    [fuel] rounds. *)
Definition pollOnce (fuel : nat) (gw : VhalGateway) : option VhalGateway :=
  match getValues tick fuel (mGetRequests gw) (mLocalHardware gw) (local gw) with
  | None => None
  | Some (g', s', calls, status) =>
      let results := foldl (λ _ r, r) [] calls in
      if decide (status ≠ OK)
      then Some (mkVhalGateway (mForwarders gw) (mPreviousValues gw) (mGetRequests gw) g' s' (readings gw))
      else
        let '(previous, changedValues) := detectChanges results (mPreviousValues gw) [] in
        let forwarders := if (length changedValues =? 0)%nat then mForwarders gw
                          else forward changedValues <$> mForwarders gw in
        Some (mkVhalGateway forwarders previous (mGetRequests gw) g' s' (readings gw ++ [results]))
  end.

(** Polls, steps of the [i]-th worker, and the other clients of the servers. *)
Inductive GatewayEvent : Type :=
| GPoll (fuel : nat)
| GWorker (i : nat)
| GRemote (i : nat) (s : SR)
| GLocal (g : GRPCVehicleHardware) (s : SL).

Definition onForwarder (e : ForwarderEvent SR) (i : nat) (gw : VhalGateway) : option VhalGateway :=
  match mForwarders gw !! i with
  | None => None
  | Some f =>
      match forwarder_step e f with
      | None => None
      | Some f' => Some (mkVhalGateway (<[i := f']> (mForwarders gw)) (mPreviousValues gw) (mGetRequests gw)
                           (mLocalHardware gw) (local gw) (readings gw))
      end
  end.

Definition gateway_step (e : GatewayEvent) (gw : VhalGateway) : option VhalGateway :=
  match e with
  | GPoll fuel => pollOnce fuel gw
  | GWorker i => onForwarder EWorker i gw
  | GRemote i s => onForwarder (ERemote s) i gw
  | GLocal g s => Some (mkVhalGateway (mForwarders gw) (mPreviousValues gw) (mGetRequests gw) g s (readings gw))
  end.

Fixpoint gateway_run (tr : list GatewayEvent) (gw : VhalGateway) : option VhalGateway :=
  match tr with
  | [] => Some gw
  | e :: tr' => match gateway_step e gw with Some gw' => gateway_run tr' gw' | None => None end
  end.

(** ** What is forwarded, as a function of what was read *)

(** The values of [l] that differ from the one reported before them. *)
Fixpoint changes (last : option VehiclePropValue) (l : list VehiclePropValue) : list VehiclePropValue :=
  match l with
  | [] => []
  | v :: l' => if differs last v then v :: changes (Some v) l' else changes last l'
  end.

Fixpoint lastChange (last : option VehiclePropValue) (l : list VehiclePropValue) : option VehiclePropValue :=
  match l with
  | [] => last
  | v :: l' => if differs last v then lastChange (Some v) l' else lastChange last l'
  end.

(** The events of a history of polls. *)
Fixpoint changeEvents (previous : gmap Z VehiclePropValue) (history : list (list GetValueResult)) : list (list VehiclePropValue) :=
  match history with
  | [] => []
  | results :: history' =>
      let '(previous', changed) := detectChanges results previous [] in changed :: changeEvents previous' history'
  end.

Definition ofProp (p : Z) (l : list VehiclePropValue) : list VehiclePropValue := filter (λ v, prop v = p) l.

(** The values of a property that were read. *)
Definition readOf (p : Z) (history : list (list GetValueResult)) : list VehiclePropValue :=
  ofProp p (omap okValue (concat history)).

Lemma ofProp_cons p v l : ofProp p (v :: l) = if decide (prop v = p) then v :: ofProp p l else ofProp p l.
Proof. unfold ofProp. by rewrite filter_cons. Qed.

Lemma ofProp_app p l1 l2 : ofProp p (l1 ++ l2) = ofProp p l1 ++ ofProp p l2.
Proof. apply filter_app. Qed.

Lemma detect_acc results : ∀ previous acc,
  detectChanges results previous acc = ((detectChanges results previous []).1, acc ++ (detectChanges results previous []).2).
Proof.
  induction results as [|r results IH]; intros previous acc; cbn [detectChanges]; [cbn; by rewrite app_nil_r|].
  destruct (okValue r) as [v|]; [|apply IH]. destruct (differs _ v); [|apply IH].
  rewrite (IH _ (acc ++ [v])), (IH _ ([] ++ [v])). cbn. by rewrite <- app_assoc.
Qed.

Lemma detect_prop p results : ∀ previous,
  ofProp p (detectChanges results previous []).2 = changes (previous !! p) (ofProp p (omap okValue results)) ∧
  (detectChanges results previous []).1 !! p = lastChange (previous !! p) (ofProp p (omap okValue results)).
Proof.
  induction results as [|r results IH]; intros previous; [done|]. cbn [detectChanges omap list_omap].
  destruct (okValue r) as [v|]; [|apply IH]. rewrite ofProp_cons. destruct (decide (prop v = p)) as [<-|Hne].
  - cbn [changes lastChange]. destruct (differs (previous !! prop v) v); [|apply IH].
    rewrite detect_acc. cbn [fst snd app]. rewrite ofProp_cons, decide_True by done.
    destruct (IH (<[prop v := v]> previous)) as [H1 H2]. rewrite lookup_insert_eq in H1, H2. split; [by f_equal|done].
  - destruct (differs (previous !! prop v) v); [|apply IH].
    rewrite detect_acc. cbn [fst snd app]. rewrite ofProp_cons, decide_False by done.
    destruct (IH (<[prop v := v]> previous)) as [H1 H2]. by rewrite lookup_insert_ne in H1, H2.
Qed.

Lemma changes_app l1 l2 : ∀ last, changes last (l1 ++ l2) = changes last l1 ++ changes (lastChange last l1) l2.
Proof. induction l1 as [|v l1 IH]; intros last; [done|]. cbn. destruct (differs last v); cbn; by rewrite IH. Qed.

Lemma changeEvents_prop p history : ∀ previous,
  ofProp p (concat (changeEvents previous history)) = changes (previous !! p) (readOf p history).
Proof.
  induction history as [|results history IH]; intros previous; [done|]. cbn [changeEvents].
  destruct (detectChanges results previous []) as [previous' changed] eqn:E. destruct (detect_prop p results previous) as [H1 H2].
  rewrite E in H1, H2. cbn [fst snd] in *. cbn [concat]. rewrite ofProp_app, H1, IH, H2. unfold readOf. cbn [concat].
  rewrite omap_app, ofProp_app, changes_app. done.
Qed.

Lemma changes_differ l : ∀ last i v w, changes last l !! i = Some v → changes last l !! S i = Some w → differs (Some v) w = true.
Proof.
  assert (Hhead : ∀ l last w, changes last l !! 0%nat = Some w → differs last w = true).
  { clear l. intros l. induction l as [|x l IH]; intros last w; cbn [changes]; [by rewrite lookup_nil|]. destruct (differs last x) eqn:E; [by intros [= <-]|]. apply IH. }
  induction l as [|x l IH]; intros last i v w; cbn [changes]; [by rewrite lookup_nil|]. destruct (differs last x); [|apply IH].
  destruct i as [|i]; cbn; [intros [= <-]; apply Hhead|apply IH].
Qed.

(** What was reported last: equal, as the code compares, to what was read last. *)
Lemma lastChange_last l : ∀ o, lastChange o l = match last (changes o l) with Some w => Some w | None => o end.
Proof.
  induction l as [|v l IH]; intros o; [done|]. cbn [lastChange changes]. destruct (differs o v); [|apply IH].
  rewrite IH, last_cons. by destruct (last (changes (Some v) l)).
Qed.

Lemma lastChange_tracks l v : last l = Some v → ∀ o,
  ∃ w, lastChange o l = Some w ∧ (w = v ∨ RawPropValues_eqb (value w) (value v) = true).
Proof.
  induction l as [|x l IH]; [done|]. rewrite last_cons. cbn [lastChange]. intros Hl o.
  destruct (last l) as [y|] eqn:Ey; [|apply last_None in Ey as ->; injection Hl as ->].
  - injection Hl as ->. destruct (differs o x); by apply IH.
  - cbn [lastChange]. unfold differs. destruct o as [o|]; [|exists v; split; [done|by left]].
    destruct (RawPropValues_eqb (value o) (value v)) eqn:E; cbn; [exists o; split; [done|by right]|exists v; split; [done|by left]].
Qed.
(** ** Invariant *)

Fixpoint previousAfter (previous : gmap Z VehiclePropValue) (history : list (list GetValueResult)) : gmap Z VehiclePropValue :=
  match history with
  | [] => previous
  | results :: history' => previousAfter (detectChanges results previous []).1 history'
  end.

Lemma changeEvents_snoc results history : ∀ previous,
  changeEvents previous (history ++ [results]) =
    changeEvents previous history ++ [(detectChanges results (previousAfter previous history) []).2] ∧
  previousAfter previous (history ++ [results]) = (detectChanges results (previousAfter previous history) []).1.
Proof.
  induction history as [|r history IH]; intros previous; cbn [app changeEvents previousAfter].
  - by destruct (detectChanges results previous []).
  - destruct (detectChanges r previous []) as [previous' changed] eqn:E. cbn [fst].
    destruct (IH previous') as [-> ->]. done.
Qed.

Lemma partition_none msgs : partitionValues msgs [] = [].
Proof. induction msgs as [|m msgs IH]; [done|]. cbn. exact IH. Qed.

Definition nodeBatches (n : GatewayNodeConfig) (history : list (list GetValueResult)) : list ForwardBatch :=
  concat (partitionValues (filterOf <$> messages n) <$> changeEvents ∅ history).

(** A forwarder of the gateway after a history of readings. *)
Definition forwarder_ok (history : list (list GetValueResult)) (n : GatewayNodeConfig) (f : NodeForwarder SR) : Prop :=
  mRunning f = true ∧ ∃ tr, forwarder_inv n tr f ∧ raisedBatches (filterOf <$> messages n) tr = nodeBatches n history.

Record gateway_inv (config : GatewayConfig) (gw : VhalGateway) : Prop := mkGatewayInv {
  gi_forwarders : Forall2 (forwarder_ok (readings gw)) (nodes config) (mForwarders gw);
  gi_previous : mPreviousValues gw = previousAfter ∅ (readings gw);
}.

Lemma forwarder_ok_step history n f e f' : forwarder_ok history n f → e = EWorker ∨ (∃ s, e = ERemote s) →
  forwarder_step e f = Some f' → forwarder_ok history n f'.
Proof.
  intros (Hr & tr & Hi & Hb) He Hs. pose proof (forwarder_inv_step n tr e f f' Hi Hs) as Hi'. split.
  - destruct He as [->|[s ->]]; cbn in Hs; [|by injection Hs as <-]. unfold worker_step in Hs.
    destruct (mWorker f) as [|b|]; [| |done].
    + destruct (mQueue f); [by rewrite Hr in Hs|]. by injection Hs as <-.
    + destruct (rpc_SetValues _ _) as [[s' st] rs]. by injection Hs as <-.
  - exists (tr ++ [e]). split; [done|]. rewrite raised_app, Hb. destruct He as [->|[s ->]]; cbn; by rewrite app_nil_r.
Qed.

Lemma forwarder_ok_event history results n f :
  let changed := (detectChanges results (previousAfter ∅ history) []).2 in
  forwarder_ok history n f →
  forwarder_ok (history ++ [results]) n (if (length changed =? 0)%nat then f else forward changed f).
Proof.
  intros changed (Hr & tr & Hi & Hb). assert (Hnb : nodeBatches n (history ++ [results]) =
    nodeBatches n history ++ partitionValues (filterOf <$> messages n) changed).
  { unfold nodeBatches. destruct (changeEvents_snoc results history ∅) as [-> _]. rewrite fmap_app, concat_app. cbn.
    by rewrite app_nil_r. }
  destruct (Nat.eqb_spec (length changed) 0) as [Hl|Hl].
  - apply nil_length_inv in Hl. split; [done|]. exists tr. split; [done|]. by rewrite Hnb, Hl, partition_none, app_nil_r.
  - assert (Hs : forwarder_step (EForward changed) f = Some (forward changed f)) by (cbn; by rewrite Hr).
    split; [unfold forward; by destruct (negb _)|]. exists (tr ++ [EForward changed]).
    split; [exact (forwarder_inv_step n tr _ f _ Hi Hs)|]. rewrite raised_app, Hb, Hnb. cbn. by rewrite app_nil_r.
Qed.

Lemma pollOnce_inv config fuel gw gw' : gateway_inv config gw → pollOnce fuel gw = Some gw' → gateway_inv config gw'.
Proof.
  intros [Hf Hp]. unfold pollOnce. destruct (getValues tick fuel _ _ _) as [[[[g' s'] calls] status]|]; [|done].
  destruct (decide _); [by intros [= <-]; split|]. set (results := foldl _ [] calls).
  destruct (detectChanges results (mPreviousValues gw) []) as [previous changed] eqn:E. intros [= <-].
  rewrite Hp in E. destruct (changeEvents_snoc results (readings gw) ∅) as [_ Hpa]. split; cbn [readings mForwarders mPreviousValues].
  - pose proof (λ n f, forwarder_ok_event (readings gw) results n f) as Hev. rewrite E in Hev. cbn [snd] in Hev.
    destruct (length changed =? 0)%nat.
    + eapply Forall2_impl; [exact Hf|]. apply Hev.
    + apply Forall2_fmap_r. eapply Forall2_impl; [exact Hf|]. apply Hev.
  - by rewrite Hpa, E.
Qed.

Lemma onForwarder_inv config e i gw gw' : gateway_inv config gw → e = EWorker ∨ (∃ s, e = ERemote s) →
  onForwarder e i gw = Some gw' → gateway_inv config gw'.
Proof.
  intros [Hf Hp] He. unfold onForwarder. destruct (mForwarders gw !! i) as [f|] eqn:Ef; [|done].
  destruct (forwarder_step e f) as [f'|] eqn:Es; [|done]. intros [= <-]. split; [|done]. cbn [readings mForwarders].
  destruct (Forall2_lookup_r _ _ _ _ _ Hf Ef) as (n & Hn & Hok).
  rewrite <- (list_insert_id _ _ _ Hn). apply Forall2_insert; [done|]. by eapply forwarder_ok_step.
Qed.

Lemma gateway_step_inv config e gw gw' : gateway_inv config gw → gateway_step e gw = Some gw' → gateway_inv config gw'.
Proof.
  intros Hi. destruct e as [fuel|i|i s|g s]; cbn [gateway_step].
  - by apply pollOnce_inv.
  - apply onForwarder_inv; [done|by left].
  - apply onForwarder_inv; [done|right; by eexists].
  - destruct Hi. by intros [= <-].
Qed.

Lemma gateway_run_inv config tr : ∀ gw gw', gateway_inv config gw → gateway_run tr gw = Some gw' → gateway_inv config gw'.
Proof.
  induction tr as [|e tr IH]; intros gw gw' Hi; cbn [gateway_run]; [by intros [= <-]|].
  destruct (gateway_step e gw) as [gw1|] eqn:E; [|done]. apply IH. by eapply gateway_step_inv.
Qed.

Lemma new_gateway_inv config traverse remoteOf s : gateway_inv config (newVhalGateway config traverse remoteOf s).
Proof.
  split; [|done]. cbn. apply Forall2_same_length_lookup. split; [by rewrite length_imap|].
  intros i n f Hn Hf. rewrite list_lookup_imap, Hn in Hf. injection Hf as <-. split; [done|].
  exists []. split; [apply forwarder_inv_new|done].
Qed.

(** C13: The gateway forwards the changes and nothing else.  In every reachable
    state, whatever the polls, the workers and the other clients of the
    servers do: what a node was sent, is being sent and will be sent is the
    events of the polls so far, each split into the node's message groups; the
    values of a property in those events are the values read for it without
    those equal to the one forwarded before; so no value is forwarded twice in
    a row, and the last one forwarded equals the last one read. *)
Theorem gateway_forwards_changes config traverse remoteOf s tr gw :
  gateway_run tr (newVhalGateway config traverse remoteOf s) = Some gw →
  let events := changeEvents ∅ (readings gw) in
  (∀ i n, nodes config !! i = Some n → ∃ f, mForwarders gw !! i = Some f ∧
     (fst <$> sentBatches f) ++ inHand (mWorker f) ++ mQueue f
     = concat (partitionValues (filterOf <$> messages n) <$> events)) ∧
  (∀ p, ofProp p (concat events) = changes None (readOf p (readings gw))) ∧
  (∀ p i v w, ofProp p (concat events) !! i = Some v → ofProp p (concat events) !! S i = Some w → differs (Some v) w = true) ∧
  (∀ p v, last (readOf p (readings gw)) = Some v →
     ∃ w, last (ofProp p (concat events)) = Some w ∧ (w = v ∨ RawPropValues_eqb (value w) (value v) = true)).
Proof.
  intros Hr events. destruct (gateway_run_inv config tr _ _ (new_gateway_inv config traverse remoteOf s) Hr) as [Hf _].
  assert (Hc : ∀ p, ofProp p (concat events) = changes None (readOf p (readings gw))).
  { intros p. unfold events. by rewrite changeEvents_prop, lookup_empty. }
  split; [|split; [exact Hc|split]].
  - intros i n Hn. destruct (Forall2_lookup_l _ _ _ _ _ Hf Hn) as (f & Hfi & _ & trf & Hi & Hb). exists f. split; [done|].
    transitivity (raisedBatches (filterOf <$> messages n) trf); [apply (fi_batches _ _ _ Hi)|exact Hb].
  - intros p i v w. rewrite Hc. apply changes_differ.
  - intros p v Hl. rewrite Hc. destruct (lastChange_tracks _ v Hl None) as (w & Hw & Heq). exists w. split; [|done].
    rewrite lastChange_last in Hw. by destruct (last (changes None (readOf p (readings gw)))) as [x|]; [injection Hw as ->|].
Qed.
End gateway.
Arguments VhalGateway : clear implicits.

(** ** The remote node's hardware *)

Section remote.
  Context {HS : Type} `{!Hardware HS} `{!ValueHardware HS} `{!DumpHardware HS}.
  Context (later_set : list SetValueRequest → HS → list (list SetValueResult)).
  Context (later_get : list GetValueRequest → HS → list (list GetValueResult)).
  Context (written : nat → bool).
#[local] Instance remote_server : VehicleServer HS := GrpcVehicleProxyServer later_set later_get written.

(** The requests of a batch as the hardware sees them. *)
Definition hardwareRequests (batch : ForwardBatch) : list SetValueRequest :=
  imap (λ i v, mkSetValueRequest (Z.of_nat i) v) (fb_values batch).

Lemma imap_arrive (k : nat → nat) l : Forall (λ v, bytes_ok (value v)) l →
  toSetRequest <$> imap (λ i v, mkpRequest (Z.of_nat (k i)) (Some (aidlToProto v freshProto))) l
  = imap (λ i v, mkSetValueRequest (Z.of_nat (k i)) v) l.
Proof.
  intros Hl. revert k. induction Hl as [|v l Hv Hl IH]; intros k; [done|]. rewrite !imap_cons, fmap_cons. f_equal.
  - unfold toSetRequest. cbn [q_request_id q_value default]. f_equal. exact (value_arrives v Hv).
  - apply (IH (λ i, k (S i))).
Qed.

Lemma batch_arrives batch : Forall (λ v, bytes_ok (value v)) (fb_values batch) →
  toSetRequest <$> batchRequest batch = hardwareRequests batch.
Proof. apply (imap_arrive (λ i, i)). Qed.

(** A batch the worker sends is one call to the hardware behind the remote
    server, with exactly its values in order and their positions as request
    ids; the hardware's state is what that call makes it, and the status tells
    whether it accepted the call and answered every request in time. *)
Theorem batch_reaches_hardware (f : NodeForwarder HS) batch :
  mWorker f = Sending batch → Forall (λ v, bytes_ok (value v)) (fb_values batch) →
  let '(h', status, calls) := hw_setValues (hardwareRequests batch) (remote f) in
  let received := calls ++ later_set (hardwareRequests batch) h' in
  ∃ f' st, worker_step f = Some f' ∧ remote f' = h' ∧ sentBatches f' = sentBatches f ++ [(batch, st)] ∧
    (st = GrpcOk ↔ status = OK ∧ received ≠ [] ∧
       ∀ i, (i < length (fb_values batch))%nat → Z.of_nat i ∈ (sr_requestId <$> concat received)).
Proof.
  intros Hw Hb. pose proof (batch_arrives batch Hb) as Ha. unfold worker_step. rewrite Hw.
  cbn [rpc_SetValues remote_server GrpcVehicleProxyServer]. unfold SetValues. rewrite Ha.
  destruct (hw_setValues (hardwareRequests batch) (remote f)) as [[h' status] calls]. cbv zeta.
  set (received := calls ++ _). set (ids := q_request_id <$> batchRequest batch).
  assert (Hids : ∀ i, i ∈ ids ↔ ∃ k, (k < length (fb_values batch))%nat ∧ i = Z.of_nat k).
  { intros i. unfold ids, batchRequest. rewrite list_elem_of_fmap. split.
    - intros (q & -> & (k & v & -> & Hk)%elem_of_lookup_imap_1). exists k. split; [by eapply lookup_lt_Some|done].
    - intros (k & Hk & ->). destruct (lookup_lt_is_Some_2 _ _ Hk) as [v Hv].
      exists (mkpRequest (Z.of_nat k) (Some (aidlToProto v freshProto))). split; [done|].
      apply (elem_of_lookup_imap_2 (λ i v, mkpRequest (Z.of_nat i) (Some (aidlToProto v freshProto)))). by exact Hv. }
  destruct (awaitResults_spec sr_requestId setResultToProto ids received) as [_ Hc]. cbv zeta in Hc.
  set (p := awaitResults _ _ ids received) in *. clearbody p. destruct (decide (status ≠ OK)) as [Hst|Hst].
  { eexists _, _. split; [done|]. split; [done|]. split; [done|]. split; [done|]. by intros [? _]. }
  apply dec_stable in Hst. subst status. destruct (complete p) eqn:E; cbn [negb]; eexists _, _; (split; [done|]; split; [done|]; split; [done|]).
  - split; [|done]. intros _. destruct (proj1 Hc eq_refl) as [Hne Hall]. split_and!; [done|done|].
    intros k Hk. apply Hall, Hids. by exists k.
  - split; [done|]. intros (_ & Hne & Hall). assert (Ht : false = true); [|done].
    apply Hc. split; [done|]. intros i (k & Hk & ->)%Hids. by apply Hall.
Qed.
End remote.

(** ** Examples *)

(** A local server with one value for each request. *)
#[local] Instance table_server : VehicleServer VehiclePropValue := {|
  rpc_GetAllPropertyConfig s := ([], GrpcOk);
  rpc_SetValues rs s := (s, GrpcOk, []);
  rpc_GetValues rs s := (s, GrpcOk, (λ r, mkpGetResult (q_request_id r) OK (Some (aidlToProto s freshProto))) <$> rs);
  rpc_UpdateSampleRate p a r s := (s, GrpcOk, OK);
  rpc_Subscribe o s := (s, GrpcOk, OK);
  rpc_Unsubscribe p a s := (s, GrpcOk, OK);
  rpc_CheckHealth s := (s, GrpcOk, OK);
  rpc_Dump o s := (s, GrpcOk, mkDumpResult false EmptyString false);
  rpc_GetMinMaxSupportedValues ids s := (s, GrpcOk, []);
  rpc_GetSupportedValuesLists ids s := (s, GrpcOk, []) |}.

Definition example_gateway (up : bool) : VhalGateway VehiclePropValue LogServer :=
  newVhalGateway (mkGatewayConfig "1.0" [example_node]) elements (λ _, mkLog up []) (gearAt 1 4).

(** Park is read twice, then reverse. *)
Definition example_trace : list (GatewayEvent (SL := VehiclePropValue) (SR := LogServer)) :=
  [GPoll 1; GWorker 0; GWorker 0; GPoll 1; GLocal newGrpc (gearAt 2 8); GPoll 1; GWorker 0].

Lemma gateway_forwards_changes_witness : ∃ gw f, gateway_run Z.of_nat example_trace (example_gateway true) = Some gw ∧
  mForwarders gw !! 0%nat = Some f ∧
  (fst <$> sentBatches f) ++ inHand (mWorker f) ++ mQueue f
    = [mkForwardBatch "ivi-basic" [gearAt 0 4]; mkForwardBatch "ivi-basic" [gearAt 0 8]].
Proof.
  destruct (gateway_run Z.of_nat example_trace (example_gateway true)) as [gw|] eqn:E; [|vm_compute in E; discriminate E].
  destruct (gateway_forwards_changes Z.of_nat _ _ _ _ example_trace gw E) as (Hf & _).
  destruct (Hf 0%nat example_node eq_refl) as (f & Hl & Hb). exists gw, f. split; [reflexivity|]. split; [exact Hl|].
  rewrite Hb. vm_compute in E. injection E as <-. vm_compute. reflexivity.
Defined.

(** A change that could not be sent is lost: the remote is up again, the value
    is polled again, but it is not forwarded. *)
Example failed_change_is_lost : ∃ gw f,
  gateway_run Z.of_nat [GPoll 1; GWorker 0; GWorker 0; GRemote 0 (mkLog true []); GPoll 1; GPoll 1] (example_gateway false) = Some gw ∧
  mForwarders gw !! 0%nat = Some f ∧ mQueue f = [] ∧ inHand (mWorker f) = [] ∧ log_requests (remote f) = [] ∧
  snd <$> sentBatches f = [GrpcError INTERNAL].
Proof. eexists _, _. split; [vm_compute; reflexivity|]. by vm_compute. Qed.

Lemma batch_reaches_hardware_witness :
  let batch := mkForwardBatch "ivi-basic" [gearAt 7 4] in
  let f := mkNodeForwarder (filterOf <$> messages example_node) (allPropIds example_node) [] true (Sending batch) (mkEcho 0 []) [] in
  ∃ f' st, worker_step (VehicleServer0 := GrpcVehicleProxyServer (λ _ _, []) (λ _ _, []) (λ _, true)) f = Some f' ∧
    remote f' = (hw_setValues (hardwareRequests batch) (mkEcho 0 [])).1.1 ∧ sentBatches f' = [(batch, st)].
Proof.
  intros batch f. assert (Hb : Forall (λ v, bytes_ok (value v)) (fb_values batch)) by (repeat constructor).
  pose proof (batch_reaches_hardware (λ _ _, []) (λ _ _, []) (λ _, true) f batch eq_refl Hb) as H.
  destruct (hw_setValues (hardwareRequests batch) (remote f)) as [[h' status] calls] eqn:E.
  destruct H as (f' & st & Hs & Hr & Hsent & _). exists f', st. split; [exact Hs|]. split; [|exact Hsent].
  rewrite Hr. cbn [remote f] in E. rewrite E. reflexivity.
Defined.
